(* ===== verification/_CoqProject ===== *)
-Q . S2P
Prelude.v
Triple.v
Params.v
Disk.v
BufSpec.v
Bio.v
Log.v
LogCrash.v
LogOps.v
LogRace.v
CString.v
Fs.v
FsTx.v
FsAlloc.v
FsInode.v
FsFile.v
FsDir.v
Mkfs.v
MkfsProps.v
MkfsRead.v
Mmu.v
Kalloc.v
Vm.v
VmPt.v
VmUser.v
VmFree.v
VmCopy.v
VmProps.v
Pipe.v
Spinlock.v
Ptable.v
Sched.v
Asm.v
AsmProps.v
Debug.v
Swtch.v
SwtchInv.v
SwtchStep.v
SwtchProps.v
Sh.v
Kern.v
File.v
Proc.v
Args.v
Sysproc.v
Sysfile.v
Exec.v
ExecProps.v
ExecLoad.v
Trap.v
Seg.v
Fdinv.v
Grep.v
ShPrint.v
Printf.v
Ports.v
Intr.v
IntrProps.v
LapicProps.v
Ide.v
Entry.v
EntryProps.v
Smp.v
Boot.v
IdeProps.v
Mp.v
Console.v
Start.v
Kbd.v
Umalloc.v
User.v
UserProgs.v
UserProps.v
Usertests.v
Usys.v
UsertestsProps.v
ShRun.v
ShWire.v
ShMain.v
