(* ===== verification/Prelude.v ===== *)
(** * nunix: a verification development for the xv6-derived kernel

    The program is a small Unix kernel for x86 with its user programs.  This
    library translates it into executable Rocq definitions and proves
    theorems about them.  File names below are those of src/.

    ** How the code is represented

    An operation on a state [S] is a function [M S A] (this file): it returns,
    goes to sleep on a channel, or fails, by a panic, by behaviour C leaves
    undefined, or because a loop bound was reached ([FFuel]).  Integers are [Z]
    with the wrap of their C width written out.  Pointers into the arrays of the
    kernel are indices; physical memory, page tables and the free list are in one
    flat memory of bytes.  Code that runs under one spin lock is one step; where
    interleaving matters the steps of several processors or processes are put in
    any order by a step relation.

    ** Parts, and where they are

    - Shared: Prelude.v (integers, outcomes, lists, words), Triple.v (a small
      program logic), Params.v (param.h and the flag words).
    - Disk: Disk.v (buf.h, the class [DiskDriver], memide.c), Ports.v (port
      instructions), Ide.v and IdeProps.v (ide.c).
    - Buffer cache: BufSpec.v (the class [BufferCache]), Bio.v (bio.c).
    - Log: Log.v, LogCrash.v, LogOps.v (log.c), over [BufferCache]; LogRace.v (the
      calls of several processes, with log_write taken apart into its accesses).
    - File system: Fs.v (definitions of fs.c over the log), FsTx.v (reasoning in
      a transaction), FsAlloc.v, FsInode.v, FsFile.v, FsDir.v; Mkfs.v, MkfsProps.v
      and MkfsRead.v (mkfs.c, and the kernel on its image).
    - Memory: Mmu.v (mmu.h, memlayout.h), Kalloc.v (kalloc.c), Vm.v (definitions
      of vm.c), VmPt.v, VmUser.v, VmFree.v, VmCopy.v, VmProps.v.
    - Concurrency: Spinlock.v (spinlock.c), Pipe.v (pipe.c), Ptable.v and Sched.v
      (the locked sections of proc.c and their interleavings), Swtch.v, SwtchInv.v,
      SwtchStep.v and SwtchProps.v (the kernel's threads: locks, sched, swtch, sleep,
      wakeup and the scheduler as instructions run by several processors).
    - The processor: Asm.v and AsmProps.v (swtch.S, trapasm.S, vectors.pl), Seg.v
      (segments and gates of mmu.h, vm.c and trap.c, entrypgdir), Debug.v
      (getcallerpcs, procdump).
    - Start-up: Boot.v (bootmain.c), Entry.v and EntryProps.v (bootasm.S, entry.S,
      entryother.S), Mp.v (mp.c), Smp.v (startothers of main.c), Start.v (the
      initialisation of devices in main.c).
    - System calls: Kern.v (the kernel state put together), File.v (file.c,
      pipealloc), Proc.v (proc.c), Args.v and Trap.v (syscall.c, trap.c),
      Sysproc.v, Sysfile.v, Exec.v, ExecProps.v and ExecLoad.v (exec.c, loaduvm,
      sys_exec), Fdinv.v (reference counts over all calls).
    - Devices: Console.v (console.c, uart.c), Kbd.v (kbd.c, kbd.h), Intr.v,
      IntrProps.v and LapicProps.v (picirq.c, timer.c, ioapic.c, lapic.c).  A device
      is a class: what can be observed of it and the laws of its data sheet.
    - Library and user programs: CString.v (string.c, ulib.c), Printf.v
      (printf.c, cprintf), Umalloc.v (umalloc.c), Sh.v and ShPrint.v (the parser of
      sh.c), Grep.v (grep.c).  User.v makes programs interaction trees over the
      system calls, with a specification of the calls as programs see them;
      UserProgs.v and UserProps.v are the small programs, ShRun.v, ShWire.v and
      ShMain.v the rest of sh.c, Usertests.v and UsertestsProps.v the tests of
      usertests.c.
    - Both sides together: Usys.v (usys.S: the way of a call from a program into the
      dispatcher and back).

    ** What the theorems show

    - Crash safety: a commit is atomic under a power cut after any of its sector
      writes, recovery can itself be interrupted, end_op is durable, and the
      reservations of begin_op suffice for a log with LOGSIZE data blocks, as long
      as no two increments of the count in the header overlap.
    - Refinement: bio.c implements [BufferCache] on any [DiskDriver]; ide.c
      implements a FIFO queue of requests on any [AtaController] whose commands
      succeed, and completes every request; the console ring implements lines;
      the keyboard handler types what the history of key presses says; a pipe is a
      bounded FIFO.
    - File system: writei and readi, iupdate and ilock, dirlink and dirlookup are
      round trips; balloc takes the lowest free block; iget has one entry per
      inode; paths are enumerated.
    - Memory: kalloc and malloc hand out what nobody owns; mappages, allocuvm,
      copyuvm, copyout and freevm are exact in terms of the translation the
      processor does.
    - Processes: invariants of the process table, mutual exclusion, no lost
      zombies, no deadlock on a pipe without kills, reference counts.
    - Threads: the instructions of the processors refine the locked sections, no
      wakeup is lost, and a zombie is reaped only when nobody is on its stack.
    - exec, run from begin_op to freevm, gives the process the image its ELF file
      describes with the stack main expects, and frees the old image.
    - The processor: a trap gives back every register, swtch resumes what it saved,
      and the gates and segments in memory mean what the kernel needs.
    - Start-up: the boot loader has the kernel in memory, every processor enters on a
      stack of its own, mpinit reads the tables, and the interrupt controllers route
      exactly the lines that were enabled.
    - User programs: a shell session ends, every process of a pipeline has the right
      open files, cat and wc write what they should, a name on an image made by mkfs
      is found with its contents; what a program passes to a call is what the handler
      fetches; linktest and exitwait of usertests.c accept every kernel that behaves
      as specified.
    - Parsers and printers: the shell's parser ends and reads back what is
      printed, grep's matcher decides its pattern language, atoi reads what
      printf prints, memmove is right for every overlap.

    Some theorems show a defect: a failed disk transfer reported as done
    ([ide_error_lost]), a log one block too small ([mkfs_log_overflow]), blocks lost
    from a transaction and a panic by the accesses of log_write, which takes no lock
    ([log_write_race], [lost_increment_panics]), and others named where they are
    proved.

    ** Limits of the statements

    The theorems of Fdinv.v are of the form "if the call returns"; they do not
    exclude a panic.  The file system theorems are about one process inside a
    transaction whose buffers and inodes no other process holds; the theorem on
    writei needs six log entries per block, so that it covers about four blocks per
    call.  The theorem on exec is about a path that leads to a well-formed ELF file
    and about enough free memory; of its error exits the one for a file that is no
    ELF file has a theorem ([exec_refuses]).  A system call that sleeps is
    followed up to the sleep.  The specification of the calls in User.v is not
    proved of the kernel, and the theorems on the shell and the tests are about
    every behaviour it allows.  The threads of Swtch.v call the routines of proc.c
    as [call_ok] says.  kinit1 and kinit2 are run one after the other.  malloc is
    followed for requests up to [MAXREQ].  ide.c
    is verified for itself: it is not an instance of [DiskDriver], since that
    class asks nothing of the length of a buffer's data and the port transfer
    needs 512 bytes.

    ** Loop bounds

    Recursion is structural where the loop counts.  Otherwise the bound is
    computed from the input: pages of a range (vm.c, kalloc.c), bytes or entries
    of a file (fs.c, sysfile.c), one more than the nodes of a list (bio.c,
    ide.c), headers that fit in the heap (umalloc.c), four levels per character
    (sh.c).  The theorems that say an operation returns prove that the bound is
    not reached.  The polling loop of ide.c has no bound in the code; its theorems
    hold for any number of polls above the controller's [ata_bound].  kbdintr takes
    one more step than there are bytes in the controller.

    ** Not modelled

    - sbrktest, validatetest and mem of usertests.c, which work on addresses of the
      process's memory (it is not part of the state of a program in User.v).
    - The sequence of initialisations in main, mpenter and mpmain beyond the devices,
      kvmalloc, and the call of initlog in forkret.
    - main of grep.c, initcode.S, stressfs.c and tracetest.c: short sequences of
      system calls that establish nothing of their own.
    - kernel.ld, defs.h and types.h: declarations. *)

From stdpp Require Export prelude list gmap strings fin_maps.
From Stdlib Require Export ZArith Lia ZifyBool.

#[global] Open Scope Z_scope.

(** [lia] after unfolding [/] and [mod] into their Euclidean equations. *)
Ltac dlia := Z.to_euclidean_division_equations; lia.

(** ** Machine integers

    C's [uint], [ushort] and [uchar] are [Z] values kept in range by an explicit
    wrap; [int] is read through the two's-complement view [i32]. *)

Definition u8 (z : Z) : Z := z mod 256.
Definition u16 (z : Z) : Z := z mod 65536.
Definition u32 (z : Z) : Z := z mod 4294967296.
Definition i32 (z : Z) : Z := (z + 2147483648) mod 4294967296 - 2147483648.
Definition i16 (z : Z) : Z := (z + 32768) mod 65536 - 32768.

Definition is_u32 (z : Z) : Prop := 0 <= z < 4294967296.
Definition is_byte (z : Z) : Prop := 0 <= z < 256.

Lemma u32_range z : is_u32 (u32 z).
Proof. unfold is_u32, u32. dlia. Qed.

Lemma u32_small z : is_u32 z -> u32 z = z.
Proof. unfold is_u32, u32. intros. apply Z.mod_small. lia. Qed.

Lemma u32_idemp z : u32 (u32 z) = u32 z.
Proof. apply u32_small, u32_range. Qed.

Lemma u32_add_l a b : u32 (u32 a + b) = u32 (a + b).
Proof. unfold u32. apply Zplus_mod_idemp_l. Qed.

Lemma u32_add_r a b : u32 (a + u32 b) = u32 (a + b).
Proof. unfold u32. apply Zplus_mod_idemp_r. Qed.

Lemma u32_sub_l a b : u32 (u32 a - b) = u32 (a - b).
Proof. unfold u32. apply Zminus_mod_idemp_l. Qed.

Lemma u32_sub_r a b : u32 (a - u32 b) = u32 (a - b).
Proof. unfold u32. apply Zminus_mod_idemp_r. Qed.

Lemma i32_small z : -2147483648 <= z < 2147483648 -> i32 z = z.
Proof. intros. unfold i32. rewrite Z.mod_small; lia. Qed.

Lemma i32_u32 z : -2147483648 <= z < 2147483648 -> i32 (u32 z) = z.
Proof.
  intros. unfold i32, u32. rewrite Zplus_mod_idemp_l.
  rewrite Z.mod_small; lia.
Qed.

(** Two bit fields side by side. *)
Lemma lor_shiftl a b k : 0 <= k -> 0 <= b < 2 ^ k -> Z.lor (Z.shiftl a k) b = a * 2 ^ k + b.
Proof.
  intros Hk Hb. rewrite <- Z.lxor_lor, <- Z.add_nocarry_lxor, Z.shiftl_mul_pow2; auto;
    (apply Z.bits_inj'; intros n Hn; rewrite Z.land_spec, Z.shiftl_spec, Z.bits_0 by lia;
     destruct (Z.ltb_spec n k);
     [rewrite Z.testbit_neg_r by lia; done
     |rewrite <- (Z.mod_small b (2 ^ k)) by lia; rewrite Z.mod_pow2_bits_high by lia; apply andb_false_r]).
Qed.

(** ** Outcomes

    Kernel code either returns, goes to sleep on a channel with its state left
    as it is (the process is to be resumed there by [wakeup]), panics, or
    leaves the behaviour the C standard defines.  [FFuel] marks a loop whose
    iteration bound was used up; the components prove that it does not occur. *)

Inductive chan : Type :=
| ChBuf (i : nat)
| ChInode (i : nat)
| ChLog
| ChNread (p : Z)
| ChNwrite (p : Z)
| ChTicks
| ChInput
| ChProc (i : nat).

#[export] Instance chan_eq_dec : EqDecision chan.
Proof. solve_decision. Defined.

Inductive fault : Type :=
| FPanic (msg : string)
| FUndef (why : string)
| FFuel.

Inductive outcome (S A : Type) : Type :=
| Ret (a : A) (s : S)
| Sleep (c : chan) (s : S)
| Fail (f : fault).
Arguments Ret {S A} a s.
Arguments Sleep {S A} c s.
Arguments Fail {S A} f.

Definition M (S A : Type) : Type := S -> outcome S A.

Definition ret {S A} (a : A) : M S A := fun s => Ret a s.

Definition bind {S A B} (m : M S A) (k : A -> M S B) : M S B :=
  fun s => match m s with
           | Ret a s' => k a s'
           | Sleep c s' => Sleep c s'
           | Fail f => Fail f
           end.

Definition panic {S A} (msg : string) : M S A := fun _ => Fail (FPanic msg).
Definition undef {S A} (why : string) : M S A := fun _ => Fail (FUndef why).
Definition sleep_on {S A} (c : chan) : M S A := fun s => Sleep c s.
Definition out_of_fuel {S A} : M S A := fun _ => Fail FFuel.
Definition get {S A} (f : S -> A) : M S A := fun s => Ret (f s) s.
Definition modify {S} (f : S -> S) : M S unit := fun s => Ret tt (f s).

(** Run a computation on a part of the state. *)
Definition zoom {S T A} (prj : S -> T) (put : T -> S -> S) (m : M T A) : M S A :=
  fun s => match m (prj s) with
           | Ret a t => Ret a (put t s)
           | Sleep c t => Sleep c (put t s)
           | Fail f => Fail f
           end.

Declare Scope kernel_scope.
Delimit Scope kernel_scope with K.
Notation "'let!' x := m 'in' k" := (bind m (fun x => k))
  (at level 200, x pattern, m at level 100, k at level 200, right associativity) : kernel_scope.
Notation "m ;; k" := (bind m (fun _ => k))
  (at level 100, right associativity) : kernel_scope.
#[global] Open Scope kernel_scope.

Lemma bind_run {S A B} (m : M S A) (k : A -> M S B) s a s' :
  m s = Ret a s' -> bind m k s = k a s'.
Proof. unfold bind. intros ->. reflexivity. Qed.

Lemma bind_bind {S A B C} (m : M S A) (f : A -> M S B) (g : B -> M S C) s :
  bind (bind m f) g s = bind m (fun x => bind (f x) g) s.
Proof. unfold bind. by destruct (m s). Qed.

Lemma bind_fail {S A B} (m : M S A) (k : A -> M S B) s f :
  m s = Fail f -> bind m k s = Fail f.
Proof. unfold bind. intros ->. reflexivity. Qed.

Lemma bind_Ret_inv {S A B} (m : M S A) (k : A -> M S B) s b s'' :
  bind m k s = Ret b s'' -> exists a s', m s = Ret a s' /\ k a s' = Ret b s''.
Proof. unfold bind. destruct (m s); naive_solver. Qed.

Lemma zoom_run {S T A} (prj : S -> T) put (m : M T A) s a t :
  m (prj s) = Ret a t -> zoom prj put m s = Ret a (put t s).
Proof. unfold zoom. intros ->. reflexivity. Qed.

(** Step through a monadic computation: unfold the combinators and take the
    equations of the context for the calls. *)
Ltac mstep :=
  match goal with
  | H : ?m ?s = Ret ?a ?s' |- context [bind ?m _ ?s] => rewrite (bind_run _ _ _ _ _ H)
  | H : ?m ?s = Fail ?f |- context [bind ?m _ ?s] => rewrite (bind_fail _ _ _ _ H)
  end.
Ltac minv :=
  repeat match goal with
  | H : bind _ _ _ = Ret _ _ |- _ =>
      let a := fresh "a" in let s := fresh "s" in let H1 := fresh "Hm" in
      apply bind_Ret_inv in H as (a & s & H1 & H)
  | H : ret _ _ = Ret _ _ |- _ => unfold ret in H; simplify_eq
  | H : get _ _ = Ret _ _ |- _ => unfold get in H; simplify_eq
  | H : modify _ _ = Ret _ _ |- _ => unfold modify in H; simplify_eq
  end.
(** Run the next call of a computation by an equation for it. *)
Ltac run E := rewrite (bind_run _ _ _ _ _ E); cbv beta.
Ltac mcbn := cbn [bind ret get modify panic undef sleep_on out_of_fuel zoom].

(** ** Disjoint bits *)

Lemma bits_small x n i : 0 <= n <= i -> 0 <= x < 2 ^ n -> Z.testbit x i = false.
Proof.
  intros Hn Hx. rewrite <-(Z.mod_small x (2 ^ n)) by lia. apply Z.mod_pow2_bits_high. lia.
Qed.

Lemma land_low a x n : 0 <= n -> 0 <= x < 2 ^ n -> Z.land (a * 2 ^ n) x = 0.
Proof.
  intros Hn Hx. apply Z.bits_inj'. intros i Hi. rewrite Z.land_spec, Z.bits_0. destruct (decide (i < n)).
  - by rewrite Z.mul_pow2_bits_low by lia.
  - rewrite (bits_small x n i) by lia. apply andb_false_r.
Qed.

Lemma lor_top a x n : 0 <= n -> 0 <= x < 2 ^ n -> Z.lor (a * 2 ^ n) x = a * 2 ^ n + x.
Proof. intros Hn Hx. assert (Hl := land_low a x n Hn Hx). rewrite Z.add_nocarry_lxor by done. by rewrite Z.lxor_lor by done. Qed.

(** ** Lists addressed by C offsets *)

Definition zlen {A} (l : list A) : Z := Z.of_nat (length l).
Definition zget (l : list Z) (i : Z) : Z := nth (Z.to_nat i) l 0.
Definition zset {A} (l : list A) (i : Z) (v : A) : list A := <[Z.to_nat i := v]> l.

(** [slice off n l]: the [n] elements of [l] from [off]; [splice off d l]: the
    elements from [off] replaced by [d] (a [memmove] into the middle). *)
Definition slice {A} (off n : Z) (l : list A) : list A :=
  take (Z.to_nat n) (drop (Z.to_nat off) l).
Definition splice {A} (off : Z) (d l : list A) : list A :=
  take (Z.to_nat off) l ++ d ++ drop (Z.to_nat off + length d) l.

Section lists.
Context {A : Type}.
Implicit Types l d : list A.

Lemma zlen_nonneg l : 0 <= zlen l.
Proof. unfold zlen. lia. Qed.

Lemma zlen_app l d : zlen (l ++ d) = zlen l + zlen d.
Proof. unfold zlen. rewrite length_app. lia. Qed.

Lemma length_slice off n l :
  0 <= off -> 0 <= n -> off + n <= zlen l -> zlen (slice off n l) = n.
Proof. unfold zlen, slice. intros. rewrite length_take, length_drop. lia. Qed.

Lemma length_splice off d l :
  0 <= off -> off + zlen d <= zlen l -> zlen (splice off d l) = zlen l.
Proof.
  unfold zlen, splice. intros. rewrite !length_app, length_take, length_drop. lia.
Qed.

Lemma lookup_slice off n l (i : nat) :
  (i < Z.to_nat n)%nat -> slice off n l !! i = l !! (Z.to_nat off + i)%nat.
Proof.
  intros. unfold slice. rewrite lookup_take_lt by lia. apply lookup_drop.
Qed.

Lemma lookup_splice off d l (i : nat) :
  0 <= off -> off + zlen d <= zlen l ->
  splice off d l !! i =
    if decide (Z.to_nat off <= i < Z.to_nat off + length d)%nat
    then d !! (i - Z.to_nat off)%nat else l !! i.
Proof.
  unfold zlen, splice. intros Ho Hl.
  assert (Ht : length (take (Z.to_nat off) l) = Z.to_nat off) by (rewrite length_take; lia).
  case_decide.
  - rewrite lookup_app_r by lia. rewrite Ht. rewrite lookup_app_l by lia. done.
  - destruct (decide (i < Z.to_nat off)%nat).
    + rewrite lookup_app_l by lia. rewrite lookup_take_lt by lia. done.
    + rewrite lookup_app_r by lia. rewrite Ht.
      rewrite lookup_app_r by lia. rewrite lookup_drop. f_equal. lia.
Qed.

Lemma slice_splice_same off n d l :
  0 <= off -> n = zlen d -> off + zlen d <= zlen l -> slice off n (splice off d l) = d.
Proof.
  intros Ho -> Hl. apply list_eq. intros i.
  destruct (decide (i < length d)%nat) as [Hi|Hi].
  - rewrite lookup_slice by (unfold zlen; lia). rewrite lookup_splice by done.
    rewrite decide_True by lia. f_equal. lia.
  - rewrite !lookup_ge_None_2; [done|lia|].
    unfold slice, zlen in *. rewrite length_take. lia.
Qed.

Lemma slice_splice_other off n off' d l :
  0 <= off -> 0 <= off' -> off' + zlen d <= zlen l ->
  off + n <= off' \/ off' + zlen d <= off ->
  slice off n (splice off' d l) = slice off n l.
Proof.
  intros Ho Ho' Hl Hd. apply list_eq. intros i.
  destruct (decide (i < Z.to_nat n)%nat) as [Hi|Hi].
  - rewrite !lookup_slice by done. rewrite lookup_splice by done.
    unfold zlen in *. rewrite decide_False by lia. done.
  - rewrite !lookup_ge_None_2; [done| |]; unfold slice; rewrite length_take; lia.
Qed.

Lemma splice_slice off n l :
  0 <= off -> 0 <= n -> off + n <= zlen l -> splice off (slice off n l) l = l.
Proof.
  intros. apply list_eq. intros i.
  pose proof (length_slice off n l ltac:(done) ltac:(done) ltac:(done)) as Hn.
  rewrite lookup_splice by lia. case_decide as Hi; [|done].
  unfold zlen in Hn. rewrite lookup_slice by lia. f_equal. lia.
Qed.

Lemma splice_all d l : zlen d = zlen l -> splice 0 d l = d.
Proof.
  unfold zlen, splice. intros. cbn. rewrite drop_ge by lia. apply app_nil_r.
Qed.
End lists.

Lemma zlen_zset {A} (l : list A) i v : zlen (zset l i v) = zlen l.
Proof. unfold zlen, zset. by rewrite length_insert. Qed.

Lemma zget_zset_eq l i v : 0 <= i < zlen l -> zget (zset l i v) i = v.
Proof.
  unfold zlen, zget, zset. intros. apply nth_lookup_Some, list_lookup_insert_eq. lia.
Qed.

Lemma zget_zset_ne l i j v : 0 <= i -> 0 <= j -> i <> j -> zget (zset l i v) j = zget l j.
Proof.
  unfold zget, zset. intros. rewrite !nth_lookup. rewrite list_lookup_insert_ne by lia. done.
Qed.

Lemma list_alter_insert {A} (g : A -> A) (l : list A) k x :
  l !! k = Some x -> alter g k l = <[k := g x]> l.
Proof.
  intros Hx. apply list_eq. intros j. destruct (decide (k = j)) as [<-|].
  - rewrite list_lookup_alter_eq, Hx, list_lookup_insert_eq by (by eapply lookup_lt_Some). done.
  - by rewrite list_lookup_alter_ne, list_lookup_insert_ne.
Qed.

(** A check over the first numbers, done by evaluation. *)
Lemma forallb_seq (P : nat -> bool) n :
  forallb P (seq 0 n) = true -> forall i, (i < n)%nat -> P i = true.
Proof. rewrite forallb_forall. intros H i Hi. apply H, in_seq. lia. Qed.

(** ** Little-endian words *)

Fixpoint le_bytes (n : nat) (z : Z) : list Z :=
  match n with
  | O => []
  | S n => z mod 256 :: le_bytes n (z / 256)
  end.

Fixpoint le_value (l : list Z) : Z :=
  match l with
  | [] => 0
  | b :: l => b + 256 * le_value l
  end.

Lemma length_le_bytes n z : length (le_bytes n z) = n.
Proof. revert z. induction n as [|n IH]; intros z; cbn; [done|by rewrite IH]. Qed.

Lemma le_bytes_byte n z : Forall is_byte (le_bytes n z).
Proof.
  revert z. induction n as [|n IH]; intros z; cbn; constructor; [|apply IH].
  unfold is_byte. dlia.
Qed.

Lemma le_value_bytes n z : 0 <= z < 256 ^ Z.of_nat n -> le_value (le_bytes n z) = z.
Proof.
  revert z. induction n as [|n IH]; intros z Hz; cbn [le_bytes le_value].
  - cbn in Hz. lia.
  - rewrite Nat2Z.inj_succ, Z.pow_succ_r in Hz by lia.
    rewrite IH; [dlia|]. split; [apply Z.div_pos; lia|].
    apply Z.div_lt_upper_bound; lia.
Qed.

Lemma le_value_range l :
  Forall is_byte l -> 0 <= le_value l < 256 ^ zlen l.
Proof.
  unfold zlen. induction 1 as [|b l Hb _ IH]; cbn [le_value length].
  - cbn. lia.
  - rewrite Nat2Z.inj_succ, Z.pow_succ_r by lia. unfold is_byte in Hb. lia.
Qed.

Lemma le_bytes_value l : Forall is_byte l -> le_bytes (length l) (le_value l) = l.
Proof.
  induction 1 as [|b l Hb _ IH]; cbn [length le_bytes le_value]; [done|].
  unfold is_byte in Hb.
  replace ((b + 256 * le_value l) mod 256) with b by dlia.
  replace ((b + 256 * le_value l) / 256) with (le_value l) by dlia.
  by rewrite IH.
Qed.

(** The 32-bit word at byte offset [off]; a store of one. *)
Definition get32 (off : Z) (l : list Z) : Z := le_value (slice off 4 l).
Definition put32 (off : Z) (v : Z) (l : list Z) : list Z := splice off (le_bytes 4 v) l.
Definition get16 (off : Z) (l : list Z) : Z := le_value (slice off 2 l).
Definition put16 (off : Z) (v : Z) (l : list Z) : list Z := splice off (le_bytes 2 v) l.

Lemma zlen_le_bytes n z : zlen (le_bytes n z) = Z.of_nat n.
Proof. unfold zlen. by rewrite length_le_bytes. Qed.

Lemma zlen_put32 off v l : 0 <= off -> off + 4 <= zlen l -> zlen (put32 off v l) = zlen l.
Proof. intros. apply length_splice; rewrite ?zlen_le_bytes; lia. Qed.

Lemma get32_put32_eq off v l :
  0 <= off -> off + 4 <= zlen l -> is_u32 v -> get32 off (put32 off v l) = v.
Proof.
  intros. unfold get32, put32. rewrite slice_splice_same; rewrite ?zlen_le_bytes; try lia.
  by apply le_value_bytes.
Qed.

Lemma get32_put32_ne off off' v l :
  0 <= off -> 0 <= off' -> off' + 4 <= zlen l -> off + 4 <= off' \/ off' + 4 <= off ->
  get32 off (put32 off' v l) = get32 off l.
Proof.
  intros. unfold get32, put32. rewrite slice_splice_other; rewrite ?zlen_le_bytes; lia.
Qed.

Lemma zlen_put16 off v l : 0 <= off -> off + 2 <= zlen l -> zlen (put16 off v l) = zlen l.
Proof. intros. apply length_splice; rewrite ?zlen_le_bytes; lia. Qed.

Lemma get16_put16_eq off v l :
  0 <= off -> off + 2 <= zlen l -> 0 <= v < 65536 -> get16 off (put16 off v l) = v.
Proof.
  intros. unfold get16, put16. rewrite slice_splice_same; rewrite ?zlen_le_bytes; try lia.
  by apply le_value_bytes.
Qed.
