(* ===== verification/Triple.v ===== *)
(** * A small program logic for the kernel's operations

    [triple P m Q R]: started in a state with [P], the operation [m] returns in
    a state with [Q], or goes to sleep in a state with [R]; a panic is allowed.
    [keeps I m] says that [m] keeps the invariant [I].  The hint database [keeps]
    has the operations that keep the invariants of the development. *)

From S2P Require Import Prelude.

Create HintDb keeps.

Section Triple.
Context {S : Type}.
Implicit Types (P I R : S -> Prop).

Definition triple {A} P (m : M S A) (Q : A -> S -> Prop) R : Prop :=
  forall s, P s -> match m s with Ret a s' => Q a s' | Sleep _ s' => R s' | Fail _ => True end.

Definition keeps {A} I R (m : M S A) : Prop := triple I m (fun _ => I) R.

Lemma triple_conseq {A} P P' (m : M S A) (Q Q' : A -> S -> Prop) R :
  triple P m Q R -> (forall s, P' s -> P s) -> (forall a s, Q a s -> Q' a s) -> triple P' m Q' R.
Proof. intros H H1 H2 s Hs. specialize (H s (H1 s Hs)). destruct (m s); auto. Qed.

Lemma triple_pre {A} P P' (m : M S A) (Q : A -> S -> Prop) R :
  triple P m Q R -> (forall s, P' s -> P s) -> triple P' m Q R.
Proof. intros. by eapply triple_conseq. Qed.

Lemma triple_bind {A B} P (m : M S A) (k : A -> M S B) Q Q' R :
  triple P m Q R -> (forall a, triple (Q a) (k a) Q' R) -> triple P (bind m k) Q' R.
Proof.
  intros Hm Hk s Hs. specialize (Hm s Hs). unfold bind. destruct (m s) as [a s'|c s'|f]; auto. apply (Hk a s' Hm).
Qed.

Lemma triple_ret {A} P (a : A) (Q : A -> S -> Prop) R : (forall s, P s -> Q a s) -> triple P (ret a) Q R.
Proof. intros H s Hs. by apply H. Qed.

Lemma triple_modify P (f : S -> S) Q R : (forall s, P s -> Q tt (f s)) -> triple P (modify f) Q R.
Proof. intros H s Hs. by apply H. Qed.

Lemma triple_fail {A} P (m : M S A) Q R : (forall s, exists f, m s = Fail f) -> triple P m Q R.
Proof. intros H s _. by destruct (H s) as [f ->]. Qed.

Lemma triple_sleep {A} P c (Q : A -> S -> Prop) R : (forall s, P s -> R s) -> triple P (sleep_on c) Q R.
Proof. intros H s Hs. by apply H. Qed.

(** A fact about the initial state may be used before the operation runs. *)
Lemma triple_with {A} (F : Prop) P (m : M S A) Q R : (forall s, P s -> F) -> (F -> triple P m Q R) -> triple P m Q R.
Proof. intros HF H s Hs. by apply H; [eapply HF|]. Qed.

Lemma keeps_ret {A} I R (a : A) : keeps I R (ret a).
Proof. by apply triple_ret. Qed.
Lemma keeps_get {A} I R (f : S -> A) : keeps I R (get f).
Proof. intros s Hs. exact Hs. Qed.
Lemma keeps_panic {A} I R msg : keeps I R (panic (A := A) msg).
Proof. apply triple_fail. eauto. Qed.
Lemma keeps_undef {A} I R msg : keeps I R (undef (A := A) msg).
Proof. apply triple_fail. eauto. Qed.
Lemma keeps_fuel {A} I R : keeps I R (out_of_fuel (A := A)).
Proof. apply triple_fail. unfold out_of_fuel. eauto. Qed.
Lemma keeps_sleep {A} I R c : (forall s, I s -> R s) -> keeps I R (sleep_on (A := A) c).
Proof. apply triple_sleep. Qed.
Lemma keeps_bind {A B} I R (m : M S A) (k : A -> M S B) :
  keeps I R m -> (forall a, keeps I R (k a)) -> keeps I R (bind m k).
Proof. apply triple_bind. Qed.

End Triple.

#[export] Hint Resolve keeps_ret keeps_get keeps_panic keeps_undef keeps_fuel : keeps.

(** Take an operation apart down to the operations of the database. *)
Ltac keeps_step :=
  match goal with
  | |- keeps _ _ (bind _ _) => apply keeps_bind; [|intros]
  | |- keeps _ _ (match ?x with _ => _ end) => destruct x
  | |- keeps _ _ (sleep_on _) => apply keeps_sleep; auto
  | |- keeps _ _ _ => solve [auto 3 with keeps nocore]
  | |- keeps _ _ _ => progress cbv zeta
  end.
Ltac keeps := repeat keeps_step.
(** The next call of an operation by a triple for it. *)
Tactic Notation "tbind" uconstr(H) := eapply triple_bind; [apply H|cbv beta].
