(* ===== verification/Params.v ===== *)
(** * Kernel-wide constants and flag words

    The tunables of param.h, the block geometry of fs.h, the buffer flags of
    buf.h, and the bit tests and updates C code performs on a flag word. *)

From S2P Require Import Prelude.

Definition NPROC : nat := 64.
Definition KSTACKSIZE : Z := 4096.
Definition NOFILE : nat := 16.
Definition NFILE : nat := 100.
Definition NINODE : nat := 50.
Definition NDEV : Z := 10.
Definition ROOTDEV : Z := 1.
Definition MAXARG : Z := 32.
Definition MAXOPBLOCKS : Z := 10.
Definition LOGSIZE : Z := MAXOPBLOCKS * 3.
Definition NBUF : nat := 30.

Definition BSIZE : Z := 512.

Definition B_BUSY : Z := 1.
Definition B_VALID : Z := 2.
Definition B_DIRTY : Z := 4.

(** A disk block: [BSIZE] bytes. *)
Definition block : Type := list Z.
Definition zero_block : block := replicate 512 0.
Definition block_ok (d : block) : Prop := zlen d = BSIZE /\ Forall is_byte d.

(** The block at a sector of a medium whose unwritten sectors read as zero. *)
Definition blk (m : gmap Z block) (sec : Z) : block := default zero_block (m !! sec).

(** [flags & bit] as a condition, [flags |= bit] and [flags &= ~bit]. *)
Definition has (flags bit : Z) : bool := negb (Z.land flags bit =? 0).
Definition setf (flags bit : Z) : Z := Z.lor flags bit.
Definition clrf (flags bit : Z) : Z := Z.land flags (Z.lnot bit).

Lemma zero_block_ok : block_ok zero_block.
Proof.
  split; [done|]. apply Forall_replicate. unfold is_byte. lia.
Qed.

Lemma blk_insert_eq m sec d : blk (<[sec := d]> m) sec = d.
Proof. unfold blk. by rewrite lookup_insert_eq. Qed.

Lemma blk_insert_ne m sec sec' d : sec <> sec' -> blk (<[sec := d]> m) sec' = blk m sec'.
Proof. intros. unfold blk. by rewrite lookup_insert_ne. Qed.

Lemma has_setf f a b : has (setf f a) b = has f b || has a b.
Proof.
  unfold has, setf. rewrite Z.land_lor_distr_l.
  destruct (Z.land f b =? 0) eqn:E1; destruct (Z.land a b =? 0) eqn:E2; cbn;
    rewrite ?Z.eqb_eq, ?Z.eqb_neq in *.
  - rewrite E1, E2. done.
  - apply negb_true_iff, Z.eqb_neq. intros [? ?]%Z.lor_eq_0_iff. done.
  - apply negb_true_iff, Z.eqb_neq. intros [? ?]%Z.lor_eq_0_iff. done.
  - apply negb_true_iff, Z.eqb_neq. intros [? ?]%Z.lor_eq_0_iff. done.
Qed.

Lemma has_clrf_eq f a : has (clrf f a) a = false.
Proof.
  unfold has, clrf. rewrite <- Z.land_assoc, (Z.land_comm (Z.lnot a)), Z.land_lnot_diag.
  by rewrite Z.land_0_r.
Qed.

Lemma has_clrf_ne f a b : Z.land a b = 0 -> has (clrf f a) b = has f b.
Proof.
  intros Hab. unfold has, clrf. do 2 f_equal. apply Z.bits_inj'. intros n Hn.
  rewrite !Z.land_spec, Z.lnot_spec by lia.
  assert (H : Z.testbit (Z.land a b) n = false) by (by rewrite Hab, Z.testbit_0_l).
  rewrite Z.land_spec in H.
  destruct (Z.testbit f n), (Z.testbit a n), (Z.testbit b n); done.
Qed.

Lemma has_clrf_busy_valid f : has (clrf f B_BUSY) B_VALID = has f B_VALID.
Proof. by apply has_clrf_ne. Qed.
Lemma has_clrf_busy_dirty f : has (clrf f B_BUSY) B_DIRTY = has f B_DIRTY.
Proof. by apply has_clrf_ne. Qed.
Lemma has_clrf_dirty_busy f : has (clrf f B_DIRTY) B_BUSY = has f B_BUSY.
Proof. by apply has_clrf_ne. Qed.
Lemma has_clrf_dirty_valid f : has (clrf f B_DIRTY) B_VALID = has f B_VALID.
Proof. by apply has_clrf_ne. Qed.

Create HintDb flags.
#[export] Hint Rewrite has_setf has_clrf_eq has_clrf_busy_valid has_clrf_busy_dirty
  has_clrf_dirty_busy has_clrf_dirty_valid orb_true_r orb_false_r : flags.
