(* ===== verification/Disk.v ===== *)
(** * Buffers and the disk driver

    [struct buf] of buf.h, the contract a disk driver offers to the buffer
    cache, and the memory disk of memide.c, which implements it. *)

From S2P Require Import Prelude.
From S2P Require Import Params.

(** A buffer.  [b_prev] and [b_next] are indices into the cache's node array
    (see Bio.v); [b_qnext] is the driver's queue link. *)
Record buf : Type := MkBuf {
  b_flags : Z;
  b_dev : Z;
  b_sector : Z;
  b_prev : nat;
  b_next : nat;
  b_qnext : option nat;
  b_data : block
}.

Definition set_flags (f : Z) (b : buf) : buf :=
  MkBuf f (b_dev b) (b_sector b) (b_prev b) (b_next b) (b_qnext b) (b_data b).
Definition set_data (d : block) (b : buf) : buf :=
  MkBuf (b_flags b) (b_dev b) (b_sector b) (b_prev b) (b_next b) (b_qnext b) d.
Definition set_prev (p : nat) (b : buf) : buf :=
  MkBuf (b_flags b) (b_dev b) (b_sector b) p (b_next b) (b_qnext b) (b_data b).
Definition set_next (n : nat) (b : buf) : buf :=
  MkBuf (b_flags b) (b_dev b) (b_sector b) (b_prev b) n (b_qnext b) (b_data b).
Definition set_ident (dev sector f : Z) (b : buf) : buf :=
  MkBuf f dev sector (b_prev b) (b_next b) (b_qnext b) (b_data b).

Definition busy (b : buf) : bool := has (b_flags b) B_BUSY.
Definition valid (b : buf) : bool := has (b_flags b) B_VALID.
Definition dirty (b : buf) : bool := has (b_flags b) B_DIRTY.

(** What the buffer cache relies on: [iderw b] syncs [b] with the medium.  A
    dirty buffer is written and becomes clean, an invalid one is read; either
    way the buffer comes back valid.  [drv_trace] is the history of completed
    sector writes, which crash-safety arguments cut at an arbitrary point. *)
Class DiskDriver (D : Type) := {
  drv_iderw : buf -> M D buf;
  drv_blocks : D -> gmap Z block;
  drv_trace : D -> list (Z * block);
  drv_nsect : D -> Z;
  drv_write_ok : forall d b,
    busy b = true -> dirty b = true -> b_dev b = ROOTDEV ->
    0 <= b_sector b < drv_nsect d ->
    exists d',
      drv_iderw b d = Ret (set_flags (setf (clrf (b_flags b) B_DIRTY) B_VALID) b) d' /\
      drv_blocks d' = <[b_sector b := b_data b]> (drv_blocks d) /\
      drv_trace d' = drv_trace d ++ [(b_sector b, b_data b)] /\
      drv_nsect d' = drv_nsect d;
  drv_read_ok : forall d b,
    busy b = true -> dirty b = false -> valid b = false -> b_dev b = ROOTDEV ->
    0 <= b_sector b < drv_nsect d ->
    exists d',
      drv_iderw b d =
        Ret (set_flags (setf (b_flags b) B_VALID)
               (set_data (blk (drv_blocks d) (b_sector b)) b)) d' /\
      drv_blocks d' = drv_blocks d /\
      drv_trace d' = drv_trace d /\
      drv_nsect d' = drv_nsect d;
}.

(** ** memide.c *)

Module Memide.

(** The image linked into the kernel, by 512-byte sector, and its size in
    sectors.  [md_trace] records the writes made so far. *)
Record memdisk : Type := MkMemdisk {
  md_blocks : gmap Z block;
  md_size : Z;
  md_trace : list (Z * block)
}.

(** [memmove(p, b->data, 512)] with [p = memdisk + b->sector*512]. *)
Definition md_store (sec : Z) (d : block) (m : memdisk) : memdisk :=
  MkMemdisk (<[sec := d]> (md_blocks m)) (md_size m) (md_trace m ++ [(sec, d)]).

Definition iderw (b : buf) : M memdisk buf :=
  if negb (has (b_flags b) B_BUSY) then panic "iderw: buf not busy"
  else if Z.land (b_flags b) (Z.lor B_VALID B_DIRTY) =? B_VALID then panic "iderw: nothing to do"
  else if negb (b_dev b =? 1) then panic "iderw: request not for disk 1"
  else
    let! disksize := get md_size in
    if b_sector b >=? disksize then panic "iderw: sector out of range"
    else if has (b_flags b) B_DIRTY then
      let b := set_flags (clrf (b_flags b) B_DIRTY) b in
      modify (md_store (b_sector b) (b_data b)) ;;
      ret (set_flags (setf (b_flags b) B_VALID) b)
    else
      let! d := get (fun m => blk (md_blocks m) (b_sector b)) in
      let b := set_data d b in
      ret (set_flags (setf (b_flags b) B_VALID) b).

(** The test [(flags & (B_VALID|B_DIRTY)) == B_VALID] means valid and clean. *)
Lemma land_valid_dirty f :
  (Z.land f (Z.lor B_VALID B_DIRTY) =? B_VALID) = has f B_VALID && negb (has f B_DIRTY).
Proof.
  unfold has, B_VALID, B_DIRTY.
  rewrite Z.land_lor_distr_r.
  assert (H2 : Z.land f 2 = 0 \/ Z.land f 2 = 2).
  { change 2 with (2 ^ 1). destruct (Z.testbit f 1) eqn:E;
      [right|left]; apply Z.bits_inj'; intros n Hn;
      rewrite Z.land_spec, Z.pow2_bits_eqb, ?Z.testbit_0_l by lia;
      destruct (Z.eqb_spec 1 n); subst; rewrite ?E, ?andb_true_r, ?andb_false_r; done. }
  assert (H4 : Z.land f 4 = 0 \/ Z.land f 4 = 4).
  { change 4 with (2 ^ 2). destruct (Z.testbit f 2) eqn:E;
      [right|left]; apply Z.bits_inj'; intros n Hn;
      rewrite Z.land_spec, Z.pow2_bits_eqb, ?Z.testbit_0_l by lia;
      destruct (Z.eqb_spec 2 n); subst; rewrite ?E, ?andb_true_r, ?andb_false_r; done. }
  destruct H2 as [-> | ->], H4 as [-> | ->]; done.
Qed.

#[export] Instance memide_driver : DiskDriver memdisk.
Proof.
  refine {| drv_iderw := iderw; drv_blocks := md_blocks;
            drv_trace := md_trace; drv_nsect := md_size |}.
  - intros d b Hb Hd Hdev Hs. unfold busy, dirty in *. unfold iderw.
    rewrite land_valid_dirty, Hb, Hd, Hdev, andb_false_r. cbn. unfold bind, get, modify; cbn.
    assert ((b_sector b >=? md_size d) = false) as -> by lia.
    eexists; split; [done|]. cbn. split_and!; done.
  - intros d b Hb Hd Hv Hdev Hs. unfold busy, dirty, valid in *. unfold iderw.
    rewrite land_valid_dirty, Hb, Hd, Hv, Hdev. cbn. unfold bind, get, modify; cbn.
    assert ((b_sector b >=? md_size d) = false) as -> by lia.
    eexists; split; [done|]. split_and!; done.
Defined.

End Memide.

#[export] Existing Instance Memide.memide_driver.
