(* ===== verification/BufSpec.v ===== *)
(** * What the buffer cache promises

    The abstract state a client of bio.c reasons about: the medium, the sectors
    whose current contents live in memory (because a process holds the buffer or
    because it is dirty, hence pinned until the log commits it), and which
    buffers are held.  The class [BufferCache] lists the operations and how each
    acts on that state; log.c and fs.c are modelled and verified against it, and
    Bio.v shows that the linked-list cache of bio.c satisfies it. *)

From S2P Require Import Prelude.
From S2P Require Import Params.

Record abuf : Type := MkAbuf {
  a_disk : gmap Z block;            (* the medium *)
  a_trace : list (Z * block);       (* completed sector writes *)
  a_nsect : Z;                      (* its size in sectors *)
  a_mem : gmap Z (block * bool);    (* held or dirty sectors: contents, dirty? *)
  a_held : gmap nat Z               (* held buffers and their sectors *)
}.

(** The contents a client sees at a sector. *)
Definition view (a : abuf) (sec : Z) : block :=
  match a_mem a !! sec with
  | Some (d, _) => d
  | None => blk (a_disk a) sec
  end.

Definition abread (h : nat) (sec : Z) (a : abuf) : abuf :=
  MkAbuf (a_disk a) (a_trace a) (a_nsect a)
    (<[sec := default (blk (a_disk a) sec, false) (a_mem a !! sec)]> (a_mem a))
    (<[h := sec]> (a_held a)).

Definition abset (sec : Z) (d : block) (fl : bool) (a : abuf) : abuf :=
  MkAbuf (a_disk a) (a_trace a) (a_nsect a) (<[sec := (d, fl)]> (a_mem a)) (a_held a).

Definition abwrite (sec : Z) (d : block) (a : abuf) : abuf :=
  MkAbuf (<[sec := d]> (a_disk a)) (a_trace a ++ [(sec, d)]) (a_nsect a)
    (<[sec := (d, false)]> (a_mem a)) (a_held a).

Definition abrelse (h : nat) (sec : Z) (fl : bool) (a : abuf) : abuf :=
  MkAbuf (a_disk a) (a_trace a) (a_nsect a)
    (if fl then a_mem a else delete sec (a_mem a)) (delete h (a_held a)).

(** [held a h sec d fl]: buffer [h] is held, for sector [sec], with contents [d]
    and dirty flag [fl]. *)
Definition held (a : abuf) (h : nat) (sec : Z) (d : block) (fl : bool) : Prop :=
  a_held a !! h = Some sec /\ a_mem a !! sec = Some (d, fl).

Definition not_held (a : abuf) (sec : Z) : Prop := forall h, a_held a !! h <> Some sec.

(** Room for one more in-memory sector, or [sec] already has its buffer. *)
Definition room_for (a : abuf) (sec : Z) : Prop :=
  is_Some (a_mem a !! sec) \/ (size (a_mem a) < NBUF)%nat.

Record abuf_wf (a : abuf) : Prop := {
  wf_disk_len : forall sec, zlen (blk (a_disk a) sec) = BSIZE;
  wf_mem_len : forall sec d fl, a_mem a !! sec = Some (d, fl) -> zlen d = BSIZE;
  wf_held_mem : forall h sec, a_held a !! h = Some sec -> is_Some (a_mem a !! sec);
  wf_held_inj : forall h h' sec, a_held a !! h = Some sec -> a_held a !! h' = Some sec -> h = h';
  wf_mem_why : forall sec d, a_mem a !! sec = Some (d, false) -> exists h, a_held a !! h = Some sec
}.

Class BufferCache (S : Type) := {
  bread : Z -> Z -> M S nat;
  bwrite : nat -> M S unit;
  brelse : nat -> M S unit;
  bp_data : S -> nat -> block;               (* bp->data *)
  bp_sector : S -> nat -> Z;                 (* bp->sector *)
  bp_store : nat -> block -> M S unit;       (* stores into bp->data *)
  bp_dirty : nat -> M S unit;                (* bp->flags |= B_DIRTY *)

  bc_rep : S -> abuf -> Prop;
  bc_rep_wf : forall s a, bc_rep s a -> abuf_wf a;
  bread_ok : forall s a sec,
    bc_rep s a -> 0 <= sec < a_nsect a -> not_held a sec -> room_for a sec ->
    exists h s', bread ROOTDEV sec s = Ret h s' /\ a_held a !! h = None /\
                 bc_rep s' (abread h sec a);
  bread_busy : forall s a sec h,
    bc_rep s a -> a_held a !! h = Some sec -> bread ROOTDEV sec s = Sleep (ChBuf h) s;
  bp_data_ok : forall s a h sec d fl,
    bc_rep s a -> held a h sec d fl -> bp_data s h = d /\ bp_sector s h = sec;
  bp_store_ok : forall s a h sec d fl d',
    bc_rep s a -> held a h sec d fl -> zlen d' = BSIZE ->
    exists s', bp_store h d' s = Ret tt s' /\ bc_rep s' (abset sec d' fl a);
  bp_dirty_ok : forall s a h sec d fl,
    bc_rep s a -> held a h sec d fl ->
    exists s', bp_dirty h s = Ret tt s' /\ bc_rep s' (abset sec d true a);
  bwrite_ok : forall s a h sec d fl,
    bc_rep s a -> held a h sec d fl -> 0 <= sec < a_nsect a ->
    exists s', bwrite h s = Ret tt s' /\ bc_rep s' (abwrite sec d a);
  brelse_ok : forall s a h sec d fl,
    bc_rep s a -> held a h sec d fl -> fl = true \/ d = blk (a_disk a) sec ->
    exists s', brelse h s = Ret tt s' /\ bc_rep s' (abrelse h sec fl a)
}.

(** ** Consequences for clients *)

Lemma held_abread a h sec :
  held (abread h sec a) h sec (view a sec)
    (from_option snd false (a_mem a !! sec)).
Proof.
  split; cbn; rewrite lookup_insert_eq; [done|].
  unfold view. destruct (a_mem a !! sec) as [[d fl]|]; done.
Qed.

Lemma held_abread_ne a h h' sec sec' d fl :
  a_held a !! h = None -> held a h' sec' d fl -> held (abread h sec a) h' sec' d fl.
Proof.
  intros Hn [H1 H2]. split; cbn.
  - rewrite lookup_insert_ne; [done|]. intros ->. congruence.
  - destruct (decide (sec = sec')) as [->|]; [|by rewrite lookup_insert_ne].
    rewrite lookup_insert_eq, H2. done.
Qed.

Lemma held_abset a h sec d fl d' fl' :
  held a h sec d fl -> held (abset sec d' fl' a) h sec d' fl'.
Proof. intros [H1 H2]. split; cbn; [done|]. by rewrite lookup_insert_eq. Qed.

Lemma held_abwrite a h sec d fl :
  held a h sec d fl -> held (abwrite sec d a) h sec d false.
Proof. intros [H1 H2]. split; cbn; [done|]. by rewrite lookup_insert_eq. Qed.

Lemma view_abread a h sec sec' : view (abread h sec a) sec' = view a sec'.
Proof.
  unfold view, abread; cbn. destruct (decide (sec = sec')) as [->|].
  - rewrite lookup_insert_eq. destruct (a_mem a !! sec') as [[]|]; done.
  - by rewrite lookup_insert_ne.
Qed.

Lemma view_abset_eq a sec d fl : view (abset sec d fl a) sec = d.
Proof. unfold view, abset; cbn. by rewrite lookup_insert_eq. Qed.

Lemma view_abset_ne a sec sec' d fl : sec <> sec' -> view (abset sec d fl a) sec' = view a sec'.
Proof. intros. unfold view, abset; cbn. by rewrite lookup_insert_ne. Qed.

Lemma view_abrelse a h sec d fl sec' :
  held a h sec d fl -> fl = true \/ d = blk (a_disk a) sec ->
  view (abrelse h sec fl a) sec' = view a sec'.
Proof.
  intros [_ Hm] Hc. unfold view, abrelse; cbn. destruct fl; [done|].
  destruct Hc as [?|Hd]; [done|].
  destruct (decide (sec = sec')) as [->|].
  - by rewrite lookup_delete_eq, Hm.
  - by rewrite lookup_delete_ne.
Qed.
