(* ===== verification/Bio.v ===== *)
(** * The buffer cache (bio.c)

    The cache is an array of buffers threaded on a circular doubly linked list in
    most-recently-used order.  The links are modelled as the code has them, as
    [prev]/[next] fields changed one assignment at a time; [seg] describes the
    list they form.  The main result is the instance [bio_cache]: on any disk
    driver that meets its contract, bget/bread/bwrite/brelse implement the
    abstract buffer cache of BufSpec.v. *)

From S2P Require Import Prelude.
From S2P Require Import Params.
From S2P Require Import Disk.
From S2P Require Import BufSpec.

(** ** Definitions *)

(** Node [NBUF] is [bcache.head]; nodes below it are [bcache.buf[]]. *)
Definition HEAD : nat := NBUF.
Definition null_buf : buf := MkBuf 0 0 0 0 0 None zero_block.
Definition node (bs : list buf) (i : nat) : buf := default null_buf (bs !! i).
Definition NODEV : Z := u32 (-1).

Record bio (D : Type) : Type := MkBio {
  bc_buf : list buf;
  bc_disk : D
}.
Arguments MkBio {D} _ _.
Arguments bc_buf {D} _.
Arguments bc_disk {D} _.

(** One round of binit's loop: push [b] at the front of the list. *)
Definition binit_step (bs : list buf) (b : nat) : list buf :=
  let bs := alter (set_next (b_next (node bs HEAD))) b bs in
  let bs := alter (set_prev HEAD) b bs in
  let bs := alter (fun x => set_ident NODEV (b_sector x) (b_flags x) x) b bs in
  let bs := alter (set_prev b) (b_next (node bs HEAD)) bs in
  alter (set_next b) HEAD bs.

Definition binit (bs : list buf) : list buf :=
  let bs := alter (set_prev HEAD) HEAD bs in
  let bs := alter (set_next HEAD) HEAD bs in
  foldl binit_step bs (seq 0 NBUF).

(** The statically allocated cache before [binit]. *)
Definition bcache0 : list buf := replicate (S NBUF) null_buf.

(** The two list walks of bget.  The outer option is the iteration bound, the
    inner one the search result. *)
Fixpoint scan_next (fuel : nat) (bs : list buf) (dev sector : Z) (b : nat) : option (option nat) :=
  match fuel with
  | O => None
  | S fuel =>
      if (b =? HEAD)%nat then Some None
      else if (b_dev (node bs b) =? dev) && (b_sector (node bs b) =? sector) then Some (Some b)
      else scan_next fuel bs dev sector (b_next (node bs b))
  end.

Fixpoint scan_prev (fuel : nat) (bs : list buf) (b : nat) : option (option nat) :=
  match fuel with
  | O => None
  | S fuel =>
      if (b =? HEAD)%nat then Some None
      else if negb (has (b_flags (node bs b)) B_BUSY) && negb (has (b_flags (node bs b)) B_DIRTY)
      then Some (Some b)
      else scan_prev fuel bs (b_prev (node bs b))
  end.

Section Bio.
Context {D : Type} `{!DiskDriver D}.

Definition on_buf (f : buf -> buf) (b : nat) : M (bio D) unit :=
  modify (fun s => MkBio (alter f b (bc_buf s)) (bc_disk s)).

Definition bget (dev sector : Z) : M (bio D) nat :=
  let! bs := get bc_buf in
  match scan_next (S NBUF) bs dev sector (b_next (node bs HEAD)) with
  | None => out_of_fuel
  | Some (Some b) =>
      if negb (has (b_flags (node bs b)) B_BUSY) then
        on_buf (set_flags (setf (b_flags (node bs b)) B_BUSY)) b ;;
        ret b
      else sleep_on (ChBuf b)
  | Some None =>
      match scan_prev (S NBUF) bs (b_prev (node bs HEAD)) with
      | None => out_of_fuel
      | Some (Some b) => on_buf (set_ident dev sector B_BUSY) b ;; ret b
      | Some None => panic "bget: no buffers"
      end
  end.

(** The driver works on the buffer in place. *)
Definition call_iderw (b : nat) : M (bio D) unit :=
  fun s => match drv_iderw (node (bc_buf s) b) (bc_disk s) with
           | Ret x d => Ret tt (MkBio (<[b := x]> (bc_buf s)) d)
           | Sleep c d => Sleep c (MkBio (bc_buf s) d)
           | Fail f => Fail f
           end.

Definition bio_bread (dev sector : Z) : M (bio D) nat :=
  let! b := bget dev sector in
  let! x := get (fun s => node (bc_buf s) b) in
  (if negb (has (b_flags x) B_VALID) then call_iderw b else ret tt) ;;
  ret b.

Definition bio_bwrite (b : nat) : M (bio D) unit :=
  let! x := get (fun s => node (bc_buf s) b) in
  if negb (has (b_flags x) B_BUSY) then panic "bwrite"
  else
    on_buf (set_flags (setf (b_flags x) B_DIRTY)) b ;;
    call_iderw b.

(** The pointer assignments of brelse, in order. *)
Definition move_front (b : nat) (bs : list buf) : list buf :=
  let bs := alter (set_prev (b_prev (node bs b))) (b_next (node bs b)) bs in
  let bs := alter (set_next (b_next (node bs b))) (b_prev (node bs b)) bs in
  let bs := alter (set_next (b_next (node bs HEAD))) b bs in
  let bs := alter (set_prev HEAD) b bs in
  let bs := alter (set_prev b) (b_next (node bs HEAD)) bs in
  alter (set_next b) HEAD bs.

Definition bio_brelse (b : nat) : M (bio D) unit :=
  let! x := get (fun s => node (bc_buf s) b) in
  if negb (has (b_flags x) B_BUSY) then panic "brelse"
  else
    modify (fun s => MkBio (move_front b (bc_buf s)) (bc_disk s)) ;;
    on_buf (fun x => set_flags (clrf (b_flags x) B_BUSY) x) b.

Definition bio_store (b : nat) (d : block) : M (bio D) unit := on_buf (set_data d) b.
Definition bio_dirty (b : nat) : M (bio D) unit :=
  on_buf (fun x => set_flags (setf (b_flags x) B_DIRTY) x) b.

End Bio.

(** ** The linked list *)

(** [seg nx pv x l y]: from [x], the next links run through [l] to [y], and the
    prev links run back. *)
Fixpoint seg (nx pv : nat -> nat) (x : nat) (l : list nat) (y : nat) : Prop :=
  match l with
  | [] => nx x = y /\ pv y = x
  | a :: l => nx x = a /\ pv a = x /\ seg nx pv a l y
  end.

Definition fupd (f : nat -> nat) (i v : nat) : nat -> nat :=
  fun j => if decide (i = j) then v else f j.

Lemma fupd_eq f i v : fupd f i v i = v.
Proof. unfold fupd. by rewrite decide_True. Qed.
Lemma fupd_ne f i j v : i <> j -> fupd f i v j = f j.
Proof. intros. unfold fupd. by rewrite decide_False. Qed.

Lemma seg_ext nx pv nx' pv' x l y :
  (forall i, i = x \/ i ∈ l -> nx' i = nx i) ->
  (forall i, i = y \/ i ∈ l -> pv' i = pv i) ->
  seg nx pv x l y -> seg nx' pv' x l y.
Proof.
  revert x. induction l as [|a l IH]; intros x Hn Hp; cbn.
  - intros [? ?]. rewrite Hn, Hp by auto. done.
  - intros (? & ? & ?). rewrite Hn by auto. rewrite Hp by (right; left).
    split_and!; [done..|]. apply IH; [| |done].
    + intros i [->|Hi]; apply Hn; right; [left|by right].
    + intros i [->|Hi]; apply Hp; [by left|right; by right].
Qed.

Lemma seg_mid nx pv x l1 b l2 y :
  seg nx pv x (l1 ++ b :: l2) y -> pv b ∈ x :: l1 /\ nx b ∈ l2 ++ [y].
Proof.
  revert x. induction l1 as [|a l1 IH]; intros x; cbn.
  - intros (_ & -> & H). split; [left|]. destruct l2; cbn in *; destruct H as [-> _]; left.
  - intros (_ & _ & H). destruct (IH _ H) as [H1 H2]. split; [by right|done].
Qed.

Lemma seg_unlink nx pv x l1 b l2 y :
  NoDup (x :: l1 ++ b :: l2) -> y ∉ l1 ++ b :: l2 ->
  seg nx pv x (l1 ++ b :: l2) y ->
  seg (fupd nx (pv b) (nx b)) (fupd pv (nx b) (pv b)) x (l1 ++ l2) y.
Proof.
  revert x. induction l1 as [|a l1 IH]; intros x Hnd Hy Hs; cbn in *.
  - destruct Hs as (Hx & Hb & Hs). rewrite Hb.
    apply NoDup_cons in Hnd as [Hxn Hnd]. apply NoDup_cons in Hnd as [Hbn Hnd].
    destruct l2 as [|c l2]; cbn in *.
    + destruct Hs as [-> ?]. rewrite !fupd_eq. done.
    + destruct Hs as (-> & Hc & Hs). rewrite !fupd_eq. split_and!; [done..|].
      eapply seg_ext; [| |exact Hs].
      * intros i Hi. apply fupd_ne. intros <-. set_solver.
      * apply NoDup_cons in Hnd as [Hcn _].
        intros i Hi. apply fupd_ne. intros <-. set_solver.
  - destruct Hs as (Hx & Ha & Hs). pose proof (seg_mid _ _ _ _ _ _ _ Hs) as [Hp Hn].
    apply NoDup_cons in Hnd as [Hxn Hnd].
    split_and!.
    + rewrite fupd_ne; [done|]. intros E. rewrite E in Hp. set_solver.
    + rewrite fupd_ne; [done|]. intros E. rewrite E in Hn.
      apply NoDup_cons in Hnd as [Han _]. set_solver.
    + apply IH; [done|set_solver|done].
Qed.

Lemma seg_push nx pv x l b y :
  b ∉ x :: l -> b <> y -> x ∉ l -> y ∉ l -> NoDup l ->
  seg nx pv x l y ->
  seg (fupd (fupd nx b (nx x)) x b) (fupd (fupd pv b x) (nx x) b) x (b :: l) y.
Proof.
  intros Hb Hby Hx Hy Hnd Hs. apply not_elem_of_cons in Hb as [Hbx Hbl]. cbn.
  destruct l as [|c l]; cbn in *.
  - destruct Hs as [E Hp]. rewrite E. rewrite !fupd_eq. rewrite (fupd_ne _ y b) by done.
    rewrite (fupd_ne _ x b) by done. rewrite !fupd_eq. done.
  - destruct Hs as (E & Hc & Hs). rewrite E.
    apply not_elem_of_cons in Hbl as [Hbc Hbl].
    apply NoDup_cons in Hnd as [Hcn Hnd].
    rewrite !fupd_eq. rewrite (fupd_ne _ c b) by done. rewrite (fupd_ne _ x b) by done.
    rewrite !fupd_eq. split_and!; [done..|].
    eapply seg_ext; [| |exact Hs].
    + intros i Hi. rewrite !fupd_ne; [done| |]; intros <-; set_solver.
    + intros i Hi. rewrite !fupd_ne; [done| |]; intros <-; set_solver.
Qed.

Definition nexts (bs : list buf) (i : nat) : nat := b_next (node bs i).
Definition prevs (bs : list buf) (i : nat) : nat := b_prev (node bs i).

(** The circular list holds every buffer once. *)
Definition links (bs : list buf) (lru : list nat) : Prop :=
  length bs = S NBUF /\ lru ≡ₚ seq 0 NBUF /\ seg (nexts bs) (prevs bs) HEAD lru HEAD.

Lemma node_alter f i bs j :
  (i < length bs)%nat ->
  node (alter f i bs) j = if decide (i = j) then f (node bs j) else node bs j.
Proof.
  intros Hi. unfold node. case_decide as E.
  - subst j. rewrite list_lookup_alter_eq. apply lookup_lt_is_Some_2 in Hi as [x ->]. done.
  - by rewrite list_lookup_alter_ne.
Qed.

Lemma node_alter_eq f i bs : (i < length bs)%nat -> node (alter f i bs) i = f (node bs i).
Proof. intros. rewrite node_alter by done. by rewrite decide_True. Qed.

Lemma node_alter_ne f i bs j : (i < length bs)%nat -> i <> j -> node (alter f i bs) j = node bs j.
Proof. intros. rewrite node_alter by done. by rewrite decide_False. Qed.

Lemma alter_as_insert (f : buf -> buf) i bs :
  (i < length bs)%nat -> alter f i bs = <[i := f (node bs i)]> bs.
Proof.
  intros Hi. apply lookup_lt_is_Some_2 in Hi as [x Hx].
  apply list_eq. intros j. destruct (decide (i = j)) as [<-|].
  - rewrite list_lookup_alter_eq, list_lookup_insert_eq by (by eapply lookup_lt_Some).
    unfold node. by rewrite Hx.
  - by rewrite list_lookup_alter_ne, list_lookup_insert_ne.
Qed.

(** A change that keeps every node's links keeps the list. *)
Lemma links_same bs bs' lru :
  length bs' = length bs ->
  (forall i, b_next (node bs' i) = b_next (node bs i)) ->
  (forall i, b_prev (node bs' i) = b_prev (node bs i)) ->
  links bs lru -> links bs' lru.
Proof.
  intros Hlen Hn Hp (H1 & H2 & H3). split_and!; [congruence|done|].
  eapply seg_ext; [| |exact H3]; intros; unfold nexts, prevs; auto.
Qed.

Lemma nexts_alter_next v i bs j :
  (i < length bs)%nat -> nexts (alter (set_next v) i bs) j = fupd (nexts bs) i v j.
Proof. intros. unfold nexts, fupd. rewrite node_alter by done. by case_decide. Qed.
Lemma nexts_alter_prev v i bs j :
  (i < length bs)%nat -> nexts (alter (set_prev v) i bs) j = nexts bs j.
Proof. intros. unfold nexts. rewrite node_alter by done. by case_decide. Qed.
Lemma prevs_alter_prev v i bs j :
  (i < length bs)%nat -> prevs (alter (set_prev v) i bs) j = fupd (prevs bs) i v j.
Proof. intros. unfold prevs, fupd. rewrite node_alter by done. by case_decide. Qed.
Lemma prevs_alter_next v i bs j :
  (i < length bs)%nat -> prevs (alter (set_next v) i bs) j = prevs bs j.
Proof. intros. unfold prevs. rewrite node_alter by done. by case_decide. Qed.

Lemma links_bound bs lru i : links bs lru -> i ∈ lru <-> (i < NBUF)%nat.
Proof.
  intros (_ & Hp & _). rewrite Hp. rewrite elem_of_seq. lia.
Qed.

Lemma links_nodup bs lru : links bs lru -> NoDup (HEAD :: lru).
Proof.
  intros H. pose proof (links_bound _ _ HEAD H) as Hh. destruct H as (_ & Hp & _).
  constructor; [|rewrite Hp; apply NoDup_seq]. unfold HEAD in *. rewrite Hh. lia.
Qed.

Lemma links_split bs lru b :
  links bs lru -> (b < NBUF)%nat ->
  exists l1 l2, lru = l1 ++ b :: l2 /\ b_prev (node bs b) ∈ HEAD :: l1 /\
                b_next (node bs b) ∈ l2 ++ [HEAD].
Proof.
  intros H Hb. apply (links_bound _ _ _ H) in Hb.
  apply list_elem_of_split in Hb as (l1 & l2 & ->). exists l1, l2. split; [done|].
  destruct H as (_ & _ & Hs). by apply seg_mid in Hs.
Qed.

(** brelse's pointer surgery moves [b] to the most-recently-used end and keeps
    the contents of all nodes. *)
Lemma move_front_links bs l1 b l2 :
  links bs (l1 ++ b :: l2) -> links (move_front b bs) (b :: l1 ++ l2).
Proof.
  intros HL. pose proof (links_nodup _ _ HL) as Hnd.
  pose proof (fun i => links_bound _ _ i HL) as Hbd.
  pose proof HL as (Hlen & Hperm & Hseg).
  apply NoDup_cons in Hnd as [Hh Hnd'].
  pose proof (seg_mid _ _ _ _ _ _ _ Hseg) as [Hpv Hnx].
  assert (Hb : (b < NBUF)%nat) by (apply Hbd; set_solver).
  assert (Hp : (prevs bs b < S NBUF)%nat).
  { apply elem_of_cons in Hpv as [->|Hi]; [unfold HEAD; lia|].
    assert (prevs bs b < NBUF)%nat by (apply Hbd; set_solver). lia. }
  assert (Hn : (nexts bs b < S NBUF)%nat).
  { apply elem_of_app in Hnx as [Hi|Hi%list_elem_of_singleton]; [|rewrite Hi; unfold HEAD; lia].
    assert (nexts bs b < NBUF)%nat by (apply Hbd; set_solver). lia. }
  assert (Hnb : nexts bs b <> b).
  { intros E. rewrite E in Hnx. apply NoDup_app in Hnd' as (_ & _ & Hnd2).
    apply NoDup_cons in Hnd2 as [? _]. set_solver. }
  pose proof (seg_unlink _ _ _ _ _ _ _ (NoDup_cons_2 _ _ Hh Hnd') Hh Hseg) as Hu.
  set (nx1 := fupd (nexts bs) (prevs bs b) (nexts bs b)) in *.
  set (pv1 := fupd (prevs bs) (nexts bs b) (prevs bs b)) in *.
  assert (Hq : (nx1 HEAD < S NBUF)%nat).
  { assert (nx1 HEAD = HEAD \/ nx1 HEAD ∈ l1 ++ l2) as [->|Hi]; [|unfold HEAD; lia|].
    - destruct (l1 ++ l2); destruct Hu as [-> _]; [by left|right; left].
    - assert (nx1 HEAD < NBUF)%nat by (apply Hbd; set_solver). lia. }
  apply NoDup_app in Hnd' as (Hn1 & Hdisj & Hn2). apply NoDup_cons in Hn2 as [Hbl2 Hn2].
  apply (seg_push _ _ _ _ b) in Hu; cycle 1.
  { unfold HEAD in *. apply not_elem_of_cons; split; [lia|]. set_solver. }
  { unfold HEAD in *. lia. } { set_solver. } { set_solver. }
  { apply NoDup_app. set_solver. }
  unfold move_front. set (bs1 := alter (set_prev (b_prev (node bs b))) (b_next (node bs b)) bs).
  assert (E1 : forall j, nexts bs1 j = nexts bs j) by (intros; apply nexts_alter_prev; unfold nexts in Hn; lia).
  assert (E1' : forall j, prevs bs1 j = pv1 j) by (intros; apply prevs_alter_prev; unfold nexts in Hn; lia).
  assert (Hl1 : length bs1 = S NBUF) by (unfold bs1; by rewrite length_alter).
  assert (Epb : prevs bs1 b = prevs bs b) by (rewrite E1'; apply fupd_ne; done).
  set (bs2 := alter (set_next (b_next (node bs1 b))) (b_prev (node bs1 b)) bs1).
  assert (E2 : forall j, nexts bs2 j = nx1 j).
  { intros. unfold bs2. rewrite nexts_alter_next by (unfold prevs in *; lia).
    change (b_prev (node bs1 b)) with (prevs bs1 b). change (b_next (node bs1 b)) with (nexts bs1 b).
    rewrite Epb, E1. unfold nx1, fupd. case_decide; [done|apply E1]. }
  assert (E2' : forall j, prevs bs2 j = pv1 j)
    by (intros; unfold bs2; rewrite prevs_alter_next by (unfold prevs in *; lia); apply E1').
  assert (Hl2 : length bs2 = S NBUF) by (unfold bs2; by rewrite length_alter).
  set (bs3 := alter (set_next (b_next (node bs2 HEAD))) b bs2).
  set (bs4 := alter (set_prev HEAD) b bs3).
  assert (Hl3 : length bs3 = S NBUF) by (unfold bs3; by rewrite length_alter).
  assert (Hl4 : length bs4 = S NBUF) by (unfold bs4; by rewrite length_alter).
  assert (E4 : forall j, nexts bs4 j = fupd nx1 b (nx1 HEAD) j).
  { intros. unfold bs4. rewrite nexts_alter_prev by lia. unfold bs3. rewrite nexts_alter_next by lia.
    change (b_next (node bs2 HEAD)) with (nexts bs2 HEAD). rewrite E2.
    unfold fupd. case_decide; [done|apply E2]. }
  assert (E4' : forall j, prevs bs4 j = fupd pv1 b HEAD j).
  { intros. unfold bs4. rewrite prevs_alter_prev by lia. unfold fupd. case_decide; [done|].
    unfold bs3. rewrite prevs_alter_next by lia. apply E2'. }
  assert (Eh : b_next (node bs4 HEAD) = nx1 HEAD).
  { change (nexts bs4 HEAD = nx1 HEAD). rewrite E4. apply fupd_ne. unfold HEAD. lia. }
  rewrite Eh. split_and!.
  - by rewrite !length_alter.
  - rewrite <- Hperm. solve_Permutation.
  - eapply seg_ext; [| |exact Hu].
    + intros j _. rewrite nexts_alter_next by (rewrite length_alter; unfold HEAD; lia).
      unfold fupd at 1 2. case_decide; [done|].
      rewrite nexts_alter_prev by lia. apply E4.
    + intros j _. rewrite prevs_alter_next by (rewrite length_alter; unfold HEAD; lia).
      rewrite prevs_alter_prev by lia. unfold fupd at 1 2. case_decide; [done|]. apply E4'.
Qed.

Lemma seg_app nx pv x l1 b l2 y :
  seg nx pv x (l1 ++ b :: l2) y <-> seg nx pv x l1 b /\ seg nx pv b l2 y.
Proof.
  revert x. induction l1 as [|a l1 IH]; intros x; cbn; [tauto|]. rewrite IH. tauto.
Qed.

(** The walks of bget visit the list in order, forwards and backwards. *)
Definition is_at (dev sector : Z) (x : buf) : bool := (b_dev x =? dev) && (b_sector x =? sector).
Definition reusable (x : buf) : bool := negb (busy x) && negb (dirty x).

Lemma scan_next_find fuel bs dev sector x l :
  seg (nexts bs) (prevs bs) x l HEAD -> HEAD ∉ l -> (length l < fuel)%nat ->
  scan_next fuel bs dev sector (nexts bs x) = Some (List.find (fun i => is_at dev sector (node bs i)) l).
Proof.
  revert fuel x. induction l as [|a l IH]; intros [|fuel] x Hs Hh Hf; cbn in Hf; try lia.
  - destruct Hs as [-> _]. cbn. done.
  - destruct Hs as (-> & _ & Hs). cbn [scan_next List.find].
    destruct (Nat.eqb_spec a HEAD); [set_solver|].
    unfold is_at at 1. case_match; [done|]. apply IH; [done|set_solver|lia].
Qed.

Lemma scan_prev_find fuel bs l y :
  seg (nexts bs) (prevs bs) HEAD l y -> HEAD ∉ l -> (length l < fuel)%nat ->
  scan_prev fuel bs (prevs bs y) = Some (List.find (fun i => reusable (node bs i)) (rev l)).
Proof.
  revert fuel y. induction l as [|a l IH] using rev_ind; intros [|fuel] y Hs Hh Hf;
    rewrite ?length_app in Hf; cbn in Hf; try lia.
  - destruct Hs as [_ ->]. done.
  - apply seg_app in Hs as [Hs [_ ->]]. rewrite rev_unit. cbn [scan_prev List.find].
    destruct (Nat.eqb_spec a HEAD); [set_solver|].
    unfold reusable at 1, busy, dirty. case_match; [done|]. apply IH; [done|set_solver|lia].
Qed.

Lemma links_scan_next bs lru dev sector :
  links bs lru ->
  scan_next (S NBUF) bs dev sector (b_next (node bs HEAD)) =
    Some (List.find (fun i => is_at dev sector (node bs i)) lru).
Proof.
  intros H. pose proof (links_nodup _ _ H) as Hn. apply NoDup_cons in Hn as [Hh _].
  destruct H as (_ & Hp & Hs). apply Permutation_length in Hp. rewrite length_seq in Hp.
  change (b_next (node bs HEAD)) with (nexts bs HEAD).
  apply scan_next_find; [done..|lia].
Qed.

Lemma links_scan_prev bs lru :
  links bs lru ->
  scan_prev (S NBUF) bs (b_prev (node bs HEAD)) =
    Some (List.find (fun i => reusable (node bs i)) (rev lru)).
Proof.
  intros H. pose proof (links_nodup _ _ H) as Hn. apply NoDup_cons in Hn as [Hh _].
  destruct H as (_ & Hp & Hs). apply Permutation_length in Hp. rewrite length_seq in Hp.
  change (b_prev (node bs HEAD)) with (prevs bs HEAD).
  apply scan_prev_find; [done..|lia].
Qed.

(** The fields of a node other than its links. *)
Definition core (x : buf) : Z * Z * Z * block := (b_flags x, b_dev x, b_sector x, b_data x).

Lemma core_alter f i bs j :
  (forall x, core (f x) = core x) -> core (node (alter f i bs) j) = core (node bs j).
Proof.
  intros Hf. unfold node. destruct (decide (i = j)) as [<-|].
  - rewrite list_lookup_alter_eq. destruct (bs !! i); cbn; auto.
  - by rewrite list_lookup_alter_ne.
Qed.

Lemma core_move_front b bs i : core (node (move_front b bs) i) = core (node bs i).
Proof. unfold move_front. rewrite !core_alter by done. done. Qed.

(** ** The representation relation *)

Section Rep.
Context {D : Type} `{!DiskDriver D}.
Implicit Types (s : bio D) (a : abuf).

(** Buffer [i] is unused, or caches a sector: in memory exactly when it is busy
    or dirty, equal to the medium otherwise. *)
Definition buf_rep (a : abuf) (i : nat) (x : buf) : Prop :=
  (b_dev x = NODEV /\ b_flags x = 0 /\ a_held a !! i = None) \/
  (b_dev x = ROOTDEV /\ valid x = true /\ zlen (b_data x) = BSIZE /\
   a_held a !! i = (if busy x then Some (b_sector x) else None) /\
   a_mem a !! b_sector x = (if busy x || dirty x then Some (b_data x, dirty x) else None) /\
   (reusable x = true -> b_data x = blk (a_disk a) (b_sector x))).

Record bio_rep (s : bio D) (a : abuf) : Prop := {
  rep_disk : a_disk a = drv_blocks (bc_disk s);
  rep_trace : a_trace a = drv_trace (bc_disk s);
  rep_nsect : a_nsect a = drv_nsect (bc_disk s);
  rep_blk : forall sec, zlen (blk (a_disk a) sec) = BSIZE;
  rep_links : exists lru, links (bc_buf s) lru;
  rep_buf : forall i, (i < NBUF)%nat -> buf_rep a i (node (bc_buf s) i);
  rep_uniq : forall i j, (i < NBUF)%nat -> (j < NBUF)%nat ->
    b_dev (node (bc_buf s) i) = ROOTDEV -> b_dev (node (bc_buf s) j) = ROOTDEV ->
    b_sector (node (bc_buf s) i) = b_sector (node (bc_buf s) j) -> i = j;
  rep_mem : forall sec, is_Some (a_mem a !! sec) ->
    exists i, (i < NBUF)%nat /\ b_dev (node (bc_buf s) i) = ROOTDEV /\
              b_sector (node (bc_buf s) i) = sec;
  rep_held : forall h sec, a_held a !! h = Some sec -> (h < NBUF)%nat
}.

Lemma rep_held_buf s a h sec d fl :
  bio_rep s a -> held a h sec d fl ->
  let x := node (bc_buf s) h in
  (h < NBUF)%nat /\ b_dev x = ROOTDEV /\ valid x = true /\ busy x = true /\
  b_sector x = sec /\ b_data x = d /\ dirty x = fl /\ zlen d = BSIZE.
Proof.
  intros HR [Hh Hm] x. pose proof (rep_held _ _ HR _ _ Hh) as Hlt. subst x.
  destruct (rep_buf _ _ HR _ Hlt) as [(_ & _ & E)|(E1 & E2 & E3 & E4 & E5 & E6)]; [congruence|].
  rewrite Hh in E4. destruct (busy (node (bc_buf s) h)) eqn:Eb; [|done].
  injection E4 as E4. cbn in E5. rewrite <- E4, Hm in E5. injection E5 as -> ->. done.
Qed.

Lemma bio_rep_wf s a : bio_rep s a -> abuf_wf a.
Proof.
  intros HR.
  assert (Hmem : forall sec d fl, a_mem a !! sec = Some (d, fl) ->
    exists i, (i < NBUF)%nat /\ b_sector (node (bc_buf s) i) = sec /\
      b_data (node (bc_buf s) i) = d /\ dirty (node (bc_buf s) i) = fl /\ zlen d = BSIZE /\
      a_held a !! i = (if busy (node (bc_buf s) i) then Some sec else None) /\
      busy (node (bc_buf s) i) || fl = true).
  { intros sec d fl Hm. destruct (rep_mem _ _ HR sec) as (i & Hi & Hd & Hs); [by eexists|].
    exists i. destruct (rep_buf _ _ HR _ Hi) as [(E & _)|(E1 & E2 & E3 & E4 & E5 & E6)].
    { rewrite Hd in E. discriminate E. }
    rewrite Hs, Hm in E5. rewrite Hs in E4.
    destruct (busy _ || dirty _) eqn:Eb; [|done]. injection E5 as -> ->. done. }
  constructor.
  - apply (rep_blk _ _ HR).
  - intros sec d fl Hm. destruct (Hmem _ _ _ Hm) as (i & _ & _ & _ & _ & H & _). done.
  - intros h sec Hh. pose proof (rep_held _ _ HR _ _ Hh) as Hlt.
    destruct (rep_buf _ _ HR _ Hlt) as [(_ & _ & E)|(E1 & E2 & E3 & E4 & E5 & E6)]; [congruence|].
    rewrite Hh in E4. destruct (busy _); [|done]. injection E4 as ->. rewrite E5. by eexists.
  - intros h h' sec Hh Hh'.
    pose proof (rep_held _ _ HR _ _ Hh) as Hlt. pose proof (rep_held _ _ HR _ _ Hh') as Hlt'.
    destruct (rep_buf _ _ HR _ Hlt) as [(_ & _ & E)|(E1 & _ & _ & E4 & _)]; [congruence|].
    destruct (rep_buf _ _ HR _ Hlt') as [(_ & _ & E)|(E1' & _ & _ & E4' & _)]; [congruence|].
    rewrite Hh in E4. rewrite Hh' in E4'. do 2 case_match; simplify_eq.
    eapply (rep_uniq _ _ HR); congruence.
  - intros sec d Hm. destruct (Hmem _ _ _ Hm) as (i & _ & _ & _ & _ & _ & Hh & Hb).
    exists i. rewrite orb_false_r in Hb. by rewrite Hb in Hh.
Qed.

Lemma node_insert (bs : list buf) i x j :
  (i < length bs)%nat -> node (<[i := x]> bs) j = if decide (i = j) then x else node bs j.
Proof.
  intros Hi. unfold node. case_decide as E.
  - subst j. by rewrite list_lookup_insert_eq.
  - by rewrite list_lookup_insert_ne.
Qed.

(** Replacing the contents of buffer [i]: the rest of the relation is framed. *)
Lemma rep_update s a i x' d' a' :
  bio_rep s a -> (i < NBUF)%nat ->
  b_next x' = b_next (node (bc_buf s) i) -> b_prev x' = b_prev (node (bc_buf s) i) ->
  b_dev x' = ROOTDEV -> buf_rep a' i x' ->
  a_disk a' = drv_blocks d' -> a_trace a' = drv_trace d' -> a_nsect a' = drv_nsect d' ->
  zlen (blk (a_disk a') (b_sector x')) = BSIZE ->
  (forall j, j <> i -> a_held a' !! j = a_held a !! j) ->
  (forall sec, sec <> b_sector x' -> a_mem a' !! sec = a_mem a !! sec) ->
  (forall sec, sec <> b_sector x' -> blk (a_disk a') sec = blk (a_disk a) sec) ->
  (forall j, (j < NBUF)%nat -> j <> i -> b_dev (node (bc_buf s) j) = ROOTDEV ->
    b_sector (node (bc_buf s) j) <> b_sector x') ->
  (b_dev (node (bc_buf s) i) = ROOTDEV -> is_Some (a_mem a !! b_sector (node (bc_buf s) i)) ->
    b_sector (node (bc_buf s) i) = b_sector x') ->
  bio_rep (MkBio (<[i := x']> (bc_buf s)) d') a'.
Proof.
  intros HR Hi Hnx Hpv Hdev Hx Hd Ht Hns Hlen Hheld Hmem Hdisk Huniq Hold.
  destruct (rep_links _ _ HR) as [lru HL].
  assert (Hbs : (i < length (bc_buf s))%nat) by (destruct HL as [-> _]; lia).
  constructor; cbn; [done..| | | | | |].
  - intros sec. destruct (decide (sec = b_sector x')) as [->|]; [done|].
    rewrite Hdisk by done. apply (rep_blk _ _ HR).
  - exists lru. apply (links_same (bc_buf s)); [by rewrite length_insert| | |done];
      intros j; rewrite node_insert by done; case_decide; subst; done.
  - intros j Hj. rewrite node_insert by done. case_decide as E; [by subst|].
    destruct (rep_buf _ _ HR _ Hj) as [(?&?&?)|(E1 & E2 & E3 & E4 & E5 & E6)];
      [left; rewrite Hheld by done; done|right].
    rewrite Hheld, Hmem, Hdisk by (auto using Huniq). done.
  - intros j k Hj Hk. rewrite !node_insert by done.
    do 2 case_decide; subst; intros ? ? Hs; [done| | |by eapply (rep_uniq _ _ HR)].
    + destruct (Huniq k); auto.
    + destruct (Huniq j); auto.
  - intros sec Hsec. destruct (decide (sec = b_sector x')) as [->|Hne].
    { exists i. rewrite node_insert, decide_True by done. done. }
    rewrite Hmem in Hsec by done. destruct (rep_mem _ _ HR sec Hsec) as (j & Hj & Hdj & Hsj).
    exists j. rewrite node_insert by done. case_decide as E; [|done]. subst j sec.
    exfalso. apply Hne. by apply Hold.
  - intros h sec Hh. destruct (decide (h = i)) as [->|]; [done|].
    rewrite Hheld in Hh by done. by eapply (rep_held _ _ HR).
Qed.

(** The special case of a held buffer that keeps its sector. *)
Lemma rep_update_held s a h sec d fl x' d' a' :
  bio_rep s a -> held a h sec d fl ->
  b_next x' = b_next (node (bc_buf s) h) -> b_prev x' = b_prev (node (bc_buf s) h) ->
  b_dev x' = ROOTDEV -> b_sector x' = sec -> buf_rep a' h x' ->
  a_disk a' = drv_blocks d' -> a_trace a' = drv_trace d' -> a_nsect a' = drv_nsect d' ->
  zlen (blk (a_disk a') sec) = BSIZE ->
  (forall j, j <> h -> a_held a' !! j = a_held a !! j) ->
  (forall sec', sec' <> sec -> a_mem a' !! sec' = a_mem a !! sec') ->
  (forall sec', sec' <> sec -> blk (a_disk a') sec' = blk (a_disk a) sec') ->
  bio_rep (MkBio (<[h := x']> (bc_buf s)) d') a'.
Proof.
  intros HR Hh Hnx Hpv Hdev <- Hx Hd Ht Hns Hlen Hheld Hmem Hdisk.
  destruct (rep_held_buf _ _ _ _ _ _ HR Hh) as (Hlt & Hdh & _ & _ & Hs & _).
  eapply rep_update; eauto.
  intros j Hj Hne Hdj E. apply Hne. eapply (rep_uniq _ _ HR); auto. congruence.
Qed.

Lemma bio_store_ok s a h sec d fl d' :
  bio_rep s a -> held a h sec d fl -> zlen d' = BSIZE ->
  exists s', bio_store h d' s = Ret tt s' /\ bio_rep s' (abset sec d' fl a).
Proof.
  intros HR Hh Hlen. destruct (rep_held_buf _ _ _ _ _ _ HR Hh) as (Hlt & Hdev & Hv & Hb & Hs & Hd & Hf & _).
  destruct (rep_links _ _ HR) as [lru [Hbs _]].
  eexists. split; [done|]. cbn. rewrite alter_as_insert by lia.
  eapply rep_update_held; eauto; cbn.
  - right. unfold valid, busy, dirty, reusable in *; cbn. rewrite Hb, Hs, Hf, lookup_insert_eq. cbn.
    destruct Hh as [Hh _]. split_and!; auto. unfold busy; cbn. by rewrite Hb.
  - apply (rep_disk _ _ HR).
  - apply (rep_trace _ _ HR).
  - apply (rep_nsect _ _ HR).
  - apply (rep_blk _ _ HR).
  - intros. by rewrite lookup_insert_ne.
Qed.

Lemma bio_dirty_ok s a h sec d fl :
  bio_rep s a -> held a h sec d fl ->
  exists s', bio_dirty h s = Ret tt s' /\ bio_rep s' (abset sec d true a).
Proof.
  intros HR Hh. destruct (rep_held_buf _ _ _ _ _ _ HR Hh) as (Hlt & Hdev & Hv & Hb & Hs & Hd & Hf & Hlen).
  destruct (rep_links _ _ HR) as [lru [Hbs _]].
  eexists. split; [done|]. cbn. rewrite alter_as_insert by lia.
  eapply rep_update_held; eauto; cbn.
  - right. unfold valid, busy, dirty, reusable in *; cbn. unfold busy, dirty; cbn.
    autorewrite with flags. rewrite Hb, Hs, Hv, Hd. cbn. rewrite lookup_insert_eq.
    destruct Hh as [Hh _]. split_and!; auto. congruence.
  - apply (rep_disk _ _ HR).
  - apply (rep_trace _ _ HR).
  - apply (rep_nsect _ _ HR).
  - apply (rep_blk _ _ HR).
  - intros. by rewrite lookup_insert_ne.
Qed.

Lemma bio_bwrite_ok s a h sec d fl :
  bio_rep s a -> held a h sec d fl -> 0 <= sec < a_nsect a ->
  exists s', bio_bwrite h s = Ret tt s' /\ bio_rep s' (abwrite sec d a).
Proof.
  intros HR Hh Hsec.
  destruct (rep_held_buf _ _ _ _ _ _ HR Hh) as (Hlt & Hdev & Hv & Hb & Hs & Hd & Hf & Hlen).
  destruct (bio_dirty_ok _ _ _ _ _ _ HR Hh) as (s1 & Hrun & HR1).
  pose proof (held_abset _ _ _ _ _ d true Hh) as Hh1.
  destruct (rep_held_buf _ _ _ _ _ _ HR1 Hh1) as (_ & Hdev1 & Hv1 & Hb1 & Hs1 & Hd1 & Hf1 & _).
  destruct (drv_write_ok (bc_disk s1) (node (bc_buf s1) h)) as (d' & Hio & Hbl & Htr & Hns); auto.
  { rewrite Hs1, <- (rep_nsect _ _ HR1). done. }
  eexists. split.
  - unfold bio_bwrite. rewrite (bind_run (get _) _ s _ s eq_refl).
    unfold busy in Hb. rewrite Hb. cbn [negb].
    assert (on_buf (set_flags (setf (b_flags (node (bc_buf s) h)) B_DIRTY)) h s = Ret tt s1) as Hset.
    { rewrite <- Hrun. unfold bio_dirty, on_buf, modify. do 2 f_equal.
      destruct (rep_links _ _ HR) as [lru [Hbs _]]. rewrite !alter_as_insert by lia. done. }
    rewrite (bind_run _ _ _ _ _ Hset). unfold call_iderw. rewrite Hio. done.
  - eapply rep_update_held; eauto; cbn.
    + right. unfold valid, busy, dirty, reusable in *; cbn. unfold busy, dirty; cbn.
      autorewrite with flags. rewrite Hb1, Hs1, Hd1. cbn. rewrite lookup_insert_eq, blk_insert_eq.
      destruct Hh as [Hh _]. done.
    + rewrite Hbl, Hs1, Hd1, <- (rep_disk _ _ HR1). done.
    + rewrite Htr, Hs1, Hd1, <- (rep_trace _ _ HR1). done.
    + rewrite Hns, <- (rep_nsect _ _ HR1). done.
    + by rewrite blk_insert_eq.
    + intros. by rewrite !lookup_insert_ne.
    + intros. by rewrite blk_insert_ne.
Qed.

Lemma buf_rep_core a i x x' : core x' = core x -> buf_rep a i x -> buf_rep a i x'.
Proof.
  unfold core. intros [= E1 E2 E3 E4].
  unfold buf_rep, reusable, valid, busy, dirty. rewrite E1, E2, E3, E4. done.
Qed.

Lemma rep_same_core s a bs' lru :
  bio_rep s a -> links bs' lru -> (forall i, core (node bs' i) = core (node (bc_buf s) i)) ->
  bio_rep (MkBio bs' (bc_disk s)) a.
Proof.
  intros HR HL Hc.
  assert (Hdev : forall i, b_dev (node bs' i) = b_dev (node (bc_buf s) i))
    by (intros i; specialize (Hc i); unfold core in Hc; congruence).
  assert (Hsec : forall i, b_sector (node bs' i) = b_sector (node (bc_buf s) i))
    by (intros i; specialize (Hc i); unfold core in Hc; congruence).
  destruct HR. constructor; cbn; eauto.
  - intros i Hi. by eapply buf_rep_core; [apply Hc|auto].
  - intros i j. rewrite !Hdev, !Hsec. auto.
  - intros sec Hm. destruct (rep_mem0 sec Hm) as (i & Hi). exists i. by rewrite Hdev, Hsec.
Qed.

Lemma bio_brelse_ok s a h sec d fl :
  bio_rep s a -> held a h sec d fl -> fl = true \/ d = blk (a_disk a) sec ->
  exists s', bio_brelse h s = Ret tt s' /\ bio_rep s' (abrelse h sec fl a).
Proof.
  intros HR Hh Hcl.
  destruct (rep_held_buf _ _ _ _ _ _ HR Hh) as (Hlt & Hdev & Hv & Hb & Hs & Hd & Hf & Hlen).
  destruct (rep_links _ _ HR) as [lru HL].
  destruct (links_split _ _ h HL Hlt) as (l1 & l2 & -> & _).
  apply move_front_links in HL.
  pose proof (rep_same_core _ _ _ _ HR HL (core_move_front h _)) as HR1.
  pose proof (rep_held_buf _ _ _ _ _ _ HR1 Hh) as (_ & Hdev1 & Hv1 & Hb1 & Hs1 & Hd1 & Hf1 & _).
  cbn in *. eexists. split.
  - unfold bio_brelse, bind, get; cbn. unfold busy in Hb. rewrite Hb. cbn. done.
  - cbn. rewrite alter_as_insert by (destruct HL as [-> _]; lia).
    eapply (rep_update_held (MkBio (move_front h (bc_buf s)) (bc_disk s))); eauto; cbn.
    + right. unfold valid, busy, dirty, reusable in *; cbn. unfold busy, dirty; cbn.
      autorewrite with flags. rewrite Hf1, Hs1, Hd1, Hv1. cbn. rewrite lookup_delete_eq.
      destruct Hh as [_ Hm]. split_and!; auto.
      * destruct fl; [done|]. by rewrite lookup_delete_eq.
      * destruct Hcl as [->|?]; [done|]. done.
    + apply (rep_disk _ _ HR).
    + apply (rep_trace _ _ HR).
    + apply (rep_nsect _ _ HR).
    + apply (rep_blk _ _ HR).
    + intros. by rewrite lookup_delete_ne.
    + intros. destruct fl; [done|]. by rewrite lookup_delete_ne.
Qed.

(** If every buffer is busy or dirty, the in-memory sectors fill the cache. *)
Lemma rep_full s a :
  bio_rep s a -> (forall i, (i < NBUF)%nat -> reusable (node (bc_buf s) i) = false) ->
  (NBUF <= size (a_mem a))%nat.
Proof.
  intros HR Hfull.
  assert (Hb : forall i, (i < NBUF)%nat -> b_dev (node (bc_buf s) i) = ROOTDEV /\
            is_Some (a_mem a !! b_sector (node (bc_buf s) i))).
  { intros i Hi. specialize (Hfull i Hi). unfold reusable in Hfull.
    destruct (rep_buf _ _ HR i Hi) as [(_ & E & _)|(E1 & _ & _ & _ & E5 & _)].
    - unfold busy, dirty in Hfull. rewrite E in Hfull. done.
    - split; [done|]. rewrite E5. destruct (busy _), (dirty _); try done; by eexists. }
  rewrite <- (size_dom (a_mem a)). set (l := (fun i => b_sector (node (bc_buf s) i)) <$> seq 0 NBUF).
  assert (Hnd : NoDup l).
  { apply NoDup_fmap_2_strong; [|apply NoDup_seq]. intros i j [_ Hi]%elem_of_seq [_ Hj]%elem_of_seq.
    destruct (Hb i) as [? _]; [lia|]. destruct (Hb j) as [? _]; [lia|].
    apply (rep_uniq _ _ HR); [lia|lia|done|done]. }
  replace NBUF with (length l) by (unfold l; by rewrite length_fmap, length_seq).
  rewrite <- (size_list_to_set (C := gset Z) l) by done.
  apply subseteq_size. intros sec (i & -> & [_ Hi]%elem_of_seq)%elem_of_list_to_set%list_elem_of_fmap.
  apply elem_of_dom. apply Hb. lia.
Qed.

(** bget on a cached sector: take the buffer if it is free, sleep if not. *)
Lemma bget_hit s a sec b :
  bio_rep s a -> (b < NBUF)%nat -> b_dev (node (bc_buf s) b) = ROOTDEV ->
  b_sector (node (bc_buf s) b) = sec ->
  bget ROOTDEV sec s =
    if busy (node (bc_buf s) b) then Sleep (ChBuf b) s
    else Ret b (MkBio (alter (set_flags (setf (b_flags (node (bc_buf s) b)) B_BUSY)) b (bc_buf s))
                  (bc_disk s)).
Proof.
  intros HR Hb Hdev Hsec. destruct (rep_links _ _ HR) as [lru HL].
  unfold bget. rewrite (bind_run (get _) _ s _ s eq_refl).
  rewrite (links_scan_next _ _ _ _ HL).
  destruct (List.find _ lru) as [c|] eqn:Hf.
  - apply find_some in Hf as [Hc [E1 E2]%andb_true_iff]. apply list_elem_of_In in Hc.
    assert (c = b) as ->.
    { eapply (rep_uniq _ _ HR); auto; [by apply (links_bound _ _ _ HL)|lia|lia]. }
    unfold busy. destruct (has (b_flags (node (bc_buf s) b)) B_BUSY); done.
  - exfalso. assert (Hin : In b lru) by (apply list_elem_of_In; by apply (links_bound _ _ _ HL)).
    pose proof (find_none _ _ Hf b Hin) as E. unfold is_at in E. cbn in E.
    rewrite Hdev, Hsec in E. rewrite !Z.eqb_refl in E. done.
Qed.

(** bget on a sector that is not cached: recycle the least recently used buffer
    that is neither busy nor dirty. *)
Lemma bget_miss_find s lru sec :
  links (bc_buf s) lru ->
  (forall i, (i < NBUF)%nat -> is_at ROOTDEV sec (node (bc_buf s) i) = false) ->
  bget ROOTDEV sec s =
    match List.find (fun i => reusable (node (bc_buf s) i)) (rev lru) with
    | Some b => Ret b (MkBio (alter (set_ident ROOTDEV sec B_BUSY) b (bc_buf s)) (bc_disk s))
    | None => Fail (FPanic "bget: no buffers")
    end.
Proof.
  intros HL Hmiss. unfold bget. rewrite (bind_run (get _) _ s _ s eq_refl).
  rewrite (links_scan_next _ _ _ _ HL), (links_scan_prev _ _ HL).
  destruct (List.find _ lru) as [c|] eqn:Hf; [|by destruct (List.find _ (rev lru))].
  apply find_some in Hf as [Hc E]. apply list_elem_of_In in Hc.
  rewrite Hmiss in E; [done|]. by apply (links_bound _ _ _ HL).
Qed.

Lemma bget_miss s a sec :
  bio_rep s a -> (size (a_mem a) < NBUF)%nat ->
  (forall i, (i < NBUF)%nat -> b_dev (node (bc_buf s) i) = ROOTDEV ->
    b_sector (node (bc_buf s) i) <> sec) ->
  exists b, (b < NBUF)%nat /\ reusable (node (bc_buf s) b) = true /\
    bget ROOTDEV sec s =
      Ret b (MkBio (alter (set_ident ROOTDEV sec B_BUSY) b (bc_buf s)) (bc_disk s)).
Proof.
  intros HR Hsize Hmiss. destruct (rep_links _ _ HR) as [lru HL].
  pose proof (bget_miss_find s lru sec HL) as Hs.
  destruct (List.find _ (rev lru)) as [b|] eqn:Hf.
  - apply find_some in Hf as [Hb Hr]. apply in_rev in Hb. apply list_elem_of_In in Hb.
    exists b. split; [by apply (links_bound _ _ _ HL)|]. split; [done|]. apply Hs.
    intros i Hi. apply not_true_iff_false. intros [E1 E2]%andb_true_iff. apply (Hmiss i Hi); lia.
  - exfalso. assert (NBUF <= size (a_mem a))%nat; [|lia]. apply (rep_full _ _ HR).
    intros i Hi. eapply (find_none _ _ Hf). apply in_rev. rewrite rev_involutive.
    apply list_elem_of_In. by apply (links_bound _ _ _ HL).
Qed.

Lemma bio_bread_hit s a sec b :
  bio_rep s a -> not_held a sec -> (b < NBUF)%nat ->
  b_dev (node (bc_buf s) b) = ROOTDEV -> b_sector (node (bc_buf s) b) = sec ->
  exists h s', bio_bread ROOTDEV sec s = Ret h s' /\ a_held a !! h = None /\
               bio_rep s' (abread h sec a).
Proof.
  intros HR Hnh Hb Hdev Hsec. pose proof (bget_hit _ _ _ _ HR Hb Hdev Hsec) as Hget.
  destruct (rep_links _ _ HR) as [lru [Hlen _]].
  destruct (rep_buf _ _ HR b Hb) as [(E & _)|(E1 & E2 & E3 & E4 & E5 & E6)];
    [rewrite Hdev in E; done|].
  rewrite Hsec in *.
  destruct (busy (node (bc_buf s) b)) eqn:Eb; [by destruct (Hnh b)|].
  exists b. eexists. split_and!; [|done|].
  - unfold bio_bread. rewrite (bind_run _ _ _ _ _ Hget). rewrite (bind_run (get _) _ _ _ _ eq_refl).
    cbn [bc_buf]. rewrite node_alter_eq by lia. cbn [b_flags set_flags].
    rewrite has_setf. unfold valid in E2. rewrite E2. cbn. done.
  - rewrite alter_as_insert by lia.
    eapply (rep_update s a); eauto; cbn; rewrite ?Hsec.
    + right. unfold valid, busy, dirty, reusable in *; cbn. unfold busy, dirty; cbn.
      autorewrite with flags. cbn. rewrite Hsec, E2, !lookup_insert_eq. cbn.
      rewrite E5. split_and!; auto; [|intros; congruence].
      destruct (has _ B_DIRTY) eqn:Ed; cbn; [done|]. do 2 f_equal. symmetry. apply E6.
      unfold busy, dirty. by rewrite Eb, Ed.
    + apply (rep_disk _ _ HR).
    + apply (rep_trace _ _ HR).
    + apply (rep_nsect _ _ HR).
    + apply (rep_blk _ _ HR).
    + intros. by rewrite lookup_insert_ne.
    + intros. by rewrite lookup_insert_ne.
    + intros j Hj Hne Hdj Hsj. apply Hne. eapply (rep_uniq _ _ HR); auto. congruence.
Qed.

Lemma bio_bread_miss s a sec :
  bio_rep s a -> 0 <= sec < a_nsect a -> (size (a_mem a) < NBUF)%nat ->
  (forall i, (i < NBUF)%nat -> b_dev (node (bc_buf s) i) = ROOTDEV ->
    b_sector (node (bc_buf s) i) <> sec) ->
  exists h s', bio_bread ROOTDEV sec s = Ret h s' /\ a_held a !! h = None /\
               bio_rep s' (abread h sec a).
Proof.
  intros HR Hsec Hsize Hmiss.
  destruct (bget_miss _ _ sec HR Hsize Hmiss) as (b & Hb & Hru & Hget).
  destruct (rep_links _ _ HR) as [lru [Hlen _]].
  set (x1 := set_ident ROOTDEV sec B_BUSY (node (bc_buf s) b)).
  destruct (drv_read_ok (bc_disk s) x1) as (d' & Hio & Hbl & Htr & Hns); try done.
  { cbn. rewrite <- (rep_nsect _ _ HR). done. }
  assert (Hnone : a_mem a !! sec = None).
  { apply eq_None_not_Some. intros Hm. destruct (rep_mem _ _ HR _ Hm) as (i & Hi & Hd & Hs).
    by eapply Hmiss. }
  assert (Hhb : a_held a !! b = None).
  { destruct (rep_buf _ _ HR b Hb) as [(_ & _ & E)|(_ & _ & _ & E & _)]; [done|].
    unfold reusable in Hru. destruct (busy _); done. }
  exists b. eexists. split_and!; [|done|].
  - unfold bio_bread. rewrite (bind_run _ _ _ _ _ Hget). rewrite (bind_run (get _) _ _ _ _ eq_refl).
    cbn [bc_buf]. rewrite node_alter_eq by lia. cbn [b_flags set_ident].
    change (negb (has B_BUSY B_VALID)) with true. cbv iota.
    unfold bind, call_iderw; cbn [bc_buf bc_disk]. rewrite node_alter_eq by lia.
    fold x1. rewrite Hio. done.
  - rewrite alter_as_insert, list_insert_insert_eq by lia.
    eapply (rep_update s a); eauto; cbn.
    + right. unfold valid, busy, dirty, reusable in *; cbn.
      rewrite !lookup_insert_eq, Hnone. cbn. rewrite <- (rep_disk _ _ HR), (rep_blk _ _ HR).
      split_and!; auto.
    + rewrite Hbl. apply (rep_disk _ _ HR).
    + rewrite Htr. apply (rep_trace _ _ HR).
    + rewrite Hns. apply (rep_nsect _ _ HR).
    + apply (rep_blk _ _ HR).
    + intros. by rewrite lookup_insert_ne.
    + intros. by rewrite lookup_insert_ne.
    + intros Hd [y Hy]. exfalso.
      destruct (rep_buf _ _ HR b Hb) as [(E & _)|(_ & _ & _ & _ & E & _)];
        [rewrite Hd in E; done|].
      rewrite Hy in E. unfold reusable in Hru. destruct (busy _), (dirty _); done.
Qed.

Lemma bio_bread_ok s a sec :
  bio_rep s a -> 0 <= sec < a_nsect a -> not_held a sec -> room_for a sec ->
  exists h s', bio_bread ROOTDEV sec s = Ret h s' /\ a_held a !! h = None /\
               bio_rep s' (abread h sec a).
Proof.
  intros HR Hsec Hnh Hroom.
  destruct (List.find (fun i => is_at ROOTDEV sec (node (bc_buf s) i)) (seq 0 NBUF)) as [i|] eqn:Hf.
  - apply find_some in Hf as [Hi%list_elem_of_In%elem_of_seq [? ?]%andb_true_iff].
    eapply (bio_bread_hit _ _ _ i); [done|done|lia|lia|lia].
  - assert (Hno : forall i, (i < NBUF)%nat -> b_dev (node (bc_buf s) i) = ROOTDEV ->
      b_sector (node (bc_buf s) i) <> sec).
    { intros i Hi Hd Hs. assert (Hin : In i (seq 0 NBUF)) by (apply in_seq; lia).
      pose proof (find_none _ _ Hf i Hin) as E. unfold is_at in E. cbn in E.
      rewrite Hd, Hs, !Z.eqb_refl in E. done. }
    apply bio_bread_miss; auto. destruct Hroom as [Hm|?]; [|done].
    destruct (rep_mem _ _ HR _ Hm) as (i & ? & ? & ?). by destruct (Hno i).
Qed.

Lemma bio_bread_busy s a sec h :
  bio_rep s a -> a_held a !! h = Some sec -> bio_bread ROOTDEV sec s = Sleep (ChBuf h) s.
Proof.
  intros HR Hh. destruct (wf_held_mem _ (bio_rep_wf _ _ HR) _ _ Hh) as [[d fl] Hm].
  destruct (rep_held_buf _ _ _ _ _ _ HR (conj Hh Hm)) as (Hlt & Hdev & _ & Hb & Hs & _).
  pose proof (bget_hit _ _ _ _ HR Hlt Hdev Hs) as Hget. rewrite Hb in Hget.
  unfold bio_bread, bind. by rewrite Hget.
Qed.

(** bio.c implements the abstract buffer cache. *)
#[export] Instance bio_cache : BufferCache (bio D).
Proof.
  refine {| bread := bio_bread; bwrite := bio_bwrite; brelse := bio_brelse;
            bp_data := fun s h => b_data (node (bc_buf s) h);
            bp_sector := fun s h => b_sector (node (bc_buf s) h);
            bp_store := bio_store; bp_dirty := bio_dirty; bc_rep := bio_rep |}.
  - apply bio_rep_wf.
  - apply bio_bread_ok.
  - intros. by eapply bio_bread_busy.
  - intros s a h sec d fl HR Hh. destruct (rep_held_buf _ _ _ _ _ _ HR Hh) as (_&_&_&_&?&?&_). done.
  - intros. by eapply bio_store_ok.
  - intros. by eapply bio_dirty_ok.
  - intros. by eapply bio_bwrite_ok.
  - intros. by eapply bio_brelse_ok.
Defined.

End Rep.

(** ** A fresh cache *)

(** The abstract state of a cache nobody has used yet. *)
Definition fresh_abuf {D} `{!DiskDriver D} (d : D) : abuf :=
  MkAbuf (drv_blocks d) (drv_trace d) (drv_nsect d) ∅ ∅.

Lemma binit_links : links (binit bcache0) (rev (seq 0 NBUF)).
Proof.
  split; [vm_compute; reflexivity|]. split; [symmetry; apply Permutation_rev|].
  vm_compute. repeat split.
Qed.

Lemma binit_nodes i :
  (i < NBUF)%nat ->
  b_dev (node (binit bcache0) i) = NODEV /\ b_flags (node (binit bcache0) i) = 0.
Proof.
  intros Hi.
  assert (H : forallb (fun i => (b_dev (node (binit bcache0) i) =? NODEV) &&
                               (b_flags (node (binit bcache0) i) =? 0)) (seq 0 NBUF) = true)
    by (vm_compute; done).
  rewrite forallb_forall in H. assert (Hin : In i (seq 0 NBUF)) by (apply in_seq; lia).
  specialize (H i Hin). apply andb_true_iff in H as [E1%Z.eqb_eq E2%Z.eqb_eq].
  exact (conj E1 E2).
Qed.

Lemma binit_rep {D} `{!DiskDriver D} (d : D) :
  (forall sec, zlen (blk (drv_blocks d) sec) = BSIZE) ->
  bio_rep (MkBio (binit bcache0) d) (fresh_abuf d).
Proof.
  intros Hlen. pose proof binit_links as HL. pose proof binit_nodes as HN.
  generalize dependent (binit bcache0). intros bs HL HN. constructor; cbn; auto.
  - by exists (rev (seq 0 NBUF)).
  - intros i Hi. left. destruct (HN i Hi). done.
  - intros i j Hi _ Hd. destruct (HN i Hi) as [E _]. rewrite E in Hd. done.
  - intros sec [? ?]. done.
  - intros h sec. by rewrite lookup_empty.
Qed.

(** ** Properties *)

Section Properties.
Context {D : Type} `{!DiskDriver D}.
Implicit Types (s : bio D) (a : abuf).

(** C3: the linked-list cache of bio.c refines the abstract buffer cache.  From
    related states, bread of a free sector returns a fresh handle (whatever
    recycling it takes), bread of a held one sleeps, and stores, bwrite and
    brelse return and act on the abstract state as specified; contents, dirty
    pinning, holders, the medium and its write trace all stay related. *)
Theorem bio_refines s a :
  bio_rep s a ->
  (forall sec, 0 <= sec < a_nsect a -> not_held a sec -> room_for a sec ->
     exists h s', bio_bread ROOTDEV sec s = Ret h s' /\ a_held a !! h = None /\
                  bio_rep s' (abread h sec a) /\ b_data (node (bc_buf s') h) = view a sec) /\
  (forall sec h, a_held a !! h = Some sec -> bio_bread ROOTDEV sec s = Sleep (ChBuf h) s) /\
  (forall h sec d fl, held a h sec d fl ->
     (forall d', zlen d' = BSIZE ->
        exists s', bio_store h d' s = Ret tt s' /\ bio_rep s' (abset sec d' fl a)) /\
     (exists s', bio_dirty h s = Ret tt s' /\ bio_rep s' (abset sec d true a)) /\
     (0 <= sec < a_nsect a -> exists s', bio_bwrite h s = Ret tt s' /\ bio_rep s' (abwrite sec d a)) /\
     (fl = true \/ d = blk (a_disk a) sec ->
        exists s', bio_brelse h s = Ret tt s' /\ bio_rep s' (abrelse h sec fl a))).
Proof.
  intros HR. split_and!.
  - intros sec Hs Hn Hr. destruct (bio_bread_ok s a sec) as (h & s' & Hrun & Hf & HR'); auto.
    exists h, s'. split_and!; auto.
    by destruct (rep_held_buf _ _ _ _ _ _ HR' (held_abread a h sec)) as (_ & _ & _ & _ & _ & ? & _).
  - intros sec h. by apply bio_bread_busy.
  - intros h sec d fl Hh. split_and!; intros; eauto using bio_store_ok, bio_dirty_ok, bio_bwrite_ok, bio_brelse_ok.
Qed.

(** replacement is least-recently-used.  brelse moves the buffer to the
    front of the recency list; a later bget of an uncached sector takes the
    hindmost buffer that is neither busy nor dirty, and panics exactly when
    there is none. *)
Theorem brelse_bget_lru s l1 b l2 sec :
  links (bc_buf s) (l1 ++ b :: l2) -> busy (node (bc_buf s) b) = true ->
  (forall i, (i < NBUF)%nat -> is_at ROOTDEV sec (node (bc_buf s) i) = false) ->
  exists s', bio_brelse b s = Ret tt s' /\ links (bc_buf s') (b :: l1 ++ l2) /\
    bget ROOTDEV sec s' =
      match List.find (fun i => reusable (node (bc_buf s') i)) (rev (b :: l1 ++ l2)) with
      | Some c => Ret c (MkBio (alter (set_ident ROOTDEV sec B_BUSY) c (bc_buf s')) (bc_disk s'))
      | None => Fail (FPanic "bget: no buffers")
      end.
Proof.
  intros HL Hb Hmiss. pose proof (move_front_links _ _ _ _ HL) as HL1.
  set (f := fun x => set_flags (clrf (b_flags x) B_BUSY) x).
  exists (MkBio (alter f b (move_front b (bc_buf s))) (bc_disk s)). split.
  { unfold bio_brelse. rewrite (bind_run (get _) _ _ _ _ eq_refl). unfold busy in Hb. rewrite Hb. done. }
  assert (Hlen : length (move_front b (bc_buf s)) = S NBUF) by apply HL1.
  assert (Hlt : (b < NBUF)%nat) by (apply (links_bound _ _ b HL); set_solver).
  assert (HL2 : links (alter f b (move_front b (bc_buf s))) (b :: l1 ++ l2)).
  { eapply links_same; [by rewrite length_alter| | |exact HL1];
      intros i; rewrite node_alter by lia; by case_decide. }
  split; [exact HL2|]. apply bget_miss_find; [exact HL2|]. intros i Hi. cbn [bc_buf].
  rewrite <- (Hmiss i Hi). pose proof (core_move_front b (bc_buf s) i) as Hc. unfold core in Hc.
  injection Hc as _ E1 E2 _. unfold is_at. rewrite node_alter by lia.
  case_decide; cbn [f set_flags b_dev b_sector]; by rewrite E1, E2.
Qed.

End Properties.

(** A fresh cache over an all-zero memory disk of 64 sectors. *)
Definition bio_ex : bio Memide.memdisk := MkBio (binit bcache0) (Memide.MkMemdisk ∅ 64 []).

Lemma bio_ex_rep : bio_rep bio_ex (fresh_abuf (Memide.MkMemdisk ∅ 64 [])).
Proof.
  refine (binit_rep (Memide.MkMemdisk ∅ 64 []) _). intros sec. unfold blk. cbn.
  rewrite lookup_empty. by vm_compute.
Qed.

Lemma bio_refines_witness :
  exists h s', bio_bread ROOTDEV 7 bio_ex = Ret h s' /\ b_data (node (bc_buf s') h) = zero_block.
Proof.
  destruct (bio_refines _ _ bio_ex_rep) as (Hread & _ & _).
  destruct (Hread 7) as (h & s' & Hr & _ & _ & Hd).
  - cbn. lia.
  - intros h. cbn. by rewrite lookup_empty.
  - right. cbn [a_mem fresh_abuf]. rewrite map_size_empty. unfold NBUF. lia.
  - exists h, s'. split; [exact Hr|]. rewrite Hd. by vm_compute.
Defined.

(** The same cache after bread of sector 7: buffer 0 is taken. *)
Definition bio_ex1 : bio Memide.memdisk :=
  match bio_bread ROOTDEV 7 bio_ex with Ret _ s => s | _ => bio_ex end.

Lemma brelse_bget_lru_witness :
  exists s', bio_brelse 0 bio_ex1 = Ret tt s' /\ links (bc_buf s') (0%nat :: rev (seq 1 29)).
Proof.
  destruct (brelse_bget_lru bio_ex1 (rev (seq 1 29)) 0 [] 9) as (s' & Hr & HL & Hg).
  - split; [vm_compute; reflexivity|]. split; [symmetry; apply (Permutation_rev (seq 0 NBUF))|].
    vm_compute. repeat split.
  - vm_compute. reflexivity.
  - intros i Hi. refine (proj1 (negb_true_iff _)
      (forallb_seq (fun i => negb (is_at ROOTDEV 9 (node (bc_buf bio_ex1) i))) NBUF _ i Hi)).
    vm_compute. reflexivity.
  - rewrite app_nil_r in HL. exists s'. exact (conj Hr HL).
Defined.
