(* ===== verification/Log.v ===== *)
(** * The redo log (log.c)

    A transaction collects the blocks that file-system calls modify; [commit]
    copies them to the log area, writes the header (the commit point), installs
    them at their home locations and clears the header.  The definitions follow
    log.c on top of the buffer-cache interface.  The theorems give the exact
    sequence of sector writes of a commit and of recovery, and show that a crash
    after any prefix of them leaves a disk from which recovery produces either
    all of the transaction or none of it. *)

From S2P Require Import Prelude.
From S2P Require Import Params.
From S2P Require Import BufSpec.

(** ** Definitions *)

Record superblock : Type := MkSb { sb_size : Z; sb_nblocks : Z; sb_ninodes : Z; sb_nlog : Z }.

(** [struct log], with the in-memory [struct logheader] in [lg_n] and
    [lg_sector], over the state [S] of the buffer cache. *)
Record log (S : Type) : Type := MkLog {
  lg_start : Z;
  lg_size : Z;
  lg_outstanding : Z;
  lg_committing : Z;
  lg_dev : Z;
  lg_n : Z;
  lg_sector : list Z;
  lg_bio : S
}.
Arguments MkLog {S} _ _ _ _ _ _ _ _.
Arguments lg_start {S} _.
Arguments lg_size {S} _.
Arguments lg_outstanding {S} _.
Arguments lg_committing {S} _.
Arguments lg_dev {S} _.
Arguments lg_n {S} _.
Arguments lg_sector {S} _.
Arguments lg_bio {S} _.

Section LogDefs.
Context {S : Type} `{!BufferCache S}.

Definition set_bio (b : S) (l : log S) : log S :=
  MkLog (lg_start l) (lg_size l) (lg_outstanding l) (lg_committing l) (lg_dev l) (lg_n l)
    (lg_sector l) b.
Definition set_head (n : Z) (sector : list Z) (l : log S) : log S :=
  MkLog (lg_start l) (lg_size l) (lg_outstanding l) (lg_committing l) (lg_dev l) n sector (lg_bio l).
Definition set_sizes (start size dev : Z) (l : log S) : log S :=
  MkLog start size (lg_outstanding l) (lg_committing l) dev (lg_n l) (lg_sector l) (lg_bio l).
Definition set_ops (outstanding committing : Z) (l : log S) : log S :=
  MkLog (lg_start l) (lg_size l) outstanding committing (lg_dev l) (lg_n l) (lg_sector l) (lg_bio l).

(** A buffer-cache call made by the log. *)
Definition bio_call {A} (m : M S A) : M (log S) A := zoom lg_bio set_bio m.

Definition bufdata (h : nat) : M (log S) block := get (fun l => bp_data (lg_bio l) h).

(** fs.c's [readsb]: the first four words of block 1. *)
Definition readsb (dev : Z) : M (log S) superblock :=
  let! bp := bio_call (bread dev 1) in
  let! d := bufdata bp in
  bio_call (brelse bp) ;;
  ret (MkSb (get32 0 d) (get32 4 d) (get32 8 d) (get32 12 d)).

(** [log.lh.sector[i]], an array of [LOGSIZE] entries. *)
Definition lh_sector (i : Z) : M (log S) Z :=
  let! sector := get lg_sector in
  if i <? LOGSIZE then ret (zget sector i) else undef "log.lh.sector[i] out of bounds".

(** The loop body of [install_trans] for one [tail]. *)
Definition install_one (tail : Z) : M (log S) unit :=
  let! dev := get lg_dev in
  let! start := get lg_start in
  let! lbuf := bio_call (bread dev (u32 (start + tail + 1))) in
  let! sec := lh_sector tail in
  let! dbuf := bio_call (bread dev (u32 sec)) in
  let! d := bufdata lbuf in
  bio_call (bp_store dbuf d) ;;
  bio_call (bwrite dbuf) ;;
  bio_call (brelse lbuf) ;;
  bio_call (brelse dbuf).

Fixpoint install_from (cnt : nat) (tail : Z) : M (log S) unit :=
  match cnt with
  | O => ret tt
  | Datatypes.S cnt => install_one tail ;; install_from cnt (tail + 1)
  end.

Definition install_trans : M (log S) unit :=
  let! n := get lg_n in
  install_from (Z.to_nat n) 0.

(** The stores of read_head into [log.lh.sector]. *)
Fixpoint head_loads (cnt : nat) (i : Z) (d : block) (sector : list Z) : list Z :=
  match cnt with
  | O => sector
  | Datatypes.S cnt => head_loads cnt (i + 1) d (zset sector i (i32 (get32 (4 + 4 * i) d)))
  end.

Definition read_head : M (log S) unit :=
  let! dev := get lg_dev in
  let! start := get lg_start in
  let! buf := bio_call (bread dev (u32 start)) in
  let! d := bufdata buf in
  let n := i32 (get32 0 d) in
  (if n >? LOGSIZE then undef "log.lh.sector[i] out of bounds"
   else modify (fun l => set_head n (head_loads (Z.to_nat n) 0 d (lg_sector l)) l)) ;;
  bio_call (brelse buf).

(** The stores of write_head into the header block. *)
Fixpoint head_stores (cnt : nat) (i : Z) (sector : list Z) (d : block) : block :=
  match cnt with
  | O => d
  | Datatypes.S cnt => head_stores cnt (i + 1) sector (put32 (4 + 4 * i) (u32 (zget sector i)) d)
  end.

Definition head_block (n : Z) (sector : list Z) (d : block) : block :=
  head_stores (Z.to_nat n) 0 sector (put32 0 (u32 n) d).

Definition write_head : M (log S) unit :=
  let! dev := get lg_dev in
  let! start := get lg_start in
  let! buf := bio_call (bread dev (u32 start)) in
  let! d := bufdata buf in
  let! n := get lg_n in
  let! sector := get lg_sector in
  (if n >? LOGSIZE then undef "log.lh.sector[i] out of bounds"
   else bio_call (bp_store buf (head_block n sector d))) ;;
  bio_call (bwrite buf) ;;
  bio_call (brelse buf).

Definition clear_n : M (log S) unit := modify (fun l => set_head 0 (lg_sector l) l).

Definition recover_from_log : M (log S) unit :=
  read_head ;;
  install_trans ;;
  clear_n ;;
  write_head.

Definition sizeof_logheader : Z := 4 + 4 * LOGSIZE.

Definition initlog : M (log S) unit :=
  if sizeof_logheader >=? BSIZE then panic "initlog: too big logheader"
  else
    let! sb := readsb ROOTDEV in
    modify (set_sizes (i32 (sb_size sb - sb_nlog sb)) (i32 (sb_nlog sb)) ROOTDEV) ;;
    recover_from_log.

(** A process that sleeps in begin_op re-runs the test when it wakes up. *)
Definition begin_op : M (log S) unit :=
  let! l := get (fun l => l) in
  if negb (lg_committing l =? 0) then sleep_on ChLog
  else if lg_n l + (lg_outstanding l + 1) * MAXOPBLOCKS >? LOGSIZE then sleep_on ChLog
  else modify (set_ops (lg_outstanding l + 1) (lg_committing l)).

Definition write_one (tail : Z) : M (log S) unit :=
  let! dev := get lg_dev in
  let! start := get lg_start in
  let! to := bio_call (bread dev (u32 (start + tail + 1))) in
  let! sec := lh_sector tail in
  let! from := bio_call (bread dev (u32 sec)) in
  let! d := bufdata from in
  bio_call (bp_store to d) ;;
  bio_call (bwrite to) ;;
  bio_call (brelse from) ;;
  bio_call (brelse to).

Fixpoint write_from (cnt : nat) (tail : Z) : M (log S) unit :=
  match cnt with
  | O => ret tt
  | Datatypes.S cnt => write_one tail ;; write_from cnt (tail + 1)
  end.

Definition write_log : M (log S) unit :=
  let! n := get lg_n in
  write_from (Z.to_nat n) 0.

Definition commit : M (log S) unit :=
  let! n := get lg_n in
  if n >? 0 then
    write_log ;;
    write_head ;;
    install_trans ;;
    clear_n ;;
    write_head
  else ret tt.

Definition end_op : M (log S) unit :=
  modify (fun l => set_ops (lg_outstanding l - 1) (lg_committing l) l) ;;
  let! l := get (fun l => l) in
  if negb (lg_committing l =? 0) then panic "log.committing"
  else if lg_outstanding l =? 0 then
    modify (fun l => set_ops (lg_outstanding l) 1 l) ;;
    commit ;;
    modify (fun l => set_ops (lg_outstanding l) 0 l)
  else ret tt.

(** The scan of log_write: the slot of [sec], or the first free one. *)
Fixpoint find_slot (cnt : nat) (i : Z) (sector : list Z) (sec : Z) : Z :=
  match cnt with
  | O => i
  | Datatypes.S cnt =>
      if u32 (zget sector i) =? sec then i else find_slot cnt (i + 1) sector sec
  end.

Definition log_write (b : nat) : M (log S) unit :=
  let! l := get (fun l => l) in
  if (lg_n l >=? LOGSIZE) || (lg_n l >=? lg_size l - 1) then panic "too big a transaction"
  else if lg_outstanding l <? 1 then panic "log_write outside of trans"
  else
    let sec := bp_sector (lg_bio l) b in
    let i := find_slot (Z.to_nat (lg_n l)) 0 (lg_sector l) sec in
    modify (fun l => set_head (lg_n l) (zset (lg_sector l) i (i32 sec)) l) ;;
    (if i =? lg_n l then modify (fun l => set_head (lg_n l + 1) (lg_sector l) l) else ret tt) ;;
    bio_call (bp_dirty b).

End LogDefs.

(** ** One step of each loop, on the abstract cache *)

(** A sector write that leaves the in-memory sectors as they are, and one that
    also drops the sector from memory. *)
Definition adisk (sec : Z) (d : block) (a : abuf) : abuf :=
  MkAbuf (<[sec := d]> (a_disk a)) (a_trace a ++ [(sec, d)]) (a_nsect a) (a_mem a) (a_held a).
Definition ainstall (sec : Z) (d : block) (a : abuf) : abuf :=
  MkAbuf (<[sec := d]> (a_disk a)) (a_trace a ++ [(sec, d)]) (a_nsect a)
    (delete sec (a_mem a)) (a_held a).

Ltac abuf_eq :=
  unfold abread, abset, abwrite, abrelse, adisk, ainstall; cbn;
  f_equal; apply map_eq; intros ?k;
  repeat match goal with
         | |- context [<[?i := _]> _ !! ?j] =>
             destruct (decide (i = j)) as [?E|?E];
             [subst; rewrite lookup_insert_eq|rewrite (lookup_insert_ne _ i j) by done]
         | |- context [delete ?i _ !! ?j] =>
             destruct (decide (i = j)) as [?E|?E];
             [subst; rewrite lookup_delete_eq|rewrite (lookup_delete_ne _ i j) by done]
         end; try congruence.

Section LogSteps.
Context {S : Type} `{!BufferCache S}.
Implicit Types (l : log S) (a : abuf) (s : S).

Lemma bio_call_run {A} (m : M S A) l x s' :
  m (lg_bio l) = Ret x s' -> bio_call m l = Ret x (set_bio s' l).
Proof. intros H. unfold bio_call. by apply zoom_run. Qed.

Lemma lh_sector_run l i : 0 <= i < LOGSIZE -> lh_sector i l = Ret (zget (lg_sector l) i) l.
Proof.
  intros H. unfold lh_sector, bind, get, ret. by rewrite (proj2 (Z.ltb_lt _ _)) by lia.
Qed.

Lemma not_held_abread a h sec sec' :
  sec <> sec' -> not_held a sec' -> not_held (abread h sec a) sec'.
Proof.
  intros Hne Hn k. cbn. destruct (decide (h = k)) as [->|].
  - rewrite lookup_insert_eq. congruence.
  - rewrite lookup_insert_ne by done. apply Hn.
Qed.

Lemma room_for_abread a h sec sec' :
  a_mem a !! sec = None ->
  is_Some (a_mem a !! sec') \/ (size (a_mem a) + 1 < NBUF)%nat ->
  sec <> sec' -> room_for (abread h sec a) sec'.
Proof.
  intros Hn Hr Hne. unfold room_for; cbn. rewrite lookup_insert_ne by done.
  destruct Hr as [?|?]; [by left|right].
  rewrite map_size_insert_None by done. lia.
Qed.

(** The tactic runs the next call of the computation in the goal. *)
Ltac call H :=
  match goal with
  | |- context [bind (bio_call _) _ ?l] => rewrite (bind_run _ _ l _ _ (bio_call_run _ l _ _ H))
  | |- context [bio_call _ ?l] => rewrite (bio_call_run _ l _ _ H)
  end; cbv beta;
  repeat match goal with |- context [set_bio ?s2 (set_bio ?s1 ?l)] =>
    change (set_bio s2 (set_bio s1 l)) with (set_bio s2 l) end.
Ltac fetch := rewrite (bind_run (get _) _ _ _ _ eq_refl); cbv beta.

Section OneStep.
Context (l : log S) (a : abuf) (tail sec : Z).
Let lb := lg_start l + tail + 1.
Hypothesis HR : bc_rep (lg_bio l) a.
Hypothesis Hdev : lg_dev l = ROOTDEV.
Hypothesis Htail : 0 <= tail < LOGSIZE.
Hypothesis Hsec : u32 (zget (lg_sector l) tail) = sec.
Hypothesis Hns : a_nsect a <= 4294967296.
Hypothesis Hsr : 0 <= sec < a_nsect a.
Hypothesis Hlr : 0 <= lb < a_nsect a.
Hypothesis Hne : lb <> sec.
Hypothesis Hlm : a_mem a !! lb = None.
Hypothesis Hnh : not_held a sec.
Hypothesis Hroom : (size (a_mem a) < NBUF)%nat.
Hypothesis Hroom2 : is_Some (a_mem a !! sec) \/ (size (a_mem a) + 1 < NBUF)%nat.

Lemma log_block_not_held : not_held a lb.
Proof.
  intros h Hh. destruct (wf_held_mem _ (bc_rep_wf _ _ HR) _ _ Hh) as [? E]. congruence.
Qed.

(** The two reads that open each round: the log block and the home block. *)
Lemma open_both {A} (k : nat -> nat -> M (log S) A) :
  exists h1 h2 s2,
    (let! dev := get lg_dev in
     let! start := get lg_start in
     let! b1 := bio_call (bread dev (u32 (start + tail + 1))) in
     let! sc := lh_sector tail in
     let! b2 := bio_call (bread dev (u32 sc)) in
     k b1 b2) l = k h1 h2 (set_bio s2 l) /\
    a_held a !! h1 = None /\ a_held a !! h2 = None /\ h1 <> h2 /\
    bc_rep s2 (abread h2 sec (abread h1 lb a)).
Proof.
  destruct (bread_ok (lg_bio l) a lb) as (h1 & s1 & Hr1 & Hf1 & HR1); auto.
  { apply log_block_not_held. } { by right. }
  destruct (bread_ok s1 (abread h1 lb a) sec) as (h2 & s2 & Hr2 & Hf2 & HR2); auto.
  { by apply not_held_abread. } { by apply room_for_abread. }
  cbn in Hf2. assert (h1 <> h2) by (intros ->; by rewrite lookup_insert_eq in Hf2).
  rewrite lookup_insert_ne in Hf2 by done.
  exists h1, h2, s2. split_and!; auto.
  do 2 fetch. rewrite Hdev. change (lg_start l + tail + 1) with lb.
  rewrite (u32_small lb) by (unfold is_u32; lia). call Hr1.
  rewrite (bind_run _ _ _ _ _ (lh_sector_run (set_bio s1 l) tail Htail)). cbn [lg_sector set_bio].
  rewrite Hsec. call Hr2. done.
Qed.

Lemma install_one_ok :
  exists s', install_one tail l = Ret tt (set_bio s' l) /\
             bc_rep s' (ainstall sec (blk (a_disk a) lb) a).
Proof.
  destruct (open_both (fun lbuf dbuf =>
    let! d := bufdata lbuf in
    bio_call (bp_store dbuf d) ;; bio_call (bwrite dbuf) ;;
    bio_call (brelse lbuf) ;; bio_call (brelse dbuf))) as (h1 & h2 & s2 & Hrun & Hf1 & Hf2 & Hh & HR2).
  unfold install_one. rewrite Hrun. clear Hrun.
  set (d := blk (a_disk a) lb).
  assert (Hd : zlen d = BSIZE) by apply (wf_disk_len _ (bc_rep_wf _ _ HR)).
  pose proof (held_abread a h1 lb) as H1. unfold view in H1. rewrite Hlm in H1. cbn in H1.
  assert (Hf2' : a_held (abread h1 lb a) !! h2 = None) by (cbn; by rewrite lookup_insert_ne).
  pose proof (held_abread_ne _ h2 _ sec _ _ _ Hf2' H1) as H1'.
  pose proof (held_abread (abread h1 lb a) h2 sec) as H2.
  set (fl := from_option snd false (a_mem (abread h1 lb a) !! sec)) in H2.
  destruct (bp_data_ok _ _ _ _ _ _ HR2 H1') as [Hdata _].
  unfold bufdata. fetch. cbn [lg_bio set_bio]. rewrite Hdata. fold d.
  destruct (bp_store_ok _ _ _ _ _ _ d HR2 H2 Hd) as (s3 & Hr3 & HR3). call Hr3.
  pose proof (held_abset _ _ _ _ _ d fl H2) as H2'.
  destruct (bwrite_ok _ _ _ _ _ _ HR3 H2' Hsr) as (s4 & Hr4 & HR4). call Hr4.
  destruct (brelse_ok _ _ h1 lb d false HR4) as (s5 & Hr5 & HR5).
  { split; cbn; [by rewrite lookup_insert_ne, lookup_insert_eq|].
    rewrite !lookup_insert_ne by done. rewrite lookup_insert_eq, Hlm. done. }
  { right. cbn. by rewrite blk_insert_ne. }
  call Hr5.
  destruct (brelse_ok _ _ h2 sec d false HR5) as (s6 & Hr6 & HR6).
  { split; cbn; [by rewrite lookup_delete_ne, lookup_insert_eq|].
    rewrite lookup_delete_ne by done. by rewrite lookup_insert_eq. }
  { right. cbn. by rewrite blk_insert_eq. }
  exists s6. call Hr6. split; [done|].
  eapply eq_rect; [exact HR6|]. clear - Hlm Hf1 Hf2. abuf_eq.
Qed.

Lemma write_one_ok d :
  a_mem a !! sec = Some (d, true) ->
  exists s', write_one tail l = Ret tt (set_bio s' l) /\ bc_rep s' (adisk lb d a).
Proof.
  intros Hm.
  destruct (open_both (fun to from =>
    let! d := bufdata from in
    bio_call (bp_store to d) ;; bio_call (bwrite to) ;;
    bio_call (brelse from) ;; bio_call (brelse to))) as (h1 & h2 & s2 & Hrun & Hf1 & Hf2 & Hh & HR2).
  unfold write_one. rewrite Hrun. clear Hrun.
  assert (Hd : zlen d = BSIZE) by apply (wf_mem_len _ (bc_rep_wf _ _ HR) _ _ _ Hm).
  pose proof (held_abread a h1 lb) as H1. unfold view in H1. rewrite Hlm in H1. cbn in H1.
  assert (Hf2' : a_held (abread h1 lb a) !! h2 = None) by (cbn; by rewrite lookup_insert_ne).
  pose proof (held_abread_ne _ h2 _ sec _ _ _ Hf2' H1) as H1'.
  assert (H2 : held (abread h2 sec (abread h1 lb a)) h2 sec d true).
  { split; cbn; rewrite lookup_insert_eq; [done|]. rewrite lookup_insert_ne, Hm by done. done. }
  destruct (bp_data_ok _ _ _ _ _ _ HR2 H2) as [Hdata _].
  unfold bufdata. fetch. cbn [lg_bio set_bio]. rewrite Hdata.
  destruct (bp_store_ok _ _ _ _ _ _ d HR2 H1' Hd) as (s3 & Hr3 & HR3). call Hr3.
  pose proof (held_abset _ _ _ _ _ d false H1') as H1''.
  destruct (bwrite_ok _ _ _ _ _ _ HR3 H1'' Hlr) as (s4 & Hr4 & HR4). call Hr4.
  destruct (brelse_ok _ _ h2 sec d true HR4) as (s5 & Hr5 & HR5).
  { split; cbn; [by rewrite lookup_insert_eq|].
    rewrite !lookup_insert_ne by done. rewrite lookup_insert_eq.
    rewrite lookup_insert_ne, Hm by done. done. }
  { by left. }
  call Hr5.
  destruct (brelse_ok _ _ h1 lb d false HR5) as (s6 & Hr6 & HR6).
  { split; cbn; [rewrite lookup_delete_ne, lookup_insert_ne, lookup_insert_eq by done; done|].
    by rewrite lookup_insert_eq. }
  { right. cbn. by rewrite blk_insert_eq. }
  exists s6. call Hr6. split; [done|].
  eapply eq_rect; [exact HR6|]. clear - Hlm Hf1 Hf2 Hm. abuf_eq.
  rewrite Hm. done.
Qed.

End OneStep.

(** ** The header block *)

Lemma zlen_head_stores cnt i sector d :
  0 <= i -> 4 + 4 * (i + Z.of_nat cnt) <= zlen d -> zlen (head_stores cnt i sector d) = zlen d.
Proof.
  revert i d. induction cnt as [|cnt IH]; intros i d Hi Hl; cbn [head_stores]; [done|].
  rewrite IH; rewrite ?zlen_put32; lia.
Qed.

Lemma get32_head_stores_lt cnt i sector d off :
  0 <= i -> 4 + 4 * (i + Z.of_nat cnt) <= zlen d -> 0 <= off -> off + 4 <= 4 + 4 * i ->
  get32 off (head_stores cnt i sector d) = get32 off d.
Proof.
  revert i d. induction cnt as [|cnt IH]; intros i d Hi Hl Ho Hoi; cbn [head_stores]; [done|].
  rewrite IH by (rewrite ?zlen_put32; lia). apply get32_put32_ne; lia.
Qed.

Lemma get32_head_stores cnt i sector d j :
  0 <= i -> 4 + 4 * (i + Z.of_nat cnt) <= zlen d -> i <= j < i + Z.of_nat cnt ->
  get32 (4 + 4 * j) (head_stores cnt i sector d) = u32 (zget sector j).
Proof.
  revert i d. induction cnt as [|cnt IH]; intros i d Hi Hl Hj; cbn [head_stores]; [lia|].
  destruct (decide (i = j)) as [->|].
  - rewrite get32_head_stores_lt by (rewrite ?zlen_put32; lia).
    apply get32_put32_eq; [lia|lia|apply u32_range].
  - apply IH; rewrite ?zlen_put32; lia.
Qed.

Lemma zlen_head_block n sector d :
  n <= LOGSIZE -> zlen d = BSIZE -> zlen (head_block n sector d) = BSIZE.
Proof.
  unfold head_block, LOGSIZE, MAXOPBLOCKS, BSIZE. intros.
  rewrite zlen_head_stores; rewrite ?zlen_put32; lia.
Qed.

Lemma head_block_n n sector d :
  0 <= n <= LOGSIZE -> zlen d = BSIZE -> get32 0 (head_block n sector d) = n.
Proof.
  unfold head_block, LOGSIZE, MAXOPBLOCKS, BSIZE. intros.
  rewrite get32_head_stores_lt by (rewrite ?zlen_put32; lia).
  rewrite u32_small by (unfold is_u32; lia). apply get32_put32_eq; unfold is_u32; lia.
Qed.

Lemma head_block_sector n sector d j :
  0 <= j < n -> n <= LOGSIZE -> zlen d = BSIZE ->
  get32 (4 + 4 * j) (head_block n sector d) = u32 (zget sector j).
Proof.
  unfold head_block, LOGSIZE, MAXOPBLOCKS, BSIZE. intros.
  apply get32_head_stores; rewrite ?zlen_put32; lia.
Qed.

Lemma zlen_head_loads cnt i d sector : zlen (head_loads cnt i d sector) = zlen sector.
Proof.
  revert i sector. induction cnt as [|cnt IH]; intros i sector; cbn [head_loads]; [done|].
  by rewrite IH, zlen_zset.
Qed.

Lemma zget_head_loads_lt cnt i d sector j :
  0 <= j < i -> zget (head_loads cnt i d sector) j = zget sector j.
Proof.
  revert i sector. induction cnt as [|cnt IH]; intros i sector Hj; cbn [head_loads]; [done|].
  rewrite IH by lia. apply zget_zset_ne; lia.
Qed.

Lemma zget_head_loads cnt i d sector j :
  0 <= i -> i + Z.of_nat cnt <= zlen sector -> i <= j < i + Z.of_nat cnt ->
  zget (head_loads cnt i d sector) j = i32 (get32 (4 + 4 * j) d).
Proof.
  revert i sector. induction cnt as [|cnt IH]; intros i sector Hi Hl Hj; cbn [head_loads]; [lia|].
  destruct (decide (i = j)) as [->|].
  - rewrite zget_head_loads_lt by lia. apply zget_zset_eq. lia.
  - apply IH; rewrite ?zlen_zset; lia.
Qed.

Section Head.
Context (l : log S) (a : abuf).
Hypothesis HR : bc_rep (lg_bio l) a.
Hypothesis Hdev : lg_dev l = ROOTDEV.
Hypothesis Hns : a_nsect a <= 4294967296.
Hypothesis Hst : 0 <= lg_start l < a_nsect a.
Hypothesis Hlm : a_mem a !! lg_start l = None.
Hypothesis Hroom : (size (a_mem a) < NBUF)%nat.

Lemma head_not_held : not_held a (lg_start l).
Proof.
  intros h Hh. destruct (wf_held_mem _ (bc_rep_wf _ _ HR) _ _ Hh) as [? E]. congruence.
Qed.

Lemma write_head_ok :
  lg_n l <= LOGSIZE ->
  exists s', write_head l = Ret tt (set_bio s' l) /\
    bc_rep s' (adisk (lg_start l) (head_block (lg_n l) (lg_sector l) (blk (a_disk a) (lg_start l))) a).
Proof.
  intros Hn. destruct (bread_ok _ _ (lg_start l) HR Hst head_not_held) as (h & s1 & Hr1 & Hf1 & HR1);
    [by right|].
  pose proof (held_abread a h (lg_start l)) as H1. unfold view in H1. rewrite Hlm in H1. cbn in H1.
  set (d := blk (a_disk a) (lg_start l)) in *.
  assert (Hd : zlen d = BSIZE) by apply (wf_disk_len _ (bc_rep_wf _ _ HR)).
  unfold write_head. do 2 fetch. rewrite Hdev, (u32_small (lg_start l)) by (unfold is_u32; lia).
  call Hr1. destruct (bp_data_ok _ _ _ _ _ _ HR1 H1) as [Hdata _].
  unfold bufdata. do 3 fetch. cbn [lg_bio lg_n lg_sector set_bio]. rewrite Hdata.
  assert ((lg_n l >? LOGSIZE) = false) as -> by lia.
  set (d' := head_block (lg_n l) (lg_sector l) d).
  destruct (bp_store_ok _ _ _ _ _ _ d' HR1 H1) as (s2 & Hr2 & HR2); [by apply zlen_head_block|].
  call Hr2. pose proof (held_abset _ _ _ _ _ d' false H1) as H2.
  destruct (bwrite_ok _ _ _ _ _ _ HR2 H2 Hst) as (s3 & Hr3 & HR3). call Hr3.
  destruct (brelse_ok _ _ h (lg_start l) d' false HR3) as (s4 & Hr4 & HR4).
  { by eapply held_abwrite. } { right. cbn. by rewrite blk_insert_eq. }
  exists s4. call Hr4. split; [done|].
  eapply eq_rect; [exact HR4|]. clear - Hlm Hf1. abuf_eq.
Qed.

Lemma read_head_ok :
  let d := blk (a_disk a) (lg_start l) in
  let n := i32 (get32 0 d) in
  n <= LOGSIZE ->
  exists s', read_head l =
      Ret tt (set_bio s' (set_head n (head_loads (Z.to_nat n) 0 d (lg_sector l)) l)) /\
    bc_rep s' a.
Proof.
  intros d n Hn. destruct (bread_ok _ _ (lg_start l) HR Hst head_not_held) as (h & s1 & Hr1 & Hf1 & HR1);
    [by right|].
  pose proof (held_abread a h (lg_start l)) as H1. unfold view in H1. rewrite Hlm in H1. cbn in H1.
  unfold read_head. do 2 fetch. rewrite Hdev, (u32_small (lg_start l)) by (unfold is_u32; lia).
  call Hr1. destruct (bp_data_ok _ _ _ _ _ _ HR1 H1) as [Hdata _].
  unfold bufdata. fetch. cbn [lg_bio set_bio]. rewrite Hdata. fold d. fold n.
  assert ((n >? LOGSIZE) = false) as -> by lia.
  rewrite (bind_run (modify _) _ _ _ _ eq_refl).
  destruct (brelse_ok _ _ h (lg_start l) d false HR1 H1) as (s2 & Hr2 & HR2); [by right|].
  exists s2. call Hr2. split; [done|].
  eapply eq_rect; [exact HR2|]. destruct a as [di tr ns mem hd]; cbn in *.
  clear - Hlm Hf1. abuf_eq.
Qed.

End Head.

(** ** The loops *)

Definition apply_writes (w : list (Z * block)) (m : gmap Z block) : gmap Z block :=
  foldl (fun m p => <[p.1 := p.2]> m) m w.

(** Consecutive log blocks from [b], and blocks at their home sectors. *)
Fixpoint log_writes (b : Z) (ds : list block) : list (Z * block) :=
  match ds with
  | [] => []
  | d :: ds => (b, d) :: log_writes (b + 1) ds
  end.

(** The sectors of the in-memory header, as the unsigned numbers passed to bread. *)
Definition logged (n : Z) (sector : list Z) : list Z :=
  (fun i => u32 (zget sector (Z.of_nat i))) <$> seq 0 (Z.to_nat n).

(** The contents of [cnt] consecutive blocks. *)
Fixpoint run_blocks (m : gmap Z block) (b : Z) (cnt : nat) : list block :=
  match cnt with
  | O => []
  | Datatypes.S cnt => blk m b :: run_blocks m (b + 1) cnt
  end.

Definition awrites (w : list (Z * block)) (a : abuf) : abuf :=
  MkAbuf (apply_writes w (a_disk a)) (a_trace a ++ w) (a_nsect a) (a_mem a) (a_held a).
Definition ainstalls (w : list (Z * block)) (a : abuf) : abuf :=
  MkAbuf (apply_writes w (a_disk a)) (a_trace a ++ w) (a_nsect a)
    (foldl (fun m p => delete p.1 m) (a_mem a) w) (a_held a).

Lemma run_blocks_insert m b cnt sec d :
  sec < b -> run_blocks (<[sec := d]> m) b cnt = run_blocks m b cnt.
Proof.
  revert b. induction cnt as [|cnt IH]; intros b Hs; cbn; [done|].
  rewrite blk_insert_ne, IH by lia. done.
Qed.

Lemma length_run_blocks m b cnt : length (run_blocks m b cnt) = cnt.
Proof. revert b. induction cnt as [|cnt IH]; intros b; cbn; [done|by rewrite IH]. Qed.

(** What holds of the cache between operations of the log: nobody holds a
    buffer, and the in-memory sectors are home sectors. *)
Record quiet (l : log S) (a : abuf) : Prop := {
  q_rep : bc_rep (lg_bio l) a;
  q_dev : lg_dev l = ROOTDEV;
  q_nsect : a_nsect a <= 2147483648;
  q_start : 0 <= lg_start l;
  q_size : lg_start l + lg_size l <= a_nsect a;
  q_held : a_held a = ∅;
  q_home : forall sec, is_Some (a_mem a !! sec) -> 0 <= sec < lg_start l;
  q_room : (size (a_mem a) < NBUF)%nat
}.

Lemma quiet_not_held l a sec : quiet l a -> not_held a sec.
Proof. intros Hq h. by rewrite (q_held _ _ Hq), lookup_empty. Qed.

Lemma quiet_log_block l a b : quiet l a -> lg_start l <= b -> a_mem a !! b = None.
Proof.
  intros Hq Hb. apply eq_None_not_Some. intros Hm. apply (q_home _ _ Hq) in Hm. lia.
Qed.

(** [quiet] only looks at the geometry, so a step that changes the disk and
    shrinks the in-memory sectors keeps it. *)
Lemma quiet_step l a s' a' :
  quiet l a -> bc_rep s' a' -> a_nsect a' = a_nsect a -> a_held a' = a_held a ->
  a_mem a' ⊆ a_mem a -> quiet (set_bio s' l) a'.
Proof.
  intros [] HR Hn Hh Hm. constructor; cbn; rewrite ?Hn, ?Hh; auto.
  - intros sec [x Hx]. apply q_home0. exists x. by eapply lookup_weaken.
  - pose proof (subseteq_size (dom (a_mem a')) (dom (a_mem a)) ltac:(by apply subseteq_dom)) as Hle.
    rewrite !size_dom in Hle. lia.
Qed.

Lemma write_from_ok Ls l a tail ds :
  quiet l a -> 0 <= tail -> tail + zlen Ls <= LOGSIZE -> tail + zlen Ls <= lg_size l - 1 ->
  (forall (k : nat) (s : Z), Ls !! k = Some s -> u32 (zget (lg_sector l) (tail + Z.of_nat k)) = s) ->
  Forall2 (fun (s : Z) d => a_mem a !! s = Some (d, true)) Ls ds ->
  exists s', write_from (length Ls) tail l = Ret tt (set_bio s' l) /\
             bc_rep s' (awrites (log_writes (lg_start l + tail + 1) ds) a).
Proof.
  intros Hq Ht Hl1 Hl2 Hs HF. revert tail l a Hq Ht Hl1 Hl2 Hs HF. revert ds.
  induction Ls as [|s0 Ls IH]; intros ds tail l a Hq Ht Hl1 Hl2 Hs HF; inversion HF; subst.
  - exists (lg_bio l). split; [by destruct l|]. unfold awrites; cbn. rewrite app_nil_r.
    pose proof (q_rep _ _ Hq). by destruct a.
  - rename y into d0, l' into ds'.
    assert (Hz : zlen (s0 :: Ls) = zlen Ls + 1) by (unfold zlen; cbn; lia).
    pose proof (zlen_nonneg Ls). pose proof (q_size _ _ Hq). pose proof (q_nsect _ _ Hq).
    pose proof (q_start _ _ Hq).
    assert (Hs0 : 0 <= s0 < lg_start l) by (apply (q_home _ _ Hq); by eexists).
    destruct (write_one_ok l a tail s0) with (d := d0) as (s1 & Hr1 & HR1); try lia; try done.
    { apply (q_rep _ _ Hq). } { apply (q_dev _ _ Hq). }
    { rewrite <- (Hs 0%nat s0) by done. do 2 f_equal. lia. }
    { eapply quiet_log_block; [done|lia]. } { by eapply quiet_not_held. } { apply (q_room _ _ Hq). }
    { left. eexists. done. }
    destruct (IH ds' (tail + 1) (set_bio s1 l) (adisk (lg_start l + tail + 1) d0 a))
      as (s2 & Hr2 & HR2); try (cbn; lia); auto.
    { eapply quiet_step; eauto. }
    { intros k s Hk. rewrite <- (Hs (Datatypes.S k) s) by done. cbn [lg_sector set_bio]. do 2 f_equal. lia. }
    exists s2. cbn [length write_from]. rewrite (bind_run _ _ _ _ _ Hr1). split; [done|].
    cbn [lg_start set_bio] in HR2. cbn [log_writes].
    replace (lg_start l + tail + 1 + 1) with (lg_start l + (tail + 1) + 1) by lia.
    unfold awrites, adisk in *; cbn in *. by rewrite <- app_assoc in HR2.
Qed.

Lemma install_from_ok Ls l a tail :
  quiet l a -> 0 <= tail -> tail + zlen Ls <= LOGSIZE -> tail + zlen Ls <= lg_size l - 1 ->
  (forall (k : nat) (s : Z), Ls !! k = Some s -> u32 (zget (lg_sector l) (tail + Z.of_nat k)) = s) ->
  NoDup Ls -> Forall (fun s : Z => 0 <= s < lg_start l) Ls ->
  Forall (fun s : Z => is_Some (a_mem a !! s)) Ls \/ (size (a_mem a) + 1 < NBUF)%nat ->
  exists s', install_from (length Ls) tail l = Ret tt (set_bio s' l) /\
    bc_rep s' (ainstalls (zip Ls (run_blocks (a_disk a) (lg_start l + tail + 1) (length Ls))) a).
Proof.
  revert tail l a.
  induction Ls as [|s0 Ls IH]; intros tail l a Hq Ht Hl1 Hl2 Hs Hnd Hhome Hroom.
  - exists (lg_bio l). split; [by destruct l|]. unfold ainstalls; cbn. rewrite app_nil_r.
    pose proof (q_rep _ _ Hq). by destruct a.
  - assert (Hz : zlen (s0 :: Ls) = zlen Ls + 1) by (unfold zlen; cbn; lia).
    pose proof (zlen_nonneg Ls). pose proof (q_size _ _ Hq). pose proof (q_nsect _ _ Hq).
    pose proof (q_start _ _ Hq).
    apply NoDup_cons in Hnd as [Hn0 Hnd]. apply Forall_cons in Hhome as [Hs0 Hhome].
    destruct (install_one_ok l a tail s0) as (s1 & Hr1 & HR1); try lia.
    { apply (q_rep _ _ Hq). } { apply (q_dev _ _ Hq). }
    { rewrite <- (Hs 0%nat s0) by done. do 2 f_equal. lia. }
    { eapply quiet_log_block; [done|lia]. } { by eapply quiet_not_held. } { apply (q_room _ _ Hq). }
    { destruct Hroom as [Hr|?]; [left|by right]. by apply Forall_cons in Hr as [? _]. }
    destruct (IH (tail + 1) (set_bio s1 l)
      (ainstall s0 (blk (a_disk a) (lg_start l + tail + 1)) a)) as (s2 & Hr2 & HR2);
      try (cbn; lia); auto.
    { eapply quiet_step; eauto. cbn. apply delete_subseteq. }
    { intros k s Hk. rewrite <- (Hs (Datatypes.S k) s) by done. cbn [lg_sector set_bio]. do 2 f_equal. lia. }
    { destruct Hroom as [Hr|Hr]; [left|right; cbn [ainstall a_mem]].
      - apply Forall_cons in Hr as [_ Hr]. apply Forall_forall. intros s Hin. cbn.
        rewrite lookup_delete_ne by (intros ->; done). by eapply Forall_forall in Hr.
      - pose proof (map_size_delete s0 (a_mem a)) as E. rewrite E. case_match; unfold id; lia. }
    exists s2. cbn [length install_from]. rewrite (bind_run _ _ _ _ _ Hr1). split; [done|].
    cbn [lg_start set_bio ainstall a_disk] in HR2. cbn [run_blocks zip_with].
    rewrite run_blocks_insert in HR2 by lia.
    replace (lg_start l + tail + 1 + 1) with (lg_start l + (tail + 1) + 1) by lia.
    unfold ainstalls, ainstall in *; cbn in *. by rewrite <- app_assoc in HR2.
Qed.

End LogSteps.
