(* ===== verification/LogCrash.v ===== *)
(** * Crash safety of the log

    The sequence of sector writes made by a commit and by recovery, what
    recovery makes of the disk after a crash in the middle of either, and the
    reservation discipline of begin_op, log_write and end_op. *)

From S2P Require Import Prelude.
From S2P Require Import Params.
From S2P Require Import BufSpec.
From S2P Require Import Log.

(** ** Sequences of sector writes *)

Lemma apply_writes_app w1 w2 m :
  apply_writes (w1 ++ w2) m = apply_writes w2 (apply_writes w1 m).
Proof. unfold apply_writes. by rewrite foldl_app. Qed.

Lemma blk_apply_notin w m b : b ∉ w.*1 -> blk (apply_writes w m) b = blk m b.
Proof.
  revert m. induction w as [|[s d] w IH]; intros m Hb; cbn in *; [done|].
  apply not_elem_of_cons in Hb as [Hne Hb].
  change (blk (apply_writes w (<[s := d]> m)) b = blk m b).
  rewrite IH by done. apply blk_insert_ne. congruence.
Qed.

Lemma log_writes_fst b ds x : x ∈ (log_writes b ds).*1 -> b <= x < b + zlen ds.
Proof.
  unfold zlen. revert b. induction ds as [|d ds IH]; intros b; cbn; [by intros ?%elem_of_nil|].
  intros [->|Hx]%elem_of_cons; [lia|]. apply IH in Hx. lia.
Qed.

Lemma run_blocks_apply_log ds b m :
  run_blocks (apply_writes (log_writes b ds) m) b (length ds) = ds.
Proof.
  revert b m. induction ds as [|d ds IH]; intros b m; cbn; [done|].
  change (foldl _ _ (log_writes (b + 1) ds)) with (apply_writes (log_writes (b + 1) ds) (<[b := d]> m)).
  f_equal; [|apply IH]. rewrite blk_apply_notin; [apply blk_insert_eq|].
  intros H%log_writes_fst. lia.
Qed.

Lemma run_blocks_ext m m' b cnt :
  (forall x, b <= x -> blk m' x = blk m x) -> run_blocks m' b cnt = run_blocks m b cnt.
Proof.
  revert b. induction cnt as [|cnt IH]; intros b H; cbn; [done|].
  rewrite H, IH; [done|intros; apply H; lia|lia].
Qed.

Lemma zip_fst_sub (Ls : list Z) (ds : list block) x : x ∈ (zip Ls ds).*1 -> x ∈ Ls.
Proof.
  revert ds. induction Ls as [|s Ls IH]; intros [|d ds]; cbn; try (by intros ?%elem_of_nil).
  intros [->|H]%elem_of_cons; [left|right; eauto].
Qed.

Lemma blk_apply_zip Ls ds m (i : nat) b d :
  NoDup Ls -> Ls !! i = Some b -> ds !! i = Some d ->
  blk (apply_writes (zip Ls ds) m) b = d.
Proof.
  intros Hnd. revert ds m i. induction Ls as [|s Ls IH]; intros [|d0 ds] m i Hi Hd; try done.
  apply NoDup_cons in Hnd as [Hs Hnd]. cbn [zip_with].
  change (apply_writes ((s, d0) :: zip Ls ds) m) with (apply_writes (zip Ls ds) (<[s := d0]> m)).
  destruct i as [|i]; cbn in *; simplify_eq.
  - rewrite blk_apply_notin; [apply blk_insert_eq|]. intros H%zip_fst_sub. done.
  - by eapply IH.
Qed.

(** ** The log on disk *)

(** The count and the sectors of the on-disk header, and the disk as recovery
    leaves it (header aside). *)
Definition hdr_n (m : gmap Z block) (start : Z) : Z := i32 (get32 0 (blk m start)).
Definition hdr_list (m : gmap Z block) (start : Z) : list Z :=
  (fun i => get32 (4 + 4 * Z.of_nat i) (blk m start)) <$> seq 0 (Z.to_nat (hdr_n m start)).
Definition recovered (m : gmap Z block) (start : Z) : gmap Z block :=
  apply_writes
    (zip (hdr_list m start) (run_blocks m (start + 1) (Z.to_nat (hdr_n m start)))) m.

(** A header recovery can handle: it fits the log and lists distinct home sectors. *)
Record hdr_ok (m : gmap Z block) (start size : Z) : Prop := {
  ho_len : zlen (blk m start) = BSIZE;
  ho_max : hdr_n m start <= LOGSIZE;
  ho_size : hdr_n m start <= size - 1;
  ho_nodup : NoDup (hdr_list m start);
  ho_home : Forall (fun s : Z => 0 <= s < start) (hdr_list m start)
}.

(** Clearing the count clears the header. *)
Lemma hdr_cleared m start sector d :
  zlen d = BSIZE -> hdr_n (<[start := head_block 0 sector d]> m) start = 0.
Proof.
  intros Hd. unfold hdr_n. rewrite blk_insert_eq, head_block_n by (unfold LOGSIZE, MAXOPBLOCKS; lia || done).
  done.
Qed.

Lemma recovered_empty m start : hdr_n m start <= 0 -> recovered m start = m.
Proof.
  intros H. unfold recovered, hdr_list. replace (Z.to_nat (hdr_n m start)) with O by lia. done.
Qed.

(** ** Commit *)

Section Commit.
Context {S : Type} `{!BufferCache S}.
Implicit Types (l : log S) (a : abuf).

(** The state of the log inside and between transactions: [Ls] are the sectors
    logged so far, in order; they are exactly the dirty ones. *)
Record tx (l : log S) (a : abuf) (Ls : list Z) : Prop := {
  tx_rep : bc_rep (lg_bio l) a;
  tx_dev : lg_dev l = ROOTDEV;
  tx_nsect : a_nsect a <= 2147483648;
  tx_start : 0 <= lg_start l;
  tx_size : lg_start l + lg_size l <= a_nsect a;
  tx_lgsize : 1 <= lg_size l;
  tx_pinned : zlen Ls < Z.of_nat NBUF;
  tx_n : lg_n l = zlen Ls;
  tx_max : zlen Ls <= lg_size l - 1;
  tx_logged : logged (lg_n l) (lg_sector l) = Ls;
  tx_arr : zlen (lg_sector l) = LOGSIZE;
  tx_nodup : NoDup Ls;
  tx_home : Forall (fun s : Z => 0 <= s < lg_start l) Ls;
  tx_dirty : forall sec, (exists d, a_mem a !! sec = Some (d, true)) <-> sec ∈ Ls
}.

Lemma tx_fits l a Ls : tx l a Ls -> zlen Ls < LOGSIZE.
Proof. intros Ht. pose proof (tx_pinned _ _ _ Ht). unfold NBUF, LOGSIZE, MAXOPBLOCKS in *. lia. Qed.

Lemma tx_mem l a Ls sec d fl :
  tx l a Ls -> a_held a = ∅ -> a_mem a !! sec = Some (d, fl) -> fl = true /\ sec ∈ Ls.
Proof.
  intros Ht Hh Hm. destruct fl.
  - split; [done|]. apply (tx_dirty _ _ _ Ht). eauto.
  - exfalso. destruct (wf_mem_why _ (bc_rep_wf _ _ (tx_rep _ _ _ Ht)) _ _ Hm) as [h Hx].
    rewrite Hh, lookup_empty in Hx. done.
Qed.

Lemma tx_mem_size l a Ls : tx l a Ls -> a_held a = ∅ -> size (a_mem a) = length Ls.
Proof.
  intros Ht Hh. rewrite <- size_dom, <- (size_list_to_set (C := gset Z) Ls) by apply (tx_nodup _ _ _ Ht).
  f_equal. apply set_eq. intros sec. rewrite elem_of_dom, elem_of_list_to_set. split.
  - intros [[d fl] Hm]. by eapply tx_mem.
  - intros Hs. apply (tx_dirty _ _ _ Ht) in Hs as [d ?]. by eexists.
Qed.

Lemma tx_quiet l a Ls : tx l a Ls -> a_held a = ∅ -> quiet l a.
Proof.
  intros Ht Hh. pose proof (tx_mem_size _ _ _ Ht Hh) as Hsz. destruct Ht as [].
  constructor; auto.
  - intros sec [[d fl] Hm]. eapply Forall_forall in tx_home0; [done|].
    apply tx_dirty0. exists d. destruct fl; [done|].
    destruct (wf_mem_why _ (bc_rep_wf _ _ tx_rep0) _ _ Hm) as [h Hx].
    rewrite Hh, lookup_empty in Hx. done.
  - rewrite Hsz. unfold zlen, LOGSIZE, MAXOPBLOCKS, NBUF in *. lia.
Qed.

Lemma logged_lookup n sector (k : nat) s :
  logged n sector !! k = Some s -> u32 (zget sector (Z.of_nat k)) = s.
Proof.
  unfold logged. rewrite list_lookup_fmap. intros (i & Hi & ->)%fmap_Some.
  by apply lookup_seq in Hi as [-> _].
Qed.

(** The new contents of the logged blocks, and the writes a commit makes. *)
Definition new_data (a : abuf) (Ls : list Z) : list block := view a <$> Ls.

Definition commit_head (l : log S) (a : abuf) : block :=
  head_block (lg_n l) (lg_sector l) (blk (a_disk a) (lg_start l)).

Definition commit_writes (l : log S) (a : abuf) (Ls : list Z) : list (Z * block) :=
  log_writes (lg_start l + 1) (new_data a Ls) ++
  (lg_start l, commit_head l a) ::
  zip Ls (new_data a Ls) ++
  [(lg_start l, head_block 0 (lg_sector l) (commit_head l a))].

Lemma foldl_delete_all (Ls : list Z) (ds : list block) (mm : gmap Z (block * bool)) :
  length ds = length Ls -> (forall sec, is_Some (mm !! sec) -> sec ∈ Ls) ->
  foldl (fun m p => delete p.1 m) mm (zip Ls ds) = ∅.
Proof.
  revert ds mm. induction Ls as [|s Ls IH]; intros [|d ds] mm Hl Hm; try done; cbn in *.
  - apply map_eq. intros i. rewrite lookup_empty. apply eq_None_not_Some. intros H%Hm.
    by apply elem_of_nil in H.
  - apply IH; [lia|]. intros sec [x Hx]. apply lookup_delete_Some in Hx as [Hne Hx].
    assert (H : sec ∈ s :: Ls) by (apply Hm; by eexists).
    apply elem_of_cons in H as [->|]; done.
Qed.

Lemma commit_run l a Ls :
  tx l a Ls -> a_held a = ∅ -> Ls <> [] ->
  exists s', commit l = Ret tt (set_head 0 (lg_sector l) (set_bio s' l)) /\
    bc_rep s' (MkAbuf (apply_writes (commit_writes l a Ls) (a_disk a))
                 (a_trace a ++ commit_writes l a Ls) (a_nsect a) ∅ ∅).
Proof.
  intros Ht Hh Hne. pose proof (tx_quiet _ _ _ Ht Hh) as Hq.
  pose proof (tx_n _ _ _ Ht) as Hn. pose proof (tx_max _ _ _ Ht) as Hmax.
  pose proof (tx_lgsize _ _ _ Ht) as Hls. pose proof (tx_fits _ _ _ Ht) as Hfit. pose proof (tx_size _ _ _ Ht) as Hsz.
  pose proof (tx_start _ _ _ Ht) as Hst. pose proof (tx_nsect _ _ _ Ht) as Hns.
  pose proof (tx_home _ _ _ Ht) as Hhome.
  assert (Hpos : 0 < zlen Ls) by (clear - Hne; unfold zlen; destruct Ls; [congruence|cbn; lia]).
  set (ds := new_data a Ls). set (start := lg_start l) in *.
  assert (Hcnt : Z.to_nat (lg_n l) = length Ls) by (rewrite Hn; unfold zlen; lia).
  assert (Hds : Forall2 (fun (s : Z) d => a_mem a !! s = Some (d, true)) Ls ds).
  { unfold ds, new_data. apply Forall2_fmap_r, Forall_Forall2_diag, Forall_forall. intros s Hs.
    apply (tx_dirty _ _ _ Ht) in Hs as [d Hd]. unfold compose, view. by rewrite Hd. }
  assert (Hlds : length ds = length Ls) by (unfold ds, new_data; by rewrite length_fmap).
  assert (Hsecs : forall (k : nat) (s : Z), Ls !! k = Some s -> u32 (zget (lg_sector l) (0 + Z.of_nat k)) = s).
  { intros k s Hk. rewrite <- (tx_logged _ _ _ Ht) in Hk. by apply logged_lookup in Hk. }
  destruct (write_from_ok Ls l a 0 ds) as (s1 & Hr1 & HR1); auto; try lia.
  change (lg_start l + 0 + 1) with (start + 0 + 1) in HR1. rewrite Z.add_0_r in HR1.
  set (w1 := log_writes (start + 1) ds) in *. set (a1 := awrites w1 a) in *.
  assert (Hq1 : quiet (set_bio s1 l) a1) by (by eapply quiet_step).
  destruct (write_head_ok (set_bio s1 l) a1) as (s2 & Hr2 & HR2).
  { apply (q_rep _ _ Hq1). } { apply (q_dev _ _ Hq1). } { cbn. lia. } { cbn. lia. }
  { eapply quiet_log_block; [done|cbn; lia]. } { apply (q_room _ _ Hq1). } { cbn; lia. }
  assert (Hst1 : blk (a_disk a1) start = blk (a_disk a) start).
  { apply blk_apply_notin. intros H%log_writes_fst. lia. }
  cbn [lg_start lg_n lg_sector set_bio] in HR2. fold start in HR2. rewrite Hst1 in HR2.
  change (head_block (lg_n l) (lg_sector l) (blk (a_disk a) start)) with (commit_head l a) in HR2.
  set (hb := commit_head l a) in *. set (a2 := adisk start hb a1) in *.
  assert (Hq2 : quiet (set_bio s2 l) a2)
    by (change (set_bio s2 l) with (set_bio s2 (set_bio s1 l)); by eapply quiet_step).
  destruct (install_from_ok Ls (set_bio s2 l) a2 0) as (s3 & Hr3 & HR3); auto; try (cbn; lia).
  { apply (tx_nodup _ _ _ Ht). }
  { left. apply Forall_forall. intros s Hs. apply (tx_dirty _ _ _ Ht) in Hs as [d Hd]. by exists (d, true). }
  assert (Hrb : run_blocks (a_disk a2) (start + 1) (length Ls) = ds).
  { cbn. rewrite run_blocks_insert by lia. rewrite <- Hlds. apply run_blocks_apply_log. }
  cbn [lg_start set_bio] in HR3. fold start in HR3.
  replace (start + 0 + 1) with (start + 1) in HR3 by lia. rewrite Hrb in HR3.
  set (a3 := ainstalls (zip Ls ds) a2) in *.
  assert (Hm3 : a_mem a3 = ∅).
  { apply foldl_delete_all; [done|]. intros sec [[d fl] Hm]. by eapply tx_mem. }
  assert (Hq3 : quiet (set_bio s3 l) a3).
  { change (set_bio s3 l) with (set_bio s3 (set_bio s2 l)).
    eapply quiet_step; eauto. rewrite Hm3. apply map_empty_subseteq. }
  set (l3 := set_head 0 (lg_sector l) (set_bio s3 l)).
  destruct (write_head_ok l3 a3) as (s4 & Hr4 & HR4).
  { apply (q_rep _ _ Hq3). } { apply (q_dev _ _ Hq3). } { cbn. lia. } { cbn. lia. }
  { by rewrite Hm3. } { rewrite Hm3. unfold NBUF. rewrite map_size_empty. lia. }
  { cbn. unfold LOGSIZE, MAXOPBLOCKS. lia. }
  assert (Hst3 : blk (a_disk a3) start = hb).
  { cbn. rewrite blk_apply_notin; [apply blk_insert_eq|]. intros H%zip_fst_sub.
    eapply Forall_forall in Hhome; [|done]. lia. }
  cbn [lg_start lg_n lg_sector set_bio set_head l3] in HR4. fold start in HR4. rewrite Hst3 in HR4.
  exists s4. split.
  - unfold commit. rewrite (bind_run (get _) _ _ _ _ eq_refl).
    assert ((lg_n l >? 0) = true) as -> by lia.
    unfold write_log. unfold bind at 1. rewrite (bind_run (get _) _ _ _ _ eq_refl), Hcnt, Hr1.
    rewrite (bind_run _ _ _ _ _ Hr2). change (set_bio s2 (set_bio s1 l)) with (set_bio s2 l).
    unfold install_trans. unfold bind at 1. rewrite (bind_run (get _) _ _ _ _ eq_refl).
    cbn [lg_n set_bio]. rewrite Hcnt, Hr3. change (set_bio s3 (set_bio s2 l)) with (set_bio s3 l).
    unfold clear_n. rewrite (bind_run (modify _) _ _ _ _ eq_refl). exact Hr4.
  - eapply eq_rect; [exact HR4|]. unfold adisk; cbn [a_disk a_trace a_nsect a_mem a_held a3 ainstalls].
    f_equal.
    + unfold commit_writes. fold ds start hb. rewrite apply_writes_app.
      change (log_writes (start + 1) ds) with w1. cbn [apply_writes foldl].
      change (foldl _ ?m (zip Ls ds ++ ?t)) with (apply_writes (zip Ls ds ++ t) m).
      rewrite apply_writes_app. done.
    + unfold commit_writes. fold ds start hb w1. cbn. by rewrite <- !app_assoc.
    + done.
    + done.
Qed.

(** ** Recovery *)

(** A log right after boot: nothing in memory, the geometry known. *)
Record booted (l : log S) (a : abuf) : Prop := {
  bt_quiet : quiet l a;
  bt_mem : a_mem a = ∅;
  bt_arr : zlen (lg_sector l) = LOGSIZE
}.

Definition recover_writes (l : log S) (m : gmap Z block) : list (Z * block) :=
  let start := lg_start l in
  let d := blk m start in
  let n := hdr_n m start in
  zip (hdr_list m start) (run_blocks m (start + 1) (Z.to_nat n)) ++
  [(start, head_block 0 (head_loads (Z.to_nat n) 0 d (lg_sector l)) d)].

Lemma hdr_list_loads m start sector (k : nat) s :
  zlen sector = LOGSIZE -> hdr_n m start <= LOGSIZE ->
  Forall (fun s : Z => 0 <= s < 2147483648) (hdr_list m start) ->
  hdr_list m start !! k = Some s ->
  u32 (zget (head_loads (Z.to_nat (hdr_n m start)) 0 (blk m start) sector) (Z.of_nat k)) = s.
Proof.
  intros Hl Hn HF Hk. pose proof (Forall_lookup_1 _ _ _ _ HF Hk) as Hs.
  unfold hdr_list in Hk. rewrite list_lookup_fmap in Hk.
  apply fmap_Some in Hk as (i & Hi & ->). apply lookup_seq in Hi as [-> Hi].
  cbv beta in Hs. rewrite Nat.add_0_l in *. rewrite zget_head_loads by lia.
  rewrite i32_small by lia. apply u32_small. unfold is_u32. lia.
Qed.

Lemma recover_run l a :
  booted l a -> hdr_ok (a_disk a) (lg_start l) (lg_size l) -> 1 <= lg_size l ->
  exists s' sector',
    recover_from_log l = Ret tt (set_head 0 sector' (set_bio s' l)) /\
    zlen sector' = LOGSIZE /\
    bc_rep s' (MkAbuf (apply_writes (recover_writes l (a_disk a)) (a_disk a))
                 (a_trace a ++ recover_writes l (a_disk a)) (a_nsect a) ∅ ∅).
Proof.
  intros [Hq Hmem Harr] Ho Hsz1. pose proof (q_size _ _ Hq). pose proof (q_nsect _ _ Hq).
  pose proof (q_start _ _ Hq).
  set (start := lg_start l) in *. set (n := hdr_n (a_disk a) start).
  set (d := blk (a_disk a) start). set (sector' := head_loads (Z.to_nat n) 0 d (lg_sector l)).
  destruct (read_head_ok l a) as (s1 & Hr1 & HR1).
  { apply (q_rep _ _ Hq). } { apply (q_dev _ _ Hq). } { lia. } { fold start; lia. }
  { by rewrite Hmem. } { apply (q_room _ _ Hq). } { apply (ho_max _ _ _ Ho). }
  fold start d in Hr1. change (i32 (get32 0 d)) with n in Hr1. fold sector' in Hr1.
  set (l1 := set_bio s1 (set_head n sector' l)) in *.
  assert (Hq1 : quiet l1 a) by (destruct Hq; constructor; auto).
  set (Ls := hdr_list (a_disk a) start).
  assert (HLs : length Ls = Z.to_nat n) by (unfold Ls, hdr_list; by rewrite length_fmap, length_seq).
  pose proof (ho_max _ _ _ Ho) as Hmx. pose proof (ho_size _ _ _ Ho) as Hms.
  pose proof (ho_home _ _ _ Ho) as Hhome. fold n in Hmx, Hms.
  destruct (install_from_ok Ls l1 a 0) as (s2 & Hr2 & HR2); auto.
  { lia. }
  { unfold zlen, LOGSIZE, MAXOPBLOCKS in *. lia. }
  { cbn. unfold zlen. lia. }
  { intros k s Hk. apply hdr_list_loads; auto. eapply Forall_impl; [exact Hhome|]. intros; cbn in *. lia. }
  { apply (ho_nodup _ _ _ Ho). }
  { right. rewrite Hmem, map_size_empty. unfold NBUF. lia. }
  change (lg_start l1) with start in HR2. replace (start + 0 + 1) with (start + 1) in HR2 by lia.
  rewrite HLs in Hr2, HR2. set (w := zip Ls (run_blocks (a_disk a) (start + 1) (Z.to_nat n))) in *.
  set (a2 := ainstalls w a) in *.
  assert (Hm2 : a_mem a2 = ∅).
  { cbn. apply foldl_delete_all; [by rewrite length_run_blocks|]. rewrite Hmem.
    intros sec [? Hx]. by rewrite lookup_empty in Hx. }
  set (l2 := set_head 0 sector' (set_bio s2 l)).
  destruct (write_head_ok l2 a2) as (s3 & Hr3 & HR3).
  { exact HR2. } { apply (q_dev _ _ Hq). } { cbn; lia. } { cbn; fold start; lia. }
  { by rewrite Hm2. } { rewrite Hm2, map_size_empty. unfold NBUF. lia. }
  { cbn. unfold LOGSIZE, MAXOPBLOCKS. lia. }
  assert (Hst2 : blk (a_disk a2) start = d).
  { cbn. apply blk_apply_notin. intros Hx%zip_fst_sub.
    eapply Forall_forall in Hhome; [|done]. lia. }
  cbn [lg_start lg_n lg_sector set_bio set_head l2] in HR3. fold start in HR3. rewrite Hst2 in HR3.
  exists s3, sector'. split_and!.
  - unfold recover_from_log. rewrite (bind_run _ _ _ _ _ Hr1).
    unfold install_trans. unfold bind at 1. rewrite (bind_run (get _) _ _ _ _ eq_refl).
    change (lg_n l1) with n. rewrite Hr2. unfold clear_n.
    rewrite (bind_run (modify _) _ _ _ _ eq_refl). exact Hr3.
  - unfold sector'. by rewrite zlen_head_loads.
  - eapply eq_rect; [exact HR3|]. unfold adisk, recover_writes.
    fold start d. change (hdr_n (a_disk a) start) with n. fold sector' Ls w.
    cbn [a_disk a_trace a_nsect a_mem a_held a2 ainstalls]. f_equal.
    + by rewrite apply_writes_app.
    + by rewrite <- app_assoc.
    + done.
    + apply (q_held _ _ Hq).
Qed.

End Commit.

(** ** Crash points *)

Lemma length_log_writes b ds : length (log_writes b ds) = length ds.
Proof. revert b. induction ds as [|d ds IH]; intros b; cbn; [done|by rewrite IH]. Qed.

Lemma take_fst_sub {A} (k : nat) (w : list (Z * A)) x : x ∈ (take k w).*1 -> x ∈ w.*1.
Proof. rewrite fmap_take. intros H. apply elem_of_take in H as (i & H & _). by eapply list_elem_of_lookup_2. Qed.

(** The disk of a transaction whose header is written, whatever part of it has
    been installed: recovery finishes the installation. *)
Lemma recovered_committed (m m0 : gmap Z block) start size Ls ds hb :
  blk m start = hb -> zlen hb = BSIZE ->
  i32 (get32 0 hb) = zlen Ls -> zlen Ls <= LOGSIZE -> zlen Ls <= size - 1 ->
  (forall (i : nat) s, Ls !! i = Some s -> get32 (4 + 4 * Z.of_nat i) hb = s) ->
  NoDup Ls -> Forall (fun s : Z => 0 <= s < start) Ls -> length ds = length Ls ->
  run_blocks m (start + 1) (length Ls) = ds ->
  (forall b, 0 <= b < start -> b ∉ Ls -> blk m b = blk m0 b) ->
  hdr_ok m start size /\
  (forall b, 0 <= b < start ->
    (forall (i : nat) d, Ls !! i = Some b -> ds !! i = Some d -> blk (recovered m start) b = d) /\
    (b ∉ Ls -> blk (recovered m start) b = blk m0 b)).
Proof.
  intros Hh Hlen Hn Hmax Hsz Hsec Hnd Hhome Hlds Hrun Hout.
  assert (Hcnt : Z.to_nat (hdr_n m start) = length Ls)
    by (unfold hdr_n; rewrite Hh, Hn; unfold zlen; lia).
  assert (HL : hdr_list m start = Ls).
  { unfold hdr_list. rewrite Hcnt, Hh. apply list_eq. intros i. rewrite list_lookup_fmap.
    destruct (decide (i < length Ls)%nat) as [Hi|Hi].
    - rewrite lookup_seq_lt by done. cbn. pose proof (lookup_lt_is_Some_2 Ls i Hi) as [s Hs].
      rewrite Hs. f_equal. by apply Hsec.
    - rewrite lookup_seq_ge by lia. cbn. symmetry. apply lookup_ge_None_2. lia. }
  split.
  - constructor; rewrite ?HL; unfold hdr_n; rewrite ?Hh, ?Hn; auto.
  - intros b Hb. unfold recovered. rewrite HL, Hcnt, Hrun. split.
    + intros i d Hi Hd. by eapply blk_apply_zip.
    + intros Hni. rewrite blk_apply_notin; [by apply Hout|]. intros H%zip_fst_sub. done.
Qed.

Lemma hdr_ok_empty m start size :
  zlen (blk m start) = BSIZE -> hdr_n m start = 0 -> 1 <= size -> hdr_ok m start size.
Proof.
  intros Hl Hn Hs. constructor; unfold hdr_list; rewrite ?Hn; try done; try lia; constructor.
Qed.

(** The three phases of a commit as a sequence of sector writes over [m0]:
    the log blocks, the header [hb], the home blocks, the cleared header. *)
Section Phases.
Context (m0 : gmap Z block) (start size : Z) (Ls : list Z) (ds : list block) (hb : block).
Definition phase1 : list (Z * block) := log_writes (start + 1) ds.
Definition disk1 : gmap Z block := <[start := hb]> (apply_writes phase1 m0).

Lemma phase1_above x : x ∈ phase1.*1 -> start < x.
Proof. intros Hx%log_writes_fst. lia. Qed.

Lemma disk1_home b : b < start -> blk disk1 b = blk m0 b.
Proof.
  intros Hb. unfold disk1. rewrite blk_insert_ne by lia. apply blk_apply_notin.
  intros ?%phase1_above. lia.
Qed.

Hypothesis Hlen : zlen hb = BSIZE.
Hypothesis Hhn : i32 (get32 0 hb) = zlen Ls.
Hypothesis Hsec : forall (i : nat) s, Ls !! i = Some s -> get32 (4 + 4 * Z.of_nat i) hb = s.
Hypothesis Hmax : zlen Ls <= LOGSIZE.
Hypothesis Hsz : zlen Ls <= size - 1.
Hypothesis Hnd : NoDup Ls.
Hypothesis Hhome : Forall (fun s : Z => 0 <= s < start) Ls.
Hypothesis Hlds : length ds = length Ls.

Lemma disk1_log : run_blocks disk1 (start + 1) (length Ls) = ds.
Proof using Hlds.
  unfold disk1. rewrite run_blocks_insert by lia. rewrite <- Hlds. apply run_blocks_apply_log.
Qed.

(** Before the header is written the log is still empty. *)
Lemma crash_logging (k : nat) :
  hdr_n m0 start = 0 -> zlen (blk m0 start) = BSIZE -> 
  let m := apply_writes (take k phase1) m0 in
  hdr_ok m start size /\ (forall b, b < start -> blk (recovered m start) b = blk m0 b).
Proof using Hlen Hhn Hsec Hmax Hsz Hnd Hhome Hlds.
  intros H0 Hl0 m. pose proof (zlen_nonneg Ls).
  assert (Hold : forall b, b <= start -> blk m b = blk m0 b).
  { intros b Hb. apply blk_apply_notin. intros Hx%take_fst_sub%phase1_above. lia. }
  assert (Hn0 : hdr_n m start = 0) by (unfold hdr_n; rewrite Hold by lia; done).
  split; [apply hdr_ok_empty; rewrite ?Hold by lia; auto; lia|].
  intros b Hb. rewrite recovered_empty by lia. apply Hold. lia.
Qed.

(** With the header written, and any part of the blocks installed. *)
Lemma crash_installing (j : nat) :
  let m := apply_writes (take j (zip Ls ds)) disk1 in
  hdr_ok m start size /\
  (forall b, 0 <= b < start -> blk (recovered m start) b = blk (apply_writes (zip Ls ds) m0) b).
Proof using Hlen Hhn Hsec Hmax Hsz Hnd Hhome Hlds.
  intros m.
  assert (Hm : forall x, x ∉ Ls -> blk m x = blk disk1 x).
  { intros x Hx. apply blk_apply_notin. intros Hx'%take_fst_sub%zip_fst_sub. done. }
  assert (Hge : forall x, start <= x -> blk m x = blk disk1 x).
  { intros x Hx. apply Hm. intros Hin. eapply Forall_forall in Hhome; [|done]. lia. }
  destruct (recovered_committed m m0 start size Ls ds hb) as [Ho Hr]; auto.
  { rewrite Hge by lia. apply blk_insert_eq. }
  { rewrite (run_blocks_ext disk1); [apply disk1_log|]. intros x Hx. apply Hge. lia. }
  { intros b Hb Hn. rewrite Hm by done. apply disk1_home. lia. }
  split; [done|]. intros b Hb. destruct (Hr b Hb) as [Hr1 Hr2].
  destruct (decide (b ∈ Ls)) as [Hin|Hn].
  - apply list_elem_of_lookup in Hin as [i Hi].
    destruct (lookup_lt_is_Some_2 ds i) as [d Hd]; [apply lookup_lt_Some in Hi; lia|].
    rewrite (Hr1 i d) by done. symmetry. by eapply blk_apply_zip.
  - rewrite Hr2 by done. symmetry. apply blk_apply_notin. intros ?%zip_fst_sub. done.
Qed.

(** With everything installed and the header cleared. *)
Lemma crash_cleared sector :
  let m := <[start := head_block 0 sector hb]> (apply_writes (zip Ls ds) disk1) in
  hdr_ok m start size /\
  (forall b, 0 <= b < start -> blk (recovered m start) b = blk (apply_writes (zip Ls ds) m0) b).
Proof using Hlen Hhn Hsec Hmax Hsz Hnd Hhome Hlds.
  intros m. pose proof (zlen_nonneg Ls).
  assert (Hn0 : hdr_n m start = 0) by by apply hdr_cleared.
  split.
  - apply hdr_ok_empty; [|done|lia]. unfold m. rewrite blk_insert_eq.
    apply zlen_head_block; [unfold LOGSIZE, MAXOPBLOCKS; lia|done].
  - intros b Hb. rewrite recovered_empty by lia. unfold m. rewrite blk_insert_ne by lia.
    destruct (decide (b ∈ Ls)) as [Hin|Hn].
    + apply list_elem_of_lookup in Hin as [i Hi].
      destruct (lookup_lt_is_Some_2 ds i) as [d Hd]; [apply lookup_lt_Some in Hi; lia|].
      by rewrite !(blk_apply_zip Ls ds _ i b d).
    + rewrite !blk_apply_notin by (intros ?%zip_fst_sub; done). apply disk1_home. lia.
Qed.

End Phases.

Section Crash.
Context {S : Type} `{!BufferCache S}.
Implicit Types (l : log S) (a : abuf).

Lemma commit_head_facts l a Ls :
  tx l a Ls ->
  zlen (commit_head l a) = BSIZE /\ i32 (get32 0 (commit_head l a)) = zlen Ls /\
  (forall (i : nat) s, Ls !! i = Some s -> get32 (4 + 4 * Z.of_nat i) (commit_head l a) = s).
Proof.
  intros Ht. pose proof (tx_n _ _ _ Ht) as Hn. pose proof (tx_max _ _ _ Ht).
  pose proof (tx_fits _ _ _ Ht). pose proof (zlen_nonneg Ls).
  assert (Hd : zlen (blk (a_disk a) (lg_start l)) = BSIZE)
    by apply (wf_disk_len _ (bc_rep_wf _ _ (tx_rep _ _ _ Ht))).
  unfold commit_head. split_and!.
  - apply zlen_head_block; [lia|done].
  - rewrite head_block_n by (lia || done). rewrite Hn. apply i32_small.
    unfold LOGSIZE, MAXOPBLOCKS in *. lia.
  - intros i s Hs. rewrite head_block_sector; [| |lia|done].
    + rewrite <- (tx_logged _ _ _ Ht) in Hs. by eapply logged_lookup.
    + apply lookup_lt_Some in Hs. unfold zlen in *. lia.
Qed.

(** The contents a committed transaction gives a home block. *)
Lemma install_view l a Ls b :
  tx l a Ls -> a_held a = ∅ ->
  blk (apply_writes (zip Ls (new_data a Ls)) (a_disk a)) b = view a b.
Proof.
  intros Ht Hh. destruct (decide (b ∈ Ls)) as [Hin|Hn].
  - apply list_elem_of_lookup in Hin as [i Hi]. eapply blk_apply_zip; [apply (tx_nodup _ _ _ Ht)|done|].
    unfold new_data. by rewrite list_lookup_fmap, Hi.
  - rewrite blk_apply_notin by (intros ?%zip_fst_sub; done).
    unfold view. destruct (a_mem a !! b) as [[d fl]|] eqn:E; [|done].
    destruct Hn. by eapply tx_mem.
Qed.

(** What recovery makes of the disk after the first [k] writes of a commit. *)
Lemma commit_crash l a Ls (k : nat) :
  tx l a Ls -> a_held a = ∅ -> hdr_n (a_disk a) (lg_start l) = 0 ->
  let m := apply_writes (take k (commit_writes l a Ls)) (a_disk a) in
  hdr_ok m (lg_start l) (lg_size l) /\
  (forall b, 0 <= b < lg_start l ->
    blk (recovered m (lg_start l)) b =
      if decide (k <= length Ls)%nat then blk (a_disk a) b else view a b).
Proof.
  intros Ht Hh H0 m. pose proof (tx_max _ _ _ Ht). pose proof (tx_fits _ _ _ Ht).
  pose proof (tx_home _ _ _ Ht) as Hhome. pose proof (tx_nodup _ _ _ Ht) as Hnd.
  destruct (commit_head_facts _ _ _ Ht) as (Hlen & Hhn & Hsec).
  assert (Hlds : length (new_data a Ls) = length Ls) by apply length_fmap.
  assert (Hmax : zlen Ls <= LOGSIZE) by lia.
  pose proof (length_log_writes (lg_start l + 1) (new_data a Ls)) as Hlw1. rewrite Hlds in Hlw1.
  subst m. unfold commit_writes. case_decide as Hk.
  - rewrite take_app_le by lia.
    destruct (crash_logging (a_disk a) (lg_start l) (lg_size l) Ls (new_data a Ls)
                (commit_head l a) Hlen Hhn Hsec Hmax ltac:(lia) Hnd Hhome Hlds k H0)
      as [Ho Hr]; [apply (wf_disk_len _ (bc_rep_wf _ _ (tx_rep _ _ _ Ht)))|].
    split; [exact Ho|]. intros b Hb. apply Hr. lia.
  - rewrite take_app_ge by lia. rewrite Hlw1.
    destruct (k - length Ls)%nat as [|j] eqn:Ej; [lia|]. cbn [take]. rewrite apply_writes_app.
    change (apply_writes ((?s, ?d) :: ?w) ?m) with (apply_writes w (<[s := d]> m)).
    destruct (decide (j <= length Ls)%nat) as [Hj|Hj].
    + rewrite take_app_le by (rewrite length_zip_with; lia).
      destruct (crash_installing (a_disk a) (lg_start l) (lg_size l) Ls (new_data a Ls)
                  (commit_head l a) Hlen Hhn Hsec Hmax ltac:(lia) Hnd Hhome Hlds j) as [Ho Hr].
      split; [exact Ho|]. intros b Hb. rewrite <- (install_view l a Ls) by done. by apply Hr.
    + rewrite take_ge by (rewrite length_app, length_zip_with; cbn; lia). rewrite apply_writes_app.
      destruct (crash_cleared (a_disk a) (lg_start l) (lg_size l) Ls (new_data a Ls)
                  (commit_head l a) Hlen Hhn Hsec Hmax ltac:(lia) Hnd Hhome Hlds (lg_sector l)) as [Ho Hr].
      split; [exact Ho|]. intros b Hb. rewrite <- (install_view l a Ls) by done. by apply Hr.
Qed.

(** ** Crashes during recovery *)

Lemma recover_crash l m (k : nat) :
  hdr_ok m (lg_start l) (lg_size l) -> 1 <= lg_size l ->
  let m' := apply_writes (take k (recover_writes l m)) m in
  hdr_ok m' (lg_start l) (lg_size l) /\
  (forall b, 0 <= b < lg_start l -> blk (recovered m' (lg_start l)) b = blk (recovered m (lg_start l)) b).
Proof.
  intros Ho Hsz m'. subst m'. unfold recover_writes. set (start := lg_start l) in *.
  set (n := Z.to_nat (hdr_n m start)). set (Ls := hdr_list m start).
  set (ds := run_blocks m (start + 1) n).
  pose proof (ho_home _ _ _ Ho) as Hhome. fold Ls in Hhome.
  assert (Hn : length Ls = n) by (unfold Ls, hdr_list; by rewrite length_fmap, length_seq).
  assert (Hds : length ds = n) by apply length_run_blocks.
  assert (Hge : forall w x, (forall y, y ∈ w.*1 -> y ∈ Ls) -> start <= x ->
            blk (apply_writes w m) x = blk m x).
  { intros w x Hw Hx. apply blk_apply_notin. intros Hin%Hw. eapply Forall_forall in Hhome; [|done]. lia. }
  destruct (decide (k <= length Ls)%nat) as [Hk|Hk].
  - rewrite take_app_le by (rewrite length_zip_with; lia).
    set (w := take k (zip Ls ds)).
    assert (Hw : forall y, y ∈ w.*1 -> y ∈ Ls) by (intros y Hy%take_fst_sub%zip_fst_sub; done).
    assert (Hh : blk (apply_writes w m) start = blk m start) by (apply Hge; [done|lia]).
    assert (HL : hdr_list (apply_writes w m) start = Ls) by (unfold hdr_list, hdr_n; by rewrite Hh).
    assert (Hnn : hdr_n (apply_writes w m) start = hdr_n m start) by (unfold hdr_n; by rewrite Hh).
    split; [destruct Ho; constructor; rewrite ?HL, ?Hnn, ?Hh; done|].
    intros b Hb. unfold recovered. rewrite HL, Hnn. fold n Ls.
    rewrite (run_blocks_ext m) by (intros; apply Hge; [done|lia]). fold ds.
    destruct (decide (b ∈ Ls)) as [Hin|Hni].
    + apply list_elem_of_lookup in Hin as [i Hi].
      destruct (lookup_lt_is_Some_2 ds i) as [d Hd]; [apply lookup_lt_Some in Hi; lia|].
      by rewrite !(blk_apply_zip Ls ds _ i b d) by (done || apply (ho_nodup _ _ _ Ho)).
    + rewrite !blk_apply_notin; [done|..]; intros Hy; first [apply Hw in Hy|apply zip_fst_sub in Hy]; done.
  - rewrite take_ge by (rewrite length_app, length_zip_with; cbn; lia). rewrite apply_writes_app.
    change (apply_writes [(?s, ?d)] ?m) with (<[s := d]> m).
    set (m1 := apply_writes (zip Ls ds) m). set (d := blk m start).
    assert (Hd : zlen d = BSIZE) by apply (ho_len _ _ _ Ho).
    assert (Hn0 : hdr_n (<[start := head_block 0 (head_loads n 0 d (lg_sector l)) d]> m1) start = 0)
      by by apply hdr_cleared.
    split.
    + apply hdr_ok_empty; [|done|done]. rewrite blk_insert_eq.
      apply zlen_head_block; [unfold LOGSIZE, MAXOPBLOCKS; lia|done].
    + intros b Hb. rewrite recovered_empty by lia. by rewrite blk_insert_ne by lia.
Qed.

End Crash.
