(* ===== verification/LogOps.v ===== *)
(** * Transactions (log.c: begin_op, log_write, end_op, initlog)

    How the operations a file-system call performs on the log and the cache act
    on the transaction invariant [tx] of LogCrash.v, the crash-safety theorems
    for whole runs (commit, crash, reboot, recovery), and what a returning
    begin_op, commit or end_op tells about the counters. *)

From S2P Require Import Prelude.
From S2P Require Import Params.
From S2P Require Import Disk.
From S2P Require Import BufSpec.
From S2P Require Import Bio.
From S2P Require Import Log.
From S2P Require Import LogCrash.

Lemma u32_i32 z : u32 (i32 z) = u32 z.
Proof.
  unfold u32, i32. rewrite Zminus_mod_idemp_l. f_equal. lia.
Qed.

(** ** log_write *)

Lemma find_slot_spec cnt i sector sec :
  let r := find_slot cnt i sector sec in
  i <= r <= i + Z.of_nat cnt /\
  (r < i + Z.of_nat cnt -> u32 (zget sector r) = sec) /\
  (forall j, i <= j < r -> u32 (zget sector j) <> sec).
Proof.
  revert i. induction cnt as [|cnt IH]; intros i; cbn [find_slot].
  - split_and!; lia.
  - destruct (Z.eqb_spec (u32 (zget sector i)) sec) as [E|E].
    + split_and!; [lia|lia|done|lia].
    + destruct (IH (i + 1)) as (H1 & H2 & H3). split_and!; [lia|lia|intros; apply H2; lia|].
      intros j Hj. destruct (decide (j = i)) as [->|]; [done|]. apply H3. lia.
Qed.

Lemma lookup_logged n sector (i : nat) :
  (i < Z.to_nat n)%nat -> logged n sector !! i = Some (u32 (zget sector (Z.of_nat i))).
Proof. intros Hi. unfold logged. rewrite list_lookup_fmap, lookup_seq_lt by done. done. Qed.

Lemma length_logged n sector : length (logged n sector) = Z.to_nat n.
Proof. unfold logged. by rewrite length_fmap, length_seq. Qed.

Lemma logged_ext n sector sector' :
  (forall i, 0 <= i < n -> u32 (zget sector' i) = u32 (zget sector i)) ->
  logged n sector' = logged n sector.
Proof.
  intros H. apply list_eq. intros i. destruct (decide (i < Z.to_nat n)%nat).
  - rewrite !lookup_logged by done. f_equal. apply H. lia.
  - rewrite !lookup_ge_None_2; rewrite ?length_logged; done || lia.
Qed.

Lemma logged_snoc n sector v :
  0 <= n < zlen sector -> logged (n + 1) (zset sector n v) = logged n sector ++ [u32 v].
Proof.
  intros Hn. unfold logged. rewrite Z2Nat.inj_add by lia. rewrite seq_app, fmap_app. f_equal.
  - apply (logged_ext n sector (zset sector n v)). intros i Hi. rewrite zget_zset_ne by lia. done.
  - change (Z.to_nat 1) with 1%nat. rewrite Nat.add_0_l. cbn [seq]. rewrite list_fmap_singleton.
    rewrite Z2Nat.id, zget_zset_eq by lia. done.
Qed.

(** The logged sectors after a write to [sec]: a block that is already in the
    log is absorbed. *)
Definition absorb (sec : Z) (Ls : list Z) : list Z :=
  if decide (sec ∈ Ls) then Ls else Ls ++ [sec].

Lemma elem_of_absorb sec Ls x : x ∈ absorb sec Ls <-> x = sec \/ x ∈ Ls.
Proof. unfold absorb. case_decide; set_solver. Qed.

(** The slot log_write picks, and the header it makes. *)
Lemma logged_absorb n sector sec :
  0 <= n < zlen sector -> 0 <= sec < 2147483648 ->
  let Ls := logged n sector in
  let i := find_slot (Z.to_nat n) 0 sector sec in
  zlen (absorb sec Ls) = (if i =? n then n + 1 else n) /\
  logged (zlen (absorb sec Ls)) (zset sector i (i32 sec)) = absorb sec Ls.
Proof.
  intros Hn Hs Ls i.
  destruct (find_slot_spec (Z.to_nat n) 0 sector sec) as (Hi1 & Hi2 & Hi3).
  fold i in Hi1, Hi2, Hi3. rewrite Z.add_0_l, Z2Nat.id in * by lia.
  assert (Hu : u32 (i32 sec) = sec) by (rewrite u32_i32; apply u32_small; unfold is_u32; lia).
  assert (HL : zlen Ls = n) by (unfold zlen, Ls; rewrite length_logged; lia).
  unfold absorb. case_decide as Hin.
  - apply list_elem_of_lookup in Hin as [j Hj]. pose proof (lookup_lt_Some _ _ _ Hj) as Hlt.
    unfold Ls in Hj, Hlt. rewrite length_logged in Hlt. rewrite lookup_logged in Hj by done. simplify_eq.
    assert (Hlt' : i < zlen Ls)
      by (destruct (decide (i <= Z.of_nat j)); [lia|]; destruct (Hi3 (Z.of_nat j)); [lia|done]).
    rewrite (proj2 (Z.eqb_neq _ _)) by lia. split; [done|]. rewrite HL.
    apply logged_ext. intros k Hk.
    destruct (decide (k = i)) as [->|]; [rewrite zget_zset_eq, Hu by lia; by rewrite Hi2 by lia|].
    by rewrite zget_zset_ne by lia.
  - assert (Hin' : i = n).
    { destruct (decide (i < n)) as [Hlt|]; [|lia]. destruct Hin.
      apply list_elem_of_lookup. exists (Z.to_nat i). unfold Ls. rewrite lookup_logged by lia.
      rewrite Z2Nat.id by lia. f_equal. by apply Hi2. }
    rewrite zlen_app, HL, Hin', Z.eqb_refl. split; [done|].
    change (zlen [sec]) with 1. rewrite logged_snoc by lia. by rewrite Hu.
Qed.

Section Ops.
Context {S : Type} `{!BufferCache S}.
Implicit Types (l : log S) (a : abuf).

(** Reading, storing into and releasing buffers do not disturb a transaction. *)
Lemma tx_abread l a Ls h sec s' :
  tx l a Ls -> bc_rep s' (abread h sec a) -> tx (set_bio s' l) (abread h sec a) Ls.
Proof.
  intros Ht HR. destruct Ht. constructor; auto. intros x. rewrite <- tx_dirty. cbn.
  destruct (decide (sec = x)) as [->|]; [|by rewrite lookup_insert_ne].
  rewrite lookup_insert_eq. destruct (a_mem a !! x) as [[d fl]|]; cbn; naive_solver.
Qed.

Lemma tx_abset l a Ls h sec d fl d' s' :
  tx l a Ls -> held a h sec d fl -> bc_rep s' (abset sec d' fl a) ->
  tx (set_bio s' l) (abset sec d' fl a) Ls.
Proof.
  intros Ht [_ Hm] HR. destruct Ht. constructor; auto. intros x. rewrite <- tx_dirty. cbn.
  destruct (decide (sec = x)) as [->|]; [|by rewrite lookup_insert_ne].
  rewrite lookup_insert_eq, Hm. naive_solver.
Qed.

Lemma tx_abrelse l a Ls h sec d fl s' :
  tx l a Ls -> held a h sec d fl -> bc_rep s' (abrelse h sec fl a) ->
  tx (set_bio s' l) (abrelse h sec fl a) Ls.
Proof.
  intros Ht [_ Hm] HR. destruct Ht. constructor; auto. intros x. rewrite <- tx_dirty. cbn. destruct fl; [done|].
  destruct (decide (sec = x)) as [->|]; [|by rewrite lookup_delete_ne].
  rewrite lookup_delete_eq, Hm. naive_solver.
Qed.

Lemma log_write_run l a Ls h sec d fl :
  tx l a Ls -> held a h sec d fl -> 0 <= sec < lg_start l ->
  zlen Ls < lg_size l - 1 -> zlen (absorb sec Ls) < Z.of_nat NBUF -> 1 <= lg_outstanding l ->
  exists s' sector',
    let l' := set_head (zlen (absorb sec Ls)) sector' (set_bio s' l) in
    log_write h l = Ret tt l' /\ tx l' (abset sec d true a) (absorb sec Ls).
Proof.
  intros Ht Hh Hs Hroom Hpin Hout. pose proof (tx_fits _ _ _ Ht). pose proof (tx_n _ _ _ Ht) as Hn. pose proof (tx_lgsize _ _ _ Ht).
  pose proof (tx_size _ _ _ Ht). pose proof (tx_nsect _ _ _ Ht). pose proof (tx_arr _ _ _ Ht).
  pose proof (zlen_nonneg Ls).
  destruct (bp_data_ok _ _ _ _ _ _ (tx_rep _ _ _ Ht) Hh) as [_ Hsec].
  destruct (bp_dirty_ok _ _ _ _ _ _ (tx_rep _ _ _ Ht) Hh) as (s' & Hr & HR).
  set (i := find_slot (Z.to_nat (lg_n l)) 0 (lg_sector l) sec).
  set (sector' := zset (lg_sector l) i (i32 sec)).
  destruct (logged_absorb (lg_n l) (lg_sector l) sec) as [Hlen Hlg]; [lia|lia|].
  rewrite (tx_logged _ _ _ Ht) in Hlen, Hlg. fold i in Hlen, Hlg. fold sector' in Hlg.
  exists s', sector'. cbv zeta. split.
  - unfold log_write. rewrite (bind_run (get _) _ _ _ _ eq_refl). cbv beta. rewrite Hsec. fold i.
    assert ((lg_n l >=? LOGSIZE) = false) as -> by lia.
    assert ((lg_n l >=? lg_size l - 1) = false) as -> by lia.
    assert ((lg_outstanding l <? 1) = false) as -> by lia. cbn [orb].
    rewrite (bind_run (modify _) _ _ _ _ eq_refl). rewrite Hlen.
    destruct (i =? lg_n l).
    + rewrite (bind_run (modify _) _ _ _ _ eq_refl). match goal with |- bio_call _ ?l1 = _ => exact (bio_call_run _ l1 _ _ Hr) end.
    + rewrite (bind_run (ret _) _ _ _ _ eq_refl). match goal with |- bio_call _ ?l1 = _ => exact (bio_call_run _ l1 _ _ Hr) end.
  - destruct Ht. constructor; cbn; auto; try lia.
    + rewrite Hlen. case_match; lia.
    + unfold sector'. by rewrite zlen_zset.
    + unfold absorb. case_decide; [done|]. apply NoDup_app. split_and!; [done| |apply NoDup_singleton].
      set_solver.
    + apply Forall_forall. intros x Hx%elem_of_absorb. destruct Hx as [->|Hx]; [lia|].
      by eapply Forall_forall in tx_home.
    + intros x. rewrite elem_of_absorb, <- tx_dirty. destruct (decide (sec = x)) as [->|].
      * rewrite lookup_insert_eq. naive_solver.
      * rewrite lookup_insert_ne by done. naive_solver.
Qed.

(** ** Commit and the transaction invariant *)

(** The cache after a commit or after recovery: everything is on disk. *)
Definition settled (a : abuf) (w : list (Z * block)) : abuf :=
  MkAbuf (apply_writes w (a_disk a)) (a_trace a ++ w) (a_nsect a) ∅ ∅.

Lemma view_settled a w b : view (settled a w) b = blk (apply_writes w (a_disk a)) b.
Proof. unfold view. cbn. by rewrite lookup_empty. Qed.

Lemma settled_tx l a w s' sector' :
  bc_rep s' (settled a w) -> lg_dev l = ROOTDEV -> a_nsect a <= 2147483648 -> 0 <= lg_start l ->
  lg_start l + lg_size l <= a_nsect a -> 1 <= lg_size l -> zlen sector' = LOGSIZE ->
  tx (set_head 0 sector' (set_bio s' l)) (settled a w) [].
Proof.
  intros. constructor; cbn; auto; try (unfold zlen; cbn; lia); try constructor.
  - intros [d Hd]. by rewrite lookup_empty in Hd.
  - by intros ?%elem_of_nil.
Qed.

(** The disk after all the writes of a commit, and after those of recovery. *)
Lemma commit_result l a Ls :
  tx l a Ls -> a_held a = ∅ -> hdr_n (a_disk a) (lg_start l) = 0 ->
  let m := apply_writes (commit_writes l a Ls) (a_disk a) in
  hdr_n m (lg_start l) = 0 /\ forall b, 0 <= b < lg_start l -> blk m b = view a b.
Proof.
  intros Ht Hh H0 m. destruct (commit_head_facts _ _ _ Ht) as (Hlen & _).
  assert (Hn : hdr_n m (lg_start l) = 0).
  { unfold m, commit_writes. rewrite app_comm_cons, app_assoc, apply_writes_app.
    change (apply_writes [(?s, ?d)] ?m) with (<[s := d]> m). by apply hdr_cleared. }
  split; [done|]. intros b Hb.
  set (k := length (commit_writes l a Ls)).
  destruct (commit_crash l a Ls k Ht Hh H0) as [_ Hr]. specialize (Hr b Hb).
  unfold k in Hr. rewrite firstn_all in Hr. fold m in Hr. rewrite recovered_empty in Hr by lia.
  rewrite Hr. apply decide_False. unfold commit_writes. rewrite length_app, length_log_writes.
  unfold new_data. rewrite length_fmap. cbn. lia.
Qed.

Lemma recover_result l m :
  hdr_ok m (lg_start l) (lg_size l) -> 1 <= lg_size l ->
  let m' := apply_writes (recover_writes l m) m in
  hdr_n m' (lg_start l) = 0 /\
  forall b, 0 <= b < lg_start l -> blk m' b = blk (recovered m (lg_start l)) b.
Proof.
  intros Ho Hsz m'.
  assert (Hn : hdr_n m' (lg_start l) = 0).
  { unfold m', recover_writes. rewrite apply_writes_app.
    change (apply_writes [(?s, ?d)] ?m) with (<[s := d]> m). apply hdr_cleared, (ho_len _ _ _ Ho). }
  split; [done|]. intros b Hb.
  destruct (recover_crash l m (length (recover_writes l m)) Ho Hsz) as [_ Hr]. specialize (Hr b Hb).
  rewrite firstn_all in Hr. fold m' in Hr. by rewrite recovered_empty in Hr by lia.
Qed.

(** ** Booting *)

(** The superblock of disk [m] places a log of [size] blocks at [start]. *)
Definition log_at (m : gmap Z block) (start size : Z) : Prop :=
  get32 12 (blk m 1) = size /\ get32 0 (blk m 1) = start + size.

(** A machine that has just booted from disk [m]. *)
Record boots (l : log S) (a : abuf) (m : gmap Z block) (nsect : Z) : Prop := {
  bo_rep : bc_rep (lg_bio l) a;
  bo_disk : a_disk a = m;
  bo_nsect : a_nsect a = nsect;
  bo_mem : a_mem a = ∅;
  bo_held : a_held a = ∅;
  bo_arr : zlen (lg_sector l) = LOGSIZE
}.

Lemma readsb_run l a :
  bc_rep (lg_bio l) a -> a_mem a = ∅ -> a_held a = ∅ -> 1 < a_nsect a ->
  let d := blk (a_disk a) 1 in
  exists s', readsb ROOTDEV l =
    Ret (MkSb (get32 0 d) (get32 4 d) (get32 8 d) (get32 12 d)) (set_bio s' l) /\ bc_rep s' a.
Proof.
  intros HR Hm Hh Hns d.
  destruct (bread_ok (lg_bio l) a 1 HR) as (h & s1 & Hr1 & Hf1 & HR1); [lia| | |].
  { intros x. by rewrite Hh. } { right. rewrite Hm, map_size_empty. unfold NBUF. lia. }
  pose proof (held_abread a h 1) as H1. unfold view in H1. rewrite Hm, lookup_empty in H1. cbn in H1.
  destruct (bp_data_ok _ _ _ _ _ _ HR1 H1) as [Hdata _].
  destruct (brelse_ok _ _ h 1 _ false HR1 H1) as (s2 & Hr2 & HR2); [by right|].
  exists s2. unfold readsb. rewrite (bind_run _ _ l _ _ (bio_call_run _ l _ _ Hr1)).
  unfold bufdata. rewrite (bind_run (get _) _ _ _ _ eq_refl). cbn [lg_bio set_bio]. rewrite Hdata.
  rewrite (bind_run _ _ _ _ _ (bio_call_run _ (set_bio s1 l) _ _ Hr2)). split; [done|].
  eapply eq_rect; [exact HR2|]. destruct a as [di tr ns mem hd]; cbn in *; subst.
  abuf_eq; rewrite ?lookup_empty; congruence.
Qed.

Lemma initlog_run l a m nsect start size :
  boots l a m nsect -> log_at m start size -> hdr_ok m start size ->
  1 < start -> 1 <= size -> start + size <= nsect <= 2147483648 ->
  exists l', initlog l = Ret tt l' /\
    let w := recover_writes (set_sizes start size ROOTDEV l) m in
    tx l' (settled a w) [] /\ lg_start l' = start /\ lg_size l' = size /\
    lg_outstanding l' = lg_outstanding l /\ lg_committing l' = lg_committing l.
Proof.
  intros [HR <- <- Hmem Hheld Harr] [Hsz Htot] Ho Hst Hsize Hns.
  destruct (readsb_run l a HR Hmem Hheld) as (s1 & Hr1 & HR1); [lia|].
  set (l1 := set_sizes start size ROOTDEV (set_bio s1 l)).
  destruct (recover_run l1 a) as (s2 & sector' & Hr2 & Hlen & HR2); auto.
  { constructor; auto. constructor; cbn; auto; try lia.
    - intros sec [x Hx]. by rewrite Hmem, lookup_empty in Hx.
    - rewrite Hmem, map_size_empty. unfold NBUF. lia. }
  exists (set_head 0 sector' (set_bio s2 l1)). split.
  - unfold initlog. change (sizeof_logheader >=? BSIZE) with false. cbv iota.
    rewrite (bind_run _ _ _ _ _ Hr1). rewrite (bind_run (modify _) _ _ _ _ eq_refl).
    cbn [sb_size sb_nlog]. rewrite Hsz, Htot. replace (start + size - size) with start by lia.
    rewrite !i32_small by lia. exact Hr2.
  - cbv zeta. split_and!; try done. apply settled_tx; auto; cbn; lia.
Qed.

End Ops.

(** ** A transaction on bio.c over the memory disk *)

Section Example.

(** A disk of 64 sectors: superblock in sector 1, a log of 30 at sector 34. *)
Definition ex_sb : block := put32 12 30 (put32 0 64 zero_block).
Definition ex_disk : gmap Z block := {[ 1 := ex_sb ]}.
Definition ex_data : block := replicate 512 7.
Definition ex_bio : bio Memide.memdisk := MkBio (binit bcache0) (Memide.MkMemdisk ex_disk 64 []).
Definition ex_log0 (outstanding : Z) : log (bio Memide.memdisk) :=
  MkLog 34 30 outstanding 0 ROOTDEV 0 (replicate 30 0) ex_bio.
Definition ex_a0 : abuf := MkAbuf ex_disk [] 64 ∅ ∅.

Lemma ex_rep : bc_rep ex_bio ex_a0.
Proof.
  refine (binit_rep (Memide.MkMemdisk ex_disk 64 []) _). intros sec. unfold blk; cbn.
  unfold ex_disk. destruct (decide (sec = 1)) as [->|].
  - rewrite lookup_singleton_eq. by vm_compute.
  - rewrite lookup_singleton_ne by done. by vm_compute.
Qed.

Lemma ex_tx0 o : tx (ex_log0 o) ex_a0 [].
Proof.
  constructor; [exact ex_rep|..]; cbn [ex_log0 ex_a0 lg_dev lg_start lg_size lg_n lg_sector a_nsect];
    try (vm_compute; done || (split; done)); [by apply NoDup_nil|]. intros sec. split.
  - intros [d Hd]. cbn in Hd. by rewrite lookup_empty in Hd.
  - by intros ?%elem_of_nil.
Qed.

(** bread, a store, log_write and brelse on sector 5. *)
Lemma ex_tx :
  exists (l : log (bio Memide.memdisk)) a,
    tx l a [5] /\ a_held a = ∅ /\ a_disk a = ex_disk /\ a_nsect a = 64 /\
    lg_start l = 34 /\ lg_size l = 30 /\ view a 5 = ex_data /\
    lg_outstanding l = 1 /\ lg_committing l = 0.
Proof.
  destruct (bread_ok ex_bio ex_a0 5 ex_rep) as (h & s1 & _ & _ & HR1); [cbn; lia| | |].
  { intros h. cbn. by rewrite lookup_empty. } { right. cbn [a_mem ex_a0]. rewrite map_size_empty. unfold NBUF. lia. }
  pose proof (held_abread ex_a0 h 5) as H1.
  destruct (bp_store_ok _ _ _ _ _ _ ex_data HR1 H1) as (s2 & _ & HR2); [by vm_compute|].
  pose proof (held_abset _ _ _ _ _ ex_data (from_option snd false (a_mem ex_a0 !! 5)) H1) as H2.
  pose proof (tx_abset _ _ _ _ _ _ _ _ _ (tx_abread _ _ _ _ _ _ (ex_tx0 1) HR1) H1 HR2) as Ht2.
  destruct (log_write_run _ _ _ _ _ _ _ Ht2 H2) as (s3 & sector' & H3'); try (by cbn; unfold zlen; cbn; lia); [by vm_compute|].
  cbv zeta in H3'. destruct H3' as [_ Ht3]. change (absorb 5 []) with [5] in Ht3.
  set (a3 := abset 5 ex_data true _) in Ht3.
  assert (H3 : held a3 h 5 ex_data true) by (split; cbn; by rewrite lookup_insert_eq).
  destruct (brelse_ok _ _ _ _ _ _ (tx_rep _ _ _ Ht3) H3) as (s4 & _ & HR4); [by left|].
  pose proof (tx_abrelse _ _ _ _ _ _ _ _ Ht3 H3 HR4) as Ht4.
  eexists _, _. split; [exact Ht4|]. split_and!; try done.
  cbn. by rewrite delete_insert_eq.
Qed.

Lemma ex_log_at : log_at ex_disk 34 30.
Proof. split; vm_compute; done. Qed.

Lemma ex_hdr : hdr_n ex_disk 34 = 0.
Proof. vm_compute. done. Qed.

End Example.

(** ** Crash safety *)

Section Safety.
Context {S : Type} `{!BufferCache S}.
Implicit Types (l : log S) (a : abuf).

(** The superblock is a home block, so no write of the log changes it. *)
Lemma log_at_ext m m' start size :
  log_at m start size -> blk m' 1 = blk m 1 -> log_at m' start size.
Proof. intros [H1 H2] E. unfold log_at. by rewrite E. Qed.

Lemma crash_superblock l a Ls (k : nat) :
  tx l a Ls -> 1 < lg_start l -> 1 ∉ Ls ->
  blk (apply_writes (take k (commit_writes l a Ls)) (a_disk a)) 1 = blk (a_disk a) 1.
Proof.
  intros Ht Hst Hn. apply blk_apply_notin. intros Hx%take_fst_sub. revert Hx.
  unfold commit_writes. rewrite fmap_app, fmap_cons, fmap_app, elem_of_app, elem_of_cons, elem_of_app.
  cbn. intros [Hx|[Hx|[Hx|Hx]]].
  - apply log_writes_fst in Hx. lia.
  - lia.
  - apply zip_fst_sub in Hx. done.
  - apply list_elem_of_singleton in Hx. lia.
Qed.

(** C1: a transaction is atomic under crashes.  A commit returns and leaves a
    trace of sector writes [w]; cut the power after any number [k] of them, boot
    from the disk as it then is and run initlog: the file system sees either the
    disk as it was before the commit or every block as the transaction left it,
    the header is cleared, and the log is ready for the next transaction. *)
Theorem crash_atomic l a Ls :
  tx l a Ls -> a_held a = ∅ -> Ls <> [] -> hdr_n (a_disk a) (lg_start l) = 0 ->
  1 < lg_start l -> 1 ∉ Ls -> log_at (a_disk a) (lg_start l) (lg_size l) ->
  exists l1 a1 w,
    commit l = Ret tt l1 /\ bc_rep (lg_bio l1) a1 /\
    a_trace a1 = a_trace a ++ w /\ a_disk a1 = apply_writes w (a_disk a) /\
    forall (k : nat) l2 a2,
      boots l2 a2 (apply_writes (take k w) (a_disk a)) (a_nsect a) ->
      exists l3 a3,
        initlog l2 = Ret tt l3 /\ tx l3 a3 [] /\
        lg_start l3 = lg_start l /\ lg_size l3 = lg_size l /\
        hdr_n (a_disk a3) (lg_start l) = 0 /\
        forall b, 0 <= b < lg_start l ->
          view a3 b = if decide (k <= length Ls)%nat then blk (a_disk a) b else view a b.
Proof.
  intros Ht Hh Hne H0 Hst H1 Hsb.
  destruct (commit_run _ _ _ Ht Hh Hne) as (s1 & Hr & HR).
  eexists _, _, (commit_writes l a Ls). split; [exact Hr|]. split; [exact HR|].
  split; [done|]. split; [done|]. intros k l2 a2 Hb.
  destruct (commit_crash l a Ls k Ht Hh H0) as [Ho Hrec].
  set (m := apply_writes (take k (commit_writes l a Ls)) (a_disk a)) in *.
  pose proof (tx_lgsize _ _ _ Ht). pose proof (tx_size _ _ _ Ht). pose proof (tx_nsect _ _ _ Ht).
  destruct (initlog_run l2 a2 m (a_nsect a) (lg_start l) (lg_size l))
    as (l3 & Hr3 & Ht3 & E1 & E2 & _); auto; try lia.
  { eapply log_at_ext; [done|]. by apply crash_superblock. }
  destruct (recover_result (set_sizes (lg_start l) (lg_size l) ROOTDEV l2) m Ho) as [Hn Hres]; [cbn; lia|].
  eexists l3, _. split; [done|]. split; [exact Ht3|]. do 2 (split; [done|]).
  cbn [settled a_disk]. rewrite (bo_disk _ _ _ _ Hb). split; [exact Hn|].
  intros b Hb'. rewrite view_settled, (bo_disk _ _ _ _ Hb), <- (Hrec b Hb'). by apply Hres.
Qed.

(** C4: recovery can itself be interrupted.  Boot from a disk with a
    well-formed header; initlog returns after sector writes [w].  If the power
    fails after any [k] of them, the next initlog again returns and shows every
    home block as the uninterrupted recovery would have. *)
Theorem recovery_idempotent l a m nsect start size :
  boots l a m nsect -> log_at m start size -> hdr_ok m start size ->
  1 < start -> 1 <= size -> start + size <= nsect <= 2147483648 ->
  1 ∉ hdr_list m start ->
  exists l' a' w,
    initlog l = Ret tt l' /\ tx l' a' [] /\
    a_trace a' = a_trace a ++ w /\ a_disk a' = apply_writes w m /\
    forall (k : nat) l2 a2,
      boots l2 a2 (apply_writes (take k w) m) nsect ->
      exists l3 a3,
        initlog l2 = Ret tt l3 /\ tx l3 a3 [] /\ hdr_n (a_disk a3) start = 0 /\
        forall b, 0 <= b < start -> view a3 b = view a' b.
Proof.
  intros Hb Hsb Ho Hst Hsz Hns H1.
  destruct (initlog_run l a m nsect start size) as (l' & Hr & Ht & _); auto.
  set (ls := set_sizes start size ROOTDEV l) in *.
  exists l', (settled a (recover_writes ls m)), (recover_writes ls m).
  do 2 (split; [done|]). split; [done|]. split; [cbn; by rewrite (bo_disk _ _ _ _ Hb)|].
  intros k l2 a2 Hb2.
  destruct (recover_crash ls m k Ho) as [Ho2 Hrec]; [cbn; lia|].
  set (m2 := apply_writes (take k (recover_writes ls m)) m) in *.
  change (lg_start ls) with start in *. change (lg_size ls) with size in *.
  destruct (initlog_run l2 a2 m2 nsect start size) as (l3 & Hr3 & Ht3 & _); auto.
  { eapply log_at_ext; [done|]. apply blk_apply_notin. intros Hx%take_fst_sub. revert Hx.
    unfold recover_writes. rewrite fmap_app, elem_of_app. intros [Hx%zip_fst_sub|Hx]; [done|].
    apply list_elem_of_singleton in Hx. cbn in Hx. lia. }
  eexists l3, _. split; [done|]. split; [exact Ht3|].
  destruct (recover_result (set_sizes start size ROOTDEV l2) m2 Ho2) as [Hn Hres]; [cbn; lia|].
  destruct (recover_result ls m Ho) as [_ Hres']; [cbn; lia|].
  cbn [settled a_disk]. rewrite (bo_disk _ _ _ _ Hb2). split; [exact Hn|].
  intros b Hb'. rewrite !view_settled, (bo_disk _ _ _ _ Hb2), (bo_disk _ _ _ _ Hb).
  etrans; [by apply Hres|]. etrans; [by apply Hrec|]. symmetry. by apply Hres'.
Qed.

End Safety.

(** ** Ending a transaction *)

Section EndOp.
Context {S : Type} `{!BufferCache S}.
Implicit Types (l : log S) (a : abuf).

(** [committing] and [outstanding] play no part in the transaction invariant. *)
Lemma tx_set_ops l a Ls o c : tx l a Ls -> tx (set_ops o c l) a Ls.
Proof. intros Ht. destruct Ht. by constructor. Qed.

Lemma end_op_last l :
  lg_committing l = 0 -> lg_outstanding l = 1 ->
  end_op l =
    (commit ;; modify (fun l => set_ops (lg_outstanding l) 0 l)) (set_ops 0 1 l).
Proof.
  intros Hc Ho. unfold end_op. rewrite (bind_run (modify _) _ _ _ _ eq_refl).
  rewrite (bind_run (get _) _ _ _ _ eq_refl). cbn [lg_committing lg_outstanding set_ops].
  rewrite Hc, Ho. done.
Qed.

(** C22: durability.  When the last outstanding call ends, end_op returns, and
    every block the calls modified is on the disk itself, with an empty log and
    no call outstanding; the log is ready for the next transaction. *)
Theorem end_op_durable l a Ls :
  tx l a Ls -> a_held a = ∅ -> hdr_n (a_disk a) (lg_start l) = 0 ->
  lg_committing l = 0 -> lg_outstanding l = 1 ->
  exists l' a',
    end_op l = Ret tt l' /\ tx l' a' [] /\ a_mem a' = ∅ /\
    lg_outstanding l' = 0 /\ lg_committing l' = 0 /\ lg_start l' = lg_start l /\
    hdr_n (a_disk a') (lg_start l) = 0 /\
    forall b, 0 <= b < lg_start l -> blk (a_disk a') b = view a b.
Proof.
  intros Ht Hh H0 Hc Ho. rewrite end_op_last by done.
  pose proof (tx_set_ops _ _ _ 0 1 Ht) as Ht1.
  destruct (decide (Ls = [])) as [->|Hne].
  - assert (Hm : a_mem a = ∅).
    { apply map_empty. intros s. apply eq_None_not_Some. intros [[d fl] E].
      destruct (tx_mem _ _ _ _ _ _ Ht Hh E) as [_ []%elem_of_nil]. }
    exists (set_ops 0 0 l), a. split.
    { unfold commit, bind, get, modify, ret. cbn. by rewrite (tx_n _ _ _ Ht). }
    split; [by apply tx_set_ops|]. split_and!; try done.
    intros b Hb. unfold view. by rewrite Hm, lookup_empty.
  - destruct (commit_run _ _ _ Ht1 Hh Hne) as (s1 & Hr & HR).
    rewrite (bind_run _ _ _ _ _ Hr). unfold modify.
    set (w := commit_writes (set_ops 0 1 l) a Ls) in *.
    destruct (commit_result _ _ _ Ht1 Hh H0) as [Hn Hv].
    eexists _, (settled a w). split; [done|]. split.
    { apply tx_set_ops. destruct Ht1. apply settled_tx; auto. }
    split_and!; try done.
Qed.

(** log absorption.  log_write on a held buffer of a home block returns,
    records the block in the header exactly once however often it is written,
    pins the buffer, and keeps the transaction invariant. *)
Theorem log_write_absorbs l a Ls h sec d fl :
  tx l a Ls -> held a h sec d fl -> 0 <= sec < lg_start l ->
  zlen Ls < lg_size l - 1 -> zlen (absorb sec Ls) < Z.of_nat NBUF -> 1 <= lg_outstanding l ->
  exists l' a',
    log_write h l = Ret tt l' /\ tx l' a' (absorb sec Ls) /\
    held a' h sec d true /\ lg_n l' = zlen (absorb sec Ls) /\
    lg_outstanding l' = lg_outstanding l /\
    (forall b, view a' b = view a b).
Proof.
  intros Ht Hh Hs Hr Hp Ho. destruct (log_write_run _ _ _ _ _ _ _ Ht Hh Hs Hr Hp Ho) as (s' & sector' & H).
  cbv zeta in H. destruct H as [Hrun Ht']. eexists _, _. split; [exact Hrun|]. split; [exact Ht'|].
  split; [by eapply held_abset|]. do 2 (split; [done|]). intros b.
  destruct (decide (sec = b)) as [<-|]; [|by apply view_abset_ne].
  rewrite view_abset_eq. unfold view. by rewrite (proj2 Hh).
Qed.

End EndOp.

(** ** Space reservation *)

Section Reserve.
Context {S : Type} `{!BufferCache S}.
Implicit Types (l : log S).

(** Computations that change nothing but the buffer cache. *)
Definition only_bio {A} (m : M (log S) A) : Prop :=
  forall l x l', m l = Ret x l' -> exists s, l' = set_bio s l.

Lemma only_bio_call {A} (m : M S A) : only_bio (bio_call m).
Proof. intros l x l'. unfold bio_call, zoom. destruct (m (lg_bio l)); naive_solver. Qed.

Lemma only_bio_bind {A B} (m : M (log S) A) (k : A -> M (log S) B) :
  only_bio m -> (forall x, only_bio (k x)) -> only_bio (bind m k).
Proof.
  intros Hm Hk l x l' (y & l1 & H1 & H2)%bind_Ret_inv.
  destruct (Hm _ _ _ H1) as [s1 ->]. destruct (Hk _ _ _ _ H2) as [s2 ->]. by exists s2.
Qed.

Lemma only_bio_get {A} (f : log S -> A) : only_bio (get f).
Proof. intros l x l' H. unfold get, ret in H. simplify_eq. exists (lg_bio l'). by destruct l'. Qed.

Lemma only_bio_ret {A} (v : A) : only_bio (ret v).
Proof. intros l x l' H. unfold get, ret in H. simplify_eq. exists (lg_bio l'). by destruct l'. Qed.

Lemma only_bio_undef {A} why : only_bio (undef (A := A) why).
Proof. by intros l x l'. Qed.

Create HintDb only_bio.
#[local] Hint Resolve only_bio_call only_bio_bind only_bio_get only_bio_ret only_bio_undef : only_bio.

Lemma only_bio_lh_sector i : only_bio (lh_sector i).
Proof. unfold lh_sector. apply only_bio_bind; [auto with only_bio|]. intros. case_match; auto with only_bio. Qed.
#[local] Hint Resolve only_bio_lh_sector : only_bio.

Lemma only_bio_write_head : only_bio write_head.
Proof.
  unfold write_head, bufdata. repeat (apply only_bio_bind; [auto with only_bio|intros ?]);
    [|auto with only_bio]. case_match; auto with only_bio.
Qed.

Lemma only_bio_install cnt tail : only_bio (install_from cnt tail).
Proof.
  revert tail. induction cnt as [|cnt IH]; intros tail; cbn [install_from]; [auto with only_bio|].
  apply only_bio_bind; [|auto]. unfold install_one, bufdata. eauto 20 with only_bio.
Qed.

Lemma only_bio_write cnt tail : only_bio (write_from cnt tail).
Proof.
  revert tail. induction cnt as [|cnt IH]; intros tail; cbn [write_from]; [auto with only_bio|].
  apply only_bio_bind; [|auto]. unfold write_one, bufdata. eauto 20 with only_bio.
Qed.

(** What a returning call tells about the counters. *)
Lemma begin_op_inv l l' :
  begin_op l = Ret tt l' ->
  lg_committing l = 0 /\ lg_n l + (lg_outstanding l + 1) * MAXOPBLOCKS <= LOGSIZE /\
  l' = set_ops (lg_outstanding l + 1) (lg_committing l) l.
Proof.
  unfold begin_op, bind, get, modify, sleep_on.
  destruct (Z.eqb_spec (lg_committing l) 0) as [Hc|]; cbn [negb]; [|done].
  destruct (_ >? _) eqn:E; [done|]. intros [= <-]. split_and!; [done|lia|done].
Qed.

Lemma commit_inv l l' :
  commit l = Ret tt l' ->
  (lg_n l' = 0 \/ lg_n l' = lg_n l /\ lg_n l <= 0) /\ lg_outstanding l' = lg_outstanding l /\
  lg_committing l' = lg_committing l /\ lg_size l' = lg_size l.
Proof.
  unfold commit. intros (n & s1 & H1 & H2)%bind_Ret_inv. unfold get in H1. simplify_eq.
  destruct (lg_n s1 >? 0) eqn:E; [|unfold ret in H2; simplify_eq; split_and!; auto; right; lia].
  apply bind_Ret_inv in H2 as ([] & l1 & H1 & H2).
  unfold write_log in H1. apply bind_Ret_inv in H1 as (n & l1' & H1 & H1').
  destruct (only_bio_get _ _ _ _ H1) as [x1 ->]. destruct (only_bio_write _ _ _ _ _ H1') as [x2 ->].
  apply bind_Ret_inv in H2 as ([] & l2 & H3 & H2). destruct (only_bio_write_head _ _ _ H3) as [x3 ->].
  apply bind_Ret_inv in H2 as ([] & l3 & H4 & H2).
  unfold install_trans in H4. apply bind_Ret_inv in H4 as (n' & l3' & H4 & H4').
  destruct (only_bio_get _ _ _ _ H4) as [x4 ->]. destruct (only_bio_install _ _ _ _ _ H4') as [x5 ->].
  apply bind_Ret_inv in H2 as ([] & l4 & H5 & H2). unfold clear_n, modify in H5. simplify_eq.
  destruct (only_bio_write_head _ _ _ H2) as [x6 ->]. split_and!; auto.
Qed.

Lemma end_op_inv l l' :
  end_op l = Ret tt l' ->
  lg_committing l = 0 /\ lg_committing l' = 0 /\ lg_outstanding l' = lg_outstanding l - 1 /\
  lg_size l' = lg_size l /\ (lg_n l' = 0 \/ lg_n l' = lg_n l).
Proof.
  unfold end_op. intros ([] & l1 & H1 & H2)%bind_Ret_inv. unfold modify in H1. simplify_eq.
  apply bind_Ret_inv in H2 as (x & l2 & H1 & H2). unfold get in H1. simplify_eq. cbn in H2.
  destruct (Z.eqb_spec (lg_committing l) 0) as [Hc|]; cbn in H2; [|done].
  destruct (lg_outstanding l - 1 =? 0) eqn:E; [|unfold ret in H2; simplify_eq; cbn; split_and!; auto; lia].
  apply bind_Ret_inv in H2 as ([] & l3 & H3 & H2). unfold modify in H3. simplify_eq.
  apply bind_Ret_inv in H2 as ([] & l4 & H4 & H2). unfold modify in H2. simplify_eq.
  destruct (commit_inv _ _ H4) as (Hn & Ho & Hcm & Hsz). cbn in *. split_and!; auto; try lia; destruct Hn as [|[]]; auto.
Qed.

End Reserve.

(** ** Witnesses *)

Section Witnesses.

(** A committed transaction that was never installed: the header names sector
    5, whose new contents are in the first log block. *)
Definition ex_header : block := put32 4 5 (put32 0 1 zero_block).
Definition ex_crashed : gmap Z block := <[34 := ex_header]> (<[35 := ex_data]> ex_disk).
Definition ex_boot : log (bio Memide.memdisk) :=
  MkLog 0 0 0 0 0 0 (replicate 30 0) (MkBio (binit bcache0) (Memide.MkMemdisk ex_crashed 64 [])).
Definition ex_boot_a : abuf := MkAbuf ex_crashed [] 64 ∅ ∅.

Lemma ex_boots : boots ex_boot ex_boot_a ex_crashed 64.
Proof.
  split; [|reflexivity..]. refine (binit_rep (Memide.MkMemdisk ex_crashed 64 []) _). intros sec. cbn.
  unfold ex_crashed, ex_disk, blk. destruct (decide (sec = 34)) as [->|].
  { rewrite lookup_insert_eq. by vm_compute. }
  destruct (decide (sec = 35)) as [->|].
  { rewrite lookup_insert_ne, lookup_insert_eq by done. by vm_compute. }
  rewrite !lookup_insert_ne by done. destruct (decide (sec = 1)) as [->|].
  - rewrite lookup_singleton_eq. by vm_compute.
  - rewrite lookup_singleton_ne by done. by vm_compute.
Qed.

Lemma crash_atomic_witness :
  exists (l l1 : log (bio Memide.memdisk)) a,
    tx l a [5] /\ view a 5 <> blk (a_disk a) 5 /\ commit l = Ret tt l1.
Proof.
  destruct ex_tx as (l & a & Ht & Hh & Hd & Hn & Hs & Hsz & Hv & _).
  destruct (crash_atomic l a [5]) as (l1 & a1 & w & Hr & _); auto.
  - rewrite Hd, Hs. apply ex_hdr.
  - lia.
  - intros H%list_elem_of_singleton. done.
  - rewrite Hd, Hs, Hsz. apply ex_log_at.
  - exists l, l1, a. split; [done|]. split; [|done]. rewrite Hv, Hd. by vm_compute.
Defined.

Lemma recovery_idempotent_witness :
  exists l', initlog ex_boot = Ret tt l' /\ hdr_n ex_crashed 34 = 1.
Proof.
  destruct (recovery_idempotent ex_boot ex_boot_a ex_crashed 64 34 30) as (l' & a' & w & Hr & _).
  - exact ex_boots.
  - split; by vm_compute.
  - constructor; try (vm_compute; done).
    + replace (hdr_list ex_crashed 34) with [5] by (by vm_compute). apply NoDup_singleton.
    + replace (hdr_list ex_crashed 34) with [5] by (by vm_compute).
      apply Forall_singleton. lia.
  - lia.
  - lia.
  - lia.
  - replace (hdr_list ex_crashed 34) with [5] by (by vm_compute).
    intros H%list_elem_of_singleton. done.
  - exists l'. split; [done|by vm_compute].
Defined.

Lemma end_op_durable_witness :
  exists (l l' : log (bio Memide.memdisk)) a a',
    tx l a [5] /\ end_op l = Ret tt l' /\ bc_rep (lg_bio l') a' /\ blk (a_disk a') 5 = ex_data.
Proof.
  destruct ex_tx as (l & a & Ht & Hh & Hd & Hn & Hs & Hsz & Hv & Ho & Hc).
  destruct (end_op_durable l a [5]) as (l' & a' & Hr & Ht' & _ & _ & _ & _ & _ & Hdisk); auto.
  - rewrite Hd, Hs. apply ex_hdr.
  - exists l, l', a, a'. do 2 (split; [done|]). split; [apply (tx_rep _ _ _ Ht')|].
    rewrite Hdisk by lia. done.
Defined.

(** Sector 5 read into buffer [h] of a fresh cache. *)
Lemma ex_held :
  exists h (s : bio Memide.memdisk),
    bc_rep s (abread h 5 ex_a0) /\ held (abread h 5 ex_a0) h 5 zero_block false.
Proof.
  destruct (bread_ok ex_bio ex_a0 5 ex_rep) as (h & s & _ & _ & HR); [cbn; lia| | |].
  { intros h. cbn. by rewrite lookup_empty. }
  { right. cbn [a_mem ex_a0]. rewrite map_size_empty. unfold NBUF. lia. }
  exists h, s. split; [done|]. exact (held_abread ex_a0 h 5).
Qed.

Lemma log_write_absorbs_witness :
  exists h (l l' : log (bio Memide.memdisk)), log_write h l = Ret tt l' /\ lg_n l' = 1.
Proof.
  destruct ex_held as (h & s & HR & Hh).
  destruct (log_write_absorbs (set_bio s (ex_log0 1)) (abread h 5 ex_a0) [] h 5 zero_block false)
    as (l' & a' & Hr & _ & _ & Hn & _); try done.
  - by apply tx_abread; [apply ex_tx0|].
  - exists h, (set_bio s (ex_log0 1)), l'. split; [done|]. by rewrite Hn.
Defined.

End Witnesses.

(** ** The log mkfs makes *)

(** One block modified under the log: read, log_write, release. *)
Definition touch {S} `{!BufferCache S} (sec : Z) : M (log S) unit :=
  let! b := bio_call (bread ROOTDEV sec) in
  log_write b ;;
  bio_call (brelse b).

Fixpoint touch_all {S} `{!BufferCache S} (secs : list Z) : M (log S) unit :=
  match secs with
  | [] => ret tt
  | sec :: secs => touch sec ;; touch_all secs
  end.

(** mkfs gives the log area LOGSIZE blocks, of which one is the header.
    begin_op admits three calls at once, each within its MAXOPBLOCKS writes, but
    when together they touch thirty blocks the last log_write panics. *)
Theorem mkfs_log_overflow :
  (begin_op ;; begin_op ;; begin_op ;;
   touch_all (Z.of_nat <$> seq 2 10) ;;
   touch_all (Z.of_nat <$> seq 12 10) ;;
   touch_all (Z.of_nat <$> seq 22 10)) (ex_log0 0) = Fail (FPanic "too big a transaction").
Proof. vm_compute. reflexivity. Qed.
