(* ===== verification/LogRace.v ===== *)
(** * Concurrent log_writes (log.c: begin_op, log_write, end_op)

    begin_op and end_op run under log.lock; log_write takes no lock.  This file
    splits log_write into its accesses of the shared header and lets the calls
    between begin_op and end_op interleave them in any order.  The theorems show
    that the split code, run alone, is the log_write of Log.v; that the
    reservation of begin_op keeps every access of every call within the log as
    long as no two calls are inside [log.lh.n++] at once; and that two calls
    that do overlap can lose a block from the header. *)

From S2P Require Import Prelude.
From S2P Require Import Params.
From S2P Require Import Disk.
From S2P Require Import BufSpec.
From S2P Require Import Bio.
From S2P Require Import Log.
From S2P Require Import LogOps.

(** ** log_write, access by access *)

(** Where a call is in log_write: before each of the two tests of [log.lh.n],
    the test of [log.outstanding], the test of the loop, the comparison with
    [log.lh.sector[i]], the store to it, the test [i == log.lh.n], the load and
    the store of [log.lh.n++], and the store to [b->flags]. *)
Inductive lwpc : Type :=
| AtLogsize
| AtSize
| AtOutstanding
| AtFor (i : Z)
| AtCompare (i : Z)
| AtStore (i : Z)
| AtTest (i : Z)
| AtLoad
| AtIncr (v : Z)
| AtFlags
| AtReturn.

Section Split.
Context {S : Type} `{!BufferCache S}.
Implicit Types (l : log S).

Definition lw_step (b : nat) (pc : lwpc) : M (log S) lwpc :=
  match pc with
  | AtLogsize =>
      let! n := get lg_n in
      if n >=? LOGSIZE then panic "too big a transaction" else ret AtSize
  | AtSize =>
      let! n := get lg_n in
      let! size := get lg_size in
      if n >=? size - 1 then panic "too big a transaction" else ret AtOutstanding
  | AtOutstanding =>
      let! outstanding := get lg_outstanding in
      if outstanding <? 1 then panic "log_write outside of trans" else ret (AtFor 0)
  | AtFor i =>
      let! n := get lg_n in
      ret (if i <? n then AtCompare i else AtStore i)
  | AtCompare i =>
      let! v := lh_sector i in
      let! sec := get (fun l => bp_sector (lg_bio l) b) in
      ret (if u32 v =? sec then AtStore i else AtFor (i + 1))
  | AtStore i =>
      let! sec := get (fun l => bp_sector (lg_bio l) b) in
      if i <? LOGSIZE then
        modify (fun l => set_head (lg_n l) (zset (lg_sector l) i (i32 sec)) l) ;; ret (AtTest i)
      else undef "log.lh.sector[i] out of bounds"
  | AtTest i =>
      let! n := get lg_n in
      ret (if i =? n then AtLoad else AtFlags)
  | AtLoad => let! n := get lg_n in ret (AtIncr n)
  | AtIncr v => modify (fun l => set_head (v + 1) (lg_sector l) l) ;; ret AtFlags
  | AtFlags => bio_call (bp_dirty b) ;; ret AtReturn
  | AtReturn => ret AtReturn
  end.

(** The accesses of one call with nothing in between. *)
Fixpoint lw_run (fuel : nat) (b : nat) (pc : lwpc) : M (log S) unit :=
  match pc, fuel with
  | AtReturn, _ => ret tt
  | _, O => out_of_fuel
  | _, Datatypes.S fuel => let! pc := lw_step b pc in lw_run fuel b pc
  end.

(** ** end_op, in its two critical sections *)

(** The section that opens end_op; the result is [do_commit]. *)
Definition end_op_enter : M (log S) bool :=
  modify (fun l => set_ops (lg_outstanding l - 1) (lg_committing l) l) ;;
  let! l := get (fun l => l) in
  if negb (lg_committing l =? 0) then panic "log.committing"
  else if lg_outstanding l =? 0 then
    modify (fun l => set_ops (lg_outstanding l) 1 l) ;; ret true
  else ret false.

(** The commit and the section that closes it. *)
Definition end_op_commit : M (log S) unit :=
  commit ;;
  modify (fun l => set_ops (lg_outstanding l) 0 l).

(** ** The interleaving *)

(** A call between begin_op and end_op: how many log_writes it may still
    start, and the one it is in, with its buffer. *)
Definition call : Type := Z * option (nat * lwpc).

Inductive lstep : log S * list call -> log S * list call -> Prop :=
| LBegin l l' cs : begin_op l = Ret tt l' -> lstep (l, cs) (l', (MAXOPBLOCKS, None) :: cs)
| LCall l b cs1 r cs2 :
    0 < r -> lstep (l, cs1 ++ (r, None) :: cs2) (l, cs1 ++ (r - 1, Some (b, AtLogsize)) :: cs2)
| LAccess l l' b pc pc' cs1 r cs2 :
    lw_step b pc l = Ret pc' l' ->
    lstep (l, cs1 ++ (r, Some (b, pc)) :: cs2) (l', cs1 ++ (r, Some (b, pc')) :: cs2)
| LReturn l b cs1 r cs2 : lstep (l, cs1 ++ (r, Some (b, AtReturn)) :: cs2) (l, cs1 ++ (r, None) :: cs2)
| LCache l s cs : lstep (l, cs) (set_bio s l, cs)
| LEnd l l' do_commit cs1 r cs2 :
    end_op_enter l = Ret do_commit l' -> lstep (l, cs1 ++ (r, None) :: cs2) (l', cs1 ++ cs2)
| LCommit l l' cs : lg_committing l = 1 -> end_op_commit l = Ret tt l' -> lstep (l, cs) (l', cs).

(** Whether a call has loaded [log.lh.n] for [log.lh.n++] and not stored it. *)
Definition incrementing (c : call) : bool :=
  match c.2 with Some (_, AtIncr _) => true | _ => false end.

Definition increments (cs : list call) : nat := length (List.filter incrementing cs).

(** A step after which at most one call is inside [log.lh.n++]. *)
Definition lstep_apart (st st' : log S * list call) : Prop :=
  lstep st st' /\ (increments st'.2 <= 1)%nat.

(** ** The split code run alone *)

Lemma lw_step_run fuel b pc l pc' l' :
  lw_step b pc l = Ret pc' l' -> lw_run (Datatypes.S fuel) b pc l = lw_run fuel b pc' l'.
Proof.
  intros H. destruct pc; cbn [lw_run]; try by rewrite (bind_run _ _ _ _ _ H).
  injection H as <- <-. by destruct fuel.
Qed.

Lemma lw_step_fail fuel b pc l why :
  lw_step b pc l = Fail why -> lw_run (Datatypes.S fuel) b pc l = Fail why.
Proof. intros H. destruct pc; try done; cbn [lw_run]; unfold bind at 1; by rewrite H. Qed.

(** The scan, from position [i] with [cnt] entries to go. *)
Lemma lw_scan cnt : forall i fuel b l, 0 <= i -> lg_n l = i + Z.of_nat cnt \/ lg_n l <= i /\ cnt = O -> lg_n l < LOGSIZE ->
  exists k, lw_run (2 * cnt + 1 + fuel) b (AtFor i) l =
    lw_run (k + fuel) b (AtStore (find_slot cnt i (lg_sector l) (bp_sector (lg_bio l) b))) l.
Proof.
  induction cnt as [|cnt IH]; intros i fuel b l Hi Hn Hsz.
  - exists 0%nat. apply lw_step_run. unfold lw_step, bind, get, ret. by rewrite (proj2 (Z.ltb_ge _ _)) by lia.
  - assert (Hn' : lg_n l = i + Z.of_nat (Datatypes.S cnt)) by (destruct Hn as [?|[_ ?]]; done).
    replace (2 * Datatypes.S cnt + 1 + fuel)%nat with (Datatypes.S (Datatypes.S (2 * cnt + 1 + fuel))) by lia.
    rewrite (lw_step_run _ _ _ _ (AtCompare i) l);
      [|unfold lw_step, bind, get, ret; by rewrite (proj2 (Z.ltb_lt _ _)) by lia].
    cbn [find_slot]. set (sec := bp_sector (lg_bio l) b).
    assert (Hc : lw_step b (AtCompare i) l = Ret (if u32 (zget (lg_sector l) i) =? sec then AtStore i else AtFor (i + 1)) l)
      by (unfold lw_step; run (lh_sector_run l i ltac:(lia)); done).
    rewrite (lw_step_run _ _ _ _ _ _ Hc). destruct (u32 (zget (lg_sector l) i) =? sec).
    + by exists (2 * cnt + 1)%nat.
    + apply IH; [lia|left; lia|done].
Qed.

Lemma find_slot_range cnt i sector sec : i <= find_slot cnt i sector sec <= i + Z.of_nat cnt.
Proof.
  revert i. induction cnt as [|cnt IH]; intros i; cbn [find_slot]; [lia|].
  destruct (_ =? _); [lia|]. specialize (IH (i + 1)). lia.
Qed.

(** From the store on. *)
Lemma lw_tail fuel b i l : i < LOGSIZE ->
  lw_run (5 + fuel) b (AtStore i) l =
    (modify (fun l => set_head (lg_n l) (zset (lg_sector l) i (i32 (bp_sector (lg_bio l) b))) l) ;;
     (let! n := get lg_n in if i =? n then modify (fun l => set_head (lg_n l + 1) (lg_sector l) l) else ret tt) ;;
     bio_call (bp_dirty b)) l.
Proof.
  intros Hi. set (l1 := set_head (lg_n l) (zset (lg_sector l) i (i32 (bp_sector (lg_bio l) b))) l).
  rewrite (bind_run _ _ l tt l1) by done. change (5 + fuel)%nat with (Datatypes.S (4 + fuel)).
  rewrite (lw_step_run _ _ _ _ (AtTest i) l1);
    [|unfold lw_step, bind, get; by rewrite (proj2 (Z.ltb_lt _ _)) by done].
  assert (Hflags : forall fuel l2, lw_run (Datatypes.S fuel) b AtFlags l2 = bio_call (bp_dirty b) l2).
  { intros fuel' l2. cbn [lw_run lw_step]. unfold bind, ret. by destruct (bio_call (bp_dirty b) l2) as [[] ?|?|?]; destruct fuel'. }
  change (4 + fuel)%nat with (Datatypes.S (3 + fuel)). rewrite (lw_step_run _ b (AtTest i) l1 _ l1 eq_refl).
  unfold bind at 1. unfold bind at 1. unfold get. cbv beta iota. destruct (i =? lg_n l1); [|apply (Hflags (2 + fuel)%nat)].
  change (3 + fuel)%nat with (Datatypes.S (2 + fuel)). rewrite (lw_step_run _ _ _ _ (AtIncr (lg_n l1)) l1) by done.
  change (2 + fuel)%nat with (Datatypes.S (1 + fuel)). rewrite (lw_step_run _ b (AtIncr (lg_n l1)) l1 AtFlags _ eq_refl).
  apply (Hflags fuel).
Qed.

(** Without interference the accesses are the log_write of Log.v, panics
    included. *)
Theorem lw_run_log_write b l : lw_run (2 * Z.to_nat (lg_n l) + 9) b AtLogsize l = log_write b l.
Proof.
  unfold log_write. rewrite (bind_run (get _) _ _ _ _ eq_refl). cbv beta.
  replace (2 * Z.to_nat (lg_n l) + 9)%nat with (Datatypes.S (Datatypes.S (Datatypes.S (2 * Z.to_nat (lg_n l) + 1 + 5)))) by lia.
  destruct (Z.geb_spec (lg_n l) LOGSIZE) as [H1|H1]; cbn [orb].
  { apply lw_step_fail. unfold lw_step, bind, get, panic. by rewrite (proj2 (Z.geb_le _ _)) by lia. }
  rewrite (lw_step_run _ _ _ _ AtSize l);
    [|unfold lw_step, bind, get, ret; by destruct (Z.geb_spec (lg_n l) LOGSIZE); [lia|]].
  destruct (lg_n l >=? lg_size l - 1) eqn:H2.
  { apply lw_step_fail. unfold lw_step, bind, get, panic. by rewrite H2. }
  rewrite (lw_step_run _ _ _ _ AtOutstanding l); [|unfold lw_step, bind, get, ret; by rewrite H2].
  destruct (lg_outstanding l <? 1) eqn:H3.
  { apply lw_step_fail. unfold lw_step, bind, get, panic. by rewrite H3. }
  rewrite (lw_step_run _ _ _ _ (AtFor 0) l); [|unfold lw_step, bind, get, ret; by rewrite H3].
  destruct (lw_scan (Z.to_nat (lg_n l)) 0 5 b l) as [k ->]; [lia|lia|lia|]. rewrite Nat.add_comm.
  set (i := find_slot _ _ _ _). pose proof (find_slot_range (Z.to_nat (lg_n l)) 0 (lg_sector l) (bp_sector (lg_bio l) b)) as Hr.
  fold i in Hr. rewrite lw_tail by (unfold LOGSIZE, MAXOPBLOCKS in *; lia). reflexivity.
Qed.

(** end_op is its two sections, with the commit when no call is left. *)
Lemma end_op_split l : end_op l = (let! do_commit := end_op_enter in if do_commit then end_op_commit else ret tt) l.
Proof.
  unfold end_op, end_op_enter, end_op_commit, bind, modify, get, panic, ret. cbn.
  destruct (negb _); [done|]. by destruct (_ =? _).
Qed.

End Split.

(** ** The reservation *)

Section Reserve.
Context {S : Type} `{!BufferCache S}.
Implicit Types (l : log S) (c : call) (cs : list call).

(** The entries a call may still add to the header: one for each log_write it
    may start, and one for the log_write it is in, until its increment. *)
Definition pending (pc : lwpc) : Z := match pc with AtFlags | AtReturn => 0 | _ => 1 end.
Definition cost c : Z := c.1 + match c.2 with Some (_, pc) => pending pc | None => 0 end.
Definition total cs : Z := foldr (fun c => Z.add (cost c)) 0 cs.

(** What a call knows of the header, which has [n] entries. *)
Definition pc_ok (n : Z) (pc : lwpc) : Prop :=
  match pc with
  | AtFor i | AtStore i | AtTest i => 0 <= i <= n
  | AtCompare i => 0 <= i < n
  | AtIncr v => v = n
  | _ => True
  end.

Definition call_fits (n : Z) c : Prop :=
  0 <= c.1 /\ cost c <= MAXOPBLOCKS /\ match c.2 with Some (_, pc) => pc_ok n pc | None => True end.

(** Every outstanding call still has room in the log for all it may write. *)
Record reserved (st : log S * list call) : Prop := {
  rv_out : lg_outstanding st.1 = zlen st.2;
  rv_commit : lg_committing st.1 = 0 \/ lg_committing st.1 = 1 /\ st.2 = [];
  rv_calls : Forall (call_fits (lg_n st.1)) st.2;
  rv_n : 0 <= lg_n st.1;
  rv_space : lg_n st.1 + total st.2 <= LOGSIZE
}.

Lemma total_app cs1 cs2 : total (cs1 ++ cs2) = total cs1 + total cs2.
Proof. unfold total. induction cs1 as [|b cs1 IH]; cbn; [done|]. rewrite IH. lia. Qed.

Lemma total_cons c cs : total (c :: cs) = cost c + total cs.
Proof. done. Qed.

Lemma cost_nonneg n c : call_fits n c -> 0 <= cost c.
Proof. destruct c as [r [[b pc]|]]; intros (H & _); cbn in *; unfold cost; cbn; [destruct pc; cbn|]; lia. Qed.

Lemma total_bound n cs : Forall (call_fits n) cs -> 0 <= total cs <= zlen cs * MAXOPBLOCKS.
Proof.
  unfold zlen, total. induction 1 as [|c cs Hc _ IH]; cbn -[Z.mul Z.of_nat] in *; [lia|].
  pose proof (cost_nonneg _ _ Hc). destruct Hc as (_ & Hc & _). unfold MAXOPBLOCKS in *. lia.
Qed.

Lemma increments_app cs1 cs2 : increments (cs1 ++ cs2) = (increments cs1 + increments cs2)%nat.
Proof. unfold increments. by rewrite List.filter_app, length_app. Qed.

Lemma increments_cons c cs : increments (c :: cs) = ((if incrementing c then 1 else 0) + increments cs)%nat.
Proof. unfold increments. cbn. by destruct (incrementing c). Qed.

(** A call outside [log.lh.n++] is not disturbed by a longer header. *)
Lemma call_fits_grow n c : incrementing c = false -> call_fits n c -> call_fits (n + 1) c.
Proof.
  destruct c as [r [[b pc]|]]; intros Hi (H1 & H2 & H3); split_and!; auto. cbn in *. destruct pc; cbn in *; done || lia.
Qed.

Lemma calls_fit_grow n cs : increments cs = 0%nat -> Forall (call_fits n) cs -> Forall (call_fits (n + 1)) cs.
Proof.
  intros Hi H. induction H as [|c cs Hc _ IH]; [done|]. rewrite increments_cons in Hi.
  destruct (incrementing c) eqn:E; [done|]. constructor; [by apply call_fits_grow|by apply IH].
Qed.

(** One access of log_write, as seen by the counters. *)
Lemma lw_step_inv b pc l pc' l' :
  lw_step b pc l = Ret pc' l' -> pc_ok (lg_n l) pc -> 0 <= lg_n l ->
  lg_outstanding l' = lg_outstanding l /\ lg_committing l' = lg_committing l /\ lg_size l' = lg_size l /\
  pc_ok (lg_n l') pc' /\
  ((exists v, pc = AtIncr v) /\ lg_n l' = lg_n l + 1 /\ pending pc' = 0 /\ pending pc = 1 \/
   lg_n l' = lg_n l /\ pending pc' <= pending pc).
Proof.
  intros H Hok Hn. destruct pc; cbn [lw_step] in H; unfold lh_sector, bind, get, modify, ret, panic, undef in H;
    repeat (case_match; simplify_eq); simplify_eq; cbn in *; split_and!; auto; try lia.
  all: try match goal with
    | H : bio_call _ _ = _ |- _ => destruct (only_bio_call _ _ _ _ H) as [? ->]; cbn in *; clear H
    end; try done; try lia.
  left. split_and!; eauto; lia.
Qed.

Lemma end_op_enter_inv l l' do_commit :
  end_op_enter l = Ret do_commit l' ->
  lg_committing l = 0 /\ lg_outstanding l' = lg_outstanding l - 1 /\ lg_n l' = lg_n l /\ lg_size l' = lg_size l /\
  (lg_committing l' = 0 \/ lg_committing l' = 1 /\ lg_outstanding l' = 0).
Proof.
  unfold end_op_enter, bind, modify, get, panic, ret. cbn. intros H.
  destruct (Z.eqb_spec (lg_committing l) 0); [|done]. destruct (Z.eqb_spec (lg_outstanding l - 1) 0);
    cbn in H; simplify_eq; cbn; split_and!; auto.
Qed.

Lemma end_op_commit_inv l l' :
  end_op_commit l = Ret tt l' ->
  lg_committing l' = 0 /\ lg_outstanding l' = lg_outstanding l /\ lg_size l' = lg_size l /\
  (lg_n l' = 0 \/ lg_n l' = lg_n l /\ lg_n l <= 0).
Proof.
  unfold end_op_commit. intros ([] & l1 & H1 & H2)%bind_Ret_inv. destruct (commit_inv _ _ H1) as (Hn & Ho & _ & Hs).
  unfold modify in H2. simplify_eq. cbn. auto.
Qed.

(** What is left when the call in the middle changes. *)
Lemma fits_middle n cs1 c cs2 : Forall (call_fits n) (cs1 ++ c :: cs2) <->
  Forall (call_fits n) cs1 /\ call_fits n c /\ Forall (call_fits n) cs2.
Proof. rewrite Forall_app, Forall_cons. done. Qed.

Lemma total_middle cs1 c cs2 : total (cs1 ++ c :: cs2) = total cs1 + cost c + total cs2.
Proof. rewrite total_app, total_cons. lia. Qed.

Lemma zlen_middle cs1 c cs2 : zlen (cs1 ++ c :: cs2) = zlen cs1 + zlen cs2 + 1.
Proof. rewrite zlen_app. unfold zlen. cbn [length]. lia. Qed.

Lemma reserved_access l l' b pc pc' cs1 r cs2 :
  lw_step b pc l = Ret pc' l' -> (increments (cs1 ++ (r, Some (b, pc)) :: cs2) <= 1)%nat ->
  reserved (l, cs1 ++ (r, Some (b, pc)) :: cs2) -> reserved (l', cs1 ++ (r, Some (b, pc')) :: cs2).
Proof.
  intros H Hinc [Ho Hc Hb Hn Hsp]. cbn [fst snd] in *. apply fits_middle in Hb as (Hb1 & (Hr & Hcost & Hok) & Hb2).
  cbn [fst snd] in *. destruct (lw_step_inv _ _ _ _ _ H Hok Hn) as (Ho' & Hc' & _ & Hok' & Hcase).
  rewrite total_middle in Hsp. rewrite increments_app, increments_cons in Hinc. unfold cost in Hcost, Hsp; cbn [fst snd] in Hcost, Hsp.
  constructor; cbn [fst snd].
  - by rewrite Ho', Ho, !zlen_middle.
  - rewrite Hc'. destruct Hc as [?|[_ Hnil]]; [by left|]. by destruct cs1.
  - apply fits_middle. destruct Hcase as [((v & ->) & Hn' & Hp' & Hp)|[Hn' Hp]].
    + cbn in Hinc. rewrite Hn'. split_and!; [apply calls_fit_grow; [lia|done]| |apply calls_fit_grow; [lia|done]].
      split_and!; cbn [fst snd]; [done| |by rewrite <- Hn']. unfold cost. cbn [fst snd]. rewrite Hp'. lia.
    + rewrite Hn'. split_and!; auto. split_and!; cbn [fst snd]; [done| |by rewrite <- Hn']. unfold cost. cbn [fst snd]. lia.
  - destruct Hcase as [(_ & -> & _)|[-> _]]; lia.
  - rewrite total_middle. unfold cost. cbn [fst snd]. destruct Hcase as [(_ & -> & Hp' & Hp)|[-> Hp]]; lia.
Qed.

(** A call that changes without touching the log. *)
Lemma reserved_same l cs1 c c' cs2 :
  reserved (l, cs1 ++ c :: cs2) -> (call_fits (lg_n l) c -> call_fits (lg_n l) c') -> cost c' <= cost c ->
  reserved (l, cs1 ++ c' :: cs2).
Proof.
  intros [Ho Hc Hb Hn Hsp] Hf Hle. cbn [fst snd] in *. apply fits_middle in Hb as (Hb1 & Hc1 & Hb2).
  rewrite total_middle in Hsp. constructor; cbn [fst snd]; auto.
  - by rewrite Ho, !zlen_middle.
  - destruct Hc as [?|[_ Hnil]]; [by left|]. by destruct cs1.
  - apply fits_middle. auto.
  - rewrite total_middle. lia.
Qed.

Lemma reserved_step st st' : lstep st st' -> (increments st.2 <= 1)%nat -> reserved st -> reserved st'.
Proof.
  intros Hs Hinc Hv. destruct Hs as [l l' cs H1|l b cs1 r cs2 Hr|l l' b pc pc' cs1 r cs2 H1|l b cs1 r cs2|l s cs
    |l l' dc cs1 r cs2 H1|l l' cs H0 H1]; cbn [fst snd] in *.
  - destruct Hv as [Ho Hc Hb Hn Hsp]; cbn [fst snd] in *. pose proof (total_bound _ _ Hb).
    destruct (begin_op_inv _ _ H1) as (Hc0 & Hsz & ->). constructor; cbn [fst snd]; rewrite ?total_cons; cbn; auto.
    + unfold zlen in *. cbn. lia.
    + constructor; [|done]. split_and!; cbn; unfold cost; cbn; done || lia.
    + unfold cost. cbn [fst snd]. unfold MAXOPBLOCKS in *. lia.
  - eapply reserved_same; [done| |]; unfold call_fits, cost; cbn; intuition lia.
  - by eapply reserved_access.
  - eapply reserved_same; [done| |]; unfold call_fits, cost; cbn; intuition lia.
  - by destruct Hv.
  - destruct Hv as [Ho Hc Hb Hn Hsp]; cbn [fst snd] in *. apply fits_middle in Hb as (Hb1 & Hcf & Hb2).
    pose proof (cost_nonneg _ _ Hcf). rewrite total_middle in Hsp. rewrite zlen_middle in Ho.
    destruct (end_op_enter_inv _ _ _ H1) as (_ & Ho' & Hn' & _ & Hc'). constructor; cbn [fst snd]; rewrite ?Hn'; auto.
    + rewrite Ho', Ho, zlen_app. lia.
    + destruct Hc' as [?|[? Hz]]; [by left|right]. split; [done|]. destruct cs1, cs2; try done; unfold zlen in *; cbn in *; lia.
    + by apply Forall_app.
    + rewrite total_app. lia.
  - destruct Hv as [Ho Hc Hb Hn Hsp]; cbn [fst snd] in *. destruct Hc as [?|[_ ->]]; [lia|].
    destruct (end_op_commit_inv _ _ H1) as (Hc' & Ho' & _ & Hn'). constructor; cbn [fst snd]; auto.
    + congruence.
    + destruct Hn' as [|[]]; lia.
    + cbn in *. destruct Hn' as [->|[-> _]]; [done|lia].
Qed.

Lemma lstep_size st st' : lstep st st' -> lg_size st'.1 = lg_size st.1.
Proof.
  destruct 1 as [l l' cs H1| |l l' b pc pc' cs1 r cs2 H1| | |l l' dc cs1 r cs2 H1|l l' cs _ H1]; cbn; try done.
  - by destruct (begin_op_inv _ _ H1) as (_ & _ & ->).
  - destruct pc; cbn [lw_step] in H1; unfold lh_sector, bind, get, modify, ret, panic, undef in H1;
      repeat (case_match; simplify_eq); simplify_eq; try done.
    by match goal with H : bio_call _ _ = _ |- _ => destruct (only_bio_call _ _ _ _ H) as [? ->] end.
  - by destruct (end_op_enter_inv _ _ _ H1) as (_ & _ & _ & -> & _).
  - by destruct (end_op_commit_inv _ _ H1) as (_ & _ & -> & _).
Qed.

Lemma reserved_reachable st st' :
  rtc lstep_apart st st' -> (increments st.2 <= 1)%nat -> reserved st -> reserved st' /\ lg_size st'.1 = lg_size st.1.
Proof.
  induction 1 as [st|st st1 st2 [Hs Hi] _ IH]; intros Hinc Hr; [done|].
  destruct IH as [IH1 IH2]; [done|by eapply reserved_step|]. split; [done|]. by rewrite IH2, (lstep_size _ _ Hs).
Qed.

(** C21: begin_op reserves enough.  The calls between begin_op and end_op
    interleave the individual accesses of their log_writes in any order, as long
    as no two are between the load and the store of [log.lh.n++] at once.  From
    an idle log whose area has at least LOGSIZE data blocks, with each call
    within its MAXOPBLOCKS log_writes, the header never has more than LOGSIZE
    entries, and the next access of every log_write in progress goes through: it
    neither panics nor leaves the array of sectors. *)
Theorem reservation_suffices l0 l cs r b pc a sec d fl :
  rtc lstep_apart (l0, []) (l, cs) ->
  lg_n l0 = 0 -> lg_outstanding l0 = 0 -> lg_committing l0 = 0 -> LOGSIZE <= lg_size l0 - 1 ->
  (r, Some (b, pc)) ∈ cs -> bc_rep (lg_bio l) a -> held a b sec d fl ->
  lg_n l <= LOGSIZE /\ exists pc' l', lw_step b pc l = Ret pc' l'.
Proof.
  intros Hr Hn Ho Hc Hsz (cs1 & cs2 & ->)%list_elem_of_split HR Hh.
  destruct (reserved_reachable _ _ Hr) as [[Ho' _ Hb Hn' Hsp] Hs']; [cbn; lia| |].
  { constructor; cbn; rewrite ?Hn, ?Ho; auto; unfold LOGSIZE, MAXOPBLOCKS; lia. }
  cbn [fst snd] in *. apply fits_middle in Hb as (Hb1 & (Hr0 & Hcost & Hok) & Hb2).
  pose proof (total_bound _ _ Hb1). pose proof (total_bound _ _ Hb2). rewrite total_middle in Hsp.
  rewrite zlen_middle in Ho'. unfold zlen in Ho'.
  unfold cost in Hsp. cbn [fst snd] in *. split; [destruct pc; cbn in Hsp; lia|].
  destruct (bp_dirty_ok _ _ _ _ _ _ HR Hh) as (s' & Hd & _).
  destruct pc; cbn [lw_step pending pc_ok] in *; unfold bind, get; try (by do 2 eexists).
  - destruct (Z.geb_spec (lg_n l) LOGSIZE); [lia|by do 2 eexists].
  - destruct (Z.geb_spec (lg_n l) (lg_size l - 1)); [lia|by do 2 eexists].
  - destruct (Z.ltb_spec (lg_outstanding l) 1); [lia|by do 2 eexists].
  - rewrite lh_sector_run by lia. by do 2 eexists.
  - rewrite (proj2 (Z.ltb_lt _ _)) by lia. by do 2 eexists.
  - rewrite (bio_call_run _ _ _ _ Hd). by do 2 eexists.
Qed.

End Reserve.

(** ** A block lost *)

(** Two calls in progress, each with its buffer, advance in the order given by
    the schedule: [false] for the first, [true] for the second. *)
Section Race.
Context {S : Type} `{!BufferCache S}.

Fixpoint race (sched : list bool) (b1 b2 : nat) (pc1 pc2 : lwpc) : M (log S) (lwpc * lwpc) :=
  match sched with
  | [] => ret (pc1, pc2)
  | false :: sched => let! pc1 := lw_step b1 pc1 in race sched b1 b2 pc1 pc2
  | true :: sched => let! pc2 := lw_step b2 pc2 in race sched b1 b2 pc1 pc2
  end.

Lemma race_steps sched b1 b2 pc1 pc2 r1 r2 (l : log S) p l' :
  race sched b1 b2 pc1 pc2 l = Ret p l' ->
  rtc lstep (l, [(r1, Some (b1, pc1)); (r2, Some (b2, pc2))]) (l', [(r1, Some (b1, p.1)); (r2, Some (b2, p.2))]).
Proof.
  revert pc1 pc2 l. induction sched as [|[] sched IH]; intros pc1 pc2 l H; cbn [race] in H.
  - unfold ret in H. simplify_eq. apply rtc_refl.
  - apply bind_Ret_inv in H as (pc & l1 & H1 & H2). eapply rtc_l; [|by apply IH].
    exact (LAccess _ _ _ _ _ [(r1, Some (b1, pc1))] r2 [] H1).
  - apply bind_Ret_inv in H as (pc & l1 & H1 & H2). eapply rtc_l; [|by apply IH].
    exact (LAccess _ _ _ _ _ [] r1 [(r2, Some (b2, pc2))] H1).
Qed.

End Race.

(** Both calls pass the tests and the empty scan before either stores. *)
Definition ex_sched : list bool := [false; false; false; false; true; true; true; true;
  false; true; false; false; false; false; true; true].

(** Two calls log sectors 5 and 6 in the same transaction.  Both log_writes
    return, and the header that end_op commits names sector 6 only. *)
Theorem log_write_race :
  match (begin_op ;; begin_op ;;
         let! b1 := bio_call (bread ROOTDEV 5) in
         let! b2 := bio_call (bread ROOTDEV 6) in
         let! pcs := race ex_sched b1 b2 AtLogsize AtLogsize in
         let! l := get (fun l => l) in
         ret (pcs, lg_n l, take 2 (lg_sector l))) (ex_log0 0) with
  | Ret (pcs, n, sectors) _ => pcs = (AtReturn, AtReturn) /\ n = 1 /\ sectors = [6; 0]
  | _ => False
  end.
Proof. vm_compute. split_and!; reflexivity. Qed.

(** The first [k] accesses of a log_write. *)
Fixpoint lw_steps {S} `{!BufferCache S} (k : nat) (b : nat) (pc : lwpc) : M (log S) lwpc :=
  match k with
  | O => ret pc
  | Datatypes.S k => let! pc := lw_step b pc in lw_steps k b pc
  end.

(** Overlapping increments defeat the reservation.  Calls A, B and C begin; B
    logs nine blocks and stops inside the tenth increment, with 9 loaded; C logs
    ten; A stops inside its first increment, with 19 loaded.  B's store takes the
    count back to 10, so after B and C have ended begin_op admits a call D.  A
    logs its ten blocks, D one, and the second log_write of D panics, although
    every call is within its MAXOPBLOCKS and the log has LOGSIZE data blocks. *)
Theorem lost_increment_panics :
  (begin_op ;; begin_op ;; begin_op ;;
   touch_all (Z.of_nat <$> seq 2 9) ;;
   let! bB := bio_call (bread ROOTDEV 11) in
   let! pcB := lw_steps (2 * 9 + 7) bB AtLogsize in
   touch_all (Z.of_nat <$> seq 12 10) ;;
   let! bA := bio_call (bread ROOTDEV 22) in
   let! pcA := lw_steps (2 * 19 + 7) bA AtLogsize in
   lw_run 2 bB pcB ;; bio_call (brelse bB) ;; end_op ;; end_op ;;
   begin_op ;;
   lw_run 2 bA pcA ;; bio_call (brelse bA) ;; touch_all (Z.of_nat <$> seq 23 9) ;;
   touch_all [11; 12]) (MkLog 33 31 0 0 ROOTDEV 0 (replicate 30 0) ex_bio) = Fail (FPanic "too big a transaction").
Proof. vm_compute. reflexivity. Qed.

(** ** Witness *)

Lemma reservation_suffices_witness :
  exists h pc' (l l' : log (bio Memide.memdisk)), lw_step h AtLogsize l = Ret pc' l'.
Proof.
  destruct ex_held as (h & s & HR & Hh).
  set (l0 := MkLog 33 31 0 0 ROOTDEV 0 (replicate 30 0) ex_bio).
  destruct (reservation_suffices l0 (set_bio s (set_ops 1 0 l0)) [(MAXOPBLOCKS - 1, Some (h, AtLogsize))]
    (MAXOPBLOCKS - 1) h AtLogsize (abread h 5 ex_a0) 5 zero_block false) as (_ & pc' & l' & Hr); try done.
  - eapply rtc_l; [split; [by apply LBegin|cbn; lia]|]. eapply rtc_l; [split; [apply LCache|cbn; lia]|].
    eapply rtc_l; [split; [by apply (LCall _ h [] MAXOPBLOCKS [])|cbn; lia]|]. apply rtc_refl.
  - apply list_elem_of_here.
  - exists h, pc', (set_bio s (set_ops 1 0 l0)), l'. exact Hr.
Defined.
