(* ===== verification/CString.v ===== *)
(** * C strings and memory blocks (string.c, ulib.c)

    The kernel's string.c and the user library's copies of the same routines.
    Routines that move bytes work on a flat byte memory, so that overlapping
    blocks are covered.  Routines that walk a string take the bytes of the
    object from the pointer to its end: [*p] is the head of the list, [p++] its
    tail, and reading past the object is [None]. *)

From S2P Require Import Prelude.

(** ** Flat memory *)

Definition mem : Type := Z -> Z.
Definition mset (m : mem) (a v : Z) : mem := fun x => if x =? a then v else m x.

Lemma mset_eq m a v : mset m a v a = v.
Proof. unfold mset. by rewrite Z.eqb_refl. Qed.

Lemma mset_ne m a v x : x <> a -> mset m a v x = m x.
Proof. intros. unfold mset. by rewrite (proj2 (Z.eqb_neq _ _)). Qed.

(** [rep stosb] and [rep stosl]: the low byte of the accumulator, or its four
    bytes in little-endian order, stored [cnt] times. *)
Fixpoint stosb (cnt : nat) (m : mem) (addr data : Z) : mem :=
  match cnt with
  | O => m
  | S cnt => stosb cnt (mset m addr (u8 data)) (addr + 1) data
  end.

Fixpoint stosl (cnt : nat) (m : mem) (addr data : Z) : mem :=
  match cnt with
  | O => m
  | S cnt =>
      let m := mset m addr (u8 data) in
      let m := mset m (addr + 1) (u8 (Z.shiftr data 8)) in
      let m := mset m (addr + 2) (u8 (Z.shiftr data 16)) in
      let m := mset m (addr + 3) (u8 (Z.shiftr data 24)) in
      stosl cnt m (addr + 4) data
  end.

Module KString.

Definition memset (m : mem) (dst c n : Z) : mem :=
  if (dst mod 4 =? 0) && (n mod 4 =? 0) then
    let c := Z.land c 255 in
    stosl (Z.to_nat (n / 4)) m dst
      (Z.lor (Z.lor (Z.lor (Z.shiftl c 24) (Z.shiftl c 16)) (Z.shiftl c 8)) c)
  else stosb (Z.to_nat n) m dst c.

Fixpoint memcmp_loop (n : nat) (m : mem) (s1 s2 : Z) : Z :=
  match n with
  | O => 0
  | S n => if m s1 =? m s2 then memcmp_loop n m (s1 + 1) (s2 + 1) else m s1 - m s2
  end.
Definition memcmp (m : mem) (v1 v2 n : Z) : Z := memcmp_loop (Z.to_nat n) m v1 v2.

(** The two copy loops of memmove. *)
Fixpoint copy_down (n : nat) (m : mem) (d s : Z) : mem :=
  match n with
  | O => m
  | S n => copy_down n (mset m (d - 1) (m (s - 1))) (d - 1) (s - 1)
  end.
Fixpoint copy_up (n : nat) (m : mem) (d s : Z) : mem :=
  match n with
  | O => m
  | S n => copy_up n (mset m d (m s)) (d + 1) (s + 1)
  end.

Definition memmove (m : mem) (dst src n : Z) : mem :=
  if (src <? dst) && (src + n >? dst)
  then copy_down (Z.to_nat n) m (dst + n) (src + n)
  else copy_up (Z.to_nat n) m dst src.

Definition memcpy (m : mem) (dst src n : Z) : mem := memmove m dst src n.

(** [strncmp]: the loop and the final comparison. *)
Fixpoint strncmp (p q : list Z) (n : nat) : option Z :=
  match n with
  | O => Some 0
  | S n' =>
      match p, q with
      | a :: p', b :: q' =>
          if negb (a =? 0) && (a =? b) then strncmp p' q' n' else Some (a - b)
      | _, _ => None
      end
  end.

(** [strncpy] and [safestrcpy] return the new contents of the destination
    object, given its old ones. *)
Fixpoint strncpy_zero (n : nat) (s : list Z) : option (list Z) :=
  match n with
  | O => Some s
  | S n => match s with
           | [] => None
           | _ :: s => cons 0 <$> strncpy_zero n s
           end
  end.
Fixpoint strncpy (s t : list Z) (n : nat) : option (list Z) :=
  match n with
  | O => Some s
  | S n =>
      match s, t with
      | _ :: s', c :: t' =>
          if c =? 0 then cons 0 <$> strncpy_zero n s' else cons c <$> strncpy s' t' n
      | _, _ => None
      end
  end.

Fixpoint safestrcpy_loop (s t : list Z) (n : nat) : option (list Z) :=
  match n, s with
  | O, _ => None
  | S O, _ :: s' => Some (0 :: s')
  | S n, _ :: s' =>
      match t with
      | [] => None
      | c :: t' =>
          if c =? 0 then
            match s' with [] => None | _ :: s'' => Some (0 :: 0 :: s'') end
          else cons c <$> safestrcpy_loop s' t' n
      end
  | _, [] => None
  end.
Definition safestrcpy (s t : list Z) (n : Z) : option (list Z) :=
  if n <=? 0 then Some s else safestrcpy_loop s t (Z.to_nat n).

Fixpoint strlen_from (n : Z) (s : list Z) : option Z :=
  match s with
  | [] => None
  | c :: s => if c =? 0 then Some n else strlen_from (n + 1) s
  end.
Definition strlen (s : list Z) : option Z := strlen_from 0 s.

End KString.

Module Ulib.

Fixpoint strcpy (s t : list Z) : option (list Z) :=
  match s, t with
  | _ :: s', c :: t' => if c =? 0 then Some (0 :: s') else cons c <$> strcpy s' t'
  | _, _ => None
  end.

Fixpoint strcmp (p q : list Z) : option Z :=
  match p, q with
  | a :: p', b :: q' => if negb (a =? 0) && (a =? b) then strcmp p' q' else Some (a - b)
  | _, _ => None
  end.

Definition strlen (s : list Z) : option Z := u32 <$> KString.strlen_from 0 s.

Definition memset (m : mem) (dst c n : Z) : mem := stosb (Z.to_nat n) m dst c.

(** The suffix at which the character was found, [Some None] for a null result. *)
Fixpoint strchr (s : list Z) (c : Z) : option (option (list Z)) :=
  match s with
  | [] => None
  | x :: s' => if x =? 0 then Some None else if x =? c then Some (Some s) else strchr s' c
  end.

(** [read(0, &c, 1)] takes its bytes from [input]; it fails when there are none
    left.  The result is the buffer and the rest of the input. *)
Fixpoint gets_loop (fuel : nat) (i max : Z) (buf input : list Z) : list Z * Z * list Z :=
  match fuel with
  | O => (buf, i, input)
  | S fuel =>
      if i + 1 <? max then
        match input with
        | [] => (buf, i, input)
        | c :: input =>
            let buf := zset buf i c in
            if (c =? 10) || (c =? 13) then (buf, i + 1, input)
            else gets_loop fuel (i + 1) max buf input
        end
      else (buf, i, input)
  end.
Definition gets (buf : list Z) (max : Z) (input : list Z) : list Z * list Z :=
  let '(buf, i, input) := gets_loop (Z.to_nat max) 0 max buf input in
  (zset buf i 0, input).

(** Signed overflow is undefined. *)
Fixpoint atoi_loop (n : Z) (s : list Z) : option Z :=
  match s with
  | [] => None
  | c :: s =>
      if (48 <=? c) && (c <=? 57) then
        if n * 10 + c >? 2147483647 then None else atoi_loop (n * 10 + c - 48) s
      else Some n
  end.
Definition atoi (s : list Z) : option Z := atoi_loop 0 s.

Definition memmove (m : mem) (vdst vsrc n : Z) : mem := KString.copy_up (Z.to_nat n) m vdst vsrc.

End Ulib.

(** ** Block routines *)

Lemma stosb_spec cnt m addr data x :
  stosb cnt m addr data x = if (addr <=? x) && (x <? addr + Z.of_nat cnt) then u8 data else m x.
Proof.
  revert m addr. induction cnt as [|cnt IH]; intros m addr; cbn [stosb].
  - destruct (_ && _) eqn:E; [lia|done].
  - rewrite IH. unfold mset. repeat case_match; lia || done.
Qed.

Lemma stosl_spec cnt m addr data x :
  (forall k, k = 8 \/ k = 16 \/ k = 24 -> u8 (Z.shiftr data k) = u8 data) ->
  stosl cnt m addr data x =
    if (addr <=? x) && (x <? addr + 4 * Z.of_nat cnt) then u8 data else m x.
Proof.
  intros Hb. revert m addr. induction cnt as [|cnt IH]; intros m addr; cbn [stosl].
  - destruct (_ && _) eqn:E; [lia|done].
  - rewrite IH, !Hb by auto. unfold mset. repeat case_match; lia || done.
Qed.

(** A byte replicated over a word. *)
Lemma word_of_byte b k :
  0 <= b < 256 -> k = 0 \/ k = 8 \/ k = 16 \/ k = 24 ->
  u8 (Z.shiftr (Z.lor (Z.lor (Z.lor (Z.shiftl b 24) (Z.shiftl b 16)) (Z.shiftl b 8)) b) k) = b.
Proof.
  intros Hb Hk. unfold u8.
  assert (Hbit : forall n, 8 <= n -> Z.testbit b n = false).
  { intros n Hn. destruct (decide (b = 0)) as [->|]; [apply Z.testbit_0_l|].
    apply Z.bits_above_log2; [lia|]. apply Z.log2_lt_pow2; [lia|].
    pose proof (Z.pow_le_mono_r 2 8 n ltac:(lia) Hn). lia. }
  change 256 with (2 ^ 8). apply Z.bits_inj'. intros n Hn.
  destruct (Z_lt_dec n 8) as [Hlt|Hge]; [|rewrite Z.mod_pow2_bits_high, Hbit by lia; done].
  rewrite Z.mod_pow2_bits_low, Z.shiftr_spec, !Z.lor_spec, !Z.shiftl_spec by lia.
  destruct Hk as [-> | [-> | [-> | ->]]]; cbn [Z.add];
    repeat match goal with
    | |- context [Z.testbit b (?e - ?c)] =>
        first [ rewrite (Z.testbit_neg_r b (e - c)) by lia
              | rewrite (Hbit (e - c)) by lia
              | replace (e - c) with n by lia ]
    end; rewrite ?Z.add_0_r, ?orb_false_r, ?orb_false_l; rewrite ?(Hbit (n + _)) by lia;
    rewrite ?orb_false_r; done.
Qed.

Lemma copy_down_spec n m d s x :
  s <= d ->
  KString.copy_down n m d s x =
    if (d - Z.of_nat n <=? x) && (x <? d) then m (x - d + s) else m x.
Proof.
  revert m d s. induction n as [|n IH]; intros m d s Hsd; cbn [KString.copy_down].
  - destruct (_ && _) eqn:E; [lia|done].
  - rewrite IH by lia. unfold mset. repeat case_match; try lia; try done; f_equal; lia.
Qed.

Lemma copy_up_spec n m d s x :
  d <= s \/ s + Z.of_nat n <= d ->
  KString.copy_up n m d s x =
    if (d <=? x) && (x <? d + Z.of_nat n) then m (x - d + s) else m x.
Proof.
  revert m d s. induction n as [|n IH]; intros m d s Hsd; cbn [KString.copy_up].
  - destruct (_ && _) eqn:E; [lia|done].
  - rewrite IH by lia. unfold mset. repeat case_match; try lia; try done; f_equal; lia.
Qed.

Lemma memmove_run m dst src n x :
  0 <= n ->
  KString.memmove m dst src n x =
    if (dst <=? x) && (x <? dst + n) then m (x - dst + src) else m x.
Proof.
  intros Hn. unfold KString.memmove. destruct ((src <? dst) && (src + n >? dst)) eqn:E.
  - rewrite copy_down_spec by lia. rewrite Z2Nat.id by lia.
    replace (dst + n - n) with dst by lia. case_match; [f_equal; lia|done].
  - rewrite copy_up_spec by lia. by rewrite Z2Nat.id by lia.
Qed.

(** the kernel's memmove copies the block as it was before the call,
    however source and destination overlap, and changes nothing else. *)
Theorem memmove_overlap_safe m dst src n x :
  0 <= n ->
  KString.memmove m dst src n x =
    if (dst <=? x) && (x <? dst + n) then m (x - dst + src) else m x.
Proof. apply memmove_run. Qed.

Lemma memmove_overlap_safe_witness :
  KString.memmove (fun a => a) 2 0 4 5 = 3 /\ 0 <= 4.
Proof.
  split; [|lia]. rewrite (memmove_overlap_safe (fun a => a) 2 0 4 5) by lia. vm_compute. reflexivity.
Defined.

Lemma memset_run m dst c n x :
  0 <= n ->
  KString.memset m dst c n x = if (dst <=? x) && (x <? dst + n) then u8 c else m x.
Proof.
  intros Hn. unfold KString.memset. destruct (_ && _) eqn:E.
  - assert (Hb : Z.land c 255 = u8 c).
    { unfold u8. change 255 with (Z.ones 8). rewrite Z.land_ones by lia. done. }
    rewrite Hb. assert (Hr : 0 <= u8 c < 256) by (unfold u8; dlia).
    rewrite stosl_spec.
    + pose proof (word_of_byte (u8 c) 0 Hr ltac:(auto)) as E0. rewrite Z.shiftr_0_r in E0. rewrite E0.
      assert (n mod 4 = 0) by lia. rewrite Z2Nat.id by dlia.
      replace (4 * (n / 4)) with n by dlia. done.
    + intros k Hk. pose proof (word_of_byte (u8 c) 0 Hr ltac:(auto)) as E0.
      rewrite Z.shiftr_0_r in E0. rewrite E0. apply word_of_byte; [done|auto].
  - rewrite stosb_spec, Z2Nat.id by lia. done.
Qed.

(** the word-at-a-time path of memset and the byte path agree: either way
    every byte of the block becomes the low byte of [c], and no other byte
    changes; the user library's memset is the same function. *)
Theorem memset_fills m dst c n x :
  0 <= n ->
  KString.memset m dst c n x = (if (dst <=? x) && (x <? dst + n) then u8 c else m x) /\
  Ulib.memset m dst c n x = KString.memset m dst c n x.
Proof.
  intros Hn. rewrite memset_run by done. split; [done|].
  unfold Ulib.memset. by rewrite stosb_spec, Z2Nat.id by lia.
Qed.

Lemma memset_fills_witness :
  KString.memset (fun a => 0) 8 321 4 11 = 65 /\ 0 <= 4.
Proof.
  split; [|lia]. destruct (memset_fills (fun a => 0) 8 321 4 11) as [E _]; [lia|]. rewrite E.
  vm_compute. reflexivity.
Defined.

(** the user library's memmove only copies upwards, so unlike the kernel's
    it destroys the source when the destination overlaps it from above. *)
Theorem ulib_memmove_overlap :
  exists m dst src n x,
    src < dst < src + n /\ dst <= x < dst + n /\
    Ulib.memmove m dst src n x <> m (x - dst + src).
Proof. exists (fun a => a), 1, 0, 3, 3. split_and!; [lia..|]. vm_compute. done. Qed.

(** ** String routines *)

(** The C string at [p], cut off at [n] characters. *)
Fixpoint cstr (n : nat) (p : list Z) : list Z :=
  match n, p with
  | S n, a :: p => if a =? 0 then [] else a :: cstr n p
  | _, _ => []
  end.

(** [p] can be read up to its terminator or [n] characters. *)
Definition readable (n : nat) (p : list Z) : Prop := 0 ∈ p \/ (n <= length p)%nat.

Lemma cstr_length n p : (length (cstr n p) <= n)%nat.
Proof. revert p. induction n as [|n IH]; intros [|a p]; cbn; try lia. case_match; cbn; [lia|]. specialize (IH p). lia. Qed.

Lemma readable_cons n a p : a <> 0 -> readable (S n) (a :: p) -> readable n p.
Proof. intros Ha [H|H]; [left; by apply elem_of_cons in H as [|]|right; cbn in H; lia]. Qed.

Lemma not_readable_nil n : ~ readable (S n) [].
Proof. intros [H|H]; [by apply elem_of_nil in H|cbn in H; lia]. Qed.

Lemma strncmp_run p q n :
  readable n p -> readable n q ->
  exists r, KString.strncmp p q n = Some r /\ (r = 0 <-> cstr n p = cstr n q).
Proof.
  revert p q. induction n as [|n IH]; intros p q Hp Hq; [exists 0; by destruct p, q|].
  destruct p as [|a p]; [by apply not_readable_nil in Hp|].
  destruct q as [|b q]; [by apply not_readable_nil in Hq|]. cbn.
  destruct (Z.eqb_spec a 0) as [->|Ha]; cbn.
  - exists (0 - b). split; [done|]. destruct (Z.eqb_spec b 0); (split; [try lia|try done; try lia]); done.
  - destruct (Z.eqb_spec a b) as [->|Hab].
    + rewrite (proj2 (Z.eqb_neq _ _) Ha).
      destruct (IH p q) as (r & -> & Hr); [by eapply readable_cons..|].
      exists r. split; [done|]. rewrite Hr. split; [by intros ->|by intros [= ->]].
    + exists (a - b). split; [done|]. split; [lia|]. case_match; [done|]. congruence.
Qed.

Lemma strncpy_zero_run n s :
  (n <= length s)%nat -> KString.strncpy_zero n s = Some (replicate n 0 ++ drop n s).
Proof.
  revert s. induction n as [|n IH]; intros [|a s] H; cbn in *; try done; try lia.
  rewrite IH by lia. done.
Qed.

Lemma strncpy_run s t n :
  (n <= length s)%nat -> readable n t ->
  KString.strncpy s t n =
    Some (cstr n t ++ replicate (n - length (cstr n t)) 0 ++ drop n s).
Proof.
  revert s t. induction n as [|n IH]; intros [|a s] [|c t] Hs Ht; cbn in *; try done; try lia.
  - by apply not_readable_nil in Ht.
  - destruct (Z.eqb_spec c 0) as [->|Hc].
    + rewrite strncpy_zero_run by lia. done.
    + rewrite IH; [done|lia|by eapply readable_cons].
Qed.

Lemma cstr_app n u v : length u = n -> cstr n (u ++ v) = cstr n u.
Proof.
  revert u. induction n as [|n IH]; intros [|a u] H; cbn in *; try done; try lia.
  case_match; [done|]. by rewrite IH by lia.
Qed.

Lemma cstr_terminated n e t :
  Forall (fun c => c <> 0) e -> (length e < n)%nat -> cstr n (e ++ 0 :: t) = e.
Proof.
  revert n. induction e as [|a e IH]; intros [|n] Hz Hn; cbn in *; try lia; [done|].
  apply Forall_cons in Hz as [Ha Hz]. rewrite (proj2 (Z.eqb_neq _ _) Ha). f_equal. apply IH; auto; lia.
Qed.

Lemma cstr_take n l : Forall (fun c => c <> 0) l -> (n <= length l)%nat -> cstr n l = take n l.
Proof.
  revert n. induction l as [|a l IH]; intros [|n] Hz Hn; cbn in *; try done; try lia.
  apply Forall_cons in Hz as [Ha Hz]. rewrite (proj2 (Z.eqb_neq _ _) Ha). f_equal. apply IH; auto; lia.
Qed.

Lemma cstr_padded n t :
  cstr n (cstr n t ++ replicate (n - length (cstr n t)) 0) = cstr n t.
Proof.
  revert t. induction n as [|n IH]; intros [|a t]; cbn; try done.
  destruct (Z.eqb_spec a 0) as [->|Ha]; cbn; [done|].
  rewrite (proj2 (Z.eqb_neq _ _) Ha). f_equal. apply IH.
Qed.

(** a name stored by strncpy in a fixed-width field is found again by
    strncmp: the copy is the string cut at [n] and padded with NULs, it keeps
    the bytes after the field, and it compares equal to another string exactly
    when that one has the same first [n] characters. *)
Theorem strncpy_strncmp s t q n :
  (n <= length s)%nat -> readable n t -> readable n q ->
  exists s' r,
    KString.strncpy s t n = Some s' /\ length s' = length s /\ drop n s' = drop n s /\
    KString.strncmp q s' n = Some r /\ (r = 0 <-> cstr n q = cstr n t).
Proof.
  intros Hs Ht Hq. rewrite strncpy_run by done. pose proof (cstr_length n t) as Hl.
  set (f := cstr n t ++ replicate (n - length (cstr n t)) 0).
  assert (Hf : length f = n) by (unfold f; rewrite length_app, length_replicate; lia).
  rewrite app_assoc. fold f.
  destruct (strncmp_run q (f ++ drop n s) n) as (r & Hr & Hr0); [done| |].
  { right. rewrite length_app. lia. }
  exists (f ++ drop n s), r. split_and!; auto.
  - rewrite length_app, length_drop. lia.
  - rewrite drop_app_ge by lia. rewrite Hf, Nat.sub_diag. done.
  - rewrite Hr0, cstr_app by done. unfold f. by rewrite cstr_padded.
Qed.

Lemma strncpy_strncmp_witness :
  exists s', KString.strncpy (replicate 14 9) [46; 46; 0] 14 = Some s' /\
             KString.strncmp [46; 46; 0] s' 14 = Some 0.
Proof.
  destruct (strncpy_strncmp (replicate 14 9) [46; 46; 0] [46; 46; 0] 14)
    as (s' & r & H1 & _ & _ & H2 & H3); [cbn; lia| | |].
  - left. by right; right; left.
  - left. by right; right; left.
  - exists s'. split; [exact H1|]. rewrite H2. f_equal. by apply H3.
Defined.

(** safestrcpy always leaves a terminated string: at most [n-1] characters
    of the source, within the destination, whose length is unchanged. *)
Theorem safestrcpy_terminates s t n :
  0 < n -> n <= zlen s -> readable (Z.to_nat (n - 1)) t ->
  exists s', KString.safestrcpy s t n = Some s' /\ length s' = length s /\
    cstr (Z.to_nat n) s' = cstr (Z.to_nat (n - 1)) t /\ drop (Z.to_nat n) s' = drop (Z.to_nat n) s.
Proof.
  intros Hn Hs Ht. unfold KString.safestrcpy. rewrite (proj2 (Z.leb_gt _ _)) by lia.
  replace (Z.to_nat n) with (S (Z.to_nat (n - 1))) by lia.
  assert (Hl : (S (Z.to_nat (n - 1)) <= length s)%nat) by (unfold zlen in Hs; lia).
  revert Ht Hl. generalize (Z.to_nat (n - 1)). clear. intros k. revert s t.
  induction k as [|k IH]; intros [|a s] t Ht Hl; cbn in Hl; try lia; [eexists; split; done|].
  destruct t as [|c t]; [by apply not_readable_nil in Ht|]. cbn [KString.safestrcpy_loop cstr].
  destruct (Z.eqb_spec c 0) as [->|Hc].
  - destruct s as [|b s]; cbn in Hl; [lia|]. eexists. split; [done|]. done.
  - destruct (IH s t) as (s' & -> & H1 & H2 & H3); [by eapply readable_cons|lia|].
    exists (c :: s'). cbn in *. rewrite H1, H2, H3. split_and!; auto.
    by rewrite (proj2 (Z.eqb_neq _ _) Hc).
Qed.

Lemma safestrcpy_terminates_witness :
  exists s', KString.safestrcpy (replicate 4 9) [65; 66; 67; 68; 69; 0] 4 = Some s' /\
             cstr 4 s' = [65; 66; 67].
Proof.
  destruct (safestrcpy_terminates (replicate 4 9) [65; 66; 67; 68; 69; 0] 4)
    as (s' & H1 & _ & H2 & _); [lia|by vm_compute|right; cbn; lia|].
  exists s'. split; [exact H1|exact H2].
Defined.
