(* ===== verification/Fs.v ===== *)
(** * The file system (fs.c): definitions

    Block allocator, inode cache, inode contents, directories and path names,
    on top of the log.  An inode pointer is an index into the inode cache.  A
    computation of this file that would sleep in the middle ends in the [Sleep]
    outcome; the theorems about these operations show that it does not arise
    when no other process holds the buffers and inodes involved. *)

From S2P Require Import Prelude.
From S2P Require Import Params.
From S2P Require Import BufSpec.
From S2P Require Import Log.
From S2P Require Import CString.

(** ** On-disk layout (fs.h) *)

Definition ROOTINO : Z := 1.
Definition NDIRECT : Z := 12.
Definition NINDIRECT : Z := BSIZE / 4.
Definition MAXFILE : Z := NDIRECT + NINDIRECT.
Definition sizeof_dinode : Z := 64.
Definition IPB : Z := BSIZE / sizeof_dinode.
Definition IBLOCK (i : Z) : Z := i / IPB + 2.
Definition BPB : Z := BSIZE * 8.
Definition BBLOCK (b ninodes : Z) : Z := b / BPB + ninodes / IPB + 3.
Definition DIRSIZ : Z := 14.
Definition sizeof_dirent : Z := 16.

Definition T_DIR : Z := 1.
Definition T_FILE : Z := 2.
Definition T_DEV : Z := 3.
Definition I_BUSY : Z := 1.
Definition I_VALID : Z := 2.

(** [struct dinode] and its image in a block. *)
Record dinode : Type := MkDinode {
  d_type : Z; d_major : Z; d_minor : Z; d_nlink : Z; d_size : Z; d_addrs : list Z
}.

Definition read_addrs (off : Z) (d : block) : list Z :=
  (fun i => get32 (off + 12 + 4 * Z.of_nat i) d) <$> seq 0 13.
Definition read_dinode (off : Z) (d : block) : dinode :=
  MkDinode (i16 (get16 off d)) (i16 (get16 (off + 2) d)) (i16 (get16 (off + 4) d))
    (i16 (get16 (off + 6) d)) (get32 (off + 8) d) (read_addrs off d).

Fixpoint write_words (off : Z) (ws : list Z) (d : block) : block :=
  match ws with
  | [] => d
  | w :: ws => write_words (off + 4) ws (put32 off w d)
  end.
Definition write_dinode (off : Z) (di : dinode) (d : block) : block :=
  let d := put16 off (u16 (d_type di)) d in
  let d := put16 (off + 2) (u16 (d_major di)) d in
  let d := put16 (off + 4) (u16 (d_minor di)) d in
  let d := put16 (off + 6) (u16 (d_nlink di)) d in
  let d := put32 (off + 8) (d_size di) d in
  write_words (off + 12) (d_addrs di) d.

(** [struct inode] (file.h). *)
Record inode : Type := MkInode {
  i_dev : Z; i_inum : Z; i_ref : Z; i_flags : Z;
  i_type : Z; i_major : Z; i_minor : Z; i_nlink : Z; i_size : Z; i_addrs : list Z
}.
Definition null_inode : inode := MkInode 0 0 0 0 0 0 0 0 0 (replicate 13 0).

Definition set_ref (r : Z) (ip : inode) : inode :=
  MkInode (i_dev ip) (i_inum ip) r (i_flags ip) (i_type ip) (i_major ip) (i_minor ip)
    (i_nlink ip) (i_size ip) (i_addrs ip).
Definition set_iflags (f : Z) (ip : inode) : inode :=
  MkInode (i_dev ip) (i_inum ip) (i_ref ip) f (i_type ip) (i_major ip) (i_minor ip)
    (i_nlink ip) (i_size ip) (i_addrs ip).
Definition set_type (t : Z) (ip : inode) : inode :=
  MkInode (i_dev ip) (i_inum ip) (i_ref ip) (i_flags ip) t (i_major ip) (i_minor ip)
    (i_nlink ip) (i_size ip) (i_addrs ip).
Definition set_nlink (n : Z) (ip : inode) : inode :=
  MkInode (i_dev ip) (i_inum ip) (i_ref ip) (i_flags ip) (i_type ip) (i_major ip) (i_minor ip)
    n (i_size ip) (i_addrs ip).
Definition set_devno (major minor : Z) (ip : inode) : inode :=
  MkInode (i_dev ip) (i_inum ip) (i_ref ip) (i_flags ip) (i_type ip) major minor
    (i_nlink ip) (i_size ip) (i_addrs ip).
Definition set_isize (n : Z) (ip : inode) : inode :=
  MkInode (i_dev ip) (i_inum ip) (i_ref ip) (i_flags ip) (i_type ip) (i_major ip) (i_minor ip)
    (i_nlink ip) n (i_addrs ip).
Definition set_addr (k a : Z) (ip : inode) : inode :=
  MkInode (i_dev ip) (i_inum ip) (i_ref ip) (i_flags ip) (i_type ip) (i_major ip) (i_minor ip)
    (i_nlink ip) (i_size ip) (zset (i_addrs ip) k a).
Definition set_dinode (di : dinode) (ip : inode) : inode :=
  MkInode (i_dev ip) (i_inum ip) (i_ref ip) (i_flags ip) (d_type di) (d_major di) (d_minor di)
    (d_nlink di) (d_size di) (d_addrs di).
Definition to_dinode (ip : inode) : dinode :=
  MkDinode (i_type ip) (i_major ip) (i_minor ip) (i_nlink ip) (i_size ip) (i_addrs ip).

(** [struct stat]. *)
Record stat : Type := MkStat { st_type : Z; st_dev : Z; st_ino : Z; st_nlink : Z; st_size : Z }.

Record fs (S : Type) : Type := MkFs { fs_log : log S; fs_inode : list inode }.
Arguments MkFs {S} _ _.
Arguments fs_log {S} _.
Arguments fs_inode {S} _.

(** The handlers of one major device number; a handler is given the inode and
    the transfer, and returns what the system call is to return (and, for a
    read, the bytes it stored). *)
Record devops (S : Type) : Type := MkDev {
  dev_read : option (nat -> Z -> M (fs S) (Z * list Z));
  dev_write : option (nat -> list Z -> Z -> M (fs S) Z)
}.
Arguments dev_read {S} _.
Arguments dev_write {S} _.

Section Fs.
Context {S : Type} `{!BufferCache S}.
Context (devsw : Z -> devops S).

Definition set_log (l : log S) (f : fs S) : fs S := MkFs l (fs_inode f).
Definition log_call {A} (m : M (log S) A) : M (fs S) A := zoom fs_log set_log m.
Definition buf_call {A} (m : M S A) : M (fs S) A := log_call (bio_call m).
Definition data (bp : nat) : M (fs S) block := log_call (bufdata bp).

(** Stores into [bp->data] followed by [log_write(bp)]. *)
Definition log_store (bp : nat) (d : block) : M (fs S) unit :=
  buf_call (bp_store bp d) ;;
  log_call (log_write bp).

(** ** Blocks *)

Definition bzero (dev bno : Z) : M (fs S) unit :=
  let! bp := buf_call (bread dev bno) in
  log_store bp zero_block ;;
  buf_call (brelse bp).

(** Bit [bi] of a bitmap block: [data[bi/8] & (1 << (bi%8))]. *)
Definition bit_mask (bi : Z) : Z := Z.shiftl 1 (bi mod 8).
Definition bit_free (bi : Z) (d : block) : bool := Z.land (zget d (bi / 8)) (bit_mask bi) =? 0.
Definition bit_set (bi : Z) (d : block) : block :=
  zset d (bi / 8) (Z.lor (zget d (bi / 8)) (bit_mask bi)).
Definition bit_clear (bi : Z) (d : block) : block :=
  zset d (bi / 8) (u8 (Z.land (zget d (bi / 8)) (Z.lnot (bit_mask bi)))).

(** The inner loop of balloc: the first free bit of one bitmap block. *)
Fixpoint find_free (cnt : nat) (bi b size : Z) (d : block) : option Z :=
  match cnt with
  | O => None
  | Datatypes.S cnt =>
      if b + bi <? size then
        if bit_free bi d then Some bi else find_free cnt (bi + 1) b size d
      else None
  end.

Fixpoint balloc_from (fuel : nat) (b : Z) (dev : Z) (sb : superblock) : M (fs S) Z :=
  match fuel with
  | O => out_of_fuel
  | Datatypes.S fuel =>
      if b <? sb_size sb then
        let! bp := buf_call (bread dev (BBLOCK b (sb_ninodes sb))) in
        let! d := data bp in
        match find_free (Z.to_nat BPB) 0 b (sb_size sb) d with
        | Some bi =>
            log_store bp (bit_set bi d) ;;
            buf_call (brelse bp) ;;
            bzero dev (b + bi) ;;
            ret (b + bi)
        | None =>
            buf_call (brelse bp) ;;
            balloc_from fuel (b + BPB) dev sb
        end
      else panic "balloc: out of blocks"
  end.

Definition balloc (dev : Z) : M (fs S) Z :=
  let! sb := log_call (readsb dev) in
  balloc_from (Z.to_nat (sb_size sb / BPB + 2)) 0 dev sb.

Definition bfree (dev b : Z) : M (fs S) unit :=
  let! sb := log_call (readsb dev) in
  let! bp := buf_call (bread dev (BBLOCK b (sb_ninodes sb))) in
  let! d := data bp in
  let bi := b mod BPB in
  if bit_free bi d then panic "freeing free block"
  else
    log_store bp (bit_clear bi d) ;;
    buf_call (brelse bp).

(** ** Inodes *)

Definition getip (ip : nat) : M (fs S) inode :=
  get (fun f => default null_inode (fs_inode f !! ip)).
Definition modip (ip : nat) (g : inode -> inode) : M (fs S) unit :=
  modify (fun f => MkFs (fs_log f) (alter g ip (fs_inode f))).

(** The scan of iget: the entry holding the inode, or the first free one. *)
Fixpoint icache_scan (l : list inode) (i : nat) (dev inum : Z) (empty : option nat)
  : option nat * option nat :=
  match l with
  | [] => (None, empty)
  | x :: l =>
      if (i_ref x >? 0) && (i_dev x =? dev) && (i_inum x =? inum) then (Some i, empty)
      else icache_scan l (Datatypes.S i) dev inum
             (match empty with
              | None => if i_ref x =? 0 then Some i else None
              | Some _ => empty
              end)
  end.

Definition iget (dev inum : Z) : M (fs S) nat :=
  let! l := get fs_inode in
  match icache_scan l 0 dev inum None with
  | (Some ip, _) => modip ip (fun x => set_ref (i_ref x + 1) x) ;; ret ip
  | (None, None) => panic "iget: no inodes"
  | (None, Some ip) =>
      modip ip (fun x => MkInode dev inum 1 0 (i_type x) (i_major x) (i_minor x) (i_nlink x)
                           (i_size x) (i_addrs x)) ;;
      ret ip
  end.

Fixpoint ialloc_from (cnt : nat) (inum dev type : Z) : M (fs S) nat :=
  match cnt with
  | O => panic "ialloc: no inodes"
  | Datatypes.S cnt =>
      let! bp := buf_call (bread dev (IBLOCK inum)) in
      let! d := data bp in
      let off := (inum mod IPB) * sizeof_dinode in
      if get16 off d =? 0 then
        log_store bp (put16 off (u16 type) (splice off (replicate 64 0) d)) ;;
        buf_call (brelse bp) ;;
        iget dev inum
      else
        buf_call (brelse bp) ;;
        ialloc_from cnt (inum + 1) dev type
  end.

Definition ialloc (dev type : Z) : M (fs S) nat :=
  let! sb := log_call (readsb dev) in
  ialloc_from (Z.to_nat (sb_ninodes sb - 1)) 1 dev type.

Definition iupdate (ip : nat) : M (fs S) unit :=
  let! x := getip ip in
  let! bp := buf_call (bread (i_dev x) (IBLOCK (i_inum x))) in
  let! d := data bp in
  log_store bp (write_dinode ((i_inum x mod IPB) * sizeof_dinode) (to_dinode x) d) ;;
  buf_call (brelse bp).

Definition idup (ip : nat) : M (fs S) nat :=
  modip ip (fun x => set_ref (i_ref x + 1) x) ;;
  ret ip.

Definition ilock (ip : nat) : M (fs S) unit :=
  let! x := getip ip in
  if i_ref x <? 1 then panic "ilock"
  else if has (i_flags x) I_BUSY then sleep_on (ChInode ip)
  else
    modip ip (fun x => set_iflags (setf (i_flags x) I_BUSY) x) ;;
    let! x := getip ip in
    if negb (has (i_flags x) I_VALID) then
      let! bp := buf_call (bread (i_dev x) (IBLOCK (i_inum x))) in
      let! d := data bp in
      modip ip (set_dinode (read_dinode ((i_inum x mod IPB) * sizeof_dinode) d)) ;;
      buf_call (brelse bp) ;;
      modip ip (fun x => set_iflags (setf (i_flags x) I_VALID) x) ;;
      let! x := getip ip in
      if i_type x =? 0 then panic "ilock: no type" else ret tt
    else ret tt.

Definition iunlock (ip : nat) : M (fs S) unit :=
  let! x := getip ip in
  if negb (has (i_flags x) I_BUSY) || (i_ref x <? 1) then panic "iunlock"
  else modip ip (fun x => set_iflags (clrf (i_flags x) I_BUSY) x).

(** ** Inode content *)

Definition bmap (ip : nat) (bn : Z) : M (fs S) Z :=
  let! x := getip ip in
  if bn <? NDIRECT then
    let addr := zget (i_addrs x) bn in
    if addr =? 0 then
      let! addr := balloc (i_dev x) in
      modip ip (set_addr bn addr) ;;
      ret addr
    else ret addr
  else
    let bn := bn - NDIRECT in
    if bn <? NINDIRECT then
      let! addr :=
        (let addr := zget (i_addrs x) NDIRECT in
         if addr =? 0 then
           let! addr := balloc (i_dev x) in
           modip ip (set_addr NDIRECT addr) ;;
           ret addr
         else ret addr) in
      let! bp := buf_call (bread (i_dev x) addr) in
      let! a := data bp in
      let addr := get32 (4 * bn) a in
      let! addr :=
        (if addr =? 0 then
           let! addr := balloc (i_dev x) in
           let! a := data bp in
           log_store bp (put32 (4 * bn) addr a) ;;
           ret addr
         else ret addr) in
      buf_call (brelse bp) ;;
      ret addr
    else panic "bmap: out of range".

(** The loops of itrunc over the direct and over the indirect addresses. *)
Fixpoint itrunc_direct (cnt : nat) (i : Z) (ip : nat) : M (fs S) unit :=
  match cnt with
  | O => ret tt
  | Datatypes.S cnt =>
      let! x := getip ip in
      (if negb (zget (i_addrs x) i =? 0) then
         bfree (i_dev x) (zget (i_addrs x) i) ;;
         modip ip (set_addr i 0)
       else ret tt) ;;
      itrunc_direct cnt (i + 1) ip
  end.
Fixpoint itrunc_indirect (cnt : nat) (j : Z) (dev : Z) (bp : nat) : M (fs S) unit :=
  match cnt with
  | O => ret tt
  | Datatypes.S cnt =>
      let! a := data bp in
      (if negb (get32 (4 * j) a =? 0) then bfree dev (get32 (4 * j) a) else ret tt) ;;
      itrunc_indirect cnt (j + 1) dev bp
  end.

Definition itrunc (ip : nat) : M (fs S) unit :=
  itrunc_direct (Z.to_nat NDIRECT) 0 ip ;;
  let! x := getip ip in
  (if negb (zget (i_addrs x) NDIRECT =? 0) then
     let! bp := buf_call (bread (i_dev x) (zget (i_addrs x) NDIRECT)) in
     itrunc_indirect (Z.to_nat NINDIRECT) 0 (i_dev x) bp ;;
     buf_call (brelse bp) ;;
     bfree (i_dev x) (zget (i_addrs x) NDIRECT) ;;
     modip ip (set_addr NDIRECT 0)
   else ret tt) ;;
  modip ip (set_isize 0) ;;
  iupdate ip.

Definition iput (ip : nat) : M (fs S) unit :=
  let! x := getip ip in
  (if (i_ref x =? 1) && has (i_flags x) I_VALID && (i_nlink x =? 0) then
     if has (i_flags x) I_BUSY then panic "iput busy"
     else
       modip ip (fun x => set_iflags (setf (i_flags x) I_BUSY) x) ;;
       itrunc ip ;;
       modip ip (set_type 0) ;;
       iupdate ip ;;
       modip ip (set_iflags 0)
   else ret tt) ;;
  modip ip (fun x => set_ref (i_ref x - 1) x).

Definition iunlockput (ip : nat) : M (fs S) unit :=
  iunlock ip ;;
  iput ip.

Definition stati (ip : nat) : M (fs S) stat :=
  let! x := getip ip in
  ret (MkStat (i_type x) (i_dev x) (i_inum x) (i_nlink x) (i_size x)).

(** The copy loop of readi; [acc] is what has been stored at [dst] so far. *)
Fixpoint readi_loop (fuel : nat) (ip : nat) (dev off n tot : Z) (acc : list Z) : M (fs S) (list Z) :=
  if tot <? n then
    match fuel with
    | O => out_of_fuel
    | Datatypes.S fuel =>
        let! addr := bmap ip (off / BSIZE) in
        let! bp := buf_call (bread dev addr) in
        let m := Z.min (n - tot) (BSIZE - off mod BSIZE) in
        let! d := data bp in
        buf_call (brelse bp) ;;
        readi_loop fuel ip dev (off + m) n (tot + m) (acc ++ slice (off mod BSIZE) m d)
    end
  else ret acc.

(** The result and the bytes stored at [dst]. *)
Definition readi (ip : nat) (off n : Z) : M (fs S) (Z * list Z) :=
  let! x := getip ip in
  if i_type x =? T_DEV then
    if (i_major x <? 0) || (i_major x >=? NDEV) then ret (-1, [])
    else match dev_read (devsw (i_major x)) with
         | None => ret (-1, [])
         | Some rd => rd ip n
         end
  else if (off >? i_size x) || (u32 (off + n) <? off) then ret (-1, [])
  else
    let n := if u32 (off + n) >? i_size x then i_size x - off else n in
    let! bs := readi_loop (Z.to_nat n) ip (i_dev x) off n 0 [] in
    ret (n, bs).

Fixpoint writei_loop (fuel : nat) (ip : nat) (dev off n tot : Z) (src : list Z) : M (fs S) Z :=
  if tot <? n then
    match fuel with
    | O => out_of_fuel
    | Datatypes.S fuel =>
        let! addr := bmap ip (off / BSIZE) in
        let! bp := buf_call (bread dev addr) in
        let m := Z.min (n - tot) (BSIZE - off mod BSIZE) in
        let! d := data bp in
        log_store bp (splice (off mod BSIZE) (slice 0 m src) d) ;;
        buf_call (brelse bp) ;;
        writei_loop fuel ip dev (off + m) n (tot + m) (drop (Z.to_nat m) src)
    end
  else ret off.

(** [src] is the memory at the source pointer, at least [n] bytes. *)
Definition writei (ip : nat) (src : list Z) (off n : Z) : M (fs S) Z :=
  let! x := getip ip in
  if i_type x =? T_DEV then
    if (i_major x <? 0) || (i_major x >=? NDEV) then ret (-1)
    else match dev_write (devsw (i_major x)) with
         | None => ret (-1)
         | Some wr => wr ip src n
         end
  else if (off >? i_size x) || (u32 (off + n) <? off) then ret (-1)
  else if u32 (off + n) >? MAXFILE * BSIZE then ret (-1)
  else
    let! off := writei_loop (Z.to_nat n) ip (i_dev x) off n 0 src in
    (if (n >? 0) && (off >? i_size x) then
       modip ip (set_isize off) ;;
       iupdate ip
     else ret tt) ;;
    ret n.

(** ** Directories *)

(** Names are arrays of DIRSIZ characters. *)
Definition namecmp (s t : list Z) : M (fs S) Z :=
  match KString.strncmp s t (Z.to_nat DIRSIZ) with
  | Some r => ret r
  | None => undef "namecmp reads past a name"
  end.

Definition de_inum (de : list Z) : Z := get16 0 de.
Definition de_name (de : list Z) : list Z := slice 2 DIRSIZ de.

Definition read_dirent (dp : nat) (off : Z) : M (fs S) (list Z) :=
  let! r := readi dp off sizeof_dirent in
  if negb (r.1 =? sizeof_dirent) then panic "dirlink read" else ret r.2.

Fixpoint dirlookup_from (fuel : nat) (dp : nat) (off : Z) (name : list Z) : M (fs S) (option (nat * Z)) :=
  let! x := getip dp in
  if off <? i_size x then
    match fuel with
    | O => out_of_fuel
    | Datatypes.S fuel =>
        let! de := read_dirent dp off in
        if de_inum de =? 0 then dirlookup_from fuel dp (off + sizeof_dirent) name
        else
          let! r := namecmp name (de_name de) in
          if r =? 0 then
            let! ip := iget (i_dev x) (de_inum de) in
            ret (Some (ip, off))
          else dirlookup_from fuel dp (off + sizeof_dirent) name
    end
  else ret None.

(** The inode and the offset of its entry ([*poff]), or a null pointer. *)
Definition dirlookup (dp : nat) (name : list Z) : M (fs S) (option (nat * Z)) :=
  let! x := getip dp in
  if negb (i_type x =? T_DIR) then panic "dirlookup not DIR"
  else dirlookup_from (Z.to_nat (i_size x / sizeof_dirent + 1)) dp 0 name.

(** The scan of dirlink for an empty entry: its offset and the entry last read. *)
Fixpoint empty_dirent (fuel : nat) (dp : nat) (off : Z) (de : list Z) : M (fs S) (Z * list Z) :=
  let! x := getip dp in
  if off <? i_size x then
    match fuel with
    | O => out_of_fuel
    | Datatypes.S fuel =>
        let! de := read_dirent dp off in
        if de_inum de =? 0 then ret (off, de)
        else empty_dirent fuel dp (off + sizeof_dirent) de
    end
  else ret (off, de).

(** [de0] is the initial contents of the local variable [de]. *)
Definition dirlink (de0 : list Z) (dp : nat) (name : list Z) (inum : Z) : M (fs S) Z :=
  let! r := dirlookup dp name in
  match r with
  | Some (ip, _) => iput ip ;; ret (-1)
  | None =>
      let! x := getip dp in
      let! (off, de) := empty_dirent (Z.to_nat (i_size x / sizeof_dirent + 1)) dp 0 de0 in
      match KString.strncpy (de_name de) name (Z.to_nat DIRSIZ) with
      | None => undef "strncpy reads past the name"
      | Some nm =>
          let de := put16 0 (u16 inum) (splice 2 nm de) in
          let! w := writei dp de off sizeof_dirent in
          if negb (w =? sizeof_dirent) then panic "dirlink" else ret 0
      end
  end.

(** ** Paths *)

Definition slash : Z := 47.

Fixpoint skip_slashes (path : list Z) : list Z :=
  match path with
  | c :: p => if c =? slash then skip_slashes p else path
  | [] => []
  end.

(** The element at the front of [path] and what follows it.  A path is the list
    of its characters; the terminating NUL is its end. *)
Fixpoint span_elem (path : list Z) : list Z * list Z :=
  match path with
  | c :: p => if negb (c =? slash) then let '(e, r) := span_elem p in (c :: e, r) else ([], path)
  | [] => ([], [])
  end.

(** The remaining path and the new contents of [name], or null. *)
Definition skipelem (path name : list Z) : option (list Z * list Z) :=
  match skip_slashes path with
  | [] => None
  | p =>
      let '(e, r) := span_elem p in
      let name :=
        if zlen e >=? DIRSIZ then splice 0 (slice 0 DIRSIZ e) name
        else zset (splice 0 e name) (zlen e) 0 in
      Some (skip_slashes r, name)
  end.

Fixpoint namex_loop (fuel : nat) (ip : nat) (path : list Z) (nameiparent : bool) (name : list Z)
  : M (fs S) (option nat * list Z) :=
  match fuel with
  | O => out_of_fuel
  | Datatypes.S fuel =>
      match skipelem path name with
      | None =>
          if nameiparent then iput ip ;; ret (None, name)
          else ret (Some ip, name)
      | Some (path, name) =>
          ilock ip ;;
          let! x := getip ip in
          if negb (i_type x =? T_DIR) then iunlockput ip ;; ret (None, name)
          else if nameiparent && (match path with [] => true | _ => false end) then
            iunlock ip ;; ret (Some ip, name)
          else
            let! next := dirlookup ip name in
            match next with
            | None => iunlockput ip ;; ret (None, name)
            | Some (next, _) => iunlockput ip ;; namex_loop fuel next path nameiparent name
            end
      end
  end.

(** [cwd] is [proc->cwd], [name] the caller's buffer. *)
Definition namex (cwd : nat) (path : list Z) (nameiparent : bool) (name : list Z)
  : M (fs S) (option nat * list Z) :=
  let! ip :=
    match path with
    | c :: _ => if c =? slash then iget ROOTDEV ROOTINO else idup cwd
    | [] => idup cwd
    end in
  namex_loop (Datatypes.S (length path)) ip path nameiparent name.

(** [name0] is the initial contents of the local array [name]. *)
Definition namei (cwd : nat) (name0 path : list Z) : M (fs S) (option nat) :=
  let! r := namex cwd path false name0 in
  ret r.1.

Definition nameiparent (cwd : nat) (path name : list Z) : M (fs S) (option nat * list Z) :=
  namex cwd path true name.

End Fs.
