(* ===== verification/FsTx.v ===== *)
(** * Reasoning inside a transaction

    What the file-system code sees of the layers below while a transaction is
    open: the contents [V] of the home blocks, the buffers [H] it holds, and how
    many further blocks [k] it may log.  The lemmas run bread, log_write and
    brelse on that view; the file-system theorems are proved from them alone. *)

From S2P Require Import Prelude.
From S2P Require Import Params.
From S2P Require Import BufSpec.
From S2P Require Import Log.
From S2P Require Import LogCrash.
From S2P Require Import LogOps.
From S2P Require Import Fs.

(** The contents of the home blocks after one of them changed. *)
Definition upd (V : Z -> block) (b : Z) (d : block) : Z -> block :=
  fun x => if x =? b then d else V x.

Lemma upd_eq V b d : upd V b d b = d.
Proof. unfold upd. by rewrite Z.eqb_refl. Qed.

Lemma upd_ne V b d x : x <> b -> upd V b d x = V x.
Proof. intros. unfold upd. by rewrite (proj2 (Z.eqb_neq _ _)). Qed.

Lemma size_map_img (H : gmap nat Z) : (size (map_img H : gset Z) <= size H)%nat.
Proof.
  rewrite map_img_alt_L. rewrite <- (length_map_to_list H), <- (length_fmap snd (map_to_list H)).
  generalize ((map_to_list H).*2). intros l. induction l as [|x l IH]; cbn; [rewrite size_empty; lia|].
  rewrite size_union_alt, size_singleton. 
  pose proof (subseteq_size (list_to_set l ∖ {[x]} : gset Z) (list_to_set l) ltac:(set_solver)). lia.
Qed.

Section FsTx.
Context {S : Type} `{!BufferCache S}.
Implicit Types (l : log S) (a : abuf) (f : fs S) (V : Z -> block) (H : gmap nat Z).

Record in_tx (start : Z) (l : log S) (V : Z -> block) (H : gmap nat Z) (k : Z)
    (a : abuf) (Ls : list Z) : Prop := {
  it_tx : tx l a Ls;
  it_start : lg_start l = start;
  it_held : a_held a = H;
  it_view : forall b, 0 <= b < start -> view a b = V b;
  it_clean : forall h sec d, held a h sec d false -> d = blk (a_disk a) sec;
  it_out : 1 <= lg_outstanding l;
  it_k : 0 <= k;
  it_log : zlen Ls + k <= lg_size l - 1;
  it_room : zlen Ls + k + 3 <= Z.of_nat NBUF
}.

(** Transaction state of a file system: up to three buffers can be held at once. *)
Definition fstx (start : Z) (f : fs S) (V : Z -> block) (H : gmap nat Z) (k : Z) : Prop :=
  exists a Ls, in_tx start (fs_log f) V H k a Ls.

Lemma fstx_weaken start f V H k k' : fstx start f V H k -> 0 <= k' <= k -> fstx start f V H k'.
Proof. intros (a & Ls & []) Hk. exists a, Ls. constructor; auto; lia. Qed.

Lemma fstx_ext start f V V' H k :
  fstx start f V H k -> (forall b, 0 <= b < start -> V' b = V b) -> fstx start f V' H k.
Proof.
  intros (a & Ls & []) E. exists a, Ls. constructor; auto. intros b Hb. rewrite E by done. auto.
Qed.

Lemma fstx_k start f V H k : fstx start f V H k -> 0 <= k.
Proof. by intros (a & Ls & []). Qed.

(** The inode cache is no part of it. *)
Lemma fstx_icache start f V H k ic :
  fstx start f V H k -> fstx start (MkFs (fs_log f) ic) V H k.
Proof. done. Qed.

Lemma fstx_block_len start f V H k b : fstx start f V H k -> 0 <= b < start -> zlen (V b) = BSIZE.
Proof.
  intros (a & Ls & Hi) Hb. rewrite <- (it_view _ _ _ _ _ _ _ Hi b Hb).
  pose proof (bc_rep_wf _ _ (tx_rep _ _ _ (it_tx _ _ _ _ _ _ _ Hi))) as Hw. unfold view.
  destruct (a_mem a !! b) as [[d fl]|] eqn:E; [by eapply wf_mem_len|by apply wf_disk_len].
Qed.

(** Every in-memory sector is logged or held. *)
Lemma in_tx_mem_size start l V H k a Ls :
  in_tx start l V H k a Ls -> (size (a_mem a) <= length Ls + size H)%nat.
Proof.
  intros Hi. pose proof (it_tx _ _ _ _ _ _ _ Hi) as Ht.
  assert (Hsub : dom (a_mem a) ⊆ list_to_set Ls ∪ (map_img H : gset Z)).
  { intros sec [[d fl] Hm]%elem_of_dom. rewrite elem_of_union, elem_of_list_to_set. destruct fl.
    - left. apply (tx_dirty _ _ _ Ht). eauto.
    - right. destruct (wf_mem_why _ (bc_rep_wf _ _ (tx_rep _ _ _ Ht)) _ _ Hm) as [h Hh].
      apply elem_of_map_img. exists h. by rewrite <- (it_held _ _ _ _ _ _ _ Hi). }
  rewrite <- (size_dom (a_mem a)). apply subseteq_size in Hsub. etrans; [exact Hsub|].
  rewrite size_union_alt. pose proof (size_list_to_set (C := gset Z) Ls (tx_nodup _ _ _ Ht)) as ->.
  assert (size (map_img H ∖ list_to_set Ls : gset Z) <= size H)%nat; [|lia].
  etrans; [apply subseteq_size, subseteq_difference_l; reflexivity|]. apply size_map_img.
Qed.

Lemma log_call_bind {A B} (m : M (log S) A) (k : A -> M (log S) B) f :
  log_call (bind m k) f = bind (log_call m) (fun x => log_call (k x)) f.
Proof. unfold log_call, zoom, bind. destruct f as [l ic]. cbn. by destruct (m l). Qed.

Lemma run_buf_call {A} (m : M S A) f x s' :
  m (lg_bio (fs_log f)) = Ret x s' ->
  buf_call m f = Ret x (MkFs (set_bio s' (fs_log f)) (fs_inode f)).
Proof. intros Hm. unfold buf_call, log_call, zoom. by rewrite (bio_call_run _ _ _ _ Hm). Qed.

Lemma run_bread start f V H k sec :
  fstx start f V H k -> 0 <= sec < start -> (forall h, H !! h <> Some sec) -> (size H <= 2)%nat ->
  exists h f', buf_call (bread ROOTDEV sec) f = Ret h f' /\ fs_inode f' = fs_inode f /\
    H !! h = None /\ fstx start f' V (<[h := sec]> H) k.
Proof.
  intros (a & Ls & Hi) Hsec Hnh Hsz. pose proof (it_tx _ _ _ _ _ _ _ Hi) as Ht.
  pose proof (in_tx_mem_size _ _ _ _ _ _ _ Hi) as Hm. pose proof (it_room _ _ _ _ _ _ _ Hi) as Hr.
  pose proof (tx_size _ _ _ Ht). pose proof (tx_lgsize _ _ _ Ht). pose proof (it_start _ _ _ _ _ _ _ Hi).
  pose proof (it_k _ _ _ _ _ _ _ Hi).
  assert (Hn : not_held a sec) by (intros h; rewrite (it_held _ _ _ _ _ _ _ Hi); apply Hnh).
  destruct (bread_ok _ _ sec (tx_rep _ _ _ Ht)) as (h & s' & Hrun & Hf & HR); [lia|done| |].
  { right. unfold zlen, NBUF in *. lia. }
  exists h, (MkFs (set_bio s' (fs_log f)) (fs_inode f)). split; [by apply run_buf_call|].
  split; [done|]. split; [by rewrite <- (it_held _ _ _ _ _ _ _ Hi)|].
  exists (abread h sec a), Ls. pose proof (tx_abread _ _ _ _ _ _ Ht HR) as Ht'.
  destruct Hi. constructor; auto.
  - cbn. by rewrite it_held0.
  - intros b Hb. rewrite view_abread. auto.
  - intros h' sec' d [Hh' Hm']. cbn in *. destruct (decide (sec = sec')) as [<-|Hne].
    + rewrite lookup_insert_eq in Hm'. destruct (a_mem a !! sec) as [[d0 fl0]|] eqn:E; cbn in Hm'; simplify_eq.
      * destruct (wf_mem_why _ (bc_rep_wf _ _ (tx_rep _ _ _ Ht)) _ _ E) as [h0 Hh0].
        by destruct (Hn h0).
      * done.
    + rewrite lookup_insert_ne in Hm' by done. apply (it_clean0 h'). split; [|done].
      destruct (decide (h = h')) as [->|]; [by rewrite lookup_insert_eq in Hh'; simplify_eq|].
      by rewrite lookup_insert_ne in Hh'.
Qed.

Lemma in_tx_lookup start l V H k a Ls h sec :
  in_tx start l V H k a Ls -> H !! h = Some sec -> 0 <= sec < start ->
  exists fl, held a h sec (V sec) fl.
Proof.
  intros Hi Hh Hs. rewrite <- (it_held _ _ _ _ _ _ _ Hi) in Hh.
  destruct (wf_held_mem _ (bc_rep_wf _ _ (tx_rep _ _ _ (it_tx _ _ _ _ _ _ _ Hi))) _ _ Hh) as [[d fl] Hm].
  exists fl. split; [done|]. rewrite <- (it_view _ _ _ _ _ _ _ Hi sec Hs). unfold view. by rewrite Hm.
Qed.

Lemma run_data start f V H k h sec :
  fstx start f V H k -> H !! h = Some sec -> 0 <= sec < start -> data h f = Ret (V sec) f.
Proof.
  intros (a & Ls & Hi) Hh Hs. destruct (in_tx_lookup _ _ _ _ _ _ _ _ _ Hi Hh Hs) as [fl Hd].
  destruct (bp_data_ok _ _ _ _ _ _ (tx_rep _ _ _ (it_tx _ _ _ _ _ _ _ Hi)) Hd) as [E _].
  unfold data, log_call, zoom, bufdata, get. rewrite E. destruct f. done.
Qed.

Lemma run_log_store start f V H k h sec d :
  fstx start f V H (k + 1) -> 0 <= k -> H !! h = Some sec -> 0 <= sec < start -> zlen d = BSIZE ->
  exists f', log_store h d f = Ret tt f' /\ fs_inode f' = fs_inode f /\
    fstx start f' (upd V sec d) H k.
Proof.
  intros (a & Ls & Hi) Hk Hh Hs Hd. pose proof (it_tx _ _ _ _ _ _ _ Hi) as Ht.
  pose proof (it_room _ _ _ _ _ _ _ Hi) as Hr. pose proof (it_log _ _ _ _ _ _ _ Hi) as Hl.
  destruct (in_tx_lookup _ _ _ _ _ _ _ _ _ Hi Hh Hs) as [fl Hd0].
  destruct (bp_store_ok _ _ _ _ _ _ d (tx_rep _ _ _ Ht) Hd0 Hd) as (s1 & Hr1 & HR1).
  pose proof (tx_abset _ _ _ _ _ _ _ _ _ Ht Hd0 HR1) as Ht1.
  pose proof (held_abset _ _ _ _ _ d fl Hd0) as Hh1.
  assert (Hab : zlen (absorb sec Ls) <= zlen Ls + 1)
    by (unfold absorb; case_decide; [lia|rewrite zlen_app; unfold zlen; cbn; lia]).
  destruct (log_write_run _ _ _ _ _ _ _ Ht1 Hh1) as (s2 & sector' & Hx).
  { cbn. rewrite (it_start _ _ _ _ _ _ _ Hi). lia. } { cbn. lia. } { lia. }
  { cbn. apply (it_out _ _ _ _ _ _ _ Hi). }
  cbv zeta in Hx. destruct Hx as [Hr2 Ht2].
  eexists. split.
  { unfold log_store. rewrite (bind_run _ _ _ _ _ (run_buf_call _ _ _ _ Hr1)).
    unfold log_call, zoom. cbn [fs_log]. rewrite Hr2. reflexivity. }
  split; [done|]. eexists _, (absorb sec Ls). destruct Hi. constructor; [exact Ht2|..]; cbn; auto; try lia.
  - intros b Hb. destruct (decide (b = sec)) as [->|Hne].
    + rewrite upd_eq. unfold view. cbn. by rewrite lookup_insert_eq.
    + rewrite upd_ne by done. rewrite <- it_view0 by done. unfold view. cbn.
      by rewrite !lookup_insert_ne by done.
  - intros h' sec' d' [Hh' Hm']. cbn in *. destruct (decide (sec = sec')) as [<-|Hne].
    + by rewrite lookup_insert_eq in Hm'.
    + rewrite !lookup_insert_ne in Hm' by done. by apply (it_clean0 h').
Qed.

Lemma run_brelse start f V H k h sec :
  fstx start f V H k -> H !! h = Some sec -> 0 <= sec < start ->
  exists f', buf_call (brelse h) f = Ret tt f' /\ fs_inode f' = fs_inode f /\
    fstx start f' V (delete h H) k.
Proof.
  intros (a & Ls & Hi) Hh Hs. pose proof (it_tx _ _ _ _ _ _ _ Hi) as Ht.
  destruct (in_tx_lookup _ _ _ _ _ _ _ _ _ Hi Hh Hs) as [fl Hd0].
  assert (Hc : fl = true \/ V sec = blk (a_disk a) sec).
  { destruct fl; [by left|right]. by eapply it_clean. }
  destruct (brelse_ok _ _ _ _ _ _ (tx_rep _ _ _ Ht) Hd0 Hc) as (s' & Hr & HR).
  exists (MkFs (set_bio s' (fs_log f)) (fs_inode f)). split; [by apply run_buf_call|]. split; [done|].
  exists (abrelse h sec fl a), Ls. pose proof (tx_abrelse _ _ _ _ _ _ _ _ Ht Hd0 HR) as Ht'.
  destruct Hi. constructor; auto.
  - cbn. by rewrite it_held0.
  - intros b Hb. erewrite view_abrelse by done. auto.
  - intros h' sec' d' [Hh' Hm']. cbn in *.
    apply lookup_delete_Some in Hh' as [Hne Hh']. apply (it_clean0 h'). split; [done|].
    destruct fl; [done|]. by apply lookup_delete_Some in Hm' as [_ ?].
Qed.

End FsTx.
