(* ===== verification/FsAlloc.v ===== *)
(** * Block allocation (fs.c: readsb, bzero, balloc, bfree)

    The free bitmap: balloc returns the lowest free block, marked and zeroed;
    bfree gives it back; both change no other bit and no other block. *)

From S2P Require Import Prelude.
From S2P Require Import Params.
From S2P Require Import Disk.
From S2P Require Import BufSpec.
From S2P Require Import Bio.
From S2P Require Import Log.
From S2P Require Import LogCrash.
From S2P Require Import LogOps.
From S2P Require Import Fs.
From S2P Require Import FsTx.

(** ** Bits of a bitmap block *)

Lemma bit_free_testbit bi d :
  0 <= bi -> bit_free bi d = negb (Z.testbit (zget d (bi / 8)) (bi mod 8)).
Proof.
  intros Hb. unfold bit_free, bit_mask. set (x := zget d (bi / 8)). set (j := bi mod 8).
  assert (Hj : 0 <= j) by (unfold j; dlia). rewrite Z.shiftl_1_l.
  destruct (Z.testbit x j) eqn:E; cbn.
  - apply Z.eqb_neq. intros H0. apply (f_equal (fun z => Z.testbit z j)) in H0.
    rewrite Z.land_spec, Z.pow2_bits_true, E, Z.testbit_0_l in H0 by done. done.
  - apply Z.eqb_eq, Z.bits_inj'. intros n Hn. rewrite Z.land_spec, Z.pow2_bits_eqb, Z.testbit_0_l by lia.
    destruct (Z.eqb_spec j n) as [<-|]; [by rewrite E|by rewrite andb_false_r].
Qed.

Lemma bit_index_inj bi bj : bi / 8 = bj / 8 -> bi mod 8 = bj mod 8 -> bi = bj.
Proof. intros. dlia. Qed.

Lemma zlen_bit_set bi d : zlen (bit_set bi d) = zlen d.
Proof. apply zlen_zset. Qed.

Lemma zlen_bit_clear bi d : zlen (bit_clear bi d) = zlen d.
Proof. apply zlen_zset. Qed.

Lemma bit_free_set bi bj d :
  0 <= bi < BPB -> 0 <= bj < BPB -> zlen d = BSIZE ->
  bit_free bi (bit_set bj d) = bit_free bi d && negb (bi =? bj).
Proof.
  unfold BPB, BSIZE. intros Hi Hj Hd. rewrite !bit_free_testbit by lia. unfold bit_set, bit_mask.
  destruct (decide (bj / 8 = bi / 8)) as [E|E].
  - rewrite E, zget_zset_eq by dlia. rewrite Z.lor_spec, Z.shiftl_1_l, Z.pow2_bits_eqb by dlia.
    destruct (Z.eqb_spec (bj mod 8) (bi mod 8)) as [E'|E'].
    + rewrite (bit_index_inj _ _ E E'), Z.eqb_refl, orb_true_r, andb_false_r. done.
    + assert ((bi =? bj) = false) as -> by (apply Z.eqb_neq; intros ->; done).
      by rewrite orb_false_r, andb_true_r.
  - rewrite zget_zset_ne by dlia.
    assert ((bi =? bj) = false) as -> by (apply Z.eqb_neq; intros ->; done). by rewrite andb_true_r.
Qed.

Lemma bit_free_clear bi bj d :
  0 <= bi < BPB -> 0 <= bj < BPB -> zlen d = BSIZE ->
  bit_free bi (bit_clear bj d) = bit_free bi d || (bi =? bj).
Proof.
  unfold BPB, BSIZE. intros Hi Hj Hd. rewrite !bit_free_testbit by lia. unfold bit_clear, bit_mask.
  destruct (decide (bj / 8 = bi / 8)) as [E|E].
  - rewrite E, zget_zset_eq by dlia. unfold u8. change 256 with (2 ^ 8).
    rewrite Z.mod_pow2_bits_low, Z.land_spec, Z.lnot_spec, Z.shiftl_1_l, Z.pow2_bits_eqb by dlia.
    destruct (Z.eqb_spec (bj mod 8) (bi mod 8)) as [E'|E'].
    + rewrite (bit_index_inj _ _ E E'), Z.eqb_refl, andb_false_r, orb_true_r. done.
    + assert ((bi =? bj) = false) as -> by (apply Z.eqb_neq; intros ->; done).
      by rewrite andb_true_r, orb_false_r.
  - rewrite zget_zset_ne by dlia.
    assert ((bi =? bj) = false) as -> by (apply Z.eqb_neq; intros ->; done). by rewrite orb_false_r.
Qed.

(** The scan of one bitmap block stops at the first free bit. *)
Lemma find_free_some cnt bi b size d r :
  (forall i, bi <= i < r -> bit_free i d = false) -> bit_free r d = true -> b + r < size ->
  bi <= r < bi + Z.of_nat cnt -> find_free cnt bi b size d = Some r.
Proof.
  revert bi. induction cnt as [|cnt IH]; intros bi Hu Hf Hs Hr; cbn [find_free]; [lia|].
  assert ((b + bi <? size) = true) as -> by lia.
  destruct (decide (bi = r)) as [->|]; [by rewrite Hf|].
  rewrite Hu by lia. apply IH; auto; [|lia]. intros i Hi. apply Hu. lia.
Qed.

Lemma find_free_none cnt bi b size d :
  (forall i, bi <= i < bi + Z.of_nat cnt -> b + i < size -> bit_free i d = false) ->
  find_free cnt bi b size d = None.
Proof.
  revert bi. induction cnt as [|cnt IH]; intros bi Hu; cbn [find_free]; [done|].
  destruct (Z.ltb_spec (b + bi) size); [|done]. rewrite Hu by lia. apply IH. intros. apply Hu; lia.
Qed.

(** ** The bitmap as a whole *)

Definition sb_of (d : block) : superblock := MkSb (get32 0 d) (get32 4 d) (get32 8 d) (get32 12 d).

Definition used (V : Z -> block) (b : Z) : bool :=
  negb (bit_free (b mod BPB) (V (BBLOCK b (sb_ninodes (sb_of (V 1)))))).

Section Alloc.
Context {S : Type} `{!BufferCache S}.
Implicit Types (f : fs S) (V : Z -> block) (H : gmap nat Z).

Lemma delete_insert_new H h (sec : Z) : H !! h = None -> delete h (<[h := sec]> H) = H.
Proof. intros Hh. rewrite delete_insert_eq. by apply delete_id. Qed.

Lemma lookup_insert_held H (h : nat) (sec x : Z) :
  (forall h', H !! h' <> Some x) -> sec <> x -> forall h', <[h := sec]> H !! h' <> Some x.
Proof.
  intros Hn Hne h'. destruct (decide (h = h')) as [->|]; [rewrite lookup_insert_eq|rewrite lookup_insert_ne by done];
    [congruence|apply Hn].
Qed.

(** A block that is read and put back. *)
Lemma run_readsb start f V H k :
  fstx start f V H k -> 1 < start -> (forall h, H !! h <> Some 1) -> (size H <= 2)%nat ->
  exists f', log_call (readsb ROOTDEV) f = Ret (sb_of (V 1)) f' /\ fs_inode f' = fs_inode f /\
    fstx start f' V H k.
Proof.
  intros Hf Hst Hn Hsz.
  destruct (run_bread _ _ _ _ _ 1 Hf) as (h & f1 & Hr1 & Hi1 & Hh & Hf1); [lia|done|done|].
  assert (Hin : <[h := 1]> H !! h = Some 1) by apply lookup_insert_eq.
  pose proof (run_data _ _ _ _ _ _ _ Hf1 Hin ltac:(lia)) as Hd.
  destruct (run_brelse _ _ _ _ _ _ _ Hf1 Hin) as (f2 & Hr2 & Hi2 & Hf2); [lia|].
  rewrite delete_insert_new in Hf2 by done. exists f2. split; [|by rewrite Hi2].
  unfold readsb. rewrite log_call_bind. run Hr1. rewrite log_call_bind. run Hd.
  rewrite log_call_bind. run Hr2. by destruct f2.
Qed.

(** Read a block, store a new version of it under the log, put it back. *)
Lemma run_modify start f V H k sec (g : block -> block) :
  fstx start f V H (k + 1) -> 0 <= k -> 0 <= sec < start -> (forall h, H !! h <> Some sec) ->
  (size H <= 2)%nat -> zlen (g (V sec)) = BSIZE ->
  exists h f1 f2 f3,
    buf_call (bread ROOTDEV sec) f = Ret h f1 /\ data h f1 = Ret (V sec) f1 /\
    log_store h (g (V sec)) f1 = Ret tt f2 /\ buf_call (brelse h) f2 = Ret tt f3 /\
    fs_inode f3 = fs_inode f /\ fstx start f3 (upd V sec (g (V sec))) H k.
Proof.
  intros Hf Hk Hs Hn Hsz Hg.
  destruct (run_bread _ _ _ _ _ sec Hf) as (h & f1 & Hr1 & Hi1 & Hh & Hf1); [done..|].
  assert (Hin : <[h := sec]> H !! h = Some sec) by apply lookup_insert_eq.
  destruct (run_log_store _ _ _ _ _ _ _ _ Hf1 Hk Hin Hs Hg) as (f2 & Hr2 & Hi2 & Hf2).
  destruct (run_brelse _ _ _ _ _ _ _ Hf2 Hin Hs) as (f3 & Hr3 & Hi3 & Hf3).
  rewrite delete_insert_new in Hf3 by done. exists h, f1, f2, f3. split_and!; auto.
  - by eapply run_data.
  - congruence.
Qed.

Lemma run_bzero start f V H k b :
  fstx start f V H (k + 1) -> 0 <= k -> 0 <= b < start -> (forall h, H !! h <> Some b) ->
  (size H <= 2)%nat ->
  exists f', bzero ROOTDEV b f = Ret tt f' /\ fs_inode f' = fs_inode f /\
    fstx start f' (upd V b zero_block) H k.
Proof.
  intros Hf Hk Hb Hn Hsz.
  destruct (run_modify _ _ _ _ _ b (fun _ => zero_block) Hf) as (h & f1 & f2 & f3 & R1 & R2 & R3 & R4 & Hi & Hf3);
    auto. exists f3. split; [|done]. unfold bzero. run R1. run R3. done.
Qed.

(** ** balloc and bfree *)

(** The layout the superblock describes: bitmap and inode blocks lie below the
    log, and the blocks up to the end of the bitmap are never free. *)
Record layout (start : Z) (V : Z -> block) : Prop := {
  ly_start : 1 < start;
  ly_size : 0 < sb_size (sb_of (V 1));
  ly_ninodes : 0 <= sb_ninodes (sb_of (V 1));
  ly_bitmap : forall b, 0 <= b < sb_size (sb_of (V 1)) -> BBLOCK b (sb_ninodes (sb_of (V 1))) < start;
  ly_meta : forall b, 0 <= b <= BBLOCK (sb_size (sb_of (V 1)) - 1) (sb_ninodes (sb_of (V 1))) ->
    used V b = true
}.

(** The bitmap block of [b]. *)
Definition bmblock (V : Z -> block) (b : Z) : Z := BBLOCK b (sb_ninodes (sb_of (V 1))).

(** The superblock and the bitmap are not held by the caller. *)
Definition no_meta (V : Z -> block) (H : gmap nat Z) : Prop :=
  (forall h, H !! h <> Some 1) /\ (forall h b, 0 <= b < sb_size (sb_of (V 1)) -> H !! h <> Some (bmblock V b)).

Lemma bmblock_mono V b b' : b <= b' -> bmblock V b <= bmblock V b'.
Proof.
  intros Hb. unfold bmblock, BBLOCK.
  pose proof (Z.div_le_mono b b' BPB ltac:(unfold BPB, BSIZE; lia) Hb). lia.
Qed.

Lemma bmblock_low start V b : layout start V -> 0 <= b -> 3 <= bmblock V b.
Proof.
  intros HL Hb. pose proof (Z.div_pos b BPB Hb ltac:(unfold BPB, BSIZE; lia)).
  pose proof (Z.div_pos _ IPB (ly_ninodes _ _ HL) ltac:(done)). unfold bmblock, BBLOCK. lia.
Qed.

Lemma bmblock_start start V b :
  layout start V -> 0 <= b < sb_size (sb_of (V 1)) -> 0 <= bmblock V b < start.
Proof. intros HL Hb. pose proof (bmblock_low _ _ b HL). pose proof (ly_bitmap _ _ HL b Hb). unfold bmblock in *. lia. Qed.

Lemma free_above_meta start V b b' :
  layout start V -> 0 <= b < sb_size (sb_of (V 1)) -> 0 <= b' < sb_size (sb_of (V 1)) ->
  used V b = false -> bmblock V b' < b.
Proof.
  intros HL Hb Hb' Hu. destruct (Z_lt_le_dec (bmblock V b') b) as [|Hle]; [done|].
  rewrite (ly_meta _ _ HL) in Hu; [done|]. split; [lia|].
  etrans; [exact Hle|]. apply bmblock_mono. lia.
Qed.

Definition alloc_at (V : Z -> block) (b : Z) : Z -> block :=
  upd (upd V (bmblock V b) (bit_set (b mod BPB) (V (bmblock V b)))) b zero_block.
Definition free_at (V : Z -> block) (b : Z) : Z -> block :=
  upd V (bmblock V b) (bit_clear (b mod BPB) (V (bmblock V b))).

Lemma bmblock_step V b j : (BPB | b) -> 0 <= j < BPB -> bmblock V (b + j) = bmblock V b.
Proof.
  intros [q ->] Hj. unfold bmblock, BBLOCK.
  rewrite (Z.add_comm (q * BPB) j), Z.div_add, Z.div_small, Z.div_mul
    by (unfold BPB, BSIZE in *; lia). lia.
Qed.

Lemma used_step V b j : (BPB | b) -> 0 <= j < BPB -> used V (b + j) = negb (bit_free j (V (bmblock V b))).
Proof.
  intros Hb Hj. unfold used. change (BBLOCK (b + j) _) with (bmblock V (b + j)).
  rewrite (bmblock_step V b j Hb Hj). destruct Hb as [q ->].
  rewrite (Z.add_comm (q * BPB) j), Z.mod_add, Z.mod_small by (unfold BPB, BSIZE in *; lia). done.
Qed.

(** One round of the outer loop that finds nothing, and one that finds the block. *)
Lemma run_balloc_from start V H k b0 fuel f b :
  fstx start f V H (k + 2) -> 0 <= k -> layout start V -> no_meta V H -> (size H <= 2)%nat ->
  0 <= b0 < start -> b0 < sb_size (sb_of (V 1)) -> used V b0 = false ->
  (forall x, 0 <= x < b0 -> used V x = true) -> (forall h, H !! h <> Some b0) ->
  (BPB | b) -> 0 <= b <= b0 -> (b0 - b) / BPB < Z.of_nat fuel ->
  exists f', balloc_from fuel b ROOTDEV (sb_of (V 1)) f = Ret b0 f' /\ fs_inode f' = fs_inode f /\
    fstx start f' (alloc_at V b0) H k.
Proof.
  intros Hf Hk HL [HH1 HHb] Hsz Hb0 Hb0s Hu0 Hlow Hh0. revert f b Hf.
  induction fuel as [|fuel IH]; intros f b Hf Hd Hb Hfuel.
  { pose proof (Z.div_pos (b0 - b) BPB). unfold BPB, BSIZE in *. lia. }
  cbn [balloc_from]. assert ((b <? sb_size (sb_of (V 1))) = true) as -> by lia.
  change (BBLOCK b _) with (bmblock V b).
  pose proof (bmblock_start _ _ b HL ltac:(lia)) as Hbm.
  destruct (decide (b0 < b + BPB)) as [Hhere|Hmore].
  - assert (E0 : b0 = b + (b0 - b)) by lia. set (j := b0 - b) in *.
    assert (Hfind : find_free (Z.to_nat BPB) 0 b (sb_size (sb_of (V 1))) (V (bmblock V b)) = Some j).
    { apply find_free_some; [| |lia|unfold BPB, BSIZE in *; lia].
      - intros i Hi. specialize (Hlow (b + i)). rewrite used_step in Hlow by (done || lia).
        apply negb_true_iff. apply Hlow. lia.
      - rewrite E0, used_step in Hu0 by (done || lia). by apply negb_false_iff in Hu0. }
    destruct (run_modify start f V H (k + 1) (bmblock V b) (bit_set j))
      as (h & f1 & f2 & f3 & R1 & R2 & R3 & R4 & Hi3 & Hf3); auto; try lia.
    { by replace (k + 1 + 1) with (k + 2) by lia. } { intros h. apply HHb. lia. }
    { rewrite zlen_bit_set. eapply fstx_block_len; [exact Hf|lia]. }
    destruct (run_bzero _ _ _ _ _ (b + j) Hf3 Hk) as (f4 & R5 & Hi4 & Hf4); [lia|by rewrite <- E0|done|].
    exists f4. split_and!; [|congruence|].
    + run R1. run R2. rewrite Hfind. run R3. run R4. run R5. unfold ret. by rewrite <- E0.
    + unfold alloc_at. rewrite E0 at 1 2 3 4. rewrite bmblock_step by (done || lia).
      replace ((b + j) mod BPB) with j; [done|]. destruct Hd as [q ->].
      rewrite (Z.add_comm (q * BPB) j), Z.mod_add, Z.mod_small by (unfold BPB, BSIZE in *; lia). done.
  - assert (Hfind : find_free (Z.to_nat BPB) 0 b (sb_size (sb_of (V 1))) (V (bmblock V b)) = None).
    { apply find_free_none. intros i Hi _. specialize (Hlow (b + i)).
      rewrite used_step in Hlow by (done || unfold BPB, BSIZE in *; lia).
      apply negb_true_iff. apply Hlow. unfold BPB, BSIZE in *. lia. }
    destruct (run_bread _ _ _ _ _ (bmblock V b) Hf) as (h & f1 & R1 & Hi1 & Hh & Hf1); [lia| |done|].
    { intros h. apply HHb. lia. }
    assert (Hin : <[h := bmblock V b]> H !! h = Some (bmblock V b)) by apply lookup_insert_eq.
    pose proof (run_data _ _ _ _ _ _ _ Hf1 Hin Hbm) as R2.
    destruct (run_brelse _ _ _ _ _ _ _ Hf1 Hin Hbm) as (f2 & R3 & Hi2 & Hf2).
    rewrite delete_insert_new in Hf2 by done.
    destruct (IH f2 (b + BPB) Hf2) as (f3 & R4 & Hi3 & Hf3); [| |unfold BPB, BSIZE in *; dlia|].
    { by apply Z.divide_add_r. } { unfold BPB, BSIZE in *. lia. }
    exists f3. split; [|split; [congruence|done]]. run R1. run R2. rewrite Hfind. run R3. exact R4.
Qed.

Lemma run_balloc start V H k b0 f :
  fstx start f V H (k + 2) -> 0 <= k -> layout start V -> no_meta V H -> (size H <= 2)%nat ->
  0 <= b0 < start -> b0 < sb_size (sb_of (V 1)) -> used V b0 = false ->
  (forall x, 0 <= x < b0 -> used V x = true) -> (forall h, H !! h <> Some b0) ->
  exists f', balloc ROOTDEV f = Ret b0 f' /\ fs_inode f' = fs_inode f /\
    fstx start f' (alloc_at V b0) H k.
Proof.
  intros Hf Hk HL HH Hsz Hb0 Hb0s Hu0 Hlow Hh0.
  destruct (run_readsb _ _ _ _ _ Hf) as (f1 & R1 & Hi1 & Hf1); [apply HL|apply HH|done|].
  destruct (run_balloc_from start V H k b0 (Z.to_nat (sb_size (sb_of (V 1)) / BPB + 2)) f1 0)
    as (f2 & R2 & Hi2 & Hf2); auto; try lia.
  { apply Z.divide_0_r. } { unfold BPB, BSIZE in *. dlia. }
  exists f2. split; [|split; [congruence|done]]. unfold balloc. run R1. exact R2.
Qed.

Lemma run_bfree start V H k b f :
  fstx start f V H (k + 1) -> 0 <= k -> layout start V -> no_meta V H -> (size H <= 2)%nat ->
  0 <= b < sb_size (sb_of (V 1)) -> used V b = true ->
  exists f', bfree ROOTDEV b f = Ret tt f' /\ fs_inode f' = fs_inode f /\
    fstx start f' (free_at V b) H k.
Proof.
  intros Hf Hk HL [HH1 HHb] Hsz Hb Hu.
  destruct (run_readsb _ _ _ _ _ Hf) as (f1 & R1 & Hi1 & Hf1); [apply HL|done|done|].
  pose proof (bmblock_start _ _ b HL Hb) as Hbm.
  destruct (run_modify start f1 V H k (bmblock V b) (bit_clear (b mod BPB)))
    as (h & f2 & f3 & f4 & R2 & R3 & R4 & R5 & Hi4 & Hf4); auto.
  { rewrite zlen_bit_clear. eapply fstx_block_len; [exact Hf|lia]. }
  exists f4. split; [|split; [congruence|done]]. unfold bfree. run R1.
  change (BBLOCK b _) with (bmblock V b). run R2. run R3.
  unfold used in Hu. apply negb_true_iff in Hu. change (BBLOCK b _) with (bmblock V b) in Hu.
  rewrite Hu. run R4. exact R5.
Qed.

(** What an allocation changes. *)
Lemma alloc_at_sb start V b :
  layout start V -> 0 <= b < sb_size (sb_of (V 1)) -> used V b = false -> alloc_at V b 1 = V 1.
Proof.
  intros HL Hb Hu. pose proof (free_above_meta _ _ b b HL Hb Hb Hu).
  pose proof (bmblock_low _ _ b HL ltac:(lia)). unfold alloc_at. rewrite !upd_ne by lia. done.
Qed.

Lemma free_at_sb start V b : layout start V -> 0 <= b -> free_at V b 1 = V 1.
Proof.
  intros HL Hb. pose proof (bmblock_low _ _ b HL ltac:(lia)). unfold free_at. rewrite upd_ne by lia. done.
Qed.

(** Two blocks with bits in the same bitmap block differ in the position of the bit. *)
Lemma bmblock_same V b x : bmblock V x = bmblock V b -> (x mod BPB =? b mod BPB) = (x =? b).
Proof.
  unfold bmblock, BBLOCK. intros E. assert (E' : x / BPB = b / BPB) by lia.
  pose proof (Z.div_mod x BPB ltac:(unfold BPB, BSIZE; lia)).
  pose proof (Z.div_mod b BPB ltac:(unfold BPB, BSIZE; lia)).
  destruct (Z.eqb_spec (x mod BPB) (b mod BPB)) as [Em|Em]; symmetry;
    [apply Z.eqb_eq; rewrite E', Em in *; lia|apply Z.eqb_neq; intros ->; done].
Qed.

Lemma mod_BPB x : 0 <= x mod BPB < BPB.
Proof. apply Z.mod_pos_bound. unfold BPB, BSIZE. lia. Qed.

Lemma used_alloc_at start V b x :
  layout start V -> (forall y, 0 <= y < start -> zlen (V y) = BSIZE) ->
  0 <= b < sb_size (sb_of (V 1)) -> used V b = false -> 0 <= x < sb_size (sb_of (V 1)) ->
  used (alloc_at V b) x = used V x || (x =? b).
Proof.
  intros HL Hlen Hb Hu Hx. unfold used. rewrite (alloc_at_sb start) by done.
  change (BBLOCK x (sb_ninodes (sb_of (V 1)))) with (bmblock V x).
  pose proof (free_above_meta _ _ b x HL Hb Hx Hu).
  pose proof (bmblock_start _ _ b HL Hb). unfold alloc_at. rewrite (upd_ne _ b) by lia.
  destruct (decide (bmblock V x = bmblock V b)) as [E|E].
  - rewrite E, upd_eq, bit_free_set by (apply mod_BPB || auto).
    rewrite negb_andb, negb_involutive, (bmblock_same V b x E). done.
  - rewrite upd_ne by done. assert ((x =? b) = false) as -> by (apply Z.eqb_neq; by intros ->).
    by rewrite orb_false_r.
Qed.

Lemma used_free_at start V b x :
  layout start V -> (forall y, 0 <= y < start -> zlen (V y) = BSIZE) ->
  0 <= b < sb_size (sb_of (V 1)) -> 0 <= x < sb_size (sb_of (V 1)) ->
  used (free_at V b) x = used V x && negb (x =? b).
Proof.
  intros HL Hlen Hb Hx. unfold used. rewrite (free_at_sb start) by (done || lia).
  change (BBLOCK x (sb_ninodes (sb_of (V 1)))) with (bmblock V x).
  pose proof (bmblock_start _ _ b HL Hb). unfold free_at.
  destruct (decide (bmblock V x = bmblock V b)) as [E|E].
  - rewrite E, upd_eq, bit_free_clear by (apply mod_BPB || auto).
    rewrite negb_orb, (bmblock_same V b x E). done.
  - rewrite upd_ne by done. assert ((x =? b) = false) as -> by (apply Z.eqb_neq; by intros ->).
    by rewrite andb_true_r.
Qed.

Lemma layout_alloc start V b :
  layout start V -> (forall y, 0 <= y < start -> zlen (V y) = BSIZE) ->
  0 <= b < sb_size (sb_of (V 1)) -> used V b = false -> layout start (alloc_at V b).
Proof.
  intros HL Hlen Hb Hu. pose proof (alloc_at_sb _ _ _ HL Hb Hu) as E. 
  pose proof (ly_meta _ _ HL) as Hm. pose proof (ly_size _ _ HL).
  constructor; rewrite ?E; try apply HL. intros x Hx.
  destruct (decide (x < sb_size (sb_of (V 1)))).
  - rewrite (used_alloc_at start) by (done || lia). by rewrite Hm.
  - pose proof (free_above_meta _ _ b (sb_size (sb_of (V 1)) - 1) HL Hb ltac:(lia) Hu) as Hlt.
    unfold bmblock in Hlt. lia.
Qed.

End Alloc.

(** ** A small file system *)

Section Example.

(** Blocks that were all given 512 bytes. *)
Definition blocks_ok (m : gmap Z block) : bool :=
  forallb (fun p => zlen p.2 =? BSIZE) (map_to_list m).

Lemma blocks_ok_len m sec : blocks_ok m = true -> zlen (blk m sec) = BSIZE.
Proof.
  intros H. unfold blocks_ok in H. rewrite forallb_forall in H. unfold blk.
  destruct (m !! sec) as [d|] eqn:E; [|done]. cbn.
  apply elem_of_map_to_list, list_elem_of_In in E. apply H in E. cbn in E. lia.
Qed.

(** A log at sector 34 of 30 blocks, on a disk of 64, one call outstanding. *)
Definition ex_log (m : gmap Z block) : log (bio Memide.memdisk) :=
  MkLog 34 30 1 0 ROOTDEV 0 (replicate 30 0) (MkBio (binit bcache0) (Memide.MkMemdisk m 64 [])).

Lemma ex_fstx m ic k :
  blocks_ok m = true -> 0 <= k <= 27 -> fstx 34 (MkFs (ex_log m) ic) (blk m) ∅ k.
Proof.
  intros Hm Hk. exists (MkAbuf m [] 64 ∅ ∅), [].
  assert (HR : bc_rep (MkBio (binit bcache0) (Memide.MkMemdisk m 64 [])) (MkAbuf m [] 64 ∅ ∅)).
  { refine (binit_rep (Memide.MkMemdisk m 64 []) _). intros sec. by apply blocks_ok_len. }
  constructor; cbn [fs_log ex_log lg_start lg_outstanding lg_size]; try done; try (unfold zlen, NBUF; cbn; lia).
  - constructor; [exact HR|..]; cbn [ex_log lg_dev lg_start lg_size lg_n lg_sector a_nsect];
      try (vm_compute; done || (split; done)); [by apply NoDup_nil|]. intros sec. split.
    + intros [d Hd]. cbn in Hd. by rewrite lookup_empty in Hd.
    + by intros ?%elem_of_nil.
  - intros h sec d [Hh _]. cbn in Hh. by rewrite lookup_empty in Hh.
Qed.

(** Superblock: 64 blocks, 8 inodes, 30 for the log.  The bitmap is block 4 and
    the first six blocks are in use. *)
Definition ex_super : block := put32 12 30 (put32 8 8 (put32 4 28 (put32 0 64 zero_block))).
Definition ex_image : gmap Z block := <[4 := zset zero_block 0 63]> {[ 1 := ex_super ]}.

Lemma ex_image_ok : blocks_ok ex_image = true.
Proof. vm_compute. done. Qed.

(** Evaluate a property of all the blocks below a bound. *)
Lemma below_check (P : Z -> bool) n :
  forallb (fun i => P (Z.of_nat i)) (seq 0 (Z.to_nat n)) = true -> forall b, 0 <= b < n -> P b = true.
Proof.
  intros H b Hb. rewrite <- (Z2Nat.id b) by lia. apply (forallb_seq _ _ H). lia.
Qed.

Lemma ex_layout : layout 34 (blk ex_image).
Proof.
  assert (E : sb_of (blk ex_image 1) = MkSb 64 28 8 30) by (vm_compute; done).
  constructor; rewrite ?E; cbn [sb_size sb_ninodes]; try lia.
  - intros b Hb. apply Z.ltb_lt. revert b Hb. apply below_check. vm_compute. done.
  - change (BBLOCK (64 - 1) 8) with 4. intros b Hb.
    apply (below_check (fun b => used (blk ex_image) b) 5); [vm_compute; done|lia].
Qed.

Lemma ex_used b : 0 <= b < 6 -> used (blk ex_image) b = true.
Proof. apply (below_check (fun b => used (blk ex_image) b)). vm_compute. done. Qed.

End Example.

(** ** Properties *)

Section Properties.
Context {S : Type} `{!BufferCache S}.
Implicit Types (f : fs S) (V : Z -> block) (H : gmap nat Z).

(** balloc returns the lowest free block.  It was free, it is now the only
    block newly marked in use, its contents are zero, the layout still holds,
    and apart from it only its bitmap block has changed. *)
Theorem balloc_lowest_free start V k b0 f :
  fstx start f V ∅ (k + 2) -> 0 <= k -> layout start V ->
  0 <= b0 < start -> b0 < sb_size (sb_of (V 1)) -> used V b0 = false ->
  (forall x, 0 <= x < b0 -> used V x = true) ->
  exists f' V', balloc ROOTDEV f = Ret b0 f' /\ fstx start f' V' ∅ k /\ layout start V' /\
    V' b0 = zero_block /\
    (forall x, 0 <= x < sb_size (sb_of (V 1)) -> used V' x = used V x || (x =? b0)) /\
    (forall x, x <> b0 -> x <> bmblock V b0 -> V' x = V x).
Proof.
  intros Hf Hk HL Hb0 Hs Hu Hlow.
  pose proof (fun y => fstx_block_len _ _ _ _ _ y Hf) as Hlen.
  destruct (run_balloc start V ∅ k b0 f) as (f' & Hr & _ & Hf'); auto;
    [by split|].
  exists f', (alloc_at V b0). split_and!; auto.
  - apply layout_alloc; auto. lia.
  - unfold alloc_at. apply upd_eq.
  - intros x Hx. apply (used_alloc_at start); auto. lia.
  - intros x Hx1 Hx2. unfold alloc_at. by rewrite !upd_ne.
Qed.

(** bfree clears exactly the bit of the block it is given, and panics when
    the block is free already. *)
Theorem bfree_exact start V k b f :
  fstx start f V ∅ (k + 1) -> 0 <= k -> layout start V -> 0 <= b < sb_size (sb_of (V 1)) ->
  if used V b then
    exists f' V', bfree ROOTDEV b f = Ret tt f' /\ fstx start f' V' ∅ k /\
      (forall x, 0 <= x < sb_size (sb_of (V 1)) -> used V' x = used V x && negb (x =? b)) /\
      (forall x, x <> bmblock V b -> V' x = V x)
  else bfree ROOTDEV b f = Fail (FPanic "freeing free block").
Proof.
  intros Hf Hk HL Hb. pose proof (fun y => fstx_block_len _ _ _ _ _ y Hf) as Hlen.
  assert (Hnm : no_meta V ∅) by (by split). assert (Hsz : (size (∅ : gmap nat Z) <= 2)%nat) by (rewrite map_size_empty; lia).
  destruct (used V b) eqn:Hu.
  - destruct (run_bfree start V ∅ k b f) as (f' & Hr & _ & Hf'); auto.
    exists f', (free_at V b). split_and!; auto.
    + intros x Hx. by apply (used_free_at start).
    + intros x Hx. unfold free_at. by rewrite upd_ne.
  - destruct (run_readsb _ _ _ _ _ Hf) as (f1 & R1 & Hi1 & Hf1); [apply HL|apply Hnm|done|].
    pose proof (bmblock_start _ _ b HL Hb) as Hbm.
    destruct (run_bread _ _ _ _ _ (bmblock V b) Hf1) as (h & f2 & R2 & _ & Hh & Hf2); [lia|done|done|].
    assert (Hin : <[h := bmblock V b]> (∅ : gmap nat Z) !! h = Some (bmblock V b)) by apply lookup_insert_eq.
    pose proof (run_data _ _ _ _ _ _ _ Hf2 Hin Hbm) as R3.
    unfold bfree. run R1. change (BBLOCK b _) with (bmblock V b). run R2. run R3.
    unfold used in Hu. apply negb_false_iff in Hu. change (BBLOCK b _) with (bmblock V b) in Hu.
    by rewrite Hu.
Qed.

End Properties.

Lemma balloc_lowest_free_witness :
  exists f', balloc ROOTDEV (MkFs (ex_log ex_image) []) = Ret 6 f'.
Proof.
  destruct (balloc_lowest_free 34 (blk ex_image) 0 6 (MkFs (ex_log ex_image) []))
    as (f' & V' & Hr & _).
  - apply ex_fstx; [apply ex_image_ok|lia].
  - lia.
  - apply ex_layout.
  - lia.
  - vm_compute. reflexivity.
  - vm_compute. reflexivity.
  - intros x Hx. apply ex_used. lia.
  - exists f'. exact Hr.
Defined.

Lemma bfree_exact_witness :
  (exists f', bfree ROOTDEV 5 (MkFs (ex_log ex_image) []) = Ret tt f') /\
  bfree ROOTDEV 6 (MkFs (ex_log ex_image) []) = Fail (FPanic "freeing free block").
Proof.
  split.
  - pose proof (bfree_exact 34 (blk ex_image) 0 5 (MkFs (ex_log ex_image) [])
      (ex_fstx ex_image [] 1 ex_image_ok ltac:(lia)) ltac:(lia) ex_layout ltac:(vm_compute; split; done)) as H.
    replace (used (blk ex_image) 5) with true in H by (vm_compute; reflexivity).
    destruct H as (f' & V' & Hr & _). exists f'. exact Hr.
  - pose proof (bfree_exact 34 (blk ex_image) 0 6 (MkFs (ex_log ex_image) [])
      (ex_fstx ex_image [] 1 ex_image_ok ltac:(lia)) ltac:(lia) ex_layout ltac:(vm_compute; split; done)) as H.
    replace (used (blk ex_image) 6) with false in H by (vm_compute; reflexivity). exact H.
Defined.

(** A disk whose 34 blocks below the log are all in use; like mkfs, the bitmap
    leaves the bits of the log blocks clear. *)
Definition full_image : gmap Z block :=
  <[4 := foldr (fun i d => bit_set (Z.of_nat i) d) zero_block (seq 0 34)]> {[ 1 := ex_super ]}.

(** balloc scans the bitmap up to the size of the whole disk, and the bits
    of the log area, which lies at its end, are never marked.  Once the data
    blocks are used up it hands out the log header block. *)
Theorem balloc_log_area :
  match balloc ROOTDEV (MkFs (ex_log full_image) []) with
  | Ret b f' => b = 34 /\ lg_start (fs_log f') <= b < lg_start (fs_log f') + lg_size (fs_log f')
  | _ => False
  end.
Proof. vm_compute. split; [reflexivity|]. split; congruence. Qed.
