(* ===== verification/FsInode.v ===== *)
(** * Inodes (fs.c: iget, idup, ilock, iunlock, iupdate)

    The on-disk inode format and its round trip through iupdate and ilock, and
    the inode cache: one entry per inode, reference counts, the busy lock. *)

From S2P Require Import Prelude.
From S2P Require Import Params.
From S2P Require Import Disk.
From S2P Require Import BufSpec.
From S2P Require Import Bio.
From S2P Require Import Log.
From S2P Require Import LogCrash.
From S2P Require Import LogOps.
From S2P Require Import Fs.
From S2P Require Import FsTx.
From S2P Require Import FsAlloc.

(** ** Fields of a block *)

(** Lengths through stores of fields. *)
Ltac zlens :=
  lazymatch goal with
  | |- context [zlen (put16 ?o ?v ?l)] => rewrite (zlen_put16 o v l) by zlens; zlens
  | |- context [zlen (put32 ?o ?v ?l)] => rewrite (zlen_put32 o v l) by zlens; zlens
  | |- context [zlen (splice ?o ?v ?l)] => rewrite (length_splice o v l) by zlens; zlens
  | |- context [zlen (le_bytes ?n ?v)] => rewrite (zlen_le_bytes n v); zlens
  | _ => lia
  end.

(** The words of two disjoint fields do not interfere. *)
Lemma get16_put16_ne off off' v l :
  0 <= off -> 0 <= off' -> off' + 2 <= zlen l -> off + 2 <= off' \/ off' + 2 <= off ->
  get16 off (put16 off' v l) = get16 off l.
Proof. intros. unfold get16, put16. rewrite slice_splice_other; rewrite ?zlen_le_bytes; lia. Qed.

Lemma get16_put32_ne off off' v l :
  0 <= off -> 0 <= off' -> off' + 4 <= zlen l -> off + 2 <= off' \/ off' + 4 <= off ->
  get16 off (put32 off' v l) = get16 off l.
Proof. intros. unfold get16, put32. rewrite slice_splice_other; rewrite ?zlen_le_bytes; lia. Qed.

Lemma get32_put16_ne off off' v l :
  0 <= off -> 0 <= off' -> off' + 2 <= zlen l -> off + 4 <= off' \/ off' + 2 <= off ->
  get32 off (put16 off' v l) = get32 off l.
Proof. intros. unfold get32, put16. rewrite slice_splice_other; rewrite ?zlen_le_bytes; lia. Qed.

Lemma zlen_write_words off ws d :
  0 <= off -> off + 4 * zlen ws <= zlen d -> zlen (write_words off ws d) = zlen d.
Proof.
  unfold zlen. revert off d. induction ws as [|w ws IH]; intros off d Ho Hl; cbn [write_words length] in *; [done|].
  assert (E : zlen (put32 off w d) = zlen d) by (apply zlen_put32; unfold zlen; lia).
  unfold zlen in E. rewrite IH; lia.
Qed.

(** A slice that lies before or after the words is not touched. *)
Lemma slice_write_words off ws d o n :
  0 <= off -> off + 4 * zlen ws <= zlen d -> 0 <= o -> o + n <= off \/ off + 4 * zlen ws <= o ->
  slice o n (write_words off ws d) = slice o n d.
Proof.
  unfold zlen. revert off d. induction ws as [|w ws IH]; intros off d Ho Hl Hs Hd; cbn [write_words length] in *; [done|].
  assert (E : zlen (put32 off w d) = zlen d) by (apply zlen_put32; unfold zlen; lia).
  unfold zlen in E. rewrite IH by lia. unfold put32. apply slice_splice_other; rewrite ?zlen_le_bytes; unfold zlen; lia.
Qed.

Lemma get32_write_words off ws d (i : nat) w :
  0 <= off -> off + 4 * zlen ws <= zlen d -> ws !! i = Some w -> is_u32 w ->
  get32 (off + 4 * Z.of_nat i) (write_words off ws d) = w.
Proof.
  unfold zlen. revert off d i. induction ws as [|x ws IH]; intros off d i Ho Hl Hi Hw; [done|].
  cbn [write_words length] in *.
  assert (E : zlen (put32 off x d) = zlen d) by (apply zlen_put32; unfold zlen; lia). unfold zlen in E.
  destruct i as [|i]; cbn in Hi; simplify_eq.
  - rewrite Z.mul_0_r, Z.add_0_r. unfold get32. rewrite slice_write_words by (unfold zlen; lia).
    apply get32_put32_eq; unfold zlen; lia || done.
  - replace (off + 4 * Z.of_nat (S i)) with (off + 4 + 4 * Z.of_nat i) by lia. apply IH; auto; lia.
Qed.

(** ** The dinode format *)

Definition is_i16 (z : Z) : Prop := -32768 <= z < 32768.

Record dinode_ok (di : dinode) : Prop := {
  dk_type : is_i16 (d_type di);
  dk_major : is_i16 (d_major di);
  dk_minor : is_i16 (d_minor di);
  dk_nlink : is_i16 (d_nlink di);
  dk_size : is_u32 (d_size di);
  dk_len : length (d_addrs di) = 13%nat;
  dk_addrs : Forall is_u32 (d_addrs di)
}.

Lemma i16_u16 z : is_i16 z -> i16 (u16 z) = z.
Proof. unfold is_i16, i16, u16. intros. dlia. Qed.

Lemma u16_range z : 0 <= u16 z < 65536.
Proof. unfold u16. dlia. Qed.

Lemma zlen_write_dinode off di d :
  0 <= off -> off + 64 <= zlen d -> length (d_addrs di) = 13%nat ->
  zlen (write_dinode off di d) = zlen d.
Proof.
  intros Ho Hl Hn. assert (Hz : zlen (d_addrs di) = 13) by (unfold zlen; lia).
  unfold write_dinode. rewrite zlen_write_words by zlens. zlens.
Qed.

Lemma read_write_dinode off di d :
  0 <= off -> off + 64 <= zlen d -> dinode_ok di -> read_dinode off (write_dinode off di d) = di.
Proof.
  intros Ho Hl [Ht Hma Hmi Hnl Hsz Hlen Had]. unfold read_dinode, write_dinode.
  assert (Hz : zlen (d_addrs di) = 13) by (unfold zlen; lia).
  set (d1 := put16 off _ d). assert (L1 : zlen d1 = zlen d) by (apply zlen_put16; lia).
  set (d2 := put16 (off + 2) _ d1). assert (L2 : zlen d2 = zlen d) by (rewrite <- L1; apply zlen_put16; lia).
  set (d3 := put16 (off + 4) _ d2). assert (L3 : zlen d3 = zlen d) by (rewrite <- L2; apply zlen_put16; lia).
  set (d4 := put16 (off + 6) _ d3). assert (L4 : zlen d4 = zlen d) by (rewrite <- L3; apply zlen_put16; lia).
  set (d5 := put32 (off + 8) _ d4). assert (L5 : zlen d5 = zlen d) by (rewrite <- L4; apply zlen_put32; lia).
  set (d6 := write_words (off + 12) (d_addrs di) d5).
  assert (H16 : forall o, off <= o -> o + 2 <= off + 12 -> get16 o d6 = get16 o d5)
    by (intros; unfold get16, d6; rewrite slice_write_words by lia; done).
  assert (E1 : get16 off d6 = u16 (d_type di)).
  { rewrite H16 by lia. unfold d5, d4, d3, d2. rewrite get16_put32_ne, ?get16_put16_ne by zlens.
    apply get16_put16_eq; [zlens..|apply u16_range]. }
  assert (E2 : get16 (off + 2) d6 = u16 (d_major di)).
  { rewrite H16 by lia. unfold d5, d4, d3. rewrite get16_put32_ne, ?get16_put16_ne by zlens.
    apply get16_put16_eq; [zlens..|apply u16_range]. }
  assert (E3 : get16 (off + 4) d6 = u16 (d_minor di)).
  { rewrite H16 by lia. unfold d5, d4. rewrite get16_put32_ne, ?get16_put16_ne by zlens.
    apply get16_put16_eq; [zlens..|apply u16_range]. }
  assert (E4 : get16 (off + 6) d6 = u16 (d_nlink di)).
  { rewrite H16 by lia. unfold d5. rewrite get16_put32_ne by lia.
    apply get16_put16_eq; [zlens..|apply u16_range]. }
  assert (E5 : get32 (off + 8) d6 = d_size di).
  { unfold get32, d6. rewrite slice_write_words by lia. apply get32_put32_eq; lia || done. }
  assert (E6 : read_addrs off d6 = d_addrs di).
  { unfold read_addrs. apply list_eq. intros i. rewrite list_lookup_fmap.
    destruct (decide (i < 13)%nat) as [Hi|Hi].
    - rewrite lookup_seq_lt by done. destruct (lookup_lt_is_Some_2 (d_addrs di) i) as [w Hw]; [lia|].
      rewrite Hw. cbn. f_equal. apply get32_write_words; auto; [lia..|]. by eapply Forall_lookup_1.
    - rewrite lookup_seq_ge by lia. symmetry. apply lookup_ge_None_2. lia. }
  rewrite E1, E2, E3, E4, E5, E6, !i16_u16 by done. by destruct di.
Qed.

(** The other inodes of the block keep their bytes. *)
Lemma slice_write_dinode off di d o n :
  0 <= off -> off + 64 <= zlen d -> length (d_addrs di) = 13%nat -> 0 <= o ->
  o + n <= off \/ off + 64 <= o -> slice o n (write_dinode off di d) = slice o n d.
Proof.
  intros Ho Hl Hn Hs Hd. assert (Hz : zlen (d_addrs di) = 13) by (unfold zlen; lia).
  unfold write_dinode. rewrite slice_write_words by zlens. unfold put32, put16.
  rewrite !slice_splice_other by zlens. done.
Qed.

(** ** The inode cache *)

(** Entry [x] is in use for inode [inum] of [dev]. *)
Definition live (x : inode) (dev inum : Z) : Prop := 0 < i_ref x /\ i_dev x = dev /\ i_inum x = inum.

(** Well-formed cache: the entries of the array, counts that are not negative,
    and at most one live entry per inode. *)
Record ic_ok (ic : list inode) : Prop := {
  ic_len : length ic = NINODE;
  ic_ref : forall i x, ic !! i = Some x -> 0 <= i_ref x;
  ic_uniq : forall i j x y, ic !! i = Some x -> ic !! j = Some y ->
    0 < i_ref x -> 0 < i_ref y -> i_dev x = i_dev y -> i_inum x = i_inum y -> i = j
}.

(** What the scan of iget finds. *)
Lemma icache_scan_hit l i dev inum e j e' :
  icache_scan l i dev inum e = (Some j, e') ->
  exists k x, j = (i + k)%nat /\ l !! k = Some x /\ live x dev inum.
Proof.
  revert i e. induction l as [|x l IH]; intros i e; cbn [icache_scan]; [done|].
  destruct (_ && _) eqn:E.
  - intros [= <- <-]. exists O, x. unfold live. split_and!; cbn; lia || done.
  - intros (k & y & -> & Hk & Hl)%IH. exists (S k), y. split_and!; [lia|done|apply Hl..].
Qed.

Lemma icache_scan_miss l i dev inum e e' :
  icache_scan l i dev inum e = (None, e') ->
  (forall k x, l !! k = Some x -> ~ live x dev inum) /\
  match e, e' with
  | Some _, _ => e' = e
  | None, Some j => exists k x, j = (i + k)%nat /\ l !! k = Some x /\ i_ref x = 0
  | None, None => forall k x, l !! k = Some x -> i_ref x <> 0
  end.
Proof.
  revert i e. induction l as [|x l IH]; intros i e; cbn [icache_scan].
  - intros [= <-]. split; [done|]. by destruct e.
  - destruct (_ && _) eqn:E; [done|]. intros [Hm He]%IH. split.
    + intros [|k] y Hk; cbn in Hk; [simplify_eq|by eapply Hm]. unfold live. lia.
    + destruct e as [j0|]; [done|]. destruct (Z.eqb_spec (i_ref x) 0) as [Hr|Hr].
      * subst e'. exists O, x. split_and!; [lia|done|done].
      * destruct e' as [j|].
        -- destruct He as (k & y & -> & Hk & Hy). exists (S k), y. split_and!; [lia|done|done].
        -- intros [|k] y Hk; cbn in Hk; [by simplify_eq|by eapply He].
Qed.

Lemma ic_ok_insert ic k y :
  ic_ok ic -> 0 <= i_ref y ->
  (forall j z, ic !! j = Some z -> j <> k -> 0 < i_ref y -> ~ live z (i_dev y) (i_inum y)) ->
  ic_ok (<[k := y]> ic).
Proof.
  intros [H1 H2 H3] Hr Hn. constructor.
  - by rewrite length_insert.
  - intros i z [(-> & <- & _)|[Hne Hi]]%list_lookup_insert_Some; eauto.
  - intros i j z w Hi Hj Hz Hw Ed En. 
    apply list_lookup_insert_Some in Hi as [(-> & <- & _)|[Hni Hi]];
      apply list_lookup_insert_Some in Hj as [(-> & <- & _)|[Hnj Hj]]; eauto.
    + destruct (Hn _ _ Hj); [done..|by split_and!].
    + destruct (Hn _ _ Hi); [done..|by split_and!].
Qed.

Section Icache.
Context {S : Type} `{!BufferCache S}.
Implicit Types (f : fs S).

Lemma run_getip f ip x : fs_inode f !! ip = Some x -> getip ip f = Ret x f.
Proof. intros E. unfold getip, get. by rewrite E. Qed.

Lemma lookup_modip f ip g :
  modip ip g f = Ret tt (MkFs (fs_log f) (alter g ip (fs_inode f))).
Proof. done. Qed.

(** iget keeps one cache entry per inode.  If the inode is cached it
    returns that entry with one more reference; otherwise it takes over a free
    entry, giving it one reference and no valid data; it panics exactly when
    there is neither.  The other entries and the disk are untouched, and the
    cache stays well-formed. *)
Theorem iget_unique_entry f dev inum :
  ic_ok (fs_inode f) ->
  match iget dev inum f with
  | Ret ip f' =>
      fs_log f' = fs_log f /\ ic_ok (fs_inode f') /\
      (exists x y, fs_inode f !! ip = Some x /\ fs_inode f' !! ip = Some y /\ live y dev inum /\
        (live x dev inum /\ y = set_ref (i_ref x + 1) x \/
         i_ref x = 0 /\ i_ref y = 1 /\ i_flags y = 0 /\
         forall j z, fs_inode f !! j = Some z -> ~ live z dev inum)) /\
      (forall j, j <> ip -> fs_inode f' !! j = fs_inode f !! j)
  | Fail (FPanic _) =>
      forall j z, fs_inode f !! j = Some z -> 0 < i_ref z /\ ~ live z dev inum
  | _ => False
  end.
Proof.
  intros Hok. destruct f as [l ic]. cbn [fs_inode fs_log] in *.
  unfold iget. rewrite (bind_run (get _) _ _ _ _ eq_refl). cbn [fs_inode].
  destruct (icache_scan ic 0 dev inum None) as [[ip|] e] eqn:Hs.
  - destruct (icache_scan_hit _ _ _ _ _ _ _ Hs) as (k & x & -> & Hx & Hl). rewrite Nat.add_0_l.
    cbn. set (y := set_ref (i_ref x + 1) x). destruct Hl as (Hl1 & Hl2 & Hl3).
    rewrite (list_alter_insert _ _ _ _ Hx). fold y. split; [done|]. split; [|split].
    + apply ic_ok_insert; [done|cbn; lia|]. intros j z Hj Hne _ (Hz1 & Hz2 & Hz3). apply Hne.
      by eapply (ic_uniq _ Hok).
    + exists x, y. rewrite list_lookup_insert_eq by (by eapply lookup_lt_Some).
      do 2 (split; [done|]). split; [unfold live; cbn; lia|]. left. split; [unfold live; lia|done].
    + intros j Hj. by rewrite list_lookup_insert_ne.
  - destruct (icache_scan_miss _ _ _ _ _ _ Hs) as [Hm He]. destruct e as [ip|].
    + destruct He as (k & x & -> & Hx & Hr). rewrite Nat.add_0_l. cbn.
      set (g := fun x => MkInode dev inum 1 0 (i_type x) (i_major x) (i_minor x) (i_nlink x) (i_size x) (i_addrs x)).
      rewrite (list_alter_insert _ _ _ _ Hx). split; [done|]. split; [|split].
      * apply ic_ok_insert; [done|cbn; lia|]. intros j z Hj _ _. by eapply Hm.
      * exists x, (g x). rewrite list_lookup_insert_eq by (by eapply lookup_lt_Some).
        do 2 (split; [done|]). split; [unfold live; cbn; lia|]. right. done.
      * intros j Hj. by rewrite list_lookup_insert_ne.
    + cbn. intros j z Hz. split; [|by apply (Hm j)]. pose proof (He _ _ Hz).
      pose proof (ic_ref _ Hok _ _ Hz). lia.
Qed.

End Icache.

(** An empty inode cache. *)
Definition icache0 : list inode := replicate NINODE null_inode.

Lemma icache0_ok : ic_ok icache0.
Proof.
  constructor; [done| |].
  - intros i x [-> _]%lookup_replicate. cbn. lia.
  - intros i j x y [-> _]%lookup_replicate _ H. cbn in H. lia.
Qed.

Lemma iget_unique_entry_witness :
  exists ip f', iget ROOTDEV 7 (MkFs (ex_log ex_image) icache0) = Ret ip f' /\ ic_ok (fs_inode f').
Proof.
  pose proof (iget_unique_entry (MkFs (ex_log ex_image) icache0) ROOTDEV 7 icache0_ok) as H.
  generalize dependent (ex_log ex_image). intros l H.
  set (f' := MkFs l (<[0%nat := MkInode ROOTDEV 7 1 0 0 0 0 0 0 (replicate 13 0)]> icache0)).
  assert (E : iget ROOTDEV 7 (MkFs l icache0) = Ret 0%nat f') by (vm_compute; reflexivity).
  rewrite E in H. exists 0%nat, f'. exact (conj E (proj1 (proj2 H))).
Defined.

(** ** iupdate and ilock *)

Section Locking.
Context {S : Type} `{!BufferCache S}.
Implicit Types (f : fs S) (V : Z -> block) (H : gmap nat Z).

Definition ioff (inum : Z) : Z := (inum mod IPB) * sizeof_dinode.

Lemma ioff_range inum : 0 <= ioff inum /\ ioff inum + 64 <= BSIZE.
Proof. unfold ioff, IPB, sizeof_dinode, BSIZE. change (512 / 64) with 8. dlia. Qed.

(** The disk with the in-memory fields of [x] written back. *)
Definition put_inode (V : Z -> block) (x : inode) : Z -> block :=
  upd V (IBLOCK (i_inum x)) (write_dinode (ioff (i_inum x)) (to_dinode x) (V (IBLOCK (i_inum x)))).

Lemma run_iupdate start V H k f ip x :
  fstx start f V H (k + 1) -> 0 <= k -> (size H <= 2)%nat ->
  fs_inode f !! ip = Some x -> i_dev x = ROOTDEV -> length (i_addrs x) = 13%nat ->
  0 <= IBLOCK (i_inum x) < start -> (forall h, H !! h <> Some (IBLOCK (i_inum x))) ->
  exists f', iupdate ip f = Ret tt f' /\ fs_inode f' = fs_inode f /\
    fstx start f' (put_inode V x) H k.
Proof.
  intros Hf Hk Hsz Hx Hdev Hlen Hb Hn. destruct (ioff_range (i_inum x)) as [Ho1 Ho2].
  destruct (run_modify start f V H k (IBLOCK (i_inum x)) (write_dinode (ioff (i_inum x)) (to_dinode x)))
    as (h & f1 & f2 & f3 & R1 & R2 & R3 & R4 & Hi & Hf3); auto.
  { pose proof (fstx_block_len _ _ _ _ _ _ Hf Hb) as E. rewrite zlen_write_dinode; lia || done. }
  exists f3. split; [|done]. unfold iupdate. run (run_getip _ _ _ Hx). rewrite Hdev. run R1. run R2.
  run R3. exact R4.
Qed.

(** ilock on an entry that is free: sets the lock, and reads the inode if it has
    not been read since the entry was taken. *)
Lemma run_ilock start V H k f ip x :
  fstx start f V H k -> (size H <= 2)%nat -> fs_inode f !! ip = Some x ->
  i_dev x = ROOTDEV -> 1 <= i_ref x -> has (i_flags x) I_BUSY = false ->
  0 <= IBLOCK (i_inum x) < start -> (forall h, H !! h <> Some (IBLOCK (i_inum x))) ->
  let di := read_dinode (ioff (i_inum x)) (V (IBLOCK (i_inum x))) in
  let y := if has (i_flags x) I_VALID then set_iflags (setf (i_flags x) I_BUSY) x
           else set_iflags (setf (setf (i_flags x) I_BUSY) I_VALID) (set_dinode di x) in
  (has (i_flags x) I_VALID = false -> d_type di <> 0) ->
  exists f', ilock ip f = Ret tt f' /\ fs_inode f' = <[ip := y]> (fs_inode f) /\ fstx start f' V H k.
Proof.
  intros Hf Hsz Hx Hdev Href Hbusy Hb Hn di y Hty.
  set (f1 := MkFs (fs_log f) (<[ip := set_iflags (setf (i_flags x) I_BUSY) x]> (fs_inode f))).
  assert (R1 : modip ip (fun x => set_iflags (setf (i_flags x) I_BUSY) x) f = Ret tt f1).
  { rewrite lookup_modip. unfold f1. by rewrite (list_alter_insert _ _ _ _ Hx). }
  assert (Hlt : (ip < length (fs_inode f))%nat) by (by eapply lookup_lt_Some).
  assert (Hx1 : fs_inode f1 !! ip = Some (set_iflags (setf (i_flags x) I_BUSY) x))
    by (cbn; by rewrite list_lookup_insert_eq).
  assert (Hv : has (setf (i_flags x) I_BUSY) I_VALID = has (i_flags x) I_VALID)
    by (rewrite has_setf; apply orb_false_r).
  unfold ilock. run (run_getip _ _ _ Hx). rewrite (proj2 (Z.ltb_ge _ _)) by lia. rewrite Hbusy. run R1.
  run (run_getip _ _ _ Hx1). cbn [i_flags set_iflags i_dev i_inum]. rewrite Hv.
  destruct (has (i_flags x) I_VALID) eqn:Hval; cbn [negb].
  { exists f1. split; [done|]. split; [done|]. by apply fstx_icache. }
  assert (Hf1 : fstx start f1 V H k) by by apply fstx_icache. rewrite Hdev.
  destruct (run_bread _ _ _ _ _ (IBLOCK (i_inum x)) Hf1) as (h & f2 & R2 & Hi2 & Hh & Hf2); [done..|].
  assert (Hin : <[h := IBLOCK (i_inum x)]> H !! h = Some (IBLOCK (i_inum x))) by apply lookup_insert_eq.
  pose proof (run_data _ _ _ _ _ _ _ Hf2 Hin Hb) as R3.
  set (x1 := set_dinode di (set_iflags (setf (i_flags x) I_BUSY) x)).
  set (f3 := MkFs (fs_log f2) (<[ip := x1]> (fs_inode f))).
  assert (R4 : modip ip (set_dinode di) f2 = Ret tt f3).
  { rewrite lookup_modip, Hi2. unfold f3. rewrite (list_alter_insert _ _ _ _ Hx1).
    cbn [fs_inode f1]. by rewrite list_insert_insert_eq. }
  assert (Hf3 : fstx start f3 V (<[h := IBLOCK (i_inum x)]> H) k) by by apply fstx_icache.
  destruct (run_brelse _ _ _ _ _ _ _ Hf3 Hin Hb) as (f4 & R5 & Hi4 & Hf4).
  rewrite delete_insert_new in Hf4 by done.
  set (f5 := MkFs (fs_log f4) (<[ip := y]> (fs_inode f))).
  assert (Hx4 : fs_inode f4 !! ip = Some x1) by (rewrite Hi4; cbn; by rewrite list_lookup_insert_eq).
  assert (R6 : modip ip (fun x => set_iflags (setf (i_flags x) I_VALID) x) f4 = Ret tt f5).
  { rewrite lookup_modip. unfold f5. rewrite (list_alter_insert _ _ _ _ Hx4), Hi4. cbn [fs_inode f3].
    by rewrite list_insert_insert_eq. }
  exists f5. run R2. run R3. fold (ioff (i_inum x)). fold di. run R4. run R5. run R6.
  assert (Hx5 : fs_inode f5 !! ip = Some y) by (cbn; by rewrite list_lookup_insert_eq).
  run (run_getip _ _ _ Hx5). unfold y at 1. cbn [i_type set_iflags set_dinode].
  rewrite (proj2 (Z.eqb_neq _ _)) by auto. split; [done|]. split; [done|]. by apply fstx_icache.
Qed.

(** what iupdate writes, ilock reads.  After iupdate of an inode, locking
    any cache entry for the same inode whose data has not been read yet gives
    it the same type, device numbers, link count, size and block addresses. *)
Theorem iupdate_ilock start V k f ip jp x z :
  fstx start f V ∅ (k + 1) -> 0 <= k ->
  fs_inode f !! ip = Some x -> fs_inode f !! jp = Some z ->
  i_dev x = ROOTDEV -> i_dev z = ROOTDEV -> i_inum z = i_inum x ->
  dinode_ok (to_dinode x) -> i_type x <> 0 -> 0 <= IBLOCK (i_inum x) < start ->
  1 <= i_ref z -> i_flags z = 0 ->
  exists f1 f2 y,
    iupdate ip f = Ret tt f1 /\ ilock jp f1 = Ret tt f2 /\ fs_inode f2 !! jp = Some y /\
    to_dinode y = to_dinode x /\ has (i_flags y) I_BUSY = true /\ has (i_flags y) I_VALID = true.
Proof.
  intros Hf Hk Hx Hz Hdx Hdz Hin Hok Hty Hb Href Hfl.
  assert (Hs : (size (∅ : gmap nat Z) <= 2)%nat) by (rewrite map_size_empty; lia).
  destruct (run_iupdate start V ∅ k f ip x) as (f1 & R1 & Hi1 & Hf1); auto; [apply Hok|].
  destruct (ioff_range (i_inum x)) as [Ho1 Ho2].
  assert (Hdi : read_dinode (ioff (i_inum z)) (put_inode V x (IBLOCK (i_inum z))) = to_dinode x).
  { unfold put_inode. rewrite Hin, upd_eq. apply read_write_dinode; [done| |done].
    by rewrite (fstx_block_len _ _ _ _ _ _ Hf Hb). }
  destruct (run_ilock start (put_inode V x) ∅ k f1 jp z) as (f2 & R2 & Hi2 & _); auto.
  { by rewrite Hi1. } { by rewrite Hfl. } { by rewrite Hin. } { intros _. by rewrite Hdi. }
  rewrite Hfl, Hdi in Hi2. cbn in Hi2. eexists f1, f2, _. split; [done|]. split; [done|].
  split; [rewrite Hi2; apply list_lookup_insert_eq; rewrite Hi1; by eapply lookup_lt_Some|].
  split; [by destruct x|]. done.
Qed.

End Locking.

(** A cache in which entries 0 and 1 are for inode 2: the first holds fields
    that have been changed in memory, the second has just been taken. *)
Definition ex_ino : inode := MkInode ROOTDEV 2 1 3 T_FILE 0 0 1 700 [7; 8; 0; 0; 0; 0; 0; 0; 0; 0; 0; 0; 0].
Definition ex_ic : list inode :=
  ex_ino :: MkInode ROOTDEV 2 1 0 0 0 0 0 0 (replicate 13 0) :: replicate 48 null_inode.

Lemma iupdate_ilock_witness :
  exists f1 f2 y, iupdate 0 (MkFs (ex_log ex_image) ex_ic) = Ret tt f1 /\ ilock 1 f1 = Ret tt f2 /\
    fs_inode f2 !! 1%nat = Some y /\ i_size y = 700.
Proof.
  assert (Hok : dinode_ok (to_dinode ex_ino)).
  { split; cbn; try done; try (unfold is_i16, is_u32, T_FILE; lia).
    repeat constructor; unfold is_u32; lia. }
  destruct (iupdate_ilock 34 (blk ex_image) 0 (MkFs (ex_log ex_image) ex_ic) 0 1 ex_ino
    (MkInode ROOTDEV 2 1 0 0 0 0 0 0 (replicate 13 0))
    (ex_fstx ex_image ex_ic 1 ex_image_ok ltac:(lia)) ltac:(lia) eq_refl eq_refl eq_refl eq_refl eq_refl
    Hok ltac:(done) ltac:(vm_compute; split; done) ltac:(cbn; lia) eq_refl)
    as (f1 & f2 & y & H1 & H2 & H3 & H4 & _).
  exists f1, f2, y. apply (f_equal d_size) in H4. exact (conj H1 (conj H2 (conj H3 H4))).
Defined.
