(* ===== verification/FsFile.v ===== *)
(** * File contents (fs.c: bmap, readi, writei)

    A file as a sequence of bytes: where bmap finds or puts each block, and how
    readi and writei act on the bytes.  A block that has not been allocated
    reads as zeros, so bmap never changes the contents of a file. *)

From S2P Require Import Prelude.
From S2P Require Import Params.
From S2P Require Import Disk.
From S2P Require Import BufSpec.
From S2P Require Import Bio.
From S2P Require Import Log.
From S2P Require Import LogCrash.
From S2P Require Import LogOps.
From S2P Require Import Fs.
From S2P Require Import FsTx.
From S2P Require Import FsAlloc.
From S2P Require Import FsInode.

(** ** Free blocks *)

Definition free_set (start : Z) (V : Z -> block) : gset Z :=
  filter (fun b => used V b = false) (list_to_set (seqZ 0 (Z.min start (sb_size (sb_of (V 1)))))).

Lemma elem_of_free start V b :
  b ∈ free_set start V <-> 0 <= b < start /\ b < sb_size (sb_of (V 1)) /\ used V b = false.
Proof.
  unfold free_set. rewrite elem_of_filter, elem_of_list_to_set, elem_of_seqZ. lia.
Qed.

(** The block balloc takes. *)
Definition first_free (start : Z) (V : Z -> block) (b0 : Z) : Prop :=
  0 <= b0 < start /\ b0 < sb_size (sb_of (V 1)) /\ used V b0 = false /\
  (forall x, 0 <= x < b0 -> used V x = true).

Lemma least_unused V (n : nat) :
  (exists b, 0 <= b < Z.of_nat n /\ used V b = false) ->
  exists b0, 0 <= b0 < Z.of_nat n /\ used V b0 = false /\ forall x, 0 <= x < b0 -> used V x = true.
Proof.
  induction n as [|n IH]; intros (b & Hb & Hu); [lia|].
  destruct (existsb (fun i => negb (used V (Z.of_nat i))) (seq 0 n)) eqn:E.
  - apply existsb_exists in E as (i & Hi%in_seq & Hn%negb_true_iff).
    destruct IH as (b0 & H1 & H2); [by exists (Z.of_nat i); split; [lia|]|]. exists b0. split; [lia|done].
  - assert (Hall : forall x, 0 <= x < Z.of_nat n -> used V x = true).
    { intros x Hx. destruct (used V x) eqn:Ex; [done|].
      assert (existsb (fun i => negb (used V (Z.of_nat i))) (seq 0 n) = true); [|congruence].
      apply existsb_exists. exists (Z.to_nat x). rewrite Z2Nat.id, Ex by lia. split; [apply in_seq; lia|done]. }
    exists b. assert (b = Z.of_nat n) as ->.
    { destruct (decide (b < Z.of_nat n)) as [Hlt|]; [rewrite Hall in Hu; done || lia|lia]. }
    split; [lia|]. split; [done|]. intros x Hx. apply Hall. lia.
Qed.

Lemma first_free_exists start V :
  (1 <= size (free_set start V))%nat -> exists b0, first_free start V b0.
Proof.
  intros Hs. destruct (set_choose_or_empty (free_set start V)) as [[b Hb]|He].
  - apply elem_of_free in Hb as (H1 & H2 & H3).
    destruct (least_unused V (Z.to_nat (b + 1))) as (b0 & Hb0 & Hu & Hl); [by exists b; split; [lia|]|].
    exists b0. unfold first_free. split_and!; auto; lia.
  - apply size_empty_iff in He. lia.
Qed.

(** The addresses of data blocks in use. *)
Definition data_block (start : Z) (V : Z -> block) (a : Z) : Prop :=
  bmblock V (sb_size (sb_of (V 1)) - 1) < a < start /\ a < sb_size (sb_of (V 1)) /\ used V a = true.

Section Effects.
Context (start : Z) (V : Z -> block) (b0 : Z).
Hypothesis HL : layout start V.
Hypothesis Hlen : forall y, 0 <= y < start -> zlen (V y) = BSIZE.
Hypothesis Hb0 : first_free start V b0.

Lemma alloc_sb : alloc_at V b0 1 = V 1.
Proof. destruct Hb0 as (H1 & H2 & H3 & _). apply (alloc_at_sb start); auto. lia. Qed.

Lemma alloc_bmblock b : bmblock (alloc_at V b0) b = bmblock V b.
Proof. unfold bmblock. by rewrite alloc_sb. Qed.

Lemma alloc_layout : layout start (alloc_at V b0).
Proof. destruct Hb0 as (H1 & H2 & H3 & _). apply layout_alloc; auto. lia. Qed.

Lemma alloc_used x : 0 <= x < sb_size (sb_of (V 1)) -> used (alloc_at V b0) x = used V x || (x =? b0).
Proof. destruct Hb0 as (H1 & H2 & H3 & _). intros Hx. apply (used_alloc_at start); auto. lia. Qed.

Lemma alloc_above : bmblock V (sb_size (sb_of (V 1)) - 1) < b0.
Proof.
  destruct Hb0 as (H1 & H2 & H3 & _). pose proof (ly_size _ _ HL).
  apply (free_above_meta start); auto; lia.
Qed.

Lemma alloc_new_zero : alloc_at V b0 b0 = zero_block.
Proof. unfold alloc_at. apply upd_eq. Qed.

(** Data blocks that were in use keep their contents. *)
Lemma alloc_keeps a : data_block start V a -> alloc_at V b0 a = V a.
Proof.
  intros ((Ha1 & Ha2) & Ha3 & Ha4). destruct Hb0 as (H1 & H2 & H3 & _). unfold alloc_at.
  pose proof (bmblock_mono V b0 (sb_size (sb_of (V 1)) - 1) ltac:(lia)).
  rewrite !upd_ne; [done|lia|]. intros ->. congruence.
Qed.

Lemma data_block_nonneg a : data_block start V a -> 3 < a.
Proof.
  intros ((Ha & _) & _). pose proof (ly_size _ _ HL).
  pose proof (bmblock_low _ _ (sb_size (sb_of (V 1)) - 1) HL ltac:(lia)). lia.
Qed.

Lemma alloc_data_block a : data_block start V a \/ a = b0 -> data_block start (alloc_at V b0) a.
Proof.
  pose proof alloc_above. destruct Hb0 as (H1 & H2 & H3 & _).
  intros [Ha| ->]; unfold data_block in *; rewrite alloc_sb, alloc_bmblock, alloc_used.
  - destruct Ha as (Ha & Hs & ->). done.
  - pose proof (data_block_nonneg _ Ha). lia.
  - rewrite Z.eqb_refl, orb_true_r. split_and!; done || lia.
  - lia.
Qed.

Lemma alloc_free_size : (size (free_set start V) <= size (free_set start (alloc_at V b0)) + 1)%nat.
Proof.
  assert (E : free_set start V ⊆ free_set start (alloc_at V b0) ∪ {[b0]}).
  { intros b Hb. apply elem_of_free in Hb as (H1 & H2 & H3). apply elem_of_union.
    destruct (decide (b = b0)) as [->|Hne]; [right; by apply elem_of_singleton|left].
    apply elem_of_free. rewrite alloc_sb, alloc_used, H3 by lia.
    rewrite (proj2 (Z.eqb_neq _ _) Hne). done. }
  apply subseteq_size in E. rewrite size_union_alt in E.
  pose proof (subseteq_size ({[b0]} ∖ free_set start (alloc_at V b0)) ({[b0]} : gset Z) ltac:(set_solver)) as E'.
  rewrite size_singleton in E'. lia.
Qed.

End Effects.

(** Storing into a data block leaves the layout and the bitmap alone. *)
Section Store.
Context (start : Z) (V : Z -> block) (a : Z) (d : block).
Hypothesis HL : layout start V.
Hypothesis Ha : data_block start V a.

Lemma upd_sb : upd V a d 1 = V 1.
Proof. pose proof (data_block_nonneg start V HL a Ha). by rewrite upd_ne by lia. Qed.

Lemma used_upd y : 0 <= y < sb_size (sb_of (V 1)) -> used (upd V a d) y = used V y.
Proof.
  intros Hy. unfold used. rewrite upd_sb. fold (bmblock V y). rewrite upd_ne; [done|].
  pose proof (bmblock_mono V y (sb_size (sb_of (V 1)) - 1) ltac:(lia)). destruct Ha as ((? & _) & _). lia.
Qed.

Lemma layout_upd : layout start (upd V a d).
Proof.
  constructor; rewrite ?upd_sb; try apply HL. intros b Hb. rewrite used_upd; [by apply (ly_meta _ _ HL)|].
  destruct Ha as ((H1 & _) & H2 & _). unfold bmblock in H1. lia.
Qed.

Lemma data_block_upd y : data_block start V y -> data_block start (upd V a d) y.
Proof.
  intros Hy. pose proof (data_block_nonneg start V HL y Hy). unfold data_block, bmblock in *.
  rewrite upd_sb, used_upd; [done|]. lia.
Qed.

Lemma free_set_upd : free_set start (upd V a d) = free_set start V.
Proof.
  apply set_eq. intros b. rewrite !elem_of_free, upd_sb.
  split; intros (H1 & H2 & H3); split_and!; auto; try lia; [rewrite <- used_upd by lia|rewrite used_upd by lia]; done.
Qed.

End Store.

(** ** The blocks of a file *)

Definition fblock (V : Z -> block) (x : inode) (bn : Z) : Z :=
  if bn <? NDIRECT then zget (i_addrs x) bn
  else if zget (i_addrs x) NDIRECT =? 0 then 0
  else get32 (4 * (bn - NDIRECT)) (V (zget (i_addrs x) NDIRECT)).

(** The byte at offset [i]; holes are zero. *)
Definition fbyte (V : Z -> block) (x : inode) (i : Z) : Z :=
  let a := fblock V x (i / BSIZE) in
  if a =? 0 then 0 else zget (V a) (i mod BSIZE).

Record wf_file (start : Z) (V : Z -> block) (x : inode) : Prop := {
  wf_dev : i_dev x = ROOTDEV;
  wf_len : length (i_addrs x) = 13%nat;
  wf_ind : zget (i_addrs x) NDIRECT <> 0 -> data_block start V (zget (i_addrs x) NDIRECT);
  wf_data : forall bn, 0 <= bn < MAXFILE -> fblock V x bn <> 0 -> data_block start V (fblock V x bn);
  wf_inj : forall bn bn', 0 <= bn < MAXFILE -> 0 <= bn' < MAXFILE -> fblock V x bn <> 0 ->
    fblock V x bn = fblock V x bn' -> bn = bn';
  wf_sep : forall bn, 0 <= bn < MAXFILE -> fblock V x bn <> 0 ->
    fblock V x bn <> zget (i_addrs x) NDIRECT
}.

Lemma MAXFILE_val : MAXFILE = 140.
Proof. reflexivity. Qed.

Lemma le_value_zeros l : Forall (fun b => b = 0) l -> le_value l = 0.
Proof. induction 1 as [|b l -> _ IH]; cbn; lia. Qed.

Lemma get32_zero_block off : get32 off zero_block = 0.
Proof.
  unfold get32. apply le_value_zeros. unfold slice, zero_block.
  apply Forall_take, Forall_drop, Forall_replicate. done.
Qed.

Lemma zget_zero_block i : zget zero_block i = 0.
Proof.
  unfold zget, zero_block. rewrite nth_lookup.
  destruct (replicate 512 0 !! Z.to_nat i) as [b|] eqn:E; [|done].
  apply lookup_replicate in E as [-> _]. done.
Qed.

(** ** Growing a file by one block *)

(** The blocks of a file: its data blocks and its indirect block. *)
Definition owns (V : Z -> block) (x : inode) (a : Z) : Prop :=
  (exists bn, 0 <= bn < MAXFILE /\ fblock V x bn = a) \/ zget (i_addrs x) NDIRECT = a.

(** [V'] and [x'] are [V] and [x] with block [bn], so far a hole, placed at the
    fresh zeroed block [b]; or, for [b = 0], with no block added. *)
Record grows (start : Z) (V : Z -> block) (x : inode) (bn b : Z) (V' : Z -> block) (x' : inode) : Prop := {
  gr_sb : V' 1 = V 1;
  gr_dev : i_dev x' = i_dev x;
  gr_len : length (i_addrs x') = length (i_addrs x);
  gr_map : forall bn', 0 <= bn' < MAXFILE ->
    fblock V' x' bn' = if decide (bn' = bn) then b else fblock V x bn';
  gr_hole : fblock V x bn = 0;
  gr_keep : forall a, data_block start V a -> data_block start V' a;
  gr_ind : zget (i_addrs x') NDIRECT <> 0 -> data_block start V' (zget (i_addrs x') NDIRECT);
  gr_sep : forall bn', 0 <= bn' < MAXFILE -> fblock V' x' bn' <> 0 ->
    fblock V' x' bn' <> zget (i_addrs x') NDIRECT;
  gr_new : b <> 0 -> data_block start V' b /\ V' b = zero_block /\
    forall bn', 0 <= bn' < MAXFILE -> fblock V x bn' <> b;
  gr_same : forall bn', 0 <= bn' < MAXFILE -> fblock V x bn' <> 0 ->
    V' (fblock V x bn') = V (fblock V x bn');
  gr_frame : forall a, data_block start V a -> ~ owns V x a -> V' a = V a /\ ~ owns V' x' a
}.

Lemma grows_wf start V x bn b V' x' :
  wf_file start V x -> grows start V x bn b V' x' -> wf_file start V' x'.
Proof.
  intros Hw Hg. constructor.
  - rewrite (gr_dev _ _ _ _ _ _ _ Hg). apply Hw.
  - rewrite (gr_len _ _ _ _ _ _ _ Hg). apply Hw.
  - apply Hg.
  - intros n Hn. rewrite (gr_map _ _ _ _ _ _ _ Hg n Hn). case_decide; intros Hne.
    + by apply (gr_new _ _ _ _ _ _ _ Hg).
    + apply Hg, Hw; done.
  - intros n n' Hn Hn'. rewrite (gr_map _ _ _ _ _ _ _ Hg n Hn), (gr_map _ _ _ _ _ _ _ Hg n' Hn').
    repeat case_decide; subst; intros Hne E; try done.
    + destruct (gr_new _ _ _ _ _ _ _ Hg Hne) as (_ & _ & Hfr). by destruct (Hfr n' Hn').
    + destruct (gr_new _ _ _ _ _ _ _ Hg) as (_ & _ & Hfr); [congruence|]. by destruct (Hfr n Hn).
    + by eapply (wf_inj _ _ _ Hw).
  - apply Hg.
Qed.

Lemma fbyte_index i : 0 <= i < MAXFILE * BSIZE -> 0 <= i / BSIZE < MAXFILE.
Proof.
  intros Hi. assert (0 < BSIZE) by done. split; [apply Z.div_pos; lia|apply Z.div_lt_upper_bound; lia].
Qed.

Lemma grows_fbyte start V x bn b V' x' i :
  grows start V x bn b V' x' -> 0 <= i < MAXFILE * BSIZE -> fbyte V' x' i = fbyte V x i.
Proof.
  intros Hg Hi. pose proof (fbyte_index i Hi) as Hn. unfold fbyte.
  rewrite (gr_map _ _ _ _ _ _ _ Hg _ Hn). case_decide as E.
  - rewrite E, (gr_hole _ _ _ _ _ _ _ Hg). cbn. destruct (Z.eqb_spec b 0) as [|Hb]; [done|].
    destruct (gr_new _ _ _ _ _ _ _ Hg Hb) as (_ & -> & _). apply zget_zero_block.
  - destruct (Z.eqb_spec (fblock V x (i / BSIZE)) 0) as [|Hne]; [done|].
    by rewrite (gr_same _ _ _ _ _ _ _ Hg _ Hn Hne).
Qed.

Section Grow.
Context (start : Z) (V : Z -> block) (x : inode) (b0 : Z).
Hypothesis HL : layout start V.
Hypothesis Hlen : forall y, 0 <= y < start -> zlen (V y) = BSIZE.
Hypothesis Hw : wf_file start V x.
Hypothesis Hb0 : first_free start V b0.

Lemma fblock_alloc bn : fblock (alloc_at V b0) x bn = fblock V x bn.
Proof.
  unfold fblock. destruct (_ <? _); [done|]. destruct (Z.eqb_spec (zget (i_addrs x) NDIRECT) 0) as [|Hne]; [done|].
  by rewrite (alloc_keeps start) by (auto; by apply (wf_ind _ _ _ Hw)).
Qed.

Lemma fresh_block : b0 <> 0 /\ (forall bn, 0 <= bn < MAXFILE -> fblock V x bn <> b0) /\
  zget (i_addrs x) NDIRECT <> b0 /\ data_block start (alloc_at V b0) b0.
Proof.
  pose proof (alloc_above start V b0 HL Hb0) as Ha. pose proof (ly_size _ _ HL).
  pose proof (bmblock_low _ _ (sb_size (sb_of (V 1)) - 1) HL ltac:(lia)).
  assert (Hb : b0 <> 0) by lia. pose proof Hb0 as (_ & _ & Hu & _). split_and!; [done| | |].
  - intros bn Hn E. rewrite <- E in Hb, Hu. destruct (wf_data _ _ _ Hw bn Hn Hb) as (_ & _ & ?). congruence.
  - intros E. rewrite <- E in Hb, Hu. destruct (wf_ind _ _ _ Hw Hb) as (_ & _ & ?). congruence.
  - apply alloc_data_block; auto.
Qed.

Lemma zget_set_addr k a j :
  0 <= k < 13 -> 0 <= j -> zget (i_addrs (set_addr k a x)) j = if decide (j = k) then a else zget (i_addrs x) j.
Proof.
  intros Hk Hj. cbn. case_decide as E; [subst j; apply zget_zset_eq|by apply zget_zset_ne; lia].
  unfold zlen. rewrite (wf_len _ _ _ Hw). lia.
Qed.

Lemma not_fresh a : data_block start V a -> a <> b0 /\ a <> 0.
Proof.
  intros Ha. pose proof (data_block_nonneg start V HL a Ha). destruct Ha as (_ & _ & Hu).
  destruct Hb0 as (_ & _ & Hu0 & _). split; [intros ->; congruence|lia].
Qed.

Lemma keep_data a : data_block start V a -> data_block start (alloc_at V b0) a.
Proof. intros Ha. apply alloc_data_block; auto. Qed.

(** A direct block. *)
Lemma grow_direct bn :
  0 <= bn < NDIRECT -> zget (i_addrs x) bn = 0 ->
  grows start V x bn b0 (alloc_at V b0) (set_addr bn b0 x).
Proof.
  intros Hn Hz. destruct fresh_block as (Hb & Hfr & Hi & Hd). unfold NDIRECT in *.
  assert (Hmap : forall bn', 0 <= bn' < MAXFILE ->
    fblock (alloc_at V b0) (set_addr bn b0 x) bn' = if decide (bn' = bn) then b0 else fblock V x bn').
  { intros n Hn'. rewrite <- (fblock_alloc n). unfold fblock, NDIRECT. rewrite !zget_set_addr by lia.
    rewrite (decide_False (P := 12 = bn)) by lia. destruct (Z.ltb_spec n 12); [done|].
    by rewrite decide_False by lia. }
  constructor; auto; [by apply (alloc_sb start)|..].
  - cbn. unfold zset. by rewrite length_insert.
  - unfold fblock, NDIRECT. by rewrite (proj2 (Z.ltb_lt _ _)) by lia.
  - apply keep_data.
  - unfold NDIRECT. rewrite zget_set_addr by lia. rewrite decide_False by lia. intros Hne. apply keep_data, Hw, Hne.
  - intros n Hn'. unfold NDIRECT. rewrite Hmap, zget_set_addr by lia. rewrite (decide_False (P := 12 = bn)) by lia.
    case_decide; [intros _ E; by destruct Hi|]. by apply (wf_sep _ _ _ Hw).
  - intros _. split; [done|]. split; [apply alloc_new_zero|done].
  - intros n Hn' Hne. apply (alloc_keeps start); auto. by apply (wf_data _ _ _ Hw).
  - intros a Ha Ho. destruct (not_fresh a Ha) as [Hf1 Hf2]. split; [by apply (alloc_keeps start)|].
    intros [(n & Hn' & E)|E]; apply Ho; [left; exists n; split; [done|]|right].
    + rewrite Hmap in E by done. case_decide; congruence.
    + unfold NDIRECT in E. rewrite zget_set_addr in E by lia. by rewrite decide_False in E by lia.
Qed.

(** The indirect block: no block of the file is added yet. *)
Lemma grow_indirect bn :
  NDIRECT <= bn < MAXFILE -> zget (i_addrs x) NDIRECT = 0 ->
  grows start V x bn 0 (alloc_at V b0) (set_addr NDIRECT b0 x).
Proof.
  intros Hn Hz. destruct fresh_block as (Hb & Hfr & Hi & Hd). unfold NDIRECT in *.
  assert (Hi' : zget (i_addrs (set_addr 12 b0 x)) 12 = b0) by (rewrite zget_set_addr by lia; by rewrite decide_True).
  assert (Hhi : forall n, 12 <= n -> fblock V x n = 0).
  { intros n Hn'. unfold fblock, NDIRECT. rewrite (proj2 (Z.ltb_ge _ _)) by lia. by rewrite Hz. }
  assert (Hmap : forall n, 0 <= n < MAXFILE ->
    fblock (alloc_at V b0) (set_addr 12 b0 x) n = if decide (n = bn) then 0 else fblock V x n).
  { intros n Hn'. destruct (Z.ltb_spec n 12).
    - rewrite decide_False by lia. unfold fblock, NDIRECT. rewrite (proj2 (Z.ltb_lt _ _)) by lia.
      rewrite zget_set_addr by lia. by rewrite decide_False by lia.
    - rewrite Hhi by lia. unfold fblock, NDIRECT. rewrite (proj2 (Z.ltb_ge _ _)) by lia. rewrite Hi'.
      rewrite (proj2 (Z.eqb_neq _ _)) by done. rewrite alloc_new_zero, get32_zero_block. by case_decide. }
  constructor; auto; [by apply (alloc_sb start)|..].
  - cbn. unfold zset. by rewrite length_insert.
  - apply Hhi. lia.
  - apply keep_data.
  - unfold NDIRECT. by rewrite Hi'.
  - intros n Hn'. rewrite Hmap by done. unfold NDIRECT. rewrite Hi'. case_decide; [done|]. intros _. by apply Hfr.
  - done.
  - intros n Hn' Hne. apply (alloc_keeps start); auto. by apply (wf_data _ _ _ Hw).
  - intros a Ha Ho. destruct (not_fresh a Ha) as [Hf1 Hf2]. split; [by apply (alloc_keeps start)|].
    intros [(n & Hn' & E)|E]; apply Ho; [left; exists n; split; [done|]|].
    + rewrite Hmap in E by done. case_decide; congruence.
    + unfold NDIRECT in E. rewrite Hi' in E. congruence.
Qed.

End Grow.

(** An entry of the indirect block, stored after the block was allocated. *)
Lemma grow_entry start V x b0 bn :
  layout start V -> (forall y, 0 <= y < start -> zlen (V y) = BSIZE) -> wf_file start V x ->
  first_free start V b0 -> start <= 2147483648 ->
  NDIRECT <= bn < MAXFILE -> zget (i_addrs x) NDIRECT <> 0 -> fblock V x bn = 0 ->
  let a := zget (i_addrs x) NDIRECT in
  grows start V x bn b0
    (upd (alloc_at V b0) a (put32 (4 * (bn - NDIRECT)) b0 (alloc_at V b0 a))) x.
Proof.
  intros HL Hlen Hw Hb0 Hst Hn Ha Hz a.
  destruct (fresh_block start V x b0 HL Hlen Hw Hb0) as (Hb & Hfr & Hi & Hd).
  pose proof (wf_ind _ _ _ Hw Ha) as Hda. fold a in Hda, Hi.
  pose proof (data_block_nonneg start V HL a Hda) as Ha3.
  assert (Hka : alloc_at V b0 a = V a) by (by apply (alloc_keeps start)).
  set (d' := put32 (4 * (bn - NDIRECT)) b0 (alloc_at V b0 a)).
  assert (Hsz : zlen (V a) = BSIZE) by (apply Hlen; destruct Hda; lia).
  assert (Hb0r : is_u32 b0) by (destruct Hb0 as (? & _); unfold is_u32; lia).
  rewrite MAXFILE_val in *. unfold NDIRECT, BSIZE in *.
  assert (Hmap : forall n, 0 <= n < 140 ->
    fblock (upd (alloc_at V b0) a d') x n = if decide (n = bn) then b0 else fblock V x n).
  { intros n Hn'. unfold fblock, NDIRECT. fold a.
    destruct (Z.ltb_spec n 12); [by rewrite decide_False by lia|].
    rewrite (proj2 (Z.eqb_neq _ _)) by done. rewrite upd_eq. unfold d'. rewrite Hka.
    case_decide as E; [subst n; apply get32_put32_eq; done || lia|].
    apply get32_put32_ne; lia. }
  assert (Hneq : forall n, 0 <= n < 140 -> fblock V x n <> 0 -> fblock V x n <> a)
    by (intros; by apply (wf_sep _ _ _ Hw)).
  assert (Hsb : upd (alloc_at V b0) a d' 1 = V 1)
    by (rewrite upd_ne by lia; by apply (alloc_sb start)).
  assert (Hbm : forall y, bmblock (upd (alloc_at V b0) a d') y = bmblock V y) by (intros; unfold bmblock; by rewrite Hsb).
  assert (Hdb : forall y, data_block start (alloc_at V b0) y -> data_block start (upd (alloc_at V b0) a d') y).
  { intros y. unfold data_block. rewrite Hsb, Hbm, (alloc_sb start), (alloc_bmblock start) by done.
    intros ((Hy1 & Hy2) & Hy3 & Hy4). split; [lia|]. split; [lia|]. rewrite <- Hy4. unfold used.
    rewrite Hsb, (alloc_sb start) by done. fold (bmblock V y). rewrite upd_ne; [done|].
    pose proof (bmblock_mono V y (sb_size (sb_of (V 1)) - 1) ltac:(lia)). destruct Hda. lia. }
  constructor; fold a; auto; rewrite ?MAXFILE_val; auto.
  - intros y Hy. apply Hdb, alloc_data_block; auto.
  - intros _. apply Hdb, alloc_data_block; auto.
  - intros n Hn'. rewrite Hmap by done. case_decide; [by intros _ E; apply Hi|]. by apply Hneq.
  - intros _. split; [by apply Hdb|]. split; [|done]. rewrite upd_ne by done. apply alloc_new_zero.
  - intros n Hn' Hne. rewrite upd_ne by (by apply Hneq). apply (alloc_keeps start); auto.
    by apply (wf_data _ _ _ Hw).
  - intros y Hy Ho. destruct (not_fresh start V b0 HL Hb0 y Hy) as [Hf1 Hf2].
    assert (Hya : y <> a) by (intros ->; apply Ho; by right).
    split; [rewrite upd_ne by done; by apply (alloc_keeps start)|].
    intros [(n & Hn' & E)|E]; [|by apply Hya]. apply Ho. left. exists n. split; [done|].
    rewrite Hmap in E by (by rewrite MAXFILE_val in Hn'). case_decide; congruence.
Qed.

(** ** bmap *)

Definition with_addrs (l : list Z) (x : inode) : inode :=
  MkInode (i_dev x) (i_inum x) (i_ref x) (i_flags x) (i_type x) (i_major x) (i_minor x)
    (i_nlink x) (i_size x) l.

(** What a call that may allocate blocks for the file guarantees: the file's
    bytes and the blocks it had are as before, and so is every other block. *)
Record mapped (start : Z) (V : Z -> block) (x : inode) (V' : Z -> block) (x' : inode) : Prop := {
  mp_sb : V' 1 = V 1;
  mp_layout : layout start V';
  mp_wf : wf_file start V' x';
  mp_addrs : x' = with_addrs (i_addrs x') x;
  mp_byte : forall i, 0 <= i < MAXFILE * BSIZE -> fbyte V' x' i = fbyte V x i;
  mp_block : forall bn, 0 <= bn < MAXFILE -> fblock V x bn <> 0 -> fblock V' x' bn = fblock V x bn;
  mp_data : forall a, data_block start V a -> data_block start V' a;
  mp_frame : forall a, data_block start V a -> ~ owns V x a -> V' a = V a /\ ~ owns V' x' a
}.

Lemma mapped_refl start V x : layout start V -> wf_file start V x -> mapped start V x V x.
Proof. intros. constructor; auto. by destruct x. Qed.

Lemma mapped_trans start V x V1 x1 V2 x2 :
  mapped start V x V1 x1 -> mapped start V1 x1 V2 x2 -> mapped start V x V2 x2.
Proof.
  intros [S1 _ _ A1 B1 C1 D1 F1] [S2 L2 W2 A2 B2 C2 D2 F2]. constructor; auto; [congruence|..].
  - rewrite A2, A1. done.
  - intros i Hi. by rewrite B2, B1.
  - intros bn Hn Hne. rewrite C2; auto. by rewrite C1.
  - intros a Ha Ho. destruct (F1 a Ha Ho) as [<- Ho1]. by apply F2; [apply D1|].
Qed.

Lemma grows_mapped start V x bn b V' x' :
  wf_file start V x -> layout start V' -> grows start V x bn b V' x' ->
  x' = with_addrs (i_addrs x') x -> mapped start V x V' x'.
Proof.
  intros Hw HL Hg Ha. constructor; auto.
  - apply Hg.
  - by eapply grows_wf.
  - intros i Hi. by eapply grows_fbyte.
  - intros n Hn Hne. rewrite (gr_map _ _ _ _ _ _ _ Hg n Hn). case_decide as E; [|done].
    subst n. by rewrite (gr_hole _ _ _ _ _ _ _ Hg) in Hne.
  - apply Hg.
  - apply Hg.
Qed.

Lemma no_meta_empty V : no_meta V ∅.
Proof. split; intros; by rewrite lookup_empty. Qed.

(** Side conditions about the buffers held when none is. *)
Ltac held_side :=
  first [ apply no_meta_empty
        | rewrite map_size_empty; lia
        | intros ?; by rewrite lookup_empty
        | done | lia ].

Section Bmap.
Context {S : Type} `{!BufferCache S}.
Implicit Types (f : fs S) (V : Z -> block) (H : gmap nat Z).

Lemma fstx_start start f V H k : fstx start f V H k -> start <= 2147483648.
Proof.
  intros (a & Ls & Hi). pose proof (it_tx _ _ _ _ _ _ _ Hi) as Ht. pose proof (it_start _ _ _ _ _ _ _ Hi).
  pose proof (tx_nsect _ _ _ Ht). pose proof (tx_size _ _ _ Ht). pose proof (tx_lgsize _ _ _ Ht). lia.
Qed.

(** The computation of a present block only reads. *)
Lemma run_bmap_present start V k f ip x bn :
  fstx start f V ∅ k -> layout start V -> wf_file start V x -> fs_inode f !! ip = Some x ->
  0 <= bn < MAXFILE -> fblock V x bn <> 0 ->
  exists f', bmap ip bn f = Ret (fblock V x bn) f' /\ fs_inode f' = fs_inode f /\ fstx start f' V ∅ k.
Proof.
  intros Hf HL Hw Hx Hn Hne. unfold bmap. run (run_getip _ _ _ Hx). unfold fblock in *.
  destruct (Z.ltb_spec bn NDIRECT) as [Hd|Hd].
  - rewrite (proj2 (Z.eqb_neq _ _)) by done. exists f. done.
  - assert ((bn - NDIRECT <? NINDIRECT) = true) as -> by (unfold MAXFILE in Hn; lia).
    destruct (Z.eqb_spec (zget (i_addrs x) NDIRECT) 0) as [|Ha]; [done|].
    run (eq_refl : ret (zget (i_addrs x) NDIRECT) f = Ret _ f). rewrite (wf_dev _ _ _ Hw).
    pose proof (wf_ind _ _ _ Hw Ha) as Hda. pose proof (data_block_nonneg start V HL _ Hda).
    set (a := zget (i_addrs x) NDIRECT) in *. assert (Har : 0 <= a < start) by (destruct Hda; lia).
    destruct (run_bread _ _ _ _ _ a Hf Har) as (h & f1 & R1 & Hi1 & Hh & Hf1); [held_side..|].
      assert (Hin : <[h := a]> (∅ : gmap nat Z) !! h = Some a) by apply lookup_insert_eq.
    run R1. run (run_data _ _ _ _ _ _ _ Hf1 Hin Har). rewrite (proj2 (Z.eqb_neq _ _)) by done.
    run (eq_refl : ret (get32 (4 * (bn - NDIRECT)) (V a)) f1 = Ret _ f1).
    destruct (run_brelse _ _ _ _ _ _ _ Hf1 Hin Har) as (f2 & R2 & Hi2 & Hf2).
    rewrite delete_insert_new in Hf2 by done. run R2. exists f2. split; [done|]. split; [congruence|done].
Qed.

(** balloc in terms of the set of free blocks. *)
Lemma run_balloc_first start V H k b0 f :
  fstx start f V H (k + 2) -> 0 <= k -> layout start V -> no_meta V H -> (size H <= 2)%nat ->
  first_free start V b0 -> (forall h, H !! h <> Some b0) ->
  exists f', balloc ROOTDEV f = Ret b0 f' /\ fs_inode f' = fs_inode f /\
    fstx start f' (alloc_at V b0) H k.
Proof. intros Hf Hk HL HH Hs (H1 & H2 & H3 & H4) Hn. by apply run_balloc. Qed.

(** The step "allocate a block and note it in the inode" of bmap. *)
Lemma run_balloc_addr start V k f ip x n b0 :
  fstx start f V ∅ (k + 2) -> 0 <= k -> layout start V -> wf_file start V x ->
  fs_inode f !! ip = Some x -> first_free start V b0 ->
  exists f', (let! addr := balloc (i_dev x) in modip ip (set_addr n addr) ;; ret addr) f = Ret b0 f' /\
    fs_inode f' = <[ip := set_addr n b0 x]> (fs_inode f) /\ fstx start f' (alloc_at V b0) ∅ k.
Proof.
  intros Hf Hk HL Hw Hx Hb0. rewrite (wf_dev _ _ _ Hw).
  destruct (run_balloc_first start V ∅ k b0 f) as (f1 & R1 & Hi1 & Hf1); auto; try held_side.
  run R1. unfold bind. rewrite lookup_modip. rewrite Hi1, (list_alter_insert _ _ _ _ Hx).
  eexists. split; [done|]. split; [done|]. by apply fstx_icache.
Qed.

Lemma fblock_indirect V x bn :
  NDIRECT <= bn -> zget (i_addrs x) NDIRECT <> 0 ->
  fblock V x bn = get32 (4 * (bn - NDIRECT)) (V (zget (i_addrs x) NDIRECT)).
Proof.
  intros Hn Ha. unfold fblock. rewrite (proj2 (Z.ltb_ge _ _)) by done. by rewrite (proj2 (Z.eqb_neq _ _)).
Qed.

(** The tail of bmap, once the indirect block exists. *)
Definition bmap_entry (ip : nat) (dev addr bn : Z) : M (fs S) Z :=
  let! bp := buf_call (bread dev addr) in
  let! a := data bp in
  let addr := get32 (4 * bn) a in
  let! addr :=
    (if addr =? 0 then
       let! addr := balloc dev in
       let! a := data bp in
       log_store bp (put32 (4 * bn) addr a) ;;
       ret addr
     else ret addr) in
  buf_call (brelse bp) ;;
  ret addr.

Lemma run_bmap_entry start V k f ip x bn :
  fstx start f V ∅ (k + 3) -> 0 <= k -> layout start V -> wf_file start V x ->
  NDIRECT <= bn < MAXFILE -> zget (i_addrs x) NDIRECT <> 0 -> fblock V x bn = 0 ->
  (1 <= size (free_set start V))%nat ->
  exists f' V' b, bmap_entry ip ROOTDEV (zget (i_addrs x) NDIRECT) (bn - NDIRECT) f = Ret b f' /\
    fs_inode f' = fs_inode f /\ fstx start f' V' ∅ k /\ b <> 0 /\ fblock V' x bn = b /\
    mapped start V x V' x /\ (size (free_set start V) <= size (free_set start V') + 1)%nat.
Proof.
  intros Hf Hk HL Hw Hn Ha Hz Hfree. destruct (first_free_exists _ _ Hfree) as [b0 Hb0].
  pose proof (fun y => fstx_block_len _ _ _ _ _ y Hf) as Hlen. pose proof (fstx_start _ _ _ _ _ Hf) as Hst.
  destruct (fresh_block start V x b0 HL Hlen Hw Hb0) as (Hb & Hfr & Hib & Hd).
  pose proof (wf_ind _ _ _ Hw Ha) as Hda. pose proof (data_block_nonneg start V HL _ Hda) as Ha3.
  pose proof (grow_entry start V x b0 bn HL Hlen Hw Hb0 Hst Hn Ha Hz) as Hg. cbv zeta in Hg.
  rewrite fblock_indirect in Hz by (done || lia).
  set (a := zget (i_addrs x) NDIRECT) in *. assert (Har : 0 <= a < start) by (destruct Hda; lia).
  destruct (run_bread _ _ _ _ _ a Hf Har) as (h & f1 & R1 & Hi1 & Hh & Hf1); [held_side..|].
  assert (Hin : <[h := a]> (∅ : gmap nat Z) !! h = Some a) by apply lookup_insert_eq.
  assert (Hnone : forall y, y <> a -> forall h', <[h := a]> (∅ : gmap nat Z) !! h' <> Some y).
  { intros y Hy. apply lookup_insert_held; [|done]. intros h'. by rewrite lookup_empty. }
  destruct (run_balloc_first start V (<[h := a]> ∅) (k + 1) b0 f1) as (f2 & R2 & Hi2 & Hf2); auto; try lia.
  { by replace (k + 1 + 2) with (k + 3) by lia. }
  { split; [apply Hnone; lia|]. intros h' y Hy. apply Hnone. destruct Hda as ((Hda & _) & _).
    pose proof (bmblock_mono V y (sb_size (sb_of (V 1)) - 1)). lia. }
  { rewrite map_size_insert_None, map_size_empty by apply lookup_empty. lia. }
  assert (Hka : zlen (alloc_at V b0 a) = BSIZE) by (rewrite (alloc_keeps start) by done; by apply Hlen).
  destruct (run_log_store start f2 (alloc_at V b0) (<[h := a]> ∅) k h a
    (put32 (4 * (bn - NDIRECT)) b0 (alloc_at V b0 a))) as (f3 & R3 & Hi3 & Hf3); auto.
  { rewrite MAXFILE_val in Hn. unfold NDIRECT, BSIZE in *. rewrite zlen_put32; rewrite ?Hka; lia. }
  destruct (run_brelse _ _ _ _ _ _ _ Hf3 Hin Har) as (f4 & R4 & Hi4 & Hf4).
  rewrite delete_insert_new in Hf4 by done. eexists f4, _, b0. split.
  { unfold bmap_entry. run R1. run (run_data _ _ _ _ _ _ _ Hf1 Hin Har). rewrite Hz. cbn [Z.eqb].
    unfold bind at 1. run R2. run (run_data _ _ _ _ _ _ _ Hf2 Hin Har). run R3.
    unfold ret at 1. run R4. done. }
  split; [congruence|]. split; [exact Hf4|]. split; [done|]. split.
  { rewrite (gr_map _ _ _ _ _ _ _ Hg bn) by (unfold NDIRECT in Hn; lia). by rewrite decide_True. }
  pose proof (alloc_layout start V b0 HL Hlen Hb0) as HL1.
  pose proof (alloc_data_block start V b0 HL Hlen Hb0 a (or_introl Hda)) as Hda1. split.
  - eapply grows_mapped; [done| |exact Hg|by destruct x]. by apply layout_upd.
  - rewrite free_set_upd by done. by apply alloc_free_size.
Qed.

Lemma insert_same_ip f ip x : fs_inode f !! ip = Some x -> <[ip := x]> (fs_inode f) = fs_inode f.
Proof. apply list_insert_id. Qed.

Lemma set_addr_with k a x : set_addr k a x = with_addrs (i_addrs (set_addr k a x)) x.
Proof. done. Qed.

(** bmap in general: it returns the block of the file at [bn], allocating the
    block and the indirect block where there are none. *)
Lemma run_bmap start V k f ip x bn :
  fstx start f V ∅ (k + 5) -> 0 <= k -> layout start V -> wf_file start V x ->
  fs_inode f !! ip = Some x -> 0 <= bn < MAXFILE -> (2 <= size (free_set start V))%nat ->
  exists f' V' x', bmap ip bn f = Ret (fblock V' x' bn) f' /\
    fs_inode f' = <[ip := x']> (fs_inode f) /\ fstx start f' V' ∅ k /\ fblock V' x' bn <> 0 /\
    mapped start V x V' x' /\ (size (free_set start V) <= size (free_set start V') + 2)%nat.
Proof.
  intros Hf Hk HL Hw Hx Hn Hfree. pose proof (fun y => fstx_block_len _ _ _ _ _ y Hf) as Hlen.
  destruct (decide (fblock V x bn = 0)) as [Hz|Hne]; cycle 1.
  { destruct (run_bmap_present start V (k + 5) f ip x bn) as (f' & R & Hi & Hf'); auto.
    exists f', V, x. rewrite (insert_same_ip f) by done. split_and!; auto; [|by apply mapped_refl|lia].
    eapply fstx_weaken; [exact Hf'|lia]. }
  destruct (first_free_exists start V ltac:(lia)) as [b0 Hb0].
  destruct (fresh_block start V x b0 HL Hlen Hw Hb0) as (Hb & _).
  pose proof (alloc_layout start V b0 HL Hlen Hb0) as HL1.
  pose proof (alloc_free_size start V b0 HL Hlen Hb0) as Hsz1.
  unfold bmap. run (run_getip _ _ _ Hx). destruct (Z.ltb_spec bn NDIRECT) as [Hd|Hd].
  - assert (Hz' : zget (i_addrs x) bn = 0) by (unfold fblock in Hz; by rewrite (proj2 (Z.ltb_lt _ _)) in Hz).
    rewrite Hz'. cbn [Z.eqb].
    destruct (run_balloc_addr start V (k + 3) f ip x bn b0) as (f' & R & Hi & Hf'); auto; [|lia|].
    { by replace (k + 3 + 2) with (k + 5) by lia. }
    pose proof (grow_direct start V x b0 HL Hlen Hw Hb0 bn ltac:(lia) Hz') as Hg.
    assert (Hbn : fblock (alloc_at V b0) (set_addr bn b0 x) bn = b0)
      by (rewrite (gr_map _ _ _ _ _ _ _ Hg bn) by done; by rewrite decide_True).
    exists f', (alloc_at V b0), (set_addr bn b0 x). rewrite Hbn. split_and!; auto; [| |lia].
    + eapply fstx_weaken; [exact Hf'|lia].
    + eapply grows_mapped; [done|done|exact Hg|apply set_addr_with].
  - assert ((bn - NDIRECT <? NINDIRECT) = true) as -> by (unfold MAXFILE in Hn; lia).
    destruct (Z.eqb_spec (zget (i_addrs x) NDIRECT) 0) as [Ha|Ha].
    + destruct (run_balloc_addr start V (k + 3) f ip x NDIRECT b0) as (f1 & R1 & Hi1 & Hf1); auto; [|lia|].
      { by replace (k + 3 + 2) with (k + 5) by lia. }
      pose proof (grow_indirect start V x b0 HL Hlen Hw Hb0 bn ltac:(lia) Ha) as Hg.
      pose proof (grows_mapped _ _ _ _ _ _ _ Hw HL1 Hg (set_addr_with _ _ _)) as Hm1.
      set (x1 := set_addr NDIRECT b0 x) in *.
      assert (Hx1 : zget (i_addrs x1) NDIRECT = b0).
      { unfold x1. rewrite (zget_set_addr start V) by (done || unfold NDIRECT; lia). by rewrite decide_True. }
      destruct (run_bmap_entry start (alloc_at V b0) k f1 ip x1 bn) as (f2 & V2 & b & R2 & Hi2 & Hf2 & Hb2 & Hbn & Hm2 & Hs2);
        auto; try lia.
      { apply Hm1. } { rewrite (gr_map _ _ _ _ _ _ _ Hg bn) by done. by rewrite decide_True. }
      exists f2, V2, x1. rewrite Hbn. split_and!; auto; [|congruence|by eapply mapped_trans|lia].
      rewrite (bind_run _ _ _ _ _ R1). cbv beta. rewrite (wf_dev _ _ _ Hw).
      rewrite Hx1 in R2. exact R2.
    + destruct (run_bmap_entry start V (k + 2) f ip x bn) as (f2 & V2 & b & R2 & Hi2 & Hf2 & Hb2 & Hbn & Hm2 & Hs2);
        auto; try lia.
      { by replace (k + 2 + 3) with (k + 5) by lia. }
      exists f2, V2, x. rewrite Hbn, (insert_same_ip f) by done. split_and!; auto; [| |lia].
      * run (eq_refl : ret (zget (i_addrs x) NDIRECT) f = Ret _ f). rewrite (wf_dev _ _ _ Hw). exact R2.
      * eapply fstx_weaken; [exact Hf2|lia].
Qed.

End Bmap.

(** ** Bytes *)

(** [n] bytes of a file from [off]. *)
Definition fbytes (V : Z -> block) (x : inode) (off n : Z) : list Z :=
  (fun i => fbyte V x (off + Z.of_nat i)) <$> seq 0 (Z.to_nat n).

Lemma lookup_fbytes V x off n (i : nat) :
  (i < Z.to_nat n)%nat -> fbytes V x off n !! i = Some (fbyte V x (off + Z.of_nat i)).
Proof. intros Hi. unfold fbytes. by rewrite list_lookup_fmap, lookup_seq_lt. Qed.

Lemma length_fbytes V x off n : length (fbytes V x off n) = Z.to_nat n.
Proof. unfold fbytes. by rewrite length_fmap, length_seq. Qed.

Lemma fbytes_app V x off m n :
  0 <= m -> 0 <= n -> fbytes V x off (m + n) = fbytes V x off m ++ fbytes V x (off + m) n.
Proof.
  intros Hm Hn. unfold fbytes. rewrite Z2Nat.inj_add, seq_app, fmap_app by lia. f_equal.
  rewrite Nat.add_0_l, <- (Nat.add_0_r (Z.to_nat m)), <- fmap_add_seq, <- list_fmap_compose.
  apply list_fmap_ext. intros i j _. cbn. f_equal. lia.
Qed.

(** The part of a block is the bytes of the file it holds. *)
Lemma slice_fbytes V x off m :
  0 <= off -> 0 <= m -> off mod BSIZE + m <= BSIZE -> fblock V x (off / BSIZE) <> 0 ->
  zlen (V (fblock V x (off / BSIZE))) = BSIZE ->
  slice (off mod BSIZE) m (V (fblock V x (off / BSIZE))) = fbytes V x off m.
Proof.
  intros Ho Hm Hb Hne Hlen. apply list_eq. intros i.
  destruct (decide (i < Z.to_nat m)%nat) as [Hi|Hi].
  - rewrite lookup_slice, lookup_fbytes by done. unfold fbyte.
    assert (0 <= off mod BSIZE < BSIZE) by (unfold BSIZE; dlia).
    assert (E : (off + Z.of_nat i) / BSIZE = off / BSIZE) by (unfold BSIZE in *; dlia).
    assert (E' : (off + Z.of_nat i) mod BSIZE = off mod BSIZE + Z.of_nat i) by (unfold BSIZE in *; dlia).
    rewrite E, E', (proj2 (Z.eqb_neq _ _)) by done. unfold zget, zlen in *.
    rewrite nth_lookup, Z2Nat.inj_add, Nat2Z.id by lia.
    destruct (lookup_lt_is_Some_2 (V (fblock V x (off / BSIZE))) (Z.to_nat (off mod BSIZE) + i)) as [c Hc]; [lia|].
    by rewrite Hc.
  - rewrite !lookup_ge_None_2; [done|rewrite length_fbytes; lia|].
    unfold slice. rewrite length_take. lia.
Qed.

(** How many blocks the bytes from [off] on lie in. *)
Definition nblk (off n : Z) : Z := if n <=? 0 then 0 else (off + n - 1) / BSIZE - off / BSIZE + 1.

Lemma nblk_step off n :
  0 <= off -> 0 < n -> let m := Z.min n (BSIZE - off mod BSIZE) in
  nblk off n = 1 + nblk (off + m) (n - m).
Proof.
  intros Ho Hn m. unfold nblk. rewrite (proj2 (Z.leb_gt n 0)) by lia.
  assert (Hr : 0 <= off mod BSIZE < BSIZE) by (unfold BSIZE; dlia).
  destruct (Z.leb_spec (n - m) 0) as [Hle|Hgt].
  - assert (n <= BSIZE - off mod BSIZE) by (unfold m in Hle; lia).
    assert ((off + n - 1) / BSIZE = off / BSIZE) by (unfold BSIZE in *; dlia). lia.
  - assert (Hm : m = BSIZE - off mod BSIZE) by (unfold m in *; lia). rewrite Hm.
    replace (off + (BSIZE - off mod BSIZE) + (n - (BSIZE - off mod BSIZE)) - 1) with (off + n - 1) by lia.
    assert ((off + (BSIZE - off mod BSIZE)) / BSIZE = off / BSIZE + 1) by (unfold BSIZE in *; dlia). lia.
Qed.

Lemma nblk_nonneg off n : 0 <= off -> 0 <= nblk off n.
Proof.
  intros Ho. unfold nblk. destruct (Z.leb_spec n 0); [lia|].
  pose proof (Z.div_le_mono off (off + n - 1) BSIZE). unfold BSIZE in *. lia.
Qed.

Section Readi.
Context {S : Type} `{!BufferCache S}.
Context (devsw : Z -> devops S).
Implicit Types (f : fs S) (V : Z -> block).

Lemma run_readi_loop start V k ip x n fuel f off tot acc :
  fstx start f V ∅ k -> layout start V -> wf_file start V x -> fs_inode f !! ip = Some x ->
  0 <= off -> tot <= n -> off + (n - tot) <= MAXFILE * BSIZE ->
  (forall i, off <= i < off + (n - tot) -> fblock V x (i / BSIZE) <> 0) -> n - tot <= Z.of_nat fuel ->
  exists f', readi_loop fuel ip ROOTDEV off n tot acc f = Ret (acc ++ fbytes V x off (n - tot)) f' /\
    fs_inode f' = fs_inode f /\ fstx start f' V ∅ k.
Proof.
  intros Hf HL Hw Hx. revert f off tot acc Hf Hx.
  induction fuel as [|fuel IH]; intros f off tot acc Hf Hx Ho Ht Hmax Hblk Hfuel; cbn [readi_loop];
    destruct (Z.ltb_spec tot n) as [Hlt|Hge]; try lia;
    try (replace (n - tot) with 0 by lia; exists f; rewrite app_nil_r; done).
  set (m := Z.min (n - tot) (BSIZE - off mod BSIZE)).
  assert (Hr : 0 <= off mod BSIZE < BSIZE) by (unfold BSIZE; dlia).
  assert (Hm : 0 < m <= n - tot) by (unfold m; lia).
  pose proof (fbyte_index off ltac:(lia)) as Hbn. pose proof (Hblk off ltac:(lia)) as Hne.
  destruct (run_bmap_present start V k f ip x (off / BSIZE)) as (f1 & R1 & Hi1 & Hf1); auto.
  set (a := fblock V x (off / BSIZE)) in *.
  pose proof (wf_data _ _ _ Hw _ Hbn Hne) as Hda. fold a in Hda.
  pose proof (data_block_nonneg start V HL a Hda).
  assert (Har : 0 <= a < start) by (destruct Hda; lia).
  destruct (run_bread _ _ _ _ _ a Hf1 Har) as (h & f2 & R2 & Hi2 & Hh & Hf2); [held_side..|].
  assert (Hin : <[h := a]> (∅ : gmap nat Z) !! h = Some a) by apply lookup_insert_eq.
  pose proof (run_data _ _ _ _ _ _ _ Hf2 Hin Har) as R3.
  destruct (run_brelse _ _ _ _ _ _ _ Hf2 Hin Har) as (f3 & R4 & Hi3 & Hf3).
  rewrite delete_insert_new in Hf3 by done.
  assert (Hx3 : fs_inode f3 !! ip = Some x) by congruence.
  destruct (IH f3 (off + m) (tot + m) (acc ++ slice (off mod BSIZE) m (V a))) as (f4 & R5 & Hi4 & Hf4);
    auto; try lia.
  { intros i Hi. apply Hblk. lia. }
  exists f4. split; [|split; [congruence|done]]. run R1. run R2. fold m. run R3. run R4. rewrite R5.
  f_equal. unfold a. rewrite slice_fbytes; auto; try lia.
  - rewrite <- app_assoc, <- fbytes_app by lia. do 2 f_equal. lia.
  - eapply fstx_block_len; [exact Hf|done].
Qed.

(** A file all of whose bytes lie in allocated blocks. *)
Definition dense (V : Z -> block) (x : inode) : Prop :=
  0 <= i_size x <= MAXFILE * BSIZE /\
  forall i, 0 <= i < i_size x -> fblock V x (i / BSIZE) <> 0.

(** A read needs only the blocks it covers. *)
Lemma run_readi_range start V k f ip x off n :
  fstx start f V ∅ k -> layout start V -> wf_file start V x -> 0 <= i_size x <= MAXFILE * BSIZE ->
  (forall i, off <= i < Z.min (off + n) (i_size x) -> fblock V x (i / BSIZE) <> 0) ->
  fs_inode f !! ip = Some x -> i_type x <> T_DEV ->
  0 <= off <= i_size x -> 0 <= n -> off + n < 4294967296 ->
  exists f', readi devsw ip off n f =
      Ret (Z.min n (i_size x - off), fbytes V x off (Z.min n (i_size x - off))) f' /\
    fs_inode f' = fs_inode f /\ fstx start f' V ∅ k.
Proof.
  intros Hf HL Hw Hsz Hd Hx Hty Ho Hn Hov. unfold readi. run (run_getip _ _ _ Hx).
  rewrite (proj2 (Z.eqb_neq _ _)) by done. rewrite u32_small by (unfold is_u32; lia).
  assert ((off >? i_size x) || (off + n <? off) = false) as -> by lia.
  set (n' := if off + n >? i_size x then i_size x - off else n).
  assert (Hn' : n' = Z.min n (i_size x - off)) by (unfold n'; destruct (_ >? _) eqn:E; lia).
  rewrite (wf_dev _ _ _ Hw).
  destruct (run_readi_loop start V k ip x n' (Z.to_nat n') f off 0 []) as (f1 & R1 & Hi1 & Hf1);
    auto; try lia.
  { intros i Hi. apply Hd. lia. }
  exists f1. run R1. rewrite Z.sub_0_r, Hn'. done.
Qed.

Lemma run_readi start V k f ip x off n :
  fstx start f V ∅ k -> layout start V -> wf_file start V x -> dense V x ->
  fs_inode f !! ip = Some x -> i_type x <> T_DEV ->
  0 <= off <= i_size x -> 0 <= n -> off + n < 4294967296 ->
  exists f', readi devsw ip off n f =
      Ret (Z.min n (i_size x - off), fbytes V x off (Z.min n (i_size x - off))) f' /\
    fs_inode f' = fs_inode f /\ fstx start f' V ∅ k.
Proof.
  intros Hf HL Hw [Hsz Hd] Hx Hty Ho Hn Hov. apply run_readi_range; auto. intros i Hi. apply Hd. lia.
Qed.

End Readi.

(** ** Writing *)

(** As [mapped], but the bytes of the file may have changed. *)
Record extends (start : Z) (V : Z -> block) (x : inode) (V' : Z -> block) (x' : inode) : Prop := {
  ex_sb1 : V' 1 = V 1;
  ex_layout' : layout start V';
  ex_wf : wf_file start V' x';
  ex_addrs : x' = with_addrs (i_addrs x') x;
  ex_block : forall bn, 0 <= bn < MAXFILE -> fblock V x bn <> 0 -> fblock V' x' bn = fblock V x bn;
  ex_dblock : forall a, data_block start V a -> data_block start V' a;
  ex_frame : forall a, data_block start V a -> ~ owns V x a -> V' a = V a /\ ~ owns V' x' a
}.

Lemma mapped_extends start V x V' x' : mapped start V x V' x' -> extends start V x V' x'.
Proof. intros []. by constructor. Qed.

Lemma extends_trans start V x V1 x1 V2 x2 :
  extends start V x V1 x1 -> extends start V1 x1 V2 x2 -> extends start V x V2 x2.
Proof.
  intros [S1 _ _ A1 C1 D1 F1] [S2 L2 W2 A2 C2 D2 F2]. constructor; auto; [congruence|..].
  - rewrite A2, A1. done.
  - intros bn Hn Hne. rewrite C2; auto. by rewrite C1.
  - intros a Ha Ho. destruct (F1 a Ha Ho) as [<- Ho1]. by apply F2; [apply D1|].
Qed.

Section StoreBlock.
Context (start : Z) (V : Z -> block) (x : inode) (bn : Z) (d : block).
Hypothesis HL : layout start V.
Hypothesis Hw : wf_file start V x.
Hypothesis Hn : 0 <= bn < MAXFILE.
Hypothesis Hne : fblock V x bn <> 0.

Lemma fblock_store n : 0 <= n < MAXFILE -> fblock (upd V (fblock V x bn) d) x n = fblock V x n.
Proof.
  intros Hn'. unfold fblock at 1 3. destruct (_ <? _); [done|].
  destruct (_ =? _); [done|]. rewrite upd_ne; [done|]. intros E. by apply (wf_sep _ _ _ Hw bn).
Qed.

Lemma extends_store : extends start V x (upd V (fblock V x bn) d) x.
Proof.
  pose proof (wf_data _ _ _ Hw bn Hn Hne) as Hda. constructor.
  - by apply (upd_sb start).
  - by apply layout_upd.
  - constructor; try apply Hw.
    + intros Hi. apply data_block_upd; auto. by apply (wf_ind _ _ _ Hw).
    + intros n Hn'. rewrite fblock_store by done. intros. apply data_block_upd; auto. by apply (wf_data _ _ _ Hw).
    + intros n n' H1 H2. rewrite !fblock_store by done. by apply (wf_inj _ _ _ Hw).
    + intros n Hn'. rewrite fblock_store by done. by apply (wf_sep _ _ _ Hw).
  - by destruct x.
  - intros n Hn' _. by apply fblock_store.
  - intros y Hy. by apply data_block_upd.
  - intros y Hy Ho. split.
    + apply upd_ne. intros ->. apply Ho. left. by exists bn.
    + intros [(n & Hn' & E)|E]; apply Ho; [left; exists n; by rewrite fblock_store in E|by right].
Qed.

(** The bytes after a store into the middle of the block. *)
Lemma fbyte_store o s i :
  d = splice o s (V (fblock V x bn)) -> 0 <= o -> o + zlen s <= zlen (V (fblock V x bn)) ->
  zlen (V (fblock V x bn)) = BSIZE -> 0 <= i < MAXFILE * BSIZE ->
  fbyte (upd V (fblock V x bn) d) x i =
    if decide (bn * BSIZE + o <= i < bn * BSIZE + o + zlen s) then zget s (i - bn * BSIZE - o) else fbyte V x i.
Proof.
  intros Hd Ho Hl Hlen Hi. pose proof (fbyte_index i Hi) as Hni. unfold fbyte. rewrite fblock_store by done.
  assert (Hr : 0 <= i mod BSIZE < BSIZE) by (unfold BSIZE; dlia).
  assert (Hdm : i = BSIZE * (i / BSIZE) + i mod BSIZE) by (unfold BSIZE; dlia).
  destruct (decide (i / BSIZE = bn)) as [E|E].
  - rewrite E, (proj2 (Z.eqb_neq _ _)), upd_eq, Hd by done. unfold zget. rewrite !nth_lookup, lookup_splice by done.
    rewrite E in Hdm. unfold zlen, BSIZE in *. 
    destruct (decide (Z.to_nat o <= Z.to_nat (i mod 512) < Z.to_nat o + length s)%nat);
      [rewrite decide_True by lia|rewrite decide_False by lia; done].
    do 2 f_equal. lia.
  - assert (Hnr : ~ (bn * BSIZE + o <= i < bn * BSIZE + o + zlen s)).
    { intros Hx. apply E. unfold BSIZE in *. dlia. }
    rewrite decide_False by done. destruct (Z.eqb_spec (fblock V x (i / BSIZE)) 0) as [|Hz]; [done|].
    rewrite upd_ne; [done|]. intros E'. apply E. by apply (wf_inj _ _ _ Hw).
Qed.

End StoreBlock.

(** [V'] and [x'] after writing the [n] bytes [src] at [off]. *)
Record wrote (start : Z) (V : Z -> block) (x : inode) (off n : Z) (src : list Z)
    (V' : Z -> block) (x' : inode) : Prop := {
  wr_ext : extends start V x V' x';
  wr_byte : forall i, 0 <= i < MAXFILE * BSIZE ->
    fbyte V' x' i = if decide (off <= i < off + n) then zget src (i - off) else fbyte V x i;
  wr_block : forall i, off <= i < off + n -> fblock V' x' (i / BSIZE) <> 0
}.

(** One round of a write: the block at [off] is there, [m] bytes are stored into
    it, and the rest is written by the rounds that follow. *)
Lemma wrote_step start V x V1 x1 off n m src V' x' :
  mapped start V x V1 x1 -> 0 <= off -> 0 < m -> m = Z.min n (BSIZE - off mod BSIZE) ->
  off + n <= MAXFILE * BSIZE -> n <= zlen src -> fblock V1 x1 (off / BSIZE) <> 0 ->
  zlen (V1 (fblock V1 x1 (off / BSIZE))) = BSIZE ->
  wrote start (upd V1 (fblock V1 x1 (off / BSIZE))
    (splice (off mod BSIZE) (slice 0 m src) (V1 (fblock V1 x1 (off / BSIZE))))) x1
    (off + m) (n - m) (drop (Z.to_nat m) src) V' x' ->
  wrote start V x off n src V' x'.
Proof.
  intros Hm1 Ho Hm Em Hmax Hsrc Hne1 Hlen Hwr. set (bn := off / BSIZE) in *. set (a := fblock V1 x1 bn) in *.
  set (d := splice _ _ _) in *. pose proof (fbyte_index off ltac:(lia)) as Hbn. fold bn in Hbn.
  assert (Hr : 0 <= off mod BSIZE < BSIZE) by (unfold BSIZE; dlia).
  pose proof (mp_wf _ _ _ _ _ Hm1) as Hw1. pose proof (mp_layout _ _ _ _ _ Hm1) as HL1.
  assert (Hsl : zlen (slice 0 m src) = m) by (apply length_slice; lia).
  pose proof (extends_store start V1 x1 bn d HL1 Hw1 Hbn Hne1) as He. fold a in He.
  constructor.
  - eapply extends_trans; [by apply mapped_extends|]. eapply extends_trans; [exact He|apply Hwr].
  - intros i Hi. rewrite (wr_byte _ _ _ _ _ _ _ _ Hwr i Hi).
    pose proof (fbyte_store start V1 x1 bn d Hw1 Hbn Hne1 (off mod BSIZE) (slice 0 m src) i eq_refl) as Hbs.
    fold a in Hbs. rewrite Hbs by lia. rewrite (mp_byte _ _ _ _ _ Hm1 i Hi), Hsl.
    assert (Hoff : bn * BSIZE + off mod BSIZE = off) by (unfold bn, BSIZE; dlia).
    rewrite !Hoff. replace (i - bn * BSIZE - off mod BSIZE) with (i - off) by lia.
    repeat case_decide; try lia.
    + unfold zget. rewrite !nth_lookup, lookup_slice by lia. done.
    + unfold zget. rewrite !nth_lookup, lookup_drop. do 2 f_equal. lia.
  - intros i Hi. destruct (decide (off + m <= i)) as [Hge|Hlt'].
    + apply (wr_block _ _ _ _ _ _ _ _ Hwr). lia.
    + assert (i / BSIZE = bn) as -> by (unfold bn, BSIZE in *; dlia).
      rewrite (ex_block _ _ _ _ _ (wr_ext _ _ _ _ _ _ _ _ Hwr) bn Hbn);
        rewrite (ex_block _ _ _ _ _ He bn Hbn); done.
Qed.

Section Writei.
Context {S : Type} `{!BufferCache S}.
Context (devsw : Z -> devops S).
Implicit Types (f : fs S) (V : Z -> block).

Lemma run_writei_loop start ip n fuel V x k f off tot src :
  fstx start f V ∅ (k + 6 * nblk off (n - tot)) -> 0 <= k -> layout start V -> wf_file start V x ->
  fs_inode f !! ip = Some x -> 0 <= off -> tot <= n -> off + (n - tot) <= MAXFILE * BSIZE ->
  n - tot <= zlen src -> 2 * nblk off (n - tot) <= Z.of_nat (size (free_set start V)) ->
  n - tot <= Z.of_nat fuel ->
  exists f' V' x', writei_loop fuel ip ROOTDEV off n tot src f = Ret (off + (n - tot)) f' /\
    fs_inode f' = <[ip := x']> (fs_inode f) /\ fstx start f' V' ∅ k /\
    wrote start V x off (n - tot) src V' x'.
Proof.
  revert V x f off tot src.
  induction fuel as [|fuel IH]; intros V x f off tot src Hf Hk HL Hw Hx Ho Ht Hmax Hsrc Hfree Hfuel;
    cbn [writei_loop]; destruct (Z.ltb_spec tot n) as [Hlt|Hge]; try lia.
  1, 3: replace (n - tot) with 0 in * by lia; exists f, V, x; rewrite (insert_same_ip f) by done;
    rewrite Z.add_0_r in *; split_and!; auto; constructor;
    [by apply mapped_extends, mapped_refl|intros; by rewrite decide_False by lia|lia].
  pose proof (nblk_step off (n - tot) Ho ltac:(lia)) as Hnb. cbv zeta in Hnb.
  set (m := Z.min (n - tot) (BSIZE - off mod BSIZE)) in *.
  assert (Hr : 0 <= off mod BSIZE < BSIZE) by (unfold BSIZE; dlia).
  assert (Hm : 0 < m <= n - tot) by (unfold m; lia).
  pose proof (nblk_nonneg (off + m) (n - tot - m) ltac:(lia)) as Hnn.
  pose proof (fbyte_index off ltac:(lia)) as Hbn. set (bn := off / BSIZE) in *.
  set (r := nblk (off + m) (n - tot - m)) in *.
  destruct (run_bmap start V (k + 6 * r + 1) f ip x bn) as (f1 & V1 & x1 & R1 & Hi1 & Hf1 & Hne1 & Hm1 & Hs1);
    auto; try lia.
  { by replace (k + 6 * r + 1 + 5) with (k + 6 * nblk off (n - tot)) by lia. }
  pose proof (mp_wf _ _ _ _ _ Hm1) as Hw1. pose proof (mp_layout _ _ _ _ _ Hm1) as HL1.
  set (a := fblock V1 x1 bn) in *. pose proof (wf_data _ _ _ Hw1 _ Hbn Hne1) as Hda. fold a in Hda.
  pose proof (data_block_nonneg start V1 HL1 a Hda).
  assert (Har : 0 <= a < start) by (destruct Hda; lia).
  pose proof (fstx_block_len _ _ _ _ _ _ Hf1 Har) as Hlen.
  assert (Hsl : zlen (slice 0 m src) = m) by (apply length_slice; lia).
  set (d := splice (off mod BSIZE) (slice 0 m src) (V1 a)).
  destruct (run_modify start f1 V1 ∅ (k + 6 * r) a (fun b => splice (off mod BSIZE) (slice 0 m src) b))
    as (h & f2 & f3 & f4 & R2 & R3 & R4 & R5 & Hi4 & Hf4); auto; try held_side; try lia.
  { cbv beta. rewrite length_splice; lia. }
  cbv beta in R4, Hf4. fold d in R4, Hf4.
  pose proof (extends_store start V1 x1 bn d HL1 Hw1 Hbn Hne1) as He. fold a in He.
  assert (Hx4 : fs_inode f4 !! ip = Some x1).
  { rewrite Hi4, Hi1. apply list_lookup_insert_eq. by eapply lookup_lt_Some. }
  destruct (IH (upd V1 a d) x1 f4 (off + m) (tot + m) (drop (Z.to_nat m) src))
    as (f5 & V5 & x5 & R6 & Hi5 & Hf5 & Hwr); auto; try lia;
    replace (n - (tot + m)) with (n - tot - m) in * by lia; auto; try lia.
  { apply He. } { apply He. }
  { unfold zlen in *. rewrite length_drop. lia. }
  { fold r. rewrite free_set_upd by done. lia. }
  exists f5, V5, x5. split_and!.
  - run R1. fold a. run R2. fold m. run R3. run R4. run R5. rewrite R6. f_equal. lia.
  - rewrite Hi5, Hi4, Hi1. apply list_insert_insert_eq.
  - exact Hf5.
  - eapply (wrote_step _ _ _ V1 x1 _ _ m); try done; lia.
Qed.

(** Storing into an inode block, which lies below the bitmap. *)
Section StoreInode.
Context (start : Z) (V : Z -> block) (c : Z) (d : block).
Hypothesis HL : layout start V.
Hypothesis Hc : 1 < c < bmblock V 0.

Lemma meta_sb : upd V c d 1 = V 1.
Proof. by rewrite upd_ne by lia. Qed.

Lemma meta_bmblock y : bmblock (upd V c d) y = bmblock V y.
Proof. unfold bmblock. by rewrite meta_sb. Qed.

Lemma meta_used y : 0 <= y -> used (upd V c d) y = used V y.
Proof.
  intros Hy. unfold used. rewrite meta_sb. fold (bmblock V y). rewrite upd_ne; [done|].
  pose proof (bmblock_mono V 0 y Hy). lia.
Qed.

Lemma meta_layout : layout start (upd V c d).
Proof.
  constructor; rewrite ?meta_sb; try apply HL. intros b Hb. rewrite meta_used by lia. by apply (ly_meta _ _ HL).
Qed.

Lemma data_above_meta a : data_block start V a -> c < a.
Proof.
  intros ((Ha & _) & _). pose proof (ly_size _ _ HL).
  pose proof (bmblock_mono V 0 (sb_size (sb_of (V 1)) - 1) ltac:(lia)). lia.
Qed.

Lemma meta_data a : data_block start V a <-> data_block start (upd V c d) a.
Proof.
  unfold data_block. rewrite meta_sb, meta_bmblock. pose proof (ly_size _ _ HL).
  pose proof (bmblock_low _ _ (sb_size (sb_of (V 1)) - 1) HL ltac:(lia)).
  split; intros (H1 & H2 & H3); (split; [done|]; split; [done|]); rewrite meta_used in * by lia; done.
Qed.

Lemma meta_fblock x n : wf_file start V x -> fblock (upd V c d) x n = fblock V x n.
Proof.
  intros Hw. unfold fblock. destruct (_ <? _); [done|].
  destruct (Z.eqb_spec (zget (i_addrs x) NDIRECT) 0) as [|Hne]; [done|].
  rewrite upd_ne; [done|]. pose proof (data_above_meta _ (wf_ind _ _ _ Hw Hne)). lia.
Qed.

Lemma meta_wf x : wf_file start V x -> wf_file start (upd V c d) x.
Proof.
  intros Hw. constructor; try apply Hw; try (intros; rewrite ?meta_fblock in * by done).
  - by apply meta_data, (wf_ind _ _ _ Hw).
  - by apply meta_data, (wf_data _ _ _ Hw).
  - by apply (wf_inj _ _ _ Hw).
  - by apply (wf_sep _ _ _ Hw).
Qed.

Lemma meta_fbyte x i : wf_file start V x -> 0 <= i < MAXFILE * BSIZE -> fbyte (upd V c d) x i = fbyte V x i.
Proof.
  intros Hw Hi. unfold fbyte. rewrite meta_fblock by done.
  destruct (Z.eqb_spec (fblock V x (i / BSIZE)) 0) as [|Hne]; [done|]. rewrite upd_ne; [done|].
  pose proof (data_above_meta _ (wf_data _ _ _ Hw _ (fbyte_index i Hi) Hne)). lia.
Qed.

End StoreInode.

(** The size and the rest of an inode are independent of its blocks. *)
Lemma wf_set_isize start V x n : wf_file start V x -> wf_file start V (set_isize n x).
Proof. intros []. by constructor. Qed.

Lemma inode_block start V inum :
  layout start V -> 0 <= inum < sb_ninodes (sb_of (V 1)) -> 1 < IBLOCK inum < bmblock V 0.
Proof.
  intros HL Hi. unfold bmblock, BBLOCK, IBLOCK. change (0 / BPB) with 0.
  assert (Hip : 0 < IPB) by done.
  pose proof (Z.div_le_mono inum (sb_ninodes (sb_of (V 1))) IPB Hip ltac:(lia)).
  pose proof (Z.div_pos inum IPB ltac:(lia) Hip). lia.
Qed.

(** What a successful writei guarantees. *)
Record written (start : Z) (V : Z -> block) (x : inode) (off n : Z) (src : list Z)
    (V' : Z -> block) (x' : inode) : Prop := {
  wn_layout : layout start V';
  wn_wf : wf_file start V' x';
  wn_dense : dense V' x';
  wn_inode : x' = set_isize (Z.max (i_size x) (off + n)) (with_addrs (i_addrs x') x);
  wn_byte : forall i, 0 <= i < MAXFILE * BSIZE ->
    fbyte V' x' i = if decide (off <= i < off + n) then zget src (i - off) else fbyte V x i;
  wn_frame : forall a, data_block start V a -> ~ owns V x a -> V' a = V a /\ data_block start V' a
}.

Lemma run_writei start V k f ip x off n src :
  fstx start f V ∅ (k + 6 * nblk off n + 1) -> 0 <= k -> layout start V -> wf_file start V x ->
  dense V x -> fs_inode f !! ip = Some x -> i_type x <> T_DEV ->
  0 <= i_inum x < sb_ninodes (sb_of (V 1)) ->
  0 <= off <= i_size x -> 0 < n <= zlen src -> off + n <= MAXFILE * BSIZE ->
  2 * nblk off n <= Z.of_nat (size (free_set start V)) ->
  exists f' V' x', writei devsw ip src off n f = Ret n f' /\
    fs_inode f' = <[ip := x']> (fs_inode f) /\ fstx start f' V' ∅ k /\
    written start V x off n src V' x'.
Proof.
  intros Hf Hk HL Hw Hdn Hx Hty Hino Ho Hn Hmax Hfree.
  assert (Hbig : MAXFILE * BSIZE = 71680) by reflexivity.
  destruct (run_writei_loop start ip n (Z.to_nat n) V x (k + 1) f off 0 src)
    as (f1 & V1 & x1 & R1 & Hi1 & Hf1 & Hwr); rewrite ?Z.sub_0_r in *; auto; try lia.
  { by replace (k + 1 + 6 * nblk off n) with (k + 6 * nblk off n + 1) by lia. }
  destruct Hwr as [He Hby Hbl]. pose proof (ex_wf _ _ _ _ _ He) as Hw1. pose proof (ex_layout' _ _ _ _ _ He) as HL1.
  pose proof (ex_addrs _ _ _ _ _ He) as Ha1. destruct Hdn as [Hsz Hd].
  assert (Hs1 : i_size x1 = i_size x) by by rewrite Ha1. assert (Hin1 : i_inum x1 = i_inum x) by by rewrite Ha1.
  assert (Hdense : forall i, 0 <= i < Z.max (i_size x) (off + n) -> fblock V1 x1 (i / BSIZE) <> 0).
  { intros i Hi. destruct (decide (off <= i < off + n)); [by apply Hbl|].
    rewrite (ex_block _ _ _ _ _ He) by (apply fbyte_index; lia) || (apply Hd; lia). apply Hd. lia. }
  assert (Hx1 : fs_inode f1 !! ip = Some x1).
  { rewrite Hi1. apply list_lookup_insert_eq. by eapply lookup_lt_Some. }
  unfold writei. run (run_getip _ _ _ Hx). rewrite (proj2 (Z.eqb_neq _ _)) by done.
  rewrite u32_small by (unfold is_u32; lia).
  assert ((off >? i_size x) || (off + n <? off) = false) as -> by lia.
  assert ((off + n >? MAXFILE * BSIZE) = false) as -> by lia. rewrite (wf_dev _ _ _ Hw). run R1.
  assert (Hsb1 : V1 1 = V 1) by apply He.
  destruct ((n >? 0) && (off + n >? i_size x)) eqn:Hgrow.
  - set (x2 := set_isize (off + n) x1). set (f2 := MkFs (fs_log f1) (<[ip := x2]> (fs_inode f))).
    assert (R2 : modip ip (set_isize (off + n)) f1 = Ret tt f2).
    { rewrite lookup_modip, (list_alter_insert _ _ _ _ Hx1), Hi1, list_insert_insert_eq. done. }
    assert (Hx2 : fs_inode f2 !! ip = Some x2) by (cbn; apply list_lookup_insert_eq; by eapply lookup_lt_Some).
    assert (Hc : 1 < IBLOCK (i_inum x2) < bmblock V1 0).
    { cbn. rewrite Hin1. apply (inode_block start); [done|]. by rewrite Hsb1. }
    pose proof (ly_size _ _ HL1). pose proof (bmblock_start _ _ 0 HL1 ltac:(lia)).
    destruct (run_iupdate start V1 ∅ k f2 ip x2) as (f3 & R3 & Hi3 & Hf3); auto; try held_side.
    { apply Hw1. } { apply Hw1. }
    exists f3, (put_inode V1 x2), x2. split_and!.
    + unfold bind at 1. run R2. rewrite R3. done.
    + by rewrite Hi3.
    + done.
    + pose proof (wf_set_isize _ _ _ (off + n) Hw1) as Hw2. fold x2 in Hw2. unfold put_inode.
      constructor.
      * by apply meta_layout.
      * by apply meta_wf.
      * split; [cbn; lia|]. intros i Hi. rewrite (meta_fblock start) by done. apply Hdense. cbn in Hi. lia.
      * unfold x2. rewrite Ha1 at 1. cbn. unfold set_isize, with_addrs; cbn. f_equal. lia.
      * intros i Hi. rewrite (meta_fbyte start) by done. by apply Hby.
      * intros a Ha Ho'. destruct (ex_frame _ _ _ _ _ He a Ha Ho') as [E _].
        pose proof (ex_dblock _ _ _ _ _ He a Ha) as Ha'. split; [|by apply meta_data].
        rewrite upd_ne; [done|]. pose proof (data_above_meta start V1 _ HL1 Hc a Ha'). lia.
  - exists f1, V1, x1. split_and!; auto; [eapply fstx_weaken; [exact Hf1|lia]|].
    constructor; auto.
    + split; [lia|]. intros i Hi. apply Hdense. lia.
    + rewrite Ha1 at 1. unfold set_isize, with_addrs; cbn. f_equal. lia.
    + intros a Ha Ho'. destruct (ex_frame _ _ _ _ _ He a Ha Ho') as [E _]. split; [done|by apply He].
Qed.

End Writei.

(** ** Properties *)

Section Properties.
Context {S : Type} `{!BufferCache S}.
Context (devsw : Z -> devops S).
Implicit Types (f : fs S) (V : Z -> block).

(** C26: what writei stores, readi returns.  A write of [n] bytes at [off] of a
    regular file returns [n]; after it, a read of any range returns the written
    bytes where it overlaps the write and the old contents elsewhere, cut at
    the new size, whether the blocks involved were direct, indirect or had to
    be allocated. *)
Theorem writei_readi start V k f ip x off n src :
  fstx start f V ∅ (k + 6 * nblk off n + 1) -> 0 <= k -> layout start V -> wf_file start V x ->
  dense V x -> fs_inode f !! ip = Some x -> i_type x <> T_DEV ->
  0 <= i_inum x < sb_ninodes (sb_of (V 1)) ->
  0 <= off <= i_size x -> 0 < n <= zlen src -> off + n <= MAXFILE * BSIZE ->
  2 * nblk off n <= Z.of_nat (size (free_set start V)) ->
  exists f1, writei devsw ip src off n f = Ret n f1 /\
    forall off2 n2, 0 <= off2 <= Z.max (i_size x) (off + n) -> 0 <= n2 -> off2 + n2 < 4294967296 ->
      let got := Z.min n2 (Z.max (i_size x) (off + n) - off2) in
      exists f2 bs, readi devsw ip off2 n2 f1 = Ret (got, bs) f2 /\ zlen bs = got /\
        forall i, 0 <= i < got ->
          zget bs i = if decide (off <= off2 + i < off + n) then zget src (off2 + i - off)
                      else fbyte V x (off2 + i).
Proof.
  intros Hf Hk HL Hw Hdn Hx Hty Hino Ho Hn Hmax Hfree.
  destruct (run_writei devsw start V k f ip x off n src) as (f1 & V1 & x1 & R1 & Hi1 & Hf1 & Hwn); auto.
  exists f1. split; [done|]. intros off2 n2 Ho2 Hn2 Hov got.
  pose proof (wn_inode _ _ _ _ _ _ _ _ Hwn) as Hx1. destruct Hdn as [Hsz _].
  assert (Hs1 : i_size x1 = Z.max (i_size x) (off + n)) by (rewrite Hx1; done).
  assert (Hg : 0 <= got) by (unfold got; lia).
  destruct (run_readi devsw start V1 k f1 ip x1 off2 n2) as (f2 & R2 & _ & _); auto; try apply Hwn.
  { rewrite Hi1. apply list_lookup_insert_eq. by eapply lookup_lt_Some. }
  { rewrite Hx1. done. } { lia. }
  rewrite Hs1 in R2. fold got in R2. exists f2, (fbytes V1 x1 off2 got). split; [done|].
  split; [unfold zlen; rewrite length_fbytes; lia|]. intros i Hi. unfold zget at 1.
  rewrite nth_lookup, lookup_fbytes, Z2Nat.id by lia. cbn [default].
  apply (wn_byte _ _ _ _ _ _ _ _ Hwn). unfold got in Hi. unfold MAXFILE, BSIZE in *. lia.
Qed.

(** writei leaves the other files alone: a file that shares no block with
    the one written keeps every byte. *)
Theorem writei_other_files start V k f ip x y off n src :
  fstx start f V ∅ (k + 6 * nblk off n + 1) -> 0 <= k -> layout start V -> wf_file start V x ->
  dense V x -> fs_inode f !! ip = Some x -> i_type x <> T_DEV ->
  0 <= i_inum x < sb_ninodes (sb_of (V 1)) ->
  0 <= off <= i_size x -> 0 < n <= zlen src -> off + n <= MAXFILE * BSIZE ->
  2 * nblk off n <= Z.of_nat (size (free_set start V)) ->
  wf_file start V y -> (forall a, a <> 0 -> owns V y a -> ~ owns V x a) ->
  exists f1 V1, writei devsw ip src off n f = Ret n f1 /\ fstx start f1 V1 ∅ k /\
    forall i, 0 <= i < MAXFILE * BSIZE -> fbyte V1 y i = fbyte V y i.
Proof.
  intros Hf Hk HL Hw Hdn Hx Hty Hino Ho Hn Hmax Hfree Hy Hsep.
  destruct (run_writei devsw start V k f ip x off n src) as (f1 & V1 & x1 & R1 & Hi1 & Hf1 & Hwn); auto.
  exists f1, V1. split_and!; auto. intros i Hi. pose proof (fbyte_index i Hi) as Hbn. unfold fbyte.
  assert (Hkeep : forall a, a <> 0 -> owns V y a -> data_block start V a -> V1 a = V a).
  { intros a Ha Hoy Hda. by apply (wn_frame _ _ _ _ _ _ _ _ Hwn), Hsep. }
  assert (Hfb : fblock V1 y (i / BSIZE) = fblock V y (i / BSIZE)).
  { unfold fblock. destruct (_ <? _); [done|].
    destruct (Z.eqb_spec (zget (i_addrs y) NDIRECT) 0) as [|Hne]; [done|].
    rewrite Hkeep; [done|done|by right|by apply (wf_ind _ _ _ Hy)]. }
  rewrite Hfb. destruct (Z.eqb_spec (fblock V y (i / BSIZE)) 0) as [|Hne]; [done|].
  rewrite Hkeep; [done|done|left; by exists (i / BSIZE)|by apply (wf_data _ _ _ Hy)].
Qed.

End Properties.

(** An empty file: inode 2, cached in entry 0. *)
Definition ex_file : inode := MkInode ROOTDEV 2 1 3 T_FILE 0 0 1 0 (replicate 13 0).
Definition no_devs : Z -> devops (bio Memide.memdisk) := fun _ => MkDev _ None None.
Definition ex_fs : fs (bio Memide.memdisk) := MkFs (ex_log ex_image) [ex_file].

Lemma fblock_empty V x bn : i_addrs x = replicate 13 0 -> 0 <= bn -> fblock V x bn = 0.
Proof.
  intros E Hb. assert (Hz : forall j, zget (i_addrs x) j = 0).
  { intros j. rewrite E. unfold zget. rewrite nth_lookup.
    destruct (replicate 13 0 !! Z.to_nat j) as [v|] eqn:Ev; [|done]. by apply lookup_replicate in Ev as [-> _]. }
  unfold fblock. rewrite !Hz. by destruct (_ <? _).
Qed.

Lemma wf_empty start V x : i_dev x = ROOTDEV -> i_addrs x = replicate 13 0 -> wf_file start V x.
Proof.
  intros Hd E. constructor; auto; try (intros; rewrite ?fblock_empty in * by (done || lia); done).
  - by rewrite E.
  - rewrite E. done.
Qed.

Lemma ex_file_dense V : dense V ex_file.
Proof. split; [vm_compute; split; done|]. intros i Hi. cbn in Hi. lia. Qed.

Lemma ex_free : (28 <= size (free_set 34 (blk ex_image)))%nat.
Proof. vm_compute. lia. Qed.

Lemma writei_readi_witness :
  exists f1 f2 bs, writei no_devs 0 [104; 105; 33] 0 3 ex_fs = Ret 3 f1 /\
    readi no_devs 0 1 10 f1 = Ret (2, bs) f2 /\ zget bs 0 = 105.
Proof.
  destruct (writei_readi no_devs 34 (blk ex_image) 0 ex_fs 0 ex_file 0 3 [104; 105; 33]
    (ex_fstx ex_image [ex_file] 7 ex_image_ok ltac:(lia)) ltac:(lia) ex_layout (wf_empty 34 (blk ex_image) ex_file eq_refl eq_refl)
    (ex_file_dense _) eq_refl ltac:(done) ltac:(vm_compute; split; done) ltac:(cbn; lia)
    ltac:(unfold zlen; cbn; lia) ltac:(vm_compute; done)
    ltac:(pose proof ex_free; change (nblk 0 3) with 1; lia)) as (f1 & R1 & Hread).
  destruct (Hread 1 10) as (f2 & bs & R2 & _ & Hb); [cbn; lia|lia|lia|].
  exists f1, f2, bs. split; [exact R1|]. split; [exact R2|]. apply (Hb 0). cbn. lia.
Defined.

Lemma writei_other_files_witness :
  exists f1 V1, writei no_devs 0 [104; 105; 33] 0 3 ex_fs = Ret 3 f1 /\
    fbyte V1 (set_ref 0 ex_file) 5 = 0.
Proof.
  destruct (writei_other_files no_devs 34 (blk ex_image) 0 ex_fs 0 ex_file (set_ref 0 ex_file) 0 3 [104; 105; 33]
    (ex_fstx ex_image [ex_file] 7 ex_image_ok ltac:(lia)) ltac:(lia) ex_layout (wf_empty 34 (blk ex_image) ex_file eq_refl eq_refl)
    (ex_file_dense _) eq_refl ltac:(done) ltac:(vm_compute; split; done) ltac:(cbn; lia)
    ltac:(unfold zlen; cbn; lia) ltac:(vm_compute; done)
    ltac:(pose proof ex_free; change (nblk 0 3) with 1; lia) (wf_empty 34 (blk ex_image) (set_ref 0 ex_file) eq_refl eq_refl))
    as (f1 & V1 & R1 & _ & Hb).
  - intros a Ha [(bn & Hbn & E)|E] _; apply Ha; [rewrite <- E; apply fblock_empty; [done|lia]|].
    rewrite <- E. reflexivity.
  - exists f1, V1. split; [exact R1|]. rewrite Hb; [reflexivity|]. vm_compute. split; done.
Defined.
