(* ===== verification/FsDir.v ===== *)
(** * Directories and paths (fs.c: dirlookup, dirlink, skipelem, namex)

    A directory is a file of 16-byte entries; looking a name up finds the first
    entry in use whose name agrees in the first DIRSIZ characters, and linking
    adds exactly one such entry.  A path is taken apart into its elements. *)

From S2P Require Import Prelude.
From S2P Require Import Params.
From S2P Require Import Disk.
From S2P Require Import BufSpec.
From S2P Require Import Bio.
From S2P Require Import Log.
From S2P Require Import LogCrash.
From S2P Require Import LogOps.
From S2P Require Import CString.
From S2P Require Import Fs.
From S2P Require Import FsTx.
From S2P Require Import FsAlloc.
From S2P Require Import FsInode.
From S2P Require Import FsFile.

(** ** Path elements *)

(** The pieces between slashes, and those that are not empty. *)
Fixpoint pieces (path : list Z) : list (list Z) :=
  match path with
  | [] => [[]]
  | c :: p =>
      if c =? slash then [] :: pieces p
      else match pieces p with
           | e :: es => (c :: e) :: es
           | [] => [[c]]
           end
  end.
Fixpoint nonempty (es : list (list Z)) : list (list Z) :=
  match es with
  | [] => []
  | e :: es => match e with [] => nonempty es | _ => e :: nonempty es end
  end.
Definition elems (path : list Z) : list (list Z) := nonempty (pieces path).

Lemma pieces_cons path : exists e es, pieces path = e :: es.
Proof.
  destruct path as [|c p]; cbn; [eauto|]. destruct (c =? slash); [eauto|].
  destruct (pieces p); eauto.
Qed.

Lemma elems_skip_slashes path : elems (skip_slashes path) = elems path.
Proof.
  induction path as [|c p IH]; cbn [skip_slashes]; [done|].
  destruct (Z.eqb_spec c slash) as [->|Hc]; [exact IH|done].
Qed.

Lemma skip_slashes_head path : match skip_slashes path with c :: _ => c <> slash | [] => True end.
Proof. induction path as [|c p IH]; cbn; [done|]. by destruct (Z.eqb_spec c slash). Qed.

Lemma skip_slashes_le path : (length (skip_slashes path) <= length path)%nat.
Proof. induction path as [|c p IH]; cbn; [lia|]. destruct (c =? slash); cbn; lia. Qed.

Lemma span_elem_app path : let '(e, r) := span_elem path in path = e ++ r.
Proof.
  induction path as [|c p IH]; cbn; [done|]. destruct (c =? slash); cbn; [done|].
  destruct (span_elem p) as [e r]. cbn. by f_equal.
Qed.

Lemma span_elem_pieces path :
  let '(e, r) := span_elem path in
  exists es, pieces path = e :: es /\ (r = [] /\ es = [] \/ exists r', r = slash :: r' /\ es = pieces r').
Proof.
  induction path as [|c p IH]; cbn; [eauto|]. destruct (Z.eqb_spec c slash) as [->|Hc]; cbn; [eauto 10|].
  destruct (span_elem p) as [e r]. destruct IH as (es & -> & H). eauto.
Qed.

Lemma elems_span p c :
  c <> slash -> let '(e, r) := span_elem (c :: p) in e <> [] /\ elems (c :: p) = e :: elems r.
Proof.
  intros Hc. pose proof (span_elem_pieces (c :: p)) as H.
  assert (Hne : (span_elem (c :: p)).1 <> []).
  { cbn. rewrite (proj2 (Z.eqb_neq _ _) Hc). cbn. by destruct (span_elem p). }
  destruct (span_elem (c :: p)) as [e r]. cbn in Hne. split; [done|].
  destruct H as (es & E & Hr). unfold elems. rewrite E. destruct e as [|a e]; [done|]. cbn. f_equal.
  by destruct Hr as [[-> ->]|(r' & -> & ->)].
Qed.

(** skipelem takes a path apart.  It returns null exactly when the path has
    no element; otherwise the name buffer receives the first element, cut at
    DIRSIZ characters and terminated if shorter, and the rest of the path has
    the remaining elements, no leading slash, and is shorter. *)
Theorem skipelem_elems path name :
  Forall (fun c => c <> 0) path -> length name = 14%nat ->
  match skipelem path name with
  | None => elems path = []
  | Some (rest, name') =>
      exists e, elems path = e :: elems rest /\ cstr 14 name' = take 14 e /\ length name' = 14%nat /\
        (length rest < length path)%nat /\
        match rest with c :: _ => c <> slash | [] => True end
  end.
Proof.
  intros Hnz Hlen. unfold skipelem. rewrite <- (elems_skip_slashes path).
  pose proof (skip_slashes_head path) as Hh. pose proof (skip_slashes_le path) as Hle.
  assert (Hnz' : Forall (fun c => c <> 0) (skip_slashes path)).
  { clear -Hnz. induction path as [|c p IH]; cbn; [done|]. apply Forall_cons in Hnz as [? ?].
    destruct (c =? slash); [auto|by constructor]. }
  destruct (skip_slashes path) as [|c p]; [done|].
  pose proof (elems_span p c Hh) as Hs. pose proof (span_elem_app (c :: p)) as Happ.
  destruct (span_elem (c :: p)) as [e r]. destruct Hs as [Hne ->]. rewrite Happ in Hnz', Hle.
  apply Forall_app in Hnz' as [Hze _]. rewrite length_app in Hle.
  assert (Hpos : (0 < length e)%nat) by (destruct e; [done|cbn; lia]).
  pose proof (skip_slashes_le r). exists e. rewrite elems_skip_slashes. split; [done|].
  split; [|split; [|split; [lia|apply skip_slashes_head]]].
  - destruct (Z.geb_spec (zlen e) DIRSIZ) as [Hge|Hlt]; unfold zlen, DIRSIZ in *.
    + unfold splice, slice. change (Z.to_nat 14) with 14%nat. change (Z.to_nat 0) with 0%nat.
      rewrite take_0, drop_0, app_nil_l, Nat.add_0_l.
      rewrite cstr_app by (rewrite length_take; lia). rewrite cstr_take; [by rewrite take_take, Nat.min_id| |].
      * by apply Forall_take.
      * rewrite length_take. lia.
    + unfold splice, zset. change (Z.to_nat 0) with 0%nat. rewrite take_0, app_nil_l, Nat.add_0_l, Nat2Z.id.
      rewrite insert_app_r_alt, Nat.sub_diag by lia. rewrite (take_ge e) by lia.
      destruct (drop (length e) name) as [|b t] eqn:Ed;
        [apply (f_equal length) in Ed; rewrite length_drop in Ed; cbn in Ed; lia|].
      change (<[0%nat := 0]> (b :: t)) with (0 :: t). apply cstr_terminated; [done|lia].
  - case_match; unfold zset; rewrite ?length_insert; unfold splice, slice, zlen, DIRSIZ in *;
      rewrite !length_app, !length_take, ?length_drop; cbn in *; lia.
Qed.

Lemma skipelem_elems_witness :
  skipelem [47; 47; 97; 47; 98; 98] (replicate 14 9) = Some ([98; 98], 97 :: 0 :: replicate 12 9) /\
  elems [47; 47; 97; 47; 98; 98] = [97] :: elems [98; 98].
Proof.
  pose proof (skipelem_elems [47; 47; 97; 47; 98; 98] (replicate 14 9)) as H.
  assert (E : skipelem [47; 47; 97; 47; 98; 98] (replicate 14 9) = Some ([98; 98], 97 :: 0 :: replicate 12 9))
    by (vm_compute; reflexivity).
  rewrite E in H. split; [done|].
  destruct H as (e & He & Hc & _); [repeat constructor; done|done|].
  rewrite He. f_equal. apply (f_equal (fun l => hd [] l)) in He. cbn in He. by rewrite <- He.
Defined.

(** ** Directory entries *)

Definition de_at (V : Z -> block) (x : inode) (j : Z) : list Z := fbytes V x (16 * j) 16.

(** Entry [j] is in use and has the name [q]. *)
Definition match_at (V : Z -> block) (x : inode) (q : list Z) (j : Z) : bool :=
  negb (de_inum (de_at V x j) =? 0) && bool_decide (cstr 14 q = cstr 14 (de_name (de_at V x j))).

Definition nentries (x : inode) : Z := i_size x / 16.

(** The entry a name denotes: the first that matches. *)
Definition dlookup (V : Z -> block) (x : inode) (q : list Z) : option Z :=
  List.find (match_at V x q) (seqZ 0 (nentries x)).

(** A directory: a well-formed dense file of whole entries. *)
Record dir_ok (start : Z) (V : Z -> block) (x : inode) : Prop := {
  do_wf : wf_file start V x;
  do_dense : dense V x;
  do_type : i_type x = T_DIR;
  do_size : i_size x mod 16 = 0
}.

Lemma dir_size start V x : dir_ok start V x -> i_size x = 16 * nentries x.
Proof. intros HD. pose proof (do_size _ _ _ HD). unfold nentries. dlia. Qed.

Lemma zlen_de_at V x j : zlen (de_at V x j) = 16.
Proof. unfold de_at, zlen. by rewrite length_fbytes. Qed.

Lemma length_de_name de : zlen de = 16 -> length (de_name de) = 14%nat.
Proof.
  intros H. pose proof (length_slice 2 14 de ltac:(lia) ltac:(lia) ltac:(lia)) as E.
  unfold de_name, DIRSIZ, zlen in *. lia.
Qed.

Lemma seqZ_cons' j n : 0 < n -> seqZ j n = j :: seqZ (j + 1) (n - 1).
Proof. intros. rewrite seqZ_cons by lia. by rewrite Z.sub_1_r, Z.add_1_r. Qed.

(** A search of a range finds the one index that satisfies the predicate. *)
Lemma find_seqZ_unique p n j0 :
  0 <= j0 < n -> p j0 = true -> (forall j, 0 <= j < n -> j <> j0 -> p j = false) ->
  List.find p (seqZ 0 n) = Some j0.
Proof.
  intros Hj Hp Hn. destruct (List.find p (seqZ 0 n)) as [j|] eqn:E.
  - apply List.find_some in E as [Hin%list_elem_of_In%elem_of_seqZ Hj']. destruct (decide (j = j0)) as [->|Hne]; [done|].
    rewrite Hn in Hj'; [done|lia|done].
  - apply List.find_none with (x := j0) in E; [congruence|]. apply list_elem_of_In, elem_of_seqZ. lia.
Qed.

Lemma find_ext_in {A} (p q : A -> bool) l :
  (forall a, a ∈ l -> p a = q a) -> List.find p l = List.find q l.
Proof.
  induction l as [|a l IH]; intros H; [done|]. cbn. rewrite H by left. destruct (q a); [done|].
  apply IH. intros b Hb. apply H. by right.
Qed.

(** Extending a range by an index that does not satisfy the predicate. *)
Lemma find_seqZ_extend p n : 0 <= n -> p n = false -> List.find p (seqZ 0 (n + 1)) = List.find p (seqZ 0 n).
Proof.
  intros Hn Hp. rewrite seqZ_app by lia. rewrite Z.add_0_l. rewrite (seqZ_cons' n) by lia. change (seqZ (n + 1) (1 - 1)) with (@nil Z).
  induction (seqZ 0 n) as [|a l IH]; cbn; [by rewrite Hp|].
  by rewrite IH.
Qed.

Section Dirs.
Context {S : Type} `{!BufferCache S}.
Context (devsw : Z -> devops S).
Implicit Types (f : fs S) (V : Z -> block).

Lemma run_read_dirent start V k f dp x j :
  fstx start f V ∅ k -> layout start V -> dir_ok start V x -> fs_inode f !! dp = Some x ->
  0 <= j < nentries x ->
  exists f', read_dirent devsw dp (16 * j) f = Ret (de_at V x j) f' /\ fs_inode f' = fs_inode f /\
    fstx start f' V ∅ k.
Proof.
  intros Hf HL HD Hx Hj. pose proof (dir_size _ _ _ HD) as Hs. destruct (do_dense _ _ _ HD) as [Hmax _].
  assert (MAXFILE * BSIZE = 71680) by reflexivity.
  destruct (run_readi devsw start V k f dp x (16 * j) 16) as (f1 & R1 & Hi1 & Hf1);
    auto; try apply HD; try lia.
  { rewrite (do_type _ _ _ HD). done. }
  replace (Z.min 16 (i_size x - 16 * j)) with 16 in R1 by lia.
  exists f1. split; [|done]. unfold read_dirent, sizeof_dirent. run R1. done.
Qed.

Lemma run_namecmp f q t :
  readable 14 q -> length t = 14%nat ->
  exists r, namecmp q t f = Ret r f /\ (r = 0 <-> cstr 14 q = cstr 14 t).
Proof.
  intros Hq Ht. destruct (strncmp_run q t 14) as (r & E & Hr); [done|right; lia|].
  exists r. split; [|done]. unfold namecmp. change (Z.to_nat DIRSIZ) with 14%nat. by rewrite E.
Qed.

Lemma run_dirlookup_from start V k dp x q fuel f j :
  fstx start f V ∅ k -> layout start V -> dir_ok start V x -> fs_inode f !! dp = Some x ->
  readable 14 q -> 0 <= j <= nentries x -> nentries x - j <= Z.of_nat fuel ->
  exists f', fs_inode f' = fs_inode f /\ fstx start f' V ∅ k /\
    dirlookup_from devsw fuel dp (16 * j) q f =
      match List.find (match_at V x q) (seqZ j (nentries x - j)) with
      | None => Ret None f'
      | Some j' => (let! ip := iget ROOTDEV (de_inum (de_at V x j')) in ret (Some (ip, 16 * j'))) f'
      end.
Proof.
  intros Hf HL HD Hx Hq. pose proof (dir_size _ _ _ HD) as Hs. revert f j Hf Hx.
  assert (Hend : forall f j, fstx start f V ∅ k -> fs_inode f !! dp = Some x -> j = nentries x ->
    exists f', fs_inode f' = fs_inode f /\ fstx start f' V ∅ k /\ 16 * j >= i_size x /\
      f' = f /\ List.find (match_at V x q) (seqZ j (nentries x - j)) = None).
  { intros f j Hf Hx ->. exists f. rewrite Z.sub_diag. split_and!; auto; lia. }
  induction fuel as [|fuel IH]; intros f j Hf Hx Hj Hfuel; cbn [dirlookup_from];
    run (run_getip _ _ _ Hx); destruct (Z.ltb_spec (16 * j) (i_size x)) as [Hlt|Hge]; try lia.
  1, 3: assert (Ej : j = nentries x) by lia; destruct (Hend f j Hf Hx Ej) as (f' & ? & ? & _ & -> & ->); by exists f.
  destruct (run_read_dirent start V k f dp x j) as (f1 & R1 & Hi1 & Hf1); auto; [lia|].
  run R1. rewrite seqZ_cons' by lia. cbn [List.find]. unfold match_at at 1.
  assert (Hx1 : fs_inode f1 !! dp = Some x) by congruence.
  destruct (IH f1 (j + 1)) as (f2 & Hi2 & Hf2 & R2); auto; try lia.
  replace (nentries x - (j + 1)) with (nentries x - j - 1) in R2 by lia.
  unfold sizeof_dirent. replace (16 * j + 16) with (16 * (j + 1)) by lia.
  destruct (Z.eqb_spec (de_inum (de_at V x j)) 0) as [Hz|Hz]; cbn [negb andb].
  { exists f2. split; [congruence|]. split; [done|]. exact R2. }
  destruct (run_namecmp f1 q (de_name (de_at V x j)) Hq) as (r & R3 & Hr); [apply length_de_name, zlen_de_at|].
  run R3. destruct (Z.eqb_spec r 0) as [Er|Er].
  - rewrite bool_decide_true by (by apply Hr). exists f1. split; [done|]. split; [done|].
    by rewrite (wf_dev _ _ _ (do_wf _ _ _ HD)).
  - rewrite bool_decide_false by (by rewrite <- Hr). exists f2. split; [congruence|]. split; [done|]. exact R2.
Qed.

Lemma run_dirlookup start V k f dp x q :
  fstx start f V ∅ k -> layout start V -> dir_ok start V x -> fs_inode f !! dp = Some x ->
  readable 14 q ->
  exists f', fs_inode f' = fs_inode f /\ fstx start f' V ∅ k /\
    dirlookup devsw dp q f =
      match dlookup V x q with
      | None => Ret None f'
      | Some j' => (let! ip := iget ROOTDEV (de_inum (de_at V x j')) in ret (Some (ip, 16 * j'))) f'
      end.
Proof.
  intros Hf HL HD Hx Hq. pose proof (dir_size _ _ _ HD) as Hs. destruct (do_dense _ _ _ HD) as [Hsz _].
  assert (Hne : 0 <= nentries x) by lia.
  destruct (run_dirlookup_from start V k dp x q (Z.to_nat (i_size x / sizeof_dirent + 1)) f 0)
    as (f' & Hi & Hf' & R); auto; [lia|unfold sizeof_dirent; fold (nentries x); lia|].
  exists f'. split; [done|]. split; [done|]. unfold dirlookup. run (run_getip _ _ _ Hx).
  rewrite (do_type _ _ _ HD). cbn [T_DIR Z.eqb negb]. rewrite Z.mul_0_r, Z.sub_0_r in R. exact R.
Qed.

(** A lookup of a name that is there reads no further than its entry: the
    blocks after it need not be allocated. *)
Record dir_upto (start : Z) (V : Z -> block) (x : inode) (n : Z) : Prop := {
  du_wf : wf_file start V x;
  du_type : i_type x = T_DIR;
  du_size : i_size x mod 16 = 0;
  du_max : i_size x <= MAXFILE * BSIZE;
  du_end : 16 * n <= i_size x;
  du_block : forall i, 0 <= i < 16 * n -> fblock V x (i / BSIZE) <> 0
}.

Lemma run_read_dirent_upto start V k f dp x n j :
  fstx start f V ∅ k -> layout start V -> dir_upto start V x n -> fs_inode f !! dp = Some x -> 0 <= j < n ->
  exists f', read_dirent devsw dp (16 * j) f = Ret (de_at V x j) f' /\ fs_inode f' = fs_inode f /\
    fstx start f' V ∅ k.
Proof.
  intros Hf HL [Hw Ht Hs Hm He Hb] Hx Hj. assert (MAXFILE * BSIZE = 71680) by reflexivity.
  destruct (run_readi_range devsw start V k f dp x (16 * j) 16) as (f1 & R1 & Hi1 & Hf1); auto; try lia.
  { intros i Hi. apply Hb. lia. }
  { by rewrite Ht. }
  replace (Z.min 16 (i_size x - 16 * j)) with 16 in R1 by lia.
  exists f1. split; [|done]. unfold read_dirent, sizeof_dirent. run R1. done.
Qed.

Lemma run_dirlookup_found_from start V k dp x q n j' fuel f j :
  fstx start f V ∅ k -> layout start V -> dir_upto start V x n -> fs_inode f !! dp = Some x ->
  readable 14 q -> 0 <= j -> n - j <= Z.of_nat fuel ->
  List.find (match_at V x q) (seqZ j (n - j)) = Some j' ->
  exists f', fs_inode f' = fs_inode f /\ fstx start f' V ∅ k /\
    dirlookup_from devsw fuel dp (16 * j) q f =
      (let! ip := iget ROOTDEV (de_inum (de_at V x j')) in ret (Some (ip, 16 * j'))) f'.
Proof.
  intros Hf HL HD Hx Hq. revert f j Hf Hx. pose proof (du_end _ _ _ _ HD) as He.
  induction fuel as [|fuel IH]; intros f j Hf Hx Hj Hfuel Hfind;
    (destruct (decide (j < n)) as [Hlt|Hge]; [|by rewrite seqZ_nil in Hfind by lia]); [lia|].
  cbn [dirlookup_from]. run (run_getip _ _ _ Hx). rewrite (proj2 (Z.ltb_lt _ _)) by lia.
  destruct (run_read_dirent_upto start V k f dp x n j) as (f1 & R1 & Hi1 & Hf1); auto. run R1.
  rewrite seqZ_cons' in Hfind by lia. cbn [List.find] in Hfind. unfold match_at at 1 in Hfind.
  assert (Hx1 : fs_inode f1 !! dp = Some x) by congruence. replace (n - j - 1) with (n - (j + 1)) in Hfind by lia.
  unfold sizeof_dirent. replace (16 * j + 16) with (16 * (j + 1)) by lia.
  assert (Hrest : List.find (match_at V x q) (seqZ (j + 1) (n - (j + 1))) = Some j' ->
    exists f', fs_inode f' = fs_inode f /\ fstx start f' V ∅ k /\ dirlookup_from devsw fuel dp (16 * (j + 1)) q f1 =
      (let! ip := iget ROOTDEV (de_inum (de_at V x j')) in ret (Some (ip, 16 * j'))) f').
  { intros H. destruct (IH f1 (j + 1)) as (f2 & Hi2 & Hf2 & R2); auto; try lia. exists f2. split; [congruence|done]. }
  destruct (Z.eqb_spec (de_inum (de_at V x j)) 0) as [Hz|Hz]; cbn [negb andb] in Hfind; [by apply Hrest|].
  destruct (run_namecmp f1 q (de_name (de_at V x j)) Hq) as (r & R3 & Hr); [apply length_de_name, zlen_de_at|].
  run R3. destruct (Z.eqb_spec r 0) as [Er|Er].
  - rewrite bool_decide_true in Hfind by (by apply Hr). injection Hfind as <-. exists f1. split; [done|]. split; [done|].
    by rewrite (wf_dev _ _ _ (du_wf _ _ _ _ HD)).
  - rewrite bool_decide_false in Hfind by (by rewrite <- Hr). by apply Hrest.
Qed.

Lemma run_dirlookup_found start V k f dp x q n j' :
  fstx start f V ∅ k -> layout start V -> dir_upto start V x n -> fs_inode f !! dp = Some x ->
  readable 14 q -> 0 <= n -> List.find (match_at V x q) (seqZ 0 n) = Some j' ->
  exists f', fs_inode f' = fs_inode f /\ fstx start f' V ∅ k /\
    dirlookup devsw dp q f = (let! ip := iget ROOTDEV (de_inum (de_at V x j')) in ret (Some (ip, 16 * j'))) f'.
Proof.
  intros Hf HL HD Hx Hq Hn Hfind. pose proof (du_end _ _ _ _ HD) as He.
  destruct (run_dirlookup_found_from start V k dp x q n j' (Z.to_nat (i_size x / sizeof_dirent + 1)) f 0)
    as (f' & Hi & Hf' & R); auto; try lia.
  { unfold sizeof_dirent. dlia. }
  { by rewrite Z.sub_0_r. }
  exists f'. split; [done|]. split; [done|]. unfold dirlookup. run (run_getip _ _ _ Hx).
  rewrite (du_type _ _ _ _ HD). cbn [T_DIR Z.eqb negb]. rewrite Z.mul_0_r in R. exact R.
Qed.

(** The scan of dirlink: the first entry not in use, or the end. *)
Definition free_entry (V : Z -> block) (x : inode) : Z :=
  default (nentries x) (List.find (fun j => de_inum (de_at V x j) =? 0) (seqZ 0 (nentries x))).

Lemma run_empty_dirent start V k dp x fuel f j de :
  fstx start f V ∅ k -> layout start V -> dir_ok start V x -> fs_inode f !! dp = Some x ->
  zlen de = 16 -> 0 <= j <= nentries x -> nentries x - j <= Z.of_nat fuel ->
  exists f' de', fs_inode f' = fs_inode f /\ fstx start f' V ∅ k /\ zlen de' = 16 /\
    empty_dirent devsw fuel dp (16 * j) de f =
      Ret (16 * default (nentries x)
        (List.find (fun j => de_inum (de_at V x j) =? 0) (seqZ j (nentries x - j))), de') f'.
Proof.
  intros Hf HL HD Hx Hde. pose proof (dir_size _ _ _ HD) as Hs. revert f j de Hf Hx Hde.
  induction fuel as [|fuel IH]; intros f j de Hf Hx Hde Hj Hfuel; cbn [empty_dirent];
    run (run_getip _ _ _ Hx); destruct (Z.ltb_spec (16 * j) (i_size x)) as [Hlt|Hge]; try lia.
  1, 3: assert (j = nentries x) as -> by lia; exists f, de; rewrite Z.sub_diag; done.
  destruct (run_read_dirent start V k f dp x j) as (f1 & R1 & Hi1 & Hf1); auto; [lia|].
  run R1. rewrite seqZ_cons' by lia. cbn [List.find].
  destruct (Z.eqb_spec (de_inum (de_at V x j)) 0) as [Hz|Hz].
  - exists f1, (de_at V x j). split; [done|]. split; [done|]. split; [apply zlen_de_at|done].
  - assert (Hx1 : fs_inode f1 !! dp = Some x) by congruence.
    destruct (IH f1 (j + 1) (de_at V x j)) as (f2 & de' & Hi2 & Hf2 & Hl2 & R2); auto; try lia.
    replace (nentries x - (j + 1)) with (nentries x - j - 1) in R2 by lia.
    exists f2, de'. split; [congruence|]. split; [done|]. split; [done|].
    unfold sizeof_dirent. replace (16 * j + 16) with (16 * (j + 1)) by lia. exact R2.
Qed.

(** The entry dirlink builds. *)
Definition new_dirent (de : list Z) (q : list Z) (inum : Z) : list Z :=
  put16 0 (u16 inum) (splice 2 (cstr 14 q ++ replicate (14 - length (cstr 14 q)) 0) de).

Lemma new_dirent_ok de q inum :
  zlen de = 16 -> 0 <= inum < 65536 ->
  zlen (new_dirent de q inum) = 16 /\ de_inum (new_dirent de q inum) = inum /\
  cstr 14 (de_name (new_dirent de q inum)) = cstr 14 q.
Proof.
  intros Hde Hi. unfold new_dirent. pose proof (cstr_length 14 q) as Hl.
  set (nm := cstr 14 q ++ _). assert (Hn : zlen nm = 14).
  { unfold nm, zlen. rewrite length_app, length_replicate. lia. }
  assert (Hs : zlen (splice 2 nm de) = 16) by (rewrite length_splice; lia).
  split_and!.
  - rewrite zlen_put16; lia.
  - unfold de_inum. rewrite get16_put16_eq; [|lia|lia|apply u16_range].
    unfold u16. apply Z.mod_small. lia.
  - unfold de_name, put16, DIRSIZ. rewrite slice_splice_other; rewrite ?zlen_le_bytes; try lia.
    rewrite slice_splice_same by lia. apply cstr_padded.
Qed.

(** What a directory looks like after entry [j0] has been overwritten. *)
Lemma written_de_at start V x j0 de V' x' j :
  dir_ok start V x -> 0 <= j0 <= nentries x -> zlen de = 16 ->
  written start V x (16 * j0) 16 de V' x' -> 0 <= j < nentries x' ->
  de_at V' x' j = if decide (j = j0) then de else de_at V x j.
Proof.
  intros HD Hj0 Hde Hwn Hj. pose proof (dir_size _ _ _ HD) as Hs.
  destruct (wn_dense _ _ _ _ _ _ _ _ Hwn) as [Hsz' _]. unfold nentries in Hj.
  assert (Hb : forall i, 0 <= i < 16 -> fbyte V' x' (16 * j + i) =
    if decide (j = j0) then zget de i else fbyte V x (16 * j + i)).
  { intros i Hi. rewrite (wn_byte _ _ _ _ _ _ _ _ Hwn) by dlia.
    destruct (decide (j = j0)) as [->|Hne].
    - rewrite decide_True by lia. f_equal. lia.
    - by rewrite decide_False by lia. }
  apply list_eq. intros i. destruct (decide (i < 16)%nat) as [Hi|Hi].
  - unfold de_at at 1. rewrite lookup_fbytes, Hb by lia. case_decide.
    + unfold zget. rewrite Nat2Z.id. destruct (de !! i) as [v|] eqn:E; [by rewrite (nth_lookup_Some _ _ _ _ E)|].
      apply lookup_ge_None in E. unfold zlen in Hde. lia.
    + unfold de_at. by rewrite lookup_fbytes by lia.
  - pose proof (zlen_de_at V' x' j) as H1. pose proof (zlen_de_at V x j) as H2. unfold zlen in *.
    rewrite lookup_ge_None_2 by lia. case_decide; by rewrite lookup_ge_None_2 by lia.
Qed.

Lemma written_dir start V x j0 de V' x' :
  dir_ok start V x -> 0 <= j0 <= nentries x -> written start V x (16 * j0) 16 de V' x' ->
  dir_ok start V' x' /\ nentries x' = Z.max (nentries x) (j0 + 1).
Proof.
  intros HD Hj Hwn. pose proof (dir_size _ _ _ HD) as Hs. pose proof (wn_inode _ _ _ _ _ _ _ _ Hwn) as Hi.
  assert (Hs' : i_size x' = 16 * Z.max (nentries x) (j0 + 1)) by (rewrite Hi; cbn; lia).
  split; [|unfold nentries at 1; rewrite Hs'; dlia]. constructor.
  - apply (wn_wf _ _ _ _ _ _ _ _ Hwn).
  - apply (wn_dense _ _ _ _ _ _ _ _ Hwn).
  - rewrite Hi. apply (do_type _ _ _ HD).
  - rewrite Hs'. dlia.
Qed.

Lemma match_same V x q t j : cstr 14 q = cstr 14 t -> match_at V x q j = match_at V x t j.
Proof. intros E. unfold match_at. by rewrite E. Qed.

Lemma dlookup_none V x q j : dlookup V x q = None -> 0 <= j < nentries x -> match_at V x q j = false.
Proof.
  intros H Hj. eapply List.find_none in H; [done|]. by apply list_elem_of_In, elem_of_seqZ; lia.
Qed.

(** Lookups after a free entry of the directory has been given the name [t]. *)
Lemma dlookup_linked start V x j0 de t V' x' q :
  dir_ok start V x -> 0 <= j0 <= nentries x -> zlen de = 16 ->
  written start V x (16 * j0) 16 de V' x' ->
  (j0 < nentries x -> de_inum (de_at V x j0) = 0) ->
  de_inum de <> 0 -> cstr 14 (de_name de) = cstr 14 t -> dlookup V x t = None ->
  dlookup V' x' q = if decide (cstr 14 q = cstr 14 t) then Some j0 else dlookup V x q.
Proof.
  intros HD Hj0 Hde Hwn Hfree Hin Hnm Hno. destruct (written_dir _ _ _ _ _ _ _ HD Hj0 Hwn) as [_ Hne].
  assert (Hat : forall j, 0 <= j < nentries x' ->
    match_at V' x' q j = if decide (j = j0) then bool_decide (cstr 14 q = cstr 14 t) else match_at V x q j).
  { intros j Hj. unfold match_at at 1. rewrite (written_de_at start V x j0 de) by done.
    case_decide; [|done]. by rewrite Hnm, (proj2 (Z.eqb_neq _ _) Hin). }
  unfold dlookup at 1. destruct (decide (cstr 14 q = cstr 14 t)) as [Eq|Eq].
  - apply find_seqZ_unique; [lia| |].
    + rewrite Hat, decide_True by (lia || done). by apply bool_decide_true.
    + intros j Hj Hjj. rewrite Hat, decide_False by done. rewrite (match_same _ _ _ _ _ Eq).
      by apply dlookup_none; [|lia].
  - assert (Hfalse : match_at V' x' q j0 = false).
    { rewrite Hat, decide_True by (lia || done). by apply bool_decide_false. }
    assert (Hold : forall j, j ∈ seqZ 0 (nentries x) -> match_at V' x' q j = match_at V x q j).
    { intros j Hj%elem_of_seqZ. rewrite Hat by lia. destruct (decide (j = j0)) as [->|]; [|done].
      rewrite bool_decide_false by done. unfold match_at. by rewrite Hfree by lia. }
    rewrite Hne. destruct (decide (j0 = nentries x)) as [E|].
    + rewrite E in Hfalse |- *. rewrite Z.max_r by lia. rewrite find_seqZ_extend by (done || lia).
      by apply find_ext_in.
    + rewrite Z.max_l by lia. by apply find_ext_in.
Qed.

Lemma free_entry_spec V x : 0 <= nentries x ->
  0 <= free_entry V x <= nentries x /\
  (free_entry V x < nentries x -> de_inum (de_at V x (free_entry V x)) = 0).
Proof.
  intros Hn. unfold free_entry. destruct (List.find _ _) as [j|] eqn:E; cbn; [|lia].
  apply List.find_some in E as [Hin%list_elem_of_In%elem_of_seqZ Hz%Z.eqb_eq]. split; [lia|done].
Qed.

Lemma nblk_dirent j : 0 <= j -> nblk (16 * j) 16 = 1.
Proof. intros. unfold nblk, BSIZE. change (16 <=? 0) with false. cbn [Z.leb]. dlia. Qed.

(** A dirlink of a name the directory does not hold. *)
Lemma run_dirlink start V k f dp x de0 t inum :
  fstx start f V ∅ (k + 7) -> 0 <= k -> layout start V -> dir_ok start V x ->
  fs_inode f !! dp = Some x -> 0 <= i_inum x < sb_ninodes (sb_of (V 1)) ->
  zlen de0 = 16 -> readable 14 t -> 0 <= inum < 65536 -> dlookup V x t = None ->
  i_size x + 16 <= MAXFILE * BSIZE -> 2 <= Z.of_nat (size (free_set start V)) ->
  exists f' V' x' de, dirlink devsw de0 dp t inum f = Ret 0 f' /\ zlen de = 16 /\
    fs_inode f' = <[dp := x']> (fs_inode f) /\ fstx start f' V' ∅ k /\
    written start V x (16 * free_entry V x) 16 (new_dirent de t inum) V' x'.
Proof.
  intros Hf Hk HL HD Hx Hino Hde0 Ht Hin Hno Hmax Hfree. pose proof (dir_size _ _ _ HD) as Hs.
  destruct (do_dense _ _ _ HD) as [Hsz _]. destruct (free_entry_spec V x ltac:(lia)) as [Hj0 _].
  destruct (run_dirlookup start V (k + 7) f dp x t) as (f1 & Hi1 & Hf1 & R1); auto. rewrite Hno in R1.
  assert (Hx1 : fs_inode f1 !! dp = Some x) by congruence.
  destruct (run_empty_dirent start V (k + 7) dp x (Z.to_nat (i_size x / sizeof_dirent + 1)) f1 0 de0)
    as (f2 & de & Hi2 & Hf2 & Hde & R2); auto; [lia|unfold sizeof_dirent; fold (nentries x); lia|].
  rewrite Z.sub_0_r, Z.mul_0_r in R2. fold (free_entry V x) in R2.
  destruct (new_dirent_ok de t inum Hde Hin) as (Hl & _ & _).
  destruct (run_writei devsw start V k f2 dp x (16 * free_entry V x) 16 (new_dirent de t inum))
    as (f3 & V' & x' & R3 & Hi3 & Hf3 & Hwn); rewrite ?nblk_dirent by lia; auto; try lia; try apply HD.
  { by replace (k + 6 * 1 + 1) with (k + 7) by lia. } { congruence. }
  { rewrite (do_type _ _ _ HD). done. }
  exists f3, V', x', de. split; [|split_and!; auto; congruence].
  unfold dirlink. run R1. run (run_getip _ _ _ Hx1). run R2.
  pose proof (length_de_name de Hde) as Hdn.
  rewrite strncpy_run by (change (Z.to_nat DIRSIZ) with 14%nat; lia || done).
  change (Z.to_nat DIRSIZ) with 14%nat. rewrite (drop_ge (de_name de)) by lia. rewrite app_nil_r.
  fold (new_dirent de t inum). unfold sizeof_dirent. run R3. done.
Qed.

(** C27: a name entered by dirlink is the one dirlookup finds.  When a
    directory does not hold the name, dirlink returns 0; after it, looking up
    a name with the same first DIRSIZ characters gives the inode number that
    was linked, and every other name resolves as it did before. *)
Theorem dirlink_dirlookup start V k f dp x de0 t inum :
  fstx start f V ∅ (k + 7) -> 0 <= k -> layout start V -> dir_ok start V x ->
  fs_inode f !! dp = Some x -> 0 <= i_inum x < sb_ninodes (sb_of (V 1)) ->
  zlen de0 = 16 -> readable 14 t -> 0 < inum < 65536 -> dlookup V x t = None ->
  i_size x + 16 <= MAXFILE * BSIZE -> 2 <= Z.of_nat (size (free_set start V)) ->
  exists f1, dirlink devsw de0 dp t inum f = Ret 0 f1 /\
    forall q, readable 14 q ->
      exists f2, fs_inode f2 = fs_inode f1 /\
        dirlookup devsw dp q f1 =
          if decide (cstr 14 q = cstr 14 t) then
            (let! ip := iget ROOTDEV inum in ret (Some (ip, 16 * free_entry V x))) f2
          else match dlookup V x q with
               | None => Ret None f2
               | Some j => (let! ip := iget ROOTDEV (de_inum (de_at V x j)) in ret (Some (ip, 16 * j))) f2
               end.
Proof.
  intros Hf Hk HL HD Hx Hino Hde0 Ht Hin Hno Hmax Hfree.
  destruct (do_dense _ _ _ HD) as [Hsz _]. pose proof (dir_size _ _ _ HD) as Hs.
  destruct (free_entry_spec V x ltac:(lia)) as [Hj0 Hz].
  destruct (run_dirlink start V k f dp x de0 t inum) as (f1 & V1 & x1 & de & R1 & Hde & Hi1 & Hf1 & Hwn);
    auto; [lia|].
  destruct (new_dirent_ok de t inum) as (Hl & Hnum & Hnm); [done|lia|].
  destruct (written_dir start V x _ _ _ _ HD Hj0 Hwn) as [HD1 Hne].
  exists f1. split; [done|]. intros q Hq.
  destruct (run_dirlookup start V1 k f1 dp x1 q) as (f2 & Hi2 & Hf2 & R2); auto; [apply Hwn| |].
  { rewrite Hi1. apply list_lookup_insert_eq. by eapply lookup_lt_Some. }
  exists f2. split; [done|]. rewrite R2.
  rewrite (dlookup_linked start V x (free_entry V x) (new_dirent de t inum) t) by (done || lia).
  case_decide as E.
  - rewrite (written_de_at start V x (free_entry V x) (new_dirent de t inum)) by (done || lia).
    by rewrite decide_True, Hnum.
  - destruct (dlookup V x q) as [j|] eqn:Ej; [|done].
    apply List.find_some in Ej as [Hj%list_elem_of_In%elem_of_seqZ Hm].
    rewrite (written_de_at start V x (free_entry V x) (new_dirent de t inum)) by (done || lia).
    rewrite decide_False; [done|]. intros ->. unfold match_at in Hm. rewrite Hz in Hm by lia. done.
Qed.

End Dirs.

(** An empty directory, cached in entry 0. *)
Definition ex_dir : inode := MkInode ROOTDEV 2 1 3 T_DIR 0 0 1 0 (replicate 13 0).
Definition ex_dirfs : fs (bio Memide.memdisk) := MkFs (ex_log ex_image) [ex_dir].

Lemma ex_dir_ok : dir_ok 34 (blk ex_image) ex_dir.
Proof.
  constructor; [by apply wf_empty| |done|done].
  split; [vm_compute; split; done|]. intros i Hi. cbn in Hi. lia.
Qed.

Lemma ex_name_readable : readable 14 [97; 98; 0].
Proof. left. by right; right; left. Qed.

Lemma dirlink_dirlookup_witness :
  exists f1 f2, dirlink no_devs (replicate 16 0) 0 [97; 98; 0] 5 ex_dirfs = Ret 0 f1 /\
    dirlookup no_devs 0 [97; 98; 0] f1 = (let! ip := iget ROOTDEV 5 in ret (Some (ip, 0))) f2.
Proof.
  destruct (dirlink_dirlookup no_devs 34 (blk ex_image) 0 ex_dirfs 0 ex_dir (replicate 16 0) [97; 98; 0] 5
    (ex_fstx ex_image [ex_dir] 7 ex_image_ok ltac:(lia)) ltac:(lia) ex_layout ex_dir_ok eq_refl
    ltac:(vm_compute; split; done) eq_refl ex_name_readable ltac:(lia) eq_refl ltac:(vm_compute; done)
    ltac:(pose proof ex_free; lia)) as (f1 & R1 & H).
  destruct (H [97; 98; 0] ex_name_readable) as (f2 & _ & R2).
  exists f1, f2. exact (conj R1 R2).
Defined.
