(* ===== verification/Mkfs.v ===== *)
(** * The file system builder (mkfs.c): definitions

    mkfs writes the initial image on the host.  The image file is a map from
    sectors to their contents; a read of a sector that was never written fails,
    as it lies past the end of the file.  Writes to the image succeed.  The host
    is taken to be little-endian, like the target: a value laid out by [xint] is
    read back as the [uint] of the same bytes.

    The files to install are given by their names (with the terminating NUL) and
    what the successive calls of [read] return for them, or [None] for a file
    that cannot be opened.  A failed [assert] and [exit(1)] end the run. *)

From S2P Require Import Prelude.
From S2P Require Import Params.
From S2P Require Import Log.
From S2P Require Import CString.
From S2P Require Import Fs.

Module Mkfs.

Definition nblocks : Z := 995 - LOGSIZE.
Definition nlog : Z := LOGSIZE.
Definition ninodes : Z := 200.
Definition size : Z := 1024.

(** The image and the global counters. *)
Record mkst : Type := MkMk {
  mk_img : gmap Z block;
  freeblock : Z;
  usedblocks : Z;
  freeinode : Z
}.

Definition xshort (x : Z) : Z := le_value (le_bytes 2 x).
Definition xint (x : Z) : Z := le_value (le_bytes 4 x).

Definition exit1 {A} (msg : string) : M mkst A := panic msg.
Definition assert (b : bool) : M mkst unit := if b then ret tt else panic "assertion failed".

Definition wsect (sec : Z) (buf : block) : M mkst unit :=
  modify (fun s => MkMk (<[sec := buf]> (mk_img s)) (freeblock s) (usedblocks s) (freeinode s)).

Definition rsect (sec : Z) : M mkst block :=
  let! d := get (fun s => mk_img s !! sec) in
  match d with
  | Some d => ret d
  | None => exit1 "read"
  end.

Definition i2b (inum : Z) : Z := inum / IPB + 2.

Definition winode (inum : Z) (ip : dinode) : M mkst unit :=
  let! buf := rsect (i2b inum) in
  wsect (i2b inum) (write_dinode (inum mod IPB * sizeof_dinode) ip buf).

Definition rinode (inum : Z) : M mkst dinode :=
  let! buf := rsect (i2b inum) in
  ret (read_dinode (inum mod IPB * sizeof_dinode) buf).

Definition ialloc (type : Z) : M mkst Z :=
  let! inum := get freeinode in
  modify (fun s => MkMk (mk_img s) (freeblock s) (usedblocks s) (u32 (freeinode s + 1))) ;;
  winode inum (MkDinode (xshort type) 0 0 (xshort 1) (xint 0) (replicate 13 0)) ;;
  ret inum.

Definition balloc (used : Z) : M mkst unit :=
  assert (used <? 512 * 8) ;;
  wsect (ninodes / IPB + 3) (foldl (fun buf i => bit_set i buf) zero_block (seqZ 0 used)).

(** [freeblock++] with [usedblocks++]. *)
Definition next_block : M mkst Z :=
  let! b := get freeblock in
  modify (fun s => MkMk (mk_img s) (u32 (freeblock s + 1)) (u32 (usedblocks s + 1)) (freeinode s)) ;;
  ret b.

Definition set_daddr (k a : Z) (din : dinode) : dinode :=
  MkDinode (d_type din) (d_major din) (d_minor din) (d_nlink din) (d_size din) (zset (d_addrs din) k a).
Definition set_dsize (n : Z) (din : dinode) : dinode :=
  MkDinode (d_type din) (d_major din) (d_minor din) (d_nlink din) n (d_addrs din).

(** The entry of the indirect block for block number [fbn], filled on demand. *)
Definition iappend_entry (din : dinode) (fbn : Z) : M mkst (dinode * Z) :=
  let ind := xint (zget (d_addrs din) NDIRECT) in
  let! indirect := rsect ind in
  let! indirect :=
    (if get32 (4 * (fbn - NDIRECT)) indirect =? 0 then
       let! b := next_block in
       let indirect := put32 (4 * (fbn - NDIRECT)) (xint b) indirect in
       wsect ind indirect ;;
       ret indirect
     else ret indirect) in
  ret (din, xint (get32 (4 * (fbn - NDIRECT)) indirect)).

(** The block of the file that holds block number [fbn], allocated on demand. *)
Definition iappend_block (din : dinode) (fbn : Z) : M mkst (dinode * Z) :=
  if fbn <? NDIRECT then
    let! din :=
      (if xint (zget (d_addrs din) fbn) =? 0 then
         let! b := next_block in
         ret (set_daddr fbn (xint b) din)
       else ret din) in
    ret (din, xint (zget (d_addrs din) fbn))
  else
    let! din :=
      (if xint (zget (d_addrs din) NDIRECT) =? 0 then
         let! b := next_block in
         ret (set_daddr NDIRECT (xint b) din)
       else ret din) in
    iappend_entry din fbn.

(** The loop of iappend: each round stores at least one byte. *)
Fixpoint iappend_loop (fuel : nat) (din : dinode) (off n : Z) (p : list Z) : M mkst (dinode * Z) :=
  if n >? 0 then
    match fuel with
    | O => out_of_fuel
    | S fuel =>
        let fbn := off / 512 in
        assert (fbn <? MAXFILE) ;;
        let! (din, x) := iappend_block din fbn in
        let n1 := Z.min n ((fbn + 1) * 512 - off) in
        let! buf := rsect x in
        wsect x (splice (off - fbn * 512) (slice 0 n1 p) buf) ;;
        iappend_loop fuel din (off + n1) (n - n1) (drop (Z.to_nat n1) p)
    end
  else ret (din, off).

Definition iappend (inum : Z) (xp : list Z) (n : Z) : M mkst unit :=
  let! din := rinode inum in
  let! (din, off) := iappend_loop (Z.to_nat n) din (xint (d_size din)) n xp in
  winode inum (set_dsize (xint off) din).

(** A directory entry: zeroed, then the number and the name filled in. *)
Definition dirent (inum : Z) (name : option (list Z)) : M mkst (list Z) :=
  match name with
  | None => undef "the name has no end"
  | Some nm => ret (put16 0 (xshort inum) (splice 2 nm (replicate 16 0)))
  end.

Fixpoint append_reads (inum : Z) (reads : list (list Z)) : M mkst unit :=
  match reads with
  | [] => ret tt
  | buf :: reads =>
      let cc := zlen buf in
      if cc >? 0 then
        iappend inum buf cc ;;
        append_reads inum reads
      else ret tt
  end.

Definition skip_underscore (name : list Z) : list Z :=
  match name with
  | c :: rest => if c =? 95 then rest else name
  | [] => []
  end.

(** One file of the command line. *)
Definition add_file (rootino : Z) (f : list Z * option (list (list Z))) : M mkst unit :=
  match Ulib.strchr f.1 slash with
  | None => undef "the name has no end"
  | Some r =>
      assert (match r with None => true | Some _ => false end) ;;
      match f.2 with
      | None => exit1 "open"
      | Some reads =>
          let name := skip_underscore f.1 in
          let! inum := ialloc T_FILE in
          let! de := dirent inum (KString.strncpy (replicate 14 0) name (Z.to_nat DIRSIZ)) in
          iappend rootino de sizeof_dirent ;;
          append_reads inum reads
      end
  end.

Fixpoint add_files (rootino : Z) (files : list (list Z * option (list (list Z)))) : M mkst unit :=
  match files with
  | [] => ret tt
  | f :: files => add_file rootino f ;; add_files rootino files
  end.

Fixpoint zero_sects (n : nat) (i : Z) : M mkst unit :=
  match n with
  | O => ret tt
  | S n => wsect i zero_block ;; zero_sects n (i + 1)
  end.

(** The superblock as laid out by [memset] and [memmove]. *)
Definition sb_block : block :=
  put32 12 (xint nlog) (put32 8 (xint ninodes) (put32 4 (xint nblocks) (put32 0 (xint size) zero_block))).

(** The size of the root directory is rounded up to whole blocks; a size that is
    already a multiple of BSIZE grows by one block. *)
Definition fix_root (rootino : Z) : M mkst unit :=
  let! din := rinode rootino in
  let off := xint (d_size din) in
  let off := u32 ((off / BSIZE + 1) * BSIZE) in
  winode rootino (set_dsize (xint off) din).

Definition main (files : list (list Z * option (list (list Z)))) : M mkst unit :=
  let bitblocks := size / (512 * 8) + 1 in
  let used := ninodes / IPB + 3 + bitblocks in
  modify (fun s => MkMk (mk_img s) used used (freeinode s)) ;;
  assert (nblocks + used + nlog =? size) ;;
  zero_sects (Z.to_nat (nblocks + used + nlog)) 0 ;;
  wsect 1 sb_block ;;
  let! rootino := ialloc T_DIR in
  assert (rootino =? ROOTINO) ;;
  let! de := dirent rootino (Ulib.strcpy (replicate 14 0) [46; 0]) in
  iappend rootino de sizeof_dirent ;;
  let! de := dirent rootino (Ulib.strcpy (replicate 14 0) [46; 46; 0]) in
  iappend rootino de sizeof_dirent ;;
  add_files rootino files ;;
  fix_root rootino ;;
  let! used := get usedblocks in
  balloc used.

(** The globals at the start. *)
Definition mk0 : mkst := MkMk ∅ 0 0 1.

End Mkfs.
