(* ===== verification/MkfsProps.v ===== *)
(** * What mkfs writes is a file system the kernel reads

    While mkfs runs, the bitmap on the image is not written yet.  [mk_rep] relates
    the image to the contents [V] it has with the bitmap of the blocks handed out
    so far.  In terms of [V] mkfs allocates like the kernel's balloc, so the facts
    about files of FsFile.v apply; balloc at the end makes [V] the image. *)

From S2P Require Import Prelude.
From S2P Require Import Params.
From S2P Require Import Disk.
From S2P Require Import BufSpec.
From S2P Require Import Bio.
From S2P Require Import Log.
From S2P Require Import LogCrash.
From S2P Require Import LogOps.
From S2P Require Import CString.
From S2P Require Import Fs.
From S2P Require Import FsTx.
From S2P Require Import FsAlloc.
From S2P Require Import FsInode.
From S2P Require Import FsFile.
From S2P Require Import FsDir.
From S2P Require Import Mkfs.
Import Mkfs.

(** The first block of the log: files end below it. *)
Definition mk_start : Z := size - nlog.
Definition mk_meta : Z := 29.

(** The bitmap block with the first [n] blocks in use. *)
Definition bits (n : Z) : block := foldl (fun buf i => bit_set i buf) zero_block (seqZ 0 n).

Lemma bits_S n : 0 <= n -> bits (n + 1) = bit_set n (bits n).
Proof. intros Hn. unfold bits. rewrite seqZ_app by lia. rewrite foldl_app, Z.add_0_l. done. Qed.

Lemma bits_spec (n : nat) : Z.of_nat n <= BPB ->
  zlen (bits (Z.of_nat n)) = BSIZE /\
  forall i, 0 <= i < BPB -> bit_free i (bits (Z.of_nat n)) = negb (i <? Z.of_nat n).
Proof.
  induction n as [|n IH]; intros Hn.
  - split; [done|]. intros i Hi. change (bits (Z.of_nat 0)) with zero_block. rewrite (proj2 (Z.ltb_ge _ _)) by lia.
    unfold bit_free. by rewrite zget_zero_block.
  - destruct IH as [Hl Hb]; [lia|]. rewrite Nat2Z.inj_succ, <- Z.add_1_r, bits_S by lia.
    split; [by rewrite zlen_bit_set|]. intros i Hi. rewrite bit_free_set, Hb by (done || lia). lia.
Qed.

Lemma zlen_bits n : 0 <= n <= BPB -> zlen (bits n) = BSIZE.
Proof. intros Hn. rewrite <- (Z2Nat.id n) by lia. apply bits_spec. lia. Qed.

Lemma bit_free_bits n i : 0 <= n <= BPB -> 0 <= i < BPB -> bit_free i (bits n) = negb (i <? n).
Proof. intros Hn Hi. rewrite <- (Z2Nat.id n) by lia. apply bits_spec; lia. Qed.

Lemma xint_id x : is_u32 x -> xint x = x.
Proof. intros Hx. unfold xint. apply le_value_bytes. unfold is_u32 in Hx. cbn. lia. Qed.

Lemma sb_of_sb : sb_of sb_block = MkSb 1024 965 200 30.
Proof. vm_compute. done. Qed.

Lemma zlen_sb : zlen sb_block = BSIZE.
Proof. vm_compute. done. Qed.

Record mk_rep (s : mkst) (V : Z -> block) : Prop := {
  mr_view : forall b, 0 <= b < size -> b <> 28 -> mk_img s !! b = Some (V b);
  mr_bits : V 28 = bits (freeblock s);
  mr_len : forall b, 0 <= b < size -> zlen (V b) = BSIZE;
  mr_sb : V 1 = sb_block;
  mr_zero : forall b, freeblock s <= b < size -> V b = zero_block;
  mr_used : usedblocks s = freeblock s;
  mr_range : mk_meta <= freeblock s <= mk_start
}.

Section Rep.
Context (s : mkst) (V : Z -> block).
Hypothesis R : mk_rep s V.

Lemma mr_bmblock b : 0 <= b < size -> bmblock V b = 28.
Proof using R.
  intros Hb. unfold bmblock. rewrite (mr_sb _ _ R), sb_of_sb. cbn [sb_ninodes]. unfold BBLOCK.
  change (200 / IPB) with 25. unfold size in Hb. rewrite Z.div_small by (unfold BPB, BSIZE; lia). done.
Qed.

Lemma mr_used_spec b : 0 <= b < size -> used V b = (b <? freeblock s).
Proof using R.
  intros Hb. unfold used. fold (bmblock V b). rewrite mr_bmblock, (mr_bits _ _ R) by done.
  pose proof (mr_range _ _ R). unfold mk_start, mk_meta, size, nlog, LOGSIZE, MAXOPBLOCKS in *.
  rewrite Z.mod_small by (unfold BPB, BSIZE; lia).
  rewrite bit_free_bits by (unfold BPB, BSIZE; lia). apply negb_involutive.
Qed.

Lemma mr_layout : layout mk_start V.
Proof using R.
  pose proof (mr_range _ _ R). constructor; rewrite ?(mr_sb _ _ R), ?sb_of_sb; cbn [sb_size sb_ninodes]; try done.
  - intros b Hb. change (BBLOCK b 200) with (BBLOCK b (sb_ninodes (MkSb 1024 965 200 30))).
    rewrite <- sb_of_sb, <- (mr_sb _ _ R). fold (bmblock V b). by rewrite mr_bmblock.
  - change (BBLOCK (1024 - 1) 200) with 28. intros b Hb. unfold mk_meta in *.
    rewrite mr_used_spec by (unfold size; lia). lia.
Qed.

Lemma mr_first_free : freeblock s < mk_start -> first_free mk_start V (freeblock s).
Proof using R.
  intros Hf. pose proof (mr_range _ _ R). unfold first_free. rewrite (mr_sb _ _ R), sb_of_sb. cbn [sb_size].
  unfold mk_start, mk_meta, size, nlog, LOGSIZE, MAXOPBLOCKS in *. split_and!; try lia.
  - rewrite mr_used_spec by (unfold size; lia). lia.
  - intros x Hx. rewrite mr_used_spec by (unfold size; lia). lia.
Qed.

Lemma mr_len_start b : 0 <= b < mk_start -> zlen (V b) = BSIZE.
Proof using R.
  intros Hb. apply (mr_len _ _ R). unfold mk_start, size, nlog, LOGSIZE, MAXOPBLOCKS in *. lia.
Qed.

Lemma mr_data a : mk_meta <= a < freeblock s <-> data_block mk_start V a.
Proof using R.
  pose proof (mr_range _ _ R). unfold data_block.
  rewrite (mr_sb _ _ R), sb_of_sb. cbn [sb_size]. rewrite mr_bmblock by done.
  unfold mk_start, mk_meta, size, nlog, LOGSIZE, MAXOPBLOCKS in *. split.
  - intros Ha. rewrite mr_used_spec by (unfold size; lia). lia.
  - intros (H1 & H2 & H3). rewrite mr_used_spec in H3 by (unfold size; lia). lia.
Qed.

Lemma run_rsect b : 0 <= b < size -> b <> 28 -> rsect b s = Ret (V b) s.
Proof using R.
  intros Hb H28. unfold rsect. rewrite (bind_run _ _ s (mk_img s !! b) s) by done. by rewrite (mr_view _ _ R).
Qed.

Lemma run_wsect b d : 0 <= b < freeblock s -> b <> 28 -> b <> 1 -> zlen d = BSIZE ->
  exists s', wsect b d s = Ret tt s' /\ mk_rep s' (upd V b d) /\
    freeblock s' = freeblock s /\ freeinode s' = freeinode s.
Proof using R.
  intros Hb H28 H1 Hd. eexists. split; [done|]. split; [|done].
  pose proof (mr_range _ _ R). unfold mk_start, size, nlog, LOGSIZE, MAXOPBLOCKS, mk_meta in *.
  constructor; cbn [mk_img freeblock usedblocks].
  - intros c Hc Hc28. destruct (decide (b = c)) as [->|Hne]; [by rewrite lookup_insert_eq, upd_eq|].
    rewrite lookup_insert_ne, upd_ne by done. by apply (mr_view _ _ R).
  - rewrite upd_ne by done. apply R.
  - intros c Hc. destruct (decide (c = b)) as [->|Hne]; [by rewrite upd_eq|].
    rewrite upd_ne by done. by apply (mr_len _ _ R).
  - rewrite upd_ne by done. apply R.
  - intros c Hc. rewrite upd_ne by lia. by apply (mr_zero _ _ R).
  - apply R.
  - done.
Qed.

(** In terms of [V], mkfs takes the next block as balloc does. *)
Lemma run_next_block : freeblock s < mk_start ->
  exists s', next_block s = Ret (freeblock s) s' /\ mk_rep s' (alloc_at V (freeblock s)) /\
    freeblock s' = freeblock s + 1 /\ freeinode s' = freeinode s.
Proof using R.
  intros Hf. eexists. split; [done|]. cbn [freeblock freeinode].
  pose proof (mr_range _ _ R) as Hr. pose proof (mr_used _ _ R) as Hus.
  unfold mk_start, size, nlog, LOGSIZE, MAXOPBLOCKS, mk_meta in *.
  rewrite u32_small by (unfold is_u32; lia). split; [|done].
  assert (E : alloc_at V (freeblock s) = upd (upd V 28 (bit_set (freeblock s) (bits (freeblock s)))) (freeblock s) zero_block).
  { unfold alloc_at. rewrite mr_bmblock by (unfold size; lia). rewrite (mr_bits _ _ R).
    by rewrite (Z.mod_small (freeblock s)) by (unfold BPB, BSIZE; lia). }
  rewrite E. constructor; cbn [mk_img freeblock usedblocks]; rewrite ?Hus, ?u32_small by (unfold is_u32; lia); try done.
  - intros c Hc Hc28. destruct (decide (c = freeblock s)) as [->|Hne].
    + rewrite upd_eq, <- (mr_zero _ _ R (freeblock s)) by (unfold size in *; lia). by apply (mr_view _ _ R).
    + rewrite !upd_ne by done. by apply (mr_view _ _ R).
  - rewrite upd_ne, upd_eq, bits_S by lia. done.
  - intros c Hc. destruct (decide (c = freeblock s)) as [->|Hne]; [by rewrite upd_eq|].
    rewrite upd_ne by done. destruct (decide (c = 28)) as [->|Hne']; [|rewrite upd_ne by done; by apply (mr_len _ _ R)].
    rewrite upd_eq, zlen_bit_set. apply zlen_bits. unfold BPB, BSIZE. lia.
  - rewrite !upd_ne by lia. apply R.
  - intros c Hc. rewrite !upd_ne by lia. apply (mr_zero _ _ R). lia.
  - unfold mk_meta, mk_start, size, nlog, LOGSIZE, MAXOPBLOCKS. lia.
Qed.

End Rep.

(** ** Appending *)

(** The file has exactly the blocks that its first [off] bytes need. *)
Definition tight (V : Z -> block) (x : inode) (off : Z) : Prop :=
  (forall bn, 0 <= bn < MAXFILE -> fblock V x bn <> 0 <-> bn * 512 < off) /\
  (zget (i_addrs x) NDIRECT <> 0 <-> NDIRECT * 512 < off).

(** The blocks a file of [n] bytes takes, its indirect block included. *)
Definition blocks_of (n : Z) : Z := (n + 511) / 512 + (if n >? NDIRECT * 512 then 1 else 0).

(** What byte [off] needs beyond what the bytes below it do. *)
Definition new_blocks (off : Z) : Z := blocks_of (off + 1) - blocks_of off.

Lemma new_blocks_cases off : 0 <= off ->
  new_blocks off = if off mod 512 =? 0 then (if off / 512 =? NDIRECT then 2 else 1) else 0.
Proof.
  intros Ho. unfold new_blocks, blocks_of, NDIRECT.
  assert (off = 512 * (off / 512) + off mod 512 /\ 0 <= off mod 512 < 512) as [E Hr] by dlia.
  set (q := off / 512) in *. set (r := off mod 512) in *. rewrite E.
  assert (E1 : (512 * q + r + 1 + 511) / 512 = q + 1) by dlia. rewrite E1.
  destruct (Z.eqb_spec r 0) as [Hr0|Hr0].
  - assert (E2 : (512 * q + r + 511) / 512 = q) by dlia. rewrite E2.
    destruct (Z.eqb_spec q 12); destruct (_ >? _) eqn:E3; destruct (512 * q + r >? _) eqn:E4; lia.
  - assert (E2 : (512 * q + r + 511) / 512 = q + 1) by dlia. rewrite E2.
    destruct (_ >? _) eqn:E3; destruct (512 * q + r >? _) eqn:E4; lia.
Qed.

Lemma blocks_of_chunk off n : 0 <= off -> 0 < n <= (off / 512 + 1) * 512 - off ->
  blocks_of (off + n) = blocks_of off + new_blocks off.
Proof.
  intros Ho Hn. unfold new_blocks, blocks_of, NDIRECT.
  assert (E : (off + n + 511) / 512 = (off + 1 + 511) / 512) by dlia. rewrite E.
  assert ((off + n >? 12 * 512) = (off + 1 >? 12 * 512)) as -> by dlia. lia.
Qed.

Lemma tight_chunk V x off off' : tight V x (off + 1) -> 0 <= off -> off + 1 <= off' <= (off / 512 + 1) * 512 ->
  tight V x off'.
Proof.
  unfold NDIRECT. intros [Hb Hi] Ho Hc. split.
  - intros bn Hn. rewrite Hb by done. dlia.
  - rewrite Hi. unfold NDIRECT. dlia.
Qed.

(** Small addresses are not changed by a conversion. *)
Lemma xint_block s V a : mk_rep s V -> a = 0 \/ data_block mk_start V a -> xint a = a.
Proof.
  intros R [->|Ha]; [done|]. apply xint_id. apply (mr_data _ _ R) in Ha. pose proof (mr_range _ _ R).
  unfold is_u32, mk_start, size, nlog, LOGSIZE, MAXOPBLOCKS, mk_meta in *. lia.
Qed.

Lemma data_or_zero start V x bn : wf_file start V x -> 0 <= bn < MAXFILE ->
  fblock V x bn = 0 \/ data_block start V (fblock V x bn).
Proof. intros Hw Hn. destruct (Z.eq_dec (fblock V x bn) 0); [by left|right; by apply (wf_data _ _ _ Hw)]. Qed.

Lemma ind_or_zero start V x : wf_file start V x ->
  zget (i_addrs x) NDIRECT = 0 \/ data_block start V (zget (i_addrs x) NDIRECT).
Proof. intros Hw. destruct (Z.eq_dec (zget (i_addrs x) NDIRECT) 0); [by left|right; by apply (wf_ind _ _ _ Hw)]. Qed.

(** Filling the hole at the end of a file makes it one byte longer. *)
Lemma tight_grows V x bn b V' x' : grows mk_start V x bn b V' x' -> 0 <= bn < MAXFILE -> b <> 0 ->
  tight V x (bn * 512) -> (zget (i_addrs x') NDIRECT <> 0 <-> NDIRECT <= bn) -> tight V' x' (bn * 512 + 1).
Proof.
  intros G Hn Hb [Ht _] Hi. split.
  - intros n Hn'. rewrite (gr_map _ _ _ _ _ _ _ G) by done. case_decide as E; [subst; lia|]. rewrite Ht by done. lia.
  - rewrite Hi. unfold NDIRECT. lia.
Qed.

(** The superblock and the inodes are not touched. *)
Definition low_kept (V V' : Z -> block) : Prop := forall b, b < 28 -> V' b = V b.

Lemma low_alloc s V : mk_rep s V -> freeblock s < mk_start -> low_kept V (alloc_at V (freeblock s)).
Proof.
  intros R Hf b Hb. pose proof (mr_range _ _ R). unfold alloc_at.
  rewrite (mr_bmblock s V R) by (unfold mk_start, size, nlog, LOGSIZE, MAXOPBLOCKS, mk_meta in *; lia).
  unfold mk_meta in *. by rewrite !upd_ne by lia.
Qed.

(** The indirect block is there; its entry may have to be filled. *)
Lemma run_iappend_entry s V x bn : mk_rep s V -> wf_file mk_start V x -> NDIRECT <= bn < MAXFILE ->
  zget (i_addrs x) NDIRECT <> 0 -> (fblock V x bn = 0 -> freeblock s < mk_start) ->
  exists s' V', iappend_entry (to_dinode x) bn s = Ret (to_dinode x, fblock V' x bn) s' /\ mk_rep s' V' /\
    mapped mk_start V x V' x /\ fblock V' x bn <> 0 /\
    (forall n, 0 <= n < MAXFILE -> fblock V' x n <> 0 <-> n = bn \/ fblock V x n <> 0) /\
    freeblock s' = freeblock s + (if fblock V x bn =? 0 then 1 else 0) /\ freeinode s' = freeinode s /\
    low_kept V V'.
Proof.
  intros R Hw Hn Hi Hfree. unfold iappend_entry. change (d_addrs (to_dinode x)) with (i_addrs x).
  pose proof (wf_ind _ _ _ Hw Hi) as Hd. rewrite (xint_block s V) by (done || by right).
  set (ind := zget (i_addrs x) NDIRECT) in *. pose proof Hd as Hdr. apply (mr_data _ _ R) in Hdr.
  pose proof (mr_range _ _ R) as Hr. assert (Hn0 : 0 <= bn < MAXFILE) by (unfold NDIRECT in Hn; lia).
  assert (Hir : 0 <= ind < size /\ ind <> 28 /\ ind <> 1).
  { unfold mk_start, size, nlog, LOGSIZE, MAXOPBLOCKS, mk_meta in *. lia. }
  rewrite (bind_run _ _ _ _ _ (run_rsect s V R ind ltac:(lia) ltac:(lia))). cbv beta.
  assert (Ef : get32 (4 * (bn - NDIRECT)) (V ind) = fblock V x bn).
  { unfold fblock. rewrite (proj2 (Z.ltb_ge _ _)) by lia. fold ind. by rewrite (proj2 (Z.eqb_neq _ _)). }
  rewrite Ef. destruct (Z.eqb_spec (fblock V x bn) 0) as [Hz|Hz].
  - specialize (Hfree Hz). destruct (run_next_block s V R Hfree) as (s1 & E1 & R1 & F1 & I1).
    pose proof (mr_first_free s V R Hfree) as Hff.
    pose proof (grow_entry mk_start V x (freeblock s) bn (mr_layout _ _ R) (mr_len_start _ _ R) Hw Hff ltac:(done) Hn Hi Hz) as G.
    cbv zeta in G. fold ind in G. set (b := freeblock s) in *.
    rewrite (alloc_keeps mk_start V b Hff ind Hd) in G.
    assert (Hb : xint b = b) by (apply xint_id; unfold is_u32, mk_start, size, nlog, LOGSIZE, MAXOPBLOCKS, mk_meta in *; lia).
    assert (Hl : zlen (put32 (4 * (bn - NDIRECT)) b (V ind)) = BSIZE).
    { rewrite zlen_put32; rewrite ?(mr_len _ _ R ind) by lia; [done|unfold NDIRECT in *; lia|].
      unfold BSIZE, MAXFILE, NDIRECT, NINDIRECT in *. change (BSIZE / 4) with 128 in *. lia. }
    set (d := put32 (4 * (bn - NDIRECT)) b (V ind)) in *.
    destruct (run_wsect s1 _ R1 ind d ltac:(lia) ltac:(lia) ltac:(lia) Hl) as (s2 & E2 & R2 & F2 & I2).
    set (V2 := upd (alloc_at V b) ind d) in *.
    assert (Hfx : fblock V2 x bn = b) by (rewrite (gr_map _ _ _ _ _ _ _ G) by done; by rewrite decide_True).
    assert (Hb0 : b <> 0) by (unfold mk_meta in Hr; lia).
    exists s2, V2. split_and!; auto; try lia; try congruence.
    + rewrite (bind_run _ _ s d s2) by (rewrite (bind_run _ _ _ _ _ E1); cbv beta; rewrite Hb; fold d; rewrite (bind_run _ _ _ _ _ E2); done).
      cbv beta. unfold ret. do 2 f_equal. rewrite Hfx.
      assert (Ed : get32 (4 * (bn - NDIRECT)) d = b).
      { transitivity (fblock V2 x bn); [|exact Hfx]. unfold fblock. rewrite (proj2 (Z.ltb_ge _ _)) by lia. fold ind.
        rewrite (proj2 (Z.eqb_neq _ _)) by done. unfold V2. by rewrite upd_eq. }
      by rewrite Ed.
    + eapply grows_mapped; [done|by apply (mr_layout s2)|exact G|by destruct x].
    + intros n Hn'. rewrite (gr_map _ _ _ _ _ _ _ G) by done. case_decide; [naive_solver|]. naive_solver.
    + intros c Hc. unfold V2. unfold mk_meta in Hdr. rewrite upd_ne by lia. by apply (low_alloc s V).
  - exists s, V. split_and!; auto; try lia.
    + rewrite (bind_run _ _ s (V ind) s) by done. cbv beta. unfold ret. do 2 f_equal. rewrite Ef.
      apply (xint_block s V); [done|by apply data_or_zero].
    + apply mapped_refl; [by apply (mr_layout s)|done].
    + intros n Hn'. naive_solver.
    + by intros c Hc.
Qed.

Section Append.
Context (s : mkst) (V : Z -> block) (x : inode) (off : Z).
Hypothesis R : mk_rep s V.
Hypothesis Hw : wf_file mk_start V x.
Hypothesis Ht : tight V x off.
Hypothesis Ho : 0 <= off < MAXFILE * BSIZE.
Hypothesis Hfree : freeblock s + new_blocks off <= mk_start.
Let fbn := off / 512.

(** What the allocating part of a round of iappend achieves. *)
Definition block_ready (m : M mkst (dinode * Z)) : Prop :=
  exists s' V' x', m s = Ret (to_dinode x', fblock V' x' fbn) s' /\ mk_rep s' V' /\
    mapped mk_start V x V' x' /\ fblock V' x' fbn <> 0 /\ tight V' x' (off + 1) /\
    freeblock s' = freeblock s + new_blocks off /\ freeinode s' = freeinode s /\ low_kept V V'.

Lemma fbn_range : 0 <= fbn < MAXFILE.
Proof using Ho. unfold fbn. change 512 with BSIZE. by apply fbyte_index. Qed.

(** Nothing to allocate. *)
Lemma block_present : off mod 512 <> 0 ->
  mapped mk_start V x V x /\ fblock V x fbn <> 0 /\ tight V x (off + 1) /\ new_blocks off = 0.
Proof using R Hw Ht Ho.
  intros Hm. pose proof fbn_range as Hn. split_and!.
  - apply mapped_refl; [by apply (mr_layout s)|done].
  - apply Ht; [done|]. unfold fbn. dlia.
  - destruct Ht as [H1 H2]. unfold NDIRECT in H2. split.
    + intros bn Hb. rewrite H1 by done. dlia.
    + unfold NDIRECT. rewrite H2. dlia.
  - rewrite new_blocks_cases by lia. by rewrite (proj2 (Z.eqb_neq _ _)).
Qed.

Lemma iappend_direct : fbn < NDIRECT -> block_ready (iappend_block (to_dinode x) fbn).
Proof using R Hw Ht Ho Hfree.
  intros Hd. pose proof fbn_range as Hn. unfold iappend_block. rewrite (proj2 (Z.ltb_lt _ _)) by done.
  assert (Ef : zget (i_addrs x) fbn = fblock V x fbn) by (unfold fblock; by rewrite (proj2 (Z.ltb_lt _ _))).
  change (d_addrs (to_dinode x)) with (i_addrs x). rewrite Ef.
  rewrite (xint_block s V) by (done || by apply data_or_zero).
  destruct (Z.eq_dec (off mod 512) 0) as [Hm|Hm].
  - assert (Hz : fblock V x fbn = 0) by (destruct (Z.eq_dec (fblock V x fbn) 0) as [|Hz]; [done|]; apply Ht in Hz; [unfold fbn in Hz; dlia|done]).
    assert (Hg : new_blocks off = 1).
    { rewrite new_blocks_cases, Hm by lia. cbn. fold fbn. by rewrite (proj2 (Z.eqb_neq _ _)) by lia. }
    rewrite Hz. cbn [Z.eqb]. pose proof (mr_range _ _ R) as Hr.
    destruct (run_next_block s V R ltac:(lia)) as (s1 & E1 & R1 & F1 & I1).
    pose proof (mr_first_free s V R ltac:(lia)) as Hff.
    pose proof (grow_direct mk_start V x (freeblock s) (mr_layout _ _ R) (mr_len_start _ _ R) Hw Hff fbn ltac:(lia) ltac:(congruence)) as G.
    set (b := freeblock s) in *.
    assert (Hb : xint b = b) by (apply xint_id; unfold is_u32, mk_start, size, nlog, LOGSIZE, MAXOPBLOCKS, mk_meta in *; lia).
    set (x1 := set_addr fbn b x) in *.
    assert (Hfx : fblock (alloc_at V b) x1 fbn = b) by (rewrite (gr_map _ _ _ _ _ _ _ G) by done; by rewrite decide_True).
    assert (Hb0 : b <> 0) by (unfold mk_meta in Hr; lia).
    exists s1, (alloc_at V b), x1. split_and!.
    + rewrite (bind_run _ _ s (to_dinode x1) s1) by (rewrite (bind_run _ _ _ _ _ E1); cbv beta; by rewrite Hb).
      cbv beta. unfold ret. do 2 f_equal. change (d_addrs (to_dinode x1)) with (i_addrs x1).
      rewrite Hfx. unfold fblock in Hfx. rewrite (proj2 (Z.ltb_lt fbn NDIRECT)) in Hfx by done. by rewrite Hfx.
    + done.
    + eapply grows_mapped; [done|by apply (mr_layout s1)|exact G|done].
    + congruence.
    + replace (off + 1) with (fbn * 512 + 1) by (unfold fbn; dlia).
      apply (tight_grows V x fbn b); auto; [by replace (fbn * 512) with off by (unfold fbn; dlia)|].
      unfold NDIRECT, x1 in *. rewrite (zget_set_addr mk_start V x Hw) by lia. rewrite decide_False by lia.
      destruct Ht as [_ Hti]. unfold NDIRECT in Hti. rewrite Hti. unfold fbn in *. dlia.
    + lia.
    + done.
    + apply (low_alloc s V); [done|lia].
  - destruct (block_present Hm) as (Hmp & Hne & Ht1 & Hg). rewrite (proj2 (Z.eqb_neq _ _)) by done.
    exists s, V, x. split_and!; auto; [|lia|by intros c Hc]. rewrite (bind_run _ _ s (to_dinode x) s) by done. cbv beta.
    unfold ret. do 2 f_equal. change (d_addrs (to_dinode x)) with (i_addrs x). rewrite Ef.
    apply (xint_block s V); [done|by apply data_or_zero].
Qed.

Lemma iappend_indirect : NDIRECT <= fbn -> block_ready (iappend_block (to_dinode x) fbn).
Proof using R Hw Ht Ho Hfree.
  intros Hd. pose proof fbn_range as Hn. unfold iappend_block. rewrite (proj2 (Z.ltb_ge _ _)) by done.
  change (d_addrs (to_dinode x)) with (i_addrs x). rewrite (xint_block s V) by (done || by apply ind_or_zero).
  pose proof (new_blocks_cases off ltac:(lia)) as Hg. fold fbn in Hg. pose proof (mr_range _ _ R) as Hr.
  destruct Ht as [Htb Hti]. unfold NDIRECT in Hti.
  destruct (Z.eqb_spec (zget (i_addrs x) NDIRECT) 0) as [Hz|Hz].
  - assert (Hoff : off = 6144).
    { assert (~ 12 * 512 < off) by (rewrite <- Hti; unfold NDIRECT in Hz; lia). unfold NDIRECT, fbn in Hd. dlia. }
    assert (Ef : fbn = 12) by (unfold fbn; by rewrite Hoff).
    assert (Hg2 : new_blocks off = 2) by (rewrite Hg, Ef, Hoff; done).
    destruct (run_next_block s V R ltac:(lia)) as (s1 & E1 & R1 & F1 & I1).
    pose proof (mr_first_free s V R ltac:(lia)) as Hff.
    pose proof (grow_indirect mk_start V x (freeblock s) (mr_layout _ _ R) (mr_len_start _ _ R) Hw Hff fbn ltac:(lia) Hz) as G.
    set (b := freeblock s) in *.
    assert (Hb : xint b = b) by (apply xint_id; unfold is_u32, mk_start, size, nlog, LOGSIZE, MAXOPBLOCKS, mk_meta in *; lia).
    set (x1 := set_addr NDIRECT b x) in *. pose proof (grows_wf _ _ _ _ _ _ _ Hw G) as Hw1.
    assert (Hi1 : zget (i_addrs x1) NDIRECT = b).
    { unfold x1, NDIRECT. rewrite (zget_set_addr mk_start V x Hw) by lia. by rewrite decide_True. }
    assert (Hf1 : forall n, 0 <= n < MAXFILE -> fblock (alloc_at V b) x1 n = if decide (n = fbn) then 0 else fblock V x n)
      by (intros; by apply G).
    destruct (run_iappend_entry s1 (alloc_at V b) x1 fbn R1 Hw1 ltac:(lia)) as (s2 & V2 & E2 & R2 & M2 & Hne & Hall & F2 & I2 & K2).
    { rewrite Hi1. unfold mk_meta in Hr. lia. } { lia. }
    rewrite Hf1, decide_True in F2 by done. cbn in F2.
    exists s2, V2, x1. split_and!; auto; try lia; try congruence.
    + rewrite (bind_run _ _ s (to_dinode x1) s1) by (rewrite (bind_run _ _ _ _ _ E1); cbv beta; by rewrite Hb).
      exact E2.
    + eapply mapped_trans; [|exact M2]. eapply grows_mapped; [done|by apply (mr_layout s1)|exact G|done].
    + split.
      * intros n Hn'. rewrite Hall, Hf1 by done. case_decide; [subst n; rewrite Ef, Hoff; naive_solver lia|].
        rewrite Htb by done. lia.
      * rewrite Hi1. unfold NDIRECT, mk_meta in *. lia.
    + intros c Hc. rewrite K2 by done. apply (low_alloc s V); [done|lia|done].
  - assert (Hoff : 6144 < off) by (unfold NDIRECT in Hz; by apply Hti).
    assert (Hz' : fblock V x fbn = 0 <-> off mod 512 = 0).
    { pose proof (Htb fbn Hn) as E. destruct (Z.eq_dec (fblock V x fbn) 0) as [E0|E0].
      - split; [|done]. intros _. assert (~ fbn * 512 < off) by (rewrite <- E; lia). unfold fbn in *. dlia.
      - split; [done|]. apply E in E0. unfold fbn in *. dlia. }
    assert (Hne12 : off mod 512 = 0 -> fbn <> 12) by (unfold fbn; dlia).
    destruct (run_iappend_entry s V x fbn R Hw ltac:(lia) Hz) as (s2 & V2 & E2 & R2 & M2 & Hne & Hall & F2 & I2 & K2).
    { intros E%Hz'. rewrite E in Hg. cbn in Hg. rewrite (proj2 (Z.eqb_neq _ _)) in Hg by (unfold NDIRECT; auto). lia. }
    exists s2, V2, x. split_and!; auto.
    + split.
      * intros n Hn'. rewrite Hall, Htb by done. unfold fbn. dlia.
      * unfold NDIRECT. rewrite Hti. lia.
    + rewrite F2, Hg. destruct (Z.eqb_spec (fblock V x fbn) 0) as [E|E].
      * apply Hz' in E. rewrite E. cbn. by rewrite (proj2 (Z.eqb_neq _ _)) by (unfold NDIRECT; auto).
      * rewrite (proj2 (Z.eqb_neq (off mod 512) 0)) by (by intros ?%Hz'). done.
Qed.

Lemma run_iappend_block : block_ready (iappend_block (to_dinode x) fbn).
Proof using R Hw Ht Ho Hfree.
  destruct (Z_lt_le_dec fbn NDIRECT); [by apply iappend_direct|by apply iappend_indirect].
Qed.

End Append.

Lemma run_iappend_loop fuel s V x off n p :
  mk_rep s V -> wf_file mk_start V x -> tight V x off -> 0 <= off -> 0 <= n -> off + n <= MAXFILE * BSIZE ->
  n <= zlen p -> n <= Z.of_nat fuel -> freeblock s + blocks_of (off + n) - blocks_of off <= mk_start ->
  exists s' V' x', iappend_loop fuel (to_dinode x) off n p s = Ret (to_dinode x', off + n) s' /\
    mk_rep s' V' /\ wrote mk_start V x off n p V' x' /\ tight V' x' (off + n) /\
    freeblock s' = freeblock s + blocks_of (off + n) - blocks_of off /\ freeinode s' = freeinode s /\
    low_kept V V'.
Proof.
  revert s V x off n p.
  induction fuel as [|fuel IH]; intros s V x off n p R Hw Ht Ho Hn Hmax Hp Hfu Hfree; cbn [iappend_loop];
    destruct (n >? 0) eqn:En; try lia.
  1, 3: replace n with 0 in * by lia; rewrite Z.add_0_r in *; exists s, V, x; split_and!; auto; try lia; [|by intros c Hc];
    constructor; [apply mapped_extends, mapped_refl; [by apply (mr_layout s)|done]|intros; by rewrite decide_False by lia|lia].
  assert (Hor : 0 <= off < MAXFILE * BSIZE) by lia. pose proof (fbyte_index off Hor) as Hbn.
  change (off / BSIZE) with (off / 512) in Hbn. set (n1 := Z.min n ((off / 512 + 1) * 512 - off)).
  assert (Em : n1 = Z.min n (BSIZE - off mod BSIZE)) by (unfold n1, BSIZE; dlia).
  assert (Hn1 : 0 < n1 <= n) by (unfold n1; dlia).
  pose proof (blocks_of_chunk off n1 Ho ltac:(unfold n1; dlia)) as Hbl.
  assert (Hmono : blocks_of (off + n1) <= blocks_of (off + n)).
  { unfold blocks_of, NDIRECT. assert ((off + n1 + 511) / 512 <= (off + n + 511) / 512) by dlia.
    destruct (off + n1 >? 12 * 512) eqn:E1, (off + n >? 12 * 512) eqn:E2; lia. }
  destruct (run_iappend_block s V x off R Hw Ht Hor ltac:(lia)) as (s1 & V1 & x1 & E1 & R1 & M1 & Hne & Ht1 & F1 & I1 & K1).
  set (a := fblock V1 x1 (off / 512)) in *.
  pose proof (wf_data _ _ _ (mp_wf _ _ _ _ _ M1) _ Hbn Hne) as Hda. fold a in Hda. apply (mr_data _ _ R1) in Hda.
  pose proof (mr_range _ _ R1) as Hr1.
  assert (Har : 0 <= a < size /\ a <> 28 /\ a <> 1).
  { unfold mk_start, size, nlog, LOGSIZE, MAXOPBLOCKS, mk_meta in *. lia. }
  pose proof (mr_len _ _ R1 a ltac:(lia)) as Hla.
  assert (Hsl : zlen (slice 0 n1 p) = n1) by (apply length_slice; lia).
  set (d := splice (off mod BSIZE) (slice 0 n1 p) (V1 a)).
  assert (Hd : zlen d = BSIZE) by (unfold d; rewrite length_splice; unfold BSIZE in *; dlia).
  destruct (run_wsect s1 V1 R1 a d ltac:(lia) ltac:(lia) ltac:(lia) Hd) as (s2 & E2 & R2 & F2 & I2).
  pose proof (extends_store mk_start V1 x1 (off / 512) d (mp_layout _ _ _ _ _ M1) (mp_wf _ _ _ _ _ M1) Hbn Hne) as He.
  fold a in He. set (V2 := upd V1 a d) in *.
  assert (Ht2 : tight V2 x1 (off + n1)).
  { apply (tight_chunk _ _ off); [|lia|unfold n1; dlia]. destruct Ht1 as [Hb1 Hi1]. split; [|done].
    intros bn Hb. unfold V2, a. rewrite (fblock_store mk_start) by (done || apply M1). by apply Hb1. }
  destruct (IH s2 V2 x1 (off + n1) (n - n1) (drop (Z.to_nat n1) p) R2 (ex_wf _ _ _ _ _ He) Ht2)
    as (s3 & V3 & x3 & E3 & R3 & W3 & T3 & F3 & I3 & K3); try lia;
    replace (off + n1 + (n - n1)) with (off + n) in * by lia; try lia.
  { unfold zlen in *. rewrite length_drop. lia. }
  exists s3, V3, x3. split_and!; auto; try lia; try congruence.
  - unfold assert. rewrite (proj2 (Z.ltb_lt _ _)) by lia. rewrite (bind_run _ _ s tt s) by done. cbv beta.
    run E1. fold a. fold n1. rewrite (bind_run _ _ _ _ _ (run_rsect s1 V1 R1 a ltac:(lia) ltac:(lia))). cbv beta.
    replace (off - off / 512 * 512) with (off mod BSIZE) by (unfold BSIZE; dlia). fold d. run E2. exact E3.
  - eapply (wrote_step _ _ _ V1 x1 _ _ n1); try done; lia.
  - intros c Hc. rewrite K3 by done. unfold V2. unfold mk_meta in Hda. rewrite upd_ne by lia. by apply K1.
Qed.

(** ** The files on the image *)

(** Inode [inum] on the disk is [x], and describes a file with the bytes [bs]; what
    is left of its last block is zero. *)
Record file_on (V : Z -> block) (inum : Z) (x : inode) (bs : list Z) : Prop := {
  fo_inum : i_inum x = inum;
  fo_disk : read_dinode (ioff inum) (V (IBLOCK inum)) = to_dinode x;
  fo_dok : dinode_ok (to_dinode x);
  fo_wf : wf_file mk_start V x;
  fo_tight : tight V x (i_size x);
  fo_size : i_size x = zlen bs;
  fo_max : zlen bs <= MAXFILE * BSIZE;
  fo_byte : forall j, 0 <= j < MAXFILE * BSIZE -> fbyte V x j = zget bs j
}.

(** Two files share no block. *)
Definition apart (V : Z -> block) (x y : inode) : Prop := forall a, a <> 0 -> owns V x a -> ~ owns V y a.

(** What ialloc sets and iappend keeps of an inode. *)
Definition kind (x : inode) : Z * Z := (i_type x, i_nlink x).

Definition total_blocks (fl : list (inode * list Z)) : Z := foldr (fun f n => blocks_of (zlen f.2) + n) 0 fl.

(** The inodes are numbered from 1 in the order of the list. *)
Record mk_inv (s : mkst) (V : Z -> block) (fl : list (inode * list Z)) : Prop := {
  mi_rep : mk_rep s V;
  mi_next : freeinode s = zlen fl + 1;
  mi_count : zlen fl < ninodes;
  mi_free : freeblock s = mk_meta + total_blocks fl;
  mi_file : forall i x bs, fl !! i = Some (x, bs) -> file_on V (Z.of_nat i + 1) x bs;
  mi_apart : forall i j x y bs cs, fl !! i = Some (x, bs) -> fl !! j = Some (y, cs) -> i <> j -> apart V x y
}.

(** An inode is determined by its 64 bytes. *)
Lemma read_dinode_slice off d d' : 0 <= off -> slice off 64 d = slice off 64 d' ->
  read_dinode off d = read_dinode off d'.
Proof.
  intros Ho E.
  assert (Hs : forall o n, off <= o -> 0 <= n -> o + n <= off + 64 -> slice o n d = slice o n d').
  { intros o n H1 H2 H3. apply list_eq. intros i. destruct (decide (i < Z.to_nat n)%nat) as [Hi|Hi].
    - rewrite !lookup_slice by done. apply (f_equal (fun l => l !! (Z.to_nat (o - off) + i)%nat)) in E.
      rewrite !lookup_slice in E by lia. replace (Z.to_nat off + (Z.to_nat (o - off) + i))%nat with (Z.to_nat o + i)%nat in E by lia. done.
    - rewrite !lookup_ge_None_2; [done| |]; unfold slice; rewrite length_take; lia. }
  unfold read_dinode, read_addrs, get16, get32. f_equal; try (rewrite Hs by lia; done).
  apply list_fmap_ext. intros k i Hk. apply lookup_seq in Hk as [-> Hk]. rewrite Hs by lia. done.
Qed.

Lemma iblock_range inum : 0 <= inum < ninodes -> 2 <= IBLOCK inum < 28.
Proof. unfold ninodes, IBLOCK. change IPB with 8. intros. dlia. Qed.

Section PutInode.
Context (s : mkst) (V : Z -> block) (x : inode).
Hypothesis R : mk_rep s V.
Hypothesis Hx : 0 <= i_inum x < ninodes.
Hypothesis Hlen : length (i_addrs x) = 13%nat.

Lemma put_len : zlen (V (IBLOCK (i_inum x))) = BSIZE.
Proof using All. pose proof (iblock_range _ Hx). apply (mr_len _ _ R). unfold size. lia. Qed.

Lemma run_winode : exists s', winode (i_inum x) (to_dinode x) s = Ret tt s' /\ mk_rep s' (put_inode V x) /\
  freeblock s' = freeblock s /\ freeinode s' = freeinode s.
Proof using All.
  pose proof (iblock_range _ Hx) as Hb. pose proof (mr_range _ _ R) as Hr. pose proof put_len as Hl.
  destruct (ioff_range (i_inum x)) as [Ho1 Ho2]. unfold mk_meta in Hr.
  set (d := write_dinode (ioff (i_inum x)) (to_dinode x) (V (IBLOCK (i_inum x)))).
  assert (Hd : zlen d = BSIZE) by (unfold d; rewrite zlen_write_dinode; lia || done).
  destruct (run_wsect s V R (IBLOCK (i_inum x)) d ltac:(lia) ltac:(lia) ltac:(lia) Hd) as (s' & E & R' & F & I).
  exists s'. split_and!; auto. unfold winode. change (i2b (i_inum x)) with (IBLOCK (i_inum x)).
  rewrite (bind_run _ _ _ _ _ (run_rsect s V R (IBLOCK (i_inum x)) ltac:(unfold size; lia) ltac:(lia))). exact E.
Qed.

Lemma put_meta : 1 < IBLOCK (i_inum x) < bmblock V 0.
Proof using All. pose proof (iblock_range _ Hx). rewrite (mr_bmblock s V R) by done. lia. Qed.

Lemma put_read : dinode_ok (to_dinode x) ->
  read_dinode (ioff (i_inum x)) (put_inode V x (IBLOCK (i_inum x))) = to_dinode x.
Proof using All.
  intros Hok. destruct (ioff_range (i_inum x)) as [Ho1 Ho2]. unfold put_inode. rewrite upd_eq.
  apply read_write_dinode; [done| |done]. rewrite put_len. lia.
Qed.

Lemma put_read_other inum : 0 <= inum < ninodes -> inum <> i_inum x ->
  read_dinode (ioff inum) (put_inode V x (IBLOCK inum)) = read_dinode (ioff inum) (V (IBLOCK inum)).
Proof using All.
  intros Hi Hne. unfold put_inode. destruct (decide (IBLOCK inum = IBLOCK (i_inum x))) as [E|E].
  - rewrite E, upd_eq. destruct (ioff_range inum) as [Ho1 Ho2], (ioff_range (i_inum x)) as [Ho3 Ho4].
    apply read_dinode_slice; [done|]. apply slice_write_dinode; auto; [rewrite put_len; lia|].
    unfold IBLOCK, ioff, sizeof_dinode in *. change IPB with 8 in *. clear -E Hne. dlia.
  - by rewrite upd_ne.
Qed.

Lemma put_tight y off : wf_file mk_start V y -> tight V y off -> tight (put_inode V x) y off.
Proof using All.
  intros Hw [H1 H2]. split; [|done]. intros bn Hn. unfold put_inode.
  rewrite (meta_fblock mk_start) by (done || by apply (mr_layout s) || apply put_meta). by apply H1.
Qed.

Lemma put_fbyte y j : wf_file mk_start V y -> 0 <= j < MAXFILE * BSIZE -> fbyte (put_inode V x) y j = fbyte V y j.
Proof using All. intros Hw Hj. apply (meta_fbyte mk_start); [by apply (mr_layout s)|apply put_meta|done|done]. Qed.

Lemma put_owns y a : wf_file mk_start V y -> owns (put_inode V x) y a <-> owns V y a.
Proof using All.
  intros Hw. assert (E : forall bn, fblock (put_inode V x) y bn = fblock V y bn).
  { intros bn. apply (meta_fblock mk_start); [by apply (mr_layout s)|apply put_meta|done]. }
  unfold owns. by setoid_rewrite E.
Qed.

Lemma put_wf y : wf_file mk_start V y -> wf_file mk_start (put_inode V x) y.
Proof using All. intros Hw. apply meta_wf; [by apply (mr_layout s)|apply put_meta|done]. Qed.

(** The other files are as before. *)
Lemma put_other inum y bs : 0 <= inum < ninodes -> inum <> i_inum x -> file_on V inum y bs ->
  file_on (put_inode V x) inum y bs.
Proof using All.
  intros Hi Hne [H1 H2 H3 H4 H5 H6 H7 H8]. constructor; auto.
  - by rewrite put_read_other.
  - by apply put_wf.
  - by apply put_tight.
  - intros j Hj. rewrite put_fbyte; auto.
Qed.

End PutInode.

(** A file that shares no block with the one being extended. *)
Section Other.
Context (V : Z -> block) (x : inode) (V' : Z -> block) (x' y : inode).
Hypothesis He : extends mk_start V x V' x'.
Hypothesis Hy : wf_file mk_start V y.
Hypothesis Ha : apart V y x.

Lemma other_keep a : a <> 0 -> owns V y a -> data_block mk_start V a -> V' a = V a /\ ~ owns V' x' a.
Proof using All. intros H0 Ho Hd. apply (ex_frame _ _ _ _ _ He); [done|by apply Ha]. Qed.

Lemma other_fblock bn : fblock V' y bn = fblock V y bn.
Proof using All.
  unfold fblock. destruct (_ <? _); [done|].
  destruct (Z.eqb_spec (zget (i_addrs y) NDIRECT) 0) as [|Hne]; [done|].
  destruct (other_keep (zget (i_addrs y) NDIRECT)) as [-> _]; [done|by right|by apply (wf_ind _ _ _ Hy)|done].
Qed.

Lemma other_owns a : owns V' y a <-> owns V y a.
Proof using All. unfold owns. by setoid_rewrite other_fblock. Qed.

Lemma owned_data a : a <> 0 -> owns V y a -> data_block mk_start V a.
Proof using All.
  intros H0 [(bn & Hn & <-)|<-]; [by apply (wf_data _ _ _ Hy)|by apply (wf_ind _ _ _ Hy)].
Qed.

Lemma other_wf : wf_file mk_start V' y.
Proof using All.
  constructor; try apply Hy.
  - intros Hne. apply He. by apply (wf_ind _ _ _ Hy).
  - intros bn Hn. rewrite other_fblock. intros Hne. apply He. by apply (wf_data _ _ _ Hy).
  - intros bn bn' Hn Hn'. rewrite !other_fblock. by apply (wf_inj _ _ _ Hy).
  - intros bn Hn. rewrite other_fblock. by apply (wf_sep _ _ _ Hy).
Qed.

Lemma other_fbyte j : 0 <= j < MAXFILE * BSIZE -> fbyte V' y j = fbyte V y j.
Proof using All.
  intros Hj. pose proof (fbyte_index j Hj) as Hbn. unfold fbyte. rewrite other_fblock.
  destruct (Z.eqb_spec (fblock V y (j / BSIZE)) 0) as [|Hne]; [done|].
  destruct (other_keep (fblock V y (j / BSIZE))) as [-> _]; auto.
  - left. eauto.
  - by apply (wf_data _ _ _ Hy).
Qed.

Lemma other_apart : apart V' y x'.
Proof using All.
  intros a H0 Ho. rewrite other_owns in Ho. apply other_keep; [done|done|]. by apply owned_data.
Qed.

End Other.

Lemma apart_sym V x y : apart V x y -> apart V y x.
Proof. intros H a H0 Hy Hx. by apply (H a). Qed.

Lemma addrs_u32 s V x : mk_rep s V -> wf_file mk_start V x -> Forall is_u32 (i_addrs x).
Proof.
  intros R Hw. apply Forall_lookup. intros j a Hj. pose proof (lookup_lt_Some _ _ _ Hj) as Hl.
  rewrite (wf_len _ _ _ Hw) in Hl.
  assert (Ea : a = zget (i_addrs x) (Z.of_nat j)) by (unfold zget; rewrite Nat2Z.id; symmetry; by apply nth_lookup_Some).
  assert (H : a = 0 \/ data_block mk_start V a).
  { destruct (decide (j = 12)%nat) as [->|Hne]; [rewrite Ea; by apply ind_or_zero|].
    replace a with (fblock V x (Z.of_nat j)); [apply data_or_zero; [done|rewrite MAXFILE_val; lia]|].
    unfold fblock, NDIRECT. by rewrite (proj2 (Z.ltb_lt _ _)) by lia. }
  rewrite <- (xint_block s V a R H). unfold xint. pose proof (le_value_range (le_bytes 4 a) (le_bytes_byte 4 a)) as Hr.
  unfold zlen in Hr. rewrite length_le_bytes in Hr. exact Hr.
Qed.

Lemma total_insert fl i f g : fl !! i = Some f ->
  total_blocks (<[i := g]> fl) = total_blocks fl - blocks_of (zlen f.2) + blocks_of (zlen g.2).
Proof.
  revert i. induction fl as [|h fl IH]; intros [|i] Hi; try done.
  - cbn in *. simplify_eq. lia.
  - specialize (IH i Hi). change (blocks_of (zlen h.2) + total_blocks (<[i := g]> fl) =
      blocks_of (zlen h.2) + total_blocks fl - blocks_of (zlen f.2) + blocks_of (zlen g.2)). lia.
Qed.

Lemma total_blocks_cons f fl : total_blocks (f :: fl) = blocks_of (zlen f.2) + total_blocks fl.
Proof. done. Qed.

Lemma total_blocks_app fl gl : total_blocks (fl ++ gl) = total_blocks fl + total_blocks gl.
Proof. unfold total_blocks. induction fl as [|f fl IH]; cbn; [done|]. rewrite IH. lia. Qed.

Lemma zget_app l p j : 0 <= j -> zget (l ++ p) j = if decide (j < zlen l) then zget l j else zget p (j - zlen l).
Proof.
  intros Hj. unfold zget, zlen. case_decide.
  - apply app_nth1. lia.
  - rewrite app_nth2 by lia. f_equal. lia.
Qed.

Lemma zget_end l j : zlen l <= j -> zget l j = 0.
Proof. unfold zget, zlen. intros. apply nth_overflow. lia. Qed.

(** A file after bytes were added to its end. *)
Lemma wrote_byte V x bs p V' x' j : (forall j, 0 <= j < MAXFILE * BSIZE -> fbyte V x j = zget bs j) ->
  wrote mk_start V x (zlen bs) (zlen p) p V' x' -> 0 <= j < MAXFILE * BSIZE -> fbyte V' x' j = zget (bs ++ p) j.
Proof.
  intros Hb Hw Hj. rewrite (wr_byte _ _ _ _ _ _ _ _ Hw), zget_app by lia. repeat case_decide; try lia; try done;
    rewrite Hb by done; first [done | by rewrite !zget_end by lia].
Qed.

(** ** The operations of mkfs keep the invariant *)

Definition new_inode (type inum : Z) : inode := MkInode ROOTDEV inum 0 0 type 0 0 1 0 (replicate 13 0).

Lemma new_inode_owns V type inum a : owns V (new_inode type inum) a -> a = 0.
Proof.
  intros [(bn & Hn & <-)|<-]; [apply fblock_empty; [done|lia]|]. done.
Qed.

Lemma xshort_id x : 0 <= x < 65536 -> xshort x = x.
Proof. intros Hx. unfold xshort. apply le_value_bytes. cbn. lia. Qed.

Lemma run_ialloc s V fl type : mk_inv s V fl -> zlen fl + 1 < ninodes -> 0 < type < 4 ->
  exists s', ialloc type s = Ret (zlen fl + 1) s' /\
    mk_inv s' (put_inode V (new_inode type (zlen fl + 1))) (fl ++ [(new_inode type (zlen fl + 1), [])]).
Proof.
  intros [R Hnx Hct Hfr Hf Hap] Hn Hty. pose proof (zlen_nonneg fl) as Hz. set (x0 := new_inode type (zlen fl + 1)).
  unfold ninodes in *.
  set (s1 := MkMk (mk_img s) (freeblock s) (usedblocks s) (freeinode s + 1)).
  assert (R1 : mk_rep s1 V) by (destruct R; by constructor).
  assert (Hx0 : 0 <= i_inum x0 < ninodes) by (cbn; unfold ninodes; lia).
  destruct (run_winode s1 V x0 R1 Hx0 eq_refl) as (s2 & E2 & R2 & F2 & I2).
  exists s2. split.
  - unfold ialloc. rewrite (bind_run _ _ s (freeinode s) s) by done. cbv beta.
    rewrite (bind_run _ _ s tt s1) by (unfold modify; rewrite u32_small by (unfold is_u32; lia); done). cbv beta.
    rewrite Hnx, !xshort_id by lia. rewrite (bind_run _ _ s1 tt s2) by exact E2. done.
  - assert (Hok : dinode_ok (to_dinode x0)).
    { constructor; cbn; unfold is_i16, is_u32; try lia. repeat constructor; lia. }
    assert (Hw0 : wf_file mk_start V x0) by by apply wf_empty.
    constructor.
    + done.
    + rewrite I2. cbn. rewrite zlen_app. change (zlen [(x0, [] : list Z)]) with 1. lia.
    + rewrite zlen_app. change (zlen [(x0, [] : list Z)]) with 1. unfold ninodes. lia.
    + rewrite F2, total_blocks_app. cbn -[blocks_of]. change (blocks_of (zlen [])) with 0. lia.
    + intros i x bs Hi. apply lookup_app_Some in Hi as [Hi|[Hge Hi]].
      * pose proof (lookup_lt_Some _ _ _ Hi). apply (put_other s1); auto; cbn; unfold zlen, ninodes in *; lia.
      * apply list_lookup_singleton_Some in Hi as [Hi [= <- <-]].
        assert (Ei : Z.of_nat i + 1 = i_inum x0) by (cbn; unfold zlen; lia). rewrite Ei. constructor; try done.
        -- by apply (put_read s1).
        -- by apply (put_wf s1).
        -- apply (put_tight s1); auto. split.
           ++ intros bn Hb. rewrite fblock_empty by (done || lia). cbn. lia.
           ++ assert (zget (i_addrs x0) NDIRECT = 0) as -> by done. unfold NDIRECT. cbn. lia.
        -- intros j Hj. rewrite (put_fbyte s1) by done. unfold fbyte. rewrite fblock_empty by (done || apply fbyte_index, Hj).
           cbn [Z.eqb]. by rewrite (zget_end []) by (change (zlen (@nil Z)) with 0; lia).
    + assert (Hold : forall i x bs, fl !! i = Some (x, bs) -> wf_file mk_start V x) by (intros i x bs Hi; apply (Hf _ _ _ Hi)).
      intros i j x y bs cs Hi Hj Hne a Ha Hox Hoy.
      apply lookup_app_Some in Hi as [Hi|[Hgi Hi]]; apply lookup_app_Some in Hj as [Hj|[Hgj Hj]].
      * apply (put_owns s1) in Hox, Hoy; eauto. by apply (Hap i j x y bs cs Hi Hj Hne a).
      * apply list_lookup_singleton_Some in Hj as [_ [= <- <-]]. by apply new_inode_owns in Hoy.
      * apply list_lookup_singleton_Some in Hi as [_ [= <- <-]]. by apply new_inode_owns in Hox.
      * apply list_lookup_singleton_Some in Hi as [? _]. apply list_lookup_singleton_Some in Hj as [? _]. lia.
Qed.

Section IAppend.
Context (s : mkst) (V : Z -> block) (fl : list (inode * list Z)) (i : nat) (x : inode) (bs p : list Z).
Hypothesis I : mk_inv s V fl.
Hypothesis Hi : fl !! i = Some (x, bs).
Hypothesis Hmax : zlen bs + zlen p <= MAXFILE * BSIZE.
Hypothesis Hfree : freeblock s + blocks_of (zlen bs + zlen p) - blocks_of (zlen bs) <= mk_start.

Lemma appended_range j y cs : fl !! j = Some (y, cs) -> 0 <= Z.of_nat j + 1 < ninodes.
Proof using All.
  intros Hj%lookup_lt_Some. pose proof (mi_count _ _ _ I) as Hc. unfold zlen in Hc. lia.
Qed.

(** The other files after the blocks of [x] changed. *)
Lemma append_others V1 x1 j y cs : extends mk_start V x V1 x1 -> low_kept V V1 ->
  fl !! j = Some (y, cs) -> j <> i -> file_on V1 (Z.of_nat j + 1) y cs /\ apart V1 y x1.
Proof using All.
  intros He Hlow Hj Hne. pose proof (mi_file _ _ _ I _ _ _ Hj) as F.
  pose proof (mi_apart _ _ _ I _ _ _ _ _ _ Hj Hi Hne) as Ap. pose proof (appended_range j y cs Hj) as Hr.
  pose proof (fo_wf _ _ _ _ F) as Hwy. split; [|by apply (other_apart V x)].
  destruct F as [H1 H2 H3 H4 H5 H6 H7 H8]. constructor; auto.
  - pose proof (iblock_range _ Hr). rewrite Hlow by lia. done.
  - by apply (other_wf V x V1 x1).
  - destruct H5 as [T1 T2]. split; [|done]. intros bn Hn. rewrite (other_fblock V x V1 x1 y) by done. by apply T1.
  - intros k Hk. rewrite (other_fbyte V x V1 x1 y); auto.
Qed.

Lemma run_iappend : exists s' V' x', iappend (Z.of_nat i + 1) p (zlen p) s = Ret tt s' /\
  mk_inv s' V' (<[i := (x', bs ++ p)]> fl) /\ kind x' = kind x.
Proof using All.
  pose proof I as [R Hnx Hct Hfr Hf Hap]. pose proof (Hf _ _ _ Hi) as [F1 F2 F3 F4 F5 F6 F7 F8].
  pose proof (appended_range i x bs Hi) as Hr. pose proof (iblock_range _ Hr) as Hb.
  pose proof (zlen_nonneg bs) as Hzb. pose proof (zlen_nonneg p) as Hzp.
  assert (Hbig : MAXFILE * BSIZE = 71680) by reflexivity. rewrite F6 in F5.
  destruct (run_iappend_loop (Z.to_nat (zlen p)) s V x (zlen bs) (zlen p) p R F4 F5 Hzb Hzp Hmax ltac:(lia) ltac:(lia) Hfree)
    as (s1 & V1 & x1 & E1 & R1 & W1 & T1 & Fb1 & I1 & K1).
  pose proof (wr_ext _ _ _ _ _ _ _ _ W1) as He. pose proof (ex_addrs _ _ _ _ _ He) as Hx1.
  pose proof (ex_wf _ _ _ _ _ He) as Hw1.
  set (x2 := set_isize (zlen bs + zlen p) x1).
  assert (Hin2 : i_inum x2 = Z.of_nat i + 1) by (unfold x2; rewrite Hx1; exact F1).
  assert (Hw2 : wf_file mk_start V1 x2) by by apply wf_set_isize.
  assert (Hx2 : 0 <= i_inum x2 < ninodes) by by rewrite Hin2.
  pose proof (wf_len _ _ _ Hw2) as Hlen.
  assert (Hok : dinode_ok (to_dinode x2)).
  { destruct F3. constructor; unfold x2; try (rewrite Hx1; done).
    - cbn. unfold is_u32. lia.
    - exact (addrs_u32 s1 V1 x2 R1 Hw2). }
  destruct (run_winode s1 V1 x2 R1 Hx2 Hlen) as (s2 & E2 & R2 & Fb2 & I2).
  assert (Ht2 : kind x2 = kind x) by (unfold x2; by rewrite Hx1).
  exists s2, (put_inode V1 x2), x2. split; [|split; [|done]].
  - unfold iappend. rewrite (bind_run _ _ s (to_dinode x) s).
    2: { unfold rinode. rewrite (bind_run _ _ _ _ _ (run_rsect s V R (i2b (Z.of_nat i + 1)) ltac:(unfold i2b, size, IBLOCK in *; lia) ltac:(unfold i2b, IBLOCK in *; lia))).
         unfold ret. f_equal. exact F2. }
    cbv beta. change (d_size (to_dinode x)) with (i_size x). rewrite F6, xint_id by (unfold is_u32; lia).
    run E1. rewrite xint_id by (unfold is_u32; lia). rewrite Hin2 in E2. exact E2.
  - constructor; auto.
    + rewrite I2, I1, Hnx. unfold zlen. by rewrite length_insert.
    + unfold zlen in *. by rewrite length_insert.
    + rewrite Fb2, Fb1, Hfr, (total_insert _ _ _ _ Hi). cbn [snd]. rewrite zlen_app. lia.
    + intros j y cs Hj. destruct (decide (i = j)) as [<-|Hne].
      * rewrite list_lookup_insert_eq in Hj by (by eapply lookup_lt_Some). simplify_eq. rewrite <- Hin2.
        constructor; auto.
        -- by apply (put_read s1).
        -- by apply (put_wf s1).
        -- by apply (put_tight s1).
        -- cbn. by rewrite zlen_app.
        -- rewrite zlen_app. lia.
        -- intros j Hj. rewrite (put_fbyte s1) by done. exact (wrote_byte V x bs p V1 x1 j F8 W1 Hj).
      * rewrite list_lookup_insert_ne in Hj by done. apply (put_other s1); auto; [by eapply appended_range|rewrite Hin2; lia|].
        by apply (append_others V1 x1 j y cs).
    + assert (Hot : forall j y cs, fl !! j = Some (y, cs) -> j <> i -> wf_file mk_start V1 y /\ apart V1 y x1).
      { intros j y cs Hj Hne. destruct (append_others V1 x1 j y cs He K1 Hj Hne) as [[] ?]. done. }
      assert (Hox2 : forall a, owns (put_inode V1 x2) x2 a <-> owns V1 x1 a).
      { intros a. rewrite (put_owns s1) by done. done. }
      intros j k y z cs ds Hj Hk Hne a Ha Hoy Hoz.
      destruct (decide (i = j)) as [<-|Hnj]; [|destruct (decide (i = k)) as [<-|Hnk]].
      * rewrite list_lookup_insert_eq in Hj by (by eapply lookup_lt_Some). rewrite list_lookup_insert_ne in Hk by done. simplify_eq.
        destruct (Hot k z ds Hk ltac:(done)) as [Hwz Apz]. apply Hox2 in Hoy. apply (put_owns s1) in Hoz; auto. by apply (Apz a).
      * rewrite list_lookup_insert_eq in Hk by (by eapply lookup_lt_Some). rewrite list_lookup_insert_ne in Hj by done. simplify_eq.
        destruct (Hot j y cs Hj ltac:(done)) as [Hwy Apy]. apply Hox2 in Hoz. apply (put_owns s1) in Hoy; auto. by apply (Apy a).
      * rewrite list_lookup_insert_ne in Hj by done. rewrite list_lookup_insert_ne in Hk by done.
        destruct (Hot j y cs Hj ltac:(done)) as [Hwy _]. destruct (Hot k z ds Hk ltac:(done)) as [Hwz _].
        apply (put_owns s1) in Hoy, Hoz; auto.
        apply (other_owns V x V1 x1) in Hoy; [|done|by apply (Hf _ _ _ Hj)|by apply (Hap j i y x cs bs)].
        apply (other_owns V x V1 x1) in Hoz; [|done|by apply (Hf _ _ _ Hk)|by apply (Hap k i z x ds bs)].
        by apply (Hap j k y z cs ds Hj Hk Hne a).
Qed.

End IAppend.

Lemma blocks_mono m n : 0 <= m <= n -> blocks_of m <= blocks_of n.
Proof.
  intros H. unfold blocks_of, NDIRECT. assert ((m + 511) / 512 <= (n + 511) / 512) by dlia.
  destruct (m >? 12 * 512) eqn:E1, (n >? 12 * 512) eqn:E2; lia.
Qed.

Lemma run_append_reads reads s V fl i x bs : mk_inv s V fl -> fl !! i = Some (x, bs) ->
  Forall (fun r => r <> []) reads -> zlen bs + zlen (concat reads) <= MAXFILE * BSIZE ->
  freeblock s + blocks_of (zlen bs + zlen (concat reads)) - blocks_of (zlen bs) <= mk_start ->
  exists s' V' x', append_reads (Z.of_nat i + 1) reads s = Ret tt s' /\
    mk_inv s' V' (<[i := (x', bs ++ concat reads)]> fl) /\ kind x' = kind x.
Proof.
  revert s V fl x bs. induction reads as [|r reads IH]; intros s V fl x bs I Hi Hr Hmax Hfree; cbn [append_reads concat] in *.
  - exists s, V, x. rewrite app_nil_r, list_insert_id by done. done.
  - apply Forall_cons in Hr as [Hr Hrs]. rewrite zlen_app in *. pose proof (zlen_nonneg (concat reads)). pose proof (zlen_nonneg bs).
    assert (Hz : 0 < zlen r) by (destruct r; [done|unfold zlen; cbn; lia]).
    rewrite (proj2 (Z.gtb_lt _ _)) by lia.
    pose proof (blocks_mono (zlen bs + zlen r) (zlen bs + (zlen r + zlen (concat reads))) ltac:(lia)).
    destruct (run_iappend s V fl i x bs r I Hi ltac:(lia) ltac:(lia)) as (s1 & V1 & x1 & E1 & I1 & T1). run E1.
    assert (Hi1 : <[i := (x1, bs ++ r)]> fl !! i = Some (x1, bs ++ r)) by (apply list_lookup_insert_eq; by eapply lookup_lt_Some).
    destruct (IH s1 V1 _ x1 (bs ++ r) I1 Hi1 Hrs) as (s2 & V2 & x2 & E2 & I2 & T2); rewrite ?zlen_app; [lia| |].
    { rewrite (mi_free _ _ _ I1), (total_insert _ _ _ _ Hi). rewrite (mi_free _ _ _ I) in Hfree. cbn [snd]. rewrite zlen_app.
      replace (zlen bs + zlen r + zlen (concat reads)) with (zlen bs + (zlen r + zlen (concat reads))) by lia. lia. }
    exists s2, V2, x2. rewrite list_insert_insert_eq, <- app_assoc in I2. split_and!; auto. congruence.
Qed.

(** A file given to mkfs, its name in the image, its contents. *)
Definition input : Type := list Z * option (list (list Z)).
Definition in_name (f : input) : list Z := skip_underscore f.1.
Definition in_bytes (f : input) : list Z := concat (default [] f.2).
Record input_ok (f : input) : Prop := {
  io_name : Ulib.strchr f.1 slash = Some None;
  io_open : f.2 <> None;
  io_reads : Forall (fun r => r <> []) (default [] f.2);
  io_max : zlen (in_bytes f) <= MAXFILE * BSIZE
}.

(** The directory entries for files numbered from [n] on. *)
Definition entry (name : list Z) (inum : Z) : list Z := new_dirent (replicate 16 0) name inum.
Fixpoint entries (n : Z) (files : list input) : list Z :=
  match files with
  | [] => []
  | f :: files => entry (in_name f) n ++ entries (n + 1) files
  end.

Lemma zlen_entry name inum : zlen (entry name inum) = 16.
Proof.
  unfold entry, new_dirent. pose proof (cstr_length 14 name) as Hl. set (nm := cstr 14 name ++ _).
  assert (Hn : zlen nm = 14) by (unfold nm, zlen; rewrite length_app, length_replicate; lia).
  assert (Hs : zlen (splice 2 nm (replicate 16 0)) = 16) by (rewrite length_splice; change (zlen (replicate 16 0)) with 16; lia).
  rewrite zlen_put16; lia.
Qed.

Lemma zlen_entries n files : zlen (entries n files) = 16 * zlen files.
Proof.
  revert n. induction files as [|f files IH]; intros n; [done|]. cbn [entries]. rewrite zlen_app, IH.
  pose proof (zlen_entry (in_name f) n).
  unfold zlen in *. cbn [length]. lia.
Qed.

Lemma strchr_nul s : Ulib.strchr s slash = Some None -> 0 ∈ s.
Proof.
  induction s as [|c s IH]; cbn; [done|]. destruct (Z.eqb_spec c 0) as [->|]; [left|].
  destruct (Z.eqb_spec c slash); [done|]. right. auto.
Qed.

Lemma in_name_readable f : input_ok f -> readable 14 (in_name f).
Proof.
  intros [Hn _ _ _]. apply strchr_nul in Hn. left. unfold in_name, skip_underscore. destruct f.1 as [|c rest]; [done|].
  destruct (Z.eqb_spec c 95) as [->|]; [|done]. by apply elem_of_cons in Hn as [|].
Qed.

Lemma run_dirent s inum name : 0 <= inum < 65536 -> readable 14 name ->
  dirent inum (KString.strncpy (replicate 14 0) name (Z.to_nat DIRSIZ)) s = Ret (entry name inum) s.
Proof.
  intros Hi Hn. change (Z.to_nat DIRSIZ) with 14%nat. rewrite strncpy_run by (rewrite ?length_replicate; (done || lia)).
  unfold dirent, entry, new_dirent, ret. rewrite xshort_id by done. unfold u16. rewrite (Z.mod_small inum) by lia.
  change (drop 14 (replicate 14 0)) with (@nil Z). by rewrite app_nil_r.
Qed.

Lemma run_add_file s V root bsr rest f : mk_inv s V ((root, bsr) :: rest) -> input_ok f -> zlen rest + 2 < ninodes ->
  zlen bsr + 16 <= MAXFILE * BSIZE ->
  freeblock s + blocks_of (zlen bsr + 16) - blocks_of (zlen bsr) + blocks_of (zlen (in_bytes f)) <= mk_start ->
  exists s' V' root' x, add_file ROOTINO f s = Ret tt s' /\
    mk_inv s' V' ((root', bsr ++ entry (in_name f) (zlen rest + 2)) :: rest ++ [(x, in_bytes f)]) /\
    kind root' = kind root /\ kind x = (T_FILE, 1).
Proof.
  intros I Hf Hn Hmax Hfree. pose proof (zlen_nonneg rest) as Hz. pose proof (in_name_readable f Hf) as Hrd.
  destruct Hf as [Hnm Hop Hrs Hmx]. unfold in_bytes in *. destruct f as [name [reads|]]; [|done]. cbn [fst snd default from_option id] in *.
  unfold add_file. cbn [fst snd]. rewrite Hnm. unfold assert. rewrite (bind_run _ _ s tt s) by done. cbv beta iota.
  assert (Hl : zlen ((root, bsr) :: rest) = zlen rest + 1) by (unfold zlen; cbn [length]; lia).
  destruct (run_ialloc s V _ T_FILE I ltac:(lia) ltac:(done)) as (s1 & E1 & I1). rewrite Hl in E1, I1. run E1.
  replace (zlen rest + 1 + 1) with (zlen rest + 2) in * by lia. set (x0 := new_inode T_FILE (zlen rest + 2)) in *.
  unfold ninodes in Hn. rewrite (bind_run _ _ _ _ _ (run_dirent s1 (zlen rest + 2) (skip_underscore name) ltac:(lia) Hrd)). cbv beta.
  set (e := entry (skip_underscore name) (zlen rest + 2)). assert (He : zlen e = 16) by apply zlen_entry.
  assert (F1 : freeblock s1 = freeblock s).
  { rewrite (mi_free _ _ _ I1), (mi_free _ _ _ I), total_blocks_app. change (total_blocks [(x0, [] : list Z)]) with 0. lia. }
  pose proof (blocks_mono 0 (zlen (concat reads)) ltac:(pose proof (zlen_nonneg (concat reads)); lia)) as Hb0.
  change (blocks_of 0) with 0 in Hb0.
  destruct (run_iappend s1 _ _ 0 root bsr e I1 eq_refl) as (s2 & V2 & root2 & E2 & I2 & T2); [lia|rewrite He; lia|].
  rewrite He in E2. change (Z.of_nat 0 + 1) with ROOTINO in E2. change sizeof_dirent with 16. run E2.
  change (<[0%nat := (root2, bsr ++ e)]> (((root, bsr) :: rest) ++ [(x0, [])])) with ((root2, bsr ++ e) :: rest ++ [(x0, [])]) in I2.
  assert (Hlast : ((root2, bsr ++ e) :: rest ++ [(x0, [])]) !! S (length rest) = Some (x0, [])).
  { cbn. by apply list_lookup_middle. }
  destruct (run_append_reads reads s2 V2 _ _ x0 [] I2 Hlast Hrs) as (s3 & V3 & x3 & E3 & I3 & T3); [exact Hmx| |].
  { rewrite (mi_free _ _ _ I2), total_blocks_cons, total_blocks_app, total_blocks_cons. rewrite (mi_free _ _ _ I), total_blocks_cons in Hfree. cbn [snd] in *.
    rewrite zlen_app, He. change (zlen (@nil Z)) with 0. change (blocks_of 0) with 0. change (total_blocks []) with 0.
    rewrite (Z.add_0_l (zlen (concat reads))). lia. }
  exists s3, V3, root2, x3. split_and!; auto.
  - rewrite <- E3. f_equal. unfold zlen. lia.
  - change (<[S (length rest) := (x3, [] ++ concat reads)]> ((root2, bsr ++ e) :: rest ++ [(x0, [])]))
      with ((root2, bsr ++ e) :: <[length rest := (x3, concat reads)]> (rest ++ [(x0, [])])) in I3.
    rewrite <- (Nat.add_0_r (length rest)), insert_app_r in I3. exact I3.
Qed.

Definition file_of (f : input) (g : inode * list Z) : Prop := g.2 = in_bytes f /\ kind g.1 = (T_FILE, 1).
Definition total_in (files : list input) : Z := foldr (fun f n => blocks_of (zlen (in_bytes f)) + n) 0 files.

Lemma total_in_nonneg files : 0 <= total_in files.
Proof.
  unfold total_in. induction files as [|f files IH]; cbn -[blocks_of]; [lia|].
  pose proof (blocks_mono 0 (zlen (in_bytes f)) ltac:(pose proof (zlen_nonneg (in_bytes f)); lia)) as H.
  change (blocks_of 0) with 0 in H. lia.
Qed.

Lemma run_add_files files s V root bsr rest : mk_inv s V ((root, bsr) :: rest) -> Forall input_ok files ->
  zlen rest + 1 + zlen files < ninodes -> zlen bsr + 16 * zlen files <= MAXFILE * BSIZE ->
  freeblock s + blocks_of (zlen bsr + 16 * zlen files) - blocks_of (zlen bsr) + total_in files <= mk_start ->
  exists s' V' root' fl, add_files ROOTINO files s = Ret tt s' /\
    mk_inv s' V' ((root', bsr ++ entries (zlen rest + 2) files) :: rest ++ fl) /\
    kind root' = kind root /\ Forall2 file_of files fl.
Proof.
  revert s V root bsr rest. induction files as [|f files IH]; intros s V root bsr rest I Hok Hn Hmax Hfree; cbn [add_files entries].
  - exists s, V, root, []. rewrite !app_nil_r. done.
  - apply Forall_cons in Hok as [Hf Hok]. assert (Hl : zlen (f :: files) = zlen files + 1) by (unfold zlen; cbn [length]; lia).
    rewrite Hl in *. pose proof (zlen_nonneg files). pose proof (zlen_nonneg bsr). cbn -[blocks_of] in Hfree. fold (total_in files) in Hfree.
    pose proof (total_in_nonneg files). pose proof (blocks_mono (zlen bsr + 16) (zlen bsr + 16 * (zlen files + 1)) ltac:(lia)).
    destruct (run_add_file s V root bsr rest f I Hf ltac:(lia) ltac:(lia) ltac:(lia)) as (s1 & V1 & root1 & x1 & E1 & I1 & T1 & Tx). run E1.
    destruct (IH s1 V1 root1 _ _ I1 Hok) as (s2 & V2 & root2 & fl & E2 & I2 & T2 & Hfl); rewrite ?zlen_app, ?zlen_entry;
      change (zlen [(x1, in_bytes f)]) with 1; try lia.
    { replace (zlen bsr + 16 + 16 * zlen files) with (zlen bsr + 16 * (zlen files + 1)) by lia.
      rewrite (mi_free _ _ _ I1), total_blocks_cons, total_blocks_app, total_blocks_cons. rewrite (mi_free _ _ _ I), total_blocks_cons in Hfree. cbn [snd] in *.
      rewrite zlen_app, zlen_entry. change (total_blocks []) with 0. lia. }
    rewrite zlen_app in I2. change (zlen [(x1, in_bytes f)]) with 1 in I2.
    replace (zlen rest + 1 + 2) with (zlen rest + 2 + 1) in I2 by lia. rewrite <- !app_assoc in I2.
    exists s2, V2, root2, ((x1, in_bytes f) :: fl). split_and!; auto; [congruence|]. by constructor.
Qed.

(** ** The whole program *)

Lemma run_zero_sects n i s : exists s', zero_sects n i s = Ret tt s' /\
  freeblock s' = freeblock s /\ usedblocks s' = usedblocks s /\ freeinode s' = freeinode s /\
  forall b, mk_img s' !! b = if decide (i <= b < i + Z.of_nat n) then Some zero_block else mk_img s !! b.
Proof.
  revert i s. induction n as [|n IH]; intros i s; cbn [zero_sects].
  - exists s. split_and!; auto. intros b. by rewrite decide_False by lia.
  - rewrite (bind_run _ _ s tt (MkMk (<[i := zero_block]> (mk_img s)) (freeblock s) (usedblocks s) (freeinode s))) by done.
    cbv beta. destruct (IH (i + 1) (MkMk (<[i := zero_block]> (mk_img s)) (freeblock s) (usedblocks s) (freeinode s)))
      as (s' & E & F1 & F2 & F3 & Hb).
    exists s'. split_and!; auto. intros b. rewrite Hb. cbn. destruct (decide (i = b)) as [<-|Hne].
    + rewrite decide_False, decide_True, lookup_insert_eq by lia. done.
    + rewrite lookup_insert_ne by done. repeat case_decide; done || lia.
Qed.

Definition view0 (b : Z) : block := if b =? 1 then sb_block else if b =? 28 then bits mk_meta else zero_block.

(** The image before the first inode. *)
Lemma run_start : exists s,
  (modify (fun s => MkMk (mk_img s) mk_meta mk_meta (freeinode s)) ;;
   assert (nblocks + mk_meta + nlog =? size) ;;
   zero_sects (Z.to_nat (nblocks + mk_meta + nlog)) 0 ;;
   wsect 1 sb_block) mk0 = Ret tt s /\ mk_inv s view0 [].
Proof.
  rewrite (bind_run _ _ mk0 tt (MkMk ∅ mk_meta mk_meta 1)) by done. cbv beta.
  rewrite (bind_run _ _ _ tt (MkMk ∅ mk_meta mk_meta 1)) by done. cbv beta.
  destruct (run_zero_sects (Z.to_nat (nblocks + mk_meta + nlog)) 0 (MkMk ∅ mk_meta mk_meta 1)) as (s1 & E & F1 & F2 & F3 & Hb).
  run E. change (Z.of_nat (Z.to_nat (nblocks + mk_meta + nlog))) with size in Hb. cbn in F1, F2, F3.
  eexists. split; [done|]. constructor; try done.
  - constructor; cbn [mk_img freeblock usedblocks].
    + intros b Hr H28. unfold view0. rewrite (proj2 (Z.eqb_neq b 28)) by done. destruct (Z.eqb_spec b 1) as [->|Hne].
      * apply lookup_insert_eq.
      * rewrite lookup_insert_ne, Hb, decide_True by lia. done.
    + by rewrite F1.
    + intros b Hr. unfold view0. destruct (b =? 1); [apply zlen_sb|]. destruct (b =? 28); [|done].
      apply zlen_bits. unfold mk_meta, BPB, BSIZE. lia.
    + done.
    + rewrite F1. unfold mk_meta. intros b Hr. unfold view0. by rewrite !(proj2 (Z.eqb_neq _ _)) by lia.
    + congruence.
    + rewrite F1. unfold mk_meta, mk_start, size, nlog, LOGSIZE, MAXOPBLOCKS. lia.
Qed.

(** The entries of the root directory. *)
Definition dots : list Z := entry [46; 0] ROOTINO ++ entry [46; 46; 0] ROOTINO.
Definition root_bytes (files : list input) : list Z := dots ++ entries 2 files.
Definition root_size (n : Z) : Z := ((32 + 16 * n) / BSIZE + 1) * BSIZE.
Definition mk_blocks (files : list input) : Z := mk_meta + blocks_of (32 + 16 * zlen files) + total_in files.

Lemma zlen_root files : zlen (root_bytes files) = 32 + 16 * zlen files.
Proof. unfold root_bytes, dots. rewrite !zlen_app, !zlen_entry, zlen_entries. lia. Qed.

(** What mkfs guarantees of its image. *)
Record mk_image (V : Z -> block) (files : list input) (root : inode) (fl : list inode) : Prop := {
  mg_layout : layout mk_start V;
  mg_len : forall b, 0 <= b < size -> zlen (V b) = BSIZE;
  mg_used : forall b, 0 <= b < size -> used V b = (b <? mk_blocks files);
  mg_log : forall b, mk_start <= b < size -> V b = zero_block;
  mg_root_wf : wf_file mk_start V root;
  mg_root_disk : read_dinode (ioff ROOTINO) (V (IBLOCK ROOTINO)) = to_dinode root;
  mg_root_kind : kind root = (T_DIR, 1);
  mg_root_size : i_size root = root_size (zlen files);
  mg_root_byte : forall j, 0 <= j < MAXFILE * BSIZE -> fbyte V root j = zget (root_bytes files) j;
  mg_root_block : forall j, 0 <= j < 32 + 16 * zlen files -> fblock V root (j / BSIZE) <> 0;
  mg_file : forall i f, files !! i = Some f -> exists x, fl !! i = Some x /\
    file_on V (Z.of_nat i + 2) x (in_bytes f) /\ kind x = (T_FILE, 1) /\ apart V x root;
  mg_apart : forall i j x y, fl !! i = Some x -> fl !! j = Some y -> i <> j -> apart V x y
}.

Lemma total_files files fl : Forall2 file_of files fl -> total_blocks fl = total_in files.
Proof.
  unfold total_blocks, total_in. induction 1 as [|f [x bs] files' fl' [E _] _ IH]; [done|].
  cbn [foldr snd]. cbn in E. by rewrite IH, E.
Qed.

(** The end of main: the size of the root is rounded up and the bitmap written. *)
Section Finish.
Context (s : mkst) (V : Z -> block) (files : list input) (root : inode) (fl : list (inode * list Z)).
Hypothesis I : mk_inv s V ((root, root_bytes files) :: fl).
Hypothesis Hty : kind root = (T_DIR, 1).
Hypothesis Hfl : Forall2 file_of files fl.
Hypothesis Hn : zlen files < 199.

Let x2 := set_isize (root_size (zlen files)) root.

Lemma finish_file : file_on V ROOTINO root (root_bytes files).
Proof using All. exact (mi_file _ _ _ I 0 root (root_bytes files) eq_refl). Qed.

Lemma root_size_range : 0 <= root_size (zlen files) <= 3584.
Proof using All. pose proof (zlen_nonneg files). unfold root_size, BSIZE. dlia. Qed.

Lemma run_fix_root : exists s', fix_root ROOTINO s = Ret tt s' /\ mk_rep s' (put_inode V x2) /\ freeblock s' = freeblock s.
Proof using All.
  pose proof finish_file as [F1 F2 F3 F4 F5 F6 F7 F8]. pose proof (mi_rep _ _ _ I) as R. pose proof root_size_range as Hr.
  destruct (run_winode s V x2 R) as (s' & E & R' & Fb & _); [unfold x2, ninodes; cbn; rewrite F1; unfold ROOTINO; lia|apply F4|].
  exists s'. split; [|done]. unfold fix_root. rewrite (bind_run _ _ s (to_dinode root) s).
  2: { unfold rinode. rewrite (bind_run _ _ _ _ _ (run_rsect s V R (i2b ROOTINO) ltac:(done) ltac:(done))). unfold ret. f_equal. exact F2. }
  cbv beta. change (d_size (to_dinode root)) with (i_size root). rewrite F6, zlen_root.
  rewrite (xint_id (32 + 16 * zlen files)) by (unfold is_u32; pose proof (zlen_nonneg files); lia). fold (root_size (zlen files)).
  rewrite u32_small by (unfold is_u32; lia). rewrite xint_id by (unfold is_u32; lia).
  cbn in E. rewrite F1 in E. exact E.
Qed.

Lemma finish_length : length fl = length files.
Proof using All. symmetry. by eapply Forall2_length. Qed.

Lemma finish_image : mk_image (put_inode V x2) files x2 (fst <$> fl).
Proof using All.
  pose proof finish_file as FR. pose proof (mi_rep _ _ _ I) as R. pose proof root_size_range as Hr.
  destruct run_fix_root as (s' & _ & R2 & Fb2). pose proof finish_length as Hlen.
  assert (Hin : i_inum x2 = ROOTINO) by apply FR.
  assert (Hx2 : 0 <= i_inum x2 < ninodes) by by rewrite Hin.
  assert (Hl2 : length (i_addrs x2) = 13%nat) by apply FR.
  assert (Hw2 : wf_file mk_start V x2) by (apply wf_set_isize, FR).
  assert (Hfb : freeblock s' = mk_blocks files).
  { rewrite Fb2, (mi_free _ _ _ I), total_blocks_cons, (total_files _ _ Hfl). cbn [snd]. rewrite zlen_root. unfold mk_blocks. lia. }
  assert (Hok : dinode_ok (to_dinode x2)).
  { destruct (fo_dok _ _ _ _ FR). constructor; try done. cbn. unfold is_u32. lia. }
  assert (Hfile : forall i x bs, fl !! i = Some (x, bs) -> file_on (put_inode V x2) (Z.of_nat i + 2) x bs /\ wf_file mk_start V x).
  { intros i x bs Hi. pose proof (mi_file _ _ _ I (S i) x bs Hi) as F. replace (Z.of_nat (S i) + 1) with (Z.of_nat i + 2) in F by lia.
    split; [|apply F]. pose proof (lookup_lt_Some _ _ _ Hi). apply (put_other s); auto; rewrite ?Hin; unfold ninodes, ROOTINO, zlen in *; lia. }
  assert (Hap : forall i x bs, fl !! i = Some (x, bs) -> apart (put_inode V x2) x x2).
  { intros i x bs Hi a Ha Ho1 Ho2. destruct (Hfile i x bs Hi) as [_ Hwx]. apply (put_owns s) in Ho1, Ho2; auto.
    by apply (mi_apart _ _ _ I (S i) 0%nat x root bs (root_bytes files) Hi eq_refl ltac:(done) a). }
  constructor.
  - by apply (mr_layout s').
  - apply R2.
  - intros b Hb. rewrite (mr_used_spec s') by done. by rewrite Hfb.
  - intros b Hb. apply (mr_zero _ _ R2). pose proof (mr_range _ _ R2). lia.
  - by apply (put_wf s).
  - rewrite <- Hin. by apply (put_read s).
  - done.
  - done.
  - intros j Hj. rewrite (put_fbyte s) by done. by apply (fo_byte _ _ _ _ FR).
  - intros j Hj. assert (Hjr : 0 <= j < MAXFILE * BSIZE) by (change (MAXFILE * BSIZE) with 71680; lia).
    unfold put_inode. rewrite (meta_fblock mk_start) by (done || (by apply (mr_layout s)) || (by apply (put_meta s)) || by apply fbyte_index).
    change (fblock V x2 (j / BSIZE)) with (fblock V root (j / BSIZE)).
    apply (fo_tight _ _ _ _ FR); [by apply fbyte_index|]. rewrite (fo_size _ _ _ _ FR), zlen_root.
    unfold BSIZE in *. clear -Hj. dlia.
  - intros i f Hi. destruct (Forall2_lookup_l _ _ _ _ _ Hfl Hi) as ([x bs] & Hx & [Eb Et]). cbn in Eb, Et. subst bs.
    exists x. split; [by rewrite list_lookup_fmap, Hx|]. destruct (Hfile i x _ Hx). split_and!; auto. by eapply Hap.
  - intros i j x y Hi Hj Hne. rewrite list_lookup_fmap in Hi, Hj.
    destruct (fl !! i) as [[x' bs]|] eqn:Ei; [|done]. destruct (fl !! j) as [[y' cs]|] eqn:Ej; [|done]. cbn in Hi, Hj. simplify_eq.
    destruct (Hfile i x bs Ei) as [_ Hwx], (Hfile j y cs Ej) as [_ Hwy]. intros a Ha Ho1 Ho2.
    apply (put_owns s) in Ho1, Ho2; auto.
    by apply (mi_apart _ _ _ I (S i) (S j) x y bs cs Ei Ej ltac:(congruence) a).
Qed.

(** The bitmap mkfs writes is the one of the view. *)
Lemma run_balloc_end s' W : mk_rep s' W -> exists s2, balloc (usedblocks s') s' = Ret tt s2 /\
  forall b, 0 <= b < size -> mk_img s2 !! b = Some (W b).
Proof using Type.
  intros R2. pose proof (mr_range _ _ R2) as Hr. pose proof (mr_used _ _ R2) as Hu.
  unfold mk_start, size, nlog, LOGSIZE, MAXOPBLOCKS in Hr. unfold balloc, assert. rewrite Hu.
  rewrite (proj2 (Z.ltb_lt _ _)) by lia. rewrite (bind_run _ _ s' tt s') by done. cbv beta.
  eexists. split; [done|]. cbn [mk_img]. change (ninodes / IPB + 3) with 28. intros b Hb.
  destruct (decide (28 = b)) as [<-|Hne].
  - rewrite lookup_insert_eq, (mr_bits _ _ R2). done.
  - rewrite lookup_insert_ne by done. by apply (mr_view _ _ R2).
Qed.

End Finish.

Lemma dots_run s : dirent ROOTINO (Ulib.strcpy (replicate 14 0) [46; 0]) s = Ret (entry [46; 0] ROOTINO) s /\
  dirent ROOTINO (Ulib.strcpy (replicate 14 0) [46; 46; 0]) s = Ret (entry [46; 46; 0] ROOTINO) s.
Proof. split; reflexivity. Qed.

Lemma run_mkfs files : Forall input_ok files -> zlen files < 199 -> mk_blocks files <= mk_start ->
  exists s V root fl, main files mk0 = Ret tt s /\ (forall b, 0 <= b < size -> mk_img s !! b = Some (V b)) /\
    mk_image V files root fl.
Proof.
  intros Hok Hn Hcap. pose proof (zlen_nonneg files) as Hz. pose proof (total_in_nonneg files) as Ht.
  unfold mk_blocks in Hcap. destruct run_start as (s0 & E0 & I0).
  set (rest := let! rootino := ialloc T_DIR in
    assert (rootino =? ROOTINO) ;;
    let! de := dirent rootino (Ulib.strcpy (replicate 14 0) [46; 0]) in
    iappend rootino de sizeof_dirent ;;
    let! de := dirent rootino (Ulib.strcpy (replicate 14 0) [46; 46; 0]) in
    iappend rootino de sizeof_dirent ;;
    add_files rootino files ;;
    fix_root rootino ;;
    let! used := get usedblocks in
    balloc used).
  assert (Em : main files mk0 = rest s0).
  { rewrite <- (bind_run _ (fun _ => rest) _ _ _ E0). rewrite bind_bind. unfold main.
    change (ninodes / IPB + 3 + (size / (512 * 8) + 1)) with mk_meta.
    rewrite !(bind_run _ _ mk0 tt (MkMk ∅ mk_meta mk_meta 1)) by done. cbv beta. rewrite bind_bind.
    rewrite !(bind_run (assert _) _ (MkMk ∅ mk_meta mk_meta 1) tt (MkMk ∅ mk_meta mk_meta 1)) by done. cbv beta.
    rewrite bind_bind. unfold rest. reflexivity. }
  rewrite Em. unfold rest. clear rest Em E0.
  destruct (run_ialloc s0 view0 [] T_DIR I0 eq_refl ltac:(unfold T_DIR; lia)) as (s1 & E1 & I1). run E1.
  change (zlen [] + 1) with ROOTINO. set (r0 := new_inode T_DIR (zlen [] + 1)) in *. cbn [app] in I1.
  rewrite (bind_run _ _ s1 tt s1) by done. cbv beta. destruct (dots_run s1) as [D1 _]. run D1.
  assert (Hm32 : blocks_of 16 = 1 /\ blocks_of 32 = 1 /\ blocks_of 0 = 0) by done. destruct Hm32 as (B16 & B32 & B0).
  assert (Hcons : forall x bs, total_blocks [(x, bs)] = blocks_of (zlen bs)) by (intros; rewrite total_blocks_cons; cbn; lia).
  assert (Hrange : mk_meta + 1 <= mk_start) by done.
  destruct (run_iappend s1 _ _ 0 r0 [] (entry [46; 0] ROOTINO) I1 eq_refl) as (s2 & V2 & r2 & E2 & I2 & T2);
    rewrite ?zlen_entry; [done|rewrite (mi_free _ _ _ I1), Hcons; change (zlen (@nil Z)) with 0; change (0 + 16) with 16; rewrite B0, B16; lia|].
  rewrite zlen_entry in E2. change (Z.of_nat 0 + 1) with ROOTINO in E2. change sizeof_dirent with 16. run E2.
  change (<[0%nat := (r2, [] ++ entry [46; 0] ROOTINO)]> [(r0, [])]) with [(r2, entry [46; 0] ROOTINO)] in I2.
  destruct (dots_run s2) as [_ D2]. run D2.
  destruct (run_iappend s2 _ _ 0 r2 _ (entry [46; 46; 0] ROOTINO) I2 eq_refl) as (s3 & V3 & r3 & E3 & I3 & T3);
    rewrite ?zlen_entry; [done|rewrite (mi_free _ _ _ I2), Hcons, zlen_entry; change (16 + 16) with 32; rewrite B16, B32; lia|].
  rewrite zlen_entry in E3. change (Z.of_nat 0 + 1) with ROOTINO in E3. run E3.
  change (<[0%nat := (r3, entry [46; 0] ROOTINO ++ entry [46; 46; 0] ROOTINO)]> [(r2, entry [46; 0] ROOTINO)]) with [(r3, dots)] in I3.
  assert (Hd : zlen dots = 32) by reflexivity.
  destruct (run_add_files files s3 V3 r3 dots [] I3 Hok) as (s4 & V4 & r4 & fl & E4 & I4 & T4 & Hfl);
    rewrite ?Hd; change (zlen (@nil (inode * list Z))) with 0; unfold ninodes; try lia.
  { change (MAXFILE * BSIZE) with 71680. lia. }
  { rewrite (mi_free _ _ _ I3), Hcons, Hd, B32. lia. }
  run E4. change (0 + 2) with 2 in I4. fold (root_bytes files) in I4. cbn [app] in I4.
  assert (Hty : kind r4 = (T_DIR, 1)) by (rewrite T4, T3, T2; done).
  destruct (run_fix_root s4 V4 files r4 fl I4 Hty Hfl Hn) as (s5 & E5 & R5 & _). run E5.
  rewrite (bind_run _ _ s5 (usedblocks s5) s5) by done. cbv beta.
  destruct (run_balloc_end s5 _ R5) as (s6 & E6 & Himg).
  eexists s6, _, _, _. split; [exact E6|]. split; [exact Himg|]. by apply (finish_image s4).
Qed.
