(* ===== verification/MkfsRead.v ===== *)
(** * The kernel reads what mkfs wrote

    The image mkfs leaves is mounted by the kernel's file system code: every
    file given to mkfs is found under its name by namei, and readi returns its
    contents. *)

From S2P Require Import Prelude.
From S2P Require Import Params.
From S2P Require Import Disk.
From S2P Require Import BufSpec.
From S2P Require Import Bio.
From S2P Require Import Log.
From S2P Require Import LogCrash.
From S2P Require Import LogOps.
From S2P Require Import CString.
From S2P Require Import Fs.
From S2P Require Import FsTx.
From S2P Require Import FsAlloc.
From S2P Require Import FsInode.
From S2P Require Import FsFile.
From S2P Require Import FsDir.
From S2P Require Import Mkfs.
From S2P Require Import MkfsProps.
Import Mkfs.

(** ** The root directory *)

Definition root_names (files : list input) : list (list Z * Z) :=
  ([46; 0], ROOTINO) :: ([46; 46; 0], ROOTINO) :: imap (fun i f => (in_name f, Z.of_nat i + 2)) files.
Definition to_entry (e : list Z * Z) : list Z := entry e.1 e.2.

Lemma entries_concat n files :
  entries n files = concat (map to_entry (imap (fun i f => (in_name f, Z.of_nat i + n)) files)).
Proof.
  revert n. induction files as [|f files IH]; intros n; [done|]. cbn [entries imap map concat]. f_equal.
  rewrite IH. f_equal. f_equal. apply imap_ext. intros. cbn. f_equal. lia.
Qed.

Lemma root_bytes_concat files : root_bytes files = concat (map to_entry (root_names files)).
Proof. unfold root_bytes, dots. rewrite entries_concat. by rewrite <- app_assoc. Qed.

(** A byte of a list of 16-byte entries. *)
Lemma zget_entries (es : list (list Z * Z)) (j : nat) i : 0 <= i < 16 ->
  zget (concat (map to_entry es)) (16 * Z.of_nat j + i) =
  match es !! j with Some e => zget (to_entry e) i | None => 0 end.
Proof.
  intros Hi. unfold zget. revert j. induction es as [|e es IH]; intros j.
  - cbn. by destruct (Z.to_nat _).
  - pose proof (zlen_entry e.1 e.2) as Hl. unfold zlen in Hl. cbn [map concat]. destruct j as [|j]; cbn [lookup list_lookup].
    + rewrite app_nth1 by (unfold to_entry; lia). by f_equal; lia.
    + rewrite app_nth2 by (unfold to_entry; lia). rewrite <- IH. f_equal. unfold to_entry. lia.
Qed.

Section Root.
Context (V : Z -> block) (files : list input) (root : inode) (fl : list inode).
Hypothesis G : mk_image V files root fl.
Hypothesis Hn : zlen files < 199.

Lemma root_nentries : nentries root = 32 * ((zlen files + 2) / 32 + 1).
Proof using All.
  pose proof (zlen_nonneg files). unfold nentries. rewrite (mg_root_size _ _ _ _ G). unfold root_size, BSIZE. dlia.
Qed.

(** The entries the directory is read to have; the rest of its last block is free. *)
Lemma root_entry j : 0 <= j < nentries root ->
  de_at V root j = match root_names files !! Z.to_nat j with Some e => to_entry e | None => replicate 16 0 end.
Proof using All.
  intros Hj. rewrite root_nentries in Hj. pose proof (zlen_nonneg files) as Hz. apply list_eq. intros i.
  assert (Hlen : forall e, length (to_entry e) = 16%nat)
    by (intros e; pose proof (zlen_entry e.1 e.2); unfold zlen, to_entry in *; lia).
  pose proof (zlen_de_at V root j) as Hd. unfold zlen in Hd. destruct (decide (i < 16)%nat) as [Hi|Hi].
  - unfold de_at. rewrite lookup_fbytes by lia. rewrite (mg_root_byte _ _ _ _ G), root_bytes_concat
      by (change (MAXFILE * BSIZE) with 71680; dlia).
    rewrite <- (Z2Nat.id j) at 1 by lia. rewrite zget_entries by lia.
    destruct (root_names files !! Z.to_nat j) as [e|].
    + unfold zget. rewrite Nat2Z.id.
      destruct (to_entry e !! i) as [v|] eqn:E; [by rewrite (nth_lookup_Some _ _ _ _ E)|].
      apply lookup_ge_None in E. rewrite Hlen in E. lia.
    + symmetry. by apply lookup_replicate.
  - rewrite lookup_ge_None_2 by lia. destruct (root_names files !! _); rewrite lookup_ge_None_2; rewrite ?Hlen; cbn; lia || done.
Qed.

Lemma root_names_lookup j e : root_names files !! j = Some e -> 0 < e.2 < 65536.
Proof using All.
  unfold zlen in Hn. destruct j as [|[|j]]; cbn [root_names lookup list_lookup]; [intros [= <-]; done..|].
  intros (f & Hf%lookup_lt_Some & ->)%list_lookup_imap_Some. cbn. lia.
Qed.

(** A name of the list, different from the others in its first 14 characters,
    is the one the directory finds. *)
Lemma root_lookup (j : nat) e q : root_names files !! j = Some e ->
  NoDup (cstr 14 <$> (root_names files).*1) -> cstr 14 q = cstr 14 e.1 ->
  List.find (match_at V root q) (seqZ 0 (zlen files + 2)) = Some (Z.of_nat j) /\ de_inum (de_at V root (Z.of_nat j)) = e.2.
Proof using All.
  intros He Hd Hq. assert (Hle : zlen files + 2 <= nentries root) by (rewrite root_nentries; dlia).
  assert (Hj : 0 <= Z.of_nat j < zlen files + 2).
  { apply lookup_lt_Some in He. unfold root_names, zlen in *. cbn in He.
    rewrite length_imap in He. lia. }
  assert (Hat : forall i, 0 <= i < zlen files + 2 -> match_at V root q i =
    match root_names files !! Z.to_nat i with Some e' => bool_decide (cstr 14 q = cstr 14 e'.1) | None => false end).
  { intros i Hi. unfold match_at. rewrite root_entry by lia. destruct (root_names files !! Z.to_nat i) as [e'|] eqn:E'; [|done].
    apply root_names_lookup in E'.
    destruct (new_dirent_ok (replicate 16 0) e'.1 e'.2 eq_refl ltac:(lia)) as (_ & H1 & H2).
    unfold to_entry, entry. rewrite H1, H2. by rewrite (proj2 (Z.eqb_neq _ _)) by lia. }
  split.
  - apply find_seqZ_unique; [done| |].
    + rewrite Hat, Nat2Z.id, He by done. by apply bool_decide_true.
    + intros i Hi Hne. rewrite Hat by done. destruct (root_names files !! Z.to_nat i) as [e'|] eqn:E'; [|done].
      apply bool_decide_false. intros E. apply Hne. rewrite Hq in E.
      assert (Z.to_nat i = j); [|lia]. eapply (NoDup_lookup _ _ _ (cstr 14 e.1) Hd); rewrite !list_lookup_fmap.
      * by rewrite E', E.
      * by rewrite He.
  - rewrite root_entry by lia; rewrite Nat2Z.id, He. apply root_names_lookup in He.
    by destruct (new_dirent_ok (replicate 16 0) e.1 e.2 eq_refl ltac:(lia)) as (_ & H1 & _).
Qed.

End Root.

(** ** Inodes loaded into an empty cache *)

(** The entry iget makes in a free slot, and that entry once locked. *)
Definition fresh (inum : Z) : inode := MkInode ROOTDEV inum 1 0 0 0 0 0 0 (replicate 13 0).
Definition loaded (flags ref inum : Z) (x : inode) : inode :=
  MkInode ROOTDEV inum ref flags (i_type x) (i_major x) (i_minor x) (i_nlink x) (i_size x) (i_addrs x).

Lemma scan_free n i dev inum e :
  icache_scan (replicate n null_inode) i dev inum (Some e) = (None, Some e).
Proof. revert i. induction n as [|n IH]; intros i; [done|]. cbn [replicate icache_scan]. apply IH. Qed.

Lemma scan_first n dev inum : icache_scan (null_inode :: replicate n null_inode) 0 dev inum None = (None, Some 0%nat).
Proof. apply scan_free. Qed.

Lemma scan_second n x dev inum : i_ref x = 1 -> i_inum x <> inum ->
  icache_scan (x :: null_inode :: replicate n null_inode) 0 dev inum None = (None, Some 1%nat).
Proof.
  intros Hr Hi. cbn [icache_scan]. rewrite (proj2 (Z.eqb_neq _ _) Hi), andb_false_r, Hr. apply scan_free.
Qed.

Lemma wf_loaded start V fl r inum x : wf_file start V x -> wf_file start V (loaded fl r inum x).
Proof. intros [H1 H2 H3 H4 H5 H6]. by constructor. Qed.

Lemma file_dense V inum x bs : file_on V inum x bs -> dense V x.
Proof.
  intros [_ _ _ _ [Ht _] Hs Hm _]. pose proof (zlen_nonneg bs). split; [lia|]. intros i Hi. apply Ht.
  - apply fbyte_index. lia.
  - unfold BSIZE. dlia.
Qed.

Lemma fbytes_file V inum x bs n : file_on V inum x bs -> 0 <= n ->
  fbytes V x 0 (Z.min n (zlen bs)) = take (Z.to_nat n) bs.
Proof.
  intros F Hn. pose proof (fo_max _ _ _ _ F) as Hm. apply list_eq. intros i.
  destruct (decide (Z.of_nat i < Z.min n (zlen bs))) as [Hi|Hi].
  - rewrite lookup_fbytes, (fo_byte _ _ _ _ F) by lia. rewrite lookup_take_lt by lia.
    unfold zget. rewrite Z.add_0_l, Nat2Z.id. destruct (bs !! i) as [v|] eqn:E; [by rewrite (nth_lookup_Some _ _ _ _ E)|].
    apply lookup_ge_None in E. unfold zlen in Hi. lia.
  - rewrite !lookup_ge_None_2; [done| |]; [rewrite length_take; unfold zlen in Hi; lia|rewrite length_fbytes; lia].
Qed.

Section Kernel.
Context {S : Type} `{!BufferCache S}.
Context (devsw : Z -> devops S).
Implicit Types (f : fs S).

Lemma run_iget_first f inum : fs_inode f = icache0 ->
  iget ROOTDEV inum f = Ret 0%nat (MkFs (fs_log f) (fresh inum :: replicate 49 null_inode)).
Proof.
  intros E. unfold iget. rewrite (bind_run _ _ f (null_inode :: replicate 49 null_inode) f) by (unfold get; by rewrite E).
  cbv beta. rewrite scan_first. cbv iota. rewrite (bind_run _ _ _ _ _ (lookup_modip _ _ _)), E. done.
Qed.

Lemma run_iget_second f x inum : fs_inode f = x :: replicate 49 null_inode -> i_ref x = 1 -> i_inum x <> inum ->
  iget ROOTDEV inum f = Ret 1%nat (MkFs (fs_log f) (x :: fresh inum :: replicate 48 null_inode)).
Proof.
  intros E Hr Hi. unfold iget. rewrite (bind_run _ _ f (x :: null_inode :: replicate 48 null_inode) f) by (unfold get; by rewrite E).
  cbv beta. rewrite scan_second by done. cbv iota. rewrite (bind_run _ _ _ _ _ (lookup_modip _ _ _)), E. done.
Qed.

(** Locking a new entry loads the inode from the disk. *)
Lemma run_ilock_fresh V k f ip inum x : fstx mk_start f V ∅ k -> fs_inode f !! ip = Some (fresh inum) ->
  read_dinode (ioff inum) (V (IBLOCK inum)) = to_dinode x -> i_type x <> 0 -> 0 <= inum < ninodes ->
  exists f', ilock ip f = Ret tt f' /\ fs_inode f' = <[ip := loaded 3 1 inum x]> (fs_inode f) /\ fstx mk_start f' V ∅ k.
Proof.
  intros Hf Hx Hd Ht Hi. unfold ninodes in Hi.
  destruct (run_ilock mk_start V ∅ k f ip (fresh inum)) as (f1 & E & Hi1 & Hf1); auto; try done.
  - cbn. unfold IBLOCK, IPB, mk_start. change (size - nlog) with 994. change (BSIZE / sizeof_dinode) with 8. dlia.
  - cbn [fresh i_inum i_flags]. rewrite Hd. done.
  - exists f1. split; [done|]. split; [|done]. rewrite Hi1. cbn [fresh i_inum i_flags]. by rewrite Hd.
Qed.

(** Releasing the last reference to a file that has links keeps it. *)
Lemma run_iunlockput_linked f ip inum x : fs_inode f !! ip = Some (loaded 3 1 inum x) -> i_nlink x <> 0 ->
  iunlockput ip f = Ret tt (MkFs (fs_log f) (<[ip := loaded 2 0 inum x]> (fs_inode f))).
Proof.
  intros Hx Hl. unfold iunlockput, iunlock. set (f1 := MkFs (fs_log f) (<[ip := loaded 2 1 inum x]> (fs_inode f))).
  assert (Hlt : (ip < length (fs_inode f))%nat) by (by eapply lookup_lt_Some).
  rewrite bind_bind. run (run_getip _ _ _ Hx).
  change (negb (has (i_flags (loaded 3 1 inum x)) I_BUSY) || (i_ref (loaded 3 1 inum x) <? 1)) with false. cbv iota.
  rewrite (bind_run _ _ f tt f1) by (rewrite lookup_modip, (list_alter_insert _ _ _ _ Hx); done). cbv beta.
  assert (Hx1 : fs_inode f1 !! ip = Some (loaded 2 1 inum x)) by (cbn; by rewrite list_lookup_insert_eq).
  unfold iput. run (run_getip _ _ _ Hx1).
  change (has (i_flags (loaded 2 1 inum x)) I_VALID) with true. cbn [loaded i_ref i_nlink Z.eqb andb].
  rewrite (proj2 (Z.eqb_neq _ _) Hl), andb_false_r. rewrite (bind_run _ _ f1 tt f1) by done. cbv beta.
  rewrite lookup_modip, (list_alter_insert _ _ _ _ Hx1). unfold f1. cbn [fs_log fs_inode]. by rewrite list_insert_insert_eq.
Qed.

(** A path with one element leaves nothing behind it. *)
Lemma elems_nil path : elems path = [] -> match path with c :: _ => c <> slash | [] => True end -> path = [].
Proof.
  intros E Hh. destruct path as [|c p]; [done|]. pose proof (elems_span p c Hh) as H.
  destruct (span_elem (c :: p)) as [e r]. destruct H as [_ H]. by rewrite E in H.
Qed.

Section Mounted.
Context (V : Z -> block) (files : list input) (root : inode) (fl : list inode).
Hypothesis G : mk_image V files root fl.
Hypothesis Hn : zlen files < 199.
Hypothesis Hd : NoDup (cstr 14 <$> (root_names files).*1).

Lemma root_dir : dir_upto mk_start V (loaded 3 1 ROOTINO root) (zlen files + 2).
Proof using All.
  pose proof (zlen_nonneg files). pose proof (mg_root_size _ _ _ _ G) as Hs. unfold root_size, BSIZE in Hs. constructor.
  - apply wf_loaded, (mg_root_wf _ _ _ _ G).
  - pose proof (mg_root_kind _ _ _ _ G) as E. by injection E.
  - cbn [loaded i_size]. rewrite Hs. dlia.
  - cbn [loaded i_size]. change (MAXFILE * BSIZE) with 71680. rewrite Hs. dlia.
  - cbn [loaded i_size]. rewrite Hs. dlia.
  - intros i Hi. apply (mg_root_block _ _ _ _ G). lia.
Qed.

(** Looking up the path of a file leaves its inode in the second cache entry. *)
Lemma run_namei_file k f (i : nat) file path e cwd name0 :
  fstx mk_start f V ∅ k -> fs_inode f = icache0 -> files !! i = Some file ->
  head path = Some slash -> Forall (fun c => c <> 0) path -> elems path = [e] -> take 14 e = cstr 14 (in_name file) ->
  length name0 = 14%nat ->
  exists f', namei devsw cwd name0 path f = Ret (Some 1%nat) f' /\ fstx mk_start f' V ∅ k /\
    fs_inode f' !! 1%nat = Some (fresh (Z.of_nat i + 2)).
Proof using All.
  intros Hf Hic Hi Hsl Hnz He Hnm Hlen. destruct path as [|c path]; [done|]. injection Hsl as ->.
  pose proof (skipelem_elems (slash :: path) name0 Hnz Hlen) as Hsk. unfold namei, namex.
  change (slash =? slash) with true. cbv iota. rewrite bind_bind, (bind_run _ _ _ _ _ (run_iget_first f ROOTINO Hic)). cbv beta.
  set (f1 := MkFs (fs_log f) (fresh ROOTINO :: replicate 49 null_inode)).
  assert (Hf1 : fstx mk_start f1 V ∅ k) by by apply fstx_icache.
  cbn [length namex_loop]. destruct (skipelem (slash :: path) name0) as [[rest nm]|]; [|by rewrite He in Hsk].
  destruct Hsk as (e' & He' & Hcs & Hl & _ & Hh). rewrite He in He'. injection He' as <- Hr.
  rewrite (elems_nil rest (eq_sym Hr) Hh). pose proof (mg_root_kind _ _ _ _ G) as Hk. injection Hk as Hty Hnl.
  destruct (run_ilock_fresh V k f1 0 ROOTINO root Hf1 eq_refl (mg_root_disk _ _ _ _ G)) as (f2 & E2 & Hi2 & Hf2);
    [by rewrite Hty|unfold ROOTINO, ninodes; lia|].
  rewrite bind_bind. run E2. change (<[0%nat := loaded 3 1 ROOTINO root]> (fs_inode f1)) with (loaded 3 1 ROOTINO root :: replicate 49 null_inode) in Hi2.
  assert (Hx2 : fs_inode f2 !! 0%nat = Some (loaded 3 1 ROOTINO root)) by by rewrite Hi2.
  rewrite bind_bind. run (run_getip _ _ _ Hx2). cbn [loaded i_type]. rewrite Hty. change (negb (T_DIR =? T_DIR)) with false. cbn [andb].
  assert (Hj : root_names files !! (Datatypes.S (Datatypes.S i)) = Some (in_name file, Z.of_nat i + 2)).
  { change (imap (fun i (g : input) => (in_name g, Z.of_nat i + 2)) files !! i = Some (in_name file, Z.of_nat i + 2)).
    by rewrite list_lookup_imap, Hi. }
  destruct (root_lookup V files root fl G Hn _ _ nm Hj Hd) as [D1 D2]; [cbn [fst]; congruence|].
  destruct (run_dirlookup_found devsw mk_start V k f2 0 _ nm _ _ Hf2 (mg_layout _ _ _ _ G) root_dir Hx2 ltac:(right; lia)
    ltac:(pose proof (zlen_nonneg files); lia) D1) as (f3 & Hi3 & Hf3 & E3).
  change (de_at V (loaded 3 1 ROOTINO root)) with (de_at V root) in E3. rewrite D2 in E3. cbn [snd] in E3. rewrite Hi2 in Hi3.
  rewrite (bind_run _ _ _ _ _ (run_iget_second f3 _ (Z.of_nat i + 2) Hi3 eq_refl ltac:(cbn; unfold ROOTINO; lia))) in E3.
  rewrite bind_bind. run E3. cbn [fst]. set (f4 := MkFs (fs_log f3) _).
  pose proof (run_iunlockput_linked f4 0 ROOTINO root eq_refl ltac:(rewrite Hnl; done)) as E5. rewrite bind_bind. run E5.
  eexists. split; [reflexivity|]. split; [by apply fstx_icache|]. done.
Qed.

End Mounted.

(** A file of the image, found by its path and locked: its inode [y] and its bytes. *)
Record locked_file (V : Z -> block) (k : Z) (ip : nat) (y : inode) (bs : list Z) (f : fs S) : Prop := {
  lf_tx : fstx mk_start f V ∅ k;
  lf_layout : layout mk_start V;
  lf_wf : wf_file mk_start V y;
  lf_dense : dense V y;
  lf_ino : fs_inode f !! ip = Some y;
  lf_fields : i_type y = T_FILE /\ i_nlink y = 1 /\ i_flags y = 3 /\ i_ref y = 1 /\ i_size y = zlen bs;
  lf_bytes : forall n, 0 <= n -> fbytes V y 0 (Z.min n (zlen bs)) = take (Z.to_nat n) bs
}.

Lemma run_open_file files (i : nat) file path e :
  Forall input_ok files -> zlen files < 199 -> mk_blocks files <= mk_start ->
  NoDup (cstr 14 <$> (root_names files).*1) ->
  files !! i = Some file -> head path = Some slash -> Forall (fun c => c <> 0) path -> elems path = [e] ->
  take 14 e = cstr 14 (in_name file) ->
  exists s, main files mk0 = Ret tt s /\
    forall f V k cwd name0,
      (forall b, 0 <= b < size -> mk_img s !! b = Some (V b)) -> fstx mk_start f V ∅ k -> fs_inode f = icache0 ->
      length name0 = 14%nat ->
      exists f1 f2 V' y, namei devsw cwd name0 path f = Ret (Some 1%nat) f1 /\ ilock 1 f1 = Ret tt f2 /\
        locked_file V' k 1 y (in_bytes file) f2.
Proof.
  intros Hok Hn Hcap Hd Hi Hsl Hnz He Hnm.
  destruct (run_mkfs files Hok Hn Hcap) as (s & V & root & fl & E & Himg & G). exists s. split; [done|].
  intros f V' k cwd name0 HV Hf' Hic Hlen.
  assert (Hf : fstx mk_start f V ∅ k).
  { apply (fstx_ext _ _ _ V _ _ Hf'). intros b Hb.
    assert (Hb' : 0 <= b < size) by (unfold mk_start in Hb; change (size - nlog) with 994 in Hb; change size with 1024; lia).
    pose proof (HV b Hb'). specialize (Himg b Hb'). congruence. }
  destruct (run_namei_file V files root fl G Hn Hd k f i file path e cwd name0 Hf Hic Hi Hsl Hnz He Hnm Hlen)
    as (f1 & E1 & Hf1 & Hx1).
  destruct (mg_file _ _ _ _ G i file Hi) as (x & _ & F & Hk & _). injection Hk as Hty Hnl.
  apply lookup_lt_Some in Hi. unfold zlen in Hn.
  destruct (run_ilock_fresh V k f1 1 (Z.of_nat i + 2) x Hf1 Hx1 (fo_disk _ _ _ _ F)) as (f2 & E2 & Hi2 & Hf2);
    [by rewrite Hty|unfold ninodes; lia|].
  exists f1, f2, V, (loaded 3 1 (Z.of_nat i + 2) x). split; [done|]. split; [done|]. constructor; auto.
  - apply G.
  - apply wf_loaded. apply F.
  - exact (file_dense _ _ _ _ F).
  - rewrite Hi2. apply list_lookup_insert_eq. by eapply lookup_lt_Some.
  - cbn. split_and!; auto. exact (fo_size _ _ _ _ F).
  - intros n Hn0. exact (fbytes_file V _ x _ n F Hn0).
Qed.

(** C14: the kernel reads what mkfs wrote.  mkfs succeeds on files with distinct
    names that fit the image.  A kernel that runs on that disk, with an empty
    inode cache, finds each file by its absolute path and reads from it the
    bytes mkfs was given, up to the number asked for. *)
Theorem mkfs_namei_readi files (i : nat) file path e :
  Forall input_ok files -> zlen files < 199 -> mk_blocks files <= mk_start ->
  NoDup (cstr 14 <$> (root_names files).*1) ->
  files !! i = Some file -> head path = Some slash -> Forall (fun c => c <> 0) path -> elems path = [e] ->
  take 14 e = cstr 14 (in_name file) ->
  exists s, main files mk0 = Ret tt s /\
    forall f V k cwd name0 n,
      (forall b, 0 <= b < size -> mk_img s !! b = Some (V b)) -> fstx mk_start f V ∅ k -> fs_inode f = icache0 ->
      length name0 = 14%nat -> 0 <= n < 4294967296 ->
      exists ip f1 f2 f3,
        namei devsw cwd name0 path f = Ret (Some ip) f1 /\ ilock ip f1 = Ret tt f2 /\
        readi devsw ip 0 n f2 = Ret (Z.min n (zlen (in_bytes file)), take (Z.to_nat n) (in_bytes file)) f3.
Proof.
  intros Hok Hn Hcap Hd Hi Hsl Hnz He Hnm.
  destruct (run_open_file files i file path e Hok Hn Hcap Hd Hi Hsl Hnz He Hnm) as (s & E & H). exists s. split; [done|].
  intros f V k cwd name0 n HV Hf Hic Hlen Hnr. destruct (H f V k cwd name0 HV Hf Hic Hlen) as (f1 & f2 & V' & y & E1 & E2 & Hl).
  destruct (lf_fields _ _ _ _ _ _ Hl) as (Hty & _ & _ & _ & Hs). destruct (lf_dense _ _ _ _ _ _ Hl) as [Hz _].
  destruct (run_readi devsw mk_start V' k f2 1 y 0 n (lf_tx _ _ _ _ _ _ Hl) (lf_layout _ _ _ _ _ _ Hl) (lf_wf _ _ _ _ _ _ Hl)
    (lf_dense _ _ _ _ _ _ Hl) (lf_ino _ _ _ _ _ _ Hl)) as (f3 & E3 & _ & _); [by rewrite Hty|lia..|].
  exists 1%nat, f1, f2, f3. split; [exact E1|]. split; [exact E2|]. rewrite E3, Z.sub_0_r, Hs.
  f_equal. f_equal. apply (lf_bytes _ _ _ _ _ _ Hl). lia.
Qed.

End Kernel.

(** ** Example: an image with two files *)

(** The files _cat, read in two pieces, and README. *)
Definition ex_files : list input :=
  [([95; 99; 97; 116; 0], Some [[127; 69]; [76; 70; 1]]); ([82; 69; 65; 68; 77; 69; 0], Some [replicate 600 65])].

Definition mk_log (m : gmap Z block) : log (bio Memide.memdisk) :=
  MkLog 994 30 1 0 ROOTDEV 0 (replicate 30 0) (MkBio (binit bcache0) (Memide.MkMemdisk m 1024 [])).

Lemma mk_fstx m ic k : blocks_ok m = true -> 0 <= k <= 27 -> fstx mk_start (MkFs (mk_log m) ic) (blk m) ∅ k.
Proof.
  intros Hm Hk. exists (MkAbuf m [] 1024 ∅ ∅), [].
  assert (HR : bc_rep (MkBio (binit bcache0) (Memide.MkMemdisk m 1024 [])) (MkAbuf m [] 1024 ∅ ∅)).
  { refine (binit_rep (Memide.MkMemdisk m 1024 []) _). intros sec. by apply blocks_ok_len. }
  constructor; cbn [fs_log mk_log lg_start lg_outstanding lg_size]; try done; try (unfold zlen, NBUF; cbn; lia).
  - constructor; [exact HR|..]; cbn [mk_log lg_dev lg_start lg_size lg_n lg_sector a_nsect];
      try (vm_compute; done || (split; done)); [by apply NoDup_nil|]. intros sec. split.
    + intros [d Hd]. cbn in Hd. by rewrite lookup_empty in Hd.
    + by intros ?%elem_of_nil.
  - intros h sec d [Hh _]. cbn in Hh. by rewrite lookup_empty in Hh.
Qed.

Definition ex_img : gmap Z block := match main ex_files mk0 with Ret _ s => mk_img s | _ => ∅ end.

Lemma ex_img_ok : blocks_ok ex_img = true /\ forallb (fun b => bool_decide (is_Some (ex_img !! Z.of_nat b))) (seq 0 1024) = true.
Proof. split; vm_compute; reflexivity. Qed.

Lemma mkfs_namei_readi_witness :
  exists ip f1 f2 f3,
    namei no_devs 0 (replicate 14 0) [47; 99; 97; 116] (MkFs (mk_log ex_img) icache0) = Ret (Some ip) f1 /\
    ilock ip f1 = Ret tt f2 /\ readi no_devs ip 0 512 f2 = Ret (5, [127; 69; 76; 70; 1]) f3.
Proof.
  destruct (mkfs_namei_readi no_devs ex_files 0 ([95; 99; 97; 116; 0], Some [[127; 69]; [76; 70; 1]]) [47; 99; 97; 116] [99; 97; 116])
    as (s & E & H).
  - repeat constructor; try done; vm_compute; congruence.
  - vm_compute. reflexivity.
  - vm_compute. congruence.
  - change (NoDup [[46]; [46; 46]; [99; 97; 116]; [82; 69; 65; 68; 77; 69]]). apply (bool_decide_unpack _). vm_compute. done.
  - reflexivity.
  - reflexivity.
  - repeat constructor; done.
  - reflexivity.
  - reflexivity.
  - assert (Hs : mk_img s = ex_img) by (unfold ex_img; by rewrite E). rewrite Hs in H. destruct ex_img_ok as [Hok Hall].
    destruct (H (MkFs (mk_log ex_img) icache0) (blk ex_img) 0 0%nat (replicate 14 0) 512) as (ip & f1 & f2 & f3 & E1 & E2 & E3).
    + intros b Hb. change size with 1024 in Hb.
      pose proof (forallb_seq _ _ Hall (Z.to_nat b) ltac:(lia)) as Hx. cbv beta in Hx. rewrite Z2Nat.id in Hx by lia.
      apply bool_decide_eq_true in Hx as [d Hx]. unfold blk. rewrite Hx. reflexivity.
    + exact (mk_fstx ex_img icache0 0 Hok ltac:(lia)).
    + reflexivity.
    + reflexivity.
    + lia.
    + exists ip, f1, f2, f3. exact (conj E1 (conj E2 E3)).
Defined.

(** With 30 files the entries end at a block boundary; the size recorded for
    the root then includes a block it does not have, so a lookup of a name that
    is not there makes readi allocate one. *)
Definition thirty : list input := imap (fun i _ => ([97 + Z.of_nat i; 0], Some [])) (replicate 30 tt).

Theorem mkfs_root_hole :
  match main thirty mk0 with
  | Ret _ s =>
      let root := read_dinode (ioff ROOTINO) (blk (mk_img s) (IBLOCK ROOTINO)) in
      d_size root = 1024 /\ zget (d_addrs root) 0 <> 0 /\ zget (d_addrs root) 1 = 0
  | _ => False
  end.
Proof. vm_compute. split_and!; congruence. Qed.
