(* ===== verification/Mmu.v ===== *)
(** * Addresses, page-table entries and words in memory (mmu.h, memlayout.h)

    The macros of mmu.h and memlayout.h on 32-bit words, and 32-bit loads and
    stores in the flat memory.  The lemmas turn the mask and shift expressions
    into division and remainder, which is what the proofs about page tables
    work with. *)

From S2P Require Import Prelude.
From S2P Require Import CString.

Definition PGSIZE : Z := 4096.
Definition NPDENTRIES : Z := 1024.
Definition NPTENTRIES : Z := 1024.
Definition PTXSHIFT : Z := 12.
Definition PDXSHIFT : Z := 22.

Definition PDX (va : Z) : Z := Z.land (Z.shiftr va PDXSHIFT) 0x3FF.
Definition PTX (va : Z) : Z := Z.land (Z.shiftr va PTXSHIFT) 0x3FF.
Definition PGADDR (d t o : Z) : Z := u32 (Z.lor (Z.lor (Z.shiftl d PDXSHIFT) (Z.shiftl t PTXSHIFT)) o).

(** [~(PGSIZE-1)], as the 32-bit word it is converted to. *)
Definition pg_mask : Z := u32 (Z.lnot (PGSIZE - 1)).
Definition PGROUNDUP (sz : Z) : Z := Z.land (u32 (u32 (sz + PGSIZE) - 1)) pg_mask.
Definition PGROUNDDOWN (a : Z) : Z := Z.land a pg_mask.

Definition PTE_P : Z := 0x001.
Definition PTE_W : Z := 0x002.
Definition PTE_U : Z := 0x004.
Definition PTE_ADDR (pte : Z) : Z := Z.land pte (u32 (Z.lnot 0xFFF)).
Definition PTE_FLAGS (pte : Z) : Z := Z.land pte 0xFFF.

Definition EXTMEM : Z := 0x100000.
Definition PHYSTOP : Z := 0xE000000.
Definition DEVSPACE : Z := 0xFE000000.
Definition KERNBASE : Z := 0x80000000.
Definition KERNLINK : Z := KERNBASE + EXTMEM.

Definition v2p (a : Z) : Z := u32 (a - KERNBASE).
Definition p2v (a : Z) : Z := u32 (a + KERNBASE).

(** 32-bit little-endian loads and stores. *)
Definition ldl (m : mem) (a : Z) : Z := le_value [m a; m (a + 1); m (a + 2); m (a + 3)].
Definition stl (m : mem) (a v : Z) : mem :=
  mset (mset (mset (mset m a (u8 v)) (a + 1) (u8 (Z.shiftr v 8)))
    (a + 2) (u8 (Z.shiftr v 16))) (a + 3) (u8 (Z.shiftr v 24)).

(** ** Masks as division *)

Lemma land_mask a : 0 <= a < 4294967296 -> Z.land a 4294963200 = a / 4096 * 4096.
Proof.
  intros Ha. change 4294963200 with (Z.land (Z.ones 32) (Z.lnot (Z.ones 12))).
  rewrite Z.land_assoc, Z.land_ones by lia. rewrite Z.mod_small by (cbn; lia).
  rewrite <- Z.ldiff_land, Z.ldiff_ones_r, Z.shiftl_mul_pow2, Z.shiftr_div_pow2 by lia. reflexivity.
Qed.

Lemma PGROUNDDOWN_eq a : 0 <= a < 4294967296 -> PGROUNDDOWN a = a / 4096 * 4096.
Proof. apply land_mask. Qed.

Lemma PGROUNDUP_eq a : 0 <= a -> a + 4095 < 4294967296 -> PGROUNDUP a = (a + 4095) / 4096 * 4096.
Proof.
  intros H1 H2. unfold PGROUNDUP. replace (u32 (u32 (a + PGSIZE) - 1)) with (a + 4095).
  { apply land_mask. lia. }
  unfold u32, PGSIZE. destruct (Z.eq_dec a (4294967296 - 4096)) as [->|]; [reflexivity|].
  rewrite (Z.mod_small (a + 4096)) by lia. rewrite Z.mod_small; lia.
Qed.

Lemma PDX_eq va : PDX va = va / 4194304 mod 1024.
Proof.
  unfold PDX, PDXSHIFT. change 0x3FF with (Z.ones 10).
  rewrite Z.land_ones, Z.shiftr_div_pow2 by lia. reflexivity.
Qed.

Lemma PTX_eq va : PTX va = va / 4096 mod 1024.
Proof.
  unfold PTX, PTXSHIFT. change 0x3FF with (Z.ones 10).
  rewrite Z.land_ones, Z.shiftr_div_pow2 by lia. reflexivity.
Qed.

Lemma PTE_ADDR_eq e : 0 <= e < 4294967296 -> PTE_ADDR e = e / 4096 * 4096.
Proof. apply land_mask. Qed.

Lemma PTE_FLAGS_eq e : PTE_FLAGS e = e mod 4096.
Proof. unfold PTE_FLAGS. change 0xFFF with (Z.ones 12). by rewrite Z.land_ones by lia. Qed.

(** An entry is an address with its flags in the low bits. *)
Lemma lor_flags pa fl : pa mod 4096 = 0 -> 0 <= fl < 4096 -> Z.lor pa fl = pa + fl.
Proof.
  intros Hp Hf. symmetry. apply Z.add_nocarry_lor. apply Z.bits_inj'. intros i Hi.
  rewrite Z.land_spec, Z.bits_0. destruct (Z.lt_ge_cases i 12) as [Hl|Hl].
  - replace pa with (pa / 4096 * 2 ^ 12) by (change (2 ^ 12) with 4096; dlia).
    by rewrite Z.mul_pow2_bits_low by lia.
  - destruct (Z.eq_dec fl 0) as [->|]; [by rewrite Z.bits_0, andb_false_r|].
    rewrite (Z.bits_above_log2 fl), andb_false_r; [done|lia|].
    apply Z.log2_lt_pow2; [lia|]. apply Z.lt_le_trans with (2 ^ 12); [cbn; lia|].
    apply Z.pow_le_mono_r; lia.
Qed.

Lemma lor_lt_4096 a b : 0 <= a < 4096 -> 0 <= b < 4096 -> 0 <= Z.lor a b < 4096.
Proof.
  intros Ha Hb. split; [apply Z.lor_nonneg; lia|].
  destruct (Z.eq_dec (Z.lor a b) 0) as [->|Hz]; [lia|].
  apply (Z.log2_lt_cancel _ (2 ^ 12)). rewrite Z.log2_lor, Z.log2_pow2 by lia.
  assert (H : forall c, 0 <= c < 4096 -> Z.log2 c < 12).
  { intros c Hc. destruct (Z.eq_dec c 0) as [->|]; [cbn; lia|]. apply Z.log2_lt_pow2; cbn; lia. }
  pose proof (H a Ha). pose proof (H b Hb). lia.
Qed.

Lemma v2p_p2v p : KERNBASE <= p < 4294967296 -> p2v (v2p p) = p.
Proof. unfold v2p, p2v, u32, KERNBASE. intros. dlia. Qed.

Lemma v2p_eq p : KERNBASE <= p < 4294967296 -> v2p p = p - KERNBASE.
Proof. unfold v2p, u32, KERNBASE. intros. dlia. Qed.

(** ** Words in memory *)

Lemma u8_shiftr v k : 0 <= k -> u8 (Z.shiftr v k) = v / 2 ^ k mod 256.
Proof. intros. unfold u8. by rewrite Z.shiftr_div_pow2. Qed.

Lemma ldl_stl_eq m a v : 0 <= v < 4294967296 -> ldl (stl m a v) a = v.
Proof.
  intros Hv. unfold ldl, stl.
  rewrite mset_eq. rewrite (mset_ne _ (a + 3)) by lia. rewrite (mset_ne _ (a + 3) _ (a + 1)) by lia.
  rewrite (mset_ne _ (a + 3)) by lia. rewrite (mset_ne _ (a + 2)) by lia.
  rewrite (mset_ne _ (a + 2) _ (a + 1)) by lia. rewrite mset_eq, (mset_ne _ (a + 1)) by lia.
  rewrite !mset_eq, !u8_shiftr by lia. cbn [le_value]. unfold u8.
  change (2 ^ 8) with 256. change (2 ^ 16) with 65536. change (2 ^ 24) with 16777216. dlia.
Qed.

Lemma stl_ne m a v x : x < a \/ a + 4 <= x -> stl m a v x = m x.
Proof. intros. unfold stl. by rewrite !mset_ne by lia. Qed.

Lemma ldl_ext m m' a : (forall x, a <= x < a + 4 -> m' x = m x) -> ldl m' a = ldl m a.
Proof. intros H. unfold ldl. by rewrite !H by lia. Qed.

Lemma ldl_stl_ne m a b v : a + 4 <= b \/ b + 4 <= a -> ldl (stl m a v) b = ldl m b.
Proof. intros. apply ldl_ext. intros. apply stl_ne. lia. Qed.
