(* ===== verification/Kalloc.v ===== *)
(** * The page allocator (kalloc.c)

    The free list is threaded through the free pages themselves: the first word
    of a free page points to the next one.  The state is the flat memory, the
    head of the list and the [use_lock] flag; the lock itself is not part of
    it, each call being one step.  [end_], the first address after the kernel
    image, comes from the linker and is a parameter. *)

From S2P Require Import Prelude.
From S2P Require Import CString.
From S2P Require Import Mmu.

Record kst : Type := MkKst { k_mem : mem; k_freelist : Z; k_use_lock : bool }.

Definition set_mem (m : mem) (s : kst) : kst := MkKst m (k_freelist s) (k_use_lock s).
Definition set_freelist (p : Z) (s : kst) : kst := MkKst (k_mem s) p (k_use_lock s).
Definition set_use_lock (b : bool) (s : kst) : kst := MkKst (k_mem s) (k_freelist s) b.

Section Kalloc.
Context (end_ : Z).

Definition store (a v : Z) : M kst unit := modify (fun s => set_mem (stl (k_mem s) a v) s).
Definition load (a : Z) : M kst Z := get (fun s => ldl (k_mem s) a).

Definition kfree (v : Z) : M kst unit :=
  if negb (v mod PGSIZE =? 0) || (v <? end_) || (v2p v >=? PHYSTOP) then panic "kfree" else
  modify (fun s => set_mem (KString.memset (k_mem s) v 1 PGSIZE) s) ;;
  let! fl := get k_freelist in
  store v fl ;;
  modify (set_freelist v).

Definition kalloc : M kst Z :=
  let! r := get k_freelist in
  if r =? 0 then ret r else
  let! next := load r in
  modify (set_freelist next) ;; ret r.

Fixpoint freerange_loop (fuel : nat) (p vend : Z) : M kst unit :=
  if p + PGSIZE <=? vend then
    match fuel with
    | O => out_of_fuel
    | S fuel => kfree p ;; freerange_loop fuel (p + PGSIZE) vend
    end
  else ret tt.

Definition freerange (vstart vend : Z) : M kst unit :=
  freerange_loop (Z.to_nat (vend / PGSIZE)) (PGROUNDUP vstart) vend.

Definition kinit1 (vstart vend : Z) : M kst unit :=
  modify (set_use_lock false) ;; freerange vstart vend.

Definition kinit2 (vstart vend : Z) : M kst unit :=
  freerange vstart vend ;; modify (set_use_lock true).

(** ** The free list *)

(** The addresses [kfree] accepts: page-aligned, between the kernel image and
    the top of physical memory. *)
Definition page_ok (p : Z) : Prop :=
  p mod 4096 = 0 /\ KERNBASE < p /\ end_ <= p /\ p < KERNBASE + PHYSTOP.

(** The list of pages reached from [h]. *)
Fixpoint chain (m : mem) (h : Z) (l : list Z) : Prop :=
  match l with
  | [] => h = 0
  | p :: l => h = p /\ chain m (ldl m p) l
  end.

Record kinv (s : kst) (l : list Z) : Prop := {
  ki_chain : chain (k_mem s) (k_freelist s) l;
  ki_pages : Forall page_ok l;
  ki_nodup : NoDup l
}.

(** The page an address lies in. *)
Definition page_of (a : Z) : Z := a / 4096 * 4096.

(** [m'] agrees with [m] outside the pages [P]. *)
Definition same_except (P : Z -> Prop) (m m' : mem) : Prop :=
  forall a, ~ P (page_of a) -> m' a = m a.

Lemma page_of_in p a : p mod 4096 = 0 -> p <= a < p + 4096 -> page_of a = p.
Proof. unfold page_of. intros. dlia. Qed.

Lemma page_of_out p a : p mod 4096 = 0 -> page_of a <> p -> a < p \/ p + 4096 <= a.
Proof. unfold page_of. intros. dlia. Qed.

Lemma ldl_same P m m' a : same_except P m m' -> a mod 4 = 0 -> ~ P (page_of a) -> ldl m' a = ldl m a.
Proof.
  intros Hs Ha Hp. apply ldl_ext. intros x Hx. apply Hs.
  replace (page_of x) with (page_of a); [done|]. unfold page_of. dlia.
Qed.

Lemma same_except_trans (P : Z -> Prop) m m1 m2 : same_except P m m1 -> same_except P m1 m2 -> same_except P m m2.
Proof. intros H1 H2 a Ha. by rewrite H2, H1. Qed.

Lemma same_except_mono (P Q : Z -> Prop) m m' :
  (forall p, P p -> Q p) -> same_except P m m' -> same_except Q m m'.
Proof. intros H Hs a Ha. apply Hs. auto. Qed.

Lemma same_except_stl p m a v :
  p mod 4096 = 0 -> p <= a -> a + 4 <= p + 4096 -> same_except (fun q => q = p) m (stl m a v).
Proof.
  intros Hp H1 H2 x Hx. apply stl_ne. pose proof (page_of_out p x Hp Hx). lia.
Qed.

Lemma same_except_memset p m c : p mod 4096 = 0 -> same_except (fun q => q = p) m (KString.memset m p c PGSIZE).
Proof.
  intros Hp x Hx. rewrite memset_run by (unfold PGSIZE; lia). pose proof (page_of_out p x Hp Hx).
  unfold PGSIZE. destruct (_ && _) eqn:E; [lia|done].
Qed.

Lemma page_aligned p : page_ok p -> p mod 4096 = 0 /\ p mod 4 = 0 /\ page_of p = p.
Proof. unfold page_ok, page_of. intros (H & _). dlia. Qed.

Lemma chain_same P m m' h l :
  same_except P m m' -> Forall page_ok l -> (forall p, p ∈ l -> ~ P p) -> chain m h l -> chain m' h l.
Proof.
  intros Hs. revert h. induction l as [|p l IH]; intros h Hp Hd Hc; [done|].
  destruct Hc as [-> Hc]. apply Forall_cons in Hp as [Hp Hl]. destruct (page_aligned p Hp) as (_ & H4 & Ep).
  split; [done|]. rewrite (ldl_same P m m'); [|done|done|rewrite Ep; apply Hd; left].
  apply IH; [done| |done]. intros q Hq. apply Hd. by right.
Qed.

(** Writes outside the free pages leave the free list alone. *)
Lemma kinv_same P s l m' :
  kinv s l -> same_except P (k_mem s) m' -> (forall p, p ∈ l -> ~ P p) -> kinv (set_mem m' s) l.
Proof. intros [Hc Hp Hn] Hs Hd. constructor; auto. cbn. by eapply chain_same. Qed.

Lemma chain_head m h p l : chain m h (p :: l) -> page_ok p -> h = p /\ p <> 0.
Proof. intros [-> _] (_ & H & _). split; [done|]. unfold KERNBASE in H. lia. Qed.

(** kalloc takes the head of the list. *)
Lemma run_kalloc_cons s p l :
  kinv s (p :: l) ->
  kalloc s = Ret p (set_freelist (ldl (k_mem s) p) s) /\ kinv (set_freelist (ldl (k_mem s) p) s) l.
Proof.
  intros [Hc Hp Hn]. apply Forall_cons in Hp as [Hp Hl]. apply NoDup_cons in Hn as [_ Hn].
  destruct (chain_head _ _ _ _ Hc Hp) as [Eh Hz]. destruct Hc as [_ Hc].
  split; [|by constructor]. unfold kalloc, load. mcbn. rewrite Eh.
  by rewrite (proj2 (Z.eqb_neq _ _) Hz).
Qed.

Lemma run_kalloc_nil s : kinv s [] -> kalloc s = Ret 0 s.
Proof. intros [Hc _ _]. cbn in Hc. unfold kalloc. mcbn. by rewrite Hc. Qed.

Lemma kfree_accepts v : 0 <= v < 4294967296 -> KERNBASE < end_ ->
  negb (v mod PGSIZE =? 0) || (v <? end_) || (v2p v >=? PHYSTOP) = false <-> page_ok v.
Proof.
  intros Hv He. unfold page_ok, v2p, u32, PGSIZE, KERNBASE, PHYSTOP in *. split; intros; dlia.
Qed.

(** kfree puts a page at the head of the list; every other page keeps its
    contents. *)
Lemma run_kfree s l v :
  KERNBASE < end_ -> kinv s l -> page_ok v -> v ∉ l ->
  exists s', kfree v s = Ret tt s' /\ kinv s' (v :: l) /\
    same_except (fun q => q = v) (k_mem s) (k_mem s') /\ k_use_lock s' = k_use_lock s.
Proof.
  intros He Hk Hv Hl. destruct (page_aligned v Hv) as (Ha & H4 & Ep).
  set (m1 := KString.memset (k_mem s) v 1 PGSIZE).
  set (m2 := stl m1 v (k_freelist s)).
  assert (Hs : same_except (fun q => q = v) (k_mem s) m2).
  { eapply same_except_trans; [by apply same_except_memset|]. apply same_except_stl; lia. }
  assert (Hfl : 0 <= k_freelist s < 4294967296).
  { destruct Hk as [Hc Hp _]. destruct l as [|p l]; [cbn in Hc; lia|].
    destruct Hc as [-> _]. apply Forall_cons in Hp as [(_ & ? & _ & ?) _]. unfold KERNBASE, PHYSTOP in *. lia. }
  exists (set_freelist v (set_mem m2 s)). split_and!; auto.
  - unfold kfree, store. rewrite (proj2 (kfree_accepts v ltac:(unfold page_ok, KERNBASE, PHYSTOP in Hv; lia) He) Hv).
    done.
  - pose proof (kinv_same _ s l m2 Hk Hs) as [Hc Hp Hn]; [intros p Hin ->; done|].
    constructor; [|by constructor|by constructor].
    split; [done|]. cbn [set_freelist set_mem k_mem]. unfold m2 at 2. by rewrite ldl_stl_eq by done.
Qed.

(** A page that is not free, or no page at all, is refused. *)
Lemma run_kfree_panic s v :
  KERNBASE < end_ -> 0 <= v < 4294967296 -> ~ page_ok v -> kfree v s = Fail (FPanic "kfree").
Proof.
  intros He Hv Hp. unfold kfree. destruct (_ || _) eqn:E; [done|].
  by apply (kfree_accepts v Hv He) in E.
Qed.

(** The pages of [p, vend), last one first: the order freerange leaves them in. *)
Definition range_pages (p : Z) (n : nat) : list Z :=
  rev ((fun i => p + 4096 * Z.of_nat i) <$> seq 0 n).

Lemma elem_of_range p n x :
  x ∈ range_pages p n <-> exists i : nat, (i < n)%nat /\ x = p + 4096 * Z.of_nat i.
Proof.
  unfold range_pages. rewrite list_elem_of_In, <- in_rev, <- list_elem_of_In, list_elem_of_fmap.
  split; [intros (i & -> & Hi%elem_of_seq)|intros (i & Hi & ->)]; exists i; [split; [lia|done]|].
  split; [done|]. apply elem_of_seq. lia.
Qed.

Lemma range_pages_S p n : range_pages p (S n) = range_pages (p + 4096) n ++ [p].
Proof.
  unfold range_pages. cbn [seq]. rewrite fmap_cons. cbn [rev]. rewrite Z.mul_0_r, Z.add_0_r.
  f_equal. f_equal. rewrite <- seq_shift, List.map_map. apply list_fmap_ext. intros _ i _. lia.
Qed.

Lemma run_freerange_loop (n : nat) fuel s l p vend :
  KERNBASE < end_ -> kinv s l -> p mod 4096 = 0 -> end_ <= p ->
  p + 4096 * Z.of_nat n <= vend < p + 4096 * (Z.of_nat n + 1) -> vend <= KERNBASE + PHYSTOP ->
  (n <= fuel)%nat -> (forall x, x ∈ l -> x < p \/ vend <= x) ->
  exists s', freerange_loop fuel p vend s = Ret tt s' /\ kinv s' (range_pages p n ++ l).
Proof.
  intros He. revert fuel s l p. induction n as [|n IH]; intros fuel s l p Hk Ha Hp Hv Htop Hf Hd.
  - exists s. split; [|done]. destruct fuel; cbn [freerange_loop]; unfold PGSIZE;
      by rewrite (proj2 (Z.leb_gt _ _)) by lia.
  - destruct fuel as [|fuel]; [lia|]. cbn [freerange_loop]. unfold PGSIZE.
    rewrite (proj2 (Z.leb_le _ _)) by lia.
    destruct (run_kfree s l p) as (s1 & R1 & Hk1 & _); auto.
    { unfold page_ok. lia. }
    { intros Hin. apply Hd in Hin. lia. }
    rewrite (bind_run _ _ _ _ _ R1).
    destruct (IH fuel s1 (p :: l) (p + 4096)) as (s2 & R2 & Hk2); auto; try lia; [dlia| |].
    { intros x [->|Hx]%elem_of_cons; [lia|]. apply Hd in Hx. lia. }
    exists s2. split; [done|]. rewrite range_pages_S, <- app_assoc. done.
Qed.

Lemma run_freerange s l vstart vend :
  KERNBASE < end_ -> kinv s l -> end_ <= vstart <= vend -> vend <= KERNBASE + PHYSTOP ->
  (forall x, x ∈ l -> x < vstart \/ vend <= x) ->
  exists s' n, freerange vstart vend s = Ret tt s' /\
    kinv s' (range_pages (PGROUNDUP vstart) n ++ l) /\
    (forall x, x ∈ range_pages (PGROUNDUP vstart) n <-> x mod 4096 = 0 /\ vstart <= x /\ x + 4096 <= vend).
Proof.
  intros He Hk Hv Htop Hd. unfold KERNBASE, PHYSTOP in *.
  rewrite PGROUNDUP_eq by lia. set (p := (vstart + 4095) / 4096 * 4096).
  assert (Hp : p mod 4096 = 0 /\ vstart <= p < vstart + 4096) by (unfold p; dlia).
  set (n := Z.to_nat ((vend - p) / 4096)).
  assert (Hn : vend < p \/ p + 4096 * Z.of_nat n <= vend < p + 4096 * (Z.of_nat n + 1)) by (unfold n; dlia).
  assert (Hrange : forall x, x ∈ range_pages p n <-> x mod 4096 = 0 /\ vstart <= x /\ x + 4096 <= vend).
  { intros x. rewrite elem_of_range. split.
    - intros (i & Hi & ->). destruct Hn; [unfold n in Hi; dlia|dlia].
    - intros (H1 & H2 & H3). exists (Z.to_nat ((x - p) / 4096)). dlia. }
  destruct Hn as [Hn|Hn].
  - exists s, n. assert (n = 0%nat) as E by (unfold n; dlia). split_and!; [|by rewrite E|done].
    unfold freerange. rewrite PGROUNDUP_eq by lia. fold p.
    destruct (Z.to_nat (vend / PGSIZE)); cbn [freerange_loop]; unfold PGSIZE; by rewrite (proj2 (Z.leb_gt _ _)) by lia.
  - destruct (run_freerange_loop n (Z.to_nat (vend / PGSIZE)) s l p vend) as (s' & R & Hk'); auto; try lia.
    { unfold PGSIZE. dlia. } { intros x Hx. apply Hd in Hx. lia. }
    exists s', n. split_and!; auto. unfold freerange. rewrite PGROUNDUP_eq by lia. exact R.
Qed.

(** ** Who owns which page

    The allocator and its clients: a client calls kalloc, frees a page it owns,
    or writes anywhere inside the pages it owns. *)
Inductive kstep : kst * gset Z -> kst * gset Z -> Prop :=
| KAlloc s O p s' : kalloc s = Ret p s' -> p <> 0 -> kstep (s, O) (s', {[p]} ∪ O)
| KFree s O v s' : v ∈ O -> kfree v s = Ret tt s' -> kstep (s, O) (s', O ∖ {[v]})
| KWrite s O a b : page_of a ∈ O -> kstep (s, O) (set_mem (mset (k_mem s) a b) s, O).

Record exclusive (n : nat) (s : kst) (O : gset Z) (l : list Z) : Prop := {
  ex_kinv : kinv s l;
  ex_own : forall p, p ∈ O -> page_ok p;
  ex_disj : forall p, p ∈ O -> p ∉ l;
  ex_count : (size O + length l = n)%nat
}.

Lemma kstep_exclusive n c c' l :
  KERNBASE < end_ -> kstep c c' -> exclusive n (fst c) (snd c) l -> exists l', exclusive n (fst c') (snd c') l'.
Proof.
  intros He [s O p s' R Hp|s O v s' Hv R|s O a b Ha] [Hk Ho Hd Hc]; cbn [fst snd] in *.
  - destruct l as [|q l]; [rewrite run_kalloc_nil in R by done; congruence|].
    destruct (run_kalloc_cons s q l Hk) as [R' Hk']. rewrite R' in R. injection R as Eq Es. subst q s'.
    exists l. pose proof (ki_nodup _ _ Hk) as [Hn _]%NoDup_cons.
    constructor; [done| | |].
    + intros x [->%elem_of_singleton|Hx]%elem_of_union; [|by apply Ho].
      by pose proof (ki_pages _ _ Hk) as [? _]%Forall_cons.
    + intros x [->%elem_of_singleton|Hx]%elem_of_union; [done|]. intros Hl. apply (Hd x Hx). by right.
    + rewrite size_union by (intros x ->%elem_of_singleton Hx; apply (Hd p Hx); left).
      rewrite size_singleton. cbn in Hc. lia.
  - destruct (run_kfree s l v He Hk) as (s1 & R1 & Hk1 & _); [by apply Ho|by apply Hd|].
    rewrite R1 in R. injection R as Es. subst s'. exists (v :: l). constructor; [done| | |].
    + intros x [Hx _]%elem_of_difference. by apply Ho.
    + intros x [Hx Hn]%elem_of_difference [->|Hl]%elem_of_cons; [by apply Hn, elem_of_singleton|].
      by apply (Hd x).
    + cbn. rewrite size_difference by (intros x ->%elem_of_singleton; done). rewrite size_singleton.
      assert (size O <> 0%nat); [|lia]. intros E%size_empty_inv. set_solver.
  - exists l. constructor; auto. apply (kinv_same (fun q => q = page_of a)); [done| |].
    + intros x Hx. apply mset_ne. congruence.
    + intros q Hq ->. by apply (Hd (page_of a)).
Qed.

Lemma ksteps_exclusive n x y l :
  KERNBASE < end_ -> rtc kstep x y -> exclusive n (fst x) (snd x) l -> exists l', exclusive n (fst y) (snd y) l'.
Proof.
  intros He Hr. revert l. induction Hr as [x|x y z Hxy _ IH]; intros l Hx; [by exists l|].
  destruct (kstep_exclusive n x y l He Hxy Hx) as [l' Hy]. by apply (IH l').
Qed.

End Kalloc.

(** The boot state: nothing on the free list yet. *)
Definition kmem0 (m : mem) : kst := MkKst m 0 false.

(** What main does: the pages mapped by the boot page table first, the rest of
    physical memory later. *)
Definition kinit (end_ : Z) : M kst unit :=
  kinit1 end_ end_ (KERNBASE + 4 * 1024 * 1024) ;;
  kinit2 end_ (KERNBASE + 4 * 1024 * 1024) (KERNBASE + PHYSTOP).

Lemma run_kinit end_ m :
  KERNBASE < end_ <= KERNBASE + 4 * 1024 * 1024 ->
  exists s l, kinit end_ (kmem0 m) = Ret tt s /\ kinv end_ s l /\ (forall p, p ∈ l <-> page_ok end_ p).
Proof.
  intros He. unfold KERNBASE in He.
  assert (H0 : kinv end_ (set_use_lock false (kmem0 m)) []) by (constructor; [done|constructor|constructor]).
  destruct (run_freerange end_ (set_use_lock false (kmem0 m)) [] end_ (KERNBASE + 4 * 1024 * 1024))
    as (s1 & n1 & R1 & Hk1 & Hr1); auto; unfold KERNBASE, PHYSTOP in *; try lia.
  { intros x Hx. by apply elem_of_nil in Hx. }
  rewrite app_nil_r in Hk1.
  destruct (run_freerange end_ s1 _ (KERNBASE + 4 * 1024 * 1024) (KERNBASE + PHYSTOP) ltac:(unfold KERNBASE; lia) Hk1)
    as (s2 & n2 & R2 & Hk2 & Hr2); unfold KERNBASE, PHYSTOP in *; try lia.
  { intros x Hx%Hr1. lia. }
  eexists (set_use_lock true s2), _. split.
  - unfold kinit, kinit1, kinit2, bind, modify, KERNBASE, PHYSTOP. by rewrite R1, R2.
  - split; [destruct Hk2 as [Hc Hp Hn]; constructor; [exact Hc|exact Hp|exact Hn]|].
    intros p. rewrite elem_of_app, Hr1, Hr2. unfold page_ok, KERNBASE, PHYSTOP. dlia.
Qed.

(** C25: pages are never shared.  After kinit1 and kinit2, run one after the
    other, in every sequence of allocations, frees of owned pages and writes by the owners inside their
    pages, kalloc returns either a page nobody owns, inside physical memory
    above the kernel image, or 0, and 0 only when every page is owned. *)
Theorem kalloc_exclusive end_ m s0 s O :
  KERNBASE < end_ <= KERNBASE + 4 * 1024 * 1024 ->
  kinit end_ (kmem0 m) = Ret tt s0 -> rtc (kstep end_) (s0, ∅) (s, O) ->
  exists p s', kalloc s = Ret p s' /\
    (p <> 0 -> page_ok end_ p /\ p ∉ O) /\ (p = 0 -> forall q, page_ok end_ q <-> q ∈ O).
Proof.
  intros He R0 Hsteps. destruct (run_kinit end_ m He) as (s1 & l & R1 & Hk & Hall).
  rewrite R1 in R0. injection R0 as Es. subst s1. set (n := length l).
  assert (H0 : exclusive end_ n (fst (s0, ∅ : gset Z)) (snd (s0, ∅ : gset Z)) l).
  { constructor; cbn [fst snd]; [done|set_solver|set_solver|]. by rewrite size_empty. }
  destruct (ksteps_exclusive end_ n _ _ l ltac:(lia) Hsteps H0) as (l' & [Hk' Ho Hd Hc]). cbn [fst snd] in *.
  destruct l' as [|p l'].
  - exists 0, s. split; [by apply (run_kalloc_nil end_)|]. split; [done|]. intros _ q. split; [|apply Ho].
    assert (HO : O = list_to_set l); [|rewrite HO, elem_of_list_to_set; apply Hall].
    apply leibniz_equiv, set_subseteq_size_equiv.
    + intros x Hx. apply elem_of_list_to_set, Hall, Ho, Hx.
    + rewrite size_list_to_set by apply Hk. cbn in Hc. unfold n in Hc. lia.
  - destruct (run_kalloc_cons end_ s p l' Hk') as [R _]. eexists p, _. split; [exact R|].
    pose proof (ki_pages _ _ _ Hk') as [Hp _]%Forall_cons. split; [intros _|].
    + split; [done|]. intros HO. apply (Hd p HO). left.
    + intros ->. destruct Hp as (_ & H & _). unfold KERNBASE in H. lia.
Qed.

Lemma kalloc_exclusive_witness :
  exists s0 p s', kinit 0x80110000 (kmem0 (fun _ => 0)) = Ret tt s0 /\ kalloc s0 = Ret p s' /\
    page_ok 0x80110000 p.
Proof.
  assert (He : KERNBASE < 0x80110000 <= KERNBASE + 4 * 1024 * 1024) by (unfold KERNBASE; lia).
  destruct (run_kinit 0x80110000 (fun _ => 0) He) as (s0 & l & R & _).
  destruct (kalloc_exclusive 0x80110000 (fun _ => 0) s0 s0 ∅ He R (rtc_refl _ _)) as (p & s' & Ra & Hn & Hz).
  exists s0, p, s'. split; [done|]. split; [done|]. apply Hn. intros ->.
  assert (Hq : 0x80200000 ∈ (∅ : gset Z)); [|by apply not_elem_of_empty in Hq].
  apply (Hz eq_refl). unfold page_ok, KERNBASE, PHYSTOP. split; [reflexivity|]. lia.
Defined.
