(* ===== verification/Vm.v ===== *)
(** * Page tables and user memory (vm.c)

    The routines of vm.c that build, copy and tear down page tables, over the
    flat memory and the page allocator.  A page directory is the kernel address
    of its page, as in the code; [end_] and [data_] are the linker's symbols.
    The hardware-register routines (seginit, switchkvm, switchuvm) are not
    modelled; loaduvm, which reads a file, is in Exec.v. *)

From S2P Require Import Prelude.
From S2P Require Import CString.
From S2P Require Import Mmu.
From S2P Require Import Kalloc.

Definition present (e : Z) : bool := negb (Z.land e PTE_P =? 0).

Section Vm.
Context (end_ data_ : Z).

Definition kmemset (dst c n : Z) : M kst unit :=
  modify (fun s => set_mem (KString.memset (k_mem s) dst c n) s).
Definition kmemmove (dst src n : Z) : M kst unit :=
  modify (fun s => set_mem (KString.memmove (k_mem s) dst src n) s).

Definition walkpgdir (pgdir va : Z) (alloc : bool) : M kst Z :=
  let pde := pgdir + 4 * PDX va in
  let! e := load pde in
  if present e then ret (p2v (PTE_ADDR e) + 4 * PTX va)
  else if negb alloc then ret 0 else
    let! pgtab := kalloc in
    if pgtab =? 0 then ret 0 else
    kmemset pgtab 0 PGSIZE ;;
    store pde (Z.lor (Z.lor (Z.lor (v2p pgtab) PTE_P) PTE_W) PTE_U) ;;
    ret (pgtab + 4 * PTX va).

Fixpoint mappages_loop (fuel : nat) (pgdir a last pa perm : Z) : M kst Z :=
  let! pte := walkpgdir pgdir a true in
  if pte =? 0 then ret (-1) else
  let! e := load pte in
  if present e then panic "remap" else
  store pte (Z.lor (Z.lor pa perm) PTE_P) ;;
  if a =? last then ret 0 else
  match fuel with
  | O => out_of_fuel
  | S fuel => mappages_loop fuel pgdir (u32 (a + PGSIZE)) last (u32 (pa + PGSIZE)) perm
  end.

Definition mappages (pgdir va size pa perm : Z) : M kst Z :=
  let a := PGROUNDDOWN va in
  let last := PGROUNDDOWN (u32 (u32 (va + size) - 1)) in
  mappages_loop (Z.to_nat (u32 (last - a) / PGSIZE)) pgdir a last pa perm.

(** Rows of the table of kernel mappings: virtual start, physical start and
    end, permissions. *)
Record kmap_row : Type := MkKmap { virt : Z; phys_start : Z; phys_end : Z; perm : Z }.
Definition kmap : list kmap_row := [
  MkKmap KERNBASE 0 EXTMEM PTE_W;
  MkKmap KERNLINK (v2p KERNLINK) (v2p data_) 0;
  MkKmap data_ (v2p data_) PHYSTOP PTE_W;
  MkKmap DEVSPACE DEVSPACE 0 PTE_W].

Fixpoint setupkvm_loop (rows : list kmap_row) (pgdir : Z) : M kst Z :=
  match rows with
  | [] => ret pgdir
  | k :: rows =>
      let! r := mappages pgdir (virt k) (u32 (phys_end k - phys_start k)) (phys_start k) (perm k) in
      if r <? 0 then ret 0 else setupkvm_loop rows pgdir
  end.

Definition setupkvm : M kst Z :=
  let! pgdir := kalloc in
  if pgdir =? 0 then ret 0 else
  kmemset pgdir 0 PGSIZE ;;
  if p2v PHYSTOP >? DEVSPACE then panic "PHYSTOP too high" else
  setupkvm_loop kmap pgdir.

Definition inituvm (pgdir init sz : Z) : M kst unit :=
  if sz >=? PGSIZE then panic "inituvm: more than a page" else
  let! mem := kalloc in
  if mem =? 0 then undef "inituvm writes to a null page" else
  kmemset mem 0 PGSIZE ;;
  mappages pgdir 0 PGSIZE (v2p mem) (Z.lor PTE_W PTE_U) ;;
  kmemmove mem init sz.

Fixpoint deallocuvm_loop (fuel : nat) (pgdir a oldsz newsz : Z) : M kst Z :=
  if a <? oldsz then
    match fuel with
    | O => out_of_fuel
    | S fuel =>
        let! pte := walkpgdir pgdir a false in
        if pte =? 0 then
          deallocuvm_loop fuel pgdir (u32 (u32 (a + (NPTENTRIES - 1) * PGSIZE) + PGSIZE)) oldsz newsz
        else
          let! e := load pte in
          (if present e then
             let pa := PTE_ADDR e in
             if pa =? 0 then panic "kfree" else
             kfree end_ (p2v pa) ;; store pte 0
           else ret tt) ;;
          deallocuvm_loop fuel pgdir (u32 (a + PGSIZE)) oldsz newsz
    end
  else ret newsz.

Definition deallocuvm (pgdir oldsz newsz : Z) : M kst Z :=
  if newsz >=? oldsz then ret oldsz else
  deallocuvm_loop (Z.to_nat (oldsz / PGSIZE + 1)) pgdir (PGROUNDUP newsz) oldsz newsz.

Fixpoint allocuvm_loop (fuel : nat) (pgdir a oldsz newsz : Z) : M kst Z :=
  if a <? newsz then
    match fuel with
    | O => out_of_fuel
    | S fuel =>
        let! mem := kalloc in
        if mem =? 0 then deallocuvm pgdir newsz oldsz ;; ret 0 else
        kmemset mem 0 PGSIZE ;;
        mappages pgdir a PGSIZE (v2p mem) (Z.lor PTE_W PTE_U) ;;
        allocuvm_loop fuel pgdir (u32 (a + PGSIZE)) oldsz newsz
    end
  else ret newsz.

Definition allocuvm (pgdir oldsz newsz : Z) : M kst Z :=
  if newsz >=? KERNBASE then ret 0
  else if newsz <? oldsz then ret oldsz
  else allocuvm_loop (Z.to_nat (newsz / PGSIZE + 1)) pgdir (PGROUNDUP oldsz) oldsz newsz.

Fixpoint freevm_loop (cnt : nat) (pgdir i : Z) : M kst unit :=
  match cnt with
  | O => ret tt
  | S cnt =>
      let! e := load (pgdir + 4 * i) in
      (if present e then kfree end_ (p2v (PTE_ADDR e)) else ret tt) ;;
      freevm_loop cnt pgdir (i + 1)
  end.

Definition freevm (pgdir : Z) : M kst unit :=
  if pgdir =? 0 then panic "freevm: no pgdir" else
  deallocuvm pgdir KERNBASE 0 ;;
  freevm_loop (Z.to_nat NPDENTRIES) pgdir 0 ;;
  kfree end_ pgdir.

Definition clearpteu (pgdir uva : Z) : M kst unit :=
  let! pte := walkpgdir pgdir uva false in
  if pte =? 0 then panic "clearpteu" else
  let! e := load pte in
  store pte (Z.land e (u32 (Z.lnot PTE_U))).

Fixpoint copyuvm_loop (fuel : nat) (pgdir d i sz : Z) : M kst Z :=
  if i <? sz then
    match fuel with
    | O => out_of_fuel
    | S fuel =>
        let! pte := walkpgdir pgdir i false in
        if pte =? 0 then panic "copyuvm: pte should exist" else
        let! e := load pte in
        if negb (present e) then panic "copyuvm: page not present" else
        let! mem := kalloc in
        if mem =? 0 then freevm d ;; ret 0 else
        kmemmove mem (p2v (PTE_ADDR e)) PGSIZE ;;
        let! r := mappages d i PGSIZE (v2p mem) (PTE_FLAGS e) in
        if r <? 0 then freevm d ;; ret 0 else
        copyuvm_loop fuel pgdir d (u32 (i + PGSIZE)) sz
    end
  else ret d.

Definition copyuvm (pgdir sz : Z) : M kst Z :=
  let! d := setupkvm in
  if d =? 0 then ret 0 else
  copyuvm_loop (Z.to_nat (sz / PGSIZE + 1)) pgdir d 0 sz.

Definition uva2ka (pgdir uva : Z) : M kst Z :=
  let! pte := walkpgdir pgdir uva false in
  if pte =? 0 then undef "uva2ka reads through a null pte" else
  let! e := load pte in
  if Z.land e PTE_P =? 0 then ret 0
  else if Z.land e PTE_U =? 0 then ret 0
  else ret (p2v (PTE_ADDR e)).

Fixpoint copyout_loop (fuel : nat) (pgdir va buf len : Z) : M kst Z :=
  if len >? 0 then
    match fuel with
    | O => out_of_fuel
    | S fuel =>
        let va0 := PGROUNDDOWN va in
        let! pa0 := uva2ka pgdir va0 in
        if pa0 =? 0 then ret (-1) else
        let n := Z.min (PGSIZE - (va - va0)) len in
        kmemmove (pa0 + (va - va0)) buf n ;;
        copyout_loop fuel pgdir (u32 (va0 + PGSIZE)) (buf + n) (len - n)
    end
  else ret 0.

Definition copyout (pgdir va p len : Z) : M kst Z :=
  copyout_loop (Z.to_nat (len / PGSIZE + 2)) pgdir va p len.

End Vm.

Lemma run_kmemset dst c n s : kmemset dst c n s = Ret tt (set_mem (KString.memset (k_mem s) dst c n) s).
Proof. done. Qed.

Lemma run_kmemmove dst src n s : kmemmove dst src n s = Ret tt (set_mem (KString.memmove (k_mem s) dst src n) s).
Proof. done. Qed.
