(* ===== verification/VmPt.v ===== *)
(** * Page-table invariants and the effect of walkpgdir and mappages

    A page directory is described by the map [T] from directory indices to the
    kernel addresses of page-table pages; [pte_of] reads the entry of a virtual
    address through it.  The lemmas give the effect of every routine on these
    entries, on the free list and on the rest of memory. *)

From S2P Require Import Prelude.
From S2P Require Import CString.
From S2P Require Import Mmu.
From S2P Require Import Kalloc.
From S2P Require Import Vm.

Definition is_va (va : Z) : Prop := 0 <= va < 4294967296.

Lemma PDX_range va : 0 <= PDX va < 1024.
Proof. rewrite PDX_eq. dlia. Qed.

Lemma PTX_range va : 0 <= PTX va < 1024.
Proof. rewrite PTX_eq. dlia. Qed.

Lemma same_page va va' : is_va va -> is_va va' -> PDX va = PDX va' -> PTX va = PTX va' -> va / 4096 = va' / 4096.
Proof. unfold is_va. rewrite !PDX_eq, !PTX_eq. intros. dlia. Qed.

Lemma same_page_PDX va va' : va / 4096 = va' / 4096 -> PDX va = PDX va' /\ PTX va = PTX va'.
Proof. intros E. rewrite !PDX_eq, !PTX_eq, E. split; [|done]. dlia. Qed.

Section Pt.
Context (end_ : Z).
Hypothesis Hend : KERNBASE < end_.
Local Abbreviation page_ok := (page_ok end_).
Local Abbreviation kinv := (kinv end_).
Implicit Types (m : mem) (s : kst) (T : gmap Z Z) (l : list Z).

Lemma page_bounds p : page_ok p -> p mod 4096 = 0 /\ KERNBASE < p /\ p + 4096 <= 4294967296.
Proof. unfold Kalloc.page_ok, KERNBASE, PHYSTOP. intros. lia. Qed.

Record PT m (pd : Z) T : Prop := {
  pt_pd : page_ok pd;
  pt_some : forall i p, T !! i = Some p ->
    0 <= i < 1024 /\ page_ok p /\ p <> pd /\ ldl m (pd + 4 * i) = p - KERNBASE + 7;
  pt_none : forall i, 0 <= i < 1024 -> T !! i = None -> present (ldl m (pd + 4 * i)) = false;
  pt_inj : forall i j p, T !! i = Some p -> T !! j = Some p -> i = j
}.

Definition pte_of m T (va : Z) : Z :=
  match T !! PDX va with Some p => ldl m (p + 4 * PTX va) | None => 0 end.

(** The pages of the table. *)
Definition tpages (pd : Z) T (q : Z) : Prop := q = pd \/ exists i, T !! i = Some q.

Lemma tpages_ok m pd T q : PT m pd T -> tpages pd T q -> page_ok q.
Proof. intros HT [->|[i Hi]]; [apply HT|]. by apply (pt_some _ _ _ HT) in Hi as (_ & ? & _). Qed.

Lemma entry_addr p k : p mod 4096 = 0 -> 0 <= k < 1024 ->
  (p + 4 * k) mod 4 = 0 /\ page_of (p + 4 * k) = p /\ p <= p + 4 * k /\ p + 4 * k + 4 <= p + 4096.
Proof. unfold page_of. intros. dlia. Qed.

Lemma ldl_entry P m m' p k :
  same_except P m m' -> ~ P p -> page_ok p -> 0 <= k < 1024 -> ldl m' (p + 4 * k) = ldl m (p + 4 * k).
Proof.
  intros Hs Hp Hok Hk. destruct (page_bounds p Hok) as (Ha & _).
  destruct (entry_addr p k Ha Hk) as (H4 & E & _). eapply ldl_same; [done..|]. by rewrite E.
Qed.

Lemma PT_same P m m' pd T :
  PT m pd T -> same_except P m m' -> (forall q, tpages pd T q -> ~ P q) ->
  PT m' pd T /\ forall va, pte_of m' T va = pte_of m T va.
Proof.
  intros HT Hs Hd.
  assert (Hpd : forall i, 0 <= i < 1024 -> ldl m' (pd + 4 * i) = ldl m (pd + 4 * i)).
  { intros i Hi. eapply ldl_entry; eauto; [by apply Hd; left|apply HT]. }
  split; [constructor|].
  - apply HT.
  - intros i p Hi. destruct (pt_some _ _ _ HT i p Hi) as (H1 & H2 & H3 & H4). split_and!; auto; try lia.
    by rewrite Hpd.
  - intros i Hi Hn. rewrite Hpd by done. by apply HT.
  - apply HT.
  - intros va. unfold pte_of. destruct (T !! PDX va) as [p|] eqn:E; [|done].
    destruct (pt_some _ _ _ HT _ p E) as (H1 & H2 & _). eapply ldl_entry; eauto; [|apply PTX_range].
    apply Hd. right. by exists (PDX va).
Qed.

Lemma pte_of_page m T va va' : va / 4096 = va' / 4096 -> pte_of m T va = pte_of m T va'.
Proof. intros E. destruct (same_page_PDX _ _ E) as [E1 E2]. unfold pte_of. by rewrite E1, E2. Qed.

(** ** Entries *)

Lemma mk_pte p fl : page_ok p -> 0 <= fl < 4096 -> Z.lor (v2p p) fl = p - KERNBASE + fl.
Proof.
  intros Hp Hf. destruct (page_bounds p Hp) as (H1 & H2 & H3).
  rewrite v2p_eq by lia. apply lor_flags; [|done]. unfold KERNBASE in *. dlia.
Qed.

Lemma present_odd e : present e = Z.odd e.
Proof.
  unfold present, PTE_P. change 1 with (Z.ones 1). rewrite Z.land_ones by lia. change (2 ^ 1) with 2.
  rewrite Zmod_odd. by destruct (Z.odd e).
Qed.

Lemma PTE_ADDR_mk p fl : page_ok p -> 0 <= fl < 4096 -> p2v (PTE_ADDR (p - KERNBASE + fl)) = p.
Proof.
  intros Hp Hf. destruct (page_bounds p Hp) as (H1 & H2 & H3). unfold KERNBASE in *.
  rewrite PTE_ADDR_eq by lia. unfold p2v, KERNBASE. rewrite u32_small by (unfold is_u32; dlia). dlia.
Qed.

Lemma pde_flags p : page_ok p ->
  Z.lor (Z.lor (Z.lor (v2p p) PTE_P) PTE_W) PTE_U = p - KERNBASE + 7.
Proof.
  intros Hp. rewrite <- !Z.lor_assoc. change (Z.lor PTE_P (Z.lor PTE_W PTE_U)) with 7.
  apply mk_pte; [done|lia].
Qed.

Lemma present_mk p fl : page_ok p -> Z.odd fl = true -> present (p - KERNBASE + fl) = true.
Proof.
  intros Hp Hf. rewrite present_odd. destruct (page_bounds p Hp) as (H1 & _). unfold KERNBASE.
  rewrite Z.odd_add, Hf. replace (Z.odd (p - 2147483648)) with false; [done|].
  symmetry. rewrite <- Z.negb_even. apply negb_false_iff, Z.even_spec. exists ((p - 2147483648) / 2). dlia.
Qed.

(** ** walkpgdir *)

Lemma run_walk_some s pd T va p alloc :
  PT (k_mem s) pd T -> T !! PDX va = Some p -> walkpgdir pd va alloc s = Ret (p + 4 * PTX va) s.
Proof.
  intros HT Hp. destruct (pt_some _ _ _ HT _ _ Hp) as (_ & Hok & _ & He).
  unfold walkpgdir, load. mcbn. rewrite He, present_mk, PTE_ADDR_mk by (done || lia). done.
Qed.

Lemma run_walk_none s pd T va :
  PT (k_mem s) pd T -> T !! PDX va = None -> walkpgdir pd va false s = Ret 0 s.
Proof.
  intros HT Hp. unfold walkpgdir, load. mcbn. by rewrite (pt_none _ _ _ HT _ (PDX_range va) Hp).
Qed.

(** A table and the free list. *)
Record vmok s (pd : Z) T l : Prop := {
  vo_kinv : kinv s l;
  vo_pt : PT (k_mem s) pd T;
  vo_disj : forall q, tpages pd T q -> q ∉ l
}.

Lemma vmok_same P s pd T l m' :
  vmok s pd T l -> same_except P (k_mem s) m' -> (forall q, q ∈ l -> ~ P q) ->
  (forall q, tpages pd T q -> ~ P q) -> vmok (set_mem m' s) pd T l.
Proof.
  intros [Hk HT Hd] Hs H1 H2. constructor; [by eapply kinv_same|by eapply PT_same|done].
Qed.

Lemma run_walk_oom s pd T va :
  vmok s pd T [] -> T !! PDX va = None -> walkpgdir pd va true s = Ret 0 s.
Proof.
  intros [Hk HT _] Hp. unfold walkpgdir, load. mcbn. rewrite (pt_none _ _ _ HT _ (PDX_range va) Hp). cbn [negb].
  by rewrite (bind_run _ _ _ _ _ (run_kalloc_nil _ _ Hk)).
Qed.

(** [s'], [T'], [l'] is [s], [T], [l] with page-table pages for some directory
    indices in [R] taken from the free list; only the pages of the table have
    changed. *)
Record vext (pd : Z) (R : Z -> Prop) s T l s' T' l' : Prop := {
  ve_ok : vmok s' pd T' l';
  ve_sub : T ⊆ T';
  ve_new : forall i q, T' !! i = Some q -> T !! i = Some q \/ (q ∈ l /\ R i);
  ve_free : l' `suffix_of` l;
  ve_count : (length l + size T = length l' + size T')%nat;
  ve_same : same_except (tpages pd T') (k_mem s) (k_mem s')
}.

Lemma vext_refl pd R s T l : vmok s pd T l -> vext pd R s T l s T l.
Proof. intros H. by constructor; auto. Qed.

Lemma tpages_sub pd T T' q : T ⊆ T' -> tpages pd T q -> tpages pd T' q.
Proof. intros Hs [->|[i Hi]]; [by left|right]. exists i. by eapply lookup_weaken. Qed.

Lemma suffix_in (l l' : list Z) q : l' `suffix_of` l -> q ∈ l' -> q ∈ l.
Proof. intros [k ->] H. apply elem_of_app. by right. Qed.

Lemma vext_trans pd R s T l s1 T1 l1 s2 T2 l2 :
  vext pd R s T l s1 T1 l1 -> vext pd R s1 T1 l1 s2 T2 l2 -> vext pd R s T l s2 T2 l2.
Proof.
  intros [Ho Hs Hn Hf Hc Hm] [Ho' Hs' Hn' Hf' Hc' Hm'].
  constructor; [done|by etrans| |by etrans|lia|].
  - intros i q Hi. destruct (Hn' i q Hi) as [H|[Hq HR]]; [by apply Hn|]. right. split; [|done].
    by eapply suffix_in.
  - eapply same_except_trans; [|exact Hm']. eapply same_except_mono; [|exact Hm].
    intros p. by apply tpages_sub.
Qed.

Lemma vext_mono pd (R R' : Z -> Prop) s T l s' T' l' :
  (forall i, R i -> R' i) -> vext pd R s T l s' T' l' -> vext pd R' s T l s' T' l'.
Proof. intros HR [Ho Hs Hn Hf Hc Hm]. constructor; auto. intros i q Hi. destruct (Hn i q Hi) as [|[]]; auto. Qed.

Lemma zero_word m p k : 0 <= k < 1024 -> ldl (KString.memset m p 0 PGSIZE) (p + 4 * k) = 0.
Proof.
  intros Hk. unfold ldl, PGSIZE. rewrite !memset_run by lia.
  assert (H : forall j, 0 <= j < 4 -> (p <=? p + 4 * k + j) && (p + 4 * k + j <? p + 4096) = true) by lia.
  pose proof (H 0) as H0. rewrite Z.add_0_r in H0. by rewrite H0, !H by lia.
Qed.

(** walkpgdir links in a fresh page of empty entries. *)
Lemma run_walk_alloc s pd T p l va :
  vmok s pd T (p :: l) -> T !! PDX va = None ->
  exists s', walkpgdir pd va true s = Ret (p + 4 * PTX va) s' /\
    vext pd (fun i => i = PDX va) s T (p :: l) s' (<[PDX va := p]> T) l /\
    (forall va', pte_of (k_mem s') (<[PDX va := p]> T) va' = pte_of (k_mem s) T va').
Proof.
  intros [Hk HT Hd] Hn. set (i := PDX va) in *. pose proof (PDX_range va) as Hi. fold i in Hi.
  destruct (run_kalloc_cons _ s p l Hk) as [R1 Hk1]. set (s1 := set_freelist _ s) in *.
  pose proof (ki_pages _ _ _ Hk) as [Hp Hl]%Forall_cons. pose proof (ki_nodup _ _ _ Hk) as [Hnp _]%NoDup_cons.
  assert (Hpp : p <> pd) by (intros ->; apply (Hd pd); [by left|left]).
  assert (Hpt : forall j q, T !! j = Some q -> q <> p) by (intros j q Hj ->; apply (Hd p); [right; by exists j|left]).
  destruct (page_bounds p Hp) as (Hpa & Hp1 & Hp2). pose proof (pt_pd _ _ _ HT) as Hpd.
  destruct (page_bounds pd Hpd) as (Hda & Hd1 & Hd2). destruct (entry_addr pd i Hda Hi) as (_ & _ & He1 & He2).
  set (m1 := KString.memset (k_mem s) p 0 PGSIZE). set (m2 := stl m1 (pd + 4 * i) (p - KERNBASE + 7)).
  assert (S1 : same_except (fun q => q = p) (k_mem s) m1) by (by apply same_except_memset).
  assert (S2 : same_except (fun q => q = pd) m1 m2) by (apply same_except_stl; lia).
  assert (S : same_except (fun q => q = p \/ q = pd) (k_mem s) m2).
  { eapply same_except_trans; eapply same_except_mono; try done; cbn; auto. }
  assert (Hpd2 : forall j, 0 <= j < 1024 -> ldl m2 (pd + 4 * j) = if decide (j = i) then p - KERNBASE + 7 else ldl (k_mem s) (pd + 4 * j)).
  { intros j Hj. unfold m2. case_decide as E; [subst j; apply ldl_stl_eq; unfold KERNBASE in *; lia|].
    rewrite ldl_stl_ne by lia. by eapply ldl_entry. }
  assert (HT' : PT m2 pd (<[i := p]> T)).
  { constructor; [done|..].
    - intros j q [[-> ->]|[Hj Hq]]%lookup_insert_Some; [rewrite Hpd2, decide_True by done; auto|].
      destruct (pt_some _ _ _ HT j q Hq) as (? & ? & ? & ?). rewrite Hpd2, decide_False by done. auto.
    - intros j Hj [Hn' Hji]%lookup_insert_None. rewrite Hpd2, decide_False by done. by apply HT.
    - intros j k q Hj Hq. apply lookup_insert_Some in Hj as [[-> ->]|[? Hj]], Hq as [[-> Hq']|[? Hq]]; try done.
      + by apply Hpt in Hq. + subst q. by apply Hpt in Hj. + by apply (pt_inj _ _ _ HT j k q). }
  exists (set_mem m2 s1). split_and!.
  - unfold walkpgdir, load. mcbn. fold i. rewrite (pt_none _ _ _ HT i Hi Hn). cbn [negb].
    rewrite (bind_run _ _ _ _ _ R1). rewrite (proj2 (Z.eqb_neq _ _)) by (unfold KERNBASE in *; lia).
    unfold kmemset, store. mcbn. by rewrite pde_flags by done.
  - constructor.
    + constructor; [|done|].
      * apply (kinv_same _ (fun q => q = p \/ q = pd) s1); [done|done|]. intros q Hq [->| ->]; [done|].
        apply (Hd pd); [by left|by right].
      * intros q [->|[j [[-> ->]|[_ Hj]]%lookup_insert_Some]] Hq; [apply (Hd pd); [by left|by right]|done|].
        apply (Hd q); [right; by exists j|by right].
    + by apply insert_subseteq.
    + intros j q [[-> ->]|[_ Hj]]%lookup_insert_Some; [right; split; [left|done]|by left].
    + by exists [p].
    + rewrite map_size_insert_None by done. cbn. lia.
    + eapply same_except_mono; [|exact S]. intros q [->| ->]; [right; exists i; apply lookup_insert_eq|by left].
  - intros va'. unfold pte_of. destruct (decide (PDX va' = i)) as [E|E].
    + rewrite E, lookup_insert_eq, Hn. cbn [set_mem k_mem]. pose proof (PTX_range va') as Hx.
      rewrite <- (zero_word (k_mem s) p (PTX va') Hx). eapply ldl_entry; eauto.
    + rewrite lookup_insert_ne by done. destruct (T !! PDX va') as [q|] eqn:Eq; [|done].
      destruct (pt_some _ _ _ HT _ q Eq) as (_ & Hq & Hqd & _). eapply ldl_entry; eauto; [|apply PTX_range].
      intros [->|]; [by apply (Hpt _ _ Eq)|done].
Qed.

(** Storing an entry changes that entry only. *)
Lemma run_store_pte s pd T l va p v :
  vmok s pd T l -> is_va va -> T !! PDX va = Some p -> 0 <= v < 4294967296 ->
  exists s', store (p + 4 * PTX va) v s = Ret tt s' /\ vmok s' pd T l /\
    same_except (fun q => q = p) (k_mem s) (k_mem s') /\
    (forall va', is_va va' -> pte_of (k_mem s') T va' = if decide (va' / 4096 = va / 4096) then v else pte_of (k_mem s) T va').
Proof.
  intros [Hk HT Hd] Hva Hp Hv. destruct (pt_some _ _ _ HT _ _ Hp) as (Hi & Hok & Hne & He).
  destruct (page_bounds p Hok) as (Hpa & Hp1 & Hp2). pose proof (PTX_range va) as Hx.
  destruct (entry_addr p (PTX va) Hpa Hx) as (_ & _ & He1 & He2).
  set (m' := stl (k_mem s) (p + 4 * PTX va) v).
  assert (S : same_except (fun q => q = p) (k_mem s) m') by (apply same_except_stl; lia).
  exists (set_mem m' s). split; [done|]. split_and!; [|done|].
  - constructor; [| |done].
    + apply (kinv_same _ (fun q => q = p)); [done..|]. intros q Hq ->. apply (Hd p); [right; by exists (PDX va)|done].
    + constructor; [apply HT| |..|apply HT].
      * intros i q Hq. destruct (pt_some _ _ _ HT i q Hq) as (? & ? & ? & <-). split_and!; auto; try lia.
        eapply ldl_entry; eauto. apply HT.
      * intros i Hj Hn. rewrite (ldl_entry _ _ _ _ _ S); auto; [by apply HT|apply HT].
  - intros va' Hva'. unfold pte_of. cbn [set_mem k_mem]. destruct (T !! PDX va') as [q|] eqn:Eq.
    + pose proof (PTX_range va') as Hx'. case_decide as E.
      * destruct (same_page_PDX _ _ E) as [E1 E2]. rewrite E1, Hp in Eq. injection Eq as <-. rewrite E2. by apply ldl_stl_eq.
      * destruct (decide (q = p)) as [->|Hqp]; [|by eapply ldl_entry; eauto; apply (pt_some _ _ _ HT) in Eq as (_ & ? & _)].
        unfold m'. apply ldl_stl_ne. assert (PTX va' <> PTX va); [|lia]. intros E3. apply E.
        apply same_page; auto. by apply (pt_inj _ _ _ HT _ _ p).
    + case_decide as E; [|done]. destruct (same_page_PDX _ _ E) as [E1 E2]. congruence.
Qed.

Lemma flags_odd perm : Z.odd (Z.lor perm PTE_P) = true.
Proof. rewrite <- Z.bit0_odd, Z.lor_spec. cbn. by rewrite orb_true_r. Qed.

(** The entry that maps physical page [pa]. *)
Definition leaf (pa perm : Z) : Z := pa + Z.lor perm PTE_P.

Lemma leaf_eq pa perm : pa mod 4096 = 0 -> 0 <= perm < 4096 -> Z.lor (Z.lor pa perm) PTE_P = leaf pa perm.
Proof.
  intros. unfold leaf, PTE_P. rewrite <- Z.lor_assoc, lor_flags; auto. apply lor_lt_4096; lia.
Qed.

Lemma leaf_range pa perm :
  0 <= pa -> pa + 4096 <= 4294967296 -> 0 <= perm < 4096 -> 0 <= leaf pa perm < 4294967296.
Proof. intros. unfold leaf. pose proof (lor_lt_4096 perm PTE_P). unfold PTE_P in *. lia. Qed.

(** The entries after [k] pages from [a] have been mapped to [pa]. *)
Definition mapped_to m T (a k pa perm : Z) m' T' : Prop :=
  forall va, is_va va -> pte_of m' T' va =
    if decide (a <= va < a + 4096 * k) then leaf (pa + (va - a) / 4096 * 4096) perm else pte_of m T va.

(** walkpgdir with allocation: the entry's address, or 0 with no page left. *)
Lemma run_walk s pd T l va :
  vmok s pd T l ->
  (exists s' T' l' p, walkpgdir pd va true s = Ret (p + 4 * PTX va) s' /\
    vext pd (fun i => i = PDX va) s T l s' T' l' /\ T' !! PDX va = Some p /\
    forall va', pte_of (k_mem s') T' va' = pte_of (k_mem s) T va') \/
  (walkpgdir pd va true s = Ret 0 s /\ l = [] /\ T !! PDX va = None).
Proof.
  intros Hv. destruct (T !! PDX va) as [p|] eqn:E.
  - left. exists s, T, l, p. split_and!; auto; [|by apply vext_refl]. eapply run_walk_some; [apply Hv|done].
  - destruct l as [|p l]; [right; by split; [eapply run_walk_oom|]|]. left.
    destruct (run_walk_alloc s pd T p l va Hv E) as (s' & R & He & Hp).
    exists s', (<[PDX va := p]> T), l, p. split_and!; auto. apply lookup_insert_eq.
Qed.

(** One round of the loop of mappages. *)
Lemma run_map_one s pd T l a pa perm :
  vmok s pd T l -> is_va a -> a mod 4096 = 0 -> 0 <= pa -> pa mod 4096 = 0 -> pa + 4096 <= 4294967296 ->
  0 <= perm < 4096 -> present (pte_of (k_mem s) T a) = false ->
  (exists s1 s' T' l' p, walkpgdir pd a true s = Ret (p + 4 * PTX a) s1 /\ p + 4 * PTX a <> 0 /\
    load (p + 4 * PTX a) s1 = Ret (pte_of (k_mem s) T a) s1 /\
    store (p + 4 * PTX a) (Z.lor (Z.lor pa perm) PTE_P) s1 = Ret tt s' /\
    vext pd (fun i => i = PDX a) s T l s' T' l' /\ mapped_to (k_mem s) T a 1 pa perm (k_mem s') T') \/
  (walkpgdir pd a true s = Ret 0 s /\ l = [] /\ T !! PDX a = None).
Proof.
  intros Hv Ha Haa Hpa Hpaa Hpt Hperm Hno.
  destruct (run_walk s pd T l a Hv) as [(s1 & T1 & l1 & p & R1 & E1 & Hp & Hpte)|Ho]; [left|by right].
  pose proof (ve_ok _ _ _ _ _ _ _ _ E1) as Hv1.
  destruct (pt_some _ _ _ (vo_pt _ _ _ _ Hv1) _ _ Hp) as (_ & Hok & _). destruct (page_bounds p Hok) as (_ & Hp1 & _).
  destruct (run_store_pte s1 pd T1 l1 a p (leaf pa perm) Hv1 Ha Hp) as (s' & R2 & Hv2 & S2 & Hst).
  { by apply leaf_range. }
  pose proof (PTX_range a) as Hx.
  exists s1, s', T1, l1, p. split_and!; auto.
  - unfold KERNBASE in Hp1. lia.
  - unfold load, get. f_equal. rewrite <- Hpte. unfold pte_of. by rewrite Hp.
  - by rewrite leaf_eq.
  - destruct E1 as [_ Hs Hn Hf Hc Hm]. constructor; auto. eapply same_except_trans; [exact Hm|].
    eapply same_except_mono; [|exact S2]. intros q ->. right. by exists (PDX a).
  - intros va Hva. rewrite Hst by done. unfold is_va in *.
    destruct (decide (va / 4096 = a / 4096)); [rewrite decide_True by dlia; f_equal; dlia|].
    rewrite decide_False by dlia. apply Hpte.
Qed.

Lemma run_mappages_loop pd perm last (n : nat) fuel s T l a pa :
  vmok s pd T l -> a mod 4096 = 0 -> 0 <= a -> a + 4096 * (Z.of_nat n + 1) <= 4294967296 ->
  last = a + 4096 * Z.of_nat n -> 0 <= pa -> pa mod 4096 = 0 -> pa + 4096 * (Z.of_nat n + 1) <= 4294967296 ->
  0 <= perm < 4096 -> (n <= fuel)%nat ->
  (forall va, a <= va < a + 4096 * (Z.of_nat n + 1) -> present (pte_of (k_mem s) T va) = false) ->
  exists r s' T' l' k, mappages_loop fuel pd a last pa perm s = Ret r s' /\
    vext pd (fun i => exists va, a <= va < a + 4096 * (Z.of_nat n + 1) /\ i = PDX va) s T l s' T' l' /\
    mapped_to (k_mem s) T a k pa perm (k_mem s') T' /\
    (r = 0 /\ k = Z.of_nat n + 1 \/ r = -1 /\ l' = [] /\ 0 <= k <= Z.of_nat n).
Proof.
  revert fuel s T l a pa. induction n as [|n IH]; intros fuel s T l a pa Hv Haa Ha0 Ha1 El Hp0 Hpa Hp1 Hperm Hfuel Hno.
  all: destruct (run_map_one s pd T l a pa perm) as [(s1 & s2 & T2 & l2 & p & R1 & Hz & R2 & R3 & E2 & M2)|(R1 & -> & Hn)];
    auto; try (unfold is_va; lia); try (apply Hno; lia).
  2, 4: exists (-1), s, T, [], 0; split_and!; [|by apply vext_refl| |right; split_and!; done || lia];
    [destruct fuel; cbn [mappages_loop]; by rewrite (bind_run _ _ _ _ _ R1)|
     intros va _; by rewrite decide_False by lia].
  - exists 0, s2, T2, l2, 1. split_and!; [| |done|left; lia].
    + destruct fuel; cbn [mappages_loop]; rewrite (bind_run _ _ _ _ _ R1), (proj2 (Z.eqb_neq _ _) Hz),
        (bind_run _ _ _ _ _ R2), Hno, (bind_run _ _ _ _ _ R3) by lia; by rewrite (proj2 (Z.eqb_eq _ _)) by lia.
    + eapply vext_mono; [|exact E2]. intros i ->. exists a. split; [lia|done].
  - destruct fuel as [|fuel]; [lia|].
    assert (Hno2 : forall va, a + 4096 <= va < a + 4096 + 4096 * (Z.of_nat n + 1) -> present (pte_of (k_mem s2) T2 va) = false).
    { intros va Hva. rewrite M2 by (unfold is_va; lia). rewrite decide_False by lia. apply Hno. lia. }
    destruct (IH fuel s2 T2 l2 (a + 4096) (pa + 4096)) as (r & s3 & T3 & l3 & k & R4 & E3 & M3 & Hr);
      auto; try lia; try dlia; [apply (ve_ok _ _ _ _ _ _ _ _ E2)|].
    exists r, s3, T3, l3, (k + 1). split_and!; [| | |destruct Hr as [[-> ->]|(-> & -> & ?)]; [left; lia|right; split_and!; done || lia]].
    + cbn [mappages_loop]. rewrite (bind_run _ _ _ _ _ R1), (proj2 (Z.eqb_neq _ _) Hz),
        (bind_run _ _ _ _ _ R2), Hno, (bind_run _ _ _ _ _ R3) by lia. rewrite (proj2 (Z.eqb_neq _ _)) by lia.
      unfold PGSIZE. rewrite !u32_small by (unfold is_u32; lia). exact R4.
    + eapply vext_trans; [eapply vext_mono; [|exact E2]|eapply vext_mono; [|exact E3]].
      * intros i ->. exists a. split; [lia|done].
      * intros i (va & Hva & ->). exists va. split; [lia|done].
    + intros va Hva. rewrite M3 by done. destruct (decide (a + 4096 <= va < a + 4096 + 4096 * k)).
      * rewrite decide_True by lia. f_equal. dlia.
      * rewrite M2 by done. destruct (decide (a <= va < a + 4096 * 1)) as [Hb|Hb].
        -- rewrite decide_True by lia. done.
        -- by rewrite decide_False by lia.
Qed.

Lemma run_mappages pd perm n s T l va pa :
  vmok s pd T l -> va mod 4096 = 0 -> 0 <= va -> 0 <= n -> va + 4096 * (n + 1) <= 4294967296 ->
  0 <= pa -> pa mod 4096 = 0 -> pa + 4096 * (n + 1) <= 4294967296 -> 0 <= perm < 4096 ->
  (forall a, va <= a < va + 4096 * (n + 1) -> present (pte_of (k_mem s) T a) = false) ->
  exists r s' T' l' k, mappages pd va (4096 * (n + 1)) pa perm s = Ret r s' /\
    vext pd (fun i => exists a, va <= a < va + 4096 * (n + 1) /\ i = PDX a) s T l s' T' l' /\
    mapped_to (k_mem s) T va k pa perm (k_mem s') T' /\
    (r = 0 /\ k = n + 1 \/ r = -1 /\ l' = [] /\ 0 <= k <= n).
Proof.
  intros Hv Hva Hva0 Hn Hva1 Hp0 Hpa Hp1 Hperm Hno. unfold mappages.
  rewrite u32_sub_l, (u32_small (_ - 1)) by (unfold is_u32; lia). rewrite !PGROUNDDOWN_eq by lia.
  replace (va / 4096 * 4096) with va by dlia.
  replace ((va + 4096 * (n + 1) - 1) / 4096 * 4096) with (va + 4096 * n) by dlia.
  destruct (run_mappages_loop pd perm (va + 4096 * n) (Z.to_nat n)
    (Z.to_nat (u32 (va + 4096 * n - va) / PGSIZE)) s T l va pa) as (r & s' & T' & l' & k & H);
    rewrite ?Z2Nat.id by lia; auto.
  - unfold PGSIZE. rewrite u32_small by (unfold is_u32; lia). dlia.
  - rewrite !Z2Nat.id in H by lia. by exists r, s', T', l', k.
Qed.

(** One page: mapped, or the free list is empty. *)
Lemma run_mappages_page pd perm s T l va pa :
  vmok s pd T l -> va mod 4096 = 0 -> 0 <= va -> va + 4096 <= 4294967296 ->
  0 <= pa -> pa mod 4096 = 0 -> pa + 4096 <= 4294967296 -> 0 <= perm < 4096 ->
  present (pte_of (k_mem s) T va) = false ->
  exists r s' T' l', mappages pd va PGSIZE pa perm s = Ret r s' /\
    vext pd (fun i => i = PDX va) s T l s' T' l' /\
    (r = 0 /\ mapped_to (k_mem s) T va 1 pa perm (k_mem s') T' \/
     r = -1 /\ l = [] /\ l' = [] /\ T' = T /\ (forall a, is_va a -> pte_of (k_mem s') T a = pte_of (k_mem s) T a)).
Proof.
  intros Hv Hva Hva0 Hva1 Hp0 Hpa Hp1 Hperm Hno. unfold mappages, PGSIZE.
  rewrite u32_sub_l, (u32_small (_ - 1)) by (unfold is_u32; lia). rewrite !PGROUNDDOWN_eq by lia.
  replace (va / 4096 * 4096) with va by dlia. replace ((va + 4096 - 1) / 4096 * 4096) with va by dlia.
  rewrite Z.sub_diag. change (Z.to_nat (u32 0 / 4096)) with 0%nat. cbn [mappages_loop].
  destruct (run_map_one s pd T l va pa perm) as [(s1 & s2 & T2 & l2 & p & R1 & Hz & R2 & R3 & E2 & M2)|(R1 & -> & Hn)];
    auto; [unfold is_va; lia|..].
  - exists 0, s2, T2, l2. split_and!; [|done|by left].
    run R1. rewrite (proj2 (Z.eqb_neq _ _) Hz). run R2. rewrite Hno. run R3. by rewrite Z.eqb_refl.
  - exists (-1), s, T, []. split_and!; [by rewrite (bind_run _ _ _ _ _ R1)|by apply vext_refl|by right].
Qed.

End Pt.
