(* ===== verification/VmUser.v ===== *)
(** * User address spaces: allocuvm, deallocuvm, copyuvm, copyout, freevm

    [uvm s pd T l n] says that page directory [pd] gives a process [n] pages of
    user memory from address 0, each in a page of its own, and nothing more
    below KERNBASE.  The theorems are stated with [translate], the two-level
    walk the processor does. *)

From S2P Require Import Prelude.
From S2P Require Import CString.
From S2P Require Import Mmu.
From S2P Require Import Kalloc.
From S2P Require Import Vm.
From S2P Require Import VmPt.

(** The processor's translation of a virtual address: physical address and the
    flags of the entry. *)
Definition translate (m : mem) (pd va : Z) : option (Z * Z) :=
  let pde := ldl m (pd + 4 * (va / 4194304)) in
  if Z.odd pde then
    let pte := ldl m (KERNBASE + pde / 4096 * 4096 + 4 * (va / 4096 mod 1024)) in
    if Z.odd pte then Some (pte / 4096 * 4096 + va mod 4096, pte mod 4096) else None
  else None.

Section User.
Context (end_ : Z).
Hypothesis Hend : KERNBASE < end_.
Local Abbreviation page_ok := (page_ok end_).
Local Abbreviation kinv := (kinv end_).
Local Abbreviation PT := (PT end_).
Local Abbreviation vmok := (vmok end_).
Local Abbreviation vext := (vext end_).
Implicit Types (m : mem) (s : kst) (T : gmap Z Z) (l : list Z).

Lemma translate_pte m pd T va :
  PT m pd T -> is_va va ->
  translate m pd va =
    let e := pte_of m T va in
    if present e then Some (e / 4096 * 4096 + va mod 4096, e mod 4096) else None.
Proof.
  intros HT Hva. unfold translate, pte_of. unfold is_va in Hva.
  assert (EX : PDX va = va / 4194304) by (rewrite PDX_eq; dlia). rewrite <- EX, <- PTX_eq.
  pose proof (PDX_range va) as Hi. cbv zeta. destruct (T !! PDX va) as [p|] eqn:E.
  - destruct (pt_some _ _ _ _ HT _ _ E) as (_ & Hok & _ & ->).
    rewrite <- present_odd, (present_mk end_ p 7 Hok) by done. rewrite present_odd.
    replace (KERNBASE + (p - KERNBASE + 7) / 4096 * 4096) with p; [done|].
    destruct (page_bounds end_ p Hok) as (? & _). unfold KERNBASE. dlia.
  - pose proof (pt_none _ _ _ _ HT _ Hi E) as Hn. rewrite present_odd in Hn. rewrite Hn. done.
Qed.

(** The kernel address of the [k]-th user page. *)
Definition upage m T (k : Z) : Z := p2v (PTE_ADDR (pte_of m T (4096 * k))).

Definition UPAGES : Z := 524288.

Record uvm s (pd : Z) T l (n : Z) : Prop := {
  u_ok : vmok s pd T l;
  u_n : 0 <= n <= UPAGES;
  u_pte : forall k, 0 <= k < n ->
    present (pte_of (k_mem s) T (4096 * k)) = true /\ 0 <= pte_of (k_mem s) T (4096 * k) < 4294967296;
  u_page : forall k, 0 <= k < n -> page_ok (upage (k_mem s) T k) /\ upage (k_mem s) T k ∉ l /\
    ~ tpages pd T (upage (k_mem s) T k);
  u_inj : forall k k', 0 <= k < n -> 0 <= k' < n -> upage (k_mem s) T k = upage (k_mem s) T k' -> k = k';
  u_above : forall k, n <= k < UPAGES -> present (pte_of (k_mem s) T (4096 * k)) = false
}.

Lemma uva k : 0 <= k < UPAGES -> is_va (4096 * k) /\ 4096 * k + 4096 <= KERNBASE.
Proof. unfold UPAGES, is_va, KERNBASE. lia. Qed.

Lemma leaf_page q fl : page_ok q -> 0 <= fl < 4096 -> p2v (PTE_ADDR (leaf (q - KERNBASE) fl)) = q.
Proof. intros Hq Hf. unfold leaf. apply (PTE_ADDR_mk end_); [done|]. apply lor_lt_4096; unfold PTE_P; lia. Qed.

Lemma leaf_present q fl : page_ok q -> present (leaf (q - KERNBASE) fl) = true.
Proof. intros Hq. unfold leaf. apply (present_mk end_); [done|]. apply flags_odd. Qed.

(** User memory grown by one page, the page [q] with contents as in [m1]. *)
Record ustep (pd : Z) s T (q : Z) l (n fl : Z) m1 s' T' l' : Prop := {
  us_uvm : uvm s' pd T' l' (n + 1);
  us_keep : forall va, is_va va -> va / 4096 <> n -> pte_of (k_mem s') T' va = pte_of (k_mem s) T va;
  us_new : pte_of (k_mem s') T' (4096 * n) = leaf (q - KERNBASE) fl;
  us_same : same_except (tpages pd T') m1 (k_mem s');
  us_sub : T ⊆ T';
  us_tab : forall p, tpages pd T' p -> tpages pd T p \/ p ∈ l;
  us_free : l' `suffix_of` l;
  us_len : (length l <= length l' + 1)%nat
}.

Lemma vext_len (pd i : Z) s T l s' T' l' :
  vext pd (fun j => j = i) s T l s' T' l' -> (length l <= length l' + 1)%nat.
Proof.
  intros [_ Hs Hn _ Hc _]. assert (size T' <= size T + 1)%nat; [|lia].
  rewrite <- !size_dom. rewrite <- (size_singleton (C := gset Z) i), <- (Nat.add_0_r (_ + _)).
  etrans; [apply (subseteq_size _ (dom T ∪ {[i]}))|rewrite size_union_alt; etrans; [apply Nat.add_le_mono_l, (subseteq_size _ {[i]})|]; [set_solver|lia]].
  intros j [q Hq]%elem_of_dom. apply elem_of_union. destruct (Hn j q Hq) as [H|[_ ->]]; [left|right; set_solver].
  by apply elem_of_dom.
Qed.

Lemma tpages_new pd R s T l s' T' l' p :
  vext pd R s T l s' T' l' -> tpages pd T' p -> tpages pd T p \/ p ∈ l.
Proof.
  intros He [->|[i Hi]]; [by left; left|]. destruct (ve_new _ _ _ _ _ _ _ _ _ He i p Hi) as [H|[H _]]; [|by right].
  left. right. by exists i.
Qed.

Lemma run_umap s pd T q l n m1 fl :
  uvm s pd T (q :: l) n -> n < UPAGES -> 0 <= fl < 4096 -> same_except (fun p => p = q) (k_mem s) m1 ->
  exists r s' T' l',
    mappages pd (4096 * n) PGSIZE (v2p q) fl (set_mem m1 (set_freelist (ldl (k_mem s) q) s)) = Ret r s' /\
    (r = 0 /\ ustep pd s T q l n fl m1 s' T' l' \/ r = -1 /\ l = [] /\ l' = [] /\ T' = T /\
      uvm s' pd T [] n /\ (forall va, is_va va -> pte_of (k_mem s') T va = pte_of (k_mem s) T va) /\
      same_except (tpages pd T) m1 (k_mem s')).
Proof.
  intros [Hv Hn Hpte Hpg Hinj Hab] Hlt Hfl S1. destruct Hv as [Hk HT Hd].
  set (s1 := set_mem m1 (set_freelist (ldl (k_mem s) q) s)).
  pose proof (ki_pages _ _ _ Hk) as [Hq Hl]%Forall_cons. pose proof (ki_nodup _ _ _ Hk) as [Hnq _]%NoDup_cons.
  assert (Hqt : forall p, tpages pd T p -> p <> q) by (intros p Hp ->; apply (Hd q Hp); left).
  destruct (PT_same _ _ _ m1 pd T HT S1) as [HT1 Hp1]; [intros p Hp ->; by apply (Hqt q)|].
  assert (Hv1 : vmok s1 pd T l).
  { constructor; [|done|intros p Hp Hin; apply (Hd p Hp); by right].
    destruct (run_kalloc_cons _ _ _ _ Hk) as [_ Hk1]. apply (kinv_same _ (fun p => p = q) _ l m1 Hk1 S1).
    intros p Hp ->. done. }
  destruct (uva n ltac:(lia)) as [Hva Hva2]. destruct (page_bounds end_ q Hq) as (Hqa & Hq1 & Hq2).
  unfold KERNBASE in *. assert (Evp : v2p q = q - KERNBASE) by (apply v2p_eq; unfold KERNBASE; lia).
  destruct (run_mappages_page end_ pd fl s1 T l (4096 * n) (v2p q)) as (r & s' & T' & l' & R & He & Hr);
    auto; rewrite ?Evp; unfold KERNBASE in *; try lia; try dlia.
  { cbn [s1 set_mem k_mem]. rewrite Hp1. apply Hab. unfold UPAGES in *. lia. }
  rewrite Evp in R. exists r, s', T', l'. split; [unfold KERNBASE in *; exact R|].
  pose proof (ve_ok _ _ _ _ _ _ _ _ _ He) as Hv'. pose proof (ve_same _ _ _ _ _ _ _ _ _ He) as Hs'.
  pose proof (ve_free _ _ _ _ _ _ _ _ _ He) as Hf'.
  assert (Hkeep : forall va, is_va va -> va / 4096 <> n -> pte_of (k_mem s') T' va = pte_of (k_mem s) T va).
  { intros va Hva' Hne. rewrite <- Hp1. destruct Hr as [[-> Hm]|(_ & _ & _ & -> & Hm)]; [|by apply Hm].
    rewrite Hm by done. rewrite decide_False by dlia. done. }
  assert (Hupk : forall k, 0 <= k < UPAGES -> k <> n -> pte_of (k_mem s') T' (4096 * k) = pte_of (k_mem s) T (4096 * k)).
  { intros k Hk' Hne. apply Hkeep; [by apply uva|]. dlia. }
  assert (Hnt : forall k, 0 <= k < n -> ~ tpages pd T' (upage (k_mem s) T k)).
  { intros k Hk' Ht. destruct (Hpg k Hk') as (_ & Hnl & Hnt).
    destruct (tpages_new _ _ _ _ _ _ _ _ _ He Ht) as [H|H]; [done|]. apply Hnl. by right. }
  destruct Hr as [[-> Hm]|(-> & -> & -> & -> & Hm)].
  - left. split; [done|].
    assert (Hnew : pte_of (k_mem s') T' (4096 * n) = leaf (q - KERNBASE) fl).
    { rewrite Hm by done. rewrite decide_True by lia. f_equal. unfold KERNBASE. dlia. }
    assert (Hup : forall k, 0 <= k < n + 1 -> upage (k_mem s') T' k = if decide (k = n) then q else upage (k_mem s) T k).
    { intros k Hk'. unfold upage. case_decide as E; [subst k; rewrite Hnew; by apply leaf_page|].
      rewrite Hupk; [done|unfold UPAGES in *; lia|done]. }
    constructor; auto; [|apply (ve_sub _ _ _ _ _ _ _ _ _ He)|by intros p Hp; eapply tpages_new|by eapply vext_len].
    constructor; auto; [unfold UPAGES in *; lia|..].
    + intros k Hk'. destruct (decide (k = n)) as [->|]; [|rewrite Hupk by (unfold UPAGES in *; lia); apply Hpte; lia].
      rewrite Hnew. split; [by apply leaf_present|]. apply leaf_range; unfold KERNBASE; lia.
    + intros k Hk'. rewrite Hup by done. case_decide as E.
      * split; [done|]. split; [intros Hin; by apply Hnq, (suffix_in _ _ _ Hf')|].
        intros Ht. destruct (tpages_new _ _ _ _ _ _ _ _ _ He Ht) as [H|H]; [by apply (Hqt q)|done].
      * destruct (Hpg k) as (H1 & H2 & H3); [lia|]. split; [done|]. split; [|apply Hnt; lia].
        intros Hin. apply H2. right. by apply (suffix_in _ _ _ Hf').
    + intros k k' Hk1 Hk2. rewrite !Hup by done.
      assert (Hnqk : forall j, 0 <= j < n -> upage (k_mem s) T j <> q).
      { intros j Hj E. destruct (Hpg j Hj) as (_ & H & _). apply H. rewrite E. left. }
      repeat case_decide; subst; auto; intros E; [symmetry in E| |]; try (apply Hnqk in E; [done|lia]).
      apply Hinj; auto; lia.
    + intros k Hk'. rewrite Hupk by lia. apply Hab. lia.
  - right. split_and!; auto; [|by intros va Hva'; rewrite Hm by done].
    assert (Hpe : forall k, 0 <= k < UPAGES -> pte_of (k_mem s') T (4096 * k) = pte_of (k_mem s) T (4096 * k)).
    { intros k Hk'. rewrite <- Hp1. apply Hm. by apply uva. }
    assert (Hup : forall k, 0 <= k < n -> upage (k_mem s') T k = upage (k_mem s) T k).
    { intros k Hk'. unfold upage. by rewrite Hpe by (unfold UPAGES in *; lia). }
    constructor; auto.
    + intros k Hk'. rewrite Hpe by (unfold UPAGES in *; lia). by apply Hpte.
    + intros k Hk'. rewrite Hup by done. destruct (Hpg k Hk') as (H1 & H2 & H3). split_and!; auto.
      apply not_elem_of_nil.
    + intros k k' Hk1 Hk2. rewrite !Hup by done. by apply Hinj.
    + intros k Hk'. rewrite Hpe by lia. by apply Hab.
Qed.

(** User memory grown from [n] to [n'] pages of zeros. *)
Record ugrow (pd : Z) s T l (n : Z) s' T' l' (n' : Z) : Prop := {
  ug_uvm : uvm s' pd T' l' n';
  ug_keep : forall va, is_va va -> ~ (n <= va / 4096 < n') -> pte_of (k_mem s') T' va = pte_of (k_mem s) T va;
  ug_flags : forall k, n <= k < n' -> PTE_FLAGS (pte_of (k_mem s') T' (4096 * k)) = 7;
  ug_zero : forall k a, n <= k < n' -> upage (k_mem s') T' k <= a < upage (k_mem s') T' k + 4096 -> k_mem s' a = 0;
  ug_new : forall k, n <= k < n' -> upage (k_mem s') T' k ∈ l;
  ug_same : same_except (fun p => tpages pd T' p \/ p ∈ l) (k_mem s) (k_mem s');
  ug_sub : T ⊆ T';
  ug_tab : forall p, tpages pd T' p -> tpages pd T p \/ p ∈ l;
  ug_free : l' `suffix_of` l;
  ug_len : zlen l <= zlen l' + 2 * (n' - n)
}.

(** The contents of a user page outlive changes to table pages and free pages. *)
Lemma upage_frame s pd T l n k (P : Z -> Prop) m' a :
  uvm s pd T l n -> 0 <= k < n -> same_except P (k_mem s) m' ->
  (forall p, P p -> tpages pd T p \/ p ∈ l) ->
  upage (k_mem s) T k <= a < upage (k_mem s) T k + 4096 -> m' a = k_mem s a.
Proof.
  intros Hu Hk HS HP Ha. destruct (u_page _ _ _ _ _ Hu k Hk) as (Hok & Hnl & Hnt).
  destruct (page_bounds end_ _ Hok) as (Hal & _). apply HS. rewrite (page_of_in _ a Hal Ha).
  intros Hp. by destruct (HP _ Hp).
Qed.

Lemma ugrow_refl pd s T l n : uvm s pd T l n -> ugrow pd s T l n s T l n.
Proof. intros H. constructor; auto; lia || done. Qed.

Lemma ustep_grow pd s T q l n m1 s1 T1 l1 :
  uvm s pd T (q :: l) n -> n < UPAGES -> m1 = KString.memset (k_mem s) q 0 PGSIZE ->
  ustep pd s T q l n (Z.lor PTE_W PTE_U) m1 s1 T1 l1 -> ugrow pd s T (q :: l) n s1 T1 l1 (n + 1).
Proof.
  intros Hu Hn -> [Hu1 Hk Hnew Hs Hsub Ht Hf Hl]. pose proof (vo_kinv _ _ _ _ _ (u_ok _ _ _ _ _ Hu)) as Hki.
  pose proof (ki_pages _ _ _ Hki) as [Hq _]%Forall_cons. pose proof (ki_nodup _ _ _ Hki) as [Hnq _]%NoDup_cons.
  pose proof (u_n _ _ _ _ _ Hu). destruct (page_bounds end_ q Hq) as (Hqa & _).
  assert (Hup : upage (k_mem s1) T1 n = q) by (unfold upage; rewrite Hnew; by apply leaf_page).
  constructor; auto.
  - intros va Hva Hne. apply Hk; [done|lia].
  - intros k Hk'. replace k with n by lia. rewrite Hnew, PTE_FLAGS_eq. unfold leaf.
    change (Z.lor (Z.lor PTE_W PTE_U) PTE_P) with 7. unfold KERNBASE. dlia.
  - intros k a Hk' Ha. replace k with n in * by lia. rewrite Hup in Ha.
    rewrite Hs. { rewrite memset_run by (unfold PGSIZE; lia). unfold PGSIZE. by rewrite (proj2 (andb_true_iff _ _)) by lia. }
    rewrite (page_of_in q a Hqa Ha). intros Htq. destruct (Ht _ Htq) as [H'|H']; [|done].
    apply (vo_disj _ _ _ _ _ (u_ok _ _ _ _ _ Hu) q H'). left.
  - intros k Hk'. replace k with n by lia. rewrite Hup. left.
  - eapply same_except_trans; eapply same_except_mono; [|by apply same_except_memset| |exact Hs]; cbn; [|by left].
    intros p ->. right. left.
  - intros p Hp. destruct (Ht p Hp); [by left|right; by right].
  - destruct Hf as [k ->]. by exists (q :: k).
  - unfold zlen. cbn [length]. lia.
Qed.

Lemma ugrow_trans pd s T l n s1 T1 l1 n1 s2 T2 l2 n2 :
  0 <= n <= n1 -> n1 <= n2 -> ugrow pd s T l n s1 T1 l1 n1 -> ugrow pd s1 T1 l1 n1 s2 T2 l2 n2 -> ugrow pd s T l n s2 T2 l2 n2.
Proof.
  intros Hn0 Hn1 [Hu Hk Hfl Hz Hw Hs Hb Ht Hf Hl] [Hu' Hk' Hfl' Hz' Hw' Hs' Hb' Ht' Hf' Hl'].
  pose proof (u_n _ _ _ _ _ Hu') as Hmax.
  assert (Hold : forall k, n <= k < n1 -> pte_of (k_mem s2) T2 (4096 * k) = pte_of (k_mem s1) T1 (4096 * k)).
  { intros k Hk1. apply Hk'; [apply uva; lia|dlia]. }
  constructor; auto.
  - intros va Hva Hne. rewrite Hk', Hk by (done || lia). done.
  - intros k Hk1. destruct (decide (k < n1)); [rewrite Hold by lia; apply Hfl; lia|apply Hfl'; lia].
  - intros k a Hk1 Ha. destruct (decide (k < n1)); [|apply (Hz' k); [lia|done]].
    unfold upage in Ha. rewrite Hold in Ha by lia.
    rewrite (upage_frame s1 pd T1 l1 n1 k _ (k_mem s2) a Hu ltac:(lia) Hs'); [by apply (Hz k); [lia|]| |done].
    intros p [Hp|Hp]; auto.
  - intros k Hk1. destruct (decide (k < n1)); [unfold upage; rewrite Hold by lia; apply Hw; lia|].
    eapply suffix_in; [exact Hf|apply Hw'; lia].
  - eapply same_except_trans; eapply same_except_mono; [|exact Hs| |exact Hs']; intros p [Hp|Hp]; auto.
    + left. by eapply tpages_sub.
    + right. by eapply suffix_in.
  - by etrans.
  - intros p Hp. destruct (Ht' p Hp) as [|Hpl]; auto. right. by eapply suffix_in.
  - by etrans.
  - lia.
Qed.

(** The number of pages a size takes. *)
Definition npg (sz : Z) : Z := (sz + 4095) / 4096.

Lemma run_alloc_loop pd oldsz newsz (c : nat) fuel s T l n :
  uvm s pd T l n -> n + Z.of_nat c = npg newsz -> 0 <= newsz < KERNBASE -> (2 * c <= length l)%nat ->
  (c <= fuel)%nat ->
  exists s' T' l', allocuvm_loop end_ fuel pd (4096 * n) oldsz newsz s = Ret newsz s' /\
    ugrow pd s T l n s' T' l' (n + Z.of_nat c).
Proof.
  revert fuel s T l n. induction c as [|c IH]; intros fuel s T l n Hu Hnc Hsz Hlen Hfuel.
  - exists s, T, l. rewrite Z.add_0_r. split; [|by apply ugrow_refl].
    destruct fuel; cbn [allocuvm_loop]; rewrite (proj2 (Z.ltb_ge _ _)); try done; unfold npg in Hnc; dlia.
  - destruct fuel as [|fuel]; [lia|]. cbn [allocuvm_loop].
    assert (Hlt : n < UPAGES /\ 4096 * n < newsz) by (unfold npg, UPAGES, KERNBASE in *; dlia).
    rewrite (proj2 (Z.ltb_lt _ _)) by lia. destruct l as [|q [|q' l]]; [cbn in Hlen; lia..|].
    pose proof (vo_kinv _ _ _ _ _ (u_ok _ _ _ _ _ Hu)) as Hki. pose proof (u_n _ _ _ _ _ Hu) as Hn0.
    destruct (run_kalloc_cons _ _ _ _ Hki) as [R1 _]. rewrite (bind_run _ _ _ _ _ R1).
    pose proof (ki_pages _ _ _ Hki) as [Hq _]%Forall_cons. destruct (page_bounds end_ q Hq) as (Hqa & Hqk & _).
    rewrite (proj2 (Z.eqb_neq _ _)) by (unfold KERNBASE in *; lia).
    destruct (run_umap s pd T q (q' :: l) n (KString.memset (k_mem s) q 0 PGSIZE) (Z.lor PTE_W PTE_U))
      as (r & s1 & T1 & l1 & R2 & [[-> Hst]|(_ & ? & _)]); auto; [lia|by vm_compute|by apply same_except_memset| |done].
    pose proof (ustep_grow _ _ _ _ _ _ _ _ _ _ Hu (proj1 Hlt) eq_refl Hst) as Hg.
    pose proof (us_len _ _ _ _ _ _ _ _ _ _ _ Hst) as Hl1. cbn in Hl1, Hlen.
    destruct (IH fuel s1 T1 l1 (n + 1)) as (s2 & T2 & l2 & R3 & Hg2); auto; try lia; [apply Hst|].
    exists s2, T2, l2. split.
    + run (run_kmemset q 0 PGSIZE (set_freelist (ldl (k_mem s) q) s)). run R2.
      unfold PGSIZE. rewrite u32_small by (unfold is_u32, UPAGES in *; lia).
      replace (4096 * n + 4096) with (4096 * (n + 1)) by lia. exact R3.
    + replace (n + Z.of_nat (S c)) with (n + 1 + Z.of_nat c) by lia. eapply ugrow_trans; [| |exact Hg|exact Hg2]; lia.
Qed.

Lemma run_allocuvm pd s T l oldsz newsz :
  uvm s pd T l (npg oldsz) -> 0 <= oldsz <= newsz -> newsz < KERNBASE ->
  2 * (npg newsz - npg oldsz) <= zlen l ->
  exists s' T' l', allocuvm end_ pd oldsz newsz s = Ret newsz s' /\
    ugrow pd s T l (npg oldsz) s' T' l' (npg newsz).
Proof.
  intros Hu Ho Hn Hl. unfold allocuvm. assert ((newsz >=? KERNBASE) = false) as -> by lia.
  rewrite (proj2 (Z.ltb_ge _ _)) by lia. unfold KERNBASE in *. rewrite PGROUNDUP_eq by lia.
  assert (Hm : 0 <= npg newsz - npg oldsz) by (unfold npg; dlia).
  destruct (run_alloc_loop pd oldsz newsz (Z.to_nat (npg newsz - npg oldsz)) (Z.to_nat (newsz / PGSIZE + 1)) s T l (npg oldsz))
    as (s' & T' & l' & R & Hg); auto; try (unfold KERNBASE, zlen in *; lia); try (unfold npg, PGSIZE; dlia).
  exists s', T', l'. replace ((oldsz + 4095) / 4096 * 4096) with (4096 * npg oldsz) by (unfold npg; lia).
  replace (npg oldsz + Z.of_nat (Z.to_nat (npg newsz - npg oldsz))) with (npg newsz) in Hg by lia. done.
Qed.

End User.
