(* ===== verification/VmFree.v ===== *)
(** * Releasing user memory: deallocuvm and freevm

    While deallocuvm runs, the mapped user pages are not an initial segment, so
    the invariant here is over an arbitrary set of page numbers. *)

From S2P Require Import Prelude.
From S2P Require Import CString.
From S2P Require Import Mmu.
From S2P Require Import Kalloc.
From S2P Require Import Vm.
From S2P Require Import VmPt.
From S2P Require Import VmUser.

Section Free.
Context (end_ : Z).
Hypothesis Hend : KERNBASE < end_.
Local Abbreviation page_ok := (page_ok end_).
Local Abbreviation kinv := (kinv end_).
Local Abbreviation PT := (PT end_).
Local Abbreviation vmok := (vmok end_).
Local Abbreviation uvm := (uvm end_).
Implicit Types (m : mem) (s : kst) (T : gmap Z Z) (l : list Z) (K : Z -> Prop).

Record uset s (pd : Z) T l K : Prop := {
  ut_ok : vmok s pd T l;
  ut_pte : forall k, 0 <= k < UPAGES -> K k ->
    present (pte_of (k_mem s) T (4096 * k)) = true /\ 0 <= pte_of (k_mem s) T (4096 * k) < 4294967296;
  ut_page : forall k, 0 <= k < UPAGES -> K k -> page_ok (upage (k_mem s) T k) /\ upage (k_mem s) T k ∉ l /\
    ~ tpages pd T (upage (k_mem s) T k);
  ut_inj : forall k k', 0 <= k < UPAGES -> 0 <= k' < UPAGES -> K k -> K k' ->
    upage (k_mem s) T k = upage (k_mem s) T k' -> k = k';
  ut_other : forall k, 0 <= k < UPAGES -> ~ K k -> present (pte_of (k_mem s) T (4096 * k)) = false
}.

Lemma uvm_uset s pd T l n : 0 <= n <= UPAGES -> uvm s pd T l n <-> uset s pd T l (fun k => k < n).
Proof.
  intros Hn. split; intros [].
  - constructor; auto; intros; eauto with lia.
  - constructor; auto; intros; [apply ut_pte0|apply ut_page0|apply ut_inj0|apply ut_other0]; auto; lia.
Qed.

Lemma uset_ext s pd T l K K' :
  (forall k, 0 <= k < UPAGES -> K k <-> K' k) -> uset s pd T l K -> uset s pd T l K'.
Proof.
  intros HK []. constructor; auto; intros; [apply ut_pte0|apply ut_page0|apply ut_inj0|apply ut_other0]; auto.
  all: by rewrite HK by done.
Qed.

Lemma pte_addr e q : p2v (PTE_ADDR e) = q -> 0 <= e < 4294967296 -> page_ok q -> PTE_ADDR e = q - KERNBASE.
Proof.
  intros <- He. rewrite PTE_ADDR_eq by done. intros Hq. destruct (page_bounds end_ _ Hq) as (_ & Hq1 & _).
  unfold p2v, u32, KERNBASE in *. dlia.
Qed.

(** A mapped user page has a table and can be freed. *)
Lemma run_ufree s pd T l K j :
  uset s pd T l K -> 0 <= j < UPAGES -> K j ->
  exists tp s1 s2, T !! PDX (4096 * j) = Some tp /\
    load (tp + 4 * PTX (4096 * j)) s = Ret (pte_of (k_mem s) T (4096 * j)) s /\
    kfree end_ (upage (k_mem s) T j) s = Ret tt s1 /\
    store (tp + 4 * PTX (4096 * j)) 0 s1 = Ret tt s2 /\
    uset s2 pd T (upage (k_mem s) T j :: l) (fun k => K k /\ k <> j) /\
    (forall va, is_va va -> va / 4096 <> j -> pte_of (k_mem s2) T va = pte_of (k_mem s) T va) /\
    same_except (fun p => tpages pd T p \/ p = upage (k_mem s) T j) (k_mem s) (k_mem s2).
Proof.
  intros [[Hk HT Hd] Hpte Hpg Hinj Hoth] Hj HK. destruct (uva j Hj) as [Hva _].
  destruct (Hpte j Hj HK) as [Hpr He]. destruct (Hpg j Hj HK) as (Hok & Hnl & Hnt).
  destruct (T !! PDX (4096 * j)) as [tp|] eqn:Et.
  2: { unfold pte_of in Hpr. rewrite Et in Hpr. done. }
  set (q := upage (k_mem s) T j) in *.
  destruct (run_kfree end_ s l q Hend Hk Hok Hnl) as (s1 & R1 & Hk1 & S1 & _).
  destruct (PT_same _ _ _ (k_mem s1) pd T HT S1) as [HT1 Hp1]; [intros p Hp ->; done|].
  assert (Hv1 : vmok s1 pd T (q :: l)).
  { constructor; auto. intros p Hp [->|Hin]%elem_of_cons; [done|by apply (Hd p)]. }
  destruct (run_store_pte end_ s1 pd T (q :: l) (4096 * j) tp 0 Hv1 Hva Et) as (s2 & R2 & Hv2 & S2 & Hst); [lia|].
  assert (Hkeep : forall va, is_va va -> va / 4096 <> j -> pte_of (k_mem s2) T va = pte_of (k_mem s) T va).
  { intros va Hva' Hne. rewrite Hst, decide_False, Hp1 by (done || dlia). done. }
  assert (Hkk : forall k, 0 <= k < UPAGES -> k <> j -> pte_of (k_mem s2) T (4096 * k) = pte_of (k_mem s) T (4096 * k)).
  { intros k Hk' Hne. apply Hkeep; [by apply uva|dlia]. }
  assert (Hup : forall k, 0 <= k < UPAGES -> k <> j -> upage (k_mem s2) T k = upage (k_mem s) T k).
  { intros k Hk' Hne. unfold upage. by rewrite Hkk. }
  exists tp, s1, s2. split_and!; auto.
  - unfold load, get. f_equal. unfold pte_of. by rewrite Et.
  - constructor; auto.
    + intros k Hk' [HKk Hne]. rewrite Hkk by done. by apply Hpte.
    + intros k Hk' [HKk Hne]. rewrite Hup by done. destruct (Hpg k Hk' HKk) as (H1 & H2 & H3). split_and!; auto.
      intros [E|Hin]%elem_of_cons; [|done]. by apply Hne, Hinj.
    + intros k k' Hk1' Hk2' [? ?] [? ?]. rewrite !Hup by done. by apply Hinj.
    + intros k Hk' HnK. destruct (decide (k = j)) as [->|Hne]; [rewrite Hst, decide_True by done; done|].
      rewrite Hkk by done. apply Hoth; [done|]. intros HKk. by apply HnK.
  - eapply same_except_trans; eapply same_except_mono; [|exact S1| |exact S2]; cbn; auto.
    intros p ->. left. right. by exists (PDX (4096 * j)).
Qed.

(** What deallocuvm leaves: the pages [j <= k < n] unmapped and on the free
    list, in front of [l]; everything else as it was. *)
Record ufreed (pd : Z) s T l (j0 j n : Z) s' (F : list Z) : Prop := {
  uf_uset : uset s' pd T (F ++ l) (fun k => k < j0);
  uf_pages : forall q, q ∈ F <-> exists k, j <= k < n /\ q = upage (k_mem s) T k;
  uf_keep : forall va, is_va va -> ~ (j <= va / 4096 < n) -> pte_of (k_mem s') T va = pte_of (k_mem s) T va;
  uf_same : same_except (fun p => tpages pd T p \/ p ∈ F) (k_mem s) (k_mem s')
}.

Lemma ufreed_nil pd s T l j0 j n :
  uset s pd T l (fun k => k < j0 \/ j <= k < n) -> n <= j -> ufreed pd s T l j0 j n s [].
Proof.
  intros Hu Hj. constructor; auto; [| |done].
  - eapply uset_ext; [|exact Hu]. cbn. lia.
  - intros q. split; [by intros ?%elem_of_nil|]. intros (k & Hk & _). lia.
Qed.

(** Above the mapped pages the loop only advances. *)
Lemma run_dealloc_tail pd oldsz newsz fuel s T l j0 j :
  uset s pd T l (fun k => k < j0) -> 0 <= j0 <= j -> 0 <= oldsz <= KERNBASE ->
  npg oldsz - j <= Z.of_nat fuel ->
  deallocuvm_loop end_ fuel pd (4096 * j) oldsz newsz s = Ret newsz s.
Proof.
  intros Hu Hj Ho. revert j Hj. induction fuel as [|fuel IH]; intros j Hj Hfuel;
    cbn [deallocuvm_loop]; unfold npg, KERNBASE in *; destruct (Z.ltb_spec (4096 * j) oldsz) as [Hlt|Hge]; try done.
  1: exfalso; dlia.
  assert (HjU : 0 <= j < UPAGES) by (unfold UPAGES; dlia). pose proof (vo_pt _ _ _ _ _ (ut_ok _ _ _ _ _ Hu)) as HT.
  unfold PGSIZE, NPTENTRIES. rewrite !u32_small by (unfold is_u32; rewrite ?u32_small; unfold is_u32, UPAGES in *; lia).
  replace (4096 * j + 4096) with (4096 * (j + 1)) by lia.
  replace (4096 * j + (1024 - 1) * 4096 + 4096) with (4096 * (j + 1024)) by lia.
  destruct (T !! PDX (4096 * j)) as [tp|] eqn:Et.
  - destruct (pt_some _ _ _ _ HT _ _ Et) as (_ & Htp & _). destruct (page_bounds end_ tp Htp) as (_ & Htp1 & _).
    pose proof (PTX_range (4096 * j)) as Hx. run (run_walk_some end_ s pd T (4096 * j) tp false HT Et).
    rewrite (proj2 (Z.eqb_neq _ _)) by (unfold KERNBASE in *; lia).
    pose proof (ut_other _ _ _ _ _ Hu j HjU ltac:(cbn; lia)) as Hno. unfold pte_of in Hno. rewrite Et in Hno.
    unfold load at 1. mcbn. rewrite Hno. apply IH; lia.
  - run (run_walk_none end_ s pd T (4096 * j) HT Et). cbn [Z.eqb]. apply IH; lia.
Qed.

Lemma run_dealloc_loop pd oldsz newsz fuel s T l j0 j n :
  uset s pd T l (fun k => k < j0 \/ j <= k < n) -> 0 <= j0 <= j -> n <= npg oldsz -> 0 <= oldsz <= KERNBASE ->
  npg oldsz - j <= Z.of_nat fuel -> j <= 2 * UPAGES ->
  exists s' F, deallocuvm_loop end_ fuel pd (4096 * j) oldsz newsz s = Ret newsz s' /\
    ufreed pd s T l j0 j n s' F.
Proof.
  intros Hu Hj Hn Ho. revert s l j Hu Hj. induction fuel as [|fuel IH]; intros s l j Hu Hj Hfuel Hj2;
    cbn [deallocuvm_loop]; unfold npg, UPAGES, KERNBASE in *; destruct (Z.ltb_spec (4096 * j) oldsz) as [Hlt|Hge].
  1: exfalso; dlia.
  1, 3: exists s, []; split; [done|]; apply ufreed_nil; [done|dlia].
  assert (HjU : 0 <= j < UPAGES) by (unfold UPAGES; dlia). destruct (uva j HjU) as [Hva _].
  pose proof (vo_pt _ _ _ _ _ (ut_ok _ _ _ _ _ Hu)) as HT.
  unfold PGSIZE, NPTENTRIES. rewrite !u32_small by (unfold is_u32; rewrite ?u32_small; unfold is_u32, UPAGES in *; lia).
  replace (4096 * j + 4096) with (4096 * (j + 1)) by lia.
  replace (4096 * j + (1024 - 1) * 4096 + 4096) with (4096 * (j + 1024)) by lia.
  destruct (decide (j < n)) as [Hjn|Hjn].
  - destruct (run_ufree s pd T l _ j Hu HjU) as (tp & s1 & s2 & Et & R1 & R2 & R3 & Hu2 & Hk2 & S2); [lia|].
    destruct (ut_pte _ _ _ _ _ Hu j HjU) as [Hpr He]; [lia|].
    destruct (ut_page _ _ _ _ _ Hu j HjU) as (Hok & _); [lia|].
    destruct (pt_some _ _ _ _ HT _ _ Et) as (_ & Htp & _). destruct (page_bounds end_ tp Htp) as (_ & Htp1 & _).
    pose proof (PTX_range (4096 * j)) as Hx. pose proof (pte_addr _ _ eq_refl He Hok) as Ha.
    destruct (page_bounds end_ _ Hok) as (_ & Hq1 & _).
    destruct (IH s2 (upage (k_mem s) T j :: l) (j + 1)) as (s3 & F & R4 & Hf); try lia.
    { eapply uset_ext; [|exact Hu2]. cbn. lia. }
    run (run_walk_some end_ s pd T (4096 * j) tp false HT Et).
    rewrite (proj2 (Z.eqb_neq _ _)) by (unfold KERNBASE in *; lia). run R1. rewrite Hpr.
    rewrite (proj2 (Z.eqb_neq (PTE_ADDR _) 0)) by (rewrite Ha; unfold upage in *; lia).
    assert (R23 : (kfree end_ (upage (k_mem s) T j) ;; store (tp + 4 * PTX (4096 * j)) 0) s = Ret tt s2) by (run R2; exact R3).
    run R23.
    exists s3, (F ++ [upage (k_mem s) T j]). split; [exact R4|]. destruct Hf as [Hu3 Hp3 Hk3 Hs3].
    assert (Hup : forall k, j + 1 <= k < n -> upage (k_mem s2) T k = upage (k_mem s) T k).
    { intros k Hk. unfold upage. rewrite Hk2; [done|apply uva; unfold UPAGES in *; dlia|dlia]. }
    constructor.
    + by rewrite <- app_assoc.
    + intros q. rewrite elem_of_app, Hp3, list_elem_of_singleton. split.
      * intros [(k & Hk & ->)| ->]; [exists k; split; [lia|by apply Hup]|exists j; split; [lia|done]].
      * intros (k & Hk & ->). destruct (decide (k = j)) as [->|]; [by right|]. left. exists k.
        split; [lia|]. symmetry. apply Hup. lia.
    + intros va Hva' Hne. rewrite Hk3, Hk2 by (done || lia). done.
    + eapply same_except_trans; eapply same_except_mono; [|exact S2| |exact Hs3]; cbn.
      * intros p [| ->]; [by left|]. right. apply elem_of_app. right. apply list_elem_of_singleton. done.
      * intros p [|]; [by left|]. right. apply elem_of_app. by left.
  - assert (Hu0 : uset s pd T l (fun k => k < j0)) by (eapply uset_ext; [|exact Hu]; cbn; lia).
    exists s, []. split; [|apply ufreed_nil; [done|lia]].
    pose proof (run_dealloc_tail pd oldsz newsz (S fuel) s T l j0 j Hu0 ltac:(lia) Ho) as R.
    cbn [deallocuvm_loop] in R. rewrite (proj2 (Z.ltb_lt _ _)) in R by lia.
    unfold PGSIZE, NPTENTRIES in R. rewrite !u32_small in R by (unfold is_u32; rewrite ?u32_small; unfold is_u32, UPAGES in *; lia).
    replace (4096 * j + 4096) with (4096 * (j + 1)) in R by lia.
    replace (4096 * j + (1024 - 1) * 4096 + 4096) with (4096 * (j + 1024)) in R by lia.
    apply R. unfold npg. lia.
Qed.

Lemma run_deallocuvm pd oldsz newsz s T l n :
  uvm s pd T l n -> 0 <= newsz < oldsz -> oldsz <= KERNBASE -> npg newsz <= n <= npg oldsz ->
  exists s' F, deallocuvm end_ pd oldsz newsz s = Ret newsz s' /\
    ufreed pd s T l (npg newsz) (npg newsz) n s' F.
Proof.
  intros Hu Hn Ho Hp. pose proof (u_n _ _ _ _ _ _ Hu) as Hun. unfold deallocuvm.
  assert ((newsz >=? oldsz) = false) as -> by lia. unfold KERNBASE in *. rewrite PGROUNDUP_eq by lia.
  replace ((newsz + 4095) / 4096 * 4096) with (4096 * npg newsz) by (unfold npg; lia).
  assert (0 <= npg newsz) by (unfold npg; dlia).
  apply run_dealloc_loop; unfold KERNBASE, UPAGES in *; try lia.
  - apply uvm_uset in Hu; [|unfold UPAGES; lia]. eapply uset_ext; [|exact Hu]. cbn. lia.
  - unfold npg, PGSIZE in *. dlia.
Qed.

(** freevm's second loop: the page-table pages. *)
Lemma run_freevm_loop pd T (cnt : nat) s l i :
  kinv s l -> page_ok pd -> pd ∉ l -> 0 <= i -> i + Z.of_nat cnt = 1024 ->
  (forall j p, i <= j < 1024 -> T !! j = Some p -> page_ok p /\ p <> pd /\ p ∉ l /\ ldl (k_mem s) (pd + 4 * j) = p - KERNBASE + 7) ->
  (forall j, i <= j < 1024 -> T !! j = None -> present (ldl (k_mem s) (pd + 4 * j)) = false) ->
  (forall j j' p, T !! j = Some p -> T !! j' = Some p -> j = j') ->
  exists s' F, freevm_loop end_ cnt pd i s = Ret tt s' /\ kinv s' (F ++ l) /\ pd ∉ F ++ l /\
    (forall q, q ∈ F <-> exists j, i <= j < 1024 /\ T !! j = Some q) /\
    same_except (fun q => q ∈ F) (k_mem s) (k_mem s').
Proof.
  revert s l i. induction cnt as [|cnt IH]; intros s l i Hk Hpd Hpl Hi0 Hi Hsome Hnone Hinj; cbn [freevm_loop].
  - exists s, []. split_and!; auto; [|done]. intros q. split; [by intros ?%elem_of_nil|intros (j & Hj & _); lia].
  - unfold load at 1. mcbn. destruct (T !! i) as [p|] eqn:Ei.
    + destruct (Hsome i p ltac:(lia) Ei) as (Hp & Hpp & Hpnl & He). rewrite He, present_mk with (end_ := end_) by done.
      rewrite PTE_ADDR_mk with (end_ := end_) by (done || lia).
      destruct (run_kfree end_ s l p Hend Hk Hp Hpnl) as (s1 & R1 & Hk1 & S1 & _). run R1.
      assert (Hent : forall j, i + 1 <= j < 1024 -> ldl (k_mem s1) (pd + 4 * j) = ldl (k_mem s) (pd + 4 * j)).
      { intros j Hj. apply (ldl_entry end_ _ _ _ _ _ S1); auto. lia. }
      destruct (IH s1 (p :: l) (i + 1)) as (s2 & F & R2 & Hk2 & Hpd2 & HF & S2); auto; try lia.
      * intros [->|]%elem_of_cons; done.
      * intros j q Hj Hq. destruct (Hsome j q ltac:(lia) Hq) as (H1 & H2 & H3 & H4). rewrite Hent by lia. split_and!; auto.
        intros [->|]%elem_of_cons; [|done]. pose proof (Hinj _ _ _ Ei Hq). lia.
      * intros j Hj Hq. rewrite Hent by lia. apply Hnone; [lia|done].
      * exists s2, (F ++ [p]). rewrite <- app_assoc. split_and!; auto.
        -- intros q. rewrite elem_of_app, HF, list_elem_of_singleton. split.
           ++ intros [(j & Hj & E)| ->]; [exists j|exists i]; split; auto; lia.
           ++ intros (j & Hj & E). destruct (decide (j = i)) as [->|]; [right; congruence|left; exists j; split; [lia|done]].
        -- eapply same_except_trans; eapply same_except_mono; [|exact S1| |exact S2]; cbn.
           ++ intros q ->. apply elem_of_app. right. by apply list_elem_of_singleton.
           ++ intros q Hq. apply elem_of_app. by left.
    + rewrite (Hnone i ltac:(lia) Ei). mcbn.
      destruct (IH s l (i + 1)) as (s2 & F & R2 & Hk2 & Hpd2 & HF & S2); auto; try lia.
      * intros j q Hj Hq. apply Hsome; [lia|done].
      * intros j Hj Hq. apply Hnone; [lia|done].
      * exists s2, F. split_and!; auto. intros q. rewrite HF. split; intros (j & Hj & E); exists j; split; auto; try lia.
        assert (j <> i) by congruence. lia.
Qed.

(** freevm returns every page of the address space to the free list. *)
Lemma run_freevm pd s T l n :
  uvm s pd T l n ->
  exists s' l', freevm end_ pd s = Ret tt s' /\ kinv s' l' /\
    (forall q, q ∈ l' <-> q ∈ l \/ tpages pd T q \/ exists k, 0 <= k < n /\ q = upage (k_mem s) T k) /\
    same_except (fun q => q ∈ l' /\ q ∉ l) (k_mem s) (k_mem s').
Proof.
  intros Hu. pose proof (u_n _ _ _ _ _ _ Hu) as Hun. pose proof (pt_pd _ _ _ _ (vo_pt _ _ _ _ _ (u_ok _ _ _ _ _ _ Hu))) as Hpd.
  destruct (page_bounds end_ pd Hpd) as (_ & Hpd1 & _). change (npg 0) with 0 in *.
  destruct (run_deallocuvm pd KERNBASE 0 s T l n Hu) as (s1 & F1 & R1 & [Hu1 Hp1 Hk1 S1]);
    try (unfold KERNBASE; lia); [change (npg KERNBASE) with UPAGES; change (npg 0) with 0; lia|].
  destruct (ut_ok _ _ _ _ _ Hu1) as [Hki1 HT1 Hd1].
  destruct (run_freevm_loop pd T 1024 s1 (F1 ++ l) 0) as (s2 & F2 & R2 & Hki2 & Hpn & HF2 & S2); auto; try lia.
  { apply Hd1. by left. }
  { intros j p _ Hj. destruct (pt_some _ _ _ _ HT1 j p Hj) as (? & ? & ? & ?). split_and!; auto. apply Hd1. right. by exists j. }
  { intros j Hj Hn. by apply (pt_none _ _ _ _ HT1). } { intros j j' p. apply (pt_inj _ _ _ _ HT1). }
  destruct (run_kfree end_ s2 _ pd Hend Hki2 Hpd Hpn) as (s3 & R3 & Hki3 & S3 & _).
  exists s3, (pd :: F2 ++ F1 ++ l). split_and!; auto.
  - unfold freevm. rewrite (proj2 (Z.eqb_neq _ _)) by (unfold KERNBASE in *; lia). run R1. run R2. exact R3.
  - intros q. rewrite elem_of_cons, !elem_of_app, HF2, Hp1. unfold tpages. change (npg 0) with 0.
    split; [intros [->|[(j & _ & E)|[|]]]|intros [|[[->|[j E]]|]]]; eauto.
    right. left. exists j. split; [|done]. by apply (pt_some _ _ _ _ HT1) in E as (? & _).
  - pose proof (ki_nodup _ _ _ Hki3) as Hnd. rewrite app_assoc in Hnd. change (pd :: (F2 ++ F1) ++ l) with ((pd :: F2 ++ F1) ++ l) in Hnd.
    apply NoDup_app in Hnd as (_ & Hdis & _).
    assert (Hin : forall q, q = pd \/ q ∈ F2 \/ q ∈ F1 -> q ∈ pd :: F2 ++ F1 ++ l /\ q ∉ l).
    { intros q Hq. split; [rewrite elem_of_cons, !elem_of_app; tauto|]. apply Hdis. rewrite elem_of_cons, elem_of_app. tauto. }
    eapply same_except_trans; [eapply same_except_trans|]; (eapply same_except_mono; [|first [exact S1|exact S2|exact S3]]); cbn; intros q Hq; apply Hin; auto.
    destruct Hq as [[->|[j E]]|]; auto. right. left. apply HF2. exists j. split; [|done]. by apply (pt_some _ _ _ _ HT1) in E as (? & _).
Qed.

End Free.
