(* ===== verification/VmCopy.v ===== *)
(** * Building and copying address spaces: setupkvm, copyuvm, copyout *)

From S2P Require Import Prelude.
From S2P Require Import CString.
From S2P Require Import Mmu.
From S2P Require Import Kalloc.
From S2P Require Import Vm.
From S2P Require Import VmPt.
From S2P Require Import VmUser.
From S2P Require Import VmFree.

Definition row_size (k : kmap_row) : Z := u32 (phys_end k - phys_start k).

Definition in_row (k : kmap_row) (va : Z) : Prop := virt k <= va < virt k + row_size k.
#[global] Instance in_row_dec k va : Decision (in_row k va).
Proof. unfold in_row. apply _. Defined.

Record row_ok (k : kmap_row) : Prop := {
  ro_virt : virt k mod 4096 = 0 /\ 0 <= virt k;
  ro_phys : phys_start k mod 4096 = 0 /\ 0 <= phys_start k;
  ro_size : row_size k mod 4096 = 0 /\ 0 < row_size k;
  ro_top : virt k + row_size k <= 4294967296 /\ phys_start k + row_size k <= 4294967296;
  ro_perm : 0 <= perm k < 4096
}.

(** The entry a table of mappings gives to an address, over a base. *)
Fixpoint row_pte (rows : list kmap_row) (va base : Z) : Z :=
  match rows with
  | [] => base
  | k :: rows =>
      if decide (in_row k va) then leaf (phys_start k + (va - virt k) / 4096 * 4096) (perm k)
      else row_pte rows va base
  end.

Section Copy.
Context (end_ data_ : Z).
Hypothesis Hend : KERNBASE < end_.
Local Abbreviation page_ok := (page_ok end_).
Local Abbreviation kinv := (kinv end_).
Local Abbreviation PT := (PT end_).
Local Abbreviation vmok := (vmok end_).
Local Abbreviation vext := (vext end_).
Local Abbreviation uvm := (uvm end_).
Implicit Types (m : mem) (s : kst) (T : gmap Z Z) (l : list Z).

Lemma run_row s pd T l k :
  vmok s pd T l -> row_ok k -> (forall va, in_row k va -> present (pte_of (k_mem s) T va) = false) ->
  exists r s' T' l', mappages pd (virt k) (row_size k) (phys_start k) (perm k) s = Ret r s' /\
    vext pd (fun i => exists a, in_row k a /\ i = PDX a) s T l s' T' l' /\
    (r = 0 /\ (forall va, is_va va -> pte_of (k_mem s') T' va = row_pte [k] va (pte_of (k_mem s) T va)) \/
     r = -1 /\ l' = []).
Proof.
  intros Hv [Hvi Hph Hsz Htop Hperm] Hno. unfold in_row in *.
  assert (Es : row_size k = 4096 * (row_size k / 4096 - 1 + 1)) by dlia.
  rewrite Es in Hno, Htop.
  destruct (run_mappages end_ pd (perm k) (row_size k / 4096 - 1) s T l (virt k) (phys_start k))
    as (r & s' & T' & l' & n & R & He & Hm & Hr); auto; try lia.
  rewrite <- Es in R, He. exists r, s', T', l'. split_and!; auto.
  destruct Hr as [[-> ->]|(-> & -> & _)]; [left|by right]. split; [done|]. intros va Hva. rewrite Hm by done.
  cbn [row_pte]. rewrite <- Es. done.
Qed.

(** The loop of setupkvm. *)
Lemma run_rows (R : Z -> Prop) pd rows s T l :
  vmok s pd T l -> Forall row_ok rows -> (forall k a, k ∈ rows -> in_row k a -> R (PDX a)) ->
  ForallOrdPairs (fun k k' => forall va, in_row k va -> ~ in_row k' va) rows ->
  (forall k va, k ∈ rows -> in_row k va -> present (pte_of (k_mem s) T va) = false) -> pd <> 0 ->
  exists r s' T' l', setupkvm_loop rows pd s = Ret r s' /\ vext pd R s T l s' T' l' /\
    (r = pd /\ (forall va, is_va va -> pte_of (k_mem s') T' va = row_pte rows va (pte_of (k_mem s) T va)) \/
     r = 0 /\ l' = []).
Proof.
  intros Hv Hok HR Hd Hno Hpd. revert s T l Hv Hno.
  induction rows as [|k rows IH]; intros s T l Hv Hno; cbn [setupkvm_loop].
  - exists pd, s, T, l. split_and!; auto. by apply vext_refl.
  - apply Forall_cons in Hok as [Hk Hok]. inversion Hd as [|? ? Hk1 Hd1]; subst.
    destruct (run_row s pd T l k Hv Hk) as (r & s1 & T1 & l1 & R1 & E1 & Hr).
    { intros va Hva. apply (Hno k); [left|done]. }
    assert (E1' : vext pd R s T l s1 T1 l1).
    { eapply vext_mono; [|exact E1]. cbn. intros i (a & Ha & ->). apply (HR k); [left|done]. }
    fold (row_size k). destruct Hr as [[-> Hp]|[-> ->]].
    2: { exists 0, s1, T1, []. split_and!; auto. by run R1. }
    assert (Hne : forall va k', k' ∈ rows -> in_row k' va -> ~ in_row k va).
    { intros va k' Hk' Hin Hin'. rewrite List.Forall_forall in Hk1. by apply (Hk1 k' (proj1 (list_elem_of_In _ _) Hk') va). }
    destruct (IH Hok ltac:(intros k' a Hk'; apply (HR k'); by right) Hd1 s1 T1 l1 (ve_ok _ _ _ _ _ _ _ _ _ E1))
      as (r & s2 & T2 & l2 & R2 & E2 & Hr).
    { intros k' va Hk' Hva. assert (is_va va).
      { rewrite Forall_forall in Hok. destruct (Hok k' Hk') as [? _ _ ? _]. unfold is_va, in_row in *. lia. }
      rewrite Hp by done. cbn [row_pte]. rewrite decide_False by (by eapply Hne). apply (Hno k'); [by right|done]. }
    exists r, s2, T2, l2. split; [by run R1|]. split; [by eapply vext_trans|].
    destruct Hr as [[-> Hp2]|[-> ->]]; [left|by right]. split; [done|]. intros va Hva. rewrite Hp2, Hp by done.
    cbn [row_pte]. clear -Hne. destruct (decide (in_row k va)) as [Hin|]; [|done].
    induction rows as [|k' rows IH]; cbn [row_pte]; [done|].
    rewrite decide_False; [|intros H'; apply (Hne va k'); [left|done|done]]. apply IH. intros va' k'' Hk''. apply Hne. by right.
Qed.

(** The linker aligns the data segment and places it after the text. *)
Definition data_ok : Prop := data_ mod 4096 = 0 /\ KERNLINK < data_ < KERNBASE + PHYSTOP.
Hypothesis Hdata : data_ok.

Ltac rows := unfold data_ok, row_size, v2p, u32, KERNLINK, KERNBASE, EXTMEM, PHYSTOP, DEVSPACE in *;
  cbn [virt phys_start phys_end perm] in *.

Lemma kmap_ok : Forall row_ok (kmap data_).
Proof.
  unfold kmap. repeat apply List.Forall_cons; try apply List.Forall_nil.
  all: constructor; rows; unfold PTE_W; try dlia.
Qed.

(** Directory indices of the kernel mappings. *)
Definition kindex (i : Z) : Prop := 512 <= i < 568 \/ 1016 <= i < 1024.

Lemma kmap_rows k va : k ∈ kmap data_ -> in_row k va -> KERNBASE <= va < KERNBASE + PHYSTOP \/ DEVSPACE <= va < 4294967296.
Proof.
  unfold kmap, in_row. rewrite !elem_of_cons, elem_of_nil.
  intros [->|[->|[->|[->|[]]]]]; rows; intros; dlia.
Qed.

Lemma kmap_index k va : k ∈ kmap data_ -> in_row k va -> kindex (PDX va).
Proof.
  intros Hk Hr. pose proof (kmap_rows k va Hk Hr) as H. unfold kindex. rewrite PDX_eq. rows. dlia.
Qed.

Lemma kmap_disjoint : ForallOrdPairs (fun k k' => forall va, in_row k va -> ~ in_row k' va) (kmap data_).
Proof.
  unfold kmap, in_row. repeat apply FOP_cons; try apply FOP_nil; repeat apply List.Forall_cons; try apply List.Forall_nil.
  all: intros va; rows; dlia.
Qed.

Lemma kindex_count T : (forall i q, T !! i = Some q -> kindex i) -> (size T <= 64)%nat.
Proof.
  intros H. rewrite <- size_dom. transitivity (size (list_to_set (seqZ 512 56 ++ seqZ 1016 8) : gset Z)); [|vm_compute; lia].
  apply subseteq_size. intros i [q Hq]%elem_of_dom. apply H in Hq. unfold kindex in Hq.
  rewrite elem_of_list_to_set, elem_of_app, !elem_of_seqZ. lia.
Qed.

(** A fresh zeroed page is an empty page directory. *)
Lemma fresh_pgdir s p l :
  kinv s (p :: l) ->
  vmok (set_mem (KString.memset (k_mem s) p 0 PGSIZE) (set_freelist (ldl (k_mem s) p) s)) p ∅ l.
Proof.
  intros Hk. destruct (run_kalloc_cons _ _ _ _ Hk) as [_ Hk1].
  pose proof (ki_pages _ _ _ Hk) as [Hp _]%Forall_cons. pose proof (ki_nodup _ _ _ Hk) as [Hn _]%NoDup_cons.
  destruct (page_bounds end_ p Hp) as (Hpa & _).
  constructor.
  - apply (kinv_same _ (fun q => q = p) _ _ _ Hk1); [by apply same_except_memset|]. intros q Hq ->. done.
  - constructor; auto; [intros i q; rewrite lookup_empty; done| |intros i j q; rewrite lookup_empty; done].
    intros i Hi _. cbn [k_mem set_mem]. by rewrite zero_word.
  - intros q [->|[i Hi]]; [done|]. by rewrite lookup_empty in Hi.
Qed.

(** setupkvm gives a directory with the kernel's mappings and no user memory,
    or fails with at most 65 pages free. *)
Lemma run_setupkvm s l :
  kinv s l ->
  exists r s', setupkvm data_ s = Ret r s' /\ same_except (fun q => q ∈ l) (k_mem s) (k_mem s') /\
    (r = 0 /\ (length l <= 65)%nat \/
     exists T l', r <> 0 /\ uvm s' r T l' 0 /\ l' `suffix_of` l /\ (length l <= length l' + 65)%nat /\
       (forall va, is_va va -> pte_of (k_mem s') T va = row_pte (kmap data_) va 0) /\
       (forall q, tpages r T q -> q ∈ l)).
Proof.
  intros Hk. destruct l as [|p l].
  { exists 0, s. unfold setupkvm. run (run_kalloc_nil _ _ Hk). split_and!; [done|done|]. left. cbn. lia. }
  destruct (run_kalloc_cons _ _ _ _ Hk) as [R1 _]. pose proof (ki_pages _ _ _ Hk) as [Hp _]%Forall_cons.
  destruct (page_bounds end_ p Hp) as (Hpa & Hp1 & _). assert (Hpz : p <> 0) by (unfold KERNBASE in *; lia).
  set (s1 := set_mem (KString.memset (k_mem s) p 0 PGSIZE) (set_freelist (ldl (k_mem s) p) s)).
  pose proof (fresh_pgdir s p l Hk) as Hv1. fold s1 in Hv1.
  assert (Hz : forall va, pte_of (k_mem s1) ∅ va = 0) by (intros va; unfold pte_of; by rewrite lookup_empty).
  destruct (run_rows kindex p (kmap data_) s1 ∅ l Hv1 kmap_ok kmap_index kmap_disjoint) as (r & s2 & T & l2 & R2 & E2 & Hr);
    [intros k va _ _; by rewrite Hz|done|].
  assert (Hrun : setupkvm data_ s = Ret r s2).
  { unfold setupkvm. run R1. rewrite (proj2 (Z.eqb_neq _ _) Hpz).
    run (run_kmemset p 0 PGSIZE (set_freelist (ldl (k_mem s) p) s)). exact R2. }
  assert (Hcnt : (size T <= 64)%nat).
  { apply kindex_count. intros i q Hi. destruct (ve_new _ _ _ _ _ _ _ _ _ E2 i q Hi) as [H|[_ H]]; [by rewrite lookup_empty in H|done]. }
  pose proof (ve_count _ _ _ _ _ _ _ _ _ E2) as Hc. rewrite map_size_empty in Hc.
  assert (Hin : forall q, tpages p T q -> q ∈ p :: l).
  { intros q Hq. destruct (tpages_new _ _ _ _ _ _ _ _ _ _ E2 Hq) as [[->|[i H]]|H]; [left|by rewrite lookup_empty in H|by right]. }
  assert (HS : same_except (fun q => q ∈ p :: l) (k_mem s) (k_mem s2)).
  { eapply same_except_trans; eapply same_except_mono; [|by apply (same_except_memset p (k_mem s) 0)| |apply (ve_same _ _ _ _ _ _ _ _ _ E2)]; auto.
    intros q ->. left. }
  exists r, s2. split_and!; [done|done|]. destruct Hr as [[-> Hpte]|[-> ->]]; [right|left; cbn [length] in *; split; [done|lia]].
  assert (Hpte' : forall va, is_va va -> pte_of (k_mem s2) T va = row_pte (kmap data_) va 0).
  { intros va Hva. rewrite Hpte by done. by rewrite Hz. }
  exists T, l2. split_and!; auto.
  - constructor; [apply E2|unfold UPAGES; lia|intros; lia..|].
    intros k Hk'. destruct (uva k Hk') as [Hva Hva2]. rewrite Hpte' by done.
    assert (Hno : forall row, row ∈ kmap data_ -> ~ in_row row (4096 * k)).
    { intros row Hrow Hin'. pose proof (kmap_rows _ _ Hrow Hin') as H. unfold UPAGES in *. rows. lia. }
    clear -Hno. induction (kmap data_) as [|row rows IH]; [done|]. cbn [row_pte].
    rewrite decide_False by (apply Hno; left). apply IH. intros row' Hrow'. apply Hno. by right.
  - destruct (ve_free _ _ _ _ _ _ _ _ _ E2) as [k ->]. by exists (p :: k).
  - cbn [length]. lia.
Qed.

(** An address space is not disturbed by changes to pages that were free. *)
Lemma uvm_frame s pd T l n s' l' (P : Z -> Prop) :
  uvm s pd T l n -> kinv s' l' -> same_except P (k_mem s) (k_mem s') ->
  (forall p, tpages pd T p \/ (exists k, 0 <= k < n /\ p = upage (k_mem s) T k) -> ~ P p /\ p ∉ l') ->
  uvm s' pd T l' n /\ (forall va, pte_of (k_mem s') T va = pte_of (k_mem s) T va) /\
  (forall k a, 0 <= k < n -> upage (k_mem s) T k <= a < upage (k_mem s) T k + 4096 -> k_mem s' a = k_mem s a).
Proof.
  intros Hu Hk HS HP. destruct Hu as [[Hk0 HT Hd] Hn Hpte Hpg Hinj Hab].
  destruct (PT_same _ _ _ (k_mem s') pd T HT HS) as [HT' Hp]; [intros q Hq; apply HP; by left|].
  assert (Hup : forall k, upage (k_mem s') T k = upage (k_mem s) T k) by (intros k; unfold upage; by rewrite Hp).
  split_and!; auto.
  - constructor; auto.
    + constructor; auto. intros q Hq. apply HP. by left.
    + intros k Hk'. rewrite Hp. by apply Hpte.
    + intros k Hk'. rewrite Hup. destruct (Hpg k Hk') as (? & ? & ?). split_and!; auto. apply HP. right. by exists k.
    + intros k k' H1 H2. rewrite !Hup. by apply Hinj.
    + intros k Hk'. rewrite Hp. by apply Hab.
  - intros k a Hk' Ha. destruct (Hpg k Hk') as (Hok & _). destruct (page_bounds end_ _ Hok) as (Hal & _).
    apply HS. rewrite (page_of_in _ a Hal Ha). apply HP. right. by exists k.
Qed.

(** Pages below [n] of two address spaces have the same flags and contents. *)
Definition same_pages m T Td (n : Z) : Prop := forall k, 0 <= k < n ->
  PTE_FLAGS (pte_of m Td (4096 * k)) = PTE_FLAGS (pte_of m T (4096 * k)) /\
  forall o, 0 <= o < 4096 -> m (upage m Td k + o) = m (upage m T k + o).

(** The pages a set of frames must stay away from. *)
Definition avoids m pd T (n : Z) (L : list Z) : Prop :=
  forall p, tpages pd T p \/ (exists k, 0 <= k < n /\ p = upage m T k) -> p ∉ L.

Lemma leaf_flags q fl : page_ok q -> 0 <= fl < 4096 -> Z.odd fl = true -> PTE_FLAGS (leaf (q - KERNBASE) fl) = fl.
Proof.
  intros Hq Hf Ho. unfold leaf. assert (El : Z.lor fl PTE_P = fl).
  { unfold PTE_P. apply Z.bits_inj'. intros i Hi. rewrite Z.lor_spec.
    destruct (decide (i = 0)) as [->|]; [by rewrite Z.bit0_odd, Ho|].
    change 1 with (2 ^ 0). rewrite Z.pow2_bits_false by lia. apply orb_false_r. }
  rewrite El, PTE_FLAGS_eq. destruct (page_bounds end_ q Hq) as (Hqa & _). unfold KERNBASE. dlia.
Qed.

(** After [i] of [n] pages have been copied: every page of the child is one of
    [L], no page of the parent is. *)
Record copying (L : list Z) (pd : Z) T (n d : Z) s Td l (i : Z) : Prop := {
  cp_parent : uvm s pd T l n;
  cp_child : uvm s d Td l i;
  cp_avoid : avoids (k_mem s) pd T n L;
  cp_free : forall q, q ∈ l -> q ∈ L;
  cp_tab : forall p, tpages d Td p -> p ∈ L;
  cp_pages : forall k, 0 <= k < i -> upage (k_mem s) Td k ∈ L
}.

(** The parent as it was in memory [m0]. *)
Definition parent_kept m0 (pd : Z) T (n : Z) m : Prop :=
  PT m pd T /\ (forall va, pte_of m T va = pte_of m0 T va) /\
  (forall k a, 0 <= k < n -> upage m0 T k <= a < upage m0 T k + 4096 -> m a = m0 a).

Lemma parent_kept_trans m0 m1 m2 pd T n :
  parent_kept m0 pd T n m1 -> parent_kept m1 pd T n m2 -> parent_kept m0 pd T n m2.
Proof.
  intros (_ & H1 & H2) (HT & H3 & H4). split; [done|]. split; [intros va; by rewrite H3|]. intros k a Hk Ha.
  rewrite (H4 k a Hk), (H2 k a Hk) by (unfold upage; rewrite ?H1; done). done.
Qed.

Lemma copying_frame L pd T n d s Td l i s' l' (P : Z -> Prop) :
  copying L pd T n d s Td l i -> kinv s' l' -> same_except P (k_mem s) (k_mem s') ->
  (forall p, P p -> p ∈ L) -> (forall p, p ∈ l' -> p ∈ L) ->
  uvm s' pd T l' n /\ avoids (k_mem s') pd T n L /\ parent_kept (k_mem s) pd T n (k_mem s').
Proof.
  intros Hc Hk HS HP Hl. pose proof (cp_avoid _ _ _ _ _ _ _ _ _ Hc) as Hav.
  destruct (uvm_frame s pd T l n s' l' P (cp_parent _ _ _ _ _ _ _ _ _ Hc) Hk HS) as (Hu & Hp & Hb).
  { intros p Hp. pose proof (Hav p Hp). split; intros H'; [apply HP in H'|apply Hl in H']; done. }
  split_and!; auto; [|split; [apply Hu|by split]]. intros p [Hp'|(k & Hk' & ->)]; [apply Hav; by left|].
  unfold upage. rewrite Hp. apply Hav. right. by exists k.
Qed.

Lemma copy_step L pd T n d s Td q l i m1 s' Td' l' :
  copying L pd T n d s Td (q :: l) i -> same_pages (k_mem s) T Td i -> i < n ->
  m1 = KString.memmove (k_mem s) q (upage (k_mem s) T i) PGSIZE ->
  ustep end_ d s Td q l i (PTE_FLAGS (pte_of (k_mem s) T (4096 * i))) m1 s' Td' l' ->
  copying L pd T n d s' Td' l' (i + 1) /\ same_pages (k_mem s') T Td' (i + 1) /\
  parent_kept (k_mem s) pd T n (k_mem s').
Proof.
  intros Hc Hsame Hin Em1 Hst. pose proof Hc as [Hpar Hch Hav Hfr Htab Hpgs].
  destruct Hst as [Hu1 Hkeep Hnew Hs Hsub Ht Hf Hl].
  pose proof (vo_kinv _ _ _ _ _ (u_ok _ _ _ _ _ _ Hpar)) as Hki.
  pose proof (ki_pages _ _ _ Hki) as [Hq _]%Forall_cons. pose proof (ki_nodup _ _ _ Hki) as [Hnq _]%NoDup_cons.
  destruct (page_bounds end_ q Hq) as (Hqa & _). pose proof (u_n _ _ _ _ _ _ Hch) as Hi0. pose proof (u_n _ _ _ _ _ _ Hpar) as Hn0.
  assert (S1 : same_except (fun p => p = q) (k_mem s) m1).
  { intros a Ha. subst m1. rewrite memmove_run by (unfold PGSIZE; lia). pose proof (page_of_out q a Hqa Ha).
    unfold PGSIZE. destruct (_ && _) eqn:E; [lia|done]. }
  assert (Htl : forall p, tpages d Td' p -> p ∈ L).
  { intros p Hp. destruct (Ht p Hp) as [|]; [by apply Htab|]. apply Hfr. by right. }
  assert (S2 : same_except (fun p => p = q \/ tpages d Td' p) (k_mem s) (k_mem s')).
  { eapply same_except_trans; eapply same_except_mono; [|exact S1| |exact Hs]; cbn; auto. }
  destruct (copying_frame _ _ _ _ _ _ _ _ _ s' l' _ Hc (vo_kinv _ _ _ _ _ (u_ok _ _ _ _ _ _ Hu1)) S2) as (Hpar' & Hav' & Hpk).
  { intros p [->|Hp]; [apply Hfr; left|by apply Htl]. }
  { intros p Hp. apply Hfr. right. by eapply suffix_in. }
  assert (Hup : forall k, 0 <= k < i -> upage (k_mem s') Td' k = upage (k_mem s) Td k).
  { intros k Hk. unfold upage. rewrite Hkeep; [done|apply uva; unfold UPAGES in *; lia|dlia]. }
  destruct (u_pte _ _ _ _ _ _ Hpar i ltac:(lia)) as [Hpr Her].
  assert (Hfl : 0 <= PTE_FLAGS (pte_of (k_mem s) T (4096 * i)) < 4096) by (rewrite PTE_FLAGS_eq; dlia).
  assert (Hodd : Z.odd (PTE_FLAGS (pte_of (k_mem s) T (4096 * i))) = true).
  { rewrite present_odd in Hpr. rewrite PTE_FLAGS_eq, Zodd_mod in *. apply Z.eqb_eq. apply Z.eqb_eq in Hpr. dlia. }
  assert (Hupn : upage (k_mem s') Td' i = q) by (unfold upage; rewrite Hnew; by apply (leaf_page end_)).
  split_and!; [constructor; auto| |done].
  - intros p Hp. apply Hfr. right. by eapply suffix_in.
  - intros k Hk. destruct (decide (k = i)) as [->|]; [rewrite Hupn; apply Hfr; left|]. rewrite Hup by lia. apply Hpgs. lia.
  - destruct Hpk as (_ & Hpk1 & Hpk2). intros k Hk. unfold upage at 2. rewrite Hpk1. fold (upage (k_mem s) T k).
    assert (Hpc : forall o, 0 <= o < 4096 -> k_mem s' (upage (k_mem s) T k + o) = k_mem s (upage (k_mem s) T k + o)).
    { intros o Ho. apply (Hpk2 k); lia. }
    destruct (decide (k = i)) as [->|Hki'].
    + split; [rewrite Hnew; by apply leaf_flags|]. intros o Ho. rewrite Hpc, Hupn by done.
      rewrite Hs. { subst m1. rewrite memmove_run by (unfold PGSIZE; lia). unfold PGSIZE.
        rewrite (proj2 (andb_true_iff _ _)) by lia. f_equal. lia. }
      rewrite (page_of_in q) by lia. intros Htq. destruct (Ht _ Htq) as [H'|H']; [|done].
      apply (vo_disj _ _ _ _ _ (u_ok _ _ _ _ _ _ Hch) q H'). left.
    + destruct (Hsame k ltac:(lia)) as [Hf1 Hc1]. split; [rewrite Hkeep; [done|apply uva; unfold UPAGES in *; lia|dlia]|].
      intros o Ho. rewrite Hpc, Hup by lia. rewrite <- Hc1 by done.
      apply (upage_frame end_ s d Td (q :: l) i k _ (k_mem s') _ Hch ltac:(lia) S2); [|lia].
      intros p [->|Hp]; [right; left|]. destruct (Ht p Hp); [by left|right; by right].
Qed.

(** The failure path: the half-built child is released. *)
Lemma copy_bad L pd T n d s Td l i :
  copying L pd T n d s Td l i ->
  exists s' l', freevm end_ d s = Ret tt s' /\ uvm s' pd T l' n /\ parent_kept (k_mem s) pd T n (k_mem s').
Proof.
  intros Hc. destruct (run_freevm end_ Hend d s Td l i (cp_child _ _ _ _ _ _ _ _ _ Hc)) as (s' & l' & R & Hk & Hin & HS).
  assert (Hl : forall p, p ∈ l' -> p ∈ L).
  { intros p [Hp|[Hp|(k & Hk' & ->)]]%Hin; [by apply Hc|by apply (cp_tab _ _ _ _ _ _ _ _ _ Hc)|by apply (cp_pages _ _ _ _ _ _ _ _ _ Hc)]. }
  destruct (copying_frame _ _ _ _ _ _ _ _ _ s' l' _ Hc Hk HS) as (Hu & _ & Hp); [intros p [Hp _]; auto|done|].
  by exists s', l'.
Qed.

Lemma copying_drop L pd T n d s Td q l i m1 s' :
  copying L pd T n d s Td (q :: l) i -> same_except (fun p => p = q) (k_mem s) m1 ->
  same_except (tpages d Td) m1 (k_mem s') -> uvm s' d Td [] i ->
  (forall va, is_va va -> pte_of (k_mem s') Td va = pte_of (k_mem s) Td va) ->
  copying L pd T n d s' Td [] i /\ parent_kept (k_mem s) pd T n (k_mem s').
Proof.
  intros Hc S1 S2 Hu Hp. pose proof Hc as [Hpar Hch Hav Hfr Htab Hpgs].
  assert (S : same_except (fun p => p = q \/ tpages d Td p) (k_mem s) (k_mem s')).
  { eapply same_except_trans; eapply same_except_mono; [|exact S1| |exact S2]; cbn; auto. }
  destruct (copying_frame _ _ _ _ _ _ _ _ _ s' [] _ Hc (vo_kinv _ _ _ _ _ (u_ok _ _ _ _ _ _ Hu)) S) as (Hpar' & Hav' & Hpk).
  { intros p [->|Hp']; [apply Hfr; left|by apply Htab]. } { intros p Hp'. by apply elem_of_nil in Hp'. }
  pose proof (u_n _ _ _ _ _ _ Hch) as Hi0. pose proof (u_n _ _ _ _ _ _ Hpar) as Hn0.
  assert (Hpk' : forall k, 0 <= k < i -> pte_of (k_mem s') Td (4096 * k) = pte_of (k_mem s) Td (4096 * k)).
  { intros k Hk. apply Hp. apply uva. unfold UPAGES in *; lia. }
  assert (Hup : forall k, 0 <= k < i -> upage (k_mem s') Td k = upage (k_mem s) Td k).
  { intros k Hk. unfold upage. by rewrite Hpk'. }
  split; [|done]. constructor; auto.
  - intros p Hp'. by apply elem_of_nil in Hp'.
  - intros k Hk. rewrite Hup by done. by apply Hpgs.
Qed.

Lemma run_copy_loop L pd T d sz n fuel s Td l i :
  copying L pd T n d s Td l i -> same_pages (k_mem s) T Td i -> n = npg sz -> 0 <= sz < KERNBASE -> i <= n ->
  n - i <= Z.of_nat fuel ->
  exists r s', copyuvm_loop end_ fuel pd d (4096 * i) sz s = Ret r s' /\ parent_kept (k_mem s) pd T n (k_mem s') /\
    (r = d /\ (exists Td' l', copying L pd T n d s' Td' l' n /\ same_pages (k_mem s') T Td' n) \/
     r = 0 /\ (exists l', uvm s' pd T l' n) /\ zlen l < 2 * (n - i)).
Proof.
  intros Hc Hsame En Hsz. revert s Td l i Hc Hsame. induction fuel as [|fuel IH]; intros s Td l i Hc Hsame Hi Hfuel;
    cbn [copyuvm_loop]; destruct (Z.ltb_spec (4096 * i) sz) as [Hlt|Hge].
  1: exfalso; unfold npg in En; dlia.
  1, 3: assert (i = n) as -> by (unfold npg in En; pose proof (u_n _ _ _ _ _ _ (cp_child _ _ _ _ _ _ _ _ _ Hc)); dlia);
    exists d, s; split_and!; [done|split; [apply (cp_parent _ _ _ _ _ _ _ _ _ Hc)|by split]|left; split; [done|by exists Td, l]].
  pose proof Hc as [Hpar Hch _ Hfr _ _]. pose proof (u_n _ _ _ _ _ _ Hch) as Hi0. pose proof (u_n _ _ _ _ _ _ Hpar) as Hn0.
  assert (Hin : i < n) by (unfold npg in En; dlia).
  destruct (u_pte _ _ _ _ _ _ Hpar i ltac:(lia)) as [Hpr Her].
  pose proof (vo_pt _ _ _ _ _ (u_ok _ _ _ _ _ _ Hpar)) as HT. pose proof (vo_kinv _ _ _ _ _ (u_ok _ _ _ _ _ _ Hpar)) as Hki.
  destruct (T !! PDX (4096 * i)) as [tp|] eqn:Et.
  2: { unfold pte_of in Hpr. rewrite Et in Hpr. done. }
  destruct (pt_some _ _ _ _ HT _ _ Et) as (_ & Htp & _). destruct (page_bounds end_ tp Htp) as (_ & Htp1 & _).
  pose proof (PTX_range (4096 * i)) as Hx.
  run (run_walk_some end_ s pd T (4096 * i) tp false HT Et). rewrite (proj2 (Z.eqb_neq _ _)) by (unfold KERNBASE in *; lia).
  assert (Rl : load (tp + 4 * PTX (4096 * i)) s = Ret (pte_of (k_mem s) T (4096 * i)) s).
  { unfold load, get, pte_of. by rewrite Et. }
  run Rl. rewrite Hpr. cbn [negb]. destruct l as [|q l].
  { run (run_kalloc_nil _ _ Hki). cbn [Z.eqb]. destruct (copy_bad _ _ _ _ _ _ _ _ _ Hc) as (s' & l' & R & Hu & Hp).
    run R. exists 0, s'. split_and!; auto. right. split_and!; [done|by exists l'|unfold zlen; cbn; lia]. }
  destruct (run_kalloc_cons _ _ _ _ Hki) as [R1 _]. run R1.
  pose proof (ki_pages _ _ _ Hki) as [Hq _]%Forall_cons. destruct (page_bounds end_ q Hq) as (Hqa & Hq1 & _).
  rewrite (proj2 (Z.eqb_neq _ _)) by (unfold KERNBASE in *; lia).
  set (m1 := KString.memmove (k_mem s) q (upage (k_mem s) T i) PGSIZE).
  assert (S1 : same_except (fun p => p = q) (k_mem s) m1).
  { intros a Ha. unfold m1. rewrite memmove_run by (unfold PGSIZE; lia). pose proof (page_of_out q a Hqa Ha).
    unfold PGSIZE. destruct (_ && _) eqn:E; [lia|done]. }
  run (run_kmemmove q (upage (k_mem s) T i) PGSIZE (set_freelist (ldl (k_mem s) q) s)).
  destruct (run_umap end_ Hend s d Td q l i m1 (PTE_FLAGS (pte_of (k_mem s) T (4096 * i))))
    as (r & s1 & T1 & l1 & R2 & Hr); auto; [lia|rewrite PTE_FLAGS_eq; dlia|].
  run R2. destruct Hr as [[-> Hst]|(-> & -> & -> & -> & Hu1 & Hp1 & S2)].
  - destruct (copy_step _ _ _ _ _ _ _ _ _ _ _ _ _ _ Hc Hsame Hin eq_refl Hst) as (Hc1 & Hsame1 & Hpk).
    destruct (IH s1 T1 l1 (i + 1) Hc1 Hsame1) as (r & s2 & R3 & Hpk2 & Hr); [lia|lia|].
    exists r, s2. split_and!.
    + cbn [Z.ltb Z.compare]. unfold PGSIZE. rewrite u32_small by (unfold is_u32, UPAGES in *; lia).
      replace (4096 * i + 4096) with (4096 * (i + 1)) by lia. exact R3.
    + by eapply parent_kept_trans.
    + destruct Hr as [|(-> & Hl & Hlen)]; [by left|right]. split_and!; auto.
      pose proof (us_len _ _ _ _ _ _ _ _ _ _ _ _ Hst). unfold zlen in *. cbn [length]. lia.
  - destruct (copying_drop _ _ _ _ _ _ _ _ _ _ _ s1 Hc S1 S2 Hu1 Hp1) as [Hc1 Hpk].
    destruct (copy_bad _ _ _ _ _ _ _ _ _ Hc1) as (s' & l' & R & Hu & Hp).
    cbn [Z.ltb Z.compare]. run R. exists 0, s'. split_and!; [done|by eapply parent_kept_trans|right].
    split_and!; [done|by exists l'|unfold zlen; cbn [length]; lia].
Qed.

(** copyuvm: a child with the same memory in pages of its own, or 0 with the
    parent as it was. *)
Lemma run_copyuvm pd s T l sz :
  uvm s pd T l (npg sz) -> 0 <= sz < KERNBASE ->
  exists r s', copyuvm end_ data_ pd sz s = Ret r s' /\ parent_kept (k_mem s) pd T (npg sz) (k_mem s') /\
    (r <> 0 /\ (exists Td l', copying l pd T (npg sz) r s' Td l' (npg sz) /\ same_pages (k_mem s') T Td (npg sz)) \/
     r = 0 /\ zlen l <= 65 + 2 * npg sz).
Proof.
  intros Hu Hsz. pose proof (vo_kinv _ _ _ _ _ (u_ok _ _ _ _ _ _ Hu)) as Hki.
  assert (Hav : avoids (k_mem s) pd T (npg sz) l).
  { intros p [Hp|(k & Hk & ->)]; [by apply (vo_disj _ _ _ _ _ (u_ok _ _ _ _ _ _ Hu))|by apply (u_page _ _ _ _ _ _ Hu)]. }
  assert (Hn0 : 0 <= npg sz) by (unfold npg; dlia).
  destruct (run_setupkvm s l Hki) as (d & s1 & R1 & HS & Hd).
  assert (Hframe : forall l1, kinv s1 l1 -> (forall p, p ∈ l1 -> p ∈ l) ->
    uvm s1 pd T l1 (npg sz) /\ parent_kept (k_mem s) pd T (npg sz) (k_mem s1)).
  { intros l1 Hk1 Hl1. destruct (uvm_frame s pd T l (npg sz) s1 l1 _ Hu Hk1 HS) as (Hu1 & Hp & Hb);
      [|split; [done|split; [apply Hu1|by split]]].
    intros p Hp. split; [by apply Hav|]. intros Hin. by apply (Hav p Hp), Hl1. }
  destruct Hd as [[-> Hlen]|(Td & l1 & Hd & Hu1 & Hsuf & Hlen & _ & Ht)].
  - exists 0, s1. split; [unfold copyuvm; by run R1|]. split; [|right; unfold zlen; lia].
    destruct (PT_same _ _ _ (k_mem s1) pd T (vo_pt _ _ _ _ _ (u_ok _ _ _ _ _ _ Hu)) HS) as [HT1 Hp]; [intros q Hq; apply Hav; by left|].
    split; [done|]. split; [done|]. intros k a Hk. apply (upage_frame end_ s pd T l (npg sz) k _ _ a Hu Hk HS). auto.
  - pose proof (vo_kinv _ _ _ _ _ (u_ok _ _ _ _ _ _ Hu1)) as Hki1.
    destruct (Hframe l1 Hki1) as [Hpar Hpk]; [intros p; by apply suffix_in|].
    assert (Hc : copying l pd T (npg sz) d s1 Td l1 0).
    { constructor; auto; [|intros q; by apply suffix_in|intros; lia].
      intros p [Hp|(k & Hk & ->)]; [apply Hav; by left|]. unfold upage. rewrite (proj1 (proj2 Hpk)). apply Hav. right. by exists k. }
    destruct (run_copy_loop l pd T d sz (npg sz) (Z.to_nat (sz / PGSIZE + 1)) s1 Td l1 0 Hc) as (r & s2 & R2 & Hpk2 & Hr);
      auto; [intros k Hk; lia|unfold npg, PGSIZE; dlia|].
    exists r, s2. split_and!; [|by eapply parent_kept_trans|].
    + unfold copyuvm. run R1. by rewrite (proj2 (Z.eqb_neq _ _) Hd).
    + destruct Hr as [[-> (Td' & l' & H1 & H2)]|(-> & _ & Hl)]; [left; split; [done|by exists Td', l']|right].
      split; [done|]. unfold zlen in *. lia.
Qed.

(** ** copyout *)

(** The byte a process sees at a virtual address. *)
Definition ubyte m T (va : Z) : Z := m (upage m T (va / 4096) + va mod 4096).

Definition user_ok m T (va : Z) : Prop := Z.land (pte_of m T va) PTE_U <> 0.

Lemma run_uva2ka s pd T l n k :
  uvm s pd T l n -> 0 <= k < n -> user_ok (k_mem s) T (4096 * k) ->
  uva2ka pd (4096 * k) s = Ret (upage (k_mem s) T k) s.
Proof.
  intros Hu Hk Hus. pose proof (vo_pt _ _ _ _ _ (u_ok _ _ _ _ _ _ Hu)) as HT. pose proof (u_n _ _ _ _ _ _ Hu) as Hn.
  destruct (u_pte _ _ _ _ _ _ Hu k Hk) as [Hpr _]. unfold uva2ka, user_ok in *.
  destruct (T !! PDX (4096 * k)) as [tp|] eqn:Et; [|unfold pte_of in Hpr; by rewrite Et in Hpr].
  destruct (pt_some _ _ _ _ HT _ _ Et) as (_ & Htp & _). destruct (page_bounds end_ tp Htp) as (_ & Htp1 & _).
  pose proof (PTX_range (4096 * k)) as Hx. run (run_walk_some end_ s pd T (4096 * k) tp false HT Et).
  rewrite (proj2 (Z.eqb_neq _ _)) by (unfold KERNBASE in *; lia).
  unfold load, upage. mcbn. unfold pte_of in *. rewrite Et in *.
  unfold present in Hpr. apply negb_true_iff in Hpr. by rewrite Hpr, (proj2 (Z.eqb_neq _ _) Hus).
Qed.

(** A store into a user page changes no table and no free page. *)
Lemma uvm_write s pd T l n k m' :
  uvm s pd T l n -> 0 <= k < n -> same_except (fun p => p = upage (k_mem s) T k) (k_mem s) m' ->
  uvm (set_mem m' s) pd T l n /\ (forall va, pte_of m' T va = pte_of (k_mem s) T va).
Proof.
  intros Hu Hk HS. destruct Hu as [Hv Hn Hpte Hpg Hinj Hab]. destruct (Hpg k Hk) as (Hok & Hnl & Hnt).
  destruct (PT_same _ _ _ m' pd T (vo_pt _ _ _ _ _ Hv) HS) as [HT' Hp]; [intros q Hq ->; done|].
  assert (Hup : forall j, upage m' T j = upage (k_mem s) T j) by (intros j; unfold upage; by rewrite Hp).
  split; [|done]. constructor; auto; cbn [set_mem k_mem].
  - eapply vmok_same; [done|done| |]; intros q Hq ->; done.
  - intros j Hj. rewrite Hp. by apply Hpte.
  - intros j Hj. rewrite Hup. by apply Hpg.
  - intros j j' H1 H2. rewrite !Hup. by apply Hinj.
  - intros j Hj. rewrite Hp. by apply Hab.
Qed.

(** [c] bytes stored at user address [va], all in one page. *)
Lemma user_write s pd T l n va c (f : Z -> Z) m1 :
  let q := upage (k_mem s) T (va / 4096) in
  uvm s pd T l n -> 0 <= va -> 0 <= c -> va mod 4096 + c <= 4096 -> va < 4096 * n ->
  (forall a, m1 a = if decide (q + va mod 4096 <= a < q + va mod 4096 + c) then f (a - (q + va mod 4096)) else k_mem s a) ->
  uvm (set_mem m1 s) pd T l n /\ (forall v, pte_of m1 T v = pte_of (k_mem s) T v) /\
  same_except (fun p => p = q) (k_mem s) m1 /\
  forall v, 0 <= v < 4096 * n -> ubyte m1 T v = if decide (va <= v < va + c) then f (v - va) else ubyte (k_mem s) T v.
Proof.
  intros q Hu Hva Hc Hpg Htop Hm1. set (k := va / 4096) in *. assert (Hk : 0 <= k < n) by (unfold k; dlia).
  destruct (u_page _ _ _ _ _ _ Hu k Hk) as (Hok & _). destruct (page_bounds end_ _ Hok) as (Hqa & _). fold q in Hqa.
  assert (S1 : same_except (fun p => p = q) (k_mem s) m1).
  { intros a Ha. rewrite Hm1. apply decide_False. pose proof (page_of_out q a Hqa Ha). dlia. }
  destruct (uvm_write s pd T l n k m1 Hu Hk S1) as [Hu1 Hp1]. split_and!; auto.
  intros v Hv. unfold ubyte at 1. replace (upage m1 T (v / 4096)) with (upage (k_mem s) T (v / 4096)) by (unfold upage; by rewrite Hp1).
  rewrite Hm1. assert (Hvk : 0 <= v / 4096 < n) by dlia. destruct (decide (v / 4096 = k)) as [E|E].
  - unfold ubyte. rewrite E. fold q. destruct (decide (va <= v < va + c)); [rewrite decide_True by dlia; f_equal; dlia|].
    by rewrite decide_False by dlia.
  - assert (upage (k_mem s) T (v / 4096) <> q).
    { intros E'. apply E. by apply (u_inj _ _ _ _ _ _ Hu). }
    destruct (u_page _ _ _ _ _ _ Hu _ Hvk) as (Hok' & _). destruct (page_bounds end_ _ Hok') as (Hqa' & _).
    rewrite !decide_False by dlia. done.
Qed.

(** The part of a copy to [va] that lies in its first page. *)
Lemma copy_chunk va len : 0 <= va -> 0 < len ->
  let c := Z.min (PGSIZE - (va - 4096 * (va / 4096))) len in
  0 < c <= len /\ va - 4096 * (va / 4096) = va mod 4096 /\ va mod 4096 + c <= 4096 /\ (c = len \/ va + c = 4096 * (va / 4096 + 1)).
Proof. unfold PGSIZE. cbv zeta. dlia. Qed.

Lemma run_copyout_loop pd T l n fuel s va buf len :
  uvm s pd T l n -> 0 <= va -> 0 <= len -> va + len <= 4096 * n ->
  (0 < len -> forall k, va / 4096 <= k -> 4096 * k < va + len -> user_ok (k_mem s) T (4096 * k)) ->
  (forall a k, buf <= a < buf + len -> 0 <= k < n -> page_of a <> upage (k_mem s) T k) ->
  (0 < len -> (va mod 4096 + len + 4095) / 4096 <= Z.of_nat fuel) ->
  exists s', copyout_loop fuel pd va buf len s = Ret 0 s' /\ uvm s' pd T l n /\
    (forall v, pte_of (k_mem s') T v = pte_of (k_mem s) T v) /\
    same_except (fun p => exists k, 0 <= k < n /\ p = upage (k_mem s) T k) (k_mem s) (k_mem s') /\
    forall v, 0 <= v < 4096 * n -> ubyte (k_mem s') T v =
      if decide (va <= v < va + len) then k_mem s (buf + (v - va)) else ubyte (k_mem s) T v.
Proof.
  revert s va buf len. induction fuel as [|fuel IH]; intros s va buf len Hu Hva Hlen Htop Hus Hbuf Hfuel; cbn [copyout_loop].
  all: destruct (Z.gtb_spec len 0) as [Hl|Hl]; [|exists s; split_and!; auto; [done|intros v Hv; by rewrite decide_False by lia]].
  1: exfalso; dlia.
  pose proof (u_n _ _ _ _ _ _ Hu) as Hn. set (k := va / 4096). assert (Hk : 0 <= k < n) by (unfold k; dlia).
  unfold UPAGES in Hn. rewrite PGROUNDDOWN_eq by dlia. fold k.
  replace (k * 4096) with (4096 * k) by lia. pose proof (Hus Hl k ltac:(lia) ltac:(unfold k; dlia)) as Huk.
  run (run_uva2ka s pd T l n k Hu Hk Huk). destruct (u_page _ _ _ _ _ _ Hu k Hk) as (Hok & _).
  destruct (page_bounds end_ _ Hok) as (Hqa & Hq1 & Hq2). set (q := upage (k_mem s) T k) in *.
  rewrite (proj2 (Z.eqb_neq _ _)) by (unfold KERNBASE in *; lia).
  destruct (copy_chunk va len Hva Hl) as (Hc1 & Eo & Hc2 & Hc3). fold k in Hc1, Eo, Hc2, Hc3.
  set (c := Z.min (PGSIZE - (va - 4096 * k)) len) in *. rewrite Eo.
  run (run_kmemmove (q + va mod 4096) buf c s).
  set (m1 := KString.memmove (k_mem s) (q + va mod 4096) buf c).
  destruct (user_write s pd T l n va c (fun i => k_mem s (buf + i)) m1) as (Hu1 & Hp1 & S1 & Hby1); auto; try lia.
  { intros a. unfold m1. fold k q. rewrite memmove_run by lia. destruct (_ && _) eqn:E; [rewrite decide_True by lia; f_equal; lia|].
    rewrite decide_False by lia. done. }
  assert (Hup1 : forall j, upage m1 T j = upage (k_mem s) T j) by (intros j; unfold upage; by rewrite Hp1).
  destruct (IH (set_mem m1 s) (va + c) (buf + c) (len - c)) as (s2 & R2 & Hu2 & Hp2 & S2 & Hby2); auto; try lia.
  - intros _ j Hj Hj2. unfold user_ok. cbn [set_mem k_mem]. rewrite Hp1. apply Hus; [lia|unfold k in *; dlia|lia].
  - intros a j Ha Hj. cbn [set_mem k_mem]. rewrite Hup1. apply Hbuf; [lia|done].
  - intros Hlc. specialize (Hfuel Hl). destruct Hc3 as [E|E]; [lia|]. rewrite E. unfold k in *. dlia.
  - exists s2. split_and!; auto.
    + destruct Hc3 as [E|E].
      * rewrite E, Z.sub_diag in *. destruct fuel; cbn [copyout_loop] in *; exact R2.
      * unfold PGSIZE. rewrite u32_small by (unfold is_u32; lia). replace (4096 * k + 4096) with (va + c) by lia. exact R2.
    + intros v. rewrite Hp2. apply Hp1.
    + eapply same_except_trans; eapply same_except_mono; [|exact S1| |exact S2]; cbn.
      * intros p ->. by exists k.
      * intros p (j & Hj & ->). exists j. split; [done|]. apply Hup1.
    + intros v Hv. rewrite Hby2 by done. cbn [set_mem k_mem]. rewrite Hby1 by done.
      assert (Hsrc : forall a, buf <= a < buf + len -> m1 a = k_mem s a) by (intros a Ha; apply S1; by apply Hbuf).
      destruct (decide (va + c <= v < va + c + (len - c))).
      * rewrite decide_True by lia. rewrite Hsrc by lia. f_equal. lia.
      * destruct (decide (va <= v < va + c)); [rewrite decide_True by lia; done|rewrite decide_False by lia; done].
Qed.

End Copy.
