(* ===== verification/VmProps.v ===== *)
(** * Properties of the virtual-memory code

    The results of the previous files in terms of [translate], the processor's
    address translation, and of the bytes a process sees. *)

From S2P Require Import Prelude.
From S2P Require Import CString.
From S2P Require Import Mmu.
From S2P Require Import Kalloc.
From S2P Require Import Vm.
From S2P Require Import VmPt.
From S2P Require Import VmUser.
From S2P Require Import VmFree.
From S2P Require Import VmCopy.

Section Props.
Context (end_ data_ : Z).
Hypothesis Hend : KERNBASE < end_.
Implicit Types (m : mem) (s : kst) (T : gmap Z Z) (l : list Z).

Lemma translate_leaf m pd T va pa perm :
  PT end_ m pd T -> is_va va -> pte_of m T va = leaf pa perm -> pa mod 4096 = 0 -> 0 <= perm < 4096 ->
  translate m pd va = Some (pa + va mod 4096, Z.lor perm PTE_P).
Proof.
  intros HT Hva He Hpa Hperm. rewrite (translate_pte end_ m pd T) by done. cbv zeta. rewrite He.
  pose proof (lor_lt_4096 perm PTE_P Hperm ltac:(unfold PTE_P; lia)) as Hl.
  replace (present (leaf pa perm)) with true.
  { unfold leaf. f_equal. f_equal; dlia. }
  symmetry. rewrite present_odd. unfold leaf. rewrite Z.odd_add, flags_odd.
  replace (Z.odd pa) with false; [done|]. symmetry. rewrite <- Z.negb_even. apply negb_false_iff, Z.even_spec.
  exists (pa / 2). dlia.
Qed.

Lemma translate_same m m' pd T T' va :
  PT end_ m pd T -> PT end_ m' pd T' -> is_va va -> pte_of m' T' va = pte_of m T va -> translate m' pd va = translate m pd va.
Proof. intros. rewrite (translate_pte end_ m pd T), (translate_pte end_ m' pd T') by done. by rewrite H2. Qed.

Lemma translate_user s pd T l n va :
  uvm end_ s pd T l n -> 0 <= va < 4096 * n ->
  translate (k_mem s) pd va =
    Some (upage (k_mem s) T (va / 4096) - KERNBASE + va mod 4096, PTE_FLAGS (pte_of (k_mem s) T (4096 * (va / 4096)))).
Proof.
  intros Hu Hva. pose proof (u_n _ _ _ _ _ _ Hu) as Hn. unfold UPAGES in Hn.
  assert (Hk : 0 <= va / 4096 < n) by dlia.
  rewrite (translate_pte end_ _ pd T) by (apply Hu || (unfold is_va; lia)).
  rewrite (pte_of_page _ _ va (4096 * (va / 4096))) by dlia. cbv zeta.
  destruct (u_pte _ _ _ _ _ _ Hu _ Hk) as [Hpr Her]. destruct (u_page _ _ _ _ _ _ Hu _ Hk) as (Hok & _).
  rewrite Hpr, PTE_FLAGS_eq. f_equal. f_equal. f_equal. unfold upage in Hok |- *.
  rewrite <- (pte_addr end_ _ _ eq_refl Her Hok), PTE_ADDR_eq by done. done.
Qed.

Lemma size_list_to_set_le (xs : list Z) : (size (list_to_set xs : gset Z) <= length xs)%nat.
Proof.
  induction xs as [|x xs IH]; cbn [list_to_set length]; [by rewrite size_empty|].
  rewrite size_union_alt, size_singleton. etrans; [apply Nat.add_le_mono_l, (subseteq_size _ (list_to_set xs)); set_solver|lia].
Qed.

(** Mapping [n] pages takes at most [n] page-table pages. *)
Lemma vext_range pd va n s T l s' T' l' :
  vext end_ pd (fun i => exists a, va <= a < va + 4096 * n /\ i = PDX a) s T l s' T' l' ->
  va mod 4096 = 0 -> zlen l <= zlen l' + Z.max 0 n.
Proof.
  intros He Hva. pose proof (ve_count _ _ _ _ _ _ _ _ _ He) as Hc.
  set (X := list_to_set ((fun j => PDX (va + 4096 * j)) <$> seqZ 0 n) : gset Z).
  assert (Hx : (size X <= Z.to_nat n)%nat).
  { unfold X. etrans; [apply size_list_to_set_le|]. rewrite length_fmap, length_seqZ. done. }
  assert (size T' <= size T + size X)%nat; [|unfold zlen; lia].
  rewrite <- !size_dom. etrans; [apply (subseteq_size _ (dom T ∪ X))|rewrite size_union_alt].
  - intros i [q Hq]%elem_of_dom. apply elem_of_union. destruct (ve_new _ _ _ _ _ _ _ _ _ He i q Hq) as [H|[_ (a & Ha & ->)]].
    + left. by apply elem_of_dom.
    + right. unfold X. apply elem_of_list_to_set, list_elem_of_fmap. exists ((a - va) / 4096).
      split; [rewrite !PDX_eq; dlia|apply elem_of_seqZ; dlia].
  - apply Nat.add_le_mono_l, subseteq_size. set_solver.
Qed.

(** mappages maps exactly the range it is given.  If no page of the range
    is mapped, it returns 0, after which the processor translates every address
    of the range to the given physical range with the given permissions and
    every other address as before; or it returns -1, and then at most [n] pages
    were free. *)
Theorem mappages_maps s pd T l va n pa perm :
  vmok end_ s pd T l -> va mod 4096 = 0 -> 0 <= va -> 0 < n -> va + 4096 * n <= 4294967296 ->
  0 <= pa -> pa mod 4096 = 0 -> pa + 4096 * n <= 4294967296 -> 0 <= perm < 4096 ->
  (forall a, va <= a < va + 4096 * n -> translate (k_mem s) pd a = None) ->
  exists r s' T' l', mappages pd va (4096 * n) pa perm s = Ret r s' /\ vmok end_ s' pd T' l' /\
    (r = 0 /\ (forall a, is_va a -> translate (k_mem s') pd a =
       if decide (va <= a < va + 4096 * n) then Some (pa + (a - va), Z.lor perm PTE_P) else translate (k_mem s) pd a) \/
     r = -1 /\ zlen l <= n).
Proof.
  intros Hv Hva Hva0 Hn Hva1 Hp0 Hpa Hp1 Hperm Hno. pose proof (vo_pt _ _ _ _ _ Hv) as HT.
  destruct (run_mappages end_ pd perm (n - 1) s T l va pa) as (r & s' & T' & l' & k & R & He & Hm & Hr); auto; try lia.
  { intros a Ha. assert (Hia : is_va a) by (unfold is_va; lia). specialize (Hno a ltac:(lia)).
    rewrite (translate_pte end_ _ pd T) in Hno by done. cbv zeta in Hno. by destruct (present _). }
  replace (n - 1 + 1) with n in * by lia. exists r, s', T', l'. split; [done|].
  pose proof (ve_ok _ _ _ _ _ _ _ _ _ He) as Hv'. split; [done|].
  destruct Hr as [[-> ->]|(-> & -> & _)]; [left|right; split; [done|]].
  2: { pose proof (vext_range _ _ _ _ _ _ _ _ _ He Hva). unfold zlen in *. cbn [length] in *. lia. }
  split; [done|]. intros a Ha.
  specialize (Hm a Ha). destruct (decide (va <= a < va + 4096 * n)) as [Hin|Hin].
  - rewrite (translate_leaf (k_mem s') pd T' a (pa + (a - va) / 4096 * 4096) perm); auto; [|apply Hv'|dlia].
    f_equal. f_equal. dlia.
  - eapply translate_same; eauto; apply Hv'.
Qed.

(** allocuvm grows a process.  With two free pages for every page to add,
    it returns the new size; every address the process had keeps its
    translation and its byte, every address of the added pages is mapped
    writable and user-accessible to a page of its own that holds zeros, and the
    kernel part of the table is as before. *)
Theorem allocuvm_grows s pd T l oldsz newsz :
  uvm end_ s pd T l (npg oldsz) -> 0 <= oldsz <= newsz -> newsz < KERNBASE ->
  2 * (npg newsz - npg oldsz) <= zlen l ->
  exists s' T' l', allocuvm end_ pd oldsz newsz s = Ret newsz s' /\ uvm end_ s' pd T' l' (npg newsz) /\
    (forall va, is_va va -> va < 4096 * npg oldsz \/ KERNBASE <= va -> translate (k_mem s') pd va = translate (k_mem s) pd va) /\
    (forall va, 0 <= va < 4096 * npg oldsz -> ubyte (k_mem s') T' va = ubyte (k_mem s) T va) /\
    (forall va, 4096 * npg oldsz <= va < 4096 * npg newsz ->
      exists pa, translate (k_mem s') pd va = Some (pa, 7) /\ k_mem s' (KERNBASE + pa) = 0).
Proof.
  intros Hu Ho Hn Hl. destruct (run_allocuvm end_ Hend pd s T l oldsz newsz Hu Ho Hn Hl) as (s' & T' & l' & R & Hg).
  destruct Hg as [Hu' Hkeep Hfl Hz _ Hs Hsub Ht Hf _]. pose proof (u_n _ _ _ _ _ _ Hu') as Hn'. unfold UPAGES in Hn'.
  assert (Hpt : forall va, is_va va -> va < 4096 * npg oldsz \/ KERNBASE <= va -> pte_of (k_mem s') T' va = pte_of (k_mem s) T va).
  { intros va Hva Hin. apply Hkeep; [done|]. unfold KERNBASE in *. dlia. }
  exists s', T', l'. split_and!; auto.
  - intros va Hva Hin. eapply translate_same; [apply Hu|apply Hu'|done|by apply Hpt].
  - intros va Hva. unfold ubyte, upage. rewrite Hpt; [|unfold is_va; unfold npg in *; dlia|dlia].
    eapply (upage_frame end_ s pd T l _ (va / 4096)); [exact Hu|dlia|exact Hs| |].
    + intros p [Hp|Hp]; auto.
    + unfold upage. dlia.
  - intros va Hva. assert (0 <= npg oldsz) by (unfold npg; dlia). eexists. rewrite (translate_user s' pd T' l' _ va Hu') by lia. rewrite Hfl by dlia.
    split; [done|]. apply (Hz (va / 4096)); [dlia|]. dlia.
Qed.

(** deallocuvm shrinks a process: it returns the new size; the pages
    dropped, and no others, join the free list, their addresses are no longer
    mapped, and every other address keeps its translation and, in the memory the
    process retains, its byte. *)
Theorem deallocuvm_frees s pd T l oldsz newsz :
  uvm end_ s pd T l (npg oldsz) -> 0 <= newsz < oldsz -> oldsz < KERNBASE ->
  exists s' F, deallocuvm end_ pd oldsz newsz s = Ret newsz s' /\ uvm end_ s' pd T (F ++ l) (npg newsz) /\
    (forall q, q ∈ F <-> exists k, npg newsz <= k < npg oldsz /\ q = upage (k_mem s) T k) /\
    (forall va, is_va va -> translate (k_mem s') pd va =
      if decide (4096 * npg newsz <= va < 4096 * npg oldsz) then None else translate (k_mem s) pd va) /\
    (forall va, 0 <= va < 4096 * npg newsz -> ubyte (k_mem s') T va = ubyte (k_mem s) T va).
Proof.
  intros Hu Hn Ho. pose proof (u_n _ _ _ _ _ _ Hu) as Hun. assert (Hnn : 0 <= npg newsz <= npg oldsz) by (unfold npg; dlia).
  destruct (run_deallocuvm end_ Hend pd oldsz newsz s T l (npg oldsz) Hu) as (s' & F & R & [Hu' Hp Hk HS]); try lia.
  pose proof (ut_ok _ _ _ _ _ _ Hu') as Hv'. exists s', F.
  assert (Hnd : forall k, 0 <= k < npg newsz -> upage (k_mem s) T k ∉ F).
  { intros k Hk1 (k' & Hk' & E)%Hp. pose proof (u_inj _ _ _ _ _ _ Hu k k' ltac:(lia) ltac:(lia) E). lia. }
  split_and!; auto.
  - apply uvm_uset; [unfold UPAGES in *; lia|done].
  - intros va Hva. case_decide as Hin.
    + rewrite (translate_pte end_ _ pd T) by (apply Hv' || done). unfold UPAGES in *.
      rewrite (pte_of_page _ _ va (4096 * (va / 4096))) by dlia. cbv zeta.
      by rewrite (ut_other _ _ _ _ _ _ Hu') by (unfold UPAGES; dlia).
    + eapply translate_same; [apply Hu|apply Hv'|done|]. apply Hk; [done|]. dlia.
  - intros va Hva. unfold ubyte, upage. unfold UPAGES in *. rewrite Hk; [|unfold is_va; dlia|dlia]. fold (upage (k_mem s) T (va / 4096)).
    destruct (u_page _ _ _ _ _ _ Hu (va / 4096)) as (Hok & _ & Hnt); [dlia|]. destruct (page_bounds end_ _ Hok) as (Hal & _).
    apply HS. rewrite (page_of_in _ _ Hal) by dlia. intros [|Hin]; [done|]. apply (Hnd (va / 4096)); [dlia|done].
Qed.

(** C37: freevm returns an address space to the allocator: exactly the pages
    of the user memory, of the page table and of the directory join the free
    list, each once. *)
Theorem freevm_releases s pd T l n :
  uvm end_ s pd T l n ->
  exists s' l', freevm end_ pd s = Ret tt s' /\ kinv end_ s' l' /\
    (forall q, q ∈ l' <-> q ∈ l \/ q = pd \/ (exists i, T !! i = Some q) \/ exists k, 0 <= k < n /\ q = upage (k_mem s) T k) /\
    (forall a, page_of a ∉ l' -> k_mem s' a = k_mem s a).
Proof.
  intros Hu. destruct (run_freevm end_ Hend pd s T l n Hu) as (s' & l' & R & Hk & Hin & HS).
  exists s', l'. split_and!; auto.
  - intros q. rewrite Hin. unfold tpages. tauto.
  - intros a Ha. apply HS. by intros [? _].
Qed.

(** setupkvm gives every address space the kernel's mappings: physical
    memory at KERNBASE, read-only over the kernel text, the device space
    one-to-one, nothing else; it fails only with at most 65 pages free. *)
Theorem setupkvm_maps s l :
  data_ok data_ -> kinv end_ s l ->
  exists r s', setupkvm data_ s = Ret r s' /\
    (r = 0 /\ zlen l <= 65 \/
     r <> 0 /\ forall va, is_va va -> translate (k_mem s') r va =
       if decide (KERNBASE <= va < KERNBASE + PHYSTOP) then
         Some (va - KERNBASE, if decide (KERNLINK <= va < data_) then PTE_P else Z.lor PTE_W PTE_P)
       else if decide (DEVSPACE <= va) then Some (va, Z.lor PTE_W PTE_P) else None).
Proof.
  intros Hd Hk. destruct (run_setupkvm end_ data_ Hd s l Hk) as (r & s' & R & _ & Hr). exists r, s'. split; [done|].
  destruct Hr as [[-> Hl]|(T & l' & Hr & Hu & _ & _ & Hp & _)]; [left; split; [done|unfold zlen; lia]|right].
  split; [done|]. intros va Hva. specialize (Hp va Hva).
  pose proof (vo_pt _ _ _ _ _ (u_ok _ _ _ _ _ _ Hu)) as HT.
  assert (Hleaf : forall pa perm, pte_of (k_mem s') T va = leaf pa perm -> pa mod 4096 = 0 -> 0 <= perm < 4096 ->
    translate (k_mem s') r va = Some (pa + va mod 4096, Z.lor perm PTE_P)) by (intros; by apply (translate_leaf _ _ T)).
  destruct Hd as [Hda Hd1]. unfold kmap, in_row, row_size in Hp. cbn [row_pte] in Hp. unfold in_row, row_size in Hp.
  cbn [virt phys_start phys_end perm] in Hp. unfold KERNLINK, KERNBASE, EXTMEM, PHYSTOP, DEVSPACE, is_va in *.
  rewrite !v2p_eq in Hp by (unfold KERNBASE; lia). unfold KERNBASE in Hp.
  assert (E1 : u32 (1048576 - 0) = 1048576) by reflexivity. assert (E4 : u32 (0 - 4261412864) = 33554432) by reflexivity.
  assert (E2 : u32 (data_ - 2147483648 - (2147483648 + 1048576 - 2147483648)) = data_ - 2148532224) by (unfold u32; dlia).
  assert (E3 : u32 (234881024 - (data_ - 2147483648)) = 2382364672 - data_) by (unfold u32; dlia).
  repeat case_decide; try lia; try (rewrite (Hleaf _ _ Hp) by (unfold PTE_W in *; dlia); f_equal; f_equal; dlia).
  rewrite (translate_pte end_ _ r T) by done. by rewrite Hp.
Qed.

(** C10: copyuvm gives a child process a copy of its parent's memory.  It
    always returns and leaves the parent's translations and bytes as they were.
    A non-null result is a page directory in which every user address of the
    parent is mapped with the same permissions and shows the same byte, in
    physical pages that are different from all the parent's; it is null only
    when at most 65 + 2n pages were free, n being the parent's page count. *)
Theorem copyuvm_copies s pd T l sz :
  data_ok data_ -> uvm end_ s pd T l (npg sz) -> 0 <= sz < KERNBASE ->
  exists d s', copyuvm end_ data_ pd sz s = Ret d s' /\
    (forall va, 0 <= va < 4096 * npg sz -> translate (k_mem s') pd va = translate (k_mem s) pd va /\
      ubyte (k_mem s') T va = ubyte (k_mem s) T va) /\
    (d = 0 /\ zlen l <= 65 + 2 * npg sz \/
     d <> 0 /\ forall va, 0 <= va < 4096 * npg sz ->
       exists pa pa' fl, translate (k_mem s') pd va = Some (pa, fl) /\ translate (k_mem s') d va = Some (pa', fl) /\
         k_mem s' (KERNBASE + pa') = k_mem s' (KERNBASE + pa) /\
         forall va2 pa2 fl2, 0 <= va2 < 4096 * npg sz -> translate (k_mem s') pd va2 = Some (pa2, fl2) -> pa2 / 4096 <> pa' / 4096).
Proof.
  intros Hd Hu Hsz. destruct (run_copyuvm end_ data_ Hend Hd pd s T l sz Hu Hsz) as (d & s' & R & (HT' & Hp & Hb) & Hr).
  pose proof (u_n _ _ _ _ _ _ Hu) as Hun. unfold UPAGES in Hun.
  exists d, s'. split; [done|]. split.
  - intros va Hva. destruct (u_page _ _ _ _ _ _ Hu (va / 4096)) as (Hok & _); [dlia|]. destruct (page_bounds end_ _ Hok) as (_ & ? & _).
    split; [|unfold ubyte, upage; rewrite Hp; apply (Hb (va / 4096)); unfold upage; dlia].
    eapply translate_same; [apply Hu|done|unfold is_va; lia|apply Hp].
  - destruct Hr as [(Hdz & Td & l' & Hc & Hsame)|[-> Hl]]; [right; split; [done|]|by left].
    intros va Hva.
    pose proof (translate_user _ _ _ _ _ va (cp_parent _ _ _ _ _ _ _ _ _ _ Hc) Hva) as Ep.
    pose proof (translate_user _ _ _ _ _ va (cp_child _ _ _ _ _ _ _ _ _ _ Hc) Hva) as Ec.
    assert (Hk : 0 <= va / 4096 < npg sz) by dlia. destruct (Hsame _ Hk) as [Hfl Hby].
    eexists _, _, _. split; [exact Ep|]. rewrite Ec, Hfl. split; [done|]. split.
    + replace (KERNBASE + (upage (k_mem s') Td (va / 4096) - KERNBASE + va mod 4096)) with (upage (k_mem s') Td (va / 4096) + va mod 4096) by lia.
      rewrite Hby by dlia. f_equal. lia.
    + intros va2 pa2 fl2 Hva2 E2. rewrite (translate_user _ _ _ _ _ va2 (cp_parent _ _ _ _ _ _ _ _ _ _ Hc) Hva2) in E2. injection E2 as <- _.
      assert (Hk2 : 0 <= va2 / 4096 < npg sz) by dlia.
      destruct (u_page _ _ _ _ _ _ (cp_parent _ _ _ _ _ _ _ _ _ _ Hc) _ Hk2) as (Hok2 & _).
      destruct (u_page _ _ _ _ _ _ (cp_child _ _ _ _ _ _ _ _ _ _ Hc) _ Hk) as (Hok1 & _).
      destruct (page_bounds end_ _ Hok1) as (Hal1 & _), (page_bounds end_ _ Hok2) as (Hal2 & _).
      intros E. assert (Eq : upage (k_mem s') T (va2 / 4096) = upage (k_mem s') Td (va / 4096)) by (unfold KERNBASE in *; dlia).
      apply (cp_avoid _ _ _ _ _ _ _ _ _ _ Hc (upage (k_mem s') T (va2 / 4096))); [right; by exists (va2 / 4096)|].
      rewrite Eq. by apply (cp_pages _ _ _ _ _ _ _ _ _ _ Hc).
Qed.

(** copyout stores a kernel buffer into a process's memory: if the target
    range is mapped user-accessible and the buffer does not lie in the process's
    own pages, it returns 0, every byte of the range then shows the buffer, and
    every other byte and all translations are as before. *)
Theorem copyout_writes s pd T l n va p len :
  uvm end_ s pd T l n -> 0 <= va -> 0 <= len -> va + len <= 4096 * n ->
  (forall v, va <= v < va + len -> exists pa fl, translate (k_mem s) pd v = Some (pa, fl) /\ Z.land fl PTE_U <> 0) ->
  (forall a k, p <= a < p + len -> 0 <= k < n -> page_of a <> upage (k_mem s) T k) ->
  exists s', copyout pd va p len s = Ret 0 s' /\ uvm end_ s' pd T l n /\
    forall v, 0 <= v < 4096 * n -> translate (k_mem s') pd v = translate (k_mem s) pd v /\
      ubyte (k_mem s') T v = if decide (va <= v < va + len) then k_mem s (p + (v - va)) else ubyte (k_mem s) T v.
Proof.
  intros Hu Hva Hlen Htop Hus Hbuf. pose proof (u_n _ _ _ _ _ _ Hu) as Hn. unfold UPAGES in Hn.
  destruct (run_copyout_loop end_ pd T l n (Z.to_nat (len / PGSIZE + 2)) s va p len) as (s' & R & Hu' & Hp & _ & Hb); auto.
  - intros Hpos k Hk Hk2. destruct (Hus (Z.max va (4096 * k))) as (pa & fl & E & Hfl); [dlia|].
    rewrite (translate_user s pd T l n _ Hu) in E by dlia. injection E as _ <-. unfold user_ok.
    replace (4096 * (Z.max va (4096 * k) / 4096)) with (4096 * k) in Hfl by dlia.
    unfold PTE_FLAGS in Hfl. rewrite <- Z.land_assoc in Hfl. exact Hfl.
  - intros _. unfold PGSIZE. dlia.
  - exists s'. split_and!; auto. intros v Hv. split; [|by apply Hb].
    eapply translate_same; [apply Hu|apply Hu'|unfold is_va; lia|apply Hp].
Qed.

End Props.

(** ** An address space in a booted machine *)

Definition ex_end : Z := 0x80110000.
Definition ex_data : Z := 0x80108000.

Lemma ex_end_ok : KERNBASE < ex_end <= KERNBASE + 4 * 1024 * 1024.
Proof. unfold KERNBASE, ex_end. lia. Qed.

Lemma ex_data_ok : data_ok ex_data.
Proof. split; [reflexivity|]. unfold KERNLINK, KERNBASE, EXTMEM, PHYSTOP, ex_data. lia. Qed.

(** After boot at least 1000 pages are free. *)
Lemma boot_free : exists s l, kinv ex_end s l /\ 1000 <= zlen l.
Proof.
  destruct (run_kinit ex_end (fun _ => 0) ex_end_ok) as (s & l & _ & Hk & Hall). exists s, l. split; [done|].
  assert (Hsub : range_pages 0x80200000 1000 ⊆+ l).
  { apply NoDup_submseteq.
    - unfold range_pages. rewrite NoDup_ListNoDup. apply NoDup_rev. rewrite <- NoDup_ListNoDup. apply NoDup_fmap_2_strong; [intros; lia|apply NoDup_seq].
    - intros x (i & Hi & ->)%elem_of_range. apply Hall. unfold page_ok, KERNBASE, PHYSTOP, ex_end. dlia. }
  apply submseteq_length in Hsub. unfold zlen. change (length (range_pages 2149580800 1000)) with 1000%nat in Hsub. lia.
Qed.

(** A process with two pages and plenty of free memory. *)
Lemma boot_process : exists s pd T l, uvm ex_end s pd T l 2 /\ 900 <= zlen l /\
  forall va, 0 <= va < 8192 -> exists pa, translate (k_mem s) pd va = Some (pa, 7).
Proof.
  destruct boot_free as (s & l & Hk & Hl). pose proof ex_end_ok as He.
  destruct (run_setupkvm ex_end ex_data ex_data_ok s l Hk) as (pd & s1 & _ & _ & [[-> H]|(T & l1 & _ & Hu & _ & Hlen & _)]);
    [unfold zlen in *; lia|].
  destruct (run_allocuvm ex_end ltac:(lia) pd s1 T l1 0 8192 Hu) as (s2 & T2 & l2 & _ & Hg);
    [lia|unfold KERNBASE; lia|change (npg 8192 - npg 0) with 2; unfold zlen in *; lia|].
  change (npg 8192) with 2 in Hg. change (npg 0) with 0 in Hg. exists s2, pd, T2, l2. split; [apply Hg|].
  split; [pose proof (ug_len _ _ _ _ _ _ _ _ _ _ Hg); unfold zlen in *; lia|].
  intros va Hva. eexists. rewrite (translate_user ex_end s2 pd T2 l2 2 va (ug_uvm _ _ _ _ _ _ _ _ _ _ Hg)) by lia.
  rewrite (ug_flags _ _ _ _ _ _ _ _ _ _ Hg) by dlia. done.
Qed.

Lemma mappages_maps_witness :
  exists s pd s', mappages pd 0x800000 8192 0x300000 6 s = Ret 0 s' /\
    translate (k_mem s') pd 0x801004 = Some (0x301004, 7).
Proof.
  destruct boot_process as (s & pd & T & l & Hu & Hl & _).
  pose proof ex_end_ok as He. destruct (mappages_maps ex_end ltac:(lia) s pd T l 0x800000 2 0x300000 6 (u_ok _ _ _ _ _ _ Hu) eq_refl
    ltac:(lia) ltac:(lia) ltac:(lia) ltac:(lia) eq_refl ltac:(lia) ltac:(lia)) as (r & s' & T' & l' & R & _ & Hr).
  { intros a Ha. rewrite (translate_pte ex_end _ pd T) by (apply Hu || (unfold is_va; lia)). cbv zeta.
    rewrite (pte_of_page _ _ a (4096 * (a / 4096))) by dlia.
    by rewrite (u_above _ _ _ _ _ _ Hu) by (unfold UPAGES; dlia). }
  destruct Hr as [[-> Ht]|[_ Hle]]; [|lia]. exists s, pd, s'. split; [done|].
  rewrite Ht by (unfold is_va; lia). reflexivity.
Defined.

Lemma allocuvm_grows_witness :
  exists s pd s', allocuvm ex_end pd 5000 20000 s = Ret 20000 s' /\
    exists pa, translate (k_mem s') pd 19999 = Some (pa, 7) /\ k_mem s' (KERNBASE + pa) = 0.
Proof.
  destruct boot_process as (s & pd & T & l & Hu & Hl & _). pose proof ex_end_ok as He.
  destruct (allocuvm_grows ex_end ltac:(lia) s pd T l 5000 20000 Hu ltac:(lia) ltac:(unfold KERNBASE; lia)
    ltac:(change (npg 20000 - npg 5000) with 3; lia)) as (s' & T' & l' & R & _ & _ & _ & Hz).
  exists s, pd, s'. split; [done|]. apply Hz. change (npg 5000) with 2. change (npg 20000) with 5. lia.
Defined.

Lemma deallocuvm_frees_witness :
  exists s pd s', deallocuvm ex_end pd 8192 100 s = Ret 100 s' /\ translate (k_mem s') pd 5000 = None.
Proof.
  destruct boot_process as (s & pd & T & l & Hu & Hl & _). pose proof ex_end_ok as He.
  destruct (deallocuvm_frees ex_end ltac:(lia) s pd T l 8192 100 Hu ltac:(lia) ltac:(unfold KERNBASE; lia))
    as (s' & F & R & _ & _ & Ht & _).
  exists s, pd, s'. split; [done|]. rewrite Ht by (unfold is_va; lia). reflexivity.
Defined.

Lemma freevm_releases_witness :
  exists s pd s' l', freevm ex_end pd s = Ret tt s' /\ kinv ex_end s' l' /\ pd ∈ l'.
Proof.
  destruct boot_process as (s & pd & T & l & Hu & Hl & _). pose proof ex_end_ok as He.
  destruct (freevm_releases ex_end ltac:(lia) s pd T l 2 Hu) as (s' & l' & R & Hk & Hin & _).
  exists s, pd, s', l'. split; [done|]. split; [done|]. apply Hin. right. by left.
Defined.

Lemma setupkvm_maps_witness :
  exists s d s', setupkvm ex_data s = Ret d s' /\ d <> 0 /\ translate (k_mem s') d 0x80100000 = Some (0x100000, 1).
Proof.
  destruct boot_free as (s & l & Hk & Hl).
  destruct (setupkvm_maps ex_end ex_data s l ex_data_ok Hk) as (d & s' & R & [[_ H]|[Hd Ht]]); [lia|].
  exists s, d, s'. split; [done|]. split; [done|]. rewrite Ht by (unfold is_va; lia). reflexivity.
Defined.

Lemma copyuvm_copies_witness :
  exists s pd d s', copyuvm ex_end ex_data pd 8192 s = Ret d s' /\ d <> 0 /\
    exists pa pa', translate (k_mem s') pd 5000 = Some (pa, 7) /\ translate (k_mem s') d 5000 = Some (pa', 7) /\
      k_mem s' (KERNBASE + pa') = k_mem s' (KERNBASE + pa).
Proof.
  destruct boot_process as (s & pd & T & l & Hu & Hl & Hf). pose proof ex_end_ok as He.
  destruct (copyuvm_copies ex_end ex_data ltac:(lia) s pd T l 8192 ex_data_ok Hu ltac:(unfold KERNBASE; lia))
    as (d & s' & R & Hpar & [[_ H]|[Hd Hc]]); [change (npg 8192) with 2 in H; lia|].
  change (npg 8192) with 2 in *. destruct (Hc 5000 ltac:(lia)) as (pa & pa' & fl & E1 & E2 & Hb & _).
  destruct (Hpar 5000 ltac:(lia)) as [Et _]. destruct (Hf 5000 ltac:(lia)) as [pa0 E0].
  rewrite E1, E0 in Et. injection Et as _ ->. exists s, pd, d, s'. split; [done|]. split; [done|]. by exists pa, pa'.
Defined.

Lemma copyout_writes_witness :
  exists s pd s' T, copyout pd 4000 0x80100000 200 s = Ret 0 s' /\ ubyte (k_mem s') T 4100 = k_mem s 0x80100064.
Proof.
  destruct boot_process as (s & pd & T & l & Hu & Hl & Hf).
  destruct (copyout_writes ex_end s pd T l 2 4000 0x80100000 200 Hu ltac:(lia) ltac:(lia) ltac:(lia)) as (s' & R & _ & Hb).
  - intros v Hv. destruct (Hf v ltac:(lia)) as [pa E]. exists pa, 7. split; [done|]. vm_compute. done.
  - intros a k Ha Hk. destruct (u_page _ _ _ _ _ _ Hu k Hk) as ((_ & _ & H & _) & _). unfold page_of, ex_end in *. dlia.
  - exists s, pd, s', T. split; [done|]. destruct (Hb 4100 ltac:(lia)) as [_ ->]. reflexivity.
Defined.
