(* ===== verification/Pipe.v ===== *)
(** * Pipes (pipe.c)

    A pipe is a ring buffer of PIPESIZE bytes with 32-bit counters of the bytes
    ever read and written.  A run of pipewrite or piperead goes from taking the
    lock to releasing it, by returning or by sleeping; a sleeping writer resumes
    at the index it had reached.  The channels a run wakes are part of its
    result.  Section [Queue] shows that the counters and the ring implement a
    bounded queue, Section [System] is about any number of processes using one
    pipe. *)

From S2P Require Import Prelude.

Definition PIPESIZE : Z := 512.

Record pipe : Type := MkPipe {
  p_data : list Z; nread : Z; nwrite : Z; readopen : bool; writeopen : bool
}.

(** pipealloc's initialisation of the page [data]. *)
Definition pipe_init (data : list Z) : pipe := MkPipe data 0 0 true true.

(** [p->data[p->nwrite++ % PIPESIZE] = c] *)
Definition pipe_put (c : Z) (p : pipe) : pipe :=
  MkPipe (zset (p_data p) (nwrite p mod PIPESIZE) c) (nread p) (u32 (nwrite p + 1)) (readopen p) (writeopen p).

(** [p->nread++] *)
Definition pipe_skip (p : pipe) : pipe :=
  MkPipe (p_data p) (u32 (nread p + 1)) (nwrite p) (readopen p) (writeopen p).

(** How a run ends: a return value (with the bytes read), or sleep. *)
Inductive wout : Type := WRet (r : Z) | WSleep (i : Z).
Inductive rout : Type := RRet (r : Z) (bs : list Z) | RSleep.

Section Pipe.

(** The address of the pipe; the channels are the addresses of its counters. *)
Context (pa : Z).
Local Abbreviation ChPipeRead := (ChNread pa).
Local Abbreviation ChPipeWrite := (ChNwrite pa).

(** [rest] are the bytes of the buffer from index [i]. *)
Fixpoint pipewrite_loop (killed : bool) (n i : Z) (rest : list Z) (p : pipe) : wout * pipe * list chan :=
  match rest with
  | [] => (WRet n, p, [ChPipeRead])
  | c :: rest =>
      if nwrite p =? u32 (nread p + PIPESIZE) then
        if negb (readopen p) || killed then (WRet (-1), p, [])
        else (WSleep i, p, [ChPipeRead])
      else pipewrite_loop killed n (i + 1) rest (pipe_put c p)
  end.

(** pipewrite, entered with [i = 0] or resumed after a wakeup at index [i]. *)
Definition pipewrite (killed : bool) (addr : list Z) (n i : Z) (p : pipe) : wout * pipe * list chan :=
  pipewrite_loop killed n i (slice i (n - i) addr) p.

Fixpoint piperead_loop (cnt : nat) (p : pipe) (acc : list Z) : list Z * pipe :=
  match cnt with
  | O => (acc, p)
  | S cnt =>
      if nread p =? nwrite p then (acc, p)
      else piperead_loop cnt (pipe_skip p) (acc ++ [zget (p_data p) (nread p mod PIPESIZE)])
  end.

Definition piperead (killed : bool) (n : Z) (p : pipe) : rout * pipe * list chan :=
  if (nread p =? nwrite p) && writeopen p then
    if killed then (RRet (-1) [], p, []) else (RSleep, p, [])
  else
    let '(bs, p') := piperead_loop (Z.to_nat n) p [] in
    (RRet (zlen bs) bs, p', [ChPipeWrite]).

(** The third component tells whether the page is freed. *)
Definition pipeclose (writable : bool) (p : pipe) : pipe * list chan * bool :=
  let p' := if writable then MkPipe (p_data p) (nread p) (nwrite p) (readopen p) false
            else MkPipe (p_data p) (nread p) (nwrite p) false (writeopen p) in
  (p', [if writable then ChPipeRead else ChPipeWrite], negb (readopen p') && negb (writeopen p')).

(** ** The ring as a queue *)

Record pipe_ok (p : pipe) : Prop := {
  po_data : zlen (p_data p) = PIPESIZE;
  po_nread : is_u32 (nread p);
  po_nwrite : is_u32 (nwrite p);
  po_size : u32 (nwrite p - nread p) <= PIPESIZE
}.

Definition pipe_count (p : pipe) : Z := u32 (nwrite p - nread p).

Definition pipe_queue (p : pipe) : list Z :=
  (fun j => zget (p_data p) ((nread p + Z.of_nat j) mod PIPESIZE)) <$> seq 0 (Z.to_nat (pipe_count p)).

Section Queue.

Ltac u32s := unfold pipe_count in *; cbn [nread nwrite p_data readopen writeopen pipe_put pipe_skip] in *;
  unfold u32, is_u32, PIPESIZE in *.

Lemma pipe_count_range p : pipe_ok p -> 0 <= pipe_count p <= PIPESIZE.
Proof. intros [_ _ _ H]. unfold pipe_count. pose proof (u32_range (nwrite p - nread p)). unfold is_u32 in *. lia. Qed.

Lemma zlen_queue p : pipe_ok p -> zlen (pipe_queue p) = pipe_count p.
Proof.
  intros H. pose proof (pipe_count_range p H). unfold zlen, pipe_queue. rewrite length_fmap, length_seq. lia.
Qed.

Lemma lookup_queue p (j : nat) :
  pipe_ok p -> Z.of_nat j < pipe_count p -> pipe_queue p !! j = Some (zget (p_data p) ((nread p + Z.of_nat j) mod PIPESIZE)).
Proof. intros H Hj. unfold pipe_queue. rewrite list_lookup_fmap, lookup_seq_lt by lia. done. Qed.

(** The two tests of the code, and the effect of its two updates. *)
Lemma pipe_full p : pipe_ok p -> (nwrite p =? u32 (nread p + PIPESIZE)) = (zlen (pipe_queue p) =? PIPESIZE).
Proof. intros H. rewrite zlen_queue by done. destruct H. apply eq_true_iff_eq. rewrite !Z.eqb_eq. u32s. dlia. Qed.

Lemma pipe_empty p : pipe_ok p -> (nread p =? nwrite p) = (zlen (pipe_queue p) =? 0).
Proof. intros H. rewrite zlen_queue by done. destruct H. apply eq_true_iff_eq. rewrite !Z.eqb_eq. u32s. dlia. Qed.

Lemma pipe_put_ok p c : pipe_ok p -> zlen (pipe_queue p) < PIPESIZE -> pipe_ok (pipe_put c p).
Proof.
  intros H. rewrite zlen_queue by done. intros Hl. destruct H as [Hd Hr Hw Hs]. constructor; cbn [pipe_put p_data nread nwrite].
  - unfold zlen, zset in *. by rewrite length_insert.
  - done.
  - apply u32_range.
  - u32s. dlia.
Qed.

Lemma pipe_put_queue p c :
  pipe_ok p -> zlen (pipe_queue p) < PIPESIZE -> pipe_queue (pipe_put c p) = pipe_queue p ++ [c].
Proof.
  intros H Hl. pose proof (pipe_put_ok p c H Hl) as H'. rewrite zlen_queue in Hl by done.
  pose proof (pipe_count_range p H) as Hc.
  assert (Ec : pipe_count (pipe_put c p) = pipe_count p + 1) by (destruct H; u32s; dlia).
  assert (Hnw : nwrite p mod PIPESIZE = (nread p + pipe_count p) mod PIPESIZE) by (destruct H; u32s; dlia).
  assert (Hpm : 0 <= nwrite p mod PIPESIZE < PIPESIZE) by (unfold PIPESIZE; dlia).
  apply list_eq. intros j. destruct (decide (Z.of_nat j < pipe_count p + 1)) as [Hj|Hj].
  - rewrite lookup_queue by (done || lia). cbn [pipe_put p_data nread].
    destruct (decide (Z.of_nat j < pipe_count p)) as [Hj2|Hj2].
    + rewrite lookup_app_l by (apply Nat2Z.inj_lt; fold (zlen (pipe_queue p)); rewrite zlen_queue by done; lia).
      rewrite lookup_queue by done. f_equal. apply zget_zset_ne; [lia|unfold PIPESIZE; dlia|].
      rewrite Hnw. unfold PIPESIZE in *. dlia.
    + assert (Ej : Z.of_nat j = pipe_count p) by lia. rewrite lookup_app_r by (apply Nat2Z.inj_le; fold (zlen (pipe_queue p)); rewrite zlen_queue by done; lia).
      replace (j - length (pipe_queue p))%nat with 0%nat by (pose proof (zlen_queue p H); unfold zlen in *; lia). cbn.
      rewrite Ej, <- Hnw, zget_zset_eq; [done|]. by rewrite (po_data p H).
  - pose proof (zlen_queue p H). pose proof (zlen_queue _ H'). unfold zlen in *.
    rewrite !lookup_ge_None_2; [done|rewrite length_app; cbn; lia|lia].
Qed.

Lemma pipe_skip_ok p : pipe_ok p -> pipe_queue p <> [] -> pipe_ok (pipe_skip p).
Proof.
  intros H Hne. assert (Hl : 0 < pipe_count p).
  { rewrite <- zlen_queue by done. destruct (pipe_queue p); [done|]. unfold zlen. cbn. lia. }
  destruct H as [Hd Hr Hw Hs]. constructor; cbn [pipe_skip p_data nread nwrite]; [done|apply u32_range|done|]. u32s. dlia.
Qed.

Lemma pipe_skip_queue p :
  pipe_ok p -> pipe_queue p <> [] -> pipe_queue p = zget (p_data p) (nread p mod PIPESIZE) :: pipe_queue (pipe_skip p).
Proof.
  intros H Hne. pose proof (pipe_skip_ok p H Hne) as H'. pose proof (pipe_count_range p H) as Hc.
  assert (Hl : 0 < pipe_count p).
  { rewrite <- zlen_queue by done. destruct (pipe_queue p); [done|]. unfold zlen. cbn. lia. }
  assert (Ec : pipe_count (pipe_skip p) = pipe_count p - 1) by (destruct H; u32s; dlia).
  unfold pipe_queue. rewrite Ec. replace (Z.to_nat (pipe_count p)) with (S (Z.to_nat (pipe_count p - 1))) by lia.
  cbn [seq]. rewrite fmap_cons, Z.add_0_r. f_equal. rewrite <- seq_shift, List.map_map.
  apply list_fmap_ext. intros _ j _. cbn [pipe_skip p_data nread]. f_equal. destruct H. u32s. dlia.
Qed.

End Queue.

(** ** Runs of pipewrite and piperead as queue operations *)

(** How a run of pipewrite relates to the queue: it appends a first part of the
    bytes and stops when all are in or the queue is full. *)
Definition wrote_spec (killed : bool) (n i : Z) (rest : list Z) (p : pipe) (o : wout) (p' : pipe) (w : list chan) (k : nat) : Prop :=
  pipe_ok p' /\ pipe_queue p' = pipe_queue p ++ take k rest /\ (k <= length rest)%nat /\
  readopen p' = readopen p /\ writeopen p' = writeopen p /\
  (o = WRet n /\ k = length rest /\ w = [ChPipeRead] \/
   zlen (pipe_queue p') = PIPESIZE /\ (k < length rest)%nat /\
     (o = WRet (-1) /\ (readopen p = false \/ killed = true) /\ w = [] \/
      o = WSleep (i + Z.of_nat k) /\ readopen p = true /\ killed = false /\ w = [ChPipeRead])).

Lemma pipewrite_loop_spec killed n rest i p :
  pipe_ok p -> exists o p' w k, pipewrite_loop killed n i rest p = (o, p', w) /\ wrote_spec killed n i rest p o p' w k.
Proof.
  revert i p. induction rest as [|c rest IH]; intros i p Hp; cbn [pipewrite_loop].
  - exists (WRet n), p, [ChPipeRead], 0%nat. split; [done|]. unfold wrote_spec. rewrite app_nil_r. split_and!; auto.
  - rewrite pipe_full by done. destruct (Z.eqb_spec (zlen (pipe_queue p)) PIPESIZE) as [Hf|Hf].
    + destruct (negb (readopen p) || killed) eqn:E; [exists (WRet (-1)), p, [], 0%nat|exists (WSleep i), p, [ChPipeRead], 0%nat];
        (split; [done|]; unfold wrote_spec; cbn [take length]; rewrite app_nil_r; split_and!; auto; [lia|right; split_and!; auto; [lia|]]).
      * left. split_and!; auto. destruct (readopen p); [right|left]; done.
      * right. rewrite Z.add_0_r. by destruct (readopen p), killed.
    + pose proof (pipe_count_range p Hp) as Hc. rewrite <- zlen_queue in Hc by done.
      assert (Hl : zlen (pipe_queue p) < PIPESIZE) by lia.
      destruct (IH (i + 1) (pipe_put c p) (pipe_put_ok p c Hp Hl)) as (o & p' & w & k & E & Hok & Hq & Hk & Hr & Hw & Ho).
      exists o, p', w, (S k). split; [done|]. unfold wrote_spec. cbn [take length].
      rewrite Hq, pipe_put_queue, <- app_assoc by done. split_and!; auto; [lia|].
      destruct Ho as [(-> & -> & ->)|(Hfull & Hlt & Ho)]; [by left|right].
      rewrite Hq, pipe_put_queue, <- app_assoc in Hfull by done. split_and!; [done|lia|].
      destruct Ho as [H|(-> & H)]; [by left|right]. split; [f_equal; lia|done].
Qed.

Lemma piperead_loop_spec cnt p acc :
  pipe_ok p ->
  let bs := take cnt (pipe_queue p) in
  exists p', piperead_loop cnt p acc = (acc ++ bs, p') /\ pipe_ok p' /\ pipe_queue p' = drop cnt (pipe_queue p) /\
    readopen p' = readopen p /\ writeopen p' = writeopen p.
Proof.
  revert p acc. induction cnt as [|cnt IH]; intros p acc Hp; cbn [piperead_loop take drop].
  - exists p. by rewrite app_nil_r.
  - rewrite pipe_empty by done. destruct (pipe_queue p) as [|c q] eqn:Eq; cbn.
    + exists p. rewrite Eq, app_nil_r. done.
    + assert (Hne : pipe_queue p <> []) by (rewrite Eq; done).
      pose proof (pipe_skip_queue p Hp Hne) as E. rewrite Eq in E. injection E as -> ->.
      destruct (IH (pipe_skip p) (acc ++ [zget (p_data p) (nread p mod PIPESIZE)]) (pipe_skip_ok p Hp Hne))
        as (p' & E & Hok & Hq & Hr & Hw).
      exists p'. rewrite E, <- app_assoc. split_and!; auto.
Qed.

(** ** Processes sharing a pipe *)

Inductive thread : Type :=
| TIdle
| TWrite (n i : Z) (rest : list Z) (asleep : bool)
| TRead (n : Z) (asleep : bool).

(** [wakeup] makes every process asleep on a channel runnable. *)
Definition wake_on (w : list chan) (t : thread) : thread :=
  match t with
  | TWrite n i rest true => TWrite n i rest (negb (bool_decide (ChPipeWrite ∈ w)))
  | TRead n true => TRead n (negb (bool_decide (ChPipeRead ∈ w)))
  | _ => t
  end.

(** The pipe, the processes, and the bytes put in and taken out so far. *)
Record psys : Type := MkPsys { ps_pipe : pipe; ps_threads : list thread; ps_sent : list Z; ps_recv : list Z }.

Definition wrote_status (n : Z) (i : Z) (rest : list Z) (o : wout) : thread :=
  match o with
  | WRet _ => TIdle
  | WSleep i' => TWrite n i' (drop (Z.to_nat (i' - i)) rest) true
  end.

(** The number of bytes a run has put in. *)
Definition put_count (p p' : pipe) : nat := Z.to_nat (u32 (nwrite p' - nwrite p)).

Definition reading (t : thread) : bool := match t with TRead _ _ => true | _ => false end.
Definition writing (t : thread) : bool := match t with TWrite _ _ _ _ => true | _ => false end.

(** Steps of the system.  A process calls with an open end; the end of a pipe is
    closed only when no process is in a call on it (the file table counts
    references); [kill] makes a sleeping process runnable.  [kills] tells
    whether a run of pipewrite may find its process killed. *)
Inductive pstep (kills : bool) : psys -> psys -> Prop :=
| PCallWrite p ts sent recv t addr n :
    ts !! t = Some TIdle -> writeopen p = true -> 0 <= n <= zlen addr ->
    pstep kills (MkPsys p ts sent recv) (MkPsys p (<[t := TWrite n 0 (slice 0 n addr) false]> ts) sent recv)
| PCallRead p ts sent recv t n :
    ts !! t = Some TIdle -> readopen p = true -> 0 <= n ->
    pstep kills (MkPsys p ts sent recv) (MkPsys p (<[t := TRead n false]> ts) sent recv)
| PRunWrite p ts sent recv t n i rest killed o p' w :
    ts !! t = Some (TWrite n i rest false) -> (killed = true -> kills = true) ->
    pipewrite_loop killed n i rest p = (o, p', w) ->
    pstep kills (MkPsys p ts sent recv)
      (MkPsys p' (<[t := wrote_status n i rest o]> (wake_on w <$> ts)) (sent ++ take (put_count p p') rest) recv)
| PRunRead p ts sent recv t n killed r bs p' w :
    ts !! t = Some (TRead n false) -> piperead killed n p = (RRet r bs, p', w) ->
    pstep kills (MkPsys p ts sent recv) (MkPsys p' (<[t := TIdle]> (wake_on w <$> ts)) sent (recv ++ bs))
| PSleepRead p ts sent recv t n killed p' w :
    ts !! t = Some (TRead n false) -> piperead killed n p = (RSleep, p', w) ->
    pstep kills (MkPsys p ts sent recv) (MkPsys p' (<[t := TRead n true]> (wake_on w <$> ts)) sent recv)
| PKill p ts sent recv t :
    pstep kills (MkPsys p ts sent recv) (MkPsys p (alter (wake_on [ChPipeRead; ChPipeWrite]) t ts) sent recv)
| PClose p ts sent recv (writable : bool) p' w freed :
    (forall t, t ∈ ts -> if writable then writing t = false else reading t = false) ->
    pipeclose writable p = (p', w, freed) ->
    pstep kills (MkPsys p ts sent recv) (MkPsys p' (wake_on w <$> ts) sent recv).

(** The bytes taken out, followed by those in the ring, are the bytes put in. *)
Definition streams (s : psys) : Prop :=
  pipe_ok (ps_pipe s) /\ ps_sent s = ps_recv s ++ pipe_queue (ps_pipe s).

(** A sleeper's reason to sleep still holds: a writer sleeps on a full pipe that can
    be read, a reader on an empty one that can be written; and a process is in a call
    only on an open end. *)
Definition justified (p : pipe) (t : thread) : Prop :=
  match t with
  | TIdle => True
  | TWrite _ _ _ asleep => writeopen p = true /\ (asleep = true -> zlen (pipe_queue p) = PIPESIZE /\ readopen p = true)
  | TRead _ asleep => readopen p = true /\ (asleep = true -> pipe_queue p = [] /\ writeopen p = true)
  end.

Lemma put_count_eq killed n i rest p o p' w k :
  pipe_ok p -> pipewrite_loop killed n i rest p = (o, p', w) -> wrote_spec killed n i rest p o p' w k -> put_count p p' = k.
Proof.
  intros Hp E (Hok & Hq & Hk & _).
  assert (Hnr : nread p' = nread p).
  { clear -E. revert i p E. induction rest as [|c rest IH]; intros i p E; cbn [pipewrite_loop] in E; [by simplify_eq|].
    destruct (_ =? _); [destruct (_ || _); by simplify_eq|]. by apply IH in E. }
  apply (f_equal (@length Z)) in Hq. rewrite length_app, length_take in Hq.
  pose proof (zlen_queue p Hp). pose proof (zlen_queue p' Hok). pose proof (pipe_count_range p Hp). pose proof (pipe_count_range p' Hok).
  destruct Hp, Hok. unfold put_count, zlen, pipe_count, u32, is_u32, PIPESIZE in *. rewrite Hnr in *. dlia.
Qed.

Lemma piperead_spec killed n p o p' w :
  pipe_ok p -> piperead killed n p = (o, p', w) ->
  pipe_ok p' /\ readopen p' = readopen p /\ writeopen p' = writeopen p /\
  match o with
  | RSleep => p' = p /\ pipe_queue p = [] /\ writeopen p = true
  | RRet r bs => pipe_queue p = bs ++ pipe_queue p' /\
      (w = [ChPipeWrite] /\ bs = take (Z.to_nat n) (pipe_queue p) /\ r = zlen bs \/ p' = p /\ w = [] /\ pipe_queue p = [] /\ killed = true)
  end.
Proof.
  intros Hp. unfold piperead. rewrite pipe_empty by done.
  destruct ((zlen (pipe_queue p) =? 0) && writeopen p) eqn:E.
  - assert (Eq : pipe_queue p = []) by (destruct (pipe_queue p); [done|unfold zlen in E; cbn in E; lia]).
    assert (Ew : writeopen p = true) by (by destruct (writeopen p); [|rewrite andb_false_r in E]).
    destruct killed; intros [= <- <- <-]; rewrite ?Eq; split_and!; auto.
  - destruct (piperead_loop_spec (Z.to_nat n) p [] Hp) as (p1 & -> & Hok & Hq & Hr & Hw).
    intros [= <- <- <-]. split_and!; auto. rewrite Hq. cbn [app]. by rewrite take_drop.
Qed.

Lemma pstep_streams kills s s' : pstep kills s s' -> streams s -> streams s'.
Proof.
  intros Hs [Hok Hst]. destruct Hs as [| |p ts sent recv t n i rest killed o p' w Ht _ E|p ts sent recv t n killed r bs p' w Ht E
    |p ts sent recv t n killed p' w Ht E| |p ts sent recv writable p' w freed _ E]; unfold streams in *; cbn [ps_pipe ps_sent ps_recv] in *; auto.
  - destruct (pipewrite_loop_spec killed n rest i p Hok) as (o1 & p1 & w1 & k & E1 & Hspec).
    rewrite E in E1. injection E1 as <- <- <-. rewrite (put_count_eq _ _ _ _ _ _ _ _ k Hok E Hspec).
    destruct Hspec as (Hok' & Hq & _). split; [done|]. by rewrite Hst, Hq, app_assoc.
  - destruct (piperead_spec _ _ _ _ _ _ Hok E) as (Hok' & _ & _ & Hq & _). split; [done|]. by rewrite Hst, Hq, app_assoc.
  - destruct (piperead_spec _ _ _ _ _ _ Hok E) as (Hok' & _ & _ & -> & _). done.
  - unfold pipeclose in E. injection E as <- _ _. destruct writable; split; try done; destruct Hok; by constructor.
Qed.

Lemma pipe_queue_open p r w : pipe_queue (MkPipe (p_data p) (nread p) (nwrite p) r w) = pipe_queue p.
Proof. done. Qed.

Lemma justified_wake w p t : justified p t -> justified p (wake_on w t).
Proof. destruct t as [|n i rest []|n []]; cbn; auto; intros [H1 H2]; split; auto. Qed.

(** A run that wakes the sleepers whose reason it may have removed. *)
Lemma justified_run (w : list chan) p p' t :
  readopen p' = readopen p -> writeopen p' = writeopen p ->
  (ChPipeRead ∈ w \/ (pipe_queue p = [] -> pipe_queue p' = [])) ->
  (ChPipeWrite ∈ w \/ (zlen (pipe_queue p) = PIPESIZE -> zlen (pipe_queue p') = PIPESIZE)) ->
  justified p t -> justified p' (wake_on w t).
Proof.
  intros Hr Hw H1 H2. destruct t as [|n i rest []|n []]; cbn; rewrite ?Hr, ?Hw; auto; intros [Ho Hq]; split; auto; try done.
  - intros Hb%negb_true_iff%bool_decide_eq_false. destruct H2 as [|H2]; [done|]. destruct (Hq eq_refl). auto.
  - intros Hb%negb_true_iff%bool_decide_eq_false. destruct H1 as [|H1]; [done|]. destruct (Hq eq_refl). auto.
Qed.

Definition settled_threads (s : psys) : Prop := Forall (justified (ps_pipe s)) (ps_threads s).

Lemma pstep_settled s s' : pstep false s s' -> streams s -> settled_threads s -> settled_threads s'.
Proof.
  intros Hs [Hok _] Hj. unfold settled_threads in *. destruct Hs as [p ts sent recv t addr n Ht Hw Hn|p ts sent recv t n Ht Hr Hn
    |p ts sent recv t n i rest killed o p' w Ht Hk E|p ts sent recv t n killed r bs p' w Ht E
    |p ts sent recv t n killed p' w Ht E|p ts sent recv t|p ts sent recv writable p' w freed Hcl E]; cbn [ps_pipe ps_threads] in *.
  - apply Forall_insert; [done|]. by split.
  - apply Forall_insert; [done|]. by split.
  - destruct killed; [by specialize (Hk eq_refl)|]. destruct (pipewrite_loop_spec false n rest i p Hok) as (o1 & p1 & w1 & k & E1 & Hspec).
    rewrite E in E1. injection E1 as <- <- <-. destruct Hspec as (Hok' & Hq & Hkl & Hr & Hw & Ho).
    pose proof (Forall_lookup_1 _ _ _ _ Hj Ht) as [Hwo _].
    assert (Hfull : zlen (pipe_queue p) = PIPESIZE -> zlen (pipe_queue p') = PIPESIZE).
    { intros Hf. pose proof (pipe_count_range _ Hok') as Hc. rewrite <- zlen_queue in Hc by done.
      rewrite Hq, zlen_app in *. pose proof (zlen_nonneg (take k rest)). lia. }
    apply Forall_insert.
    + rewrite Forall_fmap. eapply Forall_impl; [exact Hj|]. intros t' Hjt. cbn.
      destruct Ho as [(_ & _ & ->)|(Hf & _ & [(_ & [Hro|] & ->)|(_ & _ & _ & ->)])]; [| |done|].
      * apply (justified_run _ p); auto. left. left.
      * destruct t' as [|n' i' rest' a|n' a]; [done| |by destruct Hjt; congruence].
        destruct Hjt as [Hwt Hft]. destruct a; [destruct (Hft eq_refl); congruence|]. cbn. rewrite Hw. by split.
      * apply (justified_run _ p); auto. left. left.
    + destruct Ho as [(-> & _)|(Hf & _ & [(-> & _)|(-> & Hro & _)])]; cbn; auto. rewrite Hw, Hr. done.
  - destruct (piperead_spec _ _ _ _ _ _ Hok E) as (Hok' & Hr & Hw & Hq & Ho).
    apply Forall_insert; [|done]. rewrite Forall_fmap. eapply Forall_impl; [exact Hj|]. intros t' Hjt. cbn.
    apply (justified_run _ p); auto; destruct Ho as [(-> & _)|(-> & -> & _)]; auto.
    + right. intros He. rewrite He in Hq. symmetry in Hq. by apply app_eq_nil in Hq as [_ ?].
    + left. left.
  - destruct (piperead_spec _ _ _ _ _ _ Hok E) as (Hok' & Hr & Hw & -> & Hemp & Hwo).
    pose proof (Forall_lookup_1 _ _ _ _ Hj Ht) as [Hro _].
    apply Forall_insert; [|by split]. rewrite Forall_fmap. eapply Forall_impl; [exact Hj|]. intros t' Hjt. by apply justified_wake.
  - apply Forall_alter; [done|]. intros t' _ Hjt. by apply justified_wake.
  - unfold pipeclose in E. injection E as <- <- _. rewrite Forall_fmap, Forall_forall in *. intros t' Ht'. cbn.
    specialize (Hj t' Ht'). specialize (Hcl t' Ht'). destruct writable, t' as [|n i rest []|n []]; cbn in *; try done; destruct Hj; split; auto; try done;
      intros Hb%negb_true_iff%bool_decide_eq_false; destruct Hb; left.
Qed.

(** The state after pipealloc: an empty pipe and [k] idle processes. *)
Definition psys0 (data : list Z) (k : nat) : psys := MkPsys (pipe_init data) (replicate k TIdle) [] [].

Lemma psys0_streams data k : zlen data = PIPESIZE -> streams (psys0 data k).
Proof. intros Hd. split; [|done]. constructor; [done|unfold is_u32; cbn; lia..|vm_compute; done]. Qed.

Lemma psteps_streams kills s s' : rtc (pstep kills) s s' -> streams s -> streams s'.
Proof. induction 1; eauto using pstep_streams. Qed.

Lemma psteps_settled s s' : rtc (pstep false) s s' -> streams s -> settled_threads s -> settled_threads s'.
Proof. induction 1; eauto using pstep_streams, pstep_settled. Qed.

(** C11: a pipe is a first-in first-out byte stream.  In every interleaving of
    reads and writes by any number of processes, with sleeping, waking, killing
    and closing, and however often the 32-bit counters wrap around, the bytes
    the readers have received are a prefix of the bytes the writers have put
    in, and at most PIPESIZE bytes are in between. *)
Theorem pipe_fifo kills data k s :
  zlen data = PIPESIZE -> rtc (pstep kills) (psys0 data k) s ->
  exists rest, ps_sent s = ps_recv s ++ rest /\ rest = pipe_queue (ps_pipe s) /\ zlen rest <= PIPESIZE.
Proof.
  intros Hd Hs. destruct (psteps_streams _ _ _ Hs (psys0_streams data k Hd)) as [Hok Hst].
  exists (pipe_queue (ps_pipe s)). split_and!; auto. rewrite zlen_queue by done. by apply pipe_count_range.
Qed.

(** C28: readers and writers never block each other.  As long as no process
    inside pipewrite is killed, in every reachable state a writer sleeps only while
    the pipe is full and its read end open, and a reader only while it is empty and
    its write end open, so no process sleeps after the other end is closed; a
    sleeping writer and a sleeping reader do not occur together; while a writer
    sleeps, any read of at least one byte returns bytes and wakes the writers; while
    a reader sleeps, any write of at least one byte puts bytes in and wakes the
    readers. *)
Theorem pipe_no_deadlock data k s t :
  zlen data = PIPESIZE -> rtc (pstep false) (psys0 data k) s -> t ∈ ps_threads s ->
  match t with
  | TWrite _ _ _ true =>
      zlen (pipe_queue (ps_pipe s)) = PIPESIZE /\ readopen (ps_pipe s) = true /\
      (forall n, TRead n true ∉ ps_threads s) /\
      forall n, 0 < n -> exists bs p' r, piperead false n (ps_pipe s) = (RRet r bs, p', [ChPipeWrite]) /\ 0 < r /\ r = zlen bs
  | TRead _ true =>
      pipe_queue (ps_pipe s) = [] /\ writeopen (ps_pipe s) = true /\
      (forall n i rest, TWrite n i rest true ∉ ps_threads s) /\
      forall n c rest, exists o p', pipewrite_loop false n 0 (c :: rest) (ps_pipe s) = (o, p', [ChPipeRead]) /\ pipe_queue p' <> []
  | _ => True
  end.
Proof.
  intros Hd Hs Ht. pose proof (psys0_streams data k Hd) as H0.
  destruct (psteps_streams _ _ _ Hs H0) as [Hok _].
  assert (Hj : settled_threads s).
  { apply (psteps_settled _ _ Hs H0). unfold settled_threads. cbn. apply Forall_replicate. done. }
  unfold settled_threads in Hj. rewrite Forall_forall in Hj. pose proof (Hj t Ht) as Hjt.
  destruct t as [|n i rest []|n []]; cbn in Hjt; auto; destruct Hjt as [Ho Hq]; destruct (Hq eq_refl) as [Hq' Hopen]; clear Hq; rename Hq' into Hq; (split; [done|]; split; [done|]).
  - split.
    + intros n' Hin. destruct (Hj _ Hin) as [_ He]. destruct (He eq_refl) as [He' _]. by rewrite He' in Hq.
    + intros n' Hn'. destruct (piperead false n' (ps_pipe s)) as [[o p'] w] eqn:E.
      destruct (piperead_spec _ _ _ _ _ _ Hok E) as (_ & _ & _ & Hspec). destruct o as [r bs|].
      * destruct Hspec as (Heq & [(-> & Hb & ->)|(_ & _ & He & _)]); [|by rewrite He in Hq].
        exists bs, p', (zlen bs). split_and!; auto. subst bs. unfold zlen in *. rewrite length_take. unfold PIPESIZE in Hq. lia.
      * destruct Hspec as (_ & He & _). by rewrite He in Hq.
  - split.
    + intros n' i rest Hin. destruct (Hj _ Hin) as [_ Hf]. destruct (Hf eq_refl) as [Hf' _]. by rewrite Hq in Hf'.
    + intros n' c rest. destruct (pipewrite_loop_spec false n' (c :: rest) 0 (ps_pipe s) Hok) as (o & p' & w & k' & E & Hspec).
      destruct Hspec as (_ & Hq' & _ & _ & _ & Hres). rewrite Hq in Hq'. cbn [app] in Hq'.
      assert (Hne : forall k'', (0 < k'')%nat -> take k'' (c :: rest) <> []) by (by intros [|]; [lia|]).
      destruct Hres as [(_ & -> & ->)|(Hf & _ & [(_ & [Hro|] & _)|(_ & _ & _ & ->)])]; [| |done|].
      * exists o, p'. rewrite Hq'. split; [done|]. apply Hne. cbn. lia.
      * congruence.
      * exists o, p'. split; [done|]. intros He. by rewrite He in Hf.
Qed.

(** a killed writer can leave readers asleep on a full pipe: a process that
    fills the pipe in one call and then finds itself killed returns -1 without
    waking the readers of the bytes it has put in. *)
Theorem killed_writer_strands_reader :
  exists s, rtc (pstep true) (psys0 (replicate 512 0) 2) s /\
    TRead 10 true ∈ ps_threads s /\ zlen (pipe_queue (ps_pipe s)) = PIPESIZE /\ writeopen (ps_pipe s) = true.
Proof.
  eexists. split.
  - eapply rtc_l; [by apply (PCallRead _ _ _ _ _ 0 10)|]. cbn [insert list_insert].
    eapply rtc_l; [by apply (PSleepRead _ _ _ _ _ 0 10 false (pipe_init (replicate 512 0)) [])|].
    eapply rtc_l; [apply (PCallWrite _ _ _ _ _ 1 (replicate 513 7) 513); [done|done|unfold zlen; rewrite length_replicate; lia]|].
    eapply rtc_l; [|apply rtc_refl].
    eapply (PRunWrite _ _ _ _ _ 1 513 0 (slice 0 513 (replicate 513 7)) true (WRet (-1))); [done|done|vm_compute; reflexivity].
  - vm_compute. split; [|done]. left.
Qed.

(** A short run: one process puts in three bytes, another takes out two. *)
Definition ex_pdata : list Z := replicate 512 0.

Definition ex_sent : psys :=
  let '(_, p', _) := pipewrite_loop false 3 0 [5; 6; 7] (pipe_init ex_pdata) in
  MkPsys p' [TIdle; TRead 2 false] [5; 6; 7] [].
Definition ex_received : psys :=
  let '(_, p', _) := piperead false 2 (ps_pipe ex_sent) in MkPsys p' [TIdle; TIdle] [5; 6; 7] [5; 6].

Lemma ex_pipe_run kills : rtc (pstep kills) (psys0 ex_pdata 2) ex_received.
Proof.
  eapply rtc_l; [by apply (PCallRead _ _ _ _ _ 1 2)|].
  eapply rtc_l; [apply (PCallWrite _ _ _ _ _ 0 [5; 6; 7] 3); [done|done|unfold zlen; cbn; lia]|].
  eapply rtc_l; [by eapply (PRunWrite _ _ _ _ _ 0 3 0 [5; 6; 7] false (WRet 3))|].
  eapply rtc_l; [by eapply (PRunRead _ _ _ _ _ 1 2 false 2 [5; 6])|]. apply rtc_refl.
Qed.

(** A reader that has gone to sleep on the empty pipe. *)
Definition ex_waiting : psys := MkPsys (pipe_init ex_pdata) [TIdle; TRead 2 true] [] [].

Lemma ex_waiting_run : rtc (pstep false) (psys0 ex_pdata 2) ex_waiting.
Proof.
  eapply rtc_l; [by apply (PCallRead _ _ _ _ _ 1 2)|].
  eapply rtc_l; [by eapply (PSleepRead _ _ _ _ _ 1 2 false _ [])|]. apply rtc_refl.
Qed.

End Pipe.

Lemma pipe_fifo_witness :
  exists rest, ps_sent (ex_received 0x80200000) = ps_recv (ex_received 0x80200000) ++ rest /\ rest = [7].
Proof.
  destruct (pipe_fifo 0x80200000 false ex_pdata 2 (ex_received 0x80200000) eq_refl (ex_pipe_run 0x80200000 false)) as (rest & H1 & H2 & _).
  exists rest. split; [exact H1|]. rewrite H2. vm_compute. reflexivity.
Defined.

Lemma pipe_no_deadlock_witness :
  exists o p', pipewrite_loop 0x80200000 false 1 0 [9] (ps_pipe ex_waiting) = (o, p', [ChNread 0x80200000]) /\ pipe_queue p' <> [].
Proof.
  destruct (pipe_no_deadlock 0x80200000 ex_pdata 2 ex_waiting (TRead 2 true) eq_refl (ex_waiting_run 0x80200000) ltac:(right; left)) as (_ & _ & _ & H).
  exact (H 1 9 []).
Defined.
