(* ===== verification/Spinlock.v ===== *)
(** * Spin locks (spinlock.h, spinlock.c)

    Each processor has its interrupt flag, the nesting depth of [pushcli] and
    the flag saved by the outermost one.  The lock's operations are atomic
    [xchg] instructions between plain loads and stores, so they are split into
    their steps, which the processors interleave in any order. *)

From S2P Require Import Prelude.

(** The call stack recorded for debugging is not represented. *)
Record spinlock : Type := MkLock { lk_locked : bool; lk_cpu : option nat }.
Definition initlock : spinlock := MkLock false None.

Record pcpu : Type := MkCpu { c_if : bool; c_ncli : Z; c_intena : bool }.

Definition holding (me : nat) (lk : spinlock) : bool := lk_locked lk && bool_decide (lk_cpu lk = Some me).

Definition pushcli (c : pcpu) : pcpu :=
  MkCpu false (c_ncli c + 1) (if c_ncli c =? 0 then c_if c else c_intena c).

Definition popcli (c : pcpu) : string + pcpu :=
  if c_if c then inl "popcli - interruptible"%string
  else
    let n := c_ncli c - 1 in
    if n <? 0 then inl "popcli"%string
    else inr (MkCpu (if (n =? 0) && c_intena c then true else c_if c) n (c_intena c)).

(** ** The processors

    Where a processor is: outside the lock routines, spinning in acquire, past
    acquire's xchg, in release past its test, or before release's popcli. *)
Inductive pc : Type := PRun | PAcq (l : nat) | PGot (l : nat) | PRel (l : nat) | PPop.

(** [m_nest] counts the pushcli calls of a processor made outside the lock
    routines and not yet undone. *)
Record mach : Type := MkMach { m_cpu : nat -> pcpu; m_pc : nat -> pc; m_nest : nat -> Z; m_locks : list spinlock }.

Definition upd {A} (f : nat -> A) (i : nat) (x : A) : nat -> A := fun j => if decide (j = i) then x else f j.

Inductive lstep : mach -> mach -> Prop :=
| LAcquire m me l lk :
    m_pc m me = PRun -> m_locks m !! l = Some lk -> holding me lk = false ->
    lstep m (MkMach (upd (m_cpu m) me (pushcli (m_cpu m me))) (upd (m_pc m) me (PAcq l)) (m_nest m) (m_locks m))
| LSpin m me l lk :
    m_pc m me = PAcq l -> m_locks m !! l = Some lk -> lk_locked lk = true -> lstep m m
| LXchg m me l lk :
    m_pc m me = PAcq l -> m_locks m !! l = Some lk -> lk_locked lk = false ->
    lstep m (MkMach (m_cpu m) (upd (m_pc m) me (PGot l)) (m_nest m) (<[l := MkLock true (lk_cpu lk)]> (m_locks m)))
| LRecord m me l lk :
    m_pc m me = PGot l -> m_locks m !! l = Some lk ->
    lstep m (MkMach (m_cpu m) (upd (m_pc m) me PRun) (m_nest m) (<[l := MkLock (lk_locked lk) (Some me)]> (m_locks m)))
| LRelease m me l lk :
    m_pc m me = PRun -> m_locks m !! l = Some lk -> holding me lk = true ->
    lstep m (MkMach (m_cpu m) (upd (m_pc m) me (PRel l)) (m_nest m) (<[l := MkLock (lk_locked lk) None]> (m_locks m)))
| LUnlock m me l lk :
    m_pc m me = PRel l -> m_locks m !! l = Some lk ->
    lstep m (MkMach (m_cpu m) (upd (m_pc m) me PPop) (m_nest m) (<[l := MkLock false (lk_cpu lk)]> (m_locks m)))
| LPop m me c :
    m_pc m me = PPop -> popcli (m_cpu m me) = inr c ->
    lstep m (MkMach (upd (m_cpu m) me c) (upd (m_pc m) me PRun) (m_nest m) (m_locks m))
(** pushcli and popcli called directly, properly nested, and the interrupt flag
    changed while no pushcli is in force. *)
| LPush m me :
    m_pc m me = PRun ->
    lstep m (MkMach (upd (m_cpu m) me (pushcli (m_cpu m me))) (m_pc m) (upd (m_nest m) me (m_nest m me + 1)) (m_locks m))
| LPopcli m me c :
    m_pc m me = PRun -> 0 < m_nest m me -> popcli (m_cpu m me) = inr c ->
    lstep m (MkMach (upd (m_cpu m) me c) (m_pc m) (upd (m_nest m) me (m_nest m me - 1)) (m_locks m))
| LFlag m me b :
    m_pc m me = PRun -> c_ncli (m_cpu m me) = 0 ->
    lstep m (MkMach (upd (m_cpu m) me (MkCpu b 0 (c_intena (m_cpu m me)))) (m_pc m) (m_nest m) (m_locks m)).

(** ** The invariant *)

(** The locks recorded as held by a processor, and what its position adds. *)
Definition held (me : nat) (ls : list spinlock) : Z := zlen (filter (fun lk => lk_cpu lk = Some me) ls).
Definition pc_depth (p : pc) : Z := match p with PRun => 0 | _ => 1 end.

(** A processor owns a lock from acquire's xchg to release's. *)
Definition owns (m : mach) (me l : nat) : Prop :=
  (exists lk, m_locks m !! l = Some lk /\ lk_cpu lk = Some me) \/ m_pc m me = PGot l \/ m_pc m me = PRel l.

Record lock_wf (m : mach) : Prop := {
  lw_depth : forall c, c_ncli (m_cpu m c) = held c (m_locks m) + pc_depth (m_pc m c) + m_nest m c;
  lw_nest : forall c, 0 <= m_nest m c;
  lw_if : forall c, 0 < c_ncli (m_cpu m c) -> c_if (m_cpu m c) = false;
  lw_lock : forall l lk, m_locks m !! l = Some lk -> lk_locked lk = true <-> exists c, owns m c l;
  lw_mutex : forall l c c', owns m c l -> owns m c' l -> c = c';
  lw_twice : forall l lk c, m_locks m !! l = Some lk -> lk_cpu lk = Some c -> m_pc m c <> PGot l /\ m_pc m c <> PRel l
}.

Lemma cpu_upd_eq {A} (f : nat -> A) i x : upd f i x i = x.
Proof. unfold upd. by rewrite decide_True. Qed.
Lemma cpu_upd_ne {A} (f : nat -> A) i j x : j <> i -> upd f i x j = f j.
Proof. intros. unfold upd. by rewrite decide_False. Qed.

Lemma held_insert me ls l lk lk' :
  ls !! l = Some lk ->
  held me (<[l := lk']> ls) = held me ls - (if decide (lk_cpu lk = Some me) then 1 else 0) + (if decide (lk_cpu lk' = Some me) then 1 else 0).
Proof.
  unfold held, zlen. revert l. induction ls as [|x ls IH]; intros [|l] H; [done..| |].
  - injection H as ->. change (<[0%nat := lk']> (lk :: ls)) with (lk' :: ls). rewrite !filter_cons. repeat case_decide; cbn [length]; lia.
  - change (<[S l := lk']> (x :: ls)) with (x :: <[l := lk']> ls). rewrite !filter_cons. specialize (IH l H). repeat case_decide; cbn [length] in *; lia.
Qed.

Lemma held_nonneg me ls : 0 <= held me ls.
Proof. apply zlen_nonneg. Qed.

Lemma held_pos me ls l lk : ls !! l = Some lk -> lk_cpu lk = Some me -> 0 < held me ls.
Proof.
  intros Hl Hc. assert (H := held_insert me ls l lk (MkLock false None) Hl). rewrite decide_True, decide_False in H by done.
  assert (H0 := held_nonneg me (<[l := MkLock false None]> ls)). lia.
Qed.

Lemma popcli_run c : 0 < c_ncli c -> c_if c = false ->
  exists c', popcli c = inr c' /\ c_ncli c' = c_ncli c - 1 /\ (0 < c_ncli c' -> c_if c' = false).
Proof.
  intros Hn Hi. unfold popcli. rewrite Hi, (proj2 (Z.ltb_ge _ _)) by lia. eexists. split; [done|]. cbn. split; [done|].
  intros H. rewrite (proj2 (Z.eqb_neq _ 0)) by lia. done.
Qed.

(** Steps of a processor outside the locks. *)
Lemma wf_cpu m me c k :
  lock_wf m -> c_ncli c = c_ncli (m_cpu m me) + k -> (0 < c_ncli c -> c_if c = false) -> 0 <= m_nest m me + k -> m_pc m me = PRun ->
  lock_wf (MkMach (upd (m_cpu m) me c) (m_pc m) (upd (m_nest m) me (m_nest m me + k)) (m_locks m)).
Proof.
  intros [Hd Hn Hi Hl Hm Ht] Hk Hc Hnk Hpc. constructor; cbn; auto.
  - intros j. destruct (decide (j = me)) as [->|Hne]; rewrite ?cpu_upd_eq, ?cpu_upd_ne by done; [|apply Hd]. rewrite Hk, Hd. lia.
  - intros j. destruct (decide (j = me)) as [->|Hne]; rewrite ?cpu_upd_eq, ?cpu_upd_ne by done; [lia|apply Hn].
  - intros j. destruct (decide (j = me)) as [->|Hne]; rewrite ?cpu_upd_eq, ?cpu_upd_ne by done; [done|apply Hi].
Qed.

Lemma upd_same {A} (f : nat -> A) i x j : x = f i -> upd f i x j = f j.
Proof. intros ->. unfold upd. case_decide; by subst. Qed.

(** Ownership after a processor has moved to [p'] and lock [l] become [lk']. *)
Lemma owns_upd m me cpu' nest' p' l lk lk' c j :
  m_locks m !! l = Some lk ->
  owns (MkMach cpu' (upd (m_pc m) me p') nest' (<[l := lk']> (m_locks m))) c j <->
  (if decide (j = l) then lk_cpu lk' = Some c else exists lk, m_locks m !! j = Some lk /\ lk_cpu lk = Some c) \/
  (if decide (c = me) then p' = PGot j \/ p' = PRel j else m_pc m c = PGot j \/ m_pc m c = PRel j).
Proof.
  intros Hl. unfold owns. cbn [m_locks m_pc]. assert (Hlt := lookup_lt_Some _ _ _ Hl).
  destruct (decide (c = me)) as [->|Hc]; rewrite ?cpu_upd_eq, ?cpu_upd_ne by done.
  all: destruct (decide (j = l)) as [->|Hj]; [rewrite list_lookup_insert_eq by done|rewrite list_lookup_insert_ne by done]; naive_solver.
Qed.

(** A processor moves to [p'] and changes lock [l], which it owns before or
    after. *)
Lemma wf_lock_step m me p' l lk lk' :
  lock_wf m -> m_locks m !! l = Some lk ->
  (forall c, c <> me -> lk_cpu lk <> Some c /\ lk_cpu lk' <> Some c) ->
  held me (<[l := lk']> (m_locks m)) + pc_depth p' = held me (m_locks m) + pc_depth (m_pc m me) ->
  (forall j, j <> l -> (p' = PGot j \/ p' = PRel j) <-> (m_pc m me = PGot j \/ m_pc m me = PRel j)) ->
  (lk_locked lk' = true <-> lk_cpu lk' = Some me \/ p' = PGot l \/ p' = PRel l) ->
  (lk_locked lk' = true -> forall c, c <> me -> ~ owns m c l) ->
  (lk_locked lk' = false -> owns m me l) ->
  (lk_cpu lk' = Some me -> p' = PRun) ->
  lock_wf (MkMach (m_cpu m) (upd (m_pc m) me p') (m_nest m) (<[l := lk']> (m_locks m))).
Proof.
  intros [Hd Hn Hi Hlw Hm Ht] Hl Hother Hdep Hj Hlk' Hex Hrel Hrun.
  assert (Hown := fun c j => owns_upd m me (m_cpu m) (m_nest m) p' l lk lk' c j Hl).
  assert (Hlt := lookup_lt_Some _ _ _ Hl).
  assert (Hl' : forall c, owns (MkMach (m_cpu m) (upd (m_pc m) me p') (m_nest m) (<[l := lk']> (m_locks m))) c l <-> c = me /\ lk_locked lk' = true).
  { intros c. rewrite Hown, decide_True by done. destruct (decide (c = me)) as [->|Hc]; [rewrite Hlk'; naive_solver|].
    destruct (Hother c Hc) as [Ho1 Ho2]. split; [|naive_solver]. intros [H|H]; [done|exfalso].
    assert (Hco : owns m c l) by (unfold owns; tauto). destruct (lk_locked lk') eqn:E; [by apply (Hex eq_refl c)|].
    by apply Hc, (Hm l c me), Hrel. }
  assert (Hj' : forall c j, j <> l -> owns (MkMach (m_cpu m) (upd (m_pc m) me p') (m_nest m) (<[l := lk']> (m_locks m))) c j <-> owns m c j).
  { intros c j Hne. rewrite Hown, decide_False by done. unfold owns. destruct (decide (c = me)) as [->|]; [|tauto]. rewrite (Hj j Hne). tauto. }
  constructor; cbn [m_cpu m_pc m_nest m_locks]; auto.
  - intros c. destruct (decide (c = me)) as [->|Hc]; [rewrite cpu_upd_eq, Hd; lia|]. rewrite cpu_upd_ne by done. rewrite Hd.
    rewrite (held_insert c _ l lk lk' Hl). destruct (Hother c Hc). rewrite !decide_False by done. lia.
  - intros j lkj Hlj. destruct (decide (j = l)) as [->|Hne].
    + rewrite list_lookup_insert_eq in Hlj by done. injection Hlj as <-. setoid_rewrite Hl'. naive_solver.
    + rewrite list_lookup_insert_ne in Hlj by done. rewrite (Hlw j lkj Hlj). split; intros [c Hc]; exists c; by apply Hj'.
  - intros j c c'. destruct (decide (j = l)) as [->|Hne]; [rewrite !Hl'; naive_solver|]. rewrite !Hj' by done. apply Hm.
  - intros j lkj c Hlj Hc. destruct (decide (j = l)) as [->|Hne].
    + rewrite list_lookup_insert_eq in Hlj by done. injection Hlj as <-. destruct (decide (c = me)) as [->|Hcm]; [rewrite cpu_upd_eq, Hrun; done|].
      by destruct (Hother c Hcm).
    + rewrite list_lookup_insert_ne in Hlj by done. destruct (Ht j lkj c Hlj Hc) as [H1 H2].
      destruct (decide (c = me)) as [->|Hcm]; [rewrite cpu_upd_eq|by rewrite cpu_upd_ne]. specialize (Hj j Hne). tauto.
Qed.

(** A processor moves between positions in which it owns nothing by position. *)
Lemma wf_pc m me c p' :
  lock_wf m -> c_ncli c = c_ncli (m_cpu m me) + pc_depth p' - pc_depth (m_pc m me) -> (0 < c_ncli c -> c_if c = false) ->
  (forall l, m_pc m me <> PGot l /\ m_pc m me <> PRel l /\ p' <> PGot l /\ p' <> PRel l) ->
  lock_wf (MkMach (upd (m_cpu m) me c) (upd (m_pc m) me p') (m_nest m) (m_locks m)).
Proof.
  intros [Hd Hn Hi Hlw Hm Ht] Hc Hci Hp.
  assert (Ho : forall j l, owns (MkMach (upd (m_cpu m) me c) (upd (m_pc m) me p') (m_nest m) (m_locks m)) j l <-> owns m j l).
  { intros j l. unfold owns. cbn [m_pc m_locks]. destruct (decide (j = me)) as [->|]; [|by rewrite cpu_upd_ne]. rewrite cpu_upd_eq. specialize (Hp l). tauto. }
  constructor; cbn [m_cpu m_pc m_nest m_locks]; auto.
  - intros j. destruct (decide (j = me)) as [->|]; rewrite ?cpu_upd_eq, ?cpu_upd_ne by done; [|apply Hd]. rewrite Hc, Hd. lia.
  - intros j. destruct (decide (j = me)) as [->|]; rewrite ?cpu_upd_eq, ?cpu_upd_ne by done; [done|apply Hi].
  - intros l lk Hl. rewrite (Hlw l lk Hl). by setoid_rewrite Ho.
  - intros l j j'. rewrite !Ho. apply Hm.
  - intros l lk j Hl Hj. destruct (decide (j = me)) as [->|]; rewrite ?cpu_upd_eq, ?cpu_upd_ne by done; [split; apply (Hp l)|by apply (Ht l lk)].
Qed.

Lemma unlocked_free m l lk : lock_wf m -> m_locks m !! l = Some lk -> lk_locked lk = false -> lk_cpu lk = None /\ forall c, ~ owns m c l.
Proof.
  intros W Hl Hf. assert (Hno : forall c, ~ owns m c l).
  { intros c Hc. assert (lk_locked lk = true) by (apply (lw_lock m W l lk Hl); eauto). congruence. }
  split; [|done]. destruct (lk_cpu lk) as [c|] eqn:E; [|done]. exfalso. apply (Hno c). left. eauto.
Qed.

Lemma holding_true me lk : holding me lk = true <-> lk_locked lk = true /\ lk_cpu lk = Some me.
Proof. unfold holding. by rewrite andb_true_iff, bool_decide_eq_true. Qed.

Lemma lock_wf_step m m' : lstep m m' -> lock_wf m -> lock_wf m'.
Proof.
  destruct 1 as [m me l lk Hpc Hl Hh|m me l lk Hpc Hl Hk|m me l lk Hpc Hl Hk|m me l lk Hpc Hl|m me l lk Hpc Hl Hh|m me l lk Hpc Hl|m me c Hpc Hp|m me Hpc|m me c Hpc Hn Hp|m me b Hpc Hn]; intros W.
  - apply wf_pc; rewrite ?Hpc; try done. cbn. lia.
  - done.
  - destruct (unlocked_free m l lk W Hl Hk) as [Hf Hno]. apply (wf_lock_step m me _ l lk); auto; cbn [lk_cpu lk_locked]; rewrite ?Hpc, ?Hf; try naive_solver.
    rewrite (held_insert me _ l lk _ Hl). cbn [lk_cpu]. rewrite !decide_False by congruence. cbn. lia.
  - assert (Ho : owns m me l) by (right; by left).
    assert (Hlk : lk_locked lk = true) by (apply (lw_lock m W l lk Hl); eauto).
    assert (Hno : lk_cpu lk = None).
    { destruct (lk_cpu lk) as [c|] eqn:E; [|done]. assert (Hc : owns m c l) by (left; eauto). assert (c = me) as -> by (by apply (lw_mutex m W l)).
      by destruct (lw_twice m W l lk me Hl E). }
    apply (wf_lock_step m me _ l lk); auto; cbn [lk_cpu lk_locked]; rewrite ?Hpc, ?Hno, ?Hlk; try naive_solver.
    + rewrite (held_insert me _ l lk _ Hl). cbn [lk_cpu]. rewrite decide_False, decide_True by congruence. cbn. lia.
    + intros _ c Hc Hco. by apply Hc, (lw_mutex m W l).
  - apply holding_true in Hh as [Hlk Hcpu]. assert (Ho : owns m me l) by (left; eauto).
    apply (wf_lock_step m me _ l lk); auto; cbn [lk_cpu lk_locked]; rewrite ?Hpc, ?Hcpu, ?Hlk; try naive_solver.
    + rewrite (held_insert me _ l lk _ Hl). cbn [lk_cpu]. rewrite decide_True, decide_False by congruence. cbn. lia.
    + intros _ c Hc Hco. by apply Hc, (lw_mutex m W l).
  - assert (Ho : owns m me l) by (right; by right).
    assert (Hno : lk_cpu lk = None).
    { destruct (lk_cpu lk) as [c|] eqn:E; [|done]. assert (Hc : owns m c l) by (left; eauto). assert (c = me) as -> by (by apply (lw_mutex m W l)).
      by destruct (lw_twice m W l lk me Hl E). }
    apply (wf_lock_step m me _ l lk); auto; cbn [lk_cpu lk_locked]; rewrite ?Hpc, ?Hno; try naive_solver.
    rewrite (held_insert me _ l lk _ Hl). cbn [lk_cpu]. rewrite !decide_False by congruence. cbn. lia.
  - assert (Hd := lw_depth m W me). rewrite Hpc in Hd. cbn in Hd. assert (H0 := held_nonneg me (m_locks m)). assert (H1 := lw_nest m W me).
    destruct (popcli_run (m_cpu m me)) as (c' & E & En & Ei); [lia|apply W; lia|]. rewrite E in Hp. injection Hp as <-.
    apply wf_pc; rewrite ?Hpc; try done. cbn. lia.
  - apply wf_cpu; auto. assert (H1 := lw_nest m W me). lia.
  - assert (Hd := lw_depth m W me). rewrite Hpc in Hd. cbn in Hd. assert (H0 := held_nonneg me (m_locks m)).
    destruct (popcli_run (m_cpu m me)) as (c' & E & En & Ei); [lia|apply W; lia|]. rewrite E in Hp. injection Hp as <-.
    apply (wf_cpu m me c' (-1)); auto; lia.
  - assert (Hd := lw_depth m W me). constructor; cbn; try apply W.
    + intros j. destruct (decide (j = me)) as [->|]; rewrite ?cpu_upd_eq, ?cpu_upd_ne by done; [cbn; lia|apply W].
    + intros j. destruct (decide (j = me)) as [->|]; rewrite ?cpu_upd_eq, ?cpu_upd_ne by done; [cbn; lia|apply W].
Qed.

(** The machine at start: no lock held, no pushcli in force. *)
Definition mach0 (ifs : nat -> bool) (n : nat) : mach :=
  MkMach (fun c => MkCpu (ifs c) 0 false) (fun _ => PRun) (fun _ => 0) (replicate n initlock).

Lemma mach0_wf ifs n : lock_wf (mach0 ifs n).
Proof.
  assert (Hno : forall c l, ~ owns (mach0 ifs n) c l).
  { intros c l [(lk & [-> _]%lookup_replicate & H)|[H|H]]; done. }
  constructor; cbn; try done; try lia.
  - intros c. unfold held. assert (E : filter (fun lk => lk_cpu lk = Some c) (replicate n initlock) = []).
    { induction n as [|n IH]; [done|]. cbn [replicate]. rewrite filter_cons_False by done. apply IH.
      intros c' l [(lk & [-> _]%lookup_replicate & H)|[H|H]]; done. }
    rewrite E. done.
  - intros l lk [-> _]%lookup_replicate. split; [done|]. intros [c Hc]. by destruct (Hno c l).
  - intros l c c' Hc. by destruct (Hno c l).
Qed.

(** C12: in every state the processors can reach, at most one of them is
    between acquire's and release's exchange on a lock; a processor that owns a
    lock runs with interrupts off; [holding] answers for the processor that
    completed acquire; and the popcli at the end of release does not panic. *)
Theorem spinlock_mutex ifs n m :
  rtc lstep (mach0 ifs n) m ->
  (forall l c c', owns m c l -> owns m c' l -> c = c') /\
  (forall l c, owns m c l -> c_if (m_cpu m c) = false) /\
  (forall l lk c, m_locks m !! l = Some lk -> holding c lk = true <-> lk_cpu lk = Some c) /\
  (forall c, m_pc m c = PPop -> exists c', popcli (m_cpu m c) = inr c').
Proof.
  intros Hr. assert (W : lock_wf m).
  { assert (W0 := mach0_wf ifs n). revert W0. induction Hr as [|m m1 m' Hs _ IH]; [done|]. intros W0. by apply IH, (lock_wf_step m). }
  split_and!.
  - apply W.
  - intros l c Ho. apply (lw_if m W c). rewrite (lw_depth m W c). assert (H1 := lw_nest m W c). assert (H0 := held_nonneg c (m_locks m)).
    destruct Ho as [(lk & Hl & Hc)|Ho]; [assert (H := held_pos c _ l lk Hl Hc); destruct (m_pc m c); cbn; lia|].
    destruct Ho as [-> | ->]; cbn; lia.
  - intros l lk c Hl. rewrite holding_true. split; [naive_solver|]. intros Hc. split; [|done].
    apply (lw_lock m W l lk Hl). exists c. left. eauto.
  - intros c Hpc. assert (Hd := lw_depth m W c). rewrite Hpc in Hd. cbn in Hd. assert (H1 := lw_nest m W c). assert (H0 := held_nonneg c (m_locks m)).
    destruct (popcli_run (m_cpu m c)) as (c' & E & _); [lia|apply W; lia|]. eauto.
Qed.

(** Processor 0 takes the lock while processor 1 spins. *)
Definition contended : mach :=
  MkMach (upd (upd (fun _ => MkCpu true 0 false) 0%nat (pushcli (MkCpu true 0 false))) 1%nat (pushcli (MkCpu true 0 false)))
    (upd (upd (upd (fun _ => PRun) 0%nat (PAcq 0)) 0%nat (PGot 0)) 1%nat (PAcq 0)) (fun _ => 0) [MkLock true None].

Lemma spinlock_mutex_witness : owns contended 0 0 /\ ~ owns contended 1 0.
Proof.
  assert (H0 : owns contended 0 0) by (right; left; reflexivity). split; [exact H0|]. intros H1.
  destruct (spinlock_mutex (fun _ => true) 1 contended) as (Hm & _); [|by specialize (Hm 0%nat 0%nat 1%nat H0 H1)].
  eapply rtc_l; [apply (LAcquire _ 0 0 initlock); reflexivity|]. eapply rtc_l; [apply (LXchg _ 0 0 initlock); reflexivity|].
  eapply rtc_l; [apply (LAcquire _ 1 0 (MkLock true None)); reflexivity|]. apply rtc_refl.
Defined.
