(* ===== verification/Ptable.v ===== *)
(** * The process table (proc.h, the critical sections of proc.c)

    proc.c changes the process table inside sections protected by
    [ptable.lock].  Each section is a function here; Sched.v lets any number of
    processors run them in any order.  The parts of fork, exit and
    wait outside the lock (memory, files) are in Proc.v. *)

From S2P Require Import Prelude.
From S2P Require Import Params.

Inductive procstate : Type := UNUSED | EMBRYO | SLEEPING | RUNNABLE | RUNNING | ZOMBIE.

#[export] Instance procstate_eq_dec : EqDecision procstate.
Proof. solve_decision. Defined.

(** The saved user registers. *)
Record trapframe : Type := MkTf {
  tf_edi : Z; tf_esi : Z; tf_ebp : Z; tf_oesp : Z; tf_ebx : Z; tf_edx : Z; tf_ecx : Z; tf_eax : Z;
  tf_gs : Z; tf_fs : Z; tf_es : Z; tf_ds : Z; tf_trapno : Z; tf_err : Z; tf_eip : Z; tf_cs : Z;
  tf_eflags : Z; tf_esp : Z; tf_ss : Z
}.
Definition tf0 : trapframe := MkTf 0 0 0 0 0 0 0 0 0 0 0 0 0 0 0 0 0 0 0.

(** A process.  Pointers to table entries (parent, open files, the current
    directory) are indices; the trap frame, which lies on the kernel stack, is a
    field; the saved kernel context is not represented. *)
Record proc : Type := MkProc {
  p_sz : Z; p_pgdir : Z; p_kstack : Z; p_state : procstate; p_pid : Z; p_parent : option nat;
  p_tf : trapframe; p_chan : option chan; p_killed : bool; p_ofile : list (option nat);
  p_cwd : option nat; p_name : list Z; p_traceFlag : bool; p_totalSysCall : Z
}.

Definition proc0 : proc :=
  MkProc 0 0 0 UNUSED 0 None tf0 None false (replicate NOFILE None) None (replicate 16 0) false 0.

Definition set_state (st : procstate) (p : proc) : proc :=
  MkProc (p_sz p) (p_pgdir p) (p_kstack p) st (p_pid p) (p_parent p) (p_tf p) (p_chan p) (p_killed p) (p_ofile p)
    (p_cwd p) (p_name p) (p_traceFlag p) (p_totalSysCall p).
Definition set_pid (pid : Z) (p : proc) : proc :=
  MkProc (p_sz p) (p_pgdir p) (p_kstack p) (p_state p) pid (p_parent p) (p_tf p) (p_chan p) (p_killed p) (p_ofile p)
    (p_cwd p) (p_name p) (p_traceFlag p) (p_totalSysCall p).
Definition set_parent (q : option nat) (p : proc) : proc :=
  MkProc (p_sz p) (p_pgdir p) (p_kstack p) (p_state p) (p_pid p) q (p_tf p) (p_chan p) (p_killed p) (p_ofile p)
    (p_cwd p) (p_name p) (p_traceFlag p) (p_totalSysCall p).
Definition set_chan (c : option chan) (p : proc) : proc :=
  MkProc (p_sz p) (p_pgdir p) (p_kstack p) (p_state p) (p_pid p) (p_parent p) (p_tf p) c (p_killed p) (p_ofile p)
    (p_cwd p) (p_name p) (p_traceFlag p) (p_totalSysCall p).
Definition set_killed (b : bool) (p : proc) : proc :=
  MkProc (p_sz p) (p_pgdir p) (p_kstack p) (p_state p) (p_pid p) (p_parent p) (p_tf p) (p_chan p) b (p_ofile p)
    (p_cwd p) (p_name p) (p_traceFlag p) (p_totalSysCall p).
Definition set_kstack (a : Z) (p : proc) : proc :=
  MkProc (p_sz p) (p_pgdir p) a (p_state p) (p_pid p) (p_parent p) (p_tf p) (p_chan p) (p_killed p) (p_ofile p)
    (p_cwd p) (p_name p) (p_traceFlag p) (p_totalSysCall p).
Definition set_name (n : list Z) (p : proc) : proc :=
  MkProc (p_sz p) (p_pgdir p) (p_kstack p) (p_state p) (p_pid p) (p_parent p) (p_tf p) (p_chan p) (p_killed p) (p_ofile p)
    (p_cwd p) n (p_traceFlag p) (p_totalSysCall p).

Record ptable : Type := MkPtable { pt_proc : list proc; pt_nextpid : Z; pt_initproc : nat }.

Definition set_procs (l : list proc) (t : ptable) : ptable := MkPtable l (pt_nextpid t) (pt_initproc t).
Definition upd_proc (i : nat) (g : proc -> proc) (t : ptable) : ptable := set_procs (alter g i (pt_proc t)) t.

(** ** The critical sections *)

(** The first entry from [i] on that satisfies a test. *)
Fixpoint scan_procs (test : proc -> bool) (i : nat) (l : list proc) : option nat :=
  match l with
  | [] => None
  | p :: l => if test p then Some i else scan_procs test (S i) l
  end.

Definition is_state (st : procstate) (p : proc) : bool := bool_decide (p_state p = st).

(** allocproc's search: the slot found becomes an embryo with a new pid. *)
Definition alloc_slot (t : ptable) : option (nat * ptable) :=
  match scan_procs (is_state UNUSED) 0 (pt_proc t) with
  | None => None
  | Some i =>
      Some (i, MkPtable (alter (fun p => set_pid (pt_nextpid t) (set_state EMBRYO p)) i (pt_proc t))
        (pt_nextpid t + 1) (pt_initproc t))
  end.

Definition wake_proc (c : chan) (p : proc) : proc :=
  if is_state SLEEPING p && bool_decide (p_chan p = Some c) then set_state RUNNABLE p else p.
Definition wakeup1 (c : chan) (t : ptable) : ptable := set_procs (wake_proc c <$> pt_proc t) t.

(** exit's loop over the table, [i] counting up to [NPROC]. *)
Fixpoint reparent (cnt i me : nat) (t : ptable) : ptable :=
  match cnt with
  | O => t
  | S cnt =>
      let t :=
        match pt_proc t !! i with
        | Some p =>
            if bool_decide (p_parent p = Some me) then
              let t := upd_proc i (set_parent (Some (pt_initproc t))) t in
              if is_state ZOMBIE p then wakeup1 (ChProc (pt_initproc t)) t else t
            else t
        | None => t
        end in
      reparent cnt (S i) me t
  end.

(** The locked part of exit, up to the call of sched. *)
Definition exit_section (me : nat) (t : ptable) : ptable :=
  let t := match pt_proc t !! me ≫= p_parent with
           | Some q => wakeup1 (ChProc q) t
           | None => t
           end in
  upd_proc me (set_state ZOMBIE) (reparent (length (pt_proc t)) 0 me t).

(** One scan of wait: whether there is a child, and the first zombie child. *)
Fixpoint wait_scan (me : nat) (i : nat) (l : list proc) (havekids : bool) : bool * option nat :=
  match l with
  | [] => (havekids, None)
  | p :: l =>
      if bool_decide (p_parent p = Some me) then
        if is_state ZOMBIE p then (true, Some i) else wait_scan me (S i) l true
      else wait_scan me (S i) l havekids
  end.

(** wait's reset of the entry of a reaped child. *)
Definition reap (p : proc) : proc :=
  set_killed false (set_name (zset (p_name p) 0 0) (set_parent None (set_pid 0 (set_state UNUSED (set_kstack 0 p))))).

(** kill: the first entry with the pid. *)
Definition kill_section (pid : Z) (t : ptable) : Z * ptable :=
  match scan_procs (fun p => p_pid p =? pid) 0 (pt_proc t) with
  | None => (-1, t)
  | Some i =>
      (0, upd_proc i (fun p => let p := set_killed true p in
                               if is_state SLEEPING p then set_state RUNNABLE p else p) t)
  end.

(** yield, sleep and the scheduler's choice. *)
Definition yield_section (me : nat) (t : ptable) : ptable := upd_proc me (set_state RUNNABLE) t.
Definition sleep_section (me : nat) (c : chan) (t : ptable) : ptable :=
  upd_proc me (fun p => set_state SLEEPING (set_chan (Some c) p)) t.
(** The chosen process runs; one that was asleep first clears its channel. *)
Definition dispatch (i : nat) (t : ptable) : ptable := upd_proc i (fun p => set_chan None (set_state RUNNING p)) t.

(** ** Lookups after each section *)

Lemma lookup_upd t i g j :
  pt_proc (upd_proc i g t) !! j = if decide (j = i) then g <$> pt_proc t !! j else pt_proc t !! j.
Proof. cbn. case_decide as E; [subst j; apply list_lookup_alter_eq|by apply list_lookup_alter_ne]. Qed.

Lemma lookup_wakeup c t j : pt_proc (wakeup1 c t) !! j = wake_proc c <$> pt_proc t !! j.
Proof. cbn. apply list_lookup_fmap. Qed.

Lemma scan_spec test k l i :
  scan_procs test k l = Some i -> exists p, l !! (i - k)%nat = Some p /\ test p = true /\ (k <= i)%nat.
Proof.
  revert k. induction l as [|p l IH]; intros k; cbn; [done|]. destruct (test p) eqn:E.
  - intros [= <-]. exists p. by rewrite Nat.sub_diag.
  - intros (q & Hq & Ht & Hk)%IH. exists q. replace (i - k)%nat with (S (i - S k)) by lia. split_and!; auto. lia.
Qed.

Lemma wake_proc_fields c p :
  p_pid (wake_proc c p) = p_pid p /\ p_parent (wake_proc c p) = p_parent p /\ p_chan (wake_proc c p) = p_chan p /\
  p_killed (wake_proc c p) = p_killed p /\
  p_state (wake_proc c p) = (if decide (p_state p = SLEEPING /\ p_chan p = Some c) then RUNNABLE else p_state p).
Proof.
  unfold wake_proc, is_state. destruct (decide (p_state p = SLEEPING)), (decide (p_chan p = Some c));
    rewrite ?bool_decide_true, ?bool_decide_false by done; cbn; split_and!; auto.
  - by rewrite decide_True by done.
  - by rewrite decide_False by naive_solver.
  - by rewrite decide_False by naive_solver.
  - by rewrite decide_False by naive_solver.
Qed.

(** What exit's loop does to each entry. *)
Definition reparented (me init : nat) (w : bool) (p : proc) : proc :=
  let p := if bool_decide (p_parent p = Some me) then set_parent (Some init) p else p in
  if w then wake_proc (ChProc init) p else p.

Lemma wake_proc_idem c p : wake_proc c (wake_proc c p) = wake_proc c p.
Proof. unfold wake_proc. destruct (is_state SLEEPING p && _) eqn:E; [done|by rewrite E]. Qed.

Lemma wake_set_parent c q p : wake_proc c (set_parent q p) = set_parent q (wake_proc c p).
Proof. unfold wake_proc, is_state. cbn. by destruct (_ && _). Qed.

Lemma is_zombie_wake c p : is_state ZOMBIE (wake_proc c p) = is_state ZOMBIE p.
Proof.
  destruct (wake_proc_fields c p) as (_ & _ & _ & _ & E). unfold is_state. rewrite E. case_decide as H; [|done].
  destruct H as [-> _]. done.
Qed.

(** The loop from [i] with everything before [i] done; [w] says whether init
    has been woken. *)
Lemma reparent_spec me cnt i w t0 t :
  me <> pt_initproc t0 -> pt_initproc t = pt_initproc t0 -> pt_nextpid t = pt_nextpid t0 ->
  (i + cnt = length (pt_proc t0))%nat -> length (pt_proc t) = length (pt_proc t0) ->
  (forall j p, pt_proc t0 !! j = Some p -> pt_proc t !! j =
    Some (if decide (j < i)%nat then reparented me (pt_initproc t0) w p else if w then wake_proc (ChProc (pt_initproc t0)) p else p)) ->
  (forall j p, (j < i)%nat -> pt_proc t0 !! j = Some p -> p_parent p = Some me -> p_state p = ZOMBIE -> w = true) ->
  exists w', let t' := reparent cnt i me t in
    pt_initproc t' = pt_initproc t0 /\ pt_nextpid t' = pt_nextpid t0 /\ length (pt_proc t') = length (pt_proc t0) /\
    (forall j p, pt_proc t0 !! j = Some p -> pt_proc t' !! j = Some (reparented me (pt_initproc t0) w' p)) /\
    (forall j p, pt_proc t0 !! j = Some p -> p_parent p = Some me -> p_state p = ZOMBIE -> w' = true).
Proof.
  intros Hme. revert i w t. induction cnt as [|cnt IH]; intros i w t Hi Hn Hlen Hl Ht Hw; cbn [reparent].
  - exists w. split_and!; auto.
    + intros j p Hj. rewrite (Ht j p Hj), decide_True; [done|]. apply lookup_lt_Some in Hj. lia.
    + intros j p Hj. apply (Hw j p); [|done]. apply lookup_lt_Some in Hj. lia.
  - destruct (lookup_lt_is_Some_2 (pt_proc t0) i ltac:(lia)) as [p Hp]. rewrite (Ht i p Hp), decide_False by lia.
    set (pi := if w then wake_proc (ChProc (pt_initproc t0)) p else p).
    assert (Ep : p_parent pi = p_parent p) by (unfold pi; destruct w; [apply wake_proc_fields|done]).
    assert (Ez : is_state ZOMBIE pi = is_state ZOMBIE p) by (unfold pi; destruct w; [apply is_zombie_wake|done]).
    rewrite Ep, Ez. destruct (decide (p_parent p = Some me)) as [Epm|Epm].
    + rewrite bool_decide_true by done. destruct (decide (p_state p = ZOMBIE)) as [Hz|Hz].
      * assert (is_state ZOMBIE p = true) as -> by (by apply bool_decide_true). apply (IH (S i) true); auto; [lia|cbn; by rewrite length_fmap, length_alter|].
        intros j q Hj. rewrite lookup_wakeup, lookup_upd, (Ht j q Hj). cbn [pt_initproc upd_proc set_procs]. rewrite Hi.
        destruct (decide (j = i)) as [->|Hji].
        -- rewrite Hp in Hj. injection Hj as <-. rewrite decide_False, decide_True by lia. cbn. f_equal. unfold reparented.
           rewrite bool_decide_true by done. destruct w; rewrite !wake_set_parent, ?wake_proc_idem; done.
        -- cbn. f_equal. destruct (decide (j < i)%nat).
           ++ rewrite decide_True by lia. unfold reparented. destruct w; rewrite ?wake_proc_idem; done.
           ++ rewrite decide_False by lia. destruct w; rewrite ?wake_proc_idem; done.
      * assert (is_state ZOMBIE p = false) as -> by (by apply bool_decide_false). apply (IH (S i) w); auto; [lia|cbn; by rewrite length_alter| |].
        -- intros j q Hj. rewrite lookup_upd, (Ht j q Hj). cbn [pt_initproc]. rewrite Hi. destruct (decide (j = i)) as [->|Hji].
           ++ rewrite Hp in Hj. injection Hj as <-. rewrite decide_False, decide_True by lia. cbn. f_equal. unfold reparented.
              rewrite bool_decide_true by done. destruct w; rewrite ?wake_set_parent; done.
           ++ cbn. destruct (decide (j < i)%nat); [by rewrite decide_True by lia|by rewrite decide_False by lia].
        -- intros j q Hj Hq Hpq Hzq. destruct (decide (j = i)) as [->|]; [congruence|]. apply (Hw j q); auto. lia.
    + rewrite bool_decide_false by done. apply (IH (S i) w); auto; [lia| |].
      * intros j q Hj. rewrite (Ht j q Hj). destruct (decide (j = i)) as [->|Hji].
        -- rewrite Hp in Hj. injection Hj as <-. rewrite decide_False, decide_True by lia. unfold reparented. by rewrite bool_decide_false.
        -- destruct (decide (j < i)%nat); [by rewrite decide_True by lia|by rewrite decide_False by lia].
      * intros j q Hj Hq Hpq Hzq. destruct (decide (j = i)) as [->|]; [congruence|]. apply (Hw j q); auto. lia.
Qed.
