(* ===== verification/Sched.v ===== *)
(** * Processors running processes

    Any number of processors execute the critical sections of proc.c in any
    order.  A processor is idle (in [scheduler]) or runs a process; a process in
    the middle of [fork] owns the embryo it has allocated. *)

From S2P Require Import Prelude.
From S2P Require Import Params.
From S2P Require Import Ptable.

Record sys : Type := MkSys { sy_pt : ptable; sy_cpus : list (option nat); sy_fork : gmap nat nat }.

Inductive sstep : sys -> sys -> Prop :=
| SDispatch t cpus fk c i p :
    cpus !! c = Some None -> pt_proc t !! i = Some p -> p_state p = RUNNABLE ->
    sstep (MkSys t cpus fk) (MkSys (dispatch i t) (<[c := Some i]> cpus) fk)
| SYield t cpus fk c me :
    cpus !! c = Some (Some me) ->
    sstep (MkSys t cpus fk) (MkSys (yield_section me t) (<[c := None]> cpus) fk)
| SSleep t cpus fk c me ch :
    cpus !! c = Some (Some me) -> fk !! me = None -> (forall q, ch <> ChProc q) ->
    sstep (MkSys t cpus fk) (MkSys (sleep_section me ch t) (<[c := None]> cpus) fk)
| SWakeup t cpus fk ch :
    sstep (MkSys t cpus fk) (MkSys (wakeup1 ch t) cpus fk)
| SKill t cpus fk pid :
    sstep (MkSys t cpus fk) (MkSys (kill_section pid t).2 cpus fk)
| SForkAlloc t cpus fk c me np t' :
    cpus !! c = Some (Some me) -> fk !! me = None -> pt_nextpid t < 2147483647 -> alloc_slot t = Some (np, t') ->
    sstep (MkSys t cpus fk) (MkSys t' cpus (<[me := np]> fk))
| SForkFail t cpus fk c me np :
    cpus !! c = Some (Some me) -> fk !! me = Some np ->
    sstep (MkSys t cpus fk) (MkSys (upd_proc np (fun p => set_state UNUSED (set_kstack 0 p)) t) cpus (delete me fk))
| SForkDone t cpus fk c me np :
    cpus !! c = Some (Some me) -> fk !! me = Some np ->
    sstep (MkSys t cpus fk) (MkSys (upd_proc np (fun p => set_state RUNNABLE (set_parent (Some me) p)) t) cpus (delete me fk))
| SExit t cpus fk c me :
    cpus !! c = Some (Some me) -> fk !! me = None -> me <> pt_initproc t ->
    sstep (MkSys t cpus fk) (MkSys (exit_section me t) (<[c := None]> cpus) fk)
| SWaitReap t cpus fk c me hk i :
    cpus !! c = Some (Some me) -> fk !! me = None -> wait_scan me 0 (pt_proc t) false = (hk, Some i) ->
    sstep (MkSys t cpus fk) (MkSys (upd_proc i reap t) cpus fk)
| SWaitSleep t cpus fk c me :
    cpus !! c = Some (Some me) -> fk !! me = None -> wait_scan me 0 (pt_proc t) false = (true, None) ->
    sstep (MkSys t cpus fk) (MkSys (sleep_section me (ChProc me) t) (<[c := None]> cpus) fk).

Definition alive (st : procstate) : Prop := st = SLEEPING \/ st = RUNNABLE \/ st = RUNNING.

Section Inv.
Context (t : ptable) (cpus : list (option nat)) (fk : gmap nat nat).

Record wf : Prop := {
  w_init : exists p, pt_proc t !! pt_initproc t = Some p /\ alive (p_state p);
  w_cpu : forall c j, cpus !! c = Some (Some j) -> exists p, pt_proc t !! j = Some p /\ p_state p = RUNNING;
  w_excl : forall c c' j, cpus !! c = Some (Some j) -> cpus !! c' = Some (Some j) -> c = c';
  w_running : forall j p, pt_proc t !! j = Some p -> p_state p = RUNNING -> exists c, cpus !! c = Some (Some j);
  w_next : 0 < pt_nextpid t;
  w_pid : forall j p, pt_proc t !! j = Some p -> p_state p <> UNUSED -> 0 < p_pid p < pt_nextpid t;
  w_pid_inj : forall j j' p p', pt_proc t !! j = Some p -> pt_proc t !! j' = Some p' ->
    p_state p <> UNUSED -> p_state p' <> UNUSED -> p_pid p = p_pid p' -> j = j';
  w_orphan : forall j p, pt_proc t !! j = Some p -> p_state p = UNUSED \/ p_state p = EMBRYO -> p_parent p = None;
  w_parent : forall j p, pt_proc t !! j = Some p -> p_state p <> UNUSED -> p_state p <> EMBRYO -> j <> pt_initproc t ->
    exists q pq, p_parent p = Some q /\ pt_proc t !! q = Some pq /\ alive (p_state pq);
  w_irrefl : forall j p, pt_proc t !! j = Some p -> p_parent p <> Some j;
  w_initp : forall p, pt_proc t !! pt_initproc t = Some p -> p_parent p = None;
  w_fork : forall me np, fk !! me = Some np -> (exists p, pt_proc t !! me = Some p /\ alive (p_state p)) /\
    exists p, pt_proc t !! np = Some p /\ p_state p = EMBRYO;
  w_fork_inj : forall me me' np, fk !! me = Some np -> fk !! me' = Some np -> me = me';
  w_wait : forall j p q, pt_proc t !! j = Some p -> p_state p = SLEEPING -> p_chan p = Some (ChProc q) ->
    q = j /\ forall k pk, pt_proc t !! k = Some pk -> p_parent pk = Some j -> p_state pk <> ZOMBIE
}.

End Inv.

(** Look up an entry of an updated table. *)
Ltac look H :=
  rewrite lookup_upd in H;
  match type of H with
  | context [decide (?j = ?i)] =>
      let E := fresh "E" in destruct (decide (j = i)) as [E|E];
      [try subst j; apply fmap_Some in H as (? & H & ->)|]
  end.

Lemma alive_not st : alive st -> st <> UNUSED /\ st <> EMBRYO /\ st <> ZOMBIE.
Proof. intros [->|[->| ->]]; done. Qed.

(** Waking any processes keeps the invariant. *)
Lemma wf_wakes t cpus fk l :
  wf t cpus fk -> length l = length (pt_proc t) ->
  (forall j p, pt_proc t !! j = Some p -> exists p', l !! j = Some p' /\
    p_pid p' = p_pid p /\ p_parent p' = p_parent p /\ p_chan p' = p_chan p /\
    (p_state p' = p_state p \/ p_state p = SLEEPING /\ p_state p' = RUNNABLE)) ->
  wf (set_procs l t) cpus fk.
Proof.
  intros [Hi Hcpu Hex Hrun Hnx Hpid Hinj Horp Hpar Hirr Hip Hfk Hfki Hwt] Hlen Hl.
  assert (Hback : forall j p', l !! j = Some p' -> exists p, pt_proc t !! j = Some p /\
    p_pid p' = p_pid p /\ p_parent p' = p_parent p /\ p_chan p' = p_chan p /\
    (p_state p' = p_state p \/ p_state p = SLEEPING /\ p_state p' = RUNNABLE)).
  { intros j p' Hj. destruct (lookup_lt_is_Some_2 (pt_proc t) j) as [p Hp]; [apply lookup_lt_Some in Hj; lia|].
    destruct (Hl j p Hp) as (p2 & H2 & H). rewrite Hj in H2. injection H2 as <-. by exists p. }
  assert (Halive : forall j p, pt_proc t !! j = Some p -> alive (p_state p) -> exists p', l !! j = Some p' /\ alive (p_state p')).
  { intros j p Hp Ha. destruct (Hl j p Hp) as (p' & H' & _ & _ & _ & Hs). exists p'. split; [done|].
    destruct Hs as [->|[_ ->]]; [done|right; by left]. }
  constructor; cbn [pt_proc set_procs pt_initproc pt_nextpid]; auto.
  - destruct Hi as (p & Hp & Ha). by apply (Halive _ p).
  - intros c j Hc. destruct (Hcpu c j Hc) as (p & Hp & Hs). destruct (Hl j p Hp) as (p' & H' & _ & _ & _ & Hs').
    exists p'. split; [done|]. destruct Hs' as [->|[? _]]; congruence.
  - intros j p' Hp' Hs. destruct (Hback j p' Hp') as (p & Hp & _ & _ & _ & Hst). apply (Hrun j p); [done|].
    destruct Hst as [<-|[_ ?]]; congruence.
  - intros j p' Hp' Hs. destruct (Hback j p' Hp') as (p & Hp & -> & _ & _ & Hst). apply (Hpid j p Hp). destruct Hst as [|[]]; congruence.
  - intros j j' p1 p2 H1 H2 Hs1 Hs2 E. destruct (Hback _ _ H1) as (q1 & Hq1 & E1 & _ & _ & St1), (Hback _ _ H2) as (q2 & Hq2 & E2 & _ & _ & St2).
    apply (Hinj j j' q1 q2); auto; [destruct St1 as [|[]]; congruence|destruct St2 as [|[]]; congruence|congruence].
  - intros j p' Hp' Hs. destruct (Hback j p' Hp') as (p & Hp & _ & -> & _ & Hst). apply (Horp j p Hp).
    destruct Hst as [<-|[_ E]]; [done|]. rewrite E in Hs. by destruct Hs.
  - intros j p' Hp' Hs1 Hs2 Hne. destruct (Hback j p' Hp') as (p & Hp & _ & -> & _ & Hst).
    destruct (Hpar j p Hp) as (q & pq & Hq & Hpq & Ha); auto; [destruct Hst as [|[]]; congruence..|].
    destruct (Halive q pq Hpq Ha) as (pq' & Hpq' & Ha'). by exists q, pq'.
  - intros j p' Hp'. destruct (Hback j p' Hp') as (p & Hp & _ & -> & _). by apply (Hirr j p).
  - intros p' Hp'. destruct (Hback _ p' Hp') as (p & Hp & _ & -> & _). by apply Hip.
  - intros me np Hm. destruct (Hfk me np Hm) as ((p & Hp & Ha) & (p2 & Hp2 & Hs2)). split; [by apply (Halive me p)|].
    destruct (Hl np p2 Hp2) as (p' & H' & _ & _ & _ & Hs'). exists p'. split; [done|]. destruct Hs' as [->|[]]; congruence.
  - intros j p' q Hp' Hs Hc. destruct (Hback j p' Hp') as (p & Hp & _ & _ & Ec & Hst).
    destruct (Hwt j p q Hp) as [-> Hz]; [destruct Hst as [|[]]; congruence|congruence|]. split; [done|].
    intros k pk' Hk' Hpk Hzk. destruct (Hback k pk' Hk') as (pk & Hk & _ & Epk & _ & Hstk).
    apply (Hz k pk Hk); [congruence|]. destruct Hstk as [|[]]; congruence.
Qed.

(** A live process changes to a live state; the processors change along. *)
Lemma wf_upd t cpus cpus' fk i g p0 :
  wf t cpus fk -> pt_proc t !! i = Some p0 -> alive (p_state p0) -> alive (p_state (g p0)) ->
  p_pid (g p0) = p_pid p0 -> p_parent (g p0) = p_parent p0 ->
  (forall c j, cpus' !! c = Some (Some j) -> j = i /\ p_state (g p0) = RUNNING \/ j <> i /\ cpus !! c = Some (Some j)) ->
  (forall c c' j, cpus' !! c = Some (Some j) -> cpus' !! c' = Some (Some j) -> c = c') ->
  (p_state (g p0) = RUNNING -> exists c, cpus' !! c = Some (Some i)) ->
  (forall c j, j <> i -> cpus !! c = Some (Some j) -> cpus' !! c = Some (Some j)) ->
  (p_state (g p0) = SLEEPING -> forall q, p_chan (g p0) = Some (ChProc q) ->
    q = i /\ forall k pk, pt_proc t !! k = Some pk -> p_parent pk = Some i -> p_state pk <> ZOMBIE) ->
  wf (upd_proc i g t) cpus' fk.
Proof.
  intros [Hi Hcpu Hex Hrun Hnx Hpid Hinj Horp Hpar Hirr Hip Hfk Hfki Hwt] H0 Ha0 Ha1 Epid Epar Hc1 Hc2 Hc3 Hc4 Hsl.
  destruct (alive_not _ Ha0) as (Hu & He & Hz). destruct (alive_not _ Ha1) as (Hu1 & He1 & Hz1).
  assert (Halive : forall j p, pt_proc t !! j = Some p -> alive (p_state p) -> exists p', pt_proc (upd_proc i g t) !! j = Some p' /\ alive (p_state p')).
  { intros j p Hp Ha. rewrite lookup_upd. case_decide; [subst j; rewrite H0; by exists (g p0)|by exists p]. }
  assert (Hback : forall j p', pt_proc (upd_proc i g t) !! j = Some p' -> exists p, pt_proc t !! j = Some p /\
    p_pid p' = p_pid p /\ p_parent p' = p_parent p /\ (p_state p' = UNUSED <-> p_state p = UNUSED) /\
    (p_state p' = EMBRYO <-> p_state p = EMBRYO) /\ (p_state p' = ZOMBIE <-> p_state p = ZOMBIE)).
  { intros j p' Hp'. look Hp'; [|by exists p']. rewrite H0 in Hp'. injection Hp' as <-. exists p0. naive_solver. }
  constructor; auto.
  - destruct Hi as (p & Hp & Ha). by apply (Halive _ p).
  - intros c j Hc. rewrite lookup_upd. destruct (Hc1 c j Hc) as [[-> Hs]|[Hne Hc']].
    + rewrite decide_True, H0 by done. by exists (g p0).
    + rewrite decide_False by done. by apply (Hcpu c).
  - intros j p' Hp' Hs. look Hp'.
    + rewrite H0 in Hp'. injection Hp' as <-. by apply Hc3.
    + destruct (Hrun j p' Hp' Hs) as [c Hc]. exists c. by apply Hc4.
  - intros j p' Hp' Hs. destruct (Hback j p' Hp') as (p & Hp & -> & _ & Hst & _). apply (Hpid j p Hp). naive_solver.
  - intros j j' p1 p2 H1 H2 Hs1 Hs2 E. destruct (Hback _ _ H1) as (q1 & Hq1 & E1 & _ & St1 & _), (Hback _ _ H2) as (q2 & Hq2 & E2 & _ & St2 & _).
    apply (Hinj j j' q1 q2); auto; [naive_solver..|congruence].
  - intros j p' Hp' Hs. destruct (Hback j p' Hp') as (p & Hp & _ & -> & S1 & S2 & _). apply (Horp j p Hp). naive_solver.
  - intros j p' Hp' Hs1 Hs2 Hne. destruct (Hback j p' Hp') as (p & Hp & _ & -> & S1 & S2 & _).
    destruct (Hpar j p Hp) as (q & pq & Hq & Hpq & Ha); [naive_solver..|done|].
    destruct (Halive q pq Hpq Ha) as (pq' & Hpq' & Ha'). by exists q, pq'.
  - intros j p' Hp'. destruct (Hback j p' Hp') as (p & Hp & _ & -> & _). by apply (Hirr j p).
  - intros p' Hp'. destruct (Hback _ p' Hp') as (p & Hp & _ & -> & _). by apply Hip.
  - intros me np Hm. destruct (Hfk me np Hm) as ((p & Hp & Ha) & (p2 & Hp2 & Hs2)). split; [by apply (Halive me p)|].
    rewrite lookup_upd, decide_False; [by exists p2|]. intros ->. congruence.
  - intros j p' q Hp' Hs Hc. assert (Hzz : (forall k pk, pt_proc t !! k = Some pk -> p_parent pk = Some j -> p_state pk <> ZOMBIE) ->
      forall k pk, pt_proc (upd_proc i g t) !! k = Some pk -> p_parent pk = Some j -> p_state pk <> ZOMBIE).
    { intros Hz' k pk Hk Hpk Hzk. destruct (Hback k pk Hk) as (pk0 & Hk0 & _ & E & _ & _ & S3). apply (Hz' k pk0 Hk0); [congruence|naive_solver]. }
    look Hp'.
    + rewrite H0 in Hp'. injection Hp' as <-. destruct (Hsl Hs q Hc) as [-> Hz']. split; [done|]. by apply Hzz.
    + destruct (Hwt j p' q Hp' Hs Hc) as [-> Hz']. split; [done|]. by apply Hzz.
Qed.

(** ** The single steps *)

Lemma wf_wakeup t cpus fk ch : wf t cpus fk -> wf (wakeup1 ch t) cpus fk.
Proof.
  intros W. apply wf_wakes; [done|by rewrite length_fmap|]. intros j p Hj. exists (wake_proc ch p).
  destruct (wake_proc_fields ch p) as (E1 & E2 & E3 & _ & E4). rewrite list_lookup_fmap, Hj. split_and!; auto.
  rewrite E4. case_decide as H; naive_solver.
Qed.

Lemma wf_kill t cpus fk pid : wf t cpus fk -> wf (kill_section pid t).2 cpus fk.
Proof.
  intros W. unfold kill_section. destruct (scan_procs _ _ _) as [i|]; [|done]. apply wf_wakes; [done|by rewrite length_alter|].
  intros j p Hj. destruct (decide (j = i)) as [->|Hne].
  - rewrite list_lookup_alter_eq, Hj. eexists. split; [reflexivity|]. unfold is_state. cbn.
    destruct (decide (p_state p = SLEEPING)) as [E|E]; [rewrite bool_decide_true by done|rewrite bool_decide_false by done]; cbn; split_and!; auto.
  - rewrite list_lookup_alter_ne by done. exists p. split_and!; auto.
Qed.

(** The processor lists after a process is put on or taken off a processor. *)
Lemma cpus_off (cpus : list (option nat)) c me c' j :
  (forall c c' j, cpus !! c = Some (Some j) -> cpus !! c' = Some (Some j) -> c = c') ->
  cpus !! c = Some (Some me) ->
  <[c := None]> cpus !! c' = Some (Some j) <-> j <> me /\ cpus !! c' = Some (Some j).
Proof.
  intros Hex Hc. destruct (decide (c' = c)) as [->|Hne].
  - rewrite list_lookup_insert_eq by (by apply lookup_lt_Some in Hc). split; [done|]. intros [Hj Hc']. congruence.
  - rewrite list_lookup_insert_ne by done. split; [|by intros []]. intros Hc'. split; [|done]. intros ->. by rewrite (Hex c' c me) in Hne.
Qed.

Lemma wf_dispatch t cpus fk c i p :
  wf t cpus fk -> cpus !! c = Some None -> pt_proc t !! i = Some p -> p_state p = RUNNABLE ->
  wf (dispatch i t) (<[c := Some i]> cpus) fk.
Proof.
  intros W Hc Hp Hs. assert (Hno : forall c', cpus !! c' <> Some (Some i)).
  { intros c' Hc'. destruct (w_cpu _ _ _ W c' i Hc') as (q & Hq & Hr). congruence. }
  assert (Hlt := lookup_lt_Some _ _ _ Hc).
  assert (Hi : forall c' j, <[c := Some i]> cpus !! c' = Some (Some j) <-> c' = c /\ j = i \/ c' <> c /\ cpus !! c' = Some (Some j)).
  { intros c' j. destruct (decide (c' = c)) as [->|Hne]; [rewrite list_lookup_insert_eq by done|rewrite list_lookup_insert_ne by done]; naive_solver. }
  apply (wf_upd _ cpus _ _ _ _ p); auto; cbn; rewrite ?Hs; [right; by left|right; by right| | | | |done].
  - intros c' j [[-> ->]|[Hne Hc']]%Hi; [by left|right]. split; [|done]. intros ->. by apply (Hno c').
  - intros c1 c2 j [[-> ->]|[Hne Hc1]]%Hi [[-> E]|[Hne2 Hc2]]%Hi; [done|by destruct (Hno c2)|subst; by destruct (Hno c1)|].
    by apply (w_excl _ _ _ W _ _ j).
  - intros _. exists c. apply Hi. by left.
  - intros c' j Hj Hc'. apply Hi. right. split; [|done]. intros ->. congruence.
Qed.

(** A running process gives up its processor for another live state. *)
Lemma wf_leave t cpus fk c me g p0 :
  wf t cpus fk -> cpus !! c = Some (Some me) -> pt_proc t !! me = Some p0 ->
  alive (p_state (g p0)) -> p_state (g p0) <> RUNNING -> p_pid (g p0) = p_pid p0 -> p_parent (g p0) = p_parent p0 ->
  (p_state (g p0) = SLEEPING -> forall q, p_chan (g p0) = Some (ChProc q) ->
    q = me /\ forall k pk, pt_proc t !! k = Some pk -> p_parent pk = Some me -> p_state pk <> ZOMBIE) ->
  wf (upd_proc me g t) (<[c := None]> cpus) fk.
Proof.
  intros W Hc H0 Ha Hr Epid Epar Hsl. destruct (w_cpu _ _ _ W c me Hc) as (p & Hp & Hs). rewrite H0 in Hp. injection Hp as <-.
  assert (Hoff := cpus_off cpus c me). assert (Hex := w_excl _ _ _ W). apply (wf_upd _ cpus _ _ _ _ p0); auto.
  - rewrite Hs. right. by right.
  - intros c' j [Hne Hc']%Hoff; auto.
  - intros c1 c2 j [_ H1]%Hoff [_ H2]%Hoff; [by apply (Hex _ _ j)|done..].
  - done.
  - intros c' j Hne Hc'. by apply Hoff.
Qed.

Lemma wf_yield t cpus fk c me :
  wf t cpus fk -> cpus !! c = Some (Some me) -> wf (yield_section me t) (<[c := None]> cpus) fk.
Proof.
  intros W Hc. destruct (w_cpu _ _ _ W c me Hc) as (p & Hp & Hs). apply (wf_leave _ _ _ _ _ _ p); auto; cbn; [right; by left|done..].
Qed.

Lemma wf_sleep t cpus fk c me ch :
  wf t cpus fk -> cpus !! c = Some (Some me) ->
  (forall q, ch = ChProc q -> q = me /\ forall k pk, pt_proc t !! k = Some pk -> p_parent pk = Some me -> p_state pk <> ZOMBIE) ->
  wf (sleep_section me ch t) (<[c := None]> cpus) fk.
Proof.
  intros W Hc Hch. destruct (w_cpu _ _ _ W c me Hc) as (p & Hp & Hs). apply (wf_leave _ _ _ _ _ _ p); auto; cbn; [by left|].
  intros _ q [= E]. by apply Hch.
Qed.

(** An entry that is not live is allocated, freed or made runnable. *)
Lemma wf_entry t cpus fk n' fk' i g p0 :
  wf t cpus fk -> pt_proc t !! i = Some p0 -> ~ alive (p_state p0) ->
  p_state (g p0) = UNUSED \/ p_state (g p0) = EMBRYO \/ p_state (g p0) = RUNNABLE ->
  pt_nextpid t <= n' ->
  (p_state (g p0) <> UNUSED -> 0 < p_pid (g p0) < n' /\
    forall j p, j <> i -> pt_proc t !! j = Some p -> p_state p <> UNUSED -> p_pid p <> p_pid (g p0)) ->
  (p_state (g p0) <> RUNNABLE -> p_parent (g p0) = None) ->
  (p_state (g p0) = RUNNABLE -> exists q pq, p_parent (g p0) = Some q /\ pt_proc t !! q = Some pq /\ alive (p_state pq)) ->
  (forall me np, fk' !! me = Some np -> (exists p, pt_proc t !! me = Some p /\ alive (p_state p)) /\
    (np = i /\ p_state (g p0) = EMBRYO \/ np <> i /\ fk !! me = Some np)) ->
  (forall me me' np, fk' !! me = Some np -> fk' !! me' = Some np -> me = me') ->
  wf (MkPtable (alter g i (pt_proc t)) n' (pt_initproc t)) cpus fk'.
Proof.
  intros [Hi Hcpu Hex Hrun Hnx Hpid Hinj Horp Hpar Hirr Hip Hfk Hfki Hwt] H0 Hna Hst Hn Hp1 Hp2 Hp3 Hf1 Hf2.
  assert (Hl : forall j, alter g i (pt_proc t) !! j = if decide (j = i) then g <$> pt_proc t !! j else pt_proc t !! j) by apply (lookup_upd t).
  assert (Hne : forall j p, pt_proc t !! j = Some p -> alive (p_state p) -> j <> i) by (intros j p Hj Ha ->; rewrite H0 in Hj; by injection Hj as <-).
  assert (Hal : forall j p, pt_proc t !! j = Some p -> alive (p_state p) -> alter g i (pt_proc t) !! j = Some p).
  { intros j p Hj Ha. rewrite Hl, decide_False; eauto. }
  assert (Hcase : forall j p, alter g i (pt_proc t) !! j = Some p -> j = i /\ p = g p0 \/ j <> i /\ pt_proc t !! j = Some p).
  { intros j p. rewrite Hl. case_decide as E; [subst j; rewrite H0; cbn; intros [= <-]; auto|auto]. }
  constructor; cbn [pt_proc pt_initproc pt_nextpid]; auto; try lia.
  - destruct Hi as (p & Hp & Ha). exists p. split; [by apply Hal|done].
  - intros c j Hc. destruct (Hcpu c j Hc) as (p & Hp & Hs). exists p. split; [apply Hal; [done|right; by right]|done].
  - intros j p [[-> ->]|[_ Hp]]%Hcase Hs; [exfalso; destruct Hst as [|[|]]; congruence|by apply (Hrun j p)].
  - intros j p [[-> ->]|[_ Hp]]%Hcase Hs; [by apply Hp1|specialize (Hpid j p Hp Hs); lia].
  - intros j j' p p' [[-> ->]|[E1 Hp]]%Hcase [[-> ->]|[E2 Hp']]%Hcase Hs Hs' E; [done| | |by apply (Hinj j j' p p')].
    + destruct (Hp1 Hs) as [_ H]. by destruct (H j' p').
    + destruct (Hp1 Hs') as [_ H]. by destruct (H j p).
  - intros j p [[-> ->]|[_ Hp]]%Hcase Hs; [apply Hp2; destruct Hs as [-> | ->]; done|by apply (Horp j p)].
  - intros j p [[-> ->]|[_ Hp]]%Hcase Hs1 Hs2 Hni.
    + destruct Hp3 as (q & pq & Hq & Hpq & Ha); [destruct Hst as [|[|]]; congruence|]. exists q, pq. auto.
    + destruct (Hpar j p Hp Hs1 Hs2 Hni) as (q & pq & Hq & Hpq & Ha). exists q, pq. auto.
  - intros j p [[-> ->]|[_ Hp]]%Hcase; [|by apply (Hirr j p)]. destruct (decide (p_state (g p0) = RUNNABLE)) as [E|E].
    + destruct (Hp3 E) as (q & pq & -> & Hpq & Ha). intros [= ->]. by apply (Hne i pq).
    + by rewrite (Hp2 E).
  - intros p [[E ->]|[_ Hp]]%Hcase; [|by apply Hip]. destruct Hi as (p & Hp & Ha). by destruct (Hne _ p Hp Ha).
  - intros me np Hm. destruct (Hf1 me np Hm) as [(p & Hp & Ha) Hd]. split; [exists p; split; [by apply Hal|done]|].
    destruct Hd as [[-> Hs]|[E Hm']].
    + exists (g p0). by rewrite Hl, decide_True, H0.
    + destruct (Hfk me np Hm') as (_ & (p2 & Hp2' & Hs2)). exists p2. by rewrite Hl, decide_False.
  - intros j p q [[-> ->]|[_ Hp]]%Hcase Hs Hc; [destruct Hst as [|[|]]; congruence|]. destruct (Hwt j p q Hp Hs Hc) as [-> Hz]. split; [done|].
    intros k pk [[-> ->]|[_ Hk]]%Hcase Hpk; [destruct Hst as [E|[E|E]]; by rewrite E|by apply (Hz k pk)].
Qed.

Lemma wf_fork_alloc t cpus fk c me np t' :
  wf t cpus fk -> cpus !! c = Some (Some me) -> fk !! me = None -> alloc_slot t = Some (np, t') -> wf t' cpus (<[me := np]> fk).
Proof.
  intros W Hc Hf. unfold alloc_slot. destruct (scan_procs _ _ _) as [i|] eqn:Es; [|done]. intros [= -> <-].
  apply scan_spec in Es as (p & Hp & Hs%bool_decide_eq_true & _). rewrite Nat.sub_0_r in Hp.
  assert (Hnp : forall m, fk !! m <> Some np) by (intros m Hm; destruct (w_fork _ _ _ W m np Hm) as (_ & q & Hq & Hqs); congruence).
  apply (wf_entry t cpus fk _ _ np _ p); auto; cbn.
  - rewrite Hs. by intros [|[|]].
  - lia.
  - intros _. assert (Hn := w_next _ _ _ W). split; [lia|]. intros j q _ Hj Hq. assert (H := w_pid _ _ _ W j q Hj Hq). lia.
  - intros _. apply (w_orphan _ _ _ W np p); auto.
  - done.
  - intros m n Hm. destruct (decide (m = me)) as [->|Hne].
    + rewrite lookup_insert_eq in Hm. injection Hm as <-. split; [|by left].
      destruct (w_cpu _ _ _ W c me Hc) as (q & Hq & Hqs). exists q. split; [done|]. right; by right.
    + rewrite lookup_insert_ne in Hm by done. split; [by apply (w_fork _ _ _ W m n)|]. right. split; [|done]. intros ->. by destruct (Hnp m).
  - intros m m' n. destruct (decide (m = me)) as [->|Hne], (decide (m' = me)) as [->|Hne'];
      rewrite ?lookup_insert_eq, ?lookup_insert_ne by done; [done|intros [= <-] H; by destruct (Hnp m')|intros H [= <-]; by destruct (Hnp m)|].
    apply (w_fork_inj _ _ _ W).
Qed.

(** The forks under way once [me]'s is over. *)
Lemma fork_delete t cpus fk me np P :
  wf t cpus fk -> fk !! me = Some np ->
  (forall m n, delete me fk !! m = Some n -> (exists p, pt_proc t !! m = Some p /\ alive (p_state p)) /\ (n = np /\ P \/ n <> np /\ fk !! m = Some n)) /\
  (forall m m' n, delete me fk !! m = Some n -> delete me fk !! m' = Some n -> m = m').
Proof.
  intros W Hf. split.
  - intros m n [Hne Hm]%lookup_delete_Some. split; [by apply (w_fork _ _ _ W m n)|]. right. split; [|done]. intros ->.
    by destruct (w_fork_inj _ _ _ W m me np).
  - intros m m' n [_ Hm]%lookup_delete_Some [_ Hm']%lookup_delete_Some. by apply (w_fork_inj _ _ _ W _ _ n).
Qed.

Lemma wf_fork_fail t cpus fk me np :
  wf t cpus fk -> fk !! me = Some np ->
  wf (upd_proc np (fun p => set_state UNUSED (set_kstack 0 p)) t) cpus (delete me fk).
Proof.
  intros W Hf. destruct (w_fork _ _ _ W me np Hf) as (_ & p & Hp & Hs). destruct (fork_delete t cpus fk me np False W Hf) as [F1 F2].
  apply (wf_entry t cpus fk _ _ np _ p); auto; cbn; try done.
  - rewrite Hs. by intros [|[|]].
  - intros _. apply (w_orphan _ _ _ W np p); auto.
  - intros m n Hm. destruct (F1 m n Hm) as [H1 [[_ []]|H2]]; auto.
Qed.

Lemma wf_fork_done t cpus fk c me np :
  wf t cpus fk -> cpus !! c = Some (Some me) -> fk !! me = Some np ->
  wf (upd_proc np (fun p => set_state RUNNABLE (set_parent (Some me) p)) t) cpus (delete me fk).
Proof.
  intros W Hc Hf. destruct (w_fork _ _ _ W me np Hf) as (_ & p & Hp & Hs). destruct (fork_delete t cpus fk me np False W Hf) as [F1 F2].
  apply (wf_entry t cpus fk _ _ np _ p); auto; cbn; try done.
  - rewrite Hs. by intros [|[|]].
  - intros _. split; [apply (w_pid _ _ _ W np p Hp); congruence|]. intros j q Hj Hq Hqs E.
    apply Hj, (w_pid_inj _ _ _ W j np q p); auto. congruence.
  - intros _. destruct (w_cpu _ _ _ W c me Hc) as (q & Hq & Hqs). exists me, q. split_and!; auto. right; by right.
  - intros m n Hm. destruct (F1 m n Hm) as [H1 [[_ []]|H2]]; auto.
Qed.

(** A scan of wait finds the first zombie child, if there is one. *)
Lemma wait_scan_spec me k l hk :
  match (wait_scan me k l hk).2 with
  | Some i => exists p, l !! (i - k)%nat = Some p /\ p_parent p = Some me /\ p_state p = ZOMBIE /\ (k <= i)%nat
  | None => forall j p, l !! j = Some p -> p_parent p = Some me -> p_state p <> ZOMBIE
  end.
Proof.
  revert k hk. induction l as [|p l IH]; intros k hk; cbn [wait_scan]; [done|].
  assert (Hrec : forall b, (p_parent p = Some me -> p_state p <> ZOMBIE) ->
    match (wait_scan me (S k) l b).2 with
    | Some i => exists p', (p :: l) !! (i - k)%nat = Some p' /\ p_parent p' = Some me /\ p_state p' = ZOMBIE /\ (k <= i)%nat
    | None => forall j p', (p :: l) !! j = Some p' -> p_parent p' = Some me -> p_state p' <> ZOMBIE
    end).
  { intros b Hp. specialize (IH (S k) b). destruct (wait_scan me (S k) l b).2 as [i|].
    - destruct IH as (p' & Hp' & H1 & H2 & H3). exists p'. replace (i - k)%nat with (S (i - S k)) by lia. split_and!; auto. lia.
    - intros [|j] p'; cbn; [by intros [= <-]|apply IH]. }
  case_bool_decide as Hp; [|by apply Hrec]. destruct (is_state ZOMBIE p) eqn:Hz.
  - exists p. rewrite Nat.sub_diag. apply bool_decide_eq_true in Hz. auto.
  - apply Hrec. intros _. by apply bool_decide_eq_false in Hz.
Qed.

Lemma wf_reap t cpus fk me hk i :
  wf t cpus fk -> wait_scan me 0 (pt_proc t) false = (hk, Some i) -> wf (upd_proc i reap t) cpus fk.
Proof.
  intros W Hw. assert (H := wait_scan_spec me 0 (pt_proc t) false). rewrite Hw in H. destruct H as (p & Hp & _ & Hs & _).
  rewrite Nat.sub_0_r in Hp. apply (wf_entry t cpus fk _ _ i _ p); auto; cbn; try done.
  - rewrite Hs. by intros [|[|]].
  - intros m n Hm. destruct (w_fork _ _ _ W m n Hm) as [H1 (q & Hq & Hqs)]. split; [done|]. right. split; [|done]. intros ->. congruence.
  - apply (w_fork_inj _ _ _ W).
Qed.

Lemma reparented_fields me init w p :
  p_pid (reparented me init w p) = p_pid p /\ p_chan (reparented me init w p) = p_chan p /\
  p_parent (reparented me init w p) = (if decide (p_parent p = Some me) then Some init else p_parent p) /\
  (p_state (reparented me init w p) = p_state p \/ p_state p = SLEEPING /\ p_state (reparented me init w p) = RUNNABLE) /\
  (w = true -> p_chan p = Some (ChProc init) -> p_state (reparented me init w p) <> SLEEPING).
Proof.
  unfold reparented. set (p1 := if bool_decide _ then _ else p).
  assert (E : p_pid p1 = p_pid p /\ p_chan p1 = p_chan p /\ p_state p1 = p_state p /\
    p_parent p1 = (if decide (p_parent p = Some me) then Some init else p_parent p)).
  { unfold p1. case_bool_decide as E; [rewrite decide_True by done|rewrite decide_False by done]; done. }
  destruct E as (E1 & E2 & E3 & E4). destruct w; [|split_and!; auto; done].
  destruct (wake_proc_fields (ChProc init) p1) as (F1 & F2 & F3 & _ & F4).
  rewrite F1, F2, F3, F4, E1, E2, E3, E4. split_and!; auto; destruct (decide (p_state p = SLEEPING /\ p_chan p = Some (ChProc init))); naive_solver.
Qed.

(** exit once the parent is known to be awake: the table [l] has every child
    handed to init, and [me] a zombie. *)
Lemma wf_exit_table t cpus fk c me w l :
  wf t cpus fk -> cpus !! c = Some (Some me) -> fk !! me = None -> me <> pt_initproc t ->
  (forall p q pq, pt_proc t !! me = Some p -> p_parent p = Some q -> pt_proc t !! q = Some pq ->
    p_state pq = SLEEPING -> p_chan pq <> Some (ChProc q)) ->
  (forall j p, pt_proc t !! j = Some p -> p_parent p = Some me -> p_state p = ZOMBIE -> w = true) ->
  length l = length (pt_proc t) ->
  (forall j p, pt_proc t !! j = Some p ->
    l !! j = Some (let p' := reparented me (pt_initproc t) w p in if decide (j = me) then set_state ZOMBIE p' else p')) ->
  wf (set_procs l t) (<[c := None]> cpus) fk.
Proof.
  intros W Hc Hf Hni Hpw Hw Hlen Hl. assert (Hoff := cpus_off cpus c me). assert (Hex := w_excl _ _ _ W).
  destruct W as [Hi Hcpu _ Hrun Hnx Hpid Hinj Horp Hpar Hirr Hip Hfk Hfki Hwt].
  destruct (Hcpu c me Hc) as (pme & Hme & Hmes).
  assert (Hback : forall j p', l !! j = Some p' -> exists p, pt_proc t !! j = Some p /\ p_pid p' = p_pid p /\ p_chan p' = p_chan p /\
    p_parent p' = (if decide (p_parent p = Some me) then Some (pt_initproc t) else p_parent p) /\
    (j = me /\ p_state p' = ZOMBIE \/ j <> me /\ (p_state p' = p_state p \/ p_state p = SLEEPING /\ p_state p' = RUNNABLE)) /\
    (w = true -> p_chan p = Some (ChProc (pt_initproc t)) -> p_state p' <> SLEEPING)).
  { intros j p' Hj. destruct (lookup_lt_is_Some_2 (pt_proc t) j) as [p Hp]; [apply lookup_lt_Some in Hj; lia|].
    rewrite (Hl j p Hp) in Hj. injection Hj as <-. exists p. split; [done|].
    destruct (reparented_fields me (pt_initproc t) w p) as (E1 & E2 & E3 & E4 & E5). cbn zeta. destruct (decide (j = me)); cbn; split_and!; auto; done. }
  assert (Hal : forall j p, j <> me -> pt_proc t !! j = Some p -> alive (p_state p) -> exists p', l !! j = Some p' /\ alive (p_state p')).
  { intros j p Hj Hp Ha. rewrite (Hl j p Hp). eexists; split; [done|]. cbn zeta. rewrite decide_False by done.
    destruct (reparented_fields me (pt_initproc t) w p) as (_ & _ & _ & [-> |[_ ->]] & _); [done|right; by left]. }
  constructor; cbn [pt_proc set_procs pt_initproc pt_nextpid]; auto.
  - destruct Hi as (p & Hp & Ha). by apply (Hal _ p).
  - intros c' j [Hj Hc']%Hoff; auto. destruct (Hcpu c' j Hc') as (p & Hp & Hs). rewrite (Hl j p Hp), decide_False by done.
    eexists; split; [done|]. destruct (reparented_fields me (pt_initproc t) w p) as (_ & _ & _ & [-> |[E _]] & _); [done|congruence].
  - intros c1 c2 j [_ H1]%Hoff [_ H2]%Hoff; [by apply (Hex _ _ j)|done..].
  - intros j p' (p & Hp & _ & _ & _ & Hst & _)%Hback Hs. destruct Hst as [[-> E]|[Hj [E|[_ E]]]]; [congruence| |congruence].
    destruct (Hrun j p Hp) as [c' Hc']; [congruence|]. exists c'. by apply Hoff.
  - intros j p' (p & Hp & -> & _ & _ & Hst & _)%Hback Hs. apply (Hpid j p Hp). destruct Hst as [[-> E]|[Hj [E|[E' E]]]]; congruence.
  - intros j j' p1 p2 (q1 & Hq1 & E1 & _ & _ & S1 & _)%Hback (q2 & Hq2 & E2 & _ & _ & S2 & _)%Hback Hs1 Hs2 E.
    apply (Hinj j j' q1 q2); auto; [destruct S1 as [[-> ?]|[? [?|[]]]]; congruence|destruct S2 as [[-> ?]|[? [?|[]]]]; congruence|congruence].
  - intros j p' (p & Hp & _ & _ & -> & Hst & _)%Hback Hs.
    rewrite (Horp j p Hp); [by rewrite decide_False|]. destruct Hst as [[-> E]|[Hj [E|[E' E]]]]; rewrite E in Hs; [by destruct Hs|done|by destruct Hs].
  - intros j p' (p & Hp & _ & _ & -> & Hst & _)%Hback Hs1 Hs2 Hji.
    destruct (Hpar j p Hp) as (q & pq & Hq & Hpq & Ha); [destruct Hst as [[-> ?]|[? [?|[]]]]; congruence..|done|].
    destruct (decide (p_parent p = Some me)) as [E|E].
    + destruct Hi as (pi & Hpi & Hai). destruct (Hal (pt_initproc t) pi) as (pi' & ? & ?); auto. by exists (pt_initproc t), pi'.
    + destruct (Hal q pq) as (pq' & ? & ?); auto; [congruence|]. by exists q, pq'.
  - intros j p' (p & Hp & _ & _ & -> & _)%Hback. case_decide as E; [|by apply (Hirr j p)].
    intros [= <-]. specialize (Hip p Hp). congruence.
  - intros p' (p & Hp & _ & _ & -> & _)%Hback. rewrite (Hip p Hp). by rewrite decide_False.
  - intros m np Hm. destruct (Hfk m np Hm) as ((p & Hp & Ha) & (p2 & Hp2 & Hs2)). split; [apply (Hal m p); congruence|].
    assert (np <> me) by congruence. rewrite (Hl np p2 Hp2), decide_False by done. eexists; split; [done|].
    destruct (reparented_fields me (pt_initproc t) w p2) as (_ & _ & _ & [-> |[E _]] & _); [done|congruence].
  - intros j p' q (p & Hp & _ & Ec & _ & Hst & Hni')%Hback Hs Hch. destruct Hst as [[-> E]|[Hj [E|[_ E]]]]; [congruence| |congruence].
    destruct (Hwt j p q Hp) as [-> Hz]; [congruence..|]. split; [done|].
    intros k pk' (pk & Hk & _ & _ & -> & Hstk & _)%Hback Hpk Hzk. destruct Hstk as [[-> _]|[Hkm Hstk]].
    + destruct (decide (p_parent pk = Some me)) as [E'|E']; [by apply (Hirr me pk)|].
      apply (Hpw pk j p); congruence.
    + assert (Hzk' : p_state pk = ZOMBIE) by (destruct Hstk as [|[]]; congruence).
      destruct (decide (p_parent pk = Some me)) as [E'|E'].
      * injection Hpk as <-. apply Hni'; [by apply (Hw k pk)|congruence|done].
      * by apply (Hz k pk).
Qed.

Lemma wf_exit t cpus fk c me :
  wf t cpus fk -> cpus !! c = Some (Some me) -> fk !! me = None -> me <> pt_initproc t ->
  wf (exit_section me t) (<[c := None]> cpus) fk.
Proof.
  intros W Hc Hf Hni. unfold exit_section. destruct (w_cpu _ _ _ W c me Hc) as (p & Hp & Hs).
  destruct (w_parent _ _ _ W me p Hp) as (q & pq & Hq & _); [congruence..|done|].
  rewrite Hp. cbn. rewrite Hq. set (t1 := wakeup1 (ChProc q) t).
  assert (W1 : wf t1 cpus fk) by (by apply wf_wakeup).
  destruct (reparent_spec me (length (pt_proc t1)) 0 false t1 t1) as (w & Ei & En & El & Hl & Hw); auto.
  { intros j p' Hj. lia. }
  set (t2 := reparent _ 0 me t1) in *.
  replace (upd_proc me (set_state ZOMBIE) t2) with (set_procs (alter (set_state ZOMBIE) me (pt_proc t2)) t1)
    by (unfold upd_proc, set_procs; by rewrite Ei, En).
  apply (wf_exit_table _ _ _ _ me w); auto.
  - intros p' q' pq' Hp' Hq' Hpq' Hsl Hch. unfold t1 in Hp', Hpq'. rewrite lookup_wakeup in Hp', Hpq'.
    rewrite Hp in Hp'. injection Hp' as <-. destruct (wake_proc_fields (ChProc q) p) as (_ & E & _). rewrite E, Hq in Hq'. injection Hq' as <-.
    apply fmap_Some in Hpq' as (p0 & Hp0 & ->). destruct (wake_proc_fields (ChProc q) p0) as (_ & _ & F1 & _ & F2).
    rewrite F1 in Hch. rewrite F2 in Hsl. case_decide; naive_solver.
  - by rewrite length_alter.
  - intros j p' Hj. assert (H := lookup_upd t2 me (set_state ZOMBIE) j). cbn [upd_proc pt_proc set_procs] in H. rewrite H, (Hl j p' Hj).
    cbn zeta. by case_decide.
Qed.

(** ** Reachable states *)

Lemma wf_step s s' : sstep s s' -> wf (sy_pt s) (sy_cpus s) (sy_fork s) -> wf (sy_pt s') (sy_cpus s') (sy_fork s').
Proof.
  destruct 1; cbn; intros W.
  - by apply (wf_dispatch _ _ _ _ _ p).
  - by apply wf_yield.
  - apply wf_sleep; auto. intros q ->. by destruct (H1 q).
  - by apply wf_wakeup.
  - by apply wf_kill.
  - by apply (wf_fork_alloc _ _ _ c _ _ _ W H).
  - by apply wf_fork_fail.
  - by apply (wf_fork_done _ _ _ c).
  - by apply wf_exit.
  - by apply (wf_reap _ _ _ me hk).
  - apply wf_sleep; auto. intros q [= <-]. split; [done|]. assert (Hsp := wait_scan_spec me 0 (pt_proc t) false).
    by rewrite H1 in Hsp.
Qed.

(** The machine once userinit has made the first process: [n] processors in
    their schedulers. *)
Definition boot (n : nat) : sys :=
  MkSys (MkPtable (<[0%nat := set_pid 1 (set_state RUNNABLE proc0)]> (replicate NPROC proc0)) 2 0) (replicate n None) ∅.

Lemma wf_boot n : wf (sy_pt (boot n)) (sy_cpus (boot n)) (sy_fork (boot n)).
Proof.
  assert (Hl : forall j p, pt_proc (sy_pt (boot n)) !! j = Some p -> j = 0%nat /\ p = set_pid 1 (set_state RUNNABLE proc0) \/ j <> 0%nat /\ p = proc0).
  { intros j p. cbn [sy_pt boot pt_proc]. destruct (decide (j = 0%nat)) as [->|Hne].
    - rewrite list_lookup_insert_eq by (rewrite length_replicate; unfold NPROC; lia). intros [= <-]. auto.
    - rewrite list_lookup_insert_ne by done. intros [-> _]%lookup_replicate. auto. }
  assert (Hc : forall c j, replicate n None !! c <> Some (Some j :> option nat)).
  { intros c j [E _]%lookup_replicate. done. }
  constructor; cbn [sy_pt sy_cpus sy_fork boot pt_initproc pt_nextpid]; try done; try lia.
  - exists (set_pid 1 (set_state RUNNABLE proc0)). split; [done|]. right; by left.
  - intros c j H. by destruct (Hc c j).
  - intros c c' j H. by destruct (Hc c j).
  - intros j p [[-> ->]|[_ ->]]%Hl; done.
  - intros j p [[-> ->]|[_ ->]]%Hl H; [cbn; lia|by destruct H].
  - intros j j' p p' [[-> ->]|[_ ->]]%Hl [[-> ->]|[_ ->]]%Hl H1 H2 H3; done.
  - intros j p [[-> ->]|[_ ->]]%Hl H; done.
  - intros j p [[-> ->]|[_ ->]]%Hl H H2 H3; done.
  - intros j p [[-> ->]|[_ ->]]%Hl; done.
  - by intros p [[_ ->]|[_ ->]]%Hl.
  - intros j p q [[-> ->]|[_ ->]]%Hl; done.
Qed.

Lemma wf_reachable n s : rtc sstep (boot n) s -> wf (sy_pt s) (sy_cpus s) (sy_fork s).
Proof.
  intros H. assert (W := wf_boot n). revert W. induction H as [|s s1 s' Hs _ IH]; [done|]. intros W. by apply IH, (wf_step s).
Qed.

(** C5: however the critical sections of proc.c are interleaved on any number of
    processors after boot, a process runs on at most one processor and is
    marked RUNNING exactly while it is on one, no two entries in use share a
    pid, and every process but init has a live process as its parent. *)
Theorem ptable_invariant n s :
  rtc sstep (boot n) s ->
  let l := pt_proc (sy_pt s) in
  (forall c c' j, sy_cpus s !! c = Some (Some j) -> sy_cpus s !! c' = Some (Some j) -> c = c') /\
  (forall j p, l !! j = Some p -> p_state p = RUNNING <-> exists c, sy_cpus s !! c = Some (Some j)) /\
  (forall j j' p p', l !! j = Some p -> l !! j' = Some p' -> p_state p <> UNUSED -> p_state p' <> UNUSED ->
    p_pid p = p_pid p' -> j = j') /\
  (forall j p, l !! j = Some p -> p_state p <> UNUSED -> p_state p <> EMBRYO -> j <> pt_initproc (sy_pt s) ->
    exists q pq, p_parent p = Some q /\ l !! q = Some pq /\ alive (p_state pq)).
Proof.
  intros W%wf_reachable. split_and!.
  - apply W.
  - intros j p Hj. split; [by apply W|]. intros [c Hc]. destruct (w_cpu _ _ _ W c j Hc) as (p' & Hp' & Hs). congruence.
  - apply W.
  - apply W.
Qed.

(** C29: no zombie is lost: in every reachable state the parent of a zombie is a
    live process that is not asleep in wait, so it runs or will be run, and
    the scan that its wait makes finds a zombie child to reap. *)
Theorem zombie_reaped n s j p :
  rtc sstep (boot n) s -> pt_proc (sy_pt s) !! j = Some p -> p_state p = ZOMBIE ->
  exists q pq i pi, p_parent p = Some q /\ pt_proc (sy_pt s) !! q = Some pq /\ alive (p_state pq) /\
    ~ (p_state pq = SLEEPING /\ p_chan pq = Some (ChProc q)) /\
    wait_scan q 0 (pt_proc (sy_pt s)) false = (true, Some i) /\
    pt_proc (sy_pt s) !! i = Some pi /\ p_parent pi = Some q /\ p_state pi = ZOMBIE.
Proof.
  intros W%wf_reachable Hj Hz.
  destruct (w_parent _ _ _ W j p Hj) as (q & pq & Hq & Hpq & Ha); [congruence..| |].
  { intros ->. destruct (w_init _ _ _ W) as (p' & Hp' & Ha). rewrite Hj in Hp'. injection Hp' as <-. rewrite Hz in Ha. by destruct Ha as [|[|]]. }
  assert (Hsp := wait_scan_spec q 0 (pt_proc (sy_pt s)) false).
  destruct (wait_scan q 0 (pt_proc (sy_pt s)) false) as [hk [i|]] eqn:E; cbn in Hsp.
  - destruct Hsp as (pi & Hpi & H1 & H2 & _). rewrite Nat.sub_0_r in Hpi. exists q, pq, i, pi. split_and!; auto.
    + intros [Hs Hc]. by destruct (w_wait _ _ _ W q pq q Hpq Hs Hc) as [_ H]; apply (H j p).
    + assert (Hk : forall k l b, (wait_scan q k l b).2 <> None -> (wait_scan q k l b).1 = true).
      { intros k l. revert k. induction l as [|x l IH]; intros k b; cbn; [done|]. repeat case_match; auto. }
      specialize (Hk 0%nat (pt_proc (sy_pt s)) false). rewrite E in Hk |- *. cbn in Hk. by rewrite Hk.
  - by destruct (Hsp j p Hj Hq).
Qed.

(** The first process forks a child, which exits, on one processor. *)
Definition demo_fork : ptable :=
  match alloc_slot (dispatch 0 (sy_pt (boot 1))) with Some (_, t) => t | None => sy_pt (boot 1) end.
Definition demo : sys :=
  let t := upd_proc 1 (fun p => set_state RUNNABLE (set_parent (Some 0%nat) p)) demo_fork in
  MkSys (exit_section 1 (dispatch 1 (yield_section 0 t)))
    (<[0%nat := None]> (<[0%nat := Some 1%nat]> (<[0%nat := None]> (<[0%nat := Some 0%nat]> (sy_cpus (boot 1))))))
    (delete 0%nat (<[0%nat := 1%nat]> ∅)).

Lemma demo_reachable : rtc sstep (boot 1) demo.
Proof.
  eapply rtc_l; [apply (SDispatch _ _ _ 0 0 (set_pid 1 (set_state RUNNABLE proc0))); reflexivity|].
  eapply rtc_l; [apply (SForkAlloc _ _ _ 0 0 1 demo_fork); vm_compute; reflexivity|].
  eapply rtc_l; [apply (SForkDone _ _ _ 0 0 1); vm_compute; reflexivity|].
  eapply rtc_l; [apply (SYield _ _ _ 0 0); vm_compute; reflexivity|].
  eapply rtc_l; [eapply (SDispatch _ _ _ 0 1); vm_compute; reflexivity|].
  eapply rtc_l; [apply (SExit _ _ _ 0 1); [vm_compute; reflexivity..|by vm_compute]|].
  apply rtc_refl.
Qed.

Lemma ptable_invariant_witness :
  exists q pq, (pt_proc (sy_pt demo) !! 1%nat ≫= p_parent) = Some q /\ pt_proc (sy_pt demo) !! q = Some pq /\ alive (p_state pq).
Proof.
  destruct (ptable_invariant 1 demo demo_reachable) as (_ & _ & _ & H).
  destruct (pt_proc (sy_pt demo) !! 1%nat) as [p|] eqn:E; [|by vm_compute in E].
  apply (H 1%nat p E); [vm_compute in E; by injection E as <-..|by vm_compute].
Defined.

Lemma zombie_reaped_witness :
  exists p, pt_proc (sy_pt demo) !! 1%nat = Some p /\ p_state p = ZOMBIE /\
    exists q i, p_parent p = Some q /\ wait_scan q 0 (pt_proc (sy_pt demo)) false = (true, Some i).
Proof.
  destruct (pt_proc (sy_pt demo) !! 1%nat) as [p|] eqn:E; [|by vm_compute in E].
  assert (Hz : p_state p = ZOMBIE) by (vm_compute in E; by injection E as <-).
  destruct (zombie_reaped 1 demo 1%nat p demo_reachable E Hz) as (q & pq & i & pi & Hq & _ & _ & _ & Hw & _).
  exists p. split; [reflexivity|]. split; [exact Hz|]. exists q, i. split; [exact Hq|exact Hw].
Defined.

(** a free entry has pid 0, so kill(0) matches it: it reports success and
    marks the entry killed, and the next process allocated there starts out
    killed, because allocproc does not clear the flag. *)
Theorem kill_zero_poisons t i :
  scan_procs (fun p => p_pid p =? 0) 0 (pt_proc t) = Some i ->
  scan_procs (is_state UNUSED) 0 (pt_proc t) = Some i ->
  (kill_section 0 t).1 = 0 /\
  exists t' p, alloc_slot (kill_section 0 t).2 = Some (i, t') /\ pt_proc t' !! i = Some p /\ p_state p = EMBRYO /\ p_killed p = true.
Proof.
  intros Hk Hu. unfold kill_section. rewrite Hk. split; [done|]. cbn [snd].
  destruct (scan_spec _ _ _ _ Hu) as (p & Hp & Hs & _). rewrite Nat.sub_0_r in Hp.
  set (g := fun p => let p := set_killed true p in if is_state SLEEPING p then set_state RUNNABLE p else p).
  assert (Hgp : g p = set_killed true p).
  { unfold g, is_state in *. apply bool_decide_eq_true in Hs. cbn. by rewrite Hs. }
  assert (Hscan : forall k l, scan_procs (is_state UNUSED) k (alter g i l) = scan_procs (is_state UNUSED) k l).
  { intros k l. clear. revert k i. induction l as [|x l IH]; intros k [|i]; cbn; [done..| |].
    - assert (is_state UNUSED (g x) = is_state UNUSED x) as ->; [|done].
      unfold g, is_state. cbn. destruct x as [? ? ? st]; cbn; by destruct st.
    - by rewrite IH. }
  unfold alloc_slot. cbn [upd_proc pt_proc set_procs]. rewrite Hscan, Hu. eexists _, _. split; [done|]. cbn [pt_proc].
  rewrite !list_lookup_alter_eq, Hp. cbn [fmap option_fmap option_map]. split; [done|]. rewrite Hgp. done.
Qed.

Lemma kill_zero_poisons_witness :
  scan_procs (fun p => p_pid p =? 0) 0 (pt_proc (sy_pt (boot 1))) = Some 1%nat /\
  exists t' p, alloc_slot (kill_section 0 (sy_pt (boot 1))).2 = Some (1%nat, t') /\ pt_proc t' !! 1%nat = Some p /\ p_killed p = true.
Proof.
  split; [reflexivity|].
  destruct (kill_zero_poisons (sy_pt (boot 1)) 1) as (_ & t' & p & H1 & H2 & _ & H3); [reflexivity..|]. by exists t', p.
Defined.
