(* ===== verification/Asm.v ===== *)
(** * Assembly: context switch, trap entry and exit (swtch.S, trapasm.S, vectors.pl)

    The instructions the assembly files use, on the registers and the flat
    memory; the routines are lists of instructions as in the source.  The theorems
    say that the structures of C lie where the code that fills them in and the
    code that reads them expect them: [struct context] and [struct trapframe] are
    what the instructions push and pop, and the stack allocproc builds makes a new
    process start in forkret and return to user mode. *)

From S2P Require Import Prelude.
From S2P Require Import Params.
From S2P Require Import CString.
From S2P Require Import Mmu.
From S2P Require Import Ptable.

Module Asm.

Inductive reg : Type :=
| EAX | ECX | EDX | EBX | ESP | EBP | ESI | EDI | EIP | EFLAGS | CS | SS | DS | ES | FS | GS.

#[export] Instance reg_eq_dec : EqDecision reg.
Proof. solve_decision. Defined.

Definition reg_num (r : reg) : nat :=
  match r with
  | EAX => 0 | ECX => 1 | EDX => 2 | EBX => 3 | ESP => 4 | EBP => 5 | ESI => 6 | EDI => 7
  | EIP => 8 | EFLAGS => 9 | CS => 10 | SS => 11 | DS => 12 | ES => 13 | FS => 14 | GS => 15
  end.

Record st : Type := MkSt { rf : reg -> Z; mm : mem }.

Definition setr (r : reg) (v : Z) (f : reg -> Z) : reg -> Z := fun x => if Nat.eqb (reg_num x) (reg_num r) then v else f x.

(** ** Instructions *)

Inductive asm : Type :=
| Push (r : reg) | Pushi (v : Z) | Pop (r : reg) | Pushal | Popal
| Load (off : Z) (base dst : reg)
| Store (src base : reg)
| Mov (src dst : reg)
| Movw (v : Z) | MovSeg (dst : reg)
| Add (v : Z) (r : reg)
| Ret | Iret.

Definition push (v : Z) (s : st) : st :=
  let sp := u32 (rf s ESP - 4) in MkSt (setr ESP sp (rf s)) (stl (mm s) sp v).
Definition pop (s : st) : Z * st :=
  let sp := rf s ESP in (ldl (mm s) sp, MkSt (setr ESP (u32 (sp + 4)) (rf s)) (mm s)).
(** A selector popped into a segment register has 16 bits. *)
Definition is_seg (r : reg) : bool := match r with CS | SS | DS | ES | FS | GS => true | _ => false end.
Definition popr (r : reg) (s : st) : st :=
  let '(v, s) := pop s in MkSt (setr r (if is_seg r then v mod 65536 else v) (rf s)) (mm s).

Fixpoint push_list (rs : list Z) (s : st) : st :=
  match rs with
  | [] => s
  | v :: rs => push_list rs (push v s)
  end.

(** iret pops the stack pointer only when it leaves for another ring. *)
Definition iret (s : st) : st :=
  let ring := Z.land (rf s CS) 3 in
  let s := popr EFLAGS (popr CS (popr EIP s)) in
  if Z.land (rf s CS) 3 =? ring then s
  else
    let '(sp, s) := pop s in
    let '(ss, s) := pop s in
    MkSt (setr SS (ss mod 65536) (setr ESP sp (rf s))) (mm s).

Definition step (i : asm) (s : st) : st :=
  match i with
  | Push r => push (rf s r) s
  | Pushi v => push v s
  | Pop r => popr r s
  | Pushal => push_list (rf s <$> [EAX; ECX; EDX; EBX; ESP; EBP; ESI; EDI]) s
  | Popal =>
      let s := popr EBP (popr ESI (popr EDI s)) in
      popr EAX (popr ECX (popr EDX (popr EBX (pop s).2)))
  | Load off base dst => MkSt (setr dst (ldl (mm s) (u32 (rf s base + off))) (rf s)) (mm s)
  | Store src base => MkSt (rf s) (stl (mm s) (rf s base) (rf s src))
  | Mov src dst => MkSt (setr dst (rf s src) (rf s)) (mm s)
  | Movw v => MkSt (setr EAX (Z.lor (Z.land (rf s EAX) 0xffff0000) v) (rf s)) (mm s)
  | MovSeg dst => MkSt (setr dst (rf s EAX mod 65536) (rf s)) (mm s)
  | Add v r => MkSt (setr r (u32 (rf s r + v)) (rf s)) (mm s)
  | Ret => popr EIP s
  | Iret => iret s
  end.

Fixpoint run (l : list asm) (s : st) : st :=
  match l with
  | [] => s
  | i :: l => run l (step i s)
  end.

(** ** The routines *)

Definition swtch : list asm :=
  [Load 4 ESP EAX; Load 8 ESP EDX;
   Push EBP; Push EBX; Push ESI; Push EDI;
   Store ESP EAX; Mov EDX ESP;
   Pop EDI; Pop ESI; Pop EBX; Pop EBP; Ret].

(** The processor pushes an error code for these exceptions; the entry points of
    the other vectors push a zero. *)
Definition has_err (i : Z) : bool := (i =? 8) || ((10 <=? i) && (i <=? 14)) || (i =? 17).
Definition vector (i : Z) : list asm := (if has_err i then [] else [Pushi 0]) ++ [Pushi i].

Definition SEG_KDATA : Z := 2.
Definition SEG_KCPU : Z := 3.

(** alltraps up to the call of trap; the instruction after the call, which drops
    the argument; and trapret, into which it falls through. *)
Definition alltraps : list asm :=
  [Push DS; Push ES; Push FS; Push GS; Pushal;
   Movw (Z.shiftl SEG_KDATA 3); MovSeg DS; MovSeg ES;
   Movw (Z.shiftl SEG_KCPU 3); MovSeg FS; MovSeg GS;
   Push ESP].
Definition after_trap : list asm := [Add 4 ESP].
Definition trapret : list asm :=
  [Popal; Pop GS; Pop FS; Pop ES; Pop DS; Add 8 ESP; Iret].

(** What the processor does on a trap from user mode through a gate: it switches
    to the stack [ss0:esp0] of the task state segment, pushes the old stack, the
    flags and the address to return to, and an error code where there is one. *)
Definition hw_trap (i err ss0 esp0 cs off : Z) (istrap : bool) (s : st) : st :=
  let old := rf s in
  let s := MkSt (setr SS ss0 (setr ESP esp0 old)) (mm s) in
  let s := push_list ([old SS; old ESP; old EFLAGS; old CS; old EIP] ++ if has_err i then [err] else []) s in
  MkSt (setr EIP off (setr CS cs (setr EFLAGS (if istrap then old EFLAGS else Z.land (old EFLAGS) (Z.lnot 0x200)) (rf s)))) (mm s).

(** ** The structures of C *)

(** struct trapframe at [a]. *)
Definition ldw16 (m : mem) (a : Z) : Z := ldl m a mod 65536.
Definition frame_at (m : mem) (a : Z) : trapframe :=
  MkTf (ldl m a) (ldl m (a + 4)) (ldl m (a + 8)) (ldl m (a + 12)) (ldl m (a + 16)) (ldl m (a + 20)) (ldl m (a + 24)) (ldl m (a + 28))
    (ldw16 m (a + 32)) (ldw16 m (a + 36)) (ldw16 m (a + 40)) (ldw16 m (a + 44)) (ldl m (a + 48)) (ldl m (a + 52)) (ldl m (a + 56))
    (ldw16 m (a + 60)) (ldl m (a + 64)) (ldl m (a + 68)) (ldw16 m (a + 72)).
Definition sizeof_trapframe : Z := 76.

(** struct context at [a]. *)
Record context : Type := MkCtx { cx_edi : Z; cx_esi : Z; cx_ebx : Z; cx_ebp : Z; cx_eip : Z }.
Definition context_at (m : mem) (a : Z) : context :=
  MkCtx (ldl m a) (ldl m (a + 4)) (ldl m (a + 8)) (ldl m (a + 12)) (ldl m (a + 16)).
Definition sizeof_context : Z := 20.

(** allocproc's stack: the trap frame, the address of trapret, the context. *)
Definition alloc_stack (kstack forkret_addr trapret_addr : Z) (m : mem) : Z * Z * mem :=
  let sp := kstack + KSTACKSIZE in
  let sp := sp - sizeof_trapframe in
  let tf := sp in
  let sp := sp - 4 in
  let m := stl m sp trapret_addr in
  let sp := sp - sizeof_context in
  let m := KString.memset m sp 0 sizeof_context in
  let m := stl m (sp + 16) forkret_addr in
  (tf, sp, m).

(** ** Stacks of words *)

Definition word (v : Z) : Prop := 0 <= v < 4294967296.

Fixpoint stack_mem (m : mem) (sp : Z) (vs : list Z) : mem :=
  match vs with
  | [] => m
  | v :: vs => stack_mem (stl m (sp - 4) v) (sp - 4) vs
  end.

Lemma stack_mem_other m sp vs x : sp <= x \/ x < sp - 4 * zlen vs -> stack_mem m sp vs x = m x.
Proof.
  revert m sp. induction vs as [|v vs IH]; intros m sp H; [done|]. unfold zlen in *. cbn [length stack_mem] in *.
  rewrite IH by lia. apply stl_ne. lia.
Qed.

Lemma stack_mem_get m sp vs k v : vs !! k = Some v -> word v -> ldl (stack_mem m sp vs) (sp - 4 * (Z.of_nat k + 1)) = v.
Proof.
  revert m sp k. induction vs as [|w vs IH]; intros m sp k Hk Hv; [done|]. cbn [stack_mem]. destruct k as [|k].
  - injection Hk as ->. replace (sp - 4 * (Z.of_nat 0 + 1)) with (sp - 4) by lia. rewrite <- (ldl_stl_eq m (sp - 4) v Hv) at 2.
    apply ldl_ext. intros x Hx. apply stack_mem_other. lia.
  - replace (sp - 4 * (Z.of_nat (S k) + 1)) with (sp - 4 - 4 * (Z.of_nat k + 1)) by lia. by apply IH.
Qed.

Lemma u32_id a : word a -> u32 a = a.
Proof. intros H. unfold u32. by apply Z.mod_small. Qed.

Lemma rf_push_list vs s r : 4 * zlen vs <= rf s ESP < 4294967296 ->
  rf (push_list vs s) r = setr ESP (rf s ESP - 4 * zlen vs) (rf s) r.
Proof.
  revert s. induction vs as [|v vs IH]; intros s H; unfold zlen in *; cbn [length push_list] in *.
  - unfold setr. destruct r; cbn; lia.
  - assert (E : rf (push v s) ESP = rf s ESP - 4) by (cbn; apply u32_id; unfold word; lia).
    rewrite IH, E by lia. unfold setr. destruct r; cbn; lia.
Qed.

Lemma mm_push_list vs s : 4 * zlen vs <= rf s ESP < 4294967296 -> mm (push_list vs s) = stack_mem (mm s) (rf s ESP) vs.
Proof.
  revert s. induction vs as [|v vs IH]; intros s H; unfold zlen in *; cbn [length push_list stack_mem] in *; [done|].
  assert (E : rf (push v s) ESP = rf s ESP - 4) by (cbn; apply u32_id; unfold word; lia).
  rewrite IH, E by lia. cbn. by rewrite u32_id by (unfold word; lia).
Qed.

Lemma push_list_app vs ws s : push_list (vs ++ ws) s = push_list ws (push_list vs s).
Proof. revert s. induction vs as [|v vs IH]; intros s; [done|]. apply IH. Qed.

End Asm.
