(* ===== verification/AsmProps.v ===== *)
(** * What the assembly routines do to stacks and registers *)

From S2P Require Import Prelude.
From S2P Require Import Params.
From S2P Require Import CString.
From S2P Require Import Mmu.
From S2P Require Import Ptable.
From S2P Require Import Asm.
Import Asm.

(** ** Trap entry *)

Lemma run_app l l' s : run (l ++ l') s = run l' (run l s).
Proof. revert s. induction l as [|i l IH]; intros s; [done|]. apply IH. Qed.

Lemma run_cons i l s : run (i :: l) s = run l (step i s).
Proof. done. Qed.

Lemma stack_mem_app m sp vs ws : stack_mem m sp (vs ++ ws) = stack_mem (stack_mem m sp vs) (sp - 4 * zlen vs) ws.
Proof.
  revert m sp. induction vs as [|v vs IH]; intros m sp; unfold zlen in *; cbn [length app stack_mem]; [f_equal; lia|].
  rewrite IH. f_equal. lia.
Qed.

(** [s'] is [s] with words pushed. *)
Definition pushed (vs : list Z) (s s' : st) : Prop :=
  mm s' = stack_mem (mm s) (rf s ESP) vs /\ rf s' ESP = rf s ESP - 4 * zlen vs /\ forall r, r <> ESP -> rf s' r = rf s r.

Lemma pushed_list vs s : 4 * zlen vs <= rf s ESP < 4294967296 -> pushed vs s (push_list vs s).
Proof.
  intros H. split_and!; [by apply mm_push_list|by rewrite rf_push_list|]. intros r Hr. rewrite rf_push_list by done.
  unfold setr. by destruct r.
Qed.

Lemma pushed_trans vs ws s s1 s2 : pushed vs s s1 -> pushed ws s1 s2 -> pushed (vs ++ ws) s s2.
Proof.
  intros (A1 & A2 & A3) (B1 & B2 & B3). split_and!.
  - by rewrite B1, A1, A2, stack_mem_app.
  - rewrite B2, A2, zlen_app. lia.
  - intros r Hr. by rewrite B3, A3.
Qed.

Lemma run_pushes rs s : ESP ∉ rs -> run (Push <$> rs) s = push_list (rf s <$> rs) s.
Proof.
  revert s. induction rs as [|r rs IH]; intros s H; [done|]. cbn [fmap list_fmap run step push_list]. rewrite IH by set_solver. f_equal.
  apply list_fmap_ext. intros i r' Hr'. apply list_elem_of_lookup_2 in Hr'. cbn. unfold setr. destruct r'; try done. set_solver.
Qed.

(** The words of the frame, in the order they are pushed. *)
Definition trap_words (i err esp0 : Z) (r : reg -> Z) : list Z :=
  [r SS; r ESP; r EFLAGS; r CS; r EIP; if has_err i then err else 0; i; r DS; r ES; r FS; r GS;
   r EAX; r ECX; r EDX; r EBX; esp0 - 44; r EBP; r ESI; r EDI].

(** The processor's pushes and the entry point's. *)
Lemma vector_pushed i err ss0 esp0 cs off istrap s : 80 <= esp0 < 4294967296 ->
  let s' := run (vector i) (hw_trap i err ss0 esp0 cs off istrap s) in
  let r := rf s in
  mm s' = stack_mem (mm s) esp0 [r SS; r ESP; r EFLAGS; r CS; r EIP; if has_err i then err else 0; i] /\ rf s' ESP = esp0 - 28 /\
  forall x, x ∈ [DS; ES; FS; GS; EAX; ECX; EDX; EBX; EBP; ESI; EDI] -> rf s' x = r x.
Proof.
  intros Hsp. cbv zeta. set (r := rf s). unfold hw_trap. fold r. set (h := MkSt (setr SS ss0 (setr ESP esp0 r)) (mm s)).
  set (w := [r SS; r ESP; r EFLAGS; r CS; r EIP] ++ if has_err i then [err] else []).
  set (v := (if has_err i then [] else [0]) ++ [i]).
  assert (Hl : 4 * zlen w + 4 * zlen v = 28) by (unfold w, v, zlen; destruct (has_err i); cbn; lia).
  assert (Hw : 4 * zlen w <= rf h ESP < 4294967296) by (pose proof (zlen_nonneg v); change (rf h ESP) with esp0; lia).
  destruct (pushed_list w h Hw) as (P1 & P2 & P3). change (rf h ESP) with esp0 in *. change (mm h) with (mm s) in *.
  set (g := MkSt (setr EIP off (setr CS cs (setr EFLAGS (if istrap then r EFLAGS else Z.land (r EFLAGS) (Z.lnot 512)) (rf (push_list w h))))) (mm (push_list w h))).
  assert (Hv : run (vector i) g = push_list v g) by (unfold vector, v; by destruct (has_err i)). rewrite Hv.
  destruct (pushed_list v g) as (Q1 & Q2 & Q3); [change (rf g ESP) with (rf (push_list w h) ESP); rewrite P2; pose proof (zlen_nonneg w); lia|].
  change (rf g ESP) with (rf (push_list w h) ESP) in *. change (mm g) with (mm (push_list w h)) in *. split_and!.
  - rewrite Q1, P1, P2, <- stack_mem_app. f_equal. unfold w, v. by destruct (has_err i).
  - rewrite Q2, P2. lia.
  - intros x Hx. assert (x <> ESP) by (intros ->; set_solver). rewrite Q3 by done.
    transitivity (rf (push_list w h) x); [unfold g, setr; destruct x; done || set_solver|]. rewrite P3 by done.
    unfold h, setr. destruct x; done || set_solver.
Qed.

Lemma alltraps_run s : run alltraps s =
  let g := push_list (rf s <$> [DS; ES; FS; GS]) s in run (drop 5 alltraps) (push_list (rf g <$> [EAX; ECX; EDX; EBX; ESP; EBP; ESI; EDI]) g).
Proof.
  cbv zeta. rewrite <- (run_pushes [DS; ES; FS; GS] s) by set_solver. change alltraps with ((Push <$> [DS; ES; FS; GS]) ++ Pushal :: drop 5 alltraps) at 1.
  rewrite run_app, run_cons. generalize (run (Push <$> [DS; ES; FS; GS]) s). intros g. generalize (drop 5 alltraps). intros l. f_equal.
Qed.

Lemma alltraps_end f :
  mm (run (drop 5 alltraps) f) = stl (mm f) (u32 (rf f ESP - 4)) (rf f ESP) /\ rf (run (drop 5 alltraps) f) ESP = u32 (rf f ESP - 4).
Proof. done. Qed.

Definition enter (i err ss0 esp0 cs off : Z) (istrap : bool) (s : st) : st :=
  run (vector i ++ alltraps) (hw_trap i err ss0 esp0 cs off istrap s).

Lemma enter_run i err ss0 esp0 cs off istrap s : 80 <= esp0 < 4294967296 ->
  let s' := enter i err ss0 esp0 cs off istrap s in
  mm s' = stack_mem (mm s) esp0 (trap_words i err esp0 (rf s) ++ [esp0 - 76]) /\ rf s' ESP = esp0 - 80.
Proof.
  intros Hsp. unfold enter. rewrite run_app. destruct (vector_pushed i err ss0 esp0 cs off istrap s Hsp) as (V1 & V2 & V3).
  cbv zeta in *. revert V1 V2 V3. generalize (run (vector i) (hw_trap i err ss0 esp0 cs off istrap s)). intros h V1 V2 V3. set (r := rf s) in *.
  rewrite alltraps_run. cbv zeta.
  set (g := push_list (rf h <$> [DS; ES; FS; GS]) h).
  destruct (pushed_list (rf h <$> [DS; ES; FS; GS]) h) as (P1 & P2 & P3); [rewrite V2; unfold zlen; cbn; lia|]. fold g in P1, P2, P3. clearbody g.
  set (w := rf g <$> [EAX; ECX; EDX; EBX; ESP; EBP; ESI; EDI]). set (f := push_list w g).
  rewrite V2 in P2. change (esp0 - 28 - 4 * zlen (rf h <$> [DS; ES; FS; GS])) with (esp0 - 28 - 16) in P2. replace (esp0 - 28 - 16) with (esp0 - 44) in P2 by lia.
  destruct (pushed_list w g) as (Q1 & Q2 & Q3); [rewrite P2; unfold zlen; cbn; lia|]. fold f in Q1, Q2, Q3. clearbody f.
  assert (Hw : w = [r EAX; r ECX; r EDX; r EBX; esp0 - 44; r EBP; r ESI; r EDI]).
  { unfold w. cbn [fmap list_fmap]. rewrite P2, !P3, !V3 by (done || set_solver). done. }
  assert (Hf : mm f = stack_mem (mm s) esp0 (trap_words i err esp0 r)).
  { rewrite Q1, P1, V1, V2, P2, Hw. cbn [fmap list_fmap]. rewrite !V3 by set_solver.
    change (trap_words i err esp0 r) with ([r SS; r ESP; r EFLAGS; r CS; r EIP; if has_err i then err else 0; i] ++ [r DS; r ES; r FS; r GS] ++ [r EAX; r ECX; r EDX; r EBX; esp0 - 44; r EBP; r ESI; r EDI]).
    rewrite !stack_mem_app. unfold zlen. cbn [length]. replace (esp0 - 4 * Z.of_nat 7) with (esp0 - 28) by lia. replace (esp0 - 28 - 4 * Z.of_nat 4) with (esp0 - 44) by lia. done. }
  assert (Hs : rf f ESP = esp0 - 76) by (rewrite Q2, P2, Hw; unfold zlen; cbn; lia).
  destruct (alltraps_end f) as [-> ->]. rewrite Hs, Hf, u32_id by (unfold word; lia). split; [|lia].
  rewrite stack_mem_app. change (zlen (trap_words i err esp0 r)) with 19. cbn [stack_mem].
  replace (esp0 - 4 * 19) with (esp0 - 76) by lia. reflexivity.
Qed.

Definition frame_of (i err esp0 : Z) (r : reg -> Z) : trapframe :=
  MkTf (r EDI) (r ESI) (r EBP) (esp0 - 44) (r EBX) (r EDX) (r ECX) (r EAX) (r GS) (r FS) (r ES) (r DS) i (if has_err i then err else 0)
    (r EIP) (r CS) (r EFLAGS) (r ESP) (r SS).

(** Registers hold words, and segment registers 16-bit selectors. *)
Definition regs_ok (r : reg -> Z) : Prop := forall x, word (r x) /\ (is_seg x = true -> r x < 65536).

Lemma frame_entered i err ss0 esp0 cs off istrap s :
  80 <= esp0 < 4294967296 -> regs_ok (rf s) -> word i -> word err ->
  let s' := enter i err ss0 esp0 cs off istrap s in
  frame_at (mm s') (esp0 - sizeof_trapframe) = frame_of i err esp0 (rf s) /\
  ldl (mm s') (rf s' ESP) = esp0 - sizeof_trapframe /\ forall x, esp0 <= x -> mm s' x = mm s x.
Proof.
  intros Hsp Hr Hi Herr. cbv zeta. destruct (enter_run i err ss0 esp0 cs off istrap s Hsp) as [-> ->]. unfold sizeof_trapframe.
  set (ws := trap_words i err esp0 (rf s) ++ [esp0 - 76]).
  assert (G : forall k v, ws !! k = Some v -> word v -> ldl (stack_mem (mm s) esp0 ws) (esp0 - 76 + 4 * (18 - Z.of_nat k)) = v).
  { intros k v Hk Hv. replace (esp0 - 76 + 4 * (18 - Z.of_nat k)) with (esp0 - 4 * (Z.of_nat k + 1)) by lia. by apply stack_mem_get. }
  assert (Gr : forall k x, ws !! k = Some (rf s x) -> ldl (stack_mem (mm s) esp0 ws) (esp0 - 76 + 4 * (18 - Z.of_nat k)) = rf s x) by (intros k x Hk; apply G; [done|apply Hr]).
  assert (Gs : forall x, is_seg x = true -> rf s x mod 65536 = rf s x) by (intros x Hx; apply Z.mod_small; destruct (Hr x) as [[? _] H]; auto).
  assert (Go : forall x, esp0 <= x -> stack_mem (mm s) esp0 ws x = mm s x) by (intros x Hx; apply stack_mem_other; lia).
  assert (Hw : forall k, ws !! k = (trap_words i err esp0 (rf s) ++ [esp0 - 76]) !! k) by done.
  revert G Gr Go Hw. generalize (stack_mem (mm s) esp0 ws). intros M. generalize ws. intros vs G Gr Go Hw.
  assert (Gx : forall k x, (trap_words i err esp0 (rf s) ++ [esp0 - 76]) !! k = Some (rf s x) -> ldl M (esp0 - 76 + 4 * (18 - Z.of_nat k)) = rf s x)
    by (intros k x Hk; apply Gr; by rewrite Hw).
  assert (Gz : forall k v, (trap_words i err esp0 (rf s) ++ [esp0 - 76]) !! k = Some v -> word v -> ldl M (esp0 - 76 + 4 * (18 - Z.of_nat k)) = v)
    by (intros k v Hk; apply G; by rewrite Hw).
  clear G Gr Hw. split_and!; [|replace (esp0 - 80) with (esp0 - 76 + 4 * (18 - Z.of_nat 19)) by lia; apply Gz; [done|unfold word; lia]|done].
  assert (E0 : ldl M (esp0 - 76 + 0) = rf s EDI) by (by apply (Gx 18%nat EDI)).
  assert (E1 : ldl M (esp0 - 76 + 4) = rf s ESI) by (by apply (Gx 17%nat ESI)).
  assert (E2 : ldl M (esp0 - 76 + 8) = rf s EBP) by (by apply (Gx 16%nat EBP)).
  assert (E3 : ldl M (esp0 - 76 + 12) = esp0 - 44) by (apply (Gz 15%nat); [done|unfold word; lia]).
  assert (E4 : ldl M (esp0 - 76 + 16) = rf s EBX) by (by apply (Gx 14%nat EBX)).
  assert (E5 : ldl M (esp0 - 76 + 20) = rf s EDX) by (by apply (Gx 13%nat EDX)).
  assert (E6 : ldl M (esp0 - 76 + 24) = rf s ECX) by (by apply (Gx 12%nat ECX)).
  assert (E7 : ldl M (esp0 - 76 + 28) = rf s EAX) by (by apply (Gx 11%nat EAX)).
  assert (E8 : ldl M (esp0 - 76 + 32) = rf s GS) by (by apply (Gx 10%nat GS)).
  assert (E9 : ldl M (esp0 - 76 + 36) = rf s FS) by (by apply (Gx 9%nat FS)).
  assert (E10 : ldl M (esp0 - 76 + 40) = rf s ES) by (by apply (Gx 8%nat ES)).
  assert (E11 : ldl M (esp0 - 76 + 44) = rf s DS) by (by apply (Gx 7%nat DS)).
  assert (E12 : ldl M (esp0 - 76 + 48) = i) by (by apply (Gz 6%nat)).
  assert (E13 : ldl M (esp0 - 76 + 52) = if has_err i then err else 0) by (apply (Gz 5%nat); [done|destruct (has_err i); [done|unfold word; lia]]).
  assert (E14 : ldl M (esp0 - 76 + 56) = rf s EIP) by (by apply (Gx 4%nat EIP)).
  assert (E15 : ldl M (esp0 - 76 + 60) = rf s CS) by (by apply (Gx 3%nat CS)).
  assert (E16 : ldl M (esp0 - 76 + 64) = rf s EFLAGS) by (by apply (Gx 2%nat EFLAGS)).
  assert (E17 : ldl M (esp0 - 76 + 68) = rf s ESP) by (by apply (Gx 1%nat ESP)).
  assert (E18 : ldl M (esp0 - 76 + 72) = rf s SS) by (by apply (Gx 0%nat SS)).
  rewrite Z.add_0_r in E0. unfold frame_at, frame_of, ldw16.
  by rewrite E0, E1, E2, E3, E4, E5, E6, E7, E8, E9, E10, E11, E12, E13, E14, E15, E16, E17, E18, !Gs by done.
Qed.

(** ** Trap exit *)

(** Words popped into registers, [None] skips one. *)
Fixpoint pops (rs : list (option reg)) (s : st) : st :=
  match rs with
  | [] => s
  | Some r :: rs => pops rs (popr r s)
  | None :: rs => pops rs (pop s).2
  end.

Definition ldr (r : reg) (m : mem) (a : Z) : Z := if is_seg r then ldl m a mod 65536 else ldl m a.

Lemma setr_eq r v f : setr r v f r = v.
Proof. unfold setr. by rewrite Nat.eqb_refl. Qed.
Lemma setr_ne r x v f : x <> r -> setr r v f x = f x.
Proof. intros H. unfold setr. by destruct (Nat.eqb_spec (reg_num x) (reg_num r)) as [E|E]; [destruct H; destruct x, r|]. Qed.

Lemma pops_spec rs s : Some ESP ∉ rs -> NoDup (omap id rs) -> 0 <= rf s ESP -> rf s ESP + 4 * zlen rs < 4294967296 ->
  rf (pops rs s) ESP = rf s ESP + 4 * zlen rs /\ mm (pops rs s) = mm s /\
  (forall k r, rs !! k = Some (Some r) -> rf (pops rs s) r = ldr r (mm s) (rf s ESP + 4 * Z.of_nat k)) /\
  (forall x, x <> ESP -> Some x ∉ rs -> rf (pops rs s) x = rf s x).
Proof.
  revert s. induction rs as [|o rs IH]; intros s Hn Hd H0 H1; unfold zlen in *; cbn [length] in *.
  { cbn. split_and!; [lia|done..]. }
  assert (E : exists s1, pops (o :: rs) s = pops rs s1 /\ rf s1 ESP = rf s ESP + 4 /\ mm s1 = mm s /\
    (forall r, o = Some r -> rf s1 r = ldr r (mm s) (rf s ESP)) /\ (forall x, x <> ESP -> o <> Some x -> rf s1 x = rf s x)).
  { destruct o as [r|]; cbn [pops].
    - assert (Hr : r <> ESP) by set_solver. eexists. split; [done|]. cbn. rewrite u32_id by (unfold word; lia). split_and!; [|done|..].
      + rewrite setr_ne, setr_eq; congruence.
      + intros r' [= <-]. by rewrite setr_eq.
      + intros x Hx Hxr. rewrite setr_ne, setr_ne; congruence.
    - eexists. split; [done|]. cbn [pop snd rf mm]. rewrite u32_id by (unfold word; lia). split_and!; [by rewrite setr_eq|done|done|]. intros x Hx _. by rewrite setr_ne. }
  destruct E as (s1 & -> & E1 & E2 & E3 & E4).
  destruct (IH s1) as (I1 & I2 & I3 & I4); [set_solver| |lia|lia|].
  { destruct o; cbn in Hd; [by apply NoDup_cons_1_2 in Hd|done]. }
  rewrite I1, I2, E1, E2. split_and!; [lia|done| |].
  - intros [|k] r Hk.
    + injection Hk as ->. rewrite I4; [|set_solver|].
      * rewrite E3 by done. f_equal. lia.
      * intros Hin. cbn in Hd. apply NoDup_cons_1_1 in Hd. apply Hd. rewrite list_elem_of_omap. exists (Some r). done.
    + rewrite (I3 k r Hk), E1, E2. f_equal. lia.
  - intros x Hx Hin. rewrite I4 by set_solver. apply E4; set_solver.
Qed.

(** The registers a frame stands for. *)
Definition regs_of (tf : trapframe) (x : reg) : Z :=
  match x with
  | EAX => tf_eax tf | ECX => tf_ecx tf | EDX => tf_edx tf | EBX => tf_ebx tf | ESP => tf_esp tf | EBP => tf_ebp tf
  | ESI => tf_esi tf | EDI => tf_edi tf | EIP => tf_eip tf | EFLAGS => tf_eflags tf | CS => tf_cs tf | SS => tf_ss tf
  | DS => tf_ds tf | ES => tf_es tf | FS => tf_fs tf | GS => tf_gs tf
  end.

Definition popped : list (option reg) :=
  [Some EDI; Some ESI; Some EBP; None; Some EBX; Some EDX; Some ECX; Some EAX; Some GS; Some FS; Some ES; Some DS].

Lemma trapret_run s : run trapret s = iret (let u := pops popped s in MkSt (setr ESP (u32 (rf u ESP + 8)) (rf u)) (mm u)).
Proof.
  unfold trapret. rewrite run_cons.
  assert (E : step Popal s = pops (take 8 popped) s) by reflexivity. rewrite E. clear E. generalize (eq_refl (pops (take 8 popped) s)).
  generalize (pops (take 8 popped) s) at 2 3. intros u Hu. rewrite !run_cons.
  assert (E : pops popped s = pops (drop 8 popped) (pops (take 8 popped) s)) by reflexivity. rewrite E, Hu. reflexivity.
Qed.

Lemma iret_out s a : rf s ESP = a -> 0 <= a -> a + 20 < 4294967296 -> Z.land (rf s CS) 3 = 0 -> Z.land (ldw16 (mm s) (a + 4)) 3 = 3 ->
  let s' := iret s in
  rf s' EIP = ldl (mm s) a /\ rf s' CS = ldw16 (mm s) (a + 4) /\ rf s' EFLAGS = ldl (mm s) (a + 8) /\ rf s' ESP = ldl (mm s) (a + 12) /\
  rf s' SS = ldw16 (mm s) (a + 16) /\ forall x, x ∉ [EIP; CS; EFLAGS; ESP; SS] -> rf s' x = rf s x.
Proof.
  intros Ha H0 H1 Hcs Hring. cbv zeta. unfold iret. rewrite Hcs. change (popr EFLAGS (popr CS (popr EIP s))) with (pops [Some EIP; Some CS; Some EFLAGS] s).
  destruct (pops_spec [Some EIP; Some CS; Some EFLAGS] s) as (P1 & P2 & P3 & P4).
  { by apply (bool_decide_unpack _). }
  { by apply (bool_decide_unpack _). }
  { lia. }
  { unfold zlen. cbn. lia. }
  pose proof (P3 0%nat EIP eq_refl) as E0. pose proof (P3 1%nat CS eq_refl) as E1. pose proof (P3 2%nat EFLAGS eq_refl) as E2. rewrite Ha in *.
  change (4 * Z.of_nat 0) with 0 in E0. change (4 * Z.of_nat 1) with 4 in E1. change (4 * Z.of_nat 2) with 8 in E2. rewrite Z.add_0_r in E0.
  change (a + 4 * zlen [Some EIP; Some CS; Some EFLAGS]) with (a + 12) in P1.
  revert P1 P2 P4 E0 E1 E2. generalize (pops [Some EIP; Some CS; Some EFLAGS] s). intros u P1 P2 P4 E0 E1 E2. unfold ldr in *. cbn [is_seg] in *.
  rewrite E1. fold (ldw16 (mm s) (a + 4)). rewrite Hring. cbn [Z.eqb]. cbn [pop rf mm]. rewrite P1, P2, u32_id by (unfold word; lia).
  rewrite !setr_eq. replace (a + 12 + 4) with (a + 16) by lia.
  split_and!; try (repeat first [rewrite setr_eq|rewrite setr_ne by done]; done).
  intros x Hx. rewrite !setr_ne by set_solver. apply P4; set_solver.
Qed.

Lemma trapret_restores s a :
  rf s ESP = a -> 0 <= a -> a + sizeof_trapframe < 4294967296 -> Z.land (rf s CS) 3 = 0 -> Z.land (tf_cs (frame_at (mm s) a)) 3 = 3 ->
  forall x, rf (run trapret s) x = regs_of (frame_at (mm s) a) x.
Proof.
  unfold sizeof_trapframe. intros Ha H0 H1 Hcs Hring x. rewrite trapret_run. cbv zeta. destruct (pops_spec popped s) as (P1 & P2 & P3 & P4).
  { by apply (bool_decide_unpack _). }
  { by apply (bool_decide_unpack _). }
  { lia. }
  { unfold zlen. cbn. lia. }
  assert (P5 : rf (pops popped s) CS = rf s CS) by (apply P4; by apply (bool_decide_unpack _)). rewrite Ha in P1, P3.
  change (a + 4 * zlen popped) with (a + 48) in P1. clear P4.
  revert P1 P2 P3 P5. generalize (pops popped s). intros u P1 P2 P3 P5.
  set (v := MkSt (setr ESP (u32 (rf u ESP + 8)) (rf u)) (mm u)).
  destruct (iret_out v (a + 56)) as (I1 & I2 & I3 & I4 & I5 & I6).
  { unfold v. cbn [rf]. rewrite setr_eq, P1, u32_id by (unfold word; lia). lia. }
  { lia. }
  { lia. }
  { unfold v. cbn [rf]. by rewrite setr_ne, P5. }
  { unfold v. cbn [mm]. rewrite P2. replace (a + 56 + 4) with (a + 60) by lia. done. }
  change (mm v) with (mm u) in *. rewrite P2 in *.
  replace (a + 56 + 4) with (a + 60) in * by lia. replace (a + 56 + 8) with (a + 64) in * by lia.
  replace (a + 56 + 12) with (a + 68) in * by lia. replace (a + 56 + 16) with (a + 72) in * by lia.
  assert (Hv : forall y, y ∉ [EIP; CS; EFLAGS; ESP; SS] -> rf (iret v) y = rf u y) by (intros y Hy; rewrite I6 by done; unfold v; cbn [rf]; rewrite setr_ne; set_solver).
  destruct x; try done; rewrite Hv by (by apply (bool_decide_unpack _)).
  - exact (P3 7%nat EAX eq_refl).
  - exact (P3 6%nat ECX eq_refl).
  - exact (P3 5%nat EDX eq_refl).
  - exact (P3 4%nat EBX eq_refl).
  - exact (P3 2%nat EBP eq_refl).
  - exact (P3 1%nat ESI eq_refl).
  - rewrite (P3 0%nat EDI eq_refl). change (4 * Z.of_nat 0) with 0. by rewrite Z.add_0_r.
  - exact (P3 11%nat DS eq_refl).
  - exact (P3 10%nat ES eq_refl).
  - exact (P3 9%nat FS eq_refl).
  - exact (P3 8%nat GS eq_refl).
Qed.

(** C19: a trap from user mode builds on the kernel stack the frame that trap is
    given a pointer to, with every user register, the trap number and the error
    code.  When trap returns, with the stack pointer it was called with, the rest
    of alltraps drops the argument and trapret loads every register from the
    frame as trap left it, so that a handler that leaves it alone is not noticed;
    and so does trapret when it is entered with the frame on top of the stack. *)
Theorem trap_roundtrip i err ss0 esp0 cs off istrap s :
  80 <= esp0 -> esp0 + 4 < 4294967296 -> regs_ok (rf s) -> word i -> word err ->
  let s' := enter i err ss0 esp0 cs off istrap s in
  let tf := esp0 - sizeof_trapframe in
  ldl (mm s') (rf s' ESP) = tf /\ frame_at (mm s') tf = frame_of i err esp0 (rf s) /\
  (forall u, rf u ESP = tf -> Z.land (rf u CS) 3 = 0 -> Z.land (tf_cs (frame_at (mm u) tf)) 3 = 3 ->
    (forall x, rf (run trapret u) x = regs_of (frame_at (mm u) tf) x) /\
    (frame_at (mm u) tf = frame_at (mm s') tf -> forall x, rf (run trapret u) x = rf s x)) /\
  (forall u, rf u ESP = rf s' ESP -> Z.land (rf u CS) 3 = 0 -> Z.land (tf_cs (frame_at (mm u) tf)) 3 = 3 ->
    (forall x, rf (run (after_trap ++ trapret) u) x = regs_of (frame_at (mm u) tf) x) /\
    (frame_at (mm u) tf = frame_at (mm s') tf -> forall x, rf (run (after_trap ++ trapret) u) x = rf s x)).
Proof.
  intros H0 H1 Hr Hi He. cbv zeta. destruct (frame_entered i err ss0 esp0 cs off istrap s) as (F1 & F2 & _); [lia|done..|].
  assert (Hret : forall u, rf u ESP = esp0 - sizeof_trapframe -> Z.land (rf u CS) 3 = 0 ->
    Z.land (tf_cs (frame_at (mm u) (esp0 - sizeof_trapframe))) 3 = 3 ->
    (forall x, rf (run trapret u) x = regs_of (frame_at (mm u) (esp0 - sizeof_trapframe)) x) /\
    (frame_at (mm u) (esp0 - sizeof_trapframe) = frame_at (mm (enter i err ss0 esp0 cs off istrap s)) (esp0 - sizeof_trapframe) ->
     forall x, rf (run trapret u) x = rf s x)).
  { intros u Hu Hcs Hring.
    assert (T := trapret_restores u _ Hu ltac:(unfold sizeof_trapframe; lia) ltac:(unfold sizeof_trapframe; lia) Hcs Hring).
    split; [done|]. intros E x. rewrite T, E, F1. by destruct x. }
  split_and!; [done..|]. intros u Hu Hcs Hring. rewrite run_app.
  apply (Hret (run after_trap u)); [|by rewrite <- Hcs|done].
  destruct (enter_run i err ss0 esp0 cs off istrap s) as [_ E]; [lia|]. cbn [after_trap run step rf]. rewrite setr_eq, Hu, E.
  rewrite u32_id by (unfold word; lia). unfold sizeof_trapframe. lia.
Qed.

(** ** Context switch *)

Definition saved : list reg := [EBP; EBX; ESI; EDI].

Lemma swtch_cons s : run swtch s =
  let s1 := run [Load 4 ESP EAX; Load 8 ESP EDX] s in
  let s2 := push_list (rf s1 <$> saved) s1 in
  pops [Some EDI; Some ESI; Some EBX; Some EBP; Some EIP] (MkSt (setr ESP (rf s2 EDX) (rf s2)) (stl (mm s2) (rf s2 EAX) (rf s2 ESP))).
Proof.
  change swtch with ([Load 4 ESP EAX; Load 8 ESP EDX] ++ (Push <$> saved) ++ drop 6 swtch). rewrite !run_app. cbv zeta.
  rewrite run_pushes by (by apply (bool_decide_unpack _)). generalize (run [Load 4 ESP EAX; Load 8 ESP EDX] s). intros s1.
  generalize (push_list (rf s1 <$> saved) s1). intros s2. reflexivity.
Qed.

(** The stack and the registers after swtch. *)
Definition swtch_mem (s : st) : mem :=
  stl (stack_mem (mm s) (rf s ESP) (rf s <$> saved)) (ldl (mm s) (rf s ESP + 4)) (rf s ESP - 16).

Lemma swtch_run s new : 16 <= rf s ESP -> rf s ESP + 8 < 4294967296 -> ldl (mm s) (rf s ESP + 8) = new -> 0 <= new -> new + 20 < 4294967296 ->
  let s' := run swtch s in
  mm s' = swtch_mem s /\ rf s' ESP = new + 20 /\ context_at (swtch_mem s) new = MkCtx (rf s' EDI) (rf s' ESI) (rf s' EBX) (rf s' EBP) (rf s' EIP).
Proof.
  intros H0 H1 Hnew Hn0 Hn1. cbv zeta. rewrite swtch_cons. cbv zeta. set (s1 := run [Load 4 ESP EAX; Load 8 ESP EDX] s).
  assert (Hs1 : mm s1 = mm s /\ rf s1 ESP = rf s ESP /\ rf s1 EAX = ldl (mm s) (rf s ESP + 4) /\ rf s1 EDX = new /\ (rf s1 <$> saved) = (rf s <$> saved)).
  { unfold s1. cbn [run step rf mm]. rewrite !setr_eq, !(setr_ne EAX ESP), !(setr_ne EDX ESP), (setr_ne EDX EAX), setr_eq, !u32_id by (done || unfold word; lia).
    split_and!; [done..| ]. cbn [saved fmap list_fmap]. rewrite !setr_ne by done. done. }
  destruct Hs1 as (A1 & A2 & A3 & A4 & A5). clearbody s1. rewrite A5.
  destruct (pushed_list (rf s <$> saved) s1) as (P1 & P2 & P3); [rewrite A2; change (zlen (rf s <$> saved)) with 4; lia|].
  change (zlen (rf s <$> saved)) with 4 in P2. revert P1 P2 P3. generalize (push_list (rf s <$> saved) s1). intros s2 P1 P2 P3.
  rewrite P3, A4, P3, A3, P2, A2, P1, A1, A2 by done. replace (rf s ESP - 4 * 4) with (rf s ESP - 16) by lia. fold (swtch_mem s).
  set (s3 := MkSt _ _). destruct (pops_spec [Some EDI; Some ESI; Some EBX; Some EBP; Some EIP] s3) as (Q1 & Q2 & Q3 & _).
  { by apply (bool_decide_unpack _). }
  { by apply (bool_decide_unpack _). }
  { unfold s3. cbn [rf]. rewrite setr_eq. lia. }
  { unfold s3. cbn [rf]. rewrite setr_eq. unfold zlen. cbn. lia. }
  assert (E3 : rf s3 ESP = new) by apply setr_eq. rewrite E3 in *. change (mm s3) with (swtch_mem s) in *.
  change (new + 4 * zlen [Some EDI; Some ESI; Some EBX; Some EBP; Some EIP]) with (new + 20) in Q1. split_and!; [done..|].
  unfold context_at. f_equal; symmetry.
  - exact (Q3 1%nat ESI eq_refl).
  - exact (Q3 2%nat EBX eq_refl).
  - exact (Q3 3%nat EBP eq_refl).
  - exact (Q3 4%nat EIP eq_refl).
Qed.

(** swtch writes its own frame and the slot of its first argument. *)
Definition swtch_avoids (s : st) (lo hi : Z) : Prop :=
  (rf s ESP <= lo \/ hi <= rf s ESP - 16) /\ (ldl (mm s) (rf s ESP + 4) + 4 <= lo \/ hi <= ldl (mm s) (rf s ESP + 4)).

Lemma swtch_mem_other s lo hi x : swtch_avoids s lo hi -> lo <= x < hi -> swtch_mem s x = mm s x.
Proof.
  intros [H1 H2] Hx. unfold swtch_mem. rewrite stl_ne by lia. apply stack_mem_other. change (zlen (rf s <$> saved)) with 4. lia.
Qed.

(** C31: a thread that calls swtch leaves in the slot of the first argument a
    pointer to a struct context with its callee-saved registers and its return
    address.  When later any thread on any stack calls swtch with that pointer,
    and nobody has written to that part of the stack, the first thread returns
    from its call with these registers and its stack pointer. *)
Theorem swtch_resumes s s2 :
  let old := ldl (mm s) (rf s ESP + 4) in
  let new := ldl (mm s) (rf s ESP + 8) in
  let ctx := rf s ESP - 16 in
  let ra := ldl (mm s) (rf s ESP) in
  regs_ok (rf s) -> 16 <= rf s ESP -> rf s ESP + 8 < 4294967296 -> 0 <= new -> new + 20 < 4294967296 ->
  old + 4 <= ctx \/ rf s ESP + 4 <= old ->
  let s1 := run swtch s in
  ldl (mm s1) old = ctx /\ context_at (mm s1) ctx = MkCtx (rf s EDI) (rf s ESI) (rf s EBX) (rf s EBP) ra /\
  (16 <= rf s2 ESP -> rf s2 ESP + 8 < 4294967296 -> ldl (mm s2) (rf s2 ESP + 8) = ctx -> (forall x, ctx <= x < ctx + 20 -> mm s2 x = mm s1 x) ->
   swtch_avoids s2 ctx (ctx + 20) ->
   let s3 := run swtch s2 in
   rf s3 EDI = rf s EDI /\ rf s3 ESI = rf s ESI /\ rf s3 EBX = rf s EBX /\ rf s3 EBP = rf s EBP /\ rf s3 ESP = rf s ESP + 4 /\ rf s3 EIP = ra).
Proof.
  cbv zeta. set (ctx := rf s ESP - 16). intros Hr H0 H1 Hn0 Hn1 Hold.
  destruct (swtch_run s _ H0 H1 eq_refl Hn0 Hn1) as (M1 & _ & _). rewrite M1.
  assert (Hctx : context_at (swtch_mem s) ctx = MkCtx (rf s EDI) (rf s ESI) (rf s EBX) (rf s EBP) (ldl (mm s) (rf s ESP))).
  { assert (G : forall k r, (rf s <$> saved) !! k = Some (rf s r) -> (k < 4)%nat -> ldl (swtch_mem s) (ctx + 4 * (3 - Z.of_nat k)) = rf s r).
    { intros k r Hk Hlt. unfold swtch_mem. rewrite ldl_stl_ne by (unfold ctx in *; lia).
      replace (ctx + 4 * (3 - Z.of_nat k)) with (rf s ESP - 4 * (Z.of_nat k + 1)) by (unfold ctx; lia). apply stack_mem_get; [done|apply Hr]. }
    unfold context_at. f_equal.
    - rewrite <- (G 3%nat EDI) by (done || lia). by rewrite Z.add_0_r.
    - exact (G 2%nat ESI eq_refl ltac:(lia)).
    - exact (G 1%nat EBX eq_refl ltac:(lia)).
    - exact (G 0%nat EBP eq_refl ltac:(lia)).
    - unfold swtch_mem. rewrite ldl_stl_ne by (unfold ctx in *; lia). replace (ctx + 16) with (rf s ESP) by (unfold ctx; lia).
      apply ldl_ext. intros x Hx. apply stack_mem_other. lia. }
  split_and!; [unfold swtch_mem; apply ldl_stl_eq; unfold ctx in *; lia|done|].
  intros H2 H3 Hnew2 Hsame Hav. destruct (swtch_run s2 ctx H2 H3 Hnew2) as (M2 & E2 & C2); [unfold ctx; lia..|].
  assert (Hc : context_at (swtch_mem s2) ctx = context_at (swtch_mem s) ctx).
  { assert (G : forall d, 0 <= d <= 16 -> ldl (swtch_mem s2) (ctx + d) = ldl (swtch_mem s) (ctx + d)).
    { intros d Hd. apply ldl_ext. intros x Hx. rewrite (swtch_mem_other s2 ctx (ctx + 20)) by (done || lia). apply Hsame. lia. }
    assert (G0 := G 0 ltac:(lia)). rewrite Z.add_0_r in G0. unfold context_at. rewrite G0, !G by lia. done. }
  rewrite Hc, Hctx in C2. clear M2. revert E2 C2. generalize (run swtch s2). intros s3 E2 C2.
  injection C2 as <- <- <- <- <-. split_and!; try done. rewrite E2. unfold ctx. lia.
Qed.

(** The words allocproc leaves below the trap frame. *)
Lemma alloc_stack_words kstack fr tr m0 tf ctx m :
  alloc_stack kstack fr tr m0 = (tf, ctx, m) -> word fr -> word tr ->
  tf = kstack + KSTACKSIZE - sizeof_trapframe /\ ctx = tf - 24 /\ ldl m (tf - 4) = tr /\ context_at m ctx = MkCtx 0 0 0 0 fr.
Proof.
  unfold alloc_stack, sizeof_context. intros [= <- <- <-] Hfr Htr. set (tf := kstack + KSTACKSIZE - sizeof_trapframe).
  set (m1 := stl m0 (tf - 4) tr). set (ctx := tf - 4 - 20).
  assert (Z1 : forall d, 0 <= d <= 12 -> ldl (stl (KString.memset m1 ctx 0 20) (ctx + 16) fr) (ctx + d) = 0).
  { intros d Hd. rewrite ldl_stl_ne by lia. unfold ldl. rewrite !memset_run by lia.
    rewrite !(proj2 (andb_true_iff _ _)) by lia. done. }
  split_and!; [done|unfold ctx; lia| |].
  - rewrite ldl_stl_ne by (unfold ctx; lia). transitivity (ldl m1 (tf - 4)); [|by apply ldl_stl_eq]. apply ldl_ext. intros x Hx.
    rewrite memset_run by lia. rewrite (proj2 (andb_false_iff _ _)); [done|]. unfold ctx. lia.
  - assert (Z0 := Z1 0 ltac:(lia)). rewrite Z.add_0_r in Z0. unfold context_at. rewrite Z0, !Z1, ldl_stl_eq by (done || lia). done.
Qed.

(** the stack that allocproc builds for a new process makes the first swtch to
    it enter forkret; when forkret returns, it returns to trapret with the stack
    pointer at the trap frame; and trapret then loads every user register from the
    frame, as fork or userinit has filled it in. *)
Theorem new_process_starts kstack fr tr m0 tf ctx m s :
  alloc_stack kstack fr tr m0 = (tf, ctx, m) -> 0 <= kstack -> kstack + KSTACKSIZE < 4294967296 -> word fr -> word tr ->
  16 <= rf s ESP -> rf s ESP + 8 < 4294967296 -> ldl (mm s) (rf s ESP + 8) = ctx ->
  (forall x, ctx <= x < tf -> mm s x = m x) -> swtch_avoids s ctx tf ->
  let s1 := run swtch s in
  rf s1 EIP = fr /\ rf s1 ESP = tf - 4 /\
  forall u, rf u ESP = tf - 4 -> (forall x, tf - 4 <= x < tf -> mm u x = mm s1 x) ->
    let v := step Ret u in
    rf v EIP = tr /\ rf v ESP = tf /\
    (Z.land (rf u CS) 3 = 0 -> Z.land (tf_cs (frame_at (mm u) tf)) 3 = 3 -> forall x, rf (run trapret v) x = regs_of (frame_at (mm u) tf) x).
Proof.
  intros Ha Hk0 Hk1 Hfr Htr H0 H1 Hnew Hsame Hav. destruct (alloc_stack_words _ _ _ _ _ _ _ Ha Hfr Htr) as (Etf & Ectx & Wtr & Wctx).
  unfold sizeof_trapframe, KSTACKSIZE in *.
  destruct (swtch_run s ctx H0 H1 Hnew) as (M1 & E1 & C1); [lia..|].
  assert (G : forall d, 0 <= d <= 20 -> ldl (swtch_mem s) (ctx + d) = ldl m (ctx + d)).
  { intros d Hd. apply ldl_ext. intros x Hx. rewrite (swtch_mem_other s ctx tf) by (done || lia). apply Hsame. lia. }
  assert (Hc : context_at (swtch_mem s) ctx = context_at m ctx).
  { assert (G0 := G 0 ltac:(lia)). rewrite Z.add_0_r in G0. unfold context_at. rewrite G0, !G by lia. done. }
  rewrite Hc, Wctx in C1. cbv zeta. assert (Gt := G 20 ltac:(lia)). replace (ctx + 20) with (tf - 4) in * by lia. rewrite Wtr, <- M1 in Gt.
  revert M1 E1 C1 Gt. generalize (run swtch s). intros s1 M1 E1 C1 Gt. injection C1 as _ _ _ _ C1. split_and!; [done..|].
  intros u Hu Hum. cbn [step popr pop]. rewrite Hu, u32_id by (unfold word; lia). cbn [rf mm is_seg].
  assert (Hret : ldl (mm u) (tf - 4) = tr) by (rewrite <- Gt; apply ldl_ext; intros x Hx; apply Hum; lia).
  rewrite Hret. split_and!; [by rewrite setr_eq|by rewrite setr_ne, setr_eq by done; lia|].
  intros Hcs Hring. set (v := MkSt _ _). apply (trapret_restores v tf); unfold v; cbn [rf mm]; rewrite ?setr_ne, ?setr_eq by done; unfold sizeof_trapframe; try lia; done.
Qed.

Module AsmDemo.

Definition user : reg -> Z :=
  fun x => match x with CS => 35 | SS | DS | ES => 43 | FS | GS => 0 | ESP => 0x2fc0 | EIP => 0x40 | EFLAGS => 0x200 | _ => 7 end.
Definition kern (sp : Z) : reg -> Z := fun x => match x with ESP => sp | CS => 8 | SS | DS | ES => 16 | _ => 5 end.

Lemma user_ok : regs_ok user.
Proof. intros x. unfold word. by destruct x. Qed.
Lemma kern_ok sp : word sp -> regs_ok (kern sp).
Proof. intros H x. destruct x; try done; (split; [unfold word; cbn; lia|done]). Qed.

(** A system call that changes nothing. *)
Lemma trap_roundtrip_witness :
  let s' := enter 64 0 16 0x80001000 8 0x80106000 true (MkSt user (fun _ => 0)) in
  let u := run trapret (MkSt (kern (0x80001000 - 76)) (mm s')) in
  rf u EIP = 0x40 /\ rf u ESP = 0x2fc0 /\ rf u CS = 35 /\ rf u EBX = 7.
Proof.
  destruct (trap_roundtrip 64 0 16 0x80001000 8 0x80106000 true (MkSt user (fun _ => 0))) as (_ & F & H & _);
    [lia|lia|exact user_ok|unfold word; lia|unfold word; lia|].
  cbv zeta in *. split_and!; apply (H (MkSt (kern (0x80001000 - 76)) _)); try done; cbn [mm]; rewrite F; done.
Defined.

(** A thread switches away from stack 0x1000 and is switched back to from stack
    0x2f00. *)
Definition away : st := MkSt (kern 0x1000) (stl (stl (stl (fun _ => 0) 0x1000 77) 0x1004 0x5000) 0x1008 0x3000).
Definition again : st := MkSt (kern 0x2f00) (stl (stl (mm (run swtch away)) 0x2f04 0x5004) 0x2f08 0xff0).

Lemma swtch_resumes_witness : rf (run swtch again) EIP = 77 /\ rf (run swtch again) ESP = 0x1004.
Proof.
  assert (E1 : ldl (mm away) 0x1004 = 0x5000) by (vm_compute; reflexivity).
  assert (E2 : ldl (mm away) 0x1008 = 0x3000) by (vm_compute; reflexivity).
  assert (E3 : ldl (mm again) 0x2f04 = 0x5004) by (vm_compute; reflexivity).
  destruct (swtch_resumes away again) as (_ & _ & H).
  - apply kern_ok. unfold word. lia.
  - cbn. lia.
  - cbn. lia.
  - change (rf away ESP + 8) with 0x1008. rewrite E2. lia.
  - change (rf away ESP + 8) with 0x1008. rewrite E2. lia.
  - change (rf away ESP + 4) with 0x1004. change (rf away ESP) with 0x1000. rewrite E1. lia.
  - destruct H as (_ & _ & _ & _ & H5 & H6); [cbn; lia|cbn; lia|vm_compute; reflexivity| | |split; [exact H6|exact H5]].
    + change (rf away ESP) with 0x1000. intros x Hx. unfold again. cbn [mm]. rewrite !stl_ne by lia. done.
    + change (rf away ESP) with 0x1000. unfold swtch_avoids. change (rf again ESP) with 0x2f00. change (0x2f00 + 4) with 0x2f04. rewrite E3. lia.
Defined.

(** The stack of a new process in page 0x8000, switched to from stack 0x3000. *)
Definition fresh : st :=
  MkSt (kern 0x3000) (stl (stl (alloc_stack 0x8000 111 222 (fun _ => 0)).2 0x3004 0x5000) 0x3008 0x8f9c).

Lemma new_process_starts_witness : rf (run swtch fresh) EIP = 111 /\ rf (run swtch fresh) ESP = 0x8fb0.
Proof.
  assert (E : ldl (mm fresh) 0x3004 = 0x5000) by (vm_compute; reflexivity).
  destruct (new_process_starts 0x8000 111 222 (fun _ => 0) 0x8fb4 0x8f9c (alloc_stack 0x8000 111 222 (fun _ => 0)).2 fresh) as (H1 & H2 & _).
  - reflexivity.
  - lia.
  - unfold KSTACKSIZE. lia.
  - unfold word. lia.
  - unfold word. lia.
  - cbn. lia.
  - cbn. lia.
  - vm_compute. reflexivity.
  - intros x Hx. unfold fresh. cbn [mm]. rewrite !stl_ne by lia. done.
  - unfold swtch_avoids. change (rf fresh ESP) with 0x3000. change (0x3000 + 4) with 0x3004. rewrite E. lia.
  - split; [exact H1|exact H2].
Defined.

End AsmDemo.
