(* ===== verification/Debug.v ===== *)
(** * Call stacks and the process listing (getcallerpcs of spinlock.c, procdump of proc.c)

    getcallerpcs follows the chain of saved frame pointers in memory; procdump, run
    for control-P, prints a line for each process and the call stack of those that
    sleep. *)

From S2P Require Import Prelude.
From S2P Require Import Params.
From S2P Require Import CString.
From S2P Require Import Mmu.
From S2P Require Import Ptable.
From S2P Require Import Asm.

Module Debug.

(** The loop of getcallerpcs with [n] entries to go. *)
Fixpoint walk_frames (n : nat) (m : mem) (ebp : Z) : list Z :=
  match n with
  | O => []
  | S n =>
      if (ebp =? 0) || (ebp <? KERNBASE) || (ebp =? 0xffffffff) then replicate (S n) 0
      else ldl m (u32 (ebp + 4)) :: walk_frames n m (ldl m ebp)
  end.

Definition getcallerpcs (m : mem) (v : Z) : list Z := walk_frames 10 m (u32 (v - 8)).

Definition state_name (st : procstate) : string :=
  match st with
  | UNUSED => "unused" | EMBRYO => "embryo" | SLEEPING => "sleep " | RUNNABLE => "runble" | RUNNING => "run   " | ZOMBIE => "zombie"
  end.

(** What cprintf is given: numbers, and strings by their bytes. *)
Inductive arg : Type := ANum (z : Z) | AStr (s : string) | AName (bytes : list Z).

(** The loop that prints program counters, up to the first zero. *)
Fixpoint print_pcs (pc : list Z) : list (string * list arg) :=
  match pc with
  | [] => []
  | p :: pc => if negb (p =? 0) then (" %p"%string, [ANum p]) :: print_pcs pc else []
  end.

Definition newline : string := String (Ascii.ascii_of_nat 10) EmptyString.

(** [context i]: where the saved context of process [i] lies. *)
Definition dump_proc (m : mem) (context : nat -> Z) (i : nat) (p : proc) : list (string * list arg) :=
  match p_state p with
  | UNUSED => []
  | st =>
      [("%d %s %s"%string, [ANum (p_pid p); AStr (state_name st); AName (p_name p)])] ++
      (if decide (st = SLEEPING) then print_pcs (getcallerpcs m (u32 (Asm.cx_ebp (Asm.context_at m (context i)) + 8))) else []) ++
      [(newline, [])]
  end.

Definition procdump (m : mem) (context : nat -> Z) (procs : list proc) : list (string * list arg) :=
  concat (imap (dump_proc m context) procs).

End Debug.

Import Debug.

(** ** The frames *)

(** A chain of frames from [ebp] on, with the return addresses [pcs], that ends in
    a frame pointer outside the kernel. *)
Fixpoint frames (m : mem) (ebp : Z) (pcs : list Z) : Prop :=
  match pcs with
  | [] => ebp < KERNBASE \/ ebp = 0xffffffff
  | pc :: pcs => KERNBASE <= ebp < 0xfffffffb /\ ldl m (ebp + 4) = pc /\ frames m (ldl m ebp) pcs
  end.

Lemma walk_frames_spec n m ebp pcs : frames m ebp pcs -> walk_frames n m ebp = take n (pcs ++ replicate n 0).
Proof.
  revert ebp pcs. induction n as [|n IH]; intros ebp pcs Hf; [done|]. cbn [walk_frames]. destruct pcs as [|pc pcs]; cbn [frames app] in *.
  - destruct ((ebp =? 0) || (ebp <? KERNBASE) || (ebp =? 0xffffffff)) eqn:E; [|lia]. by rewrite take_ge by (by rewrite length_replicate).
  - destruct Hf as (He & Hpc & Hf). unfold KERNBASE in *. destruct ((ebp =? 0) || (ebp <? 0x80000000) || (ebp =? 0xffffffff)) eqn:E; [lia|].
    rewrite u32_small by (unfold is_u32; lia). rewrite Hpc, (IH _ pcs Hf). cbn [take]. f_equal.
    rewrite replicate_S_end, app_assoc. symmetry. apply take_app_le. rewrite length_app, length_replicate. lia.
Qed.

(** getcallerpcs fills its ten entries with the return addresses of the chain, and
    zeros when the chain is shorter. *)
Theorem getcallerpcs_chain m v pcs :
  8 <= v < 4294967304 -> frames m (v - 8) pcs -> getcallerpcs m v = take 10 (pcs ++ replicate 10 0).
Proof. intros Hv Hf. unfold getcallerpcs. rewrite u32_small by (unfold is_u32; lia). by apply walk_frames_spec. Qed.

Lemma length_walk n m ebp : length (walk_frames n m ebp) = n.
Proof. revert ebp. induction n as [|n IH]; intros ebp; cbn [walk_frames]; [done|]. case_match; [by rewrite length_replicate|]. cbn. by rewrite IH. Qed.

(** ** The listing *)

Definition is_line (x : string * list arg) : bool := String.eqb (fst x) "%d %s %s".

Lemma print_pcs_lines pc : filter (fun x => is_line x = true) (print_pcs pc) = [].
Proof. induction pc as [|p pc IH]; [done|]. cbn [print_pcs]. case_match; [|done]. by rewrite filter_cons_False by (cbn; done). Qed.

Lemma dump_proc_lines m context i p :
  filter (fun x => is_line x = true) (dump_proc m context i p) =
    if decide (p_state p = UNUSED) then [] else [("%d %s %s"%string, [ANum (p_pid p); AStr (state_name (p_state p)); AName (p_name p)])].
Proof.
  unfold dump_proc. destruct (p_state p) eqn:E; [by rewrite decide_True|..]; rewrite (decide_False (P := _ = UNUSED)) by done;
    rewrite !filter_app; case_decide; rewrite ?print_pcs_lines; reflexivity.
Qed.

(** procdump prints one line for each entry that is in use, in the order of the table. *)
Theorem procdump_lines m context procs :
  filter (fun x => is_line x = true) (procdump m context procs) =
  (fun p => ("%d %s %s"%string, [ANum (p_pid p); AStr (state_name (p_state p)); AName (p_name p)])) <$> filter (fun p => p_state p <> UNUSED) procs.
Proof.
  unfold procdump. change (imap (dump_proc m context) procs) with (imap (fun i => dump_proc m context (0 + i)) procs). generalize 0%nat.
  induction procs as [|p procs IH]; intros k; [done|]. cbn [imap concat]. rewrite filter_app.
  change (imap _ procs) with (imap (fun i => dump_proc m context (k + S i)) procs).
  rewrite dump_proc_lines. rewrite (imap_ext _ (fun i => dump_proc m context (S k + i))) by (intros; f_equal; lia). rewrite IH, filter_cons.
  destruct (decide (p_state p = UNUSED)) as [E|E]; [rewrite decide_False by (by intros H)|rewrite decide_True by done]; reflexivity.
Qed.
