(* ===== verification/Swtch.v ===== *)
(** * Kernel threads and the processors that run them (proc.c, swtch.S)

    Ptable.v takes each section under [ptable.lock] as one function.  Here the
    code around the sections is split into its steps: acquire and release with
    their pushcli and popcli, sched with its checks, swtch between the kernel
    stack of a process and the one of the processor's scheduler, sleep, wakeup,
    yield and the scheduler's loop.  A kernel thread is the list of instructions
    it has still to execute, which is what its stack and saved context hold.
    Any number of processors execute their threads in any order, and take
    interrupts where they are enabled. *)

From S2P Require Import Prelude.
From S2P Require Import Params.
From S2P Require Import Ptable.
From S2P Require Import Spinlock.

Module Swtch.

(** ** Instructions

    Lock 0 is [ptable.lock].  [ITidy] carries the channel that was slept on, and
    [IBack] what the caller relies on; neither has a counterpart at run time. *)
Inductive instr : Type :=
| IPush | IPop
| ITake (l : nat) | IDrop (l : nat)
| ISti | ISetIntena (b : bool) | IIret (b : bool)
| ISleepCheck | ISetChan (ch : chan) | ITidy (ch : chan) | ISetState (st : procstate)
| ISched
| IWake (ch : chan) | IKill (pid : Z) | IExitCheck | IExit | IPanic (s : string) | IWaitScan
| IAlloc | IForkRest (ok : bool) | IForkDone
| IScan (i : nat) | ISetProc (i : option nat) | ILcr3 (i : option nat) | IRunning (i : nat) | ISwtchTo (i : nat)
| IBack (iflag : bool) (ncli : Z) (intena : bool).

(** ** The routines *)

Definition acquire (l : nat) : list instr := [IPush; ITake l].
Definition release (l : nat) : list instr := [IDrop l; IPop].

Definition yield : list instr := acquire 0 ++ [ISetState RUNNABLE; ISched] ++ release 0.

Definition sleep (ch : chan) (l : nat) : list instr :=
  [ISleepCheck] ++
  (if decide (l = 0%nat) then [] else acquire 0 ++ release l) ++
  [ISetChan ch; ISetState SLEEPING; ISched; ITidy ch] ++
  (if decide (l = 0%nat) then [] else release 0 ++ acquire l).

Definition wakeup (ch : chan) : list instr := acquire 0 ++ [IWake ch] ++ release 0.
Definition kill (pid : Z) : list instr := acquire 0 ++ [IKill pid] ++ release 0.

(** exit once its files are closed. *)
Definition exit : list instr := [IExitCheck] ++ acquire 0 ++ [IExit; ISched; IPanic "zombie exit"].

Definition wait : list instr := acquire 0 ++ [IWaitScan].

(** fork; [ok] says whether the memory for the child was found. *)
Definition fork (ok : bool) : list instr := acquire 0 ++ [IAlloc] ++ release 0 ++ [IForkRest ok].

(** A new process comes out of swtch here and returns to user mode. *)
Definition forkret : list instr := release 0 ++ [IIret true].

Definition switchuvm (i : nat) : list instr := [IPush; ILcr3 (Some i); IPop].
Definition switchkvm : list instr := [ILcr3 None].

(** scheduler: the head of its loop, and one turn of the inner loop. *)
Definition scheduler : list instr := [ISti] ++ acquire 0 ++ [IScan 0].
Definition run_proc (i : nat) : list instr :=
  [ISetProc (Some i)] ++ switchuvm i ++ [IRunning i; ISwtchTo i] ++ switchkvm ++ [ISetProc None; IScan (S i)].

(** ** The machine *)

(** A processor: interrupt flag, [ncli] and [intena]; the locks it holds (not
    represented at run time); [proc]; the process whose page table is in %cr3 and
    whose kernel stack is in the task state segment, [None] for the kernel's
    page table; the stack it is on, [None] for the
    scheduler's; what it has still to execute there; and [cpu->scheduler]. *)
Record cpu : Type := MkC {
  x_st : pcpu; x_held : gset nat; x_proc : option nat; x_cr3 : option nat; x_on : option nat;
  x_code : list instr; x_sched : list instr
}.

(** The owners of the locks, the process table, the saved contexts of the
    processes, and the embryo of each process in the middle of fork. *)
Record mach : Type := MkM {
  m_cpus : list cpu; m_lock : gmap nat nat; m_pt : ptable; m_ctx : gmap nat (list instr); m_fk : gmap nat nat
}.

Definition set_st (st : pcpu) (x : cpu) : cpu := MkC st (x_held x) (x_proc x) (x_cr3 x) (x_on x) (x_code x) (x_sched x).
Definition set_held (h : gset nat) (x : cpu) : cpu := MkC (x_st x) h (x_proc x) (x_cr3 x) (x_on x) (x_code x) (x_sched x).
Definition set_proc (p : option nat) (x : cpu) : cpu := MkC (x_st x) (x_held x) p (x_cr3 x) (x_on x) (x_code x) (x_sched x).
Definition set_cr3 (p : option nat) (x : cpu) : cpu := MkC (x_st x) (x_held x) (x_proc x) p (x_on x) (x_code x) (x_sched x).
Definition set_code (k : list instr) (x : cpu) : cpu := MkC (x_st x) (x_held x) (x_proc x) (x_cr3 x) (x_on x) k (x_sched x).

Definition set_cpu (c : nat) (x : cpu) (m : mach) : mach := MkM (<[c := x]> (m_cpus m)) (m_lock m) (m_pt m) (m_ctx m) (m_fk m).
Definition set_lock (f : gmap nat nat) (m : mach) : mach := MkM (m_cpus m) f (m_pt m) (m_ctx m) (m_fk m).
Definition set_pt (t : ptable) (m : mach) : mach := MkM (m_cpus m) (m_lock m) t (m_ctx m) (m_fk m).
Definition set_ctx (f : gmap nat (list instr)) (m : mach) : mach := MkM (m_cpus m) (m_lock m) (m_pt m) f (m_fk m).
Definition set_fk (f : gmap nat nat) (m : mach) : mach := MkM (m_cpus m) (m_lock m) (m_pt m) (m_ctx m) f.

(** An instruction is executed, waits for a lock, panics, or has no defined
    meaning. *)
Inductive res : Type := Next (m : mach) | Spin | Panic (s : string) | Undef (s : string).

Definition pstate (m : mach) (i : nat) : option procstate := p_state <$> pt_proc (m_pt m) !! i.

Definition set_if (b : bool) (s : pcpu) : pcpu := MkCpu b (c_ncli s) (c_intena s).
Definition set_intena (b : bool) (s : pcpu) : pcpu := MkCpu (c_if s) (c_ncli s) b.

(** swtch from the stack of process [me] to the scheduler's: [k] is what is left
    to do there, saved as the context of the process. *)
Definition swtch_out (c me : nat) (x : cpu) (k : list instr) (m : mach) : res :=
  Next (set_ctx (<[me := k]> (m_ctx m)) (set_cpu c (MkC (x_st x) (x_held x) (x_proc x) (x_cr3 x) None (x_sched x) []) m)).

(** swtch from the scheduler's stack to the one of process [i]. *)
Definition swtch_in (c i : nat) (x : cpu) (k : list instr) (m : mach) : res :=
  match m_ctx m !! i with
  | Some ctx => Next (set_cpu c (MkC (x_st x) (x_held x) (x_proc x) (x_cr3 x) (Some i) ctx k) m)
  | None => Undef "context"
  end.

(** sched: the checks, and swtch to the scheduler; [intena] is kept on the stack
    of the thread and put back when it goes on. *)
Definition sched (c me : nat) (x : cpu) (k : list instr) (m : mach) : res :=
  if negb (bool_decide (m_lock m !! 0%nat = Some c)) then Panic "sched ptable.lock"
  else if negb (c_ncli (x_st x) =? 1) then Panic "sched locks"
  else if bool_decide (pstate m me = Some RUNNING) then Panic "sched running"
  else if c_if (x_st x) then Panic "sched interruptible"
  else swtch_out c me x (ISetIntena (c_intena (x_st x)) :: k) m.

(** The body of wait's loop. *)
Definition wait_turn (c me : nat) (x : cpu) (k : list instr) (m : mach) : res :=
  match wait_scan me 0 (pt_proc (m_pt m)) false with
  | (_, Some j) => Next (set_cpu c (set_code (release 0 ++ k) x) (set_pt (upd_proc j reap (m_pt m)) m))
  | (havekids, None) =>
      if negb havekids || from_option p_killed false (pt_proc (m_pt m) !! me) then
        Next (set_cpu c (set_code (release 0 ++ k) x) m)
      else Next (set_cpu c (set_code (sleep (ChProc me) 0 ++ IWaitScan :: k) x) m)
  end.

(** allocproc's section. *)
Definition fork_alloc (c me : nat) (x : cpu) (m : mach) : res :=
  if 2147483647 <=? pt_nextpid (m_pt m) then Undef "nextpid"
  else
    match alloc_slot (m_pt m) with
    | None => Next (set_cpu c x m)
    | Some (np, t) => Next (set_cpu c x (set_fk (<[me := np]> (m_fk m)) (set_pt t m)))
    end.

(** The rest of fork: without memory the embryo is freed; else its fields, which
    no other thread reads yet, are filled in before it becomes RUNNABLE. *)
Definition fork_rest (c me : nat) (x : cpu) (ok : bool) (k : list instr) (m : mach) : res :=
  match m_fk m !! me with
  | None => Next (set_cpu c (set_code k x) m)
  | Some np =>
      if ok then Next (set_cpu c (set_code (acquire 0 ++ [IForkDone] ++ release 0 ++ k) x) m)
      else Next (set_cpu c (set_code k x) (set_fk (delete me (m_fk m))
             (set_pt (upd_proc np (fun p => set_state UNUSED (set_kstack 0 p)) (m_pt m)) m)))
  end.
Definition fork_done (c me : nat) (x : cpu) (m : mach) : res :=
  match m_fk m !! me with
  | None => Undef "fork"
  | Some np =>
      Next (set_cpu c x (set_ctx (<[np := forkret]> (m_ctx m)) (set_fk (delete me (m_fk m))
        (set_pt (upd_proc np (fun p => set_state RUNNABLE (set_parent (Some me) p)) (m_pt m)) m))))
  end.

(** The scheduler's inner loop at entry [i]. *)
Definition scan (c : nat) (x : cpu) (i : nat) (m : mach) : res :=
  if (i <? NPROC)%nat then
    if bool_decide (pstate m i = Some RUNNABLE) then Next (set_cpu c (set_code (run_proc i) x) m)
    else Next (set_cpu c (set_code [IScan (S i)] x) m)
  else Next (set_cpu c (set_code (release 0 ++ scheduler) x) m).

(** Processor [c], in state [x], executes [i] and has [k] left. *)
Definition exec (c : nat) (x : cpu) (i : instr) (k : list instr) (m : mach) : res :=
  let x := set_code k x in
  let next m' := Next (set_cpu c x m') in
  let on_me f := match x_proc x with Some me => f me | None => Undef "proc" end in
  match i with
  | IPush => Next (set_cpu c (set_st (pushcli (x_st x)) x) m)
  | IPop => match popcli (x_st x) with inl s => Panic s | inr st => Next (set_cpu c (set_st st x) m) end
  | ITake l =>
      match m_lock m !! l with
      | Some o => if bool_decide (o = c) then Panic "acquire" else Spin
      | None => Next (set_cpu c (set_held ({[l]} ∪ x_held x) x) (set_lock (<[l := c]> (m_lock m)) m))
      end
  | IDrop l =>
      if bool_decide (m_lock m !! l = Some c) then
        Next (set_cpu c (set_held (x_held x ∖ {[l]}) x) (set_lock (delete l (m_lock m)) m))
      else Panic "release"
  | ISti => Next (set_cpu c (set_st (set_if true (x_st x)) x) m)
  | ISetIntena b => Next (set_cpu c (set_st (set_intena b (x_st x)) x) m)
  | IIret b => Next (set_cpu c (set_st (set_if b (x_st x)) x) m)
  | ISleepCheck => match x_proc x with Some _ => next m | None => Panic "sleep" end
  | ISetChan ch => on_me (fun me => next (set_pt (upd_proc me (Ptable.set_chan (Some ch)) (m_pt m)) m))
  | ITidy _ => on_me (fun me => next (set_pt (upd_proc me (Ptable.set_chan None) (m_pt m)) m))
  | ISetState st => on_me (fun me => next (set_pt (upd_proc me (set_state st) (m_pt m)) m))
  | ISched => on_me (fun me => sched c me x k m)
  | IWake ch => next (set_pt (wakeup1 ch (m_pt m)) m)
  | IKill pid => next (set_pt (kill_section pid (m_pt m)).2 m)
  | IExitCheck => on_me (fun me => if bool_decide (me = pt_initproc (m_pt m)) then Panic "init exiting" else next m)
  | IExit => on_me (fun me => next (set_pt (exit_section me (m_pt m)) m))
  | IPanic s => Panic s
  | IWaitScan => on_me (fun me => wait_turn c me x k m)
  | IAlloc => on_me (fun me => fork_alloc c me x m)
  | IForkRest ok => on_me (fun me => fork_rest c me x ok k m)
  | IForkDone => on_me (fun me => fork_done c me x m)
  | IScan i => scan c x i m
  | ISetProc p => Next (set_cpu c (set_proc p x) m)
  | ILcr3 p => Next (set_cpu c (set_cr3 p x) m)
  | IRunning i => next (set_pt (upd_proc i (set_state RUNNING) (m_pt m)) m)
  | ISwtchTo i => swtch_in c i x k m
  | IBack f n b =>
      let st := x_st x in
      if eqb (c_if st) f && (c_ncli st =? n) && ((n =? 0) || eqb (c_intena st) b) then next m else Panic "interrupt state"
  end.

(** ** What the threads execute *)

(** Kernel code of a process: calls, between which it does what does not concern
    locks and scheduling. *)
Inductive call : Type :=
| CAcquire (l : nat) | CRelease (l : nat) | CYield | CSleep (ch : chan) (l : nat) | CWakeup (ch : chan)
| CKill (pid : Z) | CExit | CWait | CFork (ok : bool).

(** What the kernel respects: a lock is not taken twice and only released when
    held, no other lock is held across a call that gives up the processor, and
    init does not exit. *)
Definition call_ok (m : mach) (me : nat) (held : gset nat) (cl : call) : Prop :=
  match cl with
  | CAcquire l => l <> 0%nat /\ l ∉ held
  | CRelease l => l ∈ held
  | CYield | CWait => held = ∅
  | CExit => held = ∅ /\ me <> pt_initproc (m_pt m)
  | CSleep ch l => held = {[l]} /\ forall q, ch <> ChProc q
  | CWakeup _ | CKill _ | CFork _ => True
  end.

Definition call_code (cl : call) : list instr :=
  match cl with
  | CAcquire l => acquire l
  | CRelease l => release l
  | CYield => yield
  | CSleep ch l => sleep ch l
  | CWakeup ch => wakeup ch
  | CKill pid => kill pid
  | CExit => exit
  | CWait => wait
  | CFork ok => fork ok
  end.

(** The caller of any routine but acquire and release counts on finding the
    interrupt state as it was. *)
Definition back (st : pcpu) (cl : call) : list instr :=
  match cl with
  | CAcquire _ | CRelease _ => []
  | _ => [IBack (c_if st) (c_ncli st) (c_intena st)]
  end.

(** An interrupt handler: it takes the lock of its device, wakes whoever waits
    for it, and the timer's then gives up the processor if a process runs. *)
Definition handler (l : nat) (ch : chan) (preempt : bool) : list instr :=
  acquire l ++ wakeup ch ++ release l ++ if preempt then yield else [].

Inductive kstep : mach -> mach -> Prop :=
| KExec m c x i k m' :
    m_cpus m !! c = Some x -> x_code x = i :: k -> exec c x i k m = Next m' -> kstep m m'
| KCall m c x me cl :
    m_cpus m !! c = Some x -> x_code x = [] -> x_on x = Some me -> call_ok m me (x_held x) cl ->
    kstep m (set_cpu c (set_code (call_code cl ++ back (x_st x) cl) x) m)
| KIntr m c x l ch (preempt : bool) :
    m_cpus m !! c = Some x -> c_if (x_st x) = true -> l <> 0%nat -> (preempt = true -> is_Some (x_on x)) ->
    kstep m (set_cpu c (set_code (handler l ch preempt ++ IIret true :: x_code x)
      (set_st (set_if false (x_st x)) x)) m).

(** [n] processors enter their schedulers; the first process is ready. *)
Definition cpu0 : cpu := MkC (MkCpu false 0 false) ∅ None None None scheduler [].
Definition mach0 (n : nat) : mach :=
  MkM (replicate n cpu0) ∅
    (MkPtable (<[0%nat := set_pid 1 (set_state RUNNABLE proc0)]> (replicate NPROC proc0)) 2 0) {[0%nat := forkret]} ∅.

End Swtch.
