(* ===== verification/SwtchInv.v ===== *)
(** * The invariant of the kernel threads

    A type system for the code of a thread, and the invariant that ties the state
    of each processor to the type of what it executes.  Each instruction that
    changes the process table is matched with a step of Sched.v. *)

From S2P Require Import Prelude.
From S2P Require Import Params.
From S2P Require Import Ptable.
From S2P Require Import Spinlock.
From S2P Require Import Sched.
From S2P Require Import Swtch.
Import Swtch.

(** ** Types of thread code *)

(** What a thread is about: a process that runs, has found nothing to reap in
    wait, has set its channel, or has left its RUNNING state; the scheduler between processes, with a process found,
    chosen, its memory mapped, its state set, come back from it, the memory unmapped. *)
Inductive status : Type :=
| Run | RunW | RunCh (ch : chan) | LeftR | LeftS (ch : chan) | LeftZ
| Idle | Found (i : nat) | Pick (i : nat) | Mapped (i : nat) | Go (i : nat) | Came (i : nat) | Unmapped (i : nat).

Definition calm (s : status) : Prop := s = Run \/ s = Idle.

(** Where the code stands in fork: past allocproc, and whether it is certain that
    there is a child. *)
Fixpoint fork_phase (k : list instr) : option bool :=
  match k with
  | [] => None
  | IAlloc :: _ => None
  | IForkRest _ :: _ => Some false
  | IForkDone :: _ => Some true
  | _ :: k => fork_phase k
  end.

Definition sched_rest (i : nat) : list instr := switchkvm ++ [ISetProc None; IScan (S i)].

(** [wt s b n L k]: a thread in status [s], whose interrupt flag is [b] when no
    pushcli is in force, with [n] pushcli calls besides the ones of the locks [L]
    it holds, may execute [k]. *)
Section Typing.
Context (ini me : nat).

Fixpoint wt (s : status) (b : bool) (n : nat) (L : gset nat) (code : list instr) : Prop :=
  match code with
  | [] => s = Run /\ n = 0%nat /\ 0%nat ∉ L
  | i :: k =>
      match i with
      | IPush => n = 0%nat /\ (calm s \/ exists i, s = Pick i) /\ wt s b 1 L k
      | IPop => n = 1%nat /\ (calm s \/ exists i, s = Mapped i) /\ wt s b 0 L k
      | ITake l => n = 1%nat /\ calm s /\ (l ∉ L) /\ wt s b 0 ({[l]} ∪ L) k
      | IDrop l => n = 0%nat /\ calm s /\ l ∈ L /\ wt s b 1 (L ∖ {[l]}) k
      | ISti => n = 0%nat /\ s = Idle /\ L = ∅ /\ wt s true 0 ∅ k
      | ISetIntena b' => n = 0%nat /\ s = Run /\ b' = b /\ 0%nat ∈ L /\ wt s b 0 L k
      | IIret b' => n = 0%nat /\ calm s /\ L = ∅ /\ wt s b' 0 L k
      | ISleepCheck => n = 0%nat /\ (s = Run \/ s = RunW) /\ wt s b 0 L k
      | ISetChan ch =>
          n = 0%nat /\ (s = Run /\ (forall q, ch <> ChProc q) \/ s = RunW /\ ch = ChProc me) /\ 0%nat ∈ L /\ fork_phase k = None /\
          wt (RunCh ch) b 0 L k
      | ITidy _ => n = 0%nat /\ s = Run /\ 0%nat ∈ L /\ wt s b 0 L k
      | ISetState RUNNABLE => n = 0%nat /\ s = Run /\ 0%nat ∈ L /\ wt LeftR b 0 L k
      | ISetState SLEEPING => n = 0%nat /\ 0%nat ∈ L /\ fork_phase k = None /\ exists ch, s = RunCh ch /\ wt (LeftS ch) b 0 L k
      | ISetState _ => False
      | ISched =>
          n = 0%nat /\ L = {[0%nat]} /\
          (s = LeftZ \/ wt Run b 0 L k /\ (s = LeftR \/ exists ch k', s = LeftS ch /\ k = ITidy ch :: k'))
      | IWake _ | IKill _ => n = 0%nat /\ calm s /\ 0%nat ∈ L /\ wt s b 0 L k
      | IExitCheck => n = 0%nat /\ s = Run /\ me <> ini /\ wt s b 0 L k
      | IExit => n = 0%nat /\ s = Run /\ 0%nat ∈ L /\ me <> ini /\ fork_phase k = None /\ wt LeftZ b 0 L k
      | IPanic _ => False
      | IWaitScan => n = 0%nat /\ s = Run /\ L = {[0%nat]} /\ fork_phase k = None /\ wt Run b 0 ∅ k
      | IAlloc => n = 0%nat /\ s = Run /\ 0%nat ∈ L /\ fork_phase k = Some false /\ wt Run b 0 L k
      | IForkRest _ => n = 0%nat /\ s = Run /\ (0%nat ∉ L) /\ fork_phase k = None /\ wt Run b 0 L k
      | IForkDone => n = 0%nat /\ s = Run /\ 0%nat ∈ L /\ fork_phase k = None /\ wt Run b 0 L k
      | IScan _ => n = 0%nat /\ s = Idle /\ L = {[0%nat]} /\ k = []
      | ISetProc (Some i) => n = 0%nat /\ s = Found i /\ L = {[0%nat]} /\ wt (Pick i) b 0 L k
      | ISetProc None => n = 0%nat /\ (exists i, s = Unmapped i) /\ L = {[0%nat]} /\ wt Idle b 0 L k
      | ILcr3 (Some i) => n = 1%nat /\ s = Pick i /\ wt (Mapped i) b 1 L k
      | ILcr3 None => n = 0%nat /\ exists i, s = Came i /\ wt (Unmapped i) b 0 L k
      | IRunning i => n = 0%nat /\ s = Mapped i /\ wt (Go i) b 0 L k
      | ISwtchTo i => n = 0%nat /\ s = Go i /\ L = {[0%nat]} /\ k = sched_rest i
      | IBack f z b' =>
          n = 0%nat /\ s = Run /\ z = Z.of_nat (size L) /\ (L = ∅ -> f = b) /\ (L <> ∅ -> f = false /\ b' = b) /\ wt s b 0 L k
      end
  end.

Ltac sets := apply set_eq; set_solver.
Ltac wts := cbn [app wt fork_phase]; split_and!;
  try match goal with
  | |- wt _ _ _ _ _ => idtac
  | |- _ = _ => first [done|sets]
  | |- _ ∈ _ => set_solver
  | |- _ ∉ _ => set_solver
  | |- _ = _ \/ _ = _ => first [by left|by right]
  | |- _ = _ /\ _ \/ _ = _ /\ _ = _ => first [by left|by right]
  | |- _ \/ _ => idtac
  | |- calm _ => first [done|by left|by right]
  | |- _ => done
  end.

Lemma wt_acquire s b l L k : calm s -> l ∉ L -> wt s b 0 ({[l]} ∪ L) k -> wt s b 0 L (acquire l ++ k).
Proof. intros. cbn. naive_solver. Qed.
Lemma wt_release s b l L k : calm s -> l ∈ L -> wt s b 0 (L ∖ {[l]}) k -> wt s b 0 L (release l ++ k).
Proof. intros. cbn. naive_solver. Qed.

Lemma wt_yield b k : wt Run b 0 ∅ k -> wt Run b 0 ∅ (yield ++ k).
Proof.
  intros Hk. unfold yield. rewrite <- !app_assoc. apply wt_acquire; [by left|set_solver|]. wts.
  right. split; [|by left]. apply wt_release; [by left|set_solver|].
  by replace (({[0%nat]} ∪ ∅) ∖ {[0%nat]}) with (∅ : gset nat) by sets.
Qed.

Lemma wt_sleep s b ch l L k :
  s = Run /\ l <> 0%nat /\ L = {[l]} /\ (forall q, ch <> ChProc q) \/ s = RunW /\ l = 0%nat /\ L = {[0%nat]} /\ ch = ChProc me ->
  fork_phase k = None -> wt Run b 0 {[l]} k -> wt s b 0 L (sleep ch l ++ k).
Proof.
  intros Hs Hf Hk. assert (Hrest : forall s' k', s' = LeftS ch -> wt Run b 0 {[0%nat]} k' -> wt s' b 0 {[0%nat]} (ISched :: ITidy ch :: k')).
  { intros s' k' -> Hk'. wts. right. split; [wts; done|right; eauto]. }
  unfold sleep. destruct Hs as [(-> & Hl & -> & Hch)|(-> & -> & -> & ->)].
  - rewrite !decide_False by done. rewrite <- !app_assoc. wts.
    apply wt_acquire; [by left|set_solver|]. apply wt_release; [by left|set_solver|].
    replace (({[0%nat]} ∪ {[l]}) ∖ {[l]}) with ({[0%nat]} : gset nat) by sets.
    cbn [app]. split_and!; [done|by left|set_solver|by cbn|]. split_and!; [done|set_solver|by cbn|]. eexists. split; [done|].
    apply Hrest; [done|]. apply wt_release; [by left|set_solver|]. apply wt_acquire; [by left|set_solver|].
    by replace ({[l]} ∪ ({[0%nat]} ∖ {[0%nat]})) with ({[l]} : gset nat) by sets.
  - rewrite !decide_True by done. cbn [app]. wts. eexists. split; [done|]. by apply Hrest.
Qed.

Lemma wt_wakeup s b ch L k : calm s -> 0%nat ∉ L -> wt s b 0 L k -> wt s b 0 L (wakeup ch ++ k).
Proof.
  intros Hs HL Hk. unfold wakeup. rewrite <- !app_assoc. apply wt_acquire; [done..|]. wts.
  apply wt_release; [done|set_solver|]. by replace (({[0%nat]} ∪ L) ∖ {[0%nat]}) with L by sets.
Qed.

Lemma wt_handler s l ch p k : calm s -> l <> 0%nat -> (p = true -> s = Run) ->
  wt s true 0 ∅ k -> wt s false 0 ∅ (handler l ch p ++ IIret true :: k).
Proof.
  intros Hs Hl Hp Hk. unfold handler. rewrite <- !app_assoc. apply wt_acquire; [done|set_solver|].
  apply wt_wakeup; [done|set_solver|]. apply wt_release; [done|set_solver|].
  replace (({[l]} ∪ ∅) ∖ {[l]}) with (∅ : gset nat) by sets.
  assert (wt s false 0 ∅ (IIret true :: k)) by (cbn; done). destruct p; [|done]. rewrite (Hp eq_refl) in *. by apply wt_yield.
Qed.

Lemma fork_phase_app k k' : (forall i, i ∈ k -> fork_phase [i] = None /\ i <> IAlloc) -> fork_phase (k ++ k') = fork_phase k'.
Proof.
  induction k as [|i k IH]; intros H; [done|]. destruct (H i) as [H1 H2]; [left|].
  rewrite <- IH by (intros j Hj; apply H; by right). destruct i; done.
Qed.

(** The code a call pushes. *)
Lemma wt_call b L cl st m :
  0%nat ∉ L -> call_ok m me L cl -> ini = pt_initproc (m_pt m) ->
  c_ncli st = Z.of_nat (size L) -> (L = ∅ -> c_if st = b) -> (L <> ∅ -> c_if st = false /\ c_intena st = b) ->
  wt Run b 0 L (call_code cl ++ back st cl).
Proof.
  intros H0 Hok Hini Hn Hb1 Hb2.
  assert (Hback : wt Run b 0 L [IBack (c_if st) (c_ncli st) (c_intena st)]) by (cbn; split_and!; done).
  destruct cl as [l|l| |ch l|ch|pid| | |ok]; cbn [call_code back call_ok] in *.
  - apply wt_acquire; [by left|naive_solver|]. wts.
  - apply wt_release; [by left|done|]. wts.
  - subst L. by apply wt_yield.
  - destruct Hok as [-> Hch]. apply wt_sleep; [|done|done]. left. set_solver.
  - by apply wt_wakeup; [left|..].
  - unfold kill. rewrite <- !app_assoc. apply wt_acquire; [by left|done|]. wts.
    apply wt_release; [by left|set_solver|]. by replace (({[0%nat]} ∪ L) ∖ {[0%nat]}) with L by sets.
  - destruct Hok as [-> Hi]. rewrite <- Hini in Hi. unfold exit. rewrite <- !app_assoc. wts. apply wt_acquire; [by left|set_solver|]. wts. by left.
  - subst L. unfold wait. rewrite <- !app_assoc. apply wt_acquire; [by left|set_solver|]. wts.
  - unfold fork. rewrite <- !app_assoc. apply wt_acquire; [by left|done|]. wts.
    apply wt_release; [by left|set_solver|]. replace (({[0%nat]} ∪ L) ∖ {[0%nat]}) with L by sets. wts.
Qed.
End Typing.

(** ** The state a status stands for *)

Definition pst (t : ptable) (i : nat) : option procstate := p_state <$> pt_proc t !! i.
Definition pchan (t : ptable) (i : nat) : option chan := pt_proc t !! i ≫= p_chan.
Definition gone (st : option procstate) : Prop := st = Some RUNNABLE \/ st = Some SLEEPING \/ st = Some ZOMBIE.

Definition nothing_to_reap (t : ptable) (i : nat) : Prop := wait_scan i 0 (pt_proc t) false = (true, None).

Definition on_proc (x : cpu) (i : nat) : Prop := x_on x = Some i /\ x_proc x = Some i /\ x_cr3 x = Some i /\ x_sched x = sched_rest i.
Definition on_sched (x : cpu) (p cr3 : option nat) : Prop := x_on x = None /\ x_proc x = p /\ x_cr3 x = cr3.

Definition st_ok (t : ptable) (x : cpu) (me : nat) (s : status) : Prop :=
  match s with
  | Run => on_proc x me /\ pst t me = Some RUNNING
  | RunW => on_proc x me /\ pst t me = Some RUNNING /\ nothing_to_reap t me
  | RunCh ch => on_proc x me /\ pst t me = Some RUNNING /\ pchan t me = Some ch /\ (forall q, ch = ChProc q -> q = me /\ nothing_to_reap t me)
  | LeftR => on_proc x me /\ pst t me = Some RUNNABLE
  | LeftS ch => on_proc x me /\ pst t me = Some SLEEPING /\ pchan t me = Some ch
  | LeftZ => on_proc x me /\ pst t me = Some ZOMBIE
  | Idle => on_sched x None None
  | Found i => on_sched x None None /\ pst t i = Some RUNNABLE
  | Pick i => on_sched x (Some i) None /\ pst t i = Some RUNNABLE
  | Mapped i => on_sched x (Some i) (Some i) /\ pst t i = Some RUNNABLE
  | Go i => on_sched x (Some i) (Some i) /\ pst t i = Some RUNNING
  | Came i => on_sched x (Some i) (Some i) /\ gone (pst t i)
  | Unmapped i => on_sched x (Some i) None /\ gone (pst t i)
  end.

Definition fork_ok (fk : gmap nat nat) (i : nat) (k : list instr) : Prop :=
  (is_Some (fk !! i) -> fork_phase k <> None) /\ (fork_phase k = Some true -> is_Some (fk !! i)).

Definition me_of (x : cpu) : nat := default 0%nat (x_on x).

Record cpu_as (t : ptable) (fk : gmap nat nat) (x : cpu) (s : status) (b : bool) (n : nat) : Prop := {
  k_wt : wt (pt_initproc t) (me_of x) s b n (x_held x) (x_code x);
  k_lock : calm s \/ 0%nat ∈ x_held x;
  k_ncli : c_ncli (x_st x) = Z.of_nat (size (x_held x) + n);
  k_if : 0 < c_ncli (x_st x) -> c_if (x_st x) = false;
  k_intena : 0 < c_ncli (x_st x) -> c_intena (x_st x) = b \/ exists b' k, x_code x = ISetIntena b' :: k;
  k_if0 : c_ncli (x_st x) = 0 -> c_if (x_st x) = b;
  k_st : st_ok t x (me_of x) s;
  k_fork : forall i, x_on x = Some i -> fork_ok fk i (x_code x)
}.
Definition cpu_ok (t : ptable) (fk : gmap nat nat) (x : cpu) : Prop := exists s b n, cpu_as t fk x s b n.

(** A saved context: the thread is past sched's swtch, or has not started. *)
Definition ctx_ok (t : ptable) (fk : gmap nat nat) (ctx : gmap nat (list instr)) (i : nat) : Prop :=
  exists k, ctx !! i = Some k /\ fork_ok fk i k /\
    ((exists b k', k = ISetIntena b :: k' /\ wt (pt_initproc t) i Run b 0 {[0%nat]} k' /\
       (pst t i = Some SLEEPING -> exists ch k'', k' = ITidy ch :: k'' /\ pchan t i = Some ch)) \/
     k = forkret /\ pst t i <> Some SLEEPING).

(** ** The table of Sched.v

    It differs in the channel of processes that do not sleep: the section of
    Ptable.v clears it when the process is chosen, sleep when it goes on. *)
Definition peq (p p' : proc) : Prop :=
  p' = Ptable.set_chan (p_chan p') p /\ (p_state p = SLEEPING -> p_chan p' = p_chan p).
Definition teq (t t' : ptable) : Prop :=
  pt_nextpid t' = pt_nextpid t /\ pt_initproc t' = pt_initproc t /\ Forall2 peq (pt_proc t) (pt_proc t').

Definition abs_cpu (t : ptable) (x : cpu) : option nat :=
  match x_proc x with
  | Some i => if decide (pst t i = Some RUNNING) then Some i else None
  | None => None
  end.

Record rel (m : mach) (s : sys) : Prop := {
  r_pt : teq (m_pt m) (sy_pt s);
  r_cpus : sy_cpus s = abs_cpu (m_pt m) <$> m_cpus m;
  r_fork : sy_fork s = m_fk m
}.

Definition off_cpu (cpus : list cpu) (i : nat) : Prop := forall c x, cpus !! c = Some x -> x_on x <> Some i.

Record inv (n : nat) (m : mach) : Prop := {
  i_cpu : forall c x, m_cpus m !! c = Some x -> cpu_ok (m_pt m) (m_fk m) x;
  i_lock : forall l c, m_lock m !! l = Some c <-> exists x, m_cpus m !! c = Some x /\ l ∈ x_held x;
  i_ctx : forall i p, pt_proc (m_pt m) !! i = Some p -> alive (p_state p) -> off_cpu (m_cpus m) i -> ctx_ok (m_pt m) (m_fk m) (m_ctx m) i;
  i_abs : exists s, rtc sstep (boot n) s /\ rel m s
}.

(** ** Entries of related tables *)

Lemma peq_refl p : peq p p.
Proof. split; [by destruct p|done]. Qed.

Lemma teq_lookup t t' i p : teq t t' -> pt_proc t !! i = Some p -> exists p', pt_proc t' !! i = Some p' /\ peq p p'.
Proof. intros (_ & _ & H) Hp. destruct (Forall2_lookup_l _ _ _ _ _ H Hp) as (p' & ? & ?). eauto. Qed.

Lemma teq_lookup_r t t' i p' : teq t t' -> pt_proc t' !! i = Some p' -> exists p, pt_proc t !! i = Some p /\ peq p p'.
Proof. intros (_ & _ & H) Hp. destruct (Forall2_lookup_r _ _ _ _ _ H Hp) as (p & ? & ?). eauto. Qed.

Lemma peq_fields p p' : peq p p' ->
  p_state p' = p_state p /\ p_pid p' = p_pid p /\ p_parent p' = p_parent p /\ p_killed p' = p_killed p.
Proof. intros [E _]. destruct p, p'; cbn in *. by injection E. Qed.

Lemma pst_lookup t i st : pst t i = Some st <-> exists p, pt_proc t !! i = Some p /\ p_state p = st.
Proof. unfold pst. rewrite fmap_Some. naive_solver. Qed.

(** Updating one entry in both tables. *)
Lemma teq_upd t t' i g g' : teq t t' -> (forall p p', peq p p' -> peq (g p) (g' p')) -> teq (upd_proc i g t) (upd_proc i g' t').
Proof.
  intros (H1 & H2 & H3) Hg. split_and!; [done..|]. cbn. apply Forall2_alter; [done|]. intros; by apply Hg.
Qed.

Lemma teq_wakeup c t t' : teq t t' -> teq (wakeup1 c t) (wakeup1 c t').
Proof.
  intros (H1 & H2 & H3). split_and!; [done..|]. cbn. apply Forall2_fmap_2. eapply Forall2_impl; [exact H3|].
  intros p p' Hp. assert (Hf := peq_fields _ _ Hp). destruct Hp as [E Hc]. unfold wake_proc, is_state.
  destruct Hf as (-> & _). destruct (decide (p_state p = SLEEPING)) as [Es|Es].
  - rewrite (Hc Es), bool_decide_true by done. destruct (bool_decide _); cbn; [|by split]. split; [|done]. rewrite E at 1. by destruct p.
  - rewrite bool_decide_false by done. cbn. by split.
Qed.

Lemma scan_peq test i l l' : (forall p p', peq p p' -> test p' = test p) -> Forall2 peq l l' -> scan_procs test i l' = scan_procs test i l.
Proof. intros Ht H. revert i. induction H as [|p p' l l' Hp _ IH]; intros i; [done|]. cbn. by rewrite (Ht p p' Hp), IH. Qed.

Lemma is_state_peq st p p' : peq p p' -> is_state st p' = is_state st p.
Proof. intros H. unfold is_state. by destruct (peq_fields _ _ H) as [-> _]. Qed.

Lemma wait_scan_peq me i l l' hk : Forall2 peq l l' -> wait_scan me i l' hk = wait_scan me i l hk.
Proof.
  intros H. revert i hk. induction H as [|p p' l l' Hp _ IH]; intros i hk; [done|]. cbn.
  rewrite (is_state_peq _ _ _ Hp). destruct (peq_fields _ _ Hp) as (_ & _ & -> & _). by rewrite !IH.
Qed.

(** A change of an entry that keeps all but the fields named. *)
Ltac peqs := let E := fresh in intros ?p ?p' [E ?]; split; [rewrite E at 1; by destruct p|cbn; done].

Lemma teq_alloc t t' : teq t t' ->
  match alloc_slot t, alloc_slot t' with
  | Some (i, u), Some (i', u') => i' = i /\ teq u u'
  | None, None => True
  | _, _ => False
  end.
Proof.
  intros Ht. destruct Ht as (H1 & H2 & H3). unfold alloc_slot. rewrite (scan_peq (is_state UNUSED) 0 _ _ (is_state_peq UNUSED) H3).
  destruct (scan_procs _ _ _) as [i|]; [|done]. split; [done|]. rewrite H1. split_and!; [done..|]. cbn.
  apply Forall2_alter; [done|]. intros p p' _ _. revert p p'. peqs.
Qed.

Lemma teq_kill pid t t' : teq t t' -> teq (kill_section pid t).2 (kill_section pid t').2.
Proof.
  intros Ht. destruct Ht as (H1 & H2 & H3). unfold kill_section. rewrite (scan_peq (fun p => p_pid p =? pid) 0 (pt_proc t) (pt_proc t')); [|intros p p' H; by destruct (peq_fields _ _ H) as (_ & -> & _)|done].
  destruct (scan_procs _ _ _) as [i|]; [|by split_and!]. cbn [snd]. apply teq_upd; [by split_and!|].
  intros p p' Hp. cbn. assert (E : is_state SLEEPING (set_killed true p') = is_state SLEEPING (set_killed true p)) by (unfold is_state; cbn; by destruct (peq_fields _ _ Hp) as [-> _]).
  rewrite E. destruct Hp as [Hp Hs]. destruct (is_state SLEEPING (set_killed true p)); (split; [rewrite Hp at 1; by destruct p|done]).
Qed.

Lemma teq_reparent cnt i me t t' : teq t t' -> teq (reparent cnt i me t) (reparent cnt i me t').
Proof.
  revert i t t'. induction cnt as [|cnt IH]; intros i t t' Ht; [done|]. cbn [reparent]. apply IH.
  destruct (pt_proc t !! i) as [p|] eqn:E.
  - destruct (teq_lookup _ _ _ _ Ht E) as (p' & -> & Hp). rewrite (is_state_peq _ _ _ Hp). destruct (peq_fields _ _ Hp) as (_ & _ & -> & _).
    destruct (bool_decide _); [|done]. assert (Hi : pt_initproc t' = pt_initproc t) by apply Ht.
    assert (Hu : teq (upd_proc i (set_parent (Some (pt_initproc t))) t) (upd_proc i (set_parent (Some (pt_initproc t'))) t')).
    { rewrite Hi. apply teq_upd; [done|]. peqs. }
    destruct (is_state ZOMBIE p); [|done]. cbn [pt_initproc upd_proc set_procs]. rewrite Hi in *. by apply teq_wakeup.
  - destruct (pt_proc t' !! i) as [p'|] eqn:E'; [|done]. destruct (teq_lookup_r _ _ _ _ Ht E') as (p & Hp & _). congruence.
Qed.

Lemma teq_exit me t t' : teq t t' -> teq (exit_section me t) (exit_section me t').
Proof.
  intros Ht. unfold exit_section. assert (E : pt_proc t' !! me ≫= p_parent = pt_proc t !! me ≫= p_parent).
  { destruct (pt_proc t !! me) as [p|] eqn:E.
    - destruct (teq_lookup _ _ _ _ Ht E) as (p' & -> & Hp). by apply peq_fields.
    - destruct (pt_proc t' !! me) as [p'|] eqn:E'; [|done]. destruct (teq_lookup_r _ _ _ _ Ht E') as (p & Hp & _). congruence. }
  rewrite E. set (u := match pt_proc t !! me ≫= p_parent with Some q => wakeup1 (ChProc q) t | None => t end).
  set (u' := match pt_proc t !! me ≫= p_parent with Some q => wakeup1 (ChProc q) t' | None => t' end).
  assert (Hu : teq u u') by (unfold u, u'; destruct (pt_proc t !! me ≫= p_parent); [by apply teq_wakeup|done]).
  assert (Hl : length (pt_proc u') = length (pt_proc u)) by (symmetry; apply (Forall2_length peq); apply Hu). rewrite Hl.
  apply teq_upd; [by apply teq_reparent|]. peqs.
Qed.

(** ** Exclusion *)

Lemma abs_wf n m s : rtc sstep (boot n) s -> rel m s -> wf (sy_pt s) (abs_cpu (m_pt m) <$> m_cpus m) (m_fk m).
Proof. intros Hr R. rewrite <- (r_cpus _ _ R), <- (r_fork _ _ R). by eapply wf_reachable. Qed.

Lemma lock0_excl n m c c' x y : inv n m -> m_cpus m !! c = Some x -> m_cpus m !! c' = Some y ->
  0%nat ∈ x_held x -> 0%nat ∈ x_held y -> c = c'.
Proof.
  intros I Hx Hy H H'. assert (m_lock m !! 0%nat = Some c) by (apply (i_lock _ _ I); eauto).
  assert (m_lock m !! 0%nat = Some c') by (apply (i_lock _ _ I); eauto). congruence.
Qed.

(** The state of the process of a processor. *)
Lemma st_proc t fk x s b n i : cpu_as t fk x s b n -> x_proc x = Some i ->
  pst t i = Some RUNNING \/ gone (pst t i) /\ 0%nat ∈ x_held x.
Proof.
  intros K Hp. assert (Hs := k_st _ _ _ _ _ _ K). assert (Hl := k_lock _ _ _ _ _ _ K). unfold gone.
  destruct s; cbn in Hs; unfold on_proc, on_sched in Hs; destruct_and?; simplify_eq; auto; destruct Hl as [[|]|]; try done; tauto.
Qed.

Lemma proc_excl n m c c' x y i : inv n m -> m_cpus m !! c = Some x -> m_cpus m !! c' = Some y ->
  x_proc x = Some i -> x_proc y = Some i -> c = c'.
Proof.
  intros I Hx Hy Hpx Hpy. destruct (i_cpu _ _ I c x Hx) as (s & b & k & K). destruct (i_cpu _ _ I c' y Hy) as (s' & b' & k' & K').
  destruct (st_proc _ _ _ _ _ _ i K Hpx) as [Hr|[Hg H0]].
  - destruct (i_abs _ _ I) as (a & Hra & R). assert (W := abs_wf _ _ _ Hra R).
    apply (w_excl _ _ _ W c c' i); rewrite list_lookup_fmap; [rewrite Hx|rewrite Hy]; cbn; unfold abs_cpu; [rewrite Hpx|rewrite Hpy]; by rewrite decide_True.
  - destruct (st_proc _ _ _ _ _ _ i K' Hpy) as [Hr|[_ H0']]; [|by eapply lock0_excl].
    exfalso. rewrite Hr in Hg. destruct Hg as [|[|]]; done.
Qed.
