(* ===== verification/SwtchStep.v ===== *)
(** * Every step keeps the invariant of the kernel threads *)

From S2P Require Import Prelude.
From S2P Require Import Params.
From S2P Require Import Ptable.
From S2P Require Import Spinlock.
From S2P Require Import Sched.
From S2P Require Import Swtch.
From S2P Require Import SwtchInv.
Import Swtch.

(** ** Steps that leave the table alone *)

Lemma on_cpu_insert cpus c (x x' : cpu) i : cpus !! c = Some x -> x_on x' = x_on x -> off_cpu (<[c := x']> cpus) i <-> off_cpu cpus i.
Proof.
  intros Hx Ho. assert (Hlt := lookup_lt_Some _ _ _ Hx). split; intros H c' y Hy.
  - destruct (decide (c' = c)) as [->|Hne].
    + rewrite Hx in Hy. injection Hy as <-. rewrite <- Ho. apply (H c). by rewrite list_lookup_insert_eq.
    + apply (H c'). by rewrite list_lookup_insert_ne.
  - destruct (decide (c' = c)) as [->|Hne].
    + rewrite list_lookup_insert_eq in Hy by done. injection Hy as <-. rewrite Ho. by apply (H c).
    + rewrite list_lookup_insert_ne in Hy by done. by apply (H c').
Qed.

Definition locks_after (m : mach) (c : nat) (x' : cpu) (lock' : gmap nat nat) : Prop :=
  forall l c', lock' !! l = Some c' <-> if decide (c' = c) then l ∈ x_held x' else m_lock m !! l = Some c'.

Lemma locks_same n m c x x' : inv n m -> m_cpus m !! c = Some x -> x_held x' = x_held x -> locks_after m c x' (m_lock m).
Proof.
  intros I Hx Hh l c'. case_decide as E; [|done]. subst c'. rewrite (i_lock _ _ I), Hh. naive_solver.
Qed.

Lemma inv_locks n m c x x' lock' : inv n m -> m_cpus m !! c = Some x -> locks_after m c x' lock' ->
  forall l c', lock' !! l = Some c' <-> exists y, <[c := x']> (m_cpus m) !! c' = Some y /\ l ∈ x_held y.
Proof.
  intros I Hx HL l c'. assert (Hlt := lookup_lt_Some _ _ _ Hx). rewrite (HL l c'). case_decide as E.
  - subst c'. rewrite list_lookup_insert_eq by done. naive_solver.
  - rewrite list_lookup_insert_ne by done. apply I.
Qed.

Lemma inv_cpus m c x' t' fk' : cpu_ok t' fk' x' ->
  (forall c' y, c' <> c -> m_cpus m !! c' = Some y -> cpu_ok t' fk' y) ->
  forall c' y, <[c := x']> (m_cpus m) !! c' = Some y -> cpu_ok t' fk' y.
Proof.
  intros H Ho c' y Hy. destruct (decide (c' = c)) as [->|Hne].
  - assert (c < length (m_cpus m))%nat by (apply lookup_lt_Some in Hy; by rewrite length_insert in Hy).
    rewrite list_lookup_insert_eq in Hy by done. by injection Hy as <-.
  - rewrite list_lookup_insert_ne in Hy by done. by apply (Ho c').
Qed.

Lemma inv_local n m c x x' lock' :
  inv n m -> m_cpus m !! c = Some x -> x_on x' = x_on x -> abs_cpu (m_pt m) x' = abs_cpu (m_pt m) x ->
  cpu_ok (m_pt m) (m_fk m) x' -> locks_after m c x' lock' ->
  inv n (MkM (<[c := x']> (m_cpus m)) lock' (m_pt m) (m_ctx m) (m_fk m)).
Proof.
  intros I Hx Ho Ha Hk HL. constructor; cbn.
  - apply inv_cpus; [done|]. intros c' y _. apply I.
  - by eapply inv_locks.
  - intros i p Hp Hal Hoff. apply (i_ctx _ _ I i p); [done..|]. by apply (on_cpu_insert _ c x x').
  - destruct (i_abs _ _ I) as (s & Hr & R). exists s. split; [done|]. destruct R as [R1 R2 R3]. constructor; cbn; [done| |done].
    rewrite list_fmap_insert, Ha, list_insert_id; [done|]. by rewrite list_lookup_fmap, Hx.
Qed.

(** ** Steps under ptable.lock *)

Lemma calm_stays t t' fk fk' x s b n :
  cpu_as t fk x s b n -> calm s -> pt_initproc t' = pt_initproc t ->
  (forall j, x_proc x = Some j -> pst t j = Some RUNNING -> pst t' j = Some RUNNING) ->
  (forall j, x_proc x = Some j -> fk' !! j = fk !! j) ->
  cpu_ok t' fk' x /\ abs_cpu t' x = abs_cpu t x.
Proof.
  intros K Hc Hi Hrun Hfk. assert (Hs := k_st _ _ _ _ _ _ K). split.
  - exists s, b, n. destruct K as [K1 K2 K3 K4 K5 K6 K7 K8]. constructor; auto; [by rewrite Hi| |].
    + destruct Hc as [-> | ->]; cbn in *; [|done]. destruct Hs as [H1 H2]. split; [done|]. apply Hrun; [apply H1|done].
    + intros i Hon. specialize (K8 i Hon). unfold fork_ok. rewrite Hfk; [done|].
      destruct Hc as [-> | ->]; cbn in Hs; unfold on_proc, on_sched, me_of in Hs; rewrite Hon in Hs; naive_solver.
  - unfold abs_cpu. destruct Hc as [-> | ->]; cbn in Hs.
    + destruct Hs as [(_ & Hp & _) Hr]. rewrite Hp, !decide_True; auto.
    + destruct Hs as (_ & Hp & _). by rewrite Hp.
Qed.

Lemma others_locked n m c x t' fk' :
  inv n m -> m_cpus m !! c = Some x -> 0%nat ∈ x_held x -> pt_initproc t' = pt_initproc (m_pt m) ->
  (forall j, x_proc x <> Some j -> pst (m_pt m) j = Some RUNNING -> pst t' j = Some RUNNING) ->
  (forall j, x_proc x <> Some j -> fk' !! j = m_fk m !! j) ->
  forall c' y, c' <> c -> m_cpus m !! c' = Some y -> cpu_ok t' fk' y /\ abs_cpu t' y = abs_cpu (m_pt m) y.
Proof.
  intros I Hx H0 Hi Hrun Hfk c' y Hne Hy. destruct (i_cpu _ _ I c' y Hy) as (s & b & k & K).
  assert (Hc : calm s) by (destruct (k_lock _ _ _ _ _ _ K) as [|H0']; [done|]; by destruct Hne; eapply lock0_excl).
  assert (Hd : forall j, x_proc y = Some j -> x_proc x <> Some j) by (intros j Hj Hj'; by apply Hne; eapply proc_excl).
  eapply calm_stays; eauto.
Qed.

Lemma abs_others m c x' t' (Q : cpu -> Prop) : (c < length (m_cpus m))%nat ->
  (forall c' y, c' <> c -> m_cpus m !! c' = Some y -> Q y /\ abs_cpu t' y = abs_cpu (m_pt m) y) ->
  abs_cpu t' <$> <[c := x']> (m_cpus m) = <[c := abs_cpu t' x']> (abs_cpu (m_pt m) <$> m_cpus m).
Proof.
  intros Hlt Ho. apply list_eq. intros c'. rewrite list_lookup_fmap. destruct (decide (c' = c)) as [->|Hne].
  - rewrite !list_lookup_insert_eq by (rewrite ?length_fmap; done). done.
  - rewrite !list_lookup_insert_ne, list_lookup_fmap by done. destruct (m_cpus m !! c') as [y|] eqn:E; [|done]. cbn. f_equal.
    by destruct (Ho c' y).
Qed.

Lemma inv_table n m c x x' t' ctx' fk' s s' :
  inv n m -> m_cpus m !! c = Some x -> x_on x' = x_on x -> x_held x' = x_held x ->
  rtc sstep (boot n) s -> rel m s ->
  (forall c' y, c' <> c -> m_cpus m !! c' = Some y -> cpu_ok t' fk' y /\ abs_cpu t' y = abs_cpu (m_pt m) y) ->
  cpu_ok t' fk' x' ->
  (forall i p, pt_proc t' !! i = Some p -> alive (p_state p) -> off_cpu (m_cpus m) i -> ctx_ok t' fk' ctx' i) ->
  rtc sstep s s' -> teq t' (sy_pt s') -> sy_cpus s' = <[c := abs_cpu t' x']> (abs_cpu (m_pt m) <$> m_cpus m) -> sy_fork s' = fk' ->
  inv n (MkM (<[c := x']> (m_cpus m)) (m_lock m) t' ctx' fk').
Proof.
  intros I Hx Ho Hh Hr R Hoth Hk Hctx Hs' Ht' Hc' Hf'. assert (Hlt := lookup_lt_Some _ _ _ Hx). constructor; cbn.
  - apply inv_cpus; [done|]. intros c' y Hne Hy. by apply (Hoth c').
  - eapply inv_locks; eauto. by eapply locks_same.
  - intros i p Hp Hal Hoff. apply (Hctx i p); [done..|]. by apply (on_cpu_insert _ c x x').
  - exists s'. split; [by etrans|]. constructor; cbn; [done| |done]. by rewrite Hc', (abs_others m c x' t' _ Hlt Hoth).
Qed.

Lemma ctx_stay t t' fk fk' ctx ctx' i : ctx_ok t fk ctx i -> pt_initproc t' = pt_initproc t -> ctx' !! i = ctx !! i -> fk' !! i = fk !! i ->
  (pst t' i = Some SLEEPING -> pst t i = Some SLEEPING /\ pchan t' i = pchan t i) -> ctx_ok t' fk' ctx' i.
Proof.
  intros (k & Hk & Hf & Hc) Hi Hc' Hf' Hst. exists k. rewrite Hc'. split; [done|]. unfold fork_ok. rewrite Hf'. split; [done|].
  destruct Hc as [(b & k' & -> & Hw & Hs)|[-> Hs]]; [left|right; split; [done|naive_solver]].
  exists b, k'. split; [done|]. rewrite Hi. split; [done|]. intros H. destruct (Hst H) as [H1 H2]. rewrite H2. by apply Hs.
Qed.

(** What a section may do to the entries of the other processes: none that runs
    stops, and none comes to life or to sleep.  [pr] is the processor's process,
    [on] the stack it is on. *)
Definition keeps_entry (p p' : proc) : Prop :=
  (alive (p_state p') -> alive (p_state p)) /\ (p_state p' = SLEEPING -> p_state p = SLEEPING /\ p_chan p' = p_chan p).
Record keeps (pr on : option nat) (t t' : ptable) : Prop := {
  kp_init : pt_initproc t' = pt_initproc t;
  kp_run : forall j, pr <> Some j -> pst t j = Some RUNNING -> pst t' j = Some RUNNING;
  kp_entry : forall j p', on <> Some j -> pt_proc t' !! j = Some p' -> exists p, pt_proc t !! j = Some p /\ keeps_entry p p'
}.

Lemma keeps_refl pr on t : keeps pr on t t.
Proof. constructor; [done..|]. intros j p' _ Hj. exists p'. split; [done|]. by split. Qed.

Lemma keeps_trans pr on t1 t2 t3 : keeps pr on t1 t2 -> keeps pr on t2 t3 -> keeps pr on t1 t3.
Proof.
  intros [A1 A2 A3] [B1 B2 B3]. constructor; [congruence|auto|]. intros j p3 Hj H3. destruct (B3 j p3 Hj H3) as (p2 & H2 & E2 & E2').
  destruct (A3 j p2 Hj H2) as (p1 & H1 & E1 & E1'). exists p1. split; [done|]. split; [auto|]. intros Hs. destruct (E2' Hs) as [Hs2 ->]. auto.
Qed.

Lemma keeps_upd pr on t i g :
  (forall p, pt_proc t !! i = Some p -> (pr = Some i \/ (p_state p = RUNNING -> p_state (g p) = RUNNING)) /\ (on = Some i \/ keeps_entry p (g p))) ->
  keeps pr on t (upd_proc i g t).
Proof.
  intros Hg. constructor; [done|..].
  - intros j Hj Hr. apply pst_lookup in Hr as (p & Hp & Hs). apply pst_lookup. rewrite lookup_upd. case_decide as E; [|eauto].
    subst j. rewrite Hp. cbn. destruct (Hg p Hp) as [[|H] _]; [done|eauto].
  - intros j p' Hj. rewrite lookup_upd. case_decide as E.
    + subst j. rewrite fmap_Some. intros (p & Hp & ->). destruct (Hg p Hp) as [_ [|H]]; [done|eauto].
    + intros Hp. exists p'. split; [done|]. by split.
Qed.

Lemma keeps_wake pr on t ch : keeps pr on t (wakeup1 ch t).
Proof.
  constructor; [done|..].
  - intros j _ (p & Hp & Hs)%pst_lookup. apply pst_lookup. rewrite lookup_wakeup, Hp. eexists. split; [done|].
    destruct (wake_proc_fields ch p) as (_ & _ & _ & _ & ->). case_decide as E; [|done]. destruct E; congruence.
  - intros j p' _. rewrite lookup_wakeup, fmap_Some. intros (p & Hp & ->). exists p. split; [done|].
    destruct (wake_proc_fields ch p) as (_ & _ & E & _ & Es). unfold keeps_entry. rewrite Es, E. unfold alive. case_decide as D; [|done].
    destruct D as [-> _]. split; [by left|done].
Qed.

Lemma keeps_reparent pr on me cnt i t : keeps pr on t (reparent cnt i me t).
Proof.
  revert i t. induction cnt as [|cnt IH]; intros i t; [apply keeps_refl|]. cbn [reparent]. eapply keeps_trans; [|apply IH].
  destruct (pt_proc t !! i) as [p|]; [|apply keeps_refl]. destruct (bool_decide _); [|apply keeps_refl].
  assert (keeps pr on t (upd_proc i (set_parent (Some (pt_initproc t))) t)) by (apply keeps_upd; intros q _; split; right; [done|by split]).
  destruct (is_state ZOMBIE p); [|done]. eapply keeps_trans; [done|]. apply keeps_wake.
Qed.

Lemma keeps_me me t g : keeps (Some me) (Some me) t (upd_proc me g t).
Proof. apply keeps_upd. intros p _. split; by left. Qed.

Lemma keeps_exit me t : keeps (Some me) (Some me) t (exit_section me t).
Proof.
  unfold exit_section. eapply keeps_trans; [|apply keeps_me]. eapply keeps_trans; [|apply keeps_reparent].
  destruct (_ ≫= _); [apply keeps_wake|apply keeps_refl].
Qed.

Lemma keeps_kill pr on pid t : keeps pr on t (kill_section pid t).2.
Proof.
  unfold kill_section. destruct (scan_procs _ _ _) as [i|]; [|apply keeps_refl]. cbn [snd]. apply keeps_upd. intros p _.
  cbn. unfold is_state. cbn. unfold keeps_entry, alive. case_bool_decide as E; cbn; rewrite ?E; split; right; done || (split; [by left|done]).
Qed.

Lemma keeps_alloc pr on t i t' : alloc_slot t = Some (i, t') -> keeps pr on t t'.
Proof.
  unfold alloc_slot. destruct (scan_procs _ _ _) as [i'|] eqn:E; [|done]. intros [= -> <-].
  destruct (scan_spec _ _ _ _ E) as (p0 & Hp0 & Hu & _). rewrite Nat.sub_0_r in Hp0. apply bool_decide_eq_true in Hu.
  assert (K : keeps pr on t (upd_proc i (fun p => set_pid (pt_nextpid t) (set_state EMBRYO p)) t)).
  { apply keeps_upd. intros p Hp. rewrite Hp0 in Hp. injection Hp as <-. unfold keeps_entry, alive. cbn. rewrite Hu. split; right; [done|]. split; [|done]. by intros [|[|]]. }
  destruct K as [K1 K2 K3]. by constructor.
Qed.

Lemma inv_locked n m c x x' t' s s' :
  inv n m -> m_cpus m !! c = Some x -> 0%nat ∈ x_held x -> x_on x' = x_on x -> x_held x' = x_held x ->
  rtc sstep (boot n) s -> rel m s -> keeps (x_proc x) (x_on x) (m_pt m) t' -> cpu_ok t' (m_fk m) x' ->
  rtc sstep s s' -> teq t' (sy_pt s') -> sy_cpus s' = <[c := abs_cpu t' x']> (abs_cpu (m_pt m) <$> m_cpus m) -> sy_fork s' = m_fk m ->
  inv n (MkM (<[c := x']> (m_cpus m)) (m_lock m) t' (m_ctx m) (m_fk m)).
Proof.
  intros I Hx H0 Ho Hh Hr R [Ki Kr Ke] Hk Hs' Ht Hc Hf. eapply inv_table; eauto.
  - eapply others_locked; eauto.
  - intros i p' Hp' Hal Hoff. assert (Hne : x_on x <> Some i) by (by apply (Hoff c)).
    destruct (Ke i p' Hne Hp') as (p & Hp & Ka & Ks). eapply ctx_stay; [apply (i_ctx _ _ I i p); auto|done..|].
    unfold pst, pchan. rewrite Hp, Hp'. cbn. intros [= E]. destruct (Ks E) as [-> ->]. done.
Qed.

(** ** One instruction

    What executing an instruction has to give: a good state, or a wait for a
    lock; no panic, and nothing undefined but the overflow of the pids. *)
Definition good (n : nat) (r : res) : Prop :=
  match r with
  | Next m => inv n m
  | Spin => True
  | Panic _ => False
  | Undef w => w = "nextpid"%string
  end.

Definition plain (i : instr) : Prop :=
  match i with IAlloc | IForkRest _ | IForkDone | ISetIntena _ => False | _ => True end.

Lemma fork_tail fk me i k : plain i -> fork_ok fk me (i :: k) -> fork_ok fk me k.
Proof. by destruct i. Qed.

(** The processor goes on with [k'] in status [s']. *)
Lemma cpu_next t t' fk fk' x s b k' s' :
  cpu_as t fk x s b 0 -> (forall b' k0, x_code x <> ISetIntena b' :: k0) -> pt_initproc t' = pt_initproc t ->
  wt (pt_initproc t) (me_of x) s' b 0 (x_held x) k' -> calm s' \/ 0%nat ∈ x_held x -> st_ok t' x (me_of x) s' ->
  (forall i, x_on x = Some i -> fork_ok fk' i k') -> cpu_ok t' fk' (set_code k' x).
Proof.
  intros [K1 K2 K3 K4 K5 K6 K7 K8] Hh Hi Hw Hl Hs Hf. exists s', b, 0%nat. constructor; cbn; auto.
  - by rewrite Hi.
  - intros H. left. destruct (K5 H) as [|(b' & k0 & E)]; [done|by destruct (Hh b' k0)].
Qed.

Section Exec.
Context (n c : nat) (m : mach) (x : cpu) (k : list instr).
Context (I : inv n m) (Hx : m_cpus m !! c = Some x).

(** Take the state of the processor apart at the instruction it executes. *)
Ltac at_instr Hcode :=
  let s := fresh "s" in let b := fresh "b" in let d := fresh "d" in let K := fresh "K" in let W := fresh "W" in
  destruct (i_cpu _ _ I c x Hx) as (s & b & d & K); assert (W := k_wt _ _ _ _ _ _ K); rewrite Hcode in W; cbn [wt] in W.

Lemma exec_push : x_code x = IPush :: k -> good n (exec c x IPush k m).
Proof.
  intros Hcode. at_instr Hcode. destruct W as (-> & Hs & Hw). cbn [exec good]. apply (inv_local n m c x); auto; [|by eapply locks_same].
  exists s, b, 1%nat. destruct K as [K1 K2 K3 K4 K5 K6 K7 K8]. constructor; cbn; auto.
  - rewrite K3. lia.
  - intros _. left. destruct (Z.eqb_spec (c_ncli (x_st x)) 0) as [E|E]; [auto|].
    destruct K5 as [|(b' & k0 & E')]; [rewrite K3 in *; lia|done|]. congruence.
  - intros. rewrite K3 in *. lia.
  - intros i Hi. specialize (K8 i Hi). rewrite Hcode in K8. by apply (fork_tail _ _ IPush).
Qed.

Lemma exec_pop : x_code x = IPop :: k -> good n (exec c x IPop k m).
Proof.
  intros Hcode. at_instr Hcode. destruct W as (-> & Hs & Hw). assert (K0 := K). destruct K0 as [K1 K2 K3 K4 K5 K6 K7 K8].
  assert (Hb : c_intena (x_st x) = b) by (destruct K5 as [|(b' & k0 & E')]; [lia|done|congruence]).
  cbn [exec set_code x_st]. unfold popcli. rewrite K4 by lia. rewrite (proj2 (Z.ltb_ge _ _)) by lia. cbn [good].
  apply (inv_local n m c x); auto; [|by eapply locks_same]. exists s, b, 0%nat. constructor; cbn; auto.
  - lia.
  - intros H. rewrite (proj2 (Z.eqb_neq _ _)) by lia. done.
  - intros H. rewrite (proj2 (Z.eqb_eq _ _)) by lia. rewrite Hb. by destruct b.
  - intros i Hi. specialize (K8 i Hi). rewrite Hcode in K8. by apply (fork_tail _ _ IPop).
Qed.

Lemma exec_take l : x_code x = ITake l :: k -> good n (exec c x (ITake l) k m).
Proof.
  intros Hcode. at_instr Hcode. destruct W as (-> & Hs & Hnl & Hw). cbn [exec]. destruct (m_lock m !! l) as [o|] eqn:Eo.
  { case_bool_decide as E; [|done]. subst o. apply (i_lock _ _ I) in Eo as (y & Hy & Hl). rewrite Hx in Hy. by injection Hy as <-. }
  cbn [good]. apply (inv_local n m c x); auto.
  - exists s, b, 0%nat. destruct K as [K1 K2 K3 K4 K5 K6 K7 K8]. constructor; cbn; auto.
    + rewrite K3, size_union by set_solver. rewrite size_singleton. lia.
    + intros Hn. left. destruct (K5 Hn) as [|(b' & k0 & E')]; [done|congruence].
    + intros i Hi. specialize (K8 i Hi). rewrite Hcode in K8. by apply (fork_tail _ _ (ITake l)).
  - intros l' c'. cbn. destruct (decide (l' = l)) as [->|Hne].
    + rewrite lookup_insert_eq. case_decide as E; [subst; set_solver|]. rewrite Eo. naive_solver.
    + rewrite lookup_insert_ne by done. rewrite (locks_same n m c x x I Hx eq_refl l' c'). case_decide; [set_solver|done].
Qed.

Lemma exec_drop l : x_code x = IDrop l :: k -> good n (exec c x (IDrop l) k m).
Proof.
  intros Hcode. at_instr Hcode. destruct W as (-> & Hs & Hnl & Hw). assert (Hl : m_lock m !! l = Some c) by (apply (i_lock _ _ I); eauto).
  cbn [exec]. rewrite bool_decide_true by done. cbn [good]. apply (inv_local n m c x); auto.
  - exists s, b, 1%nat. destruct K as [K1 K2 K3 K4 K5 K6 K7 K8]. constructor; cbn; auto.
    + rewrite K3, size_difference by set_solver. rewrite size_singleton.
      assert (size (x_held x) <> 0)%nat by (apply size_non_empty_iff; set_solver). lia.
    + intros Hn. left. destruct (K5 Hn) as [|(b' & k0 & E')]; [done|congruence].
    + intros i Hi. specialize (K8 i Hi). rewrite Hcode in K8. by apply (fork_tail _ _ (IDrop l)).
  - intros l' c'. cbn. destruct (decide (l' = l)) as [->|Hne].
    + rewrite lookup_delete_eq. case_decide as E; [set_solver|]. rewrite Hl. naive_solver.
    + rewrite lookup_delete_ne by done. rewrite (locks_same n m c x x I Hx eq_refl l' c'). case_decide; [set_solver|done].
Qed.

Lemma exec_back f z b' : x_code x = IBack f z b' :: k -> good n (exec c x (IBack f z b') k m).
Proof.
  intros Hcode. at_instr Hcode. destruct W as (-> & -> & -> & Hf1 & Hf2 & Hw). assert (K0 := K). destruct K0 as [K1 K2 K3 K4 K5 K6 K7 K8]. rewrite Nat.add_0_r in K3.
  assert (E : eqb (c_if (x_st x)) f && (c_ncli (x_st x) =? Z.of_nat (size (x_held x))) && ((Z.of_nat (size (x_held x)) =? 0) || eqb (c_intena (x_st x)) b') = true).
  { rewrite (proj2 (Z.eqb_eq _ _) K3), andb_true_r. destruct (decide (x_held x = ∅)) as [Ee|Ee].
    - rewrite Ee, size_empty in *. cbn. rewrite andb_true_r. apply eqb_true_iff. by rewrite K6, Hf1.
    - assert (size (x_held x) <> 0)%nat by (by apply size_non_empty_iff; rewrite leibniz_equiv_iff).
      destruct (Hf2 Ee) as [-> ->]. rewrite K4 by lia. destruct K5 as [->|(b1 & k0 & E')]; [lia| |congruence]. by rewrite !eqb_reflx, orb_true_r. }
  cbn [exec set_code x_st]. rewrite E. cbn [good]. apply (inv_local n m c x); auto; [|by eapply locks_same].
  eapply cpu_next; eauto; [congruence|]. intros i Hi. specialize (K8 i Hi). rewrite Hcode in K8. by apply (fork_tail _ _ (IBack f (Z.of_nat (size (x_held x))) b')).
Qed.

Lemma exec_sti : x_code x = ISti :: k -> good n (exec c x ISti k m).
Proof.
  intros Hcode. at_instr Hcode. destruct W as (-> & -> & HL & Hw). destruct K as [K1 K2 K3 K4 K5 K6 K7 K8]. rewrite HL, size_empty in K3. cbn in K3.
  cbn [exec good]. apply (inv_local n m c x); auto; [|by eapply locks_same]. exists Idle, true, 0%nat. constructor; cbn; auto; try lia.
  - by rewrite HL.
  - by rewrite HL, size_empty.
  - intros i Hi. specialize (K8 i Hi). rewrite Hcode in K8. by apply (fork_tail _ _ ISti).
Qed.

Lemma exec_iret b' : x_code x = IIret b' :: k -> good n (exec c x (IIret b') k m).
Proof.
  intros Hcode. at_instr Hcode. destruct W as (-> & Hs & HL & Hw). destruct K as [K1 K2 K3 K4 K5 K6 K7 K8]. assert (Hn := K3). rewrite HL, size_empty in Hn. cbn in Hn.
  cbn [exec good]. apply (inv_local n m c x); auto; [|by eapply locks_same]. exists s, b', 0%nat. constructor; cbn; auto; try lia.
  intros i Hi. specialize (K8 i Hi). rewrite Hcode in K8. by apply (fork_tail _ _ (IIret b')).
Qed.

Lemma exec_intena b' : x_code x = ISetIntena b' :: k -> good n (exec c x (ISetIntena b') k m).
Proof.
  intros Hcode. at_instr Hcode. destruct W as (-> & -> & -> & H0 & Hw). destruct K as [K1 K2 K3 K4 K5 K6 K7 K8].
  cbn [exec good]. apply (inv_local n m c x); auto; [|by eapply locks_same]. exists Run, b, 0%nat. constructor; cbn; auto.
  intros i Hi. specialize (K8 i Hi). by rewrite Hcode in K8.
Qed.

Lemma exec_sleep_check : x_code x = ISleepCheck :: k -> good n (exec c x ISleepCheck k m).
Proof.
  intros Hcode. at_instr Hcode. destruct W as (-> & Hs1 & Hw). assert (Hp : x_proc x = Some (me_of x)).
  { assert (Hs := k_st _ _ _ _ _ _ K). destruct Hs1 as [-> | ->]; cbn in Hs; unfold on_proc in Hs; tauto. }
  cbn [exec set_code x_proc]. rewrite Hp. cbn [good]. apply (inv_local n m c x); auto; [|by eapply locks_same].
  eapply cpu_next; eauto; [congruence|apply K|apply K|]. intros i Hi. assert (Hf := k_fork _ _ _ _ _ _ K i Hi). by rewrite Hcode in Hf.
Qed.

Lemma not_running t i : pst t i = Some RUNNABLE \/ gone (pst t i) -> pst t i <> Some RUNNING.
Proof. unfold gone. intros H E. rewrite E in H. naive_solver. Qed.

Lemma exec_setproc p : x_code x = ISetProc p :: k -> good n (exec c x (ISetProc p) k m).
Proof.
  intros Hcode. at_instr Hcode. assert (K0 := K). destruct K0 as [K1 K2 K3 K4 K5 K6 K7 K8].
  assert (Hb : 0 < c_ncli (x_st x) -> c_intena (x_st x) = b) by (intros Hn; destruct (K5 Hn) as [|(b' & k0 & E')]; [done|congruence]).
  assert (Hi : exists i, on_sched x (match p with Some _ => None | None => Some i end) None /\ pst (m_pt m) i <> Some RUNNING /\
    match p with Some j => i = j /\ pst (m_pt m) i = Some RUNNABLE | None => True end /\ d = 0%nat /\ x_held x = {[0%nat]} /\
    wt (pt_initproc (m_pt m)) (me_of x) (match p with Some _ => Pick i | None => Idle end) b 0 (x_held x) k).
  { destruct p as [i|]; cbn [wt] in W.
    - destruct W as (-> & -> & HL & Hw). exists i. destruct K7 as [Ho Hr]. split_and!; try done. apply not_running. auto.
    - destruct W as (-> & [i ->] & HL & Hw). exists i. destruct K7 as [Ho Hr]. split_and!; try done. apply not_running. auto. }
  destruct Hi as (i & (Ho & Hp & Hc) & Hr & Hj & -> & HL & Hw).
  cbn [exec good]. apply (inv_local n m c x); auto; [| |by eapply locks_same].
  - unfold abs_cpu. cbn. rewrite Hp. destruct p as [j|]; [destruct Hj as [-> _]|]; by rewrite decide_False.
  - exists (match p with Some _ => Pick i | None => Idle end), b, 0%nat. constructor; cbn; auto.
    + right. set_solver.
    + destruct p as [j|]; [destruct Hj as [-> Hj]|]; done.
    + intros i'. by rewrite Ho.
Qed.

Lemma head_intena t fk s b d i : cpu_as t fk x s b d -> x_code x = i :: k -> plain i -> 0 < c_ncli (x_st x) -> c_intena (x_st x) = b.
Proof. intros K Hcode Hi Hn. destruct (k_intena _ _ _ _ _ _ K Hn) as [|(b' & k0 & E)]; [done|]. rewrite Hcode in E. by injection E as -> ->. Qed.

Lemma exec_lcr3 p : x_code x = ILcr3 p :: k -> good n (exec c x (ILcr3 p) k m).
Proof.
  intros Hcode. at_instr Hcode. assert (K0 := K). destruct K0 as [K1 K2 K3 K4 K5 K6 K7 K8].
  assert (Hi : exists i s', x_on x = None /\ x_proc x = Some i /\ (p = Some i \/ p = None) /\
    (s' = Mapped i /\ p = Some i /\ pst (m_pt m) i = Some RUNNABLE \/ s' = Unmapped i /\ p = None /\ gone (pst (m_pt m) i)) /\ 0%nat ∈ x_held x /\
    wt (pt_initproc (m_pt m)) (me_of x) s' b d (x_held x) k).
  { destruct p as [i|]; cbn [wt] in W.
    - destruct W as (-> & -> & Hw). exists i, (Mapped i). destruct K7 as [(Ho & Hp & Hc) Hr]. destruct K2 as [[|]|]; naive_solver.
    - destruct W as (-> & i & -> & Hw). exists i, (Unmapped i). destruct K7 as [(Ho & Hp & Hc) Hr]. destruct K2 as [[|]|]; naive_solver. }
  destruct Hi as (i & s' & Ho & Hp & Hpi & Hs & H0 & Hw).
  cbn [exec good]. apply (inv_local n m c x); auto; [|by eapply locks_same]. exists s', b, d. constructor; cbn; auto.
  - intros Hn. left. by eapply head_intena.
  - destruct Hs as [(-> & -> & Hs)|(-> & -> & Hs)]; (split; [|done]); done.
  - intros i'. by rewrite Ho.
Qed.

Lemma wt_scheduler ini me b : wt ini me Idle b 0 ∅ scheduler.
Proof. cbn. split_and!; try done; [by left; right|by right]. Qed.
Lemma wt_run_proc ini me i b : wt ini me (Found i) b 0 {[0%nat]} (run_proc i).
Proof. cbn. split_and!; eauto. Qed.
Lemma wt_sched_rest ini me i b : wt ini me (Came i) b 0 {[0%nat]} (sched_rest i).
Proof. cbn. split; [done|]. exists i. split; [done|]. split_and!; eauto. Qed.

Lemma wt_forkret ini me b : wt ini me Run b 0 {[0%nat]} forkret.
Proof.
  apply wt_release; [by left|set_solver|]. replace ({[0%nat]} ∖ {[0%nat]}) with (∅ : gset nat) by set_solver.
  cbn. split_and!; done || by left.
Qed.

Lemma exec_scan i : x_code x = IScan i :: k -> good n (exec c x (IScan i) k m).
Proof.
  intros Hcode. at_instr Hcode. destruct W as (-> & -> & HL & ->). assert (Hs := k_st _ _ _ _ _ _ K). destruct Hs as (Ho & Hp & Hc).
  assert (Hgo : forall s' k', (s' = Idle \/ s' = Found i /\ pst (m_pt m) i = Some RUNNABLE) -> wt (pt_initproc (m_pt m)) (me_of x) s' b 0 {[0%nat]} k' ->
    inv n (set_cpu c (set_code k' x) m)).
  { intros s' k' Hs' Hw. apply (inv_local n m c x); auto; [|by eapply locks_same]. rewrite <- HL in Hw. eapply cpu_next; eauto.
    - congruence.
    - right. set_solver.
    - destruct Hs' as [-> |[-> Hr]]; [done|]. by split.
    - intros j. by rewrite Ho. }
  cbn [exec]. unfold scan. destruct (i <? NPROC)%nat; [case_bool_decide as E|]; cbn [good].
  - apply (Hgo (Found i)); [by right|]. apply wt_run_proc.
  - apply (Hgo Idle); [by left|]. done.
  - apply (Hgo Idle); [by left|]. apply wt_release; [by right|set_solver|].
    replace ({[0%nat]} ∖ {[0%nat]}) with (∅ : gset nat) by set_solver. apply wt_scheduler.
Qed.

Lemma exec_exit_check : x_code x = IExitCheck :: k -> good n (exec c x IExitCheck k m).
Proof.
  intros Hcode. at_instr Hcode. destruct W as (-> & -> & Hne & Hw). assert (Hs := k_st _ _ _ _ _ _ K). destruct Hs as [(Ho & Hp & Hc) Hr].
  cbn [exec set_code x_proc]. rewrite Hp, bool_decide_false by done. cbn [good]. apply (inv_local n m c x); auto; [|by eapply locks_same].
  eapply cpu_next; eauto; [congruence|by left; left|by split|]. intros i Hi. assert (Hf := k_fork _ _ _ _ _ _ K i Hi). by rewrite Hcode in Hf.
Qed.

(** ** The two sides of swtch *)

Lemma exec_sched : x_code x = ISched :: k -> good n (exec c x ISched k m).
Proof.
  intros Hcode. at_instr Hcode. destruct W as (-> & HL & Hs). assert (H0 : 0%nat ∈ x_held x) by set_solver.
  assert (K0 := K). destruct K0 as [K1 K2 K3 K4 K5 K6 K7 K8]. rewrite HL, size_singleton in K3. change (Z.of_nat (1 + 0)) with 1 in K3.
  assert (Hb := head_intena _ _ _ _ _ _ K Hcode Logic.I ltac:(lia)).
  set (me := me_of x) in *.
  assert (Hme : on_proc x me /\ gone (pst (m_pt m) me)) by (unfold gone; destruct Hs as [-> |[_ [-> |(ch & k' & -> & _)]]]; cbn in K7; tauto).
  destruct Hme as [(Ho & Hp & Hc & Hsc) Hg].
  assert (Hlock : m_lock m !! 0%nat = Some c) by (apply (i_lock _ _ I); eauto).
  cbn [exec set_code x_proc]. rewrite Hp. unfold sched, swtch_out. cbn [x_st x_held x_proc x_cr3 x_sched set_code].
  assert (Hpst : pstate m me <> Some RUNNING) by (apply (not_running (m_pt m)); auto).
  rewrite bool_decide_true, bool_decide_false by done. rewrite K3, K4 by lia. cbn [negb Z.eqb good]. change (1 =? 1) with true. cbn [negb].
  rewrite Hsc. assert (Hlt := lookup_lt_Some _ _ _ Hx).
  set (x' := MkC (x_st x) (x_held x) (Some me) (x_cr3 x) None (sched_rest me) []).
  constructor; cbn.
  - apply inv_cpus; [|intros c' y _; apply I]. exists (Came me), (c_intena (x_st x)), 0%nat.
    constructor; [cbn [x' x_held x_code]; rewrite HL; apply wt_sched_rest|..]; cbn; auto; try lia.
    + rewrite HL, size_singleton. done.
    + split; [|done]. done.
    + done.
  - eapply inv_locks; eauto. by eapply locks_same.
  - intros i p Hi Hal Hoff. destruct (decide (i = me)) as [->|Hne].
    + exists (ISetIntena (c_intena (x_st x)) :: k). rewrite lookup_insert_eq. split; [done|].
      split; [specialize (K8 me Ho); by rewrite Hcode in K8|]. left. exists b, k. rewrite Hb. split; [done|].
      assert (Hp' : pst (m_pt m) me = Some (p_state p)) by (unfold pst; by rewrite Hi).
      destruct Hs as [-> |[Hw Hs]]; [cbn in K7; destruct K7 as [_ K7]; rewrite K7 in Hp'; injection Hp' as E; rewrite <- E in Hal; by destruct Hal as [|[|]]|].
      rewrite HL in Hw. split; [done|]. intros E. destruct Hs as [-> |(ch & k' & -> & ->)]; cbn in K7; [destruct K7; congruence|].
      exists ch, k'. split; [done|apply K7].
    + eapply ctx_stay; [apply (i_ctx _ _ I i p); auto|done| |done|done].
      * intros c' y Hy. destruct (decide (c' = c)) as [->|Hc']; [rewrite Hx in Hy; injection Hy as <-; congruence|].
        apply (Hoff c'). by rewrite list_lookup_insert_ne.
      * by rewrite lookup_insert_ne.
  - destruct (i_abs _ _ I) as (a & Hr & R). exists a. split; [done|]. destruct R as [R1 R2 R3]. constructor; cbn; [done| |done].
    rewrite list_fmap_insert, list_insert_id; [done|]. rewrite list_lookup_fmap, Hx. unfold abs_cpu. cbn. by rewrite ?Hp.
Qed.

Lemma exec_swtch i : x_code x = ISwtchTo i :: k -> good n (exec c x (ISwtchTo i) k m).
Proof.
  intros Hcode. at_instr Hcode. destruct W as (-> & -> & HL & ->). assert (K0 := K). destruct K0 as [K1 K2 K3 K4 K5 K6 K7 K8].
  destruct K7 as [(Ho & Hp & Hc) Hr]. apply pst_lookup in Hr as (p & Hi & Hst). rewrite HL, size_singleton in K3.
  assert (Hoff : off_cpu (m_cpus m) i).
  { intros c' y Hy Hon. destruct (i_cpu _ _ I c' y Hy) as (s' & b' & d' & K').
    assert (Hpy : x_proc y = Some i).
    { assert (Hs := k_st _ _ _ _ _ _ K'). unfold me_of in Hs. rewrite Hon in Hs. destruct s'; cbn in Hs; unfold on_proc, on_sched in Hs; destruct_and?; congruence. }
    assert (c = c') as <- by (by eapply proc_excl). congruence. }
  destruct (i_ctx _ _ I i p Hi) as (ctx & Hctx & Hf & Hk); [right; right; done|done|].
  cbn [exec]. unfold swtch_in. cbn [set_code x_st x_held x_proc x_cr3]. rewrite Hctx. cbn [good]. assert (Hlt := lookup_lt_Some _ _ _ Hx). constructor; cbn.
  - apply inv_cpus; [|intros c' y _; apply I].
    assert (Hb : exists b', wt (pt_initproc (m_pt m)) i Run b' 0 {[0%nat]} ctx /\ (c_intena (x_st x) = b' \/ exists b1 k1, ctx = ISetIntena b1 :: k1)).
    { destruct Hk as [(b' & k' & -> & Hw & _)|[-> _]].
      - exists b'. split; [|by eauto]. cbn. split_and!; done || set_solver.
      - exists (c_intena (x_st x)). split; [|by left]. apply wt_forkret. }
    destruct Hb as (b' & Hw & Hb). exists Run, b', 0%nat. constructor; [cbn [x_held x_code]; by rewrite HL|..]; cbn; auto.
    + by left; left.
    + rewrite HL, size_singleton. done.
    + lia.
    + split; [|by apply pst_lookup; eauto]. split_and!; done.
    + intros i' [= <-]. done.
  - eapply inv_locks; eauto. by eapply locks_same.
  - intros j q Hj Hal Hoffj. apply (i_ctx _ _ I j q); [done..|]. intros c' y Hy. destruct (decide (c' = c)) as [->|Hne].
    + rewrite Hx in Hy. injection Hy as <-. by rewrite Ho.
    + apply (Hoffj c'). by rewrite list_lookup_insert_ne.
  - destruct (i_abs _ _ I) as (a & Ha & R). exists a. split; [done|]. destruct R as [R1 R2 R3]. constructor; cbn; [done| |done].
    rewrite list_fmap_insert, list_insert_id; [done|]. rewrite list_lookup_fmap, Hx. unfold abs_cpu. cbn. done.
Qed.

(** ** Changes of the table *)

Lemma abs_at a me : rel m a -> x_proc x = Some me -> pst (m_pt m) me = Some RUNNING -> sy_cpus a !! c = Some (Some me).
Proof. intros R Hp Hr. rewrite (r_cpus _ _ R), list_lookup_fmap, Hx. cbn. unfold abs_cpu. by rewrite Hp, decide_True. Qed.

Lemma table_step s b s' i k' t' a a' :
  cpu_as (m_pt m) (m_fk m) x s b 0 -> x_code x = i :: k -> plain i -> 0%nat ∈ x_held x ->
  rtc sstep (boot n) a -> rel m a -> keeps (x_proc x) (x_on x) (m_pt m) t' ->
  wt (pt_initproc (m_pt m)) (me_of x) s' b 0 (x_held x) k' -> st_ok t' x (me_of x) s' -> (forall i, x_on x = Some i -> fork_ok (m_fk m) i k') ->
  rtc sstep a a' -> teq t' (sy_pt a') -> sy_cpus a' = <[c := abs_cpu t' x]> (sy_cpus a) -> sy_fork a' = sy_fork a ->
  inv n (set_cpu c (set_code k' x) (set_pt t' m)).
Proof.
  intros K Hcode Hpl H0 Ha R Hkp Hw Hs Hf Haa Ht Hc Hfk. apply (inv_locked n m c x (set_code k' x) t' a a'); auto.
  - eapply cpu_next; eauto; [|apply Hkp]. intros b' k0 E. rewrite Hcode in E. by injection E as -> ->.
  - by rewrite Hc, (r_cpus _ _ R).
  - by rewrite Hfk, (r_fork _ _ R).
Qed.

Lemma teq_set_chan t t' me o : teq t t' -> pst t me <> Some SLEEPING -> teq (upd_proc me (Ptable.set_chan o) t) t'.
Proof.
  intros (H1 & H2 & H3) Hs. split_and!; [done..|]. cbn. apply Forall2_same_length_lookup_2; [rewrite length_alter; by eapply Forall2_length|].
  intros j q q'. rewrite list_lookup_alter. intros Hq Hq'. case_decide as E; simplify_eq.
  - apply fmap_Some in Hq as (p & Hp & ->). assert (Hpe : peq p q') by (by eapply Forall2_lookup_lr). destruct Hpe as [E _]. split.
    + rewrite E at 1. by destruct p.
    + cbn. intros Hsl. destruct Hs. unfold pst. by rewrite Hp, <- Hsl.
  - by eapply Forall2_lookup_lr.
Qed.

Lemma pst_upd t i g j : pst (upd_proc i g t) j = if decide (j = i) then (fun p => p_state (g p)) <$> pt_proc t !! j else pst t j.
Proof. unfold pst. rewrite lookup_upd. case_decide; [|done]. by destruct (pt_proc t !! j). Qed.

Lemma wait_scan_upd me i l hk j g : (forall p, l !! j = Some p -> p_parent (g p) = p_parent p /\ is_state ZOMBIE (g p) = is_state ZOMBIE p) ->
  wait_scan me i (alter g j l) hk = wait_scan me i l hk.
Proof.
  revert i hk j. induction l as [|p l IH]; intros i hk [|j] Hg; [done..| |].
  - cbn. by destruct (Hg p eq_refl) as [-> ->].
  - cbn. rewrite !(IH _ _ j) by done. done.
Qed.

Lemma fork_next t fk s b d i : cpu_as t fk x s b d -> x_code x = i :: k -> plain i -> forall j, x_on x = Some j -> fork_ok fk j k.
Proof. intros K Hcode Hi j Hj. assert (Hf := k_fork _ _ _ _ _ _ K j Hj). rewrite Hcode in Hf. by eapply fork_tail. Qed.

Lemma reap_chan t me o : nothing_to_reap t me -> nothing_to_reap (upd_proc me (Ptable.set_chan o) t) me.
Proof. unfold nothing_to_reap. cbn. intros <-. by apply wait_scan_upd. Qed.

Lemma exec_setchan ch : x_code x = ISetChan ch :: k -> good n (exec c x (ISetChan ch) k m).
Proof.
  intros Hcode. at_instr Hcode. destruct W as (-> & Hs & H0 & Hf & Hw). assert (K7 := k_st _ _ _ _ _ _ K).
  set (me := me_of x) in *. set (t' := upd_proc me (Ptable.set_chan (Some ch)) (m_pt m)).
  assert (Hme : on_proc x me /\ pst (m_pt m) me = Some RUNNING) by (destruct Hs as [[-> _]|[-> _]]; cbn in K7; tauto).
  destruct Hme as [Hon Hr]. assert (Hp := proj1 (proj2 Hon)). destruct (i_abs _ _ I) as (a & Ha & R).
  assert (Hr' : pst t' me = Some RUNNING).
  { unfold t'. rewrite pst_upd, decide_True by done. apply pst_lookup in Hr as (p & -> & E). cbn. by rewrite E. }
  cbn [exec set_code x_proc]. rewrite Hp. cbn [good]. apply (table_step _ b (RunCh ch) _ _ t' a a K Hcode Logic.I H0 Ha R); auto.
  - destruct Hon as (-> & -> & _). apply keeps_me.
  - cbn [st_ok]. fold me. split_and!; [done..| |].
    + unfold pchan, t'. rewrite lookup_upd, decide_True by done. apply pst_lookup in Hr as (p & -> & E). done.
    + intros q Hq. destruct Hs as [[_ Hn]|[-> Hq']]; [by destruct (Hn q)|]. split; [congruence|]. apply reap_chan. apply K7.
  - by eapply fork_next.
  - apply rtc_refl.
  - apply teq_set_chan; [apply R|]. by rewrite Hr.
  - rewrite list_insert_id; [done|]. rewrite (abs_at a me R Hp Hr). unfold abs_cpu. by rewrite Hp, decide_True.
Qed.

Lemma exec_tidy ch : x_code x = ITidy ch :: k -> good n (exec c x (ITidy ch) k m).
Proof.
  intros Hcode. at_instr Hcode. destruct W as (-> & -> & H0 & Hw). assert (K7 := k_st _ _ _ _ _ _ K).
  set (me := me_of x) in *. set (t' := upd_proc me (Ptable.set_chan None) (m_pt m)).
  destruct K7 as [Hon Hr]. assert (Hp := proj1 (proj2 Hon)). destruct (i_abs _ _ I) as (a & Ha & R).
  assert (Hr' : pst t' me = Some RUNNING).
  { unfold t'. rewrite pst_upd, decide_True by done. apply pst_lookup in Hr as (p & -> & E). cbn. by rewrite E. }
  cbn [exec set_code x_proc]. rewrite Hp. cbn [good]. apply (table_step _ b Run _ _ t' a a K Hcode Logic.I H0 Ha R); auto.
  - destruct Hon as (-> & -> & _). apply keeps_me.
  - by split.
  - by eapply fork_next.
  - apply rtc_refl.
  - apply teq_set_chan; [apply R|]. by rewrite Hr.
  - rewrite list_insert_id; [done|]. rewrite (abs_at a me R Hp Hr). unfold abs_cpu. by rewrite Hp, decide_True.
Qed.

(** A process gives up the processor: [g] in the table, a step of Sched.v. *)
Lemma leave_step s b s' i k' t' a a' me :
  cpu_as (m_pt m) (m_fk m) x s b 0 -> x_code x = i :: k -> plain i -> 0%nat ∈ x_held x -> me = me_of x -> on_proc x me ->
  rtc sstep (boot n) a -> rel m a -> keeps (Some me) (Some me) (m_pt m) t' -> pst t' me <> Some RUNNING ->
  wt (pt_initproc (m_pt m)) me s' b 0 (x_held x) k' -> st_ok t' x me s' -> fork_ok (m_fk m) me k' ->
  sstep a a' -> teq t' (sy_pt a') -> sy_cpus a' = <[c := None]> (sy_cpus a) -> sy_fork a' = sy_fork a ->
  inv n (set_cpu c (set_code k' x) (set_pt t' m)).
Proof.
  intros K Hcode Hpl H0 -> Hon Ha R Hkp Hnr Hw Hs Hf Haa Ht Hc Hfk. assert (Ho := proj1 Hon). assert (Hp := proj1 (proj2 Hon)).
  apply (table_step s b s' i k' t' a a' K Hcode Hpl H0 Ha R); auto.
  - by rewrite Ho, Hp.
  - rewrite Ho. by intros j [= <-].
  - by apply rtc_once.
  - unfold abs_cpu. by rewrite Hp, decide_False.
Qed.

Lemma fork_none fk me k0 : fork_ok fk me k0 -> fork_phase k0 = None -> fk !! me = None.
Proof. intros [H _] E. destruct (fk !! me) eqn:Ef; [|done]. destruct H; [by eexists|done]. Qed.

Lemma exec_setstate st : x_code x = ISetState st :: k -> good n (exec c x (ISetState st) k m).
Proof.
  intros Hcode. at_instr Hcode. assert (K7 := k_st _ _ _ _ _ _ K). destruct (i_abs _ _ I) as (a & Ha & R).
  set (me := me_of x) in *. set (t' := upd_proc me (set_state st) (m_pt m)).
  assert (Hpst : on_proc x me -> pst (m_pt m) me = Some RUNNING -> pst t' me = Some st).
  { intros _ Hr. unfold t'. rewrite pst_upd, decide_True by done. by apply pst_lookup in Hr as (p & -> & E). }
  destruct a as [ta ca fa]. destruct st; try done.
  - destruct W as (-> & H0 & Hf & ch & -> & Hw). destruct K7 as (Hon & Hr & Hch & Hwait). specialize (Hpst Hon Hr).
    assert (Hp := proj1 (proj2 Hon)). assert (Hat := abs_at _ me R Hp Hr). cbn in Hat.
    assert (Hfk := fork_next _ _ _ _ _ _ K Hcode Logic.I me (proj1 Hon)). assert (Hno := fork_none _ _ _ Hfk Hf).
    cbn [exec set_code x_proc]. rewrite Hp. cbn [good].
    apply (leave_step _ b (LeftS ch) _ _ t' _ (MkSys (sleep_section me ch ta) (<[c := None]> ca) fa) me K Hcode Logic.I H0 eq_refl Hon Ha R); auto.
    + apply keeps_me.
    + congruence.
    + split_and!; [done..|]. unfold pchan in *. unfold t'. rewrite lookup_upd, decide_True by done. by destruct (pt_proc (m_pt m) !! me).
    + assert (Hfa : fa !! me = None) by (rewrite (r_fork _ _ R : fa = _); done).
      assert (Hd : (exists q, ch = ChProc q) \/ (forall q, ch <> ChProc q)) by (destruct ch; eauto; by right). destruct Hd as [[q ->]|Hn].
      * destruct (Hwait q eq_refl) as [-> Hnr]. apply SWaitSleep; [done|done|]. rewrite <- Hnr. apply wait_scan_peq, R.
      * by apply SSleep.
    + cbn. destruct (r_pt _ _ R) as (E1 & E2 & E3). split_and!; [done..|]. cbn.
      apply Forall2_alter; [done|]. intros p p' Hpp Hpp' Hpe. destruct Hpe as [E _]. split; [rewrite E at 1; by destruct p|].
      intros _. unfold pchan in Hch. rewrite Hpp in Hch. done.
  - destruct W as (-> & -> & H0 & Hw). destruct K7 as (Hon & Hr). specialize (Hpst Hon Hr).
    assert (Hp := proj1 (proj2 Hon)). assert (Hat := abs_at _ me R Hp Hr). cbn in Hat.
    cbn [exec set_code x_proc]. rewrite Hp. cbn [good].
    apply (leave_step _ b LeftR _ _ t' _ (MkSys (yield_section me ta) (<[c := None]> ca) fa) me K Hcode Logic.I H0 eq_refl Hon Ha R); auto.
    + apply keeps_me.
    + congruence.
    + by split.
    + by apply (fork_next _ _ _ _ _ _ K Hcode Logic.I me), Hon.
    + by apply SYield.
    + apply teq_upd; [apply R|]. peqs.
Qed.

Lemma keeps_any pr on t t' : keeps None None t t' -> keeps pr on t t'.
Proof. intros [K1 K2 K3]. constructor; auto. Qed.

(** A section that leaves the processor with its process. *)
Lemma calm_step s b i k' t' a a' :
  cpu_as (m_pt m) (m_fk m) x s b 0 -> x_code x = i :: k -> plain i -> calm s -> 0%nat ∈ x_held x ->
  rtc sstep (boot n) a -> rel m a -> keeps None None (m_pt m) t' ->
  wt (pt_initproc (m_pt m)) (me_of x) s b 0 (x_held x) k' -> (forall i, x_on x = Some i -> fork_ok (m_fk m) i k') ->
  sstep a a' -> teq t' (sy_pt a') -> sy_cpus a' = sy_cpus a -> sy_fork a' = sy_fork a ->
  inv n (set_cpu c (set_code k' x) (set_pt t' m)).
Proof.
  intros K Hcode Hpl Hc H0 Ha R Hkp Hw Hf Haa Ht Hcp Hfk.
  assert (Hst : st_ok t' x (me_of x) s /\ abs_cpu t' x = abs_cpu (m_pt m) x).
  { assert (K7 := k_st _ _ _ _ _ _ K). unfold abs_cpu. destruct Hc as [-> | ->]; cbn in *.
    - destruct K7 as [Hon Hr]. assert (Hr' : pst t' (me_of x) = Some RUNNING) by (by apply Hkp). split; [done|].
      assert (Hp := proj1 (proj2 Hon)). by rewrite Hp, !decide_True.
    - destruct K7 as (Ho & Hp & Hc). by rewrite Hp. }
  destruct Hst as [Hst Habs]. apply (table_step s b s i k' t' a a' K Hcode Hpl H0 Ha R); auto.
  - by apply keeps_any.
  - by apply rtc_once.
  - rewrite Hcp, Habs, list_insert_id; [done|]. by rewrite (r_cpus _ _ R), list_lookup_fmap, Hx.
Qed.

Lemma exec_wake ch : x_code x = IWake ch :: k -> good n (exec c x (IWake ch) k m).
Proof.
  intros Hcode. at_instr Hcode. destruct W as (-> & Hs & H0 & Hw). destruct (i_abs _ _ I) as ([ta ca fa] & Ha & R). cbn [exec good].
  apply (calm_step s b _ k _ _ (MkSys (wakeup1 ch ta) ca fa) K Hcode Logic.I Hs H0 Ha R); auto.
  - apply keeps_wake.
  - by eapply fork_next.
  - apply SWakeup.
  - apply teq_wakeup, R.
Qed.

Lemma exec_kill pid : x_code x = IKill pid :: k -> good n (exec c x (IKill pid) k m).
Proof.
  intros Hcode. at_instr Hcode. destruct W as (-> & Hs & H0 & Hw). destruct (i_abs _ _ I) as ([ta ca fa] & Ha & R). cbn [exec good].
  apply (calm_step s b _ k _ _ (MkSys (kill_section pid ta).2 ca fa) K Hcode Logic.I Hs H0 Ha R); auto.
  - apply keeps_kill.
  - by eapply fork_next.
  - apply SKill.
  - apply teq_kill, R.
Qed.

Lemma exec_exit : x_code x = IExit :: k -> good n (exec c x IExit k m).
Proof.
  intros Hcode. at_instr Hcode. destruct W as (-> & -> & H0 & Hne & Hf & Hw). destruct (i_abs _ _ I) as ([ta ca fa] & Ha & R).
  assert (K7 := k_st _ _ _ _ _ _ K). set (me := me_of x) in *. destruct K7 as [Hon Hr]. assert (Hp := proj1 (proj2 Hon)).
  assert (Hfk := fork_next _ _ _ _ _ _ K Hcode Logic.I me (proj1 Hon)). assert (Hno := fork_none _ _ _ Hfk Hf).
  assert (Hz : pst (exit_section me (m_pt m)) me = Some ZOMBIE).
  { unfold exit_section. rewrite pst_upd, decide_True by done. match goal with |- _ <$> pt_proc ?u !! _ = _ => assert (Hu : pst u me = Some RUNNING) end.
    { apply (kp_run None None _ _ (keeps_reparent None None _ _ _ _)); [done|].
      destruct (_ ≫= _); [by apply (kp_run None None _ _ (keeps_wake None None _ _))|done]. }
    apply pst_lookup in Hu as (p & -> & _). done. }
  cbn [exec set_code x_proc]. rewrite Hp. cbn [good].
  apply (leave_step _ b LeftZ _ _ _ _ (MkSys (exit_section me ta) (<[c := None]> ca) fa) me K Hcode Logic.I H0 eq_refl Hon Ha R); auto.
  - apply keeps_exit.
  - congruence.
  - by split.
  - apply SExit; [by apply (abs_at _ me R)|by rewrite (r_fork _ _ R : fa = _)|]. destruct (r_pt _ _ R) as (_ & E & _). cbn in E. congruence.
  - apply teq_exit, R.
Qed.

Lemma exec_running i : x_code x = IRunning i :: k -> good n (exec c x (IRunning i) k m).
Proof.
  intros Hcode. at_instr Hcode. destruct W as (-> & -> & Hw). destruct (i_abs _ _ I) as ([ta ca fa] & Ha & R).
  assert (K7 := k_st _ _ _ _ _ _ K). destruct K7 as [(Ho & Hp & Hc) Hr]. assert (H0 : 0%nat ∈ x_held x) by (by destruct (k_lock _ _ _ _ _ _ K) as [[|]|]).
  destruct (proj1 (pst_lookup _ _ _) Hr) as (p & Hi & Hst). destruct (teq_lookup _ _ _ _ (r_pt _ _ R) Hi) as (p' & Hi' & Hpe).
  assert (Hr' : pst (upd_proc i (set_state RUNNING) (m_pt m)) i = Some RUNNING) by (by rewrite pst_upd, decide_True, Hi by done).
  cbn [exec good]. apply (table_step _ b (Go i) _ k _ _ (MkSys (dispatch i ta) (<[c := Some i]> ca) fa) K Hcode Logic.I H0 Ha R); auto.
  - rewrite Hp, Ho. apply keeps_upd. intros q Hq. rewrite Hi in Hq. injection Hq as <-. split; [by left|]. right. unfold keeps_entry, alive. cbn. rewrite Hst. split; [auto|done].
  - cbn [st_ok]. by split.
  - intros j. by rewrite Ho.
  - apply rtc_once, (SDispatch _ _ _ c i p'); [|done|by destruct (peq_fields _ _ Hpe) as (-> & _)].
    rewrite (r_cpus _ _ R : ca = _), list_lookup_fmap, Hx. cbn. unfold abs_cpu. by rewrite Hp, decide_False by congruence.
  - apply teq_upd; [apply R|]. intros q q' [E _]. split; [rewrite E at 1; by destruct q|done].
  - cbn. unfold abs_cpu. by rewrite Hp, decide_True.
Qed.

Lemma exec_wait_scan : x_code x = IWaitScan :: k -> good n (exec c x IWaitScan k m).
Proof.
  intros Hcode. at_instr Hcode. destruct W as (-> & -> & HL & Hf & Hw). destruct (i_abs _ _ I) as ([ta ca fa] & Ha & R).
  assert (K7 := k_st _ _ _ _ _ _ K). set (me := me_of x) in *. assert (Hrun := K7). destruct Hrun as [Hon Hr]. assert (Hp := proj1 (proj2 Hon)).
  assert (H0 : 0%nat ∈ x_held x) by set_solver.
  assert (Hfk := fork_next _ _ _ _ _ _ K Hcode Logic.I). assert (Hno := fork_none _ _ _ (Hfk me (proj1 Hon)) Hf).
  assert (Hw' : wt (pt_initproc (m_pt m)) me Run b 0 (x_held x) (release 0 ++ k)).
  { rewrite HL. apply wt_release; [by left|set_solver|]. by replace ({[0%nat]} ∖ {[0%nat]}) with (∅ : gset nat) by set_solver. }
  cbn [exec set_code x_proc]. rewrite Hp. unfold wait_turn. assert (Hsp := wait_scan_spec me 0 (pt_proc (m_pt m)) false).
  destruct (wait_scan me 0 (pt_proc (m_pt m)) false) as [hk [j|]] eqn:E.
  - cbn [good]. destruct Hsp as (p & Hj & _ & Hz & _). rewrite Nat.sub_0_r in Hj.
    apply (calm_step Run b _ (release 0 ++ k) _ _ (MkSys (upd_proc j reap ta) ca fa) K Hcode Logic.I (or_introl eq_refl) H0 Ha R); auto.
    + apply keeps_upd. intros q Hq. rewrite Hj in Hq. injection Hq as <-. unfold keeps_entry, alive. cbn. rewrite Hz. split; right; [done|]. split; [|done]. by intros [|[|]].
    + apply (SWaitReap _ _ _ c me hk); [by apply (abs_at _ me R)|by rewrite (r_fork _ _ R : fa = _)|]. rewrite <- E. apply wait_scan_peq, R.
    + apply teq_upd; [apply R|]. intros q q' [E' _]. split; [rewrite E' at 1; by destruct q|done].
  - destruct (negb hk || _) eqn:Ek; cbn [good]; (apply (inv_local n m c x); auto; [|by eapply locks_same]).
    + apply (cpu_next (m_pt m) _ _ (m_fk m) x Run b (release 0 ++ k) Run K); auto. congruence.
    + apply orb_false_iff in Ek as [Ek _]. apply negb_false_iff in Ek as ->. apply (cpu_next (m_pt m) _ _ (m_fk m) x Run b (sleep (ChProc me) 0 ++ IWaitScan :: k) RunW K); auto; [congruence| |by split_and!].
      apply wt_sleep; [right; done|done|]. by split_and!.
Qed.

(** ** fork *)

Lemma embryo a me np : rtc sstep (boot n) a -> rel m a -> m_fk m !! me = Some np ->
  exists p, pt_proc (m_pt m) !! np = Some p /\ p_state p = EMBRYO /\ m_fk m !! np = None.
Proof.
  intros Ha R Hfk. assert (W := abs_wf _ _ _ Ha R). destruct (w_fork _ _ _ W me np Hfk) as [_ (p' & Hp' & Hs)].
  destruct (teq_lookup_r _ _ _ _ (r_pt _ _ R) Hp') as (p & Hp & Hpe). exists p. destruct (peq_fields _ _ Hpe) as (E & _).
  split_and!; [done|congruence|]. destruct (m_fk m !! np) as [np'|] eqn:E'; [|done].
  destruct (w_fork _ _ _ W np np' E') as [(q & Hq & Hal) _]. rewrite Hp' in Hq. injection Hq as <-. rewrite Hs in Hal. by destruct Hal as [|[|]].
Qed.

Lemma exec_alloc : x_code x = IAlloc :: k -> good n (exec c x IAlloc k m).
Proof.
  intros Hcode. at_instr Hcode. destruct W as (-> & -> & H0 & Hf & Hw). destruct (i_abs _ _ I) as ([ta ca fa] & Ha & R).
  assert (K7 := k_st _ _ _ _ _ _ K). set (me := me_of x) in *. assert (Hrun := K7). destruct Hrun as [Hon Hr].
  assert (Ho := proj1 Hon). assert (Hp := proj1 (proj2 Hon)).
  assert (Hno : m_fk m !! me = None) by (apply (fork_none _ _ (x_code x)); [by apply K|by rewrite Hcode]).
  cbn [exec set_code x_proc]. rewrite Hp. unfold fork_alloc. destruct (Z.leb_spec 2147483647 (pt_nextpid (m_pt m))) as [|Hmax]; [done|].
  assert (Hall := teq_alloc _ _ (r_pt _ _ R)). cbn in Hall.
  destruct (alloc_slot (m_pt m)) as [[np t']|] eqn:E; cbn [good].
  - destruct (alloc_slot ta) as [[np' ta']|] eqn:Ea; [|done]. destruct Hall as [-> Ht]. assert (Hkp := keeps_alloc None None _ _ _ E).
    assert (Hr' : pst t' me = Some RUNNING) by (by apply Hkp).
    apply (inv_table n m c x (set_code k x) t' (m_ctx m) (<[me := np]> (m_fk m)) (MkSys ta ca fa) (MkSys ta' ca (<[me := np]> fa)) I Hx); auto.
    + apply (others_locked n m c x); auto; [apply Hkp|intros j _; by apply Hkp|]. intros j Hj. rewrite lookup_insert_ne by congruence. done.
    + eapply (cpu_next _ t' _ (<[me := np]> (m_fk m)) x Run b k Run K); auto; [congruence|apply Hkp|by split|].
      intros i Hi. assert (i = me) as -> by congruence. split; [by rewrite Hf|by rewrite Hf].
    + intros i p' Hi Hal Hoff. assert (Hne : i <> me) by (intros ->; by apply (Hoff c x)).
      destruct (kp_entry _ _ _ _ Hkp i p' ltac:(done) Hi) as (p & Hpi & Ka & Ks).
      eapply ctx_stay; [apply (i_ctx _ _ I i p); auto|apply Hkp|done|by rewrite lookup_insert_ne|].
      unfold pst, pchan. rewrite Hpi, Hi. cbn. intros [= Es]. destruct (Ks Es) as [-> ->]. done.
    + apply rtc_once, (SForkAlloc _ _ _ c me np ta'); [by apply (abs_at _ me R)|by rewrite (r_fork _ _ R : fa = _)| |done].
      destruct (r_pt _ _ R) as (E1 & _). cbn in E1. lia.
    + cbn. rewrite list_insert_id; [apply R|]. rewrite list_lookup_fmap, Hx. cbn. unfold abs_cpu. cbn. by rewrite Hp, !decide_True.
    + cbn. by rewrite (r_fork _ _ R : fa = _).
  - apply (inv_local n m c x); auto; [|by eapply locks_same]. eapply cpu_next; eauto; [congruence|].
    intros i Hi. assert (i = me) as -> by congruence. unfold fork_ok. rewrite Hno, Hf. split; [by intros [? ?]|done].
Qed.

Lemma exec_fork_done : x_code x = IForkDone :: k -> good n (exec c x IForkDone k m).
Proof.
  intros Hcode. at_instr Hcode. destruct W as (-> & -> & H0 & Hf & Hw). destruct (i_abs _ _ I) as ([ta ca fa] & Ha & R).
  assert (K7 := k_st _ _ _ _ _ _ K). set (me := me_of x) in *. assert (Hrun := K7). destruct Hrun as [Hon Hr].
  assert (Ho := proj1 Hon). assert (Hp := proj1 (proj2 Hon)).
  destruct (k_fork _ _ _ _ _ _ K me Ho) as [_ Hnp]. rewrite Hcode in Hnp. destruct (Hnp eq_refl) as [np Hfk].
  destruct (embryo _ me np Ha R Hfk) as (p0 & Hp0 & Hem & Hnp0).
  assert (Hne : me <> np) by (intros ->; unfold pst in Hr; rewrite Hp0 in Hr; cbn in Hr; congruence).
  set (g := fun p => set_state RUNNABLE (set_parent (Some me) p)). set (t' := upd_proc np g (m_pt m)).
  assert (Hrun' : forall j, pst (m_pt m) j = Some RUNNING -> pst t' j = Some RUNNING).
  { intros j Hj. unfold t'. rewrite pst_upd. case_decide as E; [|done]. subst j. unfold pst in Hj. rewrite Hp0 in Hj. cbn in Hj. congruence. }
  cbn [exec set_code x_proc]. rewrite Hp. unfold fork_done. rewrite Hfk. cbn [good].
  apply (inv_table n m c x (set_code k x) t' (<[np := forkret]> (m_ctx m)) (delete me (m_fk m)) (MkSys ta ca fa) (MkSys (upd_proc np g ta) ca (delete me fa)) I Hx); auto.
  - apply (others_locked n m c x); auto. intros j Hj. rewrite lookup_delete_ne by congruence. done.
  - eapply (cpu_next _ t' _ (delete me (m_fk m)) x Run b k Run K); auto; [congruence|split; auto|].
    intros i Hi. assert (i = me) as -> by congruence. unfold fork_ok. rewrite lookup_delete_eq, Hf. split; [by intros [? ?]|done].
  - intros i p' Hi Hal Hoff. assert (Hmi : i <> me) by (intros ->; by apply (Hoff c x)). destruct (decide (i = np)) as [->|Hni].
    + exists forkret. rewrite lookup_insert_eq. split; [done|]. split; [|right; split; [done|]].
      * unfold fork_ok. rewrite lookup_delete_ne, Hnp0 by done. split; [by intros [? ?]|done].
      * unfold t'. by rewrite pst_upd, decide_True, Hp0 by done.
    + assert (Hi' : pt_proc (m_pt m) !! i = Some p') by (unfold t' in Hi; by rewrite lookup_upd, decide_False in Hi).
      eapply ctx_stay; [apply (i_ctx _ _ I i p'); auto|done|by rewrite lookup_insert_ne|by rewrite lookup_delete_ne|].
      unfold pst, pchan. by rewrite Hi, Hi'.
  - apply rtc_once, (SForkDone _ _ _ c me np); [by apply (abs_at _ me R)|by rewrite (r_fork _ _ R : fa = _)].
  - apply teq_upd; [apply R|]. intros q q' [E _]. split; [rewrite E at 1; by destruct q|done].
  - cbn. rewrite list_insert_id; [apply R|]. rewrite list_lookup_fmap, Hx. cbn. unfold abs_cpu. cbn. by rewrite Hp, !decide_True; auto.
  - cbn. by rewrite (r_fork _ _ R : fa = _).
Qed.

(** An embryo is freed without the lock: nobody else looks at it. *)
Lemma embryo_stays t np p0 g y s b d fk fk' :
  pt_proc t !! np = Some p0 -> p_state p0 = EMBRYO -> p_parent (g p0) = p_parent p0 -> p_state (g p0) = UNUSED ->
  (forall j, x_on y = Some j -> fk' !! j = fk !! j) ->
  cpu_as t fk y s b d -> cpu_ok (upd_proc np g t) fk' y /\ abs_cpu (upd_proc np g t) y = abs_cpu t y.
Proof.
  intros Hnp Hem Hpar Hun Hfk K. set (t' := upd_proc np g t).
  assert (Hsame : forall j st, pst t j = Some st -> st <> EMBRYO -> pst t' j = pst t j /\ pchan t' j = pchan t j).
  { intros j st Hj Hne. unfold pst, pchan, t'. rewrite lookup_upd. case_decide as E; [|done]. subst j. unfold pst in Hj. rewrite Hnp in Hj. cbn in Hj. congruence. }
  assert (Hreap : forall q, nothing_to_reap t q -> nothing_to_reap t' q).
  { intros q Hq. unfold nothing_to_reap in *. rewrite <- Hq. cbn. apply wait_scan_upd. intros p Hp. rewrite Hnp in Hp. injection Hp as <-. split; [done|].
    unfold is_state. by rewrite Hem, Hun. }
  assert (Hgone : forall j, gone (pst t j) -> pst t' j = pst t j).
  { intros j [H|[H|H]]; by apply (Hsame j _ H). }
  assert (K7 := k_st _ _ _ _ _ _ K). split.
  - exists s, b, d. destruct K as [K1 K2 K3 K4 K5 K6 _ K8]. constructor; auto.
    + destruct s; cbn in K7 |- *; destruct_and?; split_and?; try done;
        try (match goal with H : pst t ?j = Some ?st |- _ => destruct (Hsame j st H ltac:(done)) as [E1 E2]; rewrite ?E1, ?E2; done end).
      all: try (rewrite Hgone; done). all: try (by apply Hreap).
      intros q Hq. destruct (H3 q Hq). split; [done|by apply Hreap].
    + intros i Hi. specialize (K8 i Hi). unfold fork_ok. by rewrite Hfk.
  - unfold abs_cpu. destruct (x_proc y) as [j|] eqn:Ep; [|done].
    destruct (st_proc _ _ _ _ _ _ j K Ep) as [H|[H _]]; [destruct (Hsame j _ H) as [-> _]; done|by rewrite Hgone].
Qed.

Lemma exec_fork_rest ok : x_code x = IForkRest ok :: k -> good n (exec c x (IForkRest ok) k m).
Proof.
  intros Hcode. at_instr Hcode. destruct W as (-> & -> & H0 & Hf & Hw). destruct (i_abs _ _ I) as ([ta ca fa] & Ha & R).
  assert (K7 := k_st _ _ _ _ _ _ K). set (me := me_of x) in *. assert (Hrun := K7). destruct Hrun as [Hon Hr].
  assert (Ho := proj1 Hon). assert (Hp := proj1 (proj2 Hon)).
  cbn [exec set_code x_proc]. rewrite Hp. unfold fork_rest. destruct (m_fk m !! me) as [np|] eqn:Hfk; [destruct ok|]; cbn [good].
  - apply (inv_local n m c x); auto; [|by eapply locks_same].
    apply (cpu_next (m_pt m) _ _ (m_fk m) x Run b (acquire 0 ++ [IForkDone] ++ release 0 ++ k) Run K); auto; [congruence| |by left; left|].
    + apply wt_acquire; [by left|done|]. cbn [app wt]. split_and!; [done..|set_solver|by cbn|]. apply wt_release; [by left|set_solver|].
      by replace (({[0%nat]} ∪ x_held x) ∖ {[0%nat]}) with (x_held x) by (apply set_eq; set_solver).
    + intros i Hi. assert (i = me) as -> by congruence. split; [done|]. intros _. by eexists.
  - destruct (embryo _ me np Ha R Hfk) as (p0 & Hp0 & Hem & Hnp0). set (g := fun p => set_state UNUSED (set_kstack 0 p)).
    assert (Hne : me <> np) by (intros ->; unfold pst in Hr; rewrite Hp0 in Hr; cbn in Hr; congruence).
    assert (Hr' : pst (upd_proc np g (m_pt m)) me = Some RUNNING) by (by rewrite pst_upd, decide_False).
    apply (inv_table n m c x (set_code k x) (upd_proc np g (m_pt m)) (m_ctx m) (delete me (m_fk m)) (MkSys ta ca fa) (MkSys (upd_proc np g ta) ca (delete me fa)) I Hx); auto.
    + intros c' y Hc' Hy. destruct (i_cpu _ _ I c' y Hy) as (s' & b' & d' & K'). apply (embryo_stays _ _ p0 _ _ s' b' d' (m_fk m)); auto.
      intros j Hj. rewrite lookup_delete_ne; [done|]. intros <-. apply Hc'.
      assert (Hpy : x_proc y = Some me).
      { assert (Hs := k_st _ _ _ _ _ _ K'). unfold me_of in Hs. rewrite Hj in Hs. destruct s'; cbn in Hs; unfold on_proc, on_sched in Hs; destruct_and?; congruence. }
      by eapply proc_excl.
    + eapply (cpu_next _ (upd_proc np g (m_pt m)) _ (delete me (m_fk m)) x Run b k Run K); auto; [congruence|by left; left|by split|].
      intros i Hi. assert (i = me) as -> by congruence. unfold fork_ok. rewrite lookup_delete_eq, Hf. split; [by intros [? ?]|done].
    + intros i p' Hi Hal Hoff. assert (Hmi : i <> me) by (intros ->; by apply (Hoff c x)). rewrite lookup_upd in Hi. case_decide as E.
      { subst i. rewrite Hp0 in Hi. cbn in Hi. injection Hi as <-. cbn in Hal. by destruct Hal as [|[|]]. }
      eapply ctx_stay; [apply (i_ctx _ _ I i p'); auto|done|done|by rewrite lookup_delete_ne|].
      unfold pst, pchan. rewrite lookup_upd, decide_False by done. done.
    + apply rtc_once, (SForkFail _ _ _ c me np); [by apply (abs_at _ me R)|by rewrite (r_fork _ _ R : fa = _)].
    + apply teq_upd; [apply R|]. intros q q' [E _]. split; [rewrite E at 1; by destruct q|done].
    + cbn. rewrite list_insert_id; [apply R|]. rewrite list_lookup_fmap, Hx. cbn. unfold abs_cpu. cbn. by rewrite Hp, !decide_True.
    + cbn. by rewrite (r_fork _ _ R : fa = _).
  - apply (inv_local n m c x); auto; [|by eapply locks_same].
    apply (cpu_next (m_pt m) _ _ (m_fk m) x Run b k Run K); auto; [congruence|by left; left|].
    intros i Hi. assert (i = me) as -> by congruence. unfold fork_ok. rewrite Hfk, Hf. split; [by intros [? ?]|done].
Qed.

(** Every instruction. *)
Lemma exec_good i : x_code x = i :: k -> good n (exec c x i k m).
Proof.
  destruct i; first [apply exec_push|apply exec_pop|apply exec_take|apply exec_drop|apply exec_sti|apply exec_intena|apply exec_iret
    |apply exec_sleep_check|apply exec_setchan|apply exec_tidy|apply exec_setstate|apply exec_sched|apply exec_wake|apply exec_kill
    |apply exec_exit_check|apply exec_exit|apply exec_wait_scan|apply exec_alloc|apply exec_fork_rest|apply exec_fork_done|apply exec_scan
    |apply exec_setproc|apply exec_lcr3|apply exec_running|apply exec_swtch|apply exec_back|idtac].
  intros Hcode. by at_instr Hcode.
Qed.

End Exec.
