(* ===== verification/SwtchProps.v ===== *)
(** * What holds of the kernel threads

    The runs of the machine of Swtch.v refine those of Sched.v without a panic;
    no wakeup is lost; and wait frees no stack or page table in use. *)

From S2P Require Import Prelude.
From S2P Require Import Params.
From S2P Require Import Ptable.
From S2P Require Import Spinlock.
From S2P Require Import Sched.
From S2P Require Import Swtch.
From S2P Require Import SwtchInv.
From S2P Require Import SwtchStep.
Import Swtch.

(** ** Calls and interrupts *)

Lemma inv_call n m c x me cl :
  inv n m -> m_cpus m !! c = Some x -> x_code x = [] -> x_on x = Some me -> call_ok m me (x_held x) cl ->
  inv n (set_cpu c (set_code (call_code cl ++ back (x_st x) cl) x) m).
Proof.
  intros I Hx Hcode Hon Hok. destruct (i_cpu _ _ I c x Hx) as (s & b & d & K). assert (W := k_wt _ _ _ _ _ _ K). rewrite Hcode in W.
  destruct W as (-> & -> & H0). assert (K0 := K). destruct K0 as [K1 K2 K3 K4 K5 K6 K7 K8]. rewrite Nat.add_0_r in K3.
  assert (Hme : me_of x = me) by (unfold me_of; by rewrite Hon).
  assert (Hno : m_fk m !! me = None).
  { specialize (K8 me Hon). rewrite Hcode in K8. by apply (fork_none _ _ _ K8). }
  apply (inv_local n m c x); auto; [|by eapply locks_same]. apply (cpu_next (m_pt m) _ (m_fk m) _ x Run b _ Run K); auto.
  - intros b' k0. by rewrite Hcode.
  - rewrite Hme. eapply wt_call; eauto.
    + intros E. apply K6. by rewrite K3, E, size_empty.
    + intros E. assert (size (x_held x) <> 0)%nat by (by apply size_non_empty_iff; rewrite leibniz_equiv_iff).
      split; [apply K4; lia|]. destruct K5 as [|(b' & k0 & E')]; [lia|done|congruence].
  - intros i Hi. assert (i = me) as -> by congruence. unfold fork_ok. rewrite Hno. split; [by intros [? ?]|].
    destruct cl as [l|l| |ch l|ch|pid| | |ok]; try done. cbn. unfold sleep. by destruct (decide (l = 0%nat)).
Qed.

Lemma inv_intr n m c x l ch p :
  inv n m -> m_cpus m !! c = Some x -> c_if (x_st x) = true -> l <> 0%nat -> (p = true -> is_Some (x_on x)) ->
  inv n (set_cpu c (set_code (handler l ch p ++ IIret true :: x_code x) (set_st (set_if false (x_st x)) x)) m).
Proof.
  intros I Hx Hif Hl Hp. destruct (i_cpu _ _ I c x Hx) as (s & b & d & K). destruct K as [K1 K2 K3 K4 K5 K6 K7 K8].
  assert (Hn : c_ncli (x_st x) = 0) by (destruct (decide (0 < c_ncli (x_st x))) as [H|H]; [rewrite K4 in Hif by done; done|lia]).
  rewrite Hn in K3. assert (Hsz : (size (x_held x) = 0)%nat) by lia. apply size_empty_inv in Hsz. rewrite leibniz_equiv_iff in Hsz.
  assert (d = 0%nat) as -> by lia. assert (b = true) as -> by (rewrite <- K6; done).
  assert (Hc : calm s) by (destruct K2 as [|H0]; [done|]; rewrite Hsz in H0; set_solver).
  apply (inv_local n m c x); auto; [|by eapply locks_same]. exists s, false, 0%nat. constructor; cbn [x_held x_code x_st set_code set_st set_if c_ncli c_if c_intena].
  - rewrite Hsz in K1 |- *. apply wt_handler; auto. intros E. destruct (Hp E) as [i Hi]. destruct Hc as [-> | ->]; [done|].
    cbn in K7. destruct K7 as (Ho & _). congruence.
  - by left.
  - by rewrite Hn, Hsz, size_empty.
  - lia.
  - lia.
  - done.
  - done.
  - intros i Hi. specialize (K8 i Hi). unfold fork_ok in *. assert (E : fork_phase (handler l ch p ++ IIret true :: x_code x) = fork_phase (x_code x)); [|by rewrite E].
    by destruct p.
Qed.

Lemma inv_kstep n m m' : kstep m m' -> inv n m -> inv n m'.
Proof.
  destruct 1 as [m c x i k m' Hx Hcode He|m c x me cl Hx Hcode Hon Hok|m c x l ch p Hx Hif Hl Hp]; intros I.
  - assert (G := exec_good n c m x k I Hx i Hcode). by rewrite He in G.
  - by eapply inv_call.
  - by eapply inv_intr.
Qed.

Lemma mach0_inv n : inv n (mach0 n).
Proof.
  assert (Hc : forall c x, m_cpus (mach0 n) !! c = Some x -> x = cpu0) by (intros c x [? _]%lookup_replicate; done).
  constructor.
  - intros c x ->%Hc. exists Idle, false, 0%nat. constructor; try done; [apply wt_scheduler|by left; right].
  - intros l c. cbn [m_lock mach0]. rewrite lookup_empty. split; [done|]. intros (x & ->%Hc & Hl). set_solver.
  - intros i p Hi Hal _. destruct (decide (i = 0%nat)) as [->|Hne].
    + exists forkret. split; [done|]. split; [|by right]. split; [|done]. cbn [m_fk mach0]. rewrite lookup_empty. by intros [? ?].
    + cbn [m_pt mach0 pt_proc] in Hi. rewrite list_lookup_insert_ne in Hi by done. apply lookup_replicate in Hi as [-> _].
      by destruct Hal as [|[|]].
  - exists (boot n). split; [apply rtc_refl|]. constructor; [|by cbn; rewrite fmap_replicate|done].
    split_and!; [done..|]. apply Forall2_same_length_lookup_2; [done|]. intros i p p' H1 H2. cbn in H1, H2. rewrite H1 in H2. injection H2 as <-. apply peq_refl.
Qed.

Lemma inv_reachable n m : rtc kstep (mach0 n) m -> inv n m.
Proof. intros H. assert (I := mach0_inv n). induction H as [|m m1 m' Hs _ IH]; [done|]. apply IH. by eapply inv_kstep. Qed.

(** ** The theorems *)

(** C8: whatever the processors execute and wherever they are interrupted, no
    instruction panics: acquire and release find the lock as they expect,
    popcli its count, sched its four conditions, exit does not come back, and
    every call returns with the interrupt flag, ncli and intena its caller left,
    on whichever processor it returns.  The process table, the processors and
    the embryos are those of a run of Sched.v, up to the channel of processes
    that do not sleep. *)
Theorem threads_refine n m :
  rtc kstep (mach0 n) m ->
  (forall c x i k, m_cpus m !! c = Some x -> x_code x = i :: k ->
    match exec c x i k m with Panic _ => False | Undef w => w = "nextpid"%string | _ => True end) /\
  exists s, rtc sstep (boot n) s /\ rel m s.
Proof.
  intros I%inv_reachable. split; [|apply I]. intros c x i k Hx Hcode. assert (G := exec_good n c m x k I Hx i Hcode).
  destruct (exec c x i k m); try done.
Qed.

(** Process [i] has called [sleep ch l] and has not been chosen again by a
    scheduler since: it is on its way to swtch, or its context is saved. *)
Definition in_sleep (m : mach) (i : nat) (ch : chan) (l : nat) : Prop :=
  (exists c x j k, m_cpus m !! c = Some x /\ x_on x = Some i /\ (j <= 7)%nat /\ x_code x = drop j (sleep ch l) ++ k) \/
  (exists b k, off_cpu (m_cpus m) i /\ m_ctx m !! i = Some (ISetIntena b :: drop 8 (sleep ch l) ++ k) /\
    (pst (m_pt m) i = Some SLEEPING \/ pst (m_pt m) i = Some RUNNABLE)).

Lemma sleep_unfold ch l : l <> 0%nat ->
  sleep ch l = [ISleepCheck; IPush; ITake 0; IDrop l; IPop; ISetChan ch; ISetState SLEEPING; ISched; ITidy ch; IDrop 0; IPop; IPush; ITake l].
Proof. intros H. unfold sleep. by rewrite !decide_False. Qed.

(** On the way to swtch the sleeper holds its lock or ptable.lock. *)
Lemma sleep_holds ini me s b d L ch l j k : l <> 0%nat -> (j <= 7)%nat -> wt ini me s b d L (drop j (sleep ch l) ++ k) -> l ∈ L \/ 0%nat ∈ L.
Proof.
  intros Hl Hj. rewrite (sleep_unfold ch l Hl). intros W.
  do 8 (destruct j as [|j]; [cbn [drop app wt] in W; clear - W Hl; set_solver|]). lia.
Qed.

(** C9: no wakeup is lost.  A process that has called sleep(ch, l) and a processor
    that holds l and is about to run the loop of wakeup(ch): the process is
    SLEEPING on ch, or has been woken already, and after the loop it is
    RUNNABLE. *)
Theorem no_lost_wakeup n m w y k ch l i :
  rtc kstep (mach0 n) m -> m_cpus m !! w = Some y -> x_code y = IWake ch :: k -> l <> 0%nat -> l ∈ x_held y -> in_sleep m i ch l ->
  (pst (m_pt m) i = Some SLEEPING /\ pchan (m_pt m) i = Some ch \/ pst (m_pt m) i = Some RUNNABLE) /\
  pst (wakeup1 ch (m_pt m)) i = Some RUNNABLE.
Proof.
  intros I%inv_reachable Hy Hcode Hl Hly Hin. destruct (i_cpu _ _ I w y Hy) as (s & b & d & K).
  assert (W := k_wt _ _ _ _ _ _ K). rewrite Hcode in W. cbn [wt] in W. destruct W as (_ & _ & H0 & _).
  assert (Hst : pst (m_pt m) i = Some SLEEPING /\ pchan (m_pt m) i = Some ch \/ pst (m_pt m) i = Some RUNNABLE).
  { destruct Hin as [(c & x & j & k' & Hx & Hon & Hj & Hc)|(b' & k' & Hoff & Hctx & Hst)].
    - exfalso. destruct (i_cpu _ _ I c x Hx) as (s' & b' & d' & K'). assert (W' := k_wt _ _ _ _ _ _ K'). rewrite Hc in W'.
      assert (c = w) as ->.
      { destruct (sleep_holds _ _ _ _ _ _ _ _ _ _ Hl Hj W') as [H|H]; [|by eapply lock0_excl].
        assert (m_lock m !! l = Some c) by (apply (i_lock _ _ I); eauto). assert (m_lock m !! l = Some w) by (apply (i_lock _ _ I); eauto). congruence. }
      rewrite Hx in Hy. injection Hy as ->. rewrite Hcode, (sleep_unfold ch l Hl) in Hc. do 8 (destruct j as [|j]; [done|]). lia.
    - destruct Hst as [Hst|Hst]; [left|by right]. split; [done|]. apply pst_lookup in Hst as Hp. destruct Hp as (p & Hp & Hs).
      destruct (i_ctx _ _ I i p Hp) as (k0 & Hk0 & _ & Hk); [left; done|done|].
      rewrite Hctx, (sleep_unfold ch l Hl) in Hk0. injection Hk0 as <-. destruct Hk as [(b1 & k1 & E & _ & Hsl)|[E _]]; [|done].
      destruct (Hsl Hst) as (ch' & k2 & E' & Hch). injection E as _ <-. by injection E' as -> _. }
  split; [done|]. unfold pst, pchan in *. rewrite lookup_wakeup. destruct (pt_proc (m_pt m) !! i) as [p|]; cbn in *; [|naive_solver].
  destruct (wake_proc_fields ch p) as (_ & _ & _ & _ & ->). f_equal. case_decide as E; [done|]. destruct Hst as [[H1 H2]|H1]; [|congruence].
  destruct E. split; [congruence|done].
Qed.

(** C30: when wait finds a child to reap, no processor is on the child's kernel
    stack, has it as its current process, or has its page table loaded, so
    freeing them is safe. *)
Theorem reap_unused n m c x k me hk j :
  rtc kstep (mach0 n) m -> m_cpus m !! c = Some x -> x_code x = IWaitScan :: k -> x_proc x = Some me ->
  wait_scan me 0 (pt_proc (m_pt m)) false = (hk, Some j) ->
  forall c' y, m_cpus m !! c' = Some y -> x_on y <> Some j /\ x_proc y <> Some j /\ x_cr3 y <> Some j.
Proof.
  intros I%inv_reachable Hx Hcode Hp Hscan c' y Hy. destruct (i_cpu _ _ I c x Hx) as (s & b & d & K).
  assert (W := k_wt _ _ _ _ _ _ K). rewrite Hcode in W. cbn [wt] in W. destruct W as (_ & -> & HL & _).
  assert (Hz : pst (m_pt m) j = Some ZOMBIE).
  { assert (Hsp := wait_scan_spec me 0 (pt_proc (m_pt m)) false). rewrite Hscan in Hsp. destruct Hsp as (p & Hj & _ & Hz & _).
    rewrite Nat.sub_0_r in Hj. apply pst_lookup. eauto. }
  destruct (i_cpu _ _ I c' y Hy) as (s' & b' & d' & K').
  assert (Hno : x_proc y <> Some j).
  { intros Hpy. destruct (st_proc _ _ _ _ _ _ j K' Hpy) as [H|[_ H0]]; [congruence|].
    assert (c = c') as <- by (eapply lock0_excl; eauto; set_solver). rewrite Hx in Hy. injection Hy as <-.
    destruct (k_st _ _ _ _ _ _ K) as [(_ & Hp' & _) Hr]. congruence. }
  assert (Hs := k_st _ _ _ _ _ _ K'). destruct s'; cbn in Hs; unfold on_proc, on_sched in Hs; destruct_and?; split_and!; congruence.
Qed.

(** ** Runs *)

Module SwtchDemo.

(** A processor executes [n] instructions, or makes a call. *)
Inductive act : Type := ARun (c n : nat) | ACall (c : nat) (cl : call).

Fixpoint run_exec (c n : nat) (m : mach) : option mach :=
  match n with
  | O => Some m
  | S n =>
      match m_cpus m !! c with
      | Some x =>
          match x_code x with
          | i :: k => match exec c x i k m with Next m' => run_exec c n m' | _ => None end
          | [] => None
          end
      | None => None
      end
  end.

Definition allowed (m : mach) (me : nat) (held : gset nat) (cl : call) : bool :=
  match cl with
  | CAcquire l => bool_decide (l <> 0%nat /\ l ∉ held)
  | CRelease l => bool_decide (l ∈ held)
  | CYield | CWait => bool_decide (held = ∅)
  | CExit => bool_decide (held = ∅ /\ me <> pt_initproc (m_pt m))
  | CSleep ch l => bool_decide (held = {[l]}) && match ch with ChProc _ => false | _ => true end
  | _ => true
  end.

Definition do_act (a : act) (m : mach) : option mach :=
  match a with
  | ARun c n => run_exec c n m
  | ACall c cl =>
      match m_cpus m !! c with
      | Some x =>
          match x_code x, x_on x with
          | [], Some me => if allowed m me (x_held x) cl then Some (set_cpu c (set_code (call_code cl ++ back (x_st x) cl) x) m) else None
          | _, _ => None
          end
      | None => None
      end
  end.

Fixpoint do_acts (l : list act) (m : mach) : option mach :=
  match l with
  | [] => Some m
  | a :: l => match do_act a m with Some m' => do_acts l m' | None => None end
  end.

Lemma run_exec_sound c n m m' : run_exec c n m = Some m' -> rtc kstep m m'.
Proof.
  revert m. induction n as [|n IH]; intros m; cbn; [intros [= <-]; apply rtc_refl|].
  destruct (m_cpus m !! c) as [x|] eqn:Ex; [|done]. destruct (x_code x) as [|i k] eqn:Ec; [done|].
  destruct (exec c x i k m) as [m1| | |] eqn:Ee; try done. intros H. eapply rtc_l; [by eapply KExec|]. by apply IH.
Qed.

Lemma allowed_ok m me held cl : allowed m me held cl = true -> call_ok m me held cl.
Proof.
  destruct cl as [l|l| |ch l|ch|pid| | |ok]; cbn; rewrite ?bool_decide_eq_true; try done.
  rewrite andb_true_iff, bool_decide_eq_true. intros [-> H]. split; [done|]. by intros q ->.
Qed.

Lemma do_acts_sound l m m' : do_acts l m = Some m' -> rtc kstep m m'.
Proof.
  revert m. induction l as [|a l IH]; intros m; cbn; [intros [= <-]; apply rtc_refl|].
  destruct (do_act a m) as [m1|] eqn:E; [|done]. intros H. etrans; [|by apply IH]. clear H IH.
  destruct a as [c n|c cl]; cbn in E; [by eapply run_exec_sound|].
  destruct (m_cpus m !! c) as [x|] eqn:Ex; [|done]. destruct (x_code x) as [|i k] eqn:Ec; [|done]. destruct (x_on x) as [me|] eqn:Eo; [|done].
  destruct (allowed m me (x_held x) cl) eqn:Ea; [|done]. injection E as <-. apply rtc_once. eapply KCall; eauto. by apply allowed_ok.
Qed.

(** The first process forks on processor 0, and the child runs on processor 1. *)
Definition forked : list act := [ARun 0 13; ACall 0 (CFork true); ARun 0 12; ARun 1 14].

(** The parent sleeps on the ticks with lock 5, and the child comes to wake it. *)
Definition sleep_acts : list act :=
  forked ++ [ACall 0 (CAcquire 5); ARun 0 2; ACall 0 (CSleep ChTicks 5); ARun 0 76; ACall 1 (CAcquire 5); ARun 1 2; ACall 1 (CWakeup ChTicks); ARun 1 2].
Definition sleeper : mach := default (mach0 2) (do_acts sleep_acts (mach0 2)).

(** The child exits, and the parent comes to wait for it. *)
Definition wait_acts : list act := forked ++ [ACall 1 CExit; ARun 1 72; ACall 0 CWait; ARun 0 2].
Definition waiter : mach := default (mach0 2) (do_acts wait_acts (mach0 2)).

Lemma sleeper_reachable : rtc kstep (mach0 2) sleeper.
Proof. apply (do_acts_sound sleep_acts). vm_compute. reflexivity. Qed.
Lemma waiter_reachable : rtc kstep (mach0 2) waiter.
Proof. apply (do_acts_sound wait_acts). vm_compute. reflexivity. Qed.

Lemma threads_refine_witness : exists s, rtc sstep (boot 2) s /\ rel waiter s.
Proof. apply (threads_refine 2 waiter waiter_reachable). Defined.

Lemma no_lost_wakeup_witness : pst (m_pt sleeper) 0 = Some SLEEPING /\ pst (wakeup1 ChTicks (m_pt sleeper)) 0 = Some RUNNABLE.
Proof.
  split; [vm_compute; reflexivity|].
  destruct (m_cpus sleeper !! 1%nat) as [y|] eqn:Hy; [|by vm_compute in Hy].
  apply (no_lost_wakeup 2 sleeper 1 y [IDrop 0; IPop; IBack false 1 true] ChTicks 5 0 sleeper_reachable Hy).
  - vm_compute in Hy. by injection Hy as <-.
  - done.
  - assert (E : bool_decide (5%nat ∈ from_option x_held ∅ (m_cpus sleeper !! 1%nat)) = true) by (vm_compute; reflexivity).
    rewrite Hy in E. by apply bool_decide_eq_true in E.
  - right. exists true, [IBack false 1 true]. split_and!; [|vm_compute; reflexivity|left; vm_compute; reflexivity].
    intros c x Hc. destruct c as [|[|c]]; vm_compute in Hc; [by injection Hc as <-..|done].
Defined.

Lemma waiting : exists x, m_cpus waiter !! 0%nat = Some x /\ x_code x = [IWaitScan; IBack true 0 true] /\ x_proc x = Some 0%nat.
Proof. vm_compute. eexists. split_and!; reflexivity. Qed.

Lemma reap_unused_witness : exists y, m_cpus waiter !! 1%nat = Some y /\ x_cr3 y <> Some 1%nat.
Proof.
  destruct waiting as (x & Hx & Hcode & Hp).
  assert (Hs : wait_scan 0 0 (pt_proc (m_pt waiter)) false = (true, Some 1%nat)) by (vm_compute; reflexivity).
  assert (Hl : is_Some (m_cpus waiter !! 1%nat)) by (apply lookup_lt_is_Some_2, Nat.ltb_lt; vm_compute; reflexivity).
  destruct Hl as [y Hy]. exists y. split; [exact Hy|].
  exact (proj2 (proj2 (reap_unused 2 waiter 0 x _ 0 true 1 waiter_reachable Hx Hcode Hp Hs 1 y Hy))).
Defined.

End SwtchDemo.
