(* ===== verification/Sh.v ===== *)
(** * The shell's parser (sh.c)

    The parser moves the pointer [s] towards the end [es] of the command line.
    Here the state is the list of bytes from [s] to [es]; the byte at [es] is
    the terminating NUL.  A token's pointers [q] and [eq] are offsets in the
    line, whose length is [n].  [panic] prints its message and exits.

    The constructors allocate their node with malloc, which is taken to
    succeed. *)

From S2P Require Import Prelude.
From S2P Require Import CString.

Definition MAXARGS : Z := 10.

Definition O_RDONLY : Z := 0.
Definition O_WRONLY : Z := 1.
Definition O_RDWR : Z := 2.
Definition O_CREATE : Z := 512.

(** The words of a command are pairs of pointers [(q, eq)] while the line is
    parsed, and strings afterwards. *)
Inductive cmd (W : Type) : Type :=
| EXEC (argv : list W)
| REDIR (c : cmd W) (file : W) (mode fd : Z)
| PIPE (left right : cmd W)
| LIST (left right : cmd W)
| BACK (c : cmd W).
Arguments EXEC {W} argv.
Arguments REDIR {W} c file mode fd.
Arguments PIPE {W} left right.
Arguments LIST {W} left right.
Arguments BACK {W} c.

Definition tok : Type := Z * Z.

Definition whitespace : list Z := [32; 9; 13; 10; 11].
Definition symbols : list Z := [60; 124; 62; 38; 59; 40; 41].

Definition is_ws (c : Z) : bool := bool_decide (c ∈ whitespace).
Definition is_sym (c : Z) : bool := bool_decide (c ∈ symbols).

(** [*s]. *)
Definition at_s (s : list Z) : Z := match s with [] => 0 | c :: _ => c end.

Fixpoint skip_ws (s : list Z) : list Z :=
  match s with
  | [] => []
  | c :: s' => if is_ws c then skip_ws s' else s
  end.

Fixpoint skip_word (s : list Z) : list Z :=
  match s with
  | [] => []
  | c :: s' => if negb (is_ws c) && negb (is_sym c) then skip_word s' else s
  end.

Section Parse.
Context (n : Z).

Definition pos (s : list Z) : Z := n - zlen s.

Definition gettoken : M (list Z) (Z * Z * Z) := fun s =>
  let s := skip_ws s in
  let q := pos s in
  let c := at_s s in
  let '(r, s) :=
    if c =? 0 then (c, s)
    else if (c =? 124) || (c =? 40) || (c =? 41) || (c =? 59) || (c =? 38) || (c =? 60) then (c, tail s)
    else if c =? 62 then
      let s := tail s in
      if at_s s =? 62 then (43, tail s) else (c, s)
    else (97, skip_word s) in
  let eq := pos s in
  Ret (r, q, eq) (skip_ws s).

Definition peek (toks : list Z) : M (list Z) bool := fun s =>
  let s := skip_ws s in
  Ret (negb (at_s s =? 0) && bool_decide (at_s s ∈ toks)) s.

(** parseexec's [cmd] points to the EXEC node inside the redirections that
    [ret] has gathered around it. *)
Fixpoint add_arg (c : cmd tok) (t : tok) : cmd tok :=
  match c with
  | EXEC argv => EXEC (argv ++ [t])
  | REDIR c f m fd => REDIR (add_arg c t) f m fd
  | c => c
  end.

Fixpoint parseredirs (fuel : nat) (c : cmd tok) : M (list Z) (cmd tok) :=
  match fuel with
  | O => out_of_fuel
  | S fuel =>
      let! more := peek [60; 62] in
      if negb more then ret c else
      let! (tk, _, _) := gettoken in
      let! (tk2, q, eq) := gettoken in
      if negb (tk2 =? 97) then panic "missing file for redirection" else
      let c :=
        if tk =? 60 then REDIR c (q, eq) O_RDONLY 0
        else if tk =? 62 then REDIR c (q, eq) (Z.lor O_WRONLY O_CREATE) 1
        else if tk =? 43 then REDIR c (q, eq) (Z.lor O_WRONLY O_CREATE) 1
        else c in
      parseredirs fuel c
  end.

Fixpoint parse_args (fuel : nat) (argc : Z) (c : cmd tok) : M (list Z) (cmd tok) :=
  match fuel with
  | O => out_of_fuel
  | S fuel =>
      let! stop := peek [124; 41; 38; 59] in
      if stop then ret c else
      let! (tk, q, eq) := gettoken in
      if tk =? 0 then ret c else
      if negb (tk =? 97) then panic "syntax" else
      let c := add_arg c (q, eq) in
      let argc := argc + 1 in
      if argc >=? MAXARGS then panic "too many args" else
      let! c := parseredirs fuel c in
      parse_args fuel argc c
  end.

Fixpoint parse_back (fuel : nat) (c : cmd tok) : M (list Z) (cmd tok) :=
  match fuel with
  | O => out_of_fuel
  | S fuel =>
      let! more := peek [38] in
      if negb more then ret c else gettoken ;; parse_back fuel (BACK c)
  end.

Fixpoint parseline (fuel : nat) : M (list Z) (cmd tok) :=
  match fuel with
  | O => out_of_fuel
  | S fuel =>
      let! c := parsepipe fuel in
      let! c := parse_back fuel c in
      let! more := peek [59] in
      if more then gettoken ;; let! r := parseline fuel in ret (LIST c r) else ret c
  end
with parsepipe (fuel : nat) : M (list Z) (cmd tok) :=
  match fuel with
  | O => out_of_fuel
  | S fuel =>
      let! c := parseexec fuel in
      let! more := peek [124] in
      if more then gettoken ;; let! r := parsepipe fuel in ret (PIPE c r) else ret c
  end
with parseblock (fuel : nat) : M (list Z) (cmd tok) :=
  match fuel with
  | O => out_of_fuel
  | S fuel =>
      let! open := peek [40] in
      if negb open then panic "parseblock" else
      gettoken ;;
      let! c := parseline fuel in
      let! close := peek [41] in
      if negb close then panic "syntax - missing )" else
      gettoken ;;
      parseredirs fuel c
  end
with parseexec (fuel : nat) : M (list Z) (cmd tok) :=
  match fuel with
  | O => out_of_fuel
  | S fuel =>
      let! block := peek [40] in
      if block then parseblock fuel else
      let! c := parseredirs fuel (EXEC []) in
      parse_args fuel 0 c
  end.

End Parse.

(** nulterminate: the ends of the tokens become NULs in the buffer. *)
Fixpoint nul_args (argv : list tok) (buf : list Z) : list Z :=
  match argv with
  | [] => buf
  | (_, eq) :: argv => nul_args argv (zset buf eq 0)
  end.

Fixpoint nulterminate (c : cmd tok) (buf : list Z) : list Z :=
  match c with
  | EXEC argv => nul_args argv buf
  | REDIR c (_, efile) _ _ => zset (nulterminate c buf) efile 0
  | PIPE l r => nulterminate r (nulterminate l buf)
  | LIST l r => nulterminate r (nulterminate l buf)
  | BACK c => nulterminate c buf
  end.

(** parsecmd on a buffer that starts at [s]: the command and the buffer, with
    the leftovers test.  Each level of recursion consumes a character or goes
    one level down the grammar, so four levels per character are enough. *)
Definition parse_fuel (line : list Z) : nat := 4 * length line + 4.

Definition parsecmd (buf : list Z) : outcome unit (cmd tok * list Z) :=
  match KString.strlen buf with
  | None => Fail (FUndef "command line without terminator")
  | Some n =>
      let line := take (Z.to_nat n) buf in
      match parseline n (parse_fuel line) line with
      | Ret c s =>
          if negb (zlen (skip_ws s) =? 0) then Fail (FPanic "syntax")
          else Ret (c, nulterminate c buf) tt
      | Sleep ch s => Sleep ch tt
      | Fail f => Fail f
      end
  end.

(** ** Termination *)

Lemma skip_ws_length s : (length (skip_ws s) <= length s)%nat.
Proof. induction s as [|c s IH]; cbn; [done|]. destruct (is_ws c); cbn; lia. Qed.

Lemma skip_word_length s : (length (skip_word s) <= length s)%nat.
Proof. induction s as [|c s IH]; cbn; [done|]. destruct (_ && _); cbn; lia. Qed.

Lemma skip_ws_idem s : skip_ws (skip_ws s) = skip_ws s.
Proof. induction s as [|c s IH]; cbn; [done|]. destruct (is_ws c) eqn:E; [done|]. cbn. by rewrite E. Qed.

Lemma skip_ws_head s c t : skip_ws s = c :: t -> is_ws c = false.
Proof. induction s as [|x s IH]; cbn; [done|]. destruct (is_ws x) eqn:E; [done|]. by intros [= <- _]. Qed.

Lemma gettoken_run n s :
  exists r q eq s', gettoken n s = Ret (r, q, eq) s' /\ (length s' <= length s)%nat /\
    (at_s (skip_ws s) <> 0 -> (length s' < length s)%nat /\ r <> 0).
Proof.
  unfold gettoken. assert (Hl := skip_ws_length s).
  destruct (skip_ws s) as [|c t] eqn:Es; cbn [at_s tail].
  { cbn. eexists _, _, _, _. split; [reflexivity|]. cbn. split; [lia|]. done. }
  destruct (c =? 0) eqn:E0.
  { eexists _, _, _, _. split; [reflexivity|]. assert (Hs := skip_ws_length (c :: t)). cbn in *. split; [lia|].
    cbn. apply Z.eqb_eq in E0. done. }
  destruct (_ || (c =? 60)) eqn:E1; [|destruct (c =? 62) eqn:E2].
  - eexists _, _, _, _. split; [reflexivity|]. assert (Hs := skip_ws_length t). cbn in *. split; [lia|]. intros _. split; lia.
  - destruct (at_s t =? 62) eqn:E3.
    + destruct t as [|d t]; [done|]. eexists _, _, _, _. split; [reflexivity|]. assert (Hs := skip_ws_length t). cbn in *. split; [lia|]. intros _. split; lia.
    + eexists _, _, _, _. split; [reflexivity|]. assert (Hs := skip_ws_length t). cbn in *. split; [lia|]. intros _. split; lia.
  - eexists _, _, _, _. split; [reflexivity|]. assert (Hws := skip_ws_head s c t Es).
    assert (Hsym : is_sym c = false).
    { unfold is_sym. apply bool_decide_eq_false. unfold symbols. rewrite !elem_of_cons, elem_of_nil. lia. }
    cbn [skip_word]. rewrite Hws, Hsym. cbn [negb andb].
    assert (Hs := skip_ws_length (skip_word t)). assert (Hw := skip_word_length t). cbn in *. split; [lia|]. intros _. split; lia.
Qed.

Lemma peek_run toks s :
  exists b, peek toks s = Ret b (skip_ws s) /\ (b = true -> at_s (skip_ws s) <> 0) /\ (length (skip_ws s) <= length s)%nat.
Proof. eexists. split; [reflexivity|]. split; [|apply skip_ws_length]. intros H. lia. Qed.

(** The parser returns with the rest of the line, or panics. *)
Definition answers {A} (m : M (list Z) A) (s : list Z) : Prop :=
  match m s with
  | Ret _ s' => (length s' <= length s)%nat
  | Fail (FPanic _) => True
  | _ => False
  end.

Lemma answers_bind {A B} (m : M (list Z) A) (k : A -> M (list Z) B) s :
  answers m s -> (forall a s', m s = Ret a s' -> (length s' <= length s)%nat -> answers (k a) s') -> answers (bind m k) s.
Proof.
  unfold answers, bind. destruct (m s) as [a s'|c s'|f] eqn:E; [|done|done]. intros Hl H. specialize (H a s' eq_refl Hl).
  destruct (k a s') as [b s''|c s''|[]]; try done. lia.
Qed.

(** A token read where peek has seen a character. *)
Lemma answers_token {B} n s (k : Z * Z * Z -> M (list Z) B) :
  at_s (skip_ws s) <> 0 -> (forall t s', (length s' < length s)%nat -> answers (k t) s') -> answers (bind (gettoken n) k) s.
Proof.
  intros Ht H. destruct (gettoken_run n s) as (r & q & eq & s' & E & Hl & Hlt). destruct (Hlt Ht) as [Hlt' _].
  unfold answers. rewrite (bind_run _ _ _ _ _ E). specialize (H (r, q, eq) s' Hlt'). unfold answers in H.
  destruct (k (r, q, eq) s') as [b s''|c s''|[]]; try done. lia.
Qed.

Lemma answers_peek {B} toks s (k : bool -> M (list Z) B) :
  (at_s (skip_ws s) <> 0 -> answers (k true) (skip_ws s)) -> answers (k false) (skip_ws s) -> answers (bind (peek toks) k) s.
Proof.
  intros Ht Hf. destruct (peek_run toks s) as (b & E & Hb & Hl). unfold answers. rewrite (bind_run _ _ _ _ _ E).
  assert (H : answers (k b) (skip_ws s)) by (destruct b; auto). unfold answers in H. destruct (k b (skip_ws s)) as [a s''|c s''|[]]; try done. lia.
Qed.

Lemma answers_ret {A} (a : A) s : answers (ret a) s.
Proof. unfold answers, ret. lia. Qed.
Lemma answers_panic {A} msg s : answers (panic (A := A) msg) s.
Proof. done. Qed.
#[local] Hint Resolve answers_ret answers_panic : core.

Lemma skip_twice s : at_s (skip_ws s) <> 0 -> at_s (skip_ws (skip_ws s)) <> 0.
Proof. by rewrite skip_ws_idem. Qed.
#[local] Hint Resolve skip_twice : core.

Lemma parseredirs_answers n fuel c s : (length s < fuel)%nat -> answers (parseredirs n fuel c) s.
Proof.
  revert c s. induction fuel as [|fuel IH]; intros c s Hf; [lia|]. cbn [parseredirs].
  apply answers_peek; cbn [negb]; auto. intros Ht. assert (Hl := skip_ws_length s).
  apply answers_token; auto. intros [[tk q0] eq0] s1 H1.
  destruct (gettoken_run n s1) as (tk2 & q & eq & s2 & E & H2 & _).
  unfold answers. rewrite (bind_run _ _ _ _ _ E). cbv beta iota. destruct (negb (tk2 =? 97)); [done|].
  assert (H := IH (if tk =? 60 then REDIR c (q, eq) O_RDONLY 0 else if tk =? 62 then REDIR c (q, eq) (Z.lor O_WRONLY O_CREATE) 1
    else if tk =? 43 then REDIR c (q, eq) (Z.lor O_WRONLY O_CREATE) 1 else c) s2 ltac:(lia)).
  unfold answers in H. cbv zeta. destruct (parseredirs n fuel _ s2) as [a s''|ch s''|[]]; try done. lia.
Qed.

Lemma parse_args_answers n fuel argc c s : (length s < fuel)%nat -> answers (parse_args n fuel argc c) s.
Proof.
  revert argc c s. induction fuel as [|fuel IH]; intros argc c s Hf; [lia|]. cbn [parse_args].
  apply answers_peek; auto. assert (Hl := skip_ws_length s).
  destruct (gettoken_run n (skip_ws s)) as (tk & q & eq & s1 & E & H1 & Hlt). unfold answers. rewrite (bind_run _ _ _ _ _ E). cbv beta iota.
  destruct (tk =? 0) eqn:E0; [unfold ret; lia|]. destruct (negb (tk =? 97)); [done|]. cbv zeta. destruct (_ >=? _); [done|].
  assert (Hlt1 : (length s1 < length (skip_ws s))%nat).
  { destruct (decide (at_s (skip_ws (skip_ws s)) = 0)) as [Ez|Hz]; [|by apply Hlt]. exfalso. clear Hlt.
    unfold gettoken in E. rewrite Ez in E. cbn in E. injection E as <- _ _ _. done. }
  assert (H : answers (let! c0 := parseredirs n fuel (add_arg c (q, eq)) in parse_args n fuel (argc + 1) c0) s1).
  { apply answers_bind; [apply parseredirs_answers; lia|]. intros c1 s2 _ H2. apply IH. lia. }
  unfold answers in H. destruct (bind _ _ s1) as [a s''|ch s''|[]]; try done. lia.
Qed.

Lemma parse_back_answers n fuel c s : (length s < fuel)%nat -> answers (parse_back n fuel c) s.
Proof.
  revert c s. induction fuel as [|fuel IH]; intros c s Hf; [lia|]. cbn [parse_back].
  apply answers_peek; cbn [negb]; auto. intros Ht. assert (Hl := skip_ws_length s). apply answers_token; auto. intros t s1 H1. apply IH. lia.
Qed.

Lemma parse_answers n fuel : forall s,
  ((4 * length s + 4 <= fuel)%nat -> answers (parseline n fuel) s) /\
  ((4 * length s + 3 <= fuel)%nat -> answers (parsepipe n fuel) s) /\
  ((4 * length s + 2 <= fuel)%nat -> answers (parseexec n fuel) s) /\
  ((4 * length s + 1 <= fuel)%nat -> answers (parseblock n fuel) s).
Proof.
  induction fuel as [|fuel IH]; intros s; [repeat split; lia|]. assert (Hl := skip_ws_length s).
  split_and!; intros Hf; cbn [parseline parsepipe parseexec parseblock].
  - apply answers_bind; [apply (IH s); lia|]. intros c s1 _ H1. apply answers_bind; [apply parse_back_answers; lia|]. intros c2 s2 _ H2.
    apply answers_peek; auto. intros Ht. assert (Hl2 := skip_ws_length s2). apply answers_token; auto. intros t s3 H3.
    apply answers_bind; auto. apply (IH s3). lia.
  - apply answers_bind; [apply (IH s); lia|]. intros c s1 _ H1. apply answers_peek; auto. intros Ht. assert (Hl1 := skip_ws_length s1).
    apply answers_token; auto. intros t s2 H2. apply answers_bind; auto. apply (IH s2). lia.
  - apply answers_peek; [intros _; apply (IH (skip_ws s)); lia|].
    apply answers_bind; [apply parseredirs_answers; lia|]. intros c s1 _ H1. apply parse_args_answers. lia.
  - apply answers_peek; cbn [negb]; auto. intros Ht. apply answers_token; auto. intros t s1 H1.
    apply answers_bind; [apply (IH s1); lia|]. intros c s2 _ H2. apply answers_peek; cbn [negb]; auto. intros Ht2.
    assert (Hl2 := skip_ws_length s2). apply answers_token; auto. intros t2 s3 H3. apply parseredirs_answers. lia.
Qed.

(** the shell's parser terminates on every command line: it returns a
    command or stops with one of its panics, and the recursion over blocks,
    pipes and lists never runs past the fuel of four levels per character. *)
Theorem parsecmd_terminates buf :
  0 ∈ buf -> (exists r, parsecmd buf = Ret r tt) \/ exists msg, parsecmd buf = Fail (FPanic msg).
Proof.
  intros H0. unfold parsecmd. assert (Hn : exists n, KString.strlen buf = Some n).
  { unfold KString.strlen. generalize 0 at 1 as k. induction buf as [|c buf IH]; intros k; [by apply not_elem_of_nil in H0|]. cbn.
    destruct (c =? 0) eqn:E; [eauto|]. apply IH. apply elem_of_cons in H0 as [H|H]; [lia|done]. }
  destruct Hn as [n ->]. set (line := take (Z.to_nat n) buf).
  destruct (parse_answers n (parse_fuel line) line) as [H _]. specialize (H ltac:(unfold parse_fuel; lia)). unfold answers in H.
  destruct (parseline n (parse_fuel line) line) as [c s|ch s|[]]; try done; [|eauto]. destruct (negb _); eauto.
Qed.

Lemma parsecmd_terminates_witness :
  (exists r, parsecmd [40; 97; 59; 98; 0] = Ret r tt) \/ exists msg, parsecmd [40; 97; 59; 98; 0] = Fail (FPanic msg).
Proof. apply parsecmd_terminates. set_solver. Defined.
