(* ===== verification/Kern.v ===== *)
(** * The kernel state

    The parts of the kernel that system calls work on, put together: the file
    system, memory, the file table, the pipes, the process table, the clock and
    what was printed on the console.  [me] is the index of the current process.

    A pipe lives in a page of its own; its fields are kept apart from the flat
    memory, under the address of the page.

    A system call that has to sleep ends in the [Sleep] outcome, with the state
    as it is when it goes to sleep; what the process does after the wakeup is
    not followed here. *)

From S2P Require Import Prelude.
From S2P Require Import Params.
From S2P Require Import BufSpec.
From S2P Require Import Log.
From S2P Require Import CString.
From S2P Require Import Fs.
From S2P Require Import Mmu.
From S2P Require Import Kalloc.
From S2P Require Import Vm.
From S2P Require Import VmUser.
From S2P Require Import Pipe.
From S2P Require Import Ptable.

Inductive ftype : Type := FD_NONE | FD_PIPE | FD_INODE.

#[export] Instance ftype_eq_dec : EqDecision ftype.
Proof. solve_decision. Defined.

Record file : Type := MkFile {
  f_type : ftype; f_ref : Z; f_readable : bool; f_writable : bool; f_pipe : Z; f_ip : nat; f_off : Z
}.
Definition file0 : file := MkFile FD_NONE 0 false false 0 0 0.

Record kern (S : Type) : Type := MkKern {
  ks_fs : fs S; ks_vm : kst; ks_file : list file; ks_pipe : gmap Z pipe; ks_pt : ptable; ks_ticks : Z;
  ks_out : list (string * list Z)
}.
Arguments MkKern {S} _ _ _ _ _ _ _.
Arguments ks_fs {S} _.
Arguments ks_vm {S} _.
Arguments ks_file {S} _.
Arguments ks_pipe {S} _.
Arguments ks_pt {S} _.
Arguments ks_ticks {S} _.
Arguments ks_out {S} _.

Section Kern.
Context {S : Type} `{!BufferCache S}.

Definition set_fs (x : fs S) (k : kern S) : kern S :=
  MkKern x (ks_vm k) (ks_file k) (ks_pipe k) (ks_pt k) (ks_ticks k) (ks_out k).
Definition set_vm (x : kst) (k : kern S) : kern S :=
  MkKern (ks_fs k) x (ks_file k) (ks_pipe k) (ks_pt k) (ks_ticks k) (ks_out k).
Definition set_file (x : list file) (k : kern S) : kern S :=
  MkKern (ks_fs k) (ks_vm k) x (ks_pipe k) (ks_pt k) (ks_ticks k) (ks_out k).
Definition set_pipe (x : gmap Z pipe) (k : kern S) : kern S :=
  MkKern (ks_fs k) (ks_vm k) (ks_file k) x (ks_pt k) (ks_ticks k) (ks_out k).
Definition set_pt (x : ptable) (k : kern S) : kern S :=
  MkKern (ks_fs k) (ks_vm k) (ks_file k) (ks_pipe k) x (ks_ticks k) (ks_out k).
Definition set_ticks (x : Z) (k : kern S) : kern S :=
  MkKern (ks_fs k) (ks_vm k) (ks_file k) (ks_pipe k) (ks_pt k) x (ks_out k).
Definition add_out (x : string * list Z) (k : kern S) : kern S :=
  MkKern (ks_fs k) (ks_vm k) (ks_file k) (ks_pipe k) (ks_pt k) (ks_ticks k) (ks_out k ++ [x]).

Definition fs_call {A} (m : M (fs S) A) : M (kern S) A := zoom ks_fs set_fs m.
Definition vm_call {A} (m : M kst A) : M (kern S) A := zoom ks_vm set_vm m.
(** cprintf: the format and the arguments. *)
Definition print (fmt : string) (args : list Z) : M (kern S) unit := modify (add_out (fmt, args)).
Definition pt_call (g : ptable -> ptable) : M (kern S) unit := modify (fun k => set_pt (g (ks_pt k)) k).
(** wakeup on each of the channels in turn. *)
Definition wake (cs : list chan) : M (kern S) unit := pt_call (fun t => foldl (fun t c => wakeup1 c t) t cs).

(** ** The current process *)

Context (me : nat).

Definition curproc : M (kern S) proc := fun k =>
  match pt_proc (ks_pt k) !! me with
  | Some p => Ret p k
  | None => Fail (FUndef "no current process")
  end.
Definition upd_cur (g : proc -> proc) : M (kern S) unit := pt_call (upd_proc me g).

(** ** The user's memory

    The kernel reads and writes user addresses through the page table of the
    current process; an access that does not translate is a page fault in the
    kernel, on which trap panics. *)

Fixpoint load_bytes (m : mem) (pgdir va : Z) (n : nat) : option (list Z) :=
  match n with
  | O => Some []
  | Datatypes.S n =>
      match translate m pgdir va with
      | None => None
      | Some (pa, _) => cons (m (KERNBASE + pa)) <$> load_bytes m pgdir (va + 1) n
      end
  end.

(** A store needs a writable page also in the kernel (CR0_WP is set). *)
Fixpoint store_bytes (m : mem) (pgdir va : Z) (bs : list Z) : option mem :=
  match bs with
  | [] => Some m
  | b :: bs =>
      match translate m pgdir va with
      | None => None
      | Some (pa, fl) =>
          if Z.land fl PTE_W =? 0 then None else store_bytes (mset m (KERNBASE + pa) b) pgdir (va + 1) bs
      end
  end.

Definition user_load (va n : Z) : M (kern S) (list Z) :=
  let! p := curproc in
  fun k => match load_bytes (k_mem (ks_vm k)) (p_pgdir p) va (Z.to_nat n) with
           | Some bs => Ret bs k
           | None => Fail (FPanic "trap")
           end.

Definition user_store (va : Z) (bs : list Z) : M (kern S) unit :=
  let! p := curproc in
  fun k => match store_bytes (k_mem (ks_vm k)) (p_pgdir p) va bs with
           | Some m => Ret tt (set_vm (set_mem m (ks_vm k)) k)
           | None => Fail (FPanic "trap")
           end.

End Kern.
