(* ===== verification/File.v ===== *)
(** * Open files (file.c, pipealloc of pipe.c)

    The table of open files with their reference counts, and the operations on
    descriptors: pipes and inodes behind one interface. *)

From stdpp Require Import gmultiset.
From S2P Require Import Prelude.
From S2P Require Import Params.
From S2P Require Import BufSpec.
From S2P Require Import Log.
From S2P Require Import CString.
From S2P Require Import Fs.
From S2P Require Import Mmu.
From S2P Require Import Kalloc.
From S2P Require Import Vm.
From S2P Require Import Pipe.
From S2P Require Import Ptable.
From S2P Require Import Kern.

Definition set_fref (r : Z) (f : file) : file :=
  MkFile (f_type f) r (f_readable f) (f_writable f) (f_pipe f) (f_ip f) (f_off f).
Definition set_ftype (t : ftype) (f : file) : file :=
  MkFile t (f_ref f) (f_readable f) (f_writable f) (f_pipe f) (f_ip f) (f_off f).
Definition set_foff (o : Z) (f : file) : file :=
  MkFile (f_type f) (f_ref f) (f_readable f) (f_writable f) (f_pipe f) (f_ip f) o.
Definition set_fpipe (r w : bool) (p : Z) (f : file) : file :=
  MkFile FD_PIPE (f_ref f) r w p (f_ip f) (f_off f).

(** filealloc's search. *)
Fixpoint file_scan (i : nat) (l : list file) : option nat :=
  match l with
  | [] => None
  | f :: l => if f_ref f =? 0 then Some i else file_scan (S i) l
  end.

(** The parts of filealloc, filedup and fileclose under [ftable.lock]; a
    fileclose that drops the last reference returns the file as it was. *)
Definition filealloc_section (l : list file) : option (nat * list file) :=
  match file_scan 0 l with
  | None => None
  | Some i => Some (i, alter (set_fref 1) i l)
  end.

Definition filedup_section (f : nat) (l : list file) : string + list file :=
  match l !! f with
  | None => inl "no such file"%string
  | Some x => if f_ref x <? 1 then inl "filedup"%string else inr (alter (fun x => set_fref (f_ref x + 1) x) f l)
  end.

Definition fileclose_section (f : nat) (l : list file) : string + (option file * list file) :=
  match l !! f with
  | None => inl "no such file"%string
  | Some x =>
      if f_ref x <? 1 then inl "fileclose"%string
      else if 0 <? f_ref x - 1 then inr (None, alter (set_fref (f_ref x - 1)) f l)
      else inr (Some x, alter (fun x => set_ftype FD_NONE (set_fref 0 x)) f l)
  end.

Section File.
Context {S : Type} `{!BufferCache S}.
Context (devsw : Z -> devops S) (end_ : Z) (me : nat).

Local Abbreviation K := (M (kern S)).

Definition getfile (f : nat) : K file := fun k =>
  match ks_file k !! f with
  | Some x => Ret x k
  | None => Fail (FUndef "no such file")
  end.
Definition modfile (f : nat) (g : file -> file) : K unit := modify (fun k => set_file (alter g f (ks_file k)) k).

Definition filealloc : K (option nat) := fun k =>
  match filealloc_section (ks_file k) with
  | None => Ret None k
  | Some (i, l) => Ret (Some i) (set_file l k)
  end.

Definition filedup (f : nat) : K nat := fun k =>
  match filedup_section f (ks_file k) with
  | inl msg => Fail (FPanic msg)
  | inr l => Ret f (set_file l k)
  end.

(** pipeclose with its wakeups and the release of the page. *)
Definition pipe_close (p : Z) (writable : bool) : K unit := fun k =>
  match ks_pipe k !! p with
  | None => Fail (FUndef "no such pipe")
  | Some x =>
      let '(x, w, free) := pipeclose p writable x in
      (wake w ;;
       if free then modify (fun k => set_pipe (delete p (ks_pipe k)) k) ;; vm_call (kfree end_ p)
       else modify (fun k => set_pipe (<[p := x]> (ks_pipe k)) k)) k
  end.

Definition fileclose (f : nat) : K unit := fun k =>
  match fileclose_section f (ks_file k) with
  | inl msg => Fail (FPanic msg)
  | inr (None, l) => Ret tt (set_file l k)
  | inr (Some ff, l) =>
      (match f_type ff with
       | FD_PIPE => pipe_close (f_pipe ff) (f_writable ff)
       | FD_INODE => fs_call (log_call begin_op) ;; fs_call (iput (f_ip ff)) ;; fs_call (log_call end_op)
       | FD_NONE => ret tt
       end) (set_file l k)
  end.

(** stati stores the fields of [struct stat] at the user's address. *)
Definition store_stat (st : Z) (x : stat) : K unit :=
  user_store me (st + 4) (le_bytes 4 (u32 (st_dev x))) ;;
  user_store me (st + 8) (le_bytes 4 (st_ino x)) ;;
  user_store me st (le_bytes 2 (u16 (st_type x))) ;;
  user_store me (st + 12) (le_bytes 2 (u16 (st_nlink x))) ;;
  user_store me (st + 16) (le_bytes 4 (st_size x)).

Definition filestat (f : nat) (st : Z) : K Z :=
  let! x := getfile f in
  if bool_decide (f_type x = FD_INODE) then
    fs_call (ilock (f_ip x)) ;;
    let! v := fs_call (stati (f_ip x)) in
    store_stat st v ;;
    fs_call (iunlock (f_ip x)) ;;
    ret 0
  else ret (-1).

(** piperead and pipewrite on the pipe at [p]; they may sleep. *)
Definition pipe_read (p addr n : Z) : K Z :=
  let! pr := curproc me in
  fun k =>
  match ks_pipe k !! p with
  | None => Fail (FUndef "no such pipe")
  | Some x =>
      match piperead p (p_killed pr) n x with
      | (RRet r bs, x, w) =>
          (modify (fun k => set_pipe (<[p := x]> (ks_pipe k)) k) ;; user_store me addr bs ;; wake w ;; ret r) k
      | (RSleep, x, w) => (modify (fun k => set_pipe (<[p := x]> (ks_pipe k)) k) ;; wake w ;; sleep_on (ChNread p)) k
      end
  end.

Definition pipe_write (p addr n : Z) : K Z :=
  let! pr := curproc me in
  let! bs := user_load me addr n in
  fun k =>
  match ks_pipe k !! p with
  | None => Fail (FUndef "no such pipe")
  | Some x =>
      match pipewrite p (p_killed pr) bs n 0 x with
      | (WRet r, x, w) => (modify (fun k => set_pipe (<[p := x]> (ks_pipe k)) k) ;; wake w ;; ret r) k
      | (WSleep _, x, w) => (modify (fun k => set_pipe (<[p := x]> (ks_pipe k)) k) ;; wake w ;; sleep_on (ChNwrite p)) k
      end
  end.

Definition fileread (f : nat) (addr n : Z) : K Z :=
  let! x := getfile f in
  if negb (f_readable x) then ret (-1) else
  match f_type x with
  | FD_PIPE => pipe_read (f_pipe x) addr n
  | FD_INODE =>
      fs_call (ilock (f_ip x)) ;;
      let! (r, bs) := fs_call (readi devsw (f_ip x) (f_off x) (u32 n)) in
      user_store me addr bs ;;
      let r := i32 r in
      (if r >? 0 then modfile f (fun y => set_foff (u32 (f_off y + r)) y) else ret tt) ;;
      fs_call (iunlock (f_ip x)) ;;
      ret r
  | FD_NONE => panic "fileread"
  end.

Definition max_write : Z := ((LOGSIZE - 1 - 1 - 2) / 2) * 512.

(** The loop of filewrite: transactions of at most [max_write] bytes. *)
Fixpoint filewrite_loop (fuel : nat) (f : nat) (addr n i : Z) : K Z :=
  if i <? n then
    match fuel with
    | O => out_of_fuel
    | Datatypes.S fuel =>
        let n1 := if n - i >? max_write then max_write else n - i in
        fs_call (log_call begin_op) ;;
        let! x := getfile f in
        fs_call (ilock (f_ip x)) ;;
        let! x := getfile f in
        let! bs := user_load me (addr + i) n1 in
        let! r := fs_call (writei devsw (f_ip x) bs (f_off x) n1) in
        (if r >? 0 then modfile f (fun y => set_foff (u32 (f_off y + r)) y) else ret tt) ;;
        fs_call (iunlock (f_ip x)) ;;
        fs_call (log_call end_op) ;;
        if r <? 0 then ret (if i =? n then n else -1)
        else if negb (r =? n1) then panic "short filewrite"
        else filewrite_loop fuel f addr n (i + r)
    end
  else ret (if i =? n then n else -1).

Definition filewrite (f : nat) (addr n : Z) : K Z :=
  let! x := getfile f in
  if negb (f_writable x) then ret (-1) else
  match f_type x with
  | FD_PIPE => pipe_write (f_pipe x) addr n
  | FD_INODE => filewrite_loop (Z.to_nat n) f addr n 0
  | FD_NONE => panic "filewrite"
  end.

(** pipealloc: both files and the pipe, or -1 with what was allocated given
    back. *)
Definition pipe_offset : Z := 52.
Definition pipealloc : K (option (nat * nat)) :=
  let! f0 := filealloc in
  match f0 with
  | None => ret None
  | Some f0 =>
      let! f1 := filealloc in
      match f1 with
      | None => fileclose f0 ;; ret None
      | Some f1 =>
          let! p := vm_call kalloc in
          if p =? 0 then fileclose f0 ;; fileclose f1 ;; ret None else
          modify (fun k => set_pipe (<[p := pipe_init ((fun i => k_mem (ks_vm k) (p + pipe_offset + i)) <$> seqZ 0 PIPESIZE)]> (ks_pipe k)) k) ;;
          modfile f0 (set_fpipe true false p) ;;
          modfile f1 (set_fpipe false true p) ;;
          ret (Some (f0, f1))
      end
  end.

End File.

(** The pieces of a large write take more blocks than begin_op reserves. *)
Lemma max_write_exceeds : max_write / BSIZE = 13 /\ MAXOPBLOCKS = 10.
Proof. done. Qed.

(** ** Reference counts

    The references held by the descriptors of all processes (and by calls in
    progress) form a multiset; the locked sections run in any order, and the
    other fields of a file change at any time. *)

Inductive fstep : list file * gmultiset nat -> list file * gmultiset nat -> Prop :=
| FAlloc l R i l' : filealloc_section l = Some (i, l') -> fstep (l, R) (l', R ⊎ {[+ i +]})
| FDup l R i l' : i ∈ R -> filedup_section i l = inr l' -> fstep (l, R) (l', R ⊎ {[+ i +]})
| FClose l R i o l' : i ∈ R -> fileclose_section i l = inr (o, l') -> fstep (l, R) (l', R ∖ {[+ i +]})
| FSet l R i g : (forall x, f_ref (g x) = f_ref x) -> fstep (l, R) (alter g i l, R).

Definition refs_ok (l : list file) (R : gmultiset nat) : Prop :=
  (forall i x, l !! i = Some x -> f_ref x = Z.of_nat (multiplicity i R)) /\ (forall i, i ∈ R -> is_Some (l !! i)).

Lemma file_scan_spec k l :
  match file_scan k l with
  | Some i => (k <= i)%nat /\ exists x, l !! (i - k)%nat = Some x /\ f_ref x = 0
  | None => forall j x, l !! j = Some x -> f_ref x <> 0
  end.
Proof.
  revert k. induction l as [|f l IH]; intros k; cbn; [done|]. destruct (f_ref f =? 0) eqn:E.
  - split; [done|]. exists f. rewrite Nat.sub_diag. split; [done|lia].
  - specialize (IH (S k)). destruct (file_scan (S k) l) as [i|].
    + destruct IH as (Hk & x & Hx & Hr). split; [lia|]. exists x. replace (i - k)%nat with (S (i - S k)) by lia. done.
    + intros [|j] x; cbn; [intros [= <-]; lia|apply IH].
Qed.

(** One file's count changes with one reference. *)
Lemma refs_alter l R R' i g x :
  refs_ok l R -> l !! i = Some x -> f_ref (g x) = Z.of_nat (multiplicity i R') ->
  (forall j, j <> i -> multiplicity j R' = multiplicity j R) -> refs_ok (alter g i l) R'.
Proof.
  intros [Hc Hd] Hx Hg Hj. split.
  - intros j y Hy. destruct (decide (j = i)) as [->|Hne].
    + rewrite list_lookup_alter_eq, Hx in Hy. injection Hy as <-. done.
    + rewrite list_lookup_alter_ne in Hy by done. rewrite Hj by done. by apply Hc.
  - intros j Hin. destruct (decide (j = i)) as [->|Hne].
    + rewrite list_lookup_alter_eq, Hx. eauto.
    + rewrite list_lookup_alter_ne by done. apply Hd. apply elem_of_multiplicity. rewrite <- Hj by done. by apply elem_of_multiplicity.
Qed.

Lemma mult_add (R : gmultiset nat) i j : multiplicity j (R ⊎ {[+ i +]}) = (multiplicity j R + if decide (j = i) then 1 else 0)%nat.
Proof. by rewrite multiplicity_disj_union, multiplicity_singleton. Qed.
Lemma mult_sub (R : gmultiset nat) i j : multiplicity j (R ∖ {[+ i +]}) = (multiplicity j R - if decide (j = i) then 1 else 0)%nat.
Proof. by rewrite multiplicity_difference, multiplicity_singleton. Qed.

Lemma refs_step s s' : fstep s s' -> refs_ok s.1 s.2 -> refs_ok s'.1 s'.2.
Proof.
  destruct 1 as [l R i l' E|l R i l' Hi E|l R i o l' Hi E|l R i g Hg]; cbn; intros Hok.
  - unfold filealloc_section in E. assert (Hs := file_scan_spec 0 l). destruct (file_scan 0 l) as [k|]; [|done]. injection E as -> <-.
    destruct Hs as (_ & x & Hx & Hr). rewrite Nat.sub_0_r in Hx. apply (refs_alter l R _ _ _ x); auto.
    + cbn. rewrite mult_add, decide_True by done. destruct Hok as [Hc _]. rewrite (Hc _ _ Hx) in Hr. lia.
    + intros j Hj. rewrite mult_add, decide_False by done. lia.
  - unfold filedup_section in E. destruct (l !! i) as [x|] eqn:Hx; [|done]. destruct (f_ref x <? 1); [done|]. injection E as <-.
    apply (refs_alter l R _ _ _ x); auto.
    + cbn. rewrite mult_add, decide_True by done. destruct Hok as [Hc _]. rewrite (Hc _ _ Hx). lia.
    + intros j Hj. rewrite mult_add, decide_False by done. lia.
  - rewrite elem_of_multiplicity in Hi. unfold fileclose_section in E. destruct (l !! i) as [x|] eqn:Hx; [|done]. destruct (f_ref x <? 1) eqn:E1; [done|].
    assert (Hr := proj1 Hok i x Hx). assert (Hj : forall j, j <> i -> multiplicity j (R ∖ {[+ i +]}) = multiplicity j R).
    { intros j Hj. rewrite mult_sub, decide_False by done. lia. }
    destruct (0 <? f_ref x - 1) eqn:E2; injection E as _ <-; apply (refs_alter l R _ _ _ x); auto; cbn; rewrite mult_sub, decide_True by done; lia.
  - destruct Hok as [Hc Hd]. split.
    + intros j y Hy. destruct (decide (j = i)) as [->|Hne]; [|rewrite list_lookup_alter_ne in Hy by done; by apply Hc].
      rewrite list_lookup_alter_eq in Hy. destruct (l !! i) as [x|] eqn:Hx; [|done]. injection Hy as <-. rewrite Hg. by apply Hc.
    + intros j Hj. destruct (decide (j = i)) as [->|Hne]; [rewrite list_lookup_alter_eq|by rewrite list_lookup_alter_ne; auto].
      destruct (Hd i Hj) as [x ->]. eauto.
Qed.

(** in every order of opens, dups and closes by all processes, a file's
    count is the number of references to it; filealloc gives out only files
    nobody refers to; filedup and fileclose of a held reference never panic;
    and fileclose hands the file over for release exactly when it was the
    last reference. *)
Theorem file_refcount n s :
  rtc fstep (replicate n file0, ∅) s ->
  let '(l, R) := s in
  (forall i x, l !! i = Some x -> f_ref x = Z.of_nat (multiplicity i R)) /\
  (forall i l', filealloc_section l = Some (i, l') -> i ∉ R) /\
  (forall i, i ∈ R -> (exists l', filedup_section i l = inr l') /\
    exists o l', fileclose_section i l = inr (o, l') /\ (is_Some o <-> multiplicity i R = 1%nat)).
Proof.
  intros Hr. destruct s as [l R]. assert (Hok : refs_ok l R).
  { assert (H0 : refs_ok (replicate n file0) ∅).
    { split; [|intros i Hi; by apply gmultiset_not_elem_of_empty in Hi]. intros i x [-> _]%lookup_replicate. by rewrite multiplicity_empty. }
    remember (replicate n file0, ∅) as s0 eqn:E0. remember (l, R) as s1 eqn:E1.
    assert (G : refs_ok s0.1 s0.2) by (by subst). clear E0 H0. revert E1 G. induction Hr as [s|s s1' s2 Hs _ IH]; intros E1 G; [by subst|].
    apply IH; [done|]. by apply (refs_step s). }
  destruct Hok as [Hc Hd]. split_and!; [done| |].
  - intros i l' E. unfold filealloc_section in E. assert (Hs := file_scan_spec 0 l). destruct (file_scan 0 l) as [k|]; [|done]. injection E as -> <-.
    destruct Hs as (_ & x & Hx & Hr0). rewrite Nat.sub_0_r in Hx. rewrite (Hc _ _ Hx) in Hr0. rewrite elem_of_multiplicity. lia.
  - intros i Hi. destruct (Hd i Hi) as [x Hx]. rewrite elem_of_multiplicity in Hi. assert (Hr1 := Hc i x Hx).
    unfold filedup_section, fileclose_section. rewrite Hx. replace (f_ref x <? 1) with false by lia. split; [eauto|].
    destruct (0 <? f_ref x - 1) eqn:E; eexists _, _; (split; [done|]); split; intros H; first [lia | by eauto | by destruct H].
Qed.

Lemma file_refcount_witness :
  exists l R, rtc fstep (replicate 3 file0, ∅) (l, R) /\ f_ref <$> l !! 0%nat = Some 2 /\ Z.of_nat (multiplicity 0%nat R) = 2.
Proof.
  assert (H : rtc fstep (replicate 3 file0, ∅) (alter (fun x => set_fref (f_ref x + 1) x) 0%nat (alter (set_fref 1) 0%nat (replicate 3 file0)), ∅ ⊎ {[+ 0%nat +]} ⊎ {[+ 0%nat +]})).
  { eapply rtc_l; [apply (FAlloc _ _ 0%nat); reflexivity|]. eapply rtc_l; [apply (FDup _ _ 0%nat); [multiset_solver|reflexivity]|]. apply rtc_refl. }
  eexists _, _. split; [exact H|]. split; [reflexivity|].
  destruct (file_refcount 3 _ H) as (Hc & _). symmetry. exact (Hc 0%nat (MkFile FD_NONE 2 false false 0 0 0) eq_refl).
Defined.
