(* ===== verification/Proc.v ===== *)
(** * Processes (proc.c)

    The operations of proc.c on the whole kernel state: the sections of
    Ptable.v with the memory, the files and the directories they handle.  The
    kernel stack of a process is a page; the trap frame at its top is the field
    [p_tf], and the saved context below it is not represented, as nothing here
    looks at it. *)

From S2P Require Import Prelude.
From S2P Require Import Params.
From S2P Require Import BufSpec.
From S2P Require Import Log.
From S2P Require Import CString.
From S2P Require Import Fs.
From S2P Require Import Mmu.
From S2P Require Import Kalloc.
From S2P Require Import Vm.
From S2P Require Import Pipe.
From S2P Require Import Ptable.
From S2P Require Import Kern.
From S2P Require Import File.

Definition SEG_UCODE : Z := 4.
Definition SEG_UDATA : Z := 5.
Definition DPL_USER : Z := 3.
Definition FL_IF : Z := 512.

Definition set_image (sz pgdir : Z) (p : proc) : proc :=
  MkProc sz pgdir (p_kstack p) (p_state p) (p_pid p) (p_parent p) (p_tf p) (p_chan p) (p_killed p) (p_ofile p)
    (p_cwd p) (p_name p) (p_traceFlag p) (p_totalSysCall p).
Definition set_tf (tf : trapframe) (p : proc) : proc :=
  MkProc (p_sz p) (p_pgdir p) (p_kstack p) (p_state p) (p_pid p) (p_parent p) tf (p_chan p) (p_killed p) (p_ofile p)
    (p_cwd p) (p_name p) (p_traceFlag p) (p_totalSysCall p).
Definition set_ofile (l : list (option nat)) (p : proc) : proc :=
  MkProc (p_sz p) (p_pgdir p) (p_kstack p) (p_state p) (p_pid p) (p_parent p) (p_tf p) (p_chan p) (p_killed p) l
    (p_cwd p) (p_name p) (p_traceFlag p) (p_totalSysCall p).
Definition set_cwd (d : option nat) (p : proc) : proc :=
  MkProc (p_sz p) (p_pgdir p) (p_kstack p) (p_state p) (p_pid p) (p_parent p) (p_tf p) (p_chan p) (p_killed p) (p_ofile p)
    d (p_name p) (p_traceFlag p) (p_totalSysCall p).
Definition set_trace (b : bool) (n : Z) (p : proc) : proc :=
  MkProc (p_sz p) (p_pgdir p) (p_kstack p) (p_state p) (p_pid p) (p_parent p) (p_tf p) (p_chan p) (p_killed p) (p_ofile p)
    (p_cwd p) (p_name p) b n.

Definition set_eax (v : Z) (tf : trapframe) : trapframe :=
  MkTf (tf_edi tf) (tf_esi tf) (tf_ebp tf) (tf_oesp tf) (tf_ebx tf) (tf_edx tf) (tf_ecx tf) v (tf_gs tf) (tf_fs tf)
    (tf_es tf) (tf_ds tf) (tf_trapno tf) (tf_err tf) (tf_eip tf) (tf_cs tf) (tf_eflags tf) (tf_esp tf) (tf_ss tf).
Definition set_entry (eip esp : Z) (tf : trapframe) : trapframe :=
  MkTf (tf_edi tf) (tf_esi tf) (tf_ebp tf) (tf_oesp tf) (tf_ebx tf) (tf_edx tf) (tf_ecx tf) (tf_eax tf) (tf_gs tf) (tf_fs tf)
    (tf_es tf) (tf_ds tf) (tf_trapno tf) (tf_err tf) eip (tf_cs tf) (tf_eflags tf) esp (tf_ss tf).

(** The frame userinit builds. *)
Definition user_tf : trapframe :=
  let cs := Z.lor (Z.shiftl SEG_UCODE 3) DPL_USER in
  let ds := Z.lor (Z.shiftl SEG_UDATA 3) DPL_USER in
  MkTf 0 0 0 0 0 0 0 0 0 0 ds ds 0 0 0 cs FL_IF PGSIZE ds.

Section Proc.
Context {S : Type} `{!BufferCache S}.
Context (devsw : Z -> devops S) (end_ data_ : Z) (me : nat).

Local Abbreviation K := (M (kern S)).

Definition getproc (i : nat) : K proc := fun k =>
  match pt_proc (ks_pt k) !! i with
  | Some p => Ret p k
  | None => Fail (FUndef "no such process")
  end.
Definition modproc (i : nat) (g : proc -> proc) : K unit := pt_call (upd_proc i g).

Definition allocproc : K (option nat) := fun k =>
  match alloc_slot (ks_pt k) with
  | None => Ret None k
  | Some (i, t) =>
      (modify (set_pt t) ;;
       let! ks := vm_call kalloc in
       modproc i (set_kstack ks) ;;
       if ks =? 0 then modproc i (set_state UNUSED) ;; ret None
       else modproc i (fun p => set_trace false (p_totalSysCall p) p) ;; ret (Some i)) k
  end.

(** [initcode] and [initsize] locate the first program in the kernel image;
    [name0] is the initial contents of namei's local array. *)
Definition userinit (initcode initsize : Z) (name0 : list Z) : K unit :=
  let! p := allocproc in
  match p with
  | None => undef "userinit without a process"
  | Some p =>
      pt_call (fun t => MkPtable (pt_proc t) (pt_nextpid t) p) ;;
      let! pgdir := vm_call (setupkvm data_) in
      modproc p (fun x => set_image (p_sz x) pgdir x) ;;
      if pgdir =? 0 then panic "userinit: out of memory?" else
      vm_call (inituvm pgdir initcode initsize) ;;
      modproc p (set_image PGSIZE pgdir) ;;
      modproc p (set_tf user_tf) ;;
      let! x := getproc p in
      match KString.safestrcpy (p_name x) [105; 110; 105; 116; 99; 111; 100; 101; 0] 16 with
      | None => undef "safestrcpy"
      | Some nm =>
          modproc p (set_name nm) ;;
          let! d := fs_call (namei devsw 0 name0 [slash]) in
          modproc p (set_cwd d) ;;
          modproc p (set_state RUNNABLE)
      end
  end.

(** growproc; switchuvm only reloads the processor's registers. *)
Definition growproc (n : Z) : K Z :=
  let! p := curproc me in
  let sz := p_sz p in
  let! sz' :=
    (if n >? 0 then vm_call (allocuvm end_ (p_pgdir p) sz (u32 (sz + n)))
     else if n <? 0 then vm_call (deallocuvm end_ (p_pgdir p) sz (u32 (sz + n)))
     else ret sz) in
  if negb (n =? 0) && (sz' =? 0) then ret (-1) else
  modproc me (set_image sz' (p_pgdir p)) ;;
  ret 0.

Fixpoint fork_files (np : nat) (fd : Z) (l : list (option nat)) : K unit :=
  match l with
  | [] => ret tt
  | o :: l =>
      (match o with
       | None => ret tt
       | Some f =>
           let! f := filedup f in
           modproc np (fun p => set_ofile (zset (p_ofile p) fd (Some f)) p)
       end) ;;
      fork_files np (fd + 1) l
  end.

Definition fork : K Z :=
  let! np := allocproc in
  match np with
  | None => ret (-1)
  | Some np =>
      let! cur := curproc me in
      let! pgdir := vm_call (copyuvm end_ data_ (p_pgdir cur) (p_sz cur)) in
      let! x := getproc np in
      modproc np (set_image (p_sz x) pgdir) ;;
      if pgdir =? 0 then
        vm_call (kfree end_ (p_kstack x)) ;;
        modproc np (set_kstack 0) ;;
        modproc np (set_state UNUSED) ;;
        ret (-1)
      else
        modproc np (set_image (p_sz cur) pgdir) ;;
        modproc np (set_parent (Some me)) ;;
        modproc np (set_tf (set_eax 0 (p_tf cur))) ;;
        fork_files np 0 (p_ofile cur) ;;
        match p_cwd cur with
        | None => undef "fork without a current directory"
        | Some d =>
            let! d := fs_call (idup d) in
            modproc np (set_cwd (Some d)) ;;
            let! x := getproc np in
            match KString.safestrcpy (p_name x) (p_name cur) 16 with
            | None => undef "safestrcpy"
            | Some nm =>
                modproc np (set_name nm) ;;
                modproc np (set_state RUNNABLE) ;;
                ret (p_pid x)
            end
        end
  end.

Fixpoint exit_files (fd : Z) (l : list (option nat)) : K unit :=
  match l with
  | [] => ret tt
  | o :: l =>
      (match o with
       | None => ret tt
       | Some f => fileclose end_ f ;; modproc me (fun p => set_ofile (zset (p_ofile p) fd None) p)
       end) ;;
      exit_files (fd + 1) l
  end.

(** exit, up to the switch to the scheduler, from which it does not return. *)
Definition exit : K unit :=
  let! init := get (fun k => pt_initproc (ks_pt k)) in
  if bool_decide (me = init) then panic "init exiting" else
  let! p := curproc me in
  exit_files 0 (p_ofile p) ;;
  fs_call (log_call begin_op) ;;
  (match p_cwd p with
   | None => undef "exit without a current directory"
   | Some d => fs_call (iput d)
   end) ;;
  fs_call (log_call end_op) ;;
  modproc me (set_cwd None) ;;
  pt_call (exit_section me).

Definition wait : K Z :=
  let! p := curproc me in
  let! r := get (fun k => wait_scan me 0 (pt_proc (ks_pt k)) false) in
  match r with
  | (_, Some i) =>
      let! c := getproc i in
      vm_call (kfree end_ (p_kstack c)) ;;
      vm_call (freevm end_ (p_pgdir c)) ;;
      modproc i reap ;;
      ret (p_pid c)
  | (havekids, None) =>
      if negb havekids || p_killed p then ret (-1) else sleep_on (ChProc me)
  end.

Definition kill (pid : Z) : K Z := fun k =>
  let '(r, t) := kill_section pid (ks_pt k) in Ret r (set_pt t k).

End Proc.
