(* ===== verification/Args.v ===== *)
(** * System call arguments (the fetching half of syscall.c)

    The arguments lie on the user's stack; every pointer is checked against
    the size of the process before the kernel uses it.  [None] stands for the
    result -1. *)

From S2P Require Import Prelude.
From S2P Require Import Params.
From S2P Require Import Disk.
From S2P Require Import BufSpec.
From S2P Require Import Bio.
From S2P Require Import Log.
From S2P Require Import CString.
From S2P Require Import Fs.
From S2P Require Import FsAlloc.
From S2P Require Import FsFile.
From S2P Require Import Mmu.
From S2P Require Import Kalloc.
From S2P Require Import Vm.
From S2P Require Import VmPt.
From S2P Require Import VmUser.
From S2P Require Import Ptable.
From S2P Require Import Kern.

Section Args.
Context {S : Type} `{!BufferCache S}.
Context (me : nat).

Local Abbreviation K := (M (kern S)).

Definition fetchint (addr : Z) : K (option Z) :=
  let! p := curproc me in
  if (addr >=? p_sz p) || (u32 (addr + 4) >? p_sz p) then ret None
  else
    let! bs := user_load me addr 4 in
    ret (Some (i32 (le_value bs))).

(** The string's bytes up to its NUL; the pointer is the address itself. *)
Fixpoint fetchstr_loop (n : nat) (s : Z) (acc : list Z) : K (option (list Z)) :=
  match n with
  | O => ret None
  | Datatypes.S n =>
      let! bs := user_load me s 1 in
      let c := zget bs 0 in
      if c =? 0 then ret (Some acc) else fetchstr_loop n (s + 1) (acc ++ [c])
  end.
Definition fetchstr (addr : Z) : K (option (list Z)) :=
  let! p := curproc me in
  if addr >=? p_sz p then ret None
  else fetchstr_loop (Z.to_nat (p_sz p - addr)) addr [].

Definition argint (n : Z) : K (option Z) :=
  let! p := curproc me in
  fetchint (u32 (tf_esp (p_tf p) + 4 + 4 * n)).

Definition argptr (n size : Z) : K (option Z) :=
  let! i := argint n in
  match i with
  | None => ret None
  | Some i =>
      let! p := curproc me in
      if (u32 i >=? p_sz p) || (u32 (u32 i + size) >? p_sz p) then ret None
      else ret (Some (u32 i))
  end.

Definition argstr (n : Z) : K (option (list Z)) :=
  let! addr := argint n in
  match addr with
  | None => ret None
  | Some addr => fetchstr (u32 addr)
  end.

End Args.

(** ** What the checks give

    The address space of the current process: every address below its size is
    mapped. *)
Section Bounds.
Context {S : Type} `{!BufferCache S}.
Context (me : nat).
Implicit Types k : kern S.

Definition image_mapped k (p : proc) : Prop :=
  pt_proc (ks_pt k) !! me = Some p /\ 0 <= p_sz p <= KERNBASE /\
  forall va, 0 <= va < p_sz p -> is_Some (translate (k_mem (ks_vm k)) (p_pgdir p) va).

Lemma load_bytes_mapped m pd va n :
  (forall a, va <= a < va + Z.of_nat n -> is_Some (translate m pd a)) ->
  exists bs, load_bytes m pd va n = Some bs /\ length bs = n.
Proof.
  revert va. induction n as [|n IH]; intros va H; cbn [load_bytes]; [by exists []|].
  destruct (H va ltac:(lia)) as [[pa fl] E]. rewrite E. destruct (IH (va + 1)) as (bs & -> & Hl); [intros a Ha; apply H; lia|].
  eexists. split; [done|]. cbn. by rewrite Hl.
Qed.

Lemma curproc_run k p : pt_proc (ks_pt k) !! me = Some p -> curproc me k = Ret p k.
Proof. intros H. unfold curproc. by rewrite H. Qed.

Lemma user_load_run k p va n :
  image_mapped k p -> 0 <= va -> 0 <= n -> va + n <= p_sz p ->
  exists bs, user_load me va n k = Ret bs k /\ zlen bs = n.
Proof.
  intros (Hp & Hsz & Hm) Hva Hn Hle. unfold user_load. run (curproc_run k p Hp).
  destruct (load_bytes_mapped (k_mem (ks_vm k)) (p_pgdir p) va (Z.to_nat n)) as (bs & E & Hl); [intros a Ha; apply Hm; lia|].
  rewrite E. exists bs. split; [done|]. unfold zlen. lia.
Qed.

Lemma fetchint_run k p addr :
  image_mapped k p -> is_u32 addr ->
  exists r, fetchint me addr k = Ret r k /\ (is_Some r <-> addr + 4 <= p_sz p) /\ forall v, r = Some v -> -2147483648 <= v < 2147483648.
Proof.
  intros Hk Ha. assert (Hk' := Hk). destruct Hk' as (Hp & Hsz & Hm). unfold fetchint. run (curproc_run k p Hp). unfold is_u32, KERNBASE in *.
  destruct ((addr >=? p_sz p) || (u32 (addr + 4) >? p_sz p)) eqn:E.
  - exists None. split; [done|]. split; [|done]. split; [by intros [? ?]|]. unfold u32 in E. intros H. exfalso.
    rewrite Z.mod_small in E by lia. lia.
  - assert (addr < p_sz p) by lia. assert (addr + 4 <= p_sz p) by (unfold u32 in E; rewrite Z.mod_small in E by lia; lia).
    destruct (user_load_run k p addr 4 Hk) as (bs & Eb & Hl); [lia..|]. run Eb. eexists. split; [done|]. split; [split; [done|eauto]|].
    intros v [= <-]. unfold i32. dlia.
Qed.

Lemma argint_run k p n :
  image_mapped k p -> exists r, argint me n k = Ret r k /\ forall v, r = Some v -> -2147483648 <= v < 2147483648.
Proof.
  intros Hk. assert (Hk' := Hk). destruct Hk' as (Hp & _). unfold argint. run (curproc_run k p Hp).
  destruct (fetchint_run k p (u32 (tf_esp (p_tf p) + 4 + 4 * n)) Hk (u32_range _)) as (r & E & _ & Hv). by exists r.
Qed.

(** The string at [s], read up to the end [ep] of the image. *)
Lemma fetchstr_loop_run k p n s acc :
  image_mapped k p -> 0 <= s -> s + Z.of_nat n = p_sz p ->
  exists r, fetchstr_loop me n s acc k = Ret r k /\
    forall str, r = Some str -> exists t, str = acc ++ t /\ Forall (fun x => x <> 0) t /\ s + zlen t < p_sz p /\
      load_bytes (k_mem (ks_vm k)) (p_pgdir p) s (length t + 1) = Some (t ++ [0]).
Proof.
  intros Hk. revert s acc. induction n as [|n IH]; intros s acc Hs Hn; cbn [fetchstr_loop]; [by exists None|].
  destruct (user_load_run k p s 1 Hk) as (bs & Eb & Hl); [lia..|]. run Eb. destruct bs as [|c [|d bs]]; [done| |unfold zlen in Hl; cbn [length] in Hl; lia].
  change (zget [c] 0) with c. assert (El : load_bytes (k_mem (ks_vm k)) (p_pgdir p) s 1 = Some [c]).
  { unfold user_load in Eb. destruct Hk as (Hp & _). rewrite (bind_run _ _ _ _ _ (curproc_run k p Hp)) in Eb. cbv beta in Eb.
    change (Z.to_nat 1) with 1%nat in Eb. destruct (load_bytes _ _ s 1) as [x|] eqn:E; [|done]. congruence. }
  destruct (c =? 0) eqn:Ec.
  - exists (Some acc). split; [done|]. intros str [= <-]. exists []. rewrite app_nil_r. split_and!; auto; [unfold zlen; cbn; lia|].
    apply Z.eqb_eq in Ec as ->. exact El.
  - destruct (IH (s + 1) (acc ++ [c])) as (r & E & Hr); [lia..|]. exists r. split; [exact E|]. intros str Hstr. destruct (Hr str Hstr) as (t & -> & Ht & Hlt & Hld).
    exists (c :: t). rewrite <- app_assoc. split_and!; [done|constructor; [lia|done]|unfold zlen in *; cbn [length]; lia|].
    cbn [length Nat.add]. cbn [load_bytes] in El |- *. destruct (translate _ _ s) as [[pa fl]|]; [|done].
    cbn in El. injection El as <-. rewrite Hld. done.
Qed.

(** C38: with the image of the process mapped, fetching an argument never faults
    and changes nothing, whatever the user's stack pointer is; a pointer that
    argptr accepts for a block of [size] bytes lies with the whole block in
    the image, and a string that argstr accepts is terminated in it. *)
Theorem args_bounds k p n size :
  image_mapped k p -> 0 <= size < 2147483648 ->
  (exists r, argint me n k = Ret r k) /\
  (exists r, argptr me n size k = Ret r k /\ forall a, r = Some a -> 0 <= a < p_sz p /\ a + size <= p_sz p) /\
  (exists r, argstr me n k = Ret r k /\ forall str, r = Some str -> Forall (fun x => x <> 0) str /\
     exists a, 0 <= a /\ a + zlen str < p_sz p /\ load_bytes (k_mem (ks_vm k)) (p_pgdir p) a (length str + 1) = Some (str ++ [0])).
Proof.
  intros Hk Hsize. assert (Hk' := Hk). destruct Hk' as (Hp & Hsz & _). destruct (argint_run k p n Hk) as (i & Ei & Hi). split_and!.
  - by exists i.
  - unfold argptr. run Ei. destruct i as [i|]; [|by exists None]. run (curproc_run k p Hp).
    destruct ((u32 i >=? p_sz p) || (u32 (u32 i + size) >? p_sz p)) eqn:E; [by exists None|]. eexists. split; [done|]. intros a [= <-].
    assert (H := u32_range i). unfold is_u32, KERNBASE in *. rewrite (u32_small (u32 i + size)) in E by (unfold is_u32; lia). lia.
  - unfold argstr. run Ei. destruct i as [i|]; [|by exists None]. unfold fetchstr. run (curproc_run k p Hp).
    destruct (u32 i >=? p_sz p) eqn:E; [by exists None|]. assert (H := u32_range i). unfold is_u32 in H.
    destruct (fetchstr_loop_run k p (Z.to_nat (p_sz p - u32 i)) (u32 i) [] Hk) as (r & Er & Hr); [lia..|]. exists r. split; [exact Er|].
    intros str Hstr. destruct (Hr str Hstr) as (t & -> & Ht & Hlt & Hld). cbn [app]. split; [done|]. exists (u32 i). split_and!; [lia|done|done].
Qed.

(** argptr adds the size as an unsigned number, so a negative size passes:
    the block of -1 bytes at the last byte of the image is accepted. *)
Theorem argptr_negative k p n i :
  pt_proc (ks_pt k) !! me = Some p -> argint me n k = Ret (Some i) k -> 0 < i < p_sz p -> p_sz p <= KERNBASE ->
  argptr me n (-1) k = Ret (Some i) k.
Proof.
  intros Hp Ei Hi Hsz. unfold argptr. run Ei. run (curproc_run k p Hp). unfold KERNBASE in *.
  rewrite (u32_small i) by (unfold is_u32; lia). rewrite (u32_small (i + -1)) by (unfold is_u32; lia).
  replace ((i >=? p_sz p) || (i + -1 >? p_sz p)) with false by lia. done.
Qed.
End Bounds.

(** A process with one page of memory; its stack pointer is at 16, where the
    first argument word, 32, lies at address 20. *)
Definition ex_mem : mem :=
  stl (stl (stl (fun _ => 0) 0x80200000 (0x201000 + 7)) 0x80201000 (0x202000 + 7)) (0x80202000 + 20) 32.
Definition ex_proc : proc :=
  MkProc 4096 0x80200000 0 RUNNING 1 None (MkTf 0 0 0 0 0 0 0 0 0 0 0 0 0 0 0 0 0 16 0) None false [] None [] false 0.
Definition ex_kern : kern (bio Memide.memdisk) :=
  MkKern ex_fs (MkKst ex_mem 0 false) [] ∅ (MkPtable [ex_proc] 2 0) 0 [].

Lemma ex_mapped : image_mapped 0 ex_kern ex_proc.
Proof.
  split; [done|]. split; [done|]. intros va Hva. cbn [p_sz p_pgdir ex_proc ex_kern ks_vm k_mem] in *. unfold translate.
  replace (va / 4194304) with 0 by dlia. replace (va / 4096 mod 1024) with 0 by dlia.
  change (ldl ex_mem (0x80200000 + 4 * 0)) with (0x201000 + 7). change (Z.odd (0x201000 + 7)) with true. cbv iota.
  change (ldl ex_mem (KERNBASE + (0x201000 + 7) / 4096 * 4096 + 4 * 0)) with (0x202000 + 7). eauto.
Qed.

Lemma args_bounds_witness :
  exists r, argptr 0 0 100 ex_kern = Ret r ex_kern /\ forall a, r = Some a -> 0 <= a < 4096 /\ a + 100 <= 4096.
Proof. apply (args_bounds 0 ex_kern ex_proc 0 100 ex_mapped). lia. Defined.

Lemma argptr_negative_witness : argptr 0 0 (-1) ex_kern = Ret (Some 32) ex_kern.
Proof. apply (argptr_negative 0 ex_kern ex_proc 0 32); [reflexivity|vm_compute; reflexivity|cbn; lia|done]. Defined.
