(* ===== verification/Sysproc.v ===== *)
(** * System calls on processes (sysproc.c) *)

From S2P Require Import Prelude.
From S2P Require Import Params.
From S2P Require Import BufSpec.
From S2P Require Import Fs.
From S2P Require Import Mmu.
From S2P Require Import Kalloc.
From S2P Require Import Vm.
From S2P Require Import Ptable.
From S2P Require Import Kern.
From S2P Require Import File.
From S2P Require Import Proc.
From S2P Require Import Args.

Section Sysproc.
Context {S : Type} `{!BufferCache S}.
Context (devsw : Z -> devops S) (end_ data_ : Z) (me : nat).

Local Abbreviation K := (M (kern S)).

Definition sys_fork : K Z := fork end_ data_ me.
Definition sys_exit : K Z := exit end_ me ;; ret 0.
Definition sys_wait : K Z := wait end_ me.

Definition sys_kill : K Z :=
  let! pid := argint me 0 in
  match pid with
  | None => ret (-1)
  | Some pid => kill pid
  end.

Definition sys_getpid : K Z := let! p := curproc me in ret (p_pid p).

Definition sys_sbrk : K Z :=
  let! n := argint me 0 in
  match n with
  | None => ret (-1)
  | Some n =>
      let! p := curproc me in
      let addr := i32 (p_sz p) in
      let! r := growproc end_ me n in
      if r <? 0 then ret (-1) else ret addr
  end.

(** The loop of sys_sleep from the tick [ticks0] at which the call was made; a
    process woken by the clock resumes here.  [ticks - ticks0 < n] compares
    unsigned numbers. *)
Definition sleep_loop (ticks0 n : Z) : K Z :=
  let! ticks := get ks_ticks in
  if u32 (ticks - ticks0) <? u32 n then
    let! p := curproc me in
    if p_killed p then ret (-1) else sleep_on ChTicks
  else ret 0.

Definition sys_sleep : K Z :=
  let! n := argint me 0 in
  match n with
  | None => ret (-1)
  | Some n =>
      let! ticks0 := get ks_ticks in
      sleep_loop ticks0 n
  end.

Definition sys_uptime : K Z := let! t := get ks_ticks in ret (i32 t).

(** sys_trace is called through the table of functions without parameters, so
    its parameter [x] is whatever the stack holds there. *)
Definition sys_trace (x : Z) : K Z :=
  print "\ncalling trace\n" [] ;;
  let! p := curproc me in
  print "caller pid is %d" [p_pid p] ;;
  if negb (x =? 0) then
    upd_cur me (fun p => set_trace true (p_totalSysCall p) p) ;;
    ret (p_totalSysCall p)
  else
    upd_cur me (fun p => set_trace false 0 p) ;;
    ret (p_totalSysCall p).

End Sysproc.
