(* ===== verification/Sysfile.v ===== *)
(** * File system calls (sysfile.c)

    The whole system calls: argument checking, the transaction around the file
    system operations, the error exits with what they release.  [name0] and
    [de0] are the initial contents of the local arrays [name] and [de]. *)

From S2P Require Import Prelude.
From S2P Require Import Params.
From S2P Require Import BufSpec.
From S2P Require Import Log.
From S2P Require Import CString.
From S2P Require Import Fs.
From S2P Require Import Mmu.
From S2P Require Import Kalloc.
From S2P Require Import Vm.
From S2P Require Import Pipe.
From S2P Require Import Ptable.
From S2P Require Import Kern.
From S2P Require Import File.
From S2P Require Import Proc.
From S2P Require Import Args.
From S2P Require Import Sh.

Definition dot : list Z := [46; 0].
Definition dotdot : list Z := [46; 46; 0].

(** fdalloc's search for a free descriptor. *)
Fixpoint fd_scan (fd : Z) (l : list (option nat)) : option Z :=
  match l with
  | [] => None
  | None :: _ => Some fd
  | Some _ :: l => fd_scan (fd + 1) l
  end.

Lemma fd_scan_spec fd l r :
  fd_scan fd l = Some r -> fd <= r /\ l !! Z.to_nat (r - fd) = Some None.
Proof.
  revert fd. induction l as [|[o|] l IH]; intros fd; cbn; [done|..].
  - intros [H1 H2]%IH. split; [lia|]. replace (Z.to_nat (r - fd)) with (S (Z.to_nat (r - (fd + 1)))) by lia. done.
  - intros [= <-]. rewrite Z.sub_diag. done.
Qed.

Lemma fd_scan_low fd l r j :
  fd_scan fd l = Some r -> fd <= j < r -> exists o, l !! Z.to_nat (j - fd) = Some (Some o).
Proof.
  revert fd. induction l as [|[o|] l IH]; intros fd; cbn; [done|..].
  - intros H Hj. destruct (decide (j = fd)) as [->|Hne]; [rewrite Z.sub_diag; by exists o|].
    destruct (IH _ H ltac:(lia)) as [o' Ho]. exists o'.
    by replace (Z.to_nat (j - fd)) with (S (Z.to_nat (j - (fd + 1)))) by lia.
  - intros [= <-]. lia.
Qed.

Section Sysfile.
Context {S : Type} `{!BufferCache S}.
Context (devsw : Z -> devops S) (end_ : Z) (me : nat) (name0 de0 : list Z).

Local Abbreviation K := (M (kern S)).
Local Abbreviation begin := (fs_call (log_call begin_op)).
Local Abbreviation end' := (fs_call (log_call end_op)).

Definition argfd (n : Z) : K (option (Z * nat)) :=
  let! fd := argint me n in
  match fd with
  | None => ret None
  | Some fd =>
      let! p := curproc me in
      if (fd <? 0) || (fd >=? Z.of_nat NOFILE) then ret None else
      match p_ofile p !! Z.to_nat fd with
      | Some (Some f) => ret (Some (fd, f))
      | _ => ret None
      end
  end.

Definition fdalloc (f : nat) : K Z :=
  let! p := curproc me in
  match fd_scan 0 (p_ofile p) with
  | None => ret (-1)
  | Some fd => upd_cur me (fun p => set_ofile (zset (p_ofile p) fd (Some f)) p) ;; ret fd
  end.

Definition sys_dup : K Z :=
  let! a := argfd 0 in
  match a with
  | None => ret (-1)
  | Some (_, f) =>
      let! fd := fdalloc f in
      if fd <? 0 then ret (-1) else filedup f ;; ret fd
  end.

(** The arguments of read and write: file, count and buffer. *)
Definition rw_args : K (option (nat * Z * Z)) :=
  let! a := argfd 0 in
  match a with
  | None => ret None
  | Some (_, f) =>
      let! n := argint me 2 in
      match n with
      | None => ret None
      | Some n =>
          let! p := argptr me 1 n in
          match p with
          | None => ret None
          | Some p => ret (Some (f, n, p))
          end
      end
  end.

Definition sys_read : K Z :=
  let! a := rw_args in
  match a with
  | None => ret (-1)
  | Some (f, n, p) => fileread devsw me f p n
  end.

Definition sys_write : K Z :=
  let! a := rw_args in
  match a with
  | None => ret (-1)
  | Some (f, n, p) => filewrite devsw me f p n
  end.

Definition sys_close : K Z :=
  let! a := argfd 0 in
  match a with
  | None => ret (-1)
  | Some (fd, f) =>
      upd_cur me (fun p => set_ofile (zset (p_ofile p) fd None) p) ;;
      fileclose end_ f ;;
      ret 0
  end.

Definition sizeof_stat : Z := 20.
Definition sys_fstat : K Z :=
  let! a := argfd 0 in
  match a with
  | None => ret (-1)
  | Some (_, f) =>
      let! st := argptr me 1 sizeof_stat in
      match st with
      | None => ret (-1)
      | Some st => filestat me f st
      end
  end.

(** namei and nameiparent from the current directory. *)
Definition k_namei (path : list Z) : K (option nat) :=
  let! p := curproc me in
  match p_cwd p with
  | None => undef "no current directory"
  | Some cwd => fs_call (namei devsw cwd name0 path)
  end.
Definition k_nameiparent (path : list Z) : K (option nat * list Z) :=
  let! p := curproc me in
  match p_cwd p with
  | None => undef "no current directory"
  | Some cwd => fs_call (nameiparent devsw cwd path name0)
  end.

(** The exit [bad] of sys_link takes the link back. *)
Definition link_bad (ip : nat) : K Z :=
  fs_call (ilock ip) ;;
  fs_call (modip ip (fun x => set_nlink (i16 (i_nlink x - 1)) x)) ;;
  fs_call (iupdate ip) ;;
  fs_call (iunlockput ip) ;;
  end' ;;
  ret (-1).

Definition sys_link : K Z :=
  let! old := argstr me 0 in
  match old with
  | None => ret (-1)
  | Some old =>
      let! new := argstr me 1 in
      match new with
      | None => ret (-1)
      | Some new =>
          begin ;;
          let! ip := k_namei old in
          match ip with
          | None => end' ;; ret (-1)
          | Some ip =>
              fs_call (ilock ip) ;;
              let! x := fs_call (getip ip) in
              if i_type x =? T_DIR then fs_call (iunlockput ip) ;; end' ;; ret (-1) else
              fs_call (modip ip (fun x => set_nlink (i16 (i_nlink x + 1)) x)) ;;
              fs_call (iupdate ip) ;;
              fs_call (iunlock ip) ;;
              let! (dp, name) := k_nameiparent new in
              match dp with
              | None => link_bad ip
              | Some dp =>
                  fs_call (ilock dp) ;;
                  let! d := fs_call (getip dp) in
                  let! x := fs_call (getip ip) in
                  let! bad :=
                    (if negb (i_dev d =? i_dev x) then ret true
                     else let! r := fs_call (dirlink devsw de0 dp name (i_inum x)) in ret (r <? 0)) in
                  if bad then fs_call (iunlockput dp) ;; link_bad ip
                  else
                    fs_call (iunlockput dp) ;;
                    fs_call (iput ip) ;;
                    end' ;;
                    ret 0
              end
          end
      end
  end.

Fixpoint isdirempty_loop (fuel : nat) (dp : nat) (off : Z) : M (fs S) bool :=
  let! x := getip dp in
  if off <? i_size x then
    match fuel with
    | O => out_of_fuel
    | Datatypes.S fuel =>
        let! r := readi devsw dp off sizeof_dirent in
        if negb (r.1 =? sizeof_dirent) then panic "isdirempty: readi"
        else if negb (de_inum r.2 =? 0) then ret false
        else isdirempty_loop fuel dp (off + sizeof_dirent)
    end
  else ret true.
Definition isdirempty (dp : nat) : M (fs S) bool :=
  let! x := getip dp in
  isdirempty_loop (Z.to_nat (i_size x / sizeof_dirent + 1)) dp (2 * sizeof_dirent).

(** The exit [bad] of sys_unlink. *)
Definition unlink_bad (dp : nat) : K Z := fs_call (iunlockput dp) ;; end' ;; ret (-1).

Definition sys_unlink : K Z :=
  let! path := argstr me 0 in
  match path with
  | None => ret (-1)
  | Some path =>
      begin ;;
      let! (dp, name) := k_nameiparent path in
      match dp with
      | None => end' ;; ret (-1)
      | Some dp =>
          fs_call (ilock dp) ;;
          let! r1 := fs_call (namecmp name dot) in
          if r1 =? 0 then unlink_bad dp else
          let! r2 := fs_call (namecmp name dotdot) in
          if r2 =? 0 then unlink_bad dp else
          let! r := fs_call (dirlookup devsw dp name) in
          match r with
          | None => unlink_bad dp
          | Some (ip, off) =>
              fs_call (ilock ip) ;;
              let! x := fs_call (getip ip) in
              if i_nlink x <? 1 then panic "unlink: nlink < 1" else
              let! full :=
                (if i_type x =? T_DIR then let! e := fs_call (isdirempty ip) in ret (negb e) else ret false) in
              if full then fs_call (iunlockput ip) ;; unlink_bad dp else
              let! w := fs_call (writei devsw dp (replicate (Z.to_nat sizeof_dirent) 0) off sizeof_dirent) in
              if negb (w =? sizeof_dirent) then panic "unlink: writei" else
              (if i_type x =? T_DIR then
                 fs_call (modip dp (fun d => set_nlink (i16 (i_nlink d - 1)) d)) ;;
                 fs_call (iupdate dp)
               else ret tt) ;;
              fs_call (iunlockput dp) ;;
              fs_call (modip ip (fun x => set_nlink (i16 (i_nlink x - 1)) x)) ;;
              fs_call (iupdate ip) ;;
              fs_call (iunlockput ip) ;;
              end' ;;
              ret 0
          end
      end
  end.

Definition create (path : list Z) (type major minor : Z) : K (option nat) :=
  let! (dp, name) := k_nameiparent path in
  match dp with
  | None => ret None
  | Some dp =>
      fs_call (ilock dp) ;;
      let! r := fs_call (dirlookup devsw dp name) in
      match r with
      | Some (ip, _) =>
          fs_call (iunlockput dp) ;;
          fs_call (ilock ip) ;;
          let! x := fs_call (getip ip) in
          if (type =? T_FILE) && (i_type x =? T_FILE) then ret (Some ip)
          else fs_call (iunlockput ip) ;; ret None
      | None =>
          let! d := fs_call (getip dp) in
          let! ip := fs_call (ialloc (i_dev d) type) in
          fs_call (ilock ip) ;;
          fs_call (modip ip (fun x => set_nlink 1 (set_devno major minor x))) ;;
          fs_call (iupdate ip) ;;
          let! x := fs_call (getip ip) in
          (if type =? T_DIR then
             fs_call (modip dp (fun d => set_nlink (i16 (i_nlink d + 1)) d)) ;;
             fs_call (iupdate dp) ;;
             let! r1 := fs_call (dirlink devsw de0 ip dot (i_inum x)) in
             if r1 <? 0 then panic "create dots" else
             let! r2 := fs_call (dirlink devsw de0 ip dotdot (i_inum d)) in
             if r2 <? 0 then panic "create dots" else ret tt
           else ret tt) ;;
          let! r3 := fs_call (dirlink devsw de0 dp name (i_inum x)) in
          if r3 <? 0 then panic "create: dirlink" else
          fs_call (iunlockput dp) ;;
          ret (Some ip)
      end
  end.

(** The inode that sys_open opens, locked; [None] after the error exits. *)
Definition open_inode (path : list Z) (omode : Z) : K (option nat) :=
  if negb (Z.land omode O_CREATE =? 0) then
    let! ip := create path T_FILE 0 0 in
    match ip with
    | None => end' ;; ret None
    | Some ip => ret (Some ip)
    end
  else
    let! ip := k_namei path in
    match ip with
    | None => end' ;; ret None
    | Some ip =>
        fs_call (ilock ip) ;;
        let! x := fs_call (getip ip) in
        if (i_type x =? T_DIR) && negb (omode =? O_RDONLY) then
          fs_call (iunlockput ip) ;; end' ;; ret None
        else ret (Some ip)
    end.

Definition open_file (ip : nat) (omode : Z) (f : file) : file :=
  MkFile FD_INODE (f_ref f) (Z.land omode O_WRONLY =? 0)
    (negb (Z.land omode O_WRONLY =? 0) || negb (Z.land omode O_RDWR =? 0)) (f_pipe f) ip 0.

Definition sys_open : K Z :=
  let! path := argstr me 0 in
  match path with
  | None => ret (-1)
  | Some path =>
      let! omode := argint me 1 in
      match omode with
      | None => ret (-1)
      | Some omode =>
          begin ;;
          let! ip := open_inode path omode in
          match ip with
          | None => ret (-1)
          | Some ip =>
              let! f := filealloc in
              match f with
              | None => fs_call (iunlockput ip) ;; end' ;; ret (-1)
              | Some f =>
                  let! fd := fdalloc f in
                  if fd <? 0 then
                    fileclose end_ f ;; fs_call (iunlockput ip) ;; end' ;; ret (-1)
                  else
                    fs_call (iunlock ip) ;;
                    end' ;;
                    modfile f (open_file ip omode) ;;
                    ret fd
              end
          end
      end
  end.

Definition sys_mkdir : K Z :=
  begin ;;
  let! path := argstr me 0 in
  match path with
  | None => end' ;; ret (-1)
  | Some path =>
      let! ip := create path T_DIR 0 0 in
      match ip with
      | None => end' ;; ret (-1)
      | Some ip => fs_call (iunlockput ip) ;; end' ;; ret 0
      end
  end.

Definition sys_mknod : K Z :=
  begin ;;
  let! path := argstr me 0 in
  match path with
  | None => end' ;; ret (-1)
  | Some path =>
      let! major := argint me 1 in
      match major with
      | None => end' ;; ret (-1)
      | Some major =>
          let! minor := argint me 2 in
          match minor with
          | None => end' ;; ret (-1)
          | Some minor =>
              let! ip := create path T_DEV (i16 major) (i16 minor) in
              match ip with
              | None => end' ;; ret (-1)
              | Some ip => fs_call (iunlockput ip) ;; end' ;; ret 0
              end
          end
      end
  end.

Definition sys_chdir : K Z :=
  begin ;;
  let! path := argstr me 0 in
  match path with
  | None => end' ;; ret (-1)
  | Some path =>
      let! ip := k_namei path in
      match ip with
      | None => end' ;; ret (-1)
      | Some ip =>
          fs_call (ilock ip) ;;
          let! x := fs_call (getip ip) in
          if negb (i_type x =? T_DIR) then fs_call (iunlockput ip) ;; end' ;; ret (-1) else
          fs_call (iunlock ip) ;;
          let! p := curproc me in
          (match p_cwd p with
           | None => undef "no current directory"
           | Some d => fs_call (iput d)
           end) ;;
          end' ;;
          upd_cur me (set_cwd (Some ip)) ;;
          ret 0
      end
  end.

Definition sys_pipe : K Z :=
  let! fd := argptr me 0 8 in
  match fd with
  | None => ret (-1)
  | Some fd =>
      let! a := pipealloc end_ in
      match a with
      | None => ret (-1)
      | Some (rf, wf) =>
          let! fd0 := fdalloc rf in
          if fd0 <? 0 then fileclose end_ rf ;; fileclose end_ wf ;; ret (-1) else
          let! fd1 := fdalloc wf in
          if fd1 <? 0 then
            upd_cur me (fun p => set_ofile (zset (p_ofile p) fd0 None) p) ;;
            fileclose end_ rf ;; fileclose end_ wf ;; ret (-1)
          else
            user_store me fd (le_bytes 4 (u32 fd0)) ;;
            user_store me (fd + 4) (le_bytes 4 (u32 fd1)) ;;
            ret 0
      end
  end.

End Sysfile.
