(* ===== verification/Exec.v ===== *)
(** * Program loading (exec.c, elf.h, loaduvm of vm.c, sys_exec)

    exec builds the new memory image beside the old one and commits to it at
    the end.  The strings of [argv] are the bytes the user pointers lead to,
    without their NUL; [elf0] is the initial contents of the local [elf]. *)

From S2P Require Import Prelude.
From S2P Require Import Params.
From S2P Require Import BufSpec.
From S2P Require Import Log.
From S2P Require Import CString.
From S2P Require Import Fs.
From S2P Require Import Mmu.
From S2P Require Import Kalloc.
From S2P Require Import Vm.
From S2P Require Import Ptable.
From S2P Require Import Kern.
From S2P Require Import Proc.
From S2P Require Import Args.
From S2P Require Import Sysfile.

Definition ELF_MAGIC : Z := 0x464C457F.
Definition ELF_PROG_LOAD : Z := 1.

(** The fields of the headers that exec reads, at their offsets. *)
Record elfhdr : Type := MkElf { elf_magic : Z; elf_entry : Z; elf_phoff : Z; elf_phnum : Z }.
Record proghdr : Type := MkPh { ph_type : Z; ph_off : Z; ph_vaddr : Z; ph_filesz : Z; ph_memsz : Z }.
Definition sizeof_elfhdr : Z := 52.
Definition sizeof_proghdr : Z := 32.
Definition get_elfhdr (l : list Z) : elfhdr := MkElf (get32 0 l) (get32 24 l) (get32 28 l) (get16 44 l).
Definition get_proghdr (l : list Z) : proghdr :=
  MkPh (get32 0 l) (get32 4 l) (get32 8 l) (get32 16 l) (get32 20 l).

(** Bytes stored one after the other. *)
Fixpoint mset_list (m : mem) (a : Z) (bs : list Z) : mem :=
  match bs with
  | [] => m
  | b :: bs => mset_list (mset m a b) (a + 1) bs
  end.
Definition kwrite (a : Z) (bs : list Z) : M kst unit := modify (fun s => set_mem (mset_list (k_mem s) a bs) s).

(** copyout from a buffer that is not in the kernel's part of memory. *)
Fixpoint copyout_bytes_loop (fuel : nat) (pgdir va : Z) (buf : list Z) : M kst Z :=
  match buf with
  | [] => ret 0
  | _ =>
      match fuel with
      | O => out_of_fuel
      | S fuel =>
          let va0 := PGROUNDDOWN va in
          let! pa0 := uva2ka pgdir va0 in
          if pa0 =? 0 then ret (-1) else
          let n := Z.min (PGSIZE - (va - va0)) (zlen buf) in
          kwrite (pa0 + (va - va0)) (take (Z.to_nat n) buf) ;;
          copyout_bytes_loop fuel pgdir (u32 (va0 + PGSIZE)) (drop (Z.to_nat n) buf)
      end
  end.
Definition copyout_bytes (pgdir va : Z) (buf : list Z) : M kst Z :=
  copyout_bytes_loop (Z.to_nat (zlen buf / PGSIZE + 2)) pgdir va buf.

(** The part of the path after its last slash. *)
Fixpoint basename (last s : list Z) : list Z :=
  match s with
  | [] => last
  | c :: s => basename (if c =? slash then s else last) s
  end.

Section Exec.
Context {S : Type} `{!BufferCache S}.
Context (devsw : Z -> devops S) (end_ data_ : Z) (me : nat) (name0 elf0 : list Z).

Local Abbreviation K := (M (kern S)).

Fixpoint loaduvm_loop (fuel : nat) (pgdir addr : Z) (ip : nat) (offset sz i : Z) : K Z :=
  if i <? sz then
    match fuel with
    | O => out_of_fuel
    | Datatypes.S fuel =>
        let! pte := vm_call (walkpgdir pgdir (u32 (addr + i)) false) in
        if pte =? 0 then panic "loaduvm: address should exist" else
        let! e := vm_call (load pte) in
        let n := if u32 (sz - i) <? PGSIZE then u32 (sz - i) else PGSIZE in
        let! (r, bs) := fs_call (readi devsw ip (u32 (offset + i)) n) in
        vm_call (kwrite (p2v (PTE_ADDR e)) bs) ;;
        if negb (u32 r =? n) then ret (-1) else loaduvm_loop fuel pgdir addr ip offset sz (u32 (i + PGSIZE))
    end
  else ret 0.
(** A [sz] above [2^32 - PGSIZE] would let [i] wrap around for ever. *)
Definition loaduvm (pgdir addr : Z) (ip : nat) (offset sz : Z) : K Z :=
  if negb (addr mod PGSIZE =? 0) then panic "loaduvm: addr must be page aligned" else
  loaduvm_loop (Z.to_nat (sz / PGSIZE + 1)) pgdir addr ip offset sz 0.

(** One program header of size [sz] so far: the new size, [None] for [bad]. *)
Definition load_segment (pgdir : Z) (ip : nat) (ph : proghdr) (sz : Z) : K (option Z) :=
  if negb (ph_type ph =? ELF_PROG_LOAD) then ret (Some sz) else
  if ph_memsz ph <? ph_filesz ph then ret None else
  let! sz := vm_call (allocuvm end_ pgdir sz (u32 (ph_vaddr ph + ph_memsz ph))) in
  if sz =? 0 then ret None else
  let! r := loaduvm pgdir (ph_vaddr ph) ip (ph_off ph) (ph_filesz ph) in
  if r <? 0 then ret None else ret (Some sz).

(** The loop over the program headers, [cnt] of them left. *)
Fixpoint load_segments (cnt : nat) (pgdir : Z) (ip : nat) (off sz : Z) : K (option Z) :=
  match cnt with
  | O => ret (Some sz)
  | Datatypes.S cnt =>
      let! (r, bs) := fs_call (readi devsw ip off sizeof_proghdr) in
      if negb (u32 r =? sizeof_proghdr) then ret None else
      let! sz := load_segment pgdir ip (get_proghdr bs) sz in
      match sz with
      | None => ret None
      | Some sz => load_segments cnt pgdir ip (u32 (off + sizeof_proghdr)) sz
      end
  end.

(** The strings go onto the stack one below the other; [ustack] collects their
    addresses. *)
Fixpoint push_args (pgdir : Z) (argv : list (list Z)) (argc sp : Z) (ustack : list Z) : K (option (Z * Z * list Z)) :=
  match argv with
  | [] => ret (Some (argc, sp, ustack))
  | s :: argv =>
      if argc >=? MAXARG then ret None else
      let sp := Z.land (u32 (sp - (zlen s + 1))) (u32 (Z.lnot 3)) in
      let! r := vm_call (copyout_bytes pgdir sp (s ++ [0])) in
      if r <? 0 then ret None else push_args pgdir argv (argc + 1) sp (ustack ++ [sp])
  end.

(** The words at the bottom of the new stack. *)
Definition stack_frame (argc sp : Z) (ustack : list Z) : list Z :=
  [0xffffffff; argc; u32 (sp - (argc + 1) * 4)] ++ ustack ++ [0].

(** The exit through [bad] while the inode is held. *)
Definition bad_ip (ip : nat) : K Z := fs_call (iunlockput ip) ;; fs_call (log_call end_op) ;; ret (-1).

(** Two pages above the program, the lower one inaccessible, the upper one the
    stack with the arguments: the new size and stack pointer, [None] for [bad]. *)
Definition build_stack (pgdir : Z) (argv : list (list Z)) (sz : Z) : K (option (Z * Z)) :=
  let sz := PGROUNDUP sz in
  let! sz := vm_call (allocuvm end_ pgdir sz (u32 (sz + 2 * PGSIZE))) in
  if sz =? 0 then ret None else
  vm_call (clearpteu pgdir (u32 (sz - 2 * PGSIZE))) ;;
  let! a := push_args pgdir argv 0 sz [] in
  match a with
  | None => ret None
  | Some (argc, sp, ustack) =>
      let frame := stack_frame argc sp ustack in
      let sp := u32 (sp - (3 + argc + 1) * 4) in
      let! r := vm_call (copyout_bytes pgdir sp (concat (le_bytes 4 <$> frame))) in
      if r <? 0 then ret None else ret (Some (sz, sp))
  end.

(** The name and the switch to the new image. *)
Definition commit_image (path : list Z) (pgdir entry sz sp : Z) : K Z :=
  let! p := curproc me in
  match KString.safestrcpy (p_name p) (basename path path ++ [0]) 16 with
  | None => undef "safestrcpy"
  | Some nm =>
      upd_cur me (fun p => set_tf (set_entry entry sp (p_tf p)) (set_image sz pgdir (set_name nm p))) ;;
      vm_call (freevm end_ (p_pgdir p)) ;;
      ret 0
  end.

Definition exec (path : list Z) (argv : list (list Z)) : K Z :=
  fs_call (log_call begin_op) ;;
  let! ip := k_namei devsw me name0 path in
  match ip with
  | None => fs_call (log_call end_op) ;; ret (-1)
  | Some ip =>
      fs_call (ilock ip) ;;
      let! (r, bs) := fs_call (readi devsw ip 0 sizeof_elfhdr) in
      if u32 r <? sizeof_elfhdr then bad_ip ip else
      let elf := get_elfhdr (bs ++ drop (length bs) elf0) in
      if negb (elf_magic elf =? ELF_MAGIC) then bad_ip ip else
      let! pgdir := vm_call (setupkvm data_) in
      if pgdir =? 0 then bad_ip ip else
      let! sz := load_segments (Z.to_nat (elf_phnum elf)) pgdir ip (elf_phoff elf) 0 in
      match sz with
      | None => vm_call (freevm end_ pgdir) ;; bad_ip ip
      | Some sz =>
          fs_call (iunlockput ip) ;;
          fs_call (log_call end_op) ;;
          let! st := build_stack pgdir argv sz in
          match st with
          | None => vm_call (freevm end_ pgdir) ;; ret (-1)
          | Some (sz, sp) => commit_image path pgdir (elf_entry elf) sz sp
          end
      end
  end.

(** The argument vector of sys_exec, from its [i]-th word on. *)
Fixpoint fetch_argv (cnt : nat) (uargv i : Z) (acc : list (list Z)) : K (option (list (list Z))) :=
  match cnt with
  | O => ret None
  | Datatypes.S cnt =>
      let! uarg := fetchint me (u32 (uargv + 4 * i)) in
      match uarg with
      | None => ret None
      | Some uarg =>
          if uarg =? 0 then ret (Some acc) else
          let! s := fetchstr me (u32 uarg) in
          match s with
          | None => ret None
          | Some s => fetch_argv cnt uargv (i + 1) (acc ++ [s])
          end
      end
  end.

Definition sys_exec : K Z :=
  let! path := argstr me 0 in
  match path with
  | None => ret (-1)
  | Some path =>
      let! uargv := argint me 1 in
      match uargv with
      | None => ret (-1)
      | Some uargv =>
          let! argv := fetch_argv (Z.to_nat MAXARG) (u32 uargv) 0 [] in
          match argv with
          | None => ret (-1)
          | Some argv => exec path argv
          end
      end
  end.

End Exec.
