(* ===== verification/ExecProps.v ===== *)
(** * What exec leaves for the new program *)

From S2P Require Import Prelude.
From S2P Require Import Triple.
From S2P Require Import Params.
From S2P Require Import Disk.
From S2P Require Import BufSpec.
From S2P Require Import Bio.
From S2P Require Import Log.
From S2P Require Import CString.
From S2P Require Import Fs.
From S2P Require Import FsAlloc.
From S2P Require Import FsFile.
From S2P Require Import Mmu.
From S2P Require Import Kalloc.
From S2P Require Import Vm.
From S2P Require Import VmPt.
From S2P Require Import VmUser.
From S2P Require Import VmFree.
From S2P Require Import VmCopy.
From S2P Require Import VmProps.
From S2P Require Import Ptable.
From S2P Require Import Kern.
From S2P Require Import Proc.
From S2P Require Import Args.
From S2P Require Import Sysfile.
From S2P Require Import Exec.

Lemma mset_list_spec bs m a x :
  mset_list m a bs x = if decide (a <= x < a + zlen bs) then zget bs (x - a) else m x.
Proof.
  revert m a. induction bs as [|b bs IH]; intros m a; cbn [mset_list].
  - rewrite decide_False; [done|]. unfold zlen. cbn. lia.
  - rewrite IH. assert (Hz : zlen (b :: bs) = 1 + zlen bs) by (unfold zlen; cbn; lia). pose proof (zlen_nonneg bs).
    unfold zget. destruct (decide (x = a)) as [->|Hne].
    + rewrite decide_False, decide_True, mset_eq, Z.sub_diag by lia. done.
    + rewrite mset_ne by done. destruct (decide (a + 1 <= x < a + 1 + zlen bs)).
      * rewrite decide_True by lia. replace (Z.to_nat (x - a)) with (S (Z.to_nat (x - (a + 1)))) by lia. done.
      * rewrite decide_False by lia. done.
Qed.

Lemma zget_take l n i : 0 <= i < n -> zget (take (Z.to_nat n) l) i = zget l i.
Proof. intros H. unfold zget. rewrite !nth_lookup, lookup_take. rewrite decide_True by lia. done. Qed.
Lemma zget_drop l n i : 0 <= n -> 0 <= i -> zget (drop (Z.to_nat n) l) i = zget l (n + i).
Proof. intros H Hi. unfold zget. rewrite !nth_lookup, lookup_drop. by replace (Z.to_nat (n + i)) with (Z.to_nat n + Z.to_nat i)%nat by lia. Qed.

Section Copyout.
Context (end_ : Z).
Local Abbreviation uvm := (uvm end_).
Implicit Types (m : mem) (s : kst) (T : gmap Z Z) (l : list Z).

(** The pages of the user memory. *)
Definition upages m T (n : Z) (p : Z) : Prop := exists k, 0 <= k < n /\ p = upage m T k.

Lemma upages_same m m' T n p : (forall v, pte_of m' T v = pte_of m T v) -> upages m' T n p <-> upages m T n p.
Proof. intros H. unfold upages, upage. by setoid_rewrite H. Qed.

(** [s'] is [s] with the bytes [buf] at user address [va]. *)
Record wrote (pd : Z) T l (n va : Z) (buf : list Z) s s' : Prop := {
  wr_uvm : uvm s' pd T l n;
  wr_pte : forall v, pte_of (k_mem s') T v = pte_of (k_mem s) T v;
  wr_byte : forall v, 0 <= v < 4096 * n -> ubyte (k_mem s') T v =
    if decide (va <= v < va + zlen buf) then zget buf (v - va) else ubyte (k_mem s) T v;
  wr_same : same_except (upages (k_mem s) T n) (k_mem s) (k_mem s')
}.

Lemma run_copyout_bytes_loop pd T l n fuel s va buf :
  uvm s pd T l n -> 0 <= va -> va + zlen buf <= 4096 * n ->
  (buf <> [] -> forall k, va / 4096 <= k -> 4096 * k < va + zlen buf -> user_ok (k_mem s) T (4096 * k)) ->
  (buf <> [] -> (va mod 4096 + zlen buf + 4095) / 4096 <= Z.of_nat fuel) ->
  exists s', copyout_bytes_loop fuel pd va buf s = Ret 0 s' /\ wrote pd T l n va buf s s'.
Proof.
  revert s va buf. induction fuel as [|fuel IH]; intros s va buf Hu Hva Htop Hus Hfuel.
  all: destruct buf as [|b buf]; [exists s; split; [done|constructor; [done|done|intros v Hv; rewrite decide_False; [done|unfold zlen; cbn; lia]|done]]|].
  all: set (bs := b :: buf) in *; assert (Hl : 0 < zlen bs) by (unfold bs, zlen; cbn; lia).
  all: assert (Hne : bs <> []) by done; specialize (Hus Hne); specialize (Hfuel Hne).
  1: exfalso; dlia.
  change (copyout_bytes_loop (S fuel) pd va bs s) with
    ((let va0 := PGROUNDDOWN va in
      let! pa0 := uva2ka pd va0 in
      if pa0 =? 0 then ret (-1) else
      let n := Z.min (PGSIZE - (va - va0)) (zlen bs) in
      kwrite (pa0 + (va - va0)) (take (Z.to_nat n) bs) ;;
      copyout_bytes_loop fuel pd (u32 (va0 + PGSIZE)) (drop (Z.to_nat n) bs)) s).
  clearbody bs. clear b buf Hne. pose proof (u_n _ _ _ _ _ _ Hu) as Hn. set (k := va / 4096). assert (Hk : 0 <= k < n) by (unfold k; dlia).
  unfold UPAGES in Hn. cbv zeta. rewrite PGROUNDDOWN_eq by dlia. fold k. replace (k * 4096) with (4096 * k) by lia.
  run (run_uva2ka end_ s pd T l n k Hu Hk (Hus k ltac:(lia) ltac:(unfold k; dlia))).
  destruct (u_page _ _ _ _ _ _ Hu k Hk) as (Hok & _).
  destruct (page_bounds end_ _ Hok) as (Hqa & Hq1 & Hq2). set (q := upage (k_mem s) T k) in *.
  rewrite (proj2 (Z.eqb_neq _ _)) by (unfold KERNBASE in *; lia).
  destruct (copy_chunk va (zlen bs) Hva Hl) as (Hc1 & Eo & Hc2 & Hc3). fold k in Hc1, Eo, Hc2, Hc3.
  set (c := Z.min (PGSIZE - (va - 4096 * k)) (zlen bs)) in *. rewrite Eo.
  set (m1 := mset_list (k_mem s) (q + va mod 4096) (take (Z.to_nat c) bs)).
  assert (Hlt : zlen (take (Z.to_nat c) bs) = c) by (unfold zlen in *; rewrite length_take; lia).
  assert (Hld : zlen (drop (Z.to_nat c) bs) = zlen bs - c) by (unfold zlen in *; rewrite length_drop; lia).
  assert (Hnil : c = zlen bs -> drop (Z.to_nat c) bs = []).
  { intros E. rewrite E in Hld. apply nil_length_inv. unfold zlen in Hld |- *. rewrite E. unfold zlen. lia. }
  destruct (user_write end_ s pd T l n va c (zget bs) m1) as (Hu1 & Hp1 & S1 & Hby1); auto; try lia.
  { intros a. unfold m1. fold k q. rewrite mset_list_spec, Hlt. destruct (decide _); [|done]. apply zget_take. lia. }
  destruct (IH (set_mem m1 s) (va + c) (drop (Z.to_nat c) bs)) as (s2 & R2 & [Hu2 Hp2 Hby2 HS2]); auto; try lia.
  - intros _ j Hj Hj2. unfold user_ok. cbn [set_mem k_mem]. rewrite Hp1. apply Hus; [unfold k in *; dlia|lia].
  - intros Hd. destruct Hc3 as [E|E]; [|rewrite E; unfold k in *; dlia].
    by destruct (Hd (Hnil E)).
  - exists s2. split.
    + assert (E : kwrite (q + va mod 4096) (take (Z.to_nat c) bs) s = Ret tt (set_mem m1 s)) by done. run E.
      destruct Hc3 as [Ec|Ec].
      * rewrite (Hnil Ec) in R2 |- *. destruct fuel; exact R2.
      * unfold PGSIZE. rewrite u32_small by (unfold is_u32; lia). replace (4096 * k + 4096) with (va + c) by lia. exact R2.
    + constructor; auto.
      * intros v. rewrite Hp2. apply Hp1.
      * intros v Hv. rewrite Hby2 by done. cbn [set_mem k_mem]. rewrite Hby1, Hld by done.
        destruct (decide (va + c <= v < va + c + (zlen bs - c))).
        -- rewrite decide_True by lia. rewrite zget_drop by lia. f_equal. lia.
        -- destruct (decide (va <= v < va + c)); [rewrite decide_True by lia; done|rewrite decide_False by lia; done].
      * eapply same_except_trans; eapply same_except_mono; [|exact S1| |exact HS2].
        -- intros p ->. exists k. done.
        -- intros p. apply (upages_same (k_mem s) m1 T n p Hp1).
Qed.

Lemma run_copyout_bytes pd T l n s va buf :
  uvm s pd T l n -> 0 <= va -> va + zlen buf <= 4096 * n ->
  (forall k, va / 4096 <= k -> 4096 * k < va + zlen buf -> user_ok (k_mem s) T (4096 * k)) ->
  exists s', copyout_bytes pd va buf s = Ret 0 s' /\ wrote pd T l n va buf s s'.
Proof.
  intros Hu Hva Htop Hus. apply run_copyout_bytes_loop; auto. intros _. unfold PGSIZE. pose proof (zlen_nonneg buf). dlia.
Qed.

Lemma load_bytes_user pd T l n s va bs :
  uvm s pd T l n -> 0 <= va -> va + zlen bs <= 4096 * n ->
  (forall i, 0 <= i < zlen bs -> ubyte (k_mem s) T (va + i) = zget bs i) ->
  load_bytes (k_mem s) pd va (length bs) = Some bs.
Proof.
  intros Hu. revert va. induction bs as [|b bs IH]; intros va Hva Htop Hb; [done|]. cbn [length load_bytes].
  assert (Hz : zlen (b :: bs) = 1 + zlen bs) by (unfold zlen; cbn; lia). pose proof (zlen_nonneg bs).
  rewrite (translate_user end_ s pd T l n va Hu) by lia.
  rewrite (IH (va + 1)); [|lia..|].
  - cbn. f_equal. f_equal. specialize (Hb 0 ltac:(lia)). unfold ubyte in Hb. rewrite Z.add_0_r in Hb. etrans; [|exact Hb]. f_equal. lia.
  - intros i Hi. specialize (Hb (i + 1) ltac:(lia)). rewrite <- Z.add_assoc, (Z.add_comm 1 i), Hb. unfold zget.
    by replace (Z.to_nat (i + 1)) with (S (Z.to_nat i)) by lia.
Qed.

End Copyout.

Section Clear.
Context (end_ : Z).
Local Abbreviation uvm := (uvm end_).
Implicit Types (m : mem) (s : kst) (T : gmap Z Z) (l : list Z).

Definition no_user (e : Z) : Z := Z.land e (u32 (Z.lnot PTE_U)).

Lemma no_user_facts e : 0 <= e < 4294967296 ->
  0 <= no_user e < 4294967296 /\ present (no_user e) = present e /\ PTE_ADDR (no_user e) = PTE_ADDR e /\ Z.land (no_user e) PTE_U = 0.
Proof.
  intros He. unfold no_user, present, PTE_ADDR. rewrite <- !Z.land_assoc.
  change (Z.land (u32 (Z.lnot PTE_U)) PTE_P) with PTE_P. change (Z.land (u32 (Z.lnot PTE_U)) (u32 (Z.lnot 0xFFF))) with (u32 (Z.lnot 0xFFF)).
  change (Z.land (u32 (Z.lnot PTE_U)) PTE_U) with 0. rewrite Z.land_0_r. split_and!; auto.
  - apply Z.land_nonneg. lia.
  - change (u32 (Z.lnot PTE_U)) with (Z.land (Z.ones 32) 4294967291). rewrite Z.land_assoc, Z.land_comm, Z.land_assoc.
    rewrite Z.land_ones by lia. apply Z.mod_pos_bound. lia.
Qed.

Lemma run_clearpteu pd T l n s k :
  uvm s pd T l n -> 0 <= k < n ->
  exists s', clearpteu pd (4096 * k) s = Ret tt s' /\ uvm s' pd T l n /\
    (forall va, is_va va -> pte_of (k_mem s') T va =
      if decide (va / 4096 = k) then no_user (pte_of (k_mem s) T (4096 * k)) else pte_of (k_mem s) T va) /\
    (forall v, 0 <= v < 4096 * n -> ubyte (k_mem s') T v = ubyte (k_mem s) T v) /\
    (forall j, 0 <= j < n -> upage (k_mem s') T j = upage (k_mem s) T j) /\
    same_except (tpages pd T) (k_mem s) (k_mem s').
Proof.
  intros Hu Hk. pose proof Hu as [Hv Hn Hpte Hpg Hinj Hab]. pose proof (vo_pt _ _ _ _ _ Hv) as HT.
  destruct (Hpte k Hk) as [Hpr He]. destruct (no_user_facts _ He) as (Hr' & Hp' & Ha' & _).
  destruct (uva k ltac:(lia)) as [Hva _].
  destruct (T !! PDX (4096 * k)) as [tp|] eqn:Et; [|unfold pte_of in Hpr; by rewrite Et in Hpr].
  destruct (pt_some _ _ _ _ HT _ _ Et) as (_ & Htp & _). destruct (page_bounds end_ tp Htp) as (_ & Htp1 & _).
  pose proof (PTX_range (4096 * k)) as Hx.
  destruct (run_store_pte end_ s pd T l (4096 * k) tp (no_user (pte_of (k_mem s) T (4096 * k))) Hv Hva Et Hr') as (s' & R & Hv' & HS & Hst).
  assert (Hk4 : 4096 * k / 4096 = k) by dlia. rewrite Hk4 in Hst.
  assert (Hpt : forall j, 0 <= j < UPAGES -> pte_of (k_mem s') T (4096 * j) =
    if decide (j = k) then no_user (pte_of (k_mem s) T (4096 * k)) else pte_of (k_mem s) T (4096 * j)).
  { intros j Hj. destruct (uva j Hj) as [Hvj _]. rewrite Hst by done. by replace (4096 * j / 4096) with j by dlia. }
  assert (Hup : forall j, 0 <= j < n -> upage (k_mem s') T j = upage (k_mem s) T j).
  { intros j Hj. unfold upage. rewrite Hpt by lia. destruct (decide (j = k)) as [->|]; [|done]. by rewrite Ha'. }
  exists s'. split_and!; auto.
  - unfold clearpteu. run (run_walk_some end_ s pd T (4096 * k) tp false HT Et).
    rewrite (proj2 (Z.eqb_neq _ _)) by (unfold KERNBASE in *; lia). etrans; [|exact R].
    unfold load, pte_of, no_user. rewrite Et. done.
  - constructor; auto.
    + intros j Hj. rewrite Hpt by lia. destruct (decide (j = k)) as [->|]; [by rewrite Hp'|by apply Hpte].
    + intros j Hj. rewrite Hup by done. by apply Hpg.
    + intros j j' H1 H2. rewrite !Hup by done. by apply Hinj.
    + intros j Hj. rewrite Hpt by lia. rewrite decide_False by lia. by apply Hab.
  - intros v Hv0. unfold ubyte. rewrite Hup by dlia. destruct (Hpg (v / 4096) ltac:(dlia)) as (Hok & _ & Hnt).
    destruct (page_bounds end_ _ Hok) as (Hal & _). apply HS. rewrite (page_of_in (upage (k_mem s) T (v / 4096))) by dlia.
    intros E. apply Hnt. rewrite E. right. by exists (PDX (4096 * k)).
  - eapply same_except_mono; [|exact HS]. intros q ->. right. by exists (PDX (4096 * k)).
Qed.

End Clear.

(** ** The arguments on the stack *)
Section Stack.
Context {S : Type} `{!BufferCache S}.
Context (end_ : Z).
Hypothesis Hend : KERNBASE < end_.
Local Abbreviation uvm := (uvm end_).
Implicit Types (k : kern S) (T : gmap Z Z) (l : list Z).

Lemma vm_call_run {A} (m : M kst A) k a s : m (ks_vm k) = Ret a s -> vm_call m k = Ret a (set_vm s k).
Proof. apply (zoom_run ks_vm set_vm). Qed.

Lemma align4 a : 0 <= a < 4294967296 -> Z.land (u32 a) (u32 (Z.lnot 3)) = a / 4 * 4.
Proof.
  intros Ha. rewrite u32_small by done. change (u32 (Z.lnot 3)) with (Z.land (Z.ones 32) (Z.lnot (Z.ones 2))).
  rewrite Z.land_assoc, Z.land_ones by lia. rewrite Z.mod_small by (cbn; lia).
  rewrite <- Z.ldiff_land, Z.ldiff_ones_r, Z.shiftl_mul_pow2, Z.shiftr_div_pow2 by lia. reflexivity.
Qed.

(** The room the strings take at most, each rounded up to a word. *)
Definition strings_size (argv : list (list Z)) : Z := foldr (fun s n => zlen s + 4 + n) 0 argv.

Lemma strings_size_nonneg argv : 0 <= strings_size argv.
Proof. induction argv as [|a argv IH]; cbn; [lia|]. pose proof (zlen_nonneg a). unfold strings_size in *. lia. Qed.

(** Every string is at its address, with its NUL, between [lo] and [hi]. *)
Definition strings_at (m : mem) T (lo hi : Z) (argv : list (list Z)) (addrs : list Z) : Prop :=
  Forall2 (fun s a => lo <= a /\ a + zlen s + 1 <= hi /\ a mod 4 = 0 /\
    forall i, 0 <= i <= zlen s -> ubyte m T (a + i) = zget (s ++ [0]) i) argv addrs.

Lemma strings_at_frame (m m' : mem) T lo hi lo' hi' argv addrs :
  strings_at m T lo hi argv addrs -> lo' <= lo -> hi <= hi' ->
  (forall v, lo <= v < hi -> ubyte m' T v = ubyte m T v) -> strings_at m' T lo' hi' argv addrs.
Proof.
  intros H Hlo Hhi Hv. eapply Forall2_impl; [exact H|]. cbn. intros s a (H1 & H2 & H3 & H4). split_and!; auto; try lia.
  intros i Hi. rewrite Hv by lia. by apply H4.
Qed.

Lemma run_push_args pd T l n argv k argc sp us :
  uvm (ks_vm k) pd T l n -> 0 < n -> user_ok (k_mem (ks_vm k)) T (4096 * (n - 1)) ->
  4096 * (n - 1) + strings_size argv <= sp <= 4096 * n -> 0 <= argc -> argc + zlen argv <= MAXARG ->
  exists s' sp' addrs, push_args pd argv argc sp us k = Ret (Some (argc + zlen argv, sp', us ++ addrs)) (set_vm s' k) /\
    uvm s' pd T l n /\ (forall v, pte_of (k_mem s') T v = pte_of (k_mem (ks_vm k)) T v) /\
    sp - strings_size argv <= sp' <= sp /\ (sp mod 4 = 0 -> sp' mod 4 = 0) /\
    strings_at (k_mem s') T sp' sp argv addrs /\
    (forall v, 0 <= v < 4096 * n -> ~ (sp' <= v < sp) -> ubyte (k_mem s') T v = ubyte (k_mem (ks_vm k)) T v) /\
    same_except (upages (k_mem (ks_vm k)) T n) (k_mem (ks_vm k)) (k_mem s').
Proof.
  revert k argc sp us. induction argv as [|s argv IH]; intros k argc sp us Hu Hn Hus Hsp Hargc Hmax.
  { exists (ks_vm k), sp, []. cbn [push_args strings_size foldr] in *. rewrite app_nil_r. change (zlen []) with 0. rewrite Z.add_0_r.
    split_and!; auto; try lia; [by destruct k|by constructor|done]. }
  cbn [strings_size foldr] in Hsp |- *. fold (strings_size argv) in *. pose proof (strings_size_nonneg argv) as Hsn. pose proof (zlen_nonneg s) as Hzs.
  assert (Hz : zlen (s :: argv) = 1 + zlen argv) by (unfold zlen; cbn; lia). pose proof (zlen_nonneg argv).
  pose proof (u_n _ _ _ _ _ _ Hu) as Hn'. unfold UPAGES in Hn'.
  cbn [push_args]. replace (argc >=? MAXARG) with false by (unfold MAXARG in *; lia).
  rewrite align4 by lia. set (sp1 := (sp - (zlen s + 1)) / 4 * 4).
  assert (Hsp1 : sp - (zlen s + 4) <= sp1 /\ sp1 + zlen s + 1 <= sp /\ sp1 mod 4 = 0) by (unfold sp1; dlia).
  assert (Hzb : zlen (s ++ [0]) = zlen s + 1) by (rewrite zlen_app; done).
  destruct (run_copyout_bytes end_ pd T l n (ks_vm k) sp1 (s ++ [0])) as (s1 & R1 & [Hu1 Hp1 Hb1 HS1]); auto; try lia.
  { intros j Hj1 Hj2. replace j with (n - 1) by dlia. done. }
  rewrite Hzb in Hb1. run (vm_call_run _ _ _ _ R1). change (0 <? 0) with false. cbv iota.
  destruct (IH (set_vm s1 k) (argc + 1) sp1 (us ++ [sp1])) as (s' & sp' & addrs & R & Hu' & Hp' & Hr & Hm & Hst & Hf & HS'); auto; try lia.
  { unfold user_ok. cbn [set_vm ks_vm]. by rewrite Hp1. }
  cbn [set_vm ks_vm] in Hp', Hf, HS'. exists s', sp', (sp1 :: addrs). split.
  { rewrite R. rewrite <- app_assoc. replace (argc + 1 + zlen argv) with (argc + zlen (s :: argv)) by lia. done. }
  split_and!; auto; try lia.
  - intros v. rewrite Hp'. apply Hp1.
  - apply List.Forall2_cons; [|eapply strings_at_frame; [exact Hst|lia..|done]].
    split_and!; try lia. intros i Hi. rewrite Hf by lia. rewrite Hb1 by lia. rewrite decide_True by lia. f_equal. lia.
  - intros v Hv Hout. rewrite Hf by lia. rewrite Hb1 by lia. by rewrite decide_False by lia.
  - eapply same_except_trans; [exact HS1|]. eapply same_except_mono; [|exact HS']. intros p. apply (upages_same _ _ T n p Hp1).
Qed.

Lemma zlen_words (ws : list Z) : zlen (concat (le_bytes 4 <$> ws)) = 4 * zlen ws.
Proof.
  induction ws as [|w ws IH]; [done|]. rewrite fmap_cons. cbn [concat]. rewrite zlen_app, zlen_le_bytes, IH. unfold zlen. cbn. lia.
Qed.

Lemma ugrow_byte pd s T l n s' T' l' n' v :
  uvm s pd T l n -> ugrow end_ pd s T l n s' T' l' n' -> 0 <= v < 4096 * n -> ubyte (k_mem s') T' v = ubyte (k_mem s) T v.
Proof.
  intros Hu Hg Hv. pose proof (u_n _ _ _ _ _ _ Hu) as Hn. unfold UPAGES in Hn. assert (Hk : 0 <= v / 4096 < n) by dlia.
  unfold ubyte. replace (upage (k_mem s') T' (v / 4096)) with (upage (k_mem s) T (v / 4096)).
  2: { unfold upage. rewrite (ug_keep _ _ _ _ _ _ _ _ _ _ Hg); [done|unfold is_va; lia|dlia]. }
  apply (upage_frame end_ s pd T l n (v / 4096) _ _ _ Hu Hk (ug_same _ _ _ _ _ _ _ _ _ _ Hg)); [|dlia].
  intros p [Hp|Hp]; [|by right]. by apply (ug_tab _ _ _ _ _ _ _ _ _ _ Hg).
Qed.

(** The two pages above the program, the lower one cleared for the user. *)
Lemma run_stack_pages pd T l n k :
  uvm (ks_vm k) pd T l n -> 4096 * n + 8192 < KERNBASE -> 4 <= zlen l ->
  exists s1 s2 T' l', vm_call (allocuvm end_ pd (4096 * n) (4096 * n + 8192)) k = Ret (4096 * n + 8192) (set_vm s1 k) /\
    vm_call (clearpteu pd (4096 * n)) (set_vm s1 k) = Ret tt (set_vm s2 k) /\
    uvm s2 pd T' l' (n + 2) /\ user_ok (k_mem s2) T' (4096 * (n + 1)) /\
    PTE_FLAGS (pte_of (k_mem s2) T' (4096 * (n + 1))) = 7 /\ Z.land (pte_of (k_mem s2) T' (4096 * n)) PTE_U = 0 /\
    (forall va, 0 <= va < 4096 * n -> pte_of (k_mem s2) T' va = pte_of (k_mem (ks_vm k)) T va) /\
    (forall v, 0 <= v < 4096 * n -> ubyte (k_mem s2) T' v = ubyte (k_mem (ks_vm k)) T v) /\
    (forall j, n <= j < n + 2 -> upage (k_mem s2) T' j ∈ l) /\ (forall p, tpages pd T' p -> tpages pd T p \/ p ∈ l) /\
    l' `suffix_of` l /\ same_except (fun p => tpages pd T' p \/ p ∈ l) (k_mem (ks_vm k)) (k_mem s2).
Proof.
  intros Hu Htop Hl. pose proof (u_n _ _ _ _ _ _ Hu) as Hn. unfold KERNBASE in Htop.
  assert (E0 : npg (4096 * n) = n) by (unfold npg; dlia). assert (E1 : npg (4096 * n + 8192) = n + 2) by (unfold npg; dlia).
  rewrite <- E0 in Hu at 1. destruct (run_allocuvm end_ Hend pd (ks_vm k) T l (4096 * n) (4096 * n + 8192) Hu) as (s1 & T' & l' & R1 & Hg);
    [lia|unfold KERNBASE; lia|rewrite E0, E1; lia|]. rewrite E0, E1 in *.
  pose proof (ug_uvm _ _ _ _ _ _ _ _ _ _ Hg) as Hu1.
  destruct (run_clearpteu end_ pd T' l' (n + 2) s1 n Hu1 ltac:(lia)) as (s2 & R2 & Hu2 & Hp2 & Hb2 & Hup2 & HS2).
  destruct (u_pte _ _ _ _ _ _ Hu1 n ltac:(lia)) as [_ Her]. destruct (no_user_facts _ Her) as (_ & _ & _ & Hnu).
  assert (Hfl : PTE_FLAGS (pte_of (k_mem s2) T' (4096 * (n + 1))) = 7).
  { rewrite Hp2 by (unfold is_va; lia). rewrite decide_False by dlia. by apply (ug_flags _ _ _ _ _ _ _ _ _ _ Hg); lia. }
  exists s1, s2, T', l'. split_and!; auto.
  - by apply vm_call_run.
  - rewrite (vm_call_run _ _ _ _ (R2 : clearpteu pd (4096 * n) (ks_vm (set_vm s1 k)) = _)). done.
  - unfold user_ok. replace PTE_U with (Z.land 0xFFF PTE_U) by done. rewrite Z.land_assoc.
    change (Z.land (pte_of (k_mem s2) T' (4096 * (n + 1))) 0xFFF) with (PTE_FLAGS (pte_of (k_mem s2) T' (4096 * (n + 1)))). by rewrite Hfl.
  - rewrite Hp2 by (unfold is_va; lia). rewrite decide_True by dlia. exact Hnu.
  - intros va Hva. rewrite Hp2 by (unfold is_va; lia). rewrite decide_False by dlia.
    apply (ug_keep _ _ _ _ _ _ _ _ _ _ Hg); [unfold is_va; lia|dlia].
  - intros v Hv. rewrite Hb2 by lia. exact (ugrow_byte pd _ _ _ _ _ _ _ _ _ Hu Hg Hv).
  - intros j Hj. rewrite Hup2 by lia. by apply (ug_new _ _ _ _ _ _ _ _ _ _ Hg).
  - apply Hg.
  - apply Hg.
  - eapply same_except_trans; [apply (ug_same _ _ _ _ _ _ _ _ _ _ Hg)|]. eapply same_except_mono; [|exact HS2]. by left.
Qed.

(** The address space after build_stack: two more pages, the words and the strings
    in the upper one; what it has taken from the free list, and what it has kept. *)
Record stacked (pd : Z) T l (n : Z) (argv : list (list Z)) (s s' : kst) T' l' (sp : Z) (addrs : list Z) : Prop := {
  sk_uvm : uvm s' pd T' l' (n + 2);
  sk_words : load_bytes (k_mem s') pd sp (Z.to_nat (4 * (zlen argv + 4))) =
    Some (concat (le_bytes 4 <$> [0xffffffff; zlen argv; sp + 12] ++ addrs ++ [0]));
  sk_strings : Forall2 (fun str a => a mod 4 = 0 /\ load_bytes (k_mem s') pd a (length str + 1) = Some (str ++ [0])) argv addrs;
  sk_guard : forall va, 4096 * n <= va < 4096 * n + 4096 ->
    exists pa fl, translate (k_mem s') pd va = Some (pa, fl) /\ Z.land fl PTE_U = 0;
  sk_stack : forall va, 4096 * n + 4096 <= va < 4096 * n + 8192 -> exists pa, translate (k_mem s') pd va = Some (pa, 7);
  sk_keep : forall va, 0 <= va < 4096 * n -> translate (k_mem s') pd va = translate (k_mem s) pd va /\
    load_bytes (k_mem s') pd va 1 = load_bytes (k_mem s) pd va 1;
  sk_pages : forall j, 0 <= j < n + 2 -> upage (k_mem s') T' j ∈ l \/ 0 <= j < n /\ upage (k_mem s') T' j = upage (k_mem s) T j;
  sk_tab : forall p, tpages pd T' p -> tpages pd T p \/ p ∈ l;
  sk_free : l' `suffix_of` l;
  sk_same : same_except (fun p => tpages pd T p \/ p ∈ l \/ upages (k_mem s) T n p) (k_mem s) (k_mem s');
  sk_range : 4096 * n + 4096 <= sp /\ sp + 4 * (zlen argv + 4) <= 4096 * n + 8192 /\
    Forall2 (fun str a => 0 <= a /\ a + zlen str + 1 <= 4096 * n + 8192) argv addrs
}.

Lemma run_build_stack k pd T l sz argv :
  uvm (ks_vm k) pd T l (npg sz) -> 0 <= sz -> 4096 * npg sz + 8192 < KERNBASE -> 4 <= zlen l ->
  zlen argv <= MAXARG -> strings_size argv + 4 * (zlen argv + 4) <= 4096 ->
  exists sp s' addrs T' l', build_stack end_ pd argv sz k = Ret (Some (4096 * npg sz + 8192, sp)) (set_vm s' k) /\
    stacked pd T l (npg sz) argv (ks_vm k) s' T' l' sp addrs.
Proof.
  intros Hu Hsz Htop Hl Hargc Hfit. set (n := npg sz) in *. pose proof (u_n _ _ _ _ _ _ Hu) as Hn. pose proof (zlen_nonneg argv) as Hza.
  pose proof (strings_size_nonneg argv) as Hsn. unfold KERNBASE in Htop.
  destruct (run_stack_pages pd T l n k Hu) as (s1 & s2 & T' & l' & R1 & R2 & Hu2 & Hus & Hfl & Hnu & Hp2 & Hb2 & Hnew & Htab & Hsuf & HS2); [unfold KERNBASE; lia|done|].
  destruct (run_push_args pd T' l' (n + 2) argv (set_vm s2 k) 0 (4096 * n + 8192) []) as (s3 & sp' & addrs & R3 & Hu3 & Hp3 & Hr & Hm & Hst & Hf3 & HS3);
    cbn [set_vm ks_vm] in *; auto; try lia.
  { by replace (n + 2 - 1) with (n + 1) by lia. }
  rewrite Z.add_0_l in R3. cbn [app] in R3. pose proof (Forall2_length _ _ _ Hst) as Hlen.
  set (ws := [0xffffffff; zlen argv; sp' - (4 * (zlen argv + 4)) + 12] ++ addrs ++ [0]).
  assert (Hzw : zlen ws = zlen argv + 4). { unfold ws. rewrite !zlen_app. unfold zlen. cbn [length]. lia. }
  assert (Ews : stack_frame (zlen argv) sp' addrs = ws).
  { unfold stack_frame, ws. rewrite u32_small by (unfold is_u32; lia). do 4 f_equal. lia. }
  set (sp := sp' - 4 * (zlen argv + 4)) in *. set (bs := concat (le_bytes 4 <$> ws)).
  assert (Hzb : zlen bs = 4 * (zlen argv + 4)) by (unfold bs; rewrite zlen_words; lia).
  destruct (run_copyout_bytes end_ pd T' l' (n + 2) s3 sp bs) as (s4 & R4 & [Hu4 Hp4 Hb4 HS4]); auto; try (unfold sp; lia).
  { intros j Hj1 Hj2. replace j with (n + 1) by (unfold sp in *; dlia). unfold user_ok. rewrite Hp3. exact Hus. }
  assert (Hkeep : forall v, 0 <= v < 4096 * n -> ubyte (k_mem s4) T' v = ubyte (k_mem (ks_vm k)) T v).
  { intros v Hv. rewrite Hb4, decide_False, Hf3 by (unfold sp; lia). by apply Hb2. }
  assert (Htr : forall v, 0 <= v < 4096 * n -> translate (k_mem s4) pd v = translate (k_mem (ks_vm k)) pd v).
  { intros v Hv. eapply translate_same; [apply Hu|apply Hu4|unfold is_va; lia|]. rewrite Hp4, Hp3. by apply Hp2. }
  exists sp, s4, addrs, T', l'. split; [|constructor; auto].
  - unfold build_stack. assert (Er : PGROUNDUP sz = 4096 * n) by (unfold n, npg in *; rewrite PGROUNDUP_eq; dlia).
    rewrite Er. cbv zeta. change (2 * PGSIZE) with 8192. rewrite u32_small by (unfold is_u32; lia). run R1.
    rewrite (proj2 (Z.eqb_neq _ _)) by lia. replace (4096 * n + 8192 - 8192) with (4096 * n) by lia.
    rewrite u32_small by (unfold is_u32; lia). run R2. run R3. rewrite Ews. fold bs.
    replace (u32 (sp' - (3 + zlen argv + 1) * 4)) with sp by (rewrite u32_small by (unfold is_u32; lia); unfold sp; lia).
    run (vm_call_run (copyout_bytes pd sp bs) (set_vm s3 k) _ _ R4). done.
  - fold ws bs. replace (Z.to_nat (4 * (zlen argv + 4))) with (length bs) by (unfold zlen in Hzb at 1; lia).
    apply (load_bytes_user end_ pd T' l' (n + 2)); auto; try (unfold sp; lia).
    intros i Hi. rewrite Hb4 by (unfold sp; lia). rewrite decide_True by lia. f_equal. lia.
  - eapply Forall2_impl; [exact Hst|]. cbn. intros str a (H1 & H2 & H3 & H4). split; [done|].
    replace (length str + 1)%nat with (length (str ++ [0])) by (rewrite length_app; done).
    assert (Hzs : zlen (str ++ [0]) = zlen str + 1) by (rewrite zlen_app; done). pose proof (zlen_nonneg str).
    apply (load_bytes_user end_ pd T' l' (n + 2)); auto; try lia. intros i Hi. rewrite Hb4, decide_False by (unfold sp; lia). apply H4. lia.
  - intros va Hva. rewrite (translate_user end_ s4 pd T' l' (n + 2) va Hu4) by lia. eexists _, _. split; [done|].
    replace (va / 4096) with n by dlia. unfold PTE_FLAGS. rewrite Hp4, Hp3, <- Z.land_assoc. exact Hnu.
  - intros va Hva. rewrite (translate_user end_ s4 pd T' l' (n + 2) va Hu4) by lia. eexists.
    replace (va / 4096) with (n + 1) by dlia. rewrite Hp4, Hp3, Hfl. done.
  - intros va Hva. split; [by apply Htr|]. cbn [load_bytes]. rewrite (Htr va Hva), (translate_user end_ (ks_vm k) pd T l n va Hu Hva).
    cbn. do 2 f_equal. assert (E := Hkeep va Hva). unfold ubyte, upage in E |- *.
    rewrite (pte_of_page _ _ (4096 * (va / 4096)) va), Hp4, Hp3, Hp2 in E by dlia. 
    rewrite (pte_of_page _ _ (4096 * (va / 4096)) va) in E |- * by dlia. etrans; [|etrans; [exact E|]]; f_equal; lia.
  - intros j Hj. assert (Ej : upage (k_mem s4) T' j = upage (k_mem s2) T' j) by (unfold upage; by rewrite Hp4, Hp3). rewrite Ej.
    destruct (decide (j < n)); [right|left; apply Hnew; lia]. split; [lia|]. unfold upage. rewrite Hp2 by lia. done.
  - assert (Hup : forall p, upages (k_mem s2) T' (n + 2) p -> p ∈ l \/ upages (k_mem (ks_vm k)) T n p).
    { intros p (j & Hj & ->). destruct (decide (j < n)); [right|left; apply Hnew; lia]. exists j. split; [lia|]. unfold upage. by rewrite Hp2 by lia. }
    eapply same_except_trans; [eapply same_except_mono; [|exact HS2]|eapply same_except_trans; eapply same_except_mono; [|exact HS3| |exact HS4]].
    + intros p [Hp|]; [destruct (Htab p Hp)|]; auto.
    + intros p Hp. destruct (Hup p Hp); auto.
    + intros p Hp%(upages_same _ _ _ _ _ Hp3). destruct (Hup p Hp); auto.
  - split_and!; [unfold sp; lia..|]. eapply Forall2_impl; [exact Hst|]. cbn. intros str a (H1 & H2 & _). lia.
Qed.

(** C7: the stack exec builds is the one main expects.  If memory suffices and
    the arguments fit into the stack page, the new stack pointer addresses the
    words fake return address, argc and argv, where argv points to the addresses
    of the strings followed by a null word; each string lies at its address with
    its NUL, and at a multiple of four.  The page below the stack is not
    accessible to the program, the stack page is writable, and the program's own
    pages are as they were loaded. *)
Theorem exec_arguments k pd T l sz argv :
  uvm (ks_vm k) pd T l (npg sz) -> 0 <= sz -> 4096 * npg sz + 8192 < KERNBASE -> 4 <= zlen l ->
  zlen argv <= MAXARG -> strings_size argv + 4 * (zlen argv + 4) <= 4096 ->
  exists sp s' addrs, build_stack end_ pd argv sz k = Ret (Some (4096 * npg sz + 8192, sp)) (set_vm s' k) /\
    load_bytes (k_mem s') pd sp (Z.to_nat (4 * (zlen argv + 4))) =
      Some (concat (le_bytes 4 <$> [0xffffffff; zlen argv; sp + 12] ++ addrs ++ [0])) /\
    Forall2 (fun str a => a mod 4 = 0 /\ load_bytes (k_mem s') pd a (length str + 1) = Some (str ++ [0])) argv addrs /\
    (forall va, 4096 * npg sz <= va < 4096 * npg sz + 4096 ->
      exists pa fl, translate (k_mem s') pd va = Some (pa, fl) /\ Z.land fl PTE_U = 0) /\
    (forall va, 4096 * npg sz + 4096 <= va < 4096 * npg sz + 8192 -> exists pa, translate (k_mem s') pd va = Some (pa, 7)) /\
    (forall va, 0 <= va < 4096 * npg sz -> translate (k_mem s') pd va = translate (k_mem (ks_vm k)) pd va /\
      load_bytes (k_mem s') pd va 1 = load_bytes (k_mem (ks_vm k)) pd va 1).
Proof.
  intros Hu Hsz Htop Hl Hargc Hfit. destruct (run_build_stack k pd T l sz argv Hu Hsz Htop Hl Hargc Hfit)
    as (sp & s' & addrs & T' & l' & R & Hk). exists sp, s', addrs. split; [exact R|]. destruct Hk. auto 10.
Qed.

End Stack.

(** A process of two pages and an empty stack, in a kernel with free memory. *)
Lemma exec_arguments_witness :
  exists (k : kern (bio Memide.memdisk)) pd sp k', build_stack ex_end pd [[101; 99; 104; 111]; [104; 105]] 8192 k = Ret (Some (16384, sp)) k' /\
    exists a, load_bytes (k_mem (ks_vm k')) pd a 3 = Some [104; 105; 0].
Proof.
  destruct boot_process as (s & pd & T & l & Hu & Hl & _). pose proof ex_end_ok as He.
  destruct (exec_arguments ex_end ltac:(lia) (set_vm s ex_kern) pd T l 8192 [[101; 99; 104; 111]; [104; 105]] Hu ltac:(lia)
    ltac:(unfold KERNBASE, npg; reflexivity) ltac:(lia) ltac:(vm_compute; discriminate) ltac:(vm_compute; discriminate))
    as (sp & s' & addrs & R & _ & Hst & _).
  exists (set_vm s ex_kern), pd, sp, (set_vm s' (set_vm s ex_kern)). split; [exact R|].
  destruct addrs as [|a1 [|a2 addrs]]; [by inversion Hst|by inversion Hst as [|? ? ? ? _ H]; inversion H|].
  apply Forall2_cons in Hst as [_ [[_ Hs] _]%Forall2_cons]. exists a2. exact Hs.
Defined.

(** ** What exec does not check *)
Section Unchecked.
Context {S : Type} `{!BufferCache S}.
Context (devsw : Z -> devops S) (end_ : Z).
Implicit Types (k : kern S).

(** The sum of a segment's address and size is not checked for overflow: a
    segment at a kernel address whose size makes the sum wrap around below the
    current size needs no pages and is read straight to its address. *)
Lemma segment_wraps pd ip ph sz k :
  ph_type ph = ELF_PROG_LOAD -> ph_filesz ph <= ph_memsz ph -> KERNBASE <= ph_vaddr ph ->
  u32 (ph_vaddr ph + ph_memsz ph) < sz -> 0 < sz < KERNBASE ->
  load_segment devsw end_ pd ip ph sz k =
    (let! r := loaduvm devsw pd (ph_vaddr ph) ip (ph_off ph) (ph_filesz ph) in
     if r <? 0 then ret None else ret (Some sz)) k.
Proof.
  intros Ht Hf _ Hw Hsz. unfold load_segment. rewrite Ht. change (negb (ELF_PROG_LOAD =? ELF_PROG_LOAD)) with false. cbv iota. rewrite (proj2 (Z.ltb_ge _ _)) by lia.
  assert (E : vm_call (allocuvm end_ pd sz (u32 (ph_vaddr ph + ph_memsz ph))) k = Ret sz k).
  { unfold vm_call, zoom, allocuvm. replace (u32 _ >=? KERNBASE) with false by lia. rewrite (proj2 (Z.ltb_lt _ _)) by lia. by destruct k. }
  run E. by rewrite (proj2 (Z.eqb_neq _ _)) by lia.
Qed.

(** Nor is its alignment, which loaduvm insists on. *)
Lemma segment_misaligned pd ip ph sz sz' k k' :
  ph_type ph = ELF_PROG_LOAD -> ph_filesz ph <= ph_memsz ph -> ph_vaddr ph mod PGSIZE <> 0 ->
  vm_call (allocuvm end_ pd sz (u32 (ph_vaddr ph + ph_memsz ph))) k = Ret sz' k' -> sz' <> 0 ->
  load_segment devsw end_ pd ip ph sz k = Fail (FPanic "loaduvm: addr must be page aligned").
Proof.
  intros Ht Hf Hm E Hz. unfold load_segment. rewrite Ht. change (negb (ELF_PROG_LOAD =? ELF_PROG_LOAD)) with false. cbv iota. rewrite (proj2 (Z.ltb_ge _ _)) by lia.
  run E. rewrite (proj2 (Z.eqb_neq _ _) Hz). unfold loaduvm. by rewrite (proj2 (Z.eqb_neq _ _) Hm).
Qed.

End Unchecked.
