(* ===== verification/ExecLoad.v ===== *)
(** * exec, from the file to the running image (exec.c, loaduvm of vm.c)

    The program headers of an ELF file say what the memory of the new program
    holds ([img_bytes]) and how large it is ([img_size]).  The theorem takes exec
    from its first call to its last: with the file at the path and enough free
    memory it returns 0, and the process has exactly that image. *)

From S2P Require Import Prelude.
From S2P Require Import Triple.
From S2P Require Import Params.
From S2P Require Import Disk.
From S2P Require Import BufSpec.
From S2P Require Import Bio.
From S2P Require Import Log.
From S2P Require Import LogCrash.
From S2P Require Import LogOps.
From S2P Require Import CString.
From S2P Require Import Fs.
From S2P Require Import FsTx.
From S2P Require Import FsAlloc.
From S2P Require Import FsInode.
From S2P Require Import FsFile.
From S2P Require Import FsDir.
From S2P Require Import Mmu.
From S2P Require Import Kalloc.
From S2P Require Import Vm.
From S2P Require Import VmPt.
From S2P Require Import VmUser.
From S2P Require Import VmFree.
From S2P Require Import VmCopy.
From S2P Require Import VmProps.
From S2P Require Import Ptable.
From S2P Require Import Kern.
From S2P Require Import Proc.
From S2P Require Import Args.
From S2P Require Import Sysfile.
From S2P Require Import Exec.
From S2P Require Import ExecProps.
From S2P Require Import Mkfs.
From S2P Require Import MkfsProps.
From S2P Require Import MkfsRead.

(** ** What an ELF file describes *)

Definition elf_of (content : list Z) : elfhdr := get_elfhdr (slice 0 sizeof_elfhdr content).

(** [cnt] program headers from offset [off] on. *)
Fixpoint phdrs (content : list Z) (off : Z) (cnt : nat) : list proghdr :=
  match cnt with
  | O => []
  | S cnt => get_proghdr (slice off sizeof_proghdr content) :: phdrs content (off + sizeof_proghdr) cnt
  end.
Definition headers (content : list Z) : list proghdr :=
  phdrs content (elf_phoff (elf_of content)) (Z.to_nat (elf_phnum (elf_of content))).

Definition is_load (ph : proghdr) : bool := ph_type ph =? ELF_PROG_LOAD.
Definition seg_end (ph : proghdr) : Z := ph_vaddr ph + ph_memsz ph.

(** Memory [B] with the bytes [bs] at [va]. *)
Definition put (va : Z) (bs : list Z) (B : Z -> Z) (v : Z) : Z :=
  if decide (va <= v < va + zlen bs) then zget bs (v - va) else B v.

(** The segments to load, one after the other, over memory [B] and size [sz]. *)
Fixpoint img_bytes (content : list Z) (phs : list proghdr) (B : Z -> Z) : Z -> Z :=
  match phs with
  | [] => B
  | ph :: phs => img_bytes content phs
      (if is_load ph then put (ph_vaddr ph) (slice (ph_off ph) (ph_filesz ph) content) B else B)
  end.
Fixpoint img_size (phs : list proghdr) (sz : Z) : Z :=
  match phs with
  | [] => sz
  | ph :: phs => img_size phs (if is_load ph then Z.max sz (seg_end ph) else sz)
  end.

(** A segment that the linker could have made: page aligned, below the kernel
    with two pages to spare, its file part inside the file. *)
Record seg_ok (content : list Z) (ph : proghdr) : Prop := {
  so_fields : 0 <= ph_vaddr ph /\ 0 <= ph_off ph /\ 0 <= ph_filesz ph;
  so_align : ph_vaddr ph mod PGSIZE = 0;
  so_sizes : ph_filesz ph <= ph_memsz ph;
  so_end : 0 < seg_end ph < KERNBASE - 4 * PGSIZE;
  so_file : ph_off ph + ph_filesz ph <= zlen content
}.

Record elf_ok (content : list Z) : Prop := {
  eo_header : sizeof_elfhdr <= zlen content <= MAXFILE * BSIZE;
  eo_magic : elf_magic (elf_of content) = ELF_MAGIC;
  eo_phoff : 0 <= elf_phoff (elf_of content) /\ 0 <= elf_phnum (elf_of content);
  eo_phend : elf_phoff (elf_of content) + sizeof_proghdr * elf_phnum (elf_of content) <= zlen content;
  eo_segs : Forall (fun ph => is_load ph = true -> seg_ok content ph) (headers content)
}.

Lemma img_size_ge content phs sz : Forall (fun ph => is_load ph = true -> seg_ok content ph) phs ->
  0 <= sz < KERNBASE - 4 * PGSIZE -> sz <= img_size phs sz < KERNBASE - 4 * PGSIZE.
Proof.
  intros H. revert sz. induction H as [|ph phs Hph _ IH]; intros sz Hsz; cbn [img_size]; [lia|].
  destruct (is_load ph); [|by apply IH]. pose proof (so_end _ _ (Hph eq_refl)). specialize (IH (Z.max sz (seg_end ph)) ltac:(lia)). lia.
Qed.

Lemma slice_cut {A} off m n (l : list A) : 0 <= off -> 0 <= m <= n ->
  slice off m l ++ slice (off + m) (n - m) l = slice off n l.
Proof.
  intros Ho Hm. unfold slice. replace (Z.to_nat (off + m)) with (Z.to_nat off + Z.to_nat m)%nat by lia.
  rewrite <- drop_drop. replace (Z.to_nat n) with (Z.to_nat m + Z.to_nat (n - m))%nat by lia.
  generalize (drop (Z.to_nat off) l). intros d. apply take_take_drop.
Qed.

(** ** The image under construction *)
Section Build.
Context (end_ : Z).
Hypothesis Hend : KERNBASE < end_.
Local Abbreviation uvm := (uvm end_).
Implicit Types (m : mem) (s : kst) (T : gmap Z Z) (l : list Z).

(** Address space [pd] has [n] pages that hold [B], all of its pages taken from
    the free list [L] of memory [m0], which has changed in these pages only. *)
Record building (L : list Z) (m0 : mem) (pd : Z) s T l (n : Z) (B : Z -> Z) : Prop := {
  bd_uvm : uvm s pd T l n;
  bd_flags : forall k, 0 <= k < n -> PTE_FLAGS (pte_of (k_mem s) T (4096 * k)) = 7;
  bd_byte : forall v, 0 <= v < 4096 * n -> ubyte (k_mem s) T v = B v;
  bd_same : same_except (fun p => p ∈ L) m0 (k_mem s);
  bd_tab : forall p, tpages pd T p -> p ∈ L;
  bd_page : forall p, upages (k_mem s) T n p -> p ∈ L;
  bd_free : l `suffix_of` L;
  bd_len : zlen L <= zlen l + 65 + 2 * n
}.

Lemma building_grow L m0 pd s T l n B s' T' l' n' :
  building L m0 pd s T l n B -> n <= n' -> (forall v, 4096 * n <= v -> B v = 0) ->
  ugrow end_ pd s T l n s' T' l' n' -> building L m0 pd s' T' l' n' B.
Proof.
  intros [Hu Hfl Hby HS Ht Hp Hf Hl] Hn HB Hg. pose proof (u_n _ _ _ _ _ _ Hu) as Hn0. pose proof (u_n _ _ _ _ _ _ (ug_uvm _ _ _ _ _ _ _ _ _ _ Hg)) as Hn1.
  unfold UPAGES in *.
  assert (Hold : forall k, 0 <= k < n -> pte_of (k_mem s') T' (4096 * k) = pte_of (k_mem s) T (4096 * k)).
  { intros k Hk. apply (ug_keep _ _ _ _ _ _ _ _ _ _ Hg); [unfold is_va; lia|dlia]. }
  assert (Ht' : forall p, tpages pd T' p -> p ∈ L).
  { intros p Hp'. destruct (ug_tab _ _ _ _ _ _ _ _ _ _ Hg p Hp'); [auto|by eapply suffix_in]. }
  constructor; auto.
  - apply Hg.
  - intros k Hk. destruct (decide (k < n)); [rewrite Hold by lia; apply Hfl; lia|]. apply (ug_flags _ _ _ _ _ _ _ _ _ _ Hg). lia.
  - intros v Hv. destruct (decide (v < 4096 * n)).
    + rewrite <- Hby by lia. apply (ugrow_byte end_ pd _ _ _ _ _ _ _ _ _ Hu Hg). lia.
    + rewrite HB by lia. pose proof (Z.mod_pos_bound v 4096 ltac:(lia)). unfold ubyte.
      apply (ug_zero _ _ _ _ _ _ _ _ _ _ Hg (v / 4096)); [dlia|lia].
  - eapply same_except_trans; [exact HS|]. eapply same_except_mono; [|apply (ug_same _ _ _ _ _ _ _ _ _ _ Hg)].
    intros p [Hp'|Hp']; [auto|by eapply suffix_in].
  - intros p (k & Hk & ->). destruct (decide (k < n)).
    + apply Hp. exists k. split; [lia|]. unfold upage. by rewrite Hold by lia.
    + eapply suffix_in; [exact Hf|]. apply (ug_new _ _ _ _ _ _ _ _ _ _ Hg). lia.
  - etrans; [|exact Hf]. apply Hg.
  - pose proof (ug_len _ _ _ _ _ _ _ _ _ _ Hg). lia.
Qed.

Lemma building_wrote L m0 pd s T l n B va bs s' :
  building L m0 pd s T l n B -> wrote end_ pd T l n va bs s s' -> building L m0 pd s' T l n (put va bs B).
Proof.
  intros [Hu Hfl Hby HS Ht Hp Hf Hl] [Hu' Hp' Hby' HS']. constructor; auto.
  - intros k Hk. rewrite Hp'. by apply Hfl.
  - intros v Hv. rewrite Hby' by done. unfold put. by rewrite Hby.
  - eapply same_except_trans; [exact HS|]. by eapply same_except_mono.
  - intros p Hpp%(upages_same _ _ _ _ _ Hp'). auto.
Qed.

Lemma wrote_nil pd T l n va s : uvm s pd T l n -> wrote end_ pd T l n va [] s s.
Proof. intros Hu. constructor; auto; [|done]. intros v Hv. rewrite decide_False; [done|]. unfold zlen. cbn. lia. Qed.

Lemma wrote_nothing pd T l n va va' s s' : wrote end_ pd T l n va [] s s' -> wrote end_ pd T l n va' [] s s'.
Proof. intros [Hu Hp Hb HS]. constructor; auto. intros v Hv. rewrite Hb by done. change (zlen (@nil Z)) with 0. by rewrite !decide_False by lia. Qed.

(** Two writes, the second where the first ended. *)
Lemma wrote_app pd T l n va bs cs s s1 s2 :
  wrote end_ pd T l n va bs s s1 -> wrote end_ pd T l n (va + zlen bs) cs s1 s2 -> wrote end_ pd T l n va (bs ++ cs) s s2.
Proof.
  intros [Hu1 Hp1 Hb1 S1] [Hu2 Hp2 Hb2 S2]. constructor; auto.
  - intros v. by rewrite Hp2.
  - intros v Hv. rewrite Hb2, Hb1, zlen_app by done. pose proof (zlen_nonneg bs). pose proof (zlen_nonneg cs).
    destruct (decide (va + zlen bs <= v < va + zlen bs + zlen cs)).
    + rewrite decide_True by lia. unfold zget, zlen in *. rewrite app_nth2 by lia. f_equal. lia.
    + destruct (decide (va <= v < va + zlen bs)); [|by rewrite decide_False by lia].
      rewrite decide_True by lia. unfold zget, zlen in *. by rewrite app_nth1 by lia.
  - eapply same_except_trans; [exact S1|]. eapply same_except_mono; [|exact S2]. intros p. by apply upages_same.
Qed.

(** A write of bytes that all lie in one page, by its kernel address. *)
Lemma wrote_page pd T l n va bs s :
  uvm s pd T l n -> 0 <= va < 4096 * n -> va mod 4096 + zlen bs <= 4096 ->
  wrote end_ pd T l n va bs s (set_mem (mset_list (k_mem s) (upage (k_mem s) T (va / 4096) + va mod 4096) bs) s).
Proof.
  intros Hu Hva Hl. destruct (user_write end_ s pd T l n va (zlen bs) (zget bs)
    (mset_list (k_mem s) (upage (k_mem s) T (va / 4096) + va mod 4096) bs)) as (Hu1 & Hp1 & S1 & Hb1); auto; try lia.
  - apply zlen_nonneg.
  - intros a. apply mset_list_spec.
  - constructor; auto. eapply same_except_mono; [|exact S1]. intros p ->. exists (va / 4096). split; [dlia|done].
Qed.

(** The entry of a user page as walkpgdir and a load find it. *)
Lemma run_walk_user s pd T l n va : uvm s pd T l n -> 0 <= va < 4096 * n ->
  exists a, walkpgdir pd va false s = Ret a s /\ a <> 0 /\ load a s = Ret (pte_of (k_mem s) T va) s.
Proof.
  intros Hu Hva. pose proof (vo_pt _ _ _ _ _ (u_ok _ _ _ _ _ _ Hu)) as HT. pose proof (u_n _ _ _ _ _ _ Hu) as Hn.
  destruct (u_pte _ _ _ _ _ _ Hu (va / 4096)) as [Hpr _]; [dlia|].
  rewrite (pte_of_page _ _ _ va) in Hpr by dlia. unfold pte_of in Hpr |- *.
  destruct (T !! PDX va) as [tp|] eqn:Et; [|done].
  destruct (pt_some _ _ _ _ HT _ _ Et) as (_ & Htp & _). destruct (page_bounds end_ tp Htp) as (_ & Htp1 & _).
  pose proof (PTX_range va) as Hx. eexists. split; [exact (run_walk_some end_ s pd T va tp false HT Et)|].
  split; [unfold KERNBASE in *; lia|done].
Qed.

End Build.

(** ** Reading the segments into the image *)
Section Load.
Context {S : Type} `{!BufferCache S}.
Context (devsw : Z -> devops S) (end_ : Z) (ip : nat) (content : list Z).
Hypothesis Hend : KERNBASE < end_.
Implicit Types (k : kern S) (s : kst) (T : gmap Z Z) (l : list Z) (f : fs S).

(** A condition of the file system under which inode [ip] reads as [content]. *)
Definition reads_as (Rd : fs S -> Prop) : Prop := forall f off n,
  Rd f -> 0 <= off -> 0 <= n -> off + n <= zlen content ->
  exists f', readi devsw ip off n f = Ret (n, slice off n content) f' /\ Rd f'.

Context (Rd : fs S -> Prop).
Hypothesis Hread : reads_as Rd.
Hypothesis Hsmall : zlen content <= MAXFILE * BSIZE.

Lemma fs_call_run {A} (m : M (fs S) A) k a f : m (ks_fs k) = Ret a f -> fs_call m k = Ret a (set_fs f k).
Proof. intros H. unfold fs_call. by apply zoom_run. Qed.

(** The kernel with a new file system and memory. *)
Definition with_fv f s k : kern S := set_fs f (set_vm s k).

Lemma run_loaduvm_loop pd T l n addr off sz fuel i k :
  uvm end_ (ks_vm k) pd T l n -> Rd (ks_fs k) -> addr mod 4096 = 0 -> i mod 4096 = 0 -> 0 <= addr -> 0 <= i -> 0 <= off -> 0 <= sz ->
  addr + sz <= 4096 * n -> off + sz <= zlen content -> (sz - i + 4095) / 4096 <= Z.of_nat fuel ->
  exists f s, loaduvm_loop devsw fuel pd addr ip off sz i k = Ret 0 (with_fv f s k) /\ Rd f /\
    wrote end_ pd T l n (addr + i) (slice (off + i) (sz - i) content) (ks_vm k) s.
Proof using Hend Hread Hsmall.
  revert i k. induction fuel as [|fuel IH]; intros i k Hu HR Ha Hi Ha0 Hi0 Ho Hsz Htop Hfile Hfuel; cbn [loaduvm_loop].
  all: destruct (Z.ltb_spec i sz) as [Hlt|Hge].
  1: exfalso; dlia.
  1, 3: exists (ks_fs k), (ks_vm k); split; [by destruct k|split; [done|]]; unfold slice; replace (Z.to_nat (sz - i)) with 0%nat by lia; by apply wrote_nil.
  pose proof (u_n _ _ _ _ _ _ Hu) as Hn. unfold UPAGES in Hn. change (MAXFILE * BSIZE) with 71680 in Hsmall.
  rewrite (u32_small (addr + i)) by (unfold is_u32; lia). rewrite (u32_small (sz - i)), (u32_small (off + i)) by (unfold is_u32; lia).
  destruct (run_walk_user end_ (ks_vm k) pd T l n (addr + i) Hu ltac:(lia)) as (a & R1 & Hz & R2).
  run (vm_call_run _ _ _ _ R1). rewrite (proj2 (Z.eqb_neq _ _) Hz).
  assert (E1 : set_vm (ks_vm k) k = k) by by destruct k. rewrite E1. run (vm_call_run _ _ _ _ R2). rewrite E1.
  assert (En : (if sz - i <? PGSIZE then sz - i else PGSIZE) = Z.min (sz - i) 4096).
  { unfold PGSIZE. destruct (Z.ltb_spec (sz - i) 4096); lia. }
  rewrite En. set (c := Z.min (sz - i) 4096).
  destruct (Hread (ks_fs k) (off + i) c HR ltac:(lia) ltac:(lia) ltac:(lia)) as (f1 & R3 & HR1).
  run (fs_call_run _ _ _ _ R3). set (bs := slice (off + i) c content).
  assert (Hbs : zlen bs = c) by (apply length_slice; lia).
  replace (p2v (PTE_ADDR (pte_of (k_mem (ks_vm k)) T (addr + i)))) with (upage (k_mem (ks_vm k)) T ((addr + i) / 4096) + (addr + i) mod 4096).
  2: { unfold upage. rewrite (pte_of_page _ _ (4096 * ((addr + i) / 4096)) (addr + i)) by dlia. replace ((addr + i) mod 4096) with 0 by dlia. lia. }
  pose proof (wrote_page end_ pd T l n (addr + i) bs (ks_vm k) Hu ltac:(lia) ltac:(dlia)) as W1.
  set (s1 := set_mem _ (ks_vm k)) in W1.
  assert (E : kwrite (upage (k_mem (ks_vm k)) T ((addr + i) / 4096) + (addr + i) mod 4096) bs (ks_vm (set_fs f1 k)) = Ret tt s1) by done.
  run (vm_call_run _ _ _ _ E). rewrite u32_small by (unfold is_u32; lia). rewrite Z.eqb_refl. cbn [negb].
  unfold PGSIZE. rewrite u32_small by (unfold is_u32; lia).
  destruct (IH (i + 4096) (set_vm s1 (set_fs f1 k))) as (f2 & s2 & R4 & HR2 & W2); auto; try lia; try dlia; [apply W1|].
  exists f2, s2. split; [exact R4|]. split; [done|]. cbn [ks_vm set_vm] in W2.
  destruct (decide (sz - i <= 4096)) as [Hlast|Hmore].
  - unfold slice in W2 at 1. replace (Z.to_nat (sz - (i + 4096))) with 0%nat in W2 by lia. cbn [take] in W2.
    replace (slice (off + i) (sz - i) content) with (bs ++ []) by (rewrite app_nil_r; unfold bs, c; f_equal; lia).
    eapply wrote_app; [exact W1|]. by eapply wrote_nothing.
  - rewrite <- (slice_cut (off + i) c (sz - i)) by lia. eapply wrote_app; [exact W1|].
    unfold bs in Hbs |- *. rewrite Hbs. replace c with 4096 by lia. replace (addr + i + 4096) with (addr + (i + 4096)) by lia.
    replace (off + i + 4096) with (off + (i + 4096)) by lia. replace (sz - i - 4096) with (sz - (i + 4096)) by lia. exact W2.
Qed.

Lemma run_loaduvm pd T l n addr off sz k :
  uvm end_ (ks_vm k) pd T l n -> Rd (ks_fs k) -> addr mod PGSIZE = 0 -> 0 <= addr -> 0 <= off -> 0 <= sz ->
  addr + sz <= 4096 * n -> off + sz <= zlen content ->
  exists f s, loaduvm devsw pd addr ip off sz k = Ret 0 (with_fv f s k) /\ Rd f /\
    wrote end_ pd T l n addr (slice off sz content) (ks_vm k) s.
Proof using Hend Hread Hsmall.
  intros Hu HR Ha Ha0 Ho Hsz Htop Hfile. unfold loaduvm. rewrite Ha. unfold PGSIZE in *.
  destruct (run_loaduvm_loop pd T l n addr off sz (Z.to_nat (sz / 4096 + 1)) 0 k) as (f & s & R & HR' & W); auto; try lia; [dlia|].
  exists f, s. rewrite !Z.add_0_r, Z.sub_0_r in W. done.
Qed.

(** What is taken out of the free list for [n] user pages. *)
Definition room (L : list Z) (n : Z) : Prop := 65 + 2 * n <= zlen L.
Definition empty_above (B : Z -> Z) (n : Z) : Prop := forall v, 4096 * n <= v -> B v = 0.

Lemma npg_le a b : a <= b -> npg a <= npg b.
Proof. intros H. unfold npg. dlia. Qed.

Lemma run_grow_image L m0 pd T l sz new B k :
  building end_ L m0 pd (ks_vm k) T l (npg sz) B -> empty_above B (npg sz) -> 0 <= sz -> 0 < new < KERNBASE ->
  room L (npg (Z.max sz new)) ->
  exists s T' l', vm_call (allocuvm end_ pd sz new) k = Ret (Z.max sz new) (set_vm s k) /\
    building end_ L m0 pd s T' l' (npg (Z.max sz new)) B.
Proof using Hend.
  intros Hb HB Hsz Hnew HL. destruct (decide (new < sz)) as [Hlt|Hge].
  - rewrite Z.max_l in * by lia. exists (ks_vm k), T, l. split; [|done]. apply vm_call_run. unfold allocuvm.
    replace (new >=? KERNBASE) with false by lia. by rewrite (proj2 (Z.ltb_lt _ _) Hlt).
  - rewrite Z.max_r in * by lia. pose proof (bd_len _ _ _ _ _ _ _ _ _ Hb). unfold room in HL.
    destruct (run_allocuvm end_ Hend pd (ks_vm k) T l sz new (bd_uvm _ _ _ _ _ _ _ _ _ Hb)) as (s & T' & l' & R & Hg); try lia.
    exists s, T', l'. split; [by apply vm_call_run|]. eapply building_grow; eauto. by apply npg_le; lia.
Qed.

Lemma run_load_segment L m0 pd T l ph sz B k :
  building end_ L m0 pd (ks_vm k) T l (npg sz) B -> empty_above B (npg sz) -> Rd (ks_fs k) -> 0 <= sz ->
  (is_load ph = true -> seg_ok content ph) -> room L (npg (img_size [ph] sz)) ->
  exists f s T' l', load_segment devsw end_ pd ip ph sz k = Ret (Some (img_size [ph] sz)) (with_fv f s k) /\ Rd f /\
    building end_ L m0 pd s T' l' (npg (img_size [ph] sz)) (img_bytes content [ph] B) /\
    empty_above (img_bytes content [ph] B) (npg (img_size [ph] sz)).
Proof using Hend Hread Hsmall.
  intros Hb HB HR Hsz Hok HL. unfold load_segment. cbn [img_size img_bytes] in *. fold (is_load ph).
  destruct (is_load ph); [specialize (Hok eq_refl)|exists (ks_fs k), (ks_vm k), T, l; by destruct k].
  destruct Hok as [(Hv & Ho & Hfs) Hal Hms He Hf]. unfold seg_end, KERNBASE, PGSIZE in *. cbn [negb]. rewrite (proj2 (Z.ltb_ge _ _)) by lia.
  rewrite (u32_small (_ + _)) by (unfold is_u32; lia).
  destruct (run_grow_image L m0 pd T l sz (ph_vaddr ph + ph_memsz ph) B k) as (s & T' & l' & R & Hb1); auto; [unfold KERNBASE; lia|].
  run R. set (sz' := Z.max _ _) in *. rewrite (proj2 (Z.eqb_neq _ _)) by lia.
  assert (Hnp : sz' <= 4096 * npg sz') by (unfold npg; dlia).
  destruct (run_loaduvm pd T' l' (npg sz') (ph_vaddr ph) (ph_off ph) (ph_filesz ph) (set_vm s k)) as (f & s2 & R2 & HR2 & W); auto; try lia.
  { apply Hb1. }
  run R2. exists f, s2, T', l'. split_and!; auto.
  - by eapply building_wrote.
  - intros v Hv'. unfold put. rewrite length_slice, decide_False by lia. apply HB.
    pose proof (npg_le sz sz' ltac:(lia)). lia.
Qed.

Lemma run_load_segments L m0 pd cnt : forall T l off sz B k,
  building end_ L m0 pd (ks_vm k) T l (npg sz) B -> empty_above B (npg sz) -> Rd (ks_fs k) -> 0 <= sz < KERNBASE - 4 * PGSIZE ->
  0 <= off -> off + sizeof_proghdr * Z.of_nat cnt <= zlen content ->
  Forall (fun ph => is_load ph = true -> seg_ok content ph) (phdrs content off cnt) ->
  room L (npg (img_size (phdrs content off cnt) sz)) ->
  exists f s T' l', load_segments devsw end_ cnt pd ip off sz k = Ret (Some (img_size (phdrs content off cnt) sz)) (with_fv f s k) /\ Rd f /\
    building end_ L m0 pd s T' l' (npg (img_size (phdrs content off cnt) sz)) (img_bytes content (phdrs content off cnt) B).
Proof using Hend Hread Hsmall.
  induction cnt as [|cnt IH]; intros T l off sz B k Hb HB HR Hsz Hoff Hfile Hok HL.
  { exists (ks_fs k), (ks_vm k), T, l. by destruct k. }
  cbn [load_segments phdrs] in *. set (ph := get_proghdr (slice off sizeof_proghdr content)) in *. apply Forall_cons in Hok as [Hph Hok].
  change (MAXFILE * BSIZE) with 71680 in Hsmall. unfold sizeof_proghdr in *.
  destruct (Hread (ks_fs k) off 32 HR Hoff ltac:(lia) ltac:(lia)) as (f1 & R1 & HR1). run (fs_call_run _ _ _ _ R1).
  change (negb (u32 32 =? 32)) with false. cbv iota. fold ph. cbn [img_size img_bytes] in *.
  set (sz1 := if is_load ph then Z.max sz (seg_end ph) else sz) in *.
  assert (Hsz1 : 0 <= sz1 < KERNBASE - 4 * PGSIZE).
  { unfold sz1. destruct (is_load ph); [|lia]. pose proof (so_end _ _ (Hph eq_refl)). lia. }
  pose proof (img_size_ge _ _ sz1 Hok Hsz1) as Hge.
  destruct (run_load_segment L m0 pd T l ph sz B (set_fs f1 k)) as (f2 & s2 & T2 & l2 & R2 & HR2 & Hb2 & HB2); auto; try lia.
  { cbn [img_size]. fold sz1. unfold room in *. pose proof (npg_le sz1 _ (proj1 Hge)). lia. }
  run R2. cbn [img_size img_bytes] in Hb2, HB2 |- *. fold sz1 in Hb2, HB2 |- *. rewrite u32_small by (unfold is_u32; lia).
  destruct (IH T2 l2 (off + 32) sz1 _ (with_fv f2 s2 (set_fs f1 k)) Hb2 HB2 HR2) as (f3 & s3 & T3 & l3 & R3 & HR3 & Hb3); auto; try lia.
  exists f3, s3, T3, l3. split; [exact R3|]. done.
Qed.

End Load.

(** ** The file that is read *)
Section File.
Context {S : Type} `{!BufferCache S}.
Context (devsw : Z -> devops S) (start : Z) (V : Z -> block) (kk : Z) (ip : nat) (y : inode) (content : list Z).
Implicit Types (f : fs S).

(** No commit is in progress, and entry [ip] of the inode cache is not a device. *)
Definition calm f : Prop := lg_committing (fs_log f) = 0 /\ i_type (default null_inode (fs_inode f !! ip)) <> T_DEV.

Lemma calm_buf {A} (m : M S A) : keeps calm (fun _ => True) (buf_call m).
Proof. intros f Hf. unfold buf_call, log_call, bio_call, zoom. by destruct (m (lg_bio (fs_log f))). Qed.
Lemma calm_data bp : keeps calm (fun _ => True) (data bp).
Proof. intros f Hf. exact Hf. Qed.
Lemma calm_log {A} (m : M (log S) A) :
  keeps (fun l => lg_committing l = 0) (fun _ => True) m -> keeps calm (fun _ => True) (log_call m).
Proof. intros H f [Hc Ht]. specialize (H (fs_log f) Hc). unfold log_call, zoom. destruct (m (fs_log f)); done. Qed.
Lemma calm_bio {A} (m : M S A) : keeps (fun l : log S => lg_committing l = 0) (fun _ => True) (bio_call m).
Proof. intros l Hl. unfold bio_call, zoom. by destruct (m (lg_bio l)). Qed.
Lemma calm_head g : keeps (fun l : log S => lg_committing l = 0) (fun _ => True) (modify (fun l => set_head (g l).1 (g l).2 l)).
Proof. by apply triple_modify. Qed.
Lemma calm_set_addr n a : keeps calm (fun _ => True) (modip ip (set_addr n a)).
Proof.
  apply triple_modify. intros f [Hc Ht]. split; [done|]. cbn [fs_inode]. rewrite list_lookup_alter.
  rewrite decide_True by done. by destruct (fs_inode f !! ip).
Qed.

#[local] Hint Resolve calm_buf calm_data calm_bio calm_set_addr : keeps.

Lemma calm_readsb dev : keeps calm (fun _ => True) (log_call (readsb dev)).
Proof. apply calm_log. unfold readsb, bufdata. keeps. Qed.
Lemma calm_store bp d : keeps calm (fun _ => True) (log_store bp d).
Proof.
  unfold log_store. apply keeps_bind; [apply calm_buf|]. intros _. apply calm_log. unfold log_write.
  apply keeps_bind; [apply keeps_get|]. intros l0. do 2 (destruct (_ || _) || destruct (_ <? _); [apply keeps_panic|]). cbv zeta.
  apply keeps_bind; [by apply triple_modify|]. intros _. apply keeps_bind; [|intros _; apply calm_bio].
  destruct (_ =? _); [by apply triple_modify|apply keeps_ret].
Qed.
#[local] Hint Resolve calm_readsb calm_store : keeps.

Lemma calm_balloc dev : keeps calm (fun _ => True) (balloc dev).
Proof.
  unfold balloc. apply keeps_bind; [apply calm_readsb|]. intros sb. generalize (Z.to_nat (sb_size sb / BPB + 2)) 0. intros fuel.
  induction fuel as [|fuel IH]; intros b; cbn [balloc_from]; unfold bzero; keeps.
Qed.
#[local] Hint Resolve calm_balloc : keeps.

Lemma calm_bmap bn : keeps calm (fun _ => True) (bmap ip bn).
Proof. unfold bmap, getip. cbv zeta. keeps. Qed.
#[local] Hint Resolve calm_bmap : keeps.

Lemma calm_readi off n : keeps calm (fun _ => True) (readi devsw ip off n).
Proof.
  intros f Hf. unfold readi, getip. rewrite (bind_run (get _) _ f _ f eq_refl). cbv beta.
  rewrite (proj2 (Z.eqb_neq _ _) (proj2 Hf)). revert f Hf.
  enough (H : forall x, keeps calm (fun _ => True)
    (if (off >? i_size x) || (u32 (off + n) <? off) then ret (-1, []) else
     let n := if u32 (off + n) >? i_size x then i_size x - off else n in
     let! bs := readi_loop (Z.to_nat n) ip (i_dev x) off n 0 [] in ret (n, bs))) by (intros f Hf; by apply H).
  intros x. destruct (_ || _); [apply keeps_ret|]. cbv zeta. set (n' := if _ >? _ then _ else n). clearbody n'.
  apply keeps_bind; [|intros; apply keeps_ret]. generalize (Z.to_nat n') off 0 (@nil Z). intros fuel.
  induction fuel as [|fuel IH]; intros o tot acc; cbn [readi_loop]; keeps.
Qed.

(** The locked inode [ip] is [y], a file with the bytes [content], in a file system
    where a transaction is open. *)
Record open_file f : Prop := {
  of_tx : fstx start f V ∅ kk;
  of_layout : layout start V;
  of_wf : wf_file start V y;
  of_dense : dense V y;
  of_ino : fs_inode f !! ip = Some y;
  of_type : i_type y <> T_DEV;
  of_linked : i_nlink y <> 0;
  of_locked : has (i_flags y) I_BUSY = true /\ 1 <= i_ref y;
  of_bytes : fbytes V y 0 (i_size y) = content;
  of_committing : lg_committing (fs_log f) = 0
}.

Lemma open_file_reads : reads_as devsw ip content open_file.
Proof.
  intros f off n [Ht HL Hw Hd Hi Hty Hl Hlk Hb Hc] Ho Hn Hf. destruct Hd as [Hs Hd'].
  assert (Hlen : zlen content = i_size y) by (rewrite <- Hb; unfold zlen; rewrite length_fbytes; lia).
  change (MAXFILE * BSIZE) with 71680 in Hs.
  destruct (run_readi devsw start V kk f ip y off n Ht HL Hw (conj Hs Hd') Hi Hty) as (f' & R & Hi' & Ht'); try lia.
  exists f'. rewrite R. split.
  - f_equal. f_equal; [lia|]. rewrite Z.min_l by lia. rewrite <- Hb. apply list_eq. intros i.
    destruct (decide (Z.of_nat i < n)) as [Hin|Hin].
    + rewrite lookup_slice, !lookup_fbytes by lia. f_equal. f_equal. lia.
    + rewrite !lookup_ge_None_2; [done|unfold slice; rewrite length_take; lia|rewrite length_fbytes; lia].
  - constructor; auto; [by split|congruence|]. pose proof (calm_readi off n f) as H. rewrite R in H. apply H.
    split; [done|]. by rewrite Hi.
Qed.

(** Letting go of it leaves the log alone. *)
Lemma run_release f : open_file f -> exists ic, iunlockput ip f = Ret tt (MkFs (fs_log f) ic).
Proof.
  intros [Ht HL Hw Hd Hi Hty Hl [Hlk Hr] Hb Hc]. unfold iunlockput, iunlock. rewrite bind_bind. run (run_getip _ _ _ Hi).
  rewrite Hlk, (proj2 (Z.ltb_ge _ _)) by lia. cbn [negb orb].
  set (y1 := set_iflags (clrf (i_flags y) I_BUSY) y). set (f1 := MkFs (fs_log f) (<[ip := y1]> (fs_inode f))).
  rewrite (bind_run _ _ f tt f1) by (rewrite lookup_modip, (list_alter_insert _ _ _ _ Hi); done). cbv beta.
  assert (Hi1 : fs_inode f1 !! ip = Some y1) by (cbn; apply list_lookup_insert_eq; by eapply lookup_lt_Some).
  unfold iput. run (run_getip _ _ _ Hi1). change (i_nlink y1) with (i_nlink y). rewrite (proj2 (Z.eqb_neq _ _) Hl), andb_false_r.
  eexists. reflexivity.
Qed.

(** end_op returns: as the last call it commits, otherwise it leaves the log. *)
Lemma run_end_op f ic : fstx start f V ∅ kk -> lg_committing (fs_log f) = 0 ->
  exists f', log_call end_op (MkFs (fs_log f) ic) = Ret tt f'.
Proof.
  intros (a & Ls & [Ht Hs Hh Hv Hcl Ho Hk Hlg Hrm]) Hc.
  enough (exists l', end_op (fs_log f) = Ret tt l') as [l' R] by (exists (set_log l' (MkFs (fs_log f) ic)); unfold log_call; by apply zoom_run).
  destruct (decide (lg_outstanding (fs_log f) = 1)) as [E|E].
  - rewrite end_op_last by done. pose proof (tx_set_ops _ _ _ 0 1 Ht) as Ht1. destruct (decide (Ls = [])) as [->|Hne].
    + eexists. unfold commit. rewrite bind_bind. rewrite (bind_run (get _) _ _ _ _ eq_refl). rewrite (tx_n _ _ _ Ht1). reflexivity.
    + destruct (commit_run _ _ _ Ht1 Hh Hne) as (s1 & Hr & _). eexists. run Hr. reflexivity.
  - eexists. unfold end_op. rewrite (bind_run (modify _) _ _ _ _ eq_refl), (bind_run (get _) _ _ _ _ eq_refl).
    cbn [lg_committing lg_outstanding set_ops]. rewrite Hc. cbn [Z.eqb negb].
    rewrite (proj2 (Z.eqb_neq (lg_outstanding (fs_log f) - 1) 0)) by lia. reflexivity.
Qed.

End File.

(** ** The whole of exec *)

Lemma Forall2_both {A B} (P Q : A -> B -> Prop) xs ys :
  Forall2 P xs ys -> Forall2 Q xs ys -> Forall2 (fun x y => P x y /\ Q x y) xs ys.
Proof. intros H. induction H as [|x y xs ys Hx H IH]; [done|]. intros [Hq HQ]%Forall2_cons. constructor; auto. Qed.

Lemma load_bytes_frame (m m' : mem) pd hi va c :
  (forall v, 0 <= v < hi -> translate m' pd v = translate m pd v) ->
  (forall v pa fl, 0 <= v < hi -> translate m pd v = Some (pa, fl) -> m' (KERNBASE + pa) = m (KERNBASE + pa)) ->
  0 <= va -> va + Z.of_nat c <= hi -> load_bytes m' pd va c = load_bytes m pd va c.
Proof.
  intros Ht Hm. revert va. induction c as [|c IH]; intros va Hva Hhi; [done|]. cbn [load_bytes]. rewrite Ht by lia.
  destruct (translate m pd va) as [[pa fl]|] eqn:E; [|done]. by rewrite (Hm va pa fl), IH by (done || lia).
Qed.

(** What the program of file [content] finds when it starts with stack pointer
    [sp] in address space [pd]: its segments, zeros in the rest of its pages, an
    inaccessible page, the stack with the arguments, and nothing above. *)
Record started (content : list Z) (argv : list (list Z)) (m : mem) (pd n sp : Z) : Prop := {
  sd_image : forall va, 0 <= va < 4096 * n -> exists pa, translate m pd va = Some (pa, 7) /\
    m (KERNBASE + pa) = img_bytes content (headers content) (fun _ => 0) va;
  sd_args : exists addrs, load_bytes m pd sp (Z.to_nat (4 * (zlen argv + 4))) =
      Some (concat (le_bytes 4 <$> [0xffffffff; zlen argv; sp + 12] ++ addrs ++ [0])) /\
    Forall2 (fun str a => a mod 4 = 0 /\ load_bytes m pd a (length str + 1) = Some (str ++ [0])) argv addrs;
  sd_guard : forall va, 4096 * n <= va < 4096 * n + 4096 -> exists pa fl, translate m pd va = Some (pa, fl) /\ Z.land fl PTE_U = 0;
  sd_stack : forall va, 4096 * n + 4096 <= va < 4096 * n + 8192 -> exists pa, translate m pd va = Some (pa, 7);
  sd_above : forall va, 4096 * n + 8192 <= va < KERNBASE -> translate m pd va = None
}.

Section Commit.
Context (end_ : Z).
Hypothesis Hend : KERNBASE < end_.
Implicit Types (s : kst) (T : gmap Z Z) (l : list Z).

(** An address space that changes elsewhere leave alone: what its program sees. *)
Record same_view (pd n : Z) (m m' : mem) : Prop := {
  sv_translate : forall v, 0 <= v < 4096 * n -> translate m' pd v = translate m pd v;
  sv_load : forall va c, 0 <= va -> va + Z.of_nat c <= 4096 * n -> load_bytes m' pd va c = load_bytes m pd va c
}.

Lemma uvm_same_view s pd T l n s' l' (P : Z -> Prop) :
  uvm end_ s pd T l n -> kinv end_ s' l' -> same_except P (k_mem s) (k_mem s') ->
  (forall p, tpages pd T p \/ upages (k_mem s) T n p -> ~ P p /\ p ∉ l') ->
  uvm end_ s' pd T l' n /\ same_view pd n (k_mem s) (k_mem s').
Proof using Hend.
  intros Hu Hk HS HP. destruct (uvm_frame end_ s pd T l n s' l' P Hu Hk HS HP) as (Hu' & Hp & Hb). split; [done|].
  pose proof (u_n _ _ _ _ _ _ Hu) as Hn. unfold UPAGES in Hn.
  assert (Ht : forall v, 0 <= v < 4096 * n -> translate (k_mem s') pd v = translate (k_mem s) pd v).
  { intros v Hv. eapply translate_same; [apply Hu|apply Hu'|unfold is_va; lia|apply Hp]. }
  constructor; [done|]. intros va c. apply load_bytes_frame; [done|]. intros v pa fl Hv E.
  rewrite (translate_user end_ s pd T l n v Hu Hv) in E. injection E as <- _.
  replace (KERNBASE + (upage (k_mem s) T (v / 4096) - KERNBASE + v mod 4096)) with (upage (k_mem s) T (v / 4096) + v mod 4096) by lia.
  pose proof (Z.mod_pos_bound v 4096 ltac:(lia)). apply (Hb (v / 4096)); [dlia|lia].
Qed.

(** The old address space is given up beside the new one. *)
Lemma run_swap m0 s0 pd0 T0 L n0 pd T l n s :
  uvm end_ s0 pd0 T0 L n0 -> k_mem s0 = m0 -> uvm end_ s pd T l n -> l `suffix_of` L -> same_except (fun p => p ∈ L) m0 (k_mem s) ->
  (forall p, tpages pd T p \/ upages (k_mem s) T n p -> p ∈ L) ->
  exists s' l', freevm end_ pd0 s = Ret tt s' /\ uvm end_ s' pd T l' n /\ same_view pd n (k_mem s) (k_mem s') /\
    (forall p, tpages pd0 T0 p \/ upages m0 T0 n0 p -> p ∈ l') /\
    same_except (fun p => p ∈ L \/ tpages pd0 T0 p \/ upages m0 T0 n0 p) m0 (k_mem s').
Proof using Hend.
  intros Hu0 <- Hu Hl HS Hin. pose proof (vo_kinv _ _ _ _ _ (u_ok _ _ _ _ _ _ Hu)) as Hk.
  assert (Hnew : forall p, tpages pd T p \/ upages (k_mem s) T n p -> p ∉ l).
  { intros p [Hp|(j & Hj & ->)]; [by apply (vo_disj _ _ _ _ _ (u_ok _ _ _ _ _ _ Hu))|]. by apply (u_page _ _ _ _ _ _ Hu). }
  assert (Hold : forall p, tpages pd0 T0 p \/ upages (k_mem s0) T0 n0 p -> p ∉ L).
  { intros p [Hp|(j & Hj & ->)]; [by apply (vo_disj _ _ _ _ _ (u_ok _ _ _ _ _ _ Hu0))|]. by apply (u_page _ _ _ _ _ _ Hu0). }
  destruct (uvm_frame end_ s0 pd0 T0 L n0 s l _ Hu0 Hk HS) as (Hu1 & Hp1 & _).
  { intros p Hp. split; [by apply Hold|]. intros Hpl. by apply (Hold p Hp), (suffix_in _ _ _ Hl). }
  destruct (run_freevm end_ Hend pd0 s T0 l n0 Hu1) as (s' & l' & R & Hk' & Hin' & HS').
  assert (Hup : forall p, upages (k_mem s) T0 n0 p <-> upages (k_mem s0) T0 n0 p) by (intros p; by apply upages_same).
  destruct (uvm_same_view s pd T l n s' l' _ Hu Hk' HS') as [Hu' Hv].
  { intros p Hp. assert (p ∉ l').
    { intros [H|[H|H]]%Hin'; [by apply (Hnew p Hp)|apply (Hold p ltac:(by left)); by apply Hin|].
      apply (Hold p); [right; by apply Hup|by apply Hin]. }
    split; [by intros [? _]|done]. }
  exists s', l'. split_and!; auto.
  - intros p [Hp|Hp]; apply Hin'; [by right; left|]. right. right. by apply Hup.
  - eapply same_except_trans; eapply same_except_mono; [|exact HS| |exact HS']; [by left|]. cbn.
    intros p [[Hp|[Hp|Hp]]%Hin' Hn]; [done|by right; left|right; right; by apply Hup].
Qed.

(** The image built by the loader, with its stack, is what the program needs, also
    after changes elsewhere. *)
Lemma stacked_started content argv L m0 pd s T l n s1 T1 l1 sp addrs s2 l2 :
  building end_ L m0 pd s T l n (img_bytes content (headers content) (fun _ => 0)) ->
  stacked end_ pd T l n argv s s1 T1 l1 sp addrs -> uvm end_ s2 pd T1 l2 (n + 2) -> same_view pd (n + 2) (k_mem s1) (k_mem s2) ->
  started content argv (k_mem s2) pd n sp.
Proof using Hend.
  intros Hb Hk Hu2 [Ht Hld]. pose proof (u_n _ _ _ _ _ _ (bd_uvm _ _ _ _ _ _ _ _ _ Hb)) as Hn.
  pose proof (u_n _ _ _ _ _ _ Hu2) as Hn2. unfold UPAGES in Hn2.
  destruct Hk as [Hu1 Hw Hs Hg Hst Hkeep Hpg Htab Hfree Hsame (Hr1 & Hr2 & Hr3)]. pose proof (zlen_nonneg argv).
  constructor.
  - intros va Hva. destruct (Hkeep va Hva) as [Et Eb]. assert (E := Hld va 1%nat ltac:(lia) ltac:(lia)). rewrite Eb in E.
    cbn [load_bytes] in E. rewrite Ht, Et in E by lia. rewrite Ht, Et by lia.
    rewrite (translate_user end_ s pd T l n va (bd_uvm _ _ _ _ _ _ _ _ _ Hb) Hva) in E |- *.
    rewrite (bd_flags _ _ _ _ _ _ _ _ _ Hb) by dlia. eexists. split; [done|]. injection E as ->.
    rewrite <- (bd_byte _ _ _ _ _ _ _ _ _ Hb) by done. unfold ubyte. f_equal. lia.
  - exists addrs. rewrite Hld by lia. split; [done|]. pose proof (Forall2_both _ _ _ _ Hs Hr3) as Hs'.
    eapply Forall2_impl; [exact Hs'|]. cbn. intros str a [[H1 H2] [H3 H4]]. split; [done|].
    rewrite Hld by (unfold zlen in *; lia). done.
  - intros va Hva. rewrite Ht by lia. by apply Hg.
  - intros va Hva. rewrite Ht by lia. by apply Hst.
  - intros va Hva. unfold KERNBASE in Hva. rewrite (translate_pte end_ _ pd T1) by (apply Hu2 || (unfold is_va; lia)). cbv zeta.
    rewrite (pte_of_page _ _ va (4096 * (va / 4096))) by dlia.
    by rewrite (u_above _ _ _ _ _ _ Hu2) by (unfold UPAGES; dlia).
Qed.

End Commit.

Section Exec.
Context {S : Type} `{!BufferCache S}.
Context (devsw : Z -> devops S) (end_ data_ : Z) (me : nat) (name0 elf0 : list Z).
Hypothesis Hend : KERNBASE < end_.
Implicit Types (k : kern S) (s : kst) (T : gmap Z Z) (l : list Z).

(** exec up to the test of the magic number. *)
Lemma run_exec_header k p cwd path argv content f0 ip f1 f2 f3 :
  pt_proc (ks_pt k) !! me = Some p -> p_cwd p = Some cwd ->
  log_call begin_op (ks_fs k) = Ret tt f0 -> namei devsw cwd name0 path f0 = Ret (Some ip) f1 -> ilock ip f1 = Ret tt f2 ->
  readi devsw ip 0 52 f2 = Ret (52, slice 0 52 content) f3 -> 52 <= zlen content -> length elf0 = 52%nat ->
  exec devsw end_ data_ me name0 elf0 path argv k =
    (if negb (elf_magic (elf_of content) =? ELF_MAGIC) then bad_ip ip else
     let! pgdir := vm_call (setupkvm data_) in
     if pgdir =? 0 then bad_ip ip else
     let! sz := load_segments devsw end_ (Z.to_nat (elf_phnum (elf_of content))) pgdir ip (elf_phoff (elf_of content)) 0 in
     match sz with
     | None => vm_call (freevm end_ pgdir) ;; bad_ip ip
     | Some sz =>
         fs_call (iunlockput ip) ;;
         fs_call (log_call end_op) ;;
         let! st := build_stack end_ pgdir argv sz in
         match st with
         | None => vm_call (freevm end_ pgdir) ;; ret (-1)
         | Some (sz, sp) => commit_image end_ me path pgdir (elf_entry (elf_of content)) sz sp
         end
     end) (set_fs f3 k).
Proof.
  intros Hp Hcwd Rb Rn Ri R3 Hlen He0. unfold exec. run (fs_call_run _ k _ _ Rb).
  assert (E1 : k_namei devsw me name0 path (set_fs f0 k) = Ret (Some ip) (set_fs f1 k)).
  { unfold k_namei, bind, curproc. cbn [set_fs ks_pt]. rewrite Hp, Hcwd. apply (fs_call_run _ (set_fs f0 k) _ _ Rn). }
  run E1. run (fs_call_run _ (set_fs f1 k) _ _ Ri). run (fs_call_run _ (set_fs f2 k) _ _ R3).
  assert (E2 : slice 0 52 content ++ drop (length (slice 0 52 content)) elf0 = slice 0 sizeof_elfhdr content).
  { pose proof (length_slice 0 52 content ltac:(lia) ltac:(lia) ltac:(lia)) as H. unfold zlen in H.
    rewrite (drop_ge elf0) by lia. apply app_nil_r. }
  change (u32 52 <? sizeof_elfhdr) with false. rewrite E2. reflexivity.
Qed.

Lemma run_commit_image k p path pd entry sz sp s :
  pt_proc (ks_pt k) !! me = Some p -> length (p_name p) = 16%nat -> freevm end_ (p_pgdir p) (ks_vm k) = Ret tt s ->
  exists nm, cstr 16 nm = cstr 15 (basename path path ++ [0]) /\
    commit_image end_ me path pd entry sz sp k = Ret 0 (MkKern (ks_fs k) s (ks_file k) (ks_pipe k)
      (upd_proc me (fun p => set_tf (set_entry entry sp (p_tf p)) (set_image sz pd (set_name nm p))) (ks_pt k)) (ks_ticks k) (ks_out k)).
Proof.
  intros Hp Hn R. destruct (safestrcpy_terminates (p_name p) (basename path path ++ [0]) 16) as (nm & E & _ & Hc & _);
    [lia|unfold zlen; lia|left; apply elem_of_app; right; by apply list_elem_of_singleton|].
  exists nm. split; [exact Hc|]. unfold commit_image, bind at 1, curproc. rewrite Hp, E.
  unfold bind, upd_cur, pt_call, modify, vm_call, zoom. cbn. by rewrite R.
Qed.

(** A file that is not an ELF file leaves the caller as it was: exec returns -1,
    and nothing but the state of the file system has changed. *)
Theorem exec_refuses k p cwd path argv content start V kk f0 ip f1 y f2 :
  pt_proc (ks_pt k) !! me = Some p -> p_cwd p = Some cwd ->
  log_call begin_op (ks_fs k) = Ret tt f0 -> namei devsw cwd name0 path f0 = Ret (Some ip) f1 -> ilock ip f1 = Ret tt f2 ->
  open_file start V kk ip y content f2 -> sizeof_elfhdr <= zlen content -> elf_magic (elf_of content) <> ELF_MAGIC -> length elf0 = 52%nat ->
  exists f', exec devsw end_ data_ me name0 elf0 path argv k = Ret (-1) (set_fs f' k).
Proof.
  intros Hp Hcwd Rb Rn Ri Hf Hlen Hmg He0. unfold sizeof_elfhdr in Hlen.
  destruct (open_file_reads devsw start V kk ip y content f2 0 52 Hf) as (f3 & R3 & Hf3); [lia..|].
  destruct (run_release start V kk ip y content f3 Hf3) as (ic & R6).
  destruct (run_end_op start V kk f3 ic (of_tx _ _ _ _ _ _ _ Hf3) (of_committing _ _ _ _ _ _ _ Hf3)) as (f5 & R7).
  exists f5. rewrite (run_exec_header k p cwd path argv content f0 ip f1 f2 f3 Hp Hcwd Rb Rn Ri R3 Hlen He0).
  rewrite (proj2 (Z.eqb_neq _ _) Hmg). cbn [negb]. unfold bad_ip.
  run (fs_call_run _ (set_fs f3 k) _ _ R6). run (fs_call_run _ (set_fs (MkFs (fs_log f3) ic) k) _ _ R7). done.
Qed.

(** C6: exec runs a program.  The calling process [p] has address space [p_pgdir p];
    begin_op admits the call, the path leads to a regular ELF file with the bytes
    [content], and there are pages for it on the free list.  exec then returns 0.
    Of the process table only the caller's entry has changed, in its name, size,
    page directory, program counter and stack pointer; files, pipes, clock and
    console are as they were.  The new address space holds the segments of the
    file, zeros where the file gives no bytes, and the arguments; every page of
    the old one is free again, and memory has changed only in pages that were
    free or belonged to the old one. *)
Theorem exec_loads k p cwd path argv content T0 L n0 start V kk f0 ip f1 y f2 :
  let n := npg (img_size (headers content) 0) in
  data_ok data_ -> pt_proc (ks_pt k) !! me = Some p -> p_cwd p = Some cwd -> length (p_name p) = 16%nat ->
  uvm end_ (ks_vm k) (p_pgdir p) T0 L n0 ->
  log_call begin_op (ks_fs k) = Ret tt f0 -> namei devsw cwd name0 path f0 = Ret (Some ip) f1 -> ilock ip f1 = Ret tt f2 ->
  open_file start V kk ip y content f2 -> elf_ok content -> length elf0 = 52%nat ->
  zlen argv <= MAXARG -> strings_size argv + 4 * (zlen argv + 4) <= 4096 -> 69 + 2 * n <= zlen L ->
  exists f' s' nm pd sp T l,
    exec devsw end_ data_ me name0 elf0 path argv k =
      Ret 0 (MkKern f' s' (ks_file k) (ks_pipe k)
        (upd_proc me (fun p => set_tf (set_entry (elf_entry (elf_of content)) sp (p_tf p))
          (set_image (4096 * n + 8192) pd (set_name nm p))) (ks_pt k)) (ks_ticks k) (ks_out k)) /\
    cstr 16 nm = cstr 15 (basename path path ++ [0]) /\
    started content argv (k_mem s') pd n sp /\ uvm end_ s' pd T l (n + 2) /\
    (forall q, tpages (p_pgdir p) T0 q \/ upages (k_mem (ks_vm k)) T0 n0 q -> q ∈ l) /\
    (forall a, page_of a ∉ L -> ~ tpages (p_pgdir p) T0 (page_of a) -> ~ upages (k_mem (ks_vm k)) T0 n0 (page_of a) ->
      k_mem s' a = k_mem (ks_vm k) a).
Proof using Hend.
  intros n Hdata Hp Hcwd Hname Hu0 Rb Rn Ri Hf Hok He0 Hargc Hfit HL. destruct Hok as [Hhd Hmg [Hpo Hpn] Hpe Hsegs].
  unfold sizeof_elfhdr in Hhd.
  pose proof (open_file_reads devsw start V kk ip y content) as Hrd.
  destruct (Hrd f2 0 52 Hf) as (f3 & R3 & Hf3); [lia..|].
  destruct (run_setupkvm end_ data_ Hdata (ks_vm k) L (vo_kinv _ _ _ _ _ (u_ok _ _ _ _ _ _ Hu0)))
    as (pd & s1 & R4 & S1 & [[_ Hlen]|(T1 & l1 & Hpd & Hu1 & Hs1 & Hl1 & _ & Ht1)]).
  { pose proof (img_size_ge content (headers content) 0 Hsegs ltac:(unfold KERNBASE, PGSIZE; lia)). unfold n, npg, zlen in *. dlia. }
  assert (Hb1 : building end_ L (k_mem (ks_vm k)) pd s1 T1 l1 (npg 0) (fun _ => 0)).
  { change (npg 0) with 0. constructor; auto; try (intros; lia); [|unfold zlen; lia]. intros q (j & Hj & _). lia. }
  destruct (run_load_segments devsw end_ ip content Hend _ Hrd ltac:(lia) L (k_mem (ks_vm k)) pd (Z.to_nat (elf_phnum (elf_of content)))
    T1 l1 (elf_phoff (elf_of content)) 0 (fun _ => 0) (with_fv f3 s1 k) Hb1) as (f4 & s2 & T2 & l2 & R5 & Hf4 & Hb2);
    auto; [done|unfold KERNBASE, PGSIZE; lia|unfold sizeof_proghdr in *; lia|unfold room; fold (headers content); fold n; lia|].
  fold (headers content) in R5, Hb2. fold n in Hb2. pose proof (bd_len _ _ _ _ _ _ _ _ _ Hb2) as Hl2.
  pose proof (img_size_ge content (headers content) 0 Hsegs ltac:(unfold KERNBASE, PGSIZE; lia)) as Hsz. set (sz := img_size _ 0) in *.
  destruct (run_release start V kk ip y content f4 Hf4) as (ic & R6).
  destruct (run_end_op start V kk f4 ic (of_tx _ _ _ _ _ _ _ Hf4) (of_committing _ _ _ _ _ _ _ Hf4)) as (f5 & R7).
  destruct (run_build_stack end_ Hend (with_fv f5 s2 k) pd T2 l2 sz argv (bd_uvm _ _ _ _ _ _ _ _ _ Hb2))
    as (sp & s3 & addrs & T3 & l3 & R8 & Hk); auto; try lia; [unfold npg, KERNBASE, PGSIZE in *; dlia|].
  assert (Hin2 : forall q, q ∈ l2 -> q ∈ L) by (intros q; apply suffix_in, Hb2).
  assert (HS3 : same_except (fun q => q ∈ L) (k_mem (ks_vm k)) (k_mem s3)).
  { eapply same_except_trans; [apply Hb2|]. eapply same_except_mono; [|apply (sk_same _ _ _ _ _ _ _ _ _ _ _ _ Hk)].
    intros q [Hq|[Hq|Hq]]; [by apply (bd_tab _ _ _ _ _ _ _ _ _ Hb2)|by apply Hin2|by apply (bd_page _ _ _ _ _ _ _ _ _ Hb2)]. }
  destruct (run_swap end_ Hend _ (ks_vm k) (p_pgdir p) T0 L n0 pd T3 l3 (n + 2) s3 Hu0 eq_refl (sk_uvm _ _ _ _ _ _ _ _ _ _ _ _ Hk))
    as (s4 & l4 & R9 & Hu4 & Hv & Hfree & HS4); auto.
  { etrans; [apply Hk|apply Hb2]. }
  { intros q [Hq|(j & Hj & ->)].
    - destruct (sk_tab _ _ _ _ _ _ _ _ _ _ _ _ Hk q Hq); [by apply (bd_tab _ _ _ _ _ _ _ _ _ Hb2)|by apply Hin2].
    - destruct (sk_pages _ _ _ _ _ _ _ _ _ _ _ _ Hk j Hj) as [Hq|[Hj' ->]]; [by apply Hin2|].
      apply (bd_page _ _ _ _ _ _ _ _ _ Hb2). by exists j. }
  destruct (run_commit_image (with_fv f5 s3 k) p path pd (elf_entry (elf_of content)) (4096 * n + 8192) sp s4 Hp Hname R9) as (nm & Hnm & R10).
  exists f5, s4, nm, pd, sp, T3, l4. split_and!; auto.
  - rewrite (run_exec_header k p cwd path argv content f0 ip f1 f2 f3 Hp Hcwd Rb Rn Ri R3) by (done || lia).
    rewrite Hmg, Z.eqb_refl. cbn [negb].
    run (vm_call_run _ (set_fs f3 k) _ _ R4). rewrite (proj2 (Z.eqb_neq _ _) Hpd). run R5.
    run (fs_call_run _ (with_fv f4 s2 (with_fv f3 s1 k)) _ _ R6).
    run (fs_call_run _ (set_fs (MkFs (fs_log f4) ic) (with_fv f4 s2 k)) _ _ R7). run R8. exact R10.
  - by eapply stacked_started.
  - intros a H1 H2 H3. apply HS4. tauto.
Qed.

End Exec.

(** ** Example: the first program of an image *)

Lemma locked_open {S} `{!BufferCache S} V k ip y bs (f : fs S) :
  locked_file V k ip y bs f -> lg_committing (fs_log f) = 0 -> open_file mk_start V k ip y bs f.
Proof.
  intros [Ht HL Hw Hd Hi (Hty & Hnl & Hfl & Hr & Hs) Hb] Hc. constructor; auto.
  - by rewrite Hty.
  - by rewrite Hnl.
  - by rewrite Hfl, Hr.
  - rewrite Hs. specialize (Hb (zlen bs) (zlen_nonneg bs)). rewrite Z.min_id in Hb. rewrite Hb. apply take_ge. unfold zlen. lia.
Qed.

(** An ELF file with one segment of four bytes and eight bytes of memory at 0. *)
Definition ex_elf : list Z :=
  [127; 69; 76; 70] ++ replicate 24 0 ++ le_bytes 4 52 ++ replicate 12 0 ++ [1; 0] ++ replicate 6 0 ++
  le_bytes 4 1 ++ le_bytes 4 84 ++ le_bytes 4 0 ++ le_bytes 4 0 ++ le_bytes 4 4 ++ le_bytes 4 8 ++ replicate 8 0 ++ [10; 20; 30; 40].
Definition exec_files : list input := [([95; 97; 0], Some [ex_elf])].
Definition exec_img : gmap Z block := match Mkfs.main exec_files Mkfs.mk0 with Ret _ s => Mkfs.mk_img s | _ => ∅ end.

Lemma exec_img_ok : blocks_ok exec_img = true /\ forallb (fun b => bool_decide (is_Some (exec_img !! Z.of_nat b))) (seq 0 1024) = true.
Proof. split; vm_compute; reflexivity. Qed.

Lemma ex_elf_ok : elf_ok ex_elf.
Proof.
  constructor; try (vm_compute; repeat split; congruence). change (headers ex_elf) with [MkPh 1 84 0 4 8].
  constructor; [|constructor]. intros _. constructor; vm_compute; repeat split; congruence.
Qed.

Lemma exec_img_calm :
  match namei no_devs 0 (replicate 14 0) [47; 97] (MkFs (mk_log exec_img) icache0) with
  | Ret _ f1 => match ilock 1 f1 with Ret _ f2 => lg_committing (fs_log f2) | _ => 1 end
  | _ => 1
  end = 0.
Proof. vm_compute. reflexivity. Qed.

Definition exec_proc (pd : Z) : proc :=
  MkProc 8192 pd 0 RUNNING 1 None (p_tf ex_proc) None false [] (Some 0%nat) (replicate 16 0) false 0.
Definition exec_kern (s : kst) (pd : Z) : kern (bio Memide.memdisk) :=
  MkKern (MkFs (set_ops 0 0 (mk_log exec_img)) icache0) s [] ∅
    (MkPtable [exec_proc pd] 2 0) 0 [].

Lemma exec_loads_witness :
  exists s pd0 k' pd pa,
    exec no_devs ex_end VmProps.ex_data 0 (replicate 14 0) (replicate 52 0) [47; 97] [[97]; [98; 99]] (exec_kern s pd0) = Ret 0 k' /\
    translate (k_mem (ks_vm k')) pd 2 = Some (pa, 7) /\ k_mem (ks_vm k') (KERNBASE + pa) = 30.
Proof.
  destruct boot_process as (s & pd0 & T0 & L & Hu & HL & _). pose proof ex_end_ok as He. exists s, pd0.
  destruct (run_open_file (S := bio Memide.memdisk) no_devs exec_files 0 ([95; 97; 0], Some [ex_elf]) [47; 97] [97]) as (mk & E & H).
  - repeat constructor; try done; vm_compute; congruence.
  - vm_compute. reflexivity.
  - vm_compute. congruence.
  - change (NoDup [[46]; [46; 46]; [97]]). apply (bool_decide_unpack _). vm_compute. done.
  - reflexivity.
  - reflexivity.
  - repeat constructor; done.
  - reflexivity.
  - reflexivity.
  - assert (Hs : Mkfs.mk_img mk = exec_img) by (unfold exec_img; by rewrite E). rewrite Hs in H. destruct exec_img_ok as [Hok Hall].
    destruct (H (MkFs (mk_log exec_img) icache0) (blk exec_img) 0 0%nat (replicate 14 0)) as (f1 & f2 & V & y & E1 & E2 & Hl).
    + intros b Hb. change Mkfs.size with 1024 in Hb.
      pose proof (forallb_seq _ _ Hall (Z.to_nat b) ltac:(lia)) as Hx. cbv beta in Hx. rewrite Z2Nat.id in Hx by lia.
      apply bool_decide_eq_true in Hx as [d Hx]. unfold blk. rewrite Hx. reflexivity.
    + exact (mk_fstx exec_img icache0 0 Hok ltac:(lia)).
    + reflexivity.
    + reflexivity.
    + assert (Hc : lg_committing (fs_log f2) = 0) by (pose proof exec_img_calm as Hc; rewrite E1, E2 in Hc; exact Hc).
      destruct (exec_loads no_devs ex_end VmProps.ex_data 0 (replicate 14 0) (replicate 52 0) ltac:(lia) (exec_kern s pd0)
        (exec_proc pd0) 0%nat [47; 97] [[97]; [98; 99]] ex_elf T0 L 2 mk_start V 0
        (MkFs (mk_log exec_img) icache0) 1%nat f1 y f2)
        as (f' & s' & nm & pd & sp & T & l & R & _ & Hst & _);
        [exact ex_data_ok|reflexivity|reflexivity|reflexivity|exact Hu|reflexivity|exact E1|exact E2
        |exact (locked_open _ _ _ _ _ _ Hl Hc)|exact ex_elf_ok|reflexivity|vm_compute; congruence|vm_compute; congruence
        |change (npg (img_size (headers ex_elf) 0)) with 1; lia|].
      destruct (sd_image _ _ _ _ _ _ Hst 2 ltac:(change (npg (img_size (headers ex_elf) 0)) with 1; lia)) as (pa & Ht & Hv).
      eexists _, pd, pa. split; [exact R|]. split; [exact Ht|]. exact Hv.
Defined.
