(* ===== verification/Trap.v ===== *)
(** * System call dispatch and traps (syscall.c, syscall.h, trap.c, traps.h)

    The way from the trap frame to the system call and back.  The handlers of
    the device interrupts are arguments, as the devices are not part of the
    kernel state here; so are the processor's number and its register cr2.
    [x] is the word sys_trace finds where its parameter would be.  lapiceoi,
    which acknowledges an interrupt to the controller, is left out. *)

From S2P Require Import Prelude.
From S2P Require Import Params.
From S2P Require Import BufSpec.
From S2P Require Import Fs.
From S2P Require Import Mmu.
From S2P Require Import Kalloc.
From S2P Require Import Vm.
From S2P Require Import Ptable.
From S2P Require Import Kern.
From S2P Require Import File.
From S2P Require Import Proc.
From S2P Require Import Args.
From S2P Require Import Sysproc.
From S2P Require Import Sysfile.
From S2P Require Import Exec.

Definition SYS_fork : Z := 1.
Definition SYS_exit : Z := 2.
Definition SYS_wait : Z := 3.
Definition SYS_pipe : Z := 4.
Definition SYS_read : Z := 5.
Definition SYS_kill : Z := 6.
Definition SYS_exec : Z := 7.
Definition SYS_fstat : Z := 8.
Definition SYS_chdir : Z := 9.
Definition SYS_dup : Z := 10.
Definition SYS_getpid : Z := 11.
Definition SYS_sbrk : Z := 12.
Definition SYS_sleep : Z := 13.
Definition SYS_uptime : Z := 14.
Definition SYS_open : Z := 15.
Definition SYS_write : Z := 16.
Definition SYS_mknod : Z := 17.
Definition SYS_unlink : Z := 18.
Definition SYS_link : Z := 19.
Definition SYS_mkdir : Z := 20.
Definition SYS_close : Z := 21.
Definition SYS_trace : Z := 22.

Definition T_SYSCALL : Z := 64.
Definition T_IRQ0 : Z := 32.
Definition IRQ_TIMER : Z := 0.
Definition IRQ_KBD : Z := 1.
Definition IRQ_COM1 : Z := 4.
Definition IRQ_IDE : Z := 14.
Definition IRQ_SPURIOUS : Z := 31.

(** How the handling of a trap ends: back to the interrupted code, with the
    process dead, or with the processor given up; after the last the process
    goes on with [trap_resume] once it is scheduled again. *)
Inductive tresult : Type := TReturn | TExit | TYield.

Section Syscall.
Context {S : Type} `{!BufferCache S}.
Context (devsw : Z -> devops S) (end_ data_ : Z) (name0 de0 elf0 : list Z) (x : Z).

Local Abbreviation K := (M (kern S)).

Section Me.
Context (me : nat).

(** The table [syscalls]. *)
Definition syscalls : list (Z * K Z) := [
  (SYS_fork, sys_fork end_ data_ me);
  (SYS_exit, sys_exit end_ me);
  (SYS_wait, sys_wait end_ me);
  (SYS_pipe, sys_pipe end_ me);
  (SYS_read, sys_read devsw me);
  (SYS_kill, sys_kill me);
  (SYS_exec, sys_exec devsw end_ data_ me name0 elf0);
  (SYS_fstat, sys_fstat me);
  (SYS_chdir, sys_chdir devsw me name0);
  (SYS_dup, sys_dup me);
  (SYS_getpid, sys_getpid me);
  (SYS_sbrk, sys_sbrk end_ me);
  (SYS_sleep, sys_sleep me);
  (SYS_uptime, sys_uptime);
  (SYS_open, sys_open devsw end_ me name0 de0);
  (SYS_write, sys_write devsw me);
  (SYS_mknod, sys_mknod devsw me name0 de0);
  (SYS_unlink, sys_unlink devsw me name0);
  (SYS_link, sys_link devsw me name0 de0);
  (SYS_mkdir, sys_mkdir devsw me name0 de0);
  (SYS_close, sys_close end_ me);
  (SYS_trace, sys_trace me x)].

Fixpoint find_call (num : Z) (l : list (Z * K Z)) : option (K Z) :=
  match l with
  | [] => None
  | (n, f) :: l => if num =? n then Some f else find_call num l
  end.

Definition set_result (r : Z) (p : proc) : proc := set_tf (set_eax (u32 r) (p_tf p)) p.

(** exit does not return, so nothing is stored for it. *)
Definition syscall : K tresult :=
  let! p := curproc me in
  let num := i32 (tf_eax (p_tf p)) in
  match find_call num syscalls with
  | Some f =>
      (if p_traceFlag p then
         upd_cur me (fun p => set_trace (p_traceFlag p) (i32 (p_totalSysCall p + 1)) p) ;;
         print "\npid %d invoked call %d\n" [p_pid p; num]
       else ret tt) ;;
      let! r := f in
      if num =? SYS_exit then ret TExit
      else upd_cur me (set_result r) ;; ret TReturn
  | None =>
      print "%d %s: unknown sys call %d\n" [p_pid p; num] ;;
      upd_cur me (set_result (-1)) ;;
      ret TReturn
  end.

End Me.

Context (cpuid cr2 : Z) (ideintr kbdintr uartintr : K unit).

(** The check for a killed process on the way back to user space. *)
Definition exit_if_killed (me : nat) (tf : trapframe) (k : K tresult) : K tresult :=
  let! p := curproc me in
  if p_killed p && (Z.land (tf_cs tf) 3 =? DPL_USER) then exit end_ me ;; ret TExit else k.

(** What follows the call of yield in trap. *)
Definition trap_resume (me : nat) (tf : trapframe) : K tresult := exit_if_killed me tf (ret TReturn).

(** The handling of the interrupt or exception itself. *)
Definition trap_handle (me : option nat) (tf : trapframe) : K unit :=
  let n := tf_trapno tf in
  if n =? T_IRQ0 + IRQ_TIMER then
    if cpuid =? 0 then modify (fun k => set_ticks (u32 (ks_ticks k + 1)) k) ;; wake [ChTicks] else ret tt
  else if n =? T_IRQ0 + IRQ_IDE then ideintr
  else if n =? T_IRQ0 + IRQ_IDE + 1 then ret tt
  else if n =? T_IRQ0 + IRQ_KBD then kbdintr
  else if n =? T_IRQ0 + IRQ_COM1 then uartintr
  else if (n =? T_IRQ0 + 7) || (n =? T_IRQ0 + IRQ_SPURIOUS) then
    print "cpu%d: spurious interrupt at %x:%x\n" [cpuid; tf_cs tf; tf_eip tf]
  else
    match me with
    | Some me =>
        if Z.land (tf_cs tf) 3 =? 0 then
          print "unexpected trap %d from cpu %d eip %x (cr2=0x%x)\n" [n; cpuid; tf_eip tf; cr2] ;; panic "trap"
        else
          let! p := curproc me in
          print "pid %d %s: trap %d err %d on cpu %d eip 0x%x addr 0x%x--kill proc\n"
            [p_pid p; n; tf_err tf; cpuid; tf_eip tf; cr2] ;;
          upd_cur me (set_killed true)
    | None => print "unexpected trap %d from cpu %d eip %x (cr2=0x%x)\n" [n; cpuid; tf_eip tf; cr2] ;; panic "trap"
    end.

Definition trap (me : option nat) (tf : trapframe) : K tresult :=
  if tf_trapno tf =? T_SYSCALL then
    match me with
    | None => undef "system call without a process"
    | Some me =>
        let! p := curproc me in
        if p_killed p then exit end_ me ;; ret TExit else
        upd_cur me (set_tf tf) ;;
        let! r := syscall me in
        match r with
        | TReturn =>
            let! p := curproc me in
            if p_killed p then exit end_ me ;; ret TExit else ret TReturn
        | _ => ret r
        end
    end
  else
    trap_handle me tf ;;
    match me with
    | None => ret TReturn
    | Some me =>
        exit_if_killed me tf (
          let! p := curproc me in
          if is_state RUNNING p && (tf_trapno tf =? T_IRQ0 + IRQ_TIMER) then
            pt_call (yield_section me) ;; ret TYield
          else trap_resume me tf)
    end.

End Syscall.
