(* ===== verification/Seg.v ===== *)
(** * Segments, gates and the entry page directory (mmu.h, asm.h, vm.c, trap.c, main.c)

    Descriptors are records with the bit-fields of the C structures; an assignment
    keeps the low bits a field has room for.  The theorems read them the way the
    processor does. *)

From S2P Require Import Prelude.
From S2P Require Import Params.
From S2P Require Import CString.
From S2P Require Import Mmu.
From S2P Require Import Spinlock.
From S2P Require Import Asm.
From S2P Require Import Proc.
From S2P Require Import Trap.

Module Seg.

Definition bits (w v : Z) : Z := v mod 2 ^ w.

(** ** Segment descriptors *)

Record segdesc : Type := MkSeg {
  lim_15_0 : Z; base_15_0 : Z; base_23_16 : Z; sd_type : Z; sd_s : Z; sd_dpl : Z; sd_p : Z; lim_19_16 : Z;
  sd_avl : Z; sd_rsv1 : Z; sd_db : Z; sd_g : Z; base_31_24 : Z
}.

Definition SEG (type base lim dpl : Z) : segdesc :=
  MkSeg (bits 16 (Z.land (Z.shiftr lim 12) 0xffff)) (bits 16 (Z.land (u32 base) 0xffff))
    (bits 8 (Z.land (Z.shiftr (u32 base) 16) 0xff)) (bits 4 type) 1 (bits 2 dpl) 1
    (bits 4 (Z.shiftr (u32 lim) 28)) 0 0 1 1 (bits 8 (Z.shiftr (u32 base) 24)).

Definition SEG16 (type base lim dpl : Z) : segdesc :=
  MkSeg (bits 16 (Z.land lim 0xffff)) (bits 16 (Z.land (u32 base) 0xffff))
    (bits 8 (Z.land (Z.shiftr (u32 base) 16) 0xff)) (bits 4 type) 1 (bits 2 dpl) 1
    (bits 4 (Z.shiftr (u32 lim) 16)) 0 0 1 0 (bits 8 (Z.shiftr (u32 base) 24)).

Definition set_s (v : Z) (d : segdesc) : segdesc :=
  MkSeg (lim_15_0 d) (base_15_0 d) (base_23_16 d) (sd_type d) v (sd_dpl d) (sd_p d) (lim_19_16 d) (sd_avl d) (sd_rsv1 d) (sd_db d) (sd_g d) (base_31_24 d).

(** The eight bytes of a descriptor, and the bytes asm.h lays out. *)
Definition seg_bytes (d : segdesc) : list Z :=
  le_bytes 2 (lim_15_0 d) ++ le_bytes 2 (base_15_0 d) ++
  [base_23_16 d; sd_type d + 16 * sd_s d + 32 * sd_dpl d + 128 * sd_p d;
   lim_19_16 d + 16 * sd_avl d + 32 * sd_rsv1 d + 64 * sd_db d + 128 * sd_g d; base_31_24 d].
Definition SEG_ASM (type base lim : Z) : list Z :=
  le_bytes 2 (Z.land (Z.shiftr lim 12) 0xffff) ++ le_bytes 2 (Z.land base 0xffff) ++
  [Z.land (Z.shiftr base 16) 0xff; Z.lor 0x90 type; Z.lor 0xC0 (Z.land (Z.shiftr lim 28) 0xf); Z.land (Z.shiftr base 24) 0xff].

(** What the processor takes from a descriptor: the base, and the last offset. *)
Definition seg_base (d : segdesc) : Z := base_15_0 d + 65536 * base_23_16 d + 16777216 * base_31_24 d.
Definition seg_limit (d : segdesc) : Z :=
  let l := lim_15_0 d + 65536 * lim_19_16 d in if sd_g d =? 0 then l else l * 4096 + 4095.

Definition SEG_KCODE : Z := 1.
Definition SEG_TSS : Z := 6.
Definition STA_X : Z := 0x8.
Definition STA_W : Z := 0x2.
Definition STA_R : Z := 0x2.
Definition STS_T32A : Z := 0x9.
Definition STS_IG32 : Z := 0xE.
Definition STS_TG32 : Z := 0xF.
Definition NSEGS : nat := 7.

(** ** Gates *)

Record gatedesc : Type := MkGate {
  off_15_0 : Z; gd_cs : Z; gd_args : Z; gd_rsv1 : Z; gd_type : Z; gd_s : Z; gd_dpl : Z; gd_p : Z; off_31_16 : Z
}.

Definition SETGATE (istrap : bool) (sel off d : Z) : gatedesc :=
  MkGate (bits 16 (Z.land (u32 off) 0xffff)) (bits 16 sel) 0 0 (if istrap then STS_TG32 else STS_IG32) 0 (bits 2 d) 1
    (bits 16 (Z.shiftr (u32 off) 16)).

Definition gate_off (g : gatedesc) : Z := off_15_0 g + 65536 * off_31_16 g.

(** tvinit, apart from its initlock of tickslock. *)
Definition tvinit (vectors : nat -> Z) : list gatedesc :=
  let idt := (fun i => SETGATE false (Z.shiftl SEG_KCODE 3) (vectors i) 0) <$> seq 0 256 in
  <[Z.to_nat T_SYSCALL := SETGATE true (Z.shiftl SEG_KCODE 3) (vectors (Z.to_nat T_SYSCALL)) DPL_USER]> idt.

(** ** A processor's registers and its struct cpu *)

(** The struct cpu at [c_at] with its descriptor table and task state, the
    registers that refer to them, and the two variables behind %gs. *)
Record hw : Type := MkHw {
  c_at : Z; gdt : list segdesc; ts_ss0 : Z; ts_esp0 : Z; h_ncli : pcpu;
  gdtr : Z * Z; idtr : Z * Z; h_gs : Z; h_tr : Z; h_cr3 : Z; v_cpu : Z; v_proc : Z
}.

(** The fields of a C structure with their sizes, padding written out. *)
Definition layout : Type := list (string * Z).
Fixpoint offset_of (f : string) (l : layout) : Z :=
  match l with
  | [] => 0
  | (g, n) :: l => if String.eqb f g then 0 else n + offset_of f l
  end.
Definition size_of (l : layout) : Z := fold_right (fun x n => snd x + n) 0 l.

Definition taskstate : layout :=
  [("link", 4); ("esp0", 4); ("ss0", 2); ("padding1", 2); ("esp1", 4); ("ss1", 2); ("padding2", 2); ("esp2", 4); ("ss2", 2); ("padding3", 2);
   ("cr3", 4); ("eip", 4); ("eflags", 4); ("eax", 4); ("ecx", 4); ("edx", 4); ("ebx", 4); ("esp", 4); ("ebp", 4); ("esi", 4); ("edi", 4);
   ("es", 2); ("padding4", 2); ("cs", 2); ("padding5", 2); ("ss", 2); ("padding6", 2); ("ds", 2); ("padding7", 2); ("fs", 2); ("padding8", 2);
   ("gs", 2); ("padding9", 2); ("ldt", 2); ("padding10", 2); ("t", 2); ("iomb", 2)]%string.
Definition sizeof_ts : Z := size_of taskstate.

Definition cpu_layout : layout :=
  [("id", 1); ("padding", 3); ("scheduler", 4); ("ts", sizeof_ts); ("gdt", 8 * Z.of_nat NSEGS); ("started", 4); ("ncli", 4); ("intena", 4);
   ("cpu", 4); ("proc", 4)]%string.
Definition off_ts : Z := offset_of "ts" cpu_layout.
Definition off_gdt : Z := offset_of "gdt" cpu_layout.
Definition off_cpu : Z := offset_of "cpu" cpu_layout.

Definition seginit (c : Z) (h : hw) : hw :=
  let t := gdt h in
  let t := <[Z.to_nat SEG_KCODE := SEG (Z.lor STA_X STA_R) 0 0xffffffff 0]> t in
  let t := <[Z.to_nat Asm.SEG_KDATA := SEG STA_W 0 0xffffffff 0]> t in
  let t := <[Z.to_nat SEG_UCODE := SEG (Z.lor STA_X STA_R) 0 0xffffffff DPL_USER]> t in
  let t := <[Z.to_nat SEG_UDATA := SEG STA_W 0 0xffffffff DPL_USER]> t in
  let t := <[Z.to_nat Asm.SEG_KCPU := SEG STA_W (c + off_cpu) 8 0]> t in
  MkHw c t (ts_ss0 h) (ts_esp0 h) (h_ncli h) (c + off_gdt, 8 * Z.of_nat NSEGS - 1) (idtr h) (Z.shiftl Asm.SEG_KCPU 3) (h_tr h) (h_cr3 h) c 0.

Definition idtinit (idt : Z) (h : hw) : hw :=
  MkHw (c_at h) (gdt h) (ts_ss0 h) (ts_esp0 h) (h_ncli h) (gdtr h) (idt, 8 * 256 - 1) (h_gs h) (h_tr h) (h_cr3 h) (v_cpu h) (v_proc h).

Definition switchkvm (kpgdir : Z) (h : hw) : hw :=
  MkHw (c_at h) (gdt h) (ts_ss0 h) (ts_esp0 h) (h_ncli h) (gdtr h) (idtr h) (h_gs h) (h_tr h) (v2p kpgdir) (v_cpu h) (v_proc h).

(** switchuvm: the stack is that of the current process, [proc->kstack], the page
    directory the argument's, [p->pgdir]. *)
Definition switchuvm (kstack pgdir : Z) (h : hw) : string + hw :=
  let st := pushcli (h_ncli h) in
  let t := <[Z.to_nat SEG_TSS := set_s 0 (SEG16 STS_T32A (c_at h + off_ts) (sizeof_ts - 1) 0)]> (gdt h) in
  if pgdir =? 0 then inl "switchuvm: no pgdir"%string
  else
    match popcli st with
    | inl e => inl e
    | inr st =>
        inr (MkHw (c_at h) t (Z.shiftl Asm.SEG_KDATA 3) (kstack + KSTACKSIZE) st (gdtr h) (idtr h) (h_gs h) (Z.shiftl SEG_TSS 3) (v2p pgdir) (v_cpu h) (v_proc h))
    end.

(** ** The page directory of the first instructions *)

Definition PTE_PS : Z := 0x080.
Definition entrypgdir (i : Z) : Z :=
  if (i =? 0) || (i =? Z.shiftr KERNBASE PDXSHIFT) then Z.lor (Z.lor (Z.lor 0 PTE_P) PTE_W) PTE_PS else 0.

(** Translation by a directory of 4-megabyte pages. *)
Definition translate_ps (dir : Z -> Z) (va : Z) : option Z :=
  let e := dir (PDX va) in
  if Z.land e PTE_P =? 0 then None
  else if Z.land e PTE_PS =? 0 then None
  else Some (e / 4194304 * 4194304 + va mod 4194304).

End Seg.

(** * What the descriptors mean to the processor

    The bases, limits and entry points that come back out of the descriptors the
    kernel builds, and the state switchuvm leaves for the next trap. *)

Import Seg.

(** Bit-field slices as quotients and remainders. *)
Lemma land_16 x : Z.land x 0xffff = x mod 65536.
Proof. exact (Z.land_ones x 16 ltac:(lia)). Qed.
Lemma land_8 x : Z.land x 0xff = x mod 256.
Proof. exact (Z.land_ones x 8 ltac:(lia)). Qed.
Lemma land_4 x : Z.land x 0xf = x mod 16.
Proof. exact (Z.land_ones x 4 ltac:(lia)). Qed.
Lemma shr_div x n : 0 <= n -> Z.shiftr x n = x / 2 ^ n.
Proof. apply Z.shiftr_div_pow2. Qed.

Ltac fields :=
  unfold bits, u32 in *; rewrite ?land_16, ?land_8, ?land_4, ?shr_div by lia;
  change (2 ^ 2) with 4; change (2 ^ 4) with 16; change (2 ^ 8) with 256; change (2 ^ 12) with 4096;
  change (2 ^ 16) with 65536; change (2 ^ 24) with 16777216; change (2 ^ 28) with 268435456.

Lemma seg_base_SEG t b l d : is_u32 b -> seg_base (SEG t b l d) = b.
Proof. unfold is_u32, seg_base. cbn. intros. fields. dlia. Qed.

Lemma seg_base_SEG16 t b l d : is_u32 b -> seg_base (set_s 0 (SEG16 t b l d)) = b.
Proof. unfold is_u32, seg_base. cbn. intros. fields. dlia. Qed.

(** A limit is kept up to the page it ends in. *)
Lemma seg_limit_SEG t b l d : is_u32 l -> seg_limit (SEG t b l d) = l / 4096 * 4096 + 4095.
Proof. unfold is_u32, seg_limit. cbn. intros. fields. dlia. Qed.

Lemma seg_limit_SEG16 t b l d : 0 <= l < 1048576 -> seg_limit (set_s 0 (SEG16 t b l d)) = l.
Proof. unfold seg_limit. cbn. intros. fields. dlia. Qed.

Lemma gate_off_SETGATE tr sel off d : is_u32 off -> gate_off (SETGATE tr sel off d) = off.
Proof. unfold is_u32, gate_off. cbn. intros. fields. dlia. Qed.

(** The sizes the processor expects: a 104-byte task state with the kernel stack at
    offsets 4 and 8, and [proc] four bytes behind [cpu]. *)
Lemma layouts :
  sizeof_ts = 104 /\ offset_of "esp0" taskstate = 4 /\ offset_of "ss0" taskstate = 8 /\ offset_of "iomb" taskstate = 102 /\
  offset_of "proc" cpu_layout = off_cpu + 4.
Proof. done. Qed.

(** The assembler's descriptor is the compiler's, at privilege 0. *)
Theorem SEG_ASM_SEG t b l : 0 <= t < 16 -> is_u32 b -> is_u32 l -> SEG_ASM t b l = seg_bytes (SEG t b l 0).
Proof.
  unfold is_u32. intros Ht Hb Hl. unfold SEG_ASM, seg_bytes, SEG; cbn [lim_15_0 base_15_0 base_23_16 sd_type sd_s sd_dpl sd_p lim_19_16 sd_avl sd_rsv1 sd_db sd_g base_31_24].
  change 0x90 with (9 * 2 ^ 4). change 0xC0 with (12 * 2 ^ 4). rewrite (lor_top 9 t 4), (lor_top 12 _ 4) by (rewrite ?land_4; dlia).
  rewrite !u32_small by (unfold is_u32; lia). fields. rewrite (Z.mod_small t 16), !Z.mod_mod by lia.
  change (0 mod 4) with 0. do 2 f_equal. repeat (f_equal; try lia).
Qed.

(** C36: the interrupt descriptor table tvinit fills, as the processor reads it:
    vector [i] enters the kernel's code segment at [vectors[i]] through a present
    gate; a program's own [int i] is let through for the system call vector and for
    no other; and interrupts are turned off on entry for every vector but that one. *)
Theorem idt_gates (vectors : nat -> Z) (i : nat) :
  (i < 256)%nat -> is_u32 (vectors i) ->
  exists g, tvinit vectors !! i = Some g /\
    gate_off g = vectors i /\ gd_cs g = Z.shiftl SEG_KCODE 3 /\ gd_p g = 1 /\ gd_s g = 0 /\
    (DPL_USER <= gd_dpl g <-> Z.of_nat i = T_SYSCALL) /\
    (gd_type g = STS_IG32 <-> Z.of_nat i <> T_SYSCALL) /\ (gd_type g = STS_TG32 <-> Z.of_nat i = T_SYSCALL).
Proof.
  intros Hi Hv. unfold tvinit. destruct (decide (i = Z.to_nat T_SYSCALL)) as [->|Hne].
  - eexists. split; [apply list_lookup_insert_eq; rewrite length_fmap, length_seq; exact Hi|].
    rewrite gate_off_SETGATE by done. done.
  - eexists. split; [rewrite list_lookup_insert_ne, list_lookup_fmap, lookup_seq_lt by done; reflexivity|].
    assert (Z.of_nat i <> T_SYSCALL) by (unfold T_SYSCALL in *; lia).
    rewrite gate_off_SETGATE by done. done.
Qed.

(** switchuvm, for the current process's stack at [kstack] and a page directory:
    the processor translates through that directory, and the task register selects a
    present, available 32-bit task state segment that covers exactly the processor's
    [ts], whose stack for traps from user mode is the top of the process's kernel
    stack in the kernel's data segment.  The other descriptors, the %gs segment and
    the interrupt state are as they were; without a page directory it panics. *)
Theorem switchuvm_loads (h : hw) (kstack pgdir : Z) :
  is_u32 (c_at h + off_ts) -> length (gdt h) = NSEGS -> 0 <= c_ncli (h_ncli h) ->
  (0 < c_ncli (h_ncli h) -> c_if (h_ncli h) = false) ->
  match switchuvm kstack pgdir h with
  | inl e => pgdir = 0 /\ e = "switchuvm: no pgdir"%string
  | inr h' =>
      pgdir <> 0 /\ h_cr3 h' = v2p pgdir /\
      (exists d, gdt h' !! Z.to_nat (Z.shiftr (h_tr h') 3) = Some d /\
         seg_base d = c_at h + off_ts /\ seg_limit d = sizeof_ts - 1 /\ sd_type d = STS_T32A /\ sd_s d = 0 /\ sd_p d = 1) /\
      ts_ss0 h' = Z.shiftl Asm.SEG_KDATA 3 /\ ts_esp0 h' = kstack + KSTACKSIZE /\
      (forall i, i <> Z.to_nat SEG_TSS -> gdt h' !! i = gdt h !! i) /\ length (gdt h') = NSEGS /\
      h_gs h' = h_gs h /\ c_if (h_ncli h') = c_if (h_ncli h) /\ c_ncli (h_ncli h') = c_ncli (h_ncli h)
  end.
Proof.
  intros Ha Hl Hn Hif. unfold switchuvm. destruct (pgdir =? 0) eqn:E; [split; [lia|done]|].
  unfold popcli, pushcli. cbn [c_if c_ncli c_intena].
  replace (c_ncli (h_ncli h) + 1 - 1) with (c_ncli (h_ncli h)) by lia. destruct (c_ncli (h_ncli h) <? 0) eqn:E0; [lia|].
  cbn [h_cr3 h_tr h_gs gdt ts_ss0 ts_esp0 h_ncli c_if c_ncli].
  split; [lia|]. split; [done|]. split.
  { eexists. split; [apply list_lookup_insert_eq; rewrite Hl; cbv; lia|].
    rewrite seg_base_SEG16, seg_limit_SEG16 by (done || (vm_compute; by split)). done. }
  split_and!; try done.
  - intros i Hi. by rewrite list_lookup_insert_ne by done.
  - by rewrite length_insert.
  - destruct (c_ncli (h_ncli h) =? 0) eqn:E1; cbn [andb]; [by destruct (c_if (h_ncli h))|]. rewrite Hif by lia. done.
Qed.

(** After seginit, [%gs:0] and [%gs:4] are the [cpu] and [proc] fields of this
    processor's struct cpu, the flat segments span the address space, and a user
    selector names a segment of user privilege.  The limit of 8 given for the %gs
    segment is rounded up to a page. *)
Theorem seginit_segments (h : hw) (c : Z) :
  is_u32 (c + off_cpu) -> length (gdt h) = NSEGS ->
  let h' := seginit c h in
  (exists d, gdt h' !! Z.to_nat (Z.shiftr (h_gs h') 3) = Some d /\ seg_base d = c + off_cpu /\ seg_limit d = 4095 /\ sd_dpl d = 0) /\
  (forall i, i = SEG_KCODE \/ i = Asm.SEG_KDATA \/ i = SEG_UCODE \/ i = SEG_UDATA ->
     exists d, gdt h' !! Z.to_nat i = Some d /\ seg_base d = 0 /\ seg_limit d = 4294967295 /\ sd_p d = 1 /\
       sd_dpl d = (if (i =? SEG_UCODE) || (i =? SEG_UDATA) then DPL_USER else 0)) /\
  v_cpu h' = c /\ v_proc h' = 0 /\ gdtr h' = (c + off_gdt, 55).
Proof.
  intros Hc Hl.
  destruct (gdt h) as [|d0 [|d1 [|d2 [|d3 [|d4 [|d5 [|d6 [|? ?]]]]]]]] eqn:Eg; try done.
  unfold seginit. rewrite Eg. cbn [gdt h_gs v_cpu v_proc gdtr].
  split_and!; [|intros i [->|[->|[->| ->]]]|done..]; (eexists; split; [reflexivity|]); rewrite ?seg_base_SEG by done; try done.
Qed.

(** The entry's tests for the present and the page-size bit. *)
Ltac present :=
  change (Z.lor (Z.lor (Z.lor 0 PTE_P) PTE_W) PTE_PS) with 131; change (Z.land 131 PTE_P =? 0) with false;
  change (Z.land 131 PTE_PS =? 0) with false; cbv iota; f_equal; dlia.

(** Until kvmalloc, the first four megabytes of memory are seen at 0 and at
    KERNBASE, and nothing else is. *)
Theorem entrypgdir_maps (va : Z) :
  is_u32 va ->
  translate_ps entrypgdir va =
    if va <? 4194304 then Some va
    else if (KERNBASE <=? va) && (va <? KERNBASE + 4194304) then Some (va - KERNBASE) else None.
Proof.
  unfold is_u32. intros Hv. assert (Hp : PDX va = va / 4194304) by (rewrite PDX_eq; dlia).
  unfold translate_ps. rewrite Hp. unfold entrypgdir. change (Z.shiftr KERNBASE PDXSHIFT) with 512. unfold KERNBASE in *.
  destruct (va / 4194304 =? 0) eqn:E0; [|destruct (va / 4194304 =? 512) eqn:E1]; cbn [orb].
  - destruct (va <? 4194304) eqn:E2; [|dlia]. present.
  - destruct (va <? 4194304) eqn:E2; [dlia|]. destruct ((0x80000000 <=? va) && (va <? 0x80000000 + 4194304)) eqn:E3; [|dlia].
    present.
  - change (Z.land 0 PTE_P =? 0) with true. cbv iota. destruct (va <? 4194304) eqn:E2; [dlia|]. destruct ((0x80000000 <=? va) && (va <? 0x80000000 + 4194304)) eqn:E3; [dlia|done].
Qed.

Module SegDemo.

(** A table of stubs sixteen bytes apart, as an assembler could lay them out. *)
Definition stubs (i : nat) : Z := 0x80106000 + 16 * Z.of_nat i.

Lemma idt_gates_witness :
  exists g, tvinit stubs !! 14%nat = Some g /\ gate_off g = 0x801060e0 /\ gd_dpl g <> DPL_USER.
Proof.
  destruct (idt_gates stubs 14 ltac:(lia) ltac:(vm_compute; by split)) as (g & Hg & Ho & _ & _ & _ & Hd & _).
  exists g. split_and!; [exact Hg|exact Ho|]. intros E. rewrite E in Hd. destruct Hd as [Hd _]. specialize (Hd (Z.le_refl _)). discriminate Hd.
Defined.

Definition null_seg : segdesc := MkSeg 0 0 0 0 0 0 0 0 0 0 0 0 0.
Definition cpu0 : hw := seginit 0x80112780 (MkHw 0 (replicate NSEGS null_seg) 0 0 (MkCpu true 0 false) (0, 0) (0, 0) 0 0 0 0 0).

Lemma switchuvm_loads_witness :
  match switchuvm 0x8dfff000 0x8dff0000 cpu0 with
  | inl _ => False
  | inr h => h_cr3 h = 0x0dff0000 /\ ts_esp0 h = 0x8e000000 /\ c_if (h_ncli h) = true
  end.
Proof.
  pose proof (switchuvm_loads cpu0 0x8dfff000 0x8dff0000 ltac:(vm_compute; by split) eq_refl ltac:(vm_compute; discriminate) ltac:(intros H; vm_compute in H; discriminate H)) as H.
  destruct (switchuvm _ _ _) as [e|h]; [destruct H as [H _]; discriminate H|].
  destruct H as (_ & Hc & _ & _ & Hs & _ & _ & _ & Hi & _). split_and!; [exact Hc|exact Hs|exact Hi].
Defined.

End SegDemo.
