(* ===== verification/Fdinv.v ===== *)
(** * Descriptors and reference counts

    The count of an open file is the number of descriptors that refer to it, over
    all processes.  The proof follows every system call with [fdinv]: [d f] is
    the number of references to file [f] that are counted but not (yet, or any
    more) in a descriptor, negative while a descriptor is not counted yet. *)

From S2P Require Import Prelude.
From S2P Require Import Triple.
From S2P Require Import Params.
From S2P Require Import Disk.
From S2P Require Import BufSpec.
From S2P Require Import Bio.
From S2P Require Import Log.
From S2P Require Import CString.
From S2P Require Import Fs.
From S2P Require Import FsAlloc.
From S2P Require Import FsFile.
From S2P Require Import Mmu.
From S2P Require Import Kalloc.
From S2P Require Import Vm.
From S2P Require Import Pipe.
From S2P Require Import Ptable.
From S2P Require Import Sched.
From S2P Require Import Kern.
From S2P Require Import File.
From S2P Require Import Proc.
From S2P Require Import Args.
From S2P Require Import Sysproc.
From S2P Require Import Sysfile.
From S2P Require Import Exec.
From S2P Require Import Trap.

Definition count_fd (f : nat) (l : list (option nat)) : Z := zlen (filter (fun o => o = Some f) l).
Definition refs (ps : list proc) (f : nat) : Z := foldr (fun p n => count_fd f (p_ofile p) + n) 0 ps.

Definition dead (p : proc) : Prop := p_state p = UNUSED \/ p_state p = ZOMBIE.

Record fdinv (d : nat -> Z) (ps : list proc) (l : list file) : Prop := {
  fi_len : Forall (fun p => length (p_ofile p) = NOFILE) ps;
  fi_dead : Forall (fun p => dead p -> p_ofile p = replicate NOFILE None) ps;
  fi_ref : forall f x, l !! f = Some x -> f_ref x = refs ps f + d f
}.

(** One more reference, or one fewer, outside the descriptors. *)
Definition dadd (f : nat) (z : Z) (d : nat -> Z) : nat -> Z := fun g => d g + if decide (g = f) then z else 0.

Lemma fdinv_ext d d' ps l : (forall f, d f = d' f) -> fdinv d ps l -> fdinv d' ps l.
Proof. intros E [H1 H2 H3]. constructor; auto. intros f x Hx. rewrite <- E. by apply H3. Qed.

Lemma dadd_undo f z d g : dadd f (- z) (dadd f z d) g = d g.
Proof. unfold dadd. case_decide; lia. Qed.
Lemma dadd_undo' f z d g : dadd f z (dadd f (- z) d) g = d g.
Proof. unfold dadd. case_decide; lia. Qed.

Definition held (f : nat) (o : option nat) : Z := if decide (o = Some f) then 1 else 0.

Lemma count_fd_cons f o l : count_fd f (o :: l) = held f o + count_fd f l.
Proof. unfold count_fd, held. rewrite filter_cons. case_decide; unfold zlen; cbn [length]; lia. Qed.

Lemma count_fd_zset f l i o o' : l !! i = Some o -> count_fd f (<[i := o']> l) = count_fd f l - held f o + held f o'.
Proof.
  revert i. induction l as [|a l IH]; intros [|i] H; try done; cbn in H.
  - injection H as ->. change (<[0%nat := o']> (o :: l)) with (o' :: l). rewrite !count_fd_cons. lia.
  - change (<[S i := o']> (a :: l)) with (a :: <[i := o']> l). rewrite !count_fd_cons, (IH _ H). lia.
Qed.

Lemma fd_refs_alter ps i p g f :
  ps !! i = Some p -> refs (alter g i ps) f = refs ps f - count_fd f (p_ofile p) + count_fd f (p_ofile (g p)).
Proof.
  revert i. induction ps as [|q ps IH]; intros [|i] H; try done; cbn in H.
  - injection H as ->. change (alter g 0%nat (p :: ps)) with (g p :: ps). cbn. lia.
  - change (alter g (S i) (q :: ps)) with (q :: alter g i ps). cbn [refs foldr]. fold (refs (alter g i ps) f) (refs ps f).
    rewrite (IH _ H). lia.
Qed.

(** A change of a process that concerns neither its files nor whether it is
    dead. *)
Definition hsame (p p' : proc) : Prop := p_ofile p' = p_ofile p /\ (dead p' <-> dead p).

Lemma hsame_refl p : hsame p p.
Proof. by split. Qed.
#[local] Instance hsame_reflexive : Reflexive hsame := hsame_refl.

Lemma fdinv_same d ps ps' l : Forall2 hsame ps ps' -> fdinv d ps l -> fdinv d ps' l.
Proof.
  intros H [H1 H2 H3]. constructor.
  - rewrite Forall_forall in H1. apply Forall_forall. intros p' Hp'. apply list_elem_of_lookup in Hp' as [i Hi].
    destruct (Forall2_lookup_r _ _ _ _ _ H Hi) as (p & Hp & -> & _). by apply H1, (list_elem_of_lookup_2 _ i).
  - rewrite Forall_forall in H2. apply Forall_forall. intros p' Hp' Hd. apply list_elem_of_lookup in Hp' as [i Hi].
    destruct (Forall2_lookup_r _ _ _ _ _ H Hi) as (p & Hp & -> & Hdd). apply H2; [by apply (list_elem_of_lookup_2 _ i)|by apply Hdd].
  - intros f x Hx. rewrite (H3 f x Hx). f_equal. clear -H. induction H as [|p p' ps ps' [E _] _ IH]; [done|]. unfold refs in *. cbn [foldr]. by rewrite E, IH.
Qed.

Lemma alter_same g i ps : (forall p, ps !! i = Some p -> hsame p (g p)) -> Forall2 hsame ps (alter g i ps).
Proof.
  intros H. apply Forall2_same_length_lookup_2; [by rewrite length_alter|]. intros j p p' Hp Hp'.
  destruct (decide (j = i)) as [->|Hne].
  - rewrite list_lookup_alter_eq, Hp in Hp'. injection Hp' as <-. by apply H.
  - rewrite list_lookup_alter_ne in Hp' by done. rewrite Hp in Hp'. injection Hp' as <-. apply hsame_refl.
Qed.

Lemma same_trans ps1 ps2 ps3 : Forall2 hsame ps1 ps2 -> Forall2 hsame ps2 ps3 -> Forall2 hsame ps1 ps3.
Proof.
  intros H. revert ps3. induction H as [|p p' ps ps' [H1 H2] _ IH]; intros ps3 H3; inversion H3 as [|? ? ? ? [H4 H5] ?]; subst; constructor; auto.
  split; [congruence|tauto].
Qed.

Lemma same_refl ps : Forall2 hsame ps ps.
Proof. reflexivity. Qed.

Lemma wake_same c ps : Forall2 hsame ps (wake_proc c <$> ps).
Proof.
  apply Forall2_fmap_r, Forall_Forall2_diag, Forall_true. intros p. cbv beta delta [compose]. unfold wake_proc, is_state. destruct (_ && _) eqn:E; [|apply hsame_refl].
  split; [done|]. unfold dead. cbn. apply andb_true_iff in E as [->%bool_decide_eq_true _]. split; intros [|]; done.
Qed.

Lemma wakes_same cs t : Forall2 hsame (pt_proc t) (pt_proc (foldl (fun t c => wakeup1 c t) t cs)).
Proof.
  revert t. induction cs as [|c cs IH]; intros t; cbn [foldl]; [apply same_refl|]. exact (same_trans _ _ _ (wake_same c _) (IH (wakeup1 c t))).
Qed.

Section Fd.
Context {S : Type} `{!BufferCache S}.
Implicit Types (k : kern S) (d : nat -> Z) (F : list proc -> Prop).

(** Facts about the process table that such changes do not touch. *)
Class Stable F : Prop := stable : forall ps ps', Forall2 hsame ps ps' -> F ps -> F ps'.

#[local] Instance stable_true : Stable (fun _ => True).
Proof. done. Qed.

Definition fdok d F k : Prop := fdinv d (pt_proc (ks_pt k)) (ks_file k) /\ F (pt_proc (ks_pt k)).

Local Abbreviation any := (fun _ : kern S => True).
Local Abbreviation fdkeeps d F m := (keeps (fdok d F) any m).

Lemma fdok_same d F `{!Stable F} k k' :
  fdok d F k -> Forall2 hsame (pt_proc (ks_pt k)) (pt_proc (ks_pt k')) -> ks_file k' = ks_file k -> fdok d F k'.
Proof. intros [H1 H2] HS E. split; [rewrite E; by eapply fdinv_same|by eapply stable]. Qed.

Lemma fdok_ext d d' F k : (forall f, d f = d' f) -> fdok d F k -> fdok d' F k.
Proof. intros E [H1 H2]. split; [by eapply fdinv_ext|done]. Qed.

(** Calls that work on other parts of the kernel. *)
Lemma fd_fs {A} d F (m : M (fs S) A) : fdkeeps d F (fs_call m).
Proof. intros k Hk. unfold fs_call, zoom. by destruct (m (ks_fs k)). Qed.
Lemma fd_vm {A} d F (m : M kst A) : fdkeeps d F (vm_call m).
Proof. intros k Hk. unfold vm_call, zoom. by destruct (m (ks_vm k)). Qed.
Lemma fd_print d F fmt args : fdkeeps d F (print fmt args).
Proof. intros k Hk. done. Qed.
Lemma fd_pipes d F g : fdkeeps d F (modify (fun k => set_pipe (g k) k)).
Proof. intros k Hk. done. Qed.
Lemma fd_curproc d F me : fdkeeps d F (curproc me).
Proof. intros k Hk. unfold curproc. by destruct (_ !! _). Qed.
Lemma fd_getproc d F i : fdkeeps d F (getproc i).
Proof. intros k Hk. unfold getproc. by destruct (_ !! _). Qed.
Lemma fd_getfile d F i : fdkeeps d F (getfile i).
Proof. intros k Hk. unfold getfile. by destruct (_ !! _). Qed.
Lemma fd_load d F me va n : fdkeeps d F (user_load me va n).
Proof. unfold user_load. apply keeps_bind; [apply fd_curproc|]. intros p k Hk. by destruct (load_bytes _ _ _ _). Qed.
Lemma fd_store d F me va bs : fdkeeps d F (user_store me va bs).
Proof. unfold user_store. apply keeps_bind; [apply fd_curproc|]. intros p k Hk. by destruct (store_bytes _ _ _ _). Qed.

Lemma fd_wake d F `{!Stable F} cs : fdkeeps d F (wake cs).
Proof. intros k Hk. cbn. eapply (fdok_same d F k); [exact Hk|apply wakes_same|done]. Qed.

Lemma fd_modproc d F `{!Stable F} i g : (forall p, hsame p (g p)) -> fdkeeps d F (modproc i g).
Proof. intros Hg k Hk. cbn. eapply (fdok_same d F k); [exact Hk|apply alter_same; auto|done]. Qed.
Lemma fd_upd_cur d F `{!Stable F} i g : (forall p, hsame p (g p)) -> fdkeeps d F (upd_cur i g).
Proof. apply fd_modproc. done. Qed.

Lemma fd_modfile d F f g : (forall x, f_ref (g x) = f_ref x) -> fdkeeps d F (modfile f g).
Proof.
  intros Hg k [[H1 H2 H3] HF]. cbn. split; [|done]. constructor; auto. cbn. intros j x Hx. destruct (decide (j = f)) as [->|Hne].
  - rewrite list_lookup_alter_eq in Hx. destruct (_ !! f) as [y|] eqn:Hy; [|done]. injection Hx as <-. rewrite Hg. by apply H3.
  - rewrite list_lookup_alter_ne in Hx by done. by apply H3.
Qed.

#[local] Hint Resolve fd_fs fd_vm fd_print fd_pipes fd_curproc fd_getproc fd_getfile fd_load fd_store fd_wake : keeps.
#[local] Hint Extern 1 (keeps _ _ (modproc _ _)) => (apply fd_modproc; [apply _|intros ?; by split]) : keeps.
#[local] Hint Extern 1 (keeps _ _ (upd_cur _ _)) => (apply fd_upd_cur; [apply _|intros ?; by split]) : keeps.
#[local] Hint Extern 1 (keeps _ _ (modfile _ _)) => (apply fd_modfile; intros ?; done) : keeps.

(** ** Open files *)

Context (devsw : Z -> devops S) (end_ data_ : Z) (me : nat) (name0 de0 elf0 : list Z) (x : Z).

Lemma fdinv_ref d ps l f y g :
  fdinv d ps l -> l !! f = Some y -> fdinv (dadd f (f_ref (g y) - f_ref y) d) ps (alter g f l).
Proof.
  intros [H1 H2 H3] Hy. constructor; auto. intros j z Hz. unfold dadd. case_decide as E.
  - subst j. rewrite list_lookup_alter_eq, Hy in Hz. injection Hz as <-. rewrite (H3 f y Hy). lia.
  - rewrite list_lookup_alter_ne in Hz by done. rewrite (H3 j z Hz). lia.
Qed.

Lemma fd_filealloc d F : triple (fdok d F) filealloc
  (fun o k => match o with None => fdok d F k | Some f => fdok (dadd f 1 d) F k end) any.
Proof.
  intros k [Hi HF]. unfold filealloc, filealloc_section. assert (Hs := file_scan_spec 0 (ks_file k)).
  destruct (file_scan 0 (ks_file k)) as [f|]; [|done]. destruct Hs as (_ & y & Hy & Hr). rewrite Nat.sub_0_r in Hy.
  split; [|done]. pose proof (fdinv_ref _ _ _ f y (set_fref 1) Hi Hy) as H. cbn in H. by rewrite Hr in H.
Qed.

Lemma fd_filedup d F f : triple (fdok d F) (filedup f) (fun g k => g = f /\ fdok (dadd f 1 d) F k) any.
Proof.
  intros k [Hi HF]. unfold filedup, filedup_section. destruct (ks_file k !! f) as [y|] eqn:Hy; [|done]. destruct (_ <? _); [done|].
  split; [done|]. split; [|done]. pose proof (fdinv_ref _ _ _ f y (fun x => set_fref (f_ref x + 1) x) Hi Hy) as H. cbn in H.
  by replace (f_ref y + 1 - f_ref y) with 1 in H by lia.
Qed.

Lemma fd_pipe_close d F `{!Stable F} p w : fdkeeps d F (pipe_close end_ p w).
Proof.
  intros k Hk. unfold pipe_close. destruct (ks_pipe k !! p) as [y|]; [|done]. destruct (pipeclose p w y) as [[y' cs] b].
  assert (H : fdkeeps d F (wake cs ;;
    if b then modify (fun k => set_pipe (delete p (ks_pipe k)) k) ;; vm_call (kfree end_ p)
    else modify (fun k => set_pipe (<[p := y']> (ks_pipe k)) k))).
  { keeps. }
  by apply H.
Qed.

Lemma fd_fileclose d F `{!Stable F} f : triple (fdok d F) (fileclose end_ f) (fun _ => fdok (dadd f (-1) d) F) any.
Proof.
  intros k [Hi HF]. unfold fileclose, fileclose_section. destruct (ks_file k !! f) as [y|] eqn:Hy; [|done].
  destruct (Z.ltb_spec (f_ref y) 1) as [|H1]; [done|]. destruct (Z.ltb_spec 0 (f_ref y - 1)) as [H2|H2].
  - split; [|done]. pose proof (fdinv_ref _ _ _ f y (set_fref (f_ref y - 1)) Hi Hy) as H. cbn in H.
    by replace (f_ref y - 1 - f_ref y) with (-1) in H by lia.
  - assert (Hk : fdok (dadd f (-1) d) F (set_file (alter (fun x => set_ftype FD_NONE (set_fref 0 x)) f (ks_file k)) k)).
    { split; [|done]. pose proof (fdinv_ref _ _ _ f y (fun x => set_ftype FD_NONE (set_fref 0 x)) Hi Hy) as H. cbn in H.
      by replace (0 - f_ref y) with (-1) in H by lia. }
    revert Hk. generalize (set_file (alter (fun x => set_ftype FD_NONE (set_fref 0 x)) f (ks_file k)) k).
    enough (H : fdkeeps (dadd f (-1) d) F (match f_type y with
       | FD_PIPE => pipe_close end_ (f_pipe y) (f_writable y)
       | FD_INODE => fs_call (log_call begin_op) ;; fs_call (iput (f_ip y)) ;; fs_call (log_call end_op)
       | FD_NONE => ret tt
       end)) by apply H.
    destruct (f_type y); keeps. by apply fd_pipe_close.
Qed.

(** ** Descriptors *)

(** Descriptor [fd] of the current process refers to [f]. *)
Definition has (fd : Z) (f : nat) (ps : list proc) : Prop :=
  exists p, ps !! me = Some p /\ p_ofile p !! Z.to_nat fd = Some (Some f).

#[local] Instance has_stable fd f : Stable (has fd f).
Proof.
  intros ps ps' H (p & Hp & Hf). destruct (Forall2_lookup_l _ _ _ _ _ H Hp) as (p' & Hp' & E & _). exists p'. by rewrite E.
Qed.

Lemma fdinv_slot d ps l i p fd o o' :
  let g := fun p => set_ofile (zset (p_ofile p) fd o') p in
  fdinv d ps l -> ps !! i = Some p -> p_ofile p !! Z.to_nat fd = Some o -> (dead p -> o' = None) ->
  fdinv (fun f => d f + held f o - held f o') (alter g i ps) l.
Proof.
  intros g [H1 H2 H3] Hp Ho Hd. constructor.
  - apply Forall_alter; [done|]. intros q Hq _. rewrite Hp in Hq. injection Hq as <-. cbn. unfold zset. rewrite length_insert.
    rewrite Forall_forall in H1. by apply H1, (list_elem_of_lookup_2 _ i).
  - apply Forall_alter; [done|]. intros q Hq _ Hdq. rewrite Hp in Hq. injection Hq as <-. change (dead p) in Hdq. change (zset (p_ofile p) fd o' = replicate NOFILE None).
    rewrite (Hd Hdq). rewrite Forall_forall in H2. assert (E := H2 p (list_elem_of_lookup_2 _ i _ Hp) Hdq).
    rewrite <- E. apply list_insert_id. rewrite Ho. rewrite E in Ho. by apply lookup_replicate_1 in Ho as [-> _].
  - intros f y Hy. rewrite (H3 f y Hy), (fd_refs_alter _ _ p) by done. unfold g. cbn [p_ofile set_ofile]. unfold zset.
    rewrite (count_fd_zset _ _ _ o) by done. lia.
Qed.

Lemma fd_clear d F fd f : triple (fun k => fdok d F k /\ has fd f (pt_proc (ks_pt k)))
  (upd_cur me (fun p => set_ofile (zset (p_ofile p) fd None) p)) (fun _ => fdok (dadd f 1 d) (fun _ => True)) any.
Proof.
  intros k [[Hi HF] (p & Hp & Hf)]. cbn. split; [|done]. cbn. eapply fdinv_ext, (fdinv_slot d _ _ me p fd (Some f) None Hi Hp Hf); auto.
  intros g. unfold held, dadd. cbn. repeat case_decide; simplify_eq; lia.
Qed.

(** Only a process that is alive makes system calls. *)
Definition alive_me (ps : list proc) : Prop := forall p, ps !! me = Some p -> ~ dead p.
#[local] Instance alive_stable : Stable alive_me.
Proof.
  intros ps ps' H Ha p' Hp'. destruct (Forall2_lookup_r _ _ _ _ _ H Hp') as (p & Hp & _ & Hd). rewrite Hd. by apply Ha.
Qed.

Lemma fd_fdalloc d F f : (forall ps, F ps -> alive_me ps) ->
  triple (fdok d F) (fdalloc me f) (fun fd k =>
    0 <= fd /\ fdok (dadd f (-1) d) (fun ps => alive_me ps /\ has fd f ps) k \/ fd = -1 /\ fdok d F k) any.
Proof.
  intros Ha k [Hi HF]. unfold fdalloc, bind, curproc. destruct (pt_proc (ks_pt k) !! me) as [p|] eqn:Hp; [|done].
  destruct (fd_scan 0 (p_ofile p)) as [fd|] eqn:Es; [|right; done]. apply fd_scan_spec in Es as [Hfd Hs]. rewrite Z.sub_0_r in Hs.
  cbn. left. split; [done|]. split; cbn.
  - eapply fdinv_ext, (fdinv_slot d _ _ me p fd None (Some f) Hi Hp Hs); [|intros Hd; by destruct (Ha _ HF p Hp)].
    intros g. unfold held, dadd. repeat case_decide; simplify_eq; lia.
  - split; [intros q|exists (set_ofile (zset (p_ofile p) fd (Some f)) p)]; rewrite list_lookup_alter_eq, Hp; cbn.
    + intros [= <-]. change (~ dead p). by apply (Ha _ HF).
    + split; [done|]. unfold zset. apply list_lookup_insert_eq. by eapply lookup_lt_Some.
Qed.

Lemma fd_fetchint d F a : fdkeeps d F (fetchint me a).
Proof. unfold fetchint. keeps. Qed.
Lemma fd_argint d F n : fdkeeps d F (argint me n).
Proof. unfold argint. apply keeps_bind; [apply fd_curproc|]. intros p. apply fd_fetchint. Qed.
#[local] Hint Resolve fd_fetchint fd_argint : keeps.
Lemma fd_argptr d F n size : fdkeeps d F (argptr me n size).
Proof. unfold argptr. keeps. Qed.
Lemma fd_fetchstr d F a : fdkeeps d F (fetchstr me a).
Proof.
  unfold fetchstr. apply keeps_bind; [apply fd_curproc|]. intros p. destruct (_ >=? _); [keeps|].
  generalize (Z.to_nat (p_sz p - a)). intros n. generalize (@nil Z). revert a. induction n as [|n IH]; intros b acc; cbn [fetchstr_loop]; keeps.
Qed.
#[local] Hint Resolve fd_argptr fd_fetchstr : keeps.
Lemma fd_argstr d F n : fdkeeps d F (argstr me n).
Proof. unfold argstr. keeps. Qed.
#[local] Hint Resolve fd_argstr : keeps.

Lemma fd_argfd d F n : triple (fdok d F) (argfd me n)
  (fun o k => match o with Some (fd, f) => fdok d F k /\ has fd f (pt_proc (ks_pt k)) | None => fdok d F k end) any.
Proof.
  unfold argfd. tbind (fd_argint d F n). intros [fd|]; [|by apply triple_ret]. intros k Hk. unfold bind, curproc.
  destruct (pt_proc (ks_pt k) !! me) as [p|] eqn:Hp; [|done]. destruct (_ || _); [done|].
  destruct (p_ofile p !! Z.to_nat fd) as [[f|]|] eqn:Hf; try done. split; [done|]. by exists p.
Qed.

(** ** System calls that leave the descriptors alone *)

Lemma fd_argfd_keeps d F n : fdkeeps d F (argfd me n).
Proof. eapply triple_conseq; [apply fd_argfd|done|]. intros [[fd f]|] k; [by intros [? _]|done]. Qed.
#[local] Hint Resolve fd_argfd_keeps : keeps.

Lemma fd_rw_args d F : fdkeeps d F (rw_args me).
Proof. unfold rw_args. keeps. Qed.

Lemma fd_pipe_read d F `{!Stable F} p a n : fdkeeps d F (pipe_read me p a n).
Proof.
  unfold pipe_read. apply keeps_bind; [apply fd_curproc|]. intros pr k Hk. destruct (ks_pipe k !! p) as [y|]; [|done].
  destruct (piperead p (p_killed pr) n y) as [[[r bs|] y'] w].
  - enough (H : fdkeeps d F (modify (fun k => set_pipe (<[p := y']> (ks_pipe k)) k) ;; user_store me a bs ;; wake w ;; ret r)) by by apply H. keeps.
  - enough (H : fdkeeps d F (modify (fun k => set_pipe (<[p := y']> (ks_pipe k)) k) ;; wake w ;; sleep_on (A := Z) (ChNread p))) by by apply H. keeps.
Qed.

Lemma fd_pipe_write d F `{!Stable F} p a n : fdkeeps d F (pipe_write me p a n).
Proof.
  unfold pipe_write. apply keeps_bind; [apply fd_curproc|]. intros pr. apply keeps_bind; [apply fd_load|]. intros bs k Hk.
  destruct (ks_pipe k !! p) as [y|]; [|done]. destruct (pipewrite p (p_killed pr) bs n 0 y) as [[[r|i] y'] w].
  - enough (H : fdkeeps d F (modify (fun k => set_pipe (<[p := y']> (ks_pipe k)) k) ;; wake w ;; ret r)) by by apply H. keeps.
  - enough (H : fdkeeps d F (modify (fun k => set_pipe (<[p := y']> (ks_pipe k)) k) ;; wake w ;; sleep_on (A := Z) (ChNwrite p))) by by apply H. keeps.
Qed.
#[local] Hint Resolve fd_rw_args fd_pipe_read fd_pipe_write : keeps.

Lemma fd_fileread d F `{!Stable F} f a n : fdkeeps d F (fileread devsw me f a n).
Proof. unfold fileread. keeps. Qed.
Lemma fd_filewrite d F `{!Stable F} f a n : fdkeeps d F (filewrite devsw me f a n).
Proof.
  unfold filewrite. keeps. generalize 0. generalize (Z.to_nat n). intros fuel.
  induction fuel as [|fuel IH]; intros i; cbn [filewrite_loop]; keeps.
Qed.
Lemma fd_filestat d F f st : fdkeeps d F (filestat me f st).
Proof. unfold filestat, store_stat. keeps. Qed.
#[local] Hint Resolve fd_fileread fd_filewrite fd_filestat : keeps.

Lemma fd_read d F `{!Stable F} : fdkeeps d F (sys_read devsw me).
Proof. unfold sys_read. keeps. Qed.
Lemma fd_write d F `{!Stable F} : fdkeeps d F (sys_write devsw me).
Proof. unfold sys_write. keeps. Qed.
Lemma fd_fstat d F : fdkeeps d F (sys_fstat me).
Proof. unfold sys_fstat. keeps. Qed.

Lemma fd_namei d F path : fdkeeps d F (k_namei devsw me name0 path).
Proof. unfold k_namei. keeps. Qed.
Lemma fd_nameiparent d F path : fdkeeps d F (k_nameiparent devsw me name0 path).
Proof. unfold k_nameiparent. keeps. Qed.
#[local] Hint Resolve fd_namei fd_nameiparent : keeps.

Lemma fd_link d F : fdkeeps d F (sys_link devsw me name0 de0).
Proof. unfold sys_link, link_bad. keeps. Qed.
Lemma fd_unlink d F : fdkeeps d F (sys_unlink devsw me name0).
Proof. unfold sys_unlink, unlink_bad. keeps. Qed.
Lemma fd_create d F path t maj min : fdkeeps d F (create devsw me name0 de0 path t maj min).
Proof. unfold create. keeps. Qed.
#[local] Hint Resolve fd_create : keeps.
Lemma fd_open_inode d F path m : fdkeeps d F (open_inode devsw me name0 de0 path m).
Proof. unfold open_inode. keeps. Qed.
Lemma fd_mkdir d F : fdkeeps d F (sys_mkdir devsw me name0 de0).
Proof. unfold sys_mkdir. keeps. Qed.
Lemma fd_mknod d F : fdkeeps d F (sys_mknod devsw me name0 de0).
Proof. unfold sys_mknod. keeps. Qed.
Lemma fd_chdir d F `{!Stable F} : fdkeeps d F (sys_chdir devsw me name0).
Proof. unfold sys_chdir. keeps. Qed.
#[local] Hint Resolve fd_open_inode : keeps.

(** ** System calls on descriptors *)

Local Abbreviation fdcall m := (forall d, triple (fdok d alive_me) m (fun _ => fdok d (fun _ => True)) any).

Lemma fdok_weaken d F k : fdok d F k -> fdok d (fun _ => True) k.
Proof. by intros [? _]. Qed.

Lemma keeps_call {A} (m : M (kern S) A) : (forall d, fdkeeps d alive_me m) -> fdcall m.
Proof. intros H d. eapply triple_conseq; [apply H|done|]. intros a k. apply fdok_weaken. Qed.

Lemma fd_done {A} d d' F (a : A) : (forall f, d' f = d f) -> triple (fdok d' F) (ret a) (fun _ => fdok d (fun _ => True)) any.
Proof. intros E. apply triple_ret. intros k Hk. by eapply fdok_ext, fdok_weaken. Qed.

Lemma fd_dup : fdcall (sys_dup me).
Proof.
  intros d. unfold sys_dup. tbind (fd_argfd d alive_me 0). intros [[fd0 f]|]; [|by apply (fd_done d d alive_me)].
  eapply triple_pre; [|intros k [Hk _]; exact Hk]. tbind (fd_fdalloc d alive_me f). { done. }
  intros fd k [[Hfd Hk]|[-> Hk]]; [|by eapply fdok_weaken]. replace (fd <? 0) with false by lia. revert k Hk.
  change (triple (fdok (dadd f (-1) d) (fun ps => alive_me ps /\ has fd f ps)) (filedup f ;; ret fd) (fun _ => fdok d (fun _ => True)) any).
  tbind (fd_filedup _ _ f). intros g k [-> Hk]. cbn. eapply fdok_ext, fdok_weaken, Hk. intros g. apply (dadd_undo' f 1 d).
Qed.

Lemma fd_close : fdcall (sys_close end_ me).
Proof.
  intros d. unfold sys_close. tbind (fd_argfd d alive_me 0). intros [[fd f]|]; [|by apply (fd_done d d alive_me)].
  tbind (fd_clear d alive_me fd f). intros _. tbind (fd_fileclose _ _ f). intros _. apply fd_done. intros g.
  apply (dadd_undo f 1 d).
Qed.

Lemma fd_open : fdcall (sys_open devsw end_ me name0 de0).
Proof.
  intros d. unfold sys_open. assert (Hend : forall d' ip r, (forall f, d' f = d f) ->
    triple (fdok d' (fun _ => True)) (fs_call (S := S) (iunlockput ip) ;; fs_call (log_call end_op) ;; ret r) (fun _ : Z => fdok d (fun _ => True)) any).
  { intros d' ip r E. tbind (fd_fs d'). intros _. tbind (fd_fs d'). intros _. by apply fd_done. }
  tbind (fd_argstr d alive_me 0). intros [path|]; [|by apply fd_done]. tbind (fd_argint d alive_me 1). intros [m|]; [|by apply fd_done].
  tbind (fd_fs d alive_me). intros _. tbind (fd_open_inode d alive_me path m). intros [ip|]; [|by apply fd_done].
  tbind (fd_filealloc d alive_me). intros [f|]; [|eapply triple_pre; [by apply (Hend d)|intros k; apply fdok_weaken]].
  tbind (fd_fdalloc (dadd f 1 d) alive_me f). { done. } intros fd k [[Hfd Hk]|[-> Hk]].
  - replace (fd <? 0) with false by lia. apply (fdok_ext _ d), fdok_weaken in Hk; [|intros g; apply (dadd_undo f 1 d)]. revert k Hk.
    enough (H : fdkeeps d (fun _ => True) (fs_call (iunlock ip) ;; fs_call (log_call end_op) ;; modfile f (open_file ip m) ;; ret fd)) by exact H.
    keeps.
  - apply fdok_weaken in Hk. cbn. revert k Hk. 
    change (triple (fdok (dadd f 1 d) (fun _ => True)) (fileclose end_ f ;; fs_call (iunlockput ip) ;; fs_call (log_call end_op) ;; ret (-1))
      (fun _ => fdok d (fun _ => True)) any).
    tbind (fd_fileclose _ _ f). intros _. apply Hend. intros g. apply (dadd_undo f 1 d).
Qed.

Lemma fd_pipealloc d : triple (fdok d alive_me) (pipealloc end_)
  (fun o => fdok (match o with Some (f0, f1) => dadd f1 1 (dadd f0 1 d) | None => d end) alive_me) any.
Proof.
  unfold pipealloc. tbind (fd_filealloc d alive_me). intros [f0|]; [|by apply triple_ret].
  tbind (fd_filealloc _ alive_me). intros [f1|].
  2: { tbind (fd_fileclose _ _ f0). intros _. apply triple_ret. intros k. apply fdok_ext, (dadd_undo f0 1 d). }
  tbind (fd_vm _ alive_me). intros p. destruct (p =? 0).
  - tbind (fd_fileclose _ _ f0). intros _. tbind (fd_fileclose _ _ f1). intros _. apply triple_ret. intros k. apply fdok_ext.
    intros g. unfold dadd. repeat case_decide; lia.
  - tbind (fd_pipes _ alive_me). intros _. tbind (fd_modfile _ alive_me f0); [done|]. intros _.
    tbind (fd_modfile _ alive_me f1); [done|]. intros _. by apply triple_ret.
Qed.

Lemma fd_pipe : fdcall (sys_pipe end_ me).
Proof.
  intros d. unfold sys_pipe. tbind (fd_argptr d alive_me 0 8). intros [fd|]; [|by apply fd_done].
  tbind (fd_pipealloc d). intros [[rf wf]|]; [|by apply fd_done].
  set (d2 := dadd wf 1 (dadd rf 1 d)). assert (Hbad : forall d', (forall f, d' f = d2 f) ->
    triple (fdok d' (fun _ => True)) (fileclose end_ rf ;; fileclose end_ wf ;; ret (-1)) (fun _ : Z => fdok d (fun _ => True)) any).
  { intros d' E. tbind (fd_fileclose _ _ rf). intros _. tbind (fd_fileclose _ _ wf). intros _. apply fd_done.
    intros g. unfold dadd. rewrite E. unfold d2, dadd. repeat case_decide; lia. }
  tbind (fd_fdalloc d2 alive_me rf). { done. } intros fd0 k [[Hfd Hk]|[-> Hk]]; [|apply (Hbad d2); [done|by eapply fdok_weaken]].
  replace (fd0 <? 0) with false by lia. revert k Hk.
  enough (H : triple (fdok (dadd rf (-1) d2) (fun ps => alive_me ps /\ has fd0 rf ps))
    (let! fd1 := fdalloc me wf in
     if fd1 <? 0 then
       upd_cur me (fun p => set_ofile (zset (p_ofile p) fd0 None) p) ;; fileclose end_ rf ;; fileclose end_ wf ;; ret (-1)
     else user_store me fd (le_bytes 4 (u32 fd0)) ;; user_store me (fd + 4) (le_bytes 4 (u32 fd1)) ;; ret 0)
    (fun _ => fdok d (fun _ => True)) any) by exact H.
  tbind (fd_fdalloc _ _ wf). { by intros ps [? _]. } intros fd1 k [[Hfd1 Hk]|[-> Hk]].
  - replace (fd1 <? 0) with false by lia. revert k Hk.
    enough (H : forall v w, triple (fdok (dadd wf (-1) (dadd rf (-1) d2)) (fun ps => alive_me ps /\ has fd1 wf ps))
      (user_store me fd v ;; user_store me (fd + 4) w ;; ret 0) (fun _ => fdok d (fun _ => True)) any) by exact (H _ _).
    intros v w. tbind (fd_store _ _ me). intros _. tbind (fd_store _ _ me). intros _. apply fd_done.
    intros g. unfold d2, dadd. repeat case_decide; lia.
  - assert (Hp : fdok (dadd rf (-1) d2) (fun _ => True) k /\ has fd0 rf (pt_proc (ks_pt k))) by (split; [by eapply fdok_weaken|apply Hk]).
    clear Hk. revert k Hp.
    enough (H : triple (fun k => fdok (dadd rf (-1) d2) (fun _ => True) k /\ has fd0 rf (pt_proc (ks_pt k)))
      (upd_cur me (fun p => set_ofile (zset (p_ofile p) fd0 None) p) ;; fileclose end_ rf ;; fileclose end_ wf ;; ret (-1))
      (fun _ => fdok d (fun _ => True)) any) by exact H.
    tbind (fd_clear _ _ fd0 rf). intros _. apply Hbad. intros g. apply (dadd_undo' rf 1 d2).
Qed.

(** ** Processes *)

Lemma fdinv_state d ps l i g :
  fdinv d ps l ->
  (forall p, ps !! i = Some p -> p_ofile (g p) = p_ofile p /\ (dead (g p) -> dead p \/ p_ofile p = replicate NOFILE None)) ->
  fdinv d (alter g i ps) l.
Proof.
  intros [H1 H2 H3] Hg. constructor.
  - apply Forall_alter; [done|]. intros p Hp H. destruct (Hg p Hp) as [E _]. by rewrite E.
  - apply Forall_alter; [done|]. intros p Hp H Hd. destruct (Hg p Hp) as [E Ho]. rewrite E. by destruct (Ho Hd); auto.
  - intros f y Hy. rewrite (H3 f y Hy). f_equal. destruct (ps !! i) as [p|] eqn:Hp.
    + rewrite (fd_refs_alter _ _ p) by done. destruct (Hg p eq_refl) as [-> _]. lia.
    + assert (E : alter g i ps = ps); [|by rewrite E]. apply list_eq. intros j.
      destruct (decide (j = i)) as [->|]; [by rewrite list_lookup_alter_eq, Hp|by rewrite list_lookup_alter_ne].
Qed.

(** The entry of a process under construction, without files from [fd] on. *)
Definition embryo (np fd : nat) (ps : list proc) : Prop :=
  exists p, ps !! np = Some p /\ ~ dead p /\ forall j, (fd <= j < NOFILE)%nat -> p_ofile p !! j = Some None.
#[local] Instance embryo_stable np fd : Stable (embryo np fd).
Proof.
  intros ps ps' H (p & Hp & Hd & Hf). destruct (Forall2_lookup_l _ _ _ _ _ H Hp) as (p' & Hp' & E & Hdd).
  exists p'. rewrite E. split_and!; auto. by rewrite Hdd.
Qed.

Lemma embryo_mono np fd fd' ps : (fd <= fd')%nat -> embryo np fd ps -> embryo np fd' ps.
Proof. intros H (p & Hp & Hd & Hf). exists p. split_and!; auto. intros j Hj. apply Hf. lia. Qed.

Lemma embryo_empty d np k p : fdok d (embryo np 0) k -> pt_proc (ks_pt k) !! np = Some p -> p_ofile p = replicate NOFILE None.
Proof.
  intros [[H1 _ _] (q & Hq & _ & Hf)] Hp. rewrite Hp in Hq. injection Hq as <-. rewrite Forall_forall in H1.
  assert (Hl := H1 p (list_elem_of_lookup_2 _ np _ Hp)). apply list_eq. intros j. destruct (decide (j < NOFILE)%nat) as [Hj|Hj].
  - rewrite Hf by lia. symmetry. by apply lookup_replicate_2.
  - rewrite !lookup_ge_None_2; [done|rewrite length_replicate; lia|rewrite Hl; lia].
Qed.

(** Giving an embryo's slot back, and starting a process. *)
Lemma fd_set_unused d np : triple (fdok d (embryo np 0)) (modproc np (set_state UNUSED)) (fun _ => fdok d (fun _ => True)) any.
Proof.
  intros k Hk. cbn. split; [|done]. apply fdinv_state; [apply Hk|]. intros p Hp. split; [done|]. intros _. right.
  by eapply embryo_empty.
Qed.
Lemma fd_set_runnable d np : triple (fdok d (fun _ => True)) (modproc np (set_state RUNNABLE)) (fun _ => fdok d (fun _ => True)) any.
Proof. intros k Hk. cbn. split; [|done]. apply fdinv_state; [apply Hk|]. intros p Hp. split; [done|]. by intros [|]. Qed.

Lemma fd_alloc_slot d F k i t : fdok d F k -> alloc_slot (ks_pt k) = Some (i, t) -> fdok d (embryo i 0) (set_pt t k).
Proof.
  intros [Hi HF]. unfold alloc_slot. destruct (scan_procs _ _ _) as [j|] eqn:Es; [|done]. intros [= -> <-].
  apply scan_spec in Es as (p & Hp & Hs%bool_decide_eq_true & _). rewrite Nat.sub_0_r in Hp. split; cbn.
  - apply fdinv_state; [done|]. intros q Hq. split; [done|]. by intros [|].
  - eexists. rewrite list_lookup_alter_eq, Hp. split; [done|]. split; [by intros [|]|]. cbn. intros j Hj.
    pose proof (fi_dead _ _ _ Hi) as Hd. rewrite Forall_forall in Hd.
    rewrite (Hd p (list_elem_of_lookup_2 _ _ _ Hp) (or_introl Hs)). apply lookup_replicate_2. lia.
Qed.

Lemma fd_allocproc d F : triple (fdok d F) allocproc
  (fun o k => match o with Some np => fdok d (embryo np 0) k | None => fdok d (fun _ => True) k end) any.
Proof.
  intros k Hk. unfold allocproc. destruct (alloc_slot (ks_pt k)) as [[i t]|] eqn:E; [|by eapply fdok_weaken].
  assert (Hk' := fd_alloc_slot d F k i t Hk E). clear Hk. unfold bind at 1, modify. revert Hk'. generalize (set_pt t k). clear k E.
  enough (H : triple (fdok d (embryo i 0))
      (let! ks := vm_call kalloc in
       modproc i (set_kstack ks) ;;
       if ks =? 0 then modproc i (set_state UNUSED) ;; ret None
       else modproc i (fun p => set_trace false (p_totalSysCall p) p) ;; ret (Some i))
      (fun o k => match o with Some np => fdok d (embryo np 0) k | None => fdok d (fun _ => True) k end) any) by exact H.
  tbind (fd_vm d). intros ks. tbind (fd_modproc d (embryo i 0)); [by split|]. intros _. destruct (ks =? 0).
  - tbind (fd_set_unused d i). intros _. by apply triple_ret.
  - tbind (fd_modproc d (embryo i 0)); [by split|]. intros _. by apply triple_ret.
Qed.

Lemma fd_fork_files np l fd d :
  0 <= fd -> fd + zlen l <= Z.of_nat NOFILE ->
  triple (fdok d (embryo np (Z.to_nat fd))) (fork_files np fd l) (fun _ => fdok d (fun _ => True)) any.
Proof.
  revert fd. induction l as [|o l IH]; intros fd Hfd Hl; cbn [fork_files].
  { apply triple_ret. intros k. apply fdok_weaken. }
  assert (Hz : zlen (o :: l) = 1 + zlen l) by (unfold zlen; cbn; lia). pose proof (zlen_nonneg l).
  apply (triple_bind _ _ _ (fun _ => fdok d (embryo np (Z.to_nat (fd + 1))))); [|intros _; apply IH; lia]. replace (Z.to_nat (fd + 1)) with (Datatypes.S (Z.to_nat fd)) by lia.
  destruct o as [f|].
  2: { apply triple_ret. intros k [Hk He]. split; [done|]. by eapply embryo_mono, He; lia. }
  tbind (fd_filedup d (embryo np (Z.to_nat fd)) f). intros g k [-> [Hi (p & Hp & Hd & Hf)]]. cbn. split; cbn.
  - eapply fdinv_ext, (fdinv_slot _ _ _ np p fd None (Some f) Hi Hp); [|apply Hf; lia|done].
    intros g. unfold held, dadd. repeat case_decide; simplify_eq; lia.
  - eexists. rewrite list_lookup_alter_eq, Hp. split; [done|]. split; [done|]. cbn. unfold zset. intros j Hj.
    rewrite list_lookup_insert_ne by lia. apply Hf. lia.
Qed.

Lemma fd_curproc_len d F : triple (fdok d F) (curproc me) (fun p k => length (p_ofile p) = NOFILE /\ fdok d F k) any.
Proof.
  intros k Hk. unfold curproc. destruct (_ !! me) as [p|] eqn:Hp; [|done]. split; [|done]. destruct Hk as [[H1 _ _] _].
  rewrite Forall_forall in H1. by apply H1, (list_elem_of_lookup_2 _ me).
Qed.

Lemma fd_fork : fdcall (fork end_ data_ me).
Proof.
  intros d. unfold fork. tbind (fd_allocproc d alive_me). intros [np|]; [|by apply fd_done].
  tbind (fd_curproc_len d (embryo np 0)). intros cur. apply (triple_with (length (p_ofile cur) = NOFILE)); [by intros k [? _]|]. intros Hl.
  eapply triple_pre; [|intros k [_ Hk]; exact Hk]. tbind (fd_vm d). intros pgdir. tbind (fd_getproc d (embryo np 0) np). intros y.
  tbind (fd_modproc d (embryo np 0)); [by split|]. intros _. destruct (pgdir =? 0).
  { tbind (fd_vm d). intros _. tbind (fd_modproc d (embryo np 0)); [by split|]. intros _.
    tbind (fd_set_unused d np). intros _. by apply fd_done. }
  do 3 (tbind (fd_modproc d (embryo np 0)); [by split|]; intros _).
  tbind (fd_fork_files np (p_ofile cur) 0 d); [done|unfold zlen; rewrite Hl; done|]. intros _.
  destruct (p_cwd cur) as [cwd|]; [|apply triple_fail; eexists; done]. tbind (fd_fs d). intros cwd'.
  tbind (fd_modproc d (fun _ => True)); [by split|]. intros _. tbind (fd_getproc d _ np). intros z.
  destruct (KString.safestrcpy _ _ _); [|apply triple_fail; eexists; done].
  tbind (fd_modproc d (fun _ => True)); [by split|]. intros _. tbind (fd_set_runnable d np). intros _. by apply fd_done.
Qed.

(** What is left of the descriptors of an exiting process. *)
Definition left_of (n : nat) (l : list (option nat)) (ps : list proc) : Prop :=
  exists p, ps !! me = Some p /\ p_ofile p = replicate n None ++ l.
#[local] Instance left_stable n l : Stable (left_of n l).
Proof. intros ps ps' H (p & Hp & E). destruct (Forall2_lookup_l _ _ _ _ _ H Hp) as (p' & Hp' & E' & _). exists p'. by rewrite E'. Qed.

Lemma fd_exit_files n l d :
  triple (fdok d (left_of n l)) (exit_files end_ me (Z.of_nat n) l) (fun _ => fdok d (left_of (n + length l) [])) any.
Proof.
  revert n. induction l as [|o l IH]; intros n; cbn [exit_files length].
  { apply triple_ret. intros k Hk. by rewrite Nat.add_0_r. }
  replace (n + Datatypes.S (length l))%nat with (Datatypes.S n + length l)%nat by lia.
  apply (triple_bind _ _ _ (fun _ => fdok d (left_of (Datatypes.S n) l)));
    [|intros _; replace (Z.of_nat n + 1) with (Z.of_nat (Datatypes.S n)) by lia; apply IH].
  assert (Hrep : replicate (Datatypes.S n) (@None nat) ++ l = replicate n None ++ None :: l).
  { replace (Datatypes.S n) with (n + 1)%nat by lia. by rewrite replicate_add, <- app_assoc. }
  eapply triple_conseq with (Q := fun _ => fdok d (left_of n (None :: l))); [|done|].
  2: { intros _ k [Hi (p & Hp & E)]. split; [done|]. exists p. by rewrite Hrep. }
  destruct o as [f|]; [|by apply triple_ret].
  tbind (fd_fileclose d (left_of n (Some f :: l)) f). intros _ k [Hi (p & Hp & E)]. cbn.
  assert (Hf : p_ofile p !! Z.to_nat (Z.of_nat n) = Some (Some f)).
  { rewrite E, Nat2Z.id, lookup_app_r by (rewrite length_replicate; lia). by rewrite length_replicate, Nat.sub_diag. }
  split; cbn.
  - eapply fdinv_ext, (fdinv_slot _ _ _ me p (Z.of_nat n) (Some f) None Hi Hp Hf); [|done].
    intros g. unfold held, dadd. repeat case_decide; simplify_eq; lia.
  - eexists. rewrite list_lookup_alter_eq, Hp. split; [done|]. cbn. unfold zset. rewrite E, Nat2Z.id.
    rewrite insert_app_r_alt by (rewrite length_replicate; lia). by rewrite length_replicate, Nat.sub_diag.
Qed.

Lemma reparent_same cnt i t : Forall2 hsame (pt_proc t) (pt_proc (reparent cnt i me t)).
Proof.
  revert i t. induction cnt as [|cnt IH]; intros i t; cbn [reparent]; [apply same_refl|]. eapply same_trans; [|apply IH].
  destruct (pt_proc t !! i) as [p|]; [|apply same_refl]. case_bool_decide; [|apply same_refl].
  assert (H1 : Forall2 hsame (pt_proc t) (pt_proc (upd_proc i (set_parent (Some (pt_initproc t))) t))) by (apply alter_same; by split).
  destruct (is_state ZOMBIE p); [|done]. exact (same_trans _ _ _ H1 (wake_same _ _)).
Qed.

Lemma fd_exit_section d : triple (fdok d (left_of NOFILE [])) (pt_call (exit_section me)) (fun _ => fdok d (fun _ => True)) any.
Proof.
  intros k Hk. cbn. split; [|done]. cbn. unfold exit_section.
  set (t1 := match pt_proc (ks_pt k) !! me ≫= p_parent with Some q => wakeup1 (ChProc q) (ks_pt k) | None => ks_pt k end).
  assert (H1 : Forall2 hsame (pt_proc (ks_pt k)) (pt_proc t1)).
  { unfold t1. destruct (_ ≫= _); [apply wake_same|apply same_refl]. }
  pose proof (same_trans _ _ _ H1 (reparent_same (length (pt_proc t1)) 0 t1)) as H2.
  destruct Hk as [Hi HF]. assert (Hi' := fdinv_same _ _ _ _ H2 Hi). destruct (stable _ _ H2 HF) as (p & Hp & E).
  apply fdinv_state; [done|]. intros q Hq. rewrite Hp in Hq. injection Hq as <-. split; [done|]. intros _. right. by rewrite E, app_nil_r.
Qed.

Lemma fd_exit : fdcall (exit end_ me).
Proof.
  intros d k Hk. unfold exit, bind at 1, get. case_bool_decide as Hinit; [done|clear Hinit]. unfold bind at 1, curproc.
  destruct (pt_proc (ks_pt k) !! me) as [p|] eqn:Hp; [|done].
  assert (Hk0 : fdok d (left_of 0 (p_ofile p)) k) by (split; [apply Hk|by exists p]).
  assert (Hl : length (p_ofile p) = NOFILE).
  { destruct Hk as [[H1 _ _] _]. rewrite Forall_forall in H1. by apply H1, (list_elem_of_lookup_2 _ me). }
  clear Hk. revert k Hp Hk0. cut (triple (fdok d (left_of 0 (p_ofile p)))
    (exit_files end_ me 0 (p_ofile p) ;;
     fs_call (log_call begin_op) ;;
     (match p_cwd p with None => undef "exit without a current directory" | Some d => fs_call (iput d) end) ;;
     fs_call (log_call end_op) ;;
     modproc me (set_cwd None) ;;
     pt_call (exit_section me)) (fun _ => fdok d (fun _ => True)) any); [intros H k _; apply H|].
  tbind (fd_exit_files 0 (p_ofile p) d). intros _. rewrite Hl. cbn [Nat.add]. tbind (fd_fs d). intros _.
  apply (triple_bind _ _ _ (fun _ => fdok d (left_of NOFILE []))); [destruct (p_cwd p); [apply fd_fs|apply keeps_undef]|]. intros _.
  tbind (fd_fs d). intros _. tbind (fd_modproc d (left_of NOFILE [])); [by split|]. intros _. apply fd_exit_section.
Qed.

Definition dead_at (i : nat) (ps : list proc) : Prop := exists p, ps !! i = Some p /\ dead p.
#[local] Instance dead_stable i : Stable (dead_at i).
Proof.
  intros ps ps' H (p & Hp & Hd). destruct (Forall2_lookup_l _ _ _ _ _ H Hp) as (p' & Hp' & _ & E). exists p'. by rewrite E.
Qed.

Lemma fd_reap d i : triple (fdok d (dead_at i)) (modproc i reap) (fun _ => fdok d (fun _ => True)) any.
Proof.
  intros k [Hi (p & Hp & Hd)]. cbn. split; [|done]. apply fdinv_state; [done|]. intros q Hq. rewrite Hp in Hq. injection Hq as <-. auto.
Qed.

Lemma fd_wait : fdcall (wait end_ me).
Proof.
  intros d k Hk. unfold wait, bind at 1, curproc. destruct (_ !! me) as [p|]; [|done]. unfold bind at 1, get.
  assert (Hs := wait_scan_spec me 0 (pt_proc (ks_pt k)) false). destruct (wait_scan _ _ _ _) as [hk [i|]].
  - destruct Hs as (q & Hq & _ & Hz & _). rewrite Nat.sub_0_r in Hq.
    assert (Hk' : fdok d (dead_at i) k) by (split; [apply Hk|exists q; split; [done|by right]]).
    revert k Hq Hk Hk'. cut (triple (fdok d (dead_at i))
      (let! c := getproc i in
       vm_call (kfree end_ (p_kstack c)) ;; vm_call (freevm end_ (p_pgdir c)) ;; modproc i reap ;; ret (p_pid c))
      (fun _ => fdok d (fun _ => True)) any); [intros H k _ _; apply H|].
    tbind (fd_getproc d). intros c. do 2 (tbind (fd_vm d); intros _). tbind (fd_reap d i). intros _. by apply fd_done.
  - destruct (_ || _); [by eapply fdok_weaken|done].
Qed.

Lemma fd_kill d F `{!Stable F} pid : fdkeeps d F (kill pid).
Proof.
  intros k Hk. unfold kill, kill_section. destruct (scan_procs _ _ _) as [i|]; [|by destruct k].
  eapply (fdok_same d F k); [exact Hk| |done]. apply alter_same. intros p _. cbn. unfold is_state. cbn.
  case_bool_decide as E; [|by split]. split; [done|]. unfold dead. cbn. rewrite E. split; intros [|]; done.
Qed.
#[local] Hint Resolve fd_kill : keeps.
Lemma fd_sys_kill d F `{!Stable F} : fdkeeps d F (sys_kill me).
Proof. unfold sys_kill. keeps. Qed.

Lemma fd_sbrk d F `{!Stable F} : fdkeeps d F (sys_sbrk end_ me).
Proof. unfold sys_sbrk, growproc. keeps. Qed.
Lemma fd_sleep d F : fdkeeps d F (sys_sleep me).
Proof. unfold sys_sleep, sleep_loop. keeps. Qed.
Lemma fd_trace d F `{!Stable F} : fdkeeps d F (sys_trace me x).
Proof. unfold sys_trace. keeps. Qed.

Lemma fd_segments d F cnt pd ip off sz : fdkeeps d F (load_segments devsw end_ cnt pd ip off sz).
Proof.
  assert (Hl : forall fuel pd a ip o n i, fdkeeps d F (loaduvm_loop devsw fuel pd a ip o n i)).
  { intros fuel. induction fuel as [|fuel IH]; intros; cbn [loaduvm_loop]; keeps. }
  revert off sz. induction cnt as [|cnt IH]; intros off sz; cbn [load_segments]; unfold load_segment, loaduvm; keeps.
Qed.
Lemma fd_build_stack d F pd argv sz : fdkeeps d F (build_stack end_ pd argv sz).
Proof.
  assert (Hp : forall argv argc sp us, fdkeeps d F (push_args pd argv argc sp us)).
  { intros av. induction av as [|a av IH]; intros; cbn [push_args]; keeps. }
  unfold build_stack. keeps.
Qed.
#[local] Hint Resolve fd_segments fd_build_stack : keeps.

Lemma fd_exec d F `{!Stable F} : fdkeeps d F (sys_exec devsw end_ data_ me name0 elf0).
Proof.
  assert (Ha : forall cnt u i acc, fdkeeps d F (fetch_argv me cnt u i acc)).
  { intros cnt. induction cnt as [|cnt IH]; intros; cbn [fetch_argv]; keeps. }
  unfold sys_exec, exec, bad_ip, commit_image. keeps.
Qed.

(** ** Every system call *)

Lemma fd_syscalls num f :
  find_call num (syscalls devsw end_ data_ name0 de0 elf0 x me) = Some f -> fdcall f.
Proof.
  cbn [find_call syscalls]. repeat (destruct (num =? _); [intros [= <-]|]); [..|done].
  all: first
    [ exact fd_fork | apply fd_wait | apply fd_pipe | apply fd_dup | apply fd_open | apply fd_close
    | intros d; tbind (fd_exit d); intros _; by apply fd_done
    | apply keeps_call; intros d; first
        [ apply fd_read; apply _ | apply fd_exec; apply _ | apply fd_fstat | apply fd_chdir; apply _ | apply fd_sbrk; apply _ | apply fd_sleep
        | apply fd_write; apply _ | apply fd_mknod | apply fd_unlink | apply fd_link | apply fd_mkdir | apply fd_trace; apply _
        | apply fd_sys_kill; apply _ | solve [unfold sys_getpid, sys_uptime; keeps] ] ].
Qed.

End Fd.

(** The counts of the open files are right, and only processes that are alive
    have descriptors. *)
Definition counted {S} (k : kern S) : Prop := fdinv (fun _ => 0) (pt_proc (ks_pt k)) (ks_file k).

Section Counted.
Context {S : Type} `{!BufferCache S}.
Context (devsw : Z -> devops S) (end_ data_ : Z) (name0 de0 elf0 : list Z) (x : Z).
Implicit Types k : kern S.

(** A file that a descriptor refers to is open. *)
Lemma counted_open k i p fd f y :
  counted k -> pt_proc (ks_pt k) !! i = Some p -> p_ofile p !! fd = Some (Some f) -> ks_file k !! f = Some y -> 1 <= f_ref y.
Proof.
  intros [_ _ H3] Hp Hf Hy. rewrite (H3 f y Hy), Z.add_0_r. unfold refs.
  assert (Hc : forall l, 0 <= count_fd f l) by (intros l; apply zlen_nonneg).
  assert (Hr : forall ps, 0 <= foldr (fun p n => count_fd f (p_ofile p) + n) 0 ps).
  { intros ps. induction ps as [|q ps IH]; cbn; [lia|]. specialize (Hc (p_ofile q)). lia. }
  clear H3. revert i Hp. induction (pt_proc (ks_pt k)) as [|q ps IH]; intros [|i] Hp; try done; cbn in Hp |- *.
  - injection Hp as ->. specialize (Hr ps). assert (1 <= count_fd f (p_ofile p)); [|lia].
    clear -Hf Hc. revert fd Hf. induction (p_ofile p) as [|o l IH]; intros [|fd] Hf; try done; cbn in Hf; rewrite count_fd_cons; unfold held.
    + injection Hf as ->. rewrite decide_True by done. specialize (Hc l). lia.
    + specialize (IH fd Hf). case_decide; lia.
  - specialize (IH i Hp). specialize (Hc (p_ofile q)). lia.
Qed.

(** C2: reference counts are exact.  If the count of every open file is the
    number of descriptors of all processes that refer to it, and dead processes
    have none, then the same holds whenever a system call of a live process
    returns (or exits), whichever call it is, whatever its arguments, and
    whether it succeeds or fails.  The state in which a call goes to sleep and a
    call that panics are not covered. *)
Theorem syscall_refcounts me k :
  counted k -> (forall p, pt_proc (ks_pt k) !! me = Some p -> ~ dead p) ->
  match syscall devsw end_ data_ name0 de0 elf0 x me k with
  | Ret _ k' => counted k'
  | _ => True
  end.
Proof.
  intros Hc Ha. set (d := fun _ : nat => 0).
  enough (H : triple (fdok d (alive_me me)) (syscall devsw end_ data_ name0 de0 elf0 x me) (fun _ => fdok d (fun _ => True)) (fun _ => True)).
  { specialize (H k (conj Hc Ha)). destruct (syscall _ _ _ _ _ _ _ _ _); [apply H|done..]. }
  pose proof (alive_stable me) as HS. pose proof stable_true as HT. unfold syscall. tbind (fd_curproc d (alive_me me) me). intros p. cbv zeta.
  destruct (find_call _ _) as [f|] eqn:Ef.
  - apply (triple_bind _ _ _ (fun _ => fdok d (alive_me me))).
    { destruct (p_traceFlag p); [|by apply triple_ret]. tbind (fd_upd_cur d (alive_me me)); [by split|]. intros _. apply fd_print. }
    intros _. tbind (fd_syscalls devsw end_ data_ me name0 de0 elf0 x _ f Ef d). intros r.
    destruct (_ =? SYS_exit); [by apply triple_ret|]. tbind (fd_upd_cur d (fun _ => True)); [by split|]. intros _. by apply triple_ret.
  - tbind (fd_print d (alive_me me)). intros _. tbind (fd_upd_cur d (alive_me me)); [by split|]. intros _. apply triple_ret.
    intros k'. apply fdok_weaken.
Qed.

End Counted.

(** A process with one open file calls dup: the file then has two references. *)
Definition dup_proc : proc :=
  MkProc 4096 0x80200000 0 RUNNING 1 None (MkTf 0 0 0 0 0 0 0 SYS_dup 0 0 0 0 0 0 0 0 0 16 0) None false
    (Some 0%nat :: replicate 15 None) None [] false 0.
Definition dup_kern : kern (bio Memide.memdisk) :=
  MkKern ex_fs (MkKst (stl (stl (fun _ => 0) 0x80200000 (0x201000 + 7)) 0x80201000 (0x202000 + 7)) 0 false)
    [MkFile FD_INODE 1 true true 0 0 0] ∅ (MkPtable [dup_proc] 2 0) 0 [].

Lemma syscall_refcounts_witness :
  exists k', syscall (fun _ => MkDev _ None None) 0 0 [] [] [] 0 0 dup_kern = Ret TReturn k' /\ counted k' /\
    f_ref <$> ks_file k' = [2].
Proof.
  assert (H := syscall_refcounts (fun _ => MkDev _ None None) 0 0 [] [] [] 0 0 dup_kern).
  destruct (syscall _ _ _ _ _ _ _ _ _) as [r k'| |] eqn:E; [|by vm_compute in E..].
  assert (Hr : r = TReturn /\ f_ref <$> ks_file k' = [2]) by (vm_compute in E; by simplify_eq). destruct Hr as [-> Hr].
  exists k'. split; [done|]. split; [|done]. apply H.
  - constructor; [by constructor|constructor; [by intros [|]|done]|]. intros [|[|f]] y; cbn; [|done..]. intros [= <-]. reflexivity.
  - intros p [= <-]. by intros [|].
Defined.
