(* ===== verification/Grep.v ===== *)
(** * grep (grep.c)

    The matcher by Kernighan and Pike, and the loop that cuts the input into
    lines.  Pattern and text are the bytes from the pointer to the end of the
    object; a read past the object is [None]. *)

From S2P Require Import Prelude.
From S2P Require Import CString.

Definition ch_star : Z := 42.
Definition ch_caret : Z := 94.
Definition ch_dollar : Z := 36.
Definition ch_dot : Z := 46.
Definition ch_nl : Z := 10.

(** matchstar's loop; [mh] is [matchhere] at the rest of the pattern. *)
Fixpoint matchstar (mh : list Z -> option bool) (c : Z) (text : list Z) : option bool :=
  match mh text with
  | None => None
  | Some true => Some true
  | Some false =>
      match text with
      | [] => None
      | t0 :: text => if negb (t0 =? 0) && ((t0 =? c) || (c =? ch_dot)) then matchstar mh c text else Some false
      end
  end.

Fixpoint matchhere (re text : list Z) : option bool :=
  match re with
  | [] => None
  | r0 :: re1 =>
      if r0 =? 0 then Some true else
      match re1 with
      | [] => None
      | r1 :: re2 =>
          if r1 =? ch_star then matchstar (matchhere re2) r0 text
          else match text with
               | [] => None
               | t0 :: text1 =>
                   if (r0 =? ch_dollar) && (r1 =? 0) then Some (t0 =? 0)
                   else if negb (t0 =? 0) && ((r0 =? ch_dot) || (r0 =? t0)) then matchhere re1 text1
                   else Some false
               end
      end
  end.

(** match's loop over the starting points. *)
Fixpoint match_from (re text : list Z) : option bool :=
  match matchhere re text with
  | None => None
  | Some true => Some true
  | Some false =>
      match text with
      | [] => None
      | t0 :: text => if t0 =? 0 then Some false else match_from re text
      end
  end.

Definition grep_match (re text : list Z) : option bool :=
  match re with
  | [] => None
  | r0 :: re1 => if r0 =? ch_caret then matchhere re1 text else match_from re text
  end.

(** ** The lines of the input

    [buf] is the 1024-byte buffer, [p] an offset in it; a line is terminated
    in place for the match.  [grep_lines] is the inner loop, [out] what has been
    written to the standard output. *)
Definition grep_bufsz : Z := 1024.

Fixpoint grep_lines (fuel : nat) (pattern buf : list Z) (p : Z) (out : list Z) : option (list Z * Z * list Z) :=
  match fuel with
  | O => None
  | S fuel =>
      match Ulib.strchr (drop (Z.to_nat p) buf) ch_nl with
      | None => None
      | Some None => Some (buf, p, out)
      | Some (Some rest) =>
          let q := zlen buf - zlen rest in
          let buf := zset buf q 0 in
          match grep_match pattern (drop (Z.to_nat p) buf) with
          | None => None
          | Some true =>
              let buf := zset buf q ch_nl in
              grep_lines fuel pattern buf (q + 1) (out ++ slice p (q + 1 - p) buf)
          | Some false => grep_lines fuel pattern buf (q + 1) out
          end
      end
  end.

(** The outer loop; [reads] is what the successive reads return, each cut to
    the room left, [m] the number of bytes kept.  A read to an address before
    the buffer is [None]. *)
Fixpoint grep_loop (reads : list (list Z)) (pattern buf : list Z) (m : Z) (out : list Z) : option (list Z) :=
  match reads with
  | [] => Some out
  | d :: reads =>
      if m <? 0 then None else
      let d := take (Z.to_nat (grep_bufsz - m)) d in
      if zlen d =? 0 then Some out else
      let buf := splice m d buf in
      let m := m + zlen d in
      match grep_lines (S (length buf)) pattern buf 0 out with
      | None => None
      | Some (buf, p, out) =>
          let m := if p =? 0 then 0 else m in
          if 0 <? m then
            let m := m - p in
            grep_loop reads pattern (splice 0 (slice p m buf) buf) m out
          else grep_loop reads pattern buf m out
      end
  end.
Definition grep (pattern : list Z) (reads : list (list Z)) : option (list Z) :=
  grep_loop reads pattern (replicate (Z.to_nat grep_bufsz) 0) 0 [].

(** ** What a pattern means

    A pattern is a sequence of items, each a character or the repetition of
    one, with [.] standing for any character and a last [$] for the end of the
    text. *)
Inductive item : Type := One (c : Z) | Star (c : Z).

Fixpoint tokens (p : list Z) : list item * bool :=
  match p with
  | [] => ([], false)
  | c :: p1 =>
      match p1 with
      | [] => if c =? ch_dollar then ([], true) else ([One c], false)
      | d :: p2 =>
          if d =? ch_star then let '(l, e) := tokens p2 in (Star c :: l, e)
          else let '(l, e) := tokens p1 in (One c :: l, e)
      end
  end.

Definition chr (c x : Z) : Prop := c = ch_dot \/ c = x.
Definition item_lang (i : item) (u : list Z) : Prop :=
  match i with
  | One c => exists x, u = [x] /\ chr c x
  | Star c => Forall (chr c) u
  end.

(** The text starts with a word of the pattern; it contains one. *)
Definition matches_here (p w : list Z) : Prop :=
  exists us v, w = concat us ++ v /\ Forall2 item_lang (tokens p).1 us /\ ((tokens p).2 = true -> v = []).
Definition matches (p w : list Z) : Prop :=
  if bool_decide (head p = Some ch_caret) then matches_here (tail p) w
  else exists u v, w = u ++ v /\ matches_here p v.

Lemma here_nil w : matches_here [] w.
Proof. exists [], w. cbn. split_and!; [done|constructor|done]. Qed.

Lemma here_star c p w :
  matches_here (c :: ch_star :: p) w <-> exists u v, w = u ++ v /\ Forall (chr c) u /\ matches_here p v.
Proof.
  unfold matches_here. cbn [tokens]. rewrite Z.eqb_refl. destruct (tokens p) as [l e]. cbn [fst snd]. split.
  - intros (us & v & -> & H & He). inversion H as [|? u ? us' Hu Hus]; subst. exists u, (concat us' ++ v). cbn.
    rewrite app_assoc. split_and!; auto. by exists us', v.
  - intros (u & v & -> & Hu & us & v' & -> & H & He). exists (u :: us), v'. cbn. rewrite app_assoc. split_and!; auto.
Qed.

Lemma here_dollar w : matches_here [ch_dollar] w <-> w = [].
Proof.
  unfold matches_here. cbn. split.
  - intros (us & v & -> & H & He). apply Forall2_nil_inv_l in H as ->. by rewrite He.
  - intros ->. by exists [], [].
Qed.

Lemma here_one c p w :
  head p <> Some ch_star -> (p = [] -> c <> ch_dollar) ->
  matches_here (c :: p) w <-> exists x w', w = x :: w' /\ chr c x /\ matches_here p w'.
Proof.
  intros Hp Hd. assert (E : tokens (c :: p) = (One c :: (tokens p).1, (tokens p).2)).
  { destruct p as [|d p].
    - cbn [tokens]. rewrite (proj2 (Z.eqb_neq _ _) (Hd eq_refl)). done.
    - transitivity (let '(l, e) := tokens (d :: p) in (One c :: l, e)); [|by destruct (tokens (d :: p))].
      remember (tokens (d :: p)) as r eqn:Er. cbn [tokens] in *.
      rewrite (proj2 (Z.eqb_neq d ch_star)) by (intros ->; done). by rewrite Er. }
  unfold matches_here. rewrite E. cbn [fst snd]. split.
  - intros (us & v & -> & H & He). inversion H as [|? u ? us' Hu Hus]; subst. cbn in Hu. destruct Hu as (x & -> & Hx). exists x, (concat us' ++ v).
    split_and!; auto. by exists us', v.
  - intros (x & w' & -> & Hx & us & v & -> & H & He). exists ([x] :: us), v. split_and!; auto. constructor; [by exists x|done].
Qed.

Local Abbreviation nonul := (Forall (fun x => x <> 0)).

Lemma matchstar_run mh c (P : list Z -> Prop) t w :
  (forall v, nonul v -> exists b, mh (v ++ 0 :: t) = Some b /\ (b = true <-> P v)) -> nonul w ->
  exists b, matchstar mh c (w ++ 0 :: t) = Some b /\ (b = true <-> exists u v, w = u ++ v /\ Forall (chr c) u /\ P v).
Proof.
  intros Hmh. induction w as [|x w IH]; intros Hw.
  - destruct (Hmh [] Hw) as (b & Eb & Hb). cbn in *. rewrite Eb. destruct b; eexists; split; try done; split; try done.
    + intros _. exists [], []. split_and!; auto. by apply Hb.
    + intros (u & v & E & Hu & Hv). symmetry in E. apply app_nil in E as [-> ->]. by apply Hb.
  - destruct (Hmh _ Hw) as (b & Eb & Hb). inversion Hw as [|? ? Hx Hw']; subst. destruct (IH Hw') as (b' & Eb' & Hb').
    cbn [app matchstar] in *. rewrite Eb. destruct b.
    { exists true. split; [done|]. split; [|done]. intros _. exists [], (x :: w). split_and!; auto. by apply Hb. }
    rewrite (proj2 (Z.eqb_neq x 0) Hx). cbn [negb andb]. destruct ((x =? c) || (c =? ch_dot)) eqn:Ec.
    + exists b'. split; [done|]. rewrite Hb'. split.
      * intros (u & v & -> & Hu & Hv). exists (x :: u), v. split_and!; auto. constructor; [|done]. unfold chr. lia.
      * intros ([|y u] & v & E & Hu & Hv); cbn in E.
        -- subst v. by apply Hb in Hv.
        -- injection E as <- ->. inversion Hu; subst. by exists u, v.
    + exists false. split; [done|]. split; [done|]. intros ([|y u] & v & E & Hu & Hv); cbn in E.
      * subst v. by apply Hb in Hv.
      * injection E as <- ->. inversion Hu as [|? ? Hc]; subst. unfold chr in Hc. lia.
Qed.

Lemma matchhere_run p r w t :
  nonul p -> nonul w -> exists b, matchhere (p ++ 0 :: r) (w ++ 0 :: t) = Some b /\ (b = true <-> matches_here p w).
Proof.
  intros Hp. revert w t. remember (length p) as n eqn:En. revert p Hp En.
  induction (lt_wf n) as [n _ IH]. intros [|c p] Hp En w t Hw; cbn [length] in En.
  { exists true. split; [by destruct w|]. split; [intros _; apply here_nil|done]. }
  inversion Hp as [|? ? Hc Hp']; subst. cbn [app matchhere]. rewrite (proj2 (Z.eqb_neq c 0) Hc).
  destruct p as [|d p]; cbn [app].
  - cbn [Z.eqb ch_star]. destruct (decide (c = ch_dollar)) as [->|Hd].
    + destruct w as [|x w]; cbn; [|inversion Hw; subst; rewrite (proj2 (Z.eqb_neq x 0)) by done]; eexists; split; try done; rewrite here_dollar; done.
    + rewrite (proj2 (Z.eqb_neq c ch_dollar) Hd). cbn [andb].
      assert (H1 := here_one c [] w ltac:(done) ltac:(done)). destruct w as [|x w]; cbn [app].
      * exists false. split; [done|]. rewrite H1. split; [done|]. by intros (? & ? & ? & _).
      * inversion Hw; subst. rewrite (proj2 (Z.eqb_neq x 0)) by done. cbn [negb andb].
        destruct ((c =? ch_dot) || (c =? x)) eqn:Ec; [exists true|exists false]; (split; [by destruct w|]); rewrite H1; (split; [|try done]).
        -- intros _. exists x, w. split_and!; auto; [unfold chr; lia|apply here_nil].
        -- done.
        -- intros (? & ? & [= <- <-] & Hx & _). unfold chr in Hx. lia.
  - inversion Hp' as [|? ? Hdz Hp'']; subst. destruct (decide (d = ch_star)) as [->|Hd].
    + rewrite Z.eqb_refl. destruct (matchstar_run (matchhere (p ++ 0 :: r)) c (matches_here p) t w) as (b & Eb & Hb); [|done|].
      { intros v Hv. apply (IH (length p)); auto. }
      exists b. split; [done|]. by rewrite Hb, here_star.
    + rewrite (proj2 (Z.eqb_neq d ch_star) Hd), (proj2 (Z.eqb_neq d 0) Hdz), andb_false_r.
      assert (H1 := here_one c (d :: p) w ltac:(cbn; congruence) ltac:(done)). destruct w as [|x w]; cbn [app].
      * exists false. split; [done|]. rewrite H1. split; [done|]. by intros (? & ? & ? & _).
      * inversion Hw; subst. rewrite (proj2 (Z.eqb_neq x 0)) by done. cbn [negb andb].
        destruct ((c =? ch_dot) || (c =? x)) eqn:Ec.
        -- destruct (IH (length (d :: p)) ltac:(cbn; lia) (d :: p) Hp' eq_refl w t) as (b & Eb & Hb); [done|].
           exists b. split; [done|]. rewrite H1, Hb. split; [|by intros (? & ? & [= <- <-] & _ & ?)].
           intros. exists x, w. split_and!; auto. unfold chr. lia.
        -- exists false. split; [done|]. rewrite H1. split; [done|]. intros (? & ? & [= <- <-] & Hx & _). unfold chr in Hx. lia.
Qed.

Lemma match_from_run p r w t :
  nonul p -> nonul w ->
  exists b, match_from (p ++ 0 :: r) (w ++ 0 :: t) = Some b /\ (b = true <-> exists u v, w = u ++ v /\ matches_here p v).
Proof.
  intros Hp. induction w as [|x w IH]; intros Hw.
  - destruct (matchhere_run p r [] t Hp Hw) as (b & Eb & Hb). cbn in *. rewrite Eb. destruct b; eexists; split; try done; split; try done.
    + intros _. exists [], []. split; [done|]. by apply Hb.
    + intros (u & v & E & Hv). symmetry in E. apply app_nil in E as [-> ->]. by apply Hb.
  - destruct (matchhere_run p r (x :: w) t Hp Hw) as (b & Eb & Hb). inversion Hw as [|? ? Hx Hw']; subst.
    destruct (IH Hw') as (b' & Eb' & Hb'). cbn [app match_from] in *. rewrite Eb. destruct b.
    { exists true. split; [done|]. split; [|done]. intros _. exists [], (x :: w). split; [done|]. by apply Hb. }
    rewrite (proj2 (Z.eqb_neq x 0) Hx). exists b'. split; [done|]. rewrite Hb'. split.
    + intros (u & v & -> & Hv). by exists (x :: u), v.
    + intros ([|y u] & v & E & Hv); cbn in E; [subst v; by apply Hb in Hv|]. injection E as <- ->. by exists u, v.
Qed.

Lemma match_run p r w t :
  nonul p -> nonul w -> exists b, grep_match (p ++ 0 :: r) (w ++ 0 :: t) = Some b /\ (b = true <-> matches p w).
Proof.
  intros Hp Hw. unfold matches. case_bool_decide as Hc.
  - destruct p as [|c p]; [done|]. injection Hc as ->. inversion Hp; subst. apply matchhere_run; auto.
  - destruct (match_from_run p r w t Hp Hw) as (b & Eb & Hb). exists b. split; [|done]. rewrite <- Eb.
    destruct p as [|c p]; [done|]. cbn [app grep_match]. rewrite (proj2 (Z.eqb_neq c ch_caret)); [done|]. cbn in Hc. congruence.
Qed.

(** C35: grep's matcher decides the pattern language: on a pattern and a text
    that are terminated C strings it returns without reading past them, and
    answers 1 exactly when the text contains (with a leading [^], starts with)
    a word of the pattern. *)
Theorem match_correct p w :
  nonul p -> nonul w -> exists b, grep_match (p ++ [0]) (w ++ [0]) = Some b /\ (b = true <-> matches p w).
Proof. apply match_run. Qed.

(** [^a.*b$] on [axxb] and on [axx]. *)
Lemma match_correct_witness :
  matches [94; 97; 46; 42; 98; 36] [97; 120; 120; 98] /\ ~ matches [94; 97; 46; 42; 98; 36] [97; 120; 120].
Proof.
  split.
  - destruct (match_correct [94; 97; 46; 42; 98; 36] [97; 120; 120; 98]) as (b & Eb & Hb); [repeat constructor; done..|].
    apply Hb. cbn in Eb. congruence.
  - destruct (match_correct [94; 97; 46; 42; 98; 36] [97; 120; 120]) as (b & Eb & Hb); [repeat constructor; done..|].
    rewrite <- Hb. cbn in Eb. congruence.
Defined.

(** ** The lines of one read *)

Definition is_line (l : list Z) : Prop := nonul l /\ Forall (fun x => x <> ch_nl) l.
Definition unlines (ls : list (list Z)) : list Z := concat ((fun l => l ++ [ch_nl]) <$> ls).
Definition selects (p l : list Z) : bool := bool_decide (grep_match (p ++ [0]) (l ++ [0]) = Some true).

Lemma selects_matches p l : nonul p -> nonul l -> selects p l = true <-> matches p l.
Proof.
  intros Hp Hl. unfold selects. destruct (match_run p [] l [] Hp Hl) as (b & Eb & Hb). rewrite Eb, bool_decide_eq_true, <- Hb. naive_solver.
Qed.

Lemma strchr_line l t : is_line l -> Ulib.strchr (l ++ ch_nl :: t) ch_nl = Some (Some (ch_nl :: t)).
Proof.
  intros [Hn Hl]. induction Hn as [|x l Hx Hn IH]; cbn; [done|]. inversion Hl; subst.
  rewrite (proj2 (Z.eqb_neq x 0)), (proj2 (Z.eqb_neq x ch_nl)) by done. by apply IH.
Qed.

Lemma zset_mid (pre : list Z) x y t : zset (pre ++ x :: t) (zlen pre) y = pre ++ y :: t.
Proof. unfold zset, zlen. rewrite Nat2Z.id. rewrite insert_app_r_alt by lia. by rewrite Nat.sub_diag. Qed.

Lemma drop_pre (pre t : list Z) : drop (Z.to_nat (zlen pre)) (pre ++ t) = t.
Proof. unfold zlen. rewrite Nat2Z.id. by rewrite drop_app_length. Qed.

Local Ltac lens := unfold zlen; repeat (progress (rewrite ?length_app; cbn [length])); lia.

Lemma grep_lines_run fuel pat r ls pre t out :
  nonul pat -> Forall is_line ls -> (length ls < fuel)%nat ->
  exists buf', grep_lines fuel (pat ++ 0 :: r) (pre ++ unlines ls ++ 0 :: t) (zlen pre) out =
    Some (buf', zlen pre + zlen (unlines ls), out ++ unlines (filter (fun l => selects pat l = true) ls)) /\
    length buf' = length (pre ++ unlines ls ++ 0 :: t).
Proof.
  intros Hpat. revert fuel pre out. induction ls as [|l ls IH]; intros [|fuel] pre out Hls Hf; cbn [length] in Hf; try lia.
  - cbn [grep_lines unlines fmap list_fmap concat]. rewrite drop_pre. cbn [app Ulib.strchr Z.eqb]. eexists. rewrite Z.add_0_r, app_nil_r. done.
  - inversion Hls as [|? ? Hl Hls']; subst. cbn [grep_lines]. rewrite drop_pre.
    change (unlines (l :: ls)) with ((l ++ [ch_nl]) ++ unlines ls). rewrite <- !app_assoc. cbn [app].
    rewrite (strchr_line l _ Hl).
    set (rest := unlines ls ++ 0 :: t).
    assert (Eq : zlen (pre ++ l ++ ch_nl :: rest) - zlen (ch_nl :: rest) = zlen (pre ++ l)) by (rewrite !zlen_app; lia).
    rewrite Eq, (app_assoc pre l), zset_mid, <- app_assoc, drop_pre.
    destruct (match_run pat r l rest Hpat (proj1 Hl)) as (b & Eb & Hb). rewrite Eb.
    assert (Hsel := selects_matches pat l Hpat (proj1 Hl)).
    assert (Hlen : forall z, zlen (pre ++ l) + 1 = zlen (pre ++ l ++ [z])) by (intros; lens).
    assert (Elen : forall z, zlen (pre ++ l ++ [z]) = zlen pre + zlen (l ++ [z])) by (intros; by rewrite !zlen_app).
    destruct b.
    + rewrite (app_assoc pre l), zset_mid, <- app_assoc. rewrite (Hlen ch_nl).
      replace (pre ++ l ++ ch_nl :: rest) with ((pre ++ l ++ [ch_nl]) ++ rest) by (by rewrite <- !app_assoc).
      destruct (IH fuel (pre ++ l ++ [ch_nl]) (out ++ l ++ [ch_nl]) Hls') as (buf' & E & El); [lia|].
      exists buf'. split; [|rewrite El; unfold rest; lens].
      rewrite filter_cons_True by (apply Hsel, Hb; done). cbn [unlines fmap list_fmap concat].
      replace (slice _ _ _) with (l ++ [ch_nl]); [fold rest in E; rewrite E; f_equal; f_equal; [f_equal; unfold unlines; lens|unfold unlines; by rewrite <- !app_assoc]|].
      unfold slice. rewrite <- !app_assoc, drop_pre. rewrite Elen. replace (Z.to_nat _) with (length (l ++ [ch_nl])) by (unfold zlen; lia).
      change (ch_nl :: rest) with ([ch_nl] ++ rest). by rewrite app_assoc, take_app_length.
    + rewrite (Hlen 0). replace (pre ++ l ++ 0 :: rest) with ((pre ++ l ++ [0]) ++ rest) by (by rewrite <- !app_assoc).
      destruct (IH fuel (pre ++ l ++ [0]) out Hls') as (buf' & E & El); [lia|].
      exists buf'. split; [|rewrite El; unfold rest; lens].
      rewrite filter_cons_False by (rewrite Hsel, <- Hb; done). fold rest in E. rewrite E. do 3 f_equal.
      lens.
Qed.

(** when one read returns the whole input, a sequence of lines of less
    than 1024 bytes, grep prints exactly the lines that match, in order. *)
Theorem grep_one_read pat ls :
  nonul pat -> Forall is_line ls -> zlen (unlines ls) < grep_bufsz ->
  grep (pat ++ [0]) [unlines ls] = Some (unlines (filter (fun l => selects pat l = true) ls)) /\
  forall l, l ∈ ls -> selects pat l = true <-> matches pat l.
Proof.
  intros Hp Hls Hlen. split; [|intros l Hl; apply selects_matches; [done|]; by apply (proj1 (Forall_forall _ _) Hls l Hl)].
  destruct ls as [|l ls]; [done|]. set (ll := l :: ls) in *.
  assert (Hpos : 0 < zlen (unlines ll)) by (cbn; unfold zlen; rewrite length_app, length_app; cbn; lia).
  unfold grep, grep_loop. unfold grep_bufsz in *. cbn [Z.ltb Z.compare]. rewrite Z.sub_0_r, Z.add_0_l, take_ge by (unfold zlen in Hlen; lia).
  rewrite (proj2 (Z.eqb_neq _ 0)) by lia.
  assert (Es : splice 0 (unlines ll) (replicate (Z.to_nat 1024) 0) = unlines ll ++ replicate (1024 - length (unlines ll)) 0).
  { unfold splice. rewrite take_0, drop_replicate. done. }
  rewrite Es. unfold zlen in Hlen. destruct (1024 - length (unlines ll))%nat as [|k] eqn:Ek; [lia|]. cbn [replicate].
  destruct (grep_lines_run (S (length (unlines ll ++ 0 :: replicate k 0))) pat [] ll [] (replicate k 0) [] Hp Hls) as (buf' & E & El).
  { rewrite length_app. assert (Hle : (length ll <= length (unlines ll))%nat); [|cbn [length]; lia].
    clear. unfold unlines. induction ll as [|x ll IH]; cbn; [done|]. rewrite !length_app. cbn. lia. }
  change (zlen []) with 0 in E. cbn [app] in E. rewrite Z.add_0_l in E. rewrite E. rewrite (proj2 (Z.eqb_neq _ 0)) by lia.
  rewrite (proj2 (Z.ltb_lt _ _)) by lia. done.
Qed.

Lemma grep_one_read_witness : grep [97; 0] [[97; 98; 10; 99; 10; 98; 97; 10]] = Some [97; 98; 10; 98; 97; 10].
Proof.
  apply (grep_one_read [97] [[97; 98]; [99]; [98; 97]]); [repeat constructor; done..|done].
Defined.

(** the buffer is searched past the bytes read: after the line [aaaa], the
    read of the line [b] leaves the tail of the first line behind it, and grep
    prints a line [aa] that the input does not contain; the count of kept
    bytes is then negative, and the next read would store before the buffer.  And
    a line that arrives in two reads loses its first part. *)
Theorem grep_stale_buffer :
  grep [97; 0] [[97; 97; 97; 97; 10]; [98; 10]] = Some [97; 97; 97; 97; 10; 97; 97; 10] /\
  grep [97; 0] [[97; 97; 97; 97; 10]; [98; 10]; [98; 10]] = None /\
  grep [97; 0] [[97]; [98; 10]] = Some [].
Proof. vm_compute. done. Qed.
