(* ===== verification/ShPrint.v ===== *)
(** * Printing and parsing shell commands

    A printer for the shell's commands, and the proof that the parser of sh.c
    reads back what it prints: the grammar is unambiguous on printed commands,
    and the strings that nulterminate cuts out of the buffer are the words. *)

From S2P Require Import Prelude.
From S2P Require Import CString.
From S2P Require Import Sh.

(** ** The printer

    The levels of the grammar: a line (0), a command with its [&] (1), a
    pipeline (2), a command or block with its redirections (3).  A construct
    below the level it is used at is put in parentheses. *)
Definition print_word (w : list Z) : list Z := w ++ [32].
Definition print_args (argv : list (list Z)) : list Z := concat (print_word <$> argv).
Definition print_redir (f : list Z) (fd : Z) : list Z := (if fd =? 0 then 60 else 62) :: print_word f.
Definition paren (b : bool) (s : list Z) : list Z := if b then 40 :: s ++ [41] else s.

Fixpoint print_cmd (lvl : nat) (c : cmd (list Z)) : list Z :=
  match c with
  | EXEC argv => print_args argv
  | REDIR c f _ fd => print_cmd 3 c ++ print_redir f fd
  | PIPE l r => paren (bool_decide (2 < lvl)%nat) (print_cmd 3 l ++ 124 :: print_cmd 2 r)
  | BACK c => paren (bool_decide (1 < lvl)%nat) (print_cmd 1 c ++ [38])
  | LIST l r => paren (bool_decide (0 < lvl)%nat) (print_cmd 1 l ++ 59 :: print_cmd 0 r)
  end.

(** A word: characters that are not NUL, white space or symbols. *)
Definition word_char (x : Z) : Prop := x <> 0 /\ is_ws x = false /\ is_sym x = false.
Definition word (w : list Z) : Prop := w <> [] /\ Forall word_char w.

Fixpoint cmd_ok (c : cmd (list Z)) : Prop :=
  match c with
  | EXEC argv => Forall word argv /\ zlen argv < MAXARGS
  | REDIR c f m fd => cmd_ok c /\ word f /\ (m = O_RDONLY /\ fd = 0 \/ m = Z.lor O_WRONLY O_CREATE /\ fd = 1)
  | PIPE l r => cmd_ok l /\ cmd_ok r
  | LIST l r => cmd_ok l /\ cmd_ok r
  | BACK c => cmd_ok c
  end.

(** ** Tokens *)

(** The token is the word: it stands there in the line, and the byte after it
    is not part of a word. *)
Definition tok_is (line : list Z) (t : tok) (w : list Z) : Prop :=
  exists pre post, line = pre ++ w ++ post /\ t.1 = zlen pre /\ t.2 = zlen pre + zlen w /\ word w /\
    (forall x, head post = Some x -> ~ word_char x).

Fixpoint cmd_is (line : list Z) (c : cmd tok) (d : cmd (list Z)) : Prop :=
  match c, d with
  | EXEC a, EXEC b => Forall2 (tok_is line) a b
  | REDIR c f m fd, REDIR d f' m' fd' => cmd_is line c d /\ tok_is line f f' /\ m = m' /\ fd = fd'
  | PIPE l r, PIPE l' r' => cmd_is line l l' /\ cmd_is line r r'
  | LIST l r, LIST l' r' => cmd_is line l l' /\ cmd_is line r r'
  | BACK c, BACK d => cmd_is line c d
  | _, _ => False
  end.

(** A rest that starts with one of the given symbols, or is empty. *)
Definition follows (fs : list Z) (s : list Z) : Prop := s = [] \/ exists x t, s = x :: t /\ x ∈ fs.

Lemma ws_sym x : is_sym x = true -> is_ws x = false.
Proof.
  unfold is_sym, is_ws, symbols, whitespace. rewrite bool_decide_eq_true, bool_decide_eq_false, !elem_of_cons, !elem_of_nil. lia.
Qed.

Lemma skip_ws_cons x t : is_ws x = false -> skip_ws (x :: t) = x :: t.
Proof. intros E. cbn. by rewrite E. Qed.

Lemma skip_follows fs s : Forall (fun x => is_sym x = true) fs -> follows fs s -> skip_ws s = s.
Proof.
  intros Hfs [->|(x & t & -> & Hx)]; [done|]. apply skip_ws_cons, ws_sym. rewrite Forall_forall in Hfs. by apply Hfs.
Qed.

Lemma skip_word_app w x s : Forall word_char w -> is_ws x = true -> skip_word (w ++ x :: s) = x :: s.
Proof.
  intros Hw Hx. induction Hw as [|y w (H0 & Hy & Hs) Hw IH]; cbn [app skip_word]; [by rewrite Hx|].
  by rewrite Hy, Hs.
Qed.

Ltac lens := unfold zlen; repeat (progress (rewrite ?length_app; cbn [length])); lia.

(** gettoken at a printed word. *)
Lemma gettoken_word pre w s :
  let line := pre ++ print_word w ++ s in
  word w -> exists t, gettoken (zlen line) (print_word w ++ s) = Ret (97, t.1, t.2) (skip_ws s) /\ tok_is line t w.
Proof.
  intros line [Hne Hw]. destruct w as [|c w]; [done|]. inversion Hw as [|? ? (H0 & Hws & Hsym) Hw']; subst.
  exists (zlen pre, zlen pre + zlen (c :: w)). unfold print_word. unfold gettoken. rewrite <- app_assoc. cbn [app].
  rewrite skip_ws_cons by done. cbn [at_s]. rewrite (proj2 (Z.eqb_neq _ _) H0).
  assert (Hs : forall k, k ∈ symbols -> (c =? k) = false).
  { intros k Hk. apply Z.eqb_neq. intros ->. unfold is_sym in Hsym. by apply bool_decide_eq_false in Hsym. }
  rewrite !Hs by (unfold symbols; set_solver). cbn [orb].
  change (c :: w ++ 32 :: s) with ((c :: w) ++ 32 :: s). rewrite skip_word_app by done. cbn [skip_ws].
  assert (is_ws 32 = true) as -> by done. split.
  - unfold pos. cbn [fst snd].
    replace (zlen line - zlen ((c :: w) ++ 32 :: s)) with (zlen pre) by (subst line; unfold print_word; lens).
    replace (zlen line - zlen (32 :: s)) with (zlen pre + zlen (c :: w)) by (subst line; unfold print_word; lens). done.
  - exists pre, (32 :: s). cbn [fst snd]. subst line. unfold print_word. rewrite <- !app_assoc. split_and!; try done.
    intros x [= <-] (_ & H & _). done.
Qed.

(** gettoken at a symbol. *)
Lemma gettoken_sym n x s :
  x ∈ [124; 40; 41; 59; 38; 60] -> gettoken n (x :: s) = Ret (x, n - zlen (x :: s), n - zlen s) (skip_ws s).
Proof.
  intros Hx. unfold gettoken. rewrite !elem_of_cons, elem_of_nil in Hx.
  rewrite skip_ws_cons by (apply ws_sym; unfold is_sym; apply bool_decide_eq_true; unfold symbols; rewrite !elem_of_cons, elem_of_nil; lia).
  cbn [at_s tail]. rewrite (proj2 (Z.eqb_neq x 0)) by lia.
  replace ((x =? 124) || (x =? 40) || (x =? 41) || (x =? 59) || (x =? 38) || (x =? 60)) with true by lia. done.
Qed.

Lemma gettoken_gt n s : at_s s <> 62 -> gettoken n (62 :: s) = Ret (62, n - zlen (62 :: s), n - zlen s) (skip_ws s).
Proof.
  intros Hs. unfold gettoken. rewrite skip_ws_cons by done. change (at_s (62 :: s)) with 62. cbn [tail Z.eqb Pos.eqb orb].
  by rewrite (proj2 (Z.eqb_neq _ _) Hs).
Qed.

Lemma peek_true toks x s : is_ws x = false -> x <> 0 -> x ∈ toks -> peek toks (x :: s) = Ret true (x :: s).
Proof.
  intros Hx H0 Ht. unfold peek. rewrite skip_ws_cons by done. cbn [at_s]. rewrite (proj2 (Z.eqb_neq _ _) H0), bool_decide_true by done. done.
Qed.

Lemma peek_false toks s : skip_ws s = s -> (forall x t, s = x :: t -> x ∉ toks) -> peek toks s = Ret false s.
Proof.
  intros Hs Ht. unfold peek. rewrite Hs. destruct s as [|x s]; [done|]. cbn [at_s]. rewrite (bool_decide_false (x ∈ toks)) by (by apply (Ht x s)).
  by rewrite andb_false_r.
Qed.

(** ** Redirections and arguments *)

Definition redir_mode (fd : Z) : Z := if fd =? 0 then O_RDONLY else Z.lor O_WRONLY O_CREATE.
Definition wrap_redirs (c : cmd (list Z)) (rs : list (list Z * Z)) : cmd (list Z) :=
  foldl (fun c r => REDIR c r.1 (redir_mode r.2) r.2) c rs.
Definition print_redirs (rs : list (list Z * Z)) : list Z := concat ((fun r => print_redir r.1 r.2) <$> rs).
Definition redir_ok (r : list Z * Z) : Prop := word r.1 /\ (r.2 = 0 \/ r.2 = 1).

(** The state of the parser is kept without leading white space; a rest that
    does not start a redirection. *)
Definition no_redir (s : list Z) : Prop := skip_ws s = s /\ forall x t, s = x :: t -> x <> 60 /\ x <> 62.

Lemma word_head w s : word w -> exists x t, print_word w ++ s = x :: t /\ word_char x.
Proof. intros [Hne Hw]. destruct w as [|x w]; [done|]. inversion Hw; subst. by exists x, ((w ++ [32]) ++ s). Qed.

Lemma word_skip w s : word w -> skip_ws (print_word w ++ s) = print_word w ++ s.
Proof. intros Hw. destruct (word_head w s Hw) as (x & t & -> & (_ & Hx & _)). by apply skip_ws_cons. Qed.

Lemma word_not_sym x y : word_char x -> y ∈ symbols -> x <> y.
Proof. intros (_ & _ & Hx) Hy ->. apply bool_decide_eq_false in Hx. done. Qed.

Lemma redirs_skip rs rest : Forall redir_ok rs -> skip_ws rest = rest -> skip_ws (print_redirs rs ++ rest) = print_redirs rs ++ rest.
Proof.
  intros Hrs Hr. destruct rs as [|[f fd] rs]; [done|]. cbn. by destruct (fd =? 0).
Qed.

Lemma parseredirs_run fuel c d rs pre rest :
  let line := pre ++ print_redirs rs ++ rest in
  Forall redir_ok rs -> no_redir rest -> (length (print_redirs rs ++ rest) < fuel)%nat -> cmd_is line c d ->
  exists c', parseredirs (zlen line) fuel c (print_redirs rs ++ rest) = Ret c' rest /\ cmd_is line c' (wrap_redirs d rs).
Proof.
  intros line Hrs. subst line. revert fuel c d pre. induction Hrs as [|[f fd] rs [Hf Hfd] Hrs IH]; intros fuel c d pre [Hsk Hno] Hfuel Hcd.
  - destruct fuel as [|fuel]; [lia|]. cbn [print_redirs fmap list_fmap concat app] in *. cbn [parseredirs]. exists c. split; [|done].
    run (peek_false [60; 62] rest Hsk ltac:(intros x t E; destruct (Hno x t E); set_solver)). done.
  - destruct fuel as [|fuel]; [lia|]. cbn [fst snd] in *. set (sym := if fd =? 0 then 60 else 62).
    set (s1 := print_redirs rs ++ rest).
    assert (Es : print_redirs ((f, fd) :: rs) ++ rest = sym :: print_word f ++ s1).
    { unfold print_redirs. cbn [fmap list_fmap concat fst snd]. unfold print_redir. fold sym. cbn [app]. by rewrite <- app_assoc. }
    rewrite Es in *. cbn [parseredirs].
    run (peek_true [60; 62] sym (print_word f ++ s1) ltac:(by unfold sym; destruct (fd =? 0)) ltac:(by unfold sym; destruct (fd =? 0)) ltac:(unfold sym; destruct (fd =? 0); set_solver)).
    cbn [negb].
    assert (Egt : exists a b, gettoken (zlen (pre ++ sym :: print_word f ++ s1)) (sym :: print_word f ++ s1) = Ret (sym, a, b) (skip_ws (print_word f ++ s1))).
    { unfold sym. destruct (fd =? 0); eexists _, _; [apply gettoken_sym; set_solver|].
      apply gettoken_gt. destruct (word_head f s1 Hf) as (x & t & -> & Hx). cbn. apply word_not_sym; [done|set_solver]. }
    destruct Egt as (a & b & Egt). rewrite word_skip in Egt by done. run Egt. cbv iota beta.
    destruct (gettoken_word (pre ++ [sym]) f s1 Hf) as (t & Et & Ht).
    replace ((pre ++ [sym]) ++ print_word f ++ s1) with (pre ++ sym :: print_word f ++ s1) in * by (by rewrite <- app_assoc).
    run Et. cbv iota beta. cbn [Z.eqb Pos.eqb negb]. unfold s1 at 2. rewrite redirs_skip by done.
    set (c1 := if sym =? 60 then _ else _).
    assert (Hc1 : c1 = REDIR c t (redir_mode fd) fd).
    { unfold c1, sym, redir_mode. destruct t as [q eq]. cbn [fst snd]. destruct Hfd as [-> | ->]; done. }
    rewrite Hc1. destruct (IH fuel (REDIR c t (redir_mode fd) fd) (REDIR d f (redir_mode fd) fd) (pre ++ sym :: print_word f)) as (c' & Ec & Hc').
    + done.
    + fold s1. cbn [length] in Hfuel. rewrite length_app in Hfuel. lia.
    + fold s1. replace ((pre ++ sym :: print_word f) ++ s1) with (pre ++ sym :: print_word f ++ s1) by (by rewrite <- app_assoc). done.
    + fold s1 in Ec, Hc'. replace ((pre ++ sym :: print_word f) ++ s1) with (pre ++ sym :: print_word f ++ s1) in Ec, Hc' by (by rewrite <- app_assoc).
      exists c'. split; [exact Ec|done].
Qed.

(** The rest after a command: the end, or a symbol that ends it. *)
Local Abbreviation ends := (follows [124; 41; 38; 59]).

Lemma ends_no_redir rest : ends rest -> no_redir rest.
Proof.
  intros Hr. split; [eapply skip_follows; [|done]; repeat constructor; done|]. intros x t ->. destruct Hr as [|(y & t' & [= <- <-] & Hx)]; [done|].
  rewrite !elem_of_cons, elem_of_nil in Hx. lia.
Qed.

Lemma parse_args_stop n fuel argc c rest : ends rest -> (0 < fuel)%nat -> parse_args n fuel argc c rest = Ret c rest.
Proof.
  intros Hr Hf. destruct fuel as [|fuel]; [lia|]. cbn [parse_args]. destruct Hr as [->|(x & t & -> & Hx)].
  - done.
  - assert (x <> 0 /\ is_ws x = false).
    { rewrite !elem_of_cons, elem_of_nil in Hx. destruct Hx as [->|[->|[->|[->|[]]]]]; done. }
    run (peek_true [124; 41; 38; 59] x t ltac:(naive_solver) ltac:(naive_solver) Hx). done.
Qed.

Lemma args_skip ws s : Forall word ws -> ws <> [] -> exists x t, print_args ws ++ s = x :: t /\ word_char x /\ skip_ws (print_args ws ++ s) = print_args ws ++ s.
Proof.
  intros Hws Hne. destruct ws as [|w ws]; [done|]. inversion Hws as [|? ? Hw Hws']; subst.
  unfold print_args. cbn [fmap list_fmap concat]. rewrite <- app_assoc. destruct (word_head w (concat (print_word <$> ws) ++ s) Hw) as (x & t & E & Hx).
  exists x, t. split_and!; auto. by apply word_skip.
Qed.

Lemma cmd_is_snoc line ts ws t w : cmd_is line (EXEC ts) (EXEC ws) -> tok_is line t w -> cmd_is line (EXEC (ts ++ [t])) (EXEC (ws ++ [w])).
Proof. cbn. intros H1 H2. apply Forall2_app; [done|]. by constructor. Qed.

Lemma parse_args_run fuel argc ts ds ws rs pre rest :
  let line := pre ++ print_args ws ++ print_redirs rs ++ rest in
  Forall word ws -> ws <> [] -> argc + zlen ws < MAXARGS -> Forall redir_ok rs -> ends rest ->
  (length (print_args ws ++ print_redirs rs ++ rest) < fuel)%nat -> cmd_is line (EXEC ts) (EXEC ds) ->
  exists c', parse_args (zlen line) fuel argc (EXEC ts) (print_args ws ++ print_redirs rs ++ rest) = Ret c' rest /\
    cmd_is line c' (wrap_redirs (EXEC (ds ++ ws)) rs).
Proof.
  intros line Hws Hne Hmax Hrs Hrest. subst line. revert fuel argc ts ds pre Hmax. induction Hws as [|w ws Hw Hws IH]; intros fuel argc ts ds pre Hmax Hfuel Hc; [done|].
  destruct fuel as [|fuel]; [lia|]. cbn [parse_args].
  set (s1 := print_args ws ++ print_redirs rs ++ rest).
  assert (Es : print_args (w :: ws) ++ print_redirs rs ++ rest = print_word w ++ s1).
  { unfold print_args. cbn [fmap list_fmap concat]. by rewrite <- app_assoc. }
  rewrite Es in *.
  run (peek_false [124; 41; 38; 59] (print_word w ++ s1) (word_skip w s1 Hw)
    ltac:(intros x t E; destruct (word_head w s1 Hw) as (y & t' & E' & Hy); rewrite E in E'; injection E' as <- <-;
          intros Hin; apply (word_not_sym x x Hy); [rewrite !elem_of_cons, elem_of_nil in Hin; unfold symbols; destruct Hin as [->|[->|[->|[->|[]]]]]; set_solver|done])).
  destruct (gettoken_word pre w s1 Hw) as (t & Et & Ht). run Et. cbv iota beta. cbn [Z.eqb Pos.eqb negb]. cbv zeta.
  unfold MAXARGS in *. assert (Hz : zlen (w :: ws) = 1 + zlen ws) by (unfold zlen; cbn [length]; lia).
  assert (H0 := zlen_nonneg ws). replace (argc + 1 >=? 10) with false by lia.
  cbn [add_arg]. replace (t.1, t.2) with t by (by destruct t).
  assert (Hc1 := cmd_is_snoc _ _ _ _ _ Hc Ht).
  assert (Hlen : (length s1 < fuel)%nat) by (rewrite length_app in Hfuel; destruct Hw as [Hw _]; unfold print_word in Hfuel; rewrite length_app in Hfuel; cbn in Hfuel; lia).
  assert (Epre : (pre ++ print_word w) ++ s1 = pre ++ print_word w ++ s1) by (by rewrite app_assoc).
  destruct (decide (ws = [])) as [->|Hne'].
  - unfold s1 in *. cbn [print_args fmap list_fmap concat app] in *. rewrite redirs_skip by (try done; apply ends_no_redir; done).
    destruct (parseredirs_run fuel (EXEC (ts ++ [t])) (EXEC (ds ++ [w])) rs (pre ++ print_word w) rest) as (c' & Er & Hc'); auto; [by apply ends_no_redir|by rewrite Epre|].
    rewrite Epre in Er, Hc'. run Er. rewrite parse_args_stop by (done || lia). exists c'. done.
  - destruct (args_skip ws (print_redirs rs ++ rest) Hws Hne') as (x & t' & Ex & Hx & Hsk). fold s1 in Ex, Hsk. rewrite Hsk.
    assert (Hnr : no_redir s1).
    { split; [done|]. intros y t2 E. rewrite Ex in E. injection E as <- <-. split; apply word_not_sym; try done; unfold symbols; set_solver. }
    destruct (parseredirs_run fuel (EXEC (ts ++ [t])) (EXEC (ds ++ [w])) [] (pre ++ print_word w) s1) as (c' & Er & Hc'); auto; [cbn [print_redirs fmap list_fmap concat app]; by rewrite Epre|].
    cbn [print_redirs fmap list_fmap concat app wrap_redirs foldl] in Er, Hc'. rewrite Epre in Er, Hc'. run Er.
    destruct c' as [ts'| | | |]; cbn in Hc'; try done.
    destruct (IH Hne' fuel (argc + 1) ts' (ds ++ [w]) (pre ++ print_word w)) as (c2 & E2 & Hc2); [unfold MAXARGS; lia|done|fold s1; by rewrite Epre|].
    fold s1 in E2, Hc2. rewrite Epre in E2, Hc2. exists c2. split; [exact E2|]. by rewrite <- app_assoc in Hc2.
Qed.

(** ** The levels of the grammar *)

Lemma print_skip l c rest : cmd_ok c -> skip_ws rest = rest -> skip_ws (print_cmd l c ++ rest) = print_cmd l c ++ rest.
Proof.
  assert (Hp : forall b s rest, skip_ws (s ++ rest) = s ++ rest -> skip_ws (s ++ 41 :: rest) = s ++ 41 :: rest ->
    skip_ws (paren b s ++ rest) = paren b s ++ rest) by (intros [] s r H1 H2; done).
  revert l rest. induction c as [argv|c IH f m fd|a IHa b IHb|a IHa b IHb|c IH]; intros l rest; cbn [print_cmd cmd_ok].
  - intros [Hw _] Hr. destruct (decide (argv = [])) as [->|Hne]; [done|]. by destruct (args_skip argv rest Hw Hne) as (x & t & _ & _ & H).
  - intros (Hc & Hf & _) Hr. rewrite <- app_assoc. apply IH; [done|]. unfold print_redir. by destruct (fd =? 0).
  - intros [Ha Hb] Hr. apply Hp; rewrite <- app_assoc; apply IHa; done.
  - intros [Ha Hb] Hr. apply Hp; rewrite <- app_assoc; apply IHa; done.
  - intros Hc Hr. apply Hp; rewrite <- app_assoc; apply IH; done.
Qed.

Lemma print_wrap c rs : print_cmd 3 (wrap_redirs c rs) = print_cmd 3 c ++ print_redirs rs.
Proof.
  unfold wrap_redirs, print_redirs. revert c. induction rs as [|r rs IH]; intros c; [by rewrite app_nil_r|]. cbn [foldl]. rewrite IH.
  cbn [print_cmd fmap list_fmap concat]. by rewrite <- app_assoc.
Qed.

Section Levels.
Local Abbreviation len := (@length Z).

Definition line_ok (c : cmd (list Z)) : Prop := forall pre rest fuel, follows [41] rest ->
  (4 * len (print_cmd 0 c ++ rest) + 4 <= fuel)%nat -> let line := pre ++ print_cmd 0 c ++ rest in
  exists c', parseline (zlen line) fuel (print_cmd 0 c ++ rest) = Ret c' rest /\ cmd_is line c' c.
Definition pipe_ok (c : cmd (list Z)) : Prop := forall pre rest fuel, follows [41; 38; 59] rest ->
  (4 * len (print_cmd 2 c ++ rest) + 3 <= fuel)%nat -> let line := pre ++ print_cmd 2 c ++ rest in
  exists c', parsepipe (zlen line) fuel (print_cmd 2 c ++ rest) = Ret c' rest /\ cmd_is line c' c.
Definition exec_ok (c : cmd (list Z)) : Prop := forall pre rest fuel, ends rest ->
  (4 * len (print_cmd 3 c ++ rest) + 2 <= fuel)%nat -> let line := pre ++ print_cmd 3 c ++ rest in
  exists c', parseexec (zlen line) fuel (print_cmd 3 c ++ rest) = Ret c' rest /\ cmd_is line c' c.

Lemma follows_mono fs fs' s : fs ⊆ fs' -> follows fs s -> follows fs' s.
Proof. intros Hs [->|(x & t & -> & Hx)]; [by left|]. right. exists x, t. auto. Qed.

Lemma peek_follows toks fs s : Forall (fun x => is_sym x = true) fs -> (forall x, x ∈ fs -> x ∉ toks) -> follows fs s -> peek toks s = Ret false s.
Proof.
  intros Hs Hd Hf. apply peek_false; [by eapply skip_follows|]. intros x t ->. destruct Hf as [|(y & t' & [= <- <-] & Hx)]; auto. done.
Qed.

Lemma exec_words ws rs : Forall word ws -> zlen ws < MAXARGS -> Forall redir_ok rs -> exec_ok (wrap_redirs (EXEC ws) rs).
Proof.
  intros Hws Hmax Hrs pre rest fuel Hrest Hfuel line. subst line. rewrite print_wrap in *. cbn [print_cmd] in *.
  destruct fuel as [|fuel]; [lia|]. cbn [parseexec]. rewrite <- !app_assoc in *. set (s := print_args ws ++ print_redirs rs ++ rest) in *.
  assert (Hpk : peek [40] s = Ret false s).
  { destruct (decide (ws = [])) as [->|Hne].
    - unfold s. cbn. destruct rs as [|[f fd] rs]; [|cbn; by destruct (fd =? 0)]. cbn.
      eapply peek_follows; [|intros x Hx|done]; [repeat constructor; done|]. rewrite !elem_of_cons, elem_of_nil in Hx. rewrite !elem_of_cons, elem_of_nil. lia.
    - destruct (args_skip ws (print_redirs rs ++ rest) Hws Hne) as (x & t & Ex & Hx & Hsk). fold s in Ex, Hsk. apply peek_false; [done|].
      intros y t' E. rewrite Ex in E. injection E as <- <-. rewrite !elem_of_cons, elem_of_nil. intros [->|[]]. apply (word_not_sym 40 40 Hx); [unfold symbols; set_solver|done]. }
  run Hpk. destruct (decide (ws = [])) as [->|Hne].
  - unfold s in *. cbn [print_args fmap list_fmap concat app] in *.
    destruct (parseredirs_run fuel (EXEC []) (EXEC []) rs pre rest) as (c' & E & Hc'); auto; [by apply ends_no_redir|lia|by cbn|].
    run E. rewrite parse_args_stop by (done || lia). by exists c'.
  - destruct (args_skip ws (print_redirs rs ++ rest) Hws Hne) as (x & t & Ex & Hx & Hsk). fold s in Ex, Hsk.
    destruct (parseredirs_run fuel (EXEC []) (EXEC []) [] pre s) as (c' & E & Hc'); auto; [|cbn [print_redirs fmap list_fmap concat app]; lia|by cbn|].
    { split; [done|]. intros y t2 E. rewrite Ex in E. injection E as <- <-. split; apply word_not_sym; try done; unfold symbols; set_solver. }
    cbn [print_redirs fmap list_fmap concat app wrap_redirs foldl] in E, Hc'. run E. destruct c' as [ts'| | | |]; cbn in Hc'; try done.
    apply Forall2_nil_inv_r in Hc' as ->. destruct (parse_args_run fuel 0 [] [] ws rs pre rest) as (c2 & E2 & Hc2); auto; [fold s; lia|by cbn|].
    exists c2. done.
Qed.

Lemma exec_block c rs :
  print_cmd 3 c = 40 :: print_cmd 0 c ++ [41] -> cmd_ok c -> line_ok c -> Forall redir_ok rs -> exec_ok (wrap_redirs c rs).
Proof.
  intros Hp Hok Hl Hrs pre rest fuel Hrest Hfuel line. subst line. rewrite print_wrap, Hp in *.
  set (s2 := print_redirs rs ++ rest) in *.
  assert (Es : ((40 :: print_cmd 0 c ++ [41]) ++ print_redirs rs) ++ rest = 40 :: print_cmd 0 c ++ 41 :: s2).
  { unfold s2. cbn. by rewrite <- !app_assoc. }
  rewrite Es in *. assert (Hlen : (4 * len (print_cmd 0 c ++ 41%Z :: s2) + 4 + 2 <= fuel)%nat) by (cbn [length] in Hfuel; lia).
  destruct fuel as [|[|fuel]]; [lia..|]. cbn [parseexec].
  assert (Hpk : peek [40] (40 :: print_cmd 0 c ++ 41 :: s2) = Ret true (40 :: print_cmd 0 c ++ 41 :: s2)) by (apply peek_true; [done..|set_solver]).
  run Hpk. cbn [parseblock]. run Hpk. cbn [negb].
  assert (Hg := gettoken_sym (zlen (pre ++ 40 :: print_cmd 0 c ++ 41 :: s2)) 40 (print_cmd 0 c ++ 41 :: s2) ltac:(set_solver)).
  rewrite print_skip in Hg by done. run Hg.
  destruct (Hl (pre ++ [40]) (41 :: s2) fuel) as (c' & E & Hc'); [right; exists 41, s2; split; [done|set_solver]|lia|].
  replace ((pre ++ [40]) ++ print_cmd 0 c ++ 41 :: s2) with (pre ++ 40 :: print_cmd 0 c ++ 41 :: s2) in * by (by rewrite <- app_assoc).
  run E. run (peek_true [41] 41 s2 eq_refl ltac:(done) ltac:(set_solver)). cbn [negb].
  assert (Hg2 := gettoken_sym (zlen (pre ++ 40 :: print_cmd 0 c ++ 41 :: s2)) 41 s2 ltac:(set_solver)).
  assert (Hsk2 : skip_ws s2 = s2) by (apply redirs_skip; [done|by apply ends_no_redir]). rewrite Hsk2 in Hg2. run Hg2.
  assert (Epre : pre ++ 40 :: print_cmd 0 c ++ 41 :: s2 = (pre ++ 40 :: print_cmd 0 c ++ [41]) ++ s2) by (cbn; rewrite <- !app_assoc; cbn; by rewrite <- app_assoc).
  rewrite Epre in *. apply parseredirs_run; auto; [by apply ends_no_redir|]. fold s2. rewrite length_app in Hlen. cbn [length] in Hlen. lia.
Qed.

Lemma pipe_of_exec c : print_cmd 2 c = print_cmd 3 c -> exec_ok c -> pipe_ok c.
Proof.
  intros Hp He pre rest fuel Hrest Hfuel line. subst line. rewrite Hp in *. destruct fuel as [|fuel]; [lia|]. cbn [parsepipe].
  destruct (He pre rest fuel) as (c' & E & Hc'); [eapply follows_mono; [|done]; set_solver|lia|]. run E.
  run (peek_follows [124] [41; 38; 59] rest ltac:(repeat constructor; done) ltac:(intros x; rewrite !elem_of_cons, !elem_of_nil; lia) Hrest). by exists c'.
Qed.

Lemma pipe_of_pipe l r : cmd_ok r -> exec_ok l -> pipe_ok r -> pipe_ok (PIPE l r).
Proof.
  intros Hr Hel Hpr pre rest fuel Hrest Hfuel line. subst line. assert (Hsk : skip_ws rest = rest) by (eapply skip_follows; [|done]; repeat constructor; done).
  change (print_cmd 2 (PIPE l r)) with (print_cmd 3 l ++ 124 :: print_cmd 2 r) in *. rewrite <- !app_assoc in *. cbn [app] in *.
  set (s2 := print_cmd 2 r ++ rest) in *. rewrite length_app in Hfuel. cbn [length] in Hfuel. destruct fuel as [|fuel]; [lia|]. cbn [parsepipe].
  destruct (Hel pre (124 :: s2) fuel) as (l' & E & Hl'); [right; exists 124, s2; split; [done|set_solver]|rewrite length_app; cbn [length]; lia|]. run E.
  run (peek_true [124] 124 s2 eq_refl ltac:(done) ltac:(set_solver)).
  assert (Hg := gettoken_sym (zlen (pre ++ print_cmd 3 l ++ 124 :: s2)) 124 s2 ltac:(set_solver)).
  assert (Hsk2 : skip_ws s2 = s2) by (by apply print_skip). rewrite Hsk2 in Hg. run Hg.
  assert (Epre : pre ++ print_cmd 3 l ++ 124 :: s2 = (pre ++ print_cmd 3 l ++ [124]) ++ s2) by (by rewrite <- !app_assoc).
  rewrite Epre in *. destruct (Hpr (pre ++ print_cmd 3 l ++ [124]) rest fuel) as (r' & E2 & Hr'); [done|fold s2; lia|]. fold s2 in E2, Hr'. run E2.
  by exists (PIPE l' r').
Qed.

(** A command with its ampersands. *)
Definition backs {W} (k : nat) (c : cmd W) : cmd W := Nat.iter k BACK c.

Lemma backs_swap {W} k (c : cmd W) : BACK (backs k c) = backs k (BACK c).
Proof. symmetry. apply Nat.iter_swap. Qed.

Lemma print_backs k c : print_cmd 1 (backs k c) = print_cmd 1 c ++ replicate k 38.
Proof.
  induction k as [|k IH]; [by rewrite app_nil_r|]. change (backs (S k) c) with (BACK (backs k c)).
  change (print_cmd 1 (BACK (backs k c))) with (print_cmd 1 (backs k c) ++ [38]). rewrite IH, <- app_assoc. by rewrite replicate_S_end.
Qed.

Lemma parse_back_run line k fuel c d rest :
  follows [41; 59] rest -> (len (replicate k 38%Z ++ rest) < fuel)%nat -> cmd_is line c d ->
  exists c', parse_back (zlen line) fuel c (replicate k 38 ++ rest) = Ret c' rest /\ cmd_is line c' (backs k d).
Proof.
  intros Hrest. revert fuel c d. induction k as [|k IH]; intros [|fuel] c d Hf Hc; cbn [replicate app] in *; try lia; cbn [parse_back].
  - run (peek_follows [38] [41; 59] rest ltac:(repeat constructor; done) ltac:(intros x; rewrite !elem_of_cons, !elem_of_nil; lia) Hrest). by exists c.
  - run (peek_true [38] 38 (replicate k 38 ++ rest) eq_refl ltac:(done) ltac:(set_solver)). cbn [negb].
    assert (Hg := gettoken_sym (zlen line) 38 (replicate k 38 ++ rest) ltac:(set_solver)).
    assert (Hsk : skip_ws (replicate k 38 ++ rest) = replicate k 38 ++ rest).
    { destruct k; [|done]. eapply skip_follows; [|done]. repeat constructor; done. }
    rewrite Hsk in Hg. run Hg. cbn [length] in Hf. destruct (IH fuel (BACK c) (BACK d)) as (c' & E & Hc'); [lia|done|].
    exists c'. split; [exact E|]. change (backs (S k) d) with (BACK (backs k d)). by rewrite backs_swap.
Qed.

Lemma line_head k c pre rest fuel :
  print_cmd 1 c = print_cmd 2 c -> pipe_ok c -> follows [41; 59] rest ->
  (4 * len (print_cmd 1 (backs k c) ++ rest) + 3 <= fuel)%nat ->
  let line := pre ++ print_cmd 1 (backs k c) ++ rest in
  exists c', (let! c := parsepipe (zlen line) fuel in parse_back (zlen line) fuel c) (print_cmd 1 (backs k c) ++ rest) = Ret c' rest /\
    cmd_is line c' (backs k c).
Proof.
  intros Hp Hc Hrest Hf line. subst line. rewrite print_backs, Hp in *. rewrite <- !app_assoc in *. set (s2 := replicate k 38 ++ rest) in *.
  destruct (Hc pre s2 fuel) as (c' & E & Hc'); [|lia|].
  { unfold s2. destruct k; cbn; [eapply follows_mono; [|done]; set_solver|]. right. eexists _, _. split; [done|]. set_solver. }
  run E. apply parse_back_run; [done| |done]. fold s2. rewrite length_app in Hf. lia.
Qed.

Lemma line_of_pipe k c : print_cmd 1 c = print_cmd 2 c -> print_cmd 0 (backs k c) = print_cmd 1 (backs k c) -> pipe_ok c -> line_ok (backs k c).
Proof.
  intros Hp Hp0 Hc pre rest fuel Hrest Hfuel line. subst line. rewrite Hp0 in *. destruct fuel as [|fuel]; [lia|]. cbn [parseline].
  destruct (line_head k c pre rest fuel Hp Hc) as (c' & E & Hc'); [eapply follows_mono; [|done]; set_solver|lia|].
  apply bind_Ret_inv in E as (c1 & s1 & E1 & E2). run E1. run E2.
  run (peek_follows [59] [41] rest ltac:(repeat constructor; done) ltac:(intros x; rewrite !elem_of_cons, !elem_of_nil; lia) Hrest). by exists c'.
Qed.

Lemma line_of_list k l r :
  print_cmd 1 l = print_cmd 2 l -> pipe_ok l -> cmd_ok r -> line_ok r -> line_ok (LIST (backs k l) r).
Proof.
  intros Hp Hl Hok Hr pre rest fuel Hrest Hfuel line. subst line. assert (Hsk : skip_ws rest = rest) by (eapply skip_follows; [|done]; repeat constructor; done).
  change (print_cmd 0 (LIST (backs k l) r)) with (print_cmd 1 (backs k l) ++ 59 :: print_cmd 0 r) in *. rewrite <- !app_assoc in *. cbn [app] in *.
  set (s2 := print_cmd 0 r ++ rest) in *. destruct fuel as [|fuel]; [lia|]. cbn [parseline].
  destruct (line_head k l pre (59 :: s2) fuel Hp Hl) as (l' & E & Hl'); [right; eexists _, _; split; [done|set_solver]|lia|].
  apply bind_Ret_inv in E as (c1 & s1 & E1 & E2). run E1. run E2.
  run (peek_true [59] 59 s2 eq_refl ltac:(done) ltac:(set_solver)).
  assert (Hg := gettoken_sym (zlen (pre ++ print_cmd 1 (backs k l) ++ 59 :: s2)) 59 s2 ltac:(set_solver)).
  assert (Hsk2 : skip_ws s2 = s2) by (by apply print_skip). rewrite Hsk2 in Hg. run Hg.
  assert (Epre : pre ++ print_cmd 1 (backs k l) ++ 59 :: s2 = (pre ++ print_cmd 1 (backs k l) ++ [59]) ++ s2) by (by rewrite <- !app_assoc).
  rewrite Epre in *. rewrite length_app in Hfuel. cbn [length] in Hfuel.
  destruct (Hr (pre ++ print_cmd 1 (backs k l) ++ [59]) rest fuel) as (r' & E3 & Hr'); [done|fold s2; lia|]. fold s2 in E3, Hr'. run E3.
  by exists (LIST l' r').
Qed.
End Levels.

(** ** Every printed command is read back *)

Fixpoint size {W} (c : cmd W) : nat :=
  match c with
  | EXEC _ => 1
  | REDIR c _ _ _ => S (size c)
  | PIPE l r => S (size l + size r)
  | LIST l r => S (size l + size r)
  | BACK c => S (size c)
  end.

Definition is_redir {W} (c : cmd W) : bool := match c with REDIR _ _ _ _ => true | _ => false end.
Definition is_back {W} (c : cmd W) : bool := match c with BACK _ => true | _ => false end.

Lemma redirs_split c : cmd_ok c ->
  exists c0 rs, c = wrap_redirs c0 rs /\ is_redir c0 = false /\ cmd_ok c0 /\ Forall redir_ok rs /\ (size c0 <= size c)%nat /\ (rs <> [] -> (size c0 < size c)%nat).
Proof.
  induction c as [argv|c IH f m fd|a _ b _|a _ b _|c _]; intros Hok; try (eexists _, []; split_and!; [done|done|done|constructor|done|done]).
  destruct Hok as (Hc & Hf & Hm). destruct (IH Hc) as (c0 & rs & -> & H1 & H2 & H3 & H4 & _). exists c0, (rs ++ [(f, fd)]).
  cbn [size]. split_and!; auto; [|apply Forall_app; split; [done|]; apply Forall_singleton; split; cbn; [done|lia]|lia..].
  unfold wrap_redirs. rewrite foldl_app. cbn. f_equal. unfold redir_mode. destruct Hm as [[-> ->]|[-> ->]]; done.
Qed.

Lemma backs_split c : cmd_ok c ->
  exists c0 k, c = backs k c0 /\ is_back c0 = false /\ cmd_ok c0 /\ (size c0 <= size c)%nat /\ (k <> 0%nat -> (size c0 < size c)%nat).
Proof.
  induction c as [argv|c _ f m fd|a _ b _|a _ b _|c IH]; intros Hok; try (eexists _, 0%nat; split_and!; [done|done|done|done|done]).
  destruct (IH Hok) as (c0 & k & -> & H1 & H2 & H3 & _). exists c0, (S k). cbn [size]. split_and!; auto; lia.
Qed.

Lemma levels c : cmd_ok c -> line_ok c /\ pipe_ok c /\ exec_ok c.
Proof.
  remember (size c) as n eqn:En. revert c En. induction (lt_wf n) as [n _ IH]. intros c -> Hok.
  assert (IH' : forall d, (size d < size c)%nat -> cmd_ok d -> line_ok d /\ pipe_ok d /\ exec_ok d) by (intros d Hd; by apply (IH (size d))).
  assert (Hline2 : forall d, (size d < size c)%nat -> cmd_ok d -> exists k d0, d = backs k d0 /\ print_cmd 1 d0 = print_cmd 2 d0 /\ pipe_ok d0).
  { intros d Hd Hokd. destruct (backs_split d Hokd) as (d0 & k & -> & Hb & Hok0 & Hs & _). exists k, d0. split_and!; [done|by destruct d0|].
    apply IH'; [lia|done]. }
  destruct c as [argv|c f m fd|a b|a b|c].
  - destruct Hok as [Hw Hm]. assert (He : exec_ok (EXEC argv)) by (by apply (exec_words argv [])).
    assert (Hp : pipe_ok (EXEC argv)) by (by apply pipe_of_exec). split_and!; auto. by apply (line_of_pipe 0).
  - assert (He : exec_ok (REDIR c f m fd)).
    { destruct (redirs_split _ Hok) as (c0 & rs & E & Hr & Hok0 & Hrs & _ & Hs). rewrite E.
      assert (Hlt : (size c0 < size (REDIR c f m fd))%nat) by (apply Hs; intros ->; cbn in E; by subst).
      destruct c0 as [argv| | | |]; try done; [destruct Hok0; by apply exec_words|..];
        (apply exec_block; [reflexivity|done|by apply IH'|done]). }
    assert (Hp : pipe_ok (REDIR c f m fd)) by (by apply pipe_of_exec). split_and!; auto. by apply (line_of_pipe 0).
  - destruct Hok as [Ha Hb]. assert (Hp : pipe_ok (PIPE a b)) by (apply pipe_of_pipe; [done|apply IH'; [cbn; lia|done]..]).
    assert (Hl : line_ok (PIPE a b)) by (by apply (line_of_pipe 0)). split_and!; auto. by apply (exec_block _ []).
  - destruct Hok as [Ha Hb]. destruct (Hline2 a) as (k & a0 & E & H1 & H2); [cbn; lia|done|].
    assert (Hl : line_ok (LIST a b)) by (rewrite E; apply line_of_list; auto; apply IH'; [cbn; lia|done]).
    assert (He : exec_ok (LIST a b)) by (by apply (exec_block _ [])). split_and!; auto. by apply pipe_of_exec.
  - destruct (Hline2 c) as (k & c0 & E & H1 & H2); [cbn; lia|done|].
    assert (Hl : line_ok (BACK c)) by (rewrite E; apply (line_of_pipe (S k)); auto).
    assert (He : exec_ok (BACK c)) by (by apply (exec_block _ [])). split_and!; auto. by apply pipe_of_exec.
Qed.

(** ** The strings in the buffer *)

Fixpoint until_nul (l : list Z) : list Z :=
  match l with
  | [] => []
  | c :: l => if c =? 0 then [] else c :: until_nul l
  end.

(** The C string a token's first pointer points to. *)
Definition string_at (buf : list Z) (t : tok) : list Z := until_nul (drop (Z.to_nat t.1) buf).

Fixpoint cmd_map {W V} (f : W -> V) (c : cmd W) : cmd V :=
  match c with
  | EXEC argv => EXEC (f <$> argv)
  | REDIR c file m fd => REDIR (cmd_map f c) (f file) m fd
  | PIPE l r => PIPE (cmd_map f l) (cmd_map f r)
  | LIST l r => LIST (cmd_map f l) (cmd_map f r)
  | BACK c => BACK (cmd_map f c)
  end.

(** The words of the line are intact in the buffer. *)
Definition words_kept (line buf : list Z) : Prop :=
  (length line < length buf)%nat /\ forall i x, line !! i = Some x -> word_char x -> buf !! i = Some x.

Lemma tok_end line t w x : tok_is line t w -> line !! Z.to_nat t.2 = Some x -> ~ word_char x.
Proof.
  intros (pre & post & -> & _ & -> & _ & Hp) Hx. apply Hp. rewrite app_assoc in Hx.
  replace (Z.to_nat (zlen pre + zlen w)) with (length (pre ++ w)) in Hx by (rewrite length_app; unfold zlen; lia).
  rewrite lookup_app_r in Hx by lia. rewrite Nat.sub_diag in Hx. by destruct post.
Qed.

Lemma tok_range line t w : tok_is line t w -> 0 <= t.2 <= zlen line.
Proof. intros (pre & post & -> & _ & -> & _). rewrite !zlen_app. assert (H1 := zlen_nonneg pre). assert (H2 := zlen_nonneg w). assert (H3 := zlen_nonneg post). lia. Qed.

Lemma zset_kept line buf t w : tok_is line t w -> words_kept line buf -> words_kept line (zset buf t.2 0).
Proof.
  intros Ht [Hlen Hk]. split; [unfold zset; by rewrite length_insert|]. intros i x Hx Hw. unfold zset.
  destruct (decide (i = Z.to_nat t.2)) as [->|Hne]; [by destruct (tok_end line t w x Ht Hx)|]. rewrite list_lookup_insert_ne by done. by apply Hk.
Qed.

(** A store of a NUL keeps the NULs and makes one. *)
Lemma zset_nul (buf : list Z) e j : buf !! j = Some 0 -> zset buf e 0 !! j = Some 0.
Proof.
  intros H. unfold zset. destruct (decide (j = Z.to_nat e)) as [->|Hne]; [apply list_lookup_insert_eq; by eapply lookup_lt_Some|by rewrite list_lookup_insert_ne].
Qed.

Lemma zset_makes line buf t w : tok_is line t w -> words_kept line buf -> zset buf t.2 0 !! Z.to_nat t.2 = Some 0.
Proof. intros Ht [Hlen _]. assert (H := tok_range line t w Ht). unfold zset, zlen in *. apply list_lookup_insert_eq. lia. Qed.

Lemma until_nul_word w l : Forall word_char w -> until_nul (w ++ 0 :: l) = w.
Proof. induction 1 as [|x w (H0 & _) Hw IH]; cbn; [done|]. by rewrite (proj2 (Z.eqb_neq _ _) H0), IH. Qed.

Lemma string_at_word line buf t w : tok_is line t w -> words_kept line buf -> buf !! Z.to_nat t.2 = Some 0 -> string_at buf t = w.
Proof.
  intros (pre & post & -> & E1 & E2 & [_ Hw] & _) [Hlen Hk] H0. unfold string_at. rewrite E1, E2 in *.
  assert (Ed : drop (Z.to_nat (zlen pre)) buf = w ++ 0 :: drop (length pre + length w + 1) buf); [|rewrite Ed; by apply until_nul_word].
  unfold zlen in *. rewrite Nat2Z.id. replace (Z.to_nat _) with (length pre + length w)%nat in H0 by lia.
  apply list_eq. intros i. rewrite lookup_drop. destruct (decide (i < length w)%nat) as [Hi|Hi].
  - rewrite lookup_app_l by done. destruct (lookup_lt_is_Some_2 w i Hi) as [x Hx]. rewrite Hx. apply Hk.
    + rewrite lookup_app_r by lia. replace (length pre + i - length pre)%nat with i by lia. by rewrite lookup_app_l.
    + rewrite Forall_lookup in Hw. by apply (Hw i).
  - rewrite lookup_app_r by lia. remember (drop (length pre + length w + 1) buf) as r eqn:Er. destruct (i - length w)%nat as [|k] eqn:Ek; cbn.
    + replace (length pre + i)%nat with (length pre + length w)%nat by lia. done.
    + transitivity (drop (length pre + length w + 1) buf !! k); [rewrite lookup_drop; f_equal; lia|by rewrite Er].
Qed.

(** The NULs that a command needs. *)
Fixpoint nuls (c : cmd tok) (buf : list Z) : Prop :=
  match c with
  | EXEC argv => Forall (fun t => buf !! Z.to_nat t.2 = Some 0) argv
  | REDIR c t _ _ => nuls c buf /\ buf !! Z.to_nat t.2 = Some 0
  | PIPE l r => nuls l buf /\ nuls r buf
  | LIST l r => nuls l buf /\ nuls r buf
  | BACK c => nuls c buf
  end.

Lemma nul_args_run line argv ws buf :
  Forall2 (tok_is line) argv ws -> words_kept line buf ->
  words_kept line (nul_args argv buf) /\ Forall (fun t => nul_args argv buf !! Z.to_nat t.2 = Some 0) argv /\
  forall j, buf !! j = Some 0 -> nul_args argv buf !! j = Some 0.
Proof.
  intros H. revert buf. induction H as [|[q e] w argv ws Ht H IH]; intros buf Hk; cbn [nul_args]; [done|].
  destruct (IH (zset buf e 0)) as (H1 & H2 & H3); [by apply (zset_kept line buf (q, e) w)|]. split_and!; [done| |].
  - constructor; [|done]. apply H3. by apply (zset_makes line buf (q, e) w).
  - intros j Hj. apply H3. by apply zset_nul.
Qed.

Lemma nuls_mono c b b' : (forall j, b !! j = Some 0 -> b' !! j = Some 0) -> nuls c b -> nuls c b'.
Proof.
  intros H. induction c as [argv|c IH t m fd|l IHl r IHr|l IHl r IHr|c IH]; cbn; try naive_solver.
  intros Hf. eapply Forall_impl; [exact Hf|]. cbn. auto.
Qed.

Lemma nulterminate_run line c d buf :
  cmd_is line c d -> words_kept line buf ->
  words_kept line (nulterminate c buf) /\ nuls c (nulterminate c buf) /\ forall j, buf !! j = Some 0 -> nulterminate c buf !! j = Some 0.
Proof.
  revert d buf. induction c as [argv|c IH [q e] m fd|l IHl r IHr|l IHl r IHr|c IH]; intros d buf; destruct d; cbn [cmd_is nulterminate nuls]; try done.
  - apply nul_args_run.
  - intros (Hc & Ht & _) Hk. destruct (IH _ buf Hc Hk) as (H1 & H2 & H3). split_and!.
    + by apply (zset_kept line _ (q, e) file).
    + eapply nuls_mono; [|exact H2]. intros j. apply zset_nul.
    + by apply (zset_makes line _ (q, e) file).
    + intros j Hj. by apply zset_nul, H3.
  - intros [Hl Hr] Hk. destruct (IHl _ buf Hl Hk) as (H1 & H2 & H3). destruct (IHr _ _ Hr H1) as (G1 & G2 & G3). split_and!; auto. by eapply nuls_mono.
  - intros [Hl Hr] Hk. destruct (IHl _ buf Hl Hk) as (H1 & H2 & H3). destruct (IHr _ _ Hr H1) as (G1 & G2 & G3). split_and!; auto. by eapply nuls_mono.
  - intros Hc Hk. by apply (IH d).
Qed.

Lemma cmd_map_strings line c d buf : cmd_is line c d -> words_kept line buf -> nuls c buf -> cmd_map (string_at buf) c = d.
Proof.
  revert d. induction c as [argv|c IH t m fd|l IHl r IHr|l IHl r IHr|c IH]; intros d; destruct d; cbn [cmd_is cmd_map nuls]; try done.
  - intros H Hk Hn. f_equal. revert Hn. induction H as [|t w ts ws Ht H IH]; intros Hn; [done|]. inversion Hn; subst. cbn. f_equal; [by eapply string_at_word|by apply IH].
  - intros (Hc & Ht & -> & ->) Hk [Hn H0]. f_equal; [by apply IH|by eapply string_at_word].
  - intros [Hl Hr] Hk [H1 H2]. f_equal; auto.
  - intros [Hl Hr] Hk [H1 H2]. f_equal; auto.
  - intros Hc Hk Hn. f_equal. auto.
Qed.

Lemma print_nonul l c : cmd_ok c -> Forall (fun x => x <> 0) (print_cmd l c).
Proof.
  assert (Hw : forall w, word w -> Forall (fun x => x <> 0) (print_word w)).
  { intros w [_ H]. apply Forall_app. split; [|by apply Forall_singleton]. eapply Forall_impl; [exact H|]. by intros x (H0 & _). }
  assert (Hp : forall b s, Forall (fun x => x <> 0) s -> Forall (fun x => x <> 0) (paren b s)).
  { intros [] s H; [|done]. cbn. constructor; [done|]. apply Forall_app. split; [done|by apply Forall_singleton]. }
  revert l. induction c as [argv|c IH f m fd|a IHa b IHb|a IHa b IHb|c IH]; intros l; cbn [print_cmd cmd_ok].
  - intros [Hws _]. induction Hws as [|w ws Hw' _ IH]; [constructor|]. cbn. apply Forall_app. auto.
  - intros (Hc & Hf & _). apply Forall_app. split; [by apply IH|]. constructor; [by destruct (fd =? 0)|by apply Hw].
  - intros [Ha Hb]. apply Hp, Forall_app. split; [by apply IHa|]. constructor; [done|by apply IHb].
  - intros [Ha Hb]. apply Hp, Forall_app. split; [by apply IHa|]. constructor; [done|by apply IHb].
  - intros Hc. apply Hp, Forall_app. split; [by apply IH|by apply Forall_singleton].
Qed.

Lemma strlen_line line t : Forall (fun x => x <> 0) line -> KString.strlen (line ++ 0 :: t) = Some (zlen line).
Proof.
  intros H. unfold KString.strlen. assert (E : forall k, KString.strlen_from k (line ++ 0 :: t) = Some (k + zlen line)).
  { induction H as [|x line Hx H IH]; intros k; cbn; [unfold zlen; cbn; f_equal; lia|]. rewrite (proj2 (Z.eqb_neq _ _) Hx), IH.
    unfold zlen. cbn [length]. f_equal. lia. }
  by rewrite E.
Qed.

(** C15: the shell reads back every command: for every tree of commands, pipes,
    lists, blocks, background marks and redirections (words free of special
    characters, at most nine arguments), parsing its printed form succeeds
    with exactly that tree, and the strings that the tree's pointers denote in
    the buffer after nulterminate are its words. *)
Theorem parse_print c t :
  cmd_ok c -> exists c' buf', parsecmd (print_cmd 0 c ++ 0 :: t) = Ret (c', buf') tt /\ cmd_map (string_at buf') c' = c.
Proof.
  intros Hok. destruct (levels c Hok) as (Hl & _). set (line := print_cmd 0 c) in *.
  destruct (Hl [] [] (parse_fuel line)) as (c' & E & Hc'); [by left|rewrite app_nil_r; unfold parse_fuel, line; lia|]. rewrite app_nil_r in E, Hc'. cbn [app] in E, Hc'. fold line in E, Hc'.
  unfold parsecmd. rewrite strlen_line by (by apply print_nonul).
  replace (take (Z.to_nat (zlen line)) (line ++ 0 :: t)) with line by (unfold zlen; by rewrite Nat2Z.id, take_app_length).
  rewrite E. cbn [skip_ws]. exists c', (nulterminate c' (line ++ 0 :: t)). split; [done|].
  assert (Hk : words_kept line (line ++ 0 :: t)).
  { split; [rewrite length_app; cbn; lia|]. intros i x Hx _. rewrite lookup_app_l; [done|]. by eapply lookup_lt_Some. }
  destruct (nulterminate_run line c' c _ Hc' Hk) as (H1 & H2 & _). by apply (cmd_map_strings line).
Qed.

(** [( a b & ; c ) < f | d]. *)
Lemma parse_print_witness :
  exists c' buf', parsecmd (print_cmd 0 (PIPE (REDIR (LIST (BACK (EXEC [[97]; [98]])) (EXEC [[99]])) [102] 0 0) (EXEC [[100]])) ++ [0]) = Ret (c', buf') tt /\
    cmd_map (string_at buf') c' = PIPE (REDIR (LIST (BACK (EXEC [[97]; [98]])) (EXEC [[99]])) [102] 0 0) (EXEC [[100]]).
Proof.
  apply parse_print. assert (Hw : forall x, 97 <= x <= 102 -> word [x]).
  { intros x Hx. split; [done|]. apply Forall_singleton. unfold word_char, is_ws, is_sym, whitespace, symbols.
    rewrite !bool_decide_eq_false, !elem_of_cons, !elem_of_nil. lia. }
  cbn. split_and!; try (unfold MAXARGS, zlen; cbn; lia); try (by left); try (apply Hw; lia);
    repeat (apply List.Forall_cons; [apply Hw; lia|]); apply List.Forall_nil.
Defined.
