(* ===== verification/Printf.v ===== *)
(** * Formatted output (printf.c; printint and cprintf of console.c)

    The two printf routines of the program produce their characters one at a
    time, by [write] on a file descriptor (printf.c) or by [consputc]
    (console.c); here they return the list of them.  [None] is undefined
    behaviour: an argument that is not there, a read past the end of a string,
    or the negation of the smallest integer. *)

From S2P Require Import Prelude.
From S2P Require Import CString.

Definition digits_upper : list Z := [48; 49; 50; 51; 52; 53; 54; 55; 56; 57; 65; 66; 67; 68; 69; 70].
Definition digits_lower : list Z := [48; 49; 50; 51; 52; 53; 54; 55; 56; 57; 97; 98; 99; 100; 101; 102].

(** The do loop: the digits of [x], least significant first, as they enter
    [buf].  A 32-bit number has at most 32 digits in any base. *)
Fixpoint digit_loop (fuel : nat) (digits : list Z) (x base : Z) : option (list Z) :=
  match fuel with
  | O => None
  | S fuel =>
      let d := zget digits (x mod base) in
      let x := x / base in
      if x =? 0 then Some [d] else cons d <$> digit_loop fuel digits x base
  end.

(** The 16 bytes of [buf] must hold the digits and the sign. *)
Definition printint (digits : list Z) (xx base : Z) (sgn : bool) : option (list Z) :=
  let neg := sgn && (xx <? 0) in
  if neg && (xx =? -2147483648) then None else
  let x := if neg then - xx else u32 xx in
  match digit_loop 32 digits x base with
  | None => None
  | Some ds =>
      let buf := if neg then ds ++ [45] else ds in
      if 16 <? zlen buf then None else Some (rev buf)
  end.

Fixpoint put_string (s : list Z) : option (list Z) :=
  match s with
  | [] => None
  | c :: s => if c =? 0 then Some [] else cons c <$> put_string s
  end.

Definition null_string : list Z := [40; 110; 117; 108; 108; 41; 0].

Section Printf.
(** The bytes from an address to the end of the object it points to. *)
Context (deref : Z -> list Z).

Definition string_arg (a : Z) : option (list Z) := put_string (if a =? 0 then null_string else deref a).

(** printf.c: [pct] is [state == '%'], [ap] the arguments left. *)
Fixpoint printf_loop (fmt : list Z) (pct : bool) (ap : list Z) : option (list Z) :=
  match fmt with
  | [] => None
  | c :: fmt =>
      if c =? 0 then Some [] else
      if negb pct then
        if c =? 37 then printf_loop fmt true ap else cons c <$> printf_loop fmt false ap
      else
        if c =? 100 then
          match ap with
          | [] => None
          | a :: ap => match printint digits_upper (i32 a) 10 true with
                       | None => None
                       | Some s => app s <$> printf_loop fmt false ap
                       end
          end
        else if (c =? 120) || (c =? 112) then
          match ap with
          | [] => None
          | a :: ap => match printint digits_upper (i32 a) 16 false with
                       | None => None
                       | Some s => app s <$> printf_loop fmt false ap
                       end
          end
        else if c =? 115 then
          match ap with
          | [] => None
          | a :: ap => match string_arg a with
                       | None => None
                       | Some s => app s <$> printf_loop fmt false ap
                       end
          end
        else if c =? 99 then
          match ap with
          | [] => None
          | a :: ap => cons (u8 a) <$> printf_loop fmt false ap
          end
        else if c =? 37 then cons c <$> printf_loop fmt false ap
        else app [37; c] <$> printf_loop fmt false ap
  end.
Definition printf (fmt : list Z) (ap : list Z) : option (list Z) := printf_loop fmt false ap.

(** console.c's cprintf, without its lock; the panic on a null format is the
    caller's. *)
Fixpoint cprintf_loop (fmt : list Z) (argp : list Z) : option (list Z) :=
  match fmt with
  | [] => None
  | c :: fmt1 =>
      if c =? 0 then Some [] else
      if negb (c =? 37) then cons c <$> cprintf_loop fmt1 argp else
      match fmt1 with
      | [] => None
      | c :: fmt2 =>
          if c =? 0 then Some []
          else if c =? 100 then
            match argp with
            | [] => None
            | a :: argp => match printint digits_lower (i32 a) 10 true with
                           | None => None
                           | Some s => app s <$> cprintf_loop fmt2 argp
                           end
            end
          else if (c =? 120) || (c =? 112) then
            match argp with
            | [] => None
            | a :: argp => match printint digits_lower (i32 a) 16 false with
                           | None => None
                           | Some s => app s <$> cprintf_loop fmt2 argp
                           end
            end
          else if c =? 115 then
            match argp with
            | [] => None
            | a :: argp => match string_arg a with
                           | None => None
                           | Some s => app s <$> cprintf_loop fmt2 argp
                           end
            end
          else if c =? 37 then cons 37 <$> cprintf_loop fmt2 argp
          else app [37; c] <$> cprintf_loop fmt2 argp
      end
  end.
Definition cprintf (fmt : list Z) (argp : list Z) : option (list Z) := cprintf_loop fmt argp.

End Printf.

(** ** Integers *)

(** The number with the digits [ns], least significant first. *)
Fixpoint digits_value (base : Z) (ns : list Z) : Z :=
  match ns with
  | [] => 0
  | n :: ns => n + base * digits_value base ns
  end.

Lemma digit_loop_run fuel digits base x :
  2 <= base -> 0 <= x < 2 ^ Z.of_nat fuel -> (0 < fuel)%nat ->
  exists ns, digit_loop fuel digits x base = Some (zget digits <$> ns) /\ Forall (fun n => 0 <= n < base) ns /\
    digits_value base ns = x /\ 1 <= zlen ns /\ base ^ (zlen ns - 1) <= Z.max x 1.
Proof.
  intros Hb. revert x. induction fuel as [|fuel IH]; intros x Hx Hf; [lia|]. cbn [digit_loop].
  assert (Hm := Z.mod_pos_bound x base ltac:(lia)). assert (Hdm := Z.div_mod x base ltac:(lia)).
  destruct (x / base =? 0) eqn:E.
  - apply Z.eqb_eq in E. exists [x mod base]. change (zlen [x mod base]) with 1. change (base ^ (1 - 1)) with 1. split_and!; [done|by apply Forall_singleton|cbn; lia|cbn; lia|cbn; lia].
  - apply Z.eqb_neq in E. assert (Hd0 : 0 <= x / base) by (apply Z.div_pos; lia).
    assert (Hd1 : x / base < 2 ^ Z.of_nat fuel).
    { apply Z.div_lt_upper_bound; [lia|]. rewrite Nat2Z.inj_succ, Z.pow_succ_r in Hx by lia. nia. }
    destruct fuel as [|fuel]; [cbn in Hd1; lia|].
    destruct (IH (x / base) ltac:(lia) ltac:(lia)) as (ns & En & Hn & Hv & Hl1 & Hl). rewrite En.
    exists (x mod base :: ns). split_and!; [done|by constructor|cbn; lia| |]; unfold zlen in *; cbn [length]; [lia|].
    replace (Z.of_nat (S (length ns)) - 1) with (Z.succ (Z.of_nat (length ns) - 1)) by lia. rewrite Z.pow_succ_r by lia.
    transitivity (base * Z.max (x / base) 1); [by apply Z.mul_le_mono_nonneg_l; [lia|]|]. nia.
Qed.

(** A number below [base ^ k] has at most [k] digits. *)
Lemma digits_short base n x k :
  2 <= base -> 1 <= n -> 1 <= k -> base ^ (n - 1) <= Z.max x 1 -> x < base ^ k -> n <= k.
Proof.
  intros Hb Hn Hk Hl Hx. destruct (Z_le_gt_dec n k) as [|Hgt]; [done|exfalso].
  assert (H : base ^ k <= base ^ (n - 1)) by (apply Z.pow_le_mono_r; lia).
  assert (H1 : 1 < base ^ k) by (apply Z.pow_gt_1; lia). lia.
Qed.

Lemma printint_run digits xx base sgn :
  base = 10 \/ base = 16 -> -2147483648 < xx < 2147483648 ->
  exists ns, printint digits xx base sgn = Some ((if sgn && (xx <? 0) then [45] else []) ++ rev (zget digits <$> ns)) /\
    Forall (fun n => 0 <= n < base) ns /\ 1 <= zlen ns <= 10 /\
    digits_value base ns = (if sgn && (xx <? 0) then - xx else u32 xx).
Proof.
  intros Hb Hxx. unfold printint. set (neg := sgn && (xx <? 0)).
  assert (Hx : 0 <= (if neg then - xx else u32 xx) < 2 ^ Z.of_nat 32).
  { change (2 ^ Z.of_nat 32) with 4294967296. destruct neg eqn:En; [unfold neg in En; lia|]. apply u32_range. }
  replace (neg && (xx =? -2147483648)) with false by lia.
  destruct (digit_loop_run 32 digits base _ ltac:(lia) Hx ltac:(lia)) as (ns & En & Hn & Hv & Hl1 & Hl). rewrite En.
  assert (Hlen : zlen ns <= 10).
  { apply (digits_short base _ (if neg then - xx else u32 xx)); auto; try lia. }
  exists ns. split_and!; auto. destruct neg.
  - rewrite zlen_app. unfold zlen at 1. rewrite length_fmap. fold (zlen ns). change (zlen [45]) with 1.
    rewrite (proj2 (Z.ltb_ge _ _)) by lia. by rewrite rev_app_distr.
  - unfold zlen at 1. rewrite length_fmap. fold (zlen ns). rewrite (proj2 (Z.ltb_ge _ _)) by lia. done.
Qed.

(** the 16-byte buffer of printint is never overrun: for every argument but
    the smallest integer, in base 10 and 16, the result is the sign and at
    most ten digits. *)
Theorem printint_fits digits xx base sgn :
  base = 10 \/ base = 16 -> -2147483648 < xx < 2147483648 ->
  exists s, printint digits xx base sgn = Some s /\ 1 <= zlen s <= 11.
Proof.
  intros Hb Hxx. destruct (printint_run digits xx base sgn Hb Hxx) as (ns & E & _ & Hl & Hv).
  eexists. split; [exact E|]. rewrite zlen_app. unfold zlen at 2 4. rewrite length_rev, length_fmap. fold (zlen ns).
  destruct (sgn && (xx <? 0)); [change (zlen [45]) with 1|change (zlen []) with 0]; lia.
Qed.

Lemma printint_fits_witness : exists s, printint digits_lower (-1234) 10 true = Some s /\ 1 <= zlen s <= 11.
Proof. apply printint_fits; lia. Defined.

Lemma digits_value_nonneg base ns : 0 <= base -> Forall (fun n => 0 <= n < base) ns -> 0 <= digits_value base ns.
Proof. intros Hb. induction 1; cbn; nia. Qed.

Lemma decimal_digit n : 0 <= n < 10 -> zget digits_upper n = 48 + n.
Proof.
  intros Hn. pose proof (forallb_seq (fun i => zget digits_upper (Z.of_nat i) =? 48 + Z.of_nat i) 10 eq_refl) as H.
  specialize (H (Z.to_nat n) ltac:(lia)). cbv beta in H. rewrite Z2Nat.id in H by lia. lia.
Qed.

Lemma atoi_digits ns acc t :
  Forall (fun n => 0 <= n < 10) ns -> 0 <= acc -> acc * 10 ^ zlen ns + digits_value 10 ns <= 2147483599 ->
  Ulib.atoi_loop acc (rev (zget digits_upper <$> ns) ++ t) = Ulib.atoi_loop (acc * 10 ^ zlen ns + digits_value 10 ns) t.
Proof.
  intros Hns. revert t. induction Hns as [|n ns Hn Hns IH]; intros t Ha Hb.
  - unfold zlen. cbn. f_equal. lia.
  - cbn [digits_value fmap list_fmap rev] in *. rewrite <- app_assoc. unfold zlen in *. cbn [length] in *.
    rewrite Nat2Z.inj_succ, Z.pow_succ_r in * by lia.
    assert (Hv := digits_value_nonneg 10 ns ltac:(lia) Hns). set (v := acc * 10 ^ Z.of_nat (length ns) + digits_value 10 ns) in *.
    assert (Hv0 : 0 <= v) by (unfold v; assert (0 < 10 ^ Z.of_nat (length ns)) by (apply Z.pow_pos_nonneg; lia); nia).
    assert (Ev : acc * (10 * 10 ^ Z.of_nat (length ns)) + (n + 10 * digits_value 10 ns) = 10 * v + n) by (unfold v; lia).
    rewrite Ev in *. rewrite IH by (fold v; lia). fold v.
    assert (Ed := decimal_digit n Hn).
    rewrite Ed. cbn [app Ulib.atoi_loop].
    replace ((48 <=? 48 + n) && (48 + n <=? 57)) with true by lia.
    replace (v * 10 + (48 + n) >? 2147483647) with false by lia. f_equal. lia.
Qed.

(** what printf prints for %d is read back by atoi: every number that atoi
    can read without overflowing makes the round trip through its decimal
    digits. *)
Theorem printint_atoi xx :
  0 <= xx <= 2147483599 -> exists s, printint digits_upper xx 10 true = Some s /\ Ulib.atoi (s ++ [0]) = Some xx.
Proof.
  intros Hxx. destruct (printint_run digits_upper xx 10 true) as (ns & E & Hn & _ & Hv); [lia..|].
  rewrite (proj2 (Z.ltb_ge xx 0)) in E, Hv by lia. cbn [andb app] in E, Hv. rewrite u32_small in Hv by (unfold is_u32; lia).
  eexists. split; [exact E|]. unfold Ulib.atoi. rewrite atoi_digits; [|done|lia|lia]. cbn. by rewrite Hv.
Qed.

Lemma printint_atoi_witness : exists s, printint digits_upper 2147483599 10 true = Some s /\ Ulib.atoi (s ++ [0]) = Some 2147483599.
Proof. apply printint_atoi. lia. Defined.
