(* ===== verification/Ports.v ===== *)
(** * Devices

    The drivers talk to the hardware through x86's port instructions ([inb],
    [outb] of x86.h) and through memory-mapped 32-bit registers.  A device is a
    state with these operations; the drivers are written against the class,
    and what they rely on is stated where a theorem needs it. *)

From S2P Require Import Prelude.

Class Ports (D : Type) : Type := {
  inb : Z -> D -> Z * D;
  outb : Z -> Z -> D -> D
}.

Class Mmio (D : Type) : Type := {
  rd32 : Z -> D -> Z * D;
  wr32 : Z -> Z -> D -> D
}.

(** The instructions as computations; a port holds a byte. *)
Definition in_b {D} `{Ports D} (port : Z) : M D Z := fun d => let '(v, d) := inb port d in Ret (u8 v) d.
Definition out_b {D} `{Ports D} (port v : Z) : M D unit := fun d => Ret tt (outb port (u8 v) d).
Definition rd_l {D} `{Mmio D} (a : Z) : M D Z := fun d => let '(v, d) := rd32 a d in Ret (u32 v) d.
Definition wr_l {D} `{Mmio D} (a v : Z) : M D unit := fun d => Ret tt (wr32 a (u32 v) d).
