(* ===== verification/Intr.v ===== *)
(** * Interrupt controllers, timer and clock (picirq.c, timer.c, ioapic.c, lapic.c)

    The drivers as computations over a device with ports and memory-mapped
    registers.  What the parts of the hardware do with the accesses is in IntrSpec.v. *)

From S2P Require Import Prelude.
From S2P Require Import Params.
From S2P Require Import CString.
From S2P Require Import Mmu.
From S2P Require Import Proc.
From S2P Require Import Trap.
From S2P Require Import Ports.

Definition IRQ_ERROR : Z := 19.

(** The devices, picirq.c's mask, cpunum's static counter, memory, and the calls
    of cprintf. *)
Record ictl (D : Type) : Type := MkIc { ic_dev : D; irqmask : Z; ic_n : Z; ic_mem : mem; ic_said : list (string * list Z) }.
Arguments MkIc {D}. Arguments ic_dev {D}. Arguments irqmask {D}. Arguments ic_n {D}. Arguments ic_mem {D}. Arguments ic_said {D}.

Section State.
Context {D : Type}.
Definition set_dev (d : D) (s : ictl D) : ictl D := MkIc d (irqmask s) (ic_n s) (ic_mem s) (ic_said s).
Definition set_irqmask (m : Z) (s : ictl D) : ictl D := MkIc (ic_dev s) m (ic_n s) (ic_mem s) (ic_said s).
Definition set_n (n : Z) (s : ictl D) : ictl D := MkIc (ic_dev s) (irqmask s) n (ic_mem s) (ic_said s).
Definition set_memory (m : mem) (s : ictl D) : ictl D := MkIc (ic_dev s) (irqmask s) (ic_n s) m (ic_said s).
Definition say (fmt : string) (args : list Z) : M (ictl D) unit :=
  modify (fun s => MkIc (ic_dev s) (irqmask s) (ic_n s) (ic_mem s) (ic_said s ++ [(fmt, args)])).
Definition dev {A} (m : M D A) : M (ictl D) A := zoom ic_dev set_dev m.
End State.

(** ** The 8259A pair (picirq.c) and the interval timer (timer.c) *)

Module Pic.
Section Pic.
Context {D : Type} `{Ports D}.

Definition IO_PIC1 : Z := 0x20.
Definition IO_PIC2 : Z := 0xA0.
Definition IRQ_SLAVE : Z := 2.
Definition irqmask0 : Z := Z.land 0xFFFF (Z.lnot (Z.shiftl 1 IRQ_SLAVE)).

Definition picsetmask (mask : Z) : M (ictl D) unit :=
  modify (set_irqmask mask) ;;
  dev (out_b (IO_PIC1 + 1) mask) ;;
  dev (out_b (IO_PIC2 + 1) (Z.shiftr mask 8)).

Definition picenable (irq : Z) : M (ictl D) unit :=
  let! m := get irqmask in
  picsetmask (u16 (Z.land m (Z.lnot (Z.shiftl 1 irq)))).

Definition picinit : M (ictl D) unit :=
  dev (out_b (IO_PIC1 + 1) 0xFF) ;;
  dev (out_b (IO_PIC2 + 1) 0xFF) ;;
  dev (out_b IO_PIC1 0x11) ;;
  dev (out_b (IO_PIC1 + 1) T_IRQ0) ;;
  dev (out_b (IO_PIC1 + 1) (Z.shiftl 1 IRQ_SLAVE)) ;;
  dev (out_b (IO_PIC1 + 1) 0x3) ;;
  dev (out_b IO_PIC2 0x11) ;;
  dev (out_b (IO_PIC2 + 1) (T_IRQ0 + 8)) ;;
  dev (out_b (IO_PIC2 + 1) IRQ_SLAVE) ;;
  dev (out_b (IO_PIC2 + 1) 0x3) ;;
  dev (out_b IO_PIC1 0x68) ;;
  dev (out_b IO_PIC1 0x0a) ;;
  dev (out_b IO_PIC2 0x68) ;;
  dev (out_b IO_PIC2 0x0a) ;;
  let! m := get irqmask in
  if negb (m =? 0xFFFF) then picsetmask m else ret tt.

Definition IO_TIMER1 : Z := 0x040.
Definition TIMER_FREQ : Z := 1193182.
Definition TIMER_DIV (x : Z) : Z := (TIMER_FREQ + x / 2) / x.
Definition TIMER_MODE : Z := IO_TIMER1 + 3.
Definition TIMER_SEL0 : Z := 0x00.
Definition TIMER_RATEGEN : Z := 0x04.
Definition TIMER_16BIT : Z := 0x30.

Definition timerinit : M (ictl D) unit :=
  dev (out_b TIMER_MODE (Z.lor (Z.lor TIMER_SEL0 TIMER_RATEGEN) TIMER_16BIT)) ;;
  dev (out_b IO_TIMER1 (TIMER_DIV 100 mod 256)) ;;
  dev (out_b IO_TIMER1 (TIMER_DIV 100 / 256)) ;;
  picenable IRQ_TIMER.

End Pic.
End Pic.

(** ** The I/O APIC (ioapic.c) *)

Module Ioapic.
Section Ioapic.
Context {D : Type} `{Mmio D}.
(** Set by mp.c. *)
Context (ismp : bool) (ioapicid : Z).

Definition IOAPIC : Z := 0xFEC00000.
Definition REG_ID : Z := 0x00.
Definition REG_VER : Z := 0x01.
Definition REG_TABLE : Z := 0x10.
Definition INT_DISABLED : Z := 0x00010000.
Definition off_reg : Z := 0.
Definition off_data : Z := 16.

Definition ioapicread (reg : Z) : M (ictl D) Z :=
  dev (wr_l (IOAPIC + off_reg) reg) ;; dev (rd_l (IOAPIC + off_data)).
Definition ioapicwrite (reg data : Z) : M (ictl D) unit :=
  dev (wr_l (IOAPIC + off_reg) reg) ;; dev (wr_l (IOAPIC + off_data) data).

(** The loop from [i], [n] turns. *)
Fixpoint ioapicinit_loop (n : nat) (i : Z) : M (ictl D) unit :=
  match n with
  | O => ret tt
  | S n =>
      ioapicwrite (REG_TABLE + 2 * i) (Z.lor INT_DISABLED (T_IRQ0 + i)) ;;
      ioapicwrite (REG_TABLE + 2 * i + 1) 0 ;;
      ioapicinit_loop n (i + 1)
  end.

Definition ioapicinit : M (ictl D) unit :=
  if negb ismp then ret tt
  else
    let! v := ioapicread REG_VER in
    let maxintr := Z.land (Z.shiftr v 16) 0xFF in
    let! w := ioapicread REG_ID in
    let id := Z.shiftr w 24 in
    (if negb (id =? ioapicid) then say "ioapicinit: id isn't equal to ioapicid; not a MP\n" [] else ret tt) ;;
    ioapicinit_loop (Z.to_nat (maxintr + 1)) 0.

Definition ioapicenable (irq cpunum : Z) : M (ictl D) unit :=
  if negb ismp then ret tt
  else
    ioapicwrite (REG_TABLE + 2 * irq) (T_IRQ0 + irq) ;;
    ioapicwrite (REG_TABLE + 2 * irq + 1) (Z.shiftl cpunum 24).

End Ioapic.
End Ioapic.

(** ** The local APIC and the CMOS clock (lapic.c) *)

Module Lapic.

(** Registers, as indices of [lapic]. *)
Definition ID : Z := 0x0020 / 4.
Definition VER : Z := 0x0030 / 4.
Definition TPR : Z := 0x0080 / 4.
Definition EOI : Z := 0x00B0 / 4.
Definition SVR : Z := 0x00F0 / 4.
Definition ENABLE : Z := 0x00000100.
Definition ESR : Z := 0x0280 / 4.
Definition ICRLO : Z := 0x0300 / 4.
Definition INIT : Z := 0x00000500.
Definition STARTUP : Z := 0x00000600.
Definition DELIVS : Z := 0x00001000.
Definition ASSERT : Z := 0x00004000.
Definition LEVEL : Z := 0x00008000.
Definition BCAST : Z := 0x00080000.
Definition ICRHI : Z := 0x0310 / 4.
Definition TIMER : Z := 0x0320 / 4.
Definition X1 : Z := 0x0000000B.
Definition PERIODIC : Z := 0x00020000.
Definition PCINT : Z := 0x0340 / 4.
Definition LINT0 : Z := 0x0350 / 4.
Definition LINT1 : Z := 0x0360 / 4.
Definition ERROR : Z := 0x0370 / 4.
Definition MASKED : Z := 0x00010000.
Definition TICR : Z := 0x0380 / 4.
Definition TDCR : Z := 0x03E0 / 4.

Section Lapic.
Context {D : Type} `{Mmio D}.
(** The address of the registers; 0 when there are none.  Set by mp.c. *)
Context (lapic : Z).

Definition lapicr (index : Z) : M (ictl D) Z := dev (rd_l (lapic + 4 * index)).
Definition lapicw (index value : Z) : M (ictl D) unit :=
  dev (wr_l (lapic + 4 * index) value) ;; lapicr ID ;; ret tt.

(** [while(lapic[ICRLO] & DELIVS)]: at most [fuel] reads. *)
Fixpoint wait_delivs (fuel : nat) : M (ictl D) unit :=
  match fuel with
  | O => out_of_fuel
  | S fuel => let! v := lapicr ICRLO in if Z.land v DELIVS =? 0 then ret tt else wait_delivs fuel
  end.

Definition lapicinit (fuel : nat) : M (ictl D) unit :=
  if lapic =? 0 then ret tt
  else
    lapicw SVR (Z.lor ENABLE (T_IRQ0 + IRQ_SPURIOUS)) ;;
    lapicw TDCR X1 ;;
    lapicw TIMER (Z.lor PERIODIC (T_IRQ0 + IRQ_TIMER)) ;;
    lapicw TICR 10000000 ;;
    lapicw LINT0 MASKED ;;
    lapicw LINT1 MASKED ;;
    let! v := lapicr VER in
    (if Z.land (Z.shiftr v 16) 0xFF >=? 4 then lapicw PCINT MASKED else ret tt) ;;
    lapicw ERROR (T_IRQ0 + IRQ_ERROR) ;;
    lapicw ESR 0 ;;
    lapicw ESR 0 ;;
    lapicw EOI 0 ;;
    lapicw ICRHI 0 ;;
    lapicw ICRLO (Z.lor (Z.lor BCAST INIT) LEVEL) ;;
    wait_delivs fuel ;;
    lapicw TPR 0.

(** cpunum with the flags register and the caller's return address. *)
Definition cpunum (eflags ra : Z) : M (ictl D) Z :=
  (if negb (Z.land eflags FL_IF =? 0) then
     let! n := get ic_n in
     modify (set_n (n + 1)) ;;
     if n =? 0 then say "cpu called from %x with interrupts enabled\n" [ra] else ret tt
   else ret tt) ;;
  if negb (lapic =? 0) then let! v := lapicr ID in ret (Z.shiftr v 24) else ret 0.

Definition lapiceoi : M (ictl D) unit :=
  if negb (lapic =? 0) then lapicw EOI 0 else ret tt.

(** Its body is empty. *)
Definition microdelay (us : Z) : M (ictl D) unit := ret tt.

Definition CMOS_PORT : Z := 0x70.
Definition CMOS_RETURN : Z := 0x71.

Context `{Ports D}.

(** A store of 16 bits. *)
Definition stw (m : mem) (a v : Z) : mem := mset (mset m a (u8 v)) (a + 1) (u8 (Z.shiftr v 8)).

(** Warm reset vector, [P2V((0x40<<4 | 0x67))]. *)
Definition wrv : Z := p2v (Z.lor (Z.shiftl 0x40 4) 0x67).

Fixpoint startap_loop (n : nat) (apicid addr : Z) : M (ictl D) unit :=
  match n with
  | O => ret tt
  | S n =>
      lapicw ICRHI (Z.shiftl apicid 24) ;;
      lapicw ICRLO (Z.lor STARTUP (Z.shiftr addr 12)) ;;
      microdelay 200 ;;
      startap_loop n apicid addr
  end.

Definition lapicstartap (apicid addr : Z) : M (ictl D) unit :=
  dev (out_b CMOS_PORT 0xF) ;;
  dev (out_b (CMOS_PORT + 1) 0x0A) ;;
  modify (fun s => set_memory (stw (ic_mem s) wrv 0) s) ;;
  modify (fun s => set_memory (stw (ic_mem s) (wrv + 2) (u16 (Z.shiftr addr 4))) s) ;;
  lapicw ICRHI (Z.shiftl apicid 24) ;;
  lapicw ICRLO (Z.lor (Z.lor INIT LEVEL) ASSERT) ;;
  microdelay 200 ;;
  lapicw ICRLO (Z.lor INIT LEVEL) ;;
  microdelay 100 ;;
  startap_loop 2 apicid addr.

Definition CMOS_STATA : Z := 0x0a.
Definition CMOS_STATB : Z := 0x0b.
Definition CMOS_UIP : Z := Z.shiftl 1 7.
Definition SECS : Z := 0x00.
Definition MINS : Z := 0x02.
Definition HOURS : Z := 0x04.
Definition DAY : Z := 0x07.
Definition MONTH : Z := 0x08.
Definition YEAR : Z := 0x09.

Record rtcdate : Type := MkDate { second : Z; minute : Z; hour : Z; day : Z; month : Z; year : Z }.

Definition cmos_read (reg : Z) : M (ictl D) Z :=
  dev (out_b CMOS_PORT reg) ;;
  microdelay 200 ;;
  dev (in_b CMOS_RETURN).

Definition fill_rtcdate : M (ictl D) rtcdate :=
  let! s := cmos_read SECS in
  let! mi := cmos_read MINS in
  let! h := cmos_read HOURS in
  let! d := cmos_read DAY in
  let! mo := cmos_read MONTH in
  let! y := cmos_read YEAR in
  ret (MkDate s mi h d mo y).

(** memcmp of two dates is zero. *)
Definition same_date (a b : rtcdate) : bool :=
  (second a =? second b) && (minute a =? minute b) && (hour a =? hour b) && (day a =? day b) && (month a =? month b) && (year a =? year b).

Fixpoint read_date (fuel : nat) : M (ictl D) rtcdate :=
  match fuel with
  | O => out_of_fuel
  | S fuel =>
      let! t1 := fill_rtcdate in
      let! a := cmos_read CMOS_STATA in
      if negb (Z.land a CMOS_UIP =? 0) then read_date fuel
      else
        let! t2 := fill_rtcdate in
        if same_date t1 t2 then ret t1 else read_date fuel
  end.

Definition CONV (x : Z) : Z := u32 (Z.shiftr x 4 * 10 + Z.land x 0xf).

Definition cmostime (fuel : nat) : M (ictl D) rtcdate :=
  let! sb := cmos_read CMOS_STATB in
  let bcd := Z.land sb (Z.shiftl 1 2) =? 0 in
  let! t := read_date fuel in
  let t := if bcd then MkDate (CONV (second t)) (CONV (minute t)) (CONV (hour t)) (CONV (day t)) (CONV (month t)) (CONV (year t)) else t in
  ret (MkDate (second t) (minute t) (hour t) (day t) (month t) (u32 (year t + 2000))).

End Lapic.
End Lapic.
