(* ===== verification/IntrProps.v ===== *)
(** * What the interrupt controllers are programmed to do

    Each part of the hardware is a class: what can be observed of it, and what its
    data sheet says an access does to that.  The drivers' theorems hold for every
    device with these laws. *)

From S2P Require Import Prelude.
From S2P Require Import Params.
From S2P Require Import CString.
From S2P Require Import Mmu.
From S2P Require Import Proc.
From S2P Require Import Trap.
From S2P Require Import Ports.
From S2P Require Import Intr.

(** ** The pair of 8259A controllers *)

(** The initialisation word a controller waits for (0 when there is none), the first
    of them, the vector base, the link between the two, the mode and the mask. *)
Record p8259 : Type := MkP { p_wait : Z; p_icw1 : Z; p_base : Z; p_link : Z; p_mode : Z; p_imr : Z }.

(** A write to the first port starts the initialisation when bit 4 is set; the other
    commands (OCW2, OCW3) do not concern the fields above. *)
Definition pic_cmd (v : Z) (p : p8259) : p8259 :=
  if Z.testbit v 4 then MkP 2 v (p_base p) (p_link p) (p_mode p) 0 else p.

(** A write to the second port is the word waited for, or else the mask. *)
Definition pic_data (v : Z) (p : p8259) : p8259 :=
  let last := if Z.testbit (p_icw1 p) 0 then 4 else 0 in
  if p_wait p =? 2 then MkP (if Z.testbit (p_icw1 p) 1 then last else 3) (p_icw1 p) (v / 8 * 8) (p_link p) (p_mode p) (p_imr p)
  else if p_wait p =? 3 then MkP last (p_icw1 p) (p_base p) v (p_mode p) (p_imr p)
  else if p_wait p =? 4 then MkP 0 (p_icw1 p) (p_base p) (p_link p) v (p_imr p)
  else MkP 0 (p_icw1 p) (p_base p) (p_link p) (p_mode p) v.

Definition pic_write (port0 port v : Z) (p : p8259) : p8259 :=
  if port =? port0 then pic_cmd v p else if port =? port0 + 1 then pic_data v p else p.

Class PicDev (D : Type) `{Ports D} : Type := {
  master : D -> p8259;
  slave : D -> p8259;
  master_out port v d : master (outb port v d) = pic_write 0x20 port v (master d);
  slave_out port v d : slave (outb port v d) = pic_write 0xA0 port v (slave d)
}.

(** The vector a processor is given when line [i] is raised. *)
Definition pic_vector (m s : p8259) (i : Z) : option Z :=
  if negb (p_wait m =? 0) || negb (p_wait s =? 0) then None
  else if i <? 8 then if Z.testbit (p_imr m) i then None else Some (p_base m + i)
  else if Z.testbit (p_link m) (p_link s) && negb (Z.testbit (p_imr m) (p_link s)) && negb (Z.testbit (p_imr s) (i - 8))
  then Some (p_base s + (i - 8)) else None.

Section PicProps.
Context {D : Type} `{PD : PicDev D}.
Import Pic.

Fixpoint enable_all (irqs : list Z) : M (ictl D) unit :=
  match irqs with
  | [] => ret tt
  | i :: irqs => picenable i ;; enable_all irqs
  end.

Lemma out_step {A} (k : unit -> M (ictl D) A) port v d m n me o :
  bind (dev (out_b port v)) k (MkIc d m n me o) = k tt (MkIc (outb port (u8 v) d) m n me o).
Proof. reflexivity. Qed.

(** Initialised, with this mask. *)
Definition programmed (mask : Z) (s : ictl D) : Prop :=
  irqmask s = mask /\ 0 <= mask < 65536 /\
  master (ic_dev s) = MkP 0 0x11 32 4 3 (mask mod 256) /\ slave (ic_dev s) = MkP 0 0x11 40 2 3 (mask / 256).

Lemma picsetmask_run mask0 mask s :
  programmed mask0 s -> 0 <= mask < 65536 -> exists s', picsetmask mask s = Ret tt s' /\ programmed mask s'.
Proof.
  intros (_ & _ & Hm & Hs) Hr. eexists. split; [reflexivity|]. split; [reflexivity|]. split; [done|].
  cbn [ic_dev set_dev set_irqmask]. rewrite !master_out, !slave_out, Hm, Hs.
  unfold u8. rewrite Z.shiftr_div_pow2 by lia. split; unfold pic_write; cbn [Z.eqb IO_PIC1 IO_PIC2 Z.add Pos.add Pos.eqb]; unfold pic_data; cbn [p_wait p_icw1 p_base p_link p_mode p_imr Z.eqb]; f_equal.
  change (2 ^ 8) with 256. dlia.
Qed.

Lemma picinit_run s : irqmask s = irqmask0 -> exists s', picinit s = Ret tt s' /\ programmed irqmask0 s'.
Proof.
  destruct s as [d m n me o]. cbn [irqmask]. intros ->. unfold picinit. rewrite !out_step.
  eexists. split; [reflexivity|]. split; [reflexivity|]. split; [done|].
  cbn [ic_dev set_dev set_irqmask]. rewrite !master_out, !slave_out. split; reflexivity.
Qed.

Lemma clear_bit m i : 0 <= m < 65536 -> 0 <= i -> u16 (Z.land m (Z.lnot (Z.shiftl 1 i))) = Z.ldiff m (2 ^ i) /\ 0 <= Z.ldiff m (2 ^ i) < 65536.
Proof.
  intros Hm Hi. rewrite Z.shiftl_1_l, <-Z.ldiff_land. unfold u16. change 65536 with (2 ^ 16) in *.
  assert (E : Z.ldiff m (2 ^ i) mod 2 ^ 16 = Z.ldiff m (2 ^ i)).
  { apply Z.bits_inj'. intros j Hj. destruct (decide (j < 16)).
    - by rewrite Z.mod_pow2_bits_low by lia.
    - rewrite Z.mod_pow2_bits_high, Z.ldiff_spec by lia. rewrite <-(Z.mod_small m (2 ^ 16)) by lia. by rewrite Z.mod_pow2_bits_high by lia. }
  split; [done|]. rewrite <-E. apply Z.mod_pos_bound. lia.
Qed.

(** The lines that are not masked, besides the second controller's. *)
Definition enabled (irqs : list Z) (s : ictl D) : Prop :=
  exists mask, programmed mask s /\ forall i, 0 <= i -> Z.testbit mask i = Z.testbit irqmask0 i && bool_decide (i ∉ irqs).

Lemma picinit_enabled s : irqmask s = irqmask0 -> exists s', picinit s = Ret tt s' /\ enabled [] s'.
Proof.
  intros Hs. destruct (picinit_run s Hs) as (s' & E & Hp). exists s'. split; [done|]. exists irqmask0. split; [done|].
  intros i _. rewrite bool_decide_true by apply not_elem_of_nil. by rewrite andb_true_r.
Qed.

Lemma picenable_enabled i irqs s : enabled irqs s -> 0 <= i < 16 -> exists s', picenable i s = Ret tt s' /\ enabled (i :: irqs) s'.
Proof.
  intros (mask & Hp & Hb) Hi. assert (Hp' := Hp). destruct Hp' as (Hq & Hr & _). destruct (clear_bit mask i Hr ltac:(lia)) as [Hc Hcr].
  destruct (picsetmask_run mask _ s Hp Hcr) as (s1 & E1 & Hp1). exists s1.
  split; [unfold picenable, bind, get; by rewrite Hq, Hc|]. eexists. split; [done|].
  intros j Hj. rewrite Z.ldiff_spec, Z.pow2_bits_eqb, Hb by lia. rewrite <-andb_assoc. f_equal. destruct (decide (j = i)) as [->|Hne].
  - rewrite Z.eqb_refl. cbn [negb]. rewrite andb_false_r. symmetry. apply bool_decide_false. rewrite not_elem_of_cons. naive_solver.
  - rewrite (proj2 (Z.eqb_neq i j)) by done. cbn [negb]. rewrite andb_true_r. apply bool_decide_ext. rewrite not_elem_of_cons. naive_solver.
Qed.

(** Outside the enabling calls, the controllers and the mask are left alone. *)
Lemma enabled_frame irqs s s' :
  enabled irqs s -> irqmask s' = irqmask s -> master (ic_dev s') = master (ic_dev s) -> slave (ic_dev s') = slave (ic_dev s) -> enabled irqs s'.
Proof. intros (mask & (H1 & H2 & H3 & H4) & Hb) E1 E2 E3. exists mask. split; [split_and!; congruence || lia|done]. Qed.

(** What the pair delivers. *)
Lemma enabled_vector irqs s i :
  enabled irqs s -> 0 <= i < 16 -> i <> IRQ_SLAVE ->
  pic_vector (master (ic_dev s)) (slave (ic_dev s)) i = if bool_decide (i ∈ irqs) then Some (T_IRQ0 + i) else None.
Proof.
  intros (mask & (_ & Hr & -> & ->) & Hb) Hi Hne.
  assert (H0 : forall j, 0 <= j < 16 -> j <> 2 -> Z.testbit irqmask0 j = true).
  { intros j Hj Hj2. assert (j = 0 \/ j = 1 \/ 3 <= j <= 15) as [->|[->|?]] by lia; [done..|].
    assert (j = 3 \/ j = 4 \/ j = 5 \/ j = 6 \/ j = 7 \/ j = 8 \/ j = 9 \/ j = 10 \/ j = 11 \/ j = 12 \/ j = 13 \/ j = 14 \/ j = 15) by lia.
    destruct_or!; subst; done. }
  assert (Hlow : forall j, 0 <= j < 8 -> Z.testbit (mask mod 256) j = Z.testbit mask j) by (intros j Hj; apply (Z.mod_pow2_bits_low mask 8); lia).
  assert (Hhigh : Z.testbit (mask / 256) (i - 8) = Z.testbit mask i \/ i < 8).
  { destruct (decide (i < 8)); [by right|left]. change 256 with (2 ^ 8). rewrite Z.div_pow2_bits by lia. f_equal. lia. }
  unfold pic_vector. cbn [p_wait p_imr p_base p_link Z.eqb negb orb]. unfold T_IRQ0.
  assert (Hi0 : Z.testbit mask i = bool_decide (i ∉ irqs)) by (rewrite Hb, H0 by (done || lia); done).
  assert (H2 : Z.testbit (mask mod 256) 2 = false) by (rewrite Hlow, Hb by lia; done).
  destruct (i <? 8) eqn:E8; [rewrite Hlow by lia|rewrite H2; destruct Hhigh as [->|?]; [|lia]]; rewrite Hi0.
  - destruct (bool_decide_reflect (i ∈ irqs)) as [Hin|Hin]; [rewrite bool_decide_false by naive_solver|rewrite bool_decide_true by done]; done.
  - change (Z.testbit 4 2) with true. cbn [andb negb].
    destruct (bool_decide_reflect (i ∈ irqs)) as [Hin|Hin]; [rewrite bool_decide_false by naive_solver|rewrite bool_decide_true by done]; [|done].
    cbn [negb]. f_equal. lia.
Qed.

Lemma enable_all_enabled irqs0 irqs s :
  enabled irqs0 s -> Forall (fun i => 0 <= i < 16) irqs -> exists s', enable_all irqs s = Ret tt s' /\ enabled (rev irqs ++ irqs0) s'.
Proof.
  intros Hp Hall. revert irqs0 s Hp. induction Hall as [|i irqs Hi _ IH]; intros irqs0 s Hp; [by exists s|].
  destruct (picenable_enabled i irqs0 s Hp Hi) as (s1 & E1 & Hp1). destruct (IH _ _ Hp1) as (s2 & E2 & Hp2).
  exists s2. cbn [enable_all rev]. split; [by run E1|]. by rewrite <-app_assoc.
Qed.

(** After picinit and any calls of picenable, the pair of controllers gives line
    [i] the vector T_IRQ0 + [i] when it was enabled and nothing otherwise.  (Line 2
    carries the second controller.) *)
Theorem pic_routes (irqs : list Z) (s : ictl D) :
  irqmask s = irqmask0 -> Forall (fun i => 0 <= i < 16) irqs ->
  exists s', (picinit ;; enable_all irqs) s = Ret tt s' /\
    forall i, 0 <= i < 16 -> i <> IRQ_SLAVE ->
      pic_vector (master (ic_dev s')) (slave (ic_dev s')) i = if bool_decide (i ∈ irqs) then Some (T_IRQ0 + i) else None.
Proof.
  intros Hs Hall. destruct (picinit_enabled s Hs) as (s1 & E1 & Hp1). destruct (enable_all_enabled [] irqs s1 Hp1 Hall) as (s2 & E2 & Hp2).
  exists s2. split; [by run E1|]. intros i Hi Hne. rewrite (enabled_vector _ s2 i Hp2 Hi Hne).
  erewrite (bool_decide_ext (i ∈ rev irqs ++ [])); [done|]. rewrite app_nil_r. rewrite !list_elem_of_In. symmetry. apply in_rev.
Qed.

End PicProps.

(** ** The interval timer *)

(** Its divisor is the nearest to the frequency asked for. *)
Lemma TIMER_DIV_nearest x : 0 < x -> Z.abs (Pic.TIMER_DIV x * x - Pic.TIMER_FREQ) <= x / 2 + 1.
Proof. unfold Pic.TIMER_DIV, Pic.TIMER_FREQ. intros Hx. Z.to_euclidean_division_equations. nia. Qed.

(** Counter 0: its mode, the bytes of the count written so far, and the count. *)
Record pit : Type := MkPit { pit_mode : Z; pit_bytes : list Z; pit_count : option Z }.
Definition pit_write (port v : Z) (t : pit) : pit :=
  if port =? 0x43 then (if v / 64 =? 0 then MkPit v [] None else t)
  else if port =? 0x40 then
    match pit_bytes t with
    | [lo] => MkPit (pit_mode t) [] (Some (lo + 256 * v))
    | _ => MkPit (pit_mode t) [v] (pit_count t)
    end
  else t.
Class PitDev (D : Type) `{Ports D} : Type := {
  pit0 : D -> pit;
  pit_out port v d : pit0 (outb port v d) = pit_write port v (pit0 d)
}.

(** timerinit makes counter 0 a rate generator (mode 2) that divides by 11932. *)
Theorem timerinit_rate {D} `{PT : PitDev D} (s : ictl D) :
  exists s', Pic.timerinit s = Ret tt s' /\
    pit_count (pit0 (ic_dev s')) = Some (Pic.TIMER_DIV 100) /\ (pit_mode (pit0 (ic_dev s')) / 2) mod 8 = 2.
Proof.
  destruct s as [d m n me o]. unfold Pic.timerinit. rewrite !out_step. eexists. split; [reflexivity|].
  cbn [ic_dev set_dev set_irqmask]. rewrite !pit_out. unfold pit_write at 1 2.
  change (Pic.IO_PIC1 + 1) with 0x21. change (Pic.IO_PIC2 + 1) with 0xA1. cbn [Z.eqb Pos.eqb].
  split; reflexivity.
Qed.

(** ** The I/O APIC *)

(** The selected register and the registers.  A redirection entry keeps what is
    written to it, but for the two bits that report its delivery. *)
Class IoApicDev (D : Type) `{Mmio D} : Type := {
  io_sel : D -> Z;
  io_reg : D -> Z -> Z;
  io_sel_wr v d : io_sel (wr32 Ioapic.IOAPIC v d) = v mod 256;
  io_sel_regs v d : io_reg (wr32 Ioapic.IOAPIC v d) = io_reg d;
  io_data_sel v d : io_sel (wr32 (Ioapic.IOAPIC + 16) v d) = io_sel d;
  io_data_wr v d : 0x10 <= io_sel d -> is_u32 v -> Z.land v 0x5000 = 0 ->
    forall r, io_reg (wr32 (Ioapic.IOAPIC + 16) v d) r = if r =? io_sel d then v else io_reg d r;
  io_data_rd d : u32 (fst (rd32 (Ioapic.IOAPIC + 16) d)) = io_reg d (io_sel d);
  io_rd_sel d : io_sel (snd (rd32 (Ioapic.IOAPIC + 16) d)) = io_sel d;
  io_rd_regs d : io_reg (snd (rd32 (Ioapic.IOAPIC + 16) d)) = io_reg d
}.

(** What entry [i] does with its interrupt: nothing while masked, else the vector and
    the processor. *)
Definition redirect (reg : Z -> Z) (i : Z) : option (Z * Z) :=
  let lo := reg (0x10 + 2 * i) in
  if Z.testbit lo 16 then None else Some (lo mod 256, reg (0x10 + 2 * i + 1) / 16777216).

(** The last processor line [i] was enabled for. *)
Definition route (l : list (Z * Z)) (i : Z) : option (Z * Z) :=
  foldl (fun r '(irq, c) => if irq =? i then Some (T_IRQ0 + i, c) else r) None l.

Section IoApicProps.
Context {D : Type} `{ID : IoApicDev D}.
Context (ismp : bool) (ioapicid : Z).
Import Ioapic.

Fixpoint enable_on (l : list (Z * Z)) : M (ictl D) unit :=
  match l with
  | [] => ret tt
  | (irq, c) :: l => ioapicenable ismp irq c ;; enable_on l
  end.

Definition regs (s : ictl D) : Z -> Z := io_reg (ic_dev s).

Lemma ioapicread_run r s :
  0 <= r < 256 -> exists s', ioapicread r s = Ret (regs s r) s' /\ regs s' = regs s.
Proof.
  intros Hr. destruct s as [d m n me o]. unfold ioapicread, dev, zoom, bind, wr_l, rd_l, regs.
  cbn [ic_dev set_dev]. change (IOAPIC + off_reg) with IOAPIC. change (IOAPIC + off_data) with (IOAPIC + 16).
  destruct (rd32 (IOAPIC + 16) (wr32 IOAPIC (u32 r) d)) as [v d'] eqn:E.
  pose proof (io_data_rd (wr32 IOAPIC (u32 r) d)) as H1. pose proof (io_rd_regs (wr32 IOAPIC (u32 r) d)) as H2.
  rewrite E, io_sel_wr, io_sel_regs in *. cbn [fst snd] in *. rewrite (u32_small r), Z.mod_small in H1 by (unfold is_u32; lia).
  eexists. split; [by rewrite H1|done].
Qed.

Lemma ioapicwrite_run r v s :
  0x10 <= r < 256 -> is_u32 v -> Z.land v 0x5000 = 0 ->
  exists s', ioapicwrite r v s = Ret tt s' /\ forall j, regs s' j = if j =? r then v else regs s j.
Proof.
  intros Hr Hv Hz. destruct s as [d m n me o]. eexists. split; [reflexivity|]. intros j. unfold regs. cbn [ic_dev set_dev].
  change (IOAPIC + off_reg) with IOAPIC. change (IOAPIC + off_data) with (IOAPIC + 16).
  assert (E : io_sel (wr32 IOAPIC (u32 r) d) = r) by (rewrite io_sel_wr, u32_small by (unfold is_u32; lia); apply Z.mod_small; lia).
  rewrite io_data_wr by (rewrite ?E, ?u32_small by done; done || lia). by rewrite E, io_sel_regs, u32_small.
Qed.

(** An entry written as its two words. *)
Lemma entry_run i lo hi s :
  0 <= i < 120 -> is_u32 lo -> Z.land lo 0x5000 = 0 -> is_u32 hi -> Z.land hi 0x5000 = 0 ->
  exists s', (ioapicwrite (REG_TABLE + 2 * i) lo ;; ioapicwrite (REG_TABLE + 2 * i + 1) hi) s = Ret tt s' /\
    (forall r, r < 0x10 -> regs s' r = regs s r) /\
    forall j, redirect (regs s') j = if j =? i then (if Z.testbit lo 16 then None else Some (lo mod 256, hi / 16777216)) else redirect (regs s) j.
Proof.
  intros Hi Hlo Hlo' Hhi Hhi'. unfold REG_TABLE.
  destruct (ioapicwrite_run (0x10 + 2 * i) lo s) as (s1 & E1 & H1); [lia|done..|].
  destruct (ioapicwrite_run (0x10 + 2 * i + 1) hi s1) as (s2 & E2 & H2); [lia|done..|].
  exists s2. split; [by rewrite (bind_run _ _ _ _ _ E1)|]. split.
  - intros r Hr. rewrite H2, H1. destruct (r =? 16 + 2 * i + 1) eqn:?; [lia|]. destruct (r =? 16 + 2 * i) eqn:?; [lia|done].
  - intros j. unfold redirect. rewrite !H2, !H1. destruct (j =? i) eqn:E.
    + assert (j = i) as -> by lia. rewrite !Z.eqb_refl. destruct (16 + 2 * i =? 16 + 2 * i + 1) eqn:?; [lia|done].
    + destruct (16 + 2 * j =? 16 + 2 * i + 1) eqn:?; [lia|]. destruct (16 + 2 * j =? 16 + 2 * i) eqn:?; [lia|].
      destruct (16 + 2 * j + 1 =? 16 + 2 * i + 1) eqn:?; [lia|]. destruct (16 + 2 * j + 1 =? 16 + 2 * i) eqn:?; [lia|done].
Qed.

(** A vector of entry [i] in the low word: no other field is touched. *)
Lemma vector_word i : 0 <= i < 120 -> Z.land (T_IRQ0 + i) 0x5000 = 0 /\ Z.testbit (T_IRQ0 + i) 16 = false /\ (T_IRQ0 + i) mod 256 = T_IRQ0 + i.
Proof.
  unfold T_IRQ0. intros Hi. split_and!; [| |apply Z.mod_small; lia].
  - apply Z.bits_inj'. intros j Hj. rewrite Z.land_spec, Z.bits_0. rewrite <-(Z.mod_small (32 + i) (2 ^ 8)) by lia.
    destruct (decide (j < 8)); [|by rewrite Z.mod_pow2_bits_high by lia]. change 0x5000 with (20 * 2 ^ 10).
    rewrite (Z.mul_pow2_bits_low 20) by lia. apply andb_false_r.
  - rewrite <-(Z.mod_small (32 + i) (2 ^ 8)) by lia. apply Z.mod_pow2_bits_high. lia.
Qed.

Lemma ioapicinit_loop_run n i s :
  0 <= i -> i + Z.of_nat n <= 120 ->
  exists s', ioapicinit_loop n i s = Ret tt s' /\
    forall j, redirect (regs s') j = if (i <=? j) && (j <? i + Z.of_nat n) then None else redirect (regs s) j.
Proof.
  revert i s. induction n as [|n IH]; intros i s Hi Hn.
  - exists s. split; [done|]. intros j. destruct ((i <=? j) && (j <? i + Z.of_nat 0)) eqn:E; [lia|done].
  - destruct (vector_word i) as (Hv & _ & _); [lia|].
    assert (HD : Z.testbit (Z.lor INT_DISABLED (T_IRQ0 + i)) 16 = true) by (by rewrite Z.lor_spec).
    destruct (entry_run i (Z.lor INT_DISABLED (T_IRQ0 + i)) 0 s) as (s1 & E1 & _ & H1); [lia| | |done|done|].
    { rewrite Z.lor_comm. unfold INT_DISABLED, is_u32. unfold T_IRQ0. split; [apply Z.lor_nonneg; lia|].
      apply Z.log2_lt_cancel. rewrite Z.log2_lor by lia. assert (Z.log2 (32 + i) <= Z.log2 255) by (apply Z.log2_le_mono; lia).
      change (Z.log2 4294967296) with 32. change (Z.log2 65536) with 16. change (Z.log2 255) with 7 in *. lia. }
    { by rewrite Z.land_lor_distr_l, Hv. }
    destruct (IH (i + 1) s1) as (s2 & E2 & H2); [lia..|]. exists s2. split.
    + cbn [ioapicinit_loop]. rewrite <-bind_bind. by rewrite (bind_run _ _ _ _ _ E1).
    + intros j. rewrite H2, H1, HD. repeat (case_match; try lia); done.
Qed.

Lemma enable_on_run l s :
  ismp = true -> Forall (fun '(irq, c) => 0 <= irq < 120 /\ 0 <= c < 256) l ->
  exists s', enable_on l s = Ret tt s' /\
    forall i, redirect (regs s') i = foldl (fun r '(irq, c) => if irq =? i then Some (T_IRQ0 + i, c) else r) (redirect (regs s) i) l.
Proof.
  intros Hmp Hall. revert s. induction Hall as [|[irq c] l [Hq Hc] _ IH]; intros s; [by exists s|].
  destruct (vector_word irq Hq) as (Hv & Hb & Hm).
  destruct (entry_run irq (T_IRQ0 + irq) (Z.shiftl c 24) s) as (s1 & E1 & _ & H1).
  { lia. } { unfold is_u32, T_IRQ0. lia. } { done. }
  { rewrite Z.shiftl_mul_pow2 by lia. unfold is_u32. lia. }
  { rewrite Z.shiftl_mul_pow2 by lia. apply Z.bits_inj'. intros j Hj. rewrite Z.land_spec, Z.bits_0.
    destruct (decide (j < 24)); [by rewrite Z.mul_pow2_bits_low by lia|].
    rewrite <-(Z.mod_small 0x5000 (2 ^ 24)) by lia. rewrite (Z.mod_pow2_bits_high 0x5000) by lia. apply andb_false_r. }
  destruct (IH s1) as (s2 & E2 & H2). exists s2. split.
  - cbn [enable_on]. unfold ioapicenable. rewrite Hmp. cbn [negb]. by rewrite (bind_run _ _ _ _ _ E1).
  - intros i. rewrite H2. cbn [foldl]. f_equal. rewrite H1, Hb, Hm, Z.shiftl_mul_pow2 by lia. rewrite Z.div_mul by lia.
    rewrite Z.eqb_sym. destruct (irq =? i) eqn:E; [|done]. do 2 f_equal. lia.
Qed.

Lemma ioapicinit_run s :
  ismp = true -> Z.land (Z.shiftr (regs s REG_VER) 16) 0xFF < 120 ->
  exists s', ioapicinit ismp ioapicid s = Ret tt s' /\ forall i, 0 <= i <= Z.land (Z.shiftr (regs s REG_VER) 16) 0xFF -> redirect (regs s') i = None.
Proof.
  intros Hmp Hmax. set (maxintr := Z.land (Z.shiftr (regs s REG_VER) 16) 0xFF) in *.
  assert (0 <= maxintr) by (apply Z.land_nonneg; right; lia).
  destruct (ioapicread_run REG_VER s) as (s1 & E1 & H1); [done|].
  destruct (ioapicread_run REG_ID s1) as (s2 & E2 & H2); [done|].
  set (say_id := (if negb (Z.shiftr (regs s1 REG_ID) 24 =? ioapicid) then say "ioapicinit: id isn't equal to ioapicid; not a MP\n" [] else ret tt) : M (ictl D) unit).
  assert (Hsay : exists s3, say_id s2 = Ret tt s3 /\ regs s3 = regs s2) by (subst say_id; case_match; eexists; split; reflexivity).
  destruct Hsay as (s3 & E3 & H3).
  destruct (ioapicinit_loop_run (Z.to_nat (maxintr + 1)) 0 s3) as (s4 & E4 & H4); [lia..|].
  exists s4. split; [unfold ioapicinit; rewrite Hmp; cbn [negb]; run E1; run E2; fold say_id; run E3; exact E4|].
  intros i Hi. rewrite H4. destruct ((0 <=? i) && (i <? 0 + Z.of_nat (Z.to_nat (maxintr + 1)))) eqn:E; [done|lia].
Qed.

(** On a multiprocessor, after ioapicinit and any calls of ioapicenable, each
    line of the I/O APIC is masked until it was enabled, and then interrupts, with
    vector T_IRQ0 + line, the processor it was last enabled for. *)
Theorem ioapic_routes (l : list (Z * Z)) (s : ictl D) :
  ismp = true -> Z.land (Z.shiftr (io_reg (ic_dev s) REG_VER) 16) 0xFF < 120 ->
  let maxintr := Z.land (Z.shiftr (io_reg (ic_dev s) REG_VER) 16) 0xFF in
  Forall (fun '(irq, c) => 0 <= irq <= maxintr /\ 0 <= c < 256) l ->
  exists s', (ioapicinit ismp ioapicid ;; enable_on l) s = Ret tt s' /\
    forall i, 0 <= i <= maxintr -> redirect (io_reg (ic_dev s')) i = route l i.
Proof.
  intros Hmp Hmax maxintr Hall. destruct (ioapicinit_run s Hmp Hmax) as (s1 & E1 & H1).
  destruct (enable_on_run l s1 Hmp) as (s2 & E2 & H2); [eapply Forall_impl; [exact Hall|]; intros [q c] [? ?]; lia|].
  exists s2. split; [by run E1|]. intros i Hi. fold (regs s2). rewrite H2. unfold route. f_equal. by apply H1.
Qed.

(** Without one the routines leave the device alone. *)
Lemma ioapic_uniprocessor irq c s : ismp = false -> ioapicinit ismp ioapicid s = Ret tt s /\ ioapicenable ismp irq c s = Ret tt s.
Proof. intros ->. done. Qed.

End IoApicProps.

Module IntrDemo.

(** Two controllers and nothing else. *)
#[export] Instance pics : Ports (p8259 * p8259) := {
  inb _ d := (0, d);
  outb port v d := (pic_write 0x20 port v (fst d), pic_write 0xA0 port v (snd d))
}.
#[export] Instance pics_dev : PicDev (p8259 * p8259).
Proof. refine {| master := fst; slave := snd |}; done. Defined.

Definition off : p8259 := MkP 0 0 0 0 0 0.
Definition cold {D} (d : D) : ictl D := MkIc d Pic.irqmask0 0 (fun _ => 0) [].

Lemma pic_routes_witness :
  exists s', (Pic.picinit ;; enable_all [IRQ_KBD; IRQ_IDE]) (cold (off, off)) = Ret tt s' /\
    pic_vector (fst (ic_dev s')) (snd (ic_dev s')) 14 = Some 46 /\ pic_vector (fst (ic_dev s')) (snd (ic_dev s')) 4 = None.
Proof.
  destruct (pic_routes [IRQ_KBD; IRQ_IDE] (cold (off, off)) eq_refl ltac:(repeat constructor; done)) as (s' & E & H).
  exists s'. split; [exact E|]. split; [apply (H 14)|apply (H 4)]; done.
Defined.

(** An I/O APIC with 24 entries: the selected register and the others. *)
#[export] Instance io_mmio : Mmio (Z * (Z -> Z)) := {
  rd32 a d := (if a =? Ioapic.IOAPIC + 16 then u32 (snd d (fst d)) else 0, d);
  wr32 a v d :=
    if a =? Ioapic.IOAPIC then (v mod 256, snd d)
    else if a =? Ioapic.IOAPIC + 16 then (fst d, fun r => if r =? fst d then v else snd d r) else d
}.
#[export] Instance io_dev : IoApicDev (Z * (Z -> Z)).
Proof.
  refine {| io_sel := fst; io_reg d r := u32 (snd d r) |}; try done.
  - intros v [i f] Hi Hv Hz r. cbn [wr32 io_mmio fst snd]. change (Ioapic.IOAPIC + 16 =? Ioapic.IOAPIC) with false. rewrite Z.eqb_refl. cbn [snd].
    destruct (r =? i); [by apply u32_small|done].
  - intros [i f]. cbn [rd32 io_mmio fst snd]. rewrite Z.eqb_refl. unfold u32. apply Z.mod_mod. lia.
Defined.

Definition io0 : ictl (Z * (Z -> Z)) := cold (0, fun _ => 0x170011).

Lemma ioapic_routes_witness :
  exists s', (Ioapic.ioapicinit true 1 ;; enable_on true [(IRQ_KBD, 0); (IRQ_IDE, 1)]) io0 = Ret tt s' /\
    redirect (io_reg (ic_dev s')) 14 = Some (46, 1) /\ redirect (io_reg (ic_dev s')) 4 = None.
Proof.
  pose proof (ioapic_routes true 1 [(IRQ_KBD, 0); (IRQ_IDE, 1)] io0 eq_refl) as H. cbn zeta in H.
  replace (Z.land (Z.shiftr (io_reg (ic_dev io0) Ioapic.REG_VER) 16) 0xFF) with 23 in H by reflexivity.
  destruct H as (s' & E & H); [lia|repeat constructor; unfold IRQ_KBD, IRQ_IDE; lia|].
  exists s'. split; [exact E|]. split; [apply (H 14)|apply (H 4)]; lia.
Defined.

End IntrDemo.
