(* ===== verification/LapicProps.v ===== *)
(** * The local APIC and the clock

    Laws of the local APIC's registers and of the CMOS clock, and what lapic.c does
    with them. *)

From S2P Require Import Prelude.
From S2P Require Import Params.
From S2P Require Import CString.
From S2P Require Import Mmu.
From S2P Require Import Proc.
From S2P Require Import Trap.
From S2P Require Import Ports.
From S2P Require Import Intr.

Import Lapic.

(** The registers that keep what was written to them, besides ID and VER. *)
Definition config : list Z := [TPR; SVR; ICRHI; TIMER; PCINT; LINT0; LINT1; ERROR; TICR; TDCR].
Definition stable : list Z := ID :: VER :: config.

(** [la_sent]: the interrupts sent to other processors, as destination and command;
    [la_busy]: how often the command register still reads as sending. *)
Class LapicDev (D : Type) (base : Z) `{Mmio D, Ports D} : Type := {
  la_reg : D -> Z -> Z;
  la_sent : D -> list (Z * Z);
  la_busy : D -> nat;
  la_wr_same i v d : i ∈ config -> is_u32 v -> i = TICR \/ Z.land v DELIVS = 0 -> la_reg (wr32 (base + 4 * i) v d) i = v;
  la_wr_other i v d j : 0 <= i < 256 -> j ∈ stable -> j <> i -> la_reg (wr32 (base + 4 * i) v d) j = la_reg d j;
  la_wr_sent i v d : 0 <= i < 256 ->
    la_sent (wr32 (base + 4 * i) v d) = if i =? ICRLO then la_sent d ++ [(la_reg d ICRHI / 16777216, v)] else la_sent d;
  la_rd_stable i d : i ∈ stable -> u32 (fst (rd32 (base + 4 * i) d)) = la_reg d i;
  la_rd_regs i d j : 0 <= i < 256 -> j ∈ stable -> la_reg (snd (rd32 (base + 4 * i) d)) j = la_reg d j;
  la_rd_sent i d : 0 <= i < 256 -> la_sent (snd (rd32 (base + 4 * i) d)) = la_sent d;
  la_rd_busy d : Z.land (u32 (fst (rd32 (base + 4 * ICRLO) d))) DELIVS = 0 <-> la_busy d = 0%nat;
  la_rd_less d : la_busy (snd (rd32 (base + 4 * ICRLO) d)) = pred (la_busy d);
  la_out_regs port v d : la_reg (outb port v d) = la_reg d;
  la_out_sent port v d : la_sent (outb port v d) = la_sent d
}.

(** ** Sequences of register writes *)

(** A write the laws cover. *)
Definition good_write (w : Z * Z) : Prop :=
  is_u32 (snd w) /\ ((fst w ∈ config /\ (fst w = TICR \/ Z.land (snd w) DELIVS = 0)) \/ fst w ∈ [EOI; ESR; ICRLO]).

#[export] Instance good_write_dec w : Decision (good_write w).
Proof. unfold good_write, is_u32. apply _. Defined.

(** The value of register [j] after the writes, [x] before, and the interrupts they
    send. *)
Definition last_write (ws : list (Z * Z)) (j x : Z) : Z := foldl (fun x '(i, v) => if i =? j then v else x) x ws.
Fixpoint ipis (hi : Z) (ws : list (Z * Z)) : list (Z * Z) :=
  match ws with
  | [] => []
  | (i, v) :: ws =>
      if i =? ICRLO then (hi / 16777216, v) :: ipis hi ws
      else ipis (if i =? ICRHI then v else hi) ws
  end.

(** A far pointer with offset 0. *)
Lemma stw_far m a page :
  0 <= page < 256 ->
  let m' := stw (stw m a 0) (a + 2) (u16 (Z.shiftr (page * 4096) 4)) in
  m' a + 256 * m' (a + 1) + 16 * (m' (a + 2) + 256 * m' (a + 3)) = page * 4096.
Proof.
  intros Hp m'. subst m'. unfold stw, mset, u8, u16. rewrite !Z.shiftr_div_pow2 by lia. change (2 ^ 4) with 16. change (2 ^ 8) with 256.
  repeat match goal with |- context [?x =? ?y] => destruct (x =? y) eqn:?; [try lia|try lia] end. dlia.
Qed.

Section LapicProps.
Context {D : Type} (base : Z) `{LD : LapicDev D base}.

Definition lreg (s : ictl D) (j : Z) : Z := la_reg (ic_dev s) j.
Definition lsent (s : ictl D) : list (Z * Z) := la_sent (ic_dev s).

(** Everything but the device. *)
Definition same_rest (s s' : ictl D) : Prop :=
  irqmask s' = irqmask s /\ ic_n s' = ic_n s /\ ic_mem s' = ic_mem s /\ ic_said s' = ic_said s.

Fixpoint lapicws (ws : list (Z * Z)) : M (ictl D) unit :=
  match ws with
  | [] => ret tt
  | (i, v) :: ws => lapicw base i v ;; lapicws ws
  end.

Lemma stable_range j : j ∈ stable -> 0 <= j < 256.
Proof. intros Hj. assert (Forall (fun j => 0 <= j < 256) stable) as Hf by (repeat constructor; done). by eapply Forall_forall in Hf. Qed.

Lemma commands_not_stable i : i ∈ [EOI; ESR; ICRLO] -> i ∉ stable.
Proof.
  revert i. apply Forall_forall. apply (bool_decide_unpack (Forall (fun i => i ∉ stable) [EOI; ESR; ICRLO])). vm_compute. exact Logic.I.
Qed.

Lemma lapicr_run i s :
  0 <= i < 256 ->
  exists v s', lapicr base i s = Ret v s' /\ (i ∈ stable -> v = lreg s i) /\
    (forall j, j ∈ stable -> lreg s' j = lreg s j) /\ lsent s' = lsent s /\ same_rest s s' /\
    (i = ICRLO -> (Z.land v DELIVS = 0 <-> la_busy (ic_dev s) = 0%nat) /\ la_busy (ic_dev s') = pred (la_busy (ic_dev s))).
Proof.
  intros Hi. destruct s as [d m n me o]. unfold lapicr, dev, zoom, rd_l, lreg, lsent, same_rest. cbn [ic_dev].
  pose proof (la_rd_stable i d) as H1. pose proof (la_rd_regs i d) as H2. pose proof (la_rd_sent i d Hi) as H3.
  pose proof (la_rd_busy d) as H4. pose proof (la_rd_less d) as H5.
  destruct (rd32 (base + 4 * i) d) as [v d'] eqn:E. cbn [fst snd] in *. do 2 eexists. split; [reflexivity|]. cbn [ic_dev set_dev].
  split_and!; try done; [intros; by apply H2|]. intros ->. rewrite E in H4, H5. done.
Qed.

Lemma lapicw_run i v s :
  good_write (i, v) ->
  exists s', lapicw base i v s = Ret tt s' /\ (forall j, j ∈ stable -> lreg s' j = if i =? j then v else lreg s j) /\
    lsent s' = (if i =? ICRLO then lsent s ++ [(lreg s ICRHI / 16777216, v)] else lsent s) /\ same_rest s s'.
Proof.
  intros [Hv Hw]. cbn [fst snd] in *.
  assert (Hi : 0 <= i < 256).
  { destruct Hw as [[Hw _]|Hw]; [by apply stable_range; do 2 right|].
    rewrite !elem_of_cons, elem_of_nil in Hw. destruct Hw as [->|[->|[->|[]]]]; done. }
  set (s1 := set_dev (wr32 (base + 4 * i) v (ic_dev s)) s).
  destruct (lapicr_run ID s1) as (x & s2 & E2 & _ & H1 & H2 & H3 & _); [done|].
  exists s2. split.
  { unfold lapicw. rewrite (bind_run _ _ s tt s1); [|unfold dev, zoom, wr_l, s1; by rewrite u32_small]. by run E2. }
  split_and!; [|rewrite H2; unfold lsent, s1, lreg; cbn [ic_dev set_dev]; by rewrite la_wr_sent|].
  - intros j Hj. rewrite H1 by done. unfold lreg, s1. cbn [ic_dev set_dev]. destruct (i =? j) eqn:E.
    + assert (i = j) as <- by lia. destruct Hw as [[Hc Hz]|Hw]; [by apply la_wr_same|].
      by destruct (commands_not_stable i Hw).
    + apply la_wr_other; [done..|lia].
  - unfold same_rest, s1 in *. cbn [irqmask ic_n ic_mem ic_said set_dev] in H3. done.
Qed.

Lemma lapicws_run ws s :
  Forall good_write ws ->
  exists s', lapicws ws s = Ret tt s' /\ (forall j, j ∈ stable -> lreg s' j = last_write ws j (lreg s j)) /\
    lsent s' = lsent s ++ ipis (lreg s ICRHI) ws /\ same_rest s s'.
Proof.
  intros Hws. revert s. induction Hws as [|[i v] ws Hw _ IH]; intros s; [exists s; cbn; by rewrite app_nil_r|].
  destruct (lapicw_run i v s Hw) as (s1 & E1 & H1 & H2 & H3). destruct (IH s1) as (s2 & E2 & H4 & H5 & H6).
  exists s2. cbn [lapicws]. split; [by run E1|]. split_and!.
  - intros j Hj. rewrite H4 by done. unfold last_write. cbn [foldl]. by rewrite H1.
  - rewrite H5, H2. rewrite (H1 ICRHI) by exact (bool_decide_unpack (ICRHI ∈ stable) Logic.I). cbn [ipis]. destruct (i =? ICRLO) eqn:E.
    + assert (i = ICRLO) as -> by lia. by rewrite <-app_assoc.
    + done.
  - unfold same_rest in *. destruct H3 as (-> & -> & -> & ->) in H6. done.
Qed.

Lemma wait_delivs_run fuel s :
  (la_busy (ic_dev s) < fuel)%nat ->
  exists s', wait_delivs base fuel s = Ret tt s' /\ (forall j, j ∈ stable -> lreg s' j = lreg s j) /\ lsent s' = lsent s /\ same_rest s s'.
Proof.
  revert s. induction fuel as [|fuel IH]; intros s Hf; [lia|].
  destruct (lapicr_run ICRLO s) as (v & s1 & E & _ & H1 & H2 & H3 & H4); [done|]. destruct (H4 eq_refl) as [H5 H6].
  cbn [wait_delivs]. run E. destruct (Z.land v DELIVS =? 0) eqn:Ez; [by exists s1|].
  destruct (IH s1) as (s2 & E2 & H7 & H8 & H9).
  { destruct (la_busy (ic_dev s)) as [|b]; [|lia]. destruct H5 as [_ H5]. specialize (H5 eq_refl). lia. }
  exists s2. split_and!; [done| |by rewrite H8|].
  - intros j Hj. by rewrite H7, H1.
  - unfold same_rest in *. destruct H3 as (-> & -> & -> & ->) in H9. done.
Qed.

(** The writes of lapicinit before its test of the version, after it, and of the
    performance counter between them. *)
Definition init1 : list (Z * Z) :=
  [(SVR, Z.lor ENABLE (T_IRQ0 + IRQ_SPURIOUS)); (TDCR, X1); (TIMER, Z.lor PERIODIC (T_IRQ0 + IRQ_TIMER)); (TICR, 10000000);
   (LINT0, MASKED); (LINT1, MASKED)].
Definition init_pc (ver : Z) : list (Z * Z) := if Z.land (Z.shiftr ver 16) 0xFF >=? 4 then [(PCINT, MASKED)] else [].
Definition init2 : list (Z * Z) :=
  [(ERROR, T_IRQ0 + IRQ_ERROR); (ESR, 0); (ESR, 0); (EOI, 0); (ICRHI, 0); (ICRLO, Z.lor (Z.lor BCAST INIT) LEVEL)].

Lemma lapicws_app ws1 ws2 s : lapicws (ws1 ++ ws2) s = (lapicws ws1 ;; lapicws ws2) s.
Proof.
  revert s. induction ws1 as [|[i v] ws1 IH]; intros s; [done|]. cbn [app lapicws]. rewrite bind_bind. unfold bind. destruct (lapicw base i v s); [apply IH|done..].
Qed.

(** Two ways of nesting the same writes. *)
Ltac writes := repeat (destruct (lapicw base _ _ _) as [[] ?|? ?|?]; [|reflexivity..]); reflexivity.

Lemma lapicinit_writes fuel s v s1 :
  base <> 0 -> (lapicws init1 ;; lapicr base VER) s = Ret v s1 ->
  lapicinit base fuel s = (lapicws (init_pc v) ;; lapicws init2 ;; wait_delivs base fuel ;; lapicw base TPR 0) s1.
Proof.
  intros Hb E. unfold lapicinit. rewrite (proj2 (Z.eqb_neq base 0) Hb).
  assert (Hs : forall (k : Z -> M (ictl D) unit) s0, (lapicw base SVR (Z.lor ENABLE (T_IRQ0 + IRQ_SPURIOUS)) ;; lapicw base TDCR X1 ;;
      lapicw base TIMER (Z.lor PERIODIC (T_IRQ0 + IRQ_TIMER)) ;; lapicw base TICR 10000000 ;; lapicw base LINT0 MASKED ;; lapicw base LINT1 MASKED ;;
      let! v := lapicr base VER in k v) s0 = bind (lapicws init1 ;; lapicr base VER) k s0).
  { intros k s0. cbn [init1 lapicws]. unfold bind, ret. writes. }
  rewrite Hs. rewrite (bind_run _ _ _ _ _ E). cbv beta. unfold init_pc, init2, bind. destruct (_ >=? 4); cbn [lapicws]; unfold bind, ret; writes.
Qed.

Lemma good_init1 : Forall good_write init1.
Proof. apply (bool_decide_unpack (Forall good_write init1)). vm_compute. exact Logic.I. Qed.
Lemma good_init2 : Forall good_write init2.
Proof. apply (bool_decide_unpack (Forall good_write init2)). vm_compute. exact Logic.I. Qed.
Lemma good_init_pc ver : Forall good_write (init_pc ver).
Proof. unfold init_pc. case_match; [|done]. apply (bool_decide_unpack (Forall good_write [(PCINT, MASKED)])). vm_compute. exact Logic.I. Qed.

(** The registers after all writes of lapicinit, and the one interrupt it sends. *)
Definition init_all (ver : Z) : list (Z * Z) := init1 ++ init_pc ver ++ init2 ++ [(TPR, 0)].

Lemma lapicinit_run s :
  base <> 0 ->
  exists n, forall fuel, (n < fuel)%nat -> exists s', lapicinit base fuel s = Ret tt s' /\
    (forall j, j ∈ stable -> lreg s' j = last_write (init_all (lreg s VER)) j (lreg s j)) /\
    lsent s' = lsent s ++ [(0, Z.lor (Z.lor BCAST INIT) LEVEL)] /\ same_rest s s'.
Proof.
  intros Hb. destruct (lapicws_run init1 s good_init1) as (s1 & E1 & R1 & S1 & K1).
  destruct (lapicr_run VER s1) as (v & s2 & E2 & Hv & R2 & S2 & K2 & _); [done|].
  assert (HV : VER ∈ stable) by exact (bool_decide_unpack (VER ∈ stable) Logic.I).
  rewrite (Hv HV), (R1 _ HV) in E2. clear v Hv. change (last_write init1 VER (lreg s VER)) with (lreg s VER) in E2.
  destruct (lapicws_run (init_pc (lreg s VER)) s2 (good_init_pc _)) as (s3 & E3 & R3 & S3 & K3).
  destruct (lapicws_run init2 s3 good_init2) as (s4 & E4 & R4 & S4 & K4).
  exists (la_busy (ic_dev s4)). intros fuel Hf.
  destruct (wait_delivs_run fuel s4 Hf) as (s5 & E5 & R5 & S5 & K5).
  destruct (lapicw_run TPR 0 s5) as (s6 & E6 & R6 & S6 & K6); [by apply (bool_decide_unpack (good_write (TPR, 0)))|].
  exists s6. split.
  { rewrite (lapicinit_writes fuel s (lreg s VER) s2); [|done|by run E1]. run E3. run E4. by run E5. }
  split_and!.
  - intros j Hj. rewrite R6, R5, R4, R3, R2, R1 by done. unfold init_all, last_write. by rewrite !foldl_app.
  - rewrite S6, S5, S4, S3, S2, S1. change (TPR =? ICRLO) with false. cbv iota.
    assert (N1 : forall hi, ipis hi init1 = []) by done. assert (N2 : forall hi, ipis hi (init_pc (lreg s VER)) = []) by (intros; unfold init_pc; by destruct (_ >=? 4)).
    rewrite N1, N2, !app_nil_r. reflexivity.
  - unfold same_rest in *. destruct K6 as (-> & -> & -> & ->), K5 as (-> & -> & -> & ->), K4 as (-> & -> & -> & ->),
      K3 as (-> & -> & -> & ->), K2 as (-> & -> & -> & ->). exact K1.
Qed.

(** What a local vector table entry delivers; [None] while it is masked. *)
Definition lvt (r : Z) : option Z := if Z.testbit r 16 then None else Some (r mod 256).

(** lapicinit ends (once the controller has sent its message) and leaves the
    local APIC enabled, accepting every priority, with the timer periodic at vector
    T_IRQ0 + IRQ_TIMER, errors and spurious interrupts at theirs, the two local lines
    masked and the performance counter too where it exists; it sends one message, the
    level de-assert to all processors. *)
Theorem lapicinit_programs (s : ictl D) :
  base <> 0 ->
  exists n, forall fuel, (n < fuel)%nat -> exists s', lapicinit base fuel s = Ret tt s' /\
    Z.testbit (lreg s' SVR) 8 = true /\ lreg s' SVR mod 256 = T_IRQ0 + IRQ_SPURIOUS /\ lreg s' TPR = 0 /\
    lvt (lreg s' TIMER) = Some (T_IRQ0 + IRQ_TIMER) /\ Z.testbit (lreg s' TIMER) 17 = true /\ lreg s' TICR = 10000000 /\ lreg s' TDCR = X1 /\
    lvt (lreg s' ERROR) = Some (T_IRQ0 + IRQ_ERROR) /\ lvt (lreg s' LINT0) = None /\ lvt (lreg s' LINT1) = None /\
    (4 <= Z.land (Z.shiftr (lreg s VER) 16) 0xFF -> lvt (lreg s' PCINT) = None) /\
    lsent s' = lsent s ++ [(0, Z.lor (Z.lor BCAST INIT) LEVEL)].
Proof.
  intros Hb. destruct (lapicinit_run s Hb) as [n Hn]. exists n. intros fuel Hf. destruct (Hn fuel Hf) as (s' & E & R & S & _).
  exists s'. split; [done|]. rewrite !R by (apply (bool_decide_unpack (_ ∈ stable)); exact Logic.I).
  unfold init_all, last_write, init_pc. destruct (Z.land (Z.shiftr (lreg s VER) 16) 0xFF >=? 4) eqn:E4; split_and!; try done; lia.
Qed.

(** lapicstartap points the warm reset vector (the far pointer at 40:67) at the
    code and sends the target processor INIT, its de-assertion, and two STARTUP
    messages whose vector is the page of the code. *)
Theorem lapicstartap_ipis (s : ictl D) (apicid page : Z) :
  0 <= apicid < 256 -> 0 <= page < 256 ->
  let addr := page * 4096 in
  exists s', lapicstartap base apicid addr s = Ret tt s' /\
    lsent s' = lsent s ++ [(apicid, Z.lor (Z.lor INIT LEVEL) ASSERT); (apicid, Z.lor INIT LEVEL); (apicid, STARTUP + page); (apicid, STARTUP + page)] /\
    (let m := ic_mem s' in m wrv + 256 * m (wrv + 1) + 16 * (m (wrv + 2) + 256 * m (wrv + 3)) = addr) /\
    (forall a, ~ (wrv <= a < wrv + 4) -> ic_mem s' a = ic_mem s a).
Proof.
  intros Ha Hp addr.
  set (d1 := outb (CMOS_PORT + 1) (u8 0x0A) (outb CMOS_PORT (u8 0xF) (ic_dev s))).
  set (m1 := stw (stw (ic_mem s) wrv 0) (wrv + 2) (u16 (Z.shiftr addr 4))).
  set (s1 := MkIc d1 (irqmask s) (ic_n s) m1 (ic_said s)).
  set (hi := Z.shiftl apicid 24). set (up := Z.lor STARTUP (Z.shiftr addr 12)).
  set (ws := [(ICRHI, hi); (ICRLO, Z.lor (Z.lor INIT LEVEL) ASSERT); (ICRLO, Z.lor INIT LEVEL); (ICRHI, hi); (ICRLO, up); (ICRHI, hi); (ICRLO, up)]).
  assert (Hhi : hi / 16777216 = apicid /\ is_u32 hi) by (unfold hi, is_u32; rewrite Z.shiftl_mul_pow2 by lia; split; [apply Z.div_mul; lia|lia]).
  assert (Hup : up = STARTUP + page).
  { unfold up, addr, STARTUP. rewrite Z.shiftr_div_pow2 by lia. change (2 ^ 12) with 4096. rewrite Z.div_mul by lia.
    change 0x600 with (6 * 2 ^ 8). apply lor_top; lia. }
  assert (Hl : Z.land hi DELIVS = 0).
  { unfold hi. rewrite Z.shiftl_mul_pow2 by lia. apply land_low; [lia|]. unfold DELIVS. lia. }
  assert (Hg : Forall good_write ws).
  { assert (Gh : good_write (ICRHI, hi)) by (split; [apply Hhi|left; split; [by apply (bool_decide_unpack (ICRHI ∈ config))|by right]]).
    assert (Gu : good_write (ICRLO, up)) by (split; [rewrite Hup; unfold is_u32, STARTUP; cbn [snd]; lia|right; by apply (bool_decide_unpack (ICRLO ∈ _))]).
    repeat (apply Forall_cons; split); try done; by apply (bool_decide_unpack (good_write _)). }
  destruct (lapicws_run ws s1 Hg) as (s2 & E & _ & S & K). exists s2. split_and!.
  - rewrite <-E. unfold lapicstartap, ws. cbn [lapicws startap_loop]. unfold microdelay, bind, ret, dev, zoom, out_b, modify. cbn [ic_dev set_dev set_memory ic_mem irqmask ic_n ic_said].
    fold hi up d1 m1. fold s1. writes.
  - rewrite S. unfold lsent, s1. cbn [ic_dev]. unfold d1. rewrite !la_out_sent. f_equal. unfold ws. cbn [ipis].
    change (ICRHI =? ICRLO) with false. change (ICRHI =? ICRHI) with true. change (ICRLO =? ICRLO) with true. cbv iota.
    by rewrite (proj1 Hhi), Hup.
  - destruct K as (_ & _ & -> & _). unfold s1, m1. cbn [ic_mem]. by apply stw_far.
  - destruct K as (_ & _ & -> & _). intros a Hna. unfold s1, m1. cbn [ic_mem]. unfold stw, mset. repeat (case_decide || case_match; try lia).
Qed.

End LapicProps.

(** ** The CMOS clock *)

(** The selected register, the time registers once no update is in progress, the
    second status register, and how often the first one still reports an update.
    The time does not advance while it is being read: what the clock promises for
    244 microseconds after an update. *)
Class RtcDev (D : Type) `{Ports D} : Type := {
  rtc_sel : D -> Z;
  rtc_time : D -> Z -> Z;
  rtc_b : D -> Z;
  rtc_upd : D -> nat;
  rtc_out_sel v d : rtc_sel (outb CMOS_PORT v d) = v mod 128;
  rtc_out_rest v d : rtc_time (outb CMOS_PORT v d) = rtc_time d /\ rtc_b (outb CMOS_PORT v d) = rtc_b d /\ rtc_upd (outb CMOS_PORT v d) = rtc_upd d;
  rtc_in_time d : rtc_sel d < CMOS_STATA -> rtc_upd d = 0%nat -> u8 (fst (inb CMOS_RETURN d)) = rtc_time d (rtc_sel d);
  rtc_in_a d : rtc_sel d = CMOS_STATA -> Z.land (u8 (fst (inb CMOS_RETURN d))) CMOS_UIP = 0 <-> rtc_upd d = 0%nat;
  rtc_in_b d : rtc_sel d = CMOS_STATB -> u8 (fst (inb CMOS_RETURN d)) = rtc_b d;
  rtc_in_rest d : rtc_time (snd (inb CMOS_RETURN d)) = rtc_time d /\ rtc_b (snd (inb CMOS_RETURN d)) = rtc_b d;
  rtc_in_upd d : rtc_upd (snd (inb CMOS_RETURN d)) = if rtc_sel d =? CMOS_STATA then pred (rtc_upd d) else rtc_upd d
}.

(** A number below 100 as the clock holds it: two decimal digits, or binary. *)
Definition digits (bcd : bool) (x : Z) : Z := if bcd then x / 10 * 16 + x mod 10 else x.

Lemma CONV_digits x : 0 <= x < 100 -> CONV (digits true x) = x.
Proof.
  intros Hx. unfold CONV, digits. rewrite Z.shiftr_div_pow2 by lia. change 0xf with (Z.ones 4). rewrite Z.land_ones by lia.
  change (2 ^ 4) with 16. unfold u32. dlia.
Qed.

Section Rtc.
Context {D : Type} `{RD : RtcDev D}.

Definition clock (s : ictl D) : Z -> Z := rtc_time (ic_dev s).

Lemma cmos_read_run reg s :
  0 <= reg < 128 ->
  exists v s', cmos_read reg s = Ret v s' /\ clock s' = clock s /\ rtc_b (ic_dev s') = rtc_b (ic_dev s) /\
    rtc_upd (ic_dev s') = (if reg =? CMOS_STATA then pred (rtc_upd (ic_dev s)) else rtc_upd (ic_dev s)) /\
    (reg < CMOS_STATA -> rtc_upd (ic_dev s) = 0%nat -> v = clock s reg) /\
    (reg = CMOS_STATA -> Z.land v CMOS_UIP = 0 <-> rtc_upd (ic_dev s) = 0%nat) /\ (reg = CMOS_STATB -> v = rtc_b (ic_dev s)).
Proof.
  intros Hr. destruct s as [d m n me o]. unfold cmos_read, microdelay, dev, zoom, bind, ret, out_b, in_b, clock. cbn [ic_dev set_dev].
  set (d1 := outb CMOS_PORT (u8 reg) d).
  assert (Hs : rtc_sel d1 = reg) by (unfold d1, u8; rewrite rtc_out_sel, !Z.mod_small by (rewrite ?Z.mod_small; lia); done).
  destruct (rtc_out_rest (u8 reg) d) as (T & B & U). fold d1 in T, B, U.
  pose proof (rtc_in_time d1) as H1. pose proof (rtc_in_a d1) as H2. pose proof (rtc_in_b d1) as H3. destruct (rtc_in_rest d1) as [H4 H5]. pose proof (rtc_in_upd d1) as H6.
  destruct (inb CMOS_RETURN d1) as [v d2]. cbn [fst snd] in *. rewrite Hs, T, B, U in *. do 2 eexists. split; [reflexivity|]. cbn [ic_dev set_dev]. done.
Qed.

(** Six reads, exact when no update is in progress. *)
Lemma fill_rtcdate_run s :
  exists t s', fill_rtcdate s = Ret t s' /\ clock s' = clock s /\ rtc_b (ic_dev s') = rtc_b (ic_dev s) /\ rtc_upd (ic_dev s') = rtc_upd (ic_dev s) /\
    (rtc_upd (ic_dev s) = 0%nat -> t = MkDate (clock s SECS) (clock s MINS) (clock s HOURS) (clock s DAY) (clock s MONTH) (clock s YEAR)).
Proof.
  destruct (cmos_read_run SECS s) as (v1 & s1 & E1 & T1 & B1 & U1 & V1 & _); [done|].
  destruct (cmos_read_run MINS s1) as (v2 & s2 & E2 & T2 & B2 & U2 & V2 & _); [done|].
  destruct (cmos_read_run HOURS s2) as (v3 & s3 & E3 & T3 & B3 & U3 & V3 & _); [done|].
  destruct (cmos_read_run DAY s3) as (v4 & s4 & E4 & T4 & B4 & U4 & V4 & _); [done|].
  destruct (cmos_read_run MONTH s4) as (v5 & s5 & E5 & T5 & B5 & U5 & V5 & _); [done|].
  destruct (cmos_read_run YEAR s5) as (v6 & s6 & E6 & T6 & B6 & U6 & V6 & _); [done|].
  exists (MkDate v1 v2 v3 v4 v5 v6), s6. split; [unfold fill_rtcdate; run E1; run E2; run E3; run E4; run E5; by run E6|].
  cbn [Z.eqb SECS MINS HOURS DAY MONTH YEAR CMOS_STATA Pos.eqb] in U1, U2, U3, U4, U5, U6.
  split_and!; [congruence..|]. intros U0.
  rewrite V1, V2, V3, V4, V5, V6 by (done || congruence). congruence.
Qed.

Lemma same_date_refl t : same_date t t = true.
Proof. unfold same_date. by rewrite !Z.eqb_refl. Qed.

Lemma read_date_run fuel s :
  (rtc_upd (ic_dev s) < fuel)%nat ->
  exists s', read_date fuel s = Ret (MkDate (clock s SECS) (clock s MINS) (clock s HOURS) (clock s DAY) (clock s MONTH) (clock s YEAR)) s'.
Proof.
  revert s. induction fuel as [|fuel IH]; intros s Hf; [lia|].
  destruct (fill_rtcdate_run s) as (t1 & s1 & E1 & T1 & _ & U1 & V1).
  destruct (cmos_read_run CMOS_STATA s1) as (a & s2 & E2 & T2 & _ & U2 & _ & A2 & _); [done|]. specialize (A2 eq_refl). rewrite Z.eqb_refl in U2.
  cbn [read_date]. run E1. run E2. destruct (Z.land a CMOS_UIP =? 0) eqn:Ea; cbn [negb].
  - assert (rtc_upd (ic_dev s1) = 0%nat) as H0 by (apply A2; lia).
    destruct (fill_rtcdate_run s2) as (t2 & s3 & E3 & _ & _ & _ & V3). run E3. rewrite V1, V3 by (rewrite ?U2; congruence || lia).
    rewrite T2, T1, same_date_refl. by eexists.
  - destruct (IH s2) as [s3 E3].
    { destruct (rtc_upd (ic_dev s1)) eqn:E0; [destruct A2 as [_ A2]; specialize (A2 eq_refl); lia|lia]. }
    exists s3. by rewrite E3, T2, T1.
Qed.

(** cmostime returns the date the clock shows, in either of its number formats,
    with the century added, after waiting out an update in progress. *)
Theorem cmostime_date (s : ictl D) (fuel : nat) (sec min hr dy mon yr : Z) :
  let enc := digits (Z.land (rtc_b (ic_dev s)) 4 =? 0) in
  rtc_time (ic_dev s) SECS = enc sec -> rtc_time (ic_dev s) MINS = enc min -> rtc_time (ic_dev s) HOURS = enc hr ->
  rtc_time (ic_dev s) DAY = enc dy -> rtc_time (ic_dev s) MONTH = enc mon -> rtc_time (ic_dev s) YEAR = enc yr ->
  Forall (fun x => 0 <= x < 100) [sec; min; hr; dy; mon; yr] ->
  (rtc_upd (ic_dev s) < fuel)%nat ->
  exists s', cmostime fuel s = Ret (MkDate sec min hr dy mon (2000 + yr)) s'.
Proof.
  intros enc H1 H2 H3 H4 H5 H6 Hr Hf. rewrite !Forall_cons in Hr. destruct Hr as (R1 & R2 & R3 & R4 & R5 & R6 & _).
  destruct (cmos_read_run CMOS_STATB s) as (b & s1 & E1 & T1 & _ & U1 & _ & _ & B1); [done|]. rewrite (B1 eq_refl) in E1.
  destruct (read_date_run fuel s1) as [s2 E2]; [by rewrite U1|]. rewrite T1 in E2. unfold clock in E2. rewrite H1, H2, H3, H4, H5, H6 in E2.
  exists s2. unfold cmostime. run E1. run E2. change (Z.shiftl 1 2) with 4. subst enc. cbn [second minute hour day month year].
  unfold digits. destruct (Z.land (rtc_b (ic_dev s)) 4 =? 0); cbn [second minute hour day month year ret]; unfold ret;
    [rewrite !(CONV_digits _ : _ -> CONV (_ / 10 * 16 + _ mod 10) = _) by done|]; rewrite u32_small by (unfold is_u32; lia); do 2 f_equal; lia.
Qed.

End Rtc.

Module LapicDemo.

(** A controller that is done with a message at once, and a clock at 12:34:56 on
    15 November 2026 with one more reading of an update in progress. *)
Record board : Type := MkBoard { b_reg : Z -> Z; b_sent : list (Z * Z); b_busy : nat; b_sel : Z; b_upd : nat }.
Definition time (r : Z) : Z :=
  match r with 0 => 0x56 | 2 => 0x34 | 4 => 0x12 | 7 => 0x15 | 8 => 0x11 | 9 => 0x26 | _ => 0 end.
Definition lapic_at : Z := 0xFEE00000.
Definition index (a : Z) : Z := (a - lapic_at) / 4.

#[export] Instance board_mmio : Mmio board := {
  rd32 a d := (if index a =? ICRLO then (if b_busy d then 0 else DELIVS) else b_reg d (index a),
               MkBoard (b_reg d) (b_sent d) (if index a =? ICRLO then pred (b_busy d) else b_busy d) (b_sel d) (b_upd d));
  wr32 a v d :=
    if index a =? ICRLO then MkBoard (b_reg d) (b_sent d ++ [(u32 (b_reg d ICRHI) / 16777216, v)]) 0 (b_sel d) (b_upd d)
    else MkBoard (fun j => if j =? index a then v else b_reg d j) (b_sent d) (b_busy d) (b_sel d) (b_upd d)
}.
#[export] Instance board_ports : Ports board := {
  inb port d :=
    (if b_sel d =? CMOS_STATA then (if b_upd d then 0 else 128) else if b_sel d =? CMOS_STATB then 2 else if b_upd d then time (b_sel d) else 0xff,
     MkBoard (b_reg d) (b_sent d) (b_busy d) (b_sel d) (if b_sel d =? CMOS_STATA then pred (b_upd d) else b_upd d));
  outb port v d := if port =? CMOS_PORT then MkBoard (b_reg d) (b_sent d) (b_busy d) (v mod 128) (b_upd d) else d
}.

Lemma index_at i : index (lapic_at + 4 * i) = i.
Proof. unfold index. replace (lapic_at + 4 * i - lapic_at) with (i * 4) by lia. apply Z.div_mul. lia. Qed.

#[export] Instance board_lapic : LapicDev board lapic_at.
Proof.
  refine {| la_reg d j := u32 (b_reg d j); la_sent := b_sent; la_busy := b_busy |}; cbn [rd32 wr32 board_mmio outb board_ports]; intros; rewrite ?index_at.
  - destruct (i =? ICRLO) eqn:E; [|cbn [b_reg]; rewrite Z.eqb_refl; by apply u32_small]. assert (i = ICRLO) as -> by lia.
    exfalso. revert H. apply (bool_decide_unpack (ICRLO ∉ config)). exact Logic.I.
  - destruct (i =? ICRLO); [done|]. cbn [b_reg]. rewrite (proj2 (Z.eqb_neq _ _)) by done. done.
  - by destruct (i =? ICRLO).
  - destruct (i =? ICRLO) eqn:E; [|done]. assert (i = ICRLO) as -> by lia.
    exfalso. revert H. apply (bool_decide_unpack (ICRLO ∉ stable)). exact Logic.I.
  - done.
  - done.
  - rewrite Z.eqb_refl. cbn [fst]. by destruct (b_busy d).
  - by rewrite Z.eqb_refl.
  - by destruct (port =? CMOS_PORT).
  - by destruct (port =? CMOS_PORT).
Defined.

Lemma time_byte r : 0 <= time r < 256.
Proof. unfold time. repeat case_match; lia. Qed.

#[export] Instance board_rtc : RtcDev board.
Proof.
  refine {| rtc_sel := b_sel; rtc_time _ := time; rtc_b _ := 2; rtc_upd := b_upd |}; cbn [inb outb board_ports fst snd]; try done; intros d.
  - intros Hs ->. destruct (b_sel d =? CMOS_STATA) eqn:?; [lia|]. destruct (b_sel d =? CMOS_STATB) eqn:?; [unfold CMOS_STATA, CMOS_STATB in *; lia|].
    apply Z.mod_small, time_byte.
  - intros ->. rewrite Z.eqb_refl. by destruct (b_upd d).
  - by intros ->.
Defined.

Definition board0 : ictl board := MkIc (MkBoard (fun _ => 0) [] 0 0 1) 0 0 (fun _ => 0) [].

Lemma lapicinit_programs_witness :
  exists n, forall fuel, (n < fuel)%nat -> exists s', lapicinit lapic_at fuel board0 = Ret tt s' /\ lvt (lreg lapic_at s' TIMER) = Some 32.
Proof.
  destruct (lapicinit_programs lapic_at board0 ltac:(discriminate)) as [n H]. exists n. intros fuel Hf.
  destruct (H fuel Hf) as (s' & E & _ & _ & _ & T & _). exists s'. split; [exact E|exact T].
Defined.

Lemma lapicstartap_ipis_witness :
  exists s', lapicstartap lapic_at 1 0x7000 board0 = Ret tt s' /\ lsent lapic_at s' = [(1, 0xC500); (1, 0x8500); (1, 0x607); (1, 0x607)].
Proof.
  destruct (lapicstartap_ipis lapic_at board0 1 7 ltac:(lia) ltac:(lia)) as (s' & E & S & _). exists s'. split; [exact E|exact S].
Defined.

Lemma cmostime_date_witness : exists s', cmostime 2 board0 = Ret (MkDate 56 34 12 15 11 2026) s'.
Proof.
  apply (cmostime_date board0 2 56 34 12 15 11 26); try reflexivity; [|cbn; lia]. repeat constructor; discriminate.
Defined.

End LapicDemo.
