(* ===== verification/Ide.v ===== *)
(** * The IDE driver (ide.c)

    The driver of the default build.  Requests wait on a list linked through
    [qnext]; the first one is the request the controller works on.  [iderw]
    appends a request, starts it when the list was empty and sleeps; [ideintr]
    completes the first request and starts the next.

    The controller is hardware: a device with ports, of which the class
    [AtaController] states what the driver relies on.  [idelock] is held over the
    body of each routine except while a process sleeps, so each is one step. *)

From S2P Require Import Prelude.
From S2P Require Import Params.
From S2P Require Import Disk.
From S2P Require Import BufSpec.
From S2P Require Import Bio.
From S2P Require Import Ports.

(** ** The driver *)

Definition IDE_BSY : Z := 0x80.
Definition IDE_DRDY : Z := 0x40.
Definition IDE_DF : Z := 0x20.
Definition IDE_ERR : Z := 0x01.
Definition IDE_CMD_READ : Z := 0x20.
Definition IDE_CMD_WRITE : Z := 0x30.

(** The string instructions: [cnt] 32-bit words, as their bytes in memory order. *)
Class StringPorts (D : Type) : Type := {
  insl : Z -> nat -> D -> list Z * D;
  outsl : Z -> list Z -> D -> D
}.

(** [id_woken] lists the channels [wakeup] was called on. *)
Record ide (D : Type) : Type := MkIde {
  id_buf : list buf;
  idequeue : option nat;
  havedisk1 : bool;
  id_woken : list chan;
  id_dev : D
}.
Arguments MkIde {D} _ _ _ _ _.
Arguments id_buf {D} _.
Arguments idequeue {D} _.
Arguments havedisk1 {D} _.
Arguments id_woken {D} _.
Arguments id_dev {D} _.

Definition set_qnext (q : option nat) (b : buf) : buf :=
  MkBuf (b_flags b) (b_dev b) (b_sector b) (b_prev b) (b_next b) q (b_data b).

Section Driver.
Context {D : Type} `{!Ports D, !StringPorts D}.

Definition on_dev {A} (m : M D A) : M (ide D) A :=
  zoom id_dev (fun d s => MkIde (id_buf s) (idequeue s) (havedisk1 s) (id_woken s) d) m.
Definition on_ibuf (f : buf -> buf) (b : nat) : M (ide D) unit :=
  modify (fun s => MkIde (alter f b (id_buf s)) (idequeue s) (havedisk1 s) (id_woken s) (id_dev s)).
Definition set_idequeue (q : option nat) : M (ide D) unit :=
  modify (fun s => MkIde (id_buf s) q (havedisk1 s) (id_woken s) (id_dev s)).
Definition set_havedisk1 : M (ide D) unit :=
  modify (fun s => MkIde (id_buf s) (idequeue s) true (id_woken s) (id_dev s)).
Definition ide_wakeup (b : nat) : M (ide D) unit :=
  modify (fun s => MkIde (id_buf s) (idequeue s) (havedisk1 s) (id_woken s ++ [ChBuf b]) (id_dev s)).

(** The loop polls the status port at most [fuel] times. *)
Fixpoint idewait (fuel : nat) (checkerr : bool) : M D Z :=
  match fuel with
  | O => out_of_fuel
  | S fuel =>
      let! r := in_b 0x1f7 in
      if negb (Z.land r (Z.lor IDE_BSY IDE_DRDY) =? IDE_DRDY) then idewait fuel checkerr
      else if checkerr && negb (Z.land r (Z.lor IDE_DF IDE_ERR) =? 0) then ret (-1)
      else ret 0
  end.

(** The search for disk 1, [n] polls from the end. *)
Fixpoint probe_disk1 (n : nat) : M (ide D) unit :=
  match n with
  | O => ret tt
  | S n =>
      let! r := on_dev (in_b 0x1f7) in
      if negb (r =? 0) then set_havedisk1 else probe_disk1 n
  end.

(** Without the calls that route the interrupt to a processor. *)
Definition ideinit (fuel : nat) : M (ide D) unit :=
  let! _ := on_dev (idewait fuel false) in
  on_dev (out_b 0x1f6 (Z.lor 0xe0 (Z.shiftl 1 4))) ;;
  probe_disk1 1000 ;;
  on_dev (out_b 0x1f6 (Z.lor 0xe0 (Z.shiftl 0 4))).

Definition idestart (fuel : nat) (b : option nat) : M (ide D) unit :=
  match b with
  | None => panic "idestart"
  | Some b =>
      let! x := get (fun s => node (id_buf s) b) in
      let! _ := on_dev (idewait fuel false) in
      on_dev (out_b 0x3f6 0) ;;
      on_dev (out_b 0x1f2 1) ;;
      on_dev (out_b 0x1f3 (Z.land (b_sector x) 0xff)) ;;
      on_dev (out_b 0x1f4 (Z.land (Z.shiftr (b_sector x) 8) 0xff)) ;;
      on_dev (out_b 0x1f5 (Z.land (Z.shiftr (b_sector x) 16) 0xff)) ;;
      on_dev (out_b 0x1f6 (Z.lor (Z.lor 0xe0 (Z.shiftl (Z.land (b_dev x) 1) 4))
                                 (Z.land (Z.shiftr (b_sector x) 24) 0x0f))) ;;
      if has (b_flags x) B_DIRTY then
        on_dev (out_b 0x1f7 IDE_CMD_WRITE) ;;
        on_dev (modify (outsl 0x1f0 (b_data x)))
      else on_dev (out_b 0x1f7 IDE_CMD_READ)
  end.

Definition ide_insl (b : nat) : M (ide D) unit :=
  let! data := on_dev (fun d => let '(l, d) := insl 0x1f0 128 d in Ret l d) in
  on_ibuf (set_data data) b.

Definition ideintr (fuel : nat) : M (ide D) unit :=
  let! q := get idequeue in
  match q with
  | None => ret tt
  | Some b =>
      let! x := get (fun s => node (id_buf s) b) in
      set_idequeue (b_qnext x) ;;
      (if negb (has (b_flags x) B_DIRTY) then
         let! r := on_dev (idewait fuel true) in
         if r >=? 0 then ide_insl b else ret tt
       else ret tt) ;;
      on_ibuf (fun y => set_flags (setf (b_flags y) B_VALID) y) b ;;
      on_ibuf (fun y => set_flags (clrf (b_flags y) B_DIRTY) y) b ;;
      ide_wakeup b ;;
      let! q := get idequeue in
      match q with
      | None => ret tt
      | Some _ => idestart fuel q
      end
  end.

(** [pp] is [None] for [&idequeue] and [Some i] for [&buf[i].qnext]. *)
Definition deref (s : ide D) (pp : option nat) : option nat :=
  match pp with None => idequeue s | Some i => b_qnext (node (id_buf s) i) end.

Fixpoint queue_end (fuel : nat) (s : ide D) (pp : option nat) : option (option nat) :=
  match fuel with
  | O => None
  | S fuel => match deref s pp with
              | None => Some pp
              | Some i => queue_end fuel s (Some i)
              end
  end.

Definition store_link (pp : option nat) (b : nat) : M (ide D) unit :=
  match pp with
  | None => set_idequeue (Some b)
  | Some i => on_ibuf (set_qnext (Some b)) i
  end.

(** The wait loop of iderw, entered after the request is queued and again after
    every wakeup. *)
Definition iderw_wait (b : nat) : M (ide D) unit :=
  let! x := get (fun s => node (id_buf s) b) in
  if negb (Z.land (b_flags x) (Z.lor B_VALID B_DIRTY) =? B_VALID) then sleep_on (ChBuf b)
  else ret tt.

(** The list holds distinct buffers, so the walk to its end takes at most one
    step more than there are buffers. *)
Definition ide_iderw (fuel : nat) (b : nat) : M (ide D) unit :=
  let! x := get (fun s => node (id_buf s) b) in
  let! have1 := get havedisk1 in
  if negb (has (b_flags x) B_BUSY) then panic "iderw: buf not busy"
  else if Z.land (b_flags x) (Z.lor B_VALID B_DIRTY) =? B_VALID then panic "iderw: nothing to do"
  else if negb (b_dev x =? 0) && negb have1 then panic "iderw: ide disk 1 not present"
  else
    on_ibuf (set_qnext None) b ;;
    let! pp := get (fun s => queue_end (S (length (id_buf s))) s None) in
    match pp with
    | None => out_of_fuel
    | Some pp =>
        store_link pp b ;;
        let! q := get idequeue in
        (if bool_decide (q = Some b) then idestart fuel (Some b) else ret tt) ;;
        iderw_wait b
    end.

End Driver.

(** ** The controller *)

(** What is on the two drives, and the sector writes completed so far. *)
Record medium : Type := MkMedium {
  md_drive0 : gmap Z block;
  md_drive1 : gmap Z block;
  md_written : list (Z * Z * block)
}.
Definition drive (n : Z) (m : medium) : gmap Z block := if n =? 0 then md_drive0 m else md_drive1 m.
Definition med_write (n lba : Z) (d : block) (m : medium) : medium :=
  let w := md_written m ++ [(n, lba, d)] in
  if n =? 0 then MkMedium (<[lba := d]> (md_drive0 m)) (md_drive1 m) w
  else MkMedium (md_drive0 m) (<[lba := d]> (md_drive1 m)) w.

(** What the controller is doing: nothing, a read it has not completed, a write
    that waits for its data or has not completed, or data ready to be taken. *)
Inductive ataop : Type :=
| AIdle
| ARead (n lba : Z)
| AWriteCmd (n lba : Z)
| AWrite (n lba : Z) (d : block)
| AData (d : block).

Record ata : Type := MkAta {
  at_regs : gmap Z Z;
  at_op : ataop;
  at_err : bool;
  at_med : medium
}.
Definition set_reg (p v : Z) (a : ata) : ata := MkAta (<[p := v]> (at_regs a)) (at_op a) (at_err a) (at_med a).
Definition set_op (o : ataop) (a : ata) : ata := MkAta (at_regs a) o false (at_med a).
Definition reg (a : ata) (p : Z) : Z := default 0 (at_regs a !! p).
Definition at_lba (a : ata) : Z :=
  reg a 0x1f3 + 2 ^ 8 * reg a 0x1f4 + 2 ^ 16 * reg a 0x1f5 + 2 ^ 24 * (reg a 0x1f6 mod 16).
Definition at_drv (a : ata) : Z := reg a 0x1f6 / 16 mod 2.

(** The end of a command, successful or not. *)
Definition at_finish (ok : bool) (a : ata) : ata :=
  if ok then
    match at_op a with
    | ARead n lba => set_op (AData (blk (drive n (at_med a)) lba)) a
    | AWrite n lba d => MkAta (at_regs a) AIdle false (med_write n lba d (at_med a))
    | _ => a
    end
  else MkAta (at_regs a) AIdle true (at_med a).

(** A controller in PIO mode.  [ata_lag] is the number of times the status port
    still reads busy.  [ata_finish] is the device ending its command and raising
    the interrupt.  [ata_outsl] says that the data of a write is accepted directly
    after the command: the driver does not wait for DRQ between the two. *)
Class AtaController (D : Type) `{!Ports D, !StringPorts D} : Type := {
  ata_view : D -> ata;
  ata_lag : D -> nat;
  ata_bound : nat;
  ata_finish : bool -> D -> D;
  ata_lag_bound : forall d, (ata_lag d <= ata_bound)%nat;
  ata_poll_busy : forall d n, ata_lag d = S n -> exists v d',
    inb 0x1f7 d = (v, d') /\ Z.land (u8 v) 0xc0 <> 0x40 /\ ata_lag d' = n /\ ata_view d' = ata_view d;
  ata_poll_ready : forall d, ata_lag d = O -> exists v d',
    inb 0x1f7 d = (v, d') /\ Z.land (u8 v) 0xc0 = 0x40 /\
    (Z.land (u8 v) 0x21 =? 0) = negb (at_err (ata_view d)) /\ ata_lag d' = O /\ ata_view d' = ata_view d;
  ata_control : forall d, ata_lag d = O ->
    ata_lag (outb 0x3f6 0 d) = O /\ ata_view (outb 0x3f6 0 d) = ata_view d;
  ata_register : forall d p v, ata_lag d = O -> at_op (ata_view d) = AIdle -> 0x1f2 <= p <= 0x1f6 ->
    ata_lag (outb p v d) = O /\ ata_view (outb p v d) = set_reg p v (ata_view d);
  ata_read : forall d, ata_lag d = O -> at_op (ata_view d) = AIdle -> reg (ata_view d) 0x1f2 = 1 ->
    ata_view (outb 0x1f7 IDE_CMD_READ d) = set_op (ARead (at_drv (ata_view d)) (at_lba (ata_view d))) (ata_view d);
  ata_write : forall d, ata_lag d = O -> at_op (ata_view d) = AIdle -> reg (ata_view d) 0x1f2 = 1 ->
    ata_view (outb 0x1f7 IDE_CMD_WRITE d) = set_op (AWriteCmd (at_drv (ata_view d)) (at_lba (ata_view d))) (ata_view d);
  ata_outsl : forall d n lba data, at_op (ata_view d) = AWriteCmd n lba -> length data = 512%nat ->
    ata_view (outsl 0x1f0 data d) = set_op (AWrite n lba data) (ata_view d);
  ata_insl : forall d data, ata_lag d = O -> at_op (ata_view d) = AData data ->
    exists d', insl 0x1f0 128 d = (data, d') /\ ata_view d' = set_op AIdle (ata_view d);
  ata_finishes : forall ok d, ata_view (ata_finish ok d) = at_finish ok (ata_view d)
}.

(** The sector number and the drive as idestart splits them over the registers. *)
Lemma lba_encode s : 0 <= s < 2 ^ 28 ->
  Z.land s 0xff + 2 ^ 8 * Z.land (Z.shiftr s 8) 0xff + 2 ^ 16 * Z.land (Z.shiftr s 16) 0xff +
  2 ^ 24 * Z.land (Z.shiftr s 24) 0x0f = s.
Proof.
  intros Hs. change 0xff with (Z.ones 8). change 0x0f with (Z.ones 4).
  rewrite !Z.land_ones, !Z.shiftr_div_pow2 by lia. dlia.
Qed.

Lemma drive_encode dev h : 0 <= h < 16 ->
  let v := Z.lor (Z.lor 0xe0 (Z.shiftl (Z.land dev 1) 4)) h in
  0 <= v < 256 /\ v mod 16 = h /\ v / 16 mod 2 = dev mod 2.
Proof.
  intros Hh. change 1 with (Z.ones 1) at 1. rewrite Z.land_ones by lia. change (2 ^ 1) with 2.
  assert (Hd : dev mod 2 = 0 \/ dev mod 2 = 1) by dlia.
  assert (He : exists n, (n < 16)%nat /\ h = Z.of_nat n) by (exists (Z.to_nat h); lia).
  destruct He as (n & Hn & ->), Hd as [-> | ->];
    do 16 (destruct n as [|n]; [vm_compute; intuition congruence|]); lia.
Qed.
