(* ===== verification/Entry.v ===== *)
(** * The first instructions (bootasm.S, entry.S, entryother.S)

    The instructions these files use, on a processor with its control registers,
    segment registers and physical memory: an address goes through the segment's base
    and, once paging is on, through the page directory of 4-megabyte pages.  A page
    fault is undefined behaviour: there is no handler yet. *)

From S2P Require Import Prelude.
From S2P Require Import Params.
From S2P Require Import CString.
From S2P Require Import Mmu.
From S2P Require Import Asm.
From S2P Require Import Seg.
From S2P Require Import Ports.

Module Entry.
Import Seg.

Definition CR0_PE : Z := 0x00000001.
Definition CR0_WP : Z := 0x00010000.
Definition CR0_PG : Z := 0x80000000.
Definition CR4_PSE : Z := 0x00000010.

Inductive sreg : Type := SCS | SDS | SES | SSS | SFS | SGS.
#[export] Instance sreg_eq_dec : EqDecision sreg.
Proof. solve_decision. Defined.

(** A segment register with the base the processor keeps for it.  [e_to] is where the
    code has jumped. *)
Record ecpu (D : Type) : Type := MkE {
  e_eax : Z; e_esp : Z; e_cr0 : Z; e_cr3 : Z; e_cr4 : Z; e_seg : sreg -> Z * Z; e_gdtr : Z * Z; e_if : bool; e_to : option Z; e_mem : mem; e_dev : D
}.
Arguments MkE {D}. Arguments e_eax {D}. Arguments e_esp {D}. Arguments e_cr0 {D}. Arguments e_cr3 {D}. Arguments e_cr4 {D}. Arguments e_seg {D}.
Arguments e_gdtr {D}. Arguments e_if {D}. Arguments e_to {D}. Arguments e_mem {D}. Arguments e_dev {D}.

Inductive cr : Type := CR0 | CR3 | CR4.

Inductive ins : Type :=
| ICli
| IMovEax (v : Z)
| IMovAx (v : Z)
| IMovSeg (r : sreg)
| IPoll (port mask : Z)
| IOutb (v port : Z)
| ILgdt (a : Z)
| ILdCr (c : cr)
| IOrEax (v : Z)
| IStCr (c : cr)
| ILjmp (sel : Z)
| ILdEax (a : Z)
| IMovEsp (v : Z)
| ILdEsp (a : Z)
| ICall (target back : Z)
| ICallMem (a back : Z)
| IJmpEax.

Section Exec.
Context {D : Type} `{Ports D}.
(** The bound on polling a port. *)
Context (polls : nat).
Implicit Types s : ecpu D.

Definition has_bit (v b : Z) : bool := negb (Z.land v b =? 0).

(** Linear to physical. *)
Definition page_dir (s : ecpu D) (i : Z) : Z := ldl (e_mem s) (e_cr3 s + 4 * i).
Definition phys (s : ecpu D) (la : Z) : option Z :=
  if has_bit (e_cr0 s) CR0_PG then
    if has_bit (e_cr4 s) CR4_PSE then translate_ps (page_dir s) la else None
  else Some la.
Definition in_seg (s : ecpu D) (r : sreg) (a : Z) : option Z := phys s (u32 (snd (e_seg s r) + a)).

(** The base of the descriptor a selector names, in the table in memory. *)
Definition desc_base (s : ecpu D) (sel : Z) : Z :=
  let a := fst (e_gdtr s) + Z.land sel (Z.lnot 7) in
  let b i := e_mem s (a + i) in
  b 2 + 256 * b 3 + 65536 * b 4 + 16777216 * b 7.

(** In real mode a selector is a base over 16. *)
Definition load_seg (r : sreg) (sel : Z) (s : ecpu D) : ecpu D :=
  let base := if has_bit (e_cr0 s) CR0_PE then (if sel =? 0 then 0 else desc_base s sel) else 16 * sel in
  MkE (e_eax s) (e_esp s) (e_cr0 s) (e_cr3 s) (e_cr4 s) (fun x => if decide (x = r) then (sel, base) else e_seg s x) (e_gdtr s) (e_if s) (e_to s) (e_mem s) (e_dev s).

Definition set_eax (v : Z) (s : ecpu D) : ecpu D :=
  MkE v (e_esp s) (e_cr0 s) (e_cr3 s) (e_cr4 s) (e_seg s) (e_gdtr s) (e_if s) (e_to s) (e_mem s) (e_dev s).
Definition set_esp (v : Z) (s : ecpu D) : ecpu D :=
  MkE (e_eax s) v (e_cr0 s) (e_cr3 s) (e_cr4 s) (e_seg s) (e_gdtr s) (e_if s) (e_to s) (e_mem s) (e_dev s).
Definition set_cr (c : cr) (v : Z) (s : ecpu D) : ecpu D :=
  match c with
  | CR0 => MkE (e_eax s) (e_esp s) v (e_cr3 s) (e_cr4 s) (e_seg s) (e_gdtr s) (e_if s) (e_to s) (e_mem s) (e_dev s)
  | CR3 => MkE (e_eax s) (e_esp s) (e_cr0 s) v (e_cr4 s) (e_seg s) (e_gdtr s) (e_if s) (e_to s) (e_mem s) (e_dev s)
  | CR4 => MkE (e_eax s) (e_esp s) (e_cr0 s) (e_cr3 s) v (e_seg s) (e_gdtr s) (e_if s) (e_to s) (e_mem s) (e_dev s)
  end.
Definition get_cr (c : cr) (s : ecpu D) : Z := match c with CR0 => e_cr0 s | CR3 => e_cr3 s | CR4 => e_cr4 s end.
Definition set_gdtr (g : Z * Z) (s : ecpu D) : ecpu D :=
  MkE (e_eax s) (e_esp s) (e_cr0 s) (e_cr3 s) (e_cr4 s) (e_seg s) g (e_if s) (e_to s) (e_mem s) (e_dev s).
Definition set_if (b : bool) (s : ecpu D) : ecpu D :=
  MkE (e_eax s) (e_esp s) (e_cr0 s) (e_cr3 s) (e_cr4 s) (e_seg s) (e_gdtr s) b (e_to s) (e_mem s) (e_dev s).
Definition set_to (a : Z) (s : ecpu D) : ecpu D :=
  MkE (e_eax s) (e_esp s) (e_cr0 s) (e_cr3 s) (e_cr4 s) (e_seg s) (e_gdtr s) (e_if s) (Some a) (e_mem s) (e_dev s).
Definition set_mm (m : mem) (s : ecpu D) : ecpu D :=
  MkE (e_eax s) (e_esp s) (e_cr0 s) (e_cr3 s) (e_cr4 s) (e_seg s) (e_gdtr s) (e_if s) (e_to s) m (e_dev s).
Definition set_edev (d : D) (s : ecpu D) : ecpu D :=
  MkE (e_eax s) (e_esp s) (e_cr0 s) (e_cr3 s) (e_cr4 s) (e_seg s) (e_gdtr s) (e_if s) (e_to s) (e_mem s) d.

(** A 32-bit load from the data segment; the words lie within a page. *)
Definition data32 (a : Z) : M (ecpu D) Z := fun s =>
  match in_seg s SDS a with
  | Some p => Ret (ldl (e_mem s) p) s
  | None => Fail (FUndef "page fault")
  end.

Definition push32 (v : Z) : M (ecpu D) unit := fun s =>
  let sp := u32 (e_esp s - 4) in
  match in_seg s SSS sp with
  | Some p => Ret tt (set_mm (stl (e_mem s) p v) (set_esp sp s))
  | None => Fail (FUndef "page fault")
  end.

Fixpoint poll (n : nat) (port mask : Z) : M (ecpu D) unit :=
  match n with
  | O => out_of_fuel
  | S n =>
      let! v := zoom e_dev set_edev (in_b port) in
      modify (fun s => set_eax (e_eax s / 256 * 256 + v) s) ;;
      if has_bit v mask then poll n port mask else ret tt
  end.

Definition exec (i : ins) : M (ecpu D) unit :=
  match i with
  | ICli => modify (set_if false)
  | IMovEax v => modify (set_eax v)
  | IMovAx v => modify (fun s => set_eax (e_eax s / 65536 * 65536 + v) s)
  | IMovSeg r => modify (fun s => load_seg r (e_eax s mod 65536) s)
  | IPoll port mask => poll polls port mask
  | IOutb v port => modify (fun s => set_eax (e_eax s / 256 * 256 + v) s) ;; zoom e_dev set_edev (out_b port v)
  | ILgdt a =>
      let! w := data32 a in
      let! b := data32 (a + 2) in
      modify (set_gdtr (b, w mod 65536))
  | ILdCr c => modify (fun s => set_eax (get_cr c s) s)
  | IOrEax v => modify (fun s => set_eax (Z.lor (e_eax s) v) s)
  | IStCr c => modify (fun s => set_cr c (e_eax s) s)
  | ILjmp sel => modify (load_seg SCS sel)
  | ILdEax a => let! v := data32 a in modify (set_eax v)
  | IMovEsp v => modify (set_esp v)
  | ILdEsp a => let! v := data32 a in modify (set_esp v)
  | ICall target back => push32 back ;; modify (set_to target)
  | ICallMem a back => let! t := data32 a in push32 back ;; modify (set_to t)
  | IJmpEax => modify (fun s => set_to (e_eax s) s)
  end.

Fixpoint exec_all (l : list ins) : M (ecpu D) unit :=
  match l with
  | [] => ret tt
  | i :: l => exec i ;; exec_all l
  end.

End Exec.

(** ** The three entries, up to their call of C *)

Section Code.
(** Link-time addresses: the code's start, its descriptor table and the operand of
    lgdt, the address after the call, and the symbols of C. *)
Context (start gdtdesc back bootmain_ main_ entrypgdir_ stack_ : Z).

Definition SEG_NULLASM : list Z := replicate 8 0.
Definition boot_gdt : list Z := SEG_NULLASM ++ SEG_ASM (Z.lor STA_X STA_R) 0 0xffffffff ++ SEG_ASM STA_W 0 0xffffffff.

Definition zero_segs : list ins := [IMovAx 0; IMovSeg SDS; IMovSeg SES; IMovSeg SSS].
Definition protect : list ins := [ILgdt gdtdesc; ILdCr CR0; IOrEax CR0_PE; IStCr CR0; ILjmp (Z.shiftl SEG_KCODE 3)].
Definition data_segs : list ins :=
  [IMovAx (Z.shiftl Asm.SEG_KDATA 3); IMovSeg SDS; IMovSeg SES; IMovSeg SSS; IMovAx 0; IMovSeg SFS; IMovSeg SGS].

Definition bootasm : list ins :=
  [ICli] ++ zero_segs ++
  [IPoll 0x64 0x2; IOutb 0xd1 0x64; IPoll 0x64 0x2; IOutb 0xdf 0x60] ++
  protect ++ data_segs ++ [IMovEsp start; ICall bootmain_ back].

Definition entry : list ins :=
  [ILdCr CR4; IOrEax CR4_PSE; IStCr CR4;
   IMovEax (v2p entrypgdir_); IStCr CR3;
   ILdCr CR0; IOrEax (Z.lor CR0_PG CR0_WP); IStCr CR0;
   IMovEsp (stack_ + KSTACKSIZE);
   IMovEax main_; IJmpEax].

Definition entryother : list ins :=
  [ICli] ++ zero_segs ++ protect ++ data_segs ++
  [ILdCr CR4; IOrEax CR4_PSE; IStCr CR4;
   ILdEax (start - 12); IStCr CR3;
   ILdCr CR0; IOrEax (Z.lor (Z.lor CR0_PE CR0_PG) CR0_WP); IStCr CR0;
   ILdEsp (start - 4); ICallMem (start - 8) back].

End Code.

End Entry.
