(* ===== verification/EntryProps.v ===== *)
(** * The first instructions reach the kernel

    From real mode or from the boot loader's protected mode the entry code arrives in
    C with flat segments, a stack, and, for the kernel, paging by [entrypgdir]. *)

From S2P Require Import Prelude.
From S2P Require Import Params.
From S2P Require Import CString.
From S2P Require Import Mmu.
From S2P Require Import Asm.
From S2P Require Import Seg.
From S2P Require Import Ports.
From S2P Require Import Entry.

Import Seg Entry.

(** Bytes in physical memory. *)
Definition holds_bytes (m : mem) (a : Z) (bs : list Z) : Prop := forall i b, bs !! i = Some b -> m (a + Z.of_nat i) = b.

(** The words of the entry page directory at [a]. *)
Definition holds_dir (m : mem) (a : Z) : Prop := forall i, 0 <= i < 1024 -> ldl m (a + 4 * i) = entrypgdir i.

(** The operand of lgdt at [desc], and the table it names. *)
Definition holds_gdt (m : mem) (desc gdt_ : Z) : Prop :=
  holds_bytes m desc (le_bytes 2 23 ++ le_bytes 4 gdt_) /\ holds_bytes m gdt_ boot_gdt.

Section Props.
Context {D : Type} `{Ports D} (polls : nat).
Implicit Types s : ecpu D.

Lemma exec_all_app l1 l2 s : exec_all polls (l1 ++ l2) s = (exec_all polls l1 ;; exec_all polls l2) s.
Proof.
  revert s. induction l1 as [|i l1 IH]; intros s; [done|]. cbn [app exec_all]. rewrite bind_bind. unfold bind. destruct (exec polls i s); [apply IH|done..].
Qed.

(** One instruction that needs no memory. *)
Ltac plain := erewrite (bind_run _ _ _ tt); [|reflexivity]; cbv beta.

(** Flat data segments selected by [sel]. *)
Definition flat (sel : Z) (s : ecpu D) : Prop := forall r, r = SDS \/ r = SES \/ r = SSS -> e_seg s r = (sel, 0).

(** Everything but the accumulator and the segment registers. *)
Definition same_but_segs (s s' : ecpu D) : Prop :=
  e_esp s' = e_esp s /\ e_cr0 s' = e_cr0 s /\ e_cr3 s' = e_cr3 s /\ e_cr4 s' = e_cr4 s /\ e_gdtr s' = e_gdtr s /\ e_if s' = e_if s /\
  e_to s' = e_to s /\ e_mem s' = e_mem s /\ e_dev s' = e_dev s.

Lemma zero_segs_run s :
  has_bit (e_cr0 s) CR0_PE = false -> exists s', exec_all polls zero_segs s = Ret tt s' /\ flat 0 s' /\ same_but_segs s s'.
Proof.
  intros Hr. eexists. split; [reflexivity|]. split; [|done].
  assert (Hz : (e_eax s / 65536 * 65536 + 0) mod 65536 = 0) by (rewrite Z.add_0_r; apply Z.mod_mul; lia).
  intros r [->|[->| ->]]; cbn; rewrite Hz, Hr; done.
Qed.

Lemma data32_flat sel a s :
  flat sel s -> has_bit (e_cr0 s) CR0_PG = false -> is_u32 a -> data32 a s = Ret (ldl (e_mem s) a) s.
Proof.
  intros Hf Hp Ha. unfold data32, in_seg, phys. rewrite (Hf SDS) by auto. cbn [snd]. rewrite Hp, Z.add_0_l, u32_small by done. done.
Qed.

Lemma holds_ldl m a bs b0 b1 b2 b3 rest : holds_bytes m a bs -> bs = b0 :: b1 :: b2 :: b3 :: rest -> ldl m a = le_value [b0; b1; b2; b3].
Proof.
  intros Hb ->. unfold ldl. rewrite <-(Hb 0%nat b0), <-(Hb 1%nat b1), <-(Hb 2%nat b2), <-(Hb 3%nat b3) by done. by rewrite Z.add_0_r.
Qed.

(** The operand as lgdt reads it. *)
Lemma gdt_operand m desc gdt_ :
  holds_gdt m desc gdt_ -> is_u32 gdt_ -> ldl m desc mod 65536 = 23 /\ ldl m (desc + 2) = gdt_.
Proof.
  intros [Hd _] Hg. split.
  - rewrite (holds_ldl m desc _ 23 0 (u8 gdt_) (u8 (gdt_ / 256)) [u8 (gdt_ / 256 / 256); u8 (gdt_ / 256 / 256 / 256)] Hd) by reflexivity.
    unfold u8. cbn [le_value]. dlia.
  - assert (Hd' : holds_bytes m (desc + 2) (le_bytes 4 gdt_)).
    { intros i b Hi. replace (desc + 2 + Z.of_nat i) with (desc + Z.of_nat (2 + i)) by lia. apply Hd. exact Hi. }
    rewrite (holds_ldl m _ _ (u8 gdt_) (u8 (gdt_ / 256)) (u8 (gdt_ / 256 / 256)) (u8 (gdt_ / 256 / 256 / 256)) [] Hd') by reflexivity.
    unfold u8, is_u32 in *. cbn [le_value]. dlia.
Qed.

(** The code and data descriptors of the boot table have base 0. *)
Lemma boot_desc_base s sel gdt_ :
  holds_bytes (e_mem s) gdt_ boot_gdt -> fst (e_gdtr s) = gdt_ -> sel = 8 \/ sel = 16 -> desc_base s sel = 0.
Proof.
  intros Hg Hr Hsel. unfold desc_base. rewrite Hr.
  assert (Hat : forall n a, boot_gdt !! n = Some 0 -> a = gdt_ + Z.of_nat n -> e_mem s a = 0) by (intros n a Hn ->; by apply Hg).
  destruct Hsel as [-> | ->]; [change (Z.land 8 (Z.lnot 7)) with 8|change (Z.land 16 (Z.lnot 7)) with 16].
  - rewrite (Hat 10%nat (gdt_ + 8 + 2)), (Hat 11%nat (gdt_ + 8 + 3)), (Hat 12%nat (gdt_ + 8 + 4)), (Hat 15%nat (gdt_ + 8 + 7)) by (done || lia). done.
  - rewrite (Hat 18%nat (gdt_ + 16 + 2)), (Hat 19%nat (gdt_ + 16 + 3)), (Hat 20%nat (gdt_ + 16 + 4)), (Hat 23%nat (gdt_ + 16 + 7)) by (done || lia). done.
Qed.

Lemma has_bit_lor v b c : has_bit (Z.lor v b) c = has_bit v c || has_bit b c.
Proof.
  unfold has_bit. rewrite Z.land_lor_distr_l. destruct (Z.land v c =? 0) eqn:E1; destruct (Z.land b c =? 0) eqn:E2; cbn [negb orb].
  all: destruct (Z.lor (Z.land v c) (Z.land b c) =? 0) eqn:E; cbn; try done; try (apply Z.eqb_eq, Z.lor_eq_0_iff in E; lia).
  apply Z.eqb_neq in E. destruct E. apply Z.lor_eq_0_iff. lia.
Qed.

Lemma protect_run desc gdt_ s :
  flat 0 s -> has_bit (e_cr0 s) CR0_PG = false -> holds_gdt (e_mem s) desc gdt_ -> is_u32 gdt_ -> is_u32 desc -> is_u32 (desc + 2) ->
  exists s', exec_all polls (protect desc) s = Ret tt s' /\ e_cr0 s' = Z.lor (e_cr0 s) CR0_PE /\ fst (e_gdtr s') = gdt_ /\ e_seg s' SCS = (8, 0) /\
    e_esp s' = e_esp s /\ e_cr3 s' = e_cr3 s /\ e_cr4 s' = e_cr4 s /\ e_if s' = e_if s /\ e_to s' = e_to s /\ e_mem s' = e_mem s /\ e_dev s' = e_dev s.
Proof.
  intros Hf Hp Hg Hu1 Hu2 Hu3. destruct (gdt_operand _ _ _ Hg Hu1) as [Q1 Q2]. unfold protect. cbn [exec_all exec].
  rewrite bind_bind. run (data32_flat 0 desc s Hf Hp Hu2). rewrite bind_bind. run (data32_flat 0 (desc + 2) s Hf Hp Hu3). rewrite Q1, Q2.
  eexists. split; [reflexivity|]. cbn -[desc_base has_bit Z.lor]. split; [done|]. split; [done|]. split; [|done].
  cbn [set_cr set_eax set_gdtr e_cr0 e_eax]. rewrite decide_True by done.
  rewrite has_bit_lor.
  change (has_bit CR0_PE CR0_PE) with true. rewrite orb_true_r. f_equal.
  change (8 =? 0) with false. cbv iota. apply (boot_desc_base _ _ gdt_); [apply Hg|done|by left].
Qed.

Lemma data_segs_run gdt_ s :
  has_bit (e_cr0 s) CR0_PE = true -> holds_bytes (e_mem s) gdt_ boot_gdt -> fst (e_gdtr s) = gdt_ ->
  exists s', exec_all polls data_segs s = Ret tt s' /\ flat 16 s' /\ same_but_segs s s' /\ e_seg s' SCS = e_seg s SCS.
Proof.
  intros Hp Hg Hr. eexists. split; [reflexivity|].
  assert (Hz : (e_eax s / 65536 * 65536 + 16) mod 65536 = 16) by dlia.
  split; [|done]. intros r Hin. change (Z.shiftl Asm.SEG_KDATA 3) with 16.
  cbn -[desc_base has_bit Z.modulo Z.div Z.mul Z.add Z.eqb]. rewrite !Hz, !Hp.
  change (16 =? 0) with false. cbv iota. destruct Hin as [->|[->| ->]]; cbn -[desc_base]; f_equal; apply (boot_desc_base _ _ gdt_); auto.
Qed.

(** Addresses once paging by [entrypgdir] is on. *)
Lemma phys_paged s la :
  has_bit (e_cr0 s) CR0_PG = true -> has_bit (e_cr4 s) CR4_PSE = true -> holds_dir (e_mem s) (e_cr3 s) -> is_u32 la ->
  phys s la = translate_ps entrypgdir la.
Proof.
  intros H1 H2 Hd Hl. unfold phys. rewrite H1, H2. unfold translate_ps. assert (E : page_dir s (PDX la) = entrypgdir (PDX la)).
  { apply Hd. rewrite PDX_eq. unfold is_u32 in Hl. dlia. }
  by rewrite E.
Qed.

Lemma phys_low s la :
  has_bit (e_cr0 s) CR0_PG = true -> has_bit (e_cr4 s) CR4_PSE = true -> holds_dir (e_mem s) (e_cr3 s) -> 0 <= la < 4194304 -> phys s la = Some la.
Proof.
  intros H1 H2 Hd Hl. assert (is_u32 la) by (unfold is_u32; lia). rewrite phys_paged, entrypgdir_maps by done. destruct (la <? 4194304) eqn:E; [done|lia].
Qed.

Lemma phys_high s la :
  has_bit (e_cr0 s) CR0_PG = true -> has_bit (e_cr4 s) CR4_PSE = true -> holds_dir (e_mem s) (e_cr3 s) -> KERNBASE <= la < KERNBASE + 4194304 ->
  phys s la = Some (la - KERNBASE).
Proof.
  intros H1 H2 Hd Hl. assert (is_u32 la) by (unfold is_u32, KERNBASE in *; lia). rewrite phys_paged, entrypgdir_maps by done. unfold KERNBASE in *.
  destruct (la <? 4194304) eqn:E; [lia|]. destruct (_ && _) eqn:E2; [done|lia].
Qed.

(** The tail of entryother: paging, the stack and the call. *)
Definition enter_paging (start back : Z) : list ins :=
  [ILdCr CR4; IOrEax CR4_PSE; IStCr CR4; ILdEax (start - 12); IStCr CR3;
   ILdCr CR0; IOrEax (Z.lor (Z.lor CR0_PE CR0_PG) CR0_WP); IStCr CR0; ILdEsp (start - 4); ICallMem (start - 8) back].

Lemma enter_paging_run start back s :
  flat 16 s -> has_bit (e_cr0 s) CR0_PG = false -> 12 <= start < 4194304 ->
  holds_dir (e_mem s) (ldl (e_mem s) (start - 12)) -> KERNBASE + 4 <= ldl (e_mem s) (start - 4) <= KERNBASE + 4194304 ->
  exists s', exec_all polls (enter_paging start back) s = Ret tt s' /\
    e_to s' = Some (ldl (e_mem s) (start - 8)) /\ e_esp s' = ldl (e_mem s) (start - 4) - 4 /\ e_cr3 s' = ldl (e_mem s) (start - 12) /\
    e_cr0 s' = Z.lor (e_cr0 s) (Z.lor (Z.lor CR0_PE CR0_PG) CR0_WP) /\ e_cr4 s' = Z.lor (e_cr4 s) CR4_PSE /\
    e_seg s' = e_seg s /\ e_if s' = e_if s /\ e_dev s' = e_dev s /\
    e_mem s' = stl (e_mem s) (ldl (e_mem s) (start - 4) - 4 - KERNBASE) back.
Proof.
  intros Hf Hp Hst Hd Hsp. set (m := e_mem s) in *. set (dir := ldl m (start - 12)) in *. set (sp := ldl m (start - 4)) in *.
  set (s1 := set_cr CR4 (Z.lor (e_cr4 s) CR4_PSE) (set_eax (Z.lor (e_cr4 s) CR4_PSE) (set_eax (e_cr4 s) s))).
  assert (E1 : data32 (start - 12) s1 = Ret dir s1) by (apply (data32_flat 16); [done|done|unfold is_u32; lia]).
  set (c0 := Z.lor (e_cr0 s) (Z.lor (Z.lor CR0_PE CR0_PG) CR0_WP)).
  set (s2 := set_cr CR0 c0 (set_eax c0 (set_eax (e_cr0 s) (set_cr CR3 dir (set_eax dir s1))))).
  assert (B0 : has_bit (e_cr0 s2) CR0_PG = true) by (cbn [s2 set_cr e_cr0]; unfold c0; rewrite has_bit_lor; apply orb_true_r).
  assert (B4 : has_bit (e_cr4 s2) CR4_PSE = true) by (cbn [s2 s1 set_cr set_eax e_cr4]; rewrite has_bit_lor; apply orb_true_r).
  assert (Hd2 : holds_dir (e_mem s2) (e_cr3 s2)) by exact Hd.
  assert (Hseg : forall r, r = SDS \/ r = SES \/ r = SSS -> e_seg s2 r = (16, 0)) by exact Hf.
  assert (E2 : forall x, x = start - 4 \/ x = start - 8 -> forall v, data32 x (set_esp v s2) = Ret (ldl m x) (set_esp v s2)).
  { intros x Hx v. unfold data32, in_seg. change (e_seg (set_esp v s2)) with (e_seg s2). rewrite (Hseg SDS) by auto. cbn [snd]. rewrite Z.add_0_l, u32_small by (unfold is_u32; lia).
    rewrite phys_low by (done || lia). done. }
  assert (E3 : data32 (start - 4) s2 = Ret sp s2) by exact (E2 (start - 4) (or_introl eq_refl) (e_esp s2)).
  exists (set_to (ldl m (start - 8)) (set_mm (stl m (sp - 4 - KERNBASE) back) (set_esp (sp - 4) (set_esp sp s2)))).
  split; [|by split_and!].
  unfold enter_paging. cbn [exec_all]. do 3 plain. change (set_cr CR4 _ _) with s1.
  rewrite (bind_run _ _ s1 tt (set_eax dir s1)) by (cbn [exec]; by run E1). do 4 plain.
  change (set_cr CR0 _ _) with s2.
  rewrite (bind_run _ _ s2 tt (set_esp sp s2)) by (cbn [exec]; by run E3).
  erewrite (bind_run _ _ _ tt); [reflexivity|]. cbn [exec]. run (E2 (start - 8) (or_intror eq_refl) sp).
  rewrite (bind_run _ _ _ tt (set_mm (stl m (sp - 4 - KERNBASE) back) (set_esp (sp - 4) (set_esp sp s2)))); [reflexivity|].
  unfold push32, in_seg. cbn [e_esp set_esp]. rewrite (u32_small (sp - 4)) by (unfold is_u32, KERNBASE in *; lia).
  change (e_seg (set_esp sp s2)) with (e_seg s2). rewrite (Hseg SSS) by auto. cbn [snd]. rewrite Z.add_0_l, u32_small by (unfold is_u32, KERNBASE in *; lia).
  rewrite (phys_high (set_esp sp s2)) by (done || (unfold KERNBASE in *; lia)). done.
Qed.

(** A processor out of reset or INIT: real mode. *)
Definition real_mode (s : ecpu D) : Prop := has_bit (e_cr0 s) CR0_PE = false /\ has_bit (e_cr0 s) CR0_PG = false.

Lemma flat_frame sel s s' : flat sel s -> e_seg s' = e_seg s -> flat sel s'.
Proof. intros Hf E r Hr. rewrite E. by apply Hf. Qed.

(** A processor started in real mode in entryother's code, whose descriptor table
    is in memory and whose three words below the code are a page directory like
    [entrypgdir], the top of a stack in the first 4 megabytes and a function, calls
    that function on that stack, with interrupts off, protection and paging on, and
    flat segments; its only store is the return address. *)
Theorem entryother_enters (start gdtdesc gdt_ back : Z) (s : ecpu D) :
  real_mode s -> holds_gdt (e_mem s) gdtdesc gdt_ -> is_u32 gdt_ -> is_u32 gdtdesc -> is_u32 (gdtdesc + 2) ->
  12 <= start < 4194304 -> holds_dir (e_mem s) (ldl (e_mem s) (start - 12)) ->
  KERNBASE + 4 <= ldl (e_mem s) (start - 4) <= KERNBASE + 4194304 ->
  exists s', exec_all polls (entryother start gdtdesc back) s = Ret tt s' /\
    e_to s' = Some (ldl (e_mem s) (start - 8)) /\ e_esp s' = ldl (e_mem s) (start - 4) - 4 /\ e_cr3 s' = ldl (e_mem s) (start - 12) /\
    has_bit (e_cr0 s') CR0_PE = true /\ has_bit (e_cr0 s') CR0_PG = true /\ has_bit (e_cr0 s') CR0_WP = true /\
    e_if s' = false /\ flat 16 s' /\ e_seg s' SCS = (8, 0) /\ e_dev s' = e_dev s /\
    e_mem s' = stl (e_mem s) (ldl (e_mem s) (start - 4) - 4 - KERNBASE) back.
Proof.
  intros [HPE HPG] Hg U1 U2 U3 Hst Hd Hsp.
  destruct (zero_segs_run (set_if false s) HPE) as (s1 & E1 & F1 & S1). destruct S1 as (A1 & A2 & A3 & A4 & A5 & A6 & A7 & A8 & A9).
  cbn [set_if e_esp e_cr0 e_cr3 e_cr4 e_gdtr e_if e_to e_mem e_dev] in *.
  destruct (protect_run gdtdesc gdt_ s1 F1) as (s2 & E2 & B1 & B2 & B3 & B4 & B5 & B6 & B7 & B8 & B9 & B10); [by rewrite A2|by rewrite A8|done..|].
  destruct (data_segs_run gdt_ s2) as (s3 & E3 & F3 & S3 & C1); [by rewrite B1, has_bit_lor, orb_true_r|rewrite B9, A8; apply Hg|done|].
  destruct S3 as (D1 & D2 & D3 & D4 & D5 & D6 & D7 & D8 & D9).
  assert (M3 : e_mem s3 = e_mem s) by congruence.
  destruct (enter_paging_run start back s3 F3) as (s4 & E4 & P1 & P2 & P3 & P4 & P5 & P6 & P7 & P8 & P9).
  { rewrite D2, B1, A2, has_bit_lor, HPG. done. } { done. } { by rewrite M3. } { by rewrite M3. }
  rewrite M3 in *. exists s4. split.
  { unfold entryother. change ([ICli] ++ ?l) with (ICli :: l). cbn [exec_all]. rewrite (bind_run _ _ s tt (set_if false s)) by done.
    rewrite exec_all_app. run E1. rewrite exec_all_app. run E2. rewrite exec_all_app. run E3. exact E4. }
  rewrite P4, !has_bit_lor. change (has_bit CR0_PE CR0_PE) with true. change (has_bit CR0_PG CR0_PG) with true. change (has_bit CR0_WP CR0_WP) with true.
  rewrite !orb_true_r, ?orb_true_l, ?orb_true_r. split_and!; try done; try congruence.
  exact (flat_frame 16 s3 s4 F3 P6).
Qed.

(** entry.S, run by the boot loader with paging off: it jumps to main on the boot
    stack, at the kernel's high addresses, while the code it runs stays mapped. *)
Theorem entry_reaches_main (main_ entrypgdir_ stack_ : Z) (s : ecpu D) :
  holds_dir (e_mem s) (v2p entrypgdir_) ->
  exists s', exec_all polls (entry main_ entrypgdir_ stack_) s = Ret tt s' /\
    e_to s' = Some main_ /\ e_esp s' = stack_ + KSTACKSIZE /\ e_cr3 s' = v2p entrypgdir_ /\ has_bit (e_cr0 s') CR0_WP = true /\
    (forall a, 0 <= a < 4194304 -> phys s' a = Some a /\ phys s' (KERNBASE + a) = Some a).
Proof.
  intros Hd. eexists. split; [reflexivity|]. split_and!; [done..| |].
  - cbn -[has_bit Z.lor]. rewrite has_bit_lor. apply orb_true_r.
  - intros a Ha. match goal with |- phys ?x _ = _ /\ _ => set (s' := x) end.
    assert (has_bit (e_cr0 s') CR0_PG = true) by (cbn -[has_bit Z.lor]; rewrite has_bit_lor; apply orb_true_r).
    assert (has_bit (e_cr4 s') CR4_PSE = true) by (cbn -[has_bit Z.lor]; rewrite has_bit_lor; apply orb_true_r).
    split; [by apply phys_low|]. rewrite phys_high by (done || lia). f_equal. lia.
Qed.

End Props.

(** ** The boot sector *)

(** The keyboard controller, whose output port gates address line 20: how often it
    still reads busy, whether the next data byte is for the output port, and the
    gate. *)
Class KbCtl (D : Type) `{Ports D} : Type := {
  kc_busy : D -> nat;
  kc_bound : nat;
  kc_expect : D -> bool;
  kc_a20 : D -> bool;
  kc_busy_bound d : (kc_busy d <= kc_bound)%nat;
  kc_poll d :
    let '(v, d') := inb 0x64 d in
    (Z.land (u8 v) 2 = 0 <-> kc_busy d = 0%nat) /\ kc_busy d' = pred (kc_busy d) /\ kc_expect d' = kc_expect d /\ kc_a20 d' = kc_a20 d;
  kc_cmd d : kc_busy d = 0%nat -> kc_expect (outb 0x64 0xd1 d) = true;
  kc_data v d : kc_busy d = 0%nat -> kc_expect d = true -> kc_a20 (outb 0x60 v d) = Z.testbit v 1
}.

Section BootSector.
Context {D : Type} `{KC : KbCtl D} (polls : nat) (Hpolls : (kc_bound < polls)%nat).
Implicit Types s : ecpu D.

Lemma poll_run n s :
  (kc_busy (e_dev s) < n)%nat ->
  exists s', poll n 0x64 0x2 s = Ret tt s' /\ kc_busy (e_dev s') = 0%nat /\ kc_expect (e_dev s') = kc_expect (e_dev s) /\
    exists v d, s' = set_eax v (set_edev d s).
Proof using KC.
  clear Hpolls. revert s. induction n as [|n IH]; intros s Hn; [lia|]. cbn [poll]. unfold bind, zoom, in_b, modify.
  pose proof (kc_poll (e_dev s)) as Hp. destruct (inb 0x64 (e_dev s)) as [v d]. destruct Hp as (P1 & P2 & P3 & _).
  set (s1 := set_eax _ _). destruct (has_bit (u8 v) 2) eqn:E; unfold has_bit in E.
  - assert (kc_busy (e_dev s) <> 0%nat) by (intros H0; apply P1 in H0; lia).
    destruct (IH s1) as (s2 & E2 & Q1 & Q2 & v2 & d2 & ->); [cbn [s1 set_eax set_edev e_dev]; lia|].
    eexists. split; [exact E2|]. split; [done|]. split; [cbn [s1 set_eax set_edev e_dev] in *; congruence|]. by exists v2, d2.
  - exists s1. split; [done|]. assert (kc_busy (e_dev s) = 0%nat) by (apply P1; lia). split; [cbn [s1 set_eax set_edev e_dev]; lia|].
    split; [done|]. eexists _, _. reflexivity.
Qed.

(** The A20 sequence changes only the accumulator and the device. *)
Lemma a20_run s :
  exists v d, exec_all polls [IPoll 0x64 0x2; IOutb 0xd1 0x64; IPoll 0x64 0x2; IOutb 0xdf 0x60] s = Ret tt (set_eax v (set_edev d s)) /\ kc_a20 d = true.
Proof using KC Hpolls.
  destruct (poll_run polls s) as (s1 & E1 & B1 & _ & v1 & d1 & ->); [pose proof (kc_busy_bound (e_dev s)); lia|].
  cbn [exec_all exec]. run E1. unfold modify, zoom, out_b. unfold bind at 1 2. cbn [e_dev set_eax set_edev].
  match goal with |- context [bind (poll polls 0x64 0x2) _ ?x] => set (s2 := x) end.
  destruct (poll_run polls s2) as (s3 & E3 & B3 & X3 & v3 & d3 & ->); [pose proof (kc_busy_bound (e_dev s2)); lia|]. run E3.
  cbn [e_dev set_eax set_edev] in B3, X3.
  exists (v3 / 256 * 256 + 0xdf), (outb 0x60 (u8 0xdf) d3). split; [reflexivity|].
  rewrite kc_data; [done|done|]. rewrite X3. cbn [s2 set_eax set_edev e_dev]. change (u8 0xd1) with 0xd1. by apply kc_cmd.
Qed.

(** bootasm.S, entered in real mode by the BIOS, calls bootmain on a stack below its
    own code, with interrupts off, protection on, flat segments and address line 20
    enabled. *)
Theorem bootasm_calls (start gdtdesc gdt_ back bootmain_ : Z) (s : ecpu D) :
  real_mode s -> holds_gdt (e_mem s) gdtdesc gdt_ -> is_u32 gdt_ -> is_u32 gdtdesc -> is_u32 (gdtdesc + 2) -> 4 <= start < 1048576 ->
  exists s', exec_all polls (bootasm start gdtdesc back bootmain_) s = Ret tt s' /\
    e_to s' = Some bootmain_ /\ e_esp s' = start - 4 /\ has_bit (e_cr0 s') CR0_PE = true /\ has_bit (e_cr0 s') CR0_PG = false /\
    e_if s' = false /\ flat 16 s' /\ e_seg s' SCS = (8, 0) /\ kc_a20 (e_dev s') = true /\ e_mem s' = stl (e_mem s) (start - 4) back.
Proof using KC Hpolls.
  intros [HPE HPG] Hg U1 U2 U3 Hst.
  destruct (zero_segs_run polls (set_if false s) HPE) as (s1 & E1 & F1 & A1 & A2 & A3 & A4 & A5 & A6 & A7 & A8 & A9).
  cbn [set_if e_esp e_cr0 e_cr3 e_cr4 e_gdtr e_if e_to e_mem e_dev] in *.
  destruct (a20_run s1) as (va & da & Ea & Ka). set (sa := set_eax va (set_edev da s1)) in *.
  destruct (protect_run polls gdtdesc gdt_ sa) as (s2 & E2 & B1 & B2 & B3 & B4 & B5 & B6 & B7 & B8 & B9 & B10);
    [exact F1|cbn [sa set_eax set_edev e_cr0]; by rewrite A2|cbn [sa set_eax set_edev e_mem]; by rewrite A8|done..|].
  cbn [sa set_eax set_edev e_esp e_cr0 e_if e_mem e_dev] in B1, B4, B7, B9, B10.
  destruct (data_segs_run polls gdt_ s2) as (s3 & E3 & F3 & (D1 & D2 & D3 & D4 & D5 & D6 & D7 & D8 & D9) & C1);
    [by rewrite B1, has_bit_lor, orb_true_r|rewrite B9, A8; apply Hg|done|].
  assert (M3 : e_mem s3 = e_mem s) by congruence. assert (P3 : has_bit (e_cr0 s3) CR0_PG = false) by (rewrite D2, B1, A2, has_bit_lor, HPG; done).
  exists (set_to bootmain_ (set_mm (stl (e_mem s) (start - 4) back) (set_esp (start - 4) (set_esp start s3)))). split.
  { unfold bootasm. change ([ICli] ++ ?l) with (ICli :: l). cbn [exec_all]. rewrite (bind_run _ _ s tt (set_if false s)) by done.
    rewrite exec_all_app. run E1. rewrite exec_all_app. run Ea. rewrite exec_all_app. run E2. rewrite exec_all_app. run E3.
    cbn [exec_all exec]. unfold modify at 1. unfold bind at 1. unfold bind, push32, in_seg. cbn [e_esp set_esp]. rewrite (u32_small (start - 4)) by (unfold is_u32; lia).
    change (e_seg (set_esp start s3)) with (e_seg s3). rewrite (F3 SSS) by auto. cbn [snd]. rewrite Z.add_0_l, (u32_small (start - 4)) by (unfold is_u32; lia).
    unfold phys. change (e_cr0 (set_esp start s3)) with (e_cr0 s3). rewrite P3. change (e_mem (set_esp start s3)) with (e_mem s3). by rewrite M3. }
  cbn [set_to set_mm set_esp e_to e_esp e_cr0 e_if e_dev e_mem].
  split_and!; try done; try congruence; [by rewrite D2, B1, has_bit_lor, orb_true_r|cbn; congruence].
Qed.

End BootSector.
