(* ===== verification/Smp.v ===== *)
(** * Starting the other processors (startothers of main.c, entryother.S)

    The boot processor copies entryother's code to 0x7000, and for each other
    processor allocates a stack, leaves three words below the code, sends the startup
    messages and waits for [started].  A processor that has been sent a startup
    message runs the code at the page the message names; from then on it is in the
    kernel, and may change memory that is neither free, nor part of the entry code,
    nor the page directory.  The processors' steps interleave in any order; the few
    instructions of a processor's entry are one step, since no one else changes what
    they read. *)

From S2P Require Import Prelude.
From S2P Require Import Params.
From S2P Require Import CString.
From S2P Require Import Mmu.
From S2P Require Import Kalloc.
From S2P Require Import Ports.
From S2P Require Import Intr.
From S2P Require Import LapicProps.
From S2P Require Import Seg.
From S2P Require Import Entry.
From S2P Require Import EntryProps.

Module Smp.

(** Where a processor entered the kernel: the function called, its stack pointer and
    its page directory. *)
Record ap : Type := MkAp { ap_to : option Z; ap_esp : Z; ap_cr3 : Z }.

(** The boot processor: about to copy the code, at the head of the loop for a
    processor, or waiting for it. *)
Inductive bpc : Type := BCopy | BFor (c : nat) | BWait (c : nat).

Section Smp.
Context {D : Type} (lapic : Z) `{LD : LapicDev D lapic}.
(** Link-time addresses: the end of the kernel, the image of entryother and its size,
    the operand of its lgdt and the address after its call, mpenter and
    entrypgdir. *)
Context (end_ image size gdtdesc back mpenter entrypgdir_ : Z).
(** The APIC ids of the processors, and the index of this one. *)
Context (ids : list Z) (me : nat).

Record smp : Type := MkSmp { sm_k : kst; sm_ic : ictl D; sm_up : nat -> option ap; sm_started : nat -> bool; sm_pc : bpc }.

Definition on_k {A} (m : M kst A) : M (kst * ictl D) A := zoom fst (fun k s => (k, snd s)) m.
(** The drivers see the same memory. *)
Definition on_ic {A} (m : M (ictl D) A) : M (kst * ictl D) A :=
  zoom (fun s => set_memory (k_mem (fst s)) (snd s)) (fun i s => (set_mem (ic_mem i) (fst s), i)) m.

Definition code : Z := p2v 0x7000.

Definition copy_code : M (kst * ictl D) unit := on_k (modify (fun k => set_mem (KString.memmove (k_mem k) code image size) k)).

(** The body of the loop, up to the wait. *)
Definition start_cpu (id : Z) : M (kst * ictl D) unit :=
  let! stack := on_k kalloc in
  on_k (store (code - 4) (u32 (stack + KSTACKSIZE))) ;;
  on_k (store (code - 8) mpenter) ;;
  on_k (store (code - 12) (v2p entrypgdir_)) ;;
  on_ic (Lapic.lapicstartap lapic id (v2p code)).

(** Physical memory. *)
Definition pmem (m : mem) : mem := fun a => m (a + KERNBASE).
Definition vmem (m : mem) : mem := fun a => m (a - KERNBASE).

Definition set_up (c : nat) (x : ap) (f : nat -> option ap) : nat -> option ap := fun i => if decide (i = c) then Some x else f i.
Definition set_started (c : nat) (f : nat -> bool) : nat -> bool := fun i => if decide (i = c) then true else f i.

(** Addresses the processors in the kernel leave alone. *)
Definition fixed (k : kst) (a : Z) : Prop :=
  code - 12 <= a < code + size \/ entrypgdir_ <= a < entrypgdir_ + 4096 \/ exists l, kinv end_ k l /\ page_of a ∈ l.

Inductive smp_step : smp -> smp -> Prop :=
| SCopy k ic up st k' ic' :
    copy_code (k, ic) = Ret tt (k', ic') -> smp_step (MkSmp k ic up st BCopy) (MkSmp k' ic' up st (BFor 0))
| SSelf k ic up st :
    (me < length ids)%nat -> smp_step (MkSmp k ic up st (BFor me)) (MkSmp k ic up st (BFor (S me)))
| SStart k ic up st c id k' ic' :
    ids !! c = Some id -> c <> me -> start_cpu id (k, ic) = Ret tt (k', ic') ->
    smp_step (MkSmp k ic up st (BFor c)) (MkSmp k' ic' up st (BWait c))
| SSeen k ic up st c :
    st c = true -> smp_step (MkSmp k ic up st (BWait c)) (MkSmp k ic up st (BFor (S c)))
| SEnter k ic up st pc c id page polls e e' :
    ids !! c = Some id -> up c = None -> 0 <= page < 256 -> (id, Lapic.STARTUP + page) ∈ la_sent (ic_dev ic) ->
    real_mode e -> Entry.e_mem e = pmem (k_mem k) -> Entry.e_dev e = ic_dev ic ->
    Entry.exec_all polls (Entry.entryother (page * 4096) gdtdesc back) e = Ret tt e' ->
    smp_step (MkSmp k ic up st pc)
      (MkSmp (set_mem (vmem (Entry.e_mem e')) k) ic (set_up c (MkAp (Entry.e_to e') (Entry.e_esp e') (Entry.e_cr3 e')) up) st pc)
| SUp k ic up st pc c :
    is_Some (up c) -> smp_step (MkSmp k ic up st pc) (MkSmp k ic up (set_started c st) pc)
| SOther k ic up st pc c m' :
    is_Some (up c) -> (forall a, fixed k a -> m' a = k_mem k a) ->
    smp_step (MkSmp k ic up st pc) (MkSmp (set_mem m' k) ic up st pc).

End Smp.
Arguments smp : clear implicits.

End Smp.

(** * Every processor enters the kernel on a stack of its own *)

Import Smp.

(** Two views of a word. *)
Lemma pmem_ldl m a : ldl (pmem m) a = ldl m (a + KERNBASE).
Proof.
  unfold ldl, pmem. replace (a + 1 + KERNBASE) with (a + KERNBASE + 1) by lia. replace (a + 2 + KERNBASE) with (a + KERNBASE + 2) by lia.
  by replace (a + 3 + KERNBASE) with (a + KERNBASE + 3) by lia.
Qed.

Lemma vmem_stl m a v x : vmem (stl (pmem m) a v) x = stl m (a + KERNBASE) v x.
Proof.
  unfold vmem. unfold stl, mset, pmem.
  replace (x - KERNBASE =? a + 3) with (x =? a + KERNBASE + 3) by lia. replace (x - KERNBASE =? a + 2) with (x =? a + KERNBASE + 2) by lia.
  replace (x - KERNBASE =? a + 1) with (x =? a + KERNBASE + 1) by lia. replace (x - KERNBASE =? a) with (x =? a + KERNBASE) by lia.
  by replace (x - KERNBASE + KERNBASE) with x by lia.
Qed.

Lemma holds_bytes_same m m' a bs :
  holds_bytes m a bs -> (forall x, a <= x < a + zlen bs -> m' x = m x) -> holds_bytes m' a bs.
Proof.
  intros Hb Hs i b Hi. rewrite Hs; [by apply Hb|]. apply lookup_lt_Some in Hi. unfold zlen. lia.
Qed.

Section Props.
Context {D : Type} (lapic : Z) `{LD : LapicDev D lapic}.
Context (end_ image size gdtdesc gdt_ back mpenter entrypgdir_ : Z) (ids : list Z) (me : nat).

(** The kernel is linked above the first megabyte and ends below the fourth, the image
    of entryother fits its page, and its descriptor table lies in it. *)
Record layout_ok : Prop := {
  lo_end : end_ <= KERNBASE + 4194304;
  lo_image : KERNBASE + 1048576 <= image /\ image + size <= end_;
  lo_size : 0 <= size <= 4096;
  lo_dir : KERNBASE + 1048576 <= entrypgdir_ /\ entrypgdir_ + 4096 <= end_;
  lo_desc : 0x7000 <= gdtdesc /\ gdtdesc + 6 <= 0x7000 + size;
  lo_gdt : 0x7000 <= gdt_ /\ gdt_ + 24 <= 0x7000 + size;
  lo_mpenter : is_u32 mpenter;
  lo_ids : NoDup ids;
  lo_id : Forall (fun id => 0 <= id < 256) ids
}.
Context (LO : layout_ok).

Lemma code_at : code = KERNBASE + 0x7000.
Proof. reflexivity. Qed.
Lemma wrv_at : Lapic.wrv = KERNBASE + 0x467.
Proof. reflexivity. Qed.

Lemma page_above p : page_ok end_ p -> KERNBASE + 1048576 <= p.
Proof using LO. destruct LO. unfold page_ok. lia. Qed.

(** Stores below the first megabyte do not touch the free pages. *)
Lemma kinv_low k l m' :
  kinv end_ k l -> (forall a, KERNBASE + 1048576 <= a -> m' a = k_mem k a) -> kinv end_ (set_mem m' k) l.
Proof using LO.
  intros Hk Hs. apply (kinv_same end_ (fun p => p < KERNBASE + 1048576)); [done| |].
  - intros a Ha. apply Hs. unfold page_of, KERNBASE in *. dlia.
  - intros p Hp Hlt. destruct Hk as [_ Hp' _]. rewrite Forall_forall in Hp'. specialize (Hp' p Hp). apply page_above in Hp'. lia.
Qed.

(** The words startothers leaves below the code. *)
Definition words (m : mem) (stack : Z) : Prop :=
  ldl m (code - 4) = stack + 4096 /\ ldl m (code - 8) = mpenter /\ ldl m (code - 12) = v2p entrypgdir_.

Lemma start_cpu_run id k ic p free :
  kinv end_ k (p :: free) -> p + 4096 <= KERNBASE + 4194304 -> 0 <= id < 256 ->
  exists k' ic', start_cpu lapic mpenter entrypgdir_ id (k, ic) = Ret tt (k', ic') /\ kinv end_ k' free /\ words (k_mem k') p /\
    (forall a, ~ (code - 12 <= a < code) -> ~ (Lapic.wrv <= a < Lapic.wrv + 4) -> k_mem k' a = k_mem k a) /\
    la_sent (ic_dev ic') = la_sent (ic_dev ic) ++
      [(id, Z.lor (Z.lor Lapic.INIT Lapic.LEVEL) Lapic.ASSERT); (id, Z.lor Lapic.INIT Lapic.LEVEL); (id, Lapic.STARTUP + 7); (id, Lapic.STARTUP + 7)].
Proof using LO LD.
  intros Hk Hp Hid. destruct (run_kalloc_cons end_ k p free Hk) as [Ek Hk1]. set (k1 := set_freelist _ k) in *.
  assert (Hpa : page_ok end_ p) by (destruct Hk as [_ Hps _]; by apply Forall_cons in Hps as [? _]). assert (HP := page_above p Hpa).
  assert (Hv : is_u32 (v2p entrypgdir_)) by apply u32_range.
  set (m1 := stl (stl (stl (k_mem k) (code - 4) (u32 (p + KSTACKSIZE))) (code - 8) mpenter) (code - 12) (v2p entrypgdir_)).
  destruct (lapicstartap_ipis lapic (set_memory m1 ic) id 7) as (ic' & Ei & Es & _ & Em); [done|lia|].
  change (v2p code) with (7 * 4096) in *. cbn [ic_mem set_memory] in Em.
  exists (set_mem (ic_mem ic') k1), ic'. split.
  { unfold start_cpu. rewrite (bind_run _ _ _ p (k1, ic)); [|unfold on_k; exact (zoom_run fst _ kalloc (k, ic) p k1 Ek)].
    unfold on_k at 1 2 3, zoom at 1 2 3, store, modify. unfold bind at 1 2 3. cbn [fst snd]. unfold on_ic, zoom. cbn [fst snd set_mem k_mem].
    change (k_mem k1) with (k_mem k). fold m1. change (v2p code) with (7 * 4096). rewrite Ei. done. }
  rewrite code_at, wrv_at in *. unfold KERNBASE in *.
  assert (W : forall a, ~ (0x80000467 <= a < 0x80000467 + 4) -> ic_mem ic' a = m1 a) by exact Em.
  assert (Hm1 : forall a, ~ (0x80007000 - 12 <= a < 0x80007000) -> m1 a = k_mem k a).
  { intros a Ha. unfold m1. rewrite code_at. unfold KERNBASE. rewrite !stl_ne by lia. done. }
  split_and!.
  - apply kinv_low; [done|]. intros a Ha. unfold KERNBASE in *. rewrite W, Hm1 by lia. done.
  - cbn [set_mem k_mem]. unfold words. rewrite code_at. unfold KERNBASE.
    assert (WL : forall a, 0x80006ff4 <= a <= 0x80006ffc -> ldl (ic_mem ic') a = ldl m1 a) by (intros a Ha; apply ldl_ext; intros x Hx; apply W; lia).
    rewrite !WL by lia. unfold m1. rewrite code_at. unfold KERNBASE, KSTACKSIZE. destruct LO.
    assert (u32 (p + 4096) = p + 4096) as -> by (apply u32_small; unfold is_u32; lia). split_and!.
    + rewrite !ldl_stl_ne by lia. apply ldl_stl_eq. lia.
    + rewrite ldl_stl_ne by lia. by apply ldl_stl_eq.
    + by apply ldl_stl_eq.
  - intros a H1 H2. cbn [set_mem k_mem]. rewrite W, Hm1 by lia. done.
  - exact Es.
Qed.

(** The entry code in place: its descriptor table and the page directory. *)
Definition code_ok (m : mem) : Prop := holds_gdt (pmem m) gdtdesc gdt_ /\ holds_dir (pmem m) (v2p entrypgdir_).

(** The same, before the copy. *)
Definition image_ok (m : mem) : Prop :=
  holds_bytes m (image + (gdtdesc - 0x7000)) (le_bytes 2 23 ++ le_bytes 4 gdt_) /\ holds_bytes m (image + (gdt_ - 0x7000)) Entry.boot_gdt /\
  holds_dir (pmem m) (v2p entrypgdir_).

Definition next (pc : bpc) : nat := match pc with BCopy => 0 | BFor c => c | BWait c => S c end.

(** [asg]: the processors started so far, with their stacks; [free]: the free pages. *)
Record smp_inv (s : smp D) (asg : list (nat * Z)) (free : list Z) : Prop := {
  si_kinv : kinv end_ (sm_k s) free;
  si_nodup : NoDup (asg.*2 ++ free);
  si_low : Forall (fun p => page_ok end_ p /\ p + 4096 <= KERNBASE + 4194304) (asg.*2 ++ free);
  si_room : (length ids <= length free + next (sm_pc s))%nat;
  si_asg : NoDup asg.*1 /\ forall c stk, (c, stk) ∈ asg -> (c < next (sm_pc s))%nat;
  si_sent : forall id page, 0 <= page < 256 -> (id, Lapic.STARTUP + page) ∈ la_sent (ic_dev (sm_ic s)) ->
    page = 7 /\ exists c stk, ids !! c = Some id /\ (c, stk) ∈ asg;
  si_up : forall c a, sm_up s c = Some a -> exists stk, (c, stk) ∈ asg /\ a = MkAp (Some mpenter) (stk + 4092) (v2p entrypgdir_);
  si_started : forall c, sm_started s c = true -> is_Some (sm_up s c);
  si_wait : forall c stk, (c, stk) ∈ asg -> sm_up s c = None -> sm_pc s = BWait c /\ words (k_mem (sm_k s)) stk;
  si_pc : (next (sm_pc s) <= length ids)%nat /\ sm_pc s <> BWait me;
  si_done : forall c, (c < next (sm_pc s))%nat -> c <> me -> exists stk, (c, stk) ∈ asg;
  si_msg : forall c stk id, (c, stk) ∈ asg -> ids !! c = Some id -> (id, Lapic.STARTUP + 7) ∈ la_sent (ic_dev (sm_ic s));
  si_code : if sm_pc s is BCopy then image_ok (k_mem (sm_k s)) /\ asg = [] else code_ok (k_mem (sm_k s))
}.

(** Memory that keeps the entry code and the directory. *)
Lemma code_ok_same m m' :
  code_ok m -> (forall a, code <= a < code + size \/ entrypgdir_ <= a < entrypgdir_ + 4096 -> m' a = m a) -> code_ok m'.
Proof using LO.
  intros [[H1 H2] H3] Hs. rewrite code_at in Hs. destruct LO. split; [split|].
  - eapply holds_bytes_same; [exact H1|]. intros x Hx. unfold pmem. apply Hs. left. change (zlen (le_bytes 2 23 ++ le_bytes 4 gdt_)) with 6 in Hx. lia.
  - eapply holds_bytes_same; [exact H2|]. intros x Hx. unfold pmem. apply Hs. left. change (zlen Entry.boot_gdt) with 24 in Hx. lia.
  - intros i Hi. rewrite <-(H3 i Hi), !pmem_ldl. apply ldl_ext. intros x Hx. apply Hs. right.
    unfold v2p in Hx. rewrite u32_small in Hx by (unfold is_u32, KERNBASE in *; lia). lia.
Qed.

Lemma words_same m m' stk : words m stk -> (forall a, code - 12 <= a < code -> m' a = m a) -> words m' stk.
Proof using Type. intros (H1 & H2 & H3) Hs. unfold words. rewrite <-H1, <-H2, <-H3. split_and!; apply ldl_ext; intros x Hx; apply Hs; lia. Qed.

Lemma inv_copy k ic up st k' ic' asg free :
  smp_inv (MkSmp k ic up st BCopy) asg free -> copy_code image size (k, ic) = Ret tt (k', ic') -> smp_inv (MkSmp k' ic' up st (BFor 0)) asg free.
Proof using LO.
  intros [I1 I2 I3 I4 I5 I6 I7 I8 I9 IP IA IB [[J1 [J2 J3]] ->]] E. cbn [sm_k sm_ic sm_up sm_started sm_pc next] in *.
  unfold copy_code, on_k, zoom, modify in E. cbn [fst snd] in E. injection E as <- <-.
  assert (HL := LO). destruct HL.
  assert (M : forall x, KString.memmove (k_mem k) code image size x = if (code <=? x) && (x <? code + size) then k_mem k (x - code + image) else k_mem k x)
    by (intros x; apply memmove_run; lia).
  rewrite code_at in M. constructor; cbn [sm_k sm_ic sm_up sm_started sm_pc next set_mem k_mem]; try done.
  - apply kinv_low; [done|]. intros a Ha. rewrite code_at, M. destruct (_ && _) eqn:E; [unfold KERNBASE in *; lia|done].
  - intros c stk Hc. by apply not_elem_of_nil in Hc.
  - split; [lia|done].
  - rewrite code_at. split; [split|].
    + intros i b Hi. unfold pmem. rewrite M. assert (Hlt := lookup_lt_Some _ _ _ Hi). change (length (le_bytes 2 23 ++ le_bytes 4 gdt_)) with 6%nat in Hlt.
      destruct (_ && _) eqn:E; [|lia]. rewrite <-(J1 i b Hi). f_equal. lia.
    + intros i b Hi. unfold pmem. rewrite M. assert (Hlt := lookup_lt_Some _ _ _ Hi). change (length Entry.boot_gdt) with 24%nat in Hlt.
      destruct (_ && _) eqn:E; [|lia]. rewrite <-(J2 i b Hi). f_equal. lia.
    + intros i Hi. rewrite <-(J3 i Hi), !pmem_ldl. apply ldl_ext. intros x Hx. rewrite M. destruct (_ && _) eqn:E; [|done].
      unfold v2p in Hx. rewrite u32_small in Hx by (unfold is_u32, KERNBASE in *; lia). unfold KERNBASE in *. lia.
Qed.

Lemma inv_start k ic up st c id k' ic' asg free :
  smp_inv (MkSmp k ic up st (BFor c)) asg free -> ids !! c = Some id -> c <> me -> start_cpu lapic mpenter entrypgdir_ id (k, ic) = Ret tt (k', ic') ->
  exists p free', smp_inv (MkSmp k' ic' up st (BWait c)) ((c, p) :: asg) free'.
Proof using LO LD.
  intros [I1 I2 I3 I4 [I5 I5'] I6 I7 I8 I9 IP IA IB I10] Hc Hme E. cbn [sm_k sm_ic sm_up sm_started sm_pc next] in *.
  assert (Hlt := lookup_lt_Some _ _ _ Hc). destruct free as [|p free]; [cbn in I4; lia|].
  assert (HL := LO). destruct HL. assert (Hid : 0 <= id < 256) by (by eapply Forall_lookup_1 in lo_id0).
  assert (Hp : page_ok end_ p /\ p + 4096 <= KERNBASE + 4194304) by (apply Forall_app in I3 as [_ I3]; by apply Forall_cons in I3 as [? _]).
  destruct (start_cpu_run id k ic p free I1 ltac:(apply Hp) Hid) as (k1 & ic1 & E1 & K1 & W1 & M1 & S1). rewrite E1 in E. injection E as <- <-.
  assert (Hnew : forall stk, (c, stk) ∉ asg) by (intros stk H1; apply I5' in H1; lia).
  assert (Hup : up c = None) by (destruct (up c) eqn:Eu; [destruct (I7 c _ Eu) as (stk & H1 & _); by apply Hnew in H1|done]).
  exists p, free. constructor; cbn [sm_k sm_ic sm_up sm_started sm_pc next fmap list_fmap fst snd length app] in *.
  - done.
  - eapply NoDup_Permutation_proper; [|exact I2]. apply Permutation_middle.
  - apply Forall_cons. split; [done|]. apply Forall_app in I3 as [H1 H2]. apply Forall_cons in H2 as [_ H2]. by apply Forall_app.
  - lia.
  - split.
    + apply NoDup_cons. split; [|done]. rewrite list_elem_of_fmap. intros ([c' stk] & Heq & Hin). cbn in Heq. subst c'. by apply Hnew in Hin.
    + intros c' stk [[= -> ->]|Hin]%elem_of_cons; [lia|]. specialize (I5' _ _ Hin). lia.
  - intros id' page Hpg Hin. rewrite S1, elem_of_app in Hin. destruct Hin as [Hin|Hin].
    + destruct (I6 id' page Hpg Hin) as (-> & c' & stk & H1 & H2). split; [done|]. exists c', stk. split; [done|by right].
    + rewrite !elem_of_cons, elem_of_nil in Hin.
      destruct Hin as [Hin|[Hin|[Hin|[Hin|[]]]]]; injection Hin as -> Hin; try (exfalso; revert Hin; vm_compute Z.lor; unfold Lapic.STARTUP; lia).
      all: split; [lia|]; exists c, p; split; [done|by left].
  - intros c' a Ha. destruct (I7 c' a Ha) as (stk & H1 & H2). exists stk. split; [by right|done].
  - done.
  - intros c' stk [[= -> ->]|Hin]%elem_of_cons Hu; [done|]. destruct (I9 c' stk Hin Hu) as [H1 _]. discriminate H1.
  - split; [lia|congruence].
  - intros c' Hc' Hne. destruct (decide (c' = c)) as [->|Hd]; [exists p; by left|]. destruct (IA c') as [stk Hin]; [lia|done|]. exists stk. by right.
  - intros c' stk id' [[= -> ->]|Hin]%elem_of_cons Hid'; rewrite S1; apply elem_of_app; [right|left; by eapply IB].
    assert (id' = id) as -> by congruence. do 2 right. by left.
  - apply (code_ok_same (k_mem k)); [done|]. rewrite code_at, wrv_at in *. intros a Ha. apply M1; unfold KERNBASE in *; lia.
Qed.

Lemma asg_fun (asg : list (nat * Z)) c x y : NoDup asg.*1 -> (c, x) ∈ asg -> (c, y) ∈ asg -> x = y.
Proof using Type.
  intros Hn Hx Hy. apply list_elem_of_lookup in Hx as [i Hi]. apply list_elem_of_lookup in Hy as [j Hj].
  assert (i = j) as ->; [|congruence]. eapply (NoDup_lookup asg.*1); [done|rewrite list_lookup_fmap, Hi; done|rewrite list_lookup_fmap, Hj; done].
Qed.

(** A processor's store of the return address on its own stack. *)
Lemma kinv_stack k l p a v :
  kinv end_ k l -> page_ok end_ p -> p ∉ l -> p <= a -> a + 4 <= p + 4096 -> kinv end_ (set_mem (stl (k_mem k) a v) k) l.
Proof using Type.
  intros Hk Hp Hl H1 H2. destruct (page_aligned end_ p Hp) as (Ha & _ & _).
  apply (kinv_same end_ (fun q => q = p)); [done|by apply same_except_stl|]. intros q Hq ->. done.
Qed.

Lemma kinv_ext k l m' : kinv end_ k l -> (forall a, m' a = k_mem k a) -> kinv end_ (set_mem m' k) l.
Proof using Type. intros Hk Hs. apply (kinv_same end_ (fun _ => False)); [done|intros a _; apply Hs|tauto]. Qed.

Lemma inv_enter k ic up st pc c id page polls e e' asg free :
  smp_inv (MkSmp k ic up st pc) asg free -> ids !! c = Some id -> up c = None -> 0 <= page < 256 ->
  (id, Lapic.STARTUP + page) ∈ la_sent (ic_dev ic) -> real_mode e -> Entry.e_mem e = pmem (k_mem k) ->
  Entry.exec_all polls (Entry.entryother (page * 4096) gdtdesc back) e = Ret tt e' ->
  smp_inv (MkSmp (set_mem (vmem (Entry.e_mem e')) k) ic (set_up c (MkAp (Entry.e_to e') (Entry.e_esp e') (Entry.e_cr3 e')) up) st pc) asg free.
Proof using LO LD.
  intros [I1 I2 I3 I4 [I5 I5'] I6 I7 I8 I9 IP IA IB I10] Hc Hu Hpg Hs Hr Hm E. cbn [sm_k sm_ic sm_up sm_started sm_pc next] in *.
  assert (HL := LO). destruct HL.
  destruct (I6 id page Hpg Hs) as (-> & c' & stk & Hc' & Ha). assert (c' = c) as -> by (eapply NoDup_lookup; done).
  destruct (I9 c stk Ha Hu) as [-> (W1 & W2 & W3)]. cbn [next] in *. destruct I10 as [G Dir].
  assert (Hstk : page_ok end_ stk /\ stk + 4096 <= KERNBASE + 4194304).
  { rewrite Forall_forall in I3. apply I3. apply elem_of_app. left. rewrite list_elem_of_fmap. by exists (c, stk). }
  assert (HP := page_above stk (proj1 Hstk)).
  assert (P : forall o, ldl (Entry.e_mem e) (7 * 4096 - o) = ldl (k_mem k) (code - o)) by (intros o; rewrite Hm, pmem_ldl, code_at; f_equal; lia).
  destruct (entryother_enters polls (7 * 4096) gdtdesc gdt_ back e Hr) as (e1 & E1 & T1 & T2 & T3 & _ & _ & _ & _ & _ & _ & _ & T4).
  { by rewrite Hm. } { unfold is_u32. lia. } { unfold is_u32. lia. } { unfold is_u32. lia. } { lia. }
  { rewrite P, W3, Hm. done. } { rewrite P, W1. unfold KERNBASE in *. lia. }
  rewrite E1 in E. injection E as <-. rewrite P, W2 in T1. rewrite P, W1 in T2. rewrite P, W3 in T3. rewrite P, W1, Hm in T4.
  assert (M : forall x, vmem (Entry.e_mem e1) x = stl (k_mem k) (stk + 4092) back x).
  { intros x. rewrite T4, vmem_stl. f_equal. lia. }
  assert (Hfree : stk ∉ free).
  { intros Hin. apply NoDup_app in I2 as (_ & I2 & _). apply (I2 stk); [|done]. rewrite list_elem_of_fmap. by exists (c, stk). }
  constructor; cbn [sm_k sm_ic sm_up sm_started sm_pc next set_mem k_mem]; try done.
  - assert (K : kinv end_ (set_mem (stl (k_mem k) (stk + 4092) back) k) free) by (apply (kinv_stack k free stk); [done|apply Hstk|done|lia|lia]).
    exact (kinv_ext _ _ (vmem (Entry.e_mem e1)) K M).
  - intros c' a. unfold set_up. case_decide as Hd; [subst c'|by apply I7]. intros [= <-]. exists stk. split; [done|]. rewrite T1, T2, T3. f_equal. lia.
  - intros c' Hst. unfold set_up. case_decide; [by eexists|by apply I8].
  - intros c' stk' Hin. unfold set_up. case_decide as Hd; [done|]. intros Hu'. destruct (I9 c' stk' Hin Hu') as [[= ->] _]. done.
  - apply (code_ok_same (k_mem k)); [done|]. intros a Hx. rewrite M. apply stl_ne. rewrite code_at in Hx. unfold page_ok in Hstk. unfold KERNBASE in *. lia.
Qed.

Lemma inv_other k ic up st pc m' asg free :
  smp_inv (MkSmp k ic up st pc) asg free -> pc <> BCopy -> (forall a, fixed end_ size entrypgdir_ k a -> m' a = k_mem k a) ->
  smp_inv (MkSmp (set_mem m' k) ic up st pc) asg free.
Proof using LO.
  intros [I1 I2 I3 I4 I5 I6 I7 I8 I9 IP IA IB I10] Hpc Hf. assert (HL := LO). destruct HL. constructor; cbn [sm_k sm_ic sm_up sm_started sm_pc next set_mem k_mem] in *; try done.
  - apply (kinv_same end_ (fun p => p ∉ free)); [done| |by intros p Hp Hn]. intros a Ha. apply Hf. right. right. exists free. split; [done|].
    destruct (decide (page_of a ∈ free)); [done|by destruct Ha].
  - intros c stk Hin Hu. destruct (I9 c stk Hin Hu) as [H1 H2]. split; [done|]. apply (words_same (k_mem k)); [done|]. intros a Ha. apply Hf. left. lia.
  - destruct pc; [done|..]; (apply (code_ok_same (k_mem k)); [done|]; intros a [Ha|Ha]; apply Hf; [left; lia|right; by left]).
Qed.

Lemma inv_step s s' asg free :
  smp_inv s asg free -> smp_step lapic end_ image size gdtdesc back mpenter entrypgdir_ ids me s s' -> exists asg' free', smp_inv s' asg' free'.
Proof using LO LD.
  intros Hi Hs. destruct Hs.
  - exists asg, free. by eapply inv_copy.
  - exists asg, free. destruct Hi as [I1 I2 I3 I4 [I5 I5'] I6 I7 I8 I9 IP IA IB I10]. cbn [sm_k sm_ic sm_up sm_started sm_pc next] in *.
    constructor; cbn [sm_k sm_ic sm_up sm_started sm_pc next]; try done; [lia| | |].
    + split; [done|]. intros c stk Hin. specialize (I5' c stk Hin). lia.
    + intros c stk Hin Hu. by destruct (I9 c stk Hin Hu).
    + intros c Hc Hne. apply IA; [lia|done].
  - edestruct inv_start as (p & free' & Hi'); [exact Hi|done|done|done|]. by eexists _, _.
  - exists asg, free. destruct Hi as [I1 I2 I3 I4 [I5 I5'] I6 I7 I8 I9 IP IA IB I10]. cbn [sm_k sm_ic sm_up sm_started sm_pc next] in *.
    constructor; cbn [sm_k sm_ic sm_up sm_started sm_pc next]; try done.
    { intros c' stk Hin Hu. destruct (I9 c' stk Hin Hu) as [[= ->] _]. destruct (I8 c' H1) as [a Ea]. congruence. }
    split; [apply IP|done].
  - exists asg, free. by eapply inv_enter.
  - exists asg, free. destruct Hi as [I1 I2 I3 I4 I5 I6 I7 I8 I9 IP IA IB I10]. cbn [sm_k sm_ic sm_up sm_started sm_pc next] in *.
    constructor; cbn [sm_k sm_ic sm_up sm_started sm_pc next]; try done.
    intros c'. unfold set_started. case_decide as Hd; [by subst|by apply I8].
  - exists asg, free. apply inv_other; [done| |done]. intros ->. destruct Hi as [_ _ _ _ _ _ I7 _ _ _ _ _ [_ ->]]. cbn [sm_up] in I7.
    destruct H1 as [a Ea]. destruct (I7 c a Ea) as (stk & Hin & _). by apply not_elem_of_nil in Hin.
Qed.

(** The state before startothers: the processors' pages come from kinit1, so they lie in the
    first four megabytes; no processor has been started. *)
Definition smp_init (s : smp D) (free : list Z) : Prop :=
  sm_pc s = BCopy /\ (forall c, sm_up s c = None) /\ (forall c, sm_started s c = false) /\
  kinv end_ (sm_k s) free /\ Forall (fun p => p + 4096 <= KERNBASE + 4194304) free /\ (length ids <= length free)%nat /\
  image_ok (k_mem (sm_k s)) /\ (forall id page, 0 <= page < 256 -> (id, Lapic.STARTUP + page) ∉ la_sent (ic_dev (sm_ic s))).

Lemma inv_init s free : smp_init s free -> smp_inv s [] free.
Proof using Type.
  intros (H1 & H2 & H3 & H4 & H5 & H6 & H7 & H8). constructor; cbn [fmap list_fmap app]; try done.
  - by destruct H4.
  - destruct H4 as [_ Hp _]. rewrite Forall_forall in Hp, H5. apply Forall_forall. auto.
  - rewrite H1. cbn. lia.
  - split; [constructor|]. intros c stk Hin. by apply not_elem_of_nil in Hin.
  - intros id page Hp Hin. by destruct (H8 id page Hp).
  - intros c a Ha. by rewrite H2 in Ha.
  - intros c Hc. by rewrite H3 in Hc.
  - intros c stk Hin. by apply not_elem_of_nil in Hin.
  - rewrite H1. split; [cbn; lia|done].
  - rewrite H1. cbn. lia.
  - intros c stk id Hin. by apply not_elem_of_nil in Hin.
  - rewrite H1. done.
Qed.

(** The free list is determined by memory. *)
Lemma kinv_unique k l l' : kinv end_ k l -> kinv end_ k l' -> l = l'.
Proof using LO.
  intros [C1 P1 _] [C2 P2 _]. revert C1 C2. generalize (k_freelist k). revert l' P2. induction P1 as [|p l Hp _ IH]; intros l' P2 h; cbn [chain].
  - intros -> C2. destruct P2 as [|q l' Hq _]; [done|]. destruct C2 as [<- _]. apply page_above in Hq. unfold KERNBASE in Hq. lia.
  - intros [-> C1] C2. apply page_above in Hp. destruct P2 as [|q l' _ P2]; [cbn in C2; unfold KERNBASE in Hp; lia|]. destruct C2 as [<- C2]. f_equal. by eapply IH.
Qed.

(** C23: however startothers and the processors it starts interleave, every processor
    that has entered the kernel is in mpenter, translates through entrypgdir, and is on
    a page of the allocator, mapped there, that is no other processor's stack and not
    free. *)
Theorem aps_own_stacks (s0 s : smp D) (free : list Z) :
  smp_init s0 free -> rtc (smp_step lapic end_ image size gdtdesc back mpenter entrypgdir_ ids me) s0 s ->
  forall c a, sm_up s c = Some a ->
    ap_to a = Some mpenter /\ ap_cr3 a = v2p entrypgdir_ /\
    exists p, page_ok end_ p /\ p + 4096 <= KERNBASE + 4194304 /\ ap_esp a = p + 4092 /\ (forall l, kinv end_ (sm_k s) l -> p ∉ l) /\
      forall c' a', c' <> c -> sm_up s c' = Some a' -> ap_esp a' <> ap_esp a.
Proof using LO LD.
  intros Hi Hr. assert (exists asg free, smp_inv s asg free) as (asg & fr & Hinv).
  { apply inv_init in Hi. revert Hi. generalize (@nil (nat * Z)). revert free. induction Hr as [s|s1 s2 s3 Hs _ IH]; intros free asg Hi; [by eexists _, _|].
    destruct (inv_step _ _ _ _ Hi Hs) as (asg' & free' & Hi'). by eapply IH. }
  destruct Hinv as [I1 I2 I3 _ [I5 _] _ I7 _ _ _ _ _ _]. intros c a Ha. destruct (I7 c a Ha) as (p & Hp & ->). cbn [ap_to ap_cr3 ap_esp].
  assert (Hin : p ∈ asg.*2) by (rewrite list_elem_of_fmap; by exists (c, p)). apply NoDup_app in I2 as (N1 & N2 & _).
  rewrite Forall_forall in I3. destruct (I3 p) as [K1 K2]; [apply elem_of_app; by left|].
  split; [done|]. split; [done|]. exists p. split_and!; [done|done|done| |].
  - intros l Hl. rewrite <-(kinv_unique _ _ _ I1 Hl). by apply N2.
  - intros c' a' Hne Ha'. destruct (I7 c' a' Ha') as (p' & Hp' & ->). cbn [ap_esp]. intros Heq. assert (p' = p) as -> by lia.
    apply Hne. apply list_elem_of_lookup in Hp as [i Hi']. apply list_elem_of_lookup in Hp' as [j Hj].
    assert (i = j) as <-; [|congruence]. eapply (NoDup_lookup asg.*2); [done|rewrite list_lookup_fmap, Hi'; done|rewrite list_lookup_fmap, Hj; done].
Qed.

Lemma inv_steps s s' asg free :
  smp_inv s asg free -> rtc (smp_step lapic end_ image size gdtdesc back mpenter entrypgdir_ ids me) s s' -> exists asg' free', smp_inv s' asg' free'.
Proof using LO LD.
  intros Hi Hr. revert asg free Hi. induction Hr as [s|s1 s2 s3 Hs _ IH]; intros asg free Hi; [by eexists _, _|].
  destruct (inv_step _ _ _ _ Hi Hs) as (asg' & free' & Hi'). by eapply IH.
Qed.

(** The processor being waited for can come up. *)
Lemma wait_over s asg free c :
  smp_inv s asg free -> sm_pc s = BWait c -> c <> me -> (c < length ids)%nat ->
  exists s', rtc (smp_step lapic end_ image size gdtdesc back mpenter entrypgdir_ ids me) s s' /\ sm_pc s' = BFor (S c).
Proof using LO LD.
  intros Hinv Hpc Hme Hlt. destruct s as [k ic up st pc]. cbn [sm_pc] in Hpc. subst pc.
  assert (Hgo : forall k' up', is_Some (up' c) ->
    rtc (smp_step lapic end_ image size gdtdesc back mpenter entrypgdir_ ids me) (MkSmp k' ic up' st (BWait c)) (MkSmp k' ic up' (set_started c st) (BFor (S c)))).
  { intros k' up' Hu. eapply rtc_l; [by apply SUp|]. apply rtc_once. apply SSeen. unfold set_started. by rewrite decide_True. }
  destruct (up c) as [a|] eqn:Eu; [eexists; split; [apply Hgo; by rewrite Eu|done]|].
  destruct Hinv as [I1 I2 I3 I4 [I5 I5'] I6 I7 I8 I9 IP IA IB I10]. cbn [sm_k sm_ic sm_up sm_started sm_pc next] in *.
  destruct (IA c) as [stk Hin]; [lia|done|]. destruct (I9 c stk Hin Eu) as [_ (W1 & W2 & W3)]. destruct I10 as [G Dir].
  destruct (lookup_lt_is_Some_2 ids c Hlt) as [id Hid]. assert (HL := LO). destruct HL.
  set (e := Entry.MkE 0 0 0 0 0 (fun _ => (0, 0)) (0, 0) true None (pmem (k_mem k)) (ic_dev ic)).
  assert (Hstk : page_ok end_ stk /\ stk + 4096 <= KERNBASE + 4194304).
  { rewrite Forall_forall in I3. apply I3. apply elem_of_app. left. rewrite list_elem_of_fmap. by exists (c, stk). }
  assert (HP := page_above stk (proj1 Hstk)).
  assert (P : forall o, ldl (Entry.e_mem e) (7 * 4096 - o) = ldl (k_mem k) (code - o)) by (intros o; cbn [e Entry.e_mem]; rewrite pmem_ldl, code_at; f_equal; lia).
  destruct (entryother_enters 0 (7 * 4096) gdtdesc gdt_ back e) as (e1 & E1 & _).
  { done. } { done. } { unfold is_u32. lia. } { unfold is_u32. lia. } { unfold is_u32. lia. } { lia. }
  { rewrite P, W3. done. } { rewrite P, W1. unfold KERNBASE in *. lia. }
  eexists (MkSmp _ ic _ _ (BFor (S c))). split; [|reflexivity]. eapply rtc_l; [eapply (SEnter _ _ _ _ _ _ _ _ _ _ k ic up st (BWait c) c id 7 0 e e1); try done; by eapply IB|].
  apply Hgo. unfold set_up. rewrite decide_True by done. by eexists.
Qed.

(** From the head of the loop, with [n] processors to go. *)
Lemma for_completes n s asg free c :
  smp_inv s asg free -> sm_pc s = BFor c -> (c + n = length ids)%nat ->
  exists s', rtc (smp_step lapic end_ image size gdtdesc back mpenter entrypgdir_ ids me) s s' /\ sm_pc s' = BFor (length ids).
Proof using LO LD.
  revert s asg free c. induction n as [|n IH]; intros s asg free c Hinv Hpc Hn.
  { exists s. split; [done|]. rewrite Hpc. f_equal. lia. }
  assert (Hmid : exists s1, rtc (smp_step lapic end_ image size gdtdesc back mpenter entrypgdir_ ids me) s s1 /\ sm_pc s1 = BFor (S c)).
  { destruct s as [k ic up st pc]. cbn [sm_pc] in Hpc. subst pc. destruct (decide (c = me)) as [->|Hme].
    { eexists. split; [apply rtc_once; apply SSelf; lia|done]. }
    destruct (lookup_lt_is_Some_2 ids c ltac:(lia)) as [id Hid].
    assert (exists k1 ic1, start_cpu lapic mpenter entrypgdir_ id (k, ic) = Ret tt (k1, ic1)) as (k1 & ic1 & E1).
    { assert (Hinv' := Hinv). destruct Hinv' as [I1 _ I3 I4 _ _ _ _ _ _ _ _ _]. cbn [sm_k sm_pc next] in *. destruct free as [|p free]; [cbn in I4; lia|].
      apply Forall_app in I3 as [_ I3]. apply Forall_cons in I3 as [[_ Hp] _]. assert (HL := LO). destruct HL.
      destruct (start_cpu_run id k ic p free I1 Hp) as (k1 & ic1 & E1 & _); [by eapply Forall_lookup_1 in lo_id0|]. by eexists _, _. }
    assert (S1 := SStart lapic end_ image size gdtdesc back mpenter entrypgdir_ ids me k ic up st c id k1 ic1 Hid Hme E1).
    destruct (inv_step _ _ _ _ Hinv S1) as (asg1 & free1 & Hinv1).
    destruct (wait_over _ _ _ c Hinv1) as (s2 & R2 & P2); [done|done|lia|]. exists s2. split; [by eapply rtc_l|done]. }
  destruct Hmid as (s1 & R1 & P1). destruct (inv_steps _ _ _ _ Hinv R1) as (asg1 & free1 & Hinv1).
  destruct (IH s1 asg1 free1 (S c) Hinv1 P1 ltac:(lia)) as (s2 & R2 & P2). exists s2. split; [by etrans|done].
Qed.

(** startothers never gets stuck: from every state it can reach, the other processors
    can come up one after the other until the loop ends, and then each of them is in the
    kernel. *)
Theorem startothers_completes (s0 s : smp D) (free : list Z) :
  smp_init s0 free -> rtc (smp_step lapic end_ image size gdtdesc back mpenter entrypgdir_ ids me) s0 s ->
  exists s', rtc (smp_step lapic end_ image size gdtdesc back mpenter entrypgdir_ ids me) s s' /\ sm_pc s' = BFor (length ids) /\
    forall c, (c < length ids)%nat -> c <> me -> is_Some (sm_up s' c).
Proof using LO LD.
  intros Hi Hr. apply inv_init in Hi. destruct (inv_steps _ _ _ _ Hi Hr) as (asg & fr & Hinv). destruct (si_pc _ _ _ Hinv) as [Hle Hme].
  assert (Hend : exists s', rtc (smp_step lapic end_ image size gdtdesc back mpenter entrypgdir_ ids me) s s' /\ sm_pc s' = BFor (length ids)).
  { destruct (sm_pc s) as [|c|c] eqn:Epc; cbn [next] in Hle.
    - destruct s as [k ic up st pc]. cbn [sm_pc] in Epc. subst pc.
      assert (S1 := SCopy lapic end_ image size gdtdesc back mpenter entrypgdir_ ids me k ic up st _ _ eq_refl).
      destruct (inv_step _ _ _ _ Hinv S1) as (asg1 & free1 & Hinv1).
      destruct (for_completes (length ids) _ _ _ 0%nat Hinv1 eq_refl eq_refl) as (s2 & R2 & P2). exists s2. split; [by eapply rtc_l|done].
    - destruct (for_completes (length ids - c) _ _ _ c Hinv Epc ltac:(lia)) as (s2 & R2 & P2). by exists s2.
    - destruct (wait_over _ _ _ c Hinv Epc) as (s1 & R1 & P1); [congruence|lia|].
      destruct (inv_steps _ _ _ _ Hinv R1) as (asg1 & free1 & Hinv1).
      destruct (for_completes (length ids - S c) _ _ _ (S c) Hinv1 P1 ltac:(lia)) as (s2 & R2 & P2). exists s2. split; [by etrans|done]. }
  destruct Hend as (s' & R & P). exists s'. split; [done|]. split; [done|]. intros c Hc Hne.
  destruct (inv_steps _ _ _ _ Hinv R) as (asg1 & free1 & [_ _ _ _ _ _ _ _ I9 _ IA _ _]). rewrite P in *. cbn [next] in IA.
  destruct (IA c Hc Hne) as [stk Hin]. destruct (sm_up s' c) eqn:Eu; [by eexists|]. by destruct (I9 c stk Hin Eu).
Qed.

End Props.

Module SmpDemo.
Import LapicDemo.

(** Two processors; the kernel's image ends at 2 megabytes, and two pages are free. *)
Definition end_ : Z := KERNBASE + 0x200000.
Definition image : Z := KERNBASE + 0x100000.
Definition dir : Z := KERNBASE + 0x101000.
Definition page1 : Z := KERNBASE + 0x200000.
Definition page2 : Z := KERNBASE + 0x201000.
Definition gdt_ : Z := 0x7008.
Definition gdtdesc : Z := 0x7000.

Definition piece (a : Z) (bs : list Z) (m : mem) : mem := fun x => if (a <=? x) && (x <? a + zlen bs) then zget bs (x - a) else m x.
Definition m0 : mem :=
  stl (stl (piece image (le_bytes 2 23 ++ le_bytes 4 gdt_ ++ [0; 0] ++ Entry.boot_gdt)
    (fun x => if (dir <=? x) && (x <? dir + 4096) then (Seg.entrypgdir ((x - dir) / 4) / 256 ^ ((x - dir) mod 4)) mod 256 else 0))
    page1 page2) page2 0.

Lemma layout : layout_ok end_ image 64 gdtdesc gdt_ 0x80102ee0 dir [0; 1].
Proof.
  constructor; try (vm_compute; (split; discriminate) || discriminate).
  - split; vm_compute; done.
  - apply (bool_decide_unpack (NoDup [0; 1])). exact Logic.I.
  - repeat constructor; done.
Qed.

(** The bytes of the image, at their place in memory. *)
Lemma m0_image i b : (le_bytes 2 23 ++ le_bytes 4 gdt_ ++ [0; 0] ++ Entry.boot_gdt) !! i = Some b -> m0 (image + Z.of_nat i) = b.
Proof.
  intros Hi. assert (Hl := lookup_lt_Some _ _ _ Hi). change (length _) with 32%nat in Hl. unfold m0. rewrite !stl_ne by (unfold page1, page2, image; lia).
  unfold piece. change (zlen _) with 32. destruct (_ && _) eqn:E; [|lia]. unfold zget.
  replace (Z.to_nat (image + Z.of_nat i - image)) with i by lia. by apply nth_lookup_Some.
Qed.

Lemma m0_dir : holds_dir (pmem m0) (v2p dir).
Proof.
  intros i Hi. rewrite pmem_ldl. change (v2p dir) with (dir - KERNBASE). replace (dir - KERNBASE + 4 * i + KERNBASE) with (dir + 4 * i) by lia.
  unfold m0. rewrite !ldl_stl_ne by (unfold dir, page1, page2; lia).
  assert (B : forall j, 0 <= j < 4 -> piece image (le_bytes 2 23 ++ le_bytes 4 gdt_ ++ [0; 0] ++ Entry.boot_gdt)
    (fun x => if (dir <=? x) && (x <? dir + 4096) then (Seg.entrypgdir ((x - dir) / 4) / 256 ^ ((x - dir) mod 4)) mod 256 else 0) (dir + 4 * i + j) =
    (Seg.entrypgdir i / 256 ^ j) mod 256).
  { intros j Hj. unfold piece. change (zlen _) with 32.
    repeat match goal with |- context [if ?b then _ else _] => destruct b eqn:?; [try (unfold image, dir in *; lia)|try (unfold image, dir in *; lia)] end.
    replace ((dir + 4 * i + j - dir) / 4) with i by dlia. by replace ((dir + 4 * i + j - dir) mod 4) with j by dlia. }
  unfold ldl. replace (dir + 4 * i) with (dir + 4 * i + 0) at 1 by lia. rewrite !B by lia. unfold Seg.entrypgdir. by destruct (_ || _).
Qed.

Definition smp0 : smp board := MkSmp (MkKst m0 page1 false) board0 (fun _ => None) (fun _ => false) BCopy.

Lemma init0 : smp_init lapic_at end_ image gdtdesc gdt_ dir [0; 1] smp0 [page1; page2].
Proof.
  assert (P1 : ldl m0 page1 = page2) by (unfold m0; rewrite ldl_stl_ne by (unfold page1, page2; lia); by apply ldl_stl_eq).
  assert (P2 : ldl m0 page2 = 0) by (unfold m0; by apply ldl_stl_eq).
  split_and!; try done.
  - constructor; cbn [smp0 sm_k k_mem k_freelist chain]; [by rewrite P1, P2| |].
    + repeat constructor; vm_compute; done.
    + apply (bool_decide_unpack (NoDup [page1; page2])). exact Logic.I.
  - repeat constructor; vm_compute; discriminate.
  - split; [|split; [|apply m0_dir]].
    { intros i b Hi. apply m0_image. rewrite app_assoc, lookup_app_l by (apply lookup_lt_Some in Hi; exact Hi). exact Hi. }
    intros i b Hi. replace (image + (gdt_ - 0x7000) + Z.of_nat i) with (image + Z.of_nat (8 + i)) by (unfold gdt_; lia). apply m0_image. exact Hi.
  - intros id page Hp Hin. by apply not_elem_of_nil in Hin.
Qed.

Lemma aps_own_stacks_witness :
  exists s a, rtc (smp_step lapic_at end_ image 64 gdtdesc 0x7060 0x80102ee0 dir [0; 1] 0) smp0 s /\ sm_up s 1%nat = Some a /\ ap_to a = Some 0x80102ee0.
Proof.
  destruct (startothers_completes lapic_at end_ image 64 gdtdesc gdt_ 0x7060 0x80102ee0 dir [0; 1] 0 layout smp0 smp0 [page1; page2] init0 (rtc_refl _ _)) as (s & R & _ & U).
  destruct (U 1%nat ltac:(cbn; lia) ltac:(discriminate)) as [a Ea]. exists s, a. split; [exact R|]. split; [exact Ea|].
  exact (proj1 (aps_own_stacks lapic_at end_ image 64 gdtdesc gdt_ 0x7060 0x80102ee0 dir [0; 1] 0 layout smp0 s [page1; page2] init0 R 1%nat a Ea)).
Defined.

End SmpDemo.
