(* ===== verification/Boot.v ===== *)
(** * The boot loader (bootmain.c)

    It reads the kernel, an ELF file that starts at sector 1 of the disk, through
    the IDE ports, and returns the address of the kernel's entry.  Memory is the
    physical memory; a pointer is a 32-bit address. *)

From S2P Require Import Prelude.
From S2P Require Import Params.
From S2P Require Import CString.
From S2P Require Import Mmu.
From S2P Require Import Exec.
From S2P Require Import Ports.
From S2P Require Import Ide.

Module Boot.

Section Loader.
Context {D : Type} `{!Ports D, !StringPorts D}.
(** How often the status port is polled, and the most sectors of a segment. *)
Context (polls sects : nat).

Record boot : Type := MkBoot { bt_dev : D; bt_mem : mem }.
Definition bdev {A} (m : M D A) : M boot A := zoom bt_dev (fun d s => MkBoot d (bt_mem s)) m.
Definition bmem (f : mem -> mem) : M boot unit := modify (fun s => MkBoot (bt_dev s) (f (bt_mem s))).

Definition SECTSIZE : Z := 512.

Fixpoint waitdisk (fuel : nat) : M boot unit :=
  match fuel with
  | O => out_of_fuel
  | S fuel =>
      let! v := bdev (in_b 0x1F7) in
      if negb (Z.land v 0xC0 =? 0x40) then waitdisk fuel else ret tt
  end.

(** [insl] into memory. *)
Definition boot_insl (dst : Z) (cnt : nat) : M boot unit :=
  fun s => let '(bs, d) := insl 0x1F0 cnt (bt_dev s) in Ret tt (MkBoot d (mset_list (bt_mem s) dst bs)).

Definition readsect (dst offset : Z) : M boot unit :=
  waitdisk polls ;;
  bdev (out_b 0x1F2 1) ;;
  bdev (out_b 0x1F3 offset) ;;
  bdev (out_b 0x1F4 (Z.shiftr offset 8)) ;;
  bdev (out_b 0x1F5 (Z.shiftr offset 16)) ;;
  bdev (out_b 0x1F6 (Z.lor (Z.shiftr offset 24) 0xE0)) ;;
  bdev (out_b 0x1F7 0x20) ;;
  waitdisk polls ;;
  boot_insl dst (Z.to_nat (SECTSIZE / 4)).

Fixpoint readseg_loop (fuel : nat) (pa epa offset : Z) : M boot unit :=
  match fuel with
  | O => out_of_fuel
  | S fuel =>
      if pa <? epa then
        readsect pa offset ;;
        readseg_loop fuel (u32 (pa + SECTSIZE)) epa (u32 (offset + 1))
      else ret tt
  end.

Definition readseg (pa count offset : Z) : M boot unit :=
  let epa := u32 (pa + count) in
  let pa := u32 (pa - offset mod SECTSIZE) in
  let offset := u32 (offset / SECTSIZE + 1) in
  readseg_loop sects pa epa offset.

(** The fields of the headers, read where they lie in memory. *)
Definition elf_at : Z := 0x10000.
Definition ld16 (m : mem) (a : Z) : Z := le_value [m a; m (a + 1)].
Definition ph_field (m : mem) (ph : Z) (off : Z) : Z := ldl m (ph + off).

(** The body of the loop over the program headers. *)
Definition load_ph (ph : Z) : M boot unit :=
  let! pa := get (fun s => ph_field (bt_mem s) ph 12) in
  let! filesz := get (fun s => ph_field (bt_mem s) ph 16) in
  let! off := get (fun s => ph_field (bt_mem s) ph 4) in
  readseg pa filesz off ;;
  let! memsz := get (fun s => ph_field (bt_mem s) ph 20) in
  let! filesz := get (fun s => ph_field (bt_mem s) ph 16) in
  if memsz >? filesz then
    bmem (fun m => stosb (Z.to_nat (u32 (memsz - filesz))) m (u32 (pa + filesz)) 0)
  else ret tt.

Fixpoint load_kernel (fuel : nat) (ph eph : Z) : M boot unit :=
  match fuel with
  | O => out_of_fuel
  | S fuel =>
      if negb (ph <? eph) then ret tt
      else load_ph ph ;; load_kernel fuel (u32 (ph + sizeof_proghdr)) eph
  end.

(** The entry called, or nothing when bootmain returns to bootasm.S. *)
Definition bootmain (fuel : nat) : M boot (option Z) :=
  readseg elf_at 4096 0 ;;
  let! magic := get (fun s => ldl (bt_mem s) elf_at) in
  if negb (magic =? ELF_MAGIC) then ret None
  else
    let! phoff := get (fun s => ldl (bt_mem s) (elf_at + 28)) in
    let! phnum := get (fun s => ld16 (bt_mem s) (elf_at + 44)) in
    let ph := u32 (elf_at + phoff) in
    load_kernel fuel ph (u32 (ph + phnum * sizeof_proghdr)) ;;
    let! entry := get (fun s => ldl (bt_mem s) (elf_at + 24)) in
    ret (Some entry).

End Loader.
Arguments boot : clear implicits.

End Boot.

(** * The boot loader loads the kernel

    For every disk that answers polled reads: the segments of the ELF file are in
    memory where its headers say, zero-filled to their sizes in memory. *)

Import Boot.

(** A drive polled for reads in LBA mode: its sectors, the command registers, how
    often the status still reads busy, and the sector whose data it has been asked
    for. *)
Class PolledDisk (D : Type) `{!Ports D, !StringPorts D} : Type := {
  pd_sector : D -> Z -> list Z;
  pd_reg : D -> Z -> Z;
  pd_lag : D -> nat;
  pd_bound : nat;
  pd_pend : D -> option Z;
  pd_length d n : length (pd_sector d n) = 512%nat;
  pd_lag_bound d : (pd_lag d <= pd_bound)%nat;
  pd_poll d :
    let '(v, d') := inb 0x1F7 d in
    (Z.land (u8 v) 0xC0 = 0x40 <-> pd_lag d = 0%nat) /\ pd_lag d' = pred (pd_lag d) /\
    pd_sector d' = pd_sector d /\ pd_reg d' = pd_reg d /\ pd_pend d' = pd_pend d;
  pd_register p v d : 0x1F2 <= p <= 0x1F6 -> pd_lag d = 0%nat -> pd_pend d = None ->
    let d' := outb p v d in
    pd_lag d' = 0%nat /\ pd_sector d' = pd_sector d /\ pd_pend d' = None /\ forall q, pd_reg d' q = if q =? p then v else pd_reg d q;
  pd_read d : pd_lag d = 0%nat -> pd_pend d = None -> pd_reg d 0x1F2 = 1 -> pd_reg d 0x1F6 / 16 = 14 ->
    let d' := outb 0x1F7 0x20 d in
    pd_sector d' = pd_sector d /\
    pd_pend d' = Some (pd_reg d 0x1F3 + 256 * pd_reg d 0x1F4 + 65536 * pd_reg d 0x1F5 + 16777216 * (pd_reg d 0x1F6 mod 16));
  pd_data d n : pd_lag d = 0%nat -> pd_pend d = Some n ->
    let '(bs, d') := insl 0x1F0 128 d in bs = pd_sector d n /\ pd_sector d' = pd_sector d /\ pd_pend d' = None
}.

Lemma mset_list_bytes m a bs x :
  mset_list m a bs x = if (a <=? x) && (x <? a + zlen bs) then default 0 (bs !! Z.to_nat (x - a)) else m x.
Proof.
  revert m a. induction bs as [|b bs IH]; intros m a; cbn [mset_list].
  - unfold zlen. cbn [length]. destruct ((a <=? x) && (x <? a + Z.of_nat 0)) eqn:E; [lia|done].
  - rewrite IH. unfold zlen, mset. cbn [length]. destruct (decide (x = a)) as [->|Hne].
    + destruct ((a + 1 <=? a) && _) eqn:E1; [lia|]. rewrite Z.eqb_refl. destruct ((a <=? a) && _) eqn:E2; [|lia].
      replace (Z.to_nat (a - a)) with 0%nat by lia. done.
    + destruct (x =? a) eqn:Ex; [lia|]. destruct ((a + 1 <=? x) && (x <? a + 1 + Z.of_nat (length bs))) eqn:E1;
        destruct ((a <=? x) && (x <? a + Z.of_nat (S (length bs)))) eqn:E2; try lia; try done.
      by replace (Z.to_nat (x - a)) with (S (Z.to_nat (x - (a + 1)))) by lia.
Qed.

Section Loads.
Context {D : Type} `{PD : PolledDisk D}.
Context (polls sects : nat) (Hpolls : (pd_bound < polls)%nat).

Implicit Types s : boot D.

(** The kernel's file, byte by byte. *)
Definition file (d : D) (off : Z) : Z := default 0 (pd_sector d (1 + off / 512) !! Z.to_nat (off mod 512)).

(** No command in progress; the disk is [d0]'s. *)
Definition idle (d0 d : D) : Prop := pd_pend d = None /\ pd_sector d = pd_sector d0.

Lemma file_idle d0 d off : idle d0 d -> file d off = file d0 off.
Proof. intros [_ Hs]. unfold file. by rewrite Hs. Qed.

Lemma waitdisk_run n s :
  (pd_lag (bt_dev s) < n)%nat ->
  exists d, waitdisk n s = Ret tt (MkBoot d (bt_mem s)) /\ pd_lag d = 0%nat /\ pd_sector d = pd_sector (bt_dev s) /\
    pd_reg d = pd_reg (bt_dev s) /\ pd_pend d = pd_pend (bt_dev s).
Proof.
  revert s. induction n as [|n IH]; intros [d m] Hn; [lia|]. cbn [bt_dev bt_mem] in *. cbn [waitdisk].
  unfold bind, bdev, zoom, in_b. cbn [bt_dev bt_mem]. pose proof (pd_poll d) as Hp. destruct (inb 0x1F7 d) as [v d1].
  destruct Hp as (H1 & H2 & H3 & H4 & H5). destruct (Z.land (u8 v) 0xC0 =? 0x40) eqn:E; cbn [negb].
  - exists d1. assert (pd_lag d = 0%nat) by (apply H1; lia). split_and!; [done|lia|done..].
  - assert (pd_lag d <> 0%nat) by (intros H; apply H1 in H; lia).
    destruct (IH (MkBoot d1 m)) as (d2 & E2 & L & S & R & P); [cbn [bt_dev]; lia|]. cbn [bt_dev bt_mem] in *.
    exists d2. split_and!; [done..|congruence|congruence|congruence].
Qed.

(** One register write of a command, on an idle ready drive. *)
Lemma boot_out p v d m :
  0x1F2 <= p <= 0x1F6 -> pd_lag d = 0%nat -> pd_pend d = None ->
  exists d', (forall (k : unit -> M (boot D) unit), bind (bdev (out_b p v)) k (MkBoot d m) = k tt (MkBoot d' m)) /\
    pd_lag d' = 0%nat /\ pd_sector d' = pd_sector d /\ pd_pend d' = None /\ forall q, pd_reg d' q = if q =? p then u8 v else pd_reg d q.
Proof. intros Hp Hl Hn. exists (outb p (u8 v) d). split; [done|]. by apply pd_register. Qed.

(** The sector number as the command registers hold it. *)
Lemma lba_bytes n : 0 <= n < 2 ^ 28 ->
  u8 n + 256 * u8 (Z.shiftr n 8) + 65536 * u8 (Z.shiftr n 16) + 16777216 * (u8 (Z.lor (Z.shiftr n 24) 0xE0) mod 16) = n /\
  u8 (Z.lor (Z.shiftr n 24) 0xE0) / 16 = 14.
Proof.
  intros Hn. rewrite !Z.shiftr_div_pow2 by lia. change 0xE0 with (14 * 2 ^ 4). rewrite Z.lor_comm, (lor_top 14 _ 4) by dlia.
  unfold u8. change (2 ^ 28) with 268435456 in *. change (2 ^ 8) with 256. change (2 ^ 16) with 65536. change (2 ^ 24) with 16777216. change (2 ^ 4) with 16. dlia.
Qed.

Lemma readsect_run d0 d m dst n :
  idle d0 d -> 1 <= n < 2 ^ 28 ->
  exists d' m', readsect polls dst n (MkBoot d m) = Ret tt (MkBoot d' m') /\ idle d0 d' /\
    forall x, m' x = if (dst <=? x) && (x <? dst + 512) then file d0 ((n - 1) * 512 + (x - dst)) else m x.
Proof using Hpolls PD.
  intros [Hp Hs] Hn. destruct (waitdisk_run polls (MkBoot d m)) as (d1 & E1 & L1 & S1 & R1 & P1).
  { pose proof (pd_lag_bound d). cbn [bt_dev]. lia. }
  cbn [bt_dev bt_mem] in *. unfold readsect. run E1. rewrite Hp in P1.
  destruct (boot_out 0x1F2 1 d1 m) as (d2 & E2 & L2 & S2 & P2 & R2); [lia|done..|]. rewrite E2.
  destruct (boot_out 0x1F3 n d2 m) as (d3 & E3 & L3 & S3 & P3 & R3); [lia|done..|]. rewrite E3.
  destruct (boot_out 0x1F4 (Z.shiftr n 8) d3 m) as (d4 & E4 & L4 & S4 & P4 & R4); [lia|done..|]. rewrite E4.
  destruct (boot_out 0x1F5 (Z.shiftr n 16) d4 m) as (d5 & E5 & L5 & S5 & P5 & R5); [lia|done..|]. rewrite E5.
  destruct (boot_out 0x1F6 (Z.lor (Z.shiftr n 24) 0xE0) d5 m) as (d6 & E6 & L6 & S6 & P6 & R6); [lia|done..|]. rewrite E6.
  destruct (lba_bytes n) as [Hlba Hdrv]; [lia|].
  destruct (pd_read d6) as [S7 P7]; [done|done|by rewrite R6, R5, R4, R3, R2|by rewrite R6|].
  rewrite R6, R5, R4, R3, R2 in P7. cbn [Z.eqb Pos.eqb] in P7. rewrite !R6, !R5, !R4, !R3 in P7. cbn [Z.eqb Pos.eqb] in P7. rewrite Hlba in P7.
  set (d7 := outb 0x1F7 0x20 d6) in *.
  rewrite (bind_run _ _ _ tt (MkBoot d7 m)) by done.
  destruct (waitdisk_run polls (MkBoot d7 m)) as (d8 & E8 & L8 & S8 & _ & P8).
  { pose proof (pd_lag_bound d7). cbn [bt_dev]. lia. }
  cbn [bt_dev bt_mem] in *. run E8. unfold boot_insl. cbn [bt_dev bt_mem]. change (Z.to_nat (SECTSIZE / 4)) with 128%nat.
  pose proof (pd_data d8 n L8 ltac:(congruence)) as H9. destruct (insl 0x1F0 128 d8) as [bs d9]. destruct H9 as (-> & S9 & P9).
  assert (HS : pd_sector d8 = pd_sector d0) by congruence.
  exists d9, (mset_list m dst (pd_sector d8 n)). split; [done|]. split; [split; congruence|].
  intros x. rewrite mset_list_bytes. unfold zlen. rewrite pd_length, HS. change (Z.of_nat 512) with 512.
  destruct ((dst <=? x) && (x <? dst + 512)) eqn:E; [|done]. unfold file.
  replace (1 + ((n - 1) * 512 + (x - dst)) / 512) with n by dlia. by replace (((n - 1) * 512 + (x - dst)) mod 512) with (x - dst) by dlia.
Qed.

(** [k] sectors from [pa] on. *)
Lemma readseg_loop_run k fuel d0 d m pa epa n :
  idle d0 d -> (k < fuel)%nat -> 0 <= pa -> pa + 512 * Z.of_nat k < 2 ^ 32 -> epa <= pa + 512 * Z.of_nat k -> pa + 512 * (Z.of_nat k - 1) < epa \/ k = 0%nat ->
  1 <= n -> n + Z.of_nat k < 2 ^ 28 ->
  exists d' m', readseg_loop polls fuel pa epa n (MkBoot d m) = Ret tt (MkBoot d' m') /\ idle d0 d' /\
    forall x, m' x = if (pa <=? x) && (x <? pa + 512 * Z.of_nat k) then file d0 ((n - 1) * 512 + (x - pa)) else m x.
Proof using Hpolls PD.
  revert fuel d m pa n. induction k as [|k IH]; intros fuel d m pa n Hi Hf Hpa Hend Hle Hlt Hn Hnk; (destruct fuel as [|fuel]; [lia|]); cbn [readseg_loop].
  - destruct (pa <? epa) eqn:E; [lia|]. exists d, m. split; [done|]. split; [done|]. intros x. destruct ((pa <=? x) && _) eqn:Ex; [lia|done].
  - destruct (pa <? epa) eqn:E; [|lia]. destruct (readsect_run d0 d m pa n Hi) as (d1 & m1 & E1 & H1 & M1); [lia|]. run E1.
    unfold SECTSIZE. rewrite !u32_small by (unfold is_u32; lia).
    destruct (IH fuel d1 m1 (pa + 512) (n + 1) H1) as (d2 & m2 & E2 & H2 & M2); [lia..|].
    exists d2, m2. split; [done|]. split; [done|]. intros x. rewrite M2, M1.
    destruct ((pa + 512 <=? x) && (x <? pa + 512 + 512 * Z.of_nat k)) eqn:B1; destruct ((pa <=? x) && (x <? pa + 512)) eqn:B2;
      destruct ((pa <=? x) && (x <? pa + 512 * Z.of_nat (S k))) eqn:B3; try lia; f_equal; lia.
Qed.

(** The sectors that hold [filesz] bytes at [off]. *)
Definition nsect (filesz off : Z) : Z := (off mod 512 + filesz + 511) / 512.

Lemma readseg_run d0 d m pa filesz off :
  idle d0 d -> 0 <= filesz -> 0 <= off -> off mod 512 <= pa -> pa - off mod 512 + 512 * nsect filesz off < 2 ^ 32 ->
  off / 512 + 1 + nsect filesz off < 2 ^ 28 -> nsect filesz off < Z.of_nat sects ->
  exists d' m', readseg polls sects pa filesz off (MkBoot d m) = Ret tt (MkBoot d' m') /\ idle d0 d' /\
    forall x, m' x = if (pa - off mod 512 <=? x) && (x <? pa - off mod 512 + 512 * nsect filesz off) then file d0 (off + (x - pa)) else m x.
Proof using Hpolls PD.
  intros Hi Hf Ho Hpa Hend Hs Hfuel. assert (Hk : 0 <= nsect filesz off) by (unfold nsect; dlia).
  assert (Hb : off mod 512 + filesz <= 512 * nsect filesz off < off mod 512 + filesz + 512) by (unfold nsect; dlia).
  unfold readseg, SECTSIZE. rewrite !u32_small by (unfold is_u32; dlia).
  destruct (readseg_loop_run (Z.to_nat (nsect filesz off)) sects d0 d m (pa - off mod 512) (pa + filesz) (off / 512 + 1) Hi) as (d' & m' & E & H & Hm).
  1-7: dlia. exists d', m'. split; [done|]. split; [done|]. intros x. rewrite Hm, Z2Nat.id by lia.
  destruct (_ && _); [|done]. f_equal. dlia.
Qed.

(** Case analysis on the address ranges of a goal. *)
Ltac ranges := repeat match goal with |- context [if ?b then _ else _] => destruct b eqn:?; try lia end.

(** ** Segments *)

Record seg : Type := MkSg { sg_off : Z; sg_pa : Z; sg_filesz : Z; sg_memsz : Z }.

(** The addresses written for a segment: whole sectors, and the zero bytes. *)
Definition lo (g : seg) : Z := sg_pa g - sg_off g mod 512.
Definition hi (g : seg) : Z := Z.max (lo g + 512 * nsect (sg_filesz g) (sg_off g)) (sg_pa g + sg_memsz g).

Definition seg_ok (g : seg) : Prop :=
  0 <= sg_off g /\ 0 <= sg_filesz g /\ 0 <= sg_memsz g /\ 0 <= lo g /\ hi g < 2 ^ 32 /\
  sg_off g / 512 + 1 + nsect (sg_filesz g) (sg_off g) < 2 ^ 28 /\ nsect (sg_filesz g) (sg_off g) < Z.of_nat sects /\
  (hi g <= elf_at \/ elf_at + 4096 <= lo g).

(** The segment is in memory. *)
Definition loaded (d0 : D) (m : mem) (g : seg) : Prop :=
  forall j, 0 <= j < Z.max (sg_filesz g) (sg_memsz g) ->
    m (sg_pa g + j) = if j <? sg_filesz g then file d0 (sg_off g + j) else 0.

(** The first page of the file is in the scratch space. *)
Definition scratch (d0 : D) (m : mem) : Prop := forall j, 0 <= j < 4096 -> m (elf_at + j) = file d0 j.

(** A 32-bit number of the file. *)
Definition file32 (d0 : D) (off : Z) : Z := le_value [file d0 off; file d0 (off + 1); file d0 (off + 2); file d0 (off + 3)].

Lemma scratch_ldl d0 m a : scratch d0 m -> 0 <= a <= 4092 -> ldl m (elf_at + a) = file32 d0 a.
Proof. intros Hs Ha. unfold ldl, file32. rewrite <-!Z.add_assoc, !Hs by lia. done. Qed.

(** The program header at [a] of the file describes [g]. *)
Definition header (d0 : D) (a : Z) (g : seg) : Prop :=
  file32 d0 (a + 4) = sg_off g /\ file32 d0 (a + 12) = sg_pa g /\ file32 d0 (a + 16) = sg_filesz g /\ file32 d0 (a + 20) = sg_memsz g.

(** The headers at [a] and on. *)
Fixpoint headers (d0 : D) (a : Z) (gs : list seg) : Prop :=
  match gs with
  | [] => True
  | g :: gs => header d0 a g /\ headers d0 (a + 32) gs
  end.

Lemma load_ph_run d0 d m a g :
  idle d0 d -> scratch d0 m -> seg_ok g -> header d0 a g -> 0 <= a <= 4064 ->
  exists d' m', load_ph polls sects (elf_at + a) (MkBoot d m) = Ret tt (MkBoot d' m') /\ idle d0 d' /\ scratch d0 m' /\ loaded d0 m' g /\
    (forall x, x < lo g \/ hi g <= x -> m' x = m x).
Proof using Hpolls PD.
  intros Hi Hsc (H1 & H2 & H3 & H4 & H5 & H6 & H7 & H8) (G1 & G2 & G3 & G4) Ha.
  assert (F : forall o mm, scratch d0 mm -> 0 <= o <= 20 -> ph_field mm (elf_at + a) o = file32 d0 (a + o)).
  { intros o mm Hmm Ho. unfold ph_field. rewrite <-Z.add_assoc. apply scratch_ldl; [done|lia]. }
  assert (Hb : sg_off g mod 512 + sg_filesz g <= 512 * nsect (sg_filesz g) (sg_off g)) by (unfold nsect; dlia).
  assert (0 <= sg_off g mod 512 < 512) by dlia. unfold loaded, hi, lo in *.
  destruct (readseg_run d0 d m (sg_pa g) (sg_filesz g) (sg_off g)) as (d1 & m1 & E1 & Hi1 & M1); [done|lia..|].
  assert (Hs1 : scratch d0 m1).
  { intros j Hj. rewrite M1. destruct (_ && _) eqn:E; [lia|]. by apply Hsc. }
  unfold load_ph. unfold bind at 1 2 3. unfold get at 1 2 3. cbn [bt_mem]. rewrite !F by (done || lia). rewrite G1, G2, G3. run E1.
  unfold bind, get. cbn [bt_mem]. rewrite !F by (done || lia). rewrite G3, G4. destruct (sg_memsz g >? sg_filesz g) eqn:Ez.
  - unfold bmem, modify. cbn [bt_dev bt_mem]. rewrite !u32_small by (unfold is_u32; lia). do 2 eexists. split; [reflexivity|].
    assert (M2 : forall x, stosb (Z.to_nat (sg_memsz g - sg_filesz g)) m1 (sg_pa g + sg_filesz g) 0 x =
      if (sg_pa g + sg_filesz g <=? x) && (x <? sg_pa g + sg_memsz g) then 0 else m1 x).
    { intros x. rewrite stosb_spec. replace (sg_pa g + sg_filesz g + Z.of_nat (Z.to_nat (sg_memsz g - sg_filesz g))) with (sg_pa g + sg_memsz g) by lia. done. }
    split_and!; [done| | |].
    + intros j Hj. rewrite M2. ranges. by apply Hs1.
    + intros j Hj. rewrite M2, M1. ranges; done || (f_equal; lia).
    + intros x Hx. rewrite M2, M1. ranges.
  - do 2 eexists. split; [reflexivity|]. split_and!; [done..| |].
    + intros j Hj. rewrite M1. ranges. f_equal. lia.
    + intros x Hx. rewrite M1. ranges.
Qed.

Lemma loaded_frame d0 m m' g : seg_ok g -> loaded d0 m g -> (forall x, lo g <= x < hi g -> m' x = m x) -> loaded d0 m' g.
Proof using Type. clear Hpolls.
  intros (H1 & H2 & H3 & _) Hl Hm j Hj. rewrite Hm; [by apply Hl|].
  unfold hi, lo. assert (0 <= sg_off g mod 512 < 512) by dlia.
  assert (sg_off g mod 512 + sg_filesz g <= 512 * nsect (sg_filesz g) (sg_off g)) by (unfold nsect; dlia). lia.
Qed.

Lemma load_kernel_run d0 gs fuel d m a :
  idle d0 d -> scratch d0 m -> Forall seg_ok gs -> headers d0 a gs -> 0 <= a -> a + 32 * zlen gs <= 4096 ->
  ForallOrdPairs (fun g g' => hi g <= lo g' \/ hi g' <= lo g) gs -> (length gs < fuel)%nat ->
  exists d' m', load_kernel polls sects fuel (elf_at + a) (elf_at + a + 32 * zlen gs) (MkBoot d m) = Ret tt (MkBoot d' m') /\
    scratch d0 m' /\ Forall (loaded d0 m') gs /\
    (forall x, Forall (fun g => x < lo g \/ hi g <= x) gs -> m' x = m x).
Proof using Hpolls PD.
  revert fuel d m a. induction gs as [|g gs IH]; intros fuel d m a Hi Hsc Hok Hh Ha Hle Hdis Hf; (destruct fuel as [|fuel]; [cbn in Hf; lia|]); cbn [load_kernel].
  - unfold zlen. cbn [length]. destruct (elf_at + a <? _) eqn:E; [lia|]. exists d, m. split_and!; done.
  - unfold zlen in *. cbn [length] in *. destruct (elf_at + a <? _) eqn:E; [|unfold elf_at in *; lia]. cbn [negb].
    apply Forall_cons in Hok as [Hg Hok]. destruct Hh as [Hh Hhs]. inversion Hdis as [|? ? Hd1 Hd2]; subst.
    destruct (load_ph_run d0 d m a g) as (d1 & m1 & E1 & Hi1 & Hs1 & L1 & M1); [done..|lia|]. run E1.
    replace (u32 (elf_at + a + sizeof_proghdr)) with (elf_at + (a + 32)) by (unfold elf_at, sizeof_proghdr; rewrite u32_small by (unfold is_u32; lia); lia).
    destruct (IH fuel d1 m1 (a + 32)) as (d2 & m2 & E2 & Hs2 & L2 & M2); [done..|lia|lia|done|lia|].
    replace (elf_at + (a + 32) + 32 * Z.of_nat (length gs)) with (elf_at + a + 32 * Z.of_nat (S (length gs))) in E2 by lia.
    exists d2, m2. split; [done|]. split; [done|]. split.
    + apply Forall_cons. split; [|done]. apply (loaded_frame d0 m1); [done..|]. intros x Hx. apply M2.
      eapply Forall_impl; [exact Hd1|]. cbn beta. intros g' ?. lia.
    + intros x Hx. apply Forall_cons in Hx as [Hx Hxs]. rewrite M2, M1 by done. done.
Qed.

(** C32: bootmain, on a disk whose file is an ELF executable with its program headers
    in the first page and segments that do not overlap each other or the scratch
    page once rounded to sectors, jumps to the entry of the header with every segment
    in memory at its physical address, filled with zeros to its size there; on any
    other file without the magic number it returns. *)
Theorem bootmain_loads (d : D) (m : mem) (gs : list seg) (phoff : Z) (fuel : nat) :
  pd_pend d = None -> (8 < sects)%nat ->
  file32 d 0 = ELF_MAGIC -> file32 d 28 = phoff -> file d 44 + 256 * file d 45 = zlen gs ->
  0 <= phoff -> phoff + 32 * zlen gs <= 4096 -> headers d phoff gs -> Forall seg_ok gs ->
  ForallOrdPairs (fun g g' => hi g <= lo g' \/ hi g' <= lo g) gs -> (length gs < fuel)%nat ->
  exists s', bootmain polls sects fuel (MkBoot d m) = Ret (Some (file32 d 24)) s' /\ Forall (loaded d (bt_mem s')) gs.
Proof using Hpolls PD.
  intros Hp Hsec Hmagic Hpo Hnum H0 Hle Hh Hok Hdis Hf.
  destruct (readseg_run d d m elf_at 4096 0) as (d1 & m1 & E1 & Hi1 & M1); [done|done|done|done|done|done|unfold nsect; change ((0 mod 512 + 4096 + 511) / 512) with 8; lia|].
  assert (Hs1 : scratch d m1).
  { intros j Hj. rewrite M1. change (512 * nsect 4096 0) with 4096. change (0 mod 512) with 0. destruct (_ && _) eqn:E; [f_equal; lia|lia]. }
  destruct (load_kernel_run d gs fuel d1 m1 phoff) as (d2 & m2 & E2 & Hs2 & L2 & _); [done..|].
  exists (MkBoot d2 m2). split; [|done].
  unfold bootmain. run E1. unfold get. unfold bind at 1. cbn [bt_mem].
  pose proof (scratch_ldl d m1 0 Hs1 ltac:(lia)) as Q0. rewrite Z.add_0_r in Q0. rewrite Q0, Hmagic, Z.eqb_refl. cbn [negb].
  unfold bind at 1 2. cbn [bt_mem]. rewrite (scratch_ldl d m1 28) by (done || lia). rewrite Hpo.
  unfold ld16. rewrite !Hs1 by lia. replace (elf_at + 44 + 1) with (elf_at + 45) by lia. rewrite Hs1 by lia.
  replace (le_value [file d 44; file d 45]) with (zlen gs) by (rewrite <-Hnum; cbn; lia).
  assert (zlen gs <= 128) by lia. assert (0 <= zlen gs) by (unfold zlen; lia). unfold sizeof_proghdr.
  rewrite (u32_small (elf_at + phoff)) by (unfold is_u32, elf_at; lia). rewrite u32_small by (unfold is_u32, elf_at; lia).
  replace (zlen gs * 32) with (32 * zlen gs) by lia. run E2. unfold bind, ret. cbn [bt_mem]. by rewrite (scratch_ldl d m2 24) by (done || lia).
Qed.

Theorem bootmain_not_elf (d : D) (m : mem) (fuel : nat) :
  pd_pend d = None -> (8 < sects)%nat -> file32 d 0 <> ELF_MAGIC ->
  exists s', bootmain polls sects fuel (MkBoot d m) = Ret None s'.
Proof using Hpolls PD.
  intros Hp Hsec Hmagic.
  destruct (readseg_run d d m elf_at 4096 0) as (d1 & m1 & E1 & Hi1 & M1); [done|done|done|done|done|done|unfold nsect; change ((0 mod 512 + 4096 + 511) / 512) with 8; lia|].
  exists (MkBoot d1 m1). unfold bootmain. run E1. unfold get. unfold bind at 1. cbn [bt_mem].
  assert (Q0 : ldl m1 elf_at = file32 d 0).
  { unfold ldl, file32. rewrite !M1. change (512 * nsect 4096 0) with 4096. change (0 mod 512) with 0.
    do 4 (destruct ((elf_at - 0 <=? _) && _) eqn:?; [|unfold elf_at in *; lia]). repeat f_equal; unfold elf_at; lia. }
  rewrite Q0. destruct (file32 d 0 =? ELF_MAGIC) eqn:E; [lia|done].
Qed.

End Loads.

Module BootDemo.

(** A kernel of one segment: three bytes at 4096 of the file for address 0x100000,
    and two zero bytes behind them. *)
Definition image (off : Z) : Z :=
  match off with
  | 0 => 0x7F | 1 => 0x45 | 2 => 0x4C | 3 => 0x46
  | 24 => 0x0C | 26 => 0x10
  | 28 => 52 | 44 => 1
  | 57 => 0x10 | 66 => 0x10 | 68 => 3 | 72 => 5
  | 4096 => 0xFA | 4097 => 0xEB | 4098 => 0xFE
  | _ => 0
  end.

(** The command registers and the sector asked for. *)
Record drive : Type := MkDrive { dr_reg : Z -> Z; dr_pend : option Z }.
Definition dr_sector (n : Z) : list Z := (fun i => image ((n - 1) * 512 + Z.of_nat i)) <$> seq 0 512.
Definition dr_lba (r : Z -> Z) : Z := r 0x1F3 + 256 * r 0x1F4 + 65536 * r 0x1F5 + 16777216 * (r 0x1F6 mod 16).

#[export] Instance drive_ports : Ports drive := {
  inb _ d := (0x40, d);
  outb p v d := if p =? 0x1F7 then MkDrive (dr_reg d) (Some (dr_lba (dr_reg d))) else MkDrive (fun q => if q =? p then v else dr_reg d q) (dr_pend d)
}.
#[export] Instance drive_strings : StringPorts drive := {
  insl _ _ d := (dr_sector (default 0 (dr_pend d)), MkDrive (dr_reg d) None);
  outsl _ _ d := d
}.
#[export] Instance drive_polled : PolledDisk drive.
Proof.
  refine {| pd_sector _ := dr_sector; pd_reg := dr_reg; pd_lag _ := 0%nat; pd_bound := 0%nat; pd_pend := dr_pend |}; try done.
  - intros p v d Hp _ Hn. cbn [outb drive_ports]. destruct (p =? 0x1F7) eqn:E; [lia|]. done.
  - intros d n _ Hn. cbn [insl drive_strings]. by rewrite Hn.
Defined.

Definition kernel : list seg := [MkSg 4096 0x100000 3 5].

Lemma bootmain_loads_witness :
  exists s', bootmain 1 9 2 (MkBoot (MkDrive (fun _ => 0) None) (fun _ => 0)) = Ret (Some 0x10000C) s' /\
    bt_mem s' 0x100002 = 0xFE /\ bt_mem s' 0x100004 = 0.
Proof.
  destruct (bootmain_loads (PD := drive_polled) 1 9 (le_n 1) (MkDrive (fun _ => 0) None) (fun _ => 0) kernel 52 2) as (s' & E & L);
    [reflexivity|lia|vm_compute; reflexivity|vm_compute; reflexivity|vm_compute; reflexivity|lia|vm_compute; discriminate|vm_compute; tauto| | |cbn; lia|].
  - repeat constructor; vm_compute; auto; discriminate.
  - repeat constructor.
  - replace (file32 (MkDrive (fun _ => 0) None) 24) with 0x10000C in E by (vm_compute; reflexivity).
    exists s'. split; [exact E|]. apply Forall_cons in L as [L _].
    assert (L2 := L 2 ltac:(split; [discriminate|reflexivity])). assert (L4 := L 4 ltac:(split; [discriminate|reflexivity])).
    cbn [sg_pa sg_filesz sg_off] in L2, L4. change (2 <? 3) with true in L2. change (4 <? 3) with false in L4. cbv iota in L2, L4.
    replace (file (MkDrive (fun _ => 0) None) (4096 + 2)) with 0xFE in L2 by (vm_compute; reflexivity). split; [exact L2|exact L4].
Defined.

End BootDemo.
