(* ===== verification/IdeProps.v ===== *)
(** * The IDE driver implements a queue of disk requests

    On a controller that behaves as [AtaController] says, the driver's linked
    list, port programming and interrupt handler implement an abstract queue that
    serves one request per interrupt, in order of arrival. *)

From S2P Require Import Prelude.
From S2P Require Import Params.
From S2P Require Import Disk.
From S2P Require Import BufSpec.
From S2P Require Import Bio.
From S2P Require Import Ports.
From S2P Require Import Ide.

(** ** The abstract queue *)

(** Pending requests in order of arrival, the buffers without their queue links,
    the medium, and the wakeups so far. *)
Record aqueue : Type := MkAqueue {
  aq_pending : list nat;
  aq_buf : list buf;
  aq_med : medium;
  aq_woken : list chan
}.

(** A request served: a dirty buffer goes to its drive, any other is filled from
    it, and the buffer becomes valid and clean. *)
Definition served (m : medium) (x : buf) : buf :=
  let x := if dirty x then x else set_data (blk (drive (b_dev x mod 2) m) (b_sector x)) x in
  set_flags (clrf (setf (b_flags x) B_VALID) B_DIRTY) x.
Definition serve_med (x : buf) (m : medium) : medium :=
  if dirty x then med_write (b_dev x mod 2) (b_sector x) (b_data x) m else m.

Inductive ide_event : Type :=
| Request (b : nat)
| Interrupt.

Definition aq_step (e : ide_event) (a : aqueue) : aqueue :=
  match e, aq_pending a with
  | Request b, q => MkAqueue (q ++ [b]) (aq_buf a) (aq_med a) (aq_woken a)
  | Interrupt, [] => a
  | Interrupt, b :: q =>
      let x := node (aq_buf a) b in
      MkAqueue q (<[b := served (aq_med a) x]> (aq_buf a)) (serve_med x (aq_med a))
        (aq_woken a ++ [ChBuf b])
  end.

(** A buffer its holder may pass to iderw. *)
Definition request_ok (have1 : bool) (x : buf) : bool :=
  busy x && negb (valid x && negb (dirty x)) && ((b_dev x =? 0) || have1) &&
  (0 <=? b_sector x) && (b_sector x <? 2 ^ 28) && (length (b_data x) =? 512)%nat.

Definition event_ok (have1 : bool) (e : ide_event) (a : aqueue) : bool :=
  match e with
  | Request b => (b <? length (aq_buf a))%nat && bool_decide (b ∉ aq_pending a) &&
                 request_ok have1 (node (aq_buf a) b)
  | Interrupt => true
  end.

Fixpoint aq_run (have1 : bool) (es : list ide_event) (a : aqueue) : option aqueue :=
  match es with
  | [] => Some a
  | e :: es => if event_ok have1 e a then aq_run have1 es (aq_step e a) else None
  end.

(** The command idestart leaves with the controller. *)
Definition started (x : buf) : ataop :=
  if dirty x then AWrite (b_dev x mod 2) (b_sector x) (b_data x) else ARead (b_dev x mod 2) (b_sector x).

Lemma land_ff_u8 z : u8 (Z.land z 0xff) = Z.land z 0xff.
Proof. unfold u8. change 0xff with (Z.ones 8). rewrite Z.land_ones by lia. dlia. Qed.

(** The registers hold the request before the command is given. *)
Lemma registers_set (a : ata) x : 0 <= b_sector x < 2 ^ 28 ->
  let h := Z.lor (Z.lor 0xe0 (Z.shiftl (Z.land (b_dev x) 1) 4)) (Z.land (Z.shiftr (b_sector x) 24) 0x0f) in
  let a' := set_reg 0x1f6 (u8 h) (set_reg 0x1f5 (u8 (Z.land (Z.shiftr (b_sector x) 16) 0xff))
            (set_reg 0x1f4 (u8 (Z.land (Z.shiftr (b_sector x) 8) 0xff))
            (set_reg 0x1f3 (u8 (Z.land (b_sector x) 0xff)) (set_reg 0x1f2 (u8 1) a)))) in
  reg a' 0x1f2 = 1 /\ at_lba a' = b_sector x /\ at_drv a' = b_dev x mod 2.
Proof.
  intros Hs h a'.
  assert (Hh : 0 <= Z.land (Z.shiftr (b_sector x) 24) 0x0f < 16).
  { change 0x0f with (Z.ones 4). rewrite Z.land_ones by lia. dlia. }
  destruct (drive_encode (b_dev x) _ Hh) as (Hr & Hm & Hd). fold h in Hr, Hm, Hd.
  assert (Hu : u8 h = h) by (unfold u8; rewrite Z.mod_small; lia).
  unfold at_lba, at_drv, a', reg, set_reg. cbn [at_regs]. rewrite Hu, !land_ff_u8.
  repeat first [rewrite lookup_insert_ne by lia | rewrite lookup_insert_eq]. cbn [default from_option id].
  rewrite Hm, Hd. split_and!; [done|by apply lba_encode|done].
Qed.

(** ** The linked list *)

Fixpoint chain (bs : list buf) (p : option nat) (q : list nat) : Prop :=
  match q with
  | [] => p = None
  | b :: q => p = Some b /\ chain bs (b_qnext (node bs b)) q
  end.

Definition unlink : buf -> buf := set_qnext None.

Lemma node_fmap_unlink bs b : node (unlink <$> bs) b = unlink (node bs b).
Proof. unfold node. rewrite list_lookup_fmap. by destruct (bs !! b). Qed.

Lemma inode_alter_eq f b bs : (b < length bs)%nat -> node (alter f b bs) b = f (node bs b).
Proof.
  intros Hb. destruct (lookup_lt_is_Some_2 _ _ Hb) as [x Hx].
  unfold node. by rewrite list_lookup_alter_eq, Hx.
Qed.

Lemma inode_alter_ne f b i bs : b <> i -> node (alter f b bs) i = node bs i.
Proof. intros. unfold node. by rewrite list_lookup_alter_ne. Qed.

Lemma chain_alter f b bs p q : b ∉ q -> chain bs p q -> chain (alter f b bs) p q.
Proof.
  revert p. induction q as [|c q IH]; intros p Hb Hc; [done|]. apply not_elem_of_cons in Hb as [Hne Hb].
  destruct Hc as [-> Hc]. split; [done|]. rewrite inode_alter_ne by done. by apply IH.
Qed.

Lemma chain_snoc b i bs p q : chain bs p (q ++ [i]) -> i ∉ q -> b ∉ q -> b <> i ->
  (i < length bs)%nat -> b_qnext (node bs b) = None ->
  chain (alter (set_qnext (Some b)) i bs) p (q ++ [i; b]).
Proof.
  revert p. induction q as [|c q IH]; intros p Hc Hi Hb Hne Hl Hn; cbn [app] in *.
  - destruct Hc as [-> _]. split; [done|]. rewrite inode_alter_eq by done. split; [done|].
    by rewrite inode_alter_ne.
  - apply not_elem_of_cons in Hi as [? Hi]. apply not_elem_of_cons in Hb as [? Hb].
    destruct Hc as [-> Hc]. split; [done|]. rewrite inode_alter_ne by done. by apply IH.
Qed.

Lemma bounded_length (q : list nat) n : NoDup q -> Forall (fun b => (b < n)%nat) q -> (length q <= n)%nat.
Proof.
  intros Hd Hq. rewrite <- (length_seq n 0). apply submseteq_length, NoDup_submseteq; [done|].
  intros x Hx. rewrite elem_of_seq. rewrite Forall_forall in Hq. specialize (Hq x Hx). lia.
Qed.

Lemma list_alter_twice {A} (f g : A -> A) (i : nat) (l : list A) :
  alter g i (alter f i l) = alter (fun x => g (f x)) i l.
Proof.
  apply list_eq. intros j. destruct (decide (i = j)) as [<-|].
  - rewrite !list_lookup_alter_eq. by destruct (l !! i).
  - by rewrite !list_lookup_alter_ne.
Qed.

Lemma inode_insert_ne b i x bs : b <> i -> node (<[b := x]> bs) i = node bs i.
Proof. intros. unfold node. by rewrite list_lookup_insert_ne. Qed.

Lemma chain_insert b x bs p q : b ∉ q -> chain bs p q -> chain (<[b := x]> bs) p q.
Proof.
  revert p. induction q as [|c q IH]; intros p Hb Hc; [done|]. apply not_elem_of_cons in Hb as [Hne Hb].
  destruct Hc as [-> Hc]. split; [done|]. rewrite inode_insert_ne by done. by apply IH.
Qed.

Lemma unlink_served m x : unlink (served m x) = served m (unlink x).
Proof. unfold served, dirty. cbn. by destruct (has (b_flags x) B_DIRTY). Qed.

(** Updates that are not about the link commute with erasing it. *)
Lemma unlink_alter_link l (b : nat) (bs : list buf) : unlink <$> alter (set_qnext l) b bs = unlink <$> bs.
Proof.
  apply list_eq. intros j. rewrite !list_lookup_fmap. destruct (decide (b = j)) as [<-|].
  - rewrite list_lookup_alter_eq. by destruct (bs !! b).
  - by rewrite list_lookup_alter_ne.
Qed.

Section Refinement.
Context {D : Type} `{!Ports D, !StringPorts D, !AtaController D}.
Context (fuel : nat) (Hfuel : (ata_bound < fuel)%nat).

Definition with_dev (d : D) (s : ide D) : ide D :=
  MkIde (id_buf s) (idequeue s) (havedisk1 s) (id_woken s) d.

(** An event on the driver: a process calls iderw and goes to sleep, or the
    device ends its command and interrupts. *)
Definition ide_step (e : ide_event) (s : ide D) : option (ide D) :=
  match e with
  | Request b => match ide_iderw fuel b s with Sleep _ s' => Some s' | _ => None end
  | Interrupt => match ideintr fuel (with_dev (ata_finish true (id_dev s)) s) with Ret _ s' => Some s' | _ => None end
  end.

Fixpoint ide_run (es : list ide_event) (s : ide D) : option (ide D) :=
  match es with
  | [] => Some s
  | e :: es => ide_step e s ≫= ide_run es
  end.

(** ** The port protocol *)

Lemma idewait_ready chk n d : (ata_lag d < n)%nat -> exists d',
  idewait n chk d = Ret (if chk && at_err (ata_view d) then -1 else 0) d' /\
  ata_lag d' = O /\ ata_view d' = ata_view d.
Proof.
  revert d. induction n as [|n IH]; intros d Hn; [lia|]. cbn [idewait].
  destruct (ata_lag d) as [|k] eqn:Hk.
  - destruct (ata_poll_ready d Hk) as (v & d' & Hi & Hr & He & Hl & Hv).
    exists d'. assert (Hb : in_b 0x1f7 d = Ret (u8 v) d') by (unfold in_b; by rewrite Hi). run Hb.
    change (Z.lor IDE_BSY IDE_DRDY) with 0xc0. change (Z.lor IDE_DF IDE_ERR) with 0x21.
    rewrite Hr, He, negb_involutive. change (negb (0x40 =? IDE_DRDY)) with false. cbv iota.
    destruct (chk && at_err (ata_view d)); done.
  - destruct (ata_poll_busy d k Hk) as (v & d' & Hi & Hr & Hl & Hv).
    destruct (IH d' ltac:(lia)) as (d'' & E & Hl' & Hv').
    exists d''. assert (Hb : in_b 0x1f7 d = Ret (u8 v) d') by (unfold in_b; by rewrite Hi). run Hb.
    change (Z.lor IDE_BSY IDE_DRDY) with 0xc0. change IDE_DRDY with 0x40.
    apply Z.eqb_neq in Hr. rewrite Hr. cbv iota beta delta [negb]. rewrite E, Hv', Hv. done.
Qed.

Lemma idewait_any chk d : exists d',
  idewait fuel chk d = Ret (if chk && at_err (ata_view d) then -1 else 0) d' /\
  ata_lag d' = O /\ ata_view d' = ata_view d.
Proof. apply idewait_ready. pose proof (ata_lag_bound d). lia. Qed.

Lemma on_dev_run {A} (m : M D A) s a d : m (id_dev s) = Ret a d -> on_dev m s = Ret a (with_dev d s).
Proof. intros E. unfold on_dev, zoom. by rewrite E. Qed.

Lemma on_dev_out p v s : on_dev (out_b p v) s = Ret tt (with_dev (outb p (u8 v) (id_dev s)) s).
Proof. done. Qed.

Lemma idestart_ok b s : let x := node (id_buf s) b in
  at_op (ata_view (id_dev s)) = AIdle -> 0 <= b_sector x < 2 ^ 28 -> length (b_data x) = 512%nat ->
  exists d, idestart fuel (Some b) s = Ret tt (with_dev d s) /\
    at_op (ata_view d) = started x /\ at_med (ata_view d) = at_med (ata_view (id_dev s)).
Proof.
  intros x Hop Hs Hlen. unfold idestart. rewrite (bind_run _ _ s x s) by done. cbv beta.
  destruct (idewait_any false (id_dev s)) as (d0 & E0 & L0 & V0).
  rewrite (bind_run _ _ _ _ _ (on_dev_run _ _ _ _ E0)). cbv beta.
  rewrite (bind_run _ _ _ _ _ (on_dev_out _ _ _)). cbv beta. cbn [with_dev id_dev].
  change (u8 0) with 0. destruct (ata_control d0 L0) as [L1 V1]. rewrite V0 in V1.
  set (d1 := outb 0x3f6 0 d0) in *. clearbody d1.
  pose proof (registers_set (ata_view (id_dev s)) x Hs) as HR. cbv zeta in HR.
  do 5 (rewrite (bind_run _ _ _ _ _ (on_dev_out _ _ _)); cbv beta; cbn [with_dev id_dev];
    match goal with L : ata_lag ?d = O, V : ata_view ?d = _ |- context [outb ?p ?v ?d] =>
      let H1 := fresh in let H2 := fresh in
      destruct (ata_register d p v L ltac:(by rewrite V) ltac:(lia)) as [H1 H2]; rewrite V in H2;
      let e := fresh "e" in set (e := outb p v d) in *; clearbody e; clear L V
    end).
  match goal with L : ata_lag ?d = O, V : ata_view ?d = _ |- _ => rewrite <- V in HR;
    rename d into dr; rename L into Lr; assert (Hi : at_op (ata_view dr) = AIdle) by (by rewrite V);
    assert (Hm : at_med (ata_view dr) = at_med (ata_view (id_dev s))) by (by rewrite V) end.
  destruct HR as (Hc & Hlba & Hdrv). unfold started, dirty. destruct (has (b_flags x) B_DIRTY).
  - rewrite (bind_run _ _ _ _ _ (on_dev_out _ _ _)). cbv beta. cbn [with_dev id_dev].
    change (u8 IDE_CMD_WRITE) with IDE_CMD_WRITE. pose proof (ata_write dr Lr Hi Hc) as W.
    rewrite Hlba, Hdrv in W. exists (outsl 0x1f0 (b_data x) (outb 0x1f7 IDE_CMD_WRITE dr)).
    split; [reflexivity|].
    rewrite (ata_outsl _ (b_dev x mod 2) (b_sector x)), W by (done || by rewrite W). done.
  - rewrite on_dev_out. exists (outb 0x1f7 IDE_CMD_READ dr). split; [reflexivity|].
    change (u8 IDE_CMD_READ) with IDE_CMD_READ. rewrite (ata_read dr Lr Hi Hc), Hlba, Hdrv. done.
Qed.

(** ** The simulation *)

Record ide_rep (s : ide D) (a : aqueue) : Prop := {
  ir_buf : aq_buf a = unlink <$> id_buf s;
  ir_chain : chain (id_buf s) (idequeue s) (aq_pending a);
  ir_nodup : NoDup (aq_pending a);
  ir_ok : Forall (fun b => (b < length (id_buf s))%nat /\
                           request_ok (havedisk1 s) (node (aq_buf a) b) = true) (aq_pending a);
  ir_op : at_op (ata_view (id_dev s)) =
            match aq_pending a with [] => AIdle | b :: _ => started (node (aq_buf a) b) end;
  ir_med : at_med (ata_view (id_dev s)) = aq_med a;
  ir_woken : id_woken s = aq_woken a
}.

Lemma queue_end_chain n (s : ide D) p q : chain (id_buf s) (deref s p) q -> (length q < n)%nat ->
  queue_end n s p = Some (match last q with Some i => Some i | None => p end).
Proof.
  revert p q. induction n as [|n IH]; intros p q Hc Hn; [lia|]. cbn [queue_end].
  destruct q as [|b q]; [cbn in Hc; by rewrite Hc|]. destruct Hc as [-> Hc].
  rewrite (IH (Some b) q) by (cbn in *; done || lia). rewrite last_cons. by destruct (last q).
Qed.

Lemma request_ok_inv have1 x : request_ok have1 x = true ->
  has (b_flags x) B_BUSY = true /\
  (Z.land (b_flags x) (Z.lor B_VALID B_DIRTY) =? B_VALID) = false /\
  negb (b_dev x =? 0) && negb have1 = false /\
  0 <= b_sector x < 2 ^ 28 /\ length (b_data x) = 512%nat.
Proof.
  unfold request_ok. rewrite !andb_true_iff, Memide.land_valid_dirty. unfold busy, valid, dirty.
  intros (((((Hb & Hv) & Hd) & H0) & H1) & Hl). split_and!; [done| |destruct (b_dev x =? 0), have1; done|lia..].
  by apply negb_true_iff in Hv.
Qed.

Lemma iderw_wait_sleeps b (s : ide D) have1 :
  request_ok have1 (node (id_buf s) b) = true -> iderw_wait b s = Sleep (ChBuf b) s.
Proof.
  intros (_ & Hf & _)%request_ok_inv. unfold iderw_wait.
  rewrite (bind_run _ _ s (node (id_buf s) b) s) by done. cbv beta. by rewrite Hf.
Qed.

Lemma iderw_wait_returns b (s : ide D) f :
  b_flags (node (id_buf s) b) = clrf (setf f B_VALID) B_DIRTY -> iderw_wait b s = Ret tt s.
Proof.
  intros Hf. unfold iderw_wait. rewrite (bind_run _ _ s (node (id_buf s) b) s) by done. cbv beta.
  rewrite Hf, Memide.land_valid_dirty.
  assert (Hv : has (clrf (setf f B_VALID) B_DIRTY) B_VALID = true).
  { unfold has at 1, clrf. rewrite <- Z.land_assoc. change (Z.land (Z.lnot B_DIRTY) B_VALID) with B_VALID.
    change (has (setf f B_VALID) B_VALID = true). by rewrite has_setf, orb_true_r. }
  assert (Hd : has (clrf (setf f B_VALID) B_DIRTY) B_DIRTY = false).
  { unfold has, clrf. rewrite <- Z.land_assoc. change (Z.land (Z.lnot B_DIRTY) B_DIRTY) with 0. by rewrite Z.land_0_r. }
  by rewrite Hv, Hd.
Qed.

(** Up to the store of the new link, iderw only clears the buffer's own link and
    walks to the end of the list. *)
Lemma iderw_append b s a : ide_rep s a -> event_ok (havedisk1 s) (Request b) a = true ->
  let s1 := MkIde (alter (set_qnext None) b (id_buf s)) (idequeue s) (havedisk1 s) (id_woken s) (id_dev s) in
  ide_iderw fuel b s =
    (store_link (last (aq_pending a)) b ;;
     let! q := get idequeue in
     (if bool_decide (q = Some b) then idestart fuel (Some b) else ret tt) ;;
     iderw_wait b) s1.
Proof.
  intros [Rb Rc Rn Ro _ _ _] He s1. cbn in He. rewrite !andb_true_iff, bool_decide_eq_true in He.
  destruct He as ((Hl & Hq) & Hr). rewrite Rb, node_fmap_unlink in Hr.
  change (request_ok (havedisk1 s) (node (id_buf s) b) = true) in Hr.
  apply request_ok_inv in Hr as (H1 & H2 & H3 & _).
  unfold ide_iderw. rewrite (bind_run _ _ s (node (id_buf s) b) s) by done. cbv beta.
  rewrite (bind_run _ _ s (havedisk1 s) s) by done. cbv beta. rewrite H1, H2, H3. cbn [negb].
  rewrite (bind_run _ _ s tt s1) by done. cbv beta.
  assert (E : queue_end (S (length (id_buf s1))) s1 None = Some (last (aq_pending a))).
  { rewrite (queue_end_chain _ _ _ (aq_pending a)).
    - by destruct (last (aq_pending a)).
    - cbn. by apply chain_alter.
    - cbn. rewrite length_alter. apply Nat.lt_succ_r, bounded_length; [done|].
      eapply Forall_impl; [exact Ro|]. by intros ? []. }
  rewrite (bind_run _ _ s1 (Some (last (aq_pending a))) s1) by (unfold get; by rewrite E). done.
Qed.

Lemma request_simulates b s a : ide_rep s a -> event_ok (havedisk1 s) (Request b) a = true ->
  exists s', ide_iderw fuel b s = Sleep (ChBuf b) s' /\
    ide_rep s' (aq_step (Request b) a) /\ havedisk1 s' = havedisk1 s.
Proof.
  intros R He. rewrite (iderw_append b s a R He). cbn zeta. destruct R as [Rb Rc Rn Ro Rp Rm Rw]. unfold event_ok in He.
  rewrite !andb_true_iff, bool_decide_eq_true, Nat.ltb_lt, Rb, length_fmap in He. destruct He as ((Hl & Hq) & Hr).
  set (bs1 := alter (set_qnext None) b (id_buf s)).
  assert (Hu1 : unlink <$> bs1 = aq_buf a) by (unfold bs1; by rewrite unlink_alter_link).
  assert (Hn1 : b_qnext (node bs1 b) = None) by (unfold bs1; by rewrite inode_alter_eq).
  assert (Hl1 : length bs1 = length (id_buf s)) by apply length_alter.
  assert (Hok : forall bs, unlink <$> bs = aq_buf a -> request_ok (havedisk1 s) (node bs b) = true).
  { intros bs E. rewrite <- Rb, <- E, node_fmap_unlink in Hr. exact Hr. }
  assert (Ho' : Forall (fun c => (c < length bs1)%nat /\
      request_ok (havedisk1 s) (node (aq_buf a) c) = true) (aq_pending a ++ [b])).
  { rewrite Hl1. apply Forall_app. split; [done|]. apply Forall_singleton. by rewrite Rb. }
  assert (Hd' : NoDup (aq_pending a ++ [b])).
  { apply NoDup_app. split_and!; [done| |apply NoDup_singleton]. intros c Hc ->%list_elem_of_singleton. done. }
  assert (Hc1 : chain bs1 (idequeue s) (aq_pending a)) by by apply chain_alter.
  destruct (aq_pending a) as [|i q _] eqn:Eq using rev_ind.
  - cbn [last store_link]. set (s2 := MkIde bs1 (Some b) (havedisk1 s) (id_woken s) (id_dev s)).
    rewrite (bind_run _ _ _ tt s2) by done. cbv beta. rewrite (bind_run _ _ s2 (Some b) s2) by done. cbv beta.
    rewrite bool_decide_eq_true_2 by done. pose proof (request_ok_inv _ _ (Hok _ Hu1)) as (_ & _ & _ & Hs & Hd).
    destruct (idestart_ok b s2 Rp Hs Hd) as (d & E & Hop & Hm). run E.
    rewrite (iderw_wait_sleeps _ _ (havedisk1 s)) by by apply Hok.
    eexists. split_and!; [done| |done]. cbn [aq_step]. rewrite Eq. split; cbn; try done.
    + rewrite <- Hu1, node_fmap_unlink. exact Hop.
    + by rewrite Hm.
  - rewrite last_snoc. cbn [store_link]. rewrite NoDup_app in Rn. destruct Rn as (_ & Hi & _).
    apply not_elem_of_app in Hq as [Hq Hbi]. rewrite list_elem_of_singleton in Hbi.
    assert (Hii : i ∉ q) by (intros ?; apply (Hi i); [done|by apply list_elem_of_singleton]).
    assert (Hil : (i < length bs1)%nat) by (rewrite Forall_forall in Ho'; apply Ho'; set_solver).
    set (bs2 := alter (set_qnext (Some b)) i bs1).
    assert (Hu2 : unlink <$> bs2 = aq_buf a) by (unfold bs2; by rewrite unlink_alter_link).
    set (s2 := MkIde bs2 (idequeue s) (havedisk1 s) (id_woken s) (id_dev s)).
    rewrite (bind_run _ _ _ tt s2) by done. cbv beta. rewrite (bind_run _ _ s2 (idequeue s) s2) by done. cbv beta.
    rewrite bool_decide_eq_false_2.
    2: { destruct q as [|c q]; destruct Hc1 as [-> _]; intros [= ->]; set_solver. }
    rewrite (bind_run _ _ s2 tt s2) by done. cbv beta.
    rewrite (iderw_wait_sleeps _ _ (havedisk1 s)) by by apply Hok.
    eexists. split_and!; [done| |done]. cbn [aq_step]. rewrite Eq. split; cbn; try done.
    + rewrite <- app_assoc. by apply chain_snoc.
    + unfold bs2. by rewrite length_alter.
    + rewrite Rp. by destruct q.
Qed.

(** The handler up to the start of the next request. *)
Lemma ideintr_first b q s a : ide_rep s a -> aq_pending a = b :: q ->
  let x := node (id_buf s) b in
  exists d, ideintr fuel (with_dev (ata_finish true (id_dev s)) s) =
    (let! p := get idequeue in match p with None => ret tt | Some _ => idestart fuel p end)
      (MkIde (<[b := served (aq_med a) x]> (id_buf s)) (b_qnext x) (havedisk1 s) (id_woken s ++ [ChBuf b]) d) /\
    at_op (ata_view d) = AIdle /\ at_med (ata_view d) = serve_med x (aq_med a).
Proof.
  intros [Rb Rc Rn Ro Rp Rm Rw] Eq x. rewrite Eq in *. destruct Rc as [Hh Hc].
  apply Forall_cons in Ro as [[Hl Hr] _]. rewrite Rb, node_fmap_unlink in Rp.
  change (at_op (ata_view (id_dev s)) = started x) in Rp.
  assert (Hx : id_buf s !! b = Some x).
  { destruct (lookup_lt_is_Some_2 _ _ Hl) as [y Hy]. unfold x, node. by rewrite Hy. }
  pose proof (ata_finishes true (id_dev s)) as Hf. unfold at_finish in Hf. rewrite Rp, Rm in Hf.
  unfold ideintr. set (s0 := with_dev (ata_finish true (id_dev s)) s).
  rewrite (bind_run _ _ s0 (Some b) s0) by (unfold get; cbn; by rewrite Hh). cbv beta iota.
  rewrite (bind_run _ _ s0 x s0) by done. cbv beta.
  set (s1 := MkIde (id_buf s) (b_qnext x) (havedisk1 s) (id_woken s) (id_dev s0)).
  rewrite (bind_run _ _ s0 tt s1) by done. cbv beta.
  unfold started, served, serve_med, dirty in *. destruct (has (b_flags x) B_DIRTY) eqn:Hdirty; cbn [negb].
  - exists (ata_finish true (id_dev s)). rewrite Hf. split; [|done].
    unfold bind, ret, on_ibuf, ide_wakeup, modify, get, s1. cbn.
    by rewrite list_alter_twice, (list_alter_insert _ _ _ _ Hx).
  - destruct (idewait_any true (id_dev s1)) as (d1 & E1 & L1 & V1). cbn [id_dev s1 s0 with_dev] in E1, V1.
    rewrite Hf in E1, V1. cbn [at_err set_op andb] in E1.
    destruct (ata_insl d1 _ L1 ltac:(by rewrite V1)) as (d2 & E2 & V2).
    exists d2. rewrite V2, V1. split; [|done].
    unfold bind at 1 2. rewrite (on_dev_run _ s1 _ _ E1). cbn [Z.geb Z.compare].
    unfold ide_insl, bind, on_dev, zoom. cbn [id_dev with_dev]. rewrite E2.
    unfold ret, on_ibuf, ide_wakeup, modify, get, s1, with_dev. cbn.
    by rewrite !list_alter_twice, (list_alter_insert _ _ _ _ Hx).
Qed.

Lemma interrupt_simulates s a : ide_rep s a ->
  exists s', ide_step Interrupt s = Some s' /\ ide_rep s' (aq_step Interrupt a) /\ havedisk1 s' = havedisk1 s.
Proof.
  intros R. cbn [ide_step aq_step]. destruct (aq_pending a) as [|b q] eqn:Eq.
  - destruct R as [Rb Rc Rn Ro Rp Rm Rw]. rewrite Eq in *. cbn in Rc. unfold ideintr.
    set (s0 := with_dev _ s). rewrite (bind_run _ _ s0 None s0) by (unfold get; cbn; by rewrite Rc). cbv beta iota.
    exists s0. split_and!; [done| |done].
    assert (Hf : ata_view (id_dev s0) = ata_view (id_dev s)) by (cbn; rewrite ata_finishes; unfold at_finish; by rewrite Rp).
    split; rewrite ?Eq, ?Hf; done.
  - destruct (ideintr_first b q s a R Eq) as (d & E & Hop & Hm). cbv zeta in *. rewrite E. clear E.
    destruct R as [Rb Rc Rn Ro Rp Rm Rw]. rewrite Eq in *. destruct Rc as [_ Hc]. apply NoDup_cons in Rn as [Hb Rn].
    apply Forall_cons in Ro as [[Hl _] Ro]. set (x := node (id_buf s) b) in *.
    set (s1 := MkIde _ _ _ _ d).
    assert (Hx : node (aq_buf a) b = unlink x) by (rewrite Rb; apply node_fmap_unlink).
    assert (Hbuf : <[b := served (aq_med a) (node (aq_buf a) b)]> (aq_buf a) = unlink <$> id_buf s1).
    { cbn. rewrite list_fmap_insert, unlink_served, <- Rb, Hx. done. }
    assert (Hok : Forall (fun c => (c < length (id_buf s1))%nat /\ request_ok (havedisk1 s)
        (node (<[b := served (aq_med a) (node (aq_buf a) b)]> (aq_buf a)) c) = true) q).
    { cbn. rewrite length_insert. rewrite Forall_forall in Ro |- *. intros c Hc'.
      rewrite inode_insert_ne by (intros ->; done). by apply Ro. }
    assert (Hch : chain (id_buf s1) (b_qnext x) q) by by apply chain_insert.
    rewrite (bind_run _ _ s1 (b_qnext x) s1) by done. cbv beta. destruct q as [|c q].
    + cbn in Hc. fold x in Hc. rewrite Hc. exists s1. split_and!; [done| |done].
      split; try done; cbn [aq_med aq_woken]; [by rewrite Hx|cbn; by rewrite Rw].
    + destruct Hch as [Hqc Hch]. rewrite Hqc. apply Forall_cons in Hok as [[Hcl Hcr] Hok].
      pose proof Hcr as (_ & _ & _ & Hs & Hd)%request_ok_inv. rewrite Hbuf, node_fmap_unlink in Hs, Hd.
      destruct (idestart_ok c s1 Hop Hs Hd) as (d' & E' & Hop' & Hm'). rewrite E'.
      exists (with_dev d' s1). split_and!; [done| |done].
      split; cbn [aq_buf aq_pending aq_med id_buf idequeue havedisk1 id_dev with_dev]; try done.
      * by constructor.
      * rewrite Hbuf, node_fmap_unlink. exact Hop'.
      * rewrite Hm', Hx. exact Hm.
      * cbn. by rewrite Rw.
Qed.

Lemma run_simulates es s a a' : ide_rep s a -> aq_run (havedisk1 s) es a = Some a' ->
  exists s', ide_run es s = Some s' /\ ide_rep s' a' /\ havedisk1 s' = havedisk1 s.
Proof.
  revert s a. induction es as [|e es IH]; intros s a R Ha; cbn [aq_run ide_run] in *; [by simplify_eq; eauto|].
  destruct (event_ok (havedisk1 s) e a) eqn:He; [|done].
  assert (H : exists s', ide_step e s = Some s' /\ ide_rep s' (aq_step e a) /\ havedisk1 s' = havedisk1 s).
  { destruct e as [b|]; [|by apply interrupt_simulates].
    destruct (request_simulates b s a R He) as (s' & E & ? & ?). exists s'. cbn [ide_step]. by rewrite E. }
  destruct H as (s' & E & R' & Hh). rewrite E. cbn. rewrite <- Hh in Ha |- *. by apply (IH s' (aq_step e a)).
Qed.

(** ** Correctness *)

(** C17: the driver implements the request queue.  From related states, every
    sequence of legal requests and device interrupts, in any order, runs on the
    driver without a panic and ends in a state related to the one the abstract
    queue reaches: the same requests pending in the same order, the same buffer
    contents and flags, the same data on both drives and the same wakeups. *)
Theorem ide_refines es s a a' : ide_rep s a -> aq_run (havedisk1 s) es a = Some a' ->
  exists s', ide_run es s = Some s' /\ ide_rep s' a'.
Proof. intros R Ha. destruct (run_simulates es s a a' R Ha) as (s' & ? & ? & _). eauto. Qed.

(** The medium after the requests [q] have been served in order. *)
Definition serve_all (bs : list buf) (q : list nat) (m : medium) : medium :=
  foldl (fun m c => serve_med (node bs c) m) m q.

Lemma interrupts_reach have1 q1 b q2 a : aq_pending a = q1 ++ b :: q2 -> NoDup (q1 ++ b :: q2) ->
  (b < length (aq_buf a))%nat ->
  exists a', aq_run have1 (replicate (S (length q1)) Interrupt) a = Some a' /\ aq_pending a' = q2 /\
    node (aq_buf a') b = served (serve_all (aq_buf a) q1 (aq_med a)) (node (aq_buf a) b) /\
    ChBuf b ∈ aq_woken a'.
Proof.
  revert a. induction q1 as [|c q1 IH]; intros a Hp Hd Hl; cbn [app length replicate aq_run event_ok] in *.
  - eexists. split; [done|]. unfold aq_step. rewrite Hp. cbn. split_and!; [done| |set_solver].
    unfold node at 1. by rewrite list_lookup_insert_eq.
  - apply NoDup_cons in Hd as [Hc Hd].
    destruct (IH (aq_step Interrupt a)) as (a' & E & Hp' & Hn & Hw);
      [unfold aq_step; by rewrite Hp|done|unfold aq_step; rewrite Hp; cbn; by rewrite length_insert|].
    exists a'. split; [exact E|]. split; [done|]. split; [|done]. rewrite Hn. unfold aq_step. rewrite Hp. cbn.
    rewrite inode_insert_ne by set_solver. f_equal. unfold serve_all.
    assert (G : forall m, foldl (fun m d => serve_med (node (<[c := served (aq_med a) (node (aq_buf a) c)]> (aq_buf a)) d) m) m q1
              = foldl (fun m d => serve_med (node (aq_buf a) d) m) m q1); [|apply G].
    clear -Hc. induction q1 as [|d q1 IH]; intros m; [done|]. cbn. rewrite inode_insert_ne by set_solver.
    apply IH. set_solver.
Qed.

(** C24: every queued request completes.  A request with [n] others before it is
    done after [n + 1] interrupts: its process has been woken, the wait loop of
    iderw lets it return, and its buffer has been exchanged with the drive as the
    requests before it left it. *)
Theorem ide_completes s a q1 b q2 : ide_rep s a -> aq_pending a = q1 ++ b :: q2 ->
  exists s', ide_run (replicate (S (length q1)) Interrupt) s = Some s' /\
    iderw_wait b s' = Ret tt s' /\ ChBuf b ∈ id_woken s' /\
    unlink (node (id_buf s') b) = served (serve_all (aq_buf a) q1 (aq_med a)) (node (aq_buf a) b).
Proof.
  intros R Hp. pose proof R as [Rb _ Rn Ro _ _ _]. rewrite Hp in Rn, Ro.
  assert (Hl : (b < length (aq_buf a))%nat).
  { rewrite Rb, length_fmap. rewrite Forall_forall in Ro. apply (Ro b). set_solver. }
  destruct (interrupts_reach (havedisk1 s) q1 b q2 a Hp Rn Hl) as (a' & Ea & _ & Hn & Hw).
  destruct (run_simulates _ _ _ _ R Ea) as (s' & Es & [Rb' _ _ _ _ _ Rw'] & _).
  rewrite Rb', node_fmap_unlink in Hn. exists s'. split; [done|]. rewrite Rw'. split_and!; [|done|done].
  apply (iderw_wait_returns b s' (b_flags (node (aq_buf a) b))).
  change (b_flags (node (id_buf s') b)) with (b_flags (unlink (node (id_buf s') b))). rewrite Hn.
  unfold served. by destruct (dirty (node (aq_buf a) b)).
Qed.

(** A transfer that fails is reported as done.  The handler takes no data after a
    failed read and does not look at the status after a write, but marks the
    buffer valid and clean in either case: iderw returns, the buffer has its old
    contents and the drives are unchanged. *)
Theorem ide_error_lost s a b : ide_rep s a -> aq_pending a = [b] ->
  exists s', ideintr fuel (with_dev (ata_finish false (id_dev s)) s) = Ret tt s' /\
    iderw_wait b s' = Ret tt s' /\ b_data (node (id_buf s') b) = b_data (node (id_buf s) b) /\
    at_med (ata_view (id_dev s')) = aq_med a.
Proof.
  intros [Rb Rc Rn Ro Rp Rm Rw] Eq. rewrite Eq in *. destruct Rc as [Hh Hc]. cbn in Hc.
  apply Forall_cons in Ro as [[Hl _] _]. set (x := node (id_buf s) b) in *.
  pose proof (ata_finishes false (id_dev s)) as Hf. unfold at_finish in Hf. rewrite Rm in Hf.
  set (g := fun y => set_flags (clrf (setf (b_flags y) B_VALID) B_DIRTY) y).
  set (after := fun d : D => MkIde (alter g b (id_buf s)) None (havedisk1 s) (id_woken s ++ [ChBuf b]) d).
  assert (E : exists d, ideintr fuel (with_dev (ata_finish false (id_dev s)) s) = Ret tt (after d) /\
                        at_med (ata_view d) = aq_med a).
  { unfold ideintr. set (s0 := with_dev (ata_finish false (id_dev s)) s).
    rewrite (bind_run _ _ s0 (Some b) s0) by (unfold get; cbn; by rewrite Hh). cbv beta iota.
    rewrite (bind_run _ _ s0 x s0) by done. cbv beta. rewrite Hc.
    set (s1 := MkIde (id_buf s) None (havedisk1 s) (id_woken s) (id_dev s0)).
    rewrite (bind_run _ _ s0 tt s1) by done. cbv beta. destruct (has (b_flags x) B_DIRTY); cbn [negb].
    - exists (id_dev s0). split; [|cbn; by rewrite Hf].
      unfold bind, ret, on_ibuf, ide_wakeup, modify, get, s1. cbn. by rewrite list_alter_twice.
    - destruct (idewait_any true (id_dev s1)) as (d1 & E1 & _ & V1). cbn [id_dev s1 s0 with_dev] in E1, V1.
      rewrite Hf in E1, V1. cbn [at_err andb] in E1. exists d1. split; [|by rewrite V1].
      unfold bind at 1 2. rewrite (on_dev_run _ s1 _ _ E1). cbn [Z.geb Z.compare].
      unfold bind, ret, on_ibuf, ide_wakeup, modify, get, s1, with_dev. cbn. by rewrite list_alter_twice. }
  destruct E as (d & E & Hm). exists (after d). split_and!; [done| | |done].
  - apply (iderw_wait_returns b _ (b_flags x)). cbn. by rewrite inode_alter_eq.
  - cbn. by rewrite inode_alter_eq.
Qed.

End Refinement.

(** ** A controller *)

Module SimAta.

(** A controller that is busy for up to three polls after each command. *)
Definition sim : Type := ata * nat.
Definition lag (d : sim) : nat := Nat.min d.2 3.
Definition sim_inb (p : Z) (d : sim) : Z * sim :=
  match lag d with
  | S n => (IDE_BSY, (d.1, n))
  | O => (if at_err d.1 then Z.lor IDE_DRDY IDE_ERR else IDE_DRDY, (d.1, O))
  end.
Definition sim_outb (p v : Z) (d : sim) : sim :=
  if p =? 0x1f7 then
    if v =? IDE_CMD_READ then (set_op (ARead (at_drv d.1) (at_lba d.1)) d.1, 3%nat)
    else (set_op (AWriteCmd (at_drv d.1) (at_lba d.1)) d.1, 3%nat)
  else if p =? 0x3f6 then d
  else (set_reg p v d.1, d.2).
Definition sim_insl (p : Z) (n : nat) (d : sim) : list Z * sim :=
  match at_op d.1 with AData l => (l, (set_op AIdle d.1, d.2)) | _ => ([], d) end.
Definition sim_outsl (p : Z) (l : list Z) (d : sim) : sim :=
  match at_op d.1 with AWriteCmd n lba => (set_op (AWrite n lba l) d.1, 2%nat) | _ => d end.

#[export] Instance sim_ports : Ports sim := {| inb := sim_inb; outb := sim_outb |}.
#[export] Instance sim_sports : StringPorts sim := {| insl := sim_insl; outsl := sim_outsl |}.

#[export] Instance sim_ata : AtaController sim.
Proof.
  refine {| ata_view := fst; ata_lag := lag; ata_bound := 3;
            ata_finish := fun ok d => (at_finish ok d.1, 2%nat) |}; unfold lag.
  - intros d. lia.
  - intros d n Hn. eexists _, _. cbn. unfold sim_inb, lag. rewrite Hn. split_and!; try done. cbn. lia.
  - intros d Hn. exists (if at_err d.1 then Z.lor IDE_DRDY IDE_ERR else IDE_DRDY), (d.1, O).
    cbn [inb sim_ports fst snd]. unfold sim_inb, lag. rewrite Hn. destruct (at_err d.1); split_and!; reflexivity.
  - done.
  - intros d p v Hl _ Hp. cbn. unfold sim_outb.
    assert ((p =? 0x1f7) = false) as -> by lia. assert ((p =? 0x3f6) = false) as -> by lia. done.
  - done.
  - done.
  - intros d n lba data Ho _. cbn. unfold sim_outsl. by rewrite Ho.
  - intros d data _ Ho. eexists. cbn. unfold sim_insl. by rewrite Ho.
  - done.
Defined.

End SimAta.

(** ** Witnesses *)

Module IdeExample.
Import SimAta.

(** Three buffers held by their processes: a read of sector 7 of drive 1, a write
    to the same sector, and a write to drive 0. *)
Definition ex_data (v : Z) : block := replicate 512 v.
Definition ex_bufs : list buf :=
  [MkBuf B_BUSY 1 7 0 0 None (ex_data 0); MkBuf (Z.lor B_BUSY B_DIRTY) 1 7 0 0 None (ex_data 5);
   MkBuf (Z.lor B_BUSY B_DIRTY) 0 0x1234567 0 0 None (ex_data 6)].
Definition ex_med : medium := MkMedium ∅ {[7 := ex_data 9]} [].
Definition ex_ide : ide sim := MkIde ex_bufs None true [] (MkAta ∅ AIdle false ex_med, 1%nat).
Definition ex_aq : aqueue := MkAqueue [] ex_bufs ex_med [].

Lemma ex_fuel : (ata_bound (D := sim) < 4)%nat.
Proof. cbn. lia. Qed.

Lemma ex_ide_rep : ide_rep ex_ide ex_aq.
Proof. split; try done. constructor. Qed.

Definition ex_events : list ide_event := [Request 1; Request 2; Interrupt; Request 0; Interrupt; Interrupt; Interrupt].

(** The driver run itself: the read issued after the write returns its data. *)
Lemma ide_refines_witness : exists a' s',
  aq_run true ex_events ex_aq = Some a' /\ ide_run 4 ex_events ex_ide = Some s' /\ ide_rep s' a' /\
  aq_pending a' = [] /\ b_data (node (aq_buf a') 0) = ex_data 5.
Proof.
  destruct (aq_run true ex_events ex_aq) as [a'|] eqn:E; [|vm_compute in E; discriminate].
  destruct (ide_refines (D := sim) 4 ex_fuel ex_events ex_ide ex_aq a' ex_ide_rep E) as (s' & Es & R).
  exists a', s'. split; [reflexivity|]. split; [exact Es|]. split; [exact R|].
  vm_compute in E. injection E as <-. split; reflexivity.
Defined.

(** A state with two requests pending, reached by the driver. *)
Lemma ide_completes_witness : exists s a s', ide_rep s a /\ aq_pending a = [1%nat; 0%nat] /\
  ide_run (D := sim) 4 [Interrupt; Interrupt] s = Some s' /\ iderw_wait 0 s' = Ret tt s'.
Proof.
  destruct (run_simulates (D := sim) 4 ex_fuel [Request 1; Request 0] ex_ide ex_aq
    (MkAqueue [1%nat; 0%nat] ex_bufs ex_med []) ex_ide_rep ltac:(vm_compute; reflexivity)) as (s & _ & R & _).
  destruct (ide_completes (D := sim) 4 ex_fuel s _ [1%nat] 0%nat [] R eq_refl) as (s' & E & Hw & _).
  exists s, (MkAqueue [1%nat; 0%nat] ex_bufs ex_med []), s'.
  split; [exact R|]. split; [reflexivity|]. split; [exact E|exact Hw].
Defined.

End IdeExample.
