(* ===== verification/Mp.v ===== *)
(** * The multiprocessor tables (mp.c, mp.h)

    mpinit finds the tables the BIOS has left in memory and reads off them the
    processors and the I/O APIC.  Memory is only read here and is a parameter;
    the console messages are left out.  The scan of the entries is a loop with
    fuel: with known entry types each round moves on by at least 8 bytes. *)

From S2P Require Import Prelude.
From S2P Require Import CString.
From S2P Require Import Mmu.
From S2P Require Import Ports.

Module Mp.

Definition NCPU : Z := 8.
Definition MPPROC : Z := 0x00.
Definition MPBUS : Z := 0x01.
Definition MPIOAPIC : Z := 0x02.
Definition MPIOINTR : Z := 0x03.
Definition MPLINTR : Z := 0x04.
Definition MPBOOT : Z := 0x02.

(** Sizes of the structures of mp.h. *)
Definition sizeof_mp : Z := 16.
Definition sizeof_mpconf : Z := 44.
Definition sizeof_mpproc : Z := 20.
Definition sizeof_mpioapic : Z := 8.

(** The globals of mp.c, the ids of [cpus], and [lapic] of lapic.c. *)
Record mpst (D : Type) : Type := MkMp {
  cpus : list Z;
  bcpu : Z;
  ismp : bool;
  ncpu : Z;
  ioapicid : Z;
  lapic : Z;
  mp_dev : D
}.
Arguments MkMp {D}.
Arguments cpus {D}.
Arguments bcpu {D}.
Arguments ismp {D}.
Arguments ncpu {D}.
Arguments ioapicid {D}.
Arguments lapic {D}.
Arguments mp_dev {D}.

Definition mpbcpu {D} (s : mpst D) : Z := bcpu s.

Section Mp.
Context (m : mem).

(** The sum is kept in an int and returned as a byte. *)
Fixpoint sum_from (cnt : nat) (addr sum : Z) : Z :=
  match cnt with
  | O => u8 sum
  | S cnt => sum_from cnt (addr + 1) (sum + m addr)
  end.
Definition sum (addr len : Z) : Z := sum_from (Z.to_nat len) addr 0.

(** [memcmp(p, s, n) == 0] for a string literal of [n] bytes. *)
Fixpoint is_at (p : Z) (s : list Z) : bool :=
  match s with
  | [] => true
  | c :: s => (m p =? c) && is_at (p + 1) s
  end.
Definition sig_mp : list Z := [95; 77; 80; 95].
Definition sig_pcmp : list Z := [80; 67; 77; 80].

Fixpoint search_from (cnt : nat) (p : Z) : option Z :=
  match cnt with
  | O => None
  | S cnt => if is_at p sig_mp && (sum p sizeof_mp =? 0) then Some p else search_from cnt (p + sizeof_mp)
  end.
Definition mpsearch1 (a len : Z) : option Z := search_from (Z.to_nat ((len + sizeof_mp - 1) / sizeof_mp)) (p2v a).

Definition mpsearch : option Z :=
  let bda := p2v 0x400 in
  let p := Z.shiftl (Z.lor (Z.shiftl (m (bda + 0x0f)) 8) (m (bda + 0x0e))) 4 in
  let mp :=
    if negb (p =? 0) then mpsearch1 p 1024
    else
      let p := Z.lor (Z.shiftl (m (bda + 0x14)) 8) (m (bda + 0x13)) * 1024 in
      mpsearch1 (u32 (p - 1024)) 1024 in
  match mp with
  | Some mp => Some mp
  | None => mpsearch1 0xf0000 0x10000
  end.

Definition ldw (a : Z) : Z := le_value [m a; m (a + 1)].
Definition mp_physaddr (mp : Z) : Z := ldl m (mp + 4).
Definition mp_imcrp (mp : Z) : Z := m (mp + 12).
Definition conf_length (conf : Z) : Z := ldw (conf + 4).
Definition conf_version (conf : Z) : Z := m (conf + 6).
Definition conf_lapicaddr (conf : Z) : Z := ldl m (conf + 36).

Definition mpconfig : option (Z * Z) :=
  match mpsearch with
  | None => None
  | Some mp =>
      if mp_physaddr mp =? 0 then None else
      let conf := p2v (mp_physaddr mp) in
      if negb (is_at conf sig_pcmp) then None else
      if negb (conf_version conf =? 1) && negb (conf_version conf =? 4) then None else
      if negb (sum conf (conf_length conf) =? 0) then None else
      Some (mp, conf)
  end.

Context {D : Type} `{!Ports D}.

Definition set_ismp b (s : mpst D) := MkMp (cpus s) (bcpu s) b (ncpu s) (ioapicid s) (lapic s) (mp_dev s).
Definition set_bcpu b (s : mpst D) := MkMp (cpus s) b (ismp s) (ncpu s) (ioapicid s) (lapic s) (mp_dev s).
Definition set_apic i (s : mpst D) := MkMp (cpus s) (bcpu s) (ismp s) (ncpu s) i (lapic s) (mp_dev s).
Definition set_lapic l (s : mpst D) := MkMp (cpus s) (bcpu s) (ismp s) (ncpu s) (ioapicid s) l (mp_dev s).
Definition add_cpu (s : mpst D) :=
  MkMp (zset (cpus s) (ncpu s) (u8 (ncpu s))) (bcpu s) (ismp s) (ncpu s + 1) (ioapicid s) (lapic s) (mp_dev s).
Definition on_dev {A} (k : M D A) : M (mpst D) A :=
  zoom mp_dev (fun d s => MkMp (cpus s) (bcpu s) (ismp s) (ncpu s) (ioapicid s) (lapic s) d) k.

(** A processor entry; a store past the end of [cpus] is undefined. *)
Definition mp_proc (p : Z) : M (mpst D) unit :=
  let! n := get ncpu in
  (if negb (n =? m (p + 1)) then modify (set_ismp false) else ret tt) ;;
  (if negb (Z.land (m (p + 3)) MPBOOT =? 0) then modify (set_bcpu n) else ret tt) ;;
  if n <? NCPU then modify add_cpu else undef "cpus".

(** An unknown type is reported, and the pointer stays where it is. *)
Fixpoint mp_scan (fuel : nat) (p e : Z) : M (mpst D) unit :=
  if p <? e then
    match fuel with
    | O => out_of_fuel
    | S fuel =>
        let ty := m p in
        if ty =? MPPROC then mp_proc p ;; mp_scan fuel (p + sizeof_mpproc) e
        else if ty =? MPIOAPIC then modify (set_apic (m (p + 1))) ;; mp_scan fuel (p + sizeof_mpioapic) e
        else if (ty =? MPBUS) || (ty =? MPIOINTR) || (ty =? MPLINTR) then mp_scan fuel (p + 8) e
        else modify (set_ismp false) ;; mp_scan fuel p e
    end
  else ret tt.

Definition mpinit (fuel : nat) : M (mpst D) unit :=
  modify (set_bcpu 0) ;;
  match mpconfig with
  | None => ret tt
  | Some (mp, conf) =>
      modify (set_ismp true) ;;
      modify (set_lapic (conf_lapicaddr conf)) ;;
      mp_scan fuel (conf + sizeof_mpconf) (conf + conf_length conf) ;;
      let! ok := get ismp in
      if negb ok then
        modify (fun s => MkMp (cpus s) (bcpu s) false 1 0 0 (mp_dev s))
      else if negb (mp_imcrp mp =? 0) then
        on_dev (out_b 0x22 0x70) ;;
        let! v := on_dev (in_b 0x23) in
        on_dev (out_b 0x23 (Z.lor v 1))
      else ret tt
  end.

End Mp.

End Mp.

(** * What mpinit reads off the multiprocessor tables

    The tables are described by the list of their entries; [encode] lays an entry
    out in bytes. *)

Import Mp.

(** ** The search *)

Definition mp_ok (m : mem) (p : Z) : bool := is_at m p sig_mp && (sum m p sizeof_mp =? 0).

(** mpsearch1 finds the first structure at a multiple of 16 bytes from the start
    that has the signature and the checksum. *)
Theorem mpsearch1_first m a len p : 0 <= len ->
  mpsearch1 m a len = Some p <->
  exists i, 0 <= i /\ 16 * i < len /\ p = p2v a + 16 * i /\ mp_ok m p = true /\
    forall j, 0 <= j < i -> mp_ok m (p2v a + 16 * j) = false.
Proof.
  intros Hlen. unfold mpsearch1. set (b := p2v a). set (cnt := Z.to_nat ((len + sizeof_mp - 1) / sizeof_mp)).
  assert (Hc : forall i, 0 <= i -> 16 * i < len <-> i < Z.of_nat cnt) by (intros i Hi; unfold cnt, sizeof_mp; dlia).
  transitivity (exists i, 0 <= i < Z.of_nat cnt /\ p = b + 16 * i /\ mp_ok m p = true /\
    forall j, 0 <= j < i -> mp_ok m (b + 16 * j) = false).
  2: { split; intros (i & Hi); exists i; pose proof (Hc i); naive_solver lia. }
  clearbody cnt. clear Hc Hlen. clearbody b. revert b. induction cnt as [|cnt IH]; intros b; cbn [search_from].
  - split; [done|]. intros (i & ? & _). lia.
  - fold (mp_ok m b). destruct (mp_ok m b) eqn:E.
    + split.
      * intros [= <-]. exists 0. split_and!; [lia..| |done|lia]. by rewrite Z.mul_0_r, Z.add_0_r.
      * intros (i & Hi & -> & _ & Hlow). f_equal. destruct (decide (i = 0)) as [->|]; [lia|].
        specialize (Hlow 0 ltac:(lia)). rewrite Z.mul_0_r, Z.add_0_r in Hlow. congruence.
    + unfold sizeof_mp. rewrite IH. split.
      * intros (i & Hi & -> & Hok & Hlow). exists (i + 1). split_and!; [lia..| |].
        { by replace (b + 16 * (i + 1)) with (b + 16 + 16 * i) by lia. }
        intros j Hj. destruct (decide (j = 0)) as [->|]; [by rewrite Z.mul_0_r, Z.add_0_r|].
        replace (b + 16 * j) with (b + 16 + 16 * (j - 1)) by lia. apply Hlow. lia.
      * intros (i & Hi & -> & Hok & Hlow). assert (i <> 0) by (intros ->; rewrite Z.mul_0_r, Z.add_0_r in Hok; congruence).
        exists (i - 1). replace (b + 16 + 16 * (i - 1)) with (b + 16 * i) by lia. split_and!; [lia..|done|].
        intros j Hj. replace (b + 16 + 16 * j) with (b + 16 * (j + 1)) by lia. apply Hlow. lia.
Qed.

(** ** The entries *)

Inductive mpentry : Type :=
| EProc (apicid version flags : Z) (rest : list Z)
| EIoapic (apicno : Z) (rest : list Z)
| EOther (type : Z) (rest : list Z).

Definition encode (e : mpentry) : list Z :=
  match e with
  | EProc id v fl rest => MPPROC :: id :: v :: fl :: rest
  | EIoapic no rest => MPIOAPIC :: no :: rest
  | EOther ty rest => ty :: rest
  end.

Definition entry_ok (e : mpentry) : Prop :=
  match e with
  | EProc _ _ _ rest => length rest = 16%nat
  | EIoapic _ rest => length rest = 6%nat
  | EOther ty rest => (ty = MPBUS \/ ty = MPIOINTR \/ ty = MPLINTR) /\ length rest = 7%nat
  end.

Definition holds (m : mem) (a : Z) (bs : list Z) : Prop :=
  forall i b, bs !! i = Some b -> m (a + Z.of_nat i) = b.

Lemma holds_app m a bs cs : holds m a (bs ++ cs) -> holds m a bs /\ holds m (a + zlen bs) cs.
Proof.
  intros H. split; intros i b Hi.
  - apply H. by apply lookup_app_l_Some.
  - replace (a + zlen bs + Z.of_nat i) with (a + Z.of_nat (length bs + i)) by (unfold zlen; lia).
    apply H. rewrite lookup_app_r, Nat.add_comm, Nat.add_sub by lia. done.
Qed.

Lemma zlen_encode e : entry_ok e -> zlen (encode e) = match e with EProc _ _ _ _ => 20 | _ => 8 end.
Proof. unfold zlen. destruct e; cbn; lia. Qed.

(** The processors listed so far, by local APIC id. *)
Definition procs (es : list mpentry) : list (Z * Z) :=
  omap (fun e => match e with EProc id _ fl _ => Some (id, fl) | _ => None end) es.

Section Scan.
Context {D : Type} `{!Ports D}.
Implicit Types s : mpst D.

(** What one entry does. *)
Definition mp_apply (s : mpst D) (e : mpentry) : mpst D :=
  match e with
  | EProc id _ fl _ =>
      let s1 := if negb (ncpu s =? id) then set_ismp false s else s in
      let s2 := if negb (Z.land fl MPBOOT =? 0) then set_bcpu (ncpu s) s1 else s1 in
      add_cpu s2
  | EIoapic no _ => set_apic no s
  | EOther _ _ => s
  end.

Lemma ncpu_apply s e : ncpu (mp_apply s e) = ncpu s + zlen (procs [e]).
Proof. destruct e; cbn; repeat case_match; cbn; unfold zlen; cbn; lia. Qed.

Lemma mp_scan_entry m fuel p q s e : holds m p (encode e) -> entry_ok e -> p < q -> ncpu s + zlen (procs [e]) <= NCPU ->
  mp_scan m (S fuel) p q s = mp_scan m fuel (p + zlen (encode e)) q (mp_apply s e).
Proof.
  intros Hh Hok Hlt Hn. rewrite (zlen_encode e Hok). cbn [mp_scan]. rewrite (proj2 (Z.ltb_lt _ _) Hlt).
  assert (H0 := Hh 0%nat). assert (H1 := Hh 1%nat). assert (H3 := Hh 3%nat). change (Z.of_nat 1) with 1 in H1. change (Z.of_nat 3) with 3 in H3.
  cbn in H0, H1, H3. rewrite Z.add_0_r in H0.
  destruct e as [id v fl rest|no rest|ty rest]; cbn in H0, H1, H3; rewrite (H0 _ eq_refl).
  - change (MPPROC =? MPPROC) with true. cbv iota.
    assert (Hc : ncpu s < NCPU) by (cbn in Hn; unfold zlen in Hn; cbn in Hn; lia).
    unfold mp_proc. rewrite bind_bind, (bind_run _ _ s (ncpu s) s) by done. cbv beta.
    rewrite (H1 _ eq_refl), (H3 _ eq_refl), (proj2 (Z.ltb_lt _ _) Hc). unfold mp_apply, sizeof_mpproc.
    destruct (negb (ncpu s =? id)), (negb (Z.land fl MPBOOT =? 0)); reflexivity.
  - rewrite (H1 _ eq_refl). reflexivity.
  - destruct Hok as [[->|[->| ->]] _]; reflexivity.
Qed.

Lemma mp_scan_run m es fuel p s :
  holds m p (concat (encode <$> es)) -> Forall entry_ok es -> ncpu s + zlen (procs es) <= NCPU -> (length es <= fuel)%nat ->
  mp_scan m fuel p (p + zlen (concat (encode <$> es))) s = Ret tt (foldl mp_apply s es).
Proof.
  intros Hh Hok. revert fuel p s Hh. induction Hok as [|e es He Hok IH]; intros fuel p s Hh Hn Hf; cbn [fmap list_fmap concat foldl] in *.
  - change (zlen []) with 0. rewrite Z.add_0_r. destruct fuel; cbn; by rewrite Z.ltb_irrefl.
  - destruct fuel as [|fuel]; [cbn in Hf; lia|]. apply holds_app in Hh as [Hh1 Hh2].
    assert (Hp : zlen (procs (e :: es)) = zlen (procs [e]) + zlen (procs es))
      by (unfold zlen, procs; destruct e; cbn; lia).
    pose proof (zlen_nonneg (procs es)) as Hz. pose proof (zlen_nonneg (concat (encode <$> es))) as Hz2.
    assert (Hl : 0 < zlen (encode e)) by (rewrite (zlen_encode e He); destruct e; lia).
    rewrite zlen_app. rewrite (mp_scan_entry _ _ _ _ _ e); [|done|done|lia|lia].
    rewrite Z.add_assoc. apply IH; [done|rewrite ncpu_apply; lia|cbn in Hf; lia].
Qed.

(** ** The result *)

Fixpoint boot_at (n b : Z) (ps : list (Z * Z)) : Z :=
  match ps with
  | [] => b
  | (_, fl) :: ps => boot_at (n + 1) (if negb (Z.land fl MPBOOT =? 0) then n else b) ps
  end.

Definition last_apic (i : Z) (es : list mpentry) : Z :=
  foldl (fun i e => match e with EIoapic no _ => no | _ => i end) i es.

Definition in_order (n : Z) (ps : list (Z * Z)) : bool := bool_decide (ps.*1 = seqZ n (zlen ps)).

Definition numbered (n : Z) (l : list Z) : Prop :=
  zlen l = NCPU /\ forall i, 0 <= i < n -> zget l i = i.

Lemma in_order_cons n id fl ps : in_order n ((id, fl) :: ps) = (n =? id) && in_order (n + 1) ps.
Proof.
  unfold in_order. assert (Hz : seqZ n (zlen ((id, fl) :: ps)) = n :: seqZ (n + 1) (zlen ps)).
  { unfold zlen. cbn [length]. rewrite seqZ_cons by lia. do 2 f_equal; lia. }
  rewrite Hz. cbn. destruct (Z.eqb_spec n id) as [->|Hne]; cbn.
  - apply bool_decide_ext. split; [by intros [= ?]|congruence].
  - apply bool_decide_eq_false. intros [= ? _]. congruence.
Qed.

Lemma fold_apply es s :
  let s' := foldl mp_apply s es in
  ncpu s' = ncpu s + zlen (procs es) /\ bcpu s' = boot_at (ncpu s) (bcpu s) (procs es) /\
  ismp s' = ismp s && in_order (ncpu s) (procs es) /\ lapic s' = lapic s /\ ioapicid s' = last_apic (ioapicid s) es.
Proof.
  revert s. induction es as [|e es IH]; intros s; cbn [foldl].
  - cbn. change (in_order (ncpu s) []) with true. rewrite andb_true_r. split_and!; try done. change (zlen []) with 0. lia.
  - destruct (IH (mp_apply s e)) as (H1 & H2 & H3 & H4 & H5). rewrite H1, H2, H3, H4, H5. clear IH H1 H2 H3 H4 H5.
    destruct e as [id v fl rest|no rest|ty rest]; [|done|done].
    change (procs (EProc id v fl rest :: es)) with ((id, fl) :: procs es). rewrite in_order_cons.
    assert (Hz : zlen ((id, fl) :: procs es) = 1 + zlen (procs es)) by (unfold zlen; cbn; lia). rewrite Hz.
    cbn [mp_apply boot_at]. change (last_apic (ioapicid s) (EProc id v fl rest :: es)) with (last_apic (ioapicid s) es).
    destruct (ncpu s =? id), (negb (Z.land fl MPBOOT =? 0)); cbn; rewrite ?andb_true_r, ?andb_false_r; cbn; split_and!; done || lia.
Qed.

Lemma numbered_apply es s : 0 <= ncpu s -> ncpu s + zlen (procs es) <= NCPU -> numbered (ncpu s) (cpus s) ->
  numbered (ncpu s + zlen (procs es)) (cpus (foldl mp_apply s es)).
Proof.
  revert s. induction es as [|e es IH]; intros s H0 Hn Hnum; cbn [foldl].
  - change (zlen (procs [])) with 0. by rewrite Z.add_0_r.
  - assert (Hp : zlen (procs (e :: es)) = zlen (procs [e]) + zlen (procs es)) by (unfold zlen, procs; destruct e; cbn; lia).
    pose proof (zlen_nonneg (procs es)). pose proof (zlen_nonneg (procs [e])).
    rewrite Hp, Z.add_assoc, <- ncpu_apply. apply IH; rewrite ?ncpu_apply; [lia|lia|].
    destruct e as [id v fl rest|no rest|ty rest]; cbn [mp_apply].
    2,3: by change (zlen (procs [_])) with 0; rewrite Z.add_0_r.
    change (zlen (procs [_])) with 1 in *. destruct Hnum as [Hl Hnum].
    assert (Hc : cpus (add_cpu (if negb (Z.land fl MPBOOT =? 0) then set_bcpu (ncpu s) (if negb (ncpu s =? id) then set_ismp false s else s) else if negb (ncpu s =? id) then set_ismp false s else s)) = zset (cpus s) (ncpu s) (ncpu s)).
    { unfold NCPU in Hn. destruct (negb (ncpu s =? id)), (negb (Z.land fl MPBOOT =? 0)); cbn [add_cpu set_bcpu set_ismp cpus ncpu]; f_equal; unfold u8; dlia. }
    rewrite Hc. split; [by rewrite zlen_zset|]. intros i Hi. destruct (decide (i = ncpu s)) as [->|].
    + apply zget_zset_eq. lia.
    + rewrite zget_zset_ne by lia. apply Hnum. lia.
Qed.

(** when mpconfig finds a configuration table whose body is the layout of a
    list of entries with at most NCPU processors, mpinit comes to its end.  The
    cpus are numbered in the order of the processor entries, and bcpu is the last
    one flagged as the boot processor.  If the local APIC ids are 0, 1, 2, ... in
    that order, ncpu is their number, lapic the table's address and ioapicid the
    last I/O APIC's; if they are not, mpinit falls back to one cpu and no APICs. *)
Theorem mpinit_table m fuel s mp conf es :
  mpconfig m = Some (mp, conf) ->
  holds m (conf + sizeof_mpconf) (concat (encode <$> es)) ->
  conf_length m conf = sizeof_mpconf + zlen (concat (encode <$> es)) ->
  Forall entry_ok es -> zlen (procs es) <= NCPU -> (length es <= fuel)%nat ->
  ncpu s = 0 -> zlen (cpus s) = NCPU ->
  exists s', mpinit m fuel s = Ret tt s' /\
    bcpu s' = boot_at 0 0 (procs es) /\ numbered (zlen (procs es)) (cpus s') /\
    ismp s' = in_order 0 (procs es) /\
    (ncpu s', lapic s', ioapicid s') =
      if in_order 0 (procs es) then (zlen (procs es), conf_lapicaddr m conf, last_apic (ioapicid s) es) else (1, 0, 0).
Proof.
  intros Hm Hh Hlen Hok Hn Hf Hs Hc. set (s1 := set_lapic (conf_lapicaddr m conf) (set_ismp true (set_bcpu 0 s))).
  pose proof (mp_scan_run m es fuel _ s1 Hh Hok ltac:(cbn; lia) Hf) as Hscan.
  destruct (fold_apply es s1) as (H1 & H2 & H3 & H4 & H5). set (s2 := foldl mp_apply s1 es) in *.
  assert (Hnum : numbered (zlen (procs es)) (cpus s2)).
  { replace (zlen (procs es)) with (ncpu s1 + zlen (procs es)) by (cbn; lia). apply numbered_apply; cbn; try lia. split; [done|lia]. }
  cbn [s1 set_lapic set_ismp set_bcpu ncpu bcpu ismp lapic ioapicid] in H1, H2, H3, H4, H5. rewrite Hs in *. cbn [andb] in H3.
  assert (Hrun : mpinit m fuel s =
    (let! ok := get ismp in
      if negb ok then modify (fun s => MkMp (cpus s) (bcpu s) false 1 0 0 (mp_dev s))
      else if negb (mp_imcrp m mp =? 0) then
        on_dev (out_b 0x22 0x70) ;; let! v := on_dev (in_b 0x23) in on_dev (out_b 0x23 (Z.lor v 1))
      else ret tt) s2).
  { unfold mpinit. rewrite Hm. do 3 (rewrite (bind_run (modify _) _ _ tt _ eq_refl)). fold s1.
    rewrite Hlen, Z.add_assoc. by rewrite (bind_run _ _ _ _ _ Hscan). }
  rewrite Hrun. clear Hrun Hscan. rewrite (bind_run _ _ _ (ismp s2) s2) by done. cbv beta. rewrite H3.
  destruct (in_order 0 (procs es)) eqn:Eo; cbn [negb].
  2: { eexists. split; [reflexivity|]. done. }
  destruct (negb (mp_imcrp m mp =? 0)).
  - unfold on_dev, zoom, out_b, in_b, mbind, bind. cbn [mp_dev]. destruct (inb _ _) as [v d]. eexists. split; [reflexivity|].
    cbn. split_and!; try done. by rewrite H1, H4, H5.
  - eexists. split; [reflexivity|]. split_and!; try done. by rewrite H1, H4, H5.
Qed.

(** An entry of an unknown type: the scan never ends. *)
Theorem mp_scan_unknown m fuel p e s : p < e ->
  (forall k, k ∈ [MPPROC; MPBUS; MPIOAPIC; MPIOINTR; MPLINTR] -> m p <> k) ->
  mp_scan m fuel p e s = Fail FFuel.
Proof.
  intros Hlt Hty. revert s. induction fuel as [|fuel IH]; intros s; cbn [mp_scan]; rewrite (proj2 (Z.ltb_lt _ _) Hlt).
  { done. }
  pose proof (Hty MPPROC ltac:(set_solver)). pose proof (Hty MPBUS ltac:(set_solver)). pose proof (Hty MPIOAPIC ltac:(set_solver)).
  pose proof (Hty MPIOINTR ltac:(set_solver)). pose proof (Hty MPLINTR ltac:(set_solver)).
  do 5 (rewrite (proj2 (Z.eqb_neq _ _)) by done). cbn [orb].
  rewrite (bind_run (modify _) _ _ tt _ eq_refl). apply IH.
Qed.

(** More processors than NCPU: the scan stores past the end of cpus. *)
Theorem mp_scan_overflow m fuel p q s id v fl rest : p < q -> holds m p (encode (EProc id v fl rest)) -> ncpu s = NCPU ->
  mp_scan m (S fuel) p q s = Fail (FUndef "cpus").
Proof.
  intros Hlt Hh Hn. pose proof (Hh 0%nat _ eq_refl) as H0. rewrite Z.add_0_r in H0.
  cbn [mp_scan]. rewrite (proj2 (Z.ltb_lt _ _) Hlt), H0. cbn [MPPROC Z.eqb]. unfold mp_proc.
  rewrite bind_bind, (bind_run _ _ s (ncpu s) s) by done. cbv beta. rewrite Hn. change (NCPU <? NCPU) with false.
  by destruct (negb _), (negb _).
Qed.

End Scan.

(** ** A machine with two processors *)

Module Demo.

Definition ent : list mpentry :=
  [EProc 0 20 3 (replicate 16 0); EProc 1 20 1 (replicate 16 0); EOther MPBUS (replicate 7 32); EIoapic 2 [17; 1; 0; 0; 192; 254]].
Definition body : list Z := concat (encode <$> ent).
Definition checked (bs : list Z) (i : nat) : list Z := <[i := u8 (- foldl Z.add 0 bs)]> bs.
Definition conf_bytes : list Z :=
  checked (sig_pcmp ++ [100; 0; 4; 0] ++ replicate 28 0 ++ [0; 0; 224; 254] ++ replicate 4 0 ++ body) 7.
Definition mp_bytes : list Z := checked (sig_mp ++ [0; 253; 9; 0; 1; 4; 0; 0; 128; 0; 0; 0]) 10.
Definition overlay (a : Z) (bs : list Z) (m : mem) : mem :=
  fun x => if (a <=? x) && (x <? a + zlen bs) then zget bs (x - a) else m x.
Definition m : mem :=
  overlay (p2v 0x40e) [192; 159] (overlay (p2v 0x9fc10) mp_bytes (overlay (p2v 0x9fd00) conf_bytes (fun _ => 0))).
Definition s0 : mpst unit := MkMp (replicate 8 0) 0 false 0 0 0 tt.
#[local] Instance no_ports : Ports unit := {| inb _ d := (0, d); outb _ _ d := d |}.

Lemma mpinit_table_witness :
  exists s', mpinit m 100 s0 = Ret tt s' /\ bcpu s' = 0 /\ numbered 2 (cpus s') /\ ismp s' = true /\
    (ncpu s', lapic s', ioapicid s') = (2, 0xfee00000, 2).
Proof.
  refine (mpinit_table m 100 s0 (p2v 0x9fc10) (p2v 0x9fd00) ent _ _ _ _ _ _ _ _).
  - by vm_compute.
  - intros i b Hi. assert (Hlt := lookup_lt_Some _ _ _ Hi). change (length (concat (encode <$> ent))) with 56%nat in Hlt.
    do 56 (destruct i as [|i]; [by injection Hi as <-|]). lia.
  - by vm_compute.
  - repeat constructor.
  - by vm_compute.
  - cbn. lia.
  - done.
  - done.
Defined.

End Demo.
