(* ===== verification/Console.v ===== *)
(** * The console (console.c, uart.c)

    Output goes to the serial port and to the CGA screen; input characters are
    edited in a ring buffer of 128 bytes and handed to readers a line at a time.

    The lock [input.lock] makes the handler of an interrupt and a reader's scan
    atomic.  A reader that has to wait stops with the bytes it has so far and
    continues when it is woken. *)

From S2P Require Import Prelude.
From S2P Require Import CString.
From S2P Require Import Ports.

Definition BACKSPACE : Z := 256.
Definition CRTPORT : Z := 980.
Definition COM1 : Z := 1016.

(** ** The serial port *)
Section Uart.
Context {D : Type} `{Ports D}.
(** [uart]: is there a serial port? *)
Context (uart : bool).

Fixpoint uart_wait (i : nat) : M D unit :=
  match i with
  | O => ret tt
  | S i => let! st := in_b (COM1 + 5) in if negb (Z.land st 32 =? 0) then ret tt else uart_wait i
  end.

Definition uartputc (c : Z) : M D unit :=
  if negb uart then ret tt else uart_wait 128 ;; out_b (COM1 + 0) c.

Definition uartgetc : M D Z :=
  if negb uart then ret (-1) else
  let! st := in_b (COM1 + 5) in
  if Z.land st 1 =? 0 then ret (-1) else in_b (COM1 + 0).

End Uart.

(** uartinit; the result is the new value of [uart].  picenable and
    ioapicenable are in Intr.v. *)
Definition uart_setup {D} `{Ports D} : M D bool :=
  out_b (COM1 + 2) 0 ;;
  out_b (COM1 + 3) 128 ;;
  out_b (COM1 + 0) (115200 / 9600) ;;
  out_b (COM1 + 1) 0 ;;
  out_b (COM1 + 3) 3 ;;
  out_b (COM1 + 4) 0 ;;
  out_b (COM1 + 1) 1 ;;
  let! st := in_b (COM1 + 5) in
  if st =? 255 then ret false else
  in_b (COM1 + 2) ;; in_b (COM1 + 0) ;; ret true.

(** ** The screen

    The 25 lines of 80 words of the text memory; a store outside it is
    undefined. *)
Section Cga.
Context {D : Type} `{Ports D}.

Record screen : Type := MkScreen { sc_dev : D; sc_crt : list Z }.
Definition crt_size : Z := 2000.

Definition dev {A} (m : M D A) : M screen A := zoom sc_dev (fun d s => MkScreen d (sc_crt s)) m.
Definition crt_set (pos v : Z) : M screen unit :=
  fun s => if (0 <=? pos) && (pos <? zlen (sc_crt s)) then Ret tt (MkScreen (sc_dev s) (zset (sc_crt s) pos v))
           else Fail (FUndef "store outside the screen").
(** memmove(crt, crt+80, 23*80 words) and memset(crt+pos, 0, 24*80-pos words). *)
Definition crt_scroll : M screen unit :=
  modify (fun s => MkScreen (sc_dev s) (splice 0 (slice 80 (23 * 80) (sc_crt s)) (sc_crt s))).
Definition crt_clear (pos : Z) : M screen unit :=
  fun s => if (0 <=? pos) && (pos <=? 24 * 80) && (24 * 80 <=? zlen (sc_crt s))
           then Ret tt (MkScreen (sc_dev s) (splice pos (replicate (Z.to_nat (24 * 80 - pos)) 0) (sc_crt s)))
           else Fail (FUndef "clear outside the screen").

Definition cursor_read : M D Z :=
  out_b CRTPORT 14 ;;
  let! hi := in_b (CRTPORT + 1) in
  out_b CRTPORT 15 ;;
  let! lo := in_b (CRTPORT + 1) in
  ret (Z.lor (Z.shiftl hi 8) lo).

Definition cursor_write (pos : Z) : M D unit :=
  out_b CRTPORT 14 ;;
  out_b (CRTPORT + 1) (Z.shiftr pos 8) ;;
  out_b CRTPORT 15 ;;
  out_b (CRTPORT + 1) pos.

Definition cgaputc (c : Z) : M screen unit :=
  let! pos := dev cursor_read in
  let! pos :=
    (if c =? 10 then ret (pos + (80 - pos mod 80))
     else if c =? BACKSPACE then ret (if 0 <? pos then pos - 1 else pos)
     else crt_set pos (Z.lor (Z.land c 255) 1792) ;; ret (pos + 1)) in
  let! pos :=
    (if 24 <=? pos / 80 then crt_scroll ;; crt_clear (pos - 80) ;; ret (pos - 80)
     else ret pos) in
  dev (cursor_write pos) ;;
  crt_set pos (Z.lor 32 1792).

(** consputc; once the kernel has panicked it does not return. *)
Definition consputc (uart panicked : bool) (c : Z) : M screen unit :=
  if panicked then out_of_fuel else
  (if c =? BACKSPACE then dev (uartputc uart 8) ;; dev (uartputc uart 32) ;; dev (uartputc uart 8)
   else dev (uartputc uart c)) ;;
  cgaputc c.

Fixpoint cons_puts (uart panicked : bool) (s : list Z) : M screen unit :=
  match s with
  | [] => ret tt
  | c :: s => consputc uart panicked (Z.land c 255) ;; cons_puts uart panicked s
  end.

(** consolewrite between the unlocking and the locking of the inode. *)
Definition consolewrite (uart panicked : bool) (buf : list Z) (n : Z) : M screen Z :=
  cons_puts uart panicked (take (Z.to_nat n) buf) ;; ret n.

End Cga.
Arguments screen : clear implicits.

(** ** The input buffer *)

Definition INPUT_BUF : Z := 128.
Definition ctl (x : Z) : Z := x - 64.

Record input : Type := MkInput { in_buf : list Z; in_r : Z; in_w : Z; in_e : Z }.

(** What the handler does besides: characters echoed, the process listing, and
    wakeups of the readers. *)
Inductive cevent : Type := EvPut (c : Z) | EvDump | EvWakeup.

Definition cbuf (i : input) (k : Z) : Z := zget (in_buf i) (u32 k mod INPUT_BUF).

Fixpoint kill_line (fuel : nat) (i : input) (ev : list cevent) : input * list cevent :=
  match fuel with
  | O => (i, ev)
  | S fuel =>
      if negb (in_e i =? in_w i) && negb (cbuf i (in_e i - 1) =? 10) then
        kill_line fuel (MkInput (in_buf i) (in_r i) (in_w i) (u32 (in_e i - 1))) (ev ++ [EvPut BACKSPACE])
      else (i, ev)
  end.

(** One character of consoleintr.  The loop of ^U runs at most 128 times, the
    most that can lie between [w] and [e]. *)
Definition cons_char (c : Z) (i : input) : input * list cevent :=
  if c =? ctl 80 then (i, [EvDump])
  else if c =? ctl 85 then kill_line 128 i []
  else if (c =? ctl 72) || (c =? 127) then
    if negb (in_e i =? in_w i) then (MkInput (in_buf i) (in_r i) (in_w i) (u32 (in_e i - 1)), [EvPut BACKSPACE])
    else (i, [])
  else if negb (c =? 0) && (u32 (in_e i - in_r i) <? INPUT_BUF) then
    let c := if c =? 13 then 10 else c in
    let buf := zset (in_buf i) (in_e i mod INPUT_BUF) (u8 c) in
    let e := u32 (in_e i + 1) in
    if (c =? 10) || (c =? ctl 68) || (e =? u32 (in_r i + INPUT_BUF)) then
      (MkInput buf (in_r i) e e, [EvPut c; EvWakeup])
    else (MkInput buf (in_r i) (in_w i) e, [EvPut c])
  else (i, []).

(** consoleintr on the characters that getc returns before a negative one. *)
Fixpoint consoleintr (cs : list Z) (i : input) : input * list cevent :=
  match cs with
  | [] => (i, [])
  | c :: cs =>
      let '(i, ev) := cons_char c i in
      let '(i, ev') := consoleintr cs i in
      (i, ev ++ ev')
  end.

(** consoleread's loop, [n] bytes left of [target]; the state is the buffer
    and the bytes stored at [dst] so far. *)
Fixpoint consoleread_loop (n : nat) (target : Z) (killed : bool) : M (input * list Z) Z :=
  match n with
  | O => ret target
  | S n' =>
      let! i := get fst in
      if in_r i =? in_w i then
        if killed then ret (-1) else sleep_on ChInput
      else
        let c := cbuf i (in_r i) in
        if c =? ctl 68 then
          (if Z.of_nat n <? target then ret tt
           else modify (fun s => (MkInput (in_buf i) (u32 (in_r i + 1)) (in_w i) (in_e i), snd s))) ;;
          ret (target - Z.of_nat n)
        else
          modify (fun s => (MkInput (in_buf i) (u32 (in_r i + 1)) (in_w i) (in_e i), snd s ++ [c])) ;;
          if c =? 10 then ret (target - Z.of_nat n') else consoleread_loop n' target killed
  end.
Definition consoleread (n : Z) (killed : bool) : M (input * list Z) Z :=
  consoleread_loop (Z.to_nat n) (Z.max n 0) killed.

(** ** What the console promises: a queue of lines and a line being edited *)

Record tty : Type := MkTty { t_in : list Z; t_edit : list Z }.

Definition tty_key (c : Z) (t : tty) : tty :=
  if c =? ctl 80 then t
  else if c =? ctl 85 then MkTty (t_in t) []
  else if (c =? ctl 72) || (c =? 127) then MkTty (t_in t) (take (length (t_edit t) - 1) (t_edit t))
  else if negb (c =? 0) && (zlen (t_in t ++ t_edit t) <? 128) then
    let c := if c =? 13 then 10 else c in
    let l := t_edit t ++ [u8 c] in
    if (c =? 10) || (c =? ctl 68) || (zlen (t_in t ++ l) =? 128) then MkTty (t_in t ++ l) [] else MkTty (t_in t) l
  else t.

(** A reader that still wants [n] of [target] bytes: the result once it has
    one, what it stores, and what is left of the queue. *)
Fixpoint tty_take (n : nat) (target : Z) (q : list Z) : option Z * list Z * list Z :=
  match n with
  | O => (Some target, [], q)
  | S n' =>
      match q with
      | [] => (None, [], [])
      | c :: q' =>
          if c =? ctl 68 then (Some (target - Z.of_nat n), [], if Z.of_nat n <? target then q else q')
          else if c =? 10 then (Some (target - Z.of_nat n'), [c], q')
          else let '(res, out, rest) := tty_take n' target q' in (res, c :: out, rest)
      end
  end.

(** The bytes of the buffer from index [s] on. *)
Definition seg (i : input) (s n : Z) : list Z := (fun k => cbuf i (s + k)) <$> seqZ 0 n.
Definition tty_of (i : input) : tty :=
  MkTty (seg i (in_r i) (u32 (in_w i - in_r i))) (seg i (in_w i) (u32 (in_e i - in_w i))).

Record input_ok (i : input) : Prop := {
  io_len : zlen (in_buf i) = INPUT_BUF;
  io_r : is_u32 (in_r i);
  io_w : is_u32 (in_w i);
  io_e : is_u32 (in_e i);
  io_room : u32 (in_w i - in_r i) + u32 (in_e i - in_w i) <= INPUT_BUF;
  io_line : Forall (fun x => x <> 10) (t_edit (tty_of i))
}.

Lemma length_seg i s n : 0 <= n -> zlen (seg i s n) = n.
Proof. intros. unfold zlen, seg. rewrite length_fmap, length_seqZ. lia. Qed.

Lemma cbuf_u32 i k : cbuf i (u32 k) = cbuf i k.
Proof. unfold cbuf. by rewrite u32_idemp. Qed.

Lemma cseg_ext i j s s' n :
  (forall k, 0 <= k < n -> cbuf i (s + k) = cbuf j (s' + k)) -> seg i s n = seg j s' n.
Proof. intros H. unfold seg. apply list_fmap_ext. intros k x Hx. apply list_elem_of_lookup_2, elem_of_seqZ in Hx. by apply H. Qed.

Lemma seg_u32 i s n : seg i (u32 s) n = seg i s n.
Proof. apply cseg_ext. intros k _. rewrite <- (cbuf_u32 i (u32 s + k)), u32_add_l. apply cbuf_u32. Qed.

Lemma seg_snoc i s n : 0 <= n -> seg i s (n + 1) = seg i s n ++ [cbuf i (s + n)].
Proof. intros. unfold seg. rewrite seqZ_app by lia. rewrite fmap_app. cbn. done. Qed.

Lemma seg_cons i s n : 0 < n -> seg i s n = cbuf i s :: seg i (s + 1) (n - 1).
Proof.
  intros. unfold seg. rewrite seqZ_cons by lia. rewrite fmap_cons, Z.add_0_r. f_equal.
  replace (seqZ (Z.succ 0) (Z.pred n)) with (Z.add 1 <$> seqZ 0 (n - 1)) by (rewrite fmap_add_seqZ; f_equal; lia).
  rewrite <- list_fmap_compose. apply list_fmap_ext. intros k x _. cbn. f_equal. lia.
Qed.

(** A store at [e] changes only the byte there, for indices within 128 of [e]. *)
Lemma cbuf_store i r w e' v k :
  zlen (in_buf i) = INPUT_BUF -> is_u32 (in_e i) -> - INPUT_BUF < k < INPUT_BUF ->
  cbuf (MkInput (zset (in_buf i) (in_e i mod INPUT_BUF) v) r w e') (in_e i + k) = if k =? 0 then v else cbuf i (in_e i + k).
Proof.
  intros Hl He Hk. unfold cbuf, INPUT_BUF in *. cbn [in_buf].
  destruct (k =? 0) eqn:E.
  - apply Z.eqb_eq in E as ->. rewrite Z.add_0_r, u32_small by done. apply zget_zset_eq. dlia.
  - apply zget_zset_ne; unfold u32, is_u32 in *; dlia.
Qed.

Lemma u32_dist w r : is_u32 w -> is_u32 r -> u32 (w - r) = 0 <-> w = r.
Proof. unfold is_u32, u32. dlia. Qed.

(** The indices of a valid buffer, counted from [r]. *)
Lemma input_dist i :
  input_ok i ->
  let a := u32 (in_w i - in_r i) in let b := u32 (in_e i - in_w i) in
  0 <= a /\ 0 <= b /\ a + b <= 128 /\ u32 (in_e i - in_r i) = a + b /\
  (forall k, u32 (in_r i + k) = u32 (in_e i + (k - (a + b)))) /\ (forall k, u32 (in_w i + k) = u32 (in_e i + (k - b))).
Proof.
  intros [_ Hr Hw He Hroom _]. unfold INPUT_BUF, is_u32, u32 in *. cbn zeta. split_and!; intros; dlia.
Qed.

Lemma backspace_ok i :
  input_ok i -> in_e i <> in_w i ->
  let i' := MkInput (in_buf i) (in_r i) (in_w i) (u32 (in_e i - 1)) in
  input_ok i' /\ u32 (in_e i' - in_w i) = u32 (in_e i - in_w i) - 1 /\
  tty_of i' = MkTty (t_in (tty_of i)) (take (length (t_edit (tty_of i)) - 1) (t_edit (tty_of i))).
Proof.
  intros Hok Hne i'. destruct (input_dist i Hok) as (Ha & Hb & Hab & _). destruct Hok as [Hlen Hr Hw He Hroom Hline].
  set (b := u32 (in_e i - in_w i)) in *.
  assert (Hb1 : u32 (u32 (in_e i - 1) - in_w i) = b - 1) by (unfold b, is_u32, u32 in *; dlia).
  assert (Hb0 : 0 < b) by (unfold b, is_u32, u32 in *; dlia).
  assert (Et : tty_of i' = MkTty (t_in (tty_of i)) (take (length (t_edit (tty_of i)) - 1) (t_edit (tty_of i)))).
  { unfold tty_of. cbn [in_w in_e in_r i' t_in t_edit]. rewrite Hb1. f_equal. fold b.
    assert (Hl := length_seg i (in_w i) b ltac:(lia)). unfold zlen in Hl.
    replace b with (b - 1 + 1) at 2 3 by lia. rewrite seg_snoc by lia. rewrite length_app. cbn [length].
    rewrite Nat.add_sub, take_app_length. done. }
  split_and!; [|done|done]. constructor; auto.
  - apply u32_range.
  - cbn [in_w in_e in_r i']. rewrite Hb1. unfold INPUT_BUF in *. lia.
  - rewrite Et. cbn [t_edit]. by apply Forall_take.
Qed.

Lemma last_edit i :
  input_ok i -> in_e i <> in_w i -> cbuf i (in_e i - 1) <> 10.
Proof.
  intros Hok Hne. destruct (input_dist i Hok) as (Ha & Hb & Hab & _ & _ & Hk). destruct Hok as [Hlen Hr Hw He Hroom Hline].
  set (b := u32 (in_e i - in_w i)) in *. assert (Hb0 : 0 < b) by (unfold b, is_u32, u32 in *; dlia).
  unfold tty_of in Hline. cbn [t_edit] in Hline. fold b in Hline. replace b with (b - 1 + 1) in Hline by lia. rewrite seg_snoc in Hline by lia.
  apply Forall_app in Hline as [_ Hlast]. inversion Hlast as [|? ? H _]; subst. intros E. apply H.
  rewrite <- cbuf_u32, Hk, cbuf_u32. rewrite <- E. f_equal. lia.
Qed.

Lemma kill_line_run fuel i ev :
  input_ok i -> u32 (in_e i - in_w i) <= Z.of_nat fuel ->
  (kill_line fuel i ev).1 = MkInput (in_buf i) (in_r i) (in_w i) (in_w i).
Proof.
  revert i ev. induction fuel as [|fuel IH]; intros i ev Hok Hb; cbn [kill_line].
  - assert (E : in_e i = in_w i) by (apply u32_dist; [apply Hok..|]; destruct (input_dist i Hok); lia).
    destruct i; cbn in *; by subst.
  - destruct (decide (in_e i = in_w i)) as [E|Hne].
    + rewrite E, Z.eqb_refl. cbn. destruct i; cbn in *; by subst.
    + rewrite (proj2 (Z.eqb_neq _ _) Hne), (proj2 (Z.eqb_neq _ _) (last_edit i Hok Hne)). cbn [negb andb].
      destruct (backspace_ok i Hok Hne) as (Hok' & Eb & _). rewrite IH; [done|done|]. cbn [in_e in_w] in *. lia.
Qed.

Lemma seg_store i r w e' v s n :
  zlen (in_buf i) = INPUT_BUF -> is_u32 (in_e i) -> 0 <= n -> n < INPUT_BUF ->
  (exists d, n <= d < INPUT_BUF /\ forall k, u32 (s + k) = u32 (in_e i + (k - d))) ->
  seg (MkInput (zset (in_buf i) (in_e i mod INPUT_BUF) v) r w e') s n = seg i s n.
Proof.
  intros Hl He Hn Hn' (d & Hd & Hk). apply cseg_ext. intros k Hk'. rewrite <- cbuf_u32, Hk, cbuf_u32.
  rewrite cbuf_store by (unfold INPUT_BUF in *; done || lia). rewrite (proj2 (Z.eqb_neq _ 0)) by lia.
  by rewrite <- cbuf_u32, <- Hk, cbuf_u32.
Qed.

Lemma cseg_app i s n m : 0 <= n -> 0 <= m -> seg i s (n + m) = seg i s n ++ seg i (s + n) m.
Proof.
  intros Hn Hm. unfold seg. rewrite seqZ_app by lia. rewrite fmap_app. f_equal.
  replace (0 + n) with (n + 0) by lia. rewrite <- fmap_add_seqZ, <- list_fmap_compose. apply list_fmap_ext. intros k x _. cbn. f_equal. lia.
Qed.

(** The buffer after the store of a character that fits, kept in the line or
    handed over with it. *)
Section Store.
Context (i : input) (v : Z) (Hok : input_ok i) (Hfit : u32 (in_e i - in_r i) < INPUT_BUF).
Let buf := zset (in_buf i) (in_e i mod INPUT_BUF) v.
Let e := u32 (in_e i + 1).

Lemma store_tty : tty_of (MkInput buf (in_r i) (in_w i) e) = MkTty (t_in (tty_of i)) (t_edit (tty_of i) ++ [v]).
Proof.
  destruct (input_dist i Hok) as (Ha & Hb & Hab & Eab & Hkr & Hkw). destruct Hok as [Hlen Hr Hw He Hroom Hline].
  set (a := u32 (in_w i - in_r i)) in *. set (b := u32 (in_e i - in_w i)) in *. rewrite Eab in Hfit.
  unfold tty_of. cbn [in_r in_w in_e t_in t_edit]. f_equal.
  - apply seg_store; auto; [lia|]. exists (a + b). split; [lia|done].
  - replace (u32 (e - in_w i)) with (b + 1) by (unfold e, b, is_u32, u32, INPUT_BUF in *; dlia).
    rewrite seg_snoc by done. fold b. f_equal.
    + apply seg_store; auto; [lia|]. exists b. split; [lia|done].
    + f_equal. rewrite <- cbuf_u32, Hkw, cbuf_u32. replace (b - b) with 0 by lia. unfold buf. by rewrite cbuf_store by (unfold INPUT_BUF in *; done).
Qed.

Lemma commit_tty : tty_of (MkInput buf (in_r i) e e) = MkTty (t_in (tty_of i) ++ t_edit (tty_of i) ++ [v]) [].
Proof.
  assert (E := store_tty). destruct (input_dist i Hok) as (Ha & Hb & Hab & Eab & _). destruct Hok as [Hlen Hr Hw He Hroom Hline].
  set (a := u32 (in_w i - in_r i)) in *. set (b := u32 (in_e i - in_w i)) in *. rewrite Eab in Hfit.
  unfold tty_of in *. cbn [in_r in_w in_e t_in t_edit] in *. injection E as E1 E2. fold a in E1. fold b in E2.
  replace (u32 (e - in_w i)) with (b + 1) in E2 by (unfold e, b, is_u32, u32, INPUT_BUF in *; dlia).
  replace (u32 (e - in_r i)) with (a + (b + 1)) by (unfold e, a, b, is_u32, u32, INPUT_BUF in *; dlia).
  rewrite Z.sub_diag. change (u32 0) with 0. f_equal. fold a b. rewrite cseg_app by lia. f_equal; [exact E1|].
  rewrite <- E2. rewrite <- (seg_u32 _ (in_r i + a)). f_equal. unfold a, is_u32, u32 in *. dlia.
Qed.

Lemma store_ok : v <> 10 -> u32 (in_w i - in_r i) + u32 (in_e i - in_w i) + 1 <= INPUT_BUF -> input_ok (MkInput buf (in_r i) (in_w i) e).
Proof.
  intros Hv Hr. destruct Hok as [Hlen ? ? ? Hroom Hline]. constructor; auto; cbn [in_buf in_r in_w in_e].
  - unfold buf. by rewrite zlen_zset.
  - apply u32_range.
  - replace (u32 (e - in_w i)) with (u32 (in_e i - in_w i) + 1) by (unfold e, is_u32, u32, INPUT_BUF in *; dlia). lia.
  - rewrite store_tty. cbn [t_edit]. apply Forall_app. split; [done|]. by apply Forall_singleton.
Qed.

Lemma commit_ok : u32 (in_w i - in_r i) + u32 (in_e i - in_w i) + 1 <= INPUT_BUF -> input_ok (MkInput buf (in_r i) e e).
Proof.
  intros Hr. destruct Hok as [Hlen ? ? ? Hroom Hline]. constructor; auto; cbn [in_buf in_r in_w in_e].
  - unfold buf. by rewrite zlen_zset.
  - apply u32_range.
  - apply u32_range.
  - rewrite Z.sub_diag. change (u32 0) with 0. unfold e, is_u32, u32, INPUT_BUF in *. dlia.
  - rewrite commit_tty. done.
Qed.
End Store.

Lemma tty_len i : input_ok i -> zlen (t_in (tty_of i) ++ t_edit (tty_of i)) = u32 (in_e i - in_r i).
Proof.
  intros Hok. destruct (input_dist i Hok) as (Ha & Hb & Hab & Eab & _). rewrite zlen_app, Eab. unfold tty_of. cbn [t_in t_edit].
  rewrite !length_seg by lia. done.
Qed.

Lemma cons_char_refines c i :
  0 <= c < 256 -> input_ok i -> input_ok (cons_char c i).1 /\ tty_of (cons_char c i).1 = tty_key c (tty_of i).
Proof.
  intros Hc Hok. unfold cons_char, tty_key. destruct (c =? ctl 80); [done|]. destruct (c =? ctl 85).
  { destruct (input_dist i Hok) as (Ha & Hb & Hab & _). rewrite kill_line_run by (done || lia). destruct Hok as [Hlen ? ? ? Hroom Hline]. split.
    - constructor; auto; cbn [in_buf in_r in_w in_e]; [|unfold tty_of; cbn [in_w in_e t_edit]]; rewrite Z.sub_diag; change (u32 0) with 0; [lia|done].
    - unfold tty_of. cbn [in_buf in_r in_w in_e t_in]. rewrite Z.sub_diag. done. }
  destruct ((c =? ctl 72) || (c =? 127)).
  { destruct (decide (in_e i = in_w i)) as [E|Hne].
    - rewrite E, Z.eqb_refl. cbn [negb fst]. split; [done|]. unfold tty_of. rewrite E, Z.sub_diag. done.
    - rewrite (proj2 (Z.eqb_neq _ _) Hne). cbn [negb fst]. destruct (backspace_ok i Hok Hne) as (H1 & _ & H2). done. }
  rewrite tty_len by done. destruct (negb (c =? 0) && _) eqn:Efit; [|done].
  apply andb_true_iff in Efit as [_ Hfit%Z.ltb_lt]. set (c' := if c =? 13 then 10 else c).
  destruct (input_dist i Hok) as (Ha & Hb & Hab & Eab & _).
  assert (Hr : u32 (in_w i - in_r i) + u32 (in_e i - in_w i) + 1 <= INPUT_BUF) by lia.
  assert (Efull : (u32 (in_e i + 1) =? u32 (in_r i + INPUT_BUF)) = (zlen (t_in (tty_of i) ++ t_edit (tty_of i) ++ [u8 c']) =? 128)).
  { rewrite app_assoc, zlen_app, tty_len by done. change (zlen [u8 c']) with 1. destruct Hok as [_ Hir _ Hie _ _].
    apply Bool.eq_iff_eq_true. rewrite !Z.eqb_eq. unfold INPUT_BUF, is_u32, u32 in *. clear -Hir Hie Hfit. split; dlia. }
  rewrite Efull. destruct ((c' =? 10) || (c' =? ctl 68) || _) eqn:Ed; cbn [fst].
  - split; [by apply commit_ok|by apply commit_tty].
  - split; [apply store_ok; auto|by apply store_tty]. unfold u8. assert (0 <= c' < 256) by (unfold c'; destruct (c =? 13); lia).
    rewrite Z.mod_small by done. lia.
Qed.

(** The reader takes the first byte of the queue. *)
Lemma advance_ok i :
  input_ok i -> in_r i <> in_w i ->
  let i' := MkInput (in_buf i) (u32 (in_r i + 1)) (in_w i) (in_e i) in
  input_ok i' /\ t_edit (tty_of i') = t_edit (tty_of i) /\ t_in (tty_of i) = cbuf i (in_r i) :: t_in (tty_of i').
Proof.
  intros Hok Hne i'. destruct (input_dist i Hok) as (Ha & Hb & Hab & _). destruct Hok as [Hlen Hr Hw He Hroom Hline].
  set (a := u32 (in_w i - in_r i)) in *. assert (Ha0 : 0 < a) by (unfold a, is_u32, u32 in *; dlia).
  assert (Ha1 : u32 (in_w i - u32 (in_r i + 1)) = a - 1) by (unfold a, is_u32, u32 in *; dlia).
  split_and!; [constructor; auto; cbn [in_r in_w in_e i']; [apply u32_range|rewrite Ha1; lia]|done|].
  unfold tty_of, i'. cbn [in_r in_w in_e t_in]. rewrite Ha1. fold a. rewrite (seg_cons i _ a Ha0). f_equal.
  symmetry. apply (seg_u32 i (in_r i + 1)).
Qed.

Lemma consoleread_loop_run n target killed i dst :
  input_ok i ->
  let '(res, out, rest) := tty_take n target (t_in (tty_of i)) in
  exists i', input_ok i' /\ tty_of i' = MkTty rest (t_edit (tty_of i)) /\
    consoleread_loop n target killed (i, dst) =
      match res with
      | Some v => Ret v (i', dst ++ out)
      | None => if killed then Ret (-1) (i', dst ++ out) else Sleep ChInput (i', dst ++ out)
      end.
Proof.
  revert i dst. induction n as [|n IH]; intros i dst Hok; cbn [tty_take consoleread_loop].
  { exists i. rewrite app_nil_r. split_and!; [done|by destruct (tty_of i)|done]. }
  unfold bind, get. cbn [fst]. destruct (decide (in_r i = in_w i)) as [E|Hne].
  - rewrite E, Z.eqb_refl. unfold tty_of at 1. rewrite E, Z.sub_diag. change (seg i (in_w i) (u32 0)) with (@nil Z). cbn [t_in].
    exists i. rewrite app_nil_r. split_and!; [done| |by destruct killed]. unfold tty_of. rewrite E, Z.sub_diag. done.
  - rewrite (proj2 (Z.eqb_neq _ _) Hne). destruct (advance_ok i Hok Hne) as (Hok' & Eed & Ein). rewrite Ein.
    set (i' := MkInput (in_buf i) (u32 (in_r i + 1)) (in_w i) (in_e i)) in *. set (c := cbuf i (in_r i)) in *.
    assert (Et : tty_of i' = MkTty (t_in (tty_of i')) (t_edit (tty_of i))) by (rewrite <- Eed; by destruct (tty_of i')).
    destruct (c =? ctl 68) eqn:Ec.
    + destruct (Z.of_nat (S n) <? target) eqn:En; rewrite app_nil_r.
      * exists i. split_and!; auto. rewrite <- Ein. by destruct (tty_of i).
      * exists i'. done.
    + unfold modify. cbn [snd fst]. fold i'. destruct (c =? 10) eqn:Enl; [by exists i'|].
      specialize (IH i' (dst ++ [c]) Hok'). destruct (tty_take n target (t_in (tty_of i'))) as [[res out] rest].
      destruct IH as (i2 & Hok2 & Et2 & E2). exists i2. rewrite Eed in Et2. split_and!; auto. rewrite E2. by rewrite <- app_assoc.
Qed.

(** The keys typed between two reads. *)
Definition tty_keys (cs : list Z) (t : tty) : tty := foldl (fun t c => tty_key c t) t cs.

Lemma consoleintr_refines cs i :
  Forall (fun c => 0 <= c < 256) cs -> input_ok i ->
  input_ok (consoleintr cs i).1 /\ tty_of (consoleintr cs i).1 = tty_keys cs (tty_of i).
Proof.
  intros Hcs. revert i. induction Hcs as [|c cs Hc Hcs IH]; intros i Hok; [done|]. cbn [consoleintr tty_keys foldl].
  destruct (cons_char_refines c i Hc Hok) as [H1 E1]. destruct (cons_char c i) as [i1 ev]. cbn [fst] in *.
  destruct (IH i1 H1) as [H2 E2]. destruct (consoleintr cs i1) as [i2 ev']. cbn [fst] in *. split; [done|]. rewrite E2, E1. done.
Qed.

(** C16: the ring buffer implements an edited line and a queue of lines: from
    any valid state, typing any characters does to the buffer (with its
    indices wrapping at 2^32) what they do to the line and the queue, and a
    read of [n] bytes returns, stores and removes what the same read does on
    the queue, blocking (or failing, when killed) exactly when the queue runs
    out. *)
Theorem console_refines cs n killed i dst :
  Forall (fun c => 0 <= c < 256) cs -> input_ok i ->
  let i1 := (consoleintr cs i).1 in
  tty_of i1 = tty_keys cs (tty_of i) /\
  let '(res, out, rest) := tty_take (Z.to_nat n) (Z.max n 0) (t_in (tty_of i1)) in
  exists i2, input_ok i2 /\ tty_of i2 = MkTty rest (t_edit (tty_of i1)) /\
    consoleread n killed (i1, dst) =
      match res with
      | Some v => Ret v (i2, dst ++ out)
      | None => if killed then Ret (-1) (i2, dst ++ out) else Sleep ChInput (i2, dst ++ out)
      end.
Proof.
  intros Hcs Hok i1. destruct (consoleintr_refines cs i Hcs Hok) as [H1 E1]. split; [done|].
  by apply (consoleread_loop_run (Z.to_nat n) (Z.max n 0) killed i1 dst).
Qed.

Definition input0 : input := MkInput (replicate 128 0) 0 0 0.
Lemma input0_ok : input_ok input0.
Proof. constructor; vm_compute; try done; constructor. Qed.

(** Typing [a x ^H b return] and reading ten bytes gives [a b newline]. *)
Lemma console_refines_witness :
  exists i2, consoleread 10 false ((consoleintr [97; 120; 8; 98; 13] input0).1, []) = Ret 3 (i2, [97; 98; 10]) /\ tty_of i2 = MkTty [] [].
Proof.
  destruct (console_refines [97; 120; 8; 98; 13] 10 false input0 []) as (_ & i2 & _ & E2 & E); [repeat constructor; lia|apply input0_ok|].
  exists i2. split; [exact E|exact E2].
Defined.

(** ** The screen stays on the screen

    What the driver needs of the CRT controller: an index register that
    selects one of the data registers, which hold what was written to them,
    and ports of its own. *)
Class CrtController (D : Type) `{Ports D} : Type := {
  crt_idx : D -> Z;
  crt_reg : D -> Z -> Z;
  crt_out_idx : forall d v, crt_idx (outb CRTPORT v d) = v /\ forall k, crt_reg (outb CRTPORT v d) k = crt_reg d k;
  crt_out_data : forall d v, crt_idx (outb (CRTPORT + 1) v d) = crt_idx d /\
    forall k, crt_reg (outb (CRTPORT + 1) v d) k = if k =? crt_idx d then v else crt_reg d k;
  crt_in_data : forall d, (inb (CRTPORT + 1) d).1 = crt_reg d (crt_idx d) /\ crt_idx (inb (CRTPORT + 1) d).2 = crt_idx d /\
    forall k, crt_reg (inb (CRTPORT + 1) d).2 k = crt_reg d k;
  crt_out_other : forall d p v k, p <> CRTPORT -> p <> CRTPORT + 1 -> crt_reg (outb p v d) k = crt_reg d k;
  crt_in_other : forall d p k, p <> CRTPORT -> p <> CRTPORT + 1 -> crt_reg (inb p d).2 k = crt_reg d k
}.

Section Screen.
Context {D : Type} `{CrtController D}.

Definition cursor (d : D) : Z := 256 * crt_reg d 14 + crt_reg d 15.
Definition cursor_ok (d : D) : Prop := is_byte (crt_reg d 14) /\ is_byte (crt_reg d 15) /\ cursor d < 24 * 80.
Definition screen_ok (s : screen D) : Prop := cursor_ok (sc_dev s) /\ zlen (sc_crt s) = crt_size.

Lemma cursor_read_run d :
  cursor_ok d -> exists d', cursor_read d = Ret (cursor d) d' /\ (forall k, crt_reg d' k = crt_reg d k).
Proof.
  intros (Hh & Hl & _). unfold cursor_read, out_b, in_b, bind, ret.
  destruct (crt_out_idx d (u8 14)) as [E1 R1]. set (d1 := outb CRTPORT (u8 14) d) in *.
  destruct (crt_in_data d1) as (V2 & E2 & R2). destruct (inb (CRTPORT + 1) d1) as [hi d2]. cbn [fst snd] in *.
  destruct (crt_out_idx d2 (u8 15)) as [E3 R3]. set (d3 := outb CRTPORT (u8 15) d2) in *.
  destruct (crt_in_data d3) as (V4 & E4 & R4). destruct (inb (CRTPORT + 1) d3) as [lo d4]. cbn [fst snd] in *.
  exists d4. split; [|intros k; by rewrite R4, R3, R2, R1]. f_equal.
  rewrite V2, V4, E1, E3, R3, R2, !R1. change (u8 14) with 14. change (u8 15) with 15.
  unfold u8. rewrite !Z.mod_small by done. rewrite lor_shiftl by (unfold is_byte in *; lia). unfold cursor. lia.
Qed.

Lemma cursor_write_run d pos :
  0 <= pos < 24 * 80 -> exists d', cursor_write pos d = Ret tt d' /\ cursor d' = pos /\ cursor_ok d'.
Proof.
  intros Hp. unfold cursor_write, out_b, bind, ret. eexists. split; [reflexivity|].
  set (d1 := outb CRTPORT (u8 14) d). set (d2 := outb (CRTPORT + 1) _ d1). set (d3 := outb CRTPORT (u8 15) d2).
  destruct (crt_out_idx d (u8 14)) as [E1 R1]. destruct (crt_out_data d1 (u8 (Z.shiftr pos 8))) as [E2 R2].
  destruct (crt_out_idx d2 (u8 15)) as [E3 R3]. destruct (crt_out_data d3 (u8 pos)) as [E4 R4]. fold d1 in E1, R1. fold d2 in E2, R2. fold d3 in E3, R3.
  assert (H14 : crt_reg (outb (CRTPORT + 1) (u8 pos) d3) 14 = pos / 256).
  { rewrite R4, E3. change (14 =? u8 15) with false. cbv iota. rewrite R3, R2, E1. change (14 =? u8 14) with true. cbv iota.
    rewrite Z.shiftr_div_pow2 by lia. unfold u8. change (2 ^ 8) with 256. clear -Hp. dlia. }
  assert (H15 : crt_reg (outb (CRTPORT + 1) (u8 pos) d3) 15 = pos mod 256) by (rewrite R4, E3; done).
  unfold cursor_ok, cursor. rewrite H14, H15. unfold is_byte. clear -Hp. split_and!; dlia.
Qed.

(** Ports of other devices leave the cursor alone. *)
Lemma uartputc_run uart c d :
  exists d', uartputc uart c d = Ret tt d' /\ forall k, crt_reg d' k = crt_reg d k.
Proof.
  unfold uartputc. destruct uart; cbn [negb]; [|by exists d]. unfold bind.
  assert (Hw : forall n d, exists d', uart_wait n d = Ret tt d' /\ forall k, crt_reg d' k = crt_reg d k).
  { intros n. induction n as [|n IH]; intros d0; cbn [uart_wait]; [by exists d0|]. unfold bind, in_b, ret.
    assert (Hi := fun k => crt_in_other d0 (COM1 + 5) k ltac:(done) ltac:(done)). destruct (inb (COM1 + 5) d0) as [v d1]. cbn [snd] in Hi.
    destruct (negb _); [by exists d1|]. destruct (IH d1) as (d2 & E & R). exists d2. split; [done|]. intros k. by rewrite R. }
  destruct (Hw 128%nat d) as (d1 & E1 & R1). rewrite E1. unfold out_b. eexists. split; [reflexivity|]. intros k. rewrite crt_out_other by done. apply R1.
Qed.

Lemma cgaputc_ok c s : screen_ok s -> exists s', cgaputc c s = Ret tt s' /\ screen_ok s'.
Proof.
  intros [Hc Hl]. unfold crt_size in Hl. destruct (cursor_read_run (sc_dev s) Hc) as (d1 & E1 & R1).
  unfold cgaputc. unfold dev at 1. run (zoom_run sc_dev (fun d s => MkScreen d (sc_crt s)) cursor_read s _ _ E1).
  assert (Hpos : 0 <= cursor (sc_dev s) < 24 * 80) by (destruct Hc as (Hh & Hlo & Hlt); unfold cursor, is_byte in *; lia).
  set (pos := cursor (sc_dev s)) in *.
  assert (Hmid : exists pos1 crt1, (if c =? 10 then ret (pos + (80 - pos mod 80))
     else if c =? BACKSPACE then ret (if 0 <? pos then pos - 1 else pos)
     else crt_set pos (Z.lor (Z.land c 255) 1792) ;; ret (pos + 1)) (MkScreen d1 (sc_crt s)) = Ret pos1 (MkScreen d1 crt1) /\
     0 <= pos1 <= 24 * 80 /\ zlen crt1 = 2000).
  { destruct (c =? 10); [|destruct (c =? BACKSPACE)].
    - exists (pos + (80 - pos mod 80)), (sc_crt s). split_and!; [done|dlia..|done].
    - exists (if 0 <? pos then pos - 1 else pos), (sc_crt s). split_and!; [done|destruct (0 <? pos) eqn:E; lia..|done].
    - exists (pos + 1), (zset (sc_crt s) pos (Z.lor (Z.land c 255) 1792)). unfold bind, crt_set. cbn [sc_crt sc_dev].
      rewrite Hl. replace ((0 <=? pos) && (pos <? 2000)) with true by lia. rewrite zlen_zset. split_and!; [done|lia..|done]. }
  destruct Hmid as (pos1 & crt1 & Em & Hp1 & Hl1). run Em.
  assert (Hscr : exists pos2 crt2, (if 24 <=? pos1 / 80 then crt_scroll ;; crt_clear (pos1 - 80) ;; ret (pos1 - 80) else ret pos1) (MkScreen d1 crt1) =
     Ret pos2 (MkScreen d1 crt2) /\ 0 <= pos2 < 24 * 80 /\ zlen crt2 = 2000).
  { destruct (24 <=? pos1 / 80) eqn:E24.
    - assert (pos1 = 1920) as -> by (apply Z.leb_le in E24; dlia). unfold bind, crt_scroll, crt_clear, modify. cbn [sc_crt sc_dev].
      assert (Hs1 : zlen (splice 0 (slice 80 (23 * 80) crt1) crt1) = 2000) by (rewrite length_splice; rewrite ?length_slice; lia).
      rewrite Hs1. eexists _, _. split; [reflexivity|]. split; [lia|]. rewrite length_splice; [done|lia|]. rewrite Hs1. unfold zlen. rewrite length_replicate. lia.
    - exists pos1, crt1. apply Z.leb_gt in E24. split_and!; [done|dlia..|done]. }
  destruct Hscr as (pos2 & crt2 & Es & Hp2 & Hl2). run Es.
  destruct (cursor_write_run d1 pos2 Hp2) as (d2 & E2 & Ec2 & Hok2).
  unfold dev. run (zoom_run sc_dev (fun d s => MkScreen d (sc_crt s)) (cursor_write pos2) (MkScreen d1 crt2) _ _ E2).
  unfold crt_set. cbn [sc_crt sc_dev]. rewrite Hl2. replace ((0 <=? pos2) && (pos2 <? 2000)) with true by lia.
  eexists. split; [reflexivity|]. split; [done|]. cbn [sc_crt]. by rewrite zlen_zset.
Qed.

Lemma dev_uart_ok uart c s : screen_ok s -> exists s', dev (uartputc uart c) s = Ret tt s' /\ screen_ok s'.
Proof.
  intros [Hc Hl]. destruct (uartputc_run uart c (sc_dev s)) as (d & E & R). eexists. split; [by apply zoom_run|].
  split; [|done]. unfold cursor_ok, cursor in *. cbn [sc_dev]. by rewrite !R.
Qed.

Lemma consputc_ok uart c s : screen_ok s -> exists s', consputc uart false c s = Ret tt s' /\ screen_ok s'.
Proof.
  intros Hs. unfold consputc. assert (H1 : exists s1, (if c =? BACKSPACE
     then dev (uartputc uart 8) ;; dev (uartputc uart 32) ;; dev (uartputc uart 8) else dev (uartputc uart c)) s = Ret tt s1 /\ screen_ok s1).
  { destruct (c =? BACKSPACE); [|by apply dev_uart_ok].
    destruct (dev_uart_ok uart 8 s Hs) as (s1 & E1 & H1). run E1. destruct (dev_uart_ok uart 32 s1 H1) as (s2 & E2 & H2). run E2. by apply dev_uart_ok. }
  destruct H1 as (s1 & E1 & H1). run E1. by apply cgaputc_ok.
Qed.

(** console output never leaves the screen: with the cursor in the first 24
    lines, writing any bytes (newlines and scrolling included) returns, makes
    no store outside the text memory, and leaves the cursor in those lines. *)
Theorem consolewrite_bounds uart buf n s :
  screen_ok s -> exists s', consolewrite uart false buf n s = Ret n s' /\ screen_ok s'.
Proof.
  intros Hs. unfold consolewrite. assert (Hp : exists s', cons_puts uart false (take (Z.to_nat n) buf) s = Ret tt s' /\ screen_ok s').
  { revert s Hs. induction (take (Z.to_nat n) buf) as [|c l IH]; intros s Hs; cbn [cons_puts]; [by exists s|].
    destruct (consputc_ok uart (Z.land c 255) s Hs) as (s1 & E1 & H1). run E1. by apply IH. }
  destruct Hp as (s1 & E1 & H1). run E1. by exists s1.
Qed.
End Screen.

(** A controller with its index register and registers, and a serial port that
    is always ready. *)
#[local] Instance crtc_ports : Ports (Z * (Z -> Z)) := {
  inb p d := if p =? CRTPORT + 1 then (d.2 d.1, d) else (255, d);
  outb p v d := if p =? CRTPORT then (v, d.2)
                else if p =? CRTPORT + 1 then (d.1, fun k => if k =? d.1 then v else d.2 k) else d
}.

#[local] Instance crtc : CrtController (Z * (Z -> Z)).
Proof.
  refine {| crt_idx := fst; crt_reg := snd |}; try done.
  - intros d p v k H1 H2. cbn. by rewrite (proj2 (Z.eqb_neq _ _) H1), (proj2 (Z.eqb_neq _ _) H2).
  - intros d p k H1 H2. cbn. by rewrite (proj2 (Z.eqb_neq _ _) H2).
Defined.

Lemma consolewrite_bounds_witness :
  exists s', consolewrite true false (replicate 200 10 ++ [104; 105]) 202 (MkScreen (0, fun _ => 0) (replicate 2000 0)) = Ret 202 s' /\ screen_ok s'.
Proof. apply consolewrite_bounds. split; [|done]. split_and!; done. Defined.
