(* ===== verification/Start.v ===== *)
(** * Initialisation of the devices and their interrupts (main.c, console.c, uart.c, ide.c)

    The part of main that programs interrupts: picinit, ioapicinit, consoleinit,
    uartinit, ideinit and timerinit, in main's order.  Locks and device-switch entries
    are set elsewhere; ideinit's probe of the drives is that of Ide.v. *)

From S2P Require Import Prelude.
From S2P Require Import Params.
From S2P Require Import CString.
From S2P Require Import Trap.
From S2P Require Import Ports.
From S2P Require Import Ide.
From S2P Require Import IdeProps.
From S2P Require Import Console.
From S2P Require Import Intr.
From S2P Require Import IntrProps.

Module Start.
Section Start.
Context {D : Type} `{!Ports D, !StringPorts D, !Mmio D}.
(** Set by mp.c: is this a multiprocessor, the I/O APIC's id, and the number of
    processors. *)
Context (ismp : bool) (ioapicid ncpu : Z).
(** The bound on polling the disk. *)
Context (fuel : nat).

Definition irq_enable (irq cpu : Z) : M (ictl D) unit := Pic.picenable irq ;; Ioapic.ioapicenable ismp irq cpu.

Definition consoleinit : M (ictl D) unit := irq_enable IRQ_KBD 0.

Fixpoint announce (s : list Z) : M D unit :=
  match s with
  | [] => ret tt
  | c :: s => uartputc true c ;; announce s
  end.

(** The result is the new value of [uart]; the string is xv6... and a newline. *)
Definition uartinit : M (ictl D) bool :=
  let! u := dev uart_setup in
  if negb u then ret false
  else irq_enable IRQ_COM1 0 ;; dev (announce [120; 118; 54; 46; 46; 46; 10]) ;; ret true.

(** The IDE driver's state and the controllers' share the device. *)
Definition on_ide {A} (m : M (ide D) A) : M (ictl D * ide D) A :=
  zoom (fun s => let '(i, e) := s in MkIde (id_buf e) (idequeue e) (havedisk1 e) (id_woken e) (ic_dev i))
    (fun e' s => (set_dev (id_dev e') (fst s), e')) m.
Definition on_ictl {A} (m : M (ictl D) A) : M (ictl D * ide D) A := zoom fst (fun i s => (i, snd s)) m.

Definition ideinit : M (ictl D * ide D) unit :=
  on_ictl (irq_enable IRQ_IDE (ncpu - 1)) ;; on_ide (Ide.ideinit fuel).

(** The result tells whether there is a serial port. *)
Definition devinit : M (ictl D * ide D) bool :=
  on_ictl Pic.picinit ;;
  on_ictl (Ioapic.ioapicinit ismp ioapicid) ;;
  on_ictl consoleinit ;;
  let! u := on_ictl uartinit in
  ideinit ;;
  (if negb ismp then on_ictl Pic.timerinit else ret tt) ;;
  ret u.

End Start.
End Start.

(** * Which interrupts reach which processor after main's initialisation *)

Import Start.

(** The interrupt controllers are separate devices: reading a port changes neither,
    writing one does not change the I/O APIC, and its registers are not the 8259A's. *)
Class Board (D : Type) `{!Ports D, !StringPorts D, !Mmio D, !PicDev D, !IoApicDev D, !AtaController D} : Type := {
  bd_in port d : let d' := snd (inb port d) in master d' = master d /\ slave d' = slave d /\ io_reg d' = io_reg d;
  bd_out port v d : io_reg (outb port v d) = io_reg d;
  bd_wr a v d : let d' := wr32 a v d in master d' = master d /\ slave d' = slave d;
  bd_rd a d : let d' := snd (rd32 a d) in master d' = master d /\ slave d' = slave d
}.

Section Props.
Context {D : Type} `{BD : Board D}.
Context (ismp : bool) (ioapicid ncpu : Z) (fuel : nat).

(** What the routing depends on. *)
Definition same_irqs (d d' : D) : Prop := master d' = master d /\ slave d' = slave d /\ io_reg d' = io_reg d.

(** Computations on the other devices. *)
Definition quiet {A} (m : M D A) : Prop := forall d, exists a d', m d = Ret a d' /\ same_irqs d d'.

Lemma quiet_ret {A} (a : A) : quiet (ret a).
Proof using Type. intros d. by exists a, d. Qed.
Lemma quiet_then {A B} (m : M D A) (k : A -> M D B) : quiet m -> (forall a, quiet (k a)) -> quiet (bind m k).
Proof using Type.
  intros Hm Hk d. destruct (Hm d) as (a & d1 & E1 & H1). destruct (Hk a d1) as (b & d2 & E2 & H2).
  exists b, d2. split; [by run E1|]. unfold same_irqs in *. intuition congruence.
Qed.
Lemma quiet_in port : quiet (in_b port).
Proof using BD. intros d. unfold in_b. pose proof (bd_in port d) as H. destruct (inb port d) as [v d']. by exists (u8 v), d'. Qed.

Lemma pic_other port0 port v p : port <> port0 -> port <> port0 + 1 -> pic_write port0 port v p = p.
Proof using Type. intros H1 H2. unfold pic_write. by rewrite (proj2 (Z.eqb_neq _ _) H1), (proj2 (Z.eqb_neq _ _) H2). Qed.

(** Not a port of the 8259As. *)
Definition other_port (port : Z) : Prop := port <> 0x20 /\ port <> 0x21 /\ port <> 0xA0 /\ port <> 0xA1.

Lemma quiet_out port v : other_port port -> quiet (out_b port v).
Proof using BD.
  intros (P1 & P2 & P3 & P4) d. eexists _, _. split; [reflexivity|]. split_and!; [rewrite master_out|rewrite slave_out|apply bd_out]; by apply pic_other.
Qed.

Lemma quiet_uart_wait n : quiet (uart_wait n).
Proof using BD. induction n as [|n IH]; cbn [uart_wait]; [apply quiet_ret|]. apply quiet_then; [apply quiet_in|]. intros st. case_match; [apply quiet_ret|done]. Qed.

Lemma quiet_uartputc c : quiet (uartputc true c).
Proof using BD. unfold uartputc. cbn [negb]. apply quiet_then; [apply quiet_uart_wait|intros _; apply quiet_out; done]. Qed.

Lemma quiet_announce s : quiet (announce s).
Proof using BD. induction s as [|c s IH]; cbn [announce]; [apply quiet_ret|]. apply quiet_then; [apply quiet_uartputc|done]. Qed.

Lemma quiet_uart_setup : quiet uart_setup.
Proof using BD.
  unfold uart_setup. do 7 (apply quiet_then; [apply quiet_out; done|intros _]). apply quiet_then; [apply quiet_in|]. intros st. case_match; [apply quiet_ret|].
  do 2 (apply quiet_then; [apply quiet_in|intros _]). apply quiet_ret.
Qed.

(** Polling the disk: it ends, and reads only. *)
Lemma idewait_irqs n chk d a d' : idewait n chk d = Ret a d' -> same_irqs d d'.
Proof using BD.
  revert d. induction n as [|n IH]; intros d E; [done|]. cbn [idewait] in E. destruct (quiet_in 0x1f7 d) as (r & d1 & E1 & H1).
  rewrite (bind_run _ _ _ _ _ E1) in E. cbv beta in E. repeat case_match; try (injection E as _ <-; done).
  apply IH in E. unfold same_irqs in *. intuition congruence.
Qed.

Lemma quiet_idewait chk : (ata_bound < fuel)%nat -> quiet (idewait fuel chk).
Proof using BD.
  intros Hf d. destruct (idewait_ready fuel Hf chk fuel d) as (d' & E & _); [pose proof (ata_lag_bound d); lia|].
  eexists _, _. split; [exact E|]. by eapply idewait_irqs.
Qed.

(** The same for computations of the IDE driver. *)
Definition quiet_ide {A} (m : M (ide D) A) : Prop := forall s, exists a s', m s = Ret a s' /\ same_irqs (id_dev s) (id_dev s').

Lemma quiet_ide_bind {A B} (m : M (ide D) A) (k : A -> M (ide D) B) : quiet_ide m -> (forall a, quiet_ide (k a)) -> quiet_ide (bind m k).
Proof using Type.
  intros Hm Hk s. destruct (Hm s) as (a & s1 & E1 & H1). destruct (Hk a s1) as (b & s2 & E2 & H2).
  exists b, s2. split; [by run E1|]. unfold same_irqs in *. intuition congruence.
Qed.
Lemma quiet_on_dev {A} (m : M D A) : quiet m -> quiet_ide (on_dev m).
Proof using Type. intros Hm s. destruct (Hm (id_dev s)) as (a & d & E & H). eexists _, _. split; [unfold on_dev, zoom; by rewrite E|done]. Qed.
Lemma quiet_probe n : quiet_ide (probe_disk1 n).
Proof using BD.
  induction n as [|n IH]; cbn [probe_disk1]; [intros s; by exists tt, s|]. apply quiet_ide_bind; [apply quiet_on_dev, quiet_in|].
  intros r. case_match; [|done]. intros s. eexists _, _. split; [reflexivity|done].
Qed.
Lemma quiet_ideinit : (ata_bound < fuel)%nat -> quiet_ide (Ide.ideinit fuel).
Proof using BD.
  intros Hf. unfold Ide.ideinit. apply quiet_ide_bind; [by apply quiet_on_dev, quiet_idewait|intros _].
  apply quiet_ide_bind; [by apply quiet_on_dev, quiet_out|intros _]. apply quiet_ide_bind; [apply quiet_probe|intros _]. by apply quiet_on_dev, quiet_out.
Qed.

(** ** The routing *)

(** The lines enabled so far at the 8259As, and at the I/O APIC, which has [mx + 1]
    lines. *)
Definition routed (mx : Z) (irqs : list Z) (l : list (Z * Z)) (s : ictl D) : Prop :=
  enabled irqs s /\ (ismp = true -> forall i, 0 <= i <= mx -> redirect (io_reg (ic_dev s)) i = route l i).

Lemma routed_frame mx irqs l s s' : routed mx irqs l s -> irqmask s' = irqmask s -> same_irqs (ic_dev s) (ic_dev s') -> routed mx irqs l s'.
Proof using Type.
  intros [H1 H2] E (E1 & E2 & E3). split; [by apply (enabled_frame irqs s)|]. intros Hm i Hi. rewrite E3. by apply H2.
Qed.

Lemma routed_dev {A} (m : M D A) mx irqs l s : quiet m -> routed mx irqs l s -> exists a s', dev m s = Ret a s' /\ routed mx irqs l s'.
Proof using Type.
  intros Hm Hr. destruct (Hm (ic_dev s)) as (a & d & E & H). exists a, (set_dev d s). split; [unfold dev, zoom; by rewrite E|]. by apply (routed_frame mx irqs l s).
Qed.

Lemma route_snoc l irq c i : route (l ++ [(irq, c)]) i = if irq =? i then Some (T_IRQ0 + i, c) else route l i.
Proof using Type. unfold route. by rewrite foldl_app. Qed.

Lemma routed_enable mx irq c irqs l s :
  routed mx irqs l s -> 0 <= irq < 16 -> 0 <= c < 256 ->
  exists s', irq_enable ismp irq c s = Ret tt s' /\ routed mx (irq :: irqs) (l ++ [(irq, c)]) s'.
Proof using BD.
  intros [H1 H2] Hi Hc. destruct (picenable_enabled irq irqs s H1 Hi) as (s1 & E1 & En1).
  assert (R1 : io_reg (ic_dev s1) = io_reg (ic_dev s)).
  { unfold Pic.picenable, Pic.picsetmask, bind, get, modify, dev, zoom, out_b in E1. cbn [ic_dev set_dev set_irqmask] in E1. injection E1 as <-.
    cbn [ic_dev set_dev]. by rewrite !bd_out. }
  unfold irq_enable. unfold Ioapic.ioapicenable. destruct ismp eqn:Emp; cbn [negb]; [|exists s1; split; [by run E1|]; split; [done|congruence]].
  destruct (vector_word irq) as (Hv & Hb & Hm); [lia|].
  destruct (entry_run irq (T_IRQ0 + irq) (Z.shiftl c 24) s1) as (s2 & E2 & _ & R2).
  { lia. } { unfold is_u32, T_IRQ0. lia. } { done. } { rewrite Z.shiftl_mul_pow2 by lia. unfold is_u32. lia. }
  { rewrite Z.shiftl_mul_pow2 by lia. apply (land_low c 0x5000 24); lia. }
  exists s2. split; [by run E1|]. split.
  - assert (F : irqmask s2 = irqmask s1 /\ master (ic_dev s2) = master (ic_dev s1) /\ slave (ic_dev s2) = slave (ic_dev s1)).
    { unfold Ioapic.ioapicwrite, bind, dev, zoom, wr_l in E2. cbn [ic_dev set_dev] in E2. injection E2 as <-. cbn [ic_dev set_dev irqmask].
      split; [done|]. split; repeat (etrans; [apply bd_wr|]); done. }
    apply (enabled_frame (irq :: irqs) s1); [done|apply F..].
  - intros _ i Hix. specialize (R2 i). unfold regs in R2. rewrite R2, Hb, Hm, Z.shiftl_mul_pow2, Z.div_mul, route_snoc by lia.
    rewrite Z.eqb_sym. destruct (irq =? i) eqn:E; [do 2 f_equal; lia|]. rewrite R1. by apply H2.
Qed.

(** ioapicinit keeps the 8259As. *)
Lemma ioapicwrite_irqs r v s : exists s', Ioapic.ioapicwrite r v s = Ret tt s' /\ irqmask s' = irqmask s /\ master (ic_dev s') = master (ic_dev s) /\ slave (ic_dev s') = slave (ic_dev s).
Proof using BD. eexists. split; [reflexivity|]. cbn [ic_dev set_dev irqmask]. split; [done|]. split; repeat (etrans; [apply bd_wr|]); done. Qed.

Lemma ioapicread_irqs r s : exists v s', Ioapic.ioapicread r s = Ret v s' /\ irqmask s' = irqmask s /\ master (ic_dev s') = master (ic_dev s) /\ slave (ic_dev s') = slave (ic_dev s).
Proof using BD.
  unfold Ioapic.ioapicread, bind, dev, zoom, wr_l, rd_l. cbn [ic_dev set_dev]. set (d1 := wr32 _ _ _). pose proof (bd_rd (Ioapic.IOAPIC + Ioapic.off_data) d1) as H.
  destruct (rd32 _ d1) as [v d2]. cbn [snd] in H. destruct H as [H1 H2]. eexists _, _. split; [reflexivity|]. cbn [ic_dev set_dev irqmask].
  rewrite H1, H2. split; [done|]. apply bd_wr.
Qed.

Lemma ioapicinit_loop_irqs n i s : exists s', Ioapic.ioapicinit_loop n i s = Ret tt s' /\ irqmask s' = irqmask s /\ master (ic_dev s') = master (ic_dev s) /\ slave (ic_dev s') = slave (ic_dev s).
Proof using BD.
  revert i s. induction n as [|n IH]; intros i s; cbn [Ioapic.ioapicinit_loop]; [by exists s|].
  destruct (ioapicwrite_irqs (Ioapic.REG_TABLE + 2 * i) (Z.lor Ioapic.INT_DISABLED (T_IRQ0 + i)) s) as (s1 & E1 & A1 & B1 & C1). run E1.
  destruct (ioapicwrite_irqs (Ioapic.REG_TABLE + 2 * i + 1) 0 s1) as (s2 & E2 & A2 & B2 & C2). run E2.
  destruct (IH (i + 1) s2) as (s3 & E3 & A3 & B3 & C3). exists s3. split_and!; [done|congruence..].
Qed.

Lemma ioapicinit_irqs s : exists s', Ioapic.ioapicinit ismp ioapicid s = Ret tt s' /\ irqmask s' = irqmask s /\ master (ic_dev s') = master (ic_dev s) /\ slave (ic_dev s') = slave (ic_dev s).
Proof using BD.
  unfold Ioapic.ioapicinit. case_match; [by exists s|].
  destruct (ioapicread_irqs Ioapic.REG_VER s) as (v & s1 & E1 & A1 & B1 & C1). run E1.
  destruct (ioapicread_irqs Ioapic.REG_ID s1) as (w & s2 & E2 & A2 & B2 & C2). run E2.
  assert (exists s3, (if negb (Z.shiftr w 24 =? ioapicid) then say "ioapicinit: id isn't equal to ioapicid; not a MP\n" [] else ret tt) s2 = Ret tt s3 /\
    irqmask s3 = irqmask s2 /\ ic_dev s3 = ic_dev s2) as (s3 & E3 & A3 & B3) by (case_match; eexists; split; reflexivity || done). run E3.
  destruct (ioapicinit_loop_irqs (Z.to_nat (Z.land (Z.shiftr v 16) 0xFF + 1)) 0 s3) as (s4 & E4 & A4 & B4 & C4).
  exists s4. split_and!; [done|congruence..].
Qed.

(** The steps of devinit. *)
Lemma on_ictl_run {A} (m : M (ictl D) A) s (e : ide D) a s' : m s = Ret a s' -> on_ictl m (s, e) = Ret a (s', e).
Proof using Type. intros E. unfold on_ictl, zoom. cbn [fst snd]. by rewrite E. Qed.

Lemma picinit_io s s' : Pic.picinit s = Ret tt s' -> io_reg (ic_dev s') = io_reg (ic_dev s).
Proof using BD.
  destruct s as [d m n me o]. unfold Pic.picinit. rewrite !out_step. unfold bind, get. cbn [irqmask]. case_match; intros E; injection E as <-; cbn [ic_dev set_dev set_irqmask]; by rewrite !bd_out.
Qed.

Lemma routed_uart mx irqs l s :
  routed mx irqs l s -> exists u s', uartinit ismp s = Ret u s' /\ routed mx (if u then IRQ_COM1 :: irqs else irqs) (if u then l ++ [(IRQ_COM1, 0)] else l) s'.
Proof using BD.
  intros H. destruct (routed_dev uart_setup mx irqs l s quiet_uart_setup H) as (u & s1 & E1 & H1). unfold uartinit. run E1.
  destruct u; cbn [negb]; [|by exists false, s1]. destruct (routed_enable mx IRQ_COM1 0 irqs l s1 H1) as (s2 & E2 & H2); [done|lia|]. run E2.
  destruct (routed_dev (announce [120; 118; 54; 46; 46; 46; 10]) mx _ _ s2 (quiet_announce _) H2) as ([] & s3 & E3 & H3). run E3. by exists true, s3.
Qed.

Lemma routed_ide mx irqs l s e :
  (ata_bound < fuel)%nat -> 0 < ncpu <= 256 -> routed mx irqs l s ->
  exists s' e', ideinit ismp ncpu fuel (s, e) = Ret tt (s', e') /\ routed mx (IRQ_IDE :: irqs) (l ++ [(IRQ_IDE, ncpu - 1)]) s'.
Proof using BD.
  intros Hf Hn H. destruct (routed_enable mx IRQ_IDE (ncpu - 1) irqs l s H) as (s1 & E1 & H1); [done|lia|].
  unfold ideinit. run (on_ictl_run _ _ e _ _ E1). unfold on_ide, zoom. set (x := MkIde _ _ _ _ _).
  destruct (quiet_ideinit Hf x) as ([] & e1 & E2 & H2). rewrite E2. eexists _, _. split; [reflexivity|]. by apply (routed_frame mx _ _ s1).
Qed.

Lemma routed_timer mx irqs l s :
  routed mx irqs l s -> exists s', (if negb ismp then Pic.timerinit else ret tt) s = Ret tt s' /\ routed mx (if negb ismp then IRQ_TIMER :: irqs else irqs) l s'.
Proof using BD.
  intros H. destruct ismp eqn:Emp; cbn [negb]; [by exists s|]. unfold Pic.timerinit.
  destruct (routed_dev (out_b Pic.TIMER_MODE (Z.lor (Z.lor Pic.TIMER_SEL0 Pic.TIMER_RATEGEN) Pic.TIMER_16BIT)) mx irqs l s (quiet_out Pic.TIMER_MODE _ ltac:(done)) H) as ([] & s1 & E1 & H1). run E1.
  destruct (routed_dev (out_b Pic.IO_TIMER1 (Pic.TIMER_DIV 100 mod 256)) mx irqs l s1 (quiet_out Pic.IO_TIMER1 _ ltac:(done)) H1) as ([] & s2 & E2 & H2). run E2.
  destruct (routed_dev (out_b Pic.IO_TIMER1 (Pic.TIMER_DIV 100 / 256)) mx irqs l s2 (quiet_out Pic.IO_TIMER1 _ ltac:(done)) H2) as ([] & s3 & E3 & H3). run E3.
  destruct (picenable_enabled IRQ_TIMER irqs s3 (proj1 H3)) as (s4 & E4 & En4); [done|]. exists s4. split; [done|]. split; [done|congruence].
Qed.

Lemma bool_decide_cons (i x : Z) l : bool_decide (i ∈ x :: l) = (i =? x) || bool_decide (i ∈ l).
Proof using Type.
  destruct (i =? x) eqn:E; cbn [orb]; [apply bool_decide_true; assert (i = x) as -> by lia; by left|]. apply bool_decide_ext. rewrite elem_of_cons. split; [intros [?|?]; [lia|done]|tauto].
Qed.

(** C33: after main's initialisation of the devices: on a multiprocessor the keyboard
    and the serial port (if there is one) interrupt processor 0 and the disk the last
    processor, and every other line of the I/O APIC is masked; the 8259As pass the same
    lines, and the timer's on a uniprocessor. *)
Theorem devinit_routes (s : ictl D) (e : ide D) :
  irqmask s = Pic.irqmask0 -> (ata_bound < fuel)%nat -> 0 < ncpu <= 256 ->
  let mx := Z.land (Z.shiftr (io_reg (ic_dev s) Ioapic.REG_VER) 16) 0xFF in
  mx < 120 ->
  exists u s' e', devinit ismp ioapicid ncpu fuel (s, e) = Ret u (s', e') /\
    (ismp = true -> forall i, 0 <= i <= mx ->
       redirect (io_reg (ic_dev s')) i =
         if i =? IRQ_KBD then Some (T_IRQ0 + i, 0)
         else if u && (i =? IRQ_COM1) then Some (T_IRQ0 + i, 0)
         else if i =? IRQ_IDE then Some (T_IRQ0 + i, ncpu - 1) else None) /\
    (forall i, 0 <= i < 16 -> i <> Pic.IRQ_SLAVE ->
       pic_vector (master (ic_dev s')) (slave (ic_dev s')) i =
         if (i =? IRQ_KBD) || (u && (i =? IRQ_COM1)) || (i =? IRQ_IDE) || (negb ismp && (i =? IRQ_TIMER)) then Some (T_IRQ0 + i) else None).
Proof using BD.
  intros Hs Hf Hn mx Hmx.
  destruct (picinit_enabled s Hs) as (s1 & E1 & En1).
  assert (R1 : io_reg (ic_dev s1) = io_reg (ic_dev s)) by (by apply picinit_io in E1).
  destruct (ioapicinit_irqs s1) as (s2 & E2 & A2 & B2 & C2).
  assert (H2 : routed mx [] [] s2).
  { split; [by apply (enabled_frame [] s1)|]. intros Hmp i Hi. destruct (ioapicinit_run ismp ioapicid s1 Hmp) as (s2' & E2' & R2); [unfold regs; by rewrite R1|].
    rewrite E2' in E2. injection E2 as ->. apply R2. unfold regs. by rewrite R1. }
  destruct (routed_enable mx IRQ_KBD 0 [] [] s2 H2) as (s3 & E3 & H3); [done|lia|].
  destruct (routed_uart mx _ _ s3 H3) as (u & s4 & E4 & H4).
  destruct (routed_ide mx _ _ s4 e Hf Hn H4) as (s5 & e5 & E5 & H5).
  destruct (routed_timer mx _ _ s5 H5) as (s6 & E6 & H6).
  exists u, s6, e5. split.
  { unfold devinit. run (on_ictl_run _ _ e _ _ E1). run (on_ictl_run _ _ e _ _ E2). run (on_ictl_run _ _ e _ _ E3). run (on_ictl_run _ _ e _ _ E4). run E5.
    rewrite (bind_run _ _ _ tt (s6, e5)); [done|]. destruct ismp; cbn [negb] in *; [injection E6 as ->; done|by apply on_ictl_run]. }
  destruct H6 as [H6 H7]. split.
  - intros Hmp i Hi. rewrite H7 by done. rewrite route_snoc. rewrite (Z.eqb_sym i IRQ_KBD), (Z.eqb_sym i IRQ_COM1), (Z.eqb_sym i IRQ_IDE).
    destruct u; cbn [app andb]; rewrite ?route_snoc; unfold route; cbn [foldl].
    all: destruct (IRQ_IDE =? i) eqn:Q1, (IRQ_KBD =? i) eqn:Q2; try (unfold IRQ_IDE, IRQ_KBD in *; lia).
    all: destruct (IRQ_COM1 =? i) eqn:Q3; try (unfold IRQ_IDE, IRQ_KBD, IRQ_COM1 in *; lia); done.
  - intros i Hi Hne. rewrite (enabled_vector _ _ _ H6 Hi Hne).
    destruct u, ismp; cbn [negb andb app]; rewrite ?bool_decide_cons; (rewrite (bool_decide_false (i ∈ [])) by apply not_elem_of_nil); rewrite ?orb_false_r;
      destruct (i =? IRQ_KBD), (i =? IRQ_COM1), (i =? IRQ_IDE), (i =? IRQ_TIMER); reflexivity.
Qed.

End Props.

Module StartDemo.
Import SimAta IntrDemo.

(** A disk, the 8259As and an I/O APIC side by side; no serial port. *)
Definition pc : Type := sim * (p8259 * p8259) * (Z * (Z -> Z)).
Definition ide_port (p : Z) : bool := ((0x1f0 <=? p) && (p <=? 0x1f7)) || (p =? 0x3f6).

#[export] Instance pc_ports : Ports pc := {
  inb p d := if ide_port p then let '(v, s) := inb p (fst (fst d)) in (v, (s, snd (fst d), snd d)) else (0xff, d);
  outb p v d := (if ide_port p then outb p v (fst (fst d)) else fst (fst d), outb p v (snd (fst d)), snd d)
}.
#[export] Instance pc_strings : StringPorts pc := {
  insl p n d := let '(bs, s) := insl p n (fst (fst d)) in (bs, (s, snd (fst d), snd d));
  outsl p bs d := (outsl p bs (fst (fst d)), snd (fst d), snd d)
}.
#[export] Instance pc_mmio : Mmio pc := {
  rd32 a d := let '(v, x) := rd32 a (snd d) in (v, (fst (fst d), snd (fst d), x));
  wr32 a v d := (fst (fst d), snd (fst d), wr32 a v (snd d))
}.
#[export] Instance pc_pic : PicDev pc.
Proof. refine {| master d := fst (snd (fst d)); slave d := snd (snd (fst d)) |}; done. Defined.
#[export] Instance pc_io : IoApicDev pc.
Proof.
  refine {| io_sel d := io_sel (snd d); io_reg d := io_reg (snd d) |}; intros; destruct d as [x y].
  - apply io_sel_wr.
  - apply io_sel_regs.
  - apply io_data_sel.
  - apply (io_data_wr v y); done.
  - cbn [rd32 pc_mmio snd fst]. pose proof (io_data_rd y) as H. destruct (rd32 _ y). exact H.
  - cbn [rd32 pc_mmio snd fst]. pose proof (io_rd_sel y) as H. destruct (rd32 _ y). exact H.
  - cbn [rd32 pc_mmio snd fst]. pose proof (io_rd_regs y) as H. destruct (rd32 _ y). exact H.
Defined.

Lemma ide_port_in p : 0x1f0 <= p <= 0x1f7 -> ide_port p = true.
Proof. unfold ide_port. lia. Qed.

#[export] Instance pc_ata : AtaController pc.
Proof.
  refine {| ata_view d := ata_view (fst (fst d)); ata_lag d := ata_lag (fst (fst d)); ata_bound := @ata_bound sim _ _ _;
            ata_finish ok d := (ata_finish ok (fst (fst d)), snd (fst d), snd d) |}.
  - intros d. apply (ata_lag_bound (fst (fst d))).
  - intros [[s p] q] n Hn. destruct (ata_poll_busy s n Hn) as (v & s' & E & H). exists v, (s', p, q). cbn [inb pc_ports fst snd]. rewrite ide_port_in by lia. by rewrite E.
  - intros [[s p] q] Hn. destruct (ata_poll_ready s Hn) as (v & s' & E & H). exists v, (s', p, q). cbn [inb pc_ports fst snd]. rewrite ide_port_in by lia. by rewrite E.
  - intros [[s p] q] Hn. apply (ata_control s Hn).
  - intros [[s p] q] r v Hn Ho Hr. cbn [outb pc_ports fst snd]. rewrite ide_port_in by lia. by apply (ata_register s).
  - intros [[s p] q] Hn Ho Hr. by apply (ata_read s).
  - intros [[s p] q] Hn Ho Hr. by apply (ata_write s).
  - intros [[s p] q] n lba data Ho Hl. by apply (ata_outsl s).
  - intros [[s p] q] data Hn Ho. destruct (ata_insl s data Hn Ho) as (s' & E & H). exists (s', p, q). cbn [insl pc_strings fst snd]. by rewrite E.
  - intros ok [[s p] q]. apply (ata_finishes ok s).
Defined.

#[export] Instance pc_board : Board pc.
Proof.
  constructor; cbn [snd].
  - intros port [[s p] q]. cbn [inb pc_ports fst snd]. destruct (ide_port port); [|done]. by destruct (inb port s).
  - done.
  - done.
  - intros a [[s p] q]. cbn [rd32 pc_mmio fst snd]. done.
Defined.

Definition pc0 : ictl pc := cold (MkAta ∅ AIdle false (MkMedium ∅ ∅ []), 0%nat, (off, off), (0, fun _ => 0x170011)).
Definition ide0 : ide pc := MkIde [] None false [] (ic_dev pc0).

Lemma devinit_routes_witness :
  exists u s' e', devinit true 0 2 4 (pc0, ide0) = Ret u (s', e') /\
    redirect (io_reg (ic_dev s')) IRQ_IDE = Some (46, 1) /\ redirect (io_reg (ic_dev s')) IRQ_TIMER = None.
Proof.
  pose proof (devinit_routes (BD := pc_board) true 0 2 4 pc0 ide0 eq_refl (le_n 4) ltac:(lia)) as H. cbn zeta in H.
  assert (V : Z.land (Z.shiftr (io_reg (ic_dev pc0) Ioapic.REG_VER) 16) 0xFF = 23) by (vm_compute; reflexivity). rewrite V in H.
  destruct (H ltac:(lia)) as (u & s' & e' & E & R & _). exists u, s', e'. split; [exact E|]. clear E H V.
  split; [refine (eq_trans (R eq_refl IRQ_IDE _) _)|refine (eq_trans (R eq_refl IRQ_TIMER _) _)]; try (unfold IRQ_IDE, IRQ_TIMER; lia); destruct u; reflexivity.
Defined.

End StartDemo.
