(* ===== verification/Kbd.v ===== *)
(** * The keyboard (kbd.h, kbd.c)

    The scan code tables, and the translation of scan codes into characters
    with its shift state.  The theorem relates the handler to a specification
    over the history of key presses and releases, for any keyboard controller
    that hands out its bytes in order. *)

From S2P Require Import Prelude.
From S2P Require Import Ports.
From S2P Require Import Console.

Definition KBSTATP : Z := 100.
Definition KBS_DIB : Z := 1.
Definition KBDATAP : Z := 96.

Definition NO : Z := 0.
Definition SHIFT : Z := Z.shiftl 1 0.
Definition CTL : Z := Z.shiftl 1 1.
Definition ALT : Z := Z.shiftl 1 2.
Definition CAPSLOCK : Z := Z.shiftl 1 3.
Definition NUMLOCK : Z := Z.shiftl 1 4.
Definition SCROLLLOCK : Z := Z.shiftl 1 5.
Definition E0ESC : Z := Z.shiftl 1 6.

Definition KEY_HOME : Z := 224.
Definition KEY_END : Z := 225.
Definition KEY_UP : Z := 226.
Definition KEY_DN : Z := 227.
Definition KEY_LF : Z := 228.
Definition KEY_RT : Z := 229.
Definition KEY_PGUP : Z := 230.
Definition KEY_PGDN : Z := 231.
Definition KEY_INS : Z := 232.
Definition KEY_DEL : Z := 233.

(** A table of 256 bytes given by its first entries and designated ones; the
    others are 0. *)
Definition table (l : list Z) (ex : list (Z * Z)) (i : Z) : Z :=
  match list_find (fun e => e.1 = i) ex with
  | Some (_, (_, v)) => u8 v
  | None => u8 (zget l i)
  end.

Definition shiftcode : Z -> Z := table [] [(29, CTL); (42, SHIFT); (54, SHIFT); (56, ALT); (157, CTL); (184, ALT)].
Definition togglecode : Z -> Z := table [] [(58, CAPSLOCK); (69, NUMLOCK); (70, SCROLLLOCK)].

Definition normalmap : Z -> Z := table
  [NO; 27; 49; 50; 51; 52; 53; 54;
   55; 56; 57; 48; 45; 61; 8; 9;
   113; 119; 101; 114; 116; 121; 117; 105;
   111; 112; 91; 93; 10; NO; 97; 115;
   100; 102; 103; 104; 106; 107; 108; 59;
   39; 96; NO; 92; 122; 120; 99; 118;
   98; 110; 109; 44; 46; 47; NO; 42;
   NO; 32; NO; NO; NO; NO; NO; NO;
   NO; NO; NO; NO; NO; NO; NO; 55;
   56; 57; 45; 52; 53; 54; 43; 49;
   50; 51; 48; 46; NO; NO; NO; NO]
  [(156, 10); (181, 47); (200, KEY_UP); (208, KEY_DN); (201, KEY_PGUP); (209, KEY_PGDN); (203, KEY_LF); (205, KEY_RT); (151, KEY_HOME); (207, KEY_END); (210, KEY_INS); (211, KEY_DEL)].

Definition shiftmap : Z -> Z := table
  [NO; 27; 33; 64; 35; 36; 37; 94;
   38; 42; 40; 41; 95; 43; 8; 9;
   81; 87; 69; 82; 84; 89; 85; 73;
   79; 80; 123; 125; 10; NO; 65; 83;
   68; 70; 71; 72; 74; 75; 76; 58;
   34; 126; NO; 124; 90; 88; 67; 86;
   66; 78; 77; 60; 62; 63; NO; 42;
   NO; 32; NO; NO; NO; NO; NO; NO;
   NO; NO; NO; NO; NO; NO; NO; 55;
   56; 57; 45; 52; 53; 54; 43; 49;
   50; 51; 48; 46; NO; NO; NO; NO]
  [(156, 10); (181, 47); (200, KEY_UP); (208, KEY_DN); (201, KEY_PGUP); (209, KEY_PGDN); (203, KEY_LF); (205, KEY_RT); (151, KEY_HOME); (207, KEY_END); (210, KEY_INS); (211, KEY_DEL)].

Definition ctlmap : Z -> Z := table
  [NO; NO; NO; NO; NO; NO; NO; NO;
   NO; NO; NO; NO; NO; NO; NO; NO;
   ctl 81; ctl 87; ctl 69; ctl 82; ctl 84; ctl 89; ctl 85; ctl 73;
   ctl 79; ctl 80; NO; NO; 13; NO; ctl 65; ctl 83;
   ctl 68; ctl 70; ctl 71; ctl 72; ctl 74; ctl 75; ctl 76; NO;
   NO; NO; NO; ctl 92; ctl 90; ctl 88; ctl 67; ctl 86;
   ctl 66; ctl 78; ctl 77; NO; NO; ctl 47; NO; NO]
  [(156, 13); (181, ctl 47); (200, KEY_UP); (208, KEY_DN); (201, KEY_PGUP); (209, KEY_PGDN); (203, KEY_LF); (205, KEY_RT); (151, KEY_HOME); (207, KEY_END); (210, KEY_INS); (211, KEY_DEL)].

Definition charcode (k : Z) : Z -> Z := if k =? 0 then normalmap else if k =? 1 then shiftmap else ctlmap.

(** kbdgetc on a byte from the data port: the character and the new shift
    state. *)
Definition kbd_code (shift data : Z) : Z * Z :=
  if data =? 224 then (0, Z.lor shift E0ESC)
  else if negb (Z.land data 128 =? 0) then
    let data := if negb (Z.land shift E0ESC =? 0) then data else Z.land data 127 in
    (0, Z.land shift (Z.lnot (Z.lor (shiftcode data) E0ESC)))
  else
    let '(data, shift) :=
      if negb (Z.land shift E0ESC =? 0) then (Z.lor data 128, Z.land shift (Z.lnot E0ESC)) else (data, shift) in
    let shift := Z.lor shift (shiftcode data) in
    let shift := Z.lxor shift (togglecode data) in
    let c := charcode (Z.land shift (Z.lor CTL SHIFT)) data in
    let c :=
      if negb (Z.land shift CAPSLOCK =? 0) then
        if (97 <=? c) && (c <=? 122) then c + (65 - 97)
        else if (65 <=? c) && (c <=? 90) then c + (97 - 65)
        else c
      else c in
    (c, shift).

Section Kbd.
Context {D : Type} `{Ports D}.

Record kbd : Type := MkKbd { kb_dev : D; kb_shift : Z }.
Definition kdev {A} (m : M D A) : M kbd A := zoom kb_dev (fun d s => MkKbd d (kb_shift s)) m.

Definition kbdgetc : M kbd Z :=
  let! st := kdev (in_b KBSTATP) in
  if Z.land st KBS_DIB =? 0 then ret (-1) else
  let! data := kdev (in_b KBDATAP) in
  fun s => let '(c, shift) := kbd_code (kb_shift s) data in Ret c (MkKbd (kb_dev s) shift).

(** The characters kbdintr passes to consoleintr: kbdgetc until it is
    negative, [n] times at most. *)
Fixpoint kbd_drain (n : nat) : M kbd (list Z) :=
  match n with
  | O => out_of_fuel
  | S n =>
      let! c := kbdgetc in
      if c <? 0 then ret [] else let! cs := kbd_drain n in ret (c :: cs)
  end.

Definition kbdintr (n : nat) (i : input) : M kbd (input * list cevent) :=
  let! cs := kbd_drain n in ret (consoleintr cs i).

End Kbd.
Arguments kbd : clear implicits.

(** ** Key presses and releases *)

(** A key: whether its codes follow an E0 byte, and its code. *)
Definition key : Type := bool * Z.
Inductive kevent : Type := Press (k : key) | Release (k : key).
Definition ev_key (e : kevent) : key := match e with Press k | Release k => k end.

(** The events that the bytes of the keyboard stand for, and whether an E0 byte
    is still to be completed. *)
Fixpoint kevents (esc : bool) (bs : list Z) : list kevent :=
  match bs with
  | [] => []
  | b :: bs =>
      if b =? 0xE0 then kevents true bs
      else (if b <? 128 then Press (esc, b) else Release (esc, b - 128)) :: kevents false bs
  end.

Fixpoint escaped (esc : bool) (bs : list Z) : bool :=
  match bs with
  | [] => esc
  | b :: bs => escaped (b =? 0xE0) bs
  end.

(** A modifier is held when the last event of its keys was a press; a lock is
    on when its key has been pressed an odd number of times. *)
Definition held (p : key -> bool) (h : list kevent) : bool :=
  match List.find (fun e => p (ev_key e)) (rev h) with Some (Press _) => true | _ => false end.
Definition press_of (p : key -> bool) (e : kevent) : bool := match e with Press k => p k | Release _ => false end.
Definition toggled (p : key -> bool) (h : list kevent) : bool := Nat.odd (length (List.filter (press_of p) h)).

Definition is_shift (k : key) : bool := negb k.1 && ((k.2 =? 0x2A) || (k.2 =? 0x36)).
Definition is_ctl (k : key) : bool := k.2 =? 0x1D.
Definition is_alt (k : key) : bool := k.2 =? 0x38.
Definition is_caps (k : key) : bool := negb k.1 && (k.2 =? 0x3A).
Definition is_num (k : key) : bool := negb k.1 && (k.2 =? 0x45).
Definition is_scroll (k : key) : bool := negb k.1 && (k.2 =? 0x46).

Definition swap_case (c : Z) : Z :=
  if (97 <=? c) && (c <=? 122) then c - 32 else if (65 <=? c) && (c <=? 90) then c + 32 else c.

Definition key_index (k : key) : Z := if k.1 then k.2 + 128 else k.2.

(** The character of a key, given the modifiers. *)
Definition key_char (shift ctl caps : bool) (k : key) : Z :=
  let c := (if ctl then ctlmap else if shift then shiftmap else normalmap) (key_index k) in
  if caps then swap_case c else c.

(** The characters a sequence of events types after the history [h]. *)
Fixpoint typed (h es : list kevent) : list Z :=
  match es with
  | [] => []
  | e :: es =>
      let h := h ++ [e] in
      match e with
      | Press k =>
          let c := key_char (held is_shift h) (held is_ctl h) (toggled is_caps h) k in
          if c =? 0 then typed h es else c :: typed h es
      | Release _ => typed h es
      end
  end.

(** The variable [shift] of kbdgetc after a history. *)
Definition flags (shift ctl alt caps num scroll esc : bool) : Z :=
  Z.b2z shift * SHIFT + Z.b2z ctl * CTL + Z.b2z alt * ALT + Z.b2z caps * CAPSLOCK + Z.b2z num * NUMLOCK +
  Z.b2z scroll * SCROLLLOCK + Z.b2z esc * E0ESC.
Definition kbd_shift (h : list kevent) (esc : bool) : Z :=
  flags (held is_shift h) (held is_ctl h) (held is_alt h) (toggled is_caps h) (toggled is_num h) (toggled is_scroll h) esc.

(** The letter keys of the three rows, with their codes. *)
Definition letter_row (start : Z) (row : list Z) : list (Z * Z) := imap (fun i c => (start + Z.of_nat i, c)) row.
Definition letter_keys : list (Z * Z) :=
  letter_row 0x10 [113; 119; 101; 114; 116; 121; 117; 105; 111; 112] ++
  letter_row 0x1E [97; 115; 100; 102; 103; 104; 106; 107; 108] ++
  letter_row 0x2C [122; 120; 99; 118; 98; 110; 109].

(** ** The keyboard controller *)

(** The status port tells whether a byte is waiting, and the data port hands
    out the bytes in the order they arrived. *)
Class KbdController (D : Type) `{!Ports D} : Type := {
  kbc_queue : D -> list Z;
  kbc_byte : forall d, Forall is_byte (kbc_queue d);
  kbc_status : forall d, exists v d', inb KBSTATP d = (v, d') /\ kbc_queue d' = kbc_queue d /\
    (Z.land (u8 v) KBS_DIB = 0 <-> kbc_queue d = []);
  kbc_data : forall d b q, kbc_queue d = b :: q -> exists d', inb KBDATAP d = (b, d') /\ kbc_queue d' = q
}.

(** ** One byte *)

Definition with_key (p : key -> bool) (e : kevent) (v : bool) : bool :=
  if p (ev_key e) then match e with Press _ => true | Release _ => false end else v.
Definition flip_key (p : key -> bool) (e : kevent) (v : bool) : bool := xorb (press_of p e) v.

Lemma held_snoc p h e : held p (h ++ [e]) = with_key p e (held p h).
Proof. unfold held, with_key. rewrite rev_app_distr. cbn. by destruct (p (ev_key e)), e. Qed.

Lemma toggled_snoc p h e : toggled p (h ++ [e]) = flip_key p e (toggled p h).
Proof.
  unfold toggled, flip_key. rewrite List.filter_app, length_app. cbn [List.filter].
  destruct (press_of p e); cbn [length]; rewrite ?Nat.add_0_r, ?Nat.add_1_r; [|by destruct (Nat.odd _)].
  rewrite Nat.odd_succ, <- Nat.negb_odd. by destruct (Nat.odd _).
Qed.

Lemma kbd_shift_snoc h e :
  kbd_shift (h ++ [e]) false =
    flags (with_key is_shift e (held is_shift h)) (with_key is_ctl e (held is_ctl h)) (with_key is_alt e (held is_alt h))
      (flip_key is_caps e (toggled is_caps h)) (flip_key is_num e (toggled is_num h)) (flip_key is_scroll e (toggled is_scroll h)) false.
Proof. unfold kbd_shift. by rewrite !held_snoc, !toggled_snoc. Qed.

Definition bools : list bool := [false; true].

(** kbdgetc on every byte in every state of the modifiers. *)
Definition code_ok (sh ct al ca nu sc es : bool) (b : Z) : bool :=
  let '(c, s) := kbd_code (flags sh ct al ca nu sc es) b in
  if b =? 0xE0 then (c =? 0) && (s =? flags sh ct al ca nu sc true)
  else
    let e := if b <? 128 then Press (es, b) else Release (es, b - 128) in
    let sh' := with_key is_shift e sh in let ct' := with_key is_ctl e ct in let ca' := flip_key is_caps e ca in
    (s =? flags sh' ct' (with_key is_alt e al) ca' (flip_key is_num e nu) (flip_key is_scroll e sc) false) &&
    (c =? if b <? 128 then key_char sh' ct' ca' (es, b) else 0).

Lemma code_table :
  forallb (fun sh => forallb (fun ct => forallb (fun al => forallb (fun ca => forallb (fun nu => forallb (fun sc =>
    forallb (fun es => forallb (fun b => code_ok sh ct al ca nu sc es (Z.of_nat b)) (seq 0 256))
      bools) bools) bools) bools) bools) bools) bools = true.
Proof. vm_compute. reflexivity. Qed.

Lemma forallb_bools p : forallb p bools = true -> forall v, p v = true.
Proof. cbn. intros H v. destruct v; destruct (p false), (p true); done. Qed.

Lemma code_ok_all sh ct al ca nu sc es b : is_byte b -> code_ok sh ct al ca nu sc es b = true.
Proof.
  intros Hb. unfold is_byte in Hb. pose proof code_table as H.
  do 7 (eapply forallb_bools in H; cbv beta in H). pose proof (forallb_seq _ _ H (Z.to_nat b) ltac:(lia)) as E.
  cbv beta in E. rewrite Z2Nat.id in E by lia. exact E.
Qed.

(** What kbdgetc makes of a byte. *)
Lemma kbd_code_spec h esc b : is_byte b ->
  kbd_code (kbd_shift h esc) b =
    if b =? 0xE0 then (0, kbd_shift h true)
    else let e := if b <? 128 then Press (esc, b) else Release (esc, b - 128) in
      (if b <? 128 then key_char (held is_shift (h ++ [e])) (held is_ctl (h ++ [e])) (toggled is_caps (h ++ [e])) (esc, b) else 0,
       kbd_shift (h ++ [e]) false).
Proof.
  intros Hb. pose proof (code_ok_all (held is_shift h) (held is_ctl h) (held is_alt h) (toggled is_caps h) (toggled is_num h)
    (toggled is_scroll h) esc b Hb) as H. unfold code_ok in H. fold (kbd_shift h esc) (kbd_shift h true) in H.
  destruct (kbd_code (kbd_shift h esc) b) as [c s]. destruct (b =? 0xE0).
  - apply andb_true_iff in H as [->%Z.eqb_eq ->%Z.eqb_eq]. done.
  - cbv zeta in H |- *. rewrite kbd_shift_snoc, !held_snoc, toggled_snoc.
    apply andb_true_iff in H as [->%Z.eqb_eq ->%Z.eqb_eq]. done.
Qed.

Lemma normal_nonneg k sh ct ca : 0 <= key_char sh ct ca k.
Proof.
  assert (Ht : forall l ex i, 0 <= table l ex i) by (intros; unfold table, u8; destruct (list_find _ _) as [[? []]|]; dlia).
  unfold key_char. assert (Hc : 0 <= (if ct then ctlmap else if sh then shiftmap else normalmap) (key_index k))
    by (destruct ct, sh; apply Ht). destruct ca; [|done]. unfold swap_case. repeat case_match; lia.
Qed.

(** The letter keys: a control character with Ctrl, and otherwise a capital
    when exactly one of Shift and Caps Lock is on. *)
Lemma letter_key_char sh ct ca code c : (code, c) ∈ letter_keys ->
  key_char sh ct ca (false, code) = if ct then c - 96 else if xorb sh ca then c - 32 else c.
Proof.
  assert (H : forallb (fun sh => forallb (fun ct => forallb (fun ca => forallb (fun e =>
    key_char sh ct ca (false, e.1) =? if ct then e.2 - 96 else if xorb sh ca then e.2 - 32 else e.2) letter_keys)
      bools) bools) bools = true) by (vm_compute; reflexivity).
  intros Hin%list_elem_of_In. do 3 (eapply forallb_bools in H; cbv beta in H). rewrite forallb_forall in H.
  specialize (H _ Hin). cbn [fst snd] in H. apply Z.eqb_eq in H. exact H.
Qed.

(** Characters 0 do not reach the buffer. *)
Lemma consoleintr_skip cs i : consoleintr (0 :: cs) i = consoleintr cs i.
Proof.
  cbn [consoleintr]. change (cons_char 0 i) with (i, @nil cevent). cbv iota beta.
  destruct (consoleintr cs i). reflexivity.
Qed.

Section Handler.
Context {D : Type} `{KC : KbdController D}.

Lemma kbdgetc_empty (s : kbd D) : kbc_queue (kb_dev s) = [] ->
  exists s', kbdgetc s = Ret (-1) s' /\ kb_shift s' = kb_shift s /\ kbc_queue (kb_dev s') = [].
Proof.
  intros Hq. destruct (kbc_status (kb_dev s)) as (v & d & E & Hq' & Hst). exists (MkKbd d (kb_shift s)).
  split; [|cbn; by rewrite Hq']. unfold kbdgetc, kdev, zoom, in_b, bind. rewrite E. cbv iota beta.
  by rewrite (proj2 Hst Hq).
Qed.

Lemma kbdgetc_byte (s : kbd D) b q : kbc_queue (kb_dev s) = b :: q ->
  exists s', kbdgetc s = Ret (kbd_code (kb_shift s) b).1 s' /\ kb_shift s' = (kbd_code (kb_shift s) b).2 /\
    kbc_queue (kb_dev s') = q.
Proof.
  intros Hq. destruct (kbc_status (kb_dev s)) as (v & d & E & Hq' & Hst). rewrite Hq in Hq'.
  destruct (kbc_data d b q Hq') as (d' & E' & Hq2). pose proof (kbc_byte d) as Hb. rewrite Hq' in Hb.
  apply Forall_cons in Hb as [Hb _]. destruct (Z.eqb_spec (Z.land (u8 v) KBS_DIB) 0) as [Hz|Hz]; [by rewrite (proj1 Hst Hz) in Hq|].
  unfold kbdgetc, kdev, zoom, in_b, bind. rewrite E. cbv iota beta. rewrite (proj2 (Z.eqb_neq _ _) Hz). cbn [kb_dev kb_shift].
  rewrite E'. assert (u8 b = b) as -> by (unfold is_byte, u8 in *; apply Z.mod_small; lia).
  cbn [kb_dev kb_shift]. destruct (kbd_code (kb_shift s) b) as [c sh]. by exists (MkKbd d' sh).
Qed.

Lemma run_kbd_drain q h esc (s : kbd D) :
  kbc_queue (kb_dev s) = q -> kb_shift s = kbd_shift h esc ->
  exists cs s', kbd_drain (S (length q)) s = Ret cs s' /\ kbc_queue (kb_dev s') = [] /\
    kb_shift s' = kbd_shift (h ++ kevents esc q) (escaped esc q) /\
    forall i, consoleintr cs i = consoleintr (typed h (kevents esc q)) i.
Proof.
  revert h esc s. induction q as [|b q IH]; intros h esc s Hq Hs; cbn [kbd_drain].
  - destruct (kbdgetc_empty s Hq) as (s' & E & Hs' & Hq'). exists [], s'. run E. cbn [kevents escaped].
    rewrite app_nil_r, Hs', Hs. done.
  - pose proof (kbc_byte (kb_dev s)) as Hb. rewrite Hq in Hb. apply Forall_cons in Hb as [Hb _].
    destruct (kbdgetc_byte s b q Hq) as (s1 & E & Hs1 & Hq1). rewrite Hs, kbd_code_spec in E, Hs1 by done.
    cbn [kevents escaped length]. destruct (b =? 0xE0).
    + destruct (IH h true s1 Hq1 Hs1) as (cs & s2 & E2 & Hq2 & Hs2 & Hc). exists (0 :: cs), s2. run E.
      cbn [fst]. change (0 <? 0) with false. cbv iota. run E2. split_and!; auto. intros i. by rewrite consoleintr_skip.
    + set (e := if b <? 128 then Press (esc, b) else Release (esc, b - 128)) in *. cbv zeta in E, Hs1. cbn [fst snd] in E, Hs1.
      destruct (IH (h ++ [e]) false s1 Hq1 Hs1) as (cs & s2 & E2 & Hq2 & Hs2 & Hc).
      rewrite <- app_assoc in Hs2. set (c := if b <? 128 then _ else 0) in E.
      assert (Hc0 : 0 <= c) by (unfold c; destruct (b <? 128); [apply normal_nonneg|lia]).
      exists (c :: cs), s2. run E. rewrite (proj2 (Z.ltb_ge _ _)) by lia. run E2. split_and!; auto.
      intros i. cbn [typed]. unfold c, e in *. destruct (b <? 128); [|by rewrite consoleintr_skip].
      destruct (Z.eqb_spec (key_char (held is_shift (h ++ [Press (esc, b)])) (held is_ctl (h ++ [Press (esc, b)]))
        (toggled is_caps (h ++ [Press (esc, b)])) (esc, b)) 0) as [->|_]; [by rewrite consoleintr_skip|].
      cbn [consoleintr]. destruct (cons_char _ i) as [i1 ev]. by rewrite Hc.
Qed.

(** C39: the keyboard handler types what the keys say.  With [h] the presses
    and releases since boot, and any bytes waiting in the controller, kbdintr
    drains them all, hands the console the characters these presses type, and
    leaves the modifier state of the extended history: Shift, Ctrl and Alt are
    held when their last event was a press, the locks are on after an odd number
    of presses, and an E0 byte marks the key that follows.  A letter key types
    its control character while Ctrl is held, and otherwise a capital exactly
    when one of Shift and Caps Lock is on. *)
Theorem kbdintr_refines h esc (s : kbd D) i :
  kb_shift s = kbd_shift h esc ->
  let q := kbc_queue (kb_dev s) in
  (exists s', kbdintr (S (length q)) i s = Ret (consoleintr (typed h (kevents esc q)) i) s' /\
    kbc_queue (kb_dev s') = [] /\ kb_shift s' = kbd_shift (h ++ kevents esc q) (escaped esc q)) /\
  (forall code c, (code, c) ∈ letter_keys ->
    let h' := h ++ [Press (false, code)] in
    typed h [Press (false, code)] =
      [if held is_ctl h' then c - 96 else if xorb (held is_shift h') (toggled is_caps h') then c - 32 else c]).
Proof.
  intros Hs q. split.
  - destruct (run_kbd_drain q h esc s eq_refl Hs) as (cs & s' & E & Hq & Hs' & Hc). exists s'.
    unfold kbdintr. run E. unfold ret. by rewrite Hc.
  - intros code c Hin h'. cbn [typed]. fold h'. rewrite (letter_key_char _ _ _ _ _ Hin).
    assert (Hr : 97 <= c <= 122).
    { assert (forallb (fun e => (97 <=? e.2) && (e.2 <=? 122)) letter_keys = true) as H by (vm_compute; reflexivity).
      rewrite forallb_forall in H. apply list_elem_of_In in Hin. specialize (H _ Hin). cbn in H. lia. }
    by rewrite (proj2 (Z.eqb_neq _ _)) by (repeat case_match; lia).
Qed.

End Handler.

(** A controller that holds a list of bytes. *)
#[local] Instance list_ports : Ports (list Z) := {
  inb p d := if p =? KBSTATP then (match d with [] => 0 | _ => 1 end, d)
             else match d with [] => (0, d) | b :: d => (b mod 256, d) end;
  outb p v d := d
}.

#[local] Instance list_controller : KbdController (list Z).
Proof.
  refine {| kbc_queue d := List.map (fun b => b mod 256) d |}.
  - intros d. apply Forall_forall. intros b (x & -> & _)%list_elem_of_fmap. unfold is_byte. dlia.
  - intros d. exists (match d with [] => 0 | _ => 1 end), d. split; [done|]. split; [done|]. by destruct d.
  - intros [|x d] b q Hq; [done|]. injection Hq as <- <-. by exists d.
Defined.

(** Shift down, [a], Shift up, E0 and the right Ctrl key down, [c]. *)
Lemma kbdintr_refines_witness :
  exists s', kbdintr 7 input0 (MkKbd [42; 30; 170; 224; 29; 46] 0) = Ret (consoleintr [65; 3] input0) s' /\ kb_shift s' = CTL.
Proof.
  destruct (kbdintr_refines [] false (MkKbd [42; 30; 170; 224; 29; 46] 0) input0 eq_refl) as [(s' & E & _ & Hs) _].
  exists s'. split; [exact E|exact Hs].
Defined.
