(* ===== verification/Umalloc.v ===== *)
(** * The user-level allocator (umalloc.c)

    free, morecore and malloc of Kernighan and Ritchie's allocator.  A header is
    two words at its address, kept in the functions [h_ptr] and [h_size];
    [Header] arithmetic is on multiples of 8.  [base] is the address of the
    static header, and [grow] tells whether sbrk succeeds in adding bytes to the
    heap, whose end is [h_brk]. *)

From S2P Require Import Prelude.
From S2P Require Import Mmu.

Record heap : Type := MkHeap { h_ptr : Z -> Z; h_size : Z -> Z; h_freep : Z; h_brk : Z }.

Definition fset (f : Z -> Z) (a v : Z) : Z -> Z := fun x => if x =? a then v else f x.
Definition set_ptr (a v : Z) (h : heap) : heap := MkHeap (fset (h_ptr h) a v) (h_size h) (h_freep h) (h_brk h).
Definition set_size (a v : Z) (h : heap) : heap := MkHeap (h_ptr h) (fset (h_size h) a v) (h_freep h) (h_brk h).
Definition set_freep (p : Z) (h : heap) : heap := MkHeap (h_ptr h) (h_size h) p (h_brk h).
Definition set_brk (b : Z) (h : heap) : heap := MkHeap (h_ptr h) (h_size h) (h_freep h) b.

Definition sizeof_Header : Z := 8.
(** [p + n] for a [Header] pointer. *)
Definition hplus (p n : Z) : Z := p + sizeof_Header * n.

Section Umalloc.
Context (base : Z) (grow : Z -> Z -> bool).

(** The search of free for the block below [bp]. *)
Fixpoint free_find (fuel : nat) (h : heap) (bp p : Z) : option Z :=
  if (bp >? p) && (bp <? h_ptr h p) then Some p
  else if (p >=? h_ptr h p) && ((bp >? p) || (bp <? h_ptr h p)) then Some p
  else match fuel with
       | O => None
       | S fuel => free_find fuel h bp (h_ptr h p)
       end.

(** A list of headers has at most one for every 8 bytes of memory. *)
Definition list_fuel (h : heap) : nat := Z.to_nat (h_brk h / sizeof_Header + 2).

Definition free (ap : Z) : M heap unit := fun h =>
  let bp := ap - sizeof_Header in
  match free_find (list_fuel h) h bp (h_freep h) with
  | None => Fail FFuel
  | Some p =>
      let h :=
        if hplus bp (h_size h bp) =? h_ptr h p then
          let q := h_ptr h p in
          set_ptr bp (h_ptr h q) (set_size bp (u32 (h_size h bp + h_size h q)) h)
        else set_ptr bp (h_ptr h p) h in
      let h :=
        if hplus p (h_size h p) =? bp then
          set_ptr p (h_ptr h bp) (set_size p (u32 (h_size h p + h_size h bp)) h)
        else set_ptr p bp h in
      Ret tt (set_freep p h)
  end.

Definition sbrk (n : Z) : M heap Z := fun h =>
  if grow (h_brk h) n then Ret (h_brk h) (set_brk (h_brk h + n) h) else Ret (-1) h.

Definition morecore (nu : Z) : M heap Z :=
  let nu := if nu <? 4096 then 4096 else nu in
  let! p := sbrk (i32 (u32 (nu * sizeof_Header))) in
  if p =? -1 then ret 0 else
  modify (set_size p nu) ;;
  free (hplus p 1) ;;
  get h_freep.

(** The block found at [p] after [prevp]: whole, or its tail end. *)
Definition take_block (nunits prevp p : Z) : M heap Z := fun h =>
  let '(p, h) :=
    if h_size h p =? nunits then (p, set_ptr prevp (h_ptr h p) h)
    else
      let h := set_size p (h_size h p - nunits) h in
      let p := hplus p (h_size h p) in
      (p, set_size p nunits h) in
  Ret (hplus p 1) (set_freep prevp h).

Fixpoint malloc_loop (fuel : nat) (nunits prevp p : Z) : M heap Z :=
  match fuel with
  | O => out_of_fuel
  | S fuel =>
      let! size := get (fun h => h_size h p) in
      if size >=? nunits then take_block nunits prevp p else
      let! freep := get h_freep in
      if p =? freep then
        let! p := morecore nunits in
        if p =? 0 then ret 0 else
        let! q := get (fun h => h_ptr h p) in
        malloc_loop fuel nunits p q
      else
        let! q := get (fun h => h_ptr h p) in
        malloc_loop fuel nunits p q
  end.

Definition malloc (nbytes : Z) : M heap Z :=
  let nunits := u32 (u32 (nbytes + sizeof_Header - 1) / sizeof_Header + 1) in
  (let! freep := get h_freep in
   if freep =? 0 then modify (fun h => set_size base 0 (set_freep base (set_ptr base base h))) else ret tt) ;;
  let! prevp := get h_freep in
  let! p := get (fun h => h_ptr h prevp) in
  let! fuel := get (fun h => (2 * list_fuel h)%nat) in
  malloc_loop fuel nunits prevp p.

End Umalloc.

(** The number of units is computed with a sum that wraps around: a request of
    almost [2^32] bytes gets the block of a request of none. *)
Lemma malloc_wraps base grow n h : 4294967289 <= n < 4294967296 -> malloc base grow n h = malloc base grow 0 h.
Proof.
  intros Hn. unfold malloc. replace (u32 (n + sizeof_Header - 1) / sizeof_Header) with (u32 (0 + sizeof_Header - 1) / sizeof_Header); [done|].
  unfold u32, sizeof_Header. dlia.
Qed.

(** * The allocator hands out disjoint blocks

    The free list is a circle through [base] in the order of the addresses.  A
    block is a pair of its header's address and its size in units of 8 bytes. *)

Local Abbreviation blk := (Z * Z)%type (only parsing).

Lemma fset_eq f a v : fset f a v a = v.
Proof. unfold fset. by rewrite Z.eqb_refl. Qed.
Lemma fset_ne f a v x : x <> a -> fset f a v x = f x.
Proof. intros H. unfold fset. by rewrite (proj2 (Z.eqb_neq _ _) H). Qed.

(** ** Disjoint blocks *)

Definition sep (x y : blk) : Prop := x.1 + 8 * x.2 <= y.1 \/ y.1 + 8 * y.2 <= x.1.

Fixpoint disj (B : list blk) : Prop :=
  match B with
  | [] => True
  | x :: B => Forall (sep x) B /\ disj B
  end.

Lemma sep_sym x y : sep x y -> sep y x.
Proof. unfold sep. tauto. Qed.

#[local] Instance disj_perm : Proper ((≡ₚ) ==> impl) disj.
Proof.
  intros B B' H. induction H as [|x B B' HP IH|x y B|B1 B2 B3 _ IH1 _ IH2]; intros HD; [done|..|by apply IH2, IH1].
  - destruct HD as [H1 H2]. split; [by rewrite <- HP|by apply IH].
  - destruct HD as [[H1 H2]%Forall_cons [H3 H4]]. split; [apply List.Forall_cons; [by apply sep_sym|done]|]. by split.
Qed.

Lemma disj_swap x y B : disj (x :: y :: B) -> disj (y :: x :: B).
Proof. apply disj_perm, Permutation_swap. Qed.

Lemma disj_split a s n B : 1 <= n < s -> disj ((a, s) :: B) -> disj ((a, s - n) :: (a + 8 * (s - n), n) :: B).
Proof.
  intros Hn [H1 H2]. split; [apply List.Forall_cons; [left; cbn; lia|]|split; [|done]].
  all: eapply Forall_impl; [exact H1|]; intros [b t]; unfold sep; cbn; lia.
Qed.

Lemma disj_merge a s t B : 0 <= s -> 0 <= t -> Forall (fun b : blk => 1 <= b.2 \/ b.1 < a) B -> disj ((a, s) :: (a + 8 * s, t) :: B) -> disj ((a, s + t) :: B).
Proof.
  intros Hs Ht HB [[_ H1]%Forall_cons [H2 H3]]. split; [|done]. rewrite Forall_forall in H1, H2, HB. apply Forall_forall. intros [b u] Hx.
  specialize (H1 _ Hx). specialize (H2 _ Hx). specialize (HB _ Hx). unfold sep in *. cbn in *. lia.
Qed.

(** ** The free list *)

Definition head_addr (l : list blk) (e : Z) : Z := match l with [] => e | (a, _) :: _ => a end.

(** The headers of [l] hold their sizes and link to the next, the last to [e]. *)
Fixpoint chain (h : heap) (l : list blk) (e : Z) : Prop :=
  match l with
  | [] => True
  | (a, s) :: l' => h_size h a = s /\ h_ptr h a = head_addr l' e /\ chain h l' e
  end.

(** Ascending, with gaps between the blocks: adjacent blocks are merged. *)
Fixpoint asc (lo : Z) (l : list blk) : Prop :=
  match l with
  | [] => True
  | (a, s) :: l' => lo < a /\ 0 <= s /\ asc (a + 8 * s) l'
  end.

Lemma head_addr_app l l' e : head_addr (l ++ l') e = head_addr l (head_addr l' e).
Proof. by destruct l as [|[a s] l]. Qed.

Lemma chain_app h l l' e : chain h (l ++ l') e <-> chain h l (head_addr l' e) /\ chain h l' e.
Proof. induction l as [|[a s] l IH]; cbn; [tauto|]. rewrite IH, head_addr_app. tauto. Qed.

Lemma chain_frame h h' l e :
  chain h l e -> (forall a s, (a, s) ∈ l -> h_ptr h' a = h_ptr h a /\ h_size h' a = h_size h a) -> chain h' l e.
Proof.
  induction l as [|[a s] l IH]; cbn; [done|]. intros (H1 & H2 & H3) HF. destruct (HF a s) as [E1 E2]; [left|]. rewrite E1, E2.
  split_and!; auto. apply IH; [done|]. intros b t Hb. apply (HF b t). by right.
Qed.

(** Where the last block ends. *)
Fixpoint end_of (lo : Z) (l : list blk) : Z := match l with [] => lo | (a, s) :: l' => end_of (a + 8 * s) l' end.

Lemma asc_app lo l l' : asc lo (l ++ l') <-> asc lo l /\ asc (end_of lo l) l'.
Proof. revert lo. induction l as [|[a s] l IH]; intros lo; cbn; [tauto|]. rewrite IH. tauto. Qed.

Lemma end_of_app lo l l' : end_of lo (l ++ l') = end_of (end_of lo l) l'.
Proof. revert lo. induction l as [|[a s] l IH]; intros lo; cbn; [done|apply IH]. Qed.

Lemma end_of_le lo l a s : asc lo l -> (a, s) ∈ l -> a + 8 * s <= end_of lo l.
Proof.
  assert (Hle : forall l lo, asc lo l -> lo <= end_of lo l).
  { clear. induction l as [|[b t] l IH]; intros lo; cbn; [lia|]. intros (? & ? & H). specialize (IH _ H). lia. }
  revert lo. induction l as [|[b t] l IH]; intros lo; cbn; [by intros _ ?%not_elem_of_nil|]. intros (H1 & H2 & H3) [E|Hin]%elem_of_cons.
  - injection E as -> ->. by apply Hle.
  - by apply IH.
Qed.

Lemma asc_weaken lo lo' l : lo' <= lo -> asc lo l -> asc lo' l.
Proof. destruct l as [|[a s] l]; cbn; [done|]. intros ? (? & ? & ?). split_and!; auto. lia. Qed.

Lemma asc_above lo l a s : asc lo l -> (a, s) ∈ l -> lo < a /\ 0 <= s.
Proof.
  revert lo. induction l as [|[b t] l IH]; intros lo; cbn; [by intros _ ?%not_elem_of_nil|]. intros (H1 & H2 & H3) [E|Hin]%elem_of_cons.
  - injection E as -> ->. done.
  - destruct (IH _ H3 Hin). lia.
Qed.

(** ** The search of free *)

(** Decide the next condition, by arithmetic. *)
Ltac cond := match goal with |- context [if ?b then _ else _] => destruct b eqn:?; try lia end.

(** Facts about every block of a list, taken apart and put together. *)
Ltac blocks :=
  repeat match goal with
  | H : Forall _ (_ ++ _) |- _ => apply Forall_app in H as [? ?]
  | H : Forall _ (_ :: _) |- _ => apply Forall_cons in H as [? ?]
  | |- Forall _ (_ ++ _) => apply Forall_app; split
  | |- Forall _ (_ :: _) => apply List.Forall_cons
  end; auto.

Section Search.
Context (base : Z).
Implicit Types (h : heap) (l M L : list blk).

Lemma find_low h bp q sq L M fuel lo :
  chain h (M ++ (q, sq) :: L) base -> asc lo (M ++ (q, sq) :: L) -> base <= lo + 1 -> q < bp -> bp < head_addr L (bp + 1) ->
  (length M <= fuel)%nat -> free_find fuel h bp (head_addr (M ++ (q, sq) :: L) base) = Some q.
Proof.
  revert fuel lo. induction M as [|[a s] M IH]; intros fuel lo Hc Ha Hlo Hq HL Hf; cbn [app chain asc head_addr] in *.
  - destruct Hc as (_ & Hp & _). destruct Ha as (Hlq & _). assert (E : free_find fuel h bp q = Some q); [|done].
    destruct fuel; cbn [free_find]; rewrite Hp; destruct L as [|[r sr] L]; cbn [head_addr] in *.
    all: cond; try done; cond; done.
  - destruct Hc as (_ & Hp & Hc). destruct Ha as (Hla & Hs & Ha). destruct fuel as [|fuel]; [cbn in Hf; lia|].
    assert (Hn : a + 8 * s < head_addr (M ++ (q, sq) :: L) base <= q).
    { destruct M as [|[b t] M]; cbn in *; [lia|]. destruct Ha as (? & ? & Ha). split; [lia|].
      destruct (asc_above _ _ q sq Ha) as [? _]; [apply elem_of_app; right; left|]. lia. }
    cbn [free_find]. rewrite Hp. cond. cond.
    apply (IH fuel (a + 8 * s)); auto; try lia. cbn in Hf. lia.
Qed.

Lemma find_high h bp M fuel lo :
  chain h M base -> asc lo M -> bp <= lo -> base < bp -> M <> [] -> (length M <= fuel)%nat ->
  free_find fuel h bp (head_addr M base) = free_find (fuel - length M) h bp base.
Proof.
  revert fuel lo. induction M as [|[a s] M IH]; intros fuel lo Hc Ha Hlo Hb HM Hf; [done|]. cbn [chain asc head_addr length] in *.
  destruct Hc as (_ & Hp & Hc). destruct Ha as (Hla & Hs & Ha). destruct fuel as [|fuel]; [lia|]. cbn [free_find Nat.sub]. rewrite Hp.
  destruct M as [|[b t] M].
  - cbn [head_addr length]. rewrite Nat.sub_0_r. cond. cond. done.
  - cbn [head_addr] in Hp |- *. cbn [asc] in Ha. cond. cond.
    apply (IH fuel (a + 8 * s)); auto; lia || done.
Qed.

(** ** The invariant

    [L] is the free list, starting with [base]; [A] are the blocks in use. *)

Definition inb (brk : Z) (x : blk) : Prop := x = (base, 0) \/ base + 8 <= x.1 /\ 1 <= x.2 /\ x.1 + 8 * x.2 <= brk.

Record hinv h L (A : list blk) : Prop := {
  hi_head : exists l, L = (base, 0) :: l;
  hi_chain : chain h L base;
  hi_asc : asc (base - 1) L;
  hi_freep : h_freep h ∈ L.*1;
  hi_disj : disj (L ++ A);
  hi_in : Forall (inb (h_brk h)) (L ++ A);
  hi_A : Forall (fun b : blk => h_size h b.1 = b.2 /\ b.1 <> base) A;
  hi_brk : 0 < base /\ base + 8 <= h_brk h < 2147483648
}.

Lemma hinv_perm h L A A' : A ≡ₚ A' -> hinv h L A -> hinv h L A'.
Proof. intros HP []. constructor; auto; by rewrite <- HP. Qed.

Lemma disj_app_cons l x B : disj (l ++ x :: B) -> forall y, y ∈ l -> sep y x.
Proof.
  induction l as [|z l IH]; cbn; [by intros _ y ?%not_elem_of_nil|]. intros [H1 H2] y [->|Hy]%elem_of_cons; [|by apply IH].
  rewrite Forall_forall in H1. apply H1, elem_of_app. right. left.
Qed.

(** The place of a block in the list. *)
Lemma split_at L b lo :
  asc lo L -> (forall a s, (a, s) ∈ L -> a <> b) -> L <> [] -> head_addr L 0 < b ->
  exists L1 q sq L2, L = L1 ++ (q, sq) :: L2 /\ q < b /\ b < head_addr L2 (b + 1).
Proof.
  revert lo. induction L as [|[a s] L IH]; intros lo Ha Hne HL Hb; [done|]. cbn in Hb.
  destruct L as [|[c t] L]; [exists [], a, s, []; cbn; auto with lia|].
  destruct (decide (c < b)) as [Hc|Hc].
  - destruct Ha as (_ & _ & Ha). destruct (IH _ Ha) as (L1 & q & sq & L2 & E & Hq & H2); auto; [intros; apply (Hne a0 s0); by right|].
    exists ((a, s) :: L1), q, sq, L2. rewrite E. done.
  - exists [], a, s, ((c, t) :: L). cbn. split_and!; auto. assert (c <> b); [|lia]. apply (Hne c t). right. left.
Qed.

Lemma list_fuel_enough h L A : hinv h L A -> (length L < list_fuel h)%nat.
Proof.
  intros [[l ->] _ Ha _ _ Hin _ Hb]. unfold list_fuel, sizeof_Header.
  assert (H : forall l lo, asc lo l -> Forall (fun x : blk => 1 <= x.2) l -> lo + 8 * zlen l <= end_of lo l).
  { clear. induction l as [|[a s] l IH]; intros lo; cbn; [unfold zlen; cbn; lia|]. intros (H1 & H2 & H3) [H4 H5]%Forall_cons.
    specialize (IH _ H3 H5). cbn in H4. unfold zlen in *. cbn [length]. lia. }
  cbn in Ha. destruct Ha as (_ & _ & Ha). rewrite Z.mul_0_r, Z.add_0_r in Ha. apply Forall_app in Hin as [[_ Hin]%Forall_cons _].
  assert (Hpos : forall x, x ∈ l -> 1 <= x.2 /\ x.1 + 8 * x.2 <= h_brk h).
  { intros [a s] Hx. rewrite Forall_forall in Hin. destruct (Hin _ Hx) as [[= -> ->]|?]; [|cbn in *; lia].
    destruct (asc_above _ _ _ _ Ha Hx). lia. }
  assert (He : end_of base l <= h_brk h).
  { destruct l as [|x l] using rev_ind; [cbn; lia|]. rewrite end_of_app. destruct x as [a s]. cbn.
    apply (Hpos (a, s)). apply elem_of_app. right. left. }
  specialize (H l base Ha (proj2 (Forall_forall _ _) (fun x Hx => proj1 (Hpos x Hx)))). unfold zlen in H. cbn [length]. dlia.
Qed.

(** The list after [b] of size [s] is inserted behind [q], merged with its
    neighbours where it touches them. *)
Definition insert_blk (L1 : list blk) (q sq b s : Z) (L2 : list blk) : list blk :=
  let '(s', L2') := match L2 with
                    | (r, sr) :: L2' => if b + 8 * s =? r then (s + sr, L2') else (s, L2)
                    | [] => (s, L2)
                    end in
  L1 ++ (if q + 8 * sq =? b then [(q, sq + s')] else [(q, sq); (b, s')]) ++ L2'.

Lemma run_find h L1 q sq L2 b fuel p :
  let L := L1 ++ (q, sq) :: L2 in
  chain h L base -> asc (base - 1) L -> head_addr L 0 = base -> base < b -> q < b -> b < head_addr L2 (b + 1) ->
  p ∈ L.*1 -> (length L <= fuel)%nat -> free_find fuel h b p = Some q.
Proof.
  intros L Hc Ha Hh Hb Hq HL2 Hp Hf. unfold L in *. rewrite length_app in Hf. cbn in Hf.
  assert (Hlow : forall M K lo f, L1 = K ++ M -> asc lo (M ++ (q, sq) :: L2) -> base <= lo + 1 -> (length M <= f)%nat ->
    free_find f h b (head_addr (M ++ (q, sq) :: L2) base) = Some q).
  { intros M K lo f E Hm Hlo Hl. apply (find_low h b q sq L2 M f lo); auto. rewrite E in Hc. rewrite <- app_assoc in Hc.
    by apply chain_app in Hc as [_ Hc]. }
  assert (Hle : forall l lo, asc lo l -> lo <= end_of lo l).
  { clear. induction l as [|[x t] l IH]; intros lo; cbn; [lia|]. intros (? & ? & H). specialize (IH _ H). lia. }
  rewrite fmap_app in Hp. apply elem_of_app in Hp as [Hp|[->|Hp]%elem_of_cons].
  - apply list_elem_of_fmap in Hp as ([p' t] & -> & Hp). apply list_elem_of_split in Hp as (K & M & E). cbn.
    assert (Ha' := Ha). rewrite E, <- app_assoc in Ha'. apply asc_app in Ha' as [Ha1 Ha2].
    apply (Hlow ((p', t) :: M) K (end_of (base - 1) K) fuel E Ha2); [specialize (Hle _ _ Ha1); lia|].
    rewrite E in Hf. rewrite length_app in Hf. cbn in *. lia.
  - assert (Ha' := Ha). apply asc_app in Ha' as [Ha1 Ha2].
    apply (Hlow [] L1 (end_of (base - 1) L1) fuel); [by rewrite app_nil_r|done|specialize (Hle _ _ Ha1); lia|cbn; lia].
  - apply list_elem_of_fmap in Hp as ([p' t] & -> & Hp). apply list_elem_of_split in Hp as (K & M & E). cbn.
    apply chain_app in Hc as [_ (_ & _ & Hc2)]. assert (Ha' := Ha). apply asc_app in Ha' as [_ (_ & _ & Ha2)].
    assert (Hab : asc b L2) by (destruct L2 as [|[r sr] L2]; [done|]; cbn in *; destruct Ha2 as (_ & ? & ?); by split_and!).
    rewrite E in Hc2, Hab. apply chain_app in Hc2 as [_ Hc2]. apply asc_app in Hab as [Hk Hab]. specialize (Hle _ _ Hk).
    rewrite E in Hf. rewrite length_app in Hf. cbn in Hf.
    change p' with (head_addr ((p', t) :: M) base).
    rewrite (find_high h b ((p', t) :: M) fuel (end_of b K)) by (done || lia || (cbn; lia)).
    rewrite <- (Hlow L1 [] (base - 1) (fuel - length ((p', t) :: M))%nat); auto; [|lia|cbn; lia].
    f_equal. rewrite <- Hh. by destruct L1 as [|[x u] L1'].
Qed.

Lemma run_free h L A b s :
  hinv h L ((b, s) :: A) ->
  exists L1 q sq L2 h', L = L1 ++ (q, sq) :: L2 /\ q < b /\ b < head_addr L2 (b + 1) /\
    free (b + 8) h = Ret tt h' /\ h_freep h' = q /\ h_brk h' = h_brk h /\
    chain h' (insert_blk L1 q sq b s L2) base /\
    (forall a, a <> q -> a <> b -> h_size h' a = h_size h a).
Proof.
  intros Hi. pose proof (list_fuel_enough _ _ _ Hi) as Hfuel. destruct Hi as [[l HL] Hc Ha Hf Hd Hin HA Hb].
  assert (Hsep := disj_app_cons _ _ _ Hd). apply Forall_app in Hin as [HinL [Hinb _]%Forall_cons]. apply Forall_cons in HA as [[Hs Hnb] _].
  cbn in Hs, Hnb. destruct Hinb as [[= -> ->]|(Hb1 & Hs1 & Hb2)]; [done|]. cbn in Hb1, Hs1, Hb2.
  destruct (split_at L b (base - 1) Ha) as (L1 & q & sq & L2 & E & Hq & HL2).
  { intros a t Hat ->. specialize (Hsep _ Hat). unfold sep in Hsep. cbn in Hsep. rewrite Forall_forall in HinL.
    destruct (HinL _ Hat) as [[= -> ->]|(? & ? & ?)]; cbn in *; lia. }
  { by rewrite HL. } { rewrite HL. cbn. lia. }
  assert (Hfind : free_find (list_fuel h) h b (h_freep h) = Some q).
  { rewrite E in *. apply (run_find h L1 q sq L2); auto; [by rewrite HL|lia|lia]. }
  exists L1, q, sq, L2. rewrite E in Hc, Ha, Hsep, HinL. apply chain_app in Hc as [Hc1 (Hsq & Hpq & Hc2)]. apply asc_app in Ha as [Ha1 (Hlq & Hsq0 & Ha2)].
  assert (HL1 : forall a t, (a, t) ∈ L1 -> a < q).
  { intros a t Hat. destruct (asc_above _ _ _ _ Ha1 Hat). pose proof (end_of_le _ _ _ _ Ha1 Hat). lia. }
  assert (HL2' : forall a t, (a, t) ∈ L2 -> b < a).
  { intros a t Hat. destruct L2 as [|[r sr] L2]; [by apply not_elem_of_nil in Hat|]. cbn in HL2. destruct Ha2 as (_ & ? & Ha2).
    apply elem_of_cons in Hat as [[= -> ->]|Hat]; [done|]. destruct (asc_above _ _ _ _ Ha2 Hat). lia. }
  assert (Hbig : forall a t, (a, t) ∈ L1 ++ (q, sq) :: L2 -> 0 <= t < 268435456).
  { intros a t Hat. rewrite Forall_forall in HinL. destruct (HinL _ Hat) as [[= -> ->]|(? & ? & ?)]; [lia|]. cbn in *. lia. }
  assert (Hqin := Hbig q sq ltac:(apply elem_of_app; right; left)).
  unfold free, insert_blk. replace (b + 8 - sizeof_Header) with b by (unfold sizeof_Header; lia). rewrite Hfind.
  unfold hplus, sizeof_Header. rewrite Hpq, Hs.
  set (L2u := match L2 with (r, _) :: L2' => if b + 8 * s =? r then L2' else L2 | [] => L2 end).
  set (su := match L2 with (r, sr) :: _ => if b + 8 * s =? r then s + sr else s | [] => s end).
  set (h1 := if b + 8 * s =? head_addr L2 base then
    set_ptr b (h_ptr h (head_addr L2 base)) (set_size b (u32 (s + h_size h (head_addr L2 base))) h) else set_ptr b (head_addr L2 base) h).
  assert (H1 : h_ptr h1 b = head_addr L2u base /\ h_size h1 b = su /\ (forall a, a <> b -> h_ptr h1 a = h_ptr h a /\ h_size h1 a = h_size h a) /\
    h_freep h1 = h_freep h /\ h_brk h1 = h_brk h /\ chain h L2u base /\ (forall x, x ∈ L2u -> x ∈ L2) /\ 0 <= su < 536870912).
  { unfold h1, L2u, su. destruct L2 as [|[r sr] L2']; cbn [head_addr].
    - cond. cbn. rewrite !fset_eq. split_and!; auto; try lia. intros a Hne. by rewrite fset_ne.
    - destruct Hc2 as (Hsr & Hpr & Hc2). assert (Hr := Hbig r sr ltac:(apply elem_of_app; right; right; left)).
      cond; cbn; rewrite !fset_eq; split_and!; auto; try lia; try (intros a Hne; by rewrite ?fset_ne).
      + rewrite Hsr. apply u32_small. unfold is_u32. lia.
      + intros x Hx. by right. }
  clearbody h1. destruct H1 as (Hp1 & Hs1' & Hk1 & Hf1 & Hb1' & HcU & HU & Hsu).
  destruct (Hk1 q ltac:(lia)) as [Hq1 Hq2]. rewrite Hp1, Hs1', Hq2, Hsq.
  replace (let '(s', L2') := match L2 with [] => (s, L2) | (r, sr) :: L2' => if b + 8 * s =? r then (s + sr, L2') else (s, L2) end in
    L1 ++ (if q + 8 * sq =? b then [(q, sq + s')] else [(q, sq); (b, s')]) ++ L2')
    with (L1 ++ (if q + 8 * sq =? b then [(q, sq + su)] else [(q, sq); (b, su)]) ++ L2u).
  2: { unfold su, L2u. destruct L2 as [|[r sr] L2']; [done|]. by destruct (b + 8 * s =? r). }
  assert (Hfr : forall h', (forall a, a <> q -> a <> b -> h_ptr h' a = h_ptr h1 a /\ h_size h' a = h_size h1 a) ->
    chain h' L1 q /\ chain h' L2u base).
  { intros h' Hh. split; [apply (chain_frame h); [exact Hc1|]|apply (chain_frame h); [exact HcU|]]; intros a t Hat.
    - specialize (HL1 _ _ Hat). destruct (Hh a) as [-> ->]; [lia..|]. apply Hk1. lia.
    - specialize (HL2' _ _ (HU _ Hat)). destruct (Hh a) as [-> ->]; [lia..|]. apply Hk1. lia. }
  eexists. split_and!; try done; try (by destruct (_ =? _)).
  - destruct (q + 8 * sq =? b) eqn:Eq; (edestruct Hfr as [HA1 HA2]; [|apply chain_app; cbn [app head_addr]; split; [exact HA1|]]).
    1, 3: intros a Hn1 Hn2; cbn; rewrite ?fset_ne by done; done.
    + cbn. rewrite !fset_eq. split_and!; auto. apply u32_small. unfold is_u32. lia.
    + cbn. rewrite !fset_eq, !fset_ne by lia. rewrite Hq2, Hsq. by split_and!.
  - intros a Hn1 Hn2. destruct (Hk1 a Hn2) as [_ <-]. destruct (_ =? _); cbn; by rewrite ?fset_ne.
Qed.

Lemma insert_facts brk L1 q sq b s L2 A :
  let L := L1 ++ (q, sq) :: L2 in
  asc (base - 1) L -> disj (L ++ (b, s) :: A) -> Forall (inb brk) (L ++ (b, s) :: A) -> (exists l, L = (base, 0) :: l) ->
  base < b -> q < b -> b < head_addr L2 (b + 1) ->
  let L' := insert_blk L1 q sq b s L2 in
  asc (base - 1) L' /\ disj (L' ++ A) /\ Forall (inb brk) (L' ++ A) /\ (exists l, L' = (base, 0) :: l) /\ q ∈ L'.*1.
Proof.
  intros L Ha Hd Hin [l Hh] Hb Hq HL2. cbv zeta. unfold insert_blk, L in *. clear L.
  assert (Hsb : sep (q, sq) (b, s)) by (eapply disj_app_cons; [exact Hd|]; apply elem_of_app; right; left).
  assert (Hsr : forall r sr, (r, sr) ∈ L2 -> sep (r, sr) (b, s)) by (intros; eapply disj_app_cons; [exact Hd|]; apply elem_of_app; right; by right).
  assert (Hpos : forall B, Forall (inb brk) B -> forall a, base < a -> Forall (fun x : blk => 1 <= x.2 \/ x.1 < a) B).
  { intros B HB a Hba. eapply Forall_impl; [exact HB|]. intros x [->|?]; cbn; [by right|left; lia]. }
  assert (Hbin : inb brk (b, s)) by (clear -Hin; blocks).
  assert (Hqin : inb brk (q, sq)) by (clear -Hin; blocks).
  destruct Hbin as [[= -> ->]|(Hb1 & Hb2 & Hb3)]; [lia|]. cbn in Hb1, Hb2, Hb3. unfold sep in Hsb. cbn in Hsb.
  apply asc_app in Ha as [Ha1 (Hlq & Hsq & Ha2)].
  (* the upper neighbour *)
  set (X := match L2 with (r, sr) :: L2' => if b + 8 * s =? r then (s + sr, L2') else (s, L2) | [] => (s, L2) end).
  assert (HX : asc (b + 8 * X.1) X.2 /\ disj ((q, sq) :: (b, X.1) :: L1 ++ X.2 ++ A) /\ Forall (inb brk) ((q, sq) :: (b, X.1) :: L1 ++ X.2 ++ A)).
  { assert (Hd' : disj ((b, s) :: (q, sq) :: L1 ++ L2 ++ A)).
    { eapply disj_perm; [|exact Hd]. rewrite <- app_assoc. cbn. solve_Permutation. }
    assert (Hi' : Forall (inb brk) ((b, s) :: (q, sq) :: L1 ++ L2 ++ A)).
    { clear -Hin. blocks. }
    unfold X. destruct L2 as [|[r sr] L2']; [|destruct (Z.eqb_spec (b + 8 * s) r) as [<-|Hne]]; cbn [fst snd].
    - split; [done|]. split; [by apply disj_swap|]. clear -Hi'. blocks.
    - destruct Ha2 as (_ & Hsr0 & Ha2). assert (Hrin : inb brk (b + 8 * s, sr)) by (clear -Hi'; blocks).
      destruct Hrin as [[= ? ->]|(Hr1 & Hr2 & Hr3)]; [lia|]. cbn in Hr1, Hr2, Hr3. split; [by replace (b + 8 * (s + sr)) with (b + 8 * s + 8 * sr) by lia|].
      assert (HB : Forall (inb brk) ((q, sq) :: L1 ++ L2' ++ A)) by (clear -Hi'; blocks).
      split.
      + apply disj_swap, disj_merge; [lia|lia|by apply Hpos|]. eapply disj_perm; [|exact Hd']. solve_Permutation.
      + clear -HB Hr1 Hr2 Hr3 Hb1 Hb2. blocks. right. cbn. lia.
    - destruct Ha2 as (_ & Hsr0 & Ha2). cbn in HL2. specialize (Hsr r sr ltac:(left)). unfold sep in Hsr. cbn in Hsr.
      split; [cbn; split_and!; auto; lia|]. split; [by apply disj_swap|]. clear -Hi'. blocks. }
  clearbody X. destruct X as [s' L2u]. cbn [fst snd] in HX. destruct HX as (Hx1 & Hx2 & Hx3).
  apply Forall_cons in Hx3 as [_ [Hx4 Hx5]%Forall_cons]. destruct Hx4 as [[= ? ?]|(_ & Hs' & Hbs)]; [lia|]. cbn in Hs', Hbs.
  destruct (Z.eqb_spec (q + 8 * sq) b) as [Eq|Hne].
  - destruct Hqin as [[= -> ->]|(Hq1 & Hq2 & Hq3)]; [lia|]. cbn in Hq1, Hq2, Hq3. split_and!.
    + apply asc_app. split; [done|]. cbn. split_and!; auto; [lia|]. by replace (q + 8 * (sq + s')) with (b + 8 * s') by lia.
    + eapply disj_perm; [|apply (disj_merge q sq s' (L1 ++ L2u ++ A)); [lia|lia|apply Hpos; [done|lia]|by rewrite Eq]].
      rewrite <- app_assoc. cbn. solve_Permutation.
    + cbn. blocks. right. cbn. lia.
    + destruct L1 as [|x L1]; cbn in Hh |- *; injection Hh as ? ?; subst; [cbn in *; lia|eauto].
    + rewrite fmap_app. cbn. set_solver.
  - assert (q + 8 * sq < b) by lia. split_and!.
    + apply asc_app. split; [done|]. cbn. split_and!; auto; lia.
    + eapply disj_perm; [|exact Hx2]. rewrite <- app_assoc. cbn. solve_Permutation.
    + cbn. blocks. right. cbn. lia.
    + destruct L1 as [|x L1]; cbn in Hh |- *; injection Hh as ? ?; subst; eauto.
    + rewrite fmap_app. cbn. set_solver.
Qed.

Lemma addr_ne brk x y : inb brk x -> inb brk y -> sep x y -> y.1 <> base -> x.1 <> y.1.
Proof.
  intros [->|(H1 & H2 & _)] Hy Hs Hb E; [by apply Hb|]. destruct Hy as [->|(H3 & H4 & _)]; [done|]. unfold sep in Hs. lia.
Qed.

Lemma free_hinv h L A b s :
  hinv h L ((b, s) :: A) ->
  exists L1 q sq L2 h', L = L1 ++ (q, sq) :: L2 /\ q < b /\ b < head_addr L2 (b + 1) /\
    free (b + 8) h = Ret tt h' /\ hinv h' (insert_blk L1 q sq b s L2) A /\ h_freep h' = q /\ h_brk h' = h_brk h.
Proof.
  intros Hi. destruct (run_free _ _ _ _ _ Hi) as (L1 & q & sq & L2 & h' & E & Hq & HL2 & R & Hf & Hb & Hc & Hs).
  exists L1, q, sq, L2, h'. split_and!; auto. destruct Hi as [Hh _ Ha _ Hd Hin HA Hbrk]. rewrite E in *.
  assert (Hbin : inb (h_brk h) (b, s)) by (clear -Hin; blocks). assert (Hqin : inb (h_brk h) (q, sq)) by (clear -Hin; blocks).
  assert (HAin : Forall (inb (h_brk h)) A) by (clear -Hin; blocks).
  apply Forall_cons in HA as [[_ Hnb] HA]. cbn in Hnb. assert (Hb' : base < b) by (destruct Hbin as [[= -> ->]|(? & _)]; [done|cbn in *; lia]).
  destruct (insert_facts (h_brk h) L1 q sq b s L2 A Ha Hd Hin Hh Hb' Hq HL2) as (Ha' & Hd' & Hin' & Hh' & Hq').
  constructor; auto; [by rewrite Hf|by rewrite Hb| |by rewrite Hb].
  assert (Hsep : forall x, x ∈ A -> sep (q, sq) x /\ sep (b, s) x).
  { intros x Hx. apply list_elem_of_split in Hx as (K & M & ->). split.
    - replace ((L1 ++ (q, sq) :: L2) ++ (b, s) :: K ++ x :: M) with ((L1 ++ (q, sq) :: L2 ++ (b, s) :: K) ++ x :: M) in Hd
        by (repeat (rewrite <- app_assoc; cbn); done).
      apply (disj_app_cons _ _ _ Hd). apply elem_of_app. right. left.
    - rewrite app_comm_cons, app_assoc in Hd. apply (disj_app_cons _ _ _ Hd). apply elem_of_app. right. left. }
  rewrite Forall_forall in HA, HAin. apply Forall_forall. intros x Hx. destruct (HA x Hx) as [H1 H2]. split; [|done].
  destruct (Hsep x Hx) as [S1 S2]. rewrite Hs; [done|..].
  - intros E'. by apply (addr_ne (h_brk h) (q, sq) x); auto.
  - intros E'. by apply (addr_ne (h_brk h) (b, s) x); auto.
Qed.

Lemma take_hinv h P x sx a s Q A n :
  hinv h (P ++ (x, sx) :: (a, s) :: Q) A -> 1 <= n <= s ->
  exists b h' L', take_block n x a h = Ret (b + 8) h' /\ hinv h' L' ((b, n) :: A) /\ h_brk h' = h_brk h /\ base < b.
Proof.
  intros [[l Hh] Hc Ha Hf Hd Hin HA Hbrk] Hn. apply chain_app in Hc as [Hc1 (Hsx & Hpx & Hsa & Hpa & Hc2)]. cbn in Hpx.
  apply asc_app in Ha as [Ha1 (Hlx & Hsx0 & Hxa & Hs0 & Ha2)].
  assert (Hain : inb (h_brk h) (a, s)) by (clear -Hin; blocks). assert (Hxin : inb (h_brk h) (x, sx)) by (clear -Hin; blocks).
  assert (Hbx : base <= x). { destruct Hxin as [[= -> ->]|(? & _)]; [lia|cbn in *; lia]. }
  destruct Hain as [[= -> ->]|(Ha3 & Ha4 & Ha5)]; [lia|]. cbn in Ha3, Ha4, Ha5.
  assert (HP : forall c t, (c, t) ∈ P -> c < x).
  { intros c t Hct. destruct (asc_above _ _ _ _ Ha1 Hct). pose proof (end_of_le _ _ _ _ Ha1 Hct). lia. }
  assert (HQ : forall c t, (c, t) ∈ Q -> a + 8 * s < c) by (intros c t Hct; by apply (asc_above _ _ _ _ Ha2 Hct)).
  assert (HA' : forall y, y ∈ A -> y.1 <> a /\ y.1 <> base /\ sep (a, s) y).
  { intros y Hy. assert (Hay : sep (a, s) y).
    { apply list_elem_of_split in Hy as (K & M & ->). rewrite app_assoc in Hd. apply (disj_app_cons _ _ _ Hd). rewrite !elem_of_app. left. right. right. left. }
    rewrite Forall_forall in HA. destruct (HA y Hy) as [_ Hyb]. split_and!; auto.
    intros E. apply (addr_ne (h_brk h) (a, s) y); auto; [right; by cbn|]. rewrite Forall_forall in Hin. apply Hin, elem_of_app. by right. }
  unfold take_block. rewrite Hsa. destruct (Z.eqb_spec s n) as [->|Hne]; cbn.
  - exists a, (set_freep x (set_ptr x (h_ptr h a) h)), (P ++ (x, sx) :: Q). split; [done|]. split; [|split; [done|lia]]. constructor; cbn.
    + destruct P; cbn in *; injection Hh as ? ?; subst; eauto.
    + apply chain_app. cbn. rewrite fset_eq, Hpa. split_and!; auto.
      * eapply chain_frame; [exact Hc1|]. intros c t Hct. specialize (HP _ _ Hct). cbn. by rewrite fset_ne by lia.
      * eapply chain_frame; [exact Hc2|]. intros c t Hct. specialize (HQ _ _ Hct). cbn. by rewrite fset_ne by lia.
    + apply asc_app. split; [done|]. cbn. split_and!; auto. eapply asc_weaken; [|exact Ha2]. lia.
    + rewrite fmap_app. cbn. set_solver.
    + eapply disj_perm; [|exact Hd]. rewrite <- !app_assoc. cbn. solve_Permutation.
    + clear -Hin. blocks.
    + apply List.Forall_cons; [cbn; lia|done].
    + done.
  - unfold hplus, sizeof_Header. rewrite fset_eq. set (b := a + 8 * (s - n)).
    exists b. eexists. exists (P ++ (x, sx) :: (a, s - n) :: Q). split; [unfold b; repeat f_equal|]. split; [|split; [done|unfold b; lia]]. constructor; cbn.
    + destruct P; cbn in *; injection Hh as ? ?; subst; eauto.
    + apply chain_app. cbn. repeat (rewrite fset_eq || rewrite fset_ne by (unfold b; lia)). split_and!; auto.
      * eapply chain_frame; [exact Hc1|]. intros c t Hct. specialize (HP _ _ Hct). cbn. rewrite !fset_ne by (unfold b; lia). done.
      * eapply chain_frame; [exact Hc2|]. intros c t Hct. specialize (HQ _ _ Hct). cbn. rewrite !fset_ne by (unfold b; lia). done.
    + apply asc_app. split; [done|]. cbn. split_and!; auto; [lia|]. eapply asc_weaken; [|exact Ha2]. lia.
    + rewrite fmap_app. cbn. set_solver.
    + eapply disj_perm; [|apply (disj_split a s n (P ++ (x, sx) :: Q ++ A)); [lia|]].
      * rewrite <- !app_assoc. cbn. fold b. solve_Permutation.
      * eapply disj_perm; [|exact Hd]. rewrite <- !app_assoc. cbn. solve_Permutation.
    + clear -Hin Ha3 Ha4 Ha5 Hn Hne. blocks; right; unfold b; cbn; lia.
    + apply List.Forall_cons; [cbn; rewrite fset_eq; unfold b; lia|]. rewrite Forall_forall in HA. apply Forall_forall. intros y Hy.
      destruct (HA' y Hy) as (H1 & H2 & H3). destruct (HA y Hy) as [H4 _]. split; [|done]. rewrite !fset_ne; [done|done|].
      unfold sep in H3. cbn in H3. rewrite Forall_forall in Hin. destruct (Hin y ltac:(apply elem_of_app; by right)) as [->|?]; [done|]. unfold b. lia.
    + done.
Qed.

(** ** The search of malloc *)

Context (grow : Z -> Z -> bool).
Hypothesis Hgrow : forall b n, grow b n = true -> b + n < KERNBASE.

Fixpoint last_addr (p : Z) (M : list blk) : Z := match M with [] => p | (a, _) :: M => last_addr a M end.

Lemma last_split f sf M : exists P sx, (f, sf) :: M = P ++ [(last_addr f M, sx)].
Proof.
  revert f sf. induction M as [|[a s] M IH]; intros f sf; [by exists [], sf|].
  destruct (IH a s) as (P & sx & E). exists ((f, sf) :: P), sx. cbn. by rewrite E.
Qed.

Lemma first_fit n M :
  (exists M1 a s M2, M = M1 ++ (a, s) :: M2 /\ Forall (fun b : blk => b.2 < n) M1 /\ n <= s) \/ Forall (fun b : blk => b.2 < n) M.
Proof.
  induction M as [|[a s] M IH]; [by right|]. destruct (decide (n <= s)) as [H|H]; [left; exists [], a, s, M; by split_and!|].
  destruct IH as [(M1 & b & t & M2 & -> & H1 & H2)|H1].
  - left. exists ((a, s) :: M1), b, t, M2. split_and!; auto. apply List.Forall_cons; [cbn; lia|done].
  - right. apply List.Forall_cons; [cbn; lia|done].
Qed.

(** Blocks that are too small are passed over. *)
Lemma run_scan h n M fuel prev e :
  chain h M e -> Forall (fun b : blk => b.2 < n) M -> h_freep h ∉ M.*1 ->
  malloc_loop grow (length M + fuel) n prev (head_addr M e) h = malloc_loop grow fuel n (last_addr prev M) e h.
Proof.
  revert prev. induction M as [|[a s] M IH]; intros prev Hc Hn Hf; [done|]. destruct Hc as (Hs & Hp & Hc). apply Forall_cons in Hn as [Hn1 Hn].
  cbn in Hn1. cbn [length Nat.add malloc_loop head_addr last_addr]. unfold bind, get. rewrite Hs.
  replace (s >=? n) with false by lia. rewrite (proj2 (Z.eqb_neq _ _)) by (intros ->; apply Hf; left). rewrite Hp.
  apply IH; auto. intros H. apply Hf. by right.
Qed.

Lemma run_hit h n fuel prev p : n <= h_size h p -> malloc_loop grow (S fuel) n prev p h = take_block n prev p h.
Proof. intros H. cbn [malloc_loop]. unfold bind, get. by replace (h_size h p >=? n) with true by lia. Qed.

Lemma hinv_nodup h L A : hinv h L A -> NoDup L.*1.
Proof.
  intros [_ _ Ha _ _ _ _ _]. revert Ha. generalize (base - 1). induction L as [|[a s] L IH]; intros lo; cbn; [constructor|].
  intros (_ & H1 & H2). constructor; [|by eapply IH]. intros ([b t] & -> & Hin)%list_elem_of_fmap. destruct (asc_above _ _ _ _ H2 Hin). cbn in *. lia.
Qed.

(** sbrk's new block, ready to be freed. *)
Lemma fresh_hinv h L A nu :
  hinv h L A -> 1 <= nu -> h_brk h + 8 * nu < 2147483648 ->
  hinv (set_size (h_brk h) nu (set_brk (h_brk h + 8 * nu) h)) L ((h_brk h, nu) :: A).
Proof.
  intros [Hh Hc Ha Hf Hd Hin HA Hb] Hnu Htop.
  assert (Hlt : forall x, x ∈ L ++ A -> x = (base, 0) \/ x.1 + 8 * x.2 <= h_brk h /\ 1 <= x.2).
  { intros x Hx. rewrite Forall_forall in Hin. destruct (Hin x Hx) as [->|?]; [by left|right; lia]. }
  assert (Hne : forall x, x ∈ L ++ A -> x.1 <> h_brk h) by (intros x Hx; destruct (Hlt x Hx) as [->|?]; cbn; lia).
  constructor; cbn; auto.
  - eapply chain_frame; [exact Hc|]. intros a s Has. cbn. split; [done|]. apply fset_ne, (Hne (a, s)), elem_of_app. by left.
  - eapply disj_perm; [apply Permutation_middle|]. split; [|done]. apply Forall_forall. intros x Hx. right. cbn.
    destruct (Hlt x Hx) as [->|?]; cbn; lia.
  - assert (Hin' : Forall (inb (h_brk h + 8 * nu)) (L ++ A)).
    { eapply Forall_impl; [exact Hin|]. intros x [->|?]; [by left|right; lia]. }
    clear -Hin' Hb Hnu. blocks. right. cbn. lia.
  - apply List.Forall_cons; [cbn; rewrite fset_eq; split; [done|lia]|]. rewrite Forall_forall in HA. apply Forall_forall. intros x Hx.
    destruct (HA x Hx). split; [|done]. rewrite fset_ne; [done|]. apply Hne, elem_of_app. by right.
  - lia.
Qed.

Definition chunk (n : Z) : Z := if n <? 4096 then 4096 else n.

(** A new chunk always satisfies the request it was made for. *)
Lemma run_morecore h L A n :
  hinv h L A -> 1 <= n -> Forall (fun b : blk => b.2 < n) L -> 8 * chunk n < 2147483648 ->
  morecore grow n h = Ret 0 h \/
  exists q h1, morecore grow n h = Ret q h1 /\ q <> 0 /\ forall fuel, (length L < fuel)%nat ->
    exists b h' L', malloc_loop grow fuel n q (h_ptr h1 q) h1 = Ret (b + 8) h' /\ hinv h' L' ((b, n) :: A) /\ base < b.
Proof.
  intros Hi Hn Hsm Hc. assert (Hch : n <= chunk n /\ 1 <= chunk n) by (unfold chunk; cond).
  assert (Em : morecore grow n h = (let! p := sbrk grow (8 * chunk n) in
    if p =? -1 then ret 0 else modify (set_size p (chunk n)) ;; free (hplus p 1) ;; get h_freep) h).
  { unfold morecore. fold (chunk n). unfold sizeof_Header. by rewrite (Z.mul_comm (chunk n) 8), i32_u32 by lia. }
  destruct (grow (h_brk h) (8 * chunk n)) eqn:Eg.
  2: { left. rewrite Em. unfold bind, sbrk. by rewrite Eg. }
  right. assert (Es : sbrk grow (8 * chunk n) h = Ret (h_brk h) (set_brk (h_brk h + 8 * chunk n) h)) by (unfold sbrk; by rewrite Eg).
  apply Hgrow in Eg. unfold KERNBASE in Eg. pose proof (hi_brk _ _ _ Hi) as Hb.
  rewrite (bind_run _ _ _ _ _ Es) in Em. rewrite (proj2 (Z.eqb_neq _ _)) in Em by lia.
  assert (Hf := fresh_hinv h L A (chunk n) Hi ltac:(lia) Eg).
  destruct (free_hinv _ _ _ _ _ Hf) as (L1 & q & sq & L2 & h1 & EL & Hq & HL2 & R & Hi1 & Hfq & Hb1).
  assert (L2 = []) as ->.
  { destruct L2 as [|[r sr] L2]; [done|]. cbn in HL2. destruct Hi as [_ _ _ _ _ Hin _ _]. rewrite EL in Hin.
    assert (Hr : inb (h_brk h) (r, sr)) by (clear -Hin; blocks). destruct Hr as [[= -> ->]|(_ & ? & ?)]; cbn in *; lia. }
  exists q, h1. split; [rewrite Em; unfold bind, modify, hplus, sizeof_Header; rewrite Z.mul_1_r, R; unfold get; by rewrite Hfq|].
  rewrite EL in Hsm. apply Forall_app in Hsm as [Hsm1 _].
  assert (Hnd := hinv_nodup _ _ _ Hi1). pose proof Hi1 as [[l Hh] Hch1 _ _ _ Hin1 _ _]. unfold insert_blk in *. rewrite app_nil_r in *.
  assert (Hqb : base <= q /\ 0 <= sq).
  { destruct Hi as [_ _ Ha _ _ _ _ _]. rewrite EL in Ha. destruct (asc_above _ _ q sq Ha); [apply elem_of_app; right; left|lia]. }
  split; [lia|]. intros fuel Hfuel. rewrite EL, length_app in Hfuel. cbn in Hfuel.
  apply chain_app in Hch1 as [Hc1 Hc2]. destruct (Z.eqb_spec (q + 8 * sq) (h_brk h)) as [Et|Et].
  - destruct Hc2 as (Hs & Hp & _). cbn in Hc1, Hp. rewrite Hp. destruct L1 as [|[x sx] L1]; cbn in Hh; [injection Hh as Hq1 Hq2 _; lia|injection Hh as -> -> _].
    change base with (head_addr ((base, 0) :: L1) q) at 1. 
    replace fuel with (length ((base, 0%Z) :: L1) + S (fuel - S (S (length L1))))%nat by (cbn in *; lia).
    rewrite run_scan; auto.
    + rewrite run_hit by lia. cbn [last_addr]. destruct (last_split base 0 L1) as (P & sy & EP).
      rewrite EP, <- app_assoc in Hi1. cbn in Hi1. destruct (take_hinv _ _ _ _ _ _ _ _ n Hi1) as (b & h' & L' & Ht & Hi' & _ & Hbb); [lia|].
      by exists b, h', L'.
    + rewrite Hfq. rewrite fmap_app in Hnd. apply NoDup_app in Hnd as (_ & Hnd & _). intros Hin. apply (Hnd q Hin). left.
  - destruct Hc2 as (Hs & Hp & Hsb & _). cbn in Hp. rewrite Hp. destruct fuel as [|fuel]; [lia|]. rewrite run_hit by lia.
    destruct (take_hinv h1 L1 q sq (h_brk h) (chunk n) [] A n Hi1) as (b & h' & L' & Ht & Hi' & _ & Hbb); [lia|]. by exists b, h', L'.
Qed.

Lemma run_malloc_loop h L A n fuel :
  hinv h L A -> 1 <= n -> 8 * chunk n < 2147483648 -> (2 * length L + 1 < fuel)%nat ->
  malloc_loop grow fuel n (h_freep h) (h_ptr h (h_freep h)) h = Ret 0 h \/
  exists b h' L', malloc_loop grow fuel n (h_freep h) (h_ptr h (h_freep h)) h = Ret (b + 8) h' /\ hinv h' L' ((b, n) :: A) /\ base < b.
Proof.
  intros Hi Hn Hc Hfuel. assert (Hnd := hinv_nodup _ _ _ Hi). destruct (hi_head _ _ _ Hi) as [l Hh].
  pose proof (hi_freep _ _ _ Hi) as Hf. apply list_elem_of_fmap in Hf as ([f sf] & Ef & Hf). cbn in Ef. rewrite Ef.
  apply list_elem_of_split in Hf as (F1 & F2 & EL). rewrite EL in Hnd. rewrite EL, length_app in Hfuel. cbn in Hfuel.
  pose proof (hi_chain _ _ _ Hi) as Hch. rewrite EL in Hch. apply chain_app in Hch as [Hc1 (Hsf & Hpf & Hc2)]. cbn in Hc1.
  rewrite fmap_app in Hnd. apply NoDup_app in Hnd as (_ & Hnd1 & Hnd2). apply NoDup_cons in Hnd2 as [Hnd2 _]. cbn in Hnd2.
  assert (Hf1 : h_freep h ∉ F1.*1) by (rewrite Ef; intros Hin; apply (Hnd1 _ Hin); left).
  assert (Hf2 : h_freep h ∉ F2.*1) by (by rewrite Ef).
  (* a hit at [(a, s)] right behind [x] *)
  assert (Hhit : forall P x sx a s Q fu, L = P ++ (x, sx) :: (a, s) :: Q -> n <= s ->
    exists b h' L', malloc_loop grow (S fu) n x a h = Ret (b + 8) h' /\ hinv h' L' ((b, n) :: A) /\ base < b).
  { intros P x sx a s Q fu E Hs. rewrite E in Hi. destruct (take_hinv _ _ _ _ _ _ _ _ n Hi) as (b & h' & L' & Ht & Hi' & _ & Hbb); [lia|].
    pose proof (hi_chain _ _ _ Hi) as Hch. apply chain_app in Hch as [_ (_ & _ & Hsa & _)]. exists b, h', L'. rewrite run_hit by lia. done. }
  rewrite Hpf. destruct (first_fit n F2) as [(M1 & a & s & M2 & E2 & Hm & Hs)|Hsm2].
  { right. rewrite E2 in Hc2 |- *. apply chain_app in Hc2 as [Hc2 _]. rewrite head_addr_app. cbn [head_addr] in Hc2 |- *.
    replace fuel with (length M1 + S (fuel - S (length M1)))%nat by (rewrite E2, length_app in Hfuel; cbn in Hfuel; lia).
    rewrite run_scan; auto; [|intros Hin; apply Hf2; rewrite E2, fmap_app; apply elem_of_app; by left].
    destruct (last_split f sf M1) as (P & sx & EP). apply (Hhit (F1 ++ P) _ sx a s M2); [|done].
    rewrite EL, E2, <- app_assoc. f_equal. rewrite app_comm_cons, EP, <- app_assoc. done. }
  replace fuel with (length F2 + (fuel - length F2))%nat by lia. rewrite run_scan by done.
  assert (Hbase : F1 = [] /\ f = base /\ sf = 0 \/ exists F, F1 = (base, 0) :: F).
  { rewrite EL in Hh. destruct F1 as [|y F1]; injection Hh as -> ?; [by left|right; by exists F1]. }
  replace (malloc_loop grow (fuel - length F2) n (last_addr f F2) base h)
    with (malloc_loop grow (fuel - length F2) n (last_addr f F2) (head_addr F1 f) h) by (destruct Hbase as [(-> & -> & _)|[F ->]]; done).
  destruct (first_fit n F1) as [(M1 & a & s & M2 & E1 & Hm & Hs)|Hsm1].
  { right. destruct Hbase as [(-> & _)|[F EF]]; [by destruct M1|]. rewrite E1 in Hc1 |- *. apply chain_app in Hc1 as [Hc1 _].
    rewrite head_addr_app. cbn [head_addr] in Hc1 |- *. set (fu := (fuel - length F2)%nat).
    replace fu with (length M1 + S (fu - S (length M1)))%nat by (unfold fu; rewrite E1, length_app in Hfuel; cbn in Hfuel; lia).
    rewrite run_scan; auto; [|intros Hin; apply Hf1; rewrite E1, fmap_app; apply elem_of_app; by left].
    destruct M1 as [|y M1]; rewrite EF in E1; injection E1 as <- E1; [lia|]. cbn [last_addr].
    destruct (last_split base 0 M1) as (P & sx & EP). apply (Hhit P _ sx a s (M2 ++ (f, sf) :: F2)); [|done].
    rewrite EL, EF, E1. cbn. rewrite <- app_assoc. cbn. rewrite app_comm_cons, EP, <- app_assoc. done. }
  set (fu := (fuel - length F2)%nat). replace fu with (length F1 + S (fu - S (length F1)))%nat by (unfold fu; lia).
  rewrite run_scan by done. destruct (decide (n <= sf)) as [Hs|Hs].
  { right. destruct Hbase as [(_ & _ & ->)|[F ->]]; [lia|]. cbn [last_addr].
    destruct (last_split base 0 F) as (P & sx & EP). apply (Hhit P _ sx f sf F2); [|done]. rewrite EL, EP, <- app_assoc. done. }
  set (fu' := (fu - S (length F1))%nat). set (prev := last_addr (last_addr f F2) F1).
  assert (Estep : malloc_loop grow (S fu') n prev f h = (let! p := morecore grow n in
    if p =? 0 then ret 0 else let! q := get (fun h => h_ptr h p) in malloc_loop grow fu' n p q) h).
  { cbn [malloc_loop]. rewrite (bind_run _ _ _ (h_size h f) h) by done. rewrite Hsf. replace (sf >=? n) with false by lia.
    rewrite (bind_run _ _ _ (h_freep h) h) by done. by rewrite Ef, Z.eqb_refl. }
  rewrite Estep. destruct (run_morecore h L A n Hi Hn) as [R|(q & h1 & R & Hq & Hrun)]; auto.
  - rewrite EL. apply Forall_app. split; [done|]. apply List.Forall_cons; [cbn; lia|done].
  - left. by run R.
  - right. destruct (Hrun fu') as (b & h' & L' & R' & Hi' & Hb); [rewrite EL, length_app; cbn; unfold fu', fu; lia|].
    exists b, h', L'. split; [|done]. run R. rewrite (proj2 (Z.eqb_neq _ _) Hq). exact R'.
Qed.

(** ** Sequences of calls

    [A] are the results of malloc not freed yet, with the sizes asked for.
    Requests are of at most MAXREQ bytes. *)

Definition MAXREQ : Z := 0x7fff0000.

Inductive ustep : heap * list (Z * Z) -> heap * list (Z * Z) -> Prop :=
| UMalloc h A n p h' : 0 <= n <= MAXREQ -> malloc base grow n h = Ret p h' -> p <> 0 -> ustep (h, A) (h', (p, n) :: A)
| UNull h A n h' : 0 <= n <= MAXREQ -> malloc base grow n h = Ret 0 h' -> ustep (h, A) (h', A)
| UFree h A1 p n A2 h' : free p h = Ret tt h' -> ustep (h, A1 ++ (p, n) :: A2) (h', A1 ++ A2).

Definition units (n : Z) : Z := (n + 7) / 8 + 1.
Definition blocks_of (A : list (Z * Z)) : list blk := (fun x => (x.1 - 8, units x.2)) <$> A.

Definition uinv (h : heap) (A : list (Z * Z)) : Prop :=
  Forall (fun x => 0 <= x.2) A /\
  (h_freep h = 0 /\ A = [] /\ 0 < base /\ base + 8 <= h_brk h < 2147483648 \/ exists L, hinv h L (blocks_of A)).

Lemma uinv_ready h A : uinv h A ->
  exists h1 L, hinv h1 L (blocks_of A) /\ forall n, malloc base grow n h =
    malloc_loop grow (2 * list_fuel h1) (u32 (u32 (n + sizeof_Header - 1) / sizeof_Header + 1)) (h_freep h1) (h_ptr h1 (h_freep h1)) h1.
Proof.
  intros [_ [(Hf & -> & Hb)|[L Hi]]].
  - exists (set_size base 0 (set_freep base (set_ptr base base h))), [(base, 0)]. split.
    + constructor.
      * by exists [].
      * cbn. by rewrite !fset_eq.
      * cbn. lia.
      * cbn. left.
      * cbn. split; constructor.
      * apply List.Forall_cons; [by left|constructor].
      * constructor.
      * done.
    + intros n. unfold malloc. cbn [h_freep h_ptr]. unfold bind, get at 1. rewrite Hf. done.
  - exists h, L. split; [done|]. intros n. unfold malloc.
    assert (h_freep h <> 0).
    { pose proof (hi_freep _ _ _ Hi) as Hf. apply list_elem_of_fmap in Hf as ([f sf] & -> & Hf). cbn.
      destruct (asc_above _ _ _ _ (hi_asc _ _ _ Hi) Hf). pose proof (hi_brk _ _ _ Hi). lia. }
    unfold bind, get at 1. by rewrite (proj2 (Z.eqb_neq _ _)).
Qed.

Lemma run_malloc h A n : uinv h A -> 0 <= n <= MAXREQ ->
  exists p h', malloc base grow n h = Ret p h' /\ uinv h' (if decide (p = 0) then A else (p, n) :: A).
Proof.
  intros Hu Hn. unfold MAXREQ in Hn. destruct (uinv_ready h A Hu) as (h1 & L & Hi & E). rewrite E.
  assert (En : u32 (u32 (n + sizeof_Header - 1) / sizeof_Header + 1) = units n).
  { unfold units, sizeof_Header. rewrite (u32_small (n + 8 - 1)) by (unfold is_u32; lia). rewrite u32_small by (unfold is_u32; dlia). f_equal. f_equal. lia. }
  rewrite En. destruct (run_malloc_loop h1 L _ (units n) (2 * list_fuel h1) Hi) as [R|(b & h' & L' & R & Hi' & Hb)].
  - unfold units. dlia.
  - unfold chunk, units. cond; dlia.
  - pose proof (list_fuel_enough _ _ _ Hi). lia.
  - exists 0, h1. split; [done|]. rewrite decide_True by done. split; [apply Hu|]. right. by exists L.
  - pose proof (hi_brk _ _ _ Hi) as Hbb. exists (b + 8), h'. split; [done|]. rewrite decide_False by lia. split; [apply List.Forall_cons; [cbn; lia|apply Hu]|].
    right. exists L'. cbn. by replace (b + 8 - 8) with b by lia.
Qed.

Lemma run_heap_free h A p n : uinv h A -> (p, n) ∈ A -> exists h', free p h = Ret tt h' /\ forall A', A ≡ₚ (p, n) :: A' -> uinv h' A'.
Proof.
  intros [Hpos Hu] Hin. apply list_elem_of_split in Hin as (A1 & A2 & E).
  destruct Hu as [(_ & -> & _)|[L Hi]]; [by destruct A1|].
  assert (Hp : forall A', A ≡ₚ (p, n) :: A' -> blocks_of A ≡ₚ (p - 8, units n) :: blocks_of A') by (intros A' H; unfold blocks_of; by rewrite H).
  assert (EA : A ≡ₚ (p, n) :: A1 ++ A2) by (rewrite E; symmetry; apply Permutation_middle).
  pose proof (hinv_perm _ _ _ _ (Hp _ EA) Hi) as Hi1.
  destruct (free_hinv _ _ _ _ _ Hi1) as (L1 & q & sq & L2 & h' & _ & _ & _ & R & Hi' & _). replace (p - 8 + 8) with p in R by lia.
  exists h'. split; [done|]. intros A' HA'. rewrite HA' in Hpos. apply Forall_cons in Hpos as [_ Hpos]. split; [done|]. right. eexists.
  eapply hinv_perm; [|exact Hi']. apply (Permutation_cons_inv (a := (p - 8, units n))). by rewrite <- (Hp _ HA'), <- (Hp _ EA).
Qed.

Lemma uinv_steps x y : rtc ustep x y -> uinv x.1 x.2 -> uinv y.1 y.2.
Proof.
  induction 1 as [|x y z Hs _ IH]; [done|]. intros Hu. apply IH. clear IH. inversion Hs as [h A n p h' Hn R Hp|h A n h' Hn R|h A1 p n A2 h' R]; subst; cbn in *.
  - destruct (run_malloc h A n Hu Hn) as (p' & h1 & R' & Hu'). rewrite R in R'. injection R' as <- <-. by rewrite decide_False in Hu'.
  - destruct (run_malloc h A n Hu Hn) as (p' & h1 & R' & Hu'). rewrite R in R'. injection R' as <- <-. by rewrite decide_True in Hu'.
  - destruct (run_heap_free h _ p n Hu) as (h1 & R' & Hu'); [apply elem_of_app; right; left|]. rewrite R in R'. injection R' as <-.
    apply Hu'. symmetry. apply Permutation_middle.
Qed.

Lemma disj_lookup B i j x y : disj B -> i <> j -> B !! i = Some x -> B !! j = Some y -> sep x y.
Proof.
  revert i j. induction B as [|z B IH]; intros [|i] [|j] HD Hne Hx Hy; try done; destruct HD as [H1 H2]; rewrite Forall_forall in H1; cbn in Hx, Hy.
  - injection Hx as ->. by apply H1, (list_elem_of_lookup_2 _ j).
  - injection Hy as ->. by apply sep_sym, H1, (list_elem_of_lookup_2 _ i).
  - by apply (IH i j); auto.
Qed.

(** C34: the user-level allocator hands out disjoint memory.  After any sequence
    of mallocs of up to MAXREQ bytes and frees of live blocks from the initial
    heap, two live allocations overlap neither in the bytes asked for nor in each
    other's header, and all lie inside the heap; every further request of up to
    MAXREQ bytes returns (a block or null), and so does every free of a live
    allocation.  Larger requests can wrap around ([malloc_wraps]). *)
Theorem malloc_exclusive h0 h A :
  h_freep h0 = 0 -> 0 < base -> base + 8 <= h_brk h0 < KERNBASE -> rtc ustep (h0, []) (h, A) ->
  (forall i j p n q m, i <> j -> A !! i = Some (p, n) -> A !! j = Some (q, m) -> p + n <= q - 8 \/ q + m <= p - 8) /\
  (forall p n, (p, n) ∈ A -> base + 16 <= p /\ p + n <= h_brk h) /\
  (forall n, 0 <= n <= MAXREQ -> exists p h', malloc base grow n h = Ret p h') /\
  (forall p n, (p, n) ∈ A -> exists h', free p h = Ret tt h').
Proof.
  intros Hf Hb Hbrk Hs. assert (Hu : uinv h A).
  { apply (uinv_steps _ _ Hs). split; [constructor|]. left. unfold KERNBASE in Hbrk. cbn. split_and!; auto; lia. }
  split_and!.
  - intros i j p n q m Hne Hi Hj. destruct Hu as [Hpos [(_ & -> & _)|[L HI]]]; [done|].
    pose proof (hi_disj _ _ _ HI) as HD. assert (HB : disj (blocks_of A)).
    { clear -HD. induction L as [|x L IH]; [done|]. by apply IH, HD. }
    assert (Hsep : sep (p - 8, units n) (q - 8, units m)).
    { apply (disj_lookup _ i j _ _ HB Hne); unfold blocks_of; by rewrite list_lookup_fmap, ?Hi, ?Hj. }
    unfold sep, units in Hsep. cbn in Hsep. dlia.
  - intros p n Hin. destruct Hu as [Hpos [(_ & -> & _)|[L HI]]]; [by apply not_elem_of_nil in Hin|].
    pose proof (hi_in _ _ _ HI) as HB. pose proof (hi_A _ _ _ HI) as HA. apply Forall_app in HB as [_ HB]. rewrite Forall_forall in HB, HA.
    assert (Hx : (p - 8, units n) ∈ blocks_of A) by (apply list_elem_of_fmap; by exists (p, n)).
    destruct (HA _ Hx) as [_ Hnb]. destruct (HB _ Hx) as [[= E _]|(H1 & _ & H2)]; [done|]. unfold units in H2. cbn in H1, H2. dlia.
  - intros n Hn. destruct (run_malloc h A n Hu Hn) as (p & h' & R & _). by exists p, h'.
  - intros p n Hin. destruct (run_heap_free h A p n Hu Hin) as (h' & R & _). by exists h'.
Qed.

End Search.

(** Two allocations from a heap of one page that sbrk extends. *)
Definition ex_heap : heap := MkHeap (fun _ => 0) (fun _ => 0) 0 4096.
Definition ex_grow (b n : Z) : bool := b + n <? KERNBASE.

Lemma malloc_exclusive_witness :
  exists p q h, rtc (ustep 2048 ex_grow) (ex_heap, []) (h, [(q, 100); (p, 10)]) /\ (p + 10 <= q - 8 \/ q + 100 <= p - 8).
Proof.
  destruct (malloc 2048 ex_grow 10 ex_heap) as [p h1| |] eqn:E1; [|by vm_compute in E1..].
  assert (Hp : p = 36848) by (vm_compute in E1; congruence).
  destruct (malloc 2048 ex_grow 100 h1) as [q h2| |] eqn:E2.
  2, 3: exfalso; vm_compute in E1; injection E1 as _ <-; by vm_compute in E2.
  assert (Hq : q = 36736) by (vm_compute in E1; injection E1 as _ <-; vm_compute in E2; congruence).
  assert (Hs : rtc (ustep 2048 ex_grow) (ex_heap, []) (h2, [(q, 100); (p, 10)])).
  { eapply rtc_l; [apply (UMalloc _ _ _ _ 10 p h1); [unfold MAXREQ; lia|done|by rewrite Hp]|].
    eapply rtc_l; [apply (UMalloc _ _ _ _ 100 q h2); [unfold MAXREQ; lia|done|by rewrite Hq]|done]. }
  exists p, q, h2. split; [done|].
  destruct (malloc_exclusive 2048 ex_grow) with (h0 := ex_heap) (h := h2) (A := [(q, 100); (p, 10)]) as [H _];
    [intros b n; unfold ex_grow; lia|done|done|unfold KERNBASE; cbn; lia|done|].
  destruct (H 0%nat 1%nat q 100 p 10) as [H1|H1]; [done..|by right|by left].
Defined.
