(* ===== verification/User.v ===== *)
(** * User programs and the system calls they make (user.h, ulib.c)

    A user program is an interaction tree whose events are its system calls.
    Memory is not part of the state: a call carries the bytes it passes to the
    kernel, and its answer the bytes the kernel stores.

    [wp] says of a program that it ends, whatever the answers of a kernel that
    may behave in several ways, and that every way it can end is as required. *)

From S2P Require Import Prelude.
From S2P Require Import CString.
From S2P Require Import Fs.
From S2P Require Import Printf.
From S2P Require Import Sh.
From S2P Require Import Sysfile.
From S2P Require Import Params.
From ITree Require Import ITree Eq.Shallow.

(** ** System calls *)

(** The answer is the value in eax; calls that store through a pointer answer
    with what they stored as well.  exec answers only when it fails.  [Undef]
    stands for undefined behaviour. *)
Inductive sysE : Type -> Type :=
| fork : sysE Z
| exit : sysE Empty_set
| wait : sysE Z
| pipe : sysE (Z * (Z * Z))
| write (fd : Z) (bytes : list Z) : sysE Z
| read (fd n : Z) : sysE (Z * list Z)
| close (fd : Z) : sysE Z
| kill (pid : Z) : sysE Z
| exec (path : list Z) (argv : list (list Z)) : sysE Z
| open (path : list Z) (mode : Z) : sysE Z
| mknod (path : list Z) (major minor : Z) : sysE Z
| unlink (path : list Z) : sysE Z
| fstat (fd : Z) : sysE (Z * stat)
| link (old new : list Z) : sysE Z
| mkdir (path : list Z) : sysE Z
| chdir (path : list Z) : sysE Z
| dup (fd : Z) : sysE Z
| getpid : sysE Z
| sbrk (n : Z) : sysE Z
| sleep (n : Z) : sysE Z
| uptime : sysE Z
| trace (n : Z) : sysE Z
| Undef (why : string) : sysE Empty_set.

Definition prog (A : Type) : Type := itree sysE A.

Declare Scope user_scope.
Delimit Scope user_scope with U.
Notation "'let*' x := t 'in' k" := (ITree.bind t (fun x => k))
  (at level 10, x pattern, t at level 100, k at level 200) : user_scope.
Notation "t ;;; k" := (ITree.bind t (fun _ => k)) (at level 100, k at level 200, right associativity) : user_scope.
#[global] Open Scope user_scope.

Definition sys {X} (e : sysE X) : prog X := ITree.trigger e.

(** exit does not return. *)
Definition sys_exit {A} : prog A := let* x := sys exit in match x with end.
Definition undefined {A} (why : string) : prog A := let* x := sys (Undef why) in match x with end.

(** What a C string function that may read out of bounds returns. *)
Definition defined {A} (r : option A) : prog A :=
  match r with Some a => Ret a | None => undefined "read out of bounds" end.

(** The loop [for(;;)] with its state; [inl] goes round again. *)
Definition while {A B} (body : A -> prog (A + B)) (a : A) : prog B := ITree.iter body a.

(** ** Reasoning about programs *)

(** The calls a process can end with. *)
Inductive fin : Type := Exited | Execed (path : list Z) (argv : list (list Z)).
Definition may_end {X} (e : sysE X) : option fin :=
  match e with exit => Some Exited | exec path argv => Some (Execed path argv) | _ => None end.
Definition is_undef {X} (e : sysE X) : bool := match e with Undef _ => true | _ => false end.

Section Wp.
(** A kernel: which answers a call can have, and the state after it. *)
Context {W : Type} (call : forall X, sysE X -> W -> X -> W -> Prop).

(** The program ends after finitely many calls.  It never does anything undefined,
    the kernel always has an answer, [Q] holds of the results and [F] of the calls
    that can end the process. *)
Inductive wp {A} (Q : A -> W -> Prop) (F : fin -> W -> Prop) (t : prog A) (w : W) : Prop :=
| wp_done a : observe t = RetF a -> Q a w -> wp Q F t w
| wp_silent u : observe t = TauF u -> wp Q F u w -> wp Q F t w
| wp_call X (e : sysE X) k :
    observe t = VisF e k -> is_undef e = false ->
    (forall f, may_end e = Some f -> F f w) ->
    (may_end e = None -> exists x w', call X e w x w') ->
    (forall x w', call X e w x w' -> wp Q F (k x) w') ->
    wp Q F t w.

Lemma wp_ret {A} (Q : A -> W -> Prop) F a w : Q a w -> wp Q F (Ret a) w.
Proof. by apply wp_done. Qed.

Lemma wp_mono {A} (Q Q' : A -> W -> Prop) (F F' : fin -> W -> Prop) t w :
  wp Q F t w -> (forall a w', Q a w' -> Q' a w') -> (forall f w', F f w' -> F' f w') -> wp Q' F' t w.
Proof.
  intros H HQ HF. induction H; [eapply wp_done|eapply wp_silent|eapply wp_call]; eauto.
Qed.

Lemma wp_bind {A B} (Q : B -> W -> Prop) F (t : prog A) (k : A -> prog B) w :
  wp (fun a w' => wp Q F (k a) w') F t w -> wp Q F (ITree.bind t k) w.
Proof.
  induction 1 as [t w a E H|t w u E _ IH|t w X e k' E Hu Hf Hx _ IH].
  - destruct H; [eapply wp_done|eapply wp_silent|eapply wp_call]; rewrite ?observe_bind, ?E; cbn; eauto.
  - eapply wp_silent; [by rewrite observe_bind, E; cbn|done].
  - eapply wp_call; [by rewrite observe_bind, E; cbn|done..].
Qed.

Lemma wp_sys {X} (e : sysE X) (Q : X -> W -> Prop) F w :
  is_undef e = false -> (forall f, may_end e = Some f -> F f w) ->
  (may_end e = None -> exists x w', call X e w x w') ->
  (forall x w', call X e w x w' -> Q x w') -> wp Q F (sys e) w.
Proof. intros. eapply wp_call; eauto. intros. apply wp_ret. auto. Qed.

(** A call whose answer is determined. *)
Lemma wp_sys_eq {X A} (e : sysE X) (k : X -> prog A) Q F w x w' :
  is_undef e = false -> may_end e = None -> (forall y v, call X e w y v <-> y = x /\ v = w') ->
  wp Q F (k x) w' -> wp Q F (ITree.bind (sys e) k) w.
Proof.
  intros Hu He Hc H. apply wp_bind, wp_sys; [done|by rewrite He|intros _; exists x, w'; by apply Hc|].
  intros y v [-> ->]%Hc. done.
Qed.

Lemma wp_exit {A} (Q : A -> W -> Prop) (F : fin -> W -> Prop) w : F Exited w -> wp Q F sys_exit w.
Proof. intros H. apply wp_bind, wp_sys; [done|by intros ? [= <-]|done|by intros []]. Qed.

(** Only what a program does next matters. *)
Lemma wp_observe {A} (Q : A -> W -> Prop) F t u w : observe t = observe u -> wp Q F u w -> wp Q F t w.
Proof. intros E H. destruct H; [eapply wp_done|eapply wp_silent|eapply wp_call]; rewrite ?E; eauto. Qed.

(** One round of a loop. *)
Lemma wp_while {A B} (body : A -> prog (A + B)) Q F a w :
  wp (fun r w' => match r with inl a' => wp Q F (while body a') w' | inr b => Q b w' end) F (body a) w ->
  wp Q F (while body a) w.
Proof.
  intros H. eapply wp_observe; [apply (f_equal observe (eq_refl (while body a)))|].
  eapply (wp_observe _ _ _ (ITree.bind (body a) (fun lr => match lr with inl l => Tau (while body l) | inr r => Ret r end)));
    [reflexivity|].
  apply wp_bind. eapply wp_mono; [exact H| |done]. intros [a'|b] w' Hr; [by eapply wp_silent|by apply wp_ret].
Qed.

End Wp.

(** ** Running a program *)

Section Play.
Context {W : Type} (pick : forall X, sysE X -> W -> option (X * W)).

(** The program against a kernel that gives the answers of [pick], or ends the
    process when that has none. *)
Fixpoint play {A} (fuel : nat) (t : prog A) (w : W) : option ((A + fin) * W) :=
  match fuel with
  | O => None
  | S fuel =>
      match observe t with
      | RetF a => Some (inl a, w)
      | TauF u => play fuel u w
      | VisF e k =>
          match pick _ e w with
          | Some (x, w') => play fuel (k x) w'
          | None => match may_end e with Some f => Some (inr f, w) | None => None end
          end
      end
  end.

(** A program that meets its specification ends on every such kernel. *)
Lemma wp_play {A} (call : forall X, sysE X -> W -> X -> W -> Prop) (Q : A -> W -> Prop) F t w :
  (forall X e v x v', pick X e v = Some (x, v') -> call X e v x v') ->
  (forall X (e : sysE X) v, pick X e v = None -> may_end e = None -> is_undef e = true) ->
  wp call Q F t w ->
  exists fuel r w', play fuel t w = Some (r, w') /\ match r with inl a => Q a w' | inr f => F f w' end.
Proof.
  intros Hp Ht. induction 1 as [t w a E H|t w u E _ (n & r & w' & IH & Hr)|t w X e k E Hu Hf _ _ IH].
  - exists 1%nat, (inl a), w. cbn. by rewrite E.
  - exists (S n), r, w'. cbn. by rewrite E.
  - destruct (pick X e w) as [[x v]|] eqn:Ep.
    + destruct (IH x v (Hp _ _ _ _ _ Ep)) as (n & r & w' & IH' & Hr). exists (S n), r, w'. cbn. by rewrite E, Ep.
    + destruct (may_end e) as [f|] eqn:Ef; [|by rewrite (Ht _ _ _ Ep Ef) in Hu].
      exists 1%nat, (inr f), w. cbn. rewrite E, Ep, Ef. auto.
Qed.

End Play.

(** ** The kernel as its callers see it *)

Inductive node : Type := NFile (bytes : list Z) | NDir | NDev.
(** An open file; the read and write offset is shared by its descriptors. *)
Inductive obj : Type := OFile (path : list Z) (mode inum : Z) (off : nat) | OCons | OPipeR (p : nat) | OPipeW (p : nat).

(** What a process can tell of the state of the kernel: names, inodes, open files,
    its descriptors and children, and the console; with [w_room], fork, pipe and
    open find the memory and the slots they need.  [w_input] is what the console
    delivers to this process; other processes that read it get bytes of their own. *)
Record world : Type := MkWorld {
  w_names : gmap (list Z) Z;
  w_nodes : gmap Z node;
  w_objs : list obj;
  w_fds : list (option nat);
  w_kids : list Z;
  w_input : list Z;
  w_output : list Z;
  w_room : bool
}.
Definition set_fs names nodes w := MkWorld names nodes (w_objs w) (w_fds w) (w_kids w) (w_input w) (w_output w) (w_room w).
Definition set_objs objs fds w := MkWorld (w_names w) (w_nodes w) objs fds (w_kids w) (w_input w) (w_output w) (w_room w).
Definition set_kids kids w := MkWorld (w_names w) (w_nodes w) (w_objs w) (w_fds w) kids (w_input w) (w_output w) (w_room w).
Definition set_cons input output w := MkWorld (w_names w) (w_nodes w) (w_objs w) (w_fds w) (w_kids w) input output (w_room w).

Definition fd_obj (fd : Z) (w : world) : option (nat * obj) :=
  if fd <? 0 then None else
  match w_fds w !! Z.to_nat fd with
  | Some (Some o) => (fun b => (o, b)) <$> (w_objs w !! o)
  | _ => None
  end.
(** A descriptor for a new open file: the lowest free one, as fdalloc finds it. *)
Definition new_fd (b : obj) (w : world) : option (Z * world) :=
  match fd_scan 0 (w_fds w) with
  | None => None
  | Some fd => Some (fd, set_objs (w_objs w ++ [b]) (zset (w_fds w) fd (Some (length (w_objs w)))) w)
  end.

Section Calls.
Context (w : world).

(** The only answer of a call, and the one of a call that fails. *)
Definition gives {X} (x : X) (w' : world) : X -> world -> Prop := fun y v => y = x /\ v = w'.
Definition fails : Z -> world -> Prop := gives (-1) w.

(** A new open file in the world [v], unless the process has no descriptor or
    the system no slot for it. *)
Definition opens (b : obj) (v : world) : Z -> world -> Prop := fun x w' =>
  match new_fd b v with
  | None => gives (-1) v x w'
  | Some (fd, v') => (w_room v = false /\ gives (-1) v x w') \/ gives fd v' x w'
  end.

(** With O_CREATE an existing name has to be a file. *)
Definition k_open (path : list Z) (mode : Z) : Z -> world -> Prop :=
  match w_names w !! path with
  | Some i =>
      match w_nodes w !! i with
      | Some NDev => if has mode O_CREATE then fails else opens OCons w
      | Some (NFile _) => opens (OFile path mode i 0) w
      | Some NDir => if mode =? O_RDONLY then opens (OFile path mode i 0) w else fails
      | None => fails
      end
  | None =>
      if has mode O_CREATE then
        fun x w' => fails x w' \/ exists i, w_nodes w !! i = None /\
          opens (OFile path mode i 0) (set_fs (<[path := i]> (w_names w)) (<[i := NFile []]> (w_nodes w)) w) x w'
      else fails
  end.

(** Replacing the bytes from an offset on. *)
Definition overwrite (off : nat) (bs old : list Z) : list Z :=
  take off old ++ replicate (off - length old) 0 ++ bs ++ drop (off + length bs) old.

(** A read of the console: it ends after a newline, with the last byte asked for,
    or at a ^D.  A ^D that is not the first character stays for the next read, of
    this process or of another.  A read that waits for more than is typed ends only
    when the process is killed. *)
Definition C_D : Z := 4.
Inductive cons_result : Type := CTaken (bs rest : list Z) | CStopped (bs rest : list Z) | CWaits.

Definition cons_more (c : Z) (r : cons_result) : cons_result :=
  match r with
  | CTaken bs rest => CTaken (c :: bs) rest
  | CStopped bs rest => CStopped (c :: bs) rest
  | CWaits => CWaits
  end.

Fixpoint cons_line (n : nat) (input : list Z) : cons_result :=
  match n, input with
  | O, _ => CTaken [] input
  | S _, [] => CWaits
  | S n, c :: input =>
      if c =? C_D then CStopped [] input
      else if c =? 10 then CTaken [c] input
      else cons_more c (cons_line n input)
  end.

Definition cons_take (n : nat) (input : list Z) : cons_result :=
  match n, input with
  | S _, c :: rest => if c =? C_D then CTaken [] rest else cons_line n input
  | _, _ => cons_line n input
  end.

Definition k_read (fd n : Z) : Z * list Z -> world -> Prop :=
  match fd_obj fd w with
  | Some (o, OFile path mode i off) =>
      if has mode O_WRONLY then gives (-1, []) w else
      match w_nodes w !! i with
      | Some (NFile bytes) =>
          let bs := take (Z.to_nat n) (drop off bytes) in
          gives (zlen bs, bs) (set_objs (<[o := OFile path mode i (off + length bs)]> (w_objs w)) (w_fds w) w)
      | _ => fun r w' => w' = w
      end
  | Some (_, OCons) =>
      match cons_take (Z.to_nat n) (w_input w) with
      | CTaken bs rest => gives (zlen bs, bs) (set_cons rest (w_output w) w)
      | CStopped bs rest => fun r w' => gives (zlen bs, bs) (set_cons (C_D :: rest) (w_output w) w) r w' \/
                                        gives (zlen bs, bs) (set_cons rest (w_output w) w) r w'
      | CWaits => gives (-1, []) (set_cons [] (w_output w) w)
      end
  | Some (_, OPipeR _) => fun r w' => w' = w /\ (r = (-1, []) \/ exists bs, r = (zlen bs, bs) /\ zlen bs <= n)
  | _ => gives (-1, []) w
  end.

Definition k_write (fd : Z) (bs : list Z) : Z -> world -> Prop :=
  match fd_obj fd w with
  | Some (o, OFile path mode i off) =>
      if negb (has mode O_WRONLY || has mode O_RDWR) then fails else
      match w_nodes w !! i with
      | Some (NFile bytes) => fun x w' =>
          (exists m, gives (-1) (set_fs (w_names w) (<[i := NFile (overwrite off (take m bs) bytes)]> (w_nodes w))
            (set_objs (<[o := OFile path mode i (off + length (take m bs))]> (w_objs w)) (w_fds w) w)) x w') \/
          gives (zlen bs) (set_fs (w_names w) (<[i := NFile (overwrite off bs bytes)]> (w_nodes w))
            (set_objs (<[o := OFile path mode i (off + length bs)]> (w_objs w)) (w_fds w) w)) x w'
      | _ => fails
      end
  | Some (_, OCons) => gives (zlen bs) (set_cons (w_input w) (w_output w ++ bs) w)
  | Some (_, OPipeW _) => fun x w' => fails x w' \/ gives (zlen bs) w x w'
  | _ => fails
  end.

Definition k_close (fd : Z) : Z -> world -> Prop :=
  match fd_obj fd w with
  | Some _ => gives 0 (set_objs (w_objs w) (zset (w_fds w) fd None) w)
  | None => fails
  end.

Definition k_dup (fd : Z) : Z -> world -> Prop :=
  match fd_obj fd w, fd_scan 0 (w_fds w) with
  | Some (o, _), Some nfd => gives nfd (set_objs (w_objs w) (zset (w_fds w) nfd (Some o)) w)
  | _, _ => fails
  end.

Definition k_pipe : Z * (Z * Z) -> world -> Prop := fun r w' =>
  let no := gives (-1, (0, 0)) w r w' in
  match new_fd (OPipeR (length (w_objs w))) w with
  | None => no
  | Some (fd0, w1) =>
      match new_fd (OPipeW (length (w_objs w))) w1 with
      | None => no
      | Some (fd1, w2) => (w_room w = false /\ no) \/ gives (0, (fd0, fd1)) w2 r w'
      end
  end.

(** The two processes fork returns in: the child, which has no children and gets
    what it reads of the console, and the parent, with one more child.  From then
    on, and until wait returns, others may change the files. *)
Definition k_fork : Z -> world -> Prop := fun x w' =>
  (w_room w = false /\ fails x w') \/
  exists names nodes,
    (x = 0 /\ exists input, w' = set_fs names nodes (set_cons input (w_output w) (set_kids [] w))) \/
    (0 < x /\ x ∉ w_kids w /\ w' = set_fs names nodes (set_kids (w_kids w ++ [x]) w)).

Definition k_wait : Z -> world -> Prop := fun x w' =>
  match w_kids w with
  | [] => fails x w'
  | _ => exists l r names nodes, w_kids w = l ++ x :: r /\ w' = set_fs names nodes (set_kids (l ++ r) w)
  end.

Definition k_unlink (path : list Z) : Z -> world -> Prop :=
  match w_names w !! path with
  | Some i => match w_nodes w !! i with
              | Some NDir => fun x w' => fails x w' \/ gives 0 (set_fs (delete path (w_names w)) (w_nodes w) w) x w'
              | Some _ => gives 0 (set_fs (delete path (w_names w)) (w_nodes w) w)
              | None => fails
              end
  | None => fails
  end.

Definition k_link (old new : list Z) : Z -> world -> Prop :=
  match w_names w !! old, w_names w !! new with
  | Some i, None =>
      match w_nodes w !! i with
      | Some NDir | None => fails
      | _ => fun x w' => fails x w' \/ gives 0 (set_fs (<[new := i]> (w_names w)) (w_nodes w) w) x w'
      end
  | _, _ => fails
  end.

Definition k_create (b : node) (path : list Z) : Z -> world -> Prop :=
  match w_names w !! path with
  | Some _ => fails
  | None => fun x w' => fails x w' \/ exists i, w_nodes w !! i = None /\
      gives 0 (set_fs (<[path := i]> (w_names w)) (<[i := b]> (w_nodes w)) w) x w'
  end.

End Calls.

(** The answers a call can have.  The calls whose effect is on other parts of the
    system (kill, sleep, trace and the like) leave this state alone; after chdir
    the names stand for other files. *)
Definition kcall (X : Type) (e : sysE X) (w : world) : X -> world -> Prop :=
  match e with
  | fork => k_fork w
  | exit => fun _ _ => False
  | wait => k_wait w
  | pipe => k_pipe w
  | write fd bytes => k_write w fd bytes
  | read fd n => k_read w fd n
  | close fd => k_close w fd
  | exec _ _ => fails w
  | open path mode => k_open w path mode
  | mknod path _ _ => k_create w NDev path
  | unlink path => k_unlink w path
  | fstat fd => fun r w' => w' = w
  | link old new => k_link w old new
  | mkdir path => k_create w NDir path
  | chdir _ => fun x w' => fails w x w' \/ exists names, gives 0 (set_fs names (w_nodes w) w) x w'
  | dup fd => k_dup w fd
  | Undef _ => fun _ _ => False
  | _ => fun _ w' => w' = w
  end.

(** ** Steps of a program on this kernel *)

(** The world after output to the console, and with an open file changed. *)
Definition out (bs : list Z) (w : world) : world := set_cons (w_input w) (w_output w ++ bs) w.
Definition at_obj (o : nat) (b : obj) (w : world) : world := set_objs (<[o := b]> (w_objs w)) (w_fds w) w.

Section Steps.
Context {A : Type} (Q : A -> world -> Prop) (F : fin -> world -> Prop).
Implicit Types (w : world).

Lemma wp_write_cons w fd bs o (k : Z -> prog A) :
  fd_obj fd w = Some (o, OCons) ->
  wp kcall Q F (k (zlen bs)) (out bs w) ->
  wp kcall Q F (ITree.bind (sys (write fd bs)) k) w.
Proof. intros E. apply wp_sys_eq; [done..|]. intros y v. cbn. unfold k_write. by rewrite E. Qed.

Lemma wp_open_file w path mode i bytes fd w' (k : Z -> prog A) : w_room w = true ->
  w_names w !! path = Some i -> w_nodes w !! i = Some (NFile bytes) -> new_fd (OFile path mode i 0) w = Some (fd, w') ->
  wp kcall Q F (k fd) w' -> wp kcall Q F (ITree.bind (sys (open path mode)) k) w.
Proof.
  intros Hr E1 E2 E3. apply wp_sys_eq; [done..|]. intros y v. cbn. unfold k_open, opens. rewrite E1, E2, E3, Hr.
  split; [by intros [[? _]|]|by right].
Qed.

Lemma wp_open_missing w path mode (k : Z -> prog A) :
  w_names w !! path = None -> has mode O_CREATE = false ->
  wp kcall Q F (k (-1)) w -> wp kcall Q F (ITree.bind (sys (open path mode)) k) w.
Proof. intros E1 E2. apply wp_sys_eq; [done..|]. intros y v. cbn. unfold k_open. by rewrite E1, E2. Qed.

Lemma wp_close w fd p (k : Z -> prog A) : fd_obj fd w = Some p ->
  wp kcall Q F (k 0) (set_objs (w_objs w) (zset (w_fds w) fd None) w) -> wp kcall Q F (ITree.bind (sys (close fd)) k) w.
Proof. intros E. apply wp_sys_eq; [done..|]. intros y v. cbn. unfold k_close. by rewrite E. Qed.

Lemma wp_read_file w fd n o path mode i off bytes (k : Z * list Z -> prog A) :
  fd_obj fd w = Some (o, OFile path mode i off) -> has mode O_WRONLY = false -> w_nodes w !! i = Some (NFile bytes) ->
  let bs := take (Z.to_nat n) (drop off bytes) in
  wp kcall Q F (k (zlen bs, bs)) (at_obj o (OFile path mode i (off + length bs)) w) ->
  wp kcall Q F (ITree.bind (sys (read fd n)) k) w.
Proof. intros E1 E2 E3 bs. apply wp_sys_eq; [done..|]. intros y v. cbn. unfold k_read. by rewrite E1, E2, E3. Qed.

End Steps.
