(* ===== verification/UserProgs.v ===== *)
(** * Small user programs (cat.c, wc.c, echo.c, rm.c, mkdir.c, ln.c, kill.c, ls.c, init.c, zombie.c)

    The programs are interaction trees over the system calls of User.v.  Strings
    are lists of bytes ending in NUL; [argv] is the list of the arguments, the
    program's name first.  printf writes its characters one at a time. *)

From S2P Require Import Prelude.
From S2P Require Import Params.
From S2P Require Import CString.
From S2P Require Import Fs.
From S2P Require Import Printf.
From S2P Require Import Sh.
From S2P Require Import Sysfile.
From S2P Require Import User.
From ITree Require Import ITree.

(** ** printf on a descriptor *)

Definition lit (s : string) : list Z := map (fun c => Z.of_nat (Ascii.nat_of_ascii c)) (String.list_ascii_of_string s).

(** An argument of printf; a string is passed by its address. *)
Inductive parg : Type := PInt (z : Z) | PStr (s : list Z).
Definition parg_words (args : list parg) : list Z :=
  imap (fun i a => match a with PInt z => z | PStr _ => Z.of_nat i + 1 end) args.
Definition parg_deref (args : list parg) (a : Z) : list Z :=
  match args !! Z.to_nat (a - 1) with Some (PStr s) => s | _ => [] end.
Definition formatted (fmt : list Z) (args : list parg) : option (list Z) :=
  printf (parg_deref args) fmt (parg_words args).

Fixpoint putcs (fd : Z) (cs : list Z) : prog unit :=
  match cs with
  | [] => Ret tt
  | c :: cs => sys (write fd [c]) ;;; putcs fd cs
  end.

(** [printf(fd, s, args)] for a format [s] without its NUL. *)
Definition fprintf (fd : Z) (s : list Z) (args : list parg) : prog unit :=
  let* cs := defined (formatted (s ++ [0]) args) in
  putcs fd cs.

Definition nl : list Z := [10].

(** ** cat.c *)

Module Cat.

(** The loop of cat returns the last result of read. *)
Definition copy (fd : Z) : prog Z :=
  while (fun _ : unit =>
    let* (n, buf) := sys (read fd 512) in
    if n >? 0 then sys (write 1 (take (Z.to_nat n) buf)) ;;; Ret (inl tt) else Ret (inr n)) tt.

Definition cat (fd : Z) : prog unit :=
  let* n := copy fd in
  if n <? 0 then fprintf 1 (lit "cat: read error" ++ nl) [] ;;; sys_exit else Ret tt.

Fixpoint files (args : list (list Z)) : prog unit :=
  match args with
  | [] => Ret tt
  | a :: args =>
      let* fd := sys (open a 0) in
      if fd <? 0 then fprintf 1 (lit "cat: cannot open %s" ++ nl) [PStr a] ;;; sys_exit
      else cat fd ;;; sys (close fd) ;;; files args
  end.

Definition main (argv : list (list Z)) : prog Empty_set :=
  if zlen argv <=? 1 then cat 0 ;;; sys_exit
  else files (tail argv) ;;; sys_exit.

End Cat.

(** ** wc.c *)

Module Wc.

Record counts : Type := MkCounts { wl : Z; ww : Z; wch : Z; inword : bool }.

(** [++] of an int, undefined at its largest value. *)
Definition incr (n : Z) : option Z := if n =? 2147483647 then None else Some (n + 1).

Definition blanks : list Z := [32; 13; 9; 10; 11; 0].

Definition count (s : counts) (b : Z) : option counts :=
  c ← incr (wch s);
  l ← (if b =? 10 then incr (wl s) else Some (wl s));
  r ← Ulib.strchr blanks b;
  match r with
  | Some _ => Some (MkCounts l (ww s) c false)
  | None => if negb (inword s) then w ← incr (ww s); Some (MkCounts l w c true) else Some (MkCounts l (ww s) c (inword s))
  end.

Fixpoint count_all (s : counts) (buf : list Z) : option counts :=
  match buf with
  | [] => Some s
  | b :: buf => s' ← count s b; count_all s' buf
  end.

Definition loop (fd : Z) : prog (Z * counts) :=
  while (fun s =>
    let* (n, buf) := sys (read fd 512) in
    if n >? 0 then let* s := defined (count_all s (take (Z.to_nat n) buf)) in Ret (inl s) else Ret (inr (n, s)))
    (MkCounts 0 0 0 false).

Definition wc (fd : Z) (name : list Z) : prog unit :=
  let* (n, s) := loop fd in
  if n <? 0 then fprintf 1 (lit "wc: read error" ++ nl) [] ;;; sys_exit
  else fprintf 1 (lit "%d %d %d %s" ++ nl) [PInt (wl s); PInt (ww s); PInt (wch s); PStr name].

Fixpoint files (args : list (list Z)) : prog unit :=
  match args with
  | [] => Ret tt
  | a :: args =>
      let* fd := sys (open a 0) in
      if fd <? 0 then fprintf 1 (lit "wc: cannot open %s" ++ nl) [PStr a] ;;; sys_exit
      else wc fd a ;;; sys (close fd) ;;; files args
  end.

Definition main (argv : list (list Z)) : prog Empty_set :=
  if zlen argv <=? 1 then wc 0 [0] ;;; sys_exit
  else files (tail argv) ;;; sys_exit.

End Wc.

(** ** echo.c, rm.c, mkdir.c, ln.c, kill.c, zombie.c *)

Module Echo.
Fixpoint args (l : list (list Z)) : prog unit :=
  match l with
  | [] => Ret tt
  | a :: l => fprintf 1 (lit "%s%s") [PStr a; PStr (match l with [] => nl ++ [0] | _ => [32; 0] end)] ;;; args l
  end.
Definition main (argv : list (list Z)) : prog Empty_set := args (tail argv) ;;; sys_exit.
End Echo.

Module Rm.
Fixpoint files (args : list (list Z)) : prog unit :=
  match args with
  | [] => Ret tt
  | a :: args =>
      let* r := sys (unlink a) in
      if r <? 0 then fprintf 2 (lit "rm: %s failed to delete" ++ nl) [PStr a] else files args
  end.
Definition main (argv : list (list Z)) : prog Empty_set :=
  if zlen argv <? 2 then fprintf 2 (lit "Usage: rm files..." ++ nl) [] ;;; sys_exit
  else files (tail argv) ;;; sys_exit.
End Rm.

Module Mkdir.
Fixpoint files (args : list (list Z)) : prog unit :=
  match args with
  | [] => Ret tt
  | a :: args =>
      let* r := sys (mkdir a) in
      if r <? 0 then fprintf 2 (lit "mkdir: %s failed to create" ++ nl) [PStr a] else files args
  end.
Definition main (argv : list (list Z)) : prog Empty_set :=
  if zlen argv <? 2 then fprintf 2 (lit "Usage: mkdir files..." ++ nl) [] ;;; sys_exit
  else files (tail argv) ;;; sys_exit.
End Mkdir.

Module Ln.
Definition main (argv : list (list Z)) : prog Empty_set :=
  match argv with
  | [_; old; new] =>
      let* r := sys (link old new) in
      (if r <? 0 then fprintf 2 (lit "link %s %s: failed" ++ nl) [PStr old; PStr new] else Ret tt) ;;; sys_exit
  | _ => fprintf 2 (lit "Usage: ln old new" ++ nl) [] ;;; sys_exit
  end.
End Ln.

Module Kill.
Fixpoint pids (args : list (list Z)) : prog unit :=
  match args with
  | [] => Ret tt
  | a :: args => let* pid := defined (Ulib.atoi a) in sys (kill pid) ;;; pids args
  end.
Definition main (argv : list (list Z)) : prog Empty_set :=
  if zlen argv <? 1 then fprintf 2 (lit "usage: kill pid..." ++ nl) [] ;;; sys_exit
  else pids (tail argv) ;;; sys_exit.
End Kill.

Module Zombie.
Definition main : prog Empty_set :=
  let* pid := sys fork in
  (if pid >? 0 then sys (sleep 5) ;;; Ret tt else Ret tt) ;;; sys_exit.
End Zombie.

(** ** ulib.c: stat and gets *)

Definition ustat (n : list Z) : prog (Z * stat) :=
  let* fd := sys (open n O_RDONLY) in
  if fd <? 0 then Ret (-1, MkStat 0 0 0 0 0) else
  let* (r, st) := sys (fstat fd) in
  sys (close fd) ;;; Ret (r, st).

(** gets reads a byte at a time from descriptor 0. *)
Definition ugets (buf : list Z) (max : Z) : prog (list Z) :=
  let* (buf, i) :=
    while (fun '(buf, i) =>
      if i + 1 <? max then
        let* (cc, c) := sys (read 0 1) in
        if cc <? 1 then Ret (inr (buf, i)) else
        let c := zget c 0 in
        let buf := zset buf i c in
        if (c =? 10) || (c =? 13) then Ret (inr (buf, i + 1)) else Ret (inl (buf, i + 1))
      else Ret (inr (buf, i))) (buf, 0) in
  Ret (zset buf i 0).

(** ** ls.c *)

Module Ls.

(** The index after the last slash before index [k], or 0. *)
Fixpoint scan_back (k : nat) (path : list Z) : nat :=
  match k with
  | O => O
  | S k' => if zget path (Z.of_nat k') =? slash then k else scan_back k' path
  end.

(** [buf] is static: its last byte is never written and stays 0. *)
Definition fmtname (path : list Z) : option (list Z) :=
  n ← Ulib.strlen path;
  let p := drop (scan_back (Z.to_nat n + 1) path) path in
  m ← Ulib.strlen p;
  if m >=? DIRSIZ then Some p
  else Some (take (Z.to_nat m) p ++ replicate (Z.to_nat (DIRSIZ - m)) 32 ++ [0]).

Definition print_stat (name : list Z) (st : stat) : prog unit :=
  let* nm := defined (fmtname name) in
  fprintf 1 (lit "%s %d %d %d" ++ nl) [PStr nm; PInt (st_type st); PInt (st_ino st); PInt (st_size st)].

(** The entries of the directory; [buf] is the path with a slash after it. *)
Definition entries (fd : Z) (buf : list Z) : prog unit :=
  while (fun _ : unit =>
    let* (n, de) := sys (read fd sizeof_dirent) in
    if negb (n =? sizeof_dirent) then Ret (inr tt) else
    if de_inum de =? 0 then Ret (inl tt) else
    let name := buf ++ de_name de ++ [0] in
    let* (r, st) := ustat name in
    (if r <? 0 then fprintf 1 (lit "ls: cannot stat %s" ++ nl) [PStr name] else print_stat name st) ;;;
    Ret (inl tt)) tt.

Definition ls (path : list Z) : prog unit :=
  let* fd := sys (open path 0) in
  if fd <? 0 then fprintf 2 (lit "ls: cannot open %s" ++ nl) [PStr path] else
  let* (r, st) := sys (fstat fd) in
  if r <? 0 then
    fprintf 2 (lit "ls: cannot stat %s" ++ nl) [PStr path] ;;;
    sys (close fd) ;;; Ret tt
  else
    (if st_type st =? T_FILE then print_stat path st
     else if st_type st =? T_DIR then
       let* n := defined (Ulib.strlen path) in
       if n + 1 + DIRSIZ + 1 >? 512 then fprintf 1 (lit "ls: path too long" ++ nl) []
       else entries fd (take (Z.to_nat n) path ++ [slash])
     else Ret tt) ;;;
    sys (close fd) ;;; Ret tt.

Fixpoint paths (args : list (list Z)) : prog unit :=
  match args with
  | [] => Ret tt
  | a :: args => ls a ;;; paths args
  end.

Definition main (argv : list (list Z)) : prog Empty_set :=
  if zlen argv <? 2 then ls [46; 0] ;;; sys_exit
  else paths (tail argv) ;;; sys_exit.

End Ls.

(** ** init.c *)

Module Init.

Definition console : list Z := lit "console" ++ [0].
Definition sh : list Z := lit "sh" ++ [0].

(** Waiting for the shell; other children that are found are orphans. *)
Definition reap (pid : Z) : prog unit :=
  while (fun _ : unit =>
    let* wpid := sys wait in
    if (wpid >=? 0) && negb (wpid =? pid) then fprintf 1 (lit "zombie!" ++ nl) [] ;;; Ret (inl tt)
    else Ret (inr tt)) tt.

Definition round : prog unit :=
  fprintf 1 (lit "init: starting sh" ++ nl) [] ;;;
  let* pid := sys fork in
  if pid <? 0 then fprintf 1 (lit "init: fork failed" ++ nl) [] ;;; sys_exit
  else if pid =? 0 then
    sys (exec sh [sh]) ;;;
    fprintf 1 (lit "init: exec sh failed" ++ nl) [] ;;; sys_exit
  else reap pid.

Definition setup : prog unit :=
  let* fd := sys (open console O_RDWR) in
  (if fd <? 0 then sys (mknod console 1 1) ;;; sys (open console O_RDWR) ;;; Ret tt else Ret tt) ;;;
  sys (dup 0) ;;;
  sys (dup 0) ;;; Ret tt.

Definition main : prog Empty_set :=
  setup ;;; while (fun _ : unit => round ;;; Ret (inl tt)) tt.

End Init.

(** ** forktest.c *)

Module Forktest.

Definition N : Z := 1000.

(** Its own printf: the string as it is, in one write. *)
Definition printf (fd : Z) (s : list Z) : prog unit := sys (write fd s) ;;; Ret tt.

(** The forks, counted from [n]; [todo] more are to be tried. *)
Fixpoint forks (todo : nat) (n : Z) : prog Z :=
  match todo with
  | O => Ret n
  | S todo =>
      let* pid := sys fork in
      if pid <? 0 then Ret n
      else if pid =? 0 then sys_exit
      else forks todo (n + 1)
  end.

Fixpoint waits (n : nat) : prog unit :=
  match n with
  | O => Ret tt
  | S n =>
      let* pid := sys wait in
      if pid <? 0 then printf 1 (lit "wait stopped early" ++ nl) ;;; sys_exit else waits n
  end.

Definition forktest : prog unit :=
  printf 1 (lit "fork test" ++ nl) ;;;
  let* n := forks (Z.to_nat N) 0 in
  if n =? N then printf 1 (lit "fork claimed to work N times!" ++ nl) ;;; sys_exit else
  waits (Z.to_nat n) ;;;
  let* pid := sys wait in
  if negb (pid =? -1) then printf 1 (lit "wait got too many" ++ nl) ;;; sys_exit
  else printf 1 (lit "fork test OK" ++ nl).

Definition main : prog Empty_set := forktest ;;; sys_exit.

End Forktest.
