(* ===== verification/UserProps.v ===== *)
(** * Properties of the small user programs *)

From S2P Require Import Prelude.
From S2P Require Import Params.
From S2P Require Import CString.
From S2P Require Import Fs.
From S2P Require Import Printf.
From S2P Require Import Sh.
From S2P Require Import Sysfile.
From S2P Require Import User.
From S2P Require Import UserProgs.
From ITree Require Import ITree.

(** ** Descriptors and output *)

Definition on_cons (fd : Z) (w : world) : Prop := exists o, fd_obj fd w = Some (o, OCons).

Lemma out_nil w : out [] w = w.
Proof. destruct w. unfold out. cbn. by rewrite app_nil_r. Qed.
Lemma out_out bs cs w : out cs (out bs w) = out (bs ++ cs) w.
Proof. unfold out. cbn. by rewrite app_assoc. Qed.
Lemma out_at o b bs w : at_obj o b (out bs w) = out bs (at_obj o b w).
Proof. done. Qed.
Lemma fd_obj_out fd bs w : fd_obj fd (out bs w) = fd_obj fd w.
Proof. done. Qed.

Lemma fd_obj_Some fd w o b : fd_obj fd w = Some (o, b) <->
  0 <= fd /\ w_fds w !! Z.to_nat fd = Some (Some o) /\ w_objs w !! o = Some b.
Proof.
  unfold fd_obj. destruct (Z.ltb_spec fd 0) as [H|H]; [split; [done|lia]|].
  destruct (w_fds w !! Z.to_nat fd) as [[o'|]|]; [|naive_solver..].
  destruct (w_objs w !! o') eqn:E; cbn; naive_solver.
Qed.

Lemma fd_obj_at fd o b b' w : fd_obj fd w = Some (o, b) -> fd_obj fd (at_obj o b' w) = Some (o, b').
Proof.
  rewrite !fd_obj_Some. intros (H1 & H2 & H3). split_and!; [done..|]. cbn. apply list_lookup_insert_eq. by eapply lookup_lt_Some.
Qed.
Lemma on_cons_at fd o b b' fd' w : fd_obj fd w = Some (o, b) -> b <> OCons -> on_cons fd' w -> on_cons fd' (at_obj o b' w).
Proof.
  intros (H1 & H2 & H3)%fd_obj_Some Hb [o' (H4 & H5 & H6)%fd_obj_Some]. exists o'. apply fd_obj_Some. split_and!; [done..|].
  cbn. rewrite list_lookup_insert_ne; [done|]. intros ->. congruence.
Qed.

(** A new descriptor, and its removal. *)
Lemma new_fd_spec b w fd w' : new_fd b w = Some (fd, w') ->
  0 <= fd /\ fd_obj fd w' = Some (length (w_objs w), b) /\ w' = set_objs (w_objs w') (w_fds w') w /\
  w_objs w' = w_objs w ++ [b] /\ zset (w_fds w') fd None = w_fds w /\
  (forall fd' p, fd_obj fd' w = Some p -> fd_obj fd' w' = Some p).
Proof.
  unfold new_fd. destruct (fd_scan 0 (w_fds w)) as [r|] eqn:E; [|done]. intros [= <- <-].
  apply fd_scan_spec in E as [Hr Hn]. rewrite Z.sub_0_r in Hn. pose proof (lookup_lt_Some _ _ _ Hn) as Hlt.
  split_and!; [done|..|done|done| |].
  - apply fd_obj_Some. cbn. unfold zset. split_and!; [done|by apply list_lookup_insert_eq|by apply list_lookup_middle].
  - cbn. unfold zset. rewrite list_insert_insert_eq. by apply list_insert_id.
  - intros fd' [o b'] (H1 & H2 & H3)%fd_obj_Some. apply fd_obj_Some. cbn. unfold zset.
    split_and!; [done| |by apply lookup_app_l_Some]. rewrite list_lookup_insert_ne; [done|]. intros E. rewrite E in Hn. congruence.
Qed.

(** ** printf *)

Section Printing.
Context {A : Type} (F : fin -> world -> Prop).

Lemma wp_putcs (Q : unit -> world -> Prop) fd cs w : on_cons fd w -> Q tt (out cs w) -> wp kcall Q F (putcs fd cs) w.
Proof.
  revert w. induction cs as [|c cs IH]; intros w [o Ho] H; cbn [putcs].
  - apply wp_ret. by rewrite out_nil in H.
  - eapply wp_write_cons; [done|]. apply IH; [by exists o|]. by rewrite out_out.
Qed.

Lemma wp_fprintf (Q : unit -> world -> Prop) fd s args cs w :
  formatted (s ++ [0]) args = Some cs -> on_cons fd w -> Q tt (out cs w) -> wp kcall Q F (fprintf fd s args) w.
Proof.
  intros E Hc H. unfold fprintf. rewrite E. apply wp_bind, wp_ret. by apply wp_putcs.
Qed.

End Printing.

(** Formats taken apart: plain characters, [%s] and [%d]. *)
Definition plain (p : list Z) : bool := forallb (fun c => negb (c =? 0) && negb (c =? 37)) p.

Lemma printf_plain d p fmt ap : plain p = true -> printf_loop d (p ++ fmt) false ap = app p <$> printf_loop d fmt false ap.
Proof.
  intros Hp. induction p as [|c p IH]; [cbn [app]; by destruct (printf_loop d fmt false ap)|].
  cbn [plain forallb] in Hp. apply andb_true_iff in Hp as [[H0 H37]%andb_true_iff Hp].
  cbn [app printf_loop]. apply negb_true_iff in H0, H37. rewrite H0, H37, IH by done. cbn [negb].
  by destruct (printf_loop d fmt false ap).
Qed.

Lemma printf_s d fmt a ap s : string_arg d a = Some s ->
  printf_loop d (37 :: 115 :: fmt) false (a :: ap) = app s <$> printf_loop d fmt false ap.
Proof.
  intros H. change (printf_loop d (37 :: 115 :: fmt) false (a :: ap)) with
    (match string_arg d a with None => None | Some s => app s <$> printf_loop d fmt false ap end). by rewrite H.
Qed.

Lemma printf_d d fmt a ap s : printint digits_upper (i32 a) 10 true = Some s ->
  printf_loop d (37 :: 100 :: fmt) false (a :: ap) = app s <$> printf_loop d fmt false ap.
Proof.
  intros H. change (printf_loop d (37 :: 100 :: fmt) false (a :: ap)) with
    (match printint digits_upper (i32 a) 10 true with None => None | Some s => app s <$> printf_loop d fmt false ap end).
  by rewrite H.
Qed.

(** A message with one name in it. *)
Lemma formatted_s p q a s : plain p = true -> plain q = true -> put_string a = Some s ->
  formatted ((p ++ 37 :: 115 :: q) ++ [0]) [PStr a] = Some (p ++ s ++ q).
Proof.
  intros Hp Hq Hs. unfold formatted, printf. rewrite <- app_assoc, printf_plain by done.
  cbn [app]. change (parg_words [PStr a]) with [1].
  rewrite (printf_s _ _ _ _ s) by done. rewrite printf_plain by done. cbn. by rewrite app_nil_r.
Qed.

(** ** cat *)

Lemma at_obj_twice o b b' w : at_obj o b' (at_obj o b w) = at_obj o b' w.
Proof. unfold at_obj, set_objs. cbn. by rewrite list_insert_insert_eq. Qed.

(** The bytes of the file a path names. *)
Definition contents (w : world) (path : list Z) : option (list Z) :=
  match w_names w !! path with
  | Some i => match w_nodes w !! i with Some (NFile bytes) => Some bytes | _ => None end
  | None => None
  end.

(** An argument: a C string that names a file or nothing. *)
Definition arg_ok (w : world) (a : list Z) : Prop :=
  is_Some (put_string a) /\ (w_names w !! a = None \/ is_Some (contents w a)).

Lemma wp_copy Q F fd o path i bytes off w :
  fd_obj fd w = Some (o, OFile path 0 i off) -> w_nodes w !! i = Some (NFile bytes) -> on_cons 1 w -> (off <= length bytes)%nat ->
  Q 0 (out (drop off bytes) (at_obj o (OFile path 0 i (length bytes)) w)) ->
  wp kcall Q F (Cat.copy fd) w.
Proof.
  remember (length bytes - off)%nat as m eqn:Em. revert off w Em. induction m as [m IH] using lt_wf_ind.
  intros off w Em Hfd Hn Hc Hle H. apply wp_while. eapply wp_read_file; [done..|].
  set (bs := take (Z.to_nat 512) (drop off bytes)). set (w1 := at_obj o _ w).
  assert (Hl : length bs = Nat.min 512 (length bytes - off)) by (unfold bs; rewrite length_take, length_drop; lia).
  destruct (Z.gtb_spec (zlen bs) 0) as [Hpos|Hz]; unfold zlen in *.
  - assert (Hfd1 : fd_obj fd w1 = Some (o, OFile path 0 i (off + length bs))) by by eapply fd_obj_at.
    destruct (on_cons_at _ _ _ (OFile path 0 i (off + length bs)) 1 _ Hfd ltac:(done) Hc) as [o1 Ho1].
    eapply wp_write_cons; [exact Ho1|]. rewrite Nat2Z.id, (take_ge bs) by lia.
    apply wp_ret. eapply (IH (length bytes - (off + length bs))%nat); [lia|reflexivity|done|done|by exists o1|lia|].
    rewrite out_at, out_out. unfold w1. rewrite at_obj_twice.
    replace (bs ++ drop (off + length bs) bytes) with (drop off bytes); [done|].
    rewrite <- (take_drop (length bs) (drop off bytes)) at 1. rewrite drop_drop. f_equal.
    unfold bs at 1. rewrite length_take, <- take_take, (take_ge _ (length (drop off bytes))) by lia. done.
  - apply wp_ret. unfold w1. assert (E : bs = []) by (apply length_zero_iff_nil; lia). rewrite E in *. cbn [length] in *.
    rewrite (drop_ge bytes) in H by lia. rewrite out_nil in H. replace (off + 0)%nat with (length bytes) by lia. done.
Qed.

Lemma wp_cat Q F fd o path i bytes w :
  fd_obj fd w = Some (o, OFile path 0 i 0) -> w_nodes w !! i = Some (NFile bytes) -> on_cons 1 w ->
  Q tt (out bytes (at_obj o (OFile path 0 i (length bytes)) w)) -> wp kcall Q F (Cat.cat fd) w.
Proof. intros Hfd Hn Hc H. apply wp_bind. eapply wp_copy; [done..|lia|]. rewrite drop_0. by apply wp_ret. Qed.

(** The same process after it has printed [bs] and closed what it had opened. *)
Record printed (w : world) (bs : list Z) (w' : world) : Prop := {
  pr_names : w_names w' = w_names w;
  pr_nodes : w_nodes w' = w_nodes w;
  pr_fds : w_fds w' = w_fds w;
  pr_obj : forall fd p, fd_obj fd w = Some p -> fd_obj fd w' = Some p;
  pr_kids : w_kids w' = w_kids w;
  pr_room : w_room w' = w_room w;
  pr_output : w_output w' = w_output w ++ bs
}.

Lemma printed_out w bs : printed w bs (out bs w).
Proof. by constructor. Qed.
Lemma printed_trans w bs w1 cs w2 : printed w bs w1 -> printed w1 cs w2 -> printed w (bs ++ cs) w2.
Proof. intros [] []. constructor; try congruence; [auto|]. rewrite app_assoc. congruence. Qed.
Lemma printed_cons w bs w' fd : printed w bs w' -> on_cons fd w -> on_cons fd w'.
Proof. intros H [o Ho]. exists o. by apply (pr_obj _ _ _ H). Qed.
Lemma printed_contents w bs w' a : printed w bs w' -> contents w' a = contents w a.
Proof. intros H. unfold contents. by rewrite (pr_names _ _ _ H), (pr_nodes _ _ _ H). Qed.
Lemma printed_arg w bs w' a : printed w bs w' -> arg_ok w a -> arg_ok w' a.
Proof. intros H [H1 H2]. split; [done|]. by rewrite (pr_names _ _ _ H), (printed_contents _ _ _ _ H). Qed.

(** Closing the file opened last. *)
Lemma printed_close b b' w fd w1 bs :
  new_fd b w = Some (fd, w1) ->
  let w2 := out bs (at_obj (length (w_objs w)) b' w1) in
  fd_obj fd w2 = Some (length (w_objs w), b') /\ printed w bs (set_objs (w_objs w2) (zset (w_fds w2) fd None) w2).
Proof.
  intros H w2. destruct (new_fd_spec _ _ _ _ H) as (H0 & H1 & H2 & H3 & H4 & H5).
  split; [by apply (fd_obj_at _ _ b)|]. unfold w2. rewrite H2. constructor; try done.
  intros fd' [o b0] (G1 & G2 & G3)%fd_obj_Some. apply fd_obj_Some. cbn. rewrite H4, H3. split_and!; [done..|].
  rewrite list_lookup_insert_ne by (apply lookup_lt_Some in G3; lia). by apply lookup_app_l_Some.
Qed.

(** The process has a descriptor and the system a slot for another open file. *)
Definition can_open (w : world) : Prop := is_Some (fd_scan 0 (w_fds w)) /\ w_room w = true.

(** Opening a file, working on it, and closing it. *)
Lemma wp_on_file (body : Z -> prog unit) (rest : prog unit) (no : prog unit) Q F a bytes bs w :
  contents w a = Some bytes -> can_open w ->
  (forall P fd o i w1, fd_obj fd w1 = Some (o, OFile a 0 i 0) -> w_nodes w1 !! i = Some (NFile bytes) ->
     (forall fd', on_cons fd' w -> on_cons fd' w1) ->
     P tt (out bs (at_obj o (OFile a 0 i (length bytes)) w1)) -> wp kcall P F (body fd) w1) ->
  (forall w', printed w bs w' -> wp kcall Q F rest w') ->
  wp kcall Q F (let* fd := sys (open a 0) in if fd <? 0 then no else body fd ;;; sys (close fd) ;;; rest) w.
Proof.
  intros Hc [[nfd Hfree] Hroom] Hb Hr. unfold contents in Hc. destruct (w_names w !! a) as [i|] eqn:E1; [|done].
  destruct (w_nodes w !! i) as [[b| |]|] eqn:E2; try done. injection Hc as ->.
  destruct (new_fd (OFile a 0 i 0) w) as [[fd w1]|] eqn:E3; [|unfold new_fd in E3; by rewrite Hfree in E3].
  destruct (new_fd_spec _ _ _ _ E3) as (H0 & H1 & H2 & H3 & H4 & H5).
  destruct (printed_close _ (OFile a 0 i (length bytes)) _ _ _ bs E3) as [G1 G2].
  eapply wp_open_file; [done..|]. rewrite (proj2 (Z.ltb_ge _ _) H0). apply wp_bind. eapply Hb; [exact H1| | |].
  - rewrite H2. done.
  - intros fd' [o Ho]. exists o. auto.
  - eapply wp_close; [exact G1|]. auto.
Qed.

Lemma wp_complain {A} p q a s (P : A -> world -> Prop) F fd w :
  plain p = true -> plain q = true -> put_string a = Some s -> on_cons fd w ->
  F Exited (out (p ++ s ++ q) w) -> wp kcall P F (fprintf fd (p ++ 37 :: 115 :: q) [PStr a] ;;; sys_exit) w.
Proof. intros Hp Hq Hs Hc H. apply wp_bind. eapply wp_fprintf; [by apply formatted_s|done|]. by apply wp_exit. Qed.

(** ** Programs that work on the files they are given *)

(** The loop of main in cat.c and wc.c. *)
Fixpoint on_files (msg : list Z) (body : Z -> list Z -> prog unit) (args : list (list Z)) : prog unit :=
  match args with
  | [] => Ret tt
  | a :: args =>
      let* fd := sys (open a 0) in
      if fd <? 0 then fprintf 1 (msg ++ 37 :: 115 :: nl) [PStr a] ;;; sys_exit
      else body fd a ;;; sys (close fd) ;;; on_files msg body args
  end.

(** What it prints: [g] of the files, up to the first that is missing. *)
Fixpoint files_spec (msg : list Z) (g : list Z -> list Z -> list Z) (w : world) (args : list (list Z)) : list Z :=
  match args with
  | [] => []
  | a :: args =>
      match contents w a with
      | Some bytes => g a bytes ++ files_spec msg g w args
      | None => msg ++ default [] (put_string a) ++ nl
      end
  end.

Section OnFiles.
Context (msg : list Z) (body : Z -> list Z -> prog unit) (g : list Z -> list Z -> list Z) (ok : list Z -> list Z -> Prop).
Hypothesis Hmsg : plain msg = true.
Hypothesis Hbody : forall P F a bytes fd o i w, ok a bytes -> fd_obj fd w = Some (o, OFile a 0 i 0) ->
  w_nodes w !! i = Some (NFile bytes) -> on_cons 1 w ->
  P tt (out (g a bytes) (at_obj o (OFile a 0 i (length bytes)) w)) -> wp kcall P F (body fd a) w.

Definition args_ok (w : world) : list (list Z) -> Prop :=
  Forall (fun a => arg_ok w a /\ forall bytes, contents w a = Some bytes -> ok a bytes).

Lemma files_spec_printed w bs w' args : printed w bs w' -> files_spec msg g w args = files_spec msg g w' args.
Proof.
  intros Hp. induction args as [|b args IH]; [done|]. cbn [files_spec]. rewrite (printed_contents _ _ _ _ Hp). by rewrite IH.
Qed.

Lemma wp_on_files args w :
  on_cons 1 w -> can_open w -> args_ok w args ->
  let post := fun w' => printed w (files_spec msg g w args) w' in
  wp kcall (fun _ => post) (fun f w' => f = Exited /\ post w') (on_files msg body args) w.
Proof using All.
  intros Hc Hfree Hok post. subst post. revert w Hc Hfree Hok. induction args as [|a args IH]; intros w Hc Hfree Hok.
  - apply wp_ret. rewrite <- (out_nil w) at 3. apply printed_out.
  - apply Forall_cons in Hok as [[[[s Hs] Ha] Hk] Hok]. cbn [on_files files_spec]. destruct (contents w a) as [bytes|] eqn:Ec.
    + eapply wp_on_file; [exact Ec|done| |].
      * intros P fd o i w1 H1 H2 H3 HP. eapply Hbody; eauto.
      * intros w' Hp. rewrite (files_spec_printed _ _ _ args Hp). eapply wp_mono; [apply (IH w')|..].
        -- by eapply printed_cons.
        -- split; [rewrite (pr_fds _ _ _ Hp)|rewrite (pr_room _ _ _ Hp)]; apply Hfree.
        -- eapply Forall_impl; [exact Hok|]. intros b [Hb1 Hb2]. split; [by eapply printed_arg|].
           intros c. rewrite (printed_contents _ _ _ _ Hp). apply Hb2.
        -- intros [] w'' Hp'. by eapply printed_trans.
        -- intros f w'' [-> Hp']. split; [done|]. by eapply printed_trans.
    + destruct Ha as [Ha|[? Ha]]; [|congruence]. eapply wp_open_missing; [done..|]. change (-1 <? 0) with true. cbv iota.
      rewrite Hs. apply (wp_complain msg nl a s); [done..|]. split; [done|]. apply printed_out.
Qed.

Lemma wp_files_exit args w :
  on_cons 1 w -> can_open w -> args_ok w args ->
  wp kcall (fun _ _ => False)
    (fun f w' => f = Exited /\ w_output w' = w_output w ++ files_spec msg g w args /\ w_fds w' = w_fds w)
    (on_files msg body args ;;; @sys_exit Empty_set) w.
Proof using All.
  intros Hc Hfree Hok. apply wp_bind. eapply wp_mono; [by apply wp_on_files|..].
  - intros [] w' Hp. apply wp_exit. split; [done|]. split; [apply (pr_output _ _ _ Hp)|apply (pr_fds _ _ _ Hp)].
  - intros f w' [-> Hp]. split; [done|]. split; [apply (pr_output _ _ _ Hp)|apply (pr_fds _ _ _ Hp)].
Qed.

End OnFiles.

Definition cat_spec : world -> list (list Z) -> list Z := files_spec (lit "cat: cannot open ") (fun _ bytes => bytes).

(** cat prints its files.  Started with a console as standard output and
    names of files or of nothing, cat ends; it has written the contents of the
    files one after the other, up to the first name that does not exist, which
    it reports, and every descriptor it opened is closed. *)
Theorem cat_prints argv w :
  2 <= zlen argv -> on_cons 1 w -> can_open w -> Forall (arg_ok w) (tail argv) ->
  wp kcall (fun _ _ => False)
    (fun f w' => f = Exited /\ w_output w' = w_output w ++ cat_spec w (tail argv) /\ w_fds w' = w_fds w)
    (Cat.main argv) w.
Proof.
  intros Hl Hc Hfree Hok. unfold Cat.main. rewrite (proj2 (Z.leb_gt _ _)) by lia.
  assert (E : Cat.files (tail argv) = on_files (lit "cat: cannot open ") (fun fd _ => Cat.cat fd) (tail argv)).
  { generalize (tail argv) as l. induction l as [|a l IH]; [done|]. cbn [Cat.files on_files]. by rewrite IH. }
  rewrite E. eapply (wp_files_exit _ _ (fun _ bytes => bytes) (fun _ _ => True)); [done| |done|done|].
  - intros. eapply wp_cat; eauto.
  - eapply Forall_impl; [exact Hok|]. done.
Qed.

(** ** wc *)

(** The words of a text: its maximal runs of bytes that are not blank. *)
Definition is_blank (b : Z) : bool := bool_decide (b ∈ [32; 13; 9; 10; 11]).
Fixpoint split_blank (bs : list Z) : list (list Z) :=
  match bs with
  | [] => [[]]
  | b :: bs =>
      match split_blank bs with
      | p :: ps => if is_blank b then [] :: p :: ps else (b :: p) :: ps
      | [] => []
      end
  end.
Definition words_of (bs : list Z) : list (list Z) := filter (fun p => p <> []) (split_blank bs).
Definition newlines (bs : list Z) : Z := zlen (filter (fun b => b = 10) bs).

Lemma strchr_blanks b : exists r, Ulib.strchr Wc.blanks b = Some r /\ (is_blank b = match r with Some _ => true | None => false end).
Proof.
  unfold is_blank, Wc.blanks. cbn [Ulib.strchr]. change (0 =? 0) with true.
  repeat match goal with |- context [?x =? 0] => change (x =? 0) with false end. cbv iota.
  repeat match goal with |- context [?x =? b] => destruct (Z.eqb_spec x b) as [<-|?]; [by eexists|] end.
  exists None. split; [done|]. apply bool_decide_eq_false. set_unfold. naive_solver congruence.
Qed.

(** Words counted by the loop: a new one at each byte that follows a blank. *)
Fixpoint count_words (inw : bool) (bs : list Z) : Z :=
  match bs with
  | [] => 0
  | b :: bs => if is_blank b then count_words false bs else (if inw then 0 else 1) + count_words true bs
  end.

Lemma zlen_nonempty (p : list Z) ps :
  zlen (filter (fun p => p <> []) (p :: ps)) = match p with [] => 0 | _ => 1 end + zlen (filter (fun p => p <> []) ps).
Proof.
  rewrite filter_cons. case_decide as H; destruct p; unfold zlen; cbn [length]; try lia; done.
Qed.

Lemma count_words_split inw bs :
  count_words inw bs = zlen (filter (fun p => p <> []) (tail (split_blank bs))) +
    (if inw then 0 else match split_blank bs with [] => 0 | [] :: _ => 0 | _ :: _ => 1 end).
Proof.
  revert inw. induction bs as [|b bs IH]; intros inw; [by destruct inw|]. cbn [count_words split_blank].
  assert (Hne : exists p ps, split_blank bs = p :: ps).
  { clear IH. induction bs as [|c bs (p & ps & IH)]; [by eexists _, _|]. cbn. rewrite IH. destruct (is_blank c); by eexists _, _. }
  destruct Hne as (p & ps & E). rewrite !IH, E. destruct (is_blank b); cbn [tail].
  - rewrite zlen_nonempty. destruct p; destruct inw; lia.
  - destruct inw; lia.
Qed.

Lemma count_words_of bs : count_words false bs = zlen (words_of bs).
Proof.
  rewrite count_words_split. unfold words_of. destruct (split_blank bs) as [|p ps]; [done|]. rewrite zlen_nonempty. cbn [tail].
  destruct p; lia.
Qed.

(** Whether a word is open at the end. *)
Fixpoint ends_in_word (inw : bool) (bs : list Z) : bool :=
  match bs with [] => inw | b :: bs => ends_in_word (negb (is_blank b)) bs end.

Lemma count_words_app inw bs cs :
  count_words inw (bs ++ cs) = count_words inw bs + count_words (ends_in_word inw bs) cs.
Proof.
  revert inw. induction bs as [|b bs IH]; intros inw; [done|]. cbn [app count_words ends_in_word].
  destruct (is_blank b); rewrite IH; cbn [negb]; lia.
Qed.
Lemma newlines_app bs cs : newlines (bs ++ cs) = newlines bs + newlines cs.
Proof. unfold newlines. by rewrite filter_app, zlen_app. Qed.
Lemma counts_le inw bs : 0 <= newlines bs <= zlen bs /\ 0 <= count_words inw bs <= zlen bs.
Proof.
  split.
  - unfold newlines, zlen. pose proof (length_filter (fun b => b = 10) bs). lia.
  - revert inw. induction bs as [|b bs IH]; intros inw; cbn [count_words]; [done|].
    assert (zlen (b :: bs) = zlen bs + 1) by (unfold zlen; cbn [length]; lia).
    pose proof (IH true). pose proof (IH false). destruct (is_blank b), inw; lia.
Qed.

(** The counters after some more input. *)
Lemma count_all_run s bs : 0 <= Wc.wl s <= Wc.wch s -> 0 <= Wc.ww s <= Wc.wch s -> Wc.wch s + zlen bs < 2147483647 ->
  exists inw, Wc.count_all s bs =
    Some (Wc.MkCounts (Wc.wl s + newlines bs) (Wc.ww s + count_words (Wc.inword s) bs) (Wc.wch s + zlen bs) inw) /\
    inw = ends_in_word (Wc.inword s) bs.
Proof.
  revert s. induction bs as [|b bs IH]; intros s Hl Hw Hc.
  - exists (Wc.inword s). split; [|done]. cbn. destruct s. cbn. unfold newlines, zlen. cbn. repeat f_equal; lia.
  - assert (Hz : zlen (b :: bs) = zlen bs + 1) by (unfold zlen; cbn [length]; lia). rewrite Hz in *. pose proof (zlen_nonneg bs) as Hn.
    assert (Hin : forall n, 0 <= n <= Wc.wch s -> Wc.incr n = Some (n + 1)).
    { intros n Hr. unfold Wc.incr. by rewrite (proj2 (Z.eqb_neq _ _)) by lia. }
    cbn [Wc.count_all]. destruct (strchr_blanks b) as (r & Hr & Hb).
    set (s' := Wc.MkCounts (Wc.wl s + if b =? 10 then 1 else 0)
      (Wc.ww s + if is_blank b then 0 else if Wc.inword s then 0 else 1) (Wc.wch s + 1) (negb (is_blank b))).
    assert (Hs : Wc.count s b = Some s').
    { unfold Wc.count, s'. rewrite (Hin (Wc.wch s)) by lia. cbn [mbind option_bind]. rewrite Hr, Hb. rewrite !Hin by lia.
      destruct (b =? 10), r, (Wc.inword s); cbn; rewrite ?Hin by lia; cbn; repeat f_equal; lia. }
    rewrite Hs. cbn [mbind option_bind].
    destruct (IH s') as (inw & E & Hi); unfold s'; cbn; try (destruct (b =? 10); destruct (is_blank b); destruct (Wc.inword s); lia).
    exists inw. split; [|exact Hi]. fold s'. rewrite E. unfold s'. cbn. unfold newlines. rewrite filter_cons.
    replace (if decide (b = 10) then b :: filter (fun b => b = 10) bs else filter (fun b => b = 10) bs)
      with ((if b =? 10 then [b] else []) ++ filter (fun b => b = 10) bs)
      by (destruct (Z.eqb_spec b 10); case_decide; done).
    rewrite zlen_app. f_equal. f_equal; destruct (b =? 10), (is_blank b), (Wc.inword s); cbn; unfold zlen; cbn [length]; lia.
Qed.

Lemma wp_count Q F fd o path i bytes off s w :
  fd_obj fd w = Some (o, OFile path 0 i off) -> w_nodes w !! i = Some (NFile bytes) -> (off <= length bytes)%nat ->
  0 <= Wc.wl s <= Wc.wch s -> 0 <= Wc.ww s <= Wc.wch s -> Wc.wch s + zlen (drop off bytes) < 2147483647 ->
  (forall inw, let d := drop off bytes in
    Q (0, Wc.MkCounts (Wc.wl s + newlines d) (Wc.ww s + count_words (Wc.inword s) d) (Wc.wch s + zlen d) inw)
      (at_obj o (OFile path 0 i (length bytes)) w)) ->
  wp kcall Q F (while (fun s =>
    let* (n, buf) := sys (read fd 512) in
    if n >? 0 then let* s := defined (Wc.count_all s (take (Z.to_nat n) buf)) in Ret (inl s) else Ret (inr (n, s))) s) w.
Proof.
  remember (length bytes - off)%nat as m eqn:Em. revert off s w Em. induction m as [m IH] using lt_wf_ind.
  intros off s w Em Hfd Hn Hle Hl Hw Hc H. apply wp_while. eapply wp_read_file; [done..|].
  set (d := drop off bytes) in *. set (bs := take (Z.to_nat 512) d). set (w1 := at_obj o _ w).
  assert (Hd : d = bs ++ drop (off + length bs) bytes).
  { rewrite <- drop_drop. fold d. rewrite <- (take_drop (length bs) d) at 1. f_equal.
    unfold bs at 1. rewrite length_take, <- take_take, (take_ge _ (length d)) by lia. done. }
  assert (Hlen : length bs = Nat.min 512 (length bytes - off)) by (unfold bs, d; rewrite length_take, length_drop; lia).
  pose proof (zlen_nonneg bs) as Hz. pose proof (zlen_nonneg (drop (off + length bs) bytes)) as Hz2.
  assert (Hzd : zlen d = zlen bs + zlen (drop (off + length bs) bytes)) by (rewrite Hd at 1; apply zlen_app).
  destruct (Z.gtb_spec (zlen bs) 0) as [Hpos|Hz0].
  - unfold zlen at 1. rewrite Nat2Z.id, (take_ge bs) by lia.
    destruct (count_all_run s bs Hl Hw ltac:(lia)) as (inw & E & Hin). rewrite E. apply wp_bind, wp_ret, wp_ret.
    assert (0 <= newlines bs <= zlen bs /\ 0 <= count_words (Wc.inword s) bs <= zlen bs) as [Hnl Hcw] by apply counts_le.
    eapply (IH (length bytes - (off + length bs))%nat); [unfold zlen in *; lia|reflexivity|by eapply fd_obj_at|done|lia|cbn; lia..|].
    intros inw'. cbn. unfold w1. rewrite at_obj_twice. specialize (H inw'). rewrite Hd in H. cbv zeta in H.
    rewrite newlines_app, count_words_app, zlen_app, <- Hin in H. by rewrite !Z.add_assoc in *.
  - apply wp_ret. unfold w1. assert (E : bs = []) by (apply length_zero_iff_nil; unfold zlen in Hz0; lia).
    specialize (H (Wc.inword s)). rewrite Hd in H. rewrite E in *. cbn [length] in *. rewrite drop_ge in H by lia.
    replace (off + 0)%nat with (length bytes) by lia. destruct s. cbn in H. unfold newlines, zlen in H. cbn in H. by rewrite !Z.add_0_r in H.
Qed.

Definition dec (n : Z) : list Z := default [] (printint digits_upper n 10 true).

Lemma printint_dec n : 0 <= n < 2147483648 -> printint digits_upper (i32 n) 10 true = Some (dec n).
Proof.
  intros Hn. assert (i32 n = n) as -> by (unfold i32, u32; dlia).
  destruct (printint_fits digits_upper n 10 true ltac:(auto) ltac:(lia)) as (s & E & _). unfold dec. by rewrite E.
Qed.

(** The line wc prints: lines, words and bytes. *)
Definition wc_line (name bytes : list Z) : list Z :=
  dec (newlines bytes) ++ [32] ++ dec (zlen (words_of bytes)) ++ [32] ++ dec (zlen bytes) ++ [32] ++ default [] (put_string name) ++ nl.

Lemma formatted_counts l w c a s : 0 <= l < 2147483648 -> 0 <= w < 2147483648 -> 0 <= c < 2147483648 -> put_string a = Some s ->
  formatted ((lit "%d %d %d %s" ++ nl) ++ [0]) [PInt l; PInt w; PInt c; PStr a] =
    Some (dec l ++ [32] ++ dec w ++ [32] ++ dec c ++ [32] ++ s ++ nl).
Proof.
  intros Hl Hw Hc Hs. unfold formatted, printf.
  change ((lit "%d %d %d %s" ++ nl) ++ [0]) with (37 :: 100 :: [32] ++ 37 :: 100 :: [32] ++ 37 :: 100 :: [32] ++ 37 :: 115 :: nl ++ [0]).
  change (parg_words [PInt l; PInt w; PInt c; PStr a]) with [l; w; c; 4].
  rewrite !(printf_d _ _ _ _ _ (printint_dec _ Hl)), (printf_plain _ [32]), !(printf_d _ _ _ _ _ (printint_dec _ Hw)),
    (printf_plain _ [32]), !(printf_d _ _ _ _ _ (printint_dec _ Hc)), (printf_plain _ [32]) by done.
  rewrite (printf_s _ _ _ _ s), printf_plain by done. done.
Qed.

Lemma wp_wc P F a s bytes fd o i w :
  put_string a = Some s -> zlen bytes < 2147483647 -> fd_obj fd w = Some (o, OFile a 0 i 0) ->
  w_nodes w !! i = Some (NFile bytes) -> on_cons 1 w ->
  P tt (out (wc_line a bytes) (at_obj o (OFile a 0 i (length bytes)) w)) -> wp kcall P F (Wc.wc fd a) w.
Proof.
  intros Hs Hlen Hfd Hn Hc H. apply wp_bind. unfold Wc.loop. eapply wp_count; [done..|lia|cbn; lia|cbn; lia|by rewrite drop_0|].
  rewrite drop_0. intros inw d. cbn [Wc.wl Wc.ww Wc.wch Wc.inword]. change (0 <? 0) with false. cbv iota. rewrite !Z.add_0_l.
  destruct (counts_le false bytes) as [H1 H2]. rewrite count_words_of in H2. unfold d. rewrite count_words_of.
  eapply wp_fprintf; [apply formatted_counts; [lia..|exact Hs]|by eapply on_cons_at|]. unfold wc_line in H. by rewrite Hs in H.
Qed.

(** wc counts what it reads.  For every file the line printed has the number of
    newlines, of maximal runs of bytes that are not blank, and of bytes, although
    the file is read in pieces that can split a word; like cat, wc stops at the
    first name that does not exist. *)
Theorem wc_counts argv w :
  2 <= zlen argv -> on_cons 1 w -> can_open w -> Forall (arg_ok w) (tail argv) ->
  (forall a bytes, contents w a = Some bytes -> zlen bytes < 2147483647) ->
  wp kcall (fun _ _ => False)
    (fun f w' => f = Exited /\
       w_output w' = w_output w ++ files_spec (lit "wc: cannot open ") wc_line w (tail argv) /\ w_fds w' = w_fds w)
    (Wc.main argv) w.
Proof.
  intros Hl Hc Hfree Hok Hlen. unfold Wc.main. rewrite (proj2 (Z.leb_gt _ _)) by lia.
  assert (E : Wc.files (tail argv) = on_files (lit "wc: cannot open ") Wc.wc (tail argv)).
  { generalize (tail argv) as l. induction l as [|a l IH]; [done|]. cbn [Wc.files on_files]. by rewrite IH. }
  rewrite E. eapply (wp_files_exit _ _ wc_line (fun a bytes => is_Some (put_string a) /\ zlen bytes < 2147483647)); [done| |done|done|].
  - intros P F a bytes fd o i v [[s Hs] Hb]. by eapply wp_wc.
  - eapply Forall_impl; [exact Hok|]. intros a Ha. split; [done|]. split; [apply Ha|by eapply Hlen].
Qed.

(** Two files, and a name that is not there. *)
Definition ex_user : world :=
  MkWorld {[ lit "a" ++ [0] := 5; lit "b" ++ [0] := 6 ]} {[ 5 := NFile (lit "two words" ++ nl); 6 := NFile [] ]} [OCons]
    (replicate 3 (Some 0%nat) ++ replicate 13 None) [] [] [] true.
Definition ex_argv (prog : string) : list (list Z) := map (fun s => lit s ++ [0]) [prog; "a"; "b"; "c"]%string.

Lemma ex_user_args p : Forall (arg_ok ex_user) (tail (ex_argv p)).
Proof.
  unfold ex_argv. cbn [map tail]. apply Forall_cons. split; [split; [by eexists|right; eexists; vm_compute; reflexivity]|].
  apply Forall_cons. split; [split; [by eexists|right; eexists; vm_compute; reflexivity]|].
  apply Forall_cons. split; [split; [by eexists|left; vm_compute; reflexivity]|done].
Qed.

Lemma cat_prints_witness :
  cat_spec ex_user (tail (ex_argv "cat")) = lit "two words" ++ nl ++ lit "cat: cannot open c" ++ nl /\
  wp kcall (fun _ _ => False)
    (fun f w' => f = Exited /\ w_output w' = w_output ex_user ++ cat_spec ex_user (tail (ex_argv "cat")) /\ w_fds w' = w_fds ex_user)
    (Cat.main (ex_argv "cat")) ex_user.
Proof.
  split; [vm_compute; reflexivity|]. apply (cat_prints (ex_argv "cat") ex_user).
  - vm_compute. congruence.
  - exists 0%nat. reflexivity.
  - split; [eexists|]; reflexivity.
  - apply ex_user_args.
Defined.

Lemma wc_counts_witness :
  wp kcall (fun _ _ => False)
    (fun f w' => f = Exited /\
       w_output w' = w_output ex_user ++ lit "1 2 10 a" ++ nl ++ lit "0 0 0 b" ++ nl ++ lit "wc: cannot open c" ++ nl /\
       w_fds w' = w_fds ex_user)
    (Wc.main (ex_argv "wc")) ex_user.
Proof.
  assert (E : files_spec (lit "wc: cannot open ") wc_line ex_user (tail (ex_argv "wc")) =
    lit "1 2 10 a" ++ nl ++ lit "0 0 0 b" ++ nl ++ lit "wc: cannot open c" ++ nl) by (vm_compute; reflexivity).
  rewrite <- E. apply (wc_counts (ex_argv "wc") ex_user).
  - vm_compute. congruence.
  - exists 0%nat. reflexivity.
  - split; [eexists|]; reflexivity.
  - apply ex_user_args.
  - intros a bytes H. unfold contents in H. destruct (w_names ex_user !! a) as [i|]; [|done].
    destruct (w_nodes ex_user !! i) as [[b| |]|] eqn:Ei; try done. injection H as ->. unfold ex_user in Ei. cbn [w_nodes] in Ei.
    apply lookup_insert_Some in Ei as [[<- [= <-]]|[_ Ei]]; [vm_compute; reflexivity|].
    apply lookup_singleton_Some in Ei as [<- [= <-]]. vm_compute. reflexivity.
Defined.

(** ** echo *)

Fixpoint join (l : list (list Z)) : list Z :=
  match l with
  | [] => []
  | [a] => a ++ nl
  | a :: l => a ++ [32] ++ join l
  end.

Lemma wp_echo Q F l ss w :
  on_cons 1 w -> Forall2 (fun a s => put_string a = Some s) l ss -> Q tt (out (join ss) w) -> wp kcall Q F (Echo.args l) w.
Proof.
  intros Hc H. generalize dependent w. induction H as [|a s l ss Ha H IH]; intros w Hc HQ.
  - apply wp_ret. by rewrite out_nil in HQ.
  - cbn [Echo.args]. apply wp_bind. set (sep := match l with [] => nl | _ => [32] end).
    eapply (wp_fprintf _ _ _ _ _ (s ++ sep)); [|done|].
    + unfold formatted, printf. change (lit "%s%s" ++ [0]) with (37 :: 115 :: 37 :: 115 :: [] ++ [0]).
      match goal with |- printf_loop _ _ _ (parg_words ?l) = _ => change (parg_words l) with [1; 2] end.
      rewrite (printf_s _ _ _ _ s), (printf_s _ _ _ _ sep); [|by destruct l|exact Ha].
      cbn. by rewrite app_nil_r.
    + apply IH; [by eapply printed_cons; [apply printed_out|]|]. rewrite out_out. unfold sep.
      destruct H; cbn [join] in HQ |- *; [by rewrite app_nil_r|by rewrite <- app_assoc].
Qed.

(** echo prints its arguments with a blank between them and a newline at the end;
    without arguments it prints nothing. *)
Theorem echo_prints argv ss w :
  on_cons 1 w -> Forall2 (fun a s => put_string a = Some s) (tail argv) ss ->
  wp kcall (fun _ _ => False) (fun f w' => f = Exited /\ w' = out (join ss) w) (Echo.main argv) w.
Proof. intros Hc H. apply wp_bind. eapply wp_echo; [done..|]. by apply wp_exit. Qed.

(** ** ls *)

Lemma strlen_from_run k p rest : Forall (fun c => c <> 0) p -> KString.strlen_from k (p ++ 0 :: rest) = Some (k + zlen p).
Proof.
  intros H. revert k. induction H as [|c p Hc _ IH]; intros k; cbn; [unfold zlen; cbn; f_equal; lia|].
  rewrite (proj2 (Z.eqb_neq _ _) Hc), IH. unfold zlen. cbn [length]. f_equal. lia.
Qed.

Lemma ulib_strlen_run p rest : Forall (fun c => c <> 0) p -> zlen p < 4294967296 -> Ulib.strlen (p ++ 0 :: rest) = Some (zlen p).
Proof.
  intros H Hl. unfold Ulib.strlen. rewrite strlen_from_run by done. cbn. rewrite u32_small; [done|].
  unfold is_u32. pose proof (zlen_nonneg p). lia.
Qed.

Lemma scan_back_dir dir t k : dir = [] \/ last dir = Some slash -> Forall (fun c => c <> slash) (take k t) -> (k <= length t)%nat ->
  Ls.scan_back (length dir + k) (dir ++ t) = length dir.
Proof.
  intros Hd Ht Hk. induction k as [|k IH].
  - rewrite Nat.add_0_r. destruct Hd as [->|Hl]; [done|]. destruct dir as [|x dir _] using rev_ind; [done|].
    rewrite last_snoc in Hl. injection Hl as ->. rewrite length_app. cbn [length]. rewrite Nat.add_1_r. cbn [Ls.scan_back].
    unfold zget. rewrite Nat2Z.id, <- app_assoc, app_nth2, Nat.sub_diag by lia. done.
  - replace (length dir + S k)%nat with (S (length dir + k)) by lia. cbn [Ls.scan_back]. unfold zget.
    rewrite Nat2Z.id, app_nth2, Nat.add_comm, Nat.add_sub by lia.
    destruct (t !! k) as [c|] eqn:E; [|apply lookup_ge_None in E; lia]. rewrite (nth_lookup_Some _ _ _ _ E).
    rewrite (take_S_r _ _ _ E) in Ht. apply Forall_app in Ht as [Ht Hc]. rewrite Forall_singleton in Hc.
    rewrite (proj2 (Z.eqb_neq _ _) Hc), Nat.add_comm. apply IH; [done|lia].
Qed.

(** fmtname gives the last element of a path, padded with blanks to the width of
    a directory entry. *)
Theorem fmtname_last dir name rest :
  Forall (fun c => c <> 0) dir -> Forall (fun c => c <> 0) name -> Forall (fun c => c <> slash) name ->
  zlen dir + zlen name < 4294967296 -> dir = [] \/ last dir = Some slash ->
  Ls.fmtname (dir ++ name ++ 0 :: rest) =
    Some (if zlen name >=? DIRSIZ then name ++ 0 :: rest else name ++ replicate (Z.to_nat (DIRSIZ - zlen name)) 32 ++ [0]).
Proof.
  intros Hd Hn Hs Hl Hlast. pose proof (zlen_nonneg dir) as H1. pose proof (zlen_nonneg name) as H2. unfold Ls.fmtname.
  rewrite app_assoc, ulib_strlen_run by (rewrite ?zlen_app; try lia; by apply Forall_app). cbn [mbind option_bind].
  rewrite zlen_app, <- app_assoc. replace (Z.to_nat (zlen dir + zlen name) + 1)%nat with (length dir + (length name + 1))%nat
    by (unfold zlen; lia).
  rewrite scan_back_dir; [|done| |rewrite length_app; cbn; lia].
  - rewrite drop_app_length, ulib_strlen_run by (done || lia). cbn [mbind option_bind]. destruct (zlen name >=? DIRSIZ); [done|].
    unfold zlen at 1. by rewrite Nat2Z.id, take_app_length.
  - rewrite take_app_add. apply Forall_app. split; [done|]. by apply Forall_singleton.
Qed.

Lemma fmtname_last_example : Ls.fmtname (lit "/bin/" ++ lit "ls" ++ [0]) = Some (lit "ls            " ++ [0]).
Proof. reflexivity. Qed.

(** ** forktest *)

Lemma wp_ft_printf Q F s w : on_cons 1 w -> Q tt (out s w) -> wp kcall Q F (Forktest.printf 1 s) w.
Proof. intros [o Ho] H. eapply wp_write_cons; [exact Ho|]. by apply wp_ret. Qed.

(** [n] children have been started. *)
Definition with_kids (w : world) (n : nat) (w' : world) : Prop :=
  length (w_kids w') = n /\ Forall (fun x => 0 < x) (w_kids w') /\
  w' = set_fs (w_names w') (w_nodes w') (set_kids (w_kids w') w).

Lemma wp_forks Q (F : fin -> world -> Prop) w todo n w1 :
  with_kids w n w1 -> (forall v, w_kids v = [] -> F Exited v) ->
  (forall m w2, (m <= n + todo)%nat -> with_kids w m w2 -> Q (Z.of_nat m) w2) ->
  wp kcall Q F (Forktest.forks todo (Z.of_nat n)) w1.
Proof.
  revert n w1. induction todo as [|todo IH]; intros n w1 Hk HF HQ; cbn [Forktest.forks].
  - apply wp_ret, HQ; [lia|done].
  - apply wp_bind, wp_sys; [done|done|intros _; eexists 0, _; right; exists ∅, ∅; left; split; [done|by exists []]|].
    intros x w2 [[_ [-> ->]]|(names & nodes & [[-> [input ->]]|(Hx & _ & ->)])].
    + change (-1 <? 0) with true. cbv iota. apply wp_ret, HQ; [lia|done].
    + change (0 <? 0) with false. change (0 =? 0) with true. cbv iota. by apply wp_exit, HF.
    + rewrite (proj2 (Z.ltb_ge x 0)), (proj2 (Z.eqb_neq x 0)) by lia. replace (Z.of_nat n + 1) with (Z.of_nat (S n)) by lia.
      destruct Hk as (H1 & H2 & H3). apply IH; [|done|intros m w2 Hm; apply HQ; lia].
      rewrite H3. split_and!; [|apply Forall_app; split; [done|by apply Forall_singleton]|done].
      cbn. rewrite length_app. cbn. lia.
Qed.

Lemma wp_waits Q F w n w1 : with_kids w n w1 -> (forall w2, with_kids w 0 w2 -> Q tt w2) -> wp kcall Q F (Forktest.waits n) w1.
Proof.
  revert w1. induction n as [|n IH]; intros w1 Hk HQ; cbn [Forktest.waits]; [by apply wp_ret, HQ|].
  destruct Hk as (H1 & H2 & H3). destruct (w_kids w1) as [|y l] eqn:E; [done|]. apply wp_bind, wp_sys; [done|done| |].
  - intros _. cbn. unfold k_wait. rewrite E. by exists y, (set_fs ∅ ∅ (set_kids l w1)), [], l, ∅, ∅.
  - intros x w2 Hx. cbn in Hx. unfold k_wait in Hx. rewrite E in Hx. destruct Hx as (a & b & names & nodes & Eab & ->).
    rewrite Eab in H1, H2. apply Forall_app in H2 as [Ha Hb]. apply Forall_cons in Hb as [Hx Hb].
    rewrite (proj2 (Z.ltb_ge x 0)) by lia. apply IH; [|done]. rewrite H3. split_and!; [|by apply Forall_app|done].
    cbn. rewrite !length_app in *. cbn in *. lia.
Qed.

(** forktest accepts the kernel: whatever forks fail, it reports success, or that
    all its forks worked; and it has waited for all its children unless so. *)
Theorem forktest_accepts w :
  on_cons 1 w -> w_kids w = [] ->
  wp kcall (fun _ _ => False)
    (fun f w' => f = Exited /\ (w_kids w' = [] \/
       w_output w' = w_output w ++ (lit "fork test" ++ nl) ++ lit "fork claimed to work N times!" ++ nl))
    Forktest.main w.
Proof.
  intros Hc Hk. apply wp_bind. unfold Forktest.forktest. apply wp_bind, wp_ft_printf; [done|]. set (w1 := out _ w).
  assert (Hc1 : forall m v, with_kids w1 m v -> on_cons 1 v) by (intros m v (_ & _ & ->); exact Hc).
  apply wp_bind. apply (wp_forks _ _ w1 _ 0); [split_and!; change (w_kids w1) with (w_kids w); rewrite ?Hk; [done..|unfold w1; destruct w; cbn in *; by subst]|by auto|].
  intros m v Hm Hv. destruct (Z.of_nat m =? Forktest.N).
  - apply wp_bind, wp_ft_printf; [eauto|]. apply wp_exit. split; [done|]. right. destruct Hv as (_ & _ & ->). cbn. by rewrite <- app_assoc.
  - rewrite Nat2Z.id. apply wp_bind. eapply wp_waits; [exact Hv|]. intros v2 Hv2. pose proof Hv2 as (H1 & _ & _).
    apply length_zero_iff_nil in H1. eapply (wp_sys_eq _ wait _ _ _ _ (-1) v2); [done|done| |].
    { intros y u. cbn. unfold k_wait. by rewrite H1. }
    change (negb (-1 =? -1)) with false. cbv iota. apply wp_ft_printf; [eauto|]. apply wp_exit. split; [done|]. by left.
Qed.
