(* ===== verification/Usertests.v ===== *)
(** * The kernel's own tests, usertests.c

    Each test is a program over the system calls of User.v.  The tests that use the
    global [buf] take its bytes and return them; the characters of a name that a
    test assembles are written out with their NUL. *)

From S2P Require Import Prelude.
From S2P Require Import Params.
From S2P Require Import CString.
From S2P Require Import Fs.
From S2P Require Import Printf.
From S2P Require Import Sh.
From S2P Require Import Sysfile.
From S2P Require Import User.
From S2P Require Import UserProgs.
From ITree Require Import ITree.

Module Usertests.

Definition stdout : Z := 1.

(** A C string, and a format that ends its line. *)
Definition str (s : string) : list Z := lit s ++ [0].
Definition line (s : string) : list Z := lit s ++ nl.
Definition puts (s : string) : prog unit := fprintf stdout (line s) [].
(** A message, and the end of the process. *)
Definition fatal {A} (s : string) : prog A := puts s ;;; sys_exit.
Definition fatalf {A} (s : string) (args : list parg) : prog A := fprintf stdout (line s) args ;;; sys_exit.

(** A buffer after a read has stored [bs] at its start. *)
Definition fill (bs buf : list Z) : list Z := bs ++ drop (length bs) buf.
Definition read_buf (fd n : Z) (buf : list Z) : prog (Z * list Z) :=
  let* (r, bs) := sys (read fd n) in Ret (r, fill bs buf).
Definition memset_buf (c : Z) (n : nat) (buf : list Z) : list Z := fill (replicate n (u8 c)) buf.
(** The value of a signed char. *)
Definition schar (b : Z) : Z := (b + 128) mod 256 - 128.

(** [for(i = a; i < a + n; i++)] with the variables [s] the body changes; [inr] leaves it. *)
Fixpoint for_ {A B} (n : nat) (i : Z) (body : Z -> A -> prog (A + B)) (s : A) : prog (A + B) :=
  match n with
  | O => Ret (inl s)
  | S n =>
      let* r := body i s in
      match r with
      | inl s => for_ n (i + 1) body s
      | inr b => Ret (inr b)
      end
  end.
(** The same for a body that never leaves the loop. *)
Fixpoint for_all {A} (n : nat) (i : Z) (body : Z -> A -> prog A) (s : A) : prog A :=
  match n with
  | O => Ret s
  | S n => let* s := body i s in for_all n (i + 1) body s
  end.

(** ** Directories and inodes in transactions *)

Definition iputtest : prog unit :=
  puts "iput test" ;;;
  let* r := sys (mkdir (str "iputdir")) in
  if r <? 0 then fatal "mkdir failed" else
  let* r := sys (chdir (str "iputdir")) in
  if r <? 0 then fatal "chdir iputdir failed" else
  let* r := sys (unlink (str "../iputdir")) in
  if r <? 0 then fatal "unlink ../iputdir failed" else
  let* r := sys (chdir (str "/")) in
  if r <? 0 then fatal "chdir / failed" else
  puts "iput test ok".

Definition exitiputtest : prog unit :=
  puts "exitiput test" ;;;
  let* pid := sys fork in
  if pid <? 0 then fatal "fork failed" else
  if pid =? 0 then
    let* r := sys (mkdir (str "iputdir")) in
    if r <? 0 then fatal "mkdir failed" else
    let* r := sys (chdir (str "iputdir")) in
    if r <? 0 then fatal "child chdir failed" else
    let* r := sys (unlink (str "../iputdir")) in
    if r <? 0 then fatal "unlink ../iputdir failed" else
    sys_exit
  else
  sys wait ;;;
  puts "exitiput test ok".

Definition openiputtest : prog unit :=
  puts "openiput test" ;;;
  let* r := sys (mkdir (str "oidir")) in
  if r <? 0 then fatal "mkdir oidir failed" else
  let* pid := sys fork in
  if pid <? 0 then fatal "fork failed" else
  if pid =? 0 then
    let* fd := sys (open (str "oidir") O_RDWR) in
    if fd >=? 0 then fatal "open directory for write succeeded" else
    sys_exit
  else
  sys (sleep 1) ;;;
  let* r := sys (unlink (str "oidir")) in
  if negb (r =? 0) then fatal "unlink failed" else
  sys wait ;;;
  puts "openiput test ok".

(** ** Simple file system tests *)

Definition opentest : prog unit :=
  puts "open test" ;;;
  let* fd := sys (open (str "echo") 0) in
  if fd <? 0 then fatal "open echo failed!" else
  sys (close fd) ;;;
  let* fd := sys (open (str "doesnotexist") 0) in
  if fd >=? 0 then fatal "open doesnotexist succeeded!" else
  puts "open test ok".

(** The loop of writetest that fills the file. *)
Definition write_small (fd : Z) : prog unit :=
  for_all 100 0 (fun i _ =>
    let* r := sys (write fd (lit "aaaaaaaaaa")) in
    if negb (r =? 10) then fatalf "error: write aa %d new file failed" [PInt i] else
    let* r := sys (write fd (lit "bbbbbbbbbb")) in
    if negb (r =? 10) then fatalf "error: write bb %d new file failed" [PInt i] else
    Ret tt) tt.

Definition writetest (buf : list Z) : prog (list Z) :=
  puts "small file test" ;;;
  let* fd := sys (open (str "small") (Z.lor O_CREATE O_RDWR)) in
  (if fd >=? 0 then puts "creat small succeeded; ok" else fatal "error: creat small failed!") ;;;
  write_small fd ;;;
  puts "writes ok" ;;;
  sys (close fd) ;;;
  let* fd := sys (open (str "small") O_RDONLY) in
  (if fd >=? 0 then puts "open small succeeded ok" else fatal "error: open small failed!") ;;;
  let* (i, buf) := read_buf fd 2000 buf in
  (if i =? 2000 then puts "read succeeded ok" else fatal "read failed") ;;;
  sys (close fd) ;;;
  let* r := sys (unlink (str "small")) in
  if r <? 0 then fatal "unlink small failed" else
  puts "small file test ok" ;;;
  Ret buf.

(** [MAXFILE] writes, each of a block that starts with its number. *)
Definition write_big (fd : Z) (buf : list Z) : prog (list Z) :=
  for_all (Z.to_nat MAXFILE) 0 (fun i buf =>
    let buf := put32 0 i buf in
    let* r := sys (write fd (take 512 buf)) in
    if negb (r =? 512) then fatalf "error: write big file failed" [PInt i] else
    Ret buf) buf.

Definition read_big (fd : Z) (buf : list Z) : prog (list Z) :=
  while (fun '(n, buf) =>
    let* (i, buf) := read_buf fd 512 buf in
    if i =? 0 then
      if n =? MAXFILE - 1 then fprintf stdout (lit "read only %d blocks from big") [PInt n] ;;; sys_exit
      else Ret (inr buf)
    else if negb (i =? 512) then fatalf "read failed %d" [PInt i]
    else if negb (i32 (get32 0 buf) =? n) then
      fatalf "read content of block %d is %d" [PInt n; PInt (i32 (get32 0 buf))]
    else Ret (inl (n + 1, buf))) (0, buf).

Definition writetest1 (buf : list Z) : prog (list Z) :=
  puts "big files test" ;;;
  let* fd := sys (open (str "big") (Z.lor O_CREATE O_RDWR)) in
  if fd <? 0 then fatal "error: creat big failed!" else
  let* buf := write_big fd buf in
  sys (close fd) ;;;
  let* fd := sys (open (str "big") O_RDONLY) in
  if fd <? 0 then fatal "error: open big failed!" else
  let* buf := read_big fd buf in
  sys (close fd) ;;;
  let* r := sys (unlink (str "big")) in
  if r <? 0 then fatal "unlink big failed" else
  puts "big files ok" ;;;
  Ret buf.

Definition createtest : prog unit :=
  puts "many creates, followed by unlink test" ;;;
  for_all 52 0 (fun i _ => let* fd := sys (open [97; 48 + i; 0] (Z.lor O_CREATE O_RDWR)) in sys (close fd) ;;; Ret tt) tt ;;;
  for_all 52 0 (fun i _ => sys (unlink [97; 48 + i; 0]) ;;; Ret tt) tt ;;;
  puts "many creates, followed by unlink; ok".

Definition dirtest : prog unit :=
  puts "mkdir test" ;;;
  let* r := sys (mkdir (str "dir0")) in
  if r <? 0 then fatal "mkdir failed" else
  let* r := sys (chdir (str "dir0")) in
  if r <? 0 then fatal "chdir dir0 failed" else
  let* r := sys (chdir (str "..")) in
  if r <? 0 then fatal "chdir .. failed" else
  let* r := sys (unlink (str "dir0")) in
  if r <? 0 then fatal "unlink dir0 failed" else
  puts "mkdir test ok".

Definition echoargv : list (list Z) := [str "echo"; str "ALL"; str "TESTS"; str "PASSED"].

Definition exectest : prog unit :=
  puts "exec test" ;;;
  let* r := sys (exec (str "echo") echoargv) in
  if r <? 0 then fatal "exec echo failed" else Ret tt.

(** ** Processes and pipes *)

(** [for(i = 0; i < 1033; i++) buf[i] = seq++] *)
Definition seq_bytes (seq : Z) : list Z := (fun i => u8 (seq + Z.of_nat i)) <$> List.seq 0 1033.

Definition pipe1_child (rd wr : Z) (buf : list Z) : prog unit :=
  sys (close rd) ;;;
  for_all 5 0 (fun _ '(seq, buf) =>
    let buf := fill (seq_bytes seq) buf in
    let* r := sys (write wr (take 1033 buf)) in
    if negb (r =? 1033) then fatal "pipe1 oops 1" else
    Ret (seq + 1033, buf)) (0, buf) ;;;
  sys_exit.

(** Whether the bytes are the next ones of the sequence; [seq++] on the way. *)
Fixpoint in_seq (seq : Z) (bs : list Z) : bool :=
  match bs with
  | [] => true
  | b :: bs => (Z.land b 255 =? Z.land seq 255) && in_seq (seq + 1) bs
  end.

(** The loop that reads; [None] when a byte is wrong, and else what was read in all. *)
Definition pipe1_drain (rd : Z) (buf : list Z) : prog (option Z * list Z) :=
  while (fun '(seq, cc, total, buf) =>
    let* (n, buf) := read_buf rd cc buf in
    if n >? 0 then
      if negb (in_seq seq (take (Z.to_nat n) buf)) then puts "pipe1 oops 2" ;;; Ret (inr (None, buf)) else
      Ret (inl (seq + n, (if cc * 2 >? zlen buf then zlen buf else cc * 2), total + n, buf))
    else Ret (inr (Some total, buf))) (0, 1, 0, buf).

Definition pipe1 (buf : list Z) : prog (list Z) :=
  let* (r, (rd, wr)) := sys pipe in
  if negb (r =? 0) then fatal "pipe() failed" else
  let* pid := sys fork in
  if pid =? 0 then pipe1_child rd wr buf ;;; sys_exit
  else if pid >? 0 then
    sys (close wr) ;;;
    let* (t, buf) := pipe1_drain rd buf in
    match t with
    | None => Ret buf
    | Some total =>
        if negb (total =? 5 * 1033) then fatalf "pipe1 oops 3 total %d" [PInt total] else
        sys (close rd) ;;;
        sys wait ;;;
        puts "pipe1 ok" ;;;
        Ret buf
    end
  else fatal "fork() failed".

(** The empty loops of the children never end; [pfds] is not set when pipe fails. *)
Definition preempt (buf : list Z) : prog (list Z) :=
  fprintf 1 (lit "preempt: ") [] ;;;
  let* pid1 := sys fork in
  if pid1 =? 0 then ITree.spin else
  let* pid2 := sys fork in
  if pid2 =? 0 then ITree.spin else
  let* (r, (rd, wr)) := sys pipe in
  if r <? 0 then undefined "pfds" else
  let* pid3 := sys fork in
  if pid3 =? 0 then
    sys (close rd) ;;;
    let* r := sys (write wr (lit "x")) in
    (if negb (r =? 1) then fprintf 1 (lit "preempt write error") [] else Ret tt) ;;;
    sys (close wr) ;;;
    ITree.spin
  else
  sys (close wr) ;;;
  let* (r, buf) := read_buf rd (zlen buf) buf in
  if negb (r =? 1) then fprintf 1 (lit "preempt read error") [] ;;; Ret buf else
  sys (close rd) ;;;
  fprintf 1 (lit "kill... ") [] ;;;
  sys (kill pid1) ;;;
  sys (kill pid2) ;;;
  sys (kill pid3) ;;;
  fprintf 1 (lit "wait... ") [] ;;;
  sys wait ;;;
  sys wait ;;;
  sys wait ;;;
  puts "preempt ok" ;;;
  Ret buf.

Definition exitwait : prog unit :=
  let* r := for_ 100 0 (fun _ _ =>
    let* pid := sys fork in
    if pid <? 0 then puts "fork failed" ;;; Ret (inr tt) else
    if negb (pid =? 0) then
      let* r := sys wait in
      if negb (r =? pid) then puts "wait wrong pid" ;;; Ret (inr tt) else Ret (inl tt)
    else sys_exit) tt in
  match r with
  | inl _ => puts "exitwait ok"
  | inr _ => Ret tt
  end.

(** fork until it fails, then wait for every child. *)
Definition forktest : prog unit :=
  puts "fork test" ;;;
  let* r := for_ 1000 0 (fun n _ =>
    let* pid := sys fork in
    if pid <? 0 then Ret (inr n) else
    if pid =? 0 then sys_exit else Ret (inl tt)) tt in
  match r with
  | inl _ => fatal "fork claimed to work 1000 times!"
  | inr n =>
      for_all (Z.to_nat n) 0 (fun _ _ =>
        let* r := sys wait in
        if r <? 0 then fatal "wait stopped early" else Ret tt) tt ;;;
      let* r := sys wait in
      if negb (r =? -1) then fatal "wait got too many" else
      puts "fork test OK"
  end.

(** ** Files shared between processes *)

Definition count_in (c : Z) (bs : list Z) : Z := zlen (filter (fun b => b = c) bs).

(** Every read counts all of the ten characters, whatever its length. *)
Definition sharedfd_count (fd : Z) (buf : list Z) : prog (Z * Z) :=
  while (fun '(nc, np, buf) =>
    let* (n, buf) := read_buf fd 10 buf in
    if n >? 0 then Ret (inl (nc + count_in 99 buf, np + count_in 112 buf, buf)) else Ret (inr (nc, np))) (0, 0, buf).

Definition sharedfd : prog unit :=
  puts "sharedfd test" ;;;
  sys (unlink (str "sharedfd")) ;;;
  let* fd := sys (open (str "sharedfd") (Z.lor O_CREATE O_RDWR)) in
  if fd <? 0 then fprintf 1 (lit "fstests: cannot open sharedfd for writing") [] else
  let* pid := sys fork in
  let buf := replicate 10 (if pid =? 0 then 99 else 112) in
  for_ 1000 0 (fun _ _ =>
    let* r := sys (write fd buf) in
    if negb (r =? 10) then puts "fstests: write sharedfd failed" ;;; Ret (inr tt) else Ret (inl tt)) tt ;;;
  (if pid =? 0 then sys_exit else sys wait ;;; Ret tt) ;;;
  sys (close fd) ;;;
  let* fd := sys (open (str "sharedfd") 0) in
  if fd <? 0 then puts "fstests: cannot open sharedfd for reading" else
  let* (nc, np) := sharedfd_count fd buf in
  sys (close fd) ;;;
  sys (unlink (str "sharedfd")) ;;;
  if (nc =? 10000) && (np =? 10000) then puts "sharedfd ok"
  else fatalf "sharedfd oops %d %d" [PInt nc; PInt np].

(** ** Files in several processes *)

Definition fnames : list (list Z) := [str "f0"; str "f1"; str "f2"; str "f3"].

Definition fourfiles_child (pi : Z) (fname buf : list Z) : prog unit :=
  let* fd := sys (open fname (Z.lor O_CREATE O_RDWR)) in
  if fd <? 0 then fatal "create failed" else
  let buf := memset_buf (48 + pi) 512 buf in
  for_all 12 0 (fun _ _ =>
    let* n := sys (write fd (take 500 buf)) in
    if negb (n =? 500) then fatalf "write failed %d" [PInt n] else Ret tt) tt ;;;
  sys_exit.

(** The loop that reads a file of characters ['0' + i]. *)
Definition fourfiles_read (i fd : Z) (buf : list Z) : prog (Z * list Z) :=
  while (fun '(total, buf) =>
    let* (n, buf) := read_buf fd (zlen buf) buf in
    if n >? 0 then
      if forallb (fun b => schar b =? 48 + i) (take (Z.to_nat n) buf) then Ret (inl (total + n, buf)) else fatal "wrong char"
    else Ret (inr (total, buf))) (0, buf).

Definition fourfiles (buf : list Z) : prog (list Z) :=
  puts "fourfiles test" ;;;
  for_all 4 0 (fun pi _ =>
    let fname := nth (Z.to_nat pi) fnames [] in
    sys (unlink fname) ;;;
    let* pid := sys fork in
    if pid <? 0 then fatal "fork failed" else
    if pid =? 0 then fourfiles_child pi fname buf else Ret tt) tt ;;;
  for_all 4 0 (fun _ _ => sys wait ;;; Ret tt) tt ;;;
  let* buf := for_all 2 0 (fun i buf =>
    let fname := nth (Z.to_nat i) fnames [] in
    let* fd := sys (open fname 0) in
    let* (total, buf) := fourfiles_read i fd buf in
    sys (close fd) ;;;
    if negb (total =? 12 * 500) then fatalf "wrong length %d" [PInt total] else
    sys (unlink fname) ;;;
    Ret buf) buf in
  puts "fourfiles ok" ;;;
  Ret buf.

Definition createdelete_child (pi : Z) : prog unit :=
  for_all 20 0 (fun i _ =>
    let* fd := sys (open [112 + pi; 48 + i; 0] (Z.lor O_CREATE O_RDWR)) in
    if fd <? 0 then fatal "create failed" else
    sys (close fd) ;;;
    if (i >? 0) && (Z.rem i 2 =? 0) then
      let* r := sys (unlink [112 + pi; 48 + Z.quot i 2; 0]) in
      if r <? 0 then fatal "unlink failed" else Ret tt
    else Ret tt) tt ;;;
  sys_exit.

Definition createdelete : prog unit :=
  puts "createdelete test" ;;;
  for_all 4 0 (fun pi _ =>
    let* pid := sys fork in
    if pid <? 0 then fatal "fork failed" else
    if pid =? 0 then createdelete_child pi else Ret tt) tt ;;;
  for_all 4 0 (fun _ _ => sys wait ;;; Ret tt) tt ;;;
  for_all 20 0 (fun i _ => for_all 4 0 (fun pi _ =>
    let name := [112 + pi; 48 + i; 0] in
    let* fd := sys (open name 0) in
    if ((i =? 0) || (i >=? 20 / 2)) && (fd <? 0) then fatalf "oops createdelete %s didn't exist" [PStr name]
    else if ((i >=? 1) && (i <? 20 / 2)) && (fd >=? 0) then fatalf "oops createdelete %s did exist" [PStr name]
    else if fd >=? 0 then sys (close fd) ;;; Ret tt else Ret tt) tt) tt ;;;
  for_all 20 0 (fun i _ => for_all 4 0 (fun _ _ => sys (unlink [u8 (112 + i); 48 + i; 0]) ;;; Ret tt) tt) tt ;;;
  puts "createdelete ok".

Definition unlinkread (buf : list Z) : prog (list Z) :=
  puts "unlinkread test" ;;;
  let* fd := sys (open (str "unlinkread") (Z.lor O_CREATE O_RDWR)) in
  if fd <? 0 then fatal "create unlinkread failed" else
  sys (write fd (lit "hello")) ;;;
  sys (close fd) ;;;
  let* fd := sys (open (str "unlinkread") O_RDWR) in
  if fd <? 0 then fatal "open unlinkread failed" else
  let* r := sys (unlink (str "unlinkread")) in
  if negb (r =? 0) then fatal "unlink unlinkread failed" else
  let* fd1 := sys (open (str "unlinkread") (Z.lor O_CREATE O_RDWR)) in
  sys (write fd1 (lit "yyy")) ;;;
  sys (close fd1) ;;;
  let* (r, buf) := read_buf fd (zlen buf) buf in
  if negb (r =? 5) then fprintf 1 (lit "unlinkread read failed") [] ;;; sys_exit else
  if negb (zget buf 0 =? 104) then fatal "unlinkread wrong data" else
  let* r := sys (write fd (take 10 buf)) in
  if negb (r =? 10) then fatal "unlinkread write failed" else
  sys (close fd) ;;;
  sys (unlink (str "unlinkread")) ;;;
  puts "unlinkread ok" ;;;
  Ret buf.

Definition linktest (buf : list Z) : prog (list Z) :=
  puts "linktest" ;;;
  sys (unlink (str "lf1")) ;;;
  sys (unlink (str "lf2")) ;;;
  let* fd := sys (open (str "lf1") (Z.lor O_CREATE O_RDWR)) in
  if fd <? 0 then fatal "create lf1 failed" else
  let* r := sys (write fd (lit "hello")) in
  if negb (r =? 5) then fatal "write lf1 failed" else
  sys (close fd) ;;;
  let* r := sys (link (str "lf1") (str "lf2")) in
  if r <? 0 then fatal "link lf1 lf2 failed" else
  sys (unlink (str "lf1")) ;;;
  let* r := sys (open (str "lf1") 0) in
  if r >=? 0 then fatal "unlinked lf1 but it is still there!" else
  let* fd := sys (open (str "lf2") 0) in
  if fd <? 0 then fatal "open lf2 failed" else
  let* (r, buf) := read_buf fd (zlen buf) buf in
  if negb (r =? 5) then fatal "read lf2 failed" else
  sys (close fd) ;;;
  let* r := sys (link (str "lf2") (str "lf2")) in
  if r >=? 0 then fatal "link lf2 lf2 succeeded! oops" else
  sys (unlink (str "lf2")) ;;;
  let* r := sys (link (str "lf2") (str "lf1")) in
  if r >=? 0 then fatal "link non-existant succeeded! oops" else
  let* r := sys (link (str ".") (str "lf1")) in
  if r >=? 0 then fatal "link . lf1 succeeded! oops" else
  puts "linktest ok" ;;;
  Ret buf.

(** ** Creating, linking and unlinking at once *)

Definition child_exits (pid : Z) : prog unit := if pid =? 0 then sys_exit else sys wait ;;; Ret tt.

(** The loop over the directory; [de] holds the bytes of the entry, [fa] the names seen. *)
Definition concreate_list (fd : Z) : prog Z :=
  while (fun '(n, fa, de) =>
    let* (r, de) := read_buf fd 16 de in
    if r >? 0 then
      let* b0 := defined (de !! 0%nat) in
      let* b1 := defined (de !! 1%nat) in
      if b0 + 256 * b1 =? 0 then Ret (inl (n, fa, de)) else
      let* c0 := defined (de !! 2%nat) in
      let* c1 := defined (de !! 3%nat) in
      let* c2 := defined (de !! 4%nat) in
      if (c0 =? 67) && (c2 =? 0) then
        let i := schar c1 - 48 in
        if (i <? 0) || (i >=? 40) then fatalf "concreate weird file %s" [PStr (drop 2 de)] else
        if negb (zget fa i =? 0) then fatalf "concreate duplicate file %s" [PStr (drop 2 de)] else
        Ret (inl (n + 1, zset fa i 1, de))
      else Ret (inl (n, fa, de))
    else Ret (inr n)) (0, replicate 40 0, []).

Definition open_close (path : list Z) (mode : Z) : prog unit :=
  let* fd := sys (open path mode) in sys (close fd) ;;; Ret tt.

Definition concreate : prog unit :=
  puts "concreate test" ;;;
  for_all 40 0 (fun i _ =>
    let file := [67; 48 + i; 0] in
    sys (unlink file) ;;;
    let* pid := sys fork in
    (if negb (pid =? 0) && (Z.rem i 3 =? 1) then sys (link (str "C0") file) ;;; Ret tt
     else if (pid =? 0) && (Z.rem i 5 =? 1) then sys (link (str "C0") file) ;;; Ret tt
     else
       let* fd := sys (open file (Z.lor O_CREATE O_RDWR)) in
       if fd <? 0 then fatalf "concreate create %s failed" [PStr file] else
       sys (close fd) ;;; Ret tt) ;;;
    child_exits pid) tt ;;;
  let* fd := sys (open (str ".") 0) in
  let* n := concreate_list fd in
  sys (close fd) ;;;
  if negb (n =? 40) then fatal "concreate not enough files in directory listing" else
  for_all 40 0 (fun i _ =>
    let file := [67; 48 + i; 0] in
    let* pid := sys fork in
    if pid <? 0 then fatal "fork failed" else
    (if ((Z.rem i 3 =? 0) && (pid =? 0)) || ((Z.rem i 3 =? 1) && negb (pid =? 0)) then
       open_close file 0 ;;; open_close file 0 ;;; open_close file 0 ;;; open_close file 0
     else
       sys (unlink file) ;;; sys (unlink file) ;;; sys (unlink file) ;;; sys (unlink file) ;;; Ret tt) ;;;
    child_exits pid) tt ;;;
  puts "concreate ok".

Definition linkunlink : prog unit :=
  puts "linkunlink test" ;;;
  sys (unlink (str "x")) ;;;
  let* pid := sys fork in
  if pid <? 0 then fatal "fork failed" else
  for_all 100 0 (fun _ x =>
    let x := u32 (x * 1103515245 + 12345) in
    (if x mod 3 =? 0 then open_close (str "x") (Z.lor O_RDWR O_CREATE)
     else if x mod 3 =? 1 then sys (link (str "cat") (str "x")) ;;; Ret tt
     else sys (unlink (str "x")) ;;; Ret tt) ;;;
    Ret x) (if pid =? 0 then 97 else 1) ;;;
  child_exits pid ;;;
  puts "linkunlink ok".

(** ** Large directories and files *)

Definition bigdir_name (i : Z) : list Z := [120; 48 + Z.quot i 64; 48 + Z.rem i 64; 0].

Definition bigdir : prog unit :=
  puts "bigdir test" ;;;
  sys (unlink (str "bd")) ;;;
  let* fd := sys (open (str "bd") O_CREATE) in
  if fd <? 0 then fatal "bigdir create failed" else
  sys (close fd) ;;;
  for_all 500 0 (fun i _ =>
    let* r := sys (link (str "bd") (bigdir_name i)) in
    if negb (r =? 0) then fatal "bigdir link failed" else Ret tt) tt ;;;
  sys (unlink (str "bd")) ;;;
  for_all 500 0 (fun i _ =>
    let* r := sys (unlink (bigdir_name i)) in
    if negb (r =? 0) then fprintf 1 (lit "bigdir unlink failed") [] ;;; sys_exit else Ret tt) tt ;;;
  puts "bigdir ok".

(** One round of bigwrite: two writes of [sz] bytes to a new file. *)
Definition bigwrite_round (sz : Z) (buf : list Z) : prog unit :=
  let* fd := sys (open (str "bigwrite") (Z.lor O_CREATE O_RDWR)) in
  if fd <? 0 then fatal "cannot create bigwrite" else
  for_all 2 0 (fun _ _ =>
    let* cc := sys (write fd (take (Z.to_nat sz) buf)) in
    if negb (cc =? sz) then fatalf "write(%d) ret %d" [PInt sz; PInt cc] else Ret tt) tt ;;;
  sys (close fd) ;;;
  sys (unlink (str "bigwrite")) ;;;
  Ret tt.

Definition bigwrite (buf : list Z) : prog unit :=
  puts "bigwrite test" ;;;
  sys (unlink (str "bigwrite")) ;;;
  while (fun sz => if sz <? 12 * 512 then bigwrite_round sz buf ;;; Ret (inl (sz + 471)) else Ret (inr tt)) 499 ;;;
  puts "bigwrite ok".

Definition bigfile_read (fd : Z) (buf : list Z) : prog (Z * list Z) :=
  while (fun '(i, total, buf) =>
    let* (cc, buf) := read_buf fd 300 buf in
    if cc <? 0 then fatal "read bigfile failed" else
    if cc =? 0 then Ret (inr (total, buf)) else
    if negb (cc =? 300) then fatal "short read bigfile" else
    if negb (schar (zget buf 0) =? Z.quot i 2) || negb (schar (zget buf 299) =? Z.quot i 2) then fatal "read bigfile wrong data" else
    Ret (inl (i + 1, total + cc, buf))) (0, 0, buf).

Definition bigfile (buf : list Z) : prog (list Z) :=
  puts "bigfile test" ;;;
  sys (unlink (str "bigfile")) ;;;
  let* fd := sys (open (str "bigfile") (Z.lor O_CREATE O_RDWR)) in
  if fd <? 0 then fprintf 1 (lit "cannot create bigfile") [] ;;; sys_exit else
  let* buf := for_all 20 0 (fun i buf =>
    let buf := memset_buf i 600 buf in
    let* r := sys (write fd (take 600 buf)) in
    if negb (r =? 600) then fatal "write bigfile failed" else Ret buf) buf in
  sys (close fd) ;;;
  let* fd := sys (open (str "bigfile") 0) in
  if fd <? 0 then fatal "cannot open bigfile" else
  let* (total, buf) := bigfile_read fd buf in
  sys (close fd) ;;;
  if negb (total =? 20 * 600) then fatal "read bigfile wrong total" else
  sys (unlink (str "bigfile")) ;;;
  puts "bigfile test ok" ;;;
  Ret buf.

(** ** Paths *)

Definition subdir (buf : list Z) : prog (list Z) :=
  puts "subdir test" ;;;
  sys (unlink (str "ff")) ;;;
  let* r := sys (mkdir (str "dd")) in
  if negb (r =? 0) then fatal "subdir mkdir dd failed" else
  let* fd := sys (open (str "dd/ff") (Z.lor O_CREATE O_RDWR)) in
  if fd <? 0 then fatal "create dd/ff failed" else
  sys (write fd (lit "ff")) ;;;
  sys (close fd) ;;;
  let* r := sys (unlink (str "dd")) in
  if r >=? 0 then fatal "unlink dd (non-empty dir) succeeded!" else
  let* r := sys (mkdir (str "/dd/dd")) in
  if negb (r =? 0) then fatal "subdir mkdir dd/dd failed" else
  let* fd := sys (open (str "dd/dd/ff") (Z.lor O_CREATE O_RDWR)) in
  if fd <? 0 then fatal "create dd/dd/ff failed" else
  sys (write fd (lit "FF")) ;;;
  sys (close fd) ;;;
  let* fd := sys (open (str "dd/dd/../ff") 0) in
  if fd <? 0 then fatal "open dd/dd/../ff failed" else
  let* (cc, buf) := read_buf fd (zlen buf) buf in
  if negb (cc =? 2) || negb (zget buf 0 =? 102) then fatal "dd/dd/../ff wrong content" else
  sys (close fd) ;;;
  let* r := sys (link (str "dd/dd/ff") (str "dd/dd/ffff")) in
  if negb (r =? 0) then fatal "link dd/dd/ff dd/dd/ffff failed" else
  let* r := sys (unlink (str "dd/dd/ff")) in
  if negb (r =? 0) then fatal "unlink dd/dd/ff failed" else
  let* r := sys (open (str "dd/dd/ff") O_RDONLY) in
  if r >=? 0 then fatal "open (unlinked) dd/dd/ff succeeded" else
  let* r := sys (chdir (str "dd")) in
  if negb (r =? 0) then fatal "chdir dd failed" else
  let* r := sys (chdir (str "dd/../../dd")) in
  if negb (r =? 0) then fatal "chdir dd/../../dd failed" else
  let* r := sys (chdir (str "dd/../../../dd")) in
  if negb (r =? 0) then fatal "chdir dd/../../dd failed" else
  let* r := sys (chdir (str "./..")) in
  if negb (r =? 0) then fatal "chdir ./.. failed" else
  let* fd := sys (open (str "dd/dd/ffff") 0) in
  if fd <? 0 then fatal "open dd/dd/ffff failed" else
  let* (r, buf) := read_buf fd (zlen buf) buf in
  if negb (r =? 2) then fatal "read dd/dd/ffff wrong len" else
  sys (close fd) ;;;
  let* r := sys (open (str "dd/dd/ff") O_RDONLY) in
  if r >=? 0 then fatal "open (unlinked) dd/dd/ff succeeded!" else
  let* r := sys (open (str "dd/ff/ff") (Z.lor O_CREATE O_RDWR)) in
  if r >=? 0 then fatal "create dd/ff/ff succeeded!" else
  let* r := sys (open (str "dd/xx/ff") (Z.lor O_CREATE O_RDWR)) in
  if r >=? 0 then fatal "create dd/xx/ff succeeded!" else
  let* r := sys (open (str "dd") O_CREATE) in
  if r >=? 0 then fatal "create dd succeeded!" else
  let* r := sys (open (str "dd") O_RDWR) in
  if r >=? 0 then fatal "open dd rdwr succeeded!" else
  let* r := sys (open (str "dd") O_WRONLY) in
  if r >=? 0 then fatal "open dd wronly succeeded!" else
  let* r := sys (link (str "dd/ff/ff") (str "dd/dd/xx")) in
  if r =? 0 then fatal "link dd/ff/ff dd/dd/xx succeeded!" else
  let* r := sys (link (str "dd/xx/ff") (str "dd/dd/xx")) in
  if r =? 0 then fatal "link dd/xx/ff dd/dd/xx succeeded!" else
  let* r := sys (link (str "dd/ff") (str "dd/dd/ffff")) in
  if r =? 0 then fatal "link dd/ff dd/dd/ffff succeeded!" else
  let* r := sys (mkdir (str "dd/ff/ff")) in
  if r =? 0 then fatal "mkdir dd/ff/ff succeeded!" else
  let* r := sys (mkdir (str "dd/xx/ff")) in
  if r =? 0 then fatal "mkdir dd/xx/ff succeeded!" else
  let* r := sys (mkdir (str "dd/dd/ffff")) in
  if r =? 0 then fatal "mkdir dd/dd/ffff succeeded!" else
  let* r := sys (unlink (str "dd/xx/ff")) in
  if r =? 0 then fatal "unlink dd/xx/ff succeeded!" else
  let* r := sys (unlink (str "dd/ff/ff")) in
  if r =? 0 then fatal "unlink dd/ff/ff succeeded!" else
  let* r := sys (chdir (str "dd/ff")) in
  if r =? 0 then fatal "chdir dd/ff succeeded!" else
  let* r := sys (chdir (str "dd/xx")) in
  if r =? 0 then fatal "chdir dd/xx succeeded!" else
  let* r := sys (unlink (str "dd/dd/ffff")) in
  if negb (r =? 0) then fatal "unlink dd/dd/ff failed" else
  let* r := sys (unlink (str "dd/ff")) in
  if negb (r =? 0) then fatal "unlink dd/ff failed" else
  let* r := sys (unlink (str "dd")) in
  if r =? 0 then fatal "unlink non-empty dd succeeded!" else
  let* r := sys (unlink (str "dd/dd")) in
  if r <? 0 then fatal "unlink dd/dd failed" else
  let* r := sys (unlink (str "dd")) in
  if r <? 0 then fatal "unlink dd failed" else
  puts "subdir ok" ;;;
  Ret buf.

Definition fourteen : prog unit :=
  puts "fourteen test" ;;;
  let* r := sys (mkdir (str "12345678901234")) in
  if negb (r =? 0) then fatal "mkdir 12345678901234 failed" else
  let* r := sys (mkdir (str "12345678901234/123456789012345")) in
  if negb (r =? 0) then fatal "mkdir 12345678901234/123456789012345 failed" else
  let* fd := sys (open (str "123456789012345/123456789012345/123456789012345") O_CREATE) in
  if fd <? 0 then fatal "create 123456789012345/123456789012345/123456789012345 failed" else
  sys (close fd) ;;;
  let* fd := sys (open (str "12345678901234/12345678901234/12345678901234") 0) in
  if fd <? 0 then fatal "open 12345678901234/12345678901234/12345678901234 failed" else
  sys (close fd) ;;;
  let* r := sys (mkdir (str "12345678901234/12345678901234")) in
  if r =? 0 then fatal "mkdir 12345678901234/12345678901234 succeeded!" else
  let* r := sys (mkdir (str "123456789012345/12345678901234")) in
  if r =? 0 then fatal "mkdir 12345678901234/123456789012345 succeeded!" else
  puts "fourteen ok".

Definition rmdot : prog unit :=
  puts "rmdot test" ;;;
  let* r := sys (mkdir (str "dots")) in
  if negb (r =? 0) then fatal "mkdir dots failed" else
  let* r := sys (chdir (str "dots")) in
  if negb (r =? 0) then fatal "chdir dots failed" else
  let* r := sys (unlink (str ".")) in
  if r =? 0 then fatal "rm . worked!" else
  let* r := sys (unlink (str "..")) in
  if r =? 0 then fatal "rm .. worked!" else
  let* r := sys (chdir (str "/")) in
  if negb (r =? 0) then fatal "chdir / failed" else
  let* r := sys (unlink (str "dots/.")) in
  if r =? 0 then fatal "unlink dots/. worked!" else
  let* r := sys (unlink (str "dots/..")) in
  if r =? 0 then fatal "unlink dots/.. worked!" else
  let* r := sys (unlink (str "dots")) in
  if negb (r =? 0) then fatal "unlink dots failed!" else
  puts "rmdot ok".

Definition dirfile : prog unit :=
  puts "dir vs file" ;;;
  let* fd := sys (open (str "dirfile") O_CREATE) in
  if fd <? 0 then fatal "create dirfile failed" else
  sys (close fd) ;;;
  let* r := sys (chdir (str "dirfile")) in
  if r =? 0 then fatal "chdir dirfile succeeded!" else
  let* fd := sys (open (str "dirfile/xx") 0) in
  if fd >=? 0 then fatal "create dirfile/xx succeeded!" else
  let* fd := sys (open (str "dirfile/xx") O_CREATE) in
  if fd >=? 0 then fatal "create dirfile/xx succeeded!" else
  let* r := sys (mkdir (str "dirfile/xx")) in
  if r =? 0 then fatal "mkdir dirfile/xx succeeded!" else
  let* r := sys (unlink (str "dirfile/xx")) in
  if r =? 0 then fatal "unlink dirfile/xx succeeded!" else
  let* r := sys (link (str "README") (str "dirfile/xx")) in
  if r =? 0 then fatal "link to dirfile/xx succeeded!" else
  let* r := sys (unlink (str "dirfile")) in
  if negb (r =? 0) then fatal "unlink dirfile failed!" else
  let* fd := sys (open (str ".") O_RDWR) in
  if fd >=? 0 then fatal "open . for writing succeeded!" else
  let* fd := sys (open (str ".") 0) in
  let* r := sys (write fd (lit "x")) in
  if r >? 0 then fatal "write . succeeded!" else
  sys (close fd) ;;;
  puts "dir vs file OK".

Definition iref : prog unit :=
  puts "empty file name" ;;;
  for_all (50 + 1) 0 (fun _ _ =>
    let* r := sys (mkdir (str "irefd")) in
    if negb (r =? 0) then fatal "mkdir irefd failed" else
    let* r := sys (chdir (str "irefd")) in
    if negb (r =? 0) then fatal "chdir irefd failed" else
    sys (mkdir (str "")) ;;;
    sys (link (str "README") (str "")) ;;;
    let* fd := sys (open (str "") O_CREATE) in
    (if fd >=? 0 then sys (close fd) ;;; Ret tt else Ret tt) ;;;
    let* fd := sys (open (str "xx") O_CREATE) in
    (if fd >=? 0 then sys (close fd) ;;; Ret tt else Ret tt) ;;;
    sys (unlink (str "xx")) ;;;
    Ret tt) tt ;;;
  sys (chdir (str "/")) ;;;
  puts "empty file name OK".

(** ** Data, arguments and a full disk *)

(** Uninitialised data, which exec clears. *)
Definition bsstest (uninit : list Z) : prog unit :=
  puts "bss test" ;;;
  if forallb (fun b => b =? 0) uninit then puts "bss test ok" else fatal "bss test failed".

Definition bigarg : list Z := line "bigargs test: failed" ++ replicate 199 32 ++ [0].

Definition bigargtest : prog unit :=
  sys (unlink (str "bigarg-ok")) ;;;
  let* pid := sys fork in
  if pid =? 0 then
    puts "bigarg test" ;;;
    sys (exec (str "echo") (replicate (Z.to_nat (MAXARG - 1)) bigarg)) ;;;
    puts "bigarg test ok" ;;;
    open_close (str "bigarg-ok") O_CREATE ;;;
    sys_exit
  else if pid <? 0 then fatal "bigargtest: fork failed"
  else
  sys wait ;;;
  let* fd := sys (open (str "bigarg-ok") 0) in
  if fd <? 0 then fatal "bigarg test failed!" else
  sys (close fd) ;;;
  sys (unlink (str "bigarg-ok")) ;;;
  Ret tt.

Definition fsfull_name (n : Z) : list Z :=
  [102; u8 (48 + Z.quot n 1000); u8 (48 + Z.quot (Z.rem n 1000) 100); u8 (48 + Z.quot (Z.rem n 100) 10); u8 (48 + Z.rem n 10); 0].

(** The blocks that one file takes. *)
Definition fsfull_fill (fd : Z) (buf : list Z) : prog Z :=
  while (fun total =>
    let* cc := sys (write fd (take 512 buf)) in
    if cc <? 512 then Ret (inr total) else Ret (inl (total + cc))) 0.

Definition fsfull (buf : list Z) : prog unit :=
  puts "fsfull test" ;;;
  let* nfiles := while (fun n =>
    let name := fsfull_name n in
    fprintf 1 (line "writing %s") [PStr name] ;;;
    let* fd := sys (open name (Z.lor O_CREATE O_RDWR)) in
    if fd <? 0 then fprintf 1 (line "open %s failed") [PStr name] ;;; Ret (inr n) else
    let* total := fsfull_fill fd buf in
    fprintf 1 (line "wrote %d bytes") [PInt total] ;;;
    sys (close fd) ;;;
    Ret (if total =? 0 then inr n else inl (n + 1))) 0 in
  while (fun n => if n >=? 0 then sys (unlink (fsfull_name n)) ;;; Ret (inl (n - 1)) else Ret (inr tt)) nfiles ;;;
  puts "fsfull test finished".

Definition rand (randstate : Z) : Z * Z :=
  let r := u32 (randstate * 1664525 + 1013904223) in (r, r).

(** ** main *)

Section Main.
(** The tests that work on addresses of the process's own memory. *)
Context (sbrktest validatetest mem : prog unit).

(** [buf] and [uninit] are the zeros of the program's bss. *)
Definition main : prog Empty_set :=
  puts "usertests starting" ;;;
  let* r := sys (open (str "usertests.ran") 0) in
  if r >=? 0 then fatal "already ran user tests -- rebuild fs.img" else
  open_close (str "usertests.ran") O_CREATE ;;;
  createdelete ;;;
  linkunlink ;;;
  concreate ;;;
  let* buf := fourfiles (replicate 8192 0) in
  sharedfd ;;;
  bigargtest ;;;
  bigwrite buf ;;;
  bigargtest ;;;
  bsstest (replicate 10000 0) ;;;
  sbrktest ;;;
  validatetest ;;;
  opentest ;;;
  let* buf := writetest buf in
  let* buf := writetest1 buf in
  createtest ;;;
  openiputtest ;;;
  exitiputtest ;;;
  iputtest ;;;
  mem ;;;
  let* buf := pipe1 buf in
  let* buf := preempt buf in
  exitwait ;;;
  rmdot ;;;
  fourteen ;;;
  let* buf := bigfile buf in
  let* buf := subdir buf in
  let* buf := linktest buf in
  let* buf := unlinkread buf in
  dirfile ;;;
  iref ;;;
  forktest ;;;
  bigdir ;;;
  exectest ;;;
  sys_exit.

End Main.

End Usertests.
