(* ===== verification/Usys.v ===== *)
(** * System calls from the program's side (usys.S)

    What a program passes to a system call reaches the kernel through the process's
    memory and registers: the caller pushes the arguments, the stub loads the number
    of the call into eax and traps, and the result comes back in eax.  [ucall] is the
    way of a call from a program of User.v into the dispatcher of Trap.v and back. *)

From S2P Require Import Prelude.
From S2P Require Import Params.
From S2P Require Import Disk.
From S2P Require Import BufSpec.
From S2P Require Import Bio.
From S2P Require Import Log.
From S2P Require Import CString.
From S2P Require Import Fs.
From S2P Require Import Mmu.
From S2P Require Import Kalloc.
From S2P Require Import Vm.
From S2P Require Import VmPt.
From S2P Require Import VmUser.
From S2P Require Import VmCopy.
From S2P Require Import VmProps.
From S2P Require Import Ptable.
From S2P Require Import Kern.
From S2P Require Import Proc.
From S2P Require Import Args.
From S2P Require Import Sysproc.
From S2P Require Import Sysfile.
From S2P Require Import Exec.
From S2P Require Import ExecProps.
From S2P Require Import Trap.
From S2P Require Import User.

Module Usys.

(** The number the stub of a call loads into eax. *)
Definition number {X} (e : sysE X) : Z :=
  match e with
  | User.fork => SYS_fork
  | User.exit => SYS_exit
  | User.wait => SYS_wait
  | User.pipe => SYS_pipe
  | User.read _ _ => SYS_read
  | User.write _ _ => SYS_write
  | User.close _ => SYS_close
  | User.kill _ => SYS_kill
  | User.exec _ _ => SYS_exec
  | User.open _ _ => SYS_open
  | User.mknod _ _ _ => SYS_mknod
  | User.unlink _ => SYS_unlink
  | User.fstat _ => SYS_fstat
  | User.link _ _ => SYS_link
  | User.mkdir _ => SYS_mkdir
  | User.chdir _ => SYS_chdir
  | User.dup _ => SYS_dup
  | User.getpid => SYS_getpid
  | User.sbrk _ => SYS_sbrk
  | User.sleep _ => SYS_sleep
  | User.uptime => SYS_uptime
  | User.trace _ => SYS_trace
  | User.Undef _ => 0
  end.

(** ** Arguments in memory *)

(** An argument: an int, a pointer to bytes the kernel reads, to the program's
    buffer, or to a vector of strings with its null pointer. *)
Inductive uarg : Type := AInt (z : Z) | ABytes (bs : list Z) | ABuf | AVec (l : list (list Z)).

Definition uargs {X} (e : sysE X) : list uarg :=
  match e with
  | User.pipe => [ABuf]
  | User.read fd n => [AInt fd; ABuf; AInt n]
  | User.write fd bs => [AInt fd; ABytes bs; AInt (zlen bs)]
  | User.close fd | User.dup fd => [AInt fd]
  | User.kill pid => [AInt pid]
  | User.exec path argv => [ABytes path; AVec argv]
  | User.open path mode => [ABytes path; AInt mode]
  | User.mknod path major minor => [ABytes path; AInt major; AInt minor]
  | User.unlink path | User.mkdir path | User.chdir path => [ABytes path]
  | User.fstat fd => [AInt fd; ABuf]
  | User.link old new => [ABytes old; ABytes new]
  | User.sbrk n | User.sleep n | User.trace n => [AInt n]
  | _ => []
  end.

(** The bytes at address [a] that an argument points to, and its word. *)
Fixpoint vec_words (a : Z) (l : list (list Z)) : list Z :=
  match l with
  | [] => le_bytes 4 0
  | s :: l => le_bytes 4 a ++ vec_words (a + zlen s) l
  end.
Definition arg_bytes (a : Z) (x : uarg) : list Z :=
  match x with
  | AInt _ | ABuf => []
  | ABytes bs => bs
  | AVec l => concat l ++ vec_words a l
  end.
Definition arg_word (buf a : Z) (x : uarg) : Z :=
  match x with
  | AInt z => u32 z
  | ABytes _ => a
  | ABuf => buf
  | AVec l => a + zlen (concat l)
  end.

(** The words and the bytes of the arguments, the bytes from address [a] on. *)
Fixpoint lay (buf a : Z) (l : list uarg) : list Z * list Z :=
  match l with
  | [] => ([], [])
  | x :: l =>
      let b := arg_bytes a x in
      let '(ws, bs) := lay buf (a + zlen b) l in
      (arg_word buf a x :: ws, b ++ bs)
  end.
Definition data_at (sp : Z) (l : list uarg) : Z := sp + 4 + 4 * zlen l.

(** What lies on the stack at the trap: the address the stub returns to, the
    words of the arguments; above it the bytes they point to. *)
Definition frame (sp retaddr buf : Z) (l : list uarg) : list Z :=
  let '(ws, bs) := lay buf (data_at sp l) l in
  le_bytes 4 retaddr ++ concat (le_bytes 4 <$> ws) ++ bs.

(** ** The way into the kernel and back *)

Section Ucall.
Context {S : Type} `{!BufferCache S}.
Context (devsw : Z -> devops S) (end_ data_ : Z) (name0 de0 elf0 : list Z) (x0 : Z) (me : nat).
(** The stack pointer at the trap, the caller's address and that of its buffer. *)
Context (sp retaddr buf : Z).

Local Abbreviation K := (M (kern S)).

Definition set_regs (eax esp : Z) (tf : trapframe) : trapframe :=
  MkTf (tf_edi tf) (tf_esi tf) (tf_ebp tf) (tf_oesp tf) (tf_ebx tf) (tf_edx tf) (tf_ecx tf) eax
    (tf_gs tf) (tf_fs tf) (tf_es tf) (tf_ds tf) T_SYSCALL (tf_err tf) (tf_eip tf) (tf_cs tf)
    (tf_eflags tf) esp (tf_ss tf).

(** The stub up to its int instruction. *)
Definition enter {X} (e : sysE X) : K unit :=
  user_store me sp (frame sp retaddr buf (uargs e)) ;;
  upd_cur me (fun p => set_tf (set_regs (number e) sp (p_tf p)) p).

Definition word_at (a : Z) : K Z := let! bs := user_load me a 4 in ret (i32 (le_value bs)).

(** The result in eax, with what the kernel has stored.  exec comes back only
    when it fails. *)
Definition answer {X} (e : sysE X) : K (option X) :=
  let! p := curproc me in
  let r := i32 (tf_eax (p_tf p)) in
  match e in User.sysE X return K (option X) with
  | User.exit | User.Undef _ => ret None
  | User.exec _ _ => ret (if r <? 0 then Some r else None)
  | User.read _ n => let! bs := user_load me buf (Z.max 0 r) in ret (Some (r, bs))
  | User.pipe => let! fd0 := word_at buf in let! fd1 := word_at (buf + 4) in ret (Some (r, (fd0, fd1)))
  | User.fstat _ =>
      let! bs := user_load me buf sizeof_stat in
      ret (Some (r, MkStat (i16 (get16 0 bs)) (i32 (get32 4 bs)) (get32 8 bs) (i16 (get16 12 bs)) (get32 16 bs)))
  | _ => ret (Some r)
  end.

Definition ucall {X} (e : sysE X) : K (option X) :=
  enter e ;;
  let! t := syscall devsw end_ data_ name0 de0 elf0 x0 me in
  match t with
  | TReturn => answer e
  | _ => ret None
  end.

(** The kernel as the one that answers a program's calls; a call that sleeps,
    panics or ends the process has no answer. *)
Definition pick (X : Type) (e : sysE X) (w : kern S) : option (X * kern S) :=
  match ucall e w with
  | Ret (Some x) w' => Some (x, w')
  | _ => None
  end.

End Ucall.

End Usys.

(** * What a program passes is what the kernel fetches

    The arguments that a stub of usys.S leaves on the stack are the ones that
    argint, argptr and argstr give the handler of the call. *)

Import Usys.

(** ** Parts of a list of bytes *)

Definition part {A} (off : Z) (b l : list A) : Prop := exists pre post, l = pre ++ b ++ post /\ zlen pre = off.

Lemma part_app_l {A} off (b l l' : list A) : part off b l -> part off b (l ++ l').
Proof. intros (pre & post & -> & H). exists pre, (post ++ l'). by rewrite <- !app_assoc. Qed.

Lemma part_app_r {A} off (b l l' : list A) : part off b l' -> part (zlen l + off) b (l ++ l').
Proof. intros (pre & post & -> & H). exists (l ++ pre), post. rewrite <- app_assoc. split; [done|]. rewrite zlen_app. lia. Qed.

Lemma part_zget off (b l : list Z) i : part off b l -> 0 <= i < zlen b -> zget l (off + i) = zget b i.
Proof.
  intros (pre & post & -> & H) Hi. unfold zget, zlen in *. rewrite app_nth2 by lia. rewrite app_nth1 by lia. f_equal. lia.
Qed.

Lemma part_bound {A} off (b l : list A) : part off b l -> 0 <= off /\ off + zlen b <= zlen l.
Proof. intros (pre & post & -> & H). rewrite !zlen_app. pose proof (zlen_nonneg pre). pose proof (zlen_nonneg post). lia. Qed.

Lemma part_word ws i w : ws !! i = Some w -> part (4 * Z.of_nat i) (le_bytes 4 w) (concat (le_bytes 4 <$> ws)).
Proof.
  revert i. induction ws as [|v ws IH]; intros [|i] Hi; [done..| |].
  - injection Hi as ->. exists [], (concat (le_bytes 4 <$> ws)). done.
  - rewrite fmap_cons. cbn [concat]. replace (4 * Z.of_nat (S i)) with (zlen (le_bytes 4 v) + 4 * Z.of_nat i) by (unfold zlen; cbn [length le_bytes]; lia).
    by apply part_app_r, IH.
Qed.

(** ** The frame *)

Lemma lay_part buf a l i x :
  l !! i = Some x -> exists ai, a <= ai /\ (lay buf a l).1 !! i = Some (arg_word buf ai x) /\ part (ai - a) (arg_bytes ai x) (lay buf a l).2.
Proof.
  revert a i. induction l as [|y l IH]; intros a [|i] Hi; [done..| |]; cbn [lay]; destruct (lay buf (a + zlen (arg_bytes a y)) l) as [ws bs] eqn:E.
  - injection Hi as ->. exists a. split; [lia|]. split; [done|]. exists [], bs. split; [done|]. unfold zlen. cbn. lia.
  - destruct (IH (a + zlen (arg_bytes a y)) i Hi) as (ai & Ha & Hw & Hp). rewrite E in Hw, Hp. cbn [fst snd] in *.
    pose proof (zlen_nonneg (arg_bytes a y)). exists ai. split; [lia|]. split; [done|].
    replace (ai - a) with (zlen (arg_bytes a y) + (ai - (a + zlen (arg_bytes a y)))) by lia. by apply part_app_r.
Qed.

Lemma lay_length buf a l : length (lay buf a l).1 = length l.
Proof. revert a. induction l as [|y l IH]; intros a; cbn [lay]; [done|]. specialize (IH (a + zlen (arg_bytes a y))). destruct (lay _ _ _). cbn in *. lia. Qed.

(** Where an argument's word and its bytes are. *)
Lemma frame_part sp r buf l i x :
  l !! i = Some x -> exists ai, sp + 4 <= ai /\
    part (4 + 4 * Z.of_nat i) (le_bytes 4 (arg_word buf ai x)) (frame sp r buf l) /\ part (ai - sp) (arg_bytes ai x) (frame sp r buf l).
Proof.
  intros Hi. destruct (lay_part buf (data_at sp l) l i x Hi) as (ai & Ha & Hw & Hp). pose proof (lay_length buf (data_at sp l) l) as Hl.
  unfold frame. destruct (lay _ _ _) as [ws bs]. cbn [fst snd] in *. exists ai. unfold data_at in *. pose proof (zlen_nonneg l). split; [lia|]. split.
  - apply (part_app_r _ _ (le_bytes 4 r)), part_app_l, part_word, Hw.
  - rewrite app_assoc. replace (ai - sp) with (zlen (le_bytes 4 r ++ concat (le_bytes 4 <$> ws)) + (ai - (sp + 4 + 4 * zlen l))); [by apply part_app_r|].
    rewrite zlen_app, zlen_words. unfold zlen in *. rewrite Hl. cbn [length le_bytes]. lia.
Qed.

(** ** Stores into the process's memory *)

Section Store.
Context (end_ : Z).
Implicit Types (s : kst) (T : gmap Z Z) (l : list Z).

Definition writable s T (n : Z) : Prop := forall k, 0 <= k < n -> Z.land (PTE_FLAGS (pte_of (k_mem s) T (4096 * k))) PTE_W <> 0.

Lemma run_store_bytes pd T l n s va bs :
  uvm end_ s pd T l n -> writable s T n -> 0 <= va -> va + zlen bs <= 4096 * n ->
  exists m', store_bytes (k_mem s) pd va bs = Some m' /\ uvm end_ (set_mem m' s) pd T l n /\ writable (set_mem m' s) T n /\
    forall v, 0 <= v < 4096 * n -> ubyte m' T v = if decide (va <= v < va + zlen bs) then zget bs (v - va) else ubyte (k_mem s) T v.
Proof.
  revert s va. induction bs as [|b bs IH]; intros s va Hu Hw Hva Htop; cbn [store_bytes].
  - exists (k_mem s). split; [done|]. assert (Es : set_mem (k_mem s) s = s) by (by destruct s). rewrite Es. split_and!; auto.
    intros v Hv. unfold zlen. cbn [length]. by rewrite decide_False by lia.
  - assert (Hz : zlen (b :: bs) = 1 + zlen bs) by (unfold zlen; cbn; lia). pose proof (zlen_nonneg bs).
    rewrite (translate_user end_ s pd T l n va Hu) by lia.
    rewrite (proj2 (Z.eqb_neq _ _) (Hw (va / 4096) ltac:(dlia))).
    set (q := upage (k_mem s) T (va / 4096)). replace (KERNBASE + (q - KERNBASE + va mod 4096)) with (q + va mod 4096) by lia.
    destruct (user_write end_ s pd T l n va 1 (fun _ => b) (mset (k_mem s) (q + va mod 4096) b)) as (Hu1 & Hp1 & _ & Hb1); auto; [lia|dlia|lia| |].
    { intros a. unfold mset. fold q. destruct (Z.eqb_spec a (q + va mod 4096)); [rewrite decide_True by lia; done|by rewrite decide_False by lia]. }
    assert (Hw1 : writable (set_mem (mset (k_mem s) (q + va mod 4096) b) s) T n).
    { intros k Hk. cbn [set_mem k_mem]. rewrite Hp1. by apply Hw. }
    destruct (IH _ (va + 1) Hu1 Hw1) as (m' & E & Hu2 & Hw2 & Hb2); [lia..|]. exists m'. split; [exact E|]. split; [exact Hu2|]. split; [exact Hw2|].
    intros v Hv. rewrite Hb2 by done. cbn [set_mem k_mem]. rewrite Hb1 by done.
    destruct (decide (va + 1 <= v < va + 1 + zlen bs)).
    + rewrite decide_True by lia. unfold zget. replace (Z.to_nat (v - va)) with (S (Z.to_nat (v - (va + 1)))) by lia. done.
    + destruct (decide (va <= v < va + 1)); [rewrite decide_True by lia; by replace (v - va) with 0 by lia|by rewrite decide_False by lia].
Qed.

End Store.

(** ** Fetching the arguments *)

Section Fetch.
Context {S : Type} `{!BufferCache S}.
Context (me : nat) (sp retaddr buf : Z) (end_ : Z).
Implicit Types k : kern S.

(** The process's memory holds [b] at [a]. *)
Definition holds k (p : proc) (a : Z) (b : list Z) : Prop :=
  0 <= a /\ a + zlen b <= p_sz p /\ load_bytes (k_mem (ks_vm k)) (p_pgdir p) a (length b) = Some b.

Lemma holds_load k p a b : pt_proc (ks_pt k) !! me = Some p -> holds k p a b -> user_load me a (zlen b) k = Ret b k.
Proof. intros Hp (_ & _ & E). unfold user_load. run (curproc_run me k p Hp). unfold zlen. by rewrite Nat2Z.id, E. Qed.

Lemma holds_word k p a w :
  pt_proc (ks_pt k) !! me = Some p -> p_sz p <= KERNBASE -> holds k p a (le_bytes 4 w) -> is_u32 w -> fetchint me a k = Ret (Some (i32 w)) k.
Proof.
  intros Hp Hsz Hh Hw. pose proof Hh as (Ha & Hle & _). change (zlen (le_bytes 4 w)) with 4 in Hle. unfold fetchint, KERNBASE in *.
  run (curproc_run me k p Hp). rewrite u32_small by (unfold is_u32; lia).
  replace ((a >=? p_sz p) || (a + 4 >? p_sz p)) with false by lia. run (holds_load k p a (le_bytes 4 w) Hp Hh).
  unfold is_u32 in Hw. by rewrite le_value_bytes by (cbn; lia).
Qed.

Lemma holds_string k p a s acc n :
  pt_proc (ks_pt k) !! me = Some p -> holds k p a (s ++ [0]) -> Forall (fun x => x <> 0) s -> (length s < n)%nat ->
  fetchstr_loop me n a acc k = Ret (Some (acc ++ s)) k.
Proof.
  intros Hp. revert a acc n. induction s as [|c s IH]; intros a acc n Hh Hs Hn; (destruct n as [|n]; [cbn in Hn; lia|]); cbn [fetchstr_loop].
  - run (holds_load k p a [0] Hp Hh). by rewrite app_nil_r.
  - apply Forall_cons in Hs as [Hc Hs]. destruct Hh as (Ha & Hle & El). cbn [app length] in El. cbn [load_bytes] in El.
    destruct (translate _ _ a) as [[pa fl]|] eqn:Et; [|done]. destruct (load_bytes _ _ (a + 1) _) as [bs|] eqn:El'; [|done]. cbn in El. injection El as Ec ->.
    assert (Hz : zlen ((c :: s) ++ [0]) = 1 + zlen (s ++ [0])) by (unfold zlen; cbn [app length]; lia). pose proof (zlen_nonneg (s ++ [0])).
    assert (H1 : holds k p a [c]).
    { split; [done|]. split; [unfold zlen in *; cbn [length] in *; lia|]. cbn [length load_bytes]. rewrite Et. cbn. by rewrite Ec. }
    run (holds_load k p a [c] Hp H1). change (zget [c] 0) with c. rewrite (proj2 (Z.eqb_neq c 0) Hc).
    rewrite (IH (a + 1) (acc ++ [c]) n); [by rewrite <- app_assoc| |done|cbn in Hn; lia]. split; [lia|]. split; [lia|]. exact El'.
Qed.

(** What the kernel fetches for the [i]-th argument. *)
Definition passed k (p : proc) (i : Z) (x : uarg) : Prop :=
  match x with
  | AInt z => -2147483648 <= z < 2147483648 -> argint me i k = Ret (Some z) k
  | ABytes bs =>
      (forall s, bs = s ++ [0] -> Forall (fun c => c <> 0) s -> argstr me i k = Ret (Some s) k) /\
      (bs <> [] -> exists a, argptr me i (zlen bs) k = Ret (Some a) k /\ user_load me a (zlen bs) k = Ret bs k)
  | ABuf => forall n, 0 <= n -> 0 <= buf < p_sz p -> buf + n <= p_sz p -> argptr me i n k = Ret (Some buf) k
  | AVec l => exists a, argint me i k = Ret (Some a) k /\
      (forall j s, l !! j = Some s -> exists b, fetchint me (a + 4 * Z.of_nat j) k = Ret (Some b) k /\ user_load me b (zlen s) k = Ret s k) /\
      fetchint me (a + 4 * zlen l) k = Ret (Some 0) k
  end.

Lemma vec_part a l j s :
  l !! j = Some s -> exists b, a <= b /\ part (4 * Z.of_nat j) (le_bytes 4 b) (vec_words a l) /\ part (b - a) s (concat l).
Proof.
  revert a j. induction l as [|t l IH]; intros a [|j] Hj; [done..| |]; cbn [vec_words concat].
  - injection Hj as ->. exists a. split; [lia|]. split; [by exists [], (vec_words (a + zlen s) l)|]. exists [], (concat l). split; [done|]. unfold zlen. cbn. lia.
  - destruct (IH (a + zlen t) j Hj) as (b & Hb & Hw & Hp). pose proof (zlen_nonneg t). exists b. split; [lia|]. split.
    + replace (4 * Z.of_nat (Datatypes.S j)) with (zlen (le_bytes 4 a) + 4 * Z.of_nat j) by (change (zlen (le_bytes 4 a)) with 4; lia). by apply part_app_r.
    + replace (b - a) with (zlen t + (b - (a + zlen t))) by lia. by apply part_app_r.
Qed.

Lemma vec_end a l : part (4 * zlen l) (le_bytes 4 0) (vec_words a l).
Proof.
  revert a. induction l as [|t l IH]; intros a; cbn [vec_words]; [by exists [], []|].
  replace (4 * zlen (t :: l)) with (zlen (le_bytes 4 a) + 4 * zlen l) by (unfold zlen; cbn [length le_bytes]; lia). by apply part_app_r.
Qed.

(** The state in which the stub's trap finds the process. *)
Record trapped k (p : proc) (l : list uarg) : Prop := {
  tr_proc : pt_proc (ks_pt k) !! me = Some p;
  tr_sp : tf_esp (p_tf p) = sp;
  tr_range : 0 <= sp /\ p_sz p <= KERNBASE;
  tr_fits : sp + zlen (frame sp retaddr buf l) <= p_sz p;
  tr_holds : forall off b, part off b (frame sp retaddr buf l) -> holds k p (sp + off) b
}.

Lemma trapped_word k p l i w :
  trapped k p l -> part (4 + 4 * Z.of_nat i) (le_bytes 4 w) (frame sp retaddr buf l) -> is_u32 w ->
  argint me (Z.of_nat i) k = Ret (Some (i32 w)) k.
Proof.
  intros [Hp Hsp [H0 Hsz] Hfit Hh] Hpt Hw. unfold argint. run (curproc_run me k p Hp). rewrite Hsp.
  pose proof (part_bound _ _ _ Hpt) as Hb. change (zlen (le_bytes 4 w)) with 4 in Hb.
  rewrite u32_small by (unfold is_u32, KERNBASE in *; lia). apply (holds_word k p); [done|done| |done].
  replace (sp + 4 + 4 * Z.of_nat i) with (sp + (4 + 4 * Z.of_nat i)) by lia. by apply Hh.
Qed.

Lemma argptr_word k p i a n :
  pt_proc (ks_pt k) !! me = Some p -> p_sz p <= KERNBASE -> argint me i k = Ret (Some a) k ->
  0 <= a < p_sz p -> 0 <= n -> a + n <= p_sz p -> argptr me i n k = Ret (Some a) k.
Proof.
  intros Hp Hsz E Ha Hn Hle. unfold KERNBASE in *. unfold argptr. run E. run (curproc_run me k p Hp).
  rewrite !(u32_small a) by (unfold is_u32; lia). rewrite u32_small by (unfold is_u32; lia).
  by replace ((a >=? p_sz p) || (a + n >? p_sz p)) with false by lia.
Qed.

Lemma trapped_passed k p l i x : trapped k p l -> l !! i = Some x -> passed k p (Z.of_nat i) x.
Proof.
  intros Ht Hi. destruct (frame_part sp retaddr buf l i x Hi) as (ai & Ha & Hw & Hb).
  pose proof Ht as [Hp Hsp [H0 Hsz] Hfit Hh]. pose proof (Hh _ _ Hb) as Hd. replace (sp + (ai - sp)) with ai in Hd by lia.
  pose proof (part_bound _ _ _ Hb) as Hbb. unfold KERNBASE in Hsz. pose proof (zlen_nonneg (arg_bytes ai x)).
  assert (Hword : arg_word buf ai x < 2147483648 -> 0 <= arg_word buf ai x -> argint me (Z.of_nat i) k = Ret (Some (arg_word buf ai x)) k).
  { intros H1 H2. rewrite (trapped_word k p l i (arg_word buf ai x) Ht Hw) by (unfold is_u32; lia). by rewrite i32_small by lia. }
  destruct x as [z|bs| |v]; cbn [arg_word arg_bytes passed] in *.
  - intros Hz. rewrite (trapped_word k p l i (u32 z) Ht Hw (u32_range z)). by rewrite i32_u32.
  - split.
    + intros s -> Hs. rewrite zlen_app in *. change (zlen [0]) with 1 in *. pose proof (zlen_nonneg s).
      unfold argstr. run (Hword ltac:(lia) ltac:(lia)). unfold fetchstr. run (curproc_run me k p Hp). rewrite u32_small by (unfold is_u32; lia). replace (ai >=? p_sz p) with false by lia.
      by rewrite (holds_string k p ai s [] _ Hp Hd Hs) by (unfold zlen in *; lia).
    + intros Hne. assert (0 < zlen bs) by (destruct bs; [done|unfold zlen; cbn; lia]). exists ai.
      specialize (Hword ltac:(lia) ltac:(lia)). split; [apply (argptr_word k p); auto; try (unfold KERNBASE; lia)|]. by apply (holds_load k p).
  - intros n Hn Hbuf Hle. apply (argptr_word k p); auto; try (unfold KERNBASE; lia). apply Hword; lia.
  - rewrite zlen_app in *. pose proof (zlen_nonneg (concat v)). pose proof (part_bound _ _ _ (vec_end ai v)) as Hve. change (zlen (le_bytes 4 0)) with 4 in Hve.
    pose proof (zlen_nonneg v).
    assert (Hsub : forall off b, part off b (concat v ++ vec_words ai v) -> holds k p (ai + off) b).
    { intros off b Hpt. replace (ai + off) with (sp + (ai - sp + off)) by lia. apply Hh.
      destruct Hb as (pre & post & -> & Hpre). rewrite <- Hpre. by apply part_app_r, part_app_l. }
    exists (ai + zlen (concat v)). specialize (Hword ltac:(lia) ltac:(lia)). split; [exact Hword|]. split.
    + intros j s Hj. destruct (vec_part ai v j s Hj) as (b & Hab & Hvw & Hvs). exists b.
      pose proof (part_bound _ _ _ Hvs) as Hbs. pose proof (zlen_nonneg s).
      split; [|apply (holds_load k p); [done|]; replace b with (ai + (b - ai)) by lia; by apply Hsub, part_app_l].
      rewrite (holds_word k p (ai + zlen (concat v) + 4 * Z.of_nat j) b); [by rewrite i32_small by lia|done|unfold KERNBASE; lia| |unfold is_u32; lia].
      rewrite <- Z.add_assoc. by apply Hsub, part_app_r.
    + rewrite (holds_word k p (ai + zlen (concat v) + 4 * zlen v) 0); [done..|unfold KERNBASE; lia| |done].
      rewrite <- Z.add_assoc. apply Hsub, part_app_r, vec_end.
Qed.

End Fetch.

(** ** The stub and the handler *)

Section Stub.
Context {S : Type} `{!BufferCache S}.
Context (devsw : Z -> devops S) (end_ data_ : Z) (name0 de0 elf0 : list Z) (x0 : Z) (me : nat) (sp retaddr buf : Z).
Implicit Types k : kern S.

(** The kernel's function for a call. *)
Definition handler {X} (e : sysE X) : M (kern S) Z :=
  match e with
  | User.fork => sys_fork end_ data_ me
  | User.exit => Sysproc.sys_exit end_ me
  | User.wait => sys_wait end_ me
  | User.pipe => sys_pipe end_ me
  | User.read _ _ => sys_read devsw me
  | User.write _ _ => sys_write devsw me
  | User.close _ => sys_close end_ me
  | User.kill _ => sys_kill me
  | User.exec _ _ => sys_exec devsw end_ data_ me name0 elf0
  | User.open _ _ => sys_open devsw end_ me name0 de0
  | User.mknod _ _ _ => sys_mknod devsw me name0 de0
  | User.unlink _ => sys_unlink devsw me name0
  | User.fstat _ => sys_fstat me
  | User.link _ _ => sys_link devsw me name0 de0
  | User.mkdir _ => sys_mkdir devsw me name0 de0
  | User.chdir _ => sys_chdir devsw me name0
  | User.dup _ => sys_dup me
  | User.getpid => sys_getpid me
  | User.sbrk _ => sys_sbrk end_ me
  | User.sleep _ => sys_sleep me
  | User.uptime => sys_uptime
  | User.trace _ => sys_trace me x0
  | User.Undef _ => ret 0
  end.

Lemma find_handler {X} (e : sysE X) :
  is_undef e = false -> find_call (i32 (number e)) (syscalls devsw end_ data_ name0 de0 elf0 x0 me) = Some (handler e).
Proof. by destruct e. Qed.

Lemma stub_enters k p T l n {X} (e : sysE X) :
  pt_proc (ks_pt k) !! me = Some p -> uvm end_ (ks_vm k) (p_pgdir p) T l n -> writable (ks_vm k) T n -> p_sz p <= 4096 * n ->
  0 <= sp -> sp + zlen (frame sp retaddr buf (uargs e)) <= p_sz p ->
  exists k' p', enter me sp retaddr buf e k = Ret tt k' /\ trapped me sp retaddr buf k' p' (uargs e) /\
    p_sz p' = p_sz p /\ tf_eax (p_tf p') = number e /\ ks_fs k' = ks_fs k /\ ks_file k' = ks_file k.
Proof.
  intros Hp Hu Hw Hsz Hsp Hfit. pose proof (u_n _ _ _ _ _ _ Hu) as Hn. unfold UPAGES in Hn.
  destruct (run_store_bytes end_ (p_pgdir p) T l n (ks_vm k) sp (frame sp retaddr buf (uargs e)) Hu Hw Hsp) as (m' & E & Hu' & _ & Hb); [lia|].
  set (k1 := set_vm (set_mem m' (ks_vm k)) k). set (p' := set_tf (set_regs (number e) sp (p_tf p)) p).
  exists (set_pt (upd_proc me (fun p => set_tf (set_regs (number e) sp (p_tf p)) p) (ks_pt k)) k1), p'.
  assert (Est : user_store me sp (frame sp retaddr buf (uargs e)) k = Ret tt k1).
  { unfold user_store. run (curproc_run me k p Hp). by rewrite E. }
  split; [unfold enter; rewrite (bind_run _ _ _ _ _ Est); reflexivity|]. split; [|split_and!; reflexivity]. constructor.
  - cbn. by rewrite list_lookup_alter_eq, Hp.
  - done.
  - split; [done|]. unfold KERNBASE. cbn. lia.
  - done.
  - intros off b Hpt. pose proof (part_bound _ _ _ Hpt) as [Ho Hle]. pose proof (zlen_nonneg b). split; [lia|]. split; [cbn; lia|].
    cbn [ks_vm set_pt set_vm k1 p_pgdir p' set_tf]. apply (load_bytes_user end_ _ T l n (set_mem m' (ks_vm k))); [done|lia..|].
    intros i Hi. cbn [set_mem k_mem]. rewrite Hb by lia. rewrite decide_True by lia. rewrite <- (part_zget _ _ _ i Hpt) by lia. f_equal. lia.
Qed.

(** C18: A process whose pages are writable makes a system call: at the trap eax
    selects the handler of that very call, and every argument that the handler
    fetches is the one the program passed, be it an int, the bytes or the
    string behind a pointer, a buffer to fill or a vector of strings. *)
Theorem stub_passes k p T l n {X} (e : sysE X) :
  pt_proc (ks_pt k) !! me = Some p -> uvm end_ (ks_vm k) (p_pgdir p) T l n -> writable (ks_vm k) T n -> p_sz p <= 4096 * n ->
  0 <= sp -> sp + zlen (frame sp retaddr buf (uargs e)) <= p_sz p -> is_undef e = false ->
  exists k' p', enter me sp retaddr buf e k = Ret tt k' /\ pt_proc (ks_pt k') !! me = Some p' /\ p_sz p' = p_sz p /\
    find_call (i32 (tf_eax (p_tf p'))) (syscalls devsw end_ data_ name0 de0 elf0 x0 me) = Some (handler e) /\
    forall i x, uargs e !! i = Some x -> passed me buf k' p' (Z.of_nat i) x.
Proof.
  intros Hp Hu Hw Hsz Hsp Hfit He. destruct (stub_enters k p T l n e Hp Hu Hw Hsz Hsp Hfit) as (k' & p' & E & Ht & Hs & Ha & _).
  exists k', p'. split; [exact E|]. split; [by apply (tr_proc _ _ _ _ _ _ _ Ht)|]. split; [done|].
  split; [rewrite Ha; by apply find_handler|]. intros i x. by apply (trapped_passed me sp retaddr buf).
Qed.

End Stub.

(** [open("ab", 5)] in a process with two pages. *)
Lemma stub_passes_witness :
  exists (k k' : kern (bio Memide.memdisk)), enter 0 100 7 4096 (User.open [97; 98; 0] 5) k = Ret tt k' /\
    argstr 0 0 k' = Ret (Some [97; 98]) k' /\ argint 0 1 k' = Ret (Some 5) k'.
Proof.
  destruct boot_process as (s & pd & T & l & Hu & _ & Htr). pose proof ex_end_ok as He.
  set (p := MkProc 8192 pd 0 RUNNING 1 None tf0 None false [] None [] false 0).
  set (k := MkKern (MkFs (MkLog 0 0 0 0 0 0 [] (MkBio (binit bcache0) (Memide.MkMemdisk ∅ 0 []))) []) s [] ∅ (MkPtable [p] 2 0) 0 []).
  destruct (stub_passes (fun _ => MkDev _ None None) ex_end ex_data [] [] [] 0 0 100 7 4096 k p T l 2 (User.open [97; 98; 0] 5)) as (k' & p' & E & _ & _ & _ & H).
  - reflexivity.
  - exact Hu.
  - intros j Hj. destruct (Htr (4096 * j) ltac:(lia)) as [pa Et]. rewrite (translate_user ex_end s pd T l 2 _ Hu) in Et by lia.
    injection Et as _ Ef. replace (4096 * j / 4096) with j in Ef by dlia. cbn [k ks_vm]. rewrite Ef. done.
  - cbn. lia.
  - lia.
  - vm_compute. congruence.
  - reflexivity.
  - exists k, k'. split; [exact E|]. split; [|apply (H 1%nat (AInt 5)); [reflexivity|lia]].
    apply (H 0%nat (ABytes [97; 98; 0]) eq_refl); [reflexivity|repeat constructor; lia].
Defined.
