(* ===== verification/UsertestsProps.v ===== *)
(** * What the tests of usertests.c accept

    Two tests of Usertests.v, run against every kernel that answers as [kcall] of
    User.v says: they end, and the only failures they can report are of calls
    the kernel may refuse. *)

From S2P Require Import Prelude.
From S2P Require Import Params.
From S2P Require Import CString.
From S2P Require Import Fs.
From S2P Require Import Printf.
From S2P Require Import Sh.
From S2P Require Import Sysfile.
From S2P Require Import User.
From S2P Require Import UserProgs.
From S2P Require Import UserProps.
From S2P Require Import Usertests.
From ITree Require Import ITree.
Import Usertests.

(** ** The calls of a process that has one file open at a time *)

Section Calls.
Context {A : Type} (Q : A -> world -> Prop) (F : fin -> world -> Prop).
(** The process: its descriptors, of which 1 is the console and [fd] the lowest free
    one, its children and its input. *)
Context (fds : list (option nat)) (o1 : nat) (fd : Z) (kids input : list Z).
Hypothesis Hcons : fds !! 1%nat = Some (Some o1).
Hypothesis Hfree : fd_scan 0 fds = Some fd.

(** It with [fd] closed, and with [fd] open on the last file opened. *)
Definition idle (names : gmap (list Z) Z) (nodes : gmap Z node) (objs : list obj) (output : list Z) : world :=
  MkWorld names nodes objs fds kids input output true.
Definition busy (names : gmap (list Z) Z) (nodes : gmap Z node) (objs : list obj) (b : obj) (output : list Z) : world :=
  MkWorld names nodes (objs ++ [b]) (zset fds fd (Some (length objs))) kids input output true.

Implicit Types (names : gmap (list Z) Z) (nodes : gmap Z node) (objs : list obj).

Lemma fd_free : 0 <= fd /\ fds !! Z.to_nat fd = Some None.
Proof using Hfree. apply fd_scan_spec in Hfree as [H1 H2]. rewrite Z.sub_0_r in H2. done. Qed.

Lemma busy_obj names nodes objs b output : fd_obj fd (busy names nodes objs b output) = Some (length objs, b).
Proof using Hfree.
  destruct fd_free as [H1 H2]. apply fd_obj_Some. cbn. unfold zset. split_and!; [done| |by apply list_lookup_middle].
  apply list_lookup_insert_eq. by eapply lookup_lt_Some.
Qed.

Lemma at_busy names nodes objs b b' output : at_obj (length objs) b' (busy names nodes objs b output) = busy names nodes objs b' output.
Proof. unfold at_obj, busy, set_objs. cbn. by rewrite insert_app_r_alt, Nat.sub_diag by lia. Qed.

Lemma idle_cons names nodes objs output : objs !! o1 = Some OCons -> on_cons 1 (idle names nodes objs output).
Proof using Hcons. intros H. exists o1. apply fd_obj_Some. split_and!; [lia|done|done]. Qed.

Lemma busy_cons names nodes objs b output : objs !! o1 = Some OCons -> on_cons 1 (busy names nodes objs b output).
Proof using Hcons Hfree.
  intros H. destruct fd_free as [H1 H2]. exists o1. apply fd_obj_Some. cbn. unfold zset. split_and!; [lia| |by apply lookup_app_l_Some].
  rewrite list_lookup_insert_ne; [done|]. intros E. rewrite E in H2. change (Z.to_nat 1) with 1%nat in H2. congruence.
Qed.

Lemma wp_puts w s cs (k : unit -> prog A) : formatted (line s ++ [0]) [] = Some cs -> on_cons 1 w ->
  wp kcall Q F (k tt) (out cs w) -> wp kcall Q F (ITree.bind (puts s) k) w.
Proof. intros E Hc H. apply wp_bind. eapply wp_fprintf; [exact E|exact Hc|exact H]. Qed.

Lemma wp_fatal w s cs : formatted (line s ++ [0]) [] = Some cs -> on_cons 1 w -> F Exited (out cs w) ->
  wp kcall Q F (fatal s) w.
Proof. intros E Hc H. eapply wp_puts; [exact E|exact Hc|]. by apply wp_exit. Qed.

Lemma new_busy names nodes objs b output :
  new_fd b (idle names nodes objs output) = Some (fd, busy names nodes objs b output).
Proof using Hfree. unfold new_fd. cbn [w_fds idle]. by rewrite Hfree. Qed.

Lemma wp_create names nodes objs output path mode (k : Z -> prog A) :
  names !! path = None -> has mode O_CREATE = true ->
  wp kcall Q F (k (-1)) (idle names nodes objs output) ->
  (forall i, nodes !! i = None ->
    wp kcall Q F (k fd) (busy (<[path := i]> names) (<[i := NFile []]> nodes) objs (OFile path mode i 0) output)) ->
  wp kcall Q F (ITree.bind (sys (open path mode)) k) (idle names nodes objs output).
Proof using Hfree.
  intros Hn Hm Hno Hyes. apply wp_bind, wp_sys; [done|done| |].
  - intros _. exists (-1), (idle names nodes objs output). cbn. unfold k_open. cbn [w_names idle]. rewrite Hn, Hm. by left.
  - intros x w' H. cbn in H. unfold k_open in H. cbn [w_names idle] in H. rewrite Hn, Hm in H.
    destruct H as [[-> ->]|(i & Hi & H)]; [done|]. unfold opens in H.
    change (set_fs _ _ (idle names nodes objs output)) with (idle (<[path := i]> names) (<[i := NFile []]> nodes) objs output) in H.
    rewrite new_busy in H. destruct H as [[? _]|[-> ->]]; [done|]. by apply Hyes.
Qed.

Lemma wp_open_there names nodes objs output path mode i bytes (k : Z -> prog A) :
  names !! path = Some i -> nodes !! i = Some (NFile bytes) ->
  wp kcall Q F (k fd) (busy names nodes objs (OFile path mode i 0) output) ->
  wp kcall Q F (ITree.bind (sys (open path mode)) k) (idle names nodes objs output).
Proof using Hfree. intros Hn Hi. by eapply wp_open_file; [| | |apply new_busy]. Qed.

Lemma wp_close_fd names nodes objs b output (k : Z -> prog A) :
  wp kcall Q F (k 0) (idle names nodes (objs ++ [b]) output) ->
  wp kcall Q F (ITree.bind (sys (close fd)) k) (busy names nodes objs b output).
Proof using Hfree.
  intros H. eapply wp_close; [apply busy_obj|]. destruct fd_free as [H1 H2].
  replace (set_objs _ _ _) with (idle names nodes (objs ++ [b]) output); [done|]. unfold idle, busy, set_objs. cbn. f_equal.
  unfold zset. rewrite list_insert_insert_eq. symmetry. by apply list_insert_id.
Qed.

(** A write at the end of the file, which may fail half way. *)
Lemma wp_write_fd names nodes objs path i off bytes output mode bs (k : Z -> prog A) :
  nodes !! i = Some (NFile bytes) -> has mode O_RDWR = true ->
  (forall m, wp kcall Q F (k (-1)) (busy names (<[i := NFile (overwrite off (take m bs) bytes)]> nodes) objs
    (OFile path mode i (off + length (take m bs))) output)) ->
  wp kcall Q F (k (zlen bs)) (busy names (<[i := NFile (overwrite off bs bytes)]> nodes) objs
    (OFile path mode i (off + length bs)) output) ->
  wp kcall Q F (ITree.bind (sys (write fd bs)) k) (busy names nodes objs (OFile path mode i off) output).
Proof using Hfree.
  intros Hi Hm Hno Hyes. set (w := busy _ _ _ _ _). pose proof (busy_obj names nodes objs (OFile path mode i off) output) as Ho. fold w in Ho.
  assert (Hset : forall n' b', set_fs (w_names w) n' (set_objs (<[length objs := b']> (w_objs w)) (w_fds w) w) = busy names n' objs b' output).
  { intros n' b'. unfold w, busy, set_fs, set_objs. cbn. f_equal. rewrite insert_app_r_alt, Nat.sub_diag by lia. done. }
  assert (Hall : forall x w', k_write w fd bs x w' <->
    (exists m, gives (-1) (busy names (<[i := NFile (overwrite off (take m bs) bytes)]> nodes) objs
      (OFile path mode i (off + length (take m bs))) output) x w') \/
    gives (zlen bs) (busy names (<[i := NFile (overwrite off bs bytes)]> nodes) objs (OFile path mode i (off + length bs)) output) x w').
  { intros x w'. unfold k_write. rewrite Ho, Hm, orb_true_r. cbn [negb]. change (w_nodes w !! i) with (nodes !! i). rewrite Hi.
    rewrite Hset. by setoid_rewrite Hset. }
  apply wp_bind, wp_sys; [done|done| |].
  - intros _. eexists _, _. cbn. apply Hall. by right.
  - intros x w' H. cbn in H. apply Hall in H as [(m & -> & ->)|[-> ->]]; auto.
Qed.

End Calls.

(** ** linktest *)

(** A name that unlink can remove: absent, or of a file or a device. *)
Definition removable (w : world) (path : list Z) : Prop :=
  w_names w !! path = None \/ exists i n, w_names w !! path = Some i /\ w_nodes w !! i = Some n /\ n <> NDir.

Lemma wp_unlink {A} (Q : A -> world -> Prop) F w path (k : Z -> prog A) : removable w path ->
  (forall r, wp kcall Q F (k r) (set_fs (delete path (w_names w)) (w_nodes w) w)) ->
  wp kcall Q F (ITree.bind (sys (unlink path)) k) w.
Proof.
  intros Hr H. destruct Hr as [Hn|(i & n & Hn & Hi & Hd)].
  - eapply (wp_sys_eq _ _ _ _ _ _ (-1) w); [done|done| |].
    + intros y v. cbn. unfold k_unlink. by rewrite Hn.
    + specialize (H (-1)). rewrite delete_id in H by done. by destruct w.
  - eapply wp_sys_eq; [done|done| |apply (H 0)]. intros y v. cbn. unfold k_unlink. rewrite Hn, Hi. by destruct n.
Qed.

Lemma wp_link_fails {A} (Q : A -> world -> Prop) F w old new (k : Z -> prog A) :
  w_names w !! old = None \/ is_Some (w_names w !! new) \/
    (exists i, w_names w !! old = Some i /\ w_nodes w !! i = Some NDir) ->
  wp kcall Q F (k (-1)) w -> wp kcall Q F (ITree.bind (sys (link old new)) k) w.
Proof.
  intros Hf. apply wp_sys_eq; [done..|]. intros y v. cbn. unfold k_link.
  destruct Hf as [->|[[j ->]|(i & -> & Hi)]]; [done|by destruct (_ !! old)|]. rewrite Hi. by destruct (_ !! new).
Qed.

Lemma wp_link_ok {A} (Q : A -> world -> Prop) F w old new i bytes (k : Z -> prog A) :
  w_names w !! old = Some i -> w_nodes w !! i = Some (NFile bytes) -> w_names w !! new = None ->
  wp kcall Q F (k (-1)) w -> wp kcall Q F (k 0) (set_fs (<[new := i]> (w_names w)) (w_nodes w) w) ->
  wp kcall Q F (ITree.bind (sys (link old new)) k) w.
Proof.
  intros Ho Hi Hn Hno Hyes.
  assert (Hall : forall x w', k_link w old new x w' <-> fails w x w' \/ gives 0 (set_fs (<[new := i]> (w_names w)) (w_nodes w) w) x w').
  { intros x w'. unfold k_link. by rewrite Ho, Hn, Hi. }
  apply wp_bind, wp_sys; [done|done|intros _; exists (-1), w; apply Hall; by left|].
  intros x w' [[-> ->]|[-> ->]]%Hall; done.
Qed.

(** The test ends with one of these lines. *)
Definition reports (test : string) (lines : list string) (w w' : world) : Prop :=
  exists s, s ∈ lines /\ w_output w' = w_output w ++ line test ++ line s.

Lemma reported test (lines : list string) s w w' : s ∈ lines -> w_output w' = (w_output w ++ line test) ++ line s ->
  reports test lines w w'.
Proof. intros Hs E. exists s. by rewrite E, <- app_assoc. Qed.

Ltac refuse Hc s :=
  eapply wp_fatal; [reflexivity|by apply Hc|]; split; [done|]; apply (reported _ _ s); [set_solver|done].

Definition lf1 : list Z := str "lf1".
Definition lf2 : list Z := str "lf2".


(** ** exitwait *)

(** The process between two rounds: it has no children, and has printed nothing. *)
Definition between (w w' : world) : Prop :=
  w_kids w' = [] /\ w_output w' = w_output w /\ w_fds w' = w_fds w /\ w_objs w' = w_objs w /\ w_room w' = w_room w.

Lemma between_cons w w' : between w w' -> on_cons 1 w -> on_cons 1 w'.
Proof. intros (_ & _ & Hf & Ho & _) [o (H1 & H2 & H3)%fd_obj_Some]. exists o. apply fd_obj_Some. by rewrite Hf, Ho. Qed.

(** The body of its loop: the process itself comes back with no children, unless
    the fork was refused. *)
Definition exitwait_round : prog (unit + unit) :=
  let* pid := sys fork in
  if pid <? 0 then puts "fork failed" ;;; Ret (inr tt) else
  if negb (pid =? 0) then
    let* r := sys wait in
    if negb (r =? pid) then puts "wait wrong pid" ;;; Ret (inr tt) else Ret (inl tt)
  else sys_exit.

Definition fork_refused (w w' : world) : Prop :=
  w_room w = false /\ w_kids w' = [] /\ w_output w' = w_output w ++ line "fork failed".

Lemma wp_exitwait_round w w1 : on_cons 1 w -> between w w1 ->
  wp kcall (fun r w' => match r with inl _ => between w w' | inr _ => fork_refused w w' end)
    (fun f w' => f = Exited /\ w_kids w' = []) exitwait_round w1.
Proof.
  intros Hc Hb. pose proof Hb as (Hk & Ho & Hf & Hj & Hr). apply wp_bind, wp_sys; [done|done| |].
  - intros _. eexists 0, _. right. exists ∅, ∅. left. split; [done|by exists []].
  - intros x w' [[Hroom [-> ->]]|(names & nodes & [[-> [inp ->]]|(Hx & _ & ->)])].
    + change (-1 <? 0) with true. cbv iota. eapply wp_puts; [reflexivity|by eapply between_cons|]. apply wp_ret.
      split_and!; [congruence|done|]. cbn. by rewrite Ho.
    + change (0 <? 0) with false. change (0 =? 0) with true. cbv iota. by apply wp_exit.
    + rewrite (proj2 (Z.ltb_ge x 0)), (proj2 (Z.eqb_neq x 0)) by lia. cbn [negb]. apply wp_bind, wp_sys; [done|done| |].
      * intros _. cbn. unfold k_wait. cbn. rewrite Hk. by eexists x, _, [], [], ∅, ∅.
      * intros y w2 Hw. cbn in Hw. unfold k_wait in Hw. cbn in Hw. rewrite Hk in Hw. destruct Hw as (l & r & n1 & n2 & E & ->).
        assert (y = x /\ l ++ r = []) as [-> El].
        { destruct l as [|z l]; [injection E as <- <-; done|]. injection E as _ E. by destruct l. }
        rewrite Z.eqb_refl. cbn [negb]. apply wp_ret. rewrite El. done.
Qed.

(** exitwait accepts every kernel of [kcall]: each wait returns the child just
    forked, so that the test passes, or reports that a fork was refused; all
    children have been waited for when it is over. *)
Theorem exitwait_accepts w :
  on_cons 1 w -> w_kids w = [] ->
  wp kcall
    (fun _ w' => w_kids w' = [] /\ (w_output w' = w_output w ++ line "exitwait ok" \/ fork_refused w w'))
    (fun f w' => f = Exited /\ w_kids w' = []) exitwait w.
Proof.
  intros Hc Hk. assert (Hloop : forall n i w1, between w w1 ->
    wp kcall (fun r w' => match r with inl _ => between w w' | inr _ => fork_refused w w' end)
      (fun f w' => f = Exited /\ w_kids w' = []) (for_ n i (fun _ _ => exitwait_round) tt) w1).
  { induction n as [|n IH]; intros i w1 Hb; cbn [for_]; [by apply wp_ret|]. apply wp_bind.
    eapply wp_mono; [by apply wp_exitwait_round| |done]. intros [[]|[]] w' H; [by apply IH|by apply wp_ret]. }
  apply wp_bind. eapply wp_mono; [apply (Hloop 100%nat 0 w); done| |done].
  intros [[]|[]] w' H.
  - pose proof H as (Hk' & Ho & _). eapply wp_fprintf; [reflexivity|by eapply between_cons|].
    split; [done|]. left. cbn. by rewrite Ho.
  - apply wp_ret. split; [apply H|by right].
Qed.

(** ** Witnesses *)

(** Three descriptors on the console, and a directory in which lf1 is a file. *)
Definition ex_tests : world :=
  MkWorld {[ str "." := 1; lf1 := 5 ]} {[ 1 := NDir; 5 := NFile (lit "old") ]} [OCons]
    (replicate 3 (Some 0%nat) ++ replicate 13 None) [] [] [] true.


Lemma exitwait_accepts_witness :
  wp kcall
    (fun _ w' => w_kids w' = [] /\ (w_output w' = w_output ex_tests ++ line "exitwait ok" \/ fork_refused ex_tests w'))
    (fun f w' => f = Exited /\ w_kids w' = []) exitwait ex_tests.
Proof. apply exitwait_accepts; [exists 0%nat; reflexivity|reflexivity]. Defined.
