(* ===== verification/ShRun.v ===== *)
(** * The shell at work (sh.c: runcmd, getcmd, main, fork1, panic)

    runcmd and main as interaction trees over the system calls.  A fork has two
    answers, and the program goes on with each of them: what is proved of the
    tree holds of the shell and of every process that descends from it. *)

From S2P Require Import Prelude.
From S2P Require Import Params.
From S2P Require Import CString.
From S2P Require Import Fs.
From S2P Require Import Printf.
From S2P Require Import Sh.
From S2P Require Import ShPrint.
From S2P Require Import Sysfile.
From S2P Require Import User.
From S2P Require Import UserProgs.
From S2P Require Import UserProps.
From ITree Require Import ITree.

Module ShRun.

Definition panic {A} (s : string) : prog A := fprintf 2 (lit "%s" ++ nl) [PStr (lit s ++ [0])] ;;; sys_exit.

Definition fork1 : prog Z :=
  let* pid := sys fork in
  if pid =? -1 then panic "fork" else Ret pid.

(** The words of the command are C strings.  The pointer is not null, malloc
    being taken to succeed. *)
Fixpoint runcmd (c : cmd (list Z)) : prog Empty_set :=
  match c with
  | EXEC argv =>
      match argv with
      | [] => sys_exit
      | a :: _ => sys (exec a argv) ;;; fprintf 2 (lit "exec %s failed" ++ nl) [PStr a] ;;; sys_exit
      end
  | REDIR c file mode fd =>
      sys (close fd) ;;;
      let* r := sys (open file mode) in
      if r <? 0 then fprintf 2 (lit "open %s failed" ++ nl) [PStr file] ;;; sys_exit
      else runcmd c
  | LIST cl cr =>
      let* pid := fork1 in
      if pid =? 0 then runcmd cl
      else sys wait ;;; runcmd cr
  | PIPE cl cr =>
      let* (r, (p0, p1)) := sys pipe in
      if r <? 0 then panic "pipe" else
      let* pid := fork1 in
      if pid =? 0 then
        sys (close 1) ;;; sys (dup p1) ;;; sys (close p0) ;;; sys (close p1) ;;; runcmd cl
      else
      let* pid := fork1 in
      if pid =? 0 then
        sys (close 0) ;;; sys (dup p0) ;;; sys (close p0) ;;; sys (close p1) ;;; runcmd cr
      else
      sys (close p0) ;;; sys (close p1) ;;; sys wait ;;; sys wait ;;; sys_exit
  | BACK c =>
      let* pid := fork1 in
      if pid =? 0 then runcmd c else sys_exit
  end.

(** The buffer is cleared, so that it is empty at the end of the input. *)
Definition getcmd (nbuf : Z) : prog (option (list Z)) :=
  fprintf 2 (lit "$ ") [] ;;;
  let* buf := ugets (replicate (Z.to_nat nbuf) 0) nbuf in
  Ret (if zget buf 0 =? 0 then None else Some buf).

Definition open_console : prog unit :=
  while (fun _ : unit =>
    let* fd := sys (open Init.console O_RDWR) in
    if negb (fd >=? 0) then Ret (inr tt)
    else if fd >=? 3 then sys (close fd) ;;; Ret (inr tt)
    else Ret (inl tt)) tt.

(** The panics of the parser print their message and exit. *)
Definition parse_run (buf : list Z) : prog Empty_set :=
  match parsecmd buf with
  | Prelude.Ret (c, buf) _ => runcmd (cmd_map (fun t => string_at buf t ++ [0]) c)
  | Fail (FPanic msg) => panic msg
  | _ => undefined "parsecmd"
  end.

(** One round of the loop of main. *)
Definition command : prog (unit + Empty_set) :=
  let* buf := getcmd 100 in
  match buf with
  | None => sys_exit
  | Some buf =>
      if (zget buf 0 =? 99) && (zget buf 1 =? 100) && (zget buf 2 =? 32) then
        let* n := defined (Ulib.strlen buf) in
        let buf := zset buf (n - 1) 0 in
        let dir := until_nul (drop 3 buf) ++ [0] in
        let* r := sys (chdir dir) in
        (if r <? 0 then fprintf 2 (lit "cannot cd %s" ++ nl) [PStr dir] else Ret tt) ;;;
        Ret (inl tt)
      else
        let* pid := fork1 in
        if pid =? 0 then let* x := parse_run buf in match x with end
        else sys wait ;;; Ret (inl tt)
  end.

Definition main : prog Empty_set :=
  open_console ;;; while (fun _ : unit => command) tt.

End ShRun.
