(* ===== verification/ShWire.v ===== *)
(** * How the shell connects commands

    The state of a process between its calls is its table of open files; the
    rules below give the effect of each call on it.  With them runcmd is shown
    to start every command with the descriptors the command line asks for, and
    no others. *)

From S2P Require Import Prelude.
From S2P Require Import Params.
From S2P Require Import CString.
From S2P Require Import Fs.
From S2P Require Import Printf.
From S2P Require Import Sh.
From S2P Require Import ShPrint.
From S2P Require Import Sysfile.
From S2P Require Import User.
From S2P Require Import UserProgs.
From S2P Require Import UserProps.
From S2P Require Import ShRun.
From ITree Require Import ITree.
Import ShRun.

(** ** The table of open files *)

Definition view (w : world) : list (option obj) :=
  (fun o => match o with Some n => w_objs w !! n | None => None end) <$> w_fds w.

(** A process with the table [T], [n] files opened so far and children [ks], and
    [inp] to come from the console. *)
Record st (w : world) (T : list (option obj)) (n : nat) (ks : list Z) (room : bool) (inp : list Z) : Prop := {
  st_wf : forall i o, w_fds w !! i = Some (Some o) -> is_Some (w_objs w !! o);
  st_view : view w = T;
  st_objs : length (w_objs w) = n;
  st_kids : w_kids w = ks;
  st_room : w_room w = room;
  st_input : w_input w = inp
}.

(** [r] is the lowest free descriptor. *)
Definition free_at (T : list (option obj)) (r : nat) : Prop :=
  T !! r = Some None /\ forall j, (j < r)%nat -> exists b, T !! j = Some (Some b).

Lemma view_lookup w i : view w !! i = (fun o => match o with Some n => w_objs w !! n | None => None end) <$> w_fds w !! i.
Proof. apply list_lookup_fmap. Qed.

Section Table.
Context (w : world) (T : list (option obj)) (n : nat) (ks : list Z) (room : bool) (inp : list Z).
Hypothesis H : st w T n ks room inp.

Lemma st_open i b : T !! i = Some (Some b) -> exists o, fd_obj (Z.of_nat i) w = Some (o, b).
Proof using All.
  rewrite <- (st_view _ _ _ _ _ _ H), view_lookup. destruct (w_fds w !! i) as [[o|]|] eqn:E; try done. cbn. intros [= Hb].
  exists o. apply fd_obj_Some. rewrite Nat2Z.id. split; [lia|done].
Qed.

Lemma st_closed i : T !! i = Some None -> w_fds w !! i = Some None.
Proof using All.
  rewrite <- (st_view _ _ _ _ _ _ H), view_lookup. destruct (w_fds w !! i) as [[o|]|] eqn:E; try done. cbn.
  destruct (st_wf _ _ _ _ _ _ H i o E) as [b ->]. done.
Qed.

Lemma scan_at (l : list (option nat)) k r : l !! r = Some None -> (forall j, (j < r)%nat -> exists o, l !! j = Some (Some o)) ->
  fd_scan k l = Some (k + Z.of_nat r).
Proof using Type.
  revert k r. induction l as [|a l IH]; intros k r Hr Hlow; [done|]. destruct r as [|r].
  - injection Hr as ->. cbn. f_equal. lia.
  - destruct (Hlow O ltac:(lia)) as [o [= ->]]. cbn. rewrite (IH (k + 1) r); [f_equal; lia|done|].
    intros j Hj. apply (Hlow (S j)). lia.
Qed.

Lemma st_scan r : free_at T r -> fd_scan 0 (w_fds w) = Some (Z.of_nat r).
Proof using All.
  intros [Hr Hlow]. rewrite (scan_at _ 0 r); [done|by apply st_closed|]. intros j Hj.
  destruct (Hlow j Hj) as [b Hb]. apply st_open in Hb as [o (_ & Ho & _)%fd_obj_Some]. rewrite Nat2Z.id in Ho. by exists o.
Qed.

(** Closing a descriptor, opening one for a new file, and for one that is open. *)
Lemma st_close i : st (set_objs (w_objs w) (zset (w_fds w) (Z.of_nat i) None) w) (<[i := None]> T) n ks room inp.
Proof using All.
  destruct H as [H1 H2 H3 H4 H5 H6]. constructor; cbn; try done.
  - intros j o. unfold zset. rewrite Nat2Z.id. intros [(-> & ? & _)|[_ E]]%list_lookup_insert_Some; [done|eauto].
  - unfold view, zset. cbn. rewrite Nat2Z.id, list_fmap_insert, <- H2. done.
Qed.

Lemma st_new i b : (i < length T)%nat ->
  st (set_objs (w_objs w ++ [b]) (zset (w_fds w) (Z.of_nat i) (Some (length (w_objs w)))) w) (<[i := Some b]> T) (S n) ks room inp.
Proof using All.
  intros Hi. destruct H as [H1 H2 H3 H4 H5 H6]. constructor; cbn; try done.
  - intros j o. unfold zset. rewrite Nat2Z.id. intros [(-> & [= <-] & _)|[_ E]]%list_lookup_insert_Some.
    + rewrite lookup_app_r, Nat.sub_diag by lia. by eexists.
    + destruct (H1 j o E) as [b' Hb]. exists b'. by apply lookup_app_l_Some.
  - unfold view, zset. cbn. rewrite Nat2Z.id, list_fmap_insert. f_equal.
    + rewrite lookup_app_r, Nat.sub_diag by lia. done.
    + rewrite <- H2. unfold view. apply list_eq. intros j. rewrite !list_lookup_fmap.
      destruct (w_fds w !! j) as [[o|]|] eqn:E; [|done..]. cbn. f_equal. destruct (H1 j o E) as [b' Hb].
      rewrite Hb. by apply lookup_app_l_Some.
  - rewrite length_app, H3. cbn. lia.
Qed.

Lemma st_dup i j o b : fd_obj (Z.of_nat j) w = Some (o, b) ->
  st (set_objs (w_objs w) (zset (w_fds w) (Z.of_nat i) (Some o)) w) (<[i := Some b]> T) n ks room inp.
Proof using All.
  intros (_ & _ & Ho)%fd_obj_Some. destruct H as [H1 H2 H3 H4 H5 H6]. constructor; cbn; try done.
  - intros k o'. unfold zset. rewrite Nat2Z.id. intros [(-> & [= <-] & _)|[_ E]]%list_lookup_insert_Some; [by eexists|eauto].
  - unfold view, zset. cbn. rewrite Nat2Z.id, list_fmap_insert, Ho, <- H2. done.
Qed.

End Table.

(** ** Calls of the shell *)

(** What an open of [file] can give. *)
Definition opened (file : list Z) (mode : Z) (b : obj) : Prop := b = OCons \/ exists i, b = OFile file mode i 0.

Section Rules.
Context {A : Type} (Q : A -> world -> Prop) (F : fin -> world -> Prop).
Context (w : world) (T : list (option obj)) (n : nat) (ks : list Z) (room : bool) (inp : list Z).
Hypothesis H : st w T n ks room inp.

Lemma wp_st_close i b (k : Z -> prog A) : T !! i = Some (Some b) ->
  (forall w', st w' (<[i := None]> T) n ks room inp -> wp kcall Q F (k 0) w') ->
  wp kcall Q F (ITree.bind (sys (close (Z.of_nat i))) k) w.
Proof using H.
  intros Hi Hk. destruct (st_open _ _ _ _ _ _ H i b Hi) as [o Ho]. eapply wp_close; [exact Ho|]. apply Hk.
  by apply (st_close _ _ _ _ _ _ H).
Qed.

Lemma wp_st_dup i r b (k : Z -> prog A) : T !! i = Some (Some b) -> free_at T r ->
  (forall w', st w' (<[r := Some b]> T) n ks room inp -> wp kcall Q F (k (Z.of_nat r)) w') ->
  wp kcall Q F (ITree.bind (sys (dup (Z.of_nat i))) k) w.
Proof using H.
  intros Hi Hr Hk. destruct (st_open _ _ _ _ _ _ H i b Hi) as [o Ho].
  eapply wp_sys_eq; [done..| |apply Hk, (st_dup _ _ _ _ _ _ H r i o b Ho)].
  intros y v. cbn. unfold k_dup. by rewrite Ho, (st_scan _ _ _ _ _ _ H r Hr).
Qed.

Lemma new_fd_st b r : free_at T r -> exists w', new_fd b w = Some (Z.of_nat r, w') /\ st w' (<[r := Some b]> T) (S n) ks room inp.
Proof using H.
  intros Hr. unfold new_fd. rewrite (st_scan _ _ _ _ _ _ H r Hr). eexists. split; [done|]. apply (st_new _ _ _ _ _ _ H).
  destruct Hr as [Hr _]. by eapply lookup_lt_Some.
Qed.

Lemma wp_st_open file mode r (k : Z -> prog A) : free_at T r ->
  (forall w' b, opened file mode b -> st w' (<[r := Some b]> T) (S n) ks room inp -> wp kcall Q F (k (Z.of_nat r)) w') ->
  (forall w', st w' T n ks room inp -> wp kcall Q F (k (-1)) w') ->
  wp kcall Q F (ITree.bind (sys (open file mode)) k) w.
Proof using H.
  intros Hr Hk Hf. assert (Hnew : forall b v0, opened file mode b -> st v0 T n ks room inp ->
    (exists x w', opens b v0 x w') /\ forall y v, opens b v0 y v -> wp kcall Q F (k y) v).
  { intros b v0 Hb H0. unfold opens, new_fd. rewrite (st_scan _ _ _ _ _ _ H0 r Hr). split; [eexists _, _; by right|].
    intros y v [[_ [-> ->]]|[-> ->]]; [by apply Hf|]. eapply Hk; [exact Hb|]. apply (st_new _ _ _ _ _ _ H0).
    destruct Hr as [Hr _]. by eapply lookup_lt_Some. }
  assert (Hno : (exists x w', fails w x w') /\ forall y v, fails w y v -> wp kcall Q F (k y) v).
  { split; [by exists (-1), w|]. intros y v [-> ->]. auto. }
  assert (Hall : (exists x w', k_open w file mode x w') /\ forall y v, k_open w file mode y v -> wp kcall Q F (k y) v).
  { unfold k_open. destruct (w_names w !! file) as [i|]; [destruct (w_nodes w !! i) as [[| |]|]|].
    - apply Hnew; [right; eauto|done].
    - destruct (mode =? O_RDONLY); [|done]. apply Hnew; [right; eauto|done].
    - destruct (has mode O_CREATE); [done|]. apply Hnew; [by left|done].
    - done.
    - destruct (has mode O_CREATE); [|done]. split; [exists (-1), w; by left|].
      intros y v [[-> ->]|(i & Hi & Hg)]; [auto|]. revert Hg. apply Hnew; [right; eauto|]. destruct H; by constructor. }
  destruct Hall as [Hx Hy]. apply wp_bind, wp_sys; [done|done|by intros _|exact Hy].
Qed.

Lemma new_fd_any b fd w' : new_fd b w = Some (fd, w') ->
  exists r, fd = Z.of_nat r /\ T !! r = Some None /\ st w' (<[r := Some b]> T) (S n) ks room inp.
Proof using H.
  unfold new_fd. destruct (fd_scan 0 (w_fds w)) as [q|] eqn:E; [|done]. intros [= <- <-].
  apply fd_scan_spec in E as [Hq Hn]. rewrite Z.sub_0_r in Hn. exists (Z.to_nat q).
  assert (HT : T !! Z.to_nat q = Some None) by (by rewrite <- (st_view _ _ _ _ _ _ H), view_lookup, Hn).
  split; [lia|]. split; [done|]. rewrite <- (Z2Nat.id q) at 1 by lia. apply (st_new _ _ _ _ _ _ H). by eapply lookup_lt_Some.
Qed.

End Rules.

Lemma k_write_answers w fd bs : exists x w', k_write w fd bs x w'.
Proof.
  unfold k_write. repeat case_match; try (eexists _, _; split; reflexivity).
  - eexists _, _. right. split; reflexivity.
  - eexists _, _. left. split; reflexivity.
Qed.
Lemma k_write_kids w fd bs x w' : k_write w fd bs x w' -> w_kids w' = w_kids w.
Proof. unfold k_write. repeat case_match; try (by intros [-> ->]); intros [Hf|[-> ->]]; try done; [by destruct Hf as (m & -> & ->)|by destruct Hf as [-> ->]]. Qed.

Section Rules2.
Context {A : Type} (Q : A -> world -> Prop) (F : fin -> world -> Prop).
Context (w : world) (T : list (option obj)) (n : nat) (ks : list Z) (room : bool) (inp : list Z).
Hypothesis H : st w T n ks room inp.

Lemma wp_st_pipe (k : Z * (Z * Z) -> prog A) :
  wp kcall Q F (k (-1, (0, 0))) w ->
  (forall w' r0 r1, T !! r0 = Some None -> T !! r1 = Some None -> r0 <> r1 ->
     st w' (<[r1 := Some (OPipeW n)]> (<[r0 := Some (OPipeR n)]> T)) (S (S n)) ks room inp ->
     wp kcall Q F (k (0, (Z.of_nat r0, Z.of_nat r1))) w') ->
  wp kcall Q F (ITree.bind (sys pipe) k) w.
Proof using H.
  intros Hno Hk. assert (En := st_objs _ _ _ _ _ _ H).
  assert (Hall : exists x w', k_pipe w x w' /\ forall y v, k_pipe w y v -> wp kcall Q F (k y) v).
  { unfold k_pipe. rewrite En. destruct (new_fd (OPipeR n) w) as [[fd0 w1]|] eqn:E0.
    - destruct (new_fd_any _ _ _ _ _ _ H _ _ _ E0) as (r0 & -> & G0 & H1).
      destruct (new_fd (OPipeW n) w1) as [[fd1 w2]|] eqn:E1.
      + destruct (new_fd_any _ _ _ _ _ _ H1 _ _ _ E1) as (r1 & -> & G1 & H2).
        apply list_lookup_insert_Some in G1 as [(_ & ? & _)|[Hne G1]]; [done|].
        exists (0, (Z.of_nat r0, Z.of_nat r1)), w2. split; [by right|]. intros y v [[_ [-> ->]]|[-> ->]]; [done|]. by apply Hk.
      + exists (-1, (0, 0)), w. split; [done|]. by intros y v [-> ->].
    - exists (-1, (0, 0)), w. split; [done|]. by intros y v [-> ->]. }
  destruct Hall as (x & w' & Hx & Hy). apply wp_bind, wp_sys; [done|done|intros _; by exists x, w'|exact Hy].
Qed.

(** A message and exit: the writes have no effect on the children. *)
Lemma wp_say {B} (P : B -> world -> Prop) fd s args cs : formatted (s ++ [0]) args = Some cs ->
  (forall w', w_kids w' = ks -> F Exited w') -> wp kcall P F (fprintf fd s args ;;; sys_exit) w.
Proof using H.
  intros E HF. apply wp_bind. unfold fprintf. rewrite E. apply wp_bind, wp_ret.
  assert (Hks := st_kids _ _ _ _ _ _ H). clear E H. revert w Hks. induction cs as [|c cs IH]; intros w Hks; cbn [putcs].
  - by apply wp_ret, wp_exit, HF.
  - apply wp_bind, wp_sys; [done|done|intros _; apply k_write_answers|].
    intros x w' Hx%k_write_kids. apply IH. congruence.
Qed.

Lemma wp_fork1 (k : Z -> prog A) :
  (room = false -> forall w', w_kids w' = ks -> F Exited w') ->
  (forall w' inp', st w' T n [] room inp' -> wp kcall Q F (k 0) w') ->
  (forall w' pid, 0 < pid -> st w' T n (ks ++ [pid]) room inp -> wp kcall Q F (k pid) w') ->
  wp kcall Q F (ITree.bind fork1 k) w.
Proof using H.
  intros HF Hc Hp. apply wp_bind. unfold fork1. apply wp_bind, wp_sys; [done|done| |].
  - intros _. eexists 0, _. right. exists ∅, ∅. left. split; [done|by exists []].
  - intros x w' [[Hr [-> ->]]|(names & nodes & [[-> [input ->]]|(Hx & _ & ->)])].
    + change (-1 =? -1) with true. cbv iota. eapply (wp_say _ 2 _ _ (lit "fork" ++ nl)); [reflexivity|].
      apply HF. rewrite <- Hr. symmetry. apply (st_room _ _ _ _ _ _ H).
    + change (0 =? -1) with false. cbv iota. eapply wp_ret, Hc. destruct H as [H1 H2 H3 H4 H5 H6]. by constructor.
    + rewrite (proj2 (Z.eqb_neq x (-1))) by lia. apply wp_ret, Hp; [done|]. destruct H as [H1 H2 H3 H4 H5 H6].
      constructor; try done. cbn. by rewrite H4.
Qed.

Lemma wp_st_wait (k : Z -> prog A) : ks <> [] ->
  (forall w' l x r, ks = l ++ x :: r -> st w' T n (l ++ r) room inp -> wp kcall Q F (k x) w') ->
  wp kcall Q F (ITree.bind (sys wait) k) w.
Proof using H.
  intros Hne Hk. destruct H as [H1 H2 H3 H4 H5 H6]. apply wp_bind, wp_sys; [done|done| |].
  - intros _. cbn. unfold k_wait. rewrite H4. destruct ks as [|x l]; [done|]. by exists x, (set_fs ∅ ∅ (set_kids l w)), [], l, ∅, ∅.
  - intros x w' Hw. cbn in Hw. unfold k_wait in Hw. rewrite H4 in Hw. destruct ks as [|y l]; [done|].
    destruct Hw as (l1 & r1 & names & nodes & E & ->). eapply Hk; [exact E|]. by constructor.
Qed.

End Rules2.

(** ** What a command line asks for *)

(** [wired n c T argv T']: the command [c], run with the files [T] open, starts
    [argv] with the files [T'].  A pipe is named by the number [n] of files opened
    before it, so both of its ends have the same name. *)
Inductive wired : nat -> cmd (list Z) -> list (option obj) -> list (list Z) -> list (option obj) -> Prop :=
| wired_exec n argv T : wired n (EXEC argv) T argv T
| wired_redir n c file mode fd b T argv T' : opened file mode b ->
    wired (S n) c (<[Z.to_nat fd := Some b]> T) argv T' -> wired n (REDIR c file mode fd) T argv T'
| wired_left n l r T argv T' : wired (S (S n)) l (<[1%nat := Some (OPipeW n)]> T) argv T' -> wired n (PIPE l r) T argv T'
| wired_right n l r T argv T' : wired (S (S n)) r (<[0%nat := Some (OPipeR n)]> T) argv T' -> wired n (PIPE l r) T argv T'
| wired_first n l r T argv T' : wired n l T argv T' -> wired n (LIST l r) T argv T'
| wired_second n l r T argv T' : wired n r T argv T' -> wired n (LIST l r) T argv T'
| wired_back n c T argv T' : wired n c T argv T' -> wired n (BACK c) T argv T'.

(** Words are C strings and redirections are of descriptors 0 and 1, as the parser
    makes them. *)
Fixpoint runnable (c : cmd (list Z)) : Prop :=
  match c with
  | EXEC argv => Forall (fun a => is_Some (put_string a)) argv
  | REDIR c file _ fd => (fd = 0 \/ fd = 1) /\ is_Some (put_string file) /\ runnable c
  | PIPE l r | LIST l r => runnable l /\ runnable r
  | BACK c => runnable c
  end.

Fixpoint no_back (c : cmd (list Z)) : bool :=
  match c with
  | EXEC _ => true
  | REDIR c _ _ _ => no_back c
  | PIPE l r | LIST l r => no_back l && no_back r
  | BACK _ => false
  end.

(** How the processes that run a command end. *)
Definition ends_as (n : nat) (c : cmd (list Z)) (T : list (option obj)) (room : bool) (f : fin) (w : world) : Prop :=
  match f with
  | Exited => room = true -> no_back c = true -> w_kids w = []
  | Execed path argv => head argv = Some path /\ wired n c T argv (view w) /\ w_kids w = []
  end.

(** Replacing descriptor [a] by an end of the pipe and closing both ends. *)
Lemma rewire (T : list (option obj)) a r0 r1 x y z : T !! r0 = Some None -> T !! r1 = Some None -> r0 <> r1 -> a <> r0 -> a <> r1 ->
  <[r1 := None]> (<[r0 := None]> (<[a := z]> (<[a := None]> (<[r1 := y]> (<[r0 := x]> T))))) = <[a := z]> T.
Proof.
  intros H0 H1 Hne Ha0 Ha1. apply list_eq. intros i. rewrite !list_lookup_insert, !length_insert.
  repeat case_decide; naive_solver.
Qed.

(** Standard input and output are open. *)
Definition stdio (T : list (option obj)) : Prop := forall j, (j <= 1)%nat -> exists b, T !! j = Some (Some b).

Lemma stdio_insert T a b : stdio T -> stdio (<[a := Some b]> T).
Proof. intros Ho j Hj. destruct (Ho j Hj) as [b' Hb]. rewrite list_lookup_insert. case_decide; eauto. Qed.

Lemma wp_connect {A} (Q : A -> world -> Prop) F w T n ks room inp r0 r1 R W (a p : nat) b (rest : prog A) :
  st w (<[r1 := Some W]> (<[r0 := Some R]> T)) n ks room inp ->
  T !! r0 = Some None -> T !! r1 = Some None -> r0 <> r1 ->
  stdio T -> (a <= 1)%nat ->
  p = r0 /\ b = R \/ p = r1 /\ b = W ->
  (forall w', st w' (<[a := Some b]> T) n ks room inp -> wp kcall Q F rest w') ->
  wp kcall Q F (sys (close (Z.of_nat a)) ;;; sys (dup (Z.of_nat p)) ;;;
    sys (close (Z.of_nat r0)) ;;; sys (close (Z.of_nat r1)) ;;; rest) w.
Proof.
  intros H H0 H1 Hne Hopen Ha Hp Hk. destruct (Hopen a Ha) as [ba Hba].
  assert (Ha0 : a <> r0) by (intros ->; congruence). assert (Ha1 : a <> r1) by (intros ->; congruence).
  pose proof (lookup_lt_Some _ _ _ H0) as L0. pose proof (lookup_lt_Some _ _ _ H1) as L1. pose proof (lookup_lt_Some _ _ _ Hba) as La.
  eapply wp_st_close; [exact H|by rewrite !list_lookup_insert_ne by done|]. intros w1 S1.
  eapply (wp_st_dup _ _ _ _ _ _ _ _ S1 p a b).
  - rewrite list_lookup_insert_ne by (destruct Hp as [[-> _]|[-> _]]; done).
    destruct Hp as [[-> ->]|[-> ->]]; [rewrite list_lookup_insert_ne by done|];
      apply list_lookup_insert_eq; by rewrite ?length_insert.
  - split; [apply list_lookup_insert_eq; by rewrite !length_insert|]. intros j Hj. destruct (Hopen j ltac:(lia)) as [bj Hj'].
    exists bj. rewrite !list_lookup_insert_ne; [done|intros ->; congruence..|lia].
  - intros w2 S2. eapply wp_st_close; [exact S2| |].
    { rewrite !list_lookup_insert_ne by done. by apply list_lookup_insert_eq. }
    intros w3 S3. eapply wp_st_close; [exact S3| |].
    { rewrite !(list_lookup_insert_ne _ _ r1) by done. apply list_lookup_insert_eq. by rewrite length_insert. }
    intros w4 S4. apply Hk. by rewrite rewire in S4.
Qed.

(** From a part of a command to the whole. *)
Lemma wp_part {A} (Q : A -> world -> Prop) n d T1 m c T room t w : (no_back c = true -> no_back d = true) ->
  (forall argv T', wired n d T1 argv T' -> wired m c T argv T') ->
  wp kcall Q (ends_as n d T1 room) t w -> wp kcall Q (ends_as m c T room) t w.
Proof.
  intros Hb Hw H. eapply wp_mono; [exact H|done|]. intros [|path argv] w'; cbn; [auto|].
  intros (E & Hp & Hk). auto.
Qed.

(** A process with two children that closes both ends and waits for them. *)
Lemma wp_pipe_parent {A} (Q : A -> world -> Prop) (F : fin -> world -> Prop) w T n p1 p2 room inp r0 r1 R W :
  st w (<[r1 := Some W]> (<[r0 := Some R]> T)) n [p1; p2] room inp -> T !! r0 = Some None -> T !! r1 = Some None -> r0 <> r1 ->
  (forall w', w_kids w' = [] -> F Exited w') ->
  wp kcall Q F (sys (close (Z.of_nat r0)) ;;; sys (close (Z.of_nat r1)) ;;; sys wait ;;; sys wait ;;; sys_exit) w.
Proof.
  intros S3 G0 G1 Hne HF. pose proof (lookup_lt_Some _ _ _ G0) as L0. pose proof (lookup_lt_Some _ _ _ G1) as L1.
  eapply wp_st_close; [exact S3|rewrite list_lookup_insert_ne by done; by apply list_lookup_insert_eq|]. intros w4 S4.
  eapply wp_st_close; [exact S4|rewrite list_lookup_insert_ne by done; apply list_lookup_insert_eq; by rewrite length_insert|].
  intros w5 S5. eapply (wp_st_wait _ _ _ _ _ _ _ _ S5); [done|]. intros w6 l1 x1 k1 E1 S6.
  assert (L : length (l1 ++ k1) = 1%nat) by (apply (f_equal length) in E1; rewrite !length_app in *; cbn in *; lia).
  eapply (wp_st_wait _ _ _ _ _ _ _ _ S6); [by intros Hz; rewrite Hz in L|].
  intros w7 l2 x2 k2 E2 S7. apply wp_exit, HF. rewrite (st_kids _ _ _ _ _ _ S7).
  apply length_zero_iff_nil. apply (f_equal length) in E2. rewrite !length_app in *. cbn in *. lia.
Qed.

(** The processes that run a command, by induction on it. *)
Lemma wp_runcmd c w T n room inp : runnable c -> st w T n [] room inp -> stdio T ->
  wp kcall (fun _ _ => False) (ends_as n c T room) (runcmd c) w.
Proof.
  revert w T n inp. induction c as [argv|c IH file mode fd|l IHl r IHr|l IHl r IHr|c IH]; intros w T n inp Hc H Hopen; cbn [runcmd runnable] in *.
  - destruct argv as [|a argv]; [apply wp_exit; intros _ _; by apply H|]. apply wp_bind, wp_sys; [done| |done|].
    + intros f [= <-]. split; [done|]. split; [rewrite (st_view _ _ _ _ _ _ H); constructor|apply H].
    + intros x w' [-> ->]. inversion Hc as [|? ? [s Hs] _]; subst.
      eapply wp_say; [exact H|by apply (formatted_s (lit "exec ") (lit " failed" ++ nl))|]. by intros w' Hw _ _.
  - destruct Hc as (Hfd & [s Hs] & Hc). set (i := Z.to_nat fd). assert (Hi : (i <= 1)%nat) by lia. destruct (Hopen i Hi) as [b Hb].
    replace fd with (Z.of_nat i) by lia. eapply wp_st_close; [exact H|exact Hb|]. intros w1 S1.
    pose proof (lookup_lt_Some _ _ _ Hb) as Li. eapply (wp_st_open _ _ _ _ _ _ _ _ S1 _ _ i).
    + split; [by apply list_lookup_insert_eq|]. intros j Hj. destruct (Hopen j ltac:(lia)) as [bj Hj'].
      exists bj. by rewrite list_lookup_insert_ne by lia.
    + intros w2 b2 Ho S2. rewrite (proj2 (Z.ltb_ge _ _)) by lia. rewrite list_insert_insert_eq in S2.
      eapply wp_part; [| |apply (IH w2 _ _ _ Hc S2), stdio_insert, Hopen]; [done|]. intros argv T' Hw.
      eapply wired_redir; [exact Ho|]. by rewrite Nat2Z.id.
    + intros w2 S2. eapply wp_say; [exact S2|by apply (formatted_s (lit "open ") (lit " failed" ++ nl))|]. by intros w' Hw _ _.
  - destruct Hc as [Hl Hr]. eapply (wp_st_pipe _ _ _ _ _ _ _ _ H).
    { eapply (wp_say _ _ _ _ _ _ _ H _ 2 _ _ (lit "pipe" ++ nl)); [reflexivity|]. by intros w' Hw _ _. }
    intros w1 r0 r1 G0 G1 Hne S1. change (0 <? 0) with false. cbv iota. eapply (wp_fork1 _ _ _ _ _ _ _ _ S1); [by intros -> w' _ [=]| |].
    + intros w2 inp2 S2. change (0 =? 0) with true. cbv iota. eapply (wp_connect _ _ _ _ _ _ _ _ _ _ _ _ 1 r1); eauto.
      intros w3 S3. eapply wp_part; [| |apply (IHl w3 _ _ _ Hl S3), stdio_insert, Hopen]; [cbn; lia|]. intros argv T'. apply wired_left.
    + intros w2 pid Hpid S2. rewrite (proj2 (Z.eqb_neq pid 0)) by lia. eapply (wp_fork1 _ _ _ _ _ _ _ _ S2); [by intros -> w' _ [=]| |].
      * intros w3 inp3 S3. change (0 =? 0) with true. cbv iota. eapply (wp_connect _ _ _ _ _ _ _ _ _ _ _ _ 0 r0); eauto.
        intros w4 S4. eapply wp_part; [| |apply (IHr w4 _ _ _ Hr S4), stdio_insert, Hopen]; [cbn; lia|]. intros argv T'. apply wired_right.
      * intros w3 pid2 Hpid2 S3. rewrite (proj2 (Z.eqb_neq pid2 0)) by lia. eapply wp_pipe_parent; [exact S3|done..|]. by intros w' Hw _ _.
  - destruct Hc as [Hl Hr]. eapply (wp_fork1 _ _ _ _ _ _ _ _ H); [by intros -> w' _ [=]| |].
    + intros w1 inp1 S1. change (0 =? 0) with true. cbv iota.
      eapply wp_part; [| |apply (IHl w1 _ _ _ Hl S1 Hopen)]; [cbn; lia|]. intros argv T'. apply wired_first.
    + intros w1 pid Hpid S1. rewrite (proj2 (Z.eqb_neq pid 0)) by lia. eapply (wp_st_wait _ _ _ _ _ _ _ _ S1); [done|].
      intros w2 l1 x1 k1 E1 S2. assert (l1 ++ k1 = []) as E0.
      { apply length_zero_iff_nil. apply (f_equal length) in E1. rewrite !length_app in *. cbn in *. lia. }
      rewrite E0 in S2. eapply wp_part; [| |apply (IHr w2 _ _ _ Hr S2 Hopen)]; [cbn; lia|]. intros argv T'. apply wired_second.
  - eapply (wp_fork1 _ _ _ _ _ _ _ _ H); [by intros -> w' _ [=]| |].
    + intros w1 inp1 S1. change (0 =? 0) with true. cbv iota. eapply wp_part; [| |apply (IH w1 _ _ _ Hc S1 Hopen)]; [done|].
      intros argv T'. apply wired_back.
    + intros w1 pid Hpid S1. rewrite (proj2 (Z.eqb_neq pid 0)) by lia. apply wp_exit. intros _ [=].
Qed.

(** C13: the shell wires commands as they are written.  Every process that runcmd
    starts for a command has exactly the open files the syntax tree gives it: the
    left side of a pipe writes to it, the right side reads from the same pipe, a
    redirection replaces its descriptor, and no end of a pipe is left open.  When
    forks succeed and nothing is put in the background, every process has waited
    for all its children when it ends. *)
Theorem runcmd_wiring c w :
  runnable c -> stdio (view w) -> w_kids w = [] -> (forall i o, w_fds w !! i = Some (Some o) -> is_Some (w_objs w !! o)) ->
  wp kcall (fun _ _ => False) (ends_as (length (w_objs w)) c (view w) (w_room w)) (runcmd c) w.
Proof. intros Hc Hio Hk Hwf. apply (wp_runcmd c w (view w) (length (w_objs w)) (w_room w) (w_input w)); [done|by constructor|done]. Qed.

(** [ls ; cat < f | wc] with three descriptors on the console. *)
Lemma runcmd_wiring_witness :
  let str s := lit s ++ [0] in
  let c := LIST (EXEC [str "ls"]) (PIPE (REDIR (EXEC [str "cat"]) (str "f") O_RDONLY 0) (EXEC [str "wc"; str "x"])) in
  let w := MkWorld ∅ ∅ [OCons] (replicate 3 (Some 0%nat) ++ replicate 13 None) [] [] [] true in
  wp kcall (fun _ _ => False) (ends_as 1 c (view w) true) (runcmd c) w.
Proof.
  intros str c w. apply (runcmd_wiring c w).
  - repeat constructor; cbn; eauto; try (eexists; reflexivity).
  - intros [|[|j]] Hj; [by eexists..|lia].
  - reflexivity.
  - intros i o Hi. exists OCons. assert (o = 0%nat) as ->; [|reflexivity]. do 16 (destruct i as [|i]; [by simplify_eq/=|]). done.
Defined.
