(* ===== verification/ShMain.v ===== *)
(** * The shell from its input to its commands (sh.c: main)

    The parser only makes redirections of standard input and output, so every
    line the shell reads leads to processes wired as its syntax tree says. *)

From S2P Require Import Prelude.
From S2P Require Import Params.
From S2P Require Import CString.
From S2P Require Import Fs.
From S2P Require Import Printf.
From S2P Require Import Sh.
From S2P Require Import ShPrint.
From S2P Require Import Sysfile.
From S2P Require Import User.
From S2P Require Import UserProgs.
From S2P Require Import UserProps.
From S2P Require Import ShRun.
From S2P Require Import ShWire.

(** ** Redirections made by the parser *)

Fixpoint fds_ok {W} (c : cmd W) : Prop :=
  match c with
  | EXEC _ => True
  | REDIR c _ _ fd => (fd = 0 \/ fd = 1) /\ fds_ok c
  | PIPE l r | LIST l r => fds_ok l /\ fds_ok r
  | BACK c => fds_ok c
  end.

Definition makes {A} (P : A -> Prop) (m : M (list Z) A) : Prop := forall s a s', m s = Ret a s' -> P a.

Lemma makes_ret {A} (P : A -> Prop) a : P a -> makes P (ret a).
Proof. by intros H s b s' [= <- _]. Qed.
Lemma makes_panic {A} (P : A -> Prop) msg : makes P (panic msg).
Proof. by intros s b s'. Qed.
Lemma makes_bind {A B} (R : A -> Prop) (P : B -> Prop) (m : M (list Z) A) (k : A -> M (list Z) B) :
  makes R m -> (forall a, R a -> makes P (k a)) -> makes P (bind m k).
Proof.
  intros Hm Hk s b s'. unfold bind. destruct (m s) as [a s1|c s1|f] eqn:E; [|done|done]. apply Hk. by eapply Hm.
Qed.
Lemma makes_any {A B} (P : B -> Prop) (m : M (list Z) A) (k : A -> M (list Z) B) :
  (forall a, makes P (k a)) -> makes P (bind m k).
Proof. intros H. by apply (makes_bind (fun _ => True)). Qed.
#[local] Hint Resolve makes_ret makes_panic : core.

Lemma add_arg_fds c t : fds_ok c -> fds_ok (add_arg c t).
Proof. induction c; cbn; tauto. Qed.

Lemma parseredirs_fds n fuel c : fds_ok c -> makes fds_ok (parseredirs n fuel c).
Proof.
  revert c. induction fuel as [|fuel IH]; intros c Hc; [done|]. cbn [parseredirs]. apply makes_any. intros more.
  destruct (negb more); [auto|]. apply makes_any. intros [[tk q0] eq0]. apply makes_any. intros [[tk2 q] eq].
  destruct (negb (tk2 =? 97)); [auto|]. apply IH. repeat case_match; cbn; auto.
Qed.

Lemma parse_args_fds n fuel argc c : fds_ok c -> makes fds_ok (parse_args n fuel argc c).
Proof.
  revert argc c. induction fuel as [|fuel IH]; intros argc c Hc; [done|]. cbn [parse_args]. apply makes_any. intros stop.
  destruct stop; [auto|]. apply makes_any. intros [[tk q] eq]. repeat (case_match; [by auto|]).
  eapply makes_bind; [apply parseredirs_fds, add_arg_fds, Hc|]. auto.
Qed.

Lemma parse_back_fds n fuel c : fds_ok c -> makes fds_ok (parse_back n fuel c).
Proof.
  revert c. induction fuel as [|fuel IH]; intros c Hc; [done|]. cbn [parse_back]. apply makes_any. intros more.
  destruct (negb more); [auto|]. apply makes_any. intros t. by apply IH.
Qed.

Lemma parse_fds n fuel :
  makes fds_ok (parseline n fuel) /\ makes fds_ok (parsepipe n fuel) /\
  makes fds_ok (parseexec n fuel) /\ makes fds_ok (parseblock n fuel).
Proof.
  induction fuel as [|fuel (IHl & IHp & IHe & IHb)]; [done|].
  split_and!; cbn [parseline parsepipe parseexec parseblock].
  - eapply makes_bind; [exact IHp|]. intros c Hc. eapply makes_bind; [by apply parse_back_fds|]. intros c1 Hc1.
    apply makes_any. intros []; [|auto]. apply makes_any. intros t. eapply makes_bind; [exact IHl|]. intros r Hr. apply makes_ret. done.
  - eapply makes_bind; [exact IHe|]. intros c Hc. apply makes_any. intros []; [|auto]. apply makes_any. intros t.
    eapply makes_bind; [exact IHp|]. intros r Hr. apply makes_ret. done.
  - apply makes_any. intros []; [done|]. eapply makes_bind; [by apply parseredirs_fds|]. intros c Hc. by apply parse_args_fds.
  - apply makes_any. intros []; [|apply makes_panic]. cbn [negb]. apply makes_any. intros t. eapply makes_bind; [exact IHl|]. intros c Hc.
    apply makes_any. intros []; [|apply makes_panic]. cbn [negb]. apply makes_any. intros t2. by apply parseredirs_fds.
Qed.

Lemma parsecmd_fds buf c buf' : parsecmd buf = Ret (c, buf') tt -> fds_ok c.
Proof.
  unfold parsecmd. destruct (KString.strlen buf) as [n|]; [|done]. set (line := take _ buf).
  destruct (parseline n (parse_fuel line) line) as [d s|ch s|f] eqn:E; [|done|done]. destruct (negb _); [done|].
  intros [= <- _]. by eapply (proj1 (parse_fds n (parse_fuel line))).
Qed.

Lemma put_string_until l : put_string (until_nul l ++ [0]) = Some (until_nul l).
Proof. induction l as [|c l IH]; cbn; [done|]. destruct (c =? 0) eqn:E; [done|]. cbn. by rewrite E, IH. Qed.

Lemma runnable_strings buf c : fds_ok c -> runnable (cmd_map (fun t => string_at buf t ++ [0]) c).
Proof.
  assert (Hs : forall t, is_Some (put_string (string_at buf t ++ [0]))) by (intros t; eexists; apply put_string_until).
  induction c as [argv|c IH t m fd|l IHl r IHr|l IHl r IHr|c IH]; cbn [fds_ok cmd_map runnable]; try naive_solver.
  intros _. apply Forall_fmap, Forall_forall. auto.
Qed.

(** ** Reading a line *)

(** gets on the console: as [Ulib.gets] reads its input, but a ^D ends the line
    and is not part of it. *)
Fixpoint gets_cons (fuel : nat) (i max : Z) (buf input : list Z) : list Z * Z * list Z :=
  match fuel with
  | O => (buf, i, input)
  | S fuel =>
      if i + 1 <? max then
        match input with
        | [] => (buf, i, [])
        | c :: input =>
            if c =? C_D then (buf, i, input)
            else
              let buf := zset buf i c in
              if (c =? 10) || (c =? 13) then (buf, i + 1, input) else gets_cons fuel (i + 1) max buf input
        end
      else (buf, i, input)
  end.

Lemma gets_cons_gets fuel i max buf input : Forall (fun c => c <> C_D) input ->
  gets_cons fuel i max buf input = Ulib.gets_loop fuel i max buf input.
Proof.
  intros H. revert i buf. induction fuel as [|fuel IHf] in input, H |- *; intros i buf; [done|].
  cbn [gets_cons Ulib.gets_loop]. destruct (i + 1 <? max); [|done]. destruct H as [|c input Hc H]; [done|].
  rewrite (proj2 (Z.eqb_neq _ _) Hc). cbv zeta. destruct (_ || _); [done|]. by apply IHf.
Qed.

Lemma gets_cons_rest fuel i max buf input : (length (gets_cons fuel i max buf input).2 <= length input)%nat.
Proof.
  revert i buf input. induction fuel as [|fuel IH]; intros i buf input; cbn; [done|].
  destruct (i + 1 <? max); [|done]. destruct input as [|c input]; [done|]. destruct (c =? C_D); [cbn; lia|].
  destruct (_ || _); cbn; [lia|]. specialize (IH (i + 1) (zset buf i c) input). lia.
Qed.

(** The line in a buffer of [max] zero bytes, terminated, and what is left. *)
Definition cons_gets (buf : list Z) (max : Z) (input : list Z) : list Z * list Z :=
  let '(buf, i, rest) := gets_cons (Z.to_nat max) 0 max buf input in (zset buf i 0, rest).

(** A line that is not empty is shorter than what was there to read. *)
Lemma gets_consumes buf max input : 0 < max <= zlen buf -> zget (cons_gets buf max input).1 0 <> 0 ->
  (length (cons_gets buf max input).2 < length input)%nat.
Proof.
  intros Hm. unfold cons_gets. replace (Z.to_nat max) with (S (Z.to_nat (max - 1))) by lia. cbn [gets_cons].
  destruct (0 + 1 <? max); [|cbn [fst]; rewrite zget_zset_eq by lia; done].
  destruct input as [|c input]; [cbn [fst]; rewrite zget_zset_eq by lia; done|].
  destruct (c =? C_D); [cbn [fst]; rewrite zget_zset_eq by lia; done|]. destruct (_ || _); [cbn; lia|].
  pose proof (gets_cons_rest (Z.to_nat (max - 1)) (0 + 1) max (zset buf 0 c) input) as H.
  destruct (gets_cons _ _ _ _ _) as [[b i] rest]. cbn in *. lia.
Qed.

From ITree Require Import ITree.

(** One byte from the console. *)
Lemma wp_read_char {A} (Q : A -> world -> Prop) F w o (k : Z * list Z -> prog A) : fd_obj 0 w = Some (o, OCons) ->
  match w_input w with
  | [] => wp kcall Q F (k (-1, [])) (set_cons [] (w_output w) w)
  | c :: rest =>
      if c =? C_D then wp kcall Q F (k (0, [])) (set_cons rest (w_output w) w)
      else wp kcall Q F (k (1, [c])) (set_cons rest (w_output w) w)
  end -> wp kcall Q F (ITree.bind (sys (read 0 1)) k) w.
Proof.
  intros Ho H. destruct (w_input w) as [|c rest] eqn:E.
  - eapply wp_sys_eq; [done..| |exact H]. intros y v. cbn. unfold k_read. by rewrite Ho, E.
  - destruct (c =? C_D) eqn:Ec.
    + eapply wp_sys_eq; [done..| |exact H]. intros y v. cbn. unfold k_read. rewrite Ho, E.
      change (Z.to_nat 1) with 1%nat. cbn [cons_take]. by rewrite Ec.
    + eapply wp_sys_eq; [done..| |exact H]. intros y v. cbn. unfold k_read. rewrite Ho, E.
      change (Z.to_nat 1) with 1%nat. cbn [cons_take cons_line]. rewrite Ec. by destruct (c =? 10).
Qed.

Lemma wp_gets_loop Q F o max fuel buf i w : fd_obj 0 w = Some (o, OCons) -> max - i <= Z.of_nat fuel ->
  (let '(b, j, rest) := gets_cons fuel i max buf (w_input w) in Q (b, j) (set_cons rest (w_output w) w)) ->
  wp kcall Q F (while (fun '(buf, i) =>
      if i + 1 <? max then
        let* (cc, c) := sys (read 0 1) in
        if cc <? 1 then Ret (inr (buf, i)) else
        let c := zget c 0 in
        let buf := zset buf i c in
        if (c =? 10) || (c =? 13) then Ret (inr (buf, i + 1)) else Ret (inl (buf, i + 1))
      else Ret (inr (buf, i))) (buf, i)) w.
Proof.
  assert (Hid : forall w, set_cons (w_input w) (w_output w) w = w) by by intros [].
  intros Ho. revert buf i w Ho. induction fuel as [|fuel IH]; intros buf i w Ho Hf; cbn [gets_cons]; intros H; apply wp_while.
  - rewrite (proj2 (Z.ltb_ge _ _)) by lia. apply wp_ret. by rewrite Hid in H.
  - destruct (i + 1 <? max) eqn:Ei; [|apply wp_ret; by rewrite Hid in H].
    eapply wp_read_char; [exact Ho|]. destruct (w_input w) as [|c rest] eqn:E; [by apply wp_ret|].
    destruct (c =? C_D); [by apply wp_ret|].
    change (1 <? 1) with false. cbv iota zeta. change (zget [c] 0) with c.
    destruct ((c =? 10) || (c =? 13)) eqn:Ec; apply wp_ret; [done|]. apply IH; [done|lia|exact H].
Qed.

Lemma wp_ugets Q F o max buf w : fd_obj 0 w = Some (o, OCons) ->
  Q (cons_gets buf max (w_input w)).1 (set_cons (cons_gets buf max (w_input w)).2 (w_output w) w) ->
  wp kcall Q F (ugets buf max) w.
Proof.
  intros Ho H. apply wp_bind. eapply (wp_gets_loop _ _ _ _ (Z.to_nat max)); [exact Ho|lia|].
  unfold cons_gets in H. destruct (gets_cons _ _ _ _ _) as [[b j] rest]. by apply wp_ret.
Qed.

(** ** The session *)

Definition line_of (input : list Z) : list Z * list Z := cons_gets (replicate 100 0) 100 input.

(** [b] is one of the lines that the shell reads from [input]. *)
Inductive typed : list Z -> list Z -> Prop :=
| typed_here input : zget (line_of input).1 0 <> 0 -> typed input (line_of input).1
| typed_later input b : zget (line_of input).1 0 <> 0 -> typed (line_of input).2 b -> typed input b.

Lemma wp_getcmd Q F o2 o0 w : fd_obj 2 w = Some (o2, OCons) -> fd_obj 0 w = Some (o0, OCons) ->
  (let '(b, rest) := line_of (w_input w) in
   Q (if zget b 0 =? 0 then None else Some b) (set_cons rest (w_output w ++ lit "$ ") w)) ->
  wp kcall Q F (ShRun.getcmd 100) w.
Proof.
  intros H2 H0 H. apply wp_bind. eapply wp_fprintf; [reflexivity|by exists o2|]. apply wp_bind.
  eapply wp_ugets; [exact H0|]. change (Z.to_nat 100) with 100%nat. apply wp_ret.
  change (w_input (out (lit "$ ") w)) with (w_input w). unfold line_of in H. by destruct (cons_gets _ _ _) as [b rest].
Qed.

(** A process that runs a line: it and its children start what the line asks for. *)
Definition runs_line (T : list (option obj)) (b : list Z) (f : fin) (w : world) : Prop :=
  match f with
  | Exited => True
  | Execed path argv => exists c buf n, parsecmd b = Prelude.Ret (c, buf) tt /\ head argv = Some path /\
      wired n (cmd_map (fun t => string_at buf t ++ [0]) c) T argv (view w)
  end.

Lemma put_string_lit l : put_string (l ++ [0]) = Some (until_nul l).
Proof. induction l as [|c l IH]; cbn; [done|]. destruct (c =? 0); [done|]. by rewrite IH. Qed.

Lemma wp_parse_run b w T n room inp : 0 ∈ b -> st w T n [] room inp -> stdio T ->
  wp kcall (fun _ _ => False) (runs_line T b) (ShRun.parse_run b) w.
Proof.
  intros Hb H Hio. unfold ShRun.parse_run. destruct (parsecmd_terminates b Hb) as [[[c buf] E]|[msg E]]; rewrite E.
  - eapply wp_mono; [eapply (wp_runcmd _ _ T n room); [by eapply runnable_strings, parsecmd_fds|done|done]|done|].
    intros [|path argv] w'; [done|]. intros (Hh & Hw & _). by exists c, buf, n.
  - eapply (wp_say _ _ _ _ _ _ _ H _ 2); [by apply (formatted_s [] nl), put_string_lit|done].
Qed.

Lemma gets_cons_bound fuel i max buf input b j rest : gets_cons fuel i max buf input = (b, j, rest) ->
  0 <= i -> i + 1 <= max -> 0 <= j < max /\ zlen b = zlen buf.
Proof.
  revert i buf input. induction fuel as [|fuel IH]; intros i buf input; cbn; [intros [= <- <- <-]; lia|].
  destruct (Z.ltb_spec (i + 1) max); [|intros [= <- <- <-]; lia]. destruct input as [|c input]; [intros [= <- <- <-]; lia|].
  destruct (c =? C_D); [intros [= <- <- <-]; lia|].
  destruct (_ || _); [intros [= <- <- <-] ? ?; rewrite zlen_zset; lia|]. intros E ? ?. apply IH in E; [|lia..]. by rewrite zlen_zset in E.
Qed.

Lemma line_nul input : 0 ∈ (line_of input).1.
Proof.
  unfold line_of, cons_gets. destruct (gets_cons _ _ _ _ _) as [[b i] rest] eqn:E.
  apply gets_cons_bound in E as [Hi Hl]; [|lia..]. cbn [fst]. unfold zset. apply list_elem_of_lookup. exists (Z.to_nat i).
  apply list_lookup_insert_eq. change (zlen (replicate 100 0)) with 100 in Hl. unfold zlen in Hl. lia.
Qed.

Lemma strlen_nul s : 0 ∈ s -> is_Some (Ulib.strlen s).
Proof.
  intros H. unfold Ulib.strlen. rewrite fmap_is_Some. enough (forall k, is_Some (KString.strlen_from k s)) by auto.
  induction s as [|c s IH]; intros k; [by apply not_elem_of_nil in H|]. cbn. destruct (Z.eqb_spec c 0); [eauto|].
  apply IH. by apply elem_of_cons in H as [<-|].
Qed.

(** cd is done by the shell itself. *)
Lemma wp_cd w T n room input b Q (F : fin -> world -> Prop) : st w T n [] room input ->
  T !! 2%nat = Some (Some OCons) -> 0 ∈ b -> (forall w', st w' T n [] room input -> Q (inl tt) w') ->
  wp kcall Q F (let* m := defined (Ulib.strlen b) in
    let b := zset b (m - 1) 0 in
    let dir := until_nul (drop 3 b) ++ [0] in
    let* r := sys (chdir dir) in
    (if r <? 0 then fprintf 2 (lit "cannot cd %s" ++ nl) [PStr dir] else Ret tt) ;;;
    Ret (@inl unit Empty_set tt)) w.
Proof.
  intros H H2 Hb HQ. destruct (strlen_nul b Hb) as [m ->]. apply wp_bind, wp_ret. cbv zeta. apply wp_bind, wp_sys; [done|done| |].
  - intros _. exists (-1), w. by left.
  - intros x w' Hx. assert (S1 : st w' T n [] room input).
    { destruct Hx as [[-> ->]|(names & -> & ->)]; [done|]. destruct H. by constructor. }
    destruct (st_open _ _ _ _ _ _ S1 2 _ H2) as [o2 Ho2]. apply wp_bind. destruct (x <? 0).
    + eapply wp_fprintf; [by apply (formatted_s (lit "cannot cd ") nl), put_string_until|by exists o2|]. apply wp_ret, HQ.
      destruct S1. by constructor.
    + by apply wp_ret, wp_ret, HQ.
Qed.

Section Command.
Context (w : world) (T : list (option obj)) (n : nat) (room : bool) (input : list Z).
Hypothesis H : st w T n [] room input.
Hypothesis H0 : T !! 0%nat = Some (Some OCons).
Hypothesis H1 : exists b, T !! 1%nat = Some (Some b).
Hypothesis H2 : T !! 2%nat = Some (Some OCons).

Lemma main_stdio : stdio T.
Proof using H0 H1. intros [|[|j]] Hj; [by eexists|done|lia]. Qed.

(** One round: a line has been read, run and waited for. *)
Lemma wp_command :
  let b := (line_of input).1 in
  wp kcall
    (fun r w' => match r with
                 | inl _ => zget b 0 <> 0 /\ st w' T n [] room (line_of input).2
                 | inr _ => False
                 end)
    (fun f w' => f = Exited \/ zget b 0 <> 0 /\ runs_line T b f w') ShRun.command w.
Proof using All.
  intros b. destruct (st_open _ _ _ _ _ _ H 0 _ H0) as [o0 Ho0]. destruct (st_open _ _ _ _ _ _ H 2 _ H2) as [o2 Ho2].
  assert (Hnul : 0 ∈ b) by apply line_nul. apply wp_bind. eapply wp_getcmd; [exact Ho2|exact Ho0|]. rewrite (st_input _ _ _ _ _ _ H).
  destruct (line_of input) as [b' rest] eqn:El. cbn in b. subst b. cbn [fst snd] in *.
  set (w1 := set_cons rest _ w). assert (S1 : st w1 T n [] room rest) by (destruct H; by constructor).
  destruct (Z.eqb_spec (zget b' 0) 0) as [Hz|Hz]; [apply wp_exit; by left|]. destruct (_ && _).
  - apply (wp_cd w1 T n room rest); auto.
  - eapply (wp_fork1 _ _ _ _ _ _ _ _ S1); [auto| |].
    + intros w2 inp2 S2. change (0 =? 0) with true. cbv iota. apply wp_bind.
      eapply wp_mono; [apply (wp_parse_run b' w2 T n room inp2 Hnul S2 main_stdio)|by intros []|auto].
    + intros w2 pid Hp S2. rewrite (proj2 (Z.eqb_neq pid 0)) by lia. eapply (wp_st_wait _ _ _ _ _ _ _ _ S2); [done|].
      intros w3 l x r E3 S3. apply wp_ret. split; [done|]. replace (l ++ r) with (@nil Z) in S3; [done|].
      symmetry. apply length_zero_iff_nil. apply (f_equal length) in E3. rewrite !length_app in *. cbn in *. lia.
Qed.

End Command.

(** The loop of main: it ends with the input. *)
Lemma wp_session input w T n room :
  st w T n [] room input -> T !! 0%nat = Some (Some OCons) -> (exists b, T !! 1%nat = Some (Some b)) -> T !! 2%nat = Some (Some OCons) ->
  wp kcall (fun _ _ => False) (fun f w' => f = Exited \/ exists b, typed input b /\ runs_line T b f w')
    (while (fun _ : unit => ShRun.command) tt) w.
Proof.
  remember (length input) as m eqn:Em. revert input w Em. induction m as [m IH] using lt_wf_ind.
  intros input w Em H H0 H1 H2. apply wp_while. eapply wp_mono; [by eapply wp_command|..].
  - intros [[]|[]] w' Hr. destruct Hr as [Hz S']. eapply wp_mono; [eapply (IH (length (line_of input).2)); eauto|done|].
    + subst m. exact (gets_consumes (replicate 100 0) 100 input ltac:(done) Hz).
    + intros f w'' [->|(b & Hb & Hr)]; [by left|]. right. exists b. split; [by apply typed_later|done].
  - intros f w' [->|[Hz Hr]]; [by left|]. right. eexists. split; [by apply typed_here|done].
Qed.

Lemma k_open_cases w path mode : has mode O_CREATE = false ->
  (exists x w', k_open w path mode x w') /\
  forall x w', k_open w path mode x w' -> (x = -1 /\ w' = w) \/ exists b, new_fd b w = Some (x, w').
Proof.
  intros Hm. assert (Hnew : forall b, (exists x w', opens b w x w') /\
    forall x w', opens b w x w' -> (x = -1 /\ w' = w) \/ exists b, new_fd b w = Some (x, w')).
  { intros b. unfold opens. destruct (new_fd b w) as [[fd v]|] eqn:E; split; try by eexists _, _.
    - eexists _, _. by right.
    - intros x w' [[_ [-> ->]]|[-> ->]]; [by left|]. right. by exists b.
    - intros x w' [-> ->]. by left. }
  assert (Hno : (exists x w', fails w x w') /\ forall x w', fails w x w' -> (x = -1 /\ w' = w) \/ exists b, new_fd b w = Some (x, w')).
  { split; [by exists (-1), w|]. intros x w' [-> ->]. by left. }
  unfold k_open. rewrite Hm. destruct (w_names w !! path) as [i|]; [|done].
  destruct (w_nodes w !! i) as [[| |]|]; auto. by destruct (mode =? O_RDONLY).
Qed.

(** main first opens the console until it has three descriptors; started with
    three, it closes the one it gets. *)
Lemma wp_open_console Q F w T n room input :
  st w T n [] room input -> (forall j, (j <= 2)%nat -> exists b, T !! j = Some (Some b)) ->
  (forall w' n', st w' T n' [] room input -> Q tt w') -> wp kcall Q F ShRun.open_console w.
Proof.
  intros H Hopen HQ. apply wp_while. destruct (k_open_cases w Init.console O_RDWR eq_refl) as [Hx Hall].
  apply wp_bind, wp_sys; [done|done|by intros _|]. intros x w' [[-> ->]|[b Hn]]%Hall.
  - change (negb (-1 >=? 0)) with true. cbv iota. apply wp_ret. eauto.
  - destruct (new_fd_any _ _ _ _ _ _ H _ _ _ Hn) as (r & -> & Hr & S1). pose proof (lookup_lt_Some _ _ _ Hr) as Lr.
    assert (Hge : (3 <= r)%nat).
    { destruct (decide (r <= 2)%nat) as [Hle|]; [|lia]. destruct (Hopen r Hle) as [b' Hb']. congruence. }
    assert (negb (Z.of_nat r >=? 0) = false) as -> by lia. assert (Z.of_nat r >=? 3 = true) as -> by lia.
    eapply wp_st_close; [exact S1|by apply list_lookup_insert_eq|]. intros w2 S2. rewrite list_insert_insert_eq, list_insert_id in S2 by done.
    apply wp_ret. eauto.
Qed.


(** The console on the three descriptors, and a pipeline typed. *)
Definition ex_fds : list (option nat) := replicate 3 (Some 0%nat) ++ replicate 13 None.
Definition ex_sh (input : list Z) : world :=
  MkWorld {[ Init.console := 1 ]} {[ 1 := NDev ]} [OCons] ex_fds [] input [] true.

